(* ===== verification/_CoqProject ===== *)
-Q . S2P
Prelude.v
JsMap.v
JsStr.v
Json.v
Bytes.v
Base64.v
ProtoWire.v
ProtoRuntime.v
ProtoFile.v
ProtoMedia.v
ProtoSession.v
ProtoMessage.v
ProtoRendezvous.v
ProtoEnums.v
ProtoTypes.v
ProtoJson.v
ProtoFileValues.v
ProtoMediaValues.v
ProtoSessionValues.v
ProtoMessageValues.v
ProtoRendezvousValues.v
ProtoFacts.v
Crypto.v
Config.v
ViewerCrypto.v
YCbCr.v
VideoDraw.v
PushEvent.v
Websock.v
Link.v
SessionConnect.v
FtProtocol.v
FtBrowserIo.v
FtZip.v
Audio.v
Mobile.v
Page.v
FtJobs.v
FtJobsFacts.v
SessionBase.v
LocalStore.v
RecentPeers.v
FtConnection.v
FtTransfer.v
FtQueue.v
FtCancel.v
FtFolder.v
FtArchive.v
Common.v
Langs.v
TextsA.v
TextsB.v
TextsC.v
TextsD.v
Translate.v
RdOptions.v
RdConnection.v
Keeps.v
Sessions.v
Viewer.v
SessionsFacts.v
SessionsEnd.v
Connect.v
FtSession.v
Wire.v
FtWire.v
FtHost.v
FtDiskWire.v
FtFolderWire.v
FtStart.v
RdSession.v
RdWire.v
Bridge.v
BridgeFacts.v
Instances.v
ChannelExamples.v
FileExamples.v
SessionExamples.v
WireExample.v
ViewerExamples.v
