(* ===== verification/Prelude.v ===== *)
(** * Web viewer: a model of the TypeScript protocol engine

    The repository is a web client for remote desktops.  Its protocol engine,
    [src/flutter/js/src/], is TypeScript (with some JavaScript): it connects to a peer through a
    rendezvous server and a relay, agrees a session key, logs in, and then runs one of two kinds of
    session, remote desktop or file transfer, for a Flutter user interface that it talks to in JSON
    events.  This development models that engine and proves what makes its parts correct.

    ** The program and the files that model it

    - Values and language: [Prelude] (bytes, exceptions, the state-and-exception monad [js], the
      tactics), [JsMap] (insertion-ordered [Map]s and objects), [JsStr] (string methods), [Json]
      ([JSON.stringify] and [JSON.parse]), [Bytes] ([helpers/binary.ts], [decompress]), [Base64]
      ([btoa], [atob], [TextDecoder]).
    - Messages: [ProtoWire] is the interface of the protobuf runtime and the loop of every generated
      decoder; [ProtoFile], [ProtoMedia], [ProtoSession], [ProtoMessage] and [ProtoRendezvous] have
      one module per message type of [proto/message.ts] and [proto/rendezvous.ts] (record,
      [createBase], [encode], [decode]); [ProtoEnums] the enums; [ProtoTypes] what decoding yields;
      [ProtoRuntime] one concrete runtime that satisfies the interface's laws.  [ProtoJson] and the five
      files [Proto...Values] model the other half of the generated code, [toJSON], [fromJSON],
      [fromPartial] and [create]; [ProtoFacts] has the statements about all of it as a whole.
    - The channel: [Crypto] ([helpers/crypto_sodium.js], [hashPassword]) and [Websock]
      ([connections/websock.ts]): an encrypted, sequence-numbered message socket; [Link], two such
      sockets joined by the network, and the pair of queues they implement.
    - Connecting: [SessionConnect] ([connections/session_connect.ts]: the handshake, the relay, the
      rendezvous request) and [Connect] (the two methods of [connections/session_base.ts] that
      drive them, and [next] polled by a session).
    - Shared by sessions: [Config] ([helpers/config.ts], [helpers/format_error.ts]), [PushEvent]
      ([helpers/push_event.js]), [Audio] ([helpers/audio.js]), [Page] (the browser globals), [SessionBase]
      ([connections/session_base.ts], [helpers/peer_store.js]: options, message queue, login), [Wire]
      (frames to messages to the turns of a message loop, whatever the kind of session).
    - File transfer: [FtProtocol], [FtBrowserIo], [FtZip], [FtJobs] (the files of
      [connections/ft/]), [FtJobsFacts] (the invariant of the job tables); [FtConnection] (the
      handlers of [connections/ft_connection.ts] that stay within the session), [FtTransfer] (a file
      uploaded and downloaded from end to end), [FtQueue] (the download queue and the FIFO queue it
      implements), [FtCancel] (an upload removed on its way), [FtFolder] and [FtArchive] (a folder
      uploaded, and downloaded as an archive), [FtSession] (the message loop and the ends of a
      session), [FtWire] (a file from one session's pump to the other's browser, over the encrypted
      link), [FtHost] (any download that a host serves: the class [Download] is what a kind of download
      promises), [FtFolderWire] and [FtDiskWire] (its instances: a folder, a file streamed to where the
      user chose), [FtStart] ([start], [selectFiles]).
    - Remote desktop: [Common] (keys and texts: [helpers/common.ts]), [Langs], [TextsA] to [TextsD]
      and [Translate] (the tables of [proto/gen_js_from_hbb.ts] and what is shown of them),
      [RdOptions] ([connections/rd_options.ts]), [RdConnection] (input and video:
      [rd_connection.ts], [rd_video.ts]), [YCbCr] (the colour conversion of
      [web/yuv-canvas-1.2.6.js]), [VideoDraw] ([helpers/video_draw.js], which paints what it
      converts), [RdSession] (its message loop, peer information, [start], [restart]), [RdWire]
      (what a session shows, plays and answers of a desktop that arrives over the encrypted link).
    - The application's side: [ViewerCrypto] and [Viewer] ([helpers/viewer-crypto.js],
      [bridge/init.js]: the request that starts the page's session), [LocalStore]
      ([helpers/options.js], [peers.js], [server_config.js], [version.js]), [RecentPeers] (the order
      of the recent peers), [Mobile] ([helpers/mobile.js]), [Bridge]
      ([bridge/handlers/], [bridge/session_handlers.js]: what Flutter calls by name), [BridgeFacts]
      (what those calls leave alone).
    - The registry: [Sessions] ([connections/sessions.ts], [bridge/errors.js],
      [bridge/conn_registry.js]: which sessions there are, ending them, message boxes, reconnection
      tokens), [SessionsFacts] and [SessionsEnd] (its invariants), [Keeps] (what the handlers of a
      session leave alone).
    - [Instances], [ChannelExamples], [FileExamples], [SessionExamples], [WireExample],
      [ViewerExamples]: concrete packages, and the theorems with hypotheses applied to concrete states.

    ** How code becomes definitions

    A component's class is a record with the fields' names; a method is a computation on it in the
    monad [js St A], a function from a state to an [outcome] (a value, a JS exception, or
    [OutOfFuel]) and a state that also survives an exception.  Components nest by [zoom]: [base]
    inside [ft] or [rd], those (with the [page]) inside the [world] of all connections, where the
    registry holds references.  Jobs, which handlers share across waits, live in a heap of their
    own.  The abstract methods of [BaseConnection] are the class [Session], with an instance per
    kind of session; the login theorems are proved against its laws.

    An asynchronous method runs on a state paired with a list of functions: what the rest of the
    page, the peer and the user do to that state at each coming [await] ([pause] takes one).
    Theorems quantify over that interference, restricted only by what they name ([benign],
    [quiet], [queueing], [orderly]).  While connecting, where nothing but the network can intervene on the
    socket, an [await] is driven by a [schedule] of times and browser events.  The waits
    inside the handlers of file responses, clipboard and cursor messages (unpacking a block,
    writing it to the chosen file) are run in place, without interference: the message loop awaits
    each handler before it takes the next message.

    ** Fuel

    [decode] runs its loop with as much fuel as there are bytes plus one, each turn consuming at
    least one ([decoding_ends]); [parse] with twice the length of the text, enough for every text
    [stringify] prints ([parse_stringify]); the upload pump and the download queue with the length
    of the interference list plus one, as each turn that goes on waits; the message loops [ft_loop]
    and [rd_loop] take fuel as an argument, since a session runs for as long as its socket does:
    what is proved about them holds for every amount, [file_over_the_wire] and the others over the
    wire name the turns their messages take, and [connecting_settles] shows that what comes before
    them ends.  The loop of [depower] shifts a non-negative 32-bit number to zero, so 32 turns are
    enough.

    ** What the theorems show

    - Codecs: [codecs_roundtrip], [decoding_ends], [decoded_is_typed], [values_roundtrip].
    - Channel: [link_refines] (a connection after the handshake is a pair of queues, its
      specification), [link_drains] (what is sent is taken), [corrupt_frame_costs_one_message],
      [frame_nonces_distinct], [closed_is_silent]; [open_settles_once], [ingress_answers_pings].
    - Connecting: [handshake_authenticates], [handshake_accepts_honest_peer],
      [handshake_refusal_is_harmless], [connecting_settles]; [startPunchHole_verdict].
    - Sessions: [login_answers_challenge],
      [options_survive_restart], [password_survives_restart], [unremembered_password_is_forgotten],
      [conn_token_roundtrip]; [registry_consistent], [endFileTransferSession_spec],
      [broken_connection_ends_session], [started_session_is_shut], [rd_session_is_orderly].
    - The application's side: [token_roundtrip], [only_opener_starts_session],
      [bridge_calls_orderly], [transfer_jobs_stay_themselves] (no call mixes up the jobs of a
      session, and none about one transfer touches another), [recent_newest_first]; [mouse_mask_bounds], [version_order], [isMobile_iff].
    - Transfers: [upload_sends_file] and [folder_upload_sends_files] (what an upload sends, for
      whatever the peer answers), [transfer_roundtrip] and [folder_roundtrip] (what is received of
      it), [file_over_the_wire] (both joined by the encrypted link and the message loop),
      [folder_download_over_the_wire] (a folder from the frames of a host to the saved archive),
      [file_to_disk_over_the_wire] (a file from the call that asks for it to the place chosen),
      [download_queue_is_fifo] (the queue of files asked for refines its specification, [fifo]),
      [download_saves_all_bytes], [streamed_download_on_disk], [streamed_entries] (a folder's archive
      from its blocks to the closed file), [removed_upload_stops], [buildFolderUploadPlan_spec]; [zipEntryPath_relative].
    - Remote desktop: [desktop_over_the_wire], [batch_acknowledged_once], [convertYCbCr_spec] (both
      loops of the conversion compute one formula), [draw_shows_crop];
      [translate_keeps_placeholders].

    ** What is a parameter, and what is left out

    Packages are parameters with the laws the code relies on: the protobuf runtime
    ([ProtobufRuntime], [ProtobufLaws], [ProtobufTypes]), libsodium and fast-sha256 ([Sodium],
    [SodiumLaws]), zstddec ([Zstd]), fflate ([Fflate]), the browser's WebCrypto ([WebCrypto],
    [WebCryptoLaws]); so are the browser's collation, how floating-point numbers print and what
    holds them in an object ([FloatJson]), and the VP9 decoder. The clock, [Math.random],
    [localStorage], the save dialogs and the disk are fields of the state. Strings are the bytes
    of their UTF-8 form.

    Not modelled: the frame sinks of yuv-canvas and the worker [web/yuv.js], which the program does
    not use; the loading of the decoder package ([helpers/codec.js]), the cursor style of the page, and the Dart application. Of
    the Opus worker and the PCM player only what they are told is modelled. A call by name whose
    JSON has a field of another type than the application sends is outside the model. The options
    the two connecting requests read are those stored when connecting starts. *)
From Stdlib Require Export Strings.String ZArith Lia.
From Stdlib Require Import Strings.Byte.
From stdpp Require Export base gmap strings list pretty.
From coqutil Require Export Datatypes.RecordSetters.
Export TriangleBracketNotations.
#[global] Set Default Goal Selector "!".

Declare Scope js_scope.
Delimit Scope js_scope with js.
Open Scope Z_scope.

(** ** Bytes

    A [Uint8Array] that is only read is a list of bytes; its [length] is a JS number. *)
Abbreviation byte := Init.Byte.byte.
Abbreviation bytes := (list Init.Byte.byte).

Definition len {A} (l : list A) : Z := Z.of_nat (length l).

Definition byte_of_Z (z : Z) : byte :=
  match Byte.of_N (Z.to_N (z mod 256)) with Some b => b | None => Byte.x00 end.
Definition Z_of_byte (b : byte) : Z := Z.of_N (Byte.to_N b).

#[export] Instance byte_eq_dec : EqDecision byte := Byte.byte_eq_dec.

Lemma len_nil {A} : len (A:=A) [] = 0.
Proof. done. Qed.
Lemma len_cons {A} (x : A) l : len (x :: l) = 1 + len l.
Proof. unfold len. cbn [length]. lia. Qed.
Lemma len_app {A} (l k : list A) : len (l ++ k) = len l + len k.
Proof. unfold len. rewrite length_app. lia. Qed.
Lemma len_nonneg {A} (l : list A) : 0 <= len l.
Proof. unfold len. lia. Qed.
Lemma len_replicate {A} n (x : A) : len (replicate n x) = Z.of_nat n.
Proof. unfold len. by rewrite length_replicate. Qed.
Lemma len_zero_nil {A} (l : list A) : len l = 0 -> l = [].
Proof. destruct l; [done|]. rewrite len_cons. pose proof (len_nonneg l). lia. Qed.

Lemma Z_of_byte_range b : 0 <= Z_of_byte b < 256.
Proof.
  unfold Z_of_byte. pose proof (Byte.to_N_bounded b). lia.
Qed.
Lemma Z_of_byte_of_Z z : Z_of_byte (byte_of_Z z) = z mod 256.
Proof.
  unfold Z_of_byte, byte_of_Z.
  pose proof (Z.mod_pos_bound z 256 ltac:(lia)) as Hb.
  destruct (Byte.of_N (Z.to_N (z mod 256))) as [b|] eqn:E.
  - apply Byte.to_of_N in E. rewrite E. lia.
  - apply Byte.of_N_None_iff in E. lia.
Qed.
Lemma byte_of_Z_of_byte b : byte_of_Z (Z_of_byte b) = b.
Proof.
  unfold byte_of_Z. pose proof (Z_of_byte_range b) as Hb.
  rewrite Z.mod_small by done. unfold Z_of_byte. rewrite N2Z.id.
  by rewrite Byte.of_to_N.
Qed.
Lemma Z_of_byte_inj b c : Z_of_byte b = Z_of_byte c -> b = c.
Proof.
  intros H. rewrite <- (byte_of_Z_of_byte b), <- (byte_of_Z_of_byte c). by rewrite H.
Qed.

Create HintDb js.
#[export] Hint Rewrite @len_nil @len_cons @len_app @len_replicate : js.
#[export] Hint Resolve len_nonneg Z_of_byte_range : js.

(** ** JavaScript values that reach [catch] clauses and error formatting *)
Inductive jsval :=
  | VUndefined
  | VNull
  | VBool (b : bool)
  | VNum (z : Z)
  | VStr (s : string)
  | VError (name message : string)
  | VObj (fields : list (string * jsval)).

(** ** Results of JavaScript computations

    [Throw e] is an exception (or a rejected promise) with the value [e]; [OutOfFuel] is the
    artificial result of a loop whose fuel ran out. *)
Inductive outcome (A : Type) :=
  | Ret (a : A)
  | Throw (e : jsval)
  | OutOfFuel.
Arguments Ret {A} a.
Arguments Throw {A} e.
Arguments OutOfFuel {A}.

#[export] Instance outcome_ret : MRet outcome := fun A a => Ret a.
#[export] Instance outcome_bind : MBind outcome := fun A B f m =>
  match m with Ret a => f a | Throw e => Throw e | OutOfFuel => OutOfFuel end.

Definition returns {A} (m : outcome A) : Prop := exists a, m = Ret a.
Definition terminates {A} (m : outcome A) : Prop := m <> OutOfFuel.

(** A stateful computation: the state survives an exception, as in JavaScript. *)
Definition js (S A : Type) : Type := S -> outcome A * S.

#[export] Instance js_ret {S} : MRet (js S) := fun A a s => (Ret a, s).
#[export] Instance js_bind {S} : MBind (js S) := fun A B f m s =>
  match m s with
  | (Ret a, s') => f a s'
  | (Throw e, s') => (Throw e, s')
  | (OutOfFuel, s') => (OutOfFuel, s')
  end.

Definition throw {S A} (e : jsval) : js S A := fun s => (Throw e, s).
Definition get {S} : js S S := fun s => (Ret s, s).
Definition put {S} (s : S) : js S unit := fun _ => (Ret tt, s).
Definition modify {S} (f : S -> S) : js S unit := fun s => (Ret tt, f s).
Definition gets {S A} (f : S -> A) : js S A := fun s => (Ret (f s), s).
Definition skip {S} : js S unit := mret tt.
Definition lift_outcome {S A} (o : outcome A) : js S A := fun s => (o, s).
Definition when {S} (b : bool) (m : js S unit) : js S unit := if b then m else skip.
(** [try { m } catch (e) { h(e) }] *)
Definition try_catch {S A} (m : js S A) (h : jsval -> js S A) : js S A := fun s =>
  match m s with
  | (Throw e, s') => h e s'
  | r => r
  end.
(** [try { m } finally { f }] *)
Definition try_finally {S A} (m : js S A) (f : js S unit) : js S A := fun s =>
  match m s with
  | (Ret a, s') => (f ;; mret a) s'
  | (Throw e, s') => (f ;; throw e) s'
  | (OutOfFuel, s') => (OutOfFuel, s')
  end.
(** [for (const x of xs) f(x)] *)
Fixpoint for_of {S A} (xs : list A) (f : A -> js S unit) : js S unit :=
  match xs with
  | [] => skip
  | x :: xs' => f x ;; for_of xs' f
  end.

(** The final state of a computation, whatever its result. *)
Definition exec {S A} (m : js S A) (s : S) : S := (m s).2.
(** The result of a computation. *)
Definition eval {S A} (m : js S A) (s : S) : outcome A := (m s).1.

Section js_laws.
Context {S A B C : Type}.

Lemma js_ret_bind (a : A) (f : A -> js S B) s : (mret a ≫= f) s = f a s.
Proof. done. Qed.
Lemma js_bind_assoc (m : js S A) (f : A -> js S B) (g : B -> js S C) s :
    ((m ≫= f) ≫= g) s = (m ≫= (fun a => f a ≫= g)) s.
Proof. unfold mbind, js_bind. destruct (m s) as [[a|e|] s']; done. Qed.
Lemma for_of_app (xs ys : list A) (f : A -> js S unit) s :
    for_of (xs ++ ys) f s = (for_of xs f ;; for_of ys f) s.
Proof.
    revert s. induction xs as [|x xs IH]; intros s; [done|].
    cbn. unfold mbind, js_bind. destruct (f x s) as [[[]|e|] s']; [|done..].
    rewrite IH. unfold mbind, js_bind. done.
Qed.
End js_laws.

(** A loop body that only updates the state folds over the list. *)
Lemma for_of_modify {S A} (xs : list A) (f : A -> js S unit) (g : A -> S -> S) s :
  (forall x s, f x s = (Ret tt, g x s)) ->
  for_of xs f s = (Ret tt, foldl (fun s x => g x s) s xs).
Proof.
  intros Hf. revert s. induction xs as [|x xs IH]; intros s; [done|].
  cbn. unfold mbind, js_bind. rewrite Hf. apply IH.
Qed.

(** Running a computation one statement at a time. *)
Section js_steps.
Context {S A B : Type}.
Lemma bind_ret (a : A) (k : A -> js S B) s : (mret a ≫= k) s = k a s.
Proof. done. Qed.
Lemma bind_skip (k : unit -> js S B) s : (skip ≫= k) s = k tt s.
Proof. done. Qed.
Lemma bind_gets (f : S -> A) (k : A -> js S B) s : (gets f ≫= k) s = k (f s) s.
Proof. done. Qed.
Lemma bind_get (k : S -> js S B) s : (get ≫= k) s = k s s.
Proof. done. Qed.
Lemma bind_put s' (k : unit -> js S B) s : (put s' ≫= k) s = k tt s'.
Proof. done. Qed.
Lemma bind_modify (f : S -> S) (k : unit -> js S B) s : (modify f ≫= k) s = k tt (f s).
Proof. done. Qed.
Lemma bind_throw e (k : A -> js S B) s : (throw e ≫= k) s = (Throw e, s).
Proof. done. Qed.
Lemma bind_lift_ret (a : A) (k : A -> js S B) s : (lift_outcome (Ret a) ≫= k) s = k a s.
Proof. done. Qed.
Lemma bind_lift_throw e (k : A -> js S B) s :
    (lift_outcome (Throw e) ≫= k) s = (Throw e, s).
Proof. done. Qed.
Lemma bind_when_true (m : js S unit) (k : unit -> js S B) : (when true m ≫= k) = (m ≫= k).
Proof. done. Qed.
Lemma bind_when_false (m : js S unit) (k : unit -> js S B) s : (when false m ≫= k) s = k tt s.
Proof. done. Qed.
Lemma bind_eq (m : js S A) (k : A -> js S B) s a s' :
    m s = (Ret a, s') -> (m ≫= k) s = k a s'.
Proof. intros E. unfold mbind, js_bind. by rewrite E. Qed.
Lemma bind_eq_throw (m : js S A) (k : A -> js S B) s e s' :
    m s = (Throw e, s') -> (m ≫= k) s = (Throw e, s').
Proof. intros E. unfold mbind, js_bind. by rewrite E. Qed.
Lemma gets_run (f : S -> A) s : gets f s = (Ret (f s), s).
Proof. done. Qed.
Lemma modify_run (f : S -> S) s : modify f s = (Ret tt, f s).
Proof. done. Qed.
Lemma ret_run (a : A) (s : S) : (mret a : js S A) s = (Ret a, s).
Proof. done. Qed.
End js_steps.

Ltac js_step :=
  first [ rewrite bind_ret | rewrite bind_skip | rewrite bind_gets | rewrite bind_get | rewrite bind_put
        | rewrite bind_modify | rewrite bind_throw | rewrite bind_lift_ret
        | rewrite bind_lift_throw | rewrite bind_when_true | rewrite bind_when_false
        | rewrite js_bind_assoc | rewrite gets_run | rewrite modify_run ]; cbv beta.
Ltac js_steps := cbv zeta beta; repeat js_step.

(** ** What a computation leaves alone

    [preserves R m]: whatever its result, [m] takes every state to one related by [R].  For a
    preorder [R] this composes along the control structures. *)
Definition preserves {S A} (R : S -> S -> Prop) (m : js S A) : Prop := forall s, R s (m s).2.

Section Preserves.
Context {S : Type} (R : S -> S -> Prop) `{!PreOrder R}.

Lemma preserves_ret {A} (a : A) : preserves R (mret a).
Proof. intros s. cbn. reflexivity. Qed.
Lemma preserves_skip : preserves R skip.
Proof. apply preserves_ret. Qed.
Lemma preserves_throw {A} e : preserves R (throw e : js S A).
Proof. intros s. cbn. reflexivity. Qed.
Lemma preserves_gets {A} (f : S -> A) : preserves R (gets f).
Proof. intros s. cbn. reflexivity. Qed.
Lemma preserves_lift {A} (o : outcome A) : preserves R (lift_outcome o).
Proof. intros s. cbn. reflexivity. Qed.
Lemma preserves_modify f : (forall s, R s (f s)) -> preserves R (modify f).
Proof. intros Hf s. apply Hf. Qed.
Lemma preserves_bind {A B} (m : js S A) (k : A -> js S B) :
    preserves R m -> (forall a, preserves R (k a)) -> preserves R (m ≫= k).
Proof.
    intros Hm Hk s. unfold mbind, js_bind. specialize (Hm s).
    destruct (m s) as [[a|e|] s']; cbn in *; [|done..]. etrans; [exact Hm|apply Hk].
Qed.
Lemma preserves_when b m : preserves R m -> preserves R (when b m).
Proof. intros Hm. destruct b; [done|apply preserves_skip]. Qed.
Lemma preserves_for_of {A} (xs : list A) f : (forall x, preserves R (f x)) -> preserves R (for_of xs f).
Proof.
    intros Hf. induction xs as [|x xs IH]; [apply preserves_skip|]. apply preserves_bind; [apply Hf|done].
Qed.
Lemma preserves_try_catch {A} (m : js S A) h :
    preserves R m -> (forall e, preserves R (h e)) -> preserves R (try_catch m h).
Proof.
    intros Hm Hh s. unfold try_catch. specialize (Hm s).
    destruct (m s) as [[a|e|] s']; cbn in *; [done| |done]. etrans; [exact Hm|apply Hh].
Qed.
Lemma preserves_try_finally {A} (m : js S A) f :
    preserves R m -> preserves R f -> preserves R (try_finally m f).
Proof.
    intros Hm Hf s. unfold try_finally. specialize (Hm s).
    destruct (m s) as [[a|e|] s']; cbn in *; [| |done]; (etrans; [exact Hm|]);
      (apply (preserves_bind f); [done|intros; apply preserves_ret || apply preserves_throw]).
Qed.
End Preserves.

Create HintDb preserves.
#[export] Hint Resolve preserves_ret preserves_skip preserves_throw preserves_gets preserves_lift
  preserves_bind preserves_when preserves_for_of preserves_try_catch preserves_try_finally : preserves.

(** ** 32-bit integer conversions of the bitwise operators *)
Definition to_uint32 (z : Z) : Z := z mod 2 ^ 32.
Definition to_int32 (z : Z) : Z :=
  let m := z mod 2 ^ 32 in if m <? 2 ^ 31 then m else m - 2 ^ 32.
(** [Number.MAX_SAFE_INTEGER] *)
Definition MAX_SAFE_INTEGER : Z := 2 ^ 53 - 1.

(** [x ?? d] and [x || d] on values that may be undefined *)
Definition nullish {A} (x : option A) (d : A) : A := default d x.
Definition or_empty (s d : string) : string := if bool_decide (s = ""%string) then d else s.

(** Truthiness of the JS values the model uses. *)
Class Truthy (A : Type) := truthy : A -> bool.
#[export] Instance truthy_bool : Truthy bool := fun b => b.
#[export] Instance truthy_Z : Truthy Z := fun z => negb (z =? 0).
#[export] Instance truthy_string : Truthy string := fun s => bool_decide (s <> ""%string).
#[export] Instance truthy_option {A} : Truthy (option A) := fun o =>
  match o with Some _ => true | None => false end.

(** ** Tactics *)
Ltac js_simpl :=
  cbn [apply_update constant fst snd mbind mret js_bind js_ret outcome_bind outcome_ret] in *.
Ltac js_len := autorewrite with js in *; try lia.
Ltac case_bool :=
  match goal with
  | |- context [bool_decide ?P] => destruct (decide P); [rewrite bool_decide_true by done | rewrite bool_decide_false by done]
  end.
