(* ===== verification/JsMap.v ===== *)
(** * JavaScript's [Map]

    A [Map] keeps its entries in insertion order, and iteration order is observable in the viewer
    (which session becomes current, in which order job errors are reported), so it is a list of
    entries with distinct keys: [set] overwrites in place or appends, [delete] removes. *)
From S2P Require Import Prelude.

Abbreviation jsmap K V := (list (K * V)).

Section JsMap.
Context {K V : Type} `{Keq : EqDecision K}.
Implicit Types (m : jsmap K V) (k : K) (v : V).

Fixpoint map_get m k : option V :=
  match m with
  | [] => None
  | (k', v) :: m => if decide (k = k') then Some v else map_get m k
  end.
Definition map_has m k : bool := match map_get m k with Some _ => true | None => false end.
Fixpoint map_set m k v : jsmap K V :=
  match m with
  | [] => [(k, v)]
  | (k', v') :: m => if decide (k = k') then (k', v) :: m else (k', v') :: map_set m k v
  end.
Fixpoint map_delete m k : jsmap K V :=
  match m with
  | [] => []
  | (k', v) :: m => if decide (k = k') then m else (k', v) :: map_delete m k
  end.
Definition map_keys m : list K := m.*1.
Definition map_values m : list V := m.*2.
(** [m.size] *)
Definition map_count m : Z := len m.

(** The representation invariant: each key once. *)
Definition map_ok m : Prop := NoDup (map_keys m).

Lemma map_get_set_eq m k v : map_get (map_set m k v) k = Some v.
Proof.
  induction m as [|[k' v'] m IH]; cbn; [by rewrite decide_True|].
  case_decide as Hk; cbn; [by rewrite decide_True|by rewrite decide_False].
Qed.
Lemma map_get_set_ne m k k' v : k <> k' -> map_get (map_set m k v) k' = map_get m k'.
Proof.
  intros Hne. induction m as [|[k1 v1] m IH]; cbn.
  - by rewrite decide_False.
  - case_decide as Hk; cbn; [subst; by rewrite !decide_False|]. case_decide; [done|apply IH].
Qed.
Lemma map_get_None m k : map_get m k = None <-> k ∉ map_keys m.
Proof.
  induction m as [|[k1 v1] m IH]; cbn; [by split; [intros _ []%not_elem_of_nil|]|].
  rewrite not_elem_of_cons. case_decide; [by split; [|intros []]|]. rewrite IH. tauto.
Qed.
Lemma map_get_Some_elem m k v : map_get m k = Some v -> (k, v) ∈ m.
Proof.
  induction m as [|[k1 v1] m IH]; cbn; [done|].
  case_decide; [intros [= ->]; subst; by left|]. intros. right. by apply IH.
Qed.
Lemma map_get_elem m k v : map_ok m -> (k, v) ∈ m -> map_get m k = Some v.
Proof.
  intros Hok Hin. induction m as [|[k1 v1] m IH]; [by apply not_elem_of_nil in Hin|].
  apply NoDup_cons in Hok as [Hk1 Hok]. cbn.
  apply elem_of_cons in Hin as [[= -> ->]|Hin]; [by rewrite decide_True|].
  case_decide as Hk; [|by apply IH]. subst. destruct Hk1.
  by apply (list_elem_of_fmap_2 fst) in Hin.
Qed.
Lemma map_keys_set m k v :
  map_keys (map_set m k v) = if map_has m k then map_keys m else map_keys m ++ [k].
Proof.
  unfold map_has. induction m as [|[k1 v1] m IH]; cbn; [done|].
  case_decide as Hk; [by subst|].
  unfold map_keys in *. cbn. rewrite IH. by destruct (map_get m k).
Qed.
Lemma map_set_ok m k v : map_ok m -> map_ok (map_set m k v).
Proof.
  unfold map_ok. intros Hok. rewrite map_keys_set. unfold map_has.
  destruct (map_get m k) eqn:E; [done|]. apply map_get_None in E.
  apply NoDup_app. split; [done|]. split; [|apply NoDup_singleton].
  intros x Hx ->%list_elem_of_singleton. done.
Qed.
Lemma map_set_new m k v : map_get m k = None -> map_set m k v = m ++ [(k, v)].
Proof.
  induction m as [|[k1 v1] m IH]; cbn; [done|].
  case_decide; [done|]. intros Hm. by rewrite IH.
Qed.
Lemma map_delete_id m k : map_get m k = None -> map_delete m k = m.
Proof.
  induction m as [|[k1 v1] m IH]; cbn; [done|]. case_decide; [done|]. intros Hm. by rewrite IH.
Qed.
Lemma map_delete_keys_sub m k x : x ∈ map_keys (map_delete m k) -> x ∈ map_keys m.
Proof.
  induction m as [|[k1 v1] m IH]; cbn; [done|]. case_decide; cbn.
  - intros. by right.
  - rewrite !elem_of_cons. tauto.
Qed.
Lemma map_delete_ok m k : map_ok m -> map_ok (map_delete m k).
Proof.
  unfold map_ok. induction m as [|[k1 v1] m IH]; cbn; [done|].
  intros [Hk Hm]%NoDup_cons. case_decide; [done|]. cbn. apply NoDup_cons.
  split; [|by apply IH]. by intros ?%map_delete_keys_sub.
Qed.
Lemma map_get_delete_eq m k : map_ok m -> map_get (map_delete m k) k = None.
Proof.
  unfold map_ok. induction m as [|[k1 v1] m IH]; cbn; [done|].
  intros [Hk Hm]%NoDup_cons. case_decide; cbn; [subst; by apply map_get_None|].
  rewrite decide_False by done. by apply IH.
Qed.
Lemma map_get_delete_ne m k k' : k <> k' -> map_get (map_delete m k) k' = map_get m k'.
Proof.
  intros Hne. induction m as [|[k1 v1] m IH]; cbn; [done|].
  case_decide; cbn; [subst; by rewrite decide_False|]. case_decide; [done|apply IH].
Qed.
Lemma map_set_Forall (P : K * V -> Prop) m k v : Forall P m -> P (k, v) -> Forall P (map_set m k v).
Proof.
  intros Hf Hv. induction Hf as [|[k' v'] m Hv' Hf IH]; cbn; [by repeat constructor|].
  case_decide; subst; by constructor.
Qed.
Lemma map_delete_Forall (P : K * V -> Prop) m k : Forall P m -> Forall P (map_delete m k).
Proof. induction 1 as [|[k' v'] m Hv' Hf IH]; cbn; [constructor|]. case_decide; [done|by constructor]. Qed.
Lemma map_get_is_elem m k : is_Some (map_get m k) <-> k ∈ map_keys m.
Proof.
  pose proof (map_get_None m k) as Hn. destruct (map_get m k) as [v|].
  - split; [|by eauto]. intros _. destruct (decide (k ∈ map_keys m)) as [|Hk]; [done|].
    by apply Hn in Hk.
  - split; [by intros []|]. intros Hk. by destruct Hn as [Hn _]; destruct (Hn eq_refl).
Qed.
End JsMap.

#[export] Hint Resolve map_set_ok map_delete_ok : js.
#[export] Hint Rewrite @map_get_set_eq : js.
