(* ===== verification/JsStr.v ===== *)
(** * JavaScript strings

    A JS string is modelled by the bytes of its UTF-8 form in a [string].  Every separator the
    viewer splits or searches for is ASCII, so these operations agree with the UTF-16 ones; case
    folding and [trim] are the ASCII part of theirs. *)
From Stdlib Require Import Strings.Ascii.
From S2P Require Import Prelude.
Local Open Scope string_scope.

Definition str_len (s : string) : Z := Z.of_nat (String.length s).

(** [s.startsWith(p)] *)
Definition startsWith (s p : string) : bool := String.prefix p s.
(** [s.endsWith(p)] *)
Definition endsWith (s p : string) : bool :=
  let n := String.length s in let k := String.length p in
  (k <=? n)%nat && (substring (n - k) k s =? p)%string.
(** [s.indexOf(p)], and [s.includes(p)] *)
Definition indexOf (s p : string) : Z :=
  match String.index 0 p s with Some n => Z.of_nat n | None => (-1)%Z end.
Definition includes (s p : string) : bool := (0 <=? indexOf s p)%Z.
(** [s.slice(n)] for [0 <= n] *)
Definition slice_from (n : nat) (s : string) : string :=
  substring n (String.length s - n) s.
(** [s.slice(0, n)] for [0 <= n] *)
Definition slice_to (n : nat) (s : string) : string := substring 0 n s.

(** [s.split(sep)] for a one-character separator or a character class: never empty. *)
Fixpoint split_if (sep : ascii -> bool) (s : string) : list string :=
  match s with
  | EmptyString => [""]
  | String c s =>
      if sep c then "" :: split_if sep s
      else match split_if sep s with
           | [] => [String c ""]
           | w :: ws => String c w :: ws
           end
  end.
Definition split_on (c : ascii) : string -> list string := split_if (Ascii.eqb c).
(** [ws.join(sep)] *)
Fixpoint join (sep : string) (ws : list string) : string :=
  match ws with
  | [] => ""
  | [w] => w
  | w :: ws => w ++ sep ++ join sep ws
  end.
(** [s.replace(/x/g, y)] for one-character [x] and [y] *)
Fixpoint replace_all (x y : ascii) (s : string) : string :=
  match s with
  | EmptyString => ""
  | String c s => String (if Ascii.eqb c x then y else c) (replace_all x y s)
  end.
(** [s.replace(/^x+/, "")] *)
Fixpoint strip_leading (x : ascii) (s : string) : string :=
  match s with
  | EmptyString => ""
  | String c s' => if Ascii.eqb c x then strip_leading x s' else s
  end.

Definition is_space (c : ascii) : bool :=
  let n := nat_of_ascii c in ((9 <=? n) && (n <=? 13))%nat || (n =? 32)%nat.
Fixpoint trimStart (s : string) : string :=
  match s with
  | EmptyString => ""
  | String c s' => if is_space c then trimStart s' else s
  end.
Fixpoint trimEnd (s : string) : string :=
  match s with
  | EmptyString => ""
  | String c s' => match trimEnd s' with
                   | EmptyString => if is_space c then "" else String c ""
                   | t => String c t
                   end
  end.
Definition trim (s : string) : string := trimStart (trimEnd s).

Definition lower_ascii (c : ascii) : ascii :=
  let n := nat_of_ascii c in
  if ((65 <=? n) && (n <=? 90))%nat then ascii_of_nat (n + 32) else c.
Fixpoint toLowerCase (s : string) : string :=
  match s with
  | EmptyString => ""
  | String c s => String (lower_ascii c) (toLowerCase s)
  end.

(** [String(n)] for an integer *)
Definition string_of_Z (n : Z) : string := pretty n.
(** [String(b)] *)
Definition string_of_bool (b : bool) : string := if b then "true" else "false".

(** [last element, a || b] *)
Definition pop (ws : list string) : string := default "" (last ws).

(** ** Laws *)
Lemma split_if_nonempty sep s : split_if sep s <> [].
Proof.
  destruct s as [|c s]; cbn; [done|]. destruct (sep c); [done|]. by destruct (split_if sep s).
Qed.

Lemma string_app_nil_r (s : string) : s ++ "" = s.
Proof. induction s as [|c s IH]; [done|]. exact (f_equal (String c) IH). Qed.
Lemma string_app_assoc (s t u : string) : s ++ (t ++ u) = (s ++ t) ++ u.
Proof. induction s as [|c s IH]; [done|]. exact (f_equal (String c) IH). Qed.

Lemma join_cons sep w ws : ws <> [] -> join sep (w :: ws) = w ++ sep ++ join sep ws.
Proof. by destruct ws. Qed.

(** Splitting at a character and joining with it gives the string back. *)
Lemma join_split_on c s : join (String c "") (split_on c s) = s.
Proof.
  unfold split_on. induction s as [|d s IH]; [done|]. cbn [split_if].
  pose proof (split_if_nonempty (Ascii.eqb c) s) as Hne.
  destruct (Ascii.eqb_spec c d) as [->|_].
  - rewrite join_cons by done. rewrite IH. done.
  - destruct (split_if (Ascii.eqb c) s) as [|w ws]; [done|].
    destruct ws as [|w' ws]; cbn in *; by rewrite <- IH.
Qed.

(** No piece of a split contains a separator. *)
Fixpoint str_forall (P : ascii -> bool) (s : string) : bool :=
  match s with EmptyString => true | String c s => P c && str_forall P s end.
Lemma split_if_pieces sep s :
  Forall (fun w => str_forall (fun c => negb (sep c)) w = true) (split_if sep s).
Proof.
  induction s as [|c s IH]; cbn; [by repeat constructor|].
  destruct (sep c) eqn:E; [by constructor|].
  destruct (split_if sep s) as [|w ws]; [by repeat constructor; cbn; rewrite E|].
  inversion_clear IH. constructor; [|done]. cbn. by rewrite E.
Qed.

Lemma prefix_app p s : String.prefix p (p ++ s) = true.
Proof.
  induction p as [|c p IH]; [by destruct s|].
  change (String.prefix (String c p) (String c (p ++ s)) = true). cbn [String.prefix].
  by destruct (ascii_dec c c).
Qed.
Lemma startsWith_app p s : startsWith (p ++ s) p = true.
Proof. apply prefix_app. Qed.
Lemma startsWith_spec s p : startsWith s p = true <-> exists t, s = p ++ t.
Proof.
  unfold startsWith. split; [|intros [t ->]; apply prefix_app].
  revert s. induction p as [|c p IH]; intros s Hs; [by exists s|].
  destruct s as [|d s]; [done|]. cbn [String.prefix] in Hs.
  destruct (ascii_dec c d) as [->|]; [|done]. destruct (IH s Hs) as [t ->]. by exists t.
Qed.

Lemma string_length_app (s t : string) :
  String.length (s ++ t) = (String.length s + String.length t)%nat.
Proof. induction s as [|c s IH]; [done|]. exact (f_equal S IH). Qed.
Lemma substring_0_all s n : (String.length s <= n)%nat -> substring 0 n s = s.
Proof.
  revert n. induction s as [|c s IH]; intros n Hn; destruct n; cbn in *; try done; try lia.
  rewrite IH; [done|lia].
Qed.
Lemma slice_from_app p s : slice_from (String.length p) (p ++ s) = s.
Proof.
  unfold slice_from. rewrite string_length_app.
  replace (String.length p + String.length s - String.length p)%nat with (String.length s) by lia.
  induction p as [|c p IH]; [by apply substring_0_all|apply IH].
Qed.
Lemma slice_to_app p s : slice_to (String.length p) (p ++ s) = p.
Proof.
  unfold slice_to. induction p as [|c p IH]; [by destruct s|]. exact (f_equal (String c) IH).
Qed.

Lemma string_of_Z_inj n m : string_of_Z n = string_of_Z m -> n = m.
Proof. apply (inj pretty). Qed.

(** The first piece ends at the first separator. *)
Lemma split_on_cut c w s :
  str_forall (fun d => negb (Ascii.eqb c d)) w = true ->
  split_on c (w ++ String c s) = w :: split_on c s.
Proof.
  unfold split_on. induction w as [|d w IH]; intros Hw.
  - change ("" ++ String c s) with (String c s). cbn [split_if]. by rewrite Ascii.eqb_refl.
  - apply andb_true_iff in Hw as [Hd Hw]. change (String d w ++ String c s) with (String d (w ++ String c s)).
    cbn [split_if]. rewrite IH by done. by destruct (Ascii.eqb c d).
Qed.
Lemma split_on_whole c w : str_forall (fun d => negb (Ascii.eqb c d)) w = true -> split_on c w = [w].
Proof.
  unfold split_on. induction w as [|d w IH]; intros Hw; [done|]. apply andb_true_iff in Hw as [Hd Hw].
  cbn [split_if]. rewrite IH by done. by destruct (Ascii.eqb c d).
Qed.
Lemma str_forall_app P (s t : string) : str_forall P (s ++ t) = str_forall P s && str_forall P t.
Proof. induction s as [|c s IH]; [done|]. cbn. by rewrite <- andb_assoc, <- IH. Qed.
Lemma str_forall_impl (P Q : ascii -> bool) s :
  (forall c, P c = true -> Q c = true) -> str_forall P s = true -> str_forall Q s = true.
Proof.
  intros H. induction s as [|c s IH]; [done|]. cbn. intros [Hc Hs]%andb_true_iff.
  apply andb_true_iff. auto.
Qed.

(** [parseInt(s)], [None] for [NaN]: leading space and sign, then hexadecimal digits after [0x] or
    decimal digits, as many as there are. *)
Definition digit_of (c : ascii) : option Z :=
  let n := Z.of_nat (nat_of_ascii c) in
  if ((48 <=? n) && (n <=? 57))%Z then Some (n - 48)%Z
  else if ((97 <=? n) && (n <=? 102))%Z then Some (n - 87)%Z
  else if ((65 <=? n) && (n <=? 70))%Z then Some (n - 55)%Z
  else None.
Fixpoint digits_value (radix acc : Z) (s : string) : Z :=
  match s with
  | EmptyString => acc
  | String c s => match digit_of c with
                  | Some d => if (d <? radix)%Z then digits_value radix (acc * radix + d) s else acc
                  | None => acc
                  end
  end.
Definition unsigned_int (radix : Z) (s : string) : option Z :=
  match s with
  | String c _ => match digit_of c with
                  | Some d => if (d <? radix)%Z then Some (digits_value radix 0 s) else None
                  | None => None
                  end
  | EmptyString => None
  end.
Definition parse_radix (s : string) : option Z :=
  if startsWith s "0x" || startsWith s "0X" then unsigned_int 16 (slice_from 2 s) else unsigned_int 10 s.
Definition parseInt (s : string) : option Z :=
  match trimStart s with
  | String c s' => if Ascii.eqb c "-" then Z.opp <$> parse_radix s'
                   else if Ascii.eqb c "+" then parse_radix s'
                   else parse_radix (String c s')
  | EmptyString => None
  end.
(** [parseInt(s) || 0] *)
Definition parseInt_or_0 (s : string) : Z := default 0%Z (parseInt s).
