(* ===== verification/Json.v ===== *)
(** * JSON text

    [JSON.stringify] and [JSON.parse] on the values the viewer serialises (session tokens, file
    listings, bridge calls): objects keep their members in insertion order, numbers are integers.
    The parser is total: [parse] gives it more fuel than the text has characters. *)
From Stdlib Require Import Strings.Ascii.
From S2P Require Import Prelude JsMap JsStr.
Local Open Scope string_scope.

Inductive json :=
  | JNull
  | JBool (b : bool)
  | JNum (n : Z)
  | JStr (s : string)
  | JArr (l : list json)
  | JObj (o : jsmap string json).

Section json_ind.
Variable P : json -> Prop.
Hypothesis Pnull : P JNull.
Hypothesis Pbool : forall b, P (JBool b).
Hypothesis Pnum : forall n, P (JNum n).
Hypothesis Pstr : forall s, P (JStr s).
Hypothesis Parr : forall l, Forall P l -> P (JArr l).
Hypothesis Pobj : forall o, Forall (fun kv => P kv.2) o -> P (JObj o).
Fixpoint json_nested_ind (j : json) : P j :=
  match j with
  | JNull => Pnull
  | JBool b => Pbool b
  | JNum n => Pnum n
  | JStr s => Pstr s
  | JArr l => Parr l ((fix go l : Forall P l :=
      match l with [] => Forall_nil_2 _ | j :: l => Forall_cons_2 _ _ _ (json_nested_ind j) (go l) end) l)
  | JObj o => Pobj o ((fix go o : Forall (fun kv => P kv.2) o :=
      match o with [] => Forall_nil_2 _ | kv :: o => Forall_cons_2 _ _ _ (json_nested_ind kv.2) (go o) end) o)
  end.
End json_ind.

(** ** Printing *)
Definition hex_digit (n : nat) : ascii :=
  ascii_of_nat (if (n <? 10)%nat then 48 + n else 87 + n).
Definition dquote : ascii := "034".
Definition bslash : ascii := "092".
Definition escape (c : ascii) : string := String bslash (String c "").
Definition quote_char (c : ascii) : string :=
  let n := nat_of_ascii c in
  if (n =? 34)%nat then escape dquote else if (n =? 92)%nat then escape bslash
  else if (n =? 8)%nat then escape "b" else if (n =? 12)%nat then escape "f"
  else if (n =? 10)%nat then escape "n" else if (n =? 13)%nat then escape "r"
  else if (n =? 9)%nat then escape "t"
  else if (n <? 32)%nat then
    escape "u" ++ String "0" (String "0" (String (hex_digit (n / 16)) (String (hex_digit (n mod 16)) "")))
  else String c "".
Fixpoint quote_chars (s : string) : string :=
  match s with EmptyString => "" | String c s => quote_char c ++ quote_chars s end.
Definition quote (s : string) : string :=
  String dquote (quote_chars s ++ String dquote "").

Fixpoint stringify (j : json) : string :=
  match j with
  | JNull => "null"
  | JBool b => string_of_bool b
  | JNum n => string_of_Z n
  | JStr s => quote s
  | JArr l => "[" ++ join "," (map stringify l) ++ "]"
  | JObj o => "{" ++ join "," (map (fun kv => quote kv.1 ++ ":" ++ stringify kv.2) o) ++ "}"
  end.

(** ** Parsing *)
Definition digit_val (c : ascii) : option Z :=
  let n := nat_of_ascii c in
  if ((48 <=? n) && (n <=? 57))%nat then Some (Z.of_nat n - 48)%Z else None.
Definition hex_val (c : ascii) : option nat :=
  let n := nat_of_ascii c in
  if ((48 <=? n) && (n <=? 57))%nat then Some (n - 48)%nat
  else if ((97 <=? n) && (n <=? 102))%nat then Some (n - 87)%nat
  else if ((65 <=? n) && (n <=? 70))%nat then Some (n - 55)%nat
  else None.

Fixpoint parse_digits (acc : Z) (s : string) : Z * string :=
  match s with
  | String c s' =>
      match digit_val c with Some d => parse_digits (acc * 10 + d) s' | None => (acc, s) end
  | EmptyString => (acc, s)
  end.
Definition parse_number (s : string) : option (Z * string) :=
  match s with
  | String c s' =>
      match digit_val c with
      | Some d => Some (parse_digits d s')
      | None =>
          if Ascii.eqb c "-" then
            match s' with
            | String c' s'' =>
                d ← digit_val c'; let '(n, r) := parse_digits d s'' in mret ((- n)%Z, r)
            | EmptyString => None
            end
          else None
      end
  | EmptyString => None
  end.

Definition unescape (c : ascii) : option ascii :=
  let n := nat_of_ascii c in
  if (n =? 34)%nat || (n =? 92)%nat || (n =? 47)%nat then Some c
  else if (n =? 98)%nat then Some "008"%char else if (n =? 102)%nat then Some "012"%char
  else if (n =? 110)%nat then Some "010"%char else if (n =? 114)%nat then Some "013"%char
  else if (n =? 116)%nat then Some "009"%char else None.
(** The characters after the opening quote; a [\u] escape is read when it denotes an ASCII
    character. *)
Fixpoint parse_chars (s : string) : option (string * string) :=
  match s with
  | EmptyString => None
  | String c s' =>
      if Ascii.eqb c dquote then Some ("", s')
      else if Ascii.eqb c bslash then
        match s' with
        | String "u" (String "0" (String "0" (String h (String l s'')))) =>
            hi ← hex_val h; lo ← hex_val l;
            if (hi <? 8)%nat then
              '(t, r) ← parse_chars s''; mret (String (ascii_of_nat (hi * 16 + lo)) t, r)
            else None
        | String e s'' =>
            e' ← unescape e; '(t, r) ← parse_chars s''; mret (String e' t, r)
        | EmptyString => None
        end
      else if (nat_of_ascii c <? 32)%nat then None
      else '(t, r) ← parse_chars s'; mret (String c t, r)
  end.

Fixpoint expect (p s : string) : option string :=
  match p, s with
  | EmptyString, _ => Some s
  | String c p, String d s => if Ascii.eqb c d then expect p s else None
  | _, EmptyString => None
  end.

Definition is_json_space (c : ascii) : bool :=
  let n := nat_of_ascii c in (n =? 32)%nat || (n =? 10)%nat || (n =? 13)%nat || (n =? 9)%nat.
Fixpoint skip_ws (s : string) : string :=
  match s with
  | String c s' => if is_json_space c then skip_ws s' else s
  | EmptyString => s
  end.

(** A later member with the same name overrides the earlier one. *)
Definition members_to_obj (ms : list (string * json)) : jsmap string json :=
  foldl (fun o kv => map_set o kv.1 kv.2) [] ms.

Fixpoint parse_value (fuel : nat) (s : string) : option (json * string) :=
  match fuel with
  | O => None
  | S fuel =>
      match skip_ws s with
      | EmptyString => None
      | String c s' =>
          if Ascii.eqb c dquote then '(t, r) ← parse_chars s'; mret (JStr t, r)
          else if Ascii.eqb c "[" then
            match skip_ws s' with
            | String "]" r => Some (JArr [], r)
            | s'' => '(l, r) ← parse_elems fuel s''; mret (JArr l, r)
            end
          else if Ascii.eqb c "{" then
            match skip_ws s' with
            | String "}" r => Some (JObj [], r)
            | s'' => '(ms, r) ← parse_members fuel s''; mret (JObj (members_to_obj ms), r)
            end
          else if Ascii.eqb c "n" then r ← expect "ull" s'; mret (JNull, r)
          else if Ascii.eqb c "t" then r ← expect "rue" s'; mret (JBool true, r)
          else if Ascii.eqb c "f" then r ← expect "alse" s'; mret (JBool false, r)
          else '(n, r) ← parse_number (String c s'); mret (JNum n, r)
      end
  end
with parse_elems (fuel : nat) (s : string) : option (list json * string) :=
  match fuel with
  | O => None
  | S fuel =>
      '(v, r) ← parse_value fuel s;
      match skip_ws r with
      | String "," r => '(l, r) ← parse_elems fuel r; mret (v :: l, r)
      | String "]" r => Some ([v], r)
      | _ => None
      end
  end
with parse_members (fuel : nat) (s : string) : option (list (string * json) * string) :=
  match fuel with
  | O => None
  | S fuel =>
      match skip_ws s with
      | String q s =>
          if Ascii.eqb q dquote then
            '(k, r) ← parse_chars s;
            match skip_ws r with
            | String ":" r =>
                '(v, r) ← parse_value fuel r;
                match skip_ws r with
                | String "," r => '(ms, r) ← parse_members fuel r; mret ((k, v) :: ms, r)
                | String "}" r => Some ([(k, v)], r)
                | _ => None
                end
            | _ => None
            end
          else None
      | EmptyString => None
      end
  end.

(** [JSON.parse(text)]: [None] is a [SyntaxError]. *)
Definition parse (text : string) : option json :=
  '(j, r) ← parse_value (S (2 * String.length text)) text;
  if skip_ws r =? "" then Some j else None.

(** ** Truthiness and conversions of parsed values *)
#[export] Instance truthy_json : Truthy json := fun j =>
  match j with
  | JNull => false | JBool b => b | JNum n => negb (n =? 0)%Z | JStr s => truthy s | JArr _ | JObj _ => true
  end.
(** [String(v)] *)
Fixpoint json_String (j : json) : string :=
  match j with
  | JNull => "null" | JBool b => string_of_bool b | JNum n => string_of_Z n | JStr s => s
  | JArr l => join "," (map (fun x => match x with JNull => "" | _ => json_String x end) l)
  | JObj _ => "[object Object]"
  end.
(** Object member names are distinct, at every level. *)
Fixpoint json_ok (j : json) : Prop :=
  match j with
  | JArr l => (fix go l := match l with [] => True | j :: l => json_ok j /\ go l end) l
  | JObj o => map_ok o /\
      (fix go o := match o with [] => True | kv :: o => json_ok kv.2 /\ go o end) o
  | _ => True
  end.

(** ** Parsing undoes printing *)
Lemma str_app_cons c s t : String c s ++ t = String c (s ++ t).
Proof. done. Qed.
Lemma str_app_nil t : "" ++ t = t.
Proof. done. Qed.

Definition no_digit_start (s : string) : Prop :=
  match s with EmptyString => True | String c _ => digit_val c = None end.

Lemma digit_val_char x : (x < 10)%N -> digit_val (pretty_N_char x) = Some (Z.of_N x).
Proof.
  intros Hx. destruct (decide (x < 10)%N) as [H|]; [|done].
  assert (In x [0;1;2;3;4;5;6;7;8;9]%N) as Hin by (cbn; lia).
  by repeat destruct Hin as [<-|Hin].
Qed.

Lemma parse_digits_stop acc s : no_digit_start s -> parse_digits acc s = (acc, s).
Proof. destruct s as [|c s]; [done|]. cbn. by intros ->. Qed.

Lemma parse_digits_pretty x s t :
  parse_digits 0 (pretty_N_go x s ++ t) = parse_digits (Z.of_N x) (s ++ t).
Proof.
  revert s. induction x as [x IH] using (well_founded_induction N.lt_wf_0). intros s.
  destruct (decide (x = 0%N)) as [->|Hx]; [done|].
  rewrite pretty_N_go_step by lia. rewrite IH by (apply N.div_lt; lia).
  rewrite str_app_cons. cbn [parse_digits]. rewrite digit_val_char by (apply N.mod_lt; lia).
  f_equal. rewrite (N.div_mod x 10) at 3 by lia. lia.
Qed.

Lemma parse_digits_pretty_N (x : N) t : parse_digits 0 (pretty x ++ t) = parse_digits (Z.of_N x) t.
Proof.
  unfold pretty, pretty_N. case_decide as Hx; [by subst|]. by rewrite parse_digits_pretty.
Qed.

(** The decimal form of a natural number starts with a digit. *)
Lemma pretty_N_head (x : N) : exists c r, pretty x = String c r /\ is_Some (digit_val c).
Proof.
  unfold pretty, pretty_N. case_decide as Hx; [by exists "0"%char, ""; eauto|].
  enough (H : forall s, exists c r, pretty_N_go x s = String c r /\ is_Some (digit_val c)) by apply H.
  revert Hx. induction x as [x IH] using (well_founded_induction N.lt_wf_0). intros Hx s.
  rewrite pretty_N_go_step by lia.
  destruct (decide (x / 10 = 0)%N) as [->|Hd].
  - rewrite pretty_N_go_0. eexists _, _. split; [done|].
    rewrite digit_val_char by (apply N.mod_lt; lia). by eexists.
  - apply IH; [apply N.div_lt; lia|done].
Qed.

Lemma parse_number_of_Z n s :
  no_digit_start s -> parse_number (string_of_Z n ++ s) = Some (n, s).
Proof.
  intros Hs.
  assert (Hnat : forall (x : N) c r, pretty x = String c r -> forall d, digit_val c = Some d ->
    parse_digits d (r ++ s) = (Z.of_N x, s)).
  { intros x c r E d Hd. rewrite <- (parse_digits_stop (Z.of_N x) s Hs), <- parse_digits_pretty_N, E.
    rewrite str_app_cons. cbn [parse_digits]. by rewrite Hd. }
  unfold string_of_Z, pretty, pretty_Z. destruct n as [|p|p].
  - change (Some (parse_digits 0 s) = Some (0%Z, s)). by rewrite parse_digits_stop.
  - change (parse_number (pretty (Npos p) ++ s) = Some (Zpos p, s)).
    destruct (pretty_N_head (Npos p)) as (c & r & E & d & Hd). rewrite E, str_app_cons.
    cbn [parse_number]. rewrite Hd. by rewrite (Hnat _ _ _ E d Hd).
  - change (parse_number (("-" ++ pretty (Npos p)) ++ s) = Some (Zneg p, s)).
    destruct (pretty_N_head (Npos p)) as (c & r & E & d & Hd). rewrite E.
    change ((d ← digit_val c; let '(n, r0) := parse_digits d (r ++ s) in mret ((- n)%Z, r0))
            = Some (Zneg p, s)).
    rewrite Hd. cbn [mbind option_bind]. by rewrite (Hnat _ _ _ E d Hd).
Qed.

Lemma number_head n : exists c r, string_of_Z n = String c r /\
  (is_Some (digit_val c) \/ c = "-"%char).
Proof.
  destruct n as [|p|p].
  - exists "0"%char, "". split; [done|]. left. by eexists.
  - destruct (pretty_N_head (Npos p)) as (c & r & E & Hd). exists c, r. split; [exact E|by left].
  - exists "-"%char, (pretty (Npos p)). split; [done|by right].
Qed.

Lemma parse_quote_char c s :
  parse_chars (quote_char c ++ s) = ('(t, r) ← parse_chars s; mret (String c t, r)).
Proof. destruct c as [[] [] [] [] [] [] [] []]; reflexivity. Qed.

Lemma parse_quote_chars t s :
  parse_chars (quote_chars t ++ String dquote s) = Some (t, s).
Proof.
  induction t as [|c t IH]; [done|]. cbn [quote_chars].
  rewrite <- string_app_assoc, parse_quote_char, IH. done.
Qed.

(** Fuel that suffices for a value. *)
Fixpoint need (j : json) : nat :=
  match j with
  | JArr l => S ((fix go l := match l with [] => 0 | j :: l => S (need j + go l) end) l)
  | JObj o => S ((fix go o := match o with [] => 0 | kv :: o => S (need kv.2 + go o) end) o)
  | _ => 1
  end%nat.
Definition need_list (l : list json) : nat := foldr (fun j n => S (need j + n)) 0%nat l.
Definition need_obj (o : jsmap string json) : nat := foldr (fun kv n => S (need kv.2 + n)) 0%nat o.
Lemma need_arr l : need (JArr l) = S (need_list l).
Proof. done. Qed.
Lemma need_objE o : need (JObj o) = S (need_obj o).
Proof. done. Qed.
Lemma json_ok_arr l : json_ok (JArr l) <-> Forall json_ok l.
Proof.
  induction l as [|j l IH]; cbn in *; [by split; [constructor|]|].
  rewrite Forall_cons, <- IH. done.
Qed.
Lemma json_ok_obj o : json_ok (JObj o) <-> map_ok o /\ Forall (fun kv => json_ok kv.2) o.
Proof.
  cbn. enough (H : (fix go o := match o with [] => True | kv :: o => json_ok kv.2 /\ go o end) o
    <-> Forall (fun kv => json_ok kv.2) o) by by rewrite H.
  induction o as [|j l IH]; [by split; [constructor|]|]. by rewrite Forall_cons, <- IH.
Qed.

Lemma members_to_obj_id o : map_ok o -> members_to_obj o = o.
Proof.
  intros Hok. unfold members_to_obj.
  enough (H : forall pre, map_ok (pre ++ o)%list ->
    foldl (fun o kv => map_set o kv.1 kv.2) pre o = (pre ++ o)%list) by by apply (H []).
  clear Hok. induction o as [|[k v] o IH]; intros pre Hok; cbn [foldl]; [by rewrite app_nil_r|].
  rewrite map_set_new.
  - rewrite IH; [by rewrite <- app_assoc|by rewrite <- app_assoc].
  - apply map_get_None. intros Hk. unfold map_ok, map_keys in Hok.
    rewrite fmap_app in Hok. apply NoDup_app in Hok as (_ & Hd & _).
    apply (Hd k Hk). by left.
Qed.

Definition head_char (s : string) : option ascii :=
  match s with String c _ => Some c | EmptyString => None end.

(** The first character decides how [parse_value] continues. *)
Lemma stringify_head j : exists c, head_char (stringify j) = Some c /\
  is_json_space c = false /\ c <> "]"%char.
Proof.
  destruct j as [|b|n|s|l|o]; cbn [stringify].
  - by exists "n"%char.
  - destruct b; [by exists "t"%char|by exists "f"%char].
  - destruct (number_head n) as (c & r & -> & Hc). exists c. split; [done|].
    split; [|intros ->]; [|by destruct Hc as [[d Hd]|Hc]].
    destruct c as [[] [] [] [] [] [] [] []]; try done; by destruct Hc as [[d Hd]|Hc].
  - by exists dquote.
  - by exists "["%char.
  - by exists "{"%char.
Qed.
Lemma skip_ws_head s t c :
  head_char s = Some c -> is_json_space c = false -> skip_ws (s ++ t) = s ++ t.
Proof.
  destruct s as [|d s]; [done|]. intros [= ->] Hc. rewrite str_app_cons. cbn [skip_ws].
  by rewrite Hc.
Qed.
Lemma skip_ws_stringify j s : skip_ws (stringify j ++ s) = stringify j ++ s.
Proof. destruct (stringify_head j) as (c & Hh & Hc & _). by eapply skip_ws_head. Qed.

Lemma parse_value_num fuel n s :
  no_digit_start s -> parse_value (S fuel) (string_of_Z n ++ s) = Some (JNum n, s).
Proof.
  intros Hs. pose proof (parse_number_of_Z n s Hs) as Hp.
  pose proof (skip_ws_stringify (JNum n) s) as Hw. cbn [stringify] in Hw.
  cbn [parse_value]. rewrite Hw. destruct (number_head n) as (c & r & E & Hc).
  rewrite E, str_app_cons in Hp |- *. rewrite Hp.
  destruct c as [[] [] [] [] [] [] [] []]; try reflexivity; by destruct Hc as [[d Hd]|Hc].
Qed.

Lemma parse_value_str fuel t s :
  parse_value (S fuel) (quote t ++ s) = Some (JStr t, s).
Proof.
  unfold quote. rewrite str_app_cons, <- string_app_assoc. cbn [parse_value skip_ws].
  change (is_json_space dquote) with false. cbn iota. rewrite Ascii.eqb_refl.
  change (String dquote "" ++ s) with (String dquote s). by rewrite parse_quote_chars.
Qed.

(** What the induction proves of one value. *)
Definition parses_back (j : json) : Prop := json_ok j -> forall fuel s,
  (need j <= fuel)%nat -> no_digit_start s -> parse_value fuel (stringify j ++ s) = Some (j, s).

Lemma parse_elems_back l s : l <> [] -> Forall parses_back l -> Forall json_ok l ->
  forall fuel, (need_list l <= fuel)%nat ->
  parse_elems fuel (join "," (map stringify l) ++ "]" ++ s) = Some (l, s).
Proof.
  induction l as [|j l IH]; [done|]. intros _ Hp Hok fuel Hf.
  apply Forall_cons in Hp as [Hj Hp]. apply Forall_cons in Hok as [Hoj Hok].
  cbn in Hf. destruct fuel as [|fuel]; [lia|].
  destruct l as [|j' l].
  - cbn [map join parse_elems]. rewrite (Hj Hoj) by (cbn; lia || done). done.
  - change (map stringify (j :: j' :: l)) with (stringify j :: map stringify (j' :: l)).
    rewrite join_cons by done. rewrite <- !string_app_assoc. cbn [parse_elems].
    rewrite (Hj Hoj) by (lia || done). cbn [mbind option_bind].
    change ("," ++ ?x) with (String "," x). cbn [skip_ws].
    change (is_json_space ",") with false. cbn iota.
    change ("" ++ ?x) with x. by rewrite (IH ltac:(done) Hp Hok fuel) by (cbn in *; lia).
Qed.

Lemma parse_members_back o s : o <> [] -> Forall (fun kv => parses_back kv.2) o ->
  Forall (fun kv => json_ok kv.2) o -> forall fuel, (need_obj o <= fuel)%nat ->
  parse_members fuel (join "," (map (fun kv => quote kv.1 ++ ":" ++ stringify kv.2) o) ++ "}" ++ s)
  = Some (o, s).
Proof.
  induction o as [|[k j] o IH]; [done|]. intros _ Hp Hok fuel Hf.
  apply Forall_cons in Hp as [Hj Hp]. apply Forall_cons in Hok as [Hoj Hok].
  cbn in Hf, Hj, Hoj. destruct fuel as [|fuel]; [lia|].
  assert (Hhead : forall r, parse_members (S fuel) ((quote k ++ ":" ++ stringify j) ++ r) =
    ('(v, r) ← parse_value fuel (stringify j ++ r);
     match skip_ws r with
     | String "," r => '(ms, r) ← parse_members fuel r; mret ((k, v) :: ms, r)
     | String "}" r => Some ([(k, v)], r)
     | _ => None
     end)).
  { intros r. unfold quote. rewrite <- string_app_assoc. rewrite str_app_cons.
    rewrite <- !string_app_assoc. cbn [parse_members skip_ws].
    change (is_json_space dquote) with false. cbn iota. rewrite Ascii.eqb_refl.
    change (String dquote "" ++ ?x) with (String dquote x). rewrite parse_quote_chars. done. }
  destruct o as [|kv o].
  - cbn [map join]. rewrite Hhead, (Hj Hoj) by (lia || done). done.
  - change (map ?f ((k, j) :: kv :: o)) with (f (k, j) :: map f (kv :: o)).
    rewrite join_cons by done. rewrite <- string_app_assoc. cbn [fst snd].
    rewrite Hhead, (Hj Hoj) by (lia || done). cbn [mbind option_bind].
    rewrite <- string_app_assoc. change ("," ++ ?x) with (String "," x). cbn [skip_ws].
    change (is_json_space ",") with false. cbn iota.
    change ("" ++ ?x) with x. by rewrite (IH ltac:(done) Hp Hok fuel) by (cbn in *; lia).
Qed.

Lemma parse_value_arr fuel l s : l <> [] ->
  (forall f, (need_list l <= f)%nat ->
     parse_elems f (join "," (map stringify l) ++ "]" ++ s) = Some (l, s)) ->
  (need_list l <= fuel)%nat -> parse_value (S fuel) (stringify (JArr l) ++ s) = Some (JArr l, s).
Proof.
  intros Hl He Hf. cbn [stringify]. rewrite <- !string_app_assoc.
  change ("[" ++ ?x) with (String "[" x). cbn [parse_value skip_ws].
  change (is_json_space "[") with false. cbn iota.
  change (Ascii.eqb "[" dquote) with false. change (Ascii.eqb "[" "[") with true. cbn iota.
  change ("" ++ ?x) with x.
  specialize (He fuel Hf). destruct l as [|j l]; [done|].
  assert (Hh : exists c r, join "," (map stringify (j :: l)) = String c r /\
    is_json_space c = false /\ c <> "]"%char).
  { destruct (stringify_head j) as (c & Hh & Hc). cbn [map].
    destruct (stringify j) as [|d t]; [done|]. injection Hh as ->.
    destruct l as [|j' l]; [by exists c, t|].
    exists c, (t ++ "," ++ join "," (map stringify (j' :: l))). done. }
  destruct Hh as (c & r & E & Hc & Hb). rewrite E, str_app_cons in He |- *.
  cbn [skip_ws]. rewrite Hc.
  destruct c as [[] [] [] [] [] [] [] []]; first [by destruct Hb | by rewrite He].
Qed.

Lemma parse_value_obj fuel o s : o <> [] -> map_ok o ->
  (forall f, (need_obj o <= f)%nat ->
     parse_members f (join "," (map (fun kv => quote kv.1 ++ ":" ++ stringify kv.2) o) ++ "}" ++ s)
     = Some (o, s)) ->
  (need_obj o <= fuel)%nat -> parse_value (S fuel) (stringify (JObj o) ++ s) = Some (JObj o, s).
Proof.
  intros Hl Hok He Hf. cbn [stringify]. rewrite <- !string_app_assoc.
  change ("{" ++ ?x) with (String "{" x). cbn [parse_value skip_ws].
  change (is_json_space "{") with false. cbn iota.
  change (Ascii.eqb "{" dquote) with false. change (Ascii.eqb "{" "[") with false.
  change (Ascii.eqb "{" "{") with true. cbn iota.
  change ("" ++ ?x) with x.
  specialize (He fuel Hf). destruct o as [|[k j] o]; [done|].
  assert (Hh : exists r, join "," (map (fun kv => quote kv.1 ++ ":" ++ stringify kv.2) ((k, j) :: o))
    = String dquote r).
  { cbn [map fst]. unfold quote at 1. rewrite str_app_cons.
    destruct o as [|kv' o]; [by eexists|]. cbn [map]. by eexists. }
  destruct Hh as (r & E). rewrite E, str_app_cons in He |- *.
  cbn [skip_ws]. change (is_json_space dquote) with false. cbn iota.
  change (match String dquote (r ++ "}" ++ s) with
          | String "}" r0 => Some (JObj [], r0)
          | s'' => '(ms, r0) ← parse_members fuel s''; mret (JObj (members_to_obj ms), r0)
          end = Some (JObj ((k, j) :: o), s)).
  cbn iota beta delta [dquote]. change "034"%char with dquote. rewrite He. cbn [mbind option_bind].
  by rewrite members_to_obj_id.
Qed.

Lemma parse_stringify_gen j : parses_back j.
Proof.
  induction j as [|b|n|t|l IH|o IH] using json_nested_ind; intros Hok fuel s Hf Hs;
    (destruct fuel as [|fuel]; [cbn in Hf; lia|]).
  - done.
  - by destruct b.
  - by apply parse_value_num.
  - apply parse_value_str.
  - apply json_ok_arr in Hok. rewrite need_arr in Hf.
    destruct (decide (l = [])) as [->|Hl]; [done|].
    apply parse_value_arr; [done| |lia]. intros f Hf'. by apply parse_elems_back.
  - apply json_ok_obj in Hok as [Hm Hok]. rewrite need_objE in Hf.
    destruct (decide (o = [])) as [->|Hl]; [done|].
    apply parse_value_obj; [done..| |lia]. intros f Hf'. by apply parse_members_back.
Qed.

(** The fuel of [parse] suffices: a value's text is at least as long as it is deep and wide. *)
Lemma need_le_length j : (need j + 1 <= 2 * String.length (stringify j))%nat.
Proof.
  induction j as [|b|n|t|l IH|o IH] using json_nested_ind.
  - cbn. lia.
  - destruct b; cbn; lia.
  - destruct (number_head n) as (c & r & E & _). cbn [stringify need]. rewrite E. cbn. lia.
  - unfold stringify, quote. cbn [String.length need]. lia.
  - rewrite need_arr. cbn [stringify]. rewrite !string_length_app. cbn [String.length].
    enough (need_list l <= 2 * String.length (join "," (map stringify l)))%nat by lia.
    induction IH as [|j l Hj _ IHl]; cbn [need_list foldr map]; [lia|]. fold (need_list l).
    destruct l as [|j' l]; [cbn in *; lia|]. change (map stringify (j' :: l)) with
      (stringify j' :: map stringify l) in *.
    rewrite join_cons by done. rewrite !string_length_app. lia.
  - rewrite need_objE. cbn [stringify]. rewrite !string_length_app. cbn [String.length].
    match goal with |- context [join "," ?m] =>
      enough (need_obj o <= 2 * String.length (join "," m))%nat by lia end.
    induction IH as [|[k j] o Hj _ IHo]; cbn [need_obj foldr map fst snd] in *; [lia|].
    fold (need_obj o). destruct o as [|kv o].
    + cbn [map join need_obj foldr]. rewrite !string_length_app. lia.
    + cbn [map] in *. rewrite join_cons by done. rewrite !string_length_app. lia.
Qed.

Lemma parse_stringify j : json_ok j -> parse (stringify j) = Some j.
Proof.
  intros Hok. unfold parse.
  pose proof (parse_stringify_gen j Hok (S (2 * String.length (stringify j))) "") as Hp.
  rewrite string_app_nil_r in Hp. rewrite Hp; [done| |done].
  pose proof (need_le_length j). lia.
Qed.

(** ** What is parsed is well formed *)
Lemma members_to_obj_ok ms acc : Forall (fun kv => json_ok kv.2) ms ->
  map_ok acc -> Forall (fun kv => json_ok kv.2) acc ->
  let o := foldl (fun o kv => map_set o kv.1 kv.2) acc ms in
  map_ok o /\ Forall (fun kv : string * json => json_ok kv.2) o.
Proof.
  intros Hms. revert acc. induction Hms as [|[k v] ms Hv _ IH]; intros acc Hd Hf; [done|].
  cbn [foldl fst snd]. apply IH; [by apply map_set_ok|]. clear IH.
  induction Hf as [|[k' v'] acc Hv' Hf IH]; cbn; [by repeat constructor|].
  apply NoDup_cons in Hd as [_ Hd]. case_decide; constructor; auto.
Qed.

Lemma parse_value_ok fuel :
  (forall s j r, parse_value fuel s = Some (j, r) -> json_ok j) /\
  (forall s l r, parse_elems fuel s = Some (l, r) -> Forall json_ok l) /\
  (forall s ms r, parse_members fuel s = Some (ms, r) -> Forall (fun kv => json_ok kv.2) ms).
Proof.
  induction fuel as [|fuel (IHv & IHe & IHm)]; [done|].
  assert (He : forall s j r, (('(l, r) ← parse_elems fuel s; mret (JArr l, r)) = Some (j, r)) -> json_ok j).
  { intros s j r E. destruct (parse_elems fuel s) as [[l r']|] eqn:El; [|done]. cbn in E.
    injection E as <- <-. apply json_ok_arr. by eapply IHe. }
  assert (Hm : forall s j r, (('(ms, r) ← parse_members fuel s; mret (JObj (members_to_obj ms), r)) = Some (j, r)) -> json_ok j).
  { intros s j r E. destruct (parse_members fuel s) as [[l r']|] eqn:El; [|done]. cbn in E.
    injection E as <- <-. apply json_ok_obj. apply (members_to_obj_ok l []); [by eapply IHm|constructor|constructor]. }
  split; [|split].
  - intros s j r. cbn [parse_value]. destruct (skip_ws s) as [|c s']; [done|].
    destruct (Ascii.eqb c dquote); [destruct (parse_chars s') as [[t r']|]; [|done]; by intros [= <- <-]|].
    destruct (Ascii.eqb c "[").
    { revert He. generalize (skip_ws s'). clear. intros s' He.
      repeat case_match; try (by apply He); intros [= <- <-]; done. }
    destruct (Ascii.eqb c "{").
    { revert Hm. generalize (skip_ws s'). clear. intros s' Hm.
      repeat case_match; try (by apply Hm); intros [= <- <-]; apply json_ok_obj; split; constructor. }
    repeat (case_match; [match goal with |- context [expect ?a ?b] => destruct (expect a b) end;
      [intros [= <- <-]; done|done]|]).
    destruct (parse_number _) as [[n r']|]; [|done]. by intros [= <- <-].
  - intros s l r. cbn [parse_elems]. destruct (parse_value fuel s) as [[v r']|] eqn:Ev; [|done].
    cbn [mbind option_bind]. apply IHv in Ev.
    assert (Hc : forall s l r, (('(l, r) ← parse_elems fuel s; mret (v :: l, r)) = Some (l, r)) -> Forall json_ok l).
    { intros s1 l1 r1 E. destruct (parse_elems fuel s1) as [[l2 r2]|] eqn:E2; [|done]. cbn in E.
      injection E as <- <-. constructor; [done|by eapply IHe]. }
    revert Hc Ev. generalize (skip_ws r'). clear. intros s' Hc Hv.
    repeat case_match; try done; try (by apply Hc); intros [= <- <-]; by repeat constructor.
  - intros s ms r. cbn [parse_members]. destruct (skip_ws s) as [|q s']; [done|].
    destruct (Ascii.eqb q dquote); [|done]. destruct (parse_chars s') as [[k r1]|]; [|done].
    cbn [mbind option_bind].
    assert (Hv : forall r1 ms r, ('(v, r) ← parse_value fuel r1;
                match skip_ws r with
                | String "," r => '(ms, r) ← parse_members fuel r; mret ((k, v) :: ms, r)
                | String "}" r => Some ([(k, v)], r)
                | _ => None
                end) = Some (ms, r) -> Forall (fun kv => json_ok kv.2) ms).
    { intros s1 ms1 r2. destruct (parse_value fuel s1) as [[v r']|] eqn:Ev; [|done].
      cbn [mbind option_bind]. apply IHv in Ev.
      assert (Hc : forall s l r, (('(ms, r) ← parse_members fuel s; mret ((k, v) :: ms, r)) = Some (l, r)) ->
        Forall (fun kv => json_ok kv.2) l).
      { intros s3 l1 r3 E. destruct (parse_members fuel s3) as [[l2 r4]|] eqn:E2; [|done]. cbn in E.
        injection E as <- <-. constructor; [done|by eapply IHm]. }
      revert Hc Ev. generalize (skip_ws r'). clear. intros s4 Hc Hv.
      repeat case_match; try done; try (by apply Hc); intros [= <- <-]; by repeat constructor. }
    revert Hv. generalize (skip_ws r1). clear. intros s4 Hv.
    repeat case_match; try done. by apply Hv.
Qed.

Lemma parse_ok text j : parse text = Some j -> json_ok j.
Proof.
  unfold parse. destruct (parse_value _ text) as [[j' r]|] eqn:E; [|done]. cbn.
  destruct (skip_ws r =? ""); [|done]. intros [= <-]. by eapply (parse_value_ok _).
Qed.
