(* ===== verification/Bytes.v ===== *)
(** * Byte buffers: [helpers/binary.ts] and [decompress] of [helpers/common.ts]

    [concatChunks] fills a zeroed buffer with [Uint8Array.prototype.set], which throws when a
    chunk does not fit; it is shown to be list concatenation and never to throw. *)
From Stdlib Require Import Strings.Byte.
From S2P Require Import Prelude.

(** [out.set(c, off)] *)
Definition typed_array_set (out c : bytes) (off : Z) : outcome bytes :=
  if (off <? 0) || (len out <? off + len c) then
    Throw (VError "RangeError" "offset is out of bounds")
  else Ret (take (Z.to_nat off) out ++ c ++ drop (Z.to_nat off + length c) out).

(** [for (const c of chunks) { out.set(c, off); off += c.length; }] *)
Fixpoint set_chunks (out : bytes) (off : Z) (chunks : list bytes) : outcome bytes :=
  match chunks with
  | [] => Ret out
  | c :: chunks => out ← typed_array_set out c off; set_chunks out (off + len c) chunks
  end.

Definition concatChunks (chunks : list bytes) : outcome bytes :=
  let total := foldl (fun n c => n + len c) 0 chunks in
  set_chunks (replicate (Z.to_nat total) x00) 0 chunks.

Lemma foldl_len (chunks : list bytes) n :
  foldl (fun n c => n + len c) n chunks = n + len (concat chunks).
Proof.
  revert n. induction chunks as [|c chunks IH]; intros n; cbn [foldl concat].
  - rewrite len_nil. lia.
  - rewrite IH, len_app. lia.
Qed.

Lemma set_chunks_spec pre chunks k :
  length k = length (concat chunks) ->
  set_chunks (pre ++ k) (len pre) chunks = Ret (pre ++ concat chunks).
Proof.
  revert pre k. induction chunks as [|c chunks IH]; intros pre k Hk; cbn [set_chunks concat] in *.
  - by apply nil_length_inv in Hk as ->.
  - rewrite length_app in Hk. unfold typed_array_set.
    pose proof (len_nonneg pre). destruct (Z.ltb_spec (len pre) 0); [lia|].
    destruct (Z.ltb_spec (len (pre ++ k)) (len pre + len c)) as [Hl|_].
    { exfalso. unfold len in Hl. rewrite length_app in Hl. lia. }
    cbn [orb]. js_simpl. unfold len at 1 2. rewrite Nat2Z.id, take_app_length, drop_app_add.
    rewrite app_assoc, <- len_app. rewrite IH; [by rewrite <- app_assoc|].
    rewrite length_drop. lia.
Qed.

Lemma concatChunks_concat chunks : concatChunks chunks = Ret (concat chunks).
Proof.
  unfold concatChunks. rewrite foldl_len.
  apply (set_chunks_spec []). rewrite length_replicate. unfold len. lia.
Qed.

(** ** Zstandard decompression

    The decoder is the [zstddec] package: loading it may fail, and decoding takes the size of the
    output buffer to allocate. *)
Class Zstd := {
  zstd_init : outcome unit;
  zstd_decode : bytes -> Z -> outcome bytes;
}.

(** The clamped output-size estimate of [decompress]. *)
Definition decompress_bound (n : Z) : Z :=
  let MAX := 1024 * 1024 * 64 in
  let MIN := 1024 * 1024 in
  let n := 30 * n in
  let n := if MAX <? n then MAX else n in
  if n <? MIN then MIN else n.

(** [decompress]: [ready] says whether the module's decoder has been created; every failure is
    caught and reported as [undefined]. *)
Definition decompress `{Zstd} (ready : bool) (compressedArray : bytes) : option bytes * bool :=
  match (if ready then Ret tt else zstd_init) with
  | Ret _ =>
      (match zstd_decode compressedArray (decompress_bound (len compressedArray)) with
       | Ret b => Some b | _ => None end, true)
  | _ => (None, ready)
  end.

(** What [decompress] makes of the bytes once the decoder is there. *)
Definition unpacked `{Zstd} (data : bytes) : option bytes :=
  match zstd_decode data (decompress_bound (len data)) with Ret b => Some b | _ => None end.
Lemma decompress_unpacked `{Zstd} ready data : zstd_init = Ret tt -> decompress ready data = (unpacked data, true).
Proof. intros Hz. unfold decompress. rewrite Hz. by destruct ready. Qed.

Lemma decompress_bound_range n :
  1024 * 1024 <= decompress_bound n <= 1024 * 1024 * 64.
Proof.
  unfold decompress_bound. repeat match goal with |- context [?a <? ?b] =>
    destruct (Z.ltb_spec a b) end; lia.
Qed.
