(* ===== verification/Base64.v ===== *)
(** * Base64 and text decoding

    The browser's [btoa], [atob] and [TextDecoder] as their standards define them, and the
    wrappers around them in [helpers/viewer-crypto.js] and [proto/message.ts]. *)
From Stdlib Require Import Strings.Byte Strings.Ascii.
From S2P Require Import Prelude JsStr.
Local Open Scope Z_scope.

(** ** The alphabet *)
Definition alphabet : string := "ABCDEFGHIJKLMNOPQRSTUVWXYZabcdefghijklmnopqrstuvwxyz0123456789+/".
Definition b64_char (v : Z) : ascii := default "A"%char (String.get (Z.to_nat v) alphabet).
Definition b64_val (c : ascii) : option Z :=
  let n := Z.of_nat (nat_of_ascii c) in
  if (65 <=? n) && (n <=? 90) then Some (n - 65)
  else if (97 <=? n) && (n <=? 122) then Some (n - 71)
  else if (48 <=? n) && (n <=? 57) then Some (n + 4)
  else if n =? 43 then Some 62
  else if n =? 47 then Some 63
  else None.

Definition sextet (v : Z) : Prop := 0 <= v < 64.
Lemma all_sextets (P : Z -> Prop) :
  Forall P (map Z.of_nat (seq 0 64)) -> forall v, sextet v -> P v.
Proof.
  intros H v Hv. rewrite Forall_forall in H. apply H. apply list_elem_of_fmap.
  exists (Z.to_nat v). unfold sextet in Hv. split; [lia|]. apply elem_of_seq. lia.
Qed.
Lemma b64_val_char v : sextet v -> b64_val (b64_char v) = Some v.
Proof. apply (all_sextets (fun v => b64_val (b64_char v) = Some v)). repeat constructor. Qed.

(** ** Bytes as groups of six bits *)
Fixpoint sextets (bs : bytes) : list Z :=
  match bs with
  | [] => []
  | [a] => let a := Z_of_byte a in [a / 4; a mod 4 * 16]
  | [a; b] => let a := Z_of_byte a in let b := Z_of_byte b in
      [a / 4; a mod 4 * 16 + b / 16; b mod 16 * 4]
  | a :: b :: c :: bs => let a := Z_of_byte a in let b := Z_of_byte b in let c := Z_of_byte c in
      a / 4 :: a mod 4 * 16 + b / 16 :: b mod 16 * 4 + c / 64 :: c mod 64 :: sextets bs
  end.
Fixpoint unsextets (vs : list Z) : bytes :=
  match vs with
  | v :: w :: x :: y :: vs =>
      byte_of_Z (v * 4 + w / 16) :: byte_of_Z (w mod 16 * 16 + x / 4) ::
      byte_of_Z (x mod 4 * 64 + y) :: unsextets vs
  | [v; w; x] => [byte_of_Z (v * 4 + w / 16); byte_of_Z (w mod 16 * 16 + x / 4)]
  | [v; w] => [byte_of_Z (v * 4 + w / 16)]
  | _ => []
  end.

(** Induction three bytes at a time. *)
Lemma bytes_ind3 (P : bytes -> Prop) :
  P [] -> (forall a, P [a]) -> (forall a b, P [a; b]) ->
  (forall a b c bs, P bs -> P (a :: b :: c :: bs)) -> forall bs, P bs.
Proof.
  intros H0 H1 H2 H3. fix IH 1. intros [|a [|b [|c bs]]]; [done..|]. apply H3, IH.
Qed.

Lemma byte_from z b : z = Z_of_byte b -> byte_of_Z z = b.
Proof. intros ->. apply byte_of_Z_of_byte. Qed.
Ltac byte_ranges := repeat match goal with
  | b : byte |- _ => lazymatch goal with
                     | _ : 0 <= Z_of_byte b < 256 |- _ => fail
                     | _ => pose proof (Z_of_byte_range b)
                     end
  end.

Lemma unsextets_sextets bs : unsextets (sextets bs) = bs.
Proof.
  induction bs as [|a|a b|a b c bs IH] using bytes_ind3; cbn [sextets unsextets];
    byte_ranges; repeat f_equal; rewrite ?IH; try done; apply byte_from;
    Z.to_euclidean_division_equations; lia.
Qed.
Lemma sextets_range bs : Forall sextet (sextets bs).
Proof.
  unfold sextet. induction bs as [|a|a b|a b c bs IH] using bytes_ind3; cbn [sextets];
    byte_ranges; repeat constructor; try done; Z.to_euclidean_division_equations; lia.
Qed.

(** ** [btoa] *)
Definition padding (bs : bytes) : list ascii :=
  match length bs mod 3 with 1%nat => ["="; "="]%char | 2%nat => ["="%char] | _ => [] end%nat.
Definition btoa (bs : bytes) : string :=
  string_of_list_ascii (map b64_char (sextets bs) ++ padding bs).

(** ** [atob]: the forgiving decoder *)
Definition is_ascii_whitespace (c : ascii) : bool :=
  match nat_of_ascii c with 9 | 10 | 12 | 13 | 32 => true | _ => false end%nat.
Definition invalid_character : jsval :=
  VError "InvalidCharacterError" "The string to be decoded is not correctly encoded.".
Definition strip_padding (cs : list ascii) : list ascii :=
  if (length cs mod 4 =? 0)%nat then
    match rev cs with
    | p :: cs1 =>
        if Ascii.eqb p "=" then
          match cs1 with
          | q :: cs2 => if Ascii.eqb q "=" then rev cs2 else rev cs1
          | [] => []
          end
        else cs
    | [] => cs
    end
  else cs.
Definition atob (s : string) : outcome bytes :=
  let cs := strip_padding (List.filter (fun c => negb (is_ascii_whitespace c)) (list_ascii_of_string s)) in
  if (length cs mod 4 =? 1)%nat then Throw invalid_character
  else match mapM b64_val cs with
       | Some vs => Ret (unsextets vs)
       | None => Throw invalid_character
       end.

Lemma sextets_length bs :
  (length (sextets bs) = 4 * (length bs / 3) + match length bs mod 3 with 1 => 2 | 2 => 3 | _ => 0 end)%nat.
Proof.
  induction bs as [|a|a b|a b c bs IH] using bytes_ind3; [done..|].
  cbn [sextets length]. rewrite IH. change (S (S (S (length bs)))) with (3 + length bs)%nat.
  replace (3 + length bs)%nat with (length bs + 1 * 3)%nat by lia.
  rewrite Nat.Div0.mod_add, Nat.div_add by lia. lia.
Qed.

Definition b64_text (cs : list ascii) : Prop :=
  Forall (fun c => Ascii.eqb c "=" = false /\ is_ascii_whitespace c = false) cs.
Lemma b64_text_chars vs : Forall sextet vs -> b64_text (map b64_char vs).
Proof.
  intros H. apply Forall_map. eapply Forall_impl; [exact H|]. cbn. 
  apply (all_sextets (fun v => Ascii.eqb (b64_char v) "=" = false /\ is_ascii_whitespace (b64_char v) = false)).
  repeat constructor.
Qed.
Lemma b64_text_rev_head cs c cs' : b64_text cs -> rev cs = c :: cs' -> Ascii.eqb c "=" = false.
Proof.
  unfold b64_text. rewrite <- (rev_involutive cs) at 1. intros H E. rewrite E in H. cbn in H.
  apply Forall_app in H as [_ H]. by apply Forall_singleton in H as [? _].
Qed.
Lemma strip_padding_none cs : b64_text cs -> strip_padding cs = cs.
Proof.
  intros H. unfold strip_padding. destruct (_ =? _)%nat; [|done].
  destruct (rev cs) as [|c cs'] eqn:E; [done|]. by rewrite (b64_text_rev_head _ _ _ H E).
Qed.
Lemma strip_padding_one cs :
  b64_text cs -> (length cs mod 4 = 3)%nat -> strip_padding (cs ++ ["="%char]) = cs.
Proof.
  intros H Hl. unfold strip_padding. rewrite length_app, rev_app_distr. cbn [length rev app].
  replace ((length cs + 1) mod 4 =? 0)%nat with true
    by (symmetry; apply Nat.eqb_eq; by rewrite Nat.Div0.add_mod, Hl).
  destruct (rev cs) as [|c cs'] eqn:E.
  - apply (f_equal (@rev _)) in E. rewrite rev_involutive in E. by subst.
  - cbn. rewrite (b64_text_rev_head _ _ _ H E). change (rev cs' ++ [c]) with (rev (c :: cs')).
    by rewrite <- E, rev_involutive.
Qed.
Lemma strip_padding_two cs :
  (length cs mod 4 = 2)%nat -> strip_padding (cs ++ ["="; "="]%char) = cs.
Proof.
  intros Hl. unfold strip_padding. rewrite length_app, rev_app_distr. cbn [length rev app].
  replace ((length cs + 2) mod 4 =? 0)%nat with true
    by (symmetry; apply Nat.eqb_eq; by rewrite Nat.Div0.add_mod, Hl).
  cbn. apply rev_involutive.
Qed.
Lemma strip_padding_btoa bs :
  strip_padding (map b64_char (sextets bs) ++ padding bs) = map b64_char (sextets bs).
Proof.
  pose proof (b64_text_chars _ (sextets_range bs)) as Ht. pose proof (sextets_length bs) as Hl.
  pose proof (Nat.mod_upper_bound (length bs) 3). unfold padding.
  destruct (length bs mod 3)%nat as [|[|[|]]]; [| | |lia].
  - rewrite app_nil_r. by apply strip_padding_none.
  - apply strip_padding_two. rewrite length_map, Hl, Nat.mul_comm, Nat.add_comm. by rewrite Nat.Div0.mod_add.
  - apply strip_padding_one; [done|]. rewrite length_map, Hl, Nat.mul_comm, Nat.add_comm. by rewrite Nat.Div0.mod_add.
Qed.

Lemma b64_vals_chars vs : Forall sextet vs -> mapM b64_val (map b64_char vs) = Some vs.
Proof.
  induction 1 as [|v vs Hv _ IH]; [done|]. cbn [map mapM]. rewrite b64_val_char by done. cbn.
  cbn in IH. by rewrite IH.
Qed.

Lemma filter_text cs : b64_text cs -> List.filter (fun c => negb (is_ascii_whitespace c)) cs = cs.
Proof. induction 1 as [|c cs [_ Hc] _ IH]; [done|]. cbn. by rewrite Hc, IH. Qed.
Lemma filter_padding bs : List.filter (fun c => negb (is_ascii_whitespace c)) (padding bs) = padding bs.
Proof. unfold padding. by destruct (length bs mod 3)%nat as [|[|[|]]]. Qed.

(** Decoding undoes encoding, for every byte string. *)
Lemma atob_btoa bs : atob (btoa bs) = Ret bs.
Proof.
  unfold atob, btoa. rewrite list_ascii_of_string_of_list_ascii, List.filter_app.
  pose proof (b64_text_chars _ (sextets_range bs)) as Ht.
  rewrite filter_text, filter_padding, strip_padding_btoa by done.
  rewrite b64_vals_chars, unsextets_sextets by apply sextets_range.
  rewrite length_map, sextets_length, Nat.mul_comm, Nat.add_comm, Nat.Div0.mod_add.
  pose proof (Nat.mod_upper_bound (length bs) 3).
  by destruct (length bs mod 3)%nat as [|[|[|]]].
Qed.

(** A JS string whose characters are [bs], one byte each, in its UTF-8 form. *)
Definition binary_string (bs : bytes) : string :=
  string_of_list_byte (concat (map (fun b => let z := Z_of_byte b in
    if z <? 128 then [b] else [byte_of_Z (192 + z / 64); byte_of_Z (128 + z mod 64)]) bs)).

(** ** [TextDecoder.decode]: UTF-8 with replacement, a byte order mark dropped

    [lead b]: how many continuation bytes follow a leading [b], and the range of the first. *)
Definition lead (b : byte) : option (nat * Z * Z) :=
  let z := Z_of_byte b in
  if z <? 128 then Some (0%nat, 128, 191)
  else if (194 <=? z) && (z <=? 223) then Some (1%nat, 128, 191)
  else if (224 <=? z) && (z <=? 239) then
    Some (2%nat, if z =? 224 then 160 else 128, if z =? 237 then 159 else 191)
  else if (240 <=? z) && (z <=? 244) then
    Some (3%nat, if z =? 240 then 144 else 128, if z =? 244 then 143 else 191)
  else None.
Definition replacement : bytes := [xef; xbf; xbd].
Definition within (lo hi : Z) (b : byte) : bool := (lo <=? Z_of_byte b) && (Z_of_byte b <=? hi).

Fixpoint decode_utf8 (need : nat) (lo hi : Z) (seen bs : bytes) : bytes :=
  match bs with
  | [] => match need with O => [] | S _ => replacement end
  | b :: bs =>
      let start :=
        match lead b with
        | None => replacement ++ decode_utf8 0 0 0 [] bs
        | Some (O, _, _) => b :: decode_utf8 0 0 0 [] bs
        | Some (need, lo, hi) => decode_utf8 need lo hi [b] bs
        end in
      match need with
      | O => start
      | S need =>
          if within lo hi b then
            match need with
            | O => seen ++ b :: decode_utf8 0 0 0 [] bs
            | S _ => decode_utf8 need 128 191 (seen ++ [b]) bs
            end
          else replacement ++ start
      end
  end.
Definition byte_order_mark : bytes := [xef; xbb; xbf].
Definition TextDecoder_decode (bs : bytes) : string :=
  let text := decode_utf8 0 0 0 [] bs in
  string_of_list_byte (if bool_decide (take 3 text = byte_order_mark) then drop 3 text else text).

(** The well-formed encodings of one character, and text made of them. *)
Definition utf8_char (c : bytes) : Prop :=
  match c with
  | [] => False
  | b :: rest => exists n lo hi, lead b = Some (n, lo, hi) /\ length rest = n /\
      match rest with
      | [] => True
      | b1 :: rest => within lo hi b1 = true /\ Forall (fun b => within 128 191 b = true) rest
      end
  end.
Definition utf8_text (s : string) : Prop :=
  (exists cs, Forall utf8_char cs /\ list_byte_of_string s = concat cs) /\
  take 3 (list_byte_of_string s) <> byte_order_mark.

Lemma decode_utf8_char c bs : utf8_char c -> decode_utf8 0 0 0 [] (c ++ bs) = c ++ decode_utf8 0 0 0 [] bs.
Proof.
  destruct c as [|b rest]; [done|]. intros (n & lo & hi & Hl & Hn & Hr). cbn [app decode_utf8].
  rewrite Hl. destruct n as [|n]; [by destruct rest|]. destruct rest as [|b1 rest]; [done|].
  destruct Hr as [H1 Hr]. assert (Hn3 : (n <= 2)%nat).
  { unfold lead in Hl. repeat case_match; simplify_eq; lia. }
  injection Hn as Hn. destruct n as [|[|[|]]]; [| | |lia];
    destruct rest as [|b2 [|b3 [|]]]; try discriminate;
    repeat match goal with H : Forall _ (_ :: _) |- _ => apply Forall_cons in H as [? H] end;
    cbn [app decode_utf8]; rewrite H1;
    repeat match goal with H : within 128 191 _ = true |- _ => rewrite H; clear H end; done.
Qed.

Lemma TextDecoder_text s : utf8_text s -> TextDecoder_decode (list_byte_of_string s) = s.
Proof.
  intros [(cs & Hcs & E) Hbom]. unfold TextDecoder_decode.
  assert (H : decode_utf8 0 0 0 [] (list_byte_of_string s) = list_byte_of_string s).
  { rewrite E. clear -Hcs. induction Hcs as [|c cs Hc _ IH]; [done|]. cbn. by rewrite decode_utf8_char, IH. }
  cbv zeta. rewrite H, bool_decide_false by done. apply string_of_list_byte_of_string.
Qed.

(** ASCII text is text. *)
Definition is_ascii_byte (b : byte) : bool := Z_of_byte b <? 128.
Lemma ascii_text s : forallb is_ascii_byte (list_byte_of_string s) = true -> utf8_text s.
Proof.
  intros H. split.
  - exists (map (fun b => [b]) (list_byte_of_string s)). split; [|clear H; induction (list_byte_of_string s) as [|b bs IH]; [done|by cbn; rewrite <- IH]].
    apply Forall_map, Forall_forall. intros b Hb. rewrite forallb_forall in H.
    specialize (H b ltac:(by apply list_elem_of_In)). unfold is_ascii_byte in H. cbn. unfold lead. rewrite H.
    by eexists _, _, _.
  - intros E. destruct (list_byte_of_string s) as [|b bs]; [done|]. injection E as -> _. done.
Qed.
