(* ===== verification/ProtoWire.v ===== *)
(** * The protobuf wire layer

    The generated codecs of [proto/message.ts] and [proto/rendezvous.ts] are written against
    the protobufjs [Writer] and [Reader], which are not part of the repository.  This file states
    the interface those codecs use (class [ProtobufRuntime]), the documented behaviour they rely
    on (class [ProtobufLaws]) and the one loop every generated [decode] contains
    ([read_fields]), with the lemmas the round trips of all message types share.

    A writer is represented by the bytes its calls append, so [fork()] ... [ldelim()] is a length
    prefix followed by the bytes written in between ([delim]); a reader by the bytes it has not
    consumed, so [reader.pos < end] is a comparison of remaining lengths. *)
From Stdlib Require Import Floats.SpecFloat.
From S2P Require Import Prelude.

(** ** The runtime interface *)

(** One scalar kind: what [writer.kind(v)] appends and what [reader.kind()] returns. *)
Record scalar (A : Type) := Scalar {
  wr : A -> bytes;
  rd : bytes -> outcome (A * bytes);
}.
Arguments Scalar {A}.
Arguments wr {A}.
Arguments rd {A}.

Class ProtobufRuntime := {
  pb_uint32 : scalar Z;
  pb_int32 : scalar Z;
  pb_sint32 : scalar Z;
  pb_uint64 : scalar Z;
  pb_int64 : scalar Z;
  pb_bool : scalar bool;
  pb_double : scalar spec_float;
  pb_string : scalar string;
  pb_bytes : scalar bytes;
  skipType : Z -> bytes -> outcome bytes;
}.

(** A result that ends, and does not hand back more input than it was given. *)
Definition shrinking {A} (r : bytes) (o : outcome (A * bytes)) : Prop :=
  terminates o /\ forall a r', o = Ret (a, r') -> len r' <= len r.

(** What the codecs rely on for one kind, on the values satisfying [ok]. *)
Record scalar_ok {A} (s : scalar A) (ok : A -> Prop) : Prop := {
  rd_wr : forall v r, ok v -> rd s (wr s v ++ r) = Ret (v, r);
  rd_shrinking : forall r, shrinking r (rd s r);
}.

Definition in_uint32 (z : Z) : Prop := 0 <= z < 2 ^ 32.
Definition in_int32 (z : Z) : Prop := - 2 ^ 31 <= z < 2 ^ 31.
Definition in_uint64 (z : Z) : Prop := 0 <= z < 2 ^ 64.
Definition in_int64 (z : Z) : Prop := - 2 ^ 63 <= z < 2 ^ 63.
Definition short_string (s : string) : Prop := Z.of_nat (String.length s) < 2 ^ 32.
Definition short_bytes (b : bytes) : Prop := len b < 2 ^ 32.

Class ProtobufLaws `{ProtobufRuntime} : Prop := {
  uint32_ok : scalar_ok pb_uint32 in_uint32;
  int32_ok : scalar_ok pb_int32 in_int32;
  sint32_ok : scalar_ok pb_sint32 in_int32;
  uint64_ok : scalar_ok pb_uint64 in_uint64;
  int64_ok : scalar_ok pb_int64 in_int64;
  bool_ok : scalar_ok pb_bool (fun _ => True);
  double_ok : scalar_ok pb_double (fun _ => True);
  string_ok : scalar_ok pb_string short_string;
  bytes_ok : scalar_ok pb_bytes short_bytes;
  (** reading a varint consumes at least one byte *)
  uint32_progress : forall r v r', rd pb_uint32 r = Ret (v, r') -> len r' < len r;
  int32_progress : forall r v r', rd pb_int32 r = Ret (v, r') -> len r' < len r;
  skipType_shrinking : forall t r, terminates (skipType t r) /\
    forall r', skipType t r = Ret r' -> len r' <= len r;
}.

(** A member that may be [undefined] *)
Abbreviation maybe := Datatypes.option.

(** [message.scale !== 0] compares doubles: both zeros equal 0. *)
Definition is_zero (x : spec_float) : bool :=
  match x with S754_zero _ => true | _ => false end.
Definition not_neg_zero (x : spec_float) : Prop := x <> S754_zero true.

Section Wire.
Context `{PB : ProtobufRuntime}.

(** ** 64-bit integers as JS numbers: [longToNumber] *)
Definition longToNumber (long : Z) : outcome Z :=
  if MAX_SAFE_INTEGER <? long then
    Throw (VError "Error" "Value is larger than Number.MAX_SAFE_INTEGER")
  else if long <? - MAX_SAFE_INTEGER then
    Throw (VError "Error" "Value is smaller than Number.MIN_SAFE_INTEGER")
  else Ret long.

Definition rd_number (s : scalar Z) (r : bytes) : outcome (Z * bytes) :=
  '(v, r) ← rd s r; n ← longToNumber v; mret (n, r).
Definition uint64_number : scalar Z := {| wr := wr pb_uint64; rd := rd_number pb_uint64 |}.
Definition int64_number : scalar Z := {| wr := wr pb_int64; rd := rd_number pb_int64 |}.
Definition safe_uint (z : Z) : Prop := 0 <= z <= MAX_SAFE_INTEGER.
Definition safe_int (z : Z) : Prop := - MAX_SAFE_INTEGER <= z <= MAX_SAFE_INTEGER.

(** ** Writing *)

(** [writer.uint32(tag)] followed by the value's bytes *)
Definition tagged (tag : Z) (bs : bytes) : bytes := wr pb_uint32 tag ++ bs.
(** [writer.fork()] ... [ldelim()] *)
Definition delim (bs : bytes) : bytes := wr pb_uint32 (len bs) ++ bs.
(** [if (!c) { write bs }] *)
Definition unless (c : bool) (bs : bytes) : bytes := if c then [] else bs.
(** [if (v !== undefined) { write v }] *)
Definition if_set {A} (v : option A) (f : A -> bytes) : bytes :=
  match v with None => [] | Some x => f x end.
(** [for (const v of vs) { write v }] *)
Definition each {A} (vs : list A) (f : A -> bytes) : bytes := concat (map f vs).

(** ** The decode loop *)

Inductive field_step (M : Type) :=
  (** [continue] after reading a field *)
  | Continue (o : outcome (M * bytes))
  (** [break] out of the [switch]: the field is unknown *)
  | Break.
Arguments Continue {M}.
Arguments Break {M}.

(** [while (reader.pos < end) { const tag = reader.uint32(); switch (tag >>> 3) ... }]:
    [stop] is the number of bytes that lie after [end]. *)
Fixpoint read_fields {M} (field : Z -> bytes -> M -> field_step M) (fuel : nat)
    (stop : Z) (r : bytes) (m : M) : outcome (M * bytes) :=
  match fuel with
  | O => OutOfFuel
  | S fuel =>
      if len r <=? stop then Ret (m, r) else
      '(tag, r) ← rd pb_uint32 r;
      match field tag r m with
      | Continue o => '(m, r) ← o; read_fields field fuel stop r m
      | Break =>
          if (Z.land tag 7 =? 4) || (tag =? 0) then Ret (m, r) else
          r ← skipType (Z.land tag 7) r; read_fields field fuel stop r m
      end
  end.

(** A [decode] call: a byte per field is the most the loop can need. *)
Definition decode_with {M} (field : Z -> bytes -> M -> field_step M) (base : M)
    (stop : Z) (r : bytes) : outcome (M * bytes) :=
  read_fields field (S (length r)) stop r base.

(** [message.f = reader.kind(); continue;] *)
Definition fld {A M} (s : scalar A) (set : A -> M) (r : bytes) : outcome (M * bytes) :=
  '(v, r) ← rd s r; mret (set v, r).

(** [T.decode(reader, reader.uint32())] as the reading side of an embedded message *)
Definition embedded {M} (encode : M -> bytes) (decode : Z -> bytes -> outcome (M * bytes)) :
    scalar M :=
  {| wr := fun m => delim (encode m);
     rd := fun r => '(n, r) ← rd pb_uint32 r; decode (len r - n) r |}.

(** [const end2 = reader.uint32() + reader.pos; while (reader.pos < end2) push(reader.kind());] *)
Fixpoint read_packed {A} (s : scalar A) (fuel : nat) (stop : Z) (r : bytes) (acc : list A) :
    outcome (list A * bytes) :=
  match fuel with
  | O => OutOfFuel
  | S fuel =>
      if len r <=? stop then Ret (acc, r) else
      '(v, r) ← rd s r; read_packed s fuel stop r (acc ++ [v])
  end.

(** A packed repeated field as a scalar kind: reading appends to [acc]. *)
Definition packed {A} (s : scalar A) (acc : list A) : scalar (list A) :=
  {| wr := fun vs => delim (each vs (wr s));
     rd := fun r => '(n, r) ← rd pb_uint32 r; read_packed s (S (length r)) (len r - n) r acc |}.

End Wire.
Arguments Continue {M}.
Arguments Break {M}.

(** ** Laws of the loop *)

Lemma shrinking_ret {A} (a : A) r r' : len r' <= len r -> shrinking r (Ret (a, r')).
Proof. intros H. split; [done|]. by intros ? ? [= <- <-]. Qed.

Lemma shrinking_throw {A} r e : shrinking (A:=A) r (Throw e).
Proof. split; [done|]. by intros ? ? ?. Qed.

Lemma shrinking_bind {A B} r (o : outcome (A * bytes)) (f : A * bytes -> outcome (B * bytes)) :
  shrinking r o ->
  (forall a r', len r' <= len r -> shrinking r' (f (a, r'))) ->
  shrinking r (o ≫= f).
Proof.
  intros [Ht Hs] Hf. destruct o as [[a r']|e|]; [|apply shrinking_throw|done].
  specialize (Hs _ _ eq_refl). destruct (Hf a r' Hs) as [Ht' Hs']. split; [done|].
  intros b r'' E. specialize (Hs' _ _ E). lia.
Qed.

(** A step function that ends and never un-reads. *)
Definition field_shrinks {M} (field : Z -> bytes -> M -> field_step M) : Prop :=
  forall tag r m o, field tag r m = Continue o -> shrinking r o.

(** A nested [decode] that ends and never un-reads. *)
Definition decoder_shrinks {M} (decode : Z -> bytes -> outcome (M * bytes)) : Prop :=
  forall stop r, shrinking r (decode stop r).

Section Laws.
Context `{PL : ProtobufLaws}.

Lemma fld_shrinking {A M} (s : scalar A) ok (set : A -> M) r :
  scalar_ok s ok -> shrinking r (fld s set r).
Proof.
  intros Hs. unfold fld. apply shrinking_bind; [apply (rd_shrinking _ _ Hs)|].
  intros a r' Hr. by apply shrinking_ret.
Qed.

Lemma read_packed_spec {A} (s : scalar A) ok fuel stop r acc :
  scalar_ok s ok -> (forall r v r', rd s r = Ret (v, r') -> len r' < len r) ->
  len r < Z.of_nat fuel -> shrinking r (read_packed s fuel stop r acc).
Proof.
  intros Hs Hp. revert r acc. induction fuel as [|fuel IH]; intros r acc Hf.
  { pose proof (len_nonneg r). lia. }
  cbn [read_packed]. destruct (len r <=? stop); [by apply shrinking_ret|].
  destruct (rd_shrinking _ _ Hs r) as [Ht Hr].
  destruct (rd s r) as [[v r']|e|] eqn:E; js_simpl; [|apply shrinking_throw|done].
  specialize (Hp _ _ _ E). destruct (IH r' (acc ++ [v]) ltac:(lia)) as [Ht' Hs'].
  split; [done|]. intros a r'' Ha. specialize (Hs' _ _ Ha). lia.
Qed.

Section Loop.
Context {M : Type} (field : Z -> bytes -> M -> field_step M).
Hypothesis Hfield : field_shrinks field.

(** Enough fuel is a byte count: the loop then ends, and more fuel changes nothing. *)
Lemma read_fields_ends fuel stop r m :
  len r < Z.of_nat fuel -> shrinking r (read_fields field fuel stop r m).
Proof.
  revert r m. induction fuel as [|fuel IH]; intros r m Hf.
  { pose proof (len_nonneg r). lia. }
  cbn [read_fields]. destruct (len r <=? stop); [by apply shrinking_ret|].
  destruct (rd_shrinking _ _ uint32_ok r) as [Ht _].
  destruct (rd pb_uint32 r) as [[tag r1]|e|] eqn:E; js_simpl; [|apply shrinking_throw|done].
  apply uint32_progress in E. destruct (field tag r1 m) as [o|] eqn:Ef.
  - apply Hfield in Ef as [Ho Ho'].
    destruct o as [[m' r2]|e|]; [|apply shrinking_throw|done]. specialize (Ho' _ _ eq_refl).
    destruct (IH r2 m' ltac:(lia)) as [Ht' Hs']. split; [done|].
    intros a r'' Ha. specialize (Hs' _ _ Ha). lia.
  - destruct ((Z.land tag 7 =? 4) || (tag =? 0)); [apply shrinking_ret; lia|].
    destruct (skipType_shrinking (Z.land tag 7) r1) as [Hk Hk'].
    destruct (skipType (Z.land tag 7) r1) as [r2|e|]; [|apply shrinking_throw|done].
    specialize (Hk' _ eq_refl). destruct (IH r2 m ltac:(lia)) as [Ht' Hs']. split; [done|].
    intros a r'' Ha. specialize (Hs' _ _ Ha). lia.
Qed.

Lemma read_fields_fuel fuel fuel' stop r m :
  len r < Z.of_nat fuel -> len r < Z.of_nat fuel' ->
  read_fields field fuel stop r m = read_fields field fuel' stop r m.
Proof.
  revert fuel' r m. induction fuel as [|fuel IH]; intros fuel' r m Hf Hf'.
  { pose proof (len_nonneg r). lia. }
  destruct fuel' as [|fuel']; [pose proof (len_nonneg r); lia|].
  cbn [read_fields]. destruct (len r <=? stop); [done|].
  destruct (rd pb_uint32 r) as [[tag r1]|e|] eqn:E; js_simpl; [|done..].
  apply uint32_progress in E. destruct (field tag r1 m) as [o|] eqn:Ef.
  - apply Hfield in Ef as [_ Ho']. destruct o as [[m' r2]|e|]; [|done..].
    specialize (Ho' _ _ eq_refl). apply IH; lia.
  - destruct ((Z.land tag 7 =? 4) || (tag =? 0)); [done|].
    destruct (skipType_shrinking (Z.land tag 7) r1) as [_ Hk'].
    destruct (skipType (Z.land tag 7) r1) as [r2|e|]; [|done..].
    specialize (Hk' _ eq_refl). apply IH; lia.
Qed.

Lemma decode_with_shrinks base : decoder_shrinks (decode_with field base).
Proof. intros stop r. unfold decode_with. apply read_fields_ends. unfold len. lia. Qed.

(** The loop on all remaining input, with fuel hidden. *)
Definition loop (stop : Z) (r : bytes) (m : M) : outcome (M * bytes) :=
  read_fields field (S (length r)) stop r m.

Lemma loop_end stop r m : len r = stop -> loop stop r m = Ret (m, r).
Proof. intros <-. unfold loop. cbn [read_fields]. by rewrite Z.leb_refl. Qed.

Lemma wr_uint32_cons tag : in_uint32 tag -> 1 <= len (wr pb_uint32 tag).
Proof.
  intros Ht. pose proof (rd_wr _ _ uint32_ok tag [] Ht) as E.
  apply uint32_progress in E. rewrite app_nil_r, len_nil in E. lia.
Qed.

(** One iteration that consumes a tagged field. *)
Lemma loop_field stop tag bs r m m' :
  in_uint32 tag -> stop <= len r ->
  field tag (bs ++ r) m = Continue (Ret (m', r)) ->
  loop stop (tagged tag bs ++ r) m = loop stop r m'.
Proof.
  intros Ht Hs Hf. unfold loop at 1, tagged. pose proof (wr_uint32_cons tag Ht) as Hw.
  cbn [read_fields]. rewrite !len_app. pose proof (len_nonneg bs).
  destruct (Z.leb_spec (len (wr pb_uint32 tag) + len bs + len r) stop); [lia|].
  rewrite <- (app_assoc _ bs r), (rd_wr _ _ uint32_ok) by done. js_simpl. rewrite Hf.
  js_simpl. unfold loop. apply read_fields_fuel; unfold len in *; rewrite ?length_app; lia.
Qed.

(** An unknown field is skipped. *)
Lemma loop_unknown stop tag bs r m :
  in_uint32 tag -> stop <= len r -> field tag (bs ++ r) m = Break ->
  Z.land tag 7 <> 4 -> tag <> 0 -> skipType (Z.land tag 7) (bs ++ r) = Ret r ->
  loop stop (tagged tag bs ++ r) m = loop stop r m.
Proof.
  intros Ht Hs Hf H4 H0 Hk. unfold loop at 1, tagged. pose proof (wr_uint32_cons tag Ht) as Hw.
  cbn [read_fields]. rewrite !len_app. pose proof (len_nonneg bs).
  destruct (Z.leb_spec (len (wr pb_uint32 tag) + len bs + len r) stop); [lia|].
  rewrite <- (app_assoc _ bs r), (rd_wr _ _ uint32_ok) by done. js_simpl. rewrite Hf.
  destruct (Z.eqb_spec (Z.land tag 7) 4); [done|]. destruct (Z.eqb_spec tag 0); [done|].
  cbn [orb]. rewrite Hk. js_simpl.
  unfold loop. apply read_fields_fuel; unfold len in *; rewrite ?length_app; lia.
Qed.

(** A singular field: omitted when it has its default value. *)
Lemma loop_scalar {A} (upd : A -> M -> M) (s : scalar A) ok stop tag (c : bool) v r m :
  scalar_ok s ok -> ok v -> in_uint32 tag -> stop <= len r ->
  (forall r, field tag r m = Continue (fld s (fun v => upd v m) r)) ->
  (c = true -> upd v m = m) ->
  loop stop (unless c (tagged tag (wr s v)) ++ r) m = loop stop r (upd v m).
Proof.
  intros Hs Hv Ht Hr Hf Hc. destruct c; cbn [unless].
  { by rewrite Hc. }
  apply loop_field; [done..|]. rewrite Hf. unfold fld. by rewrite (rd_wr _ _ Hs).
Qed.

(** A member that may be undefined. *)
Lemma loop_opt {A} (upd : option A -> M -> M) (s : scalar A) ok stop tag v r m :
  scalar_ok s ok -> from_option ok True v -> in_uint32 tag -> stop <= len r ->
  (forall r, field tag r m = Continue (fld s (fun v => upd (Some v) m) r)) ->
  upd None m = m ->
  loop stop (if_set v (fun x => tagged tag (wr s x)) ++ r) m = loop stop r (upd v m).
Proof.
  intros Hs Hv Ht Hr Hf Hc. destruct v as [x|]; cbn [if_set]; [|by rewrite Hc].
  apply loop_field; [done..|]. rewrite Hf. unfold fld. by rewrite (rd_wr _ _ Hs).
Qed.

(** A repeated field of embedded messages (or other unpacked kind). *)
Lemma loop_each {A} (upd : list A -> M -> M) (s : scalar A) ok stop tag vs r m :
  scalar_ok s ok -> Forall ok vs -> in_uint32 tag -> stop <= len r ->
  (forall r pre, field tag r (upd pre m) =
     Continue (fld s (fun v => upd (pre ++ [v]) m) r)) ->
  upd [] m = m ->
  loop stop (each vs (fun x => tagged tag (wr s x)) ++ r) m = loop stop r (upd vs m).
Proof.
  intros Hs Hv Ht Hr Hf Hn.
  enough (Hpre : forall pre, loop stop (each vs (fun x => tagged tag (wr s x)) ++ r) (upd pre m)
                          = loop stop r (upd (pre ++ vs) m)) by (rewrite <- Hn at 1; apply Hpre).
  induction Hv as [|v vs Hv _ IH]; intros pre; cbn [each map concat].
  { by rewrite app_nil_r. }
  rewrite <- app_assoc. rewrite (loop_field _ _ _ _ _ (upd (pre ++ [v]) m)).
  - by rewrite IH, <- app_assoc.
  - done.
  - fold (each vs (fun x => tagged tag (wr s x))). rewrite len_app.
    pose proof (len_nonneg (each vs (fun x => tagged tag (wr s x)))). lia.
  - rewrite Hf. unfold fld. by rewrite (rd_wr _ _ Hs).
Qed.

(** A packed field is written even when it is empty. *)
Lemma loop_packed {A} (upd : list A -> M -> M) (s : scalar A) ok stop tag vs r m :
  (forall vs r, Forall ok vs -> short_bytes (each vs (wr s)) ->
     rd (packed s []) (wr (packed s []) vs ++ r) = Ret (vs, r)) ->
  Forall ok vs -> short_bytes (each vs (wr s)) -> in_uint32 tag -> stop <= len r ->
  (forall r, field tag r m = Continue (fld (packed s []) (fun vs => upd vs m) r)) ->
  loop stop (tagged tag (wr (packed s []) vs) ++ r) m = loop stop r (upd vs m).
Proof.
  intros Hs Hv Hb Ht Hr Hf. apply loop_field; [done..|].
  rewrite Hf. unfold fld. by rewrite Hs.
Qed.

End Loop.

Lemma longToNumber_safe z : safe_int z -> longToNumber z = Ret z.
Proof.
  unfold safe_int, longToNumber. intros [? ?].
  destruct (Z.ltb_spec MAX_SAFE_INTEGER z); [lia|].
  destruct (Z.ltb_spec z (- MAX_SAFE_INTEGER)); [lia|done].
Qed.

Lemma longToNumber_shrinking z r : shrinking r (n ← longToNumber z; mret (n, r)).
Proof.
  unfold longToNumber. repeat case_match; js_simpl;
    auto using shrinking_throw; apply shrinking_ret; lia.
Qed.

Lemma number_ok s (ok safe : Z -> Prop) :
  scalar_ok s ok -> (forall z, safe z -> ok z /\ safe_int z) ->
  scalar_ok {| wr := wr s; rd := rd_number s |} safe.
Proof.
  intros Hs Hsafe. split; cbn.
  - intros v r Hv. destruct (Hsafe v Hv). unfold rd_number.
    rewrite (rd_wr _ _ Hs) by done. js_simpl. by rewrite longToNumber_safe.
  - intros r. unfold rd_number. apply shrinking_bind; [apply (rd_shrinking _ _ Hs)|].
    intros. apply longToNumber_shrinking.
Qed.

Lemma uint64_number_ok : scalar_ok uint64_number safe_uint.
Proof.
  apply (number_ok _ _ _ uint64_ok). unfold safe_uint, safe_int, in_uint64, MAX_SAFE_INTEGER. lia.
Qed.
Lemma int64_number_ok : scalar_ok int64_number safe_int.
Proof.
  apply (number_ok _ _ _ int64_ok). unfold safe_int, in_int64, MAX_SAFE_INTEGER. lia.
Qed.

(** An embedded message is a scalar kind as soon as its own codec round-trips. *)
Lemma embedded_ok {M} (encode : M -> bytes) (decode : Z -> bytes -> outcome (M * bytes)) ok :
  decoder_shrinks decode ->
  (forall m r, ok m -> decode (len r) (encode m ++ r) = Ret (m, r)) ->
  scalar_ok (embedded encode decode) (fun m => ok m /\ short_bytes (encode m)).
Proof.
  intros Hd Hrt. split; cbn.
  - intros m r [Hm Hb]. unfold delim. rewrite <- app_assoc, (rd_wr _ _ uint32_ok); js_simpl.
    + replace (len (encode m ++ r) - len (encode m)) with (len r) by (rewrite len_app; lia).
      by apply Hrt.
    + unfold short_bytes in Hb. pose proof (len_nonneg (encode m)). unfold in_uint32. lia.
  - intros r. apply shrinking_bind; [apply (rd_shrinking _ _ uint32_ok)|]. intros. apply Hd.
Qed.

Lemma read_packed_each {A} (s : scalar A) ok fuel vs r acc :
  scalar_ok s ok -> (forall r v r', rd s r = Ret (v, r') -> len r' < len r) ->
  Forall ok vs -> (length vs < fuel)%nat ->
  read_packed s fuel (len r) (each vs (wr s) ++ r) acc = Ret (acc ++ vs, r).
Proof.
  intros Hs Hp Hv. revert fuel acc. induction Hv as [|v vs Hv _ IH]; intros fuel acc Hf.
  - destruct fuel; [cbn in Hf; lia|]. cbn. rewrite Z.leb_refl. by rewrite app_nil_r.
  - destruct fuel as [|fuel]; [cbn in Hf; lia|]. cbn [read_packed each map concat].
    fold (each vs (wr s)). rewrite <- app_assoc.
    pose proof (rd_wr _ _ Hs v (each vs (wr s) ++ r) Hv) as E.
    pose proof (Hp _ _ _ E) as Hlt. rewrite (len_app (each vs (wr s)) r) in Hlt.
    pose proof (len_nonneg (each vs (wr s))).
    destruct (Z.leb_spec (len (wr s v ++ each vs (wr s) ++ r)) (len r)); [lia|].
    rewrite E. js_simpl. rewrite IH by (cbn in Hf; lia). by rewrite <- app_assoc.
Qed.

Lemma len_each_ge {A} (s : scalar A) ok vs :
  scalar_ok s ok -> (forall r v r', rd s r = Ret (v, r') -> len r' < len r) ->
  Forall ok vs -> len vs <= len (each vs (wr s)).
Proof.
  intros Hs Hp Hv. induction Hv as [|v vs Hv _ IH]; cbn; [done|].
  pose proof (rd_wr _ _ Hs v [] Hv) as E. apply Hp in E.
  rewrite app_nil_r, len_nil in E. rewrite len_app, len_cons. unfold each in *. lia.
Qed.

Lemma packed_ok {A} (s : scalar A) ok acc :
  scalar_ok s ok -> (forall r v r', rd s r = Ret (v, r') -> len r' < len r) ->
  forall vs r, Forall ok vs -> short_bytes (each vs (wr s)) ->
  rd (packed s acc) (wr (packed s acc) vs ++ r) = Ret (acc ++ vs, r).
Proof.
  intros Hs Hp vs r Hv Hb. cbn [packed wr rd]. unfold delim. rewrite <- app_assoc, (rd_wr _ _ uint32_ok); js_simpl.
  - replace (len (each vs (wr s) ++ r) - len (each vs (wr s))) with (len r) by (rewrite len_app; lia).
    apply (read_packed_each s ok); [done..|].
    pose proof (len_each_ge s ok vs Hs Hp Hv) as Hl. unfold len in Hl. rewrite length_app. lia.
  - unfold short_bytes in Hb. pose proof (len_nonneg (each vs (wr s))). unfold in_uint32. lia.
Qed.

Lemma packed_shrinking {A} (s : scalar A) ok acc r :
  scalar_ok s ok -> (forall r v r', rd s r = Ret (v, r') -> len r' < len r) ->
  shrinking r (rd (packed s acc) r).
Proof.
  intros Hs Hp. cbn [packed rd]. apply shrinking_bind; [apply (rd_shrinking _ _ uint32_ok)|].
  intros n r' _. apply (read_packed_spec s ok); [done..|]. unfold len. lia.
Qed.

Lemma packed_int32_ok vs r :
  Forall in_int32 vs -> short_bytes (each vs (wr pb_int32)) ->
  rd (packed pb_int32 []) (wr (packed pb_int32 []) vs ++ r) = Ret (vs, r).
Proof. intros. rewrite (packed_ok pb_int32 in_int32); [done|apply int32_ok|apply int32_progress|done..]. Qed.

End Laws.

Lemma le_len_app {A} z (l r : list A) : z <= len r -> z <= len (l ++ r).
Proof. rewrite len_app. pose proof (len_nonneg l). lia. Qed.

Lemma from_option_True {A} (v : option A) : from_option (fun _ => True) True v.
Proof. by destruct v. Qed.

Create HintDb scalar_ok.
#[export] Hint Resolve uint32_ok int32_ok sint32_ok uint64_number_ok int64_number_ok bool_ok
  double_ok string_ok bytes_ok : scalar_ok.

(** ** Tactics of the generated codecs

    [solve_shrinks] shows that a generated step function ends and never un-reads: every branch
    of its [switch] reads one scalar kind.  [start_roundtrip], one [step_*] per field in the order
    of [encode], and [finish_roundtrip] show that [decode] undoes [encode]. *)
Ltac solve_fld_shrinking :=
  lazymatch goal with
  | |- shrinking _ (fld (packed ?s ?acc) _ _) =>
      apply shrinking_bind;
      [apply (packed_shrinking s in_int32); [apply int32_ok|apply int32_progress]
      |intros; by apply shrinking_ret]
  | |- shrinking _ (fld _ _ _) => eapply fld_shrinking; eauto with scalar_ok
  end.

Tactic Notation "solve_shrinks" reference(field) :=
  let Hc := fresh in
  intros ? ? ? ? Hc; unfold field in Hc;
  repeat (case_match; try discriminate);
  try discriminate Hc; try (injection Hc as <-; solve_fld_shrinking).

Tactic Notation "start_roundtrip" reference(ok) reference(base) reference(encode)
    reference(decode) :=
  let Hok := fresh in
  intros Hok; unfold decode; unfold decode_with, encode, base;
  unfold ok in Hok;
  repeat match type of Hok with _ /\ _ => let H1 := fresh in destruct Hok as [H1 Hok] end;
  rewrite <- ?app_assoc;
  lazymatch goal with |- read_fields ?f _ ?stop ?r ?b = ?x =>
    change (loop f stop r b = x) end.

(** The side conditions of one field: the kind's law, its range, the tag, the bytes that follow,
    the branch of the [switch], and that the default value leaves the message unchanged. *)
Ltac solve_default :=
  let Hc := fresh in
  intros Hc;
  first
    [ apply Z.eqb_eq in Hc; first [apply len_zero_nil in Hc | idtac]; rewrite Hc; reflexivity
    | apply String.eqb_eq in Hc; rewrite Hc; reflexivity
    | apply negb_true_iff in Hc; rewrite Hc; reflexivity
    | lazymatch type of Hc with is_zero ?x = true =>
        unfold is_zero, not_neg_zero in *; destruct x as [[]|[]| |[]]; by try reflexivity end ].
Ltac next_field := cbn beta iota delta [apply_update constant].
Ltac solve_tag := split; reflexivity || discriminate.
Ltac solve_stop := repeat apply le_len_app; apply Z.le_refl.
Ltac step_scalar shrinks upd :=
  etransitivity;
  [ eapply (loop_scalar _ shrinks upd);
    [ eauto with scalar_ok | first [assumption | exact I] | solve_tag | solve_stop
    | intros; reflexivity | solve_default ]
  | next_field ].
Ltac step_opt shrinks upd :=
  etransitivity;
  [ eapply (loop_opt _ shrinks upd);
    [ eauto with scalar_ok | first [assumption | apply from_option_True] | solve_tag | solve_stop
    | intros; reflexivity | reflexivity ]
  | next_field ].
Ltac step_each shrinks upd :=
  etransitivity;
  [ eapply (loop_each _ shrinks upd);
    [ eauto with scalar_ok | assumption | solve_tag | solve_stop
    | intros; reflexivity | reflexivity ]
  | next_field ].
Ltac step_packed shrinks upd :=
  etransitivity;
  [ eapply (loop_packed _ shrinks upd);
    [ apply packed_int32_ok | assumption | assumption | solve_tag | solve_stop
    | intros; reflexivity ]
  | next_field ].
Ltac finish_roundtrip m := rewrite loop_end by reflexivity; by destruct m.
