(* ===== verification/ProtoRuntime.v ===== *)
(** * A concrete protobuf runtime

    An executable instance of [ProtobufRuntime] that satisfies [ProtobufLaws]: base-128 varints,
    two's-complement and zigzag integers, and length-delimited strings, as the wire format
    documents them.  The development never depends on it; it shows that the laws the codecs are
    proved against can be met, and lets concrete messages be computed.  (Doubles are written in a
    self-delimiting form rather than as eight IEEE bytes: no message of the viewer's own traffic
    carries one.) *)
From Stdlib Require Import Floats.SpecFloat Strings.Byte.
From S2P Require Import Prelude ProtoWire.

Definition range_error {A} : outcome A := Throw (VError "RangeError" "index out of range").

(** ** Varints *)
Fixpoint write_varint (fuel : nat) (n : Z) : bytes :=
  match fuel with
  | O => []
  | S fuel =>
      if n <? 128 then [byte_of_Z n]
      else byte_of_Z (n mod 128 + 128) :: write_varint fuel (n / 128)
  end.

Fixpoint read_varint (fuel : nat) (r : bytes) : outcome (Z * bytes) :=
  match fuel, r with
  | O, _ => Throw (VError "Error" "invalid varint encoding")
  | _, [] => range_error
  | S fuel, b :: r =>
      let v := Z_of_byte b in
      if v <? 128 then Ret (v, r)
      else '(hi, r) ← read_varint fuel r; mret (v - 128 + 128 * hi, r)
  end.

Lemma read_write_varint_S fuel n r :
  0 <= n < 128 ^ Z.of_nat (S fuel) ->
  read_varint (S fuel) (write_varint (S fuel) n ++ r) = Ret (n, r).
Proof.
  revert n. induction fuel as [|fuel IH]; intros n Hn;
    cbn [write_varint]; destruct (Z.ltb_spec n 128) as [Hlt|Hge]; cbn [app].
  1, 3: cbn [read_varint]; rewrite Z_of_byte_of_Z, Z.mod_small by lia;
    by destruct (Z.ltb_spec n 128); [|lia].
  - change (128 ^ Z.of_nat 1) with 128 in Hn. lia.
  - pose proof (Z.mod_pos_bound n 128 ltac:(lia)).
    remember (S fuel) as k. cbn [read_varint].
    rewrite Z_of_byte_of_Z, (Z.mod_small (n mod 128 + 128)) by lia.
    destruct (Z.ltb_spec (n mod 128 + 128) 128); [lia|].
    subst k. change (if n / 128 <? 128 then [byte_of_Z (n / 128)]
      else byte_of_Z ((n / 128) mod 128 + 128) :: write_varint fuel (n / 128 / 128))
      with (write_varint (S fuel) (n / 128)).
    rewrite IH; js_simpl.
    + f_equal. f_equal. pose proof (Z.div_mod n 128 ltac:(lia)). lia.
    + rewrite Nat2Z.inj_succ, Z.pow_succ_r in Hn by lia. split; [apply Z.div_pos; lia|].
      apply Z.div_lt_upper_bound; lia.
Qed.
Lemma read_write_varint n r :
  0 <= n < 2 ^ 70 -> read_varint 10 (write_varint 10 n ++ r) = Ret (n, r).
Proof. apply (read_write_varint_S 9). Qed.

Lemma read_varint_progress fuel r v r' : read_varint fuel r = Ret (v, r') -> len r' < len r.
Proof.
  revert r v. induction fuel as [|fuel IH]; intros r v; [done|].
  destruct r as [|b r]; [done|]. cbn [read_varint]. rewrite len_cons.
  destruct (Z_of_byte b <? 128); [intros [= _ <-]; lia|].
  destruct (read_varint fuel r) as [[hi r'']|e|] eqn:E; js_simpl; [|done..].
  intros [= _ <-]. apply IH in E. lia.
Qed.

Lemma read_varint_terminates fuel r : terminates (read_varint fuel r).
Proof.
  revert r. induction fuel as [|fuel IH]; intros r; [done|].
  destruct r as [|b r]; [done|]. cbn [read_varint].
  destruct (Z_of_byte b <? 128); [done|]. specialize (IH r).
  by destruct (read_varint fuel r) as [[hi r'']|e|]; js_simpl.
Qed.

Lemma read_varint_shrinking fuel r : shrinking r (read_varint fuel r).
Proof.
  split; [apply read_varint_terminates|].
  intros v r' E. apply read_varint_progress in E. lia.
Qed.

(** An integer kind: a bijection between its range and [0, 2^64). *)
Definition varint_kind (enc dec : Z -> Z) : scalar Z :=
  {| wr := fun n => write_varint 10 (enc n);
     rd := fun r => '(v, r) ← read_varint 10 r; mret (dec v, r) |}.

Lemma varint_kind_ok enc dec (ok : Z -> Prop) :
  (forall n, ok n -> 0 <= enc n < 2 ^ 64 /\ dec (enc n) = n) -> scalar_ok (varint_kind enc dec) ok.
Proof.
  intros Hk. split; cbn [varint_kind wr rd].
  - intros n r Hn. destruct (Hk n Hn) as [Hr Hd].
    rewrite read_write_varint by lia.
    js_simpl. by rewrite Hd.
  - intros r. apply shrinking_bind; [apply read_varint_shrinking|]. intros. by apply shrinking_ret.
Qed.

Lemma varint_kind_progress enc dec r v r' :
  rd (varint_kind enc dec) r = Ret (v, r') -> len r' < len r.
Proof.
  cbn [varint_kind rd]. destruct (read_varint 10 r) as [[u r1]|e|] eqn:E; js_simpl; [|done..].
  intros [= _ <-]. by eapply read_varint_progress.
Qed.

Definition to_int64 (z : Z) : Z :=
  let m := z mod 2 ^ 64 in if m <? 2 ^ 63 then m else m - 2 ^ 64.
Definition zigzag (n : Z) : Z := if n <? 0 then - 2 * n - 1 else 2 * n.
Definition unzigzag (v : Z) : Z :=
  let v := v mod 2 ^ 32 in if Z.even v then v / 2 else - ((v + 1) / 2).

(** ** Length-delimited kinds *)
Definition delim_kind {A} (print : A -> bytes) (parse : bytes -> A) : scalar A :=
  {| wr := fun a => write_varint 10 (len (print a)) ++ print a;
     rd := fun r => '(n, r) ← read_varint 10 r;
             if len r <? n then range_error
             else mret (parse (take (Z.to_nat n) r), drop (Z.to_nat n) r) |}.

Lemma delim_kind_ok {A} (print : A -> bytes) parse (ok : A -> Prop) :
  (forall a, parse (print a) = a) -> (forall a, ok a -> len (print a) < 2 ^ 32) ->
  scalar_ok (delim_kind print parse) ok.
Proof.
  intros Hto Hok. split; cbn [delim_kind wr rd].
  - intros a r Ha. specialize (Hok a Ha). pose proof (len_nonneg (print a)).
    rewrite <- app_assoc, read_write_varint by lia.
    js_simpl. destruct (Z.ltb_spec (len (print a ++ r)) (len (print a))) as [Hl|_].
    { rewrite len_app in Hl. pose proof (len_nonneg r). lia. }
    unfold len. rewrite Nat2Z.id, take_app_length, drop_app_length. by rewrite Hto.
  - intros r. apply shrinking_bind; [apply read_varint_shrinking|]. intros n r' _.
    destruct (len r' <? n); [apply shrinking_throw|]. apply shrinking_ret.
    unfold len. rewrite length_drop. lia.
Qed.

(** ** Doubles *)
Fixpoint write_positive (p : positive) : bytes :=
  match p with
  | xH => [x02]
  | xO p => x00 :: write_positive p
  | xI p => x01 :: write_positive p
  end.
Fixpoint read_positive (r : bytes) : outcome (positive * bytes) :=
  match r with
  | x02 :: r => Ret (xH, r)
  | x00 :: r => '(p, r) ← read_positive r; mret (xO p, r)
  | x01 :: r => '(p, r) ← read_positive r; mret (xI p, r)
  | _ => range_error
  end.
Lemma read_write_positive p r : read_positive (write_positive p ++ r) = Ret (p, r).
Proof. induction p as [p IH|p IH|]; cbn; [by rewrite IH..|done]. Qed.
Lemma read_positive_shrinking r : shrinking r (read_positive r).
Proof.
  induction r as [|b r IH]; [apply shrinking_throw|]. cbn [read_positive].
  assert (Hsub : forall f, shrinking (b :: r) ('(p, r) ← read_positive r; mret (f p, r) : outcome (positive * bytes))).
  { intros f. destruct IH as [Ht Hs]. destruct (read_positive r) as [[p r']|e|]; js_simpl;
      [|apply shrinking_throw|done]. specialize (Hs _ _ eq_refl). apply shrinking_ret.
    rewrite len_cons. lia. }
  destruct b; try apply shrinking_throw; try apply Hsub. apply shrinking_ret. rewrite len_cons. lia.
Qed.

Definition write_sign (b : bool) : byte := if b then x01 else x00.
Definition read_sign (b : byte) : bool := if byte_eq_dec b x01 then true else false.
Lemma read_write_sign b : read_sign (write_sign b) = b.
Proof. by destruct b. Qed.

Definition write_double (d : spec_float) : bytes :=
  match d with
  | S754_zero s => [x00; write_sign s]
  | S754_infinity s => [x01; write_sign s]
  | S754_nan => [x02; x00]
  | S754_finite s m e =>
      x03 :: write_sign s :: write_sign (e <? 0) ::
      write_positive m ++ write_positive (Z.to_pos (Z.abs e + 1))
  end.
Definition read_finite (s : byte) (r : bytes) : outcome (spec_float * bytes) :=
  match r with
  | [] => range_error
  | t :: r =>
      '(m, r) ← read_positive r; '(e, r) ← read_positive r;
      let a := Zpos e - 1 in
      mret (S754_finite (read_sign s) m (if read_sign t then - a else a), r)
  end.
Definition read_double (r : bytes) : outcome (spec_float * bytes) :=
  match r with
  | k :: s :: r =>
      if decide (k = x00) then Ret (S754_zero (read_sign s), r)
      else if decide (k = x01) then Ret (S754_infinity (read_sign s), r)
      else if decide (k = x02) then Ret (S754_nan, r)
      else if decide (k = x03) then read_finite s r
      else range_error
  | _ => range_error
  end.

Lemma read_write_double d r : read_double (write_double d ++ r) = Ret (d, r).
Proof.
  destruct d as [s|s| |s m e]; cbn [write_double app]; unfold read_double, read_finite;
    repeat case_decide; rewrite ?read_write_sign; try done.
  rewrite <- app_assoc, read_write_positive. js_simpl. rewrite read_write_positive. js_simpl.
  rewrite Z2Pos.id by lia. do 3 f_equal. destruct (Z.ltb_spec e 0); lia.
Qed.
Lemma shrinking_weaken {A} r r' (o : outcome (A * bytes)) :
  len r' <= len r -> shrinking r' o -> shrinking r o.
Proof. intros Hr [Ht Hs]. split; [done|]. intros a r'' E. specialize (Hs _ _ E). lia. Qed.
Lemma read_double_shrinking r : shrinking r (read_double r).
Proof.
  destruct r as [|k [|s r]]; [apply shrinking_throw..|].
  apply (shrinking_weaken _ r); [rewrite !len_cons; lia|].
  unfold read_double. repeat case_decide; try (by apply shrinking_ret); [|apply shrinking_throw].
  destruct r as [|t r]; [apply shrinking_throw|].
  apply (shrinking_weaken _ r); [rewrite !len_cons; lia|]. unfold read_finite.
  apply shrinking_bind; [apply read_positive_shrinking|]. intros m r' _.
  apply shrinking_bind; [apply read_positive_shrinking|]. intros. by apply shrinking_ret.
Qed.

(** ** The instance *)
Definition skip_bytes (n : Z) (r : bytes) : outcome bytes :=
  if len r <? n then range_error else Ret (drop (Z.to_nat n) r).
Definition skip_field (wire_type : Z) (r : bytes) : outcome bytes :=
  match wire_type with
  | 0 => '(_, r) ← read_varint 10 r; mret r
  | 1 => skip_bytes 8 r
  | 2 => '(n, r) ← read_varint 10 r; skip_bytes n r
  | 5 => skip_bytes 4 r
  | _ => Throw (VError "Error" "invalid wire type")
  end.

#[export] Instance wire_runtime : ProtobufRuntime := {
  pb_uint32 := varint_kind (fun n => n) to_uint32;
  pb_int32 := varint_kind (fun n => n mod 2 ^ 64) to_int32;
  pb_sint32 := varint_kind zigzag unzigzag;
  pb_uint64 := varint_kind (fun n => n) (fun v => v mod 2 ^ 64);
  pb_int64 := varint_kind (fun n => n mod 2 ^ 64) to_int64;
  pb_bool := {| wr := fun b : bool => write_varint 10 (if b then 1 else 0);
                rd := fun r => '(v, r) ← read_varint 10 r; mret (negb (v =? 0), r) |};
  pb_double := {| wr := write_double; rd := read_double |};
  pb_string := delim_kind list_byte_of_string string_of_list_byte;
  pb_bytes := delim_kind (fun b => b) (fun b => b);
  skipType := skip_field;
}.

Lemma skip_bytes_shrinking n r :
  terminates (skip_bytes n r) /\ forall r', skip_bytes n r = Ret r' -> len r' <= len r.
Proof.
  unfold skip_bytes. destruct (len r <? n); [done|]. split; [done|].
  intros r' [= <-]. unfold len. rewrite length_drop. lia.
Qed.

Lemma skip_field_shrinking t r :
  terminates (skip_field t r) /\ forall r', skip_field t r = Ret r' -> len r' <= len r.
Proof.
  unfold skip_field. repeat (case_match; try done); try apply skip_bytes_shrinking;
    destruct (read_varint_shrinking 10 r) as [Ht Hs];
    destruct (read_varint 10 r) as [[n r1]|e|]; js_simpl; try done;
    specialize (Hs _ _ eq_refl).
  - split; [done|]. by intros r' [= <-].
  - destruct (skip_bytes_shrinking n r1) as [Ht' Hs']. split; [done|].
    intros r' E. specialize (Hs' _ E). lia.
Qed.

Lemma length_list_byte_of_string s : length (list_byte_of_string s) = String.length s.
Proof.
  unfold list_byte_of_string. rewrite length_map.
  induction s as [|a s IH]; [done|]. cbn. by rewrite <- IH.
Qed.

Lemma mod_lift z m : 0 < m -> 0 <= z mod m < m.
Proof. intros. by apply Z.mod_pos_bound. Qed.

#[export] Instance wire_runtime_laws : ProtobufLaws.
Proof.
  split.
  - apply varint_kind_ok. intros n Hn. unfold in_uint32 in Hn. unfold to_uint32.
    rewrite Z.mod_small; lia.
  - apply varint_kind_ok. intros n Hn. unfold in_int32 in Hn. split; [by apply mod_lift|].
    unfold to_int32. replace ((n mod 2 ^ 64) mod 2 ^ 32) with (n mod 2 ^ 32)
      by (rewrite Z.mod_mod_divide; [done|by exists (2 ^ 32)]).
    destruct (Z.ltb_spec (n mod 2 ^ 32) (2 ^ 31)) as [Hl|Hl].
    + destruct (decide (0 <= n)); [by rewrite Z.mod_small by lia|].
      rewrite <- (Z.mod_add n 1), Z.mod_small in Hl |- * by lia. lia.
    + destruct (decide (0 <= n)); [rewrite Z.mod_small in Hl by lia; lia|].
      rewrite <- (Z.mod_add n 1), Z.mod_small by lia. lia.
  - apply varint_kind_ok. intros n Hn. unfold in_int32 in Hn. unfold zigzag, unzigzag.
    destruct (Z.ltb_spec n 0); rewrite (Z.mod_small _ (2 ^ 32)) by lia; cbv zeta.
    + replace (Z.even (-2 * n - 1)) with false
        by (rewrite Z.even_sub, Z.even_mul; done).
      replace (-2 * n - 1 + 1) with (- n * 2) by lia. rewrite Z.div_mul by lia. lia.
    + replace (Z.even (2 * n)) with true by (rewrite Z.even_mul; done).
      rewrite Z.mul_comm, Z.div_mul by lia. lia.
  - apply varint_kind_ok. intros n Hn. unfold in_uint64 in Hn. rewrite Z.mod_small; lia.
  - apply varint_kind_ok. intros n Hn. unfold in_int64 in Hn. split; [by apply mod_lift|].
    unfold to_int64. rewrite Z.mod_mod by lia.
    destruct (Z.ltb_spec (n mod 2 ^ 64) (2 ^ 63)) as [Hl|Hl].
    + destruct (decide (0 <= n)); [by rewrite Z.mod_small by lia|].
      rewrite <- (Z.mod_add n 1), Z.mod_small in Hl |- * by lia. lia.
    + destruct (decide (0 <= n)); [rewrite Z.mod_small in Hl by lia; lia|].
      rewrite <- (Z.mod_add n 1), Z.mod_small by lia. lia.
  - split; cbn [pb_bool wire_runtime wr rd].
    + intros b r _. rewrite read_write_varint by (destruct b; cbn; lia). by destruct b.
    + intros r. apply shrinking_bind; [apply read_varint_shrinking|]. intros. by apply shrinking_ret.
  - split; cbn [pb_double wire_runtime wr rd]; [|apply read_double_shrinking].
    intros d r _. apply read_write_double.
  - apply delim_kind_ok; [apply string_of_list_byte_of_string|].
    unfold short_string, len. intros s. by rewrite length_list_byte_of_string.
  - by apply delim_kind_ok.
  - apply varint_kind_progress.
  - apply varint_kind_progress.
  - apply skip_field_shrinking.
Qed.
