(* ===== verification/ProtoFile.v ===== *)
(** * Generated codecs: the file-transfer messages

    [proto/message.ts], one module per message type: its record ([t], the TS interface; a number
    is a [Z], [T | undefined] is an option, an enum is its number), the default record, the bytes
    [encode] appends to the writer, the [switch] of [decode] ([field]) and [decode] itself, then the
    round trip [decode (encode m) = m] on the values the wire format can carry ([ok]). *)
From Stdlib Require Import Floats.SpecFloat.
From S2P Require Import Prelude ProtoWire.

(** ** [FileEntry] (message.ts, lines 1009-1015 and 5119-5192) *)
Module FileEntry.
Record t := mk {
  entry_type : Z;
  name : string;
  is_hidden : bool;
  size : Z;
  modified_time : Z;
}.
Definition createBase : t := {|
  entry_type := 0;
  name := "";
  is_hidden := false;
  size := 0;
  modified_time := 0 |}.
Definition encode `{ProtobufRuntime} (message : t) : bytes :=
  unless (message.(entry_type) =? 0) (tagged 8 (wr pb_int32 message.(entry_type))) ++
  unless (message.(name) =? "")%string (tagged 18 (wr pb_string message.(name))) ++
  unless (negb message.(is_hidden)) (tagged 24 (wr pb_bool message.(is_hidden))) ++
  unless (message.(size) =? 0) (tagged 32 (wr uint64_number message.(size))) ++
  unless (message.(modified_time) =? 0) (tagged 40 (wr uint64_number message.(modified_time))).
Definition field `{ProtobufRuntime} (tag : Z) (reader : bytes) (message : t) : field_step t :=
  match Z.shiftr tag 3 with
  | 1 =>
      if negb (tag =? 8) then Break else
      Continue (fld pb_int32 (fun v => message <| entry_type := v |>) reader)
  | 2 =>
      if negb (tag =? 18) then Break else
      Continue (fld pb_string (fun v => message <| name := v |>) reader)
  | 3 =>
      if negb (tag =? 24) then Break else
      Continue (fld pb_bool (fun v => message <| is_hidden := v |>) reader)
  | 4 =>
      if negb (tag =? 32) then Break else
      Continue (fld uint64_number (fun v => message <| size := v |>) reader)
  | 5 =>
      if negb (tag =? 40) then Break else
      Continue (fld uint64_number (fun v => message <| modified_time := v |>) reader)
  | _ => Break
  end.
Definition decode `{ProtobufRuntime} : Z -> bytes -> outcome (t * bytes) :=
  decode_with field createBase.
Definition codec `{ProtobufRuntime} : scalar t := embedded encode decode.
(** The values the wire format can carry. *)
Definition ok `{ProtobufRuntime} (message : t) : Prop :=
  in_int32 message.(entry_type) /\
  short_string message.(name) /\
  safe_uint message.(size) /\
  safe_uint message.(modified_time).
Definition wire_ok `{ProtobufRuntime} (message : t) : Prop :=
  ok message /\ short_bytes (encode message).
End FileEntry.

Lemma FileEntry_shrinks `{ProtobufLaws} : field_shrinks FileEntry.field.
Proof. solve_shrinks FileEntry.field. Qed.
Lemma FileEntry_roundtrip `{ProtobufLaws} m r :
  FileEntry.ok m -> FileEntry.decode (len r) (FileEntry.encode m ++ r) = Ret (m, r).
Proof.
  start_roundtrip FileEntry.ok FileEntry.createBase FileEntry.encode FileEntry.decode.
  step_scalar FileEntry_shrinks (fun v m => m <| FileEntry.entry_type := v |>).
  step_scalar FileEntry_shrinks (fun v m => m <| FileEntry.name := v |>).
  step_scalar FileEntry_shrinks (fun v m => m <| FileEntry.is_hidden := v |>).
  step_scalar FileEntry_shrinks (fun v m => m <| FileEntry.size := v |>).
  step_scalar FileEntry_shrinks (fun v m => m <| FileEntry.modified_time := v |>).
  finish_roundtrip m.
Qed.
Lemma FileEntry_codec_ok `{ProtobufLaws} : scalar_ok FileEntry.codec FileEntry.wire_ok.
Proof. apply embedded_ok; [apply decode_with_shrinks, FileEntry_shrinks|apply FileEntry_roundtrip]. Qed.
#[export] Hint Resolve FileEntry_codec_ok : scalar_ok.

(** ** [FileDirectory] (message.ts, lines 1017-1021 and 5238-5291) *)
Module FileDirectory.
Record t := mk {
  id : Z;
  path : string;
  entries : list FileEntry.t;
}.
Definition createBase : t := {|
  id := 0;
  path := "";
  entries := [] |}.
Definition encode `{ProtobufRuntime} (message : t) : bytes :=
  unless (message.(id) =? 0) (tagged 8 (wr pb_int32 message.(id))) ++
  unless (message.(path) =? "")%string (tagged 18 (wr pb_string message.(path))) ++
  each message.(entries) (fun v => tagged 26 (wr FileEntry.codec v)).
Definition field `{ProtobufRuntime} (tag : Z) (reader : bytes) (message : t) : field_step t :=
  match Z.shiftr tag 3 with
  | 1 =>
      if negb (tag =? 8) then Break else
      Continue (fld pb_int32 (fun v => message <| id := v |>) reader)
  | 2 =>
      if negb (tag =? 18) then Break else
      Continue (fld pb_string (fun v => message <| path := v |>) reader)
  | 3 =>
      if negb (tag =? 26) then Break else
      Continue (fld FileEntry.codec (fun v => message <| entries := message.(entries) ++ [v] |>) reader)
  | _ => Break
  end.
Definition decode `{ProtobufRuntime} : Z -> bytes -> outcome (t * bytes) :=
  decode_with field createBase.
Definition codec `{ProtobufRuntime} : scalar t := embedded encode decode.
(** The values the wire format can carry. *)
Definition ok `{ProtobufRuntime} (message : t) : Prop :=
  in_int32 message.(id) /\
  short_string message.(path) /\
  Forall FileEntry.wire_ok message.(entries).
Definition wire_ok `{ProtobufRuntime} (message : t) : Prop :=
  ok message /\ short_bytes (encode message).
End FileDirectory.

Lemma FileDirectory_shrinks `{ProtobufLaws} : field_shrinks FileDirectory.field.
Proof. solve_shrinks FileDirectory.field. Qed.
Lemma FileDirectory_roundtrip `{ProtobufLaws} m r :
  FileDirectory.ok m -> FileDirectory.decode (len r) (FileDirectory.encode m ++ r) = Ret (m, r).
Proof.
  start_roundtrip FileDirectory.ok FileDirectory.createBase FileDirectory.encode FileDirectory.decode.
  step_scalar FileDirectory_shrinks (fun v m => m <| FileDirectory.id := v |>).
  step_scalar FileDirectory_shrinks (fun v m => m <| FileDirectory.path := v |>).
  step_each FileDirectory_shrinks (fun v m => m <| FileDirectory.entries := v |>).
  finish_roundtrip m.
Qed.
Lemma FileDirectory_codec_ok `{ProtobufLaws} : scalar_ok FileDirectory.codec FileDirectory.wire_ok.
Proof. apply embedded_ok; [apply decode_with_shrinks, FileDirectory_shrinks|apply FileDirectory_roundtrip]. Qed.
#[export] Hint Resolve FileDirectory_codec_ok : scalar_ok.

(** ** [ReadDir] (message.ts, lines 1023-1026 and 5327-5370) *)
Module ReadDir.
Record t := mk {
  path : string;
  include_hidden : bool;
}.
Definition createBase : t := {|
  path := "";
  include_hidden := false |}.
Definition encode `{ProtobufRuntime} (message : t) : bytes :=
  unless (message.(path) =? "")%string (tagged 10 (wr pb_string message.(path))) ++
  unless (negb message.(include_hidden)) (tagged 16 (wr pb_bool message.(include_hidden))).
Definition field `{ProtobufRuntime} (tag : Z) (reader : bytes) (message : t) : field_step t :=
  match Z.shiftr tag 3 with
  | 1 =>
      if negb (tag =? 10) then Break else
      Continue (fld pb_string (fun v => message <| path := v |>) reader)
  | 2 =>
      if negb (tag =? 16) then Break else
      Continue (fld pb_bool (fun v => message <| include_hidden := v |>) reader)
  | _ => Break
  end.
Definition decode `{ProtobufRuntime} : Z -> bytes -> outcome (t * bytes) :=
  decode_with field createBase.
Definition codec `{ProtobufRuntime} : scalar t := embedded encode decode.
(** The values the wire format can carry. *)
Definition ok `{ProtobufRuntime} (message : t) : Prop :=
  short_string message.(path).
Definition wire_ok `{ProtobufRuntime} (message : t) : Prop :=
  ok message /\ short_bytes (encode message).
End ReadDir.

Lemma ReadDir_shrinks `{ProtobufLaws} : field_shrinks ReadDir.field.
Proof. solve_shrinks ReadDir.field. Qed.
Lemma ReadDir_roundtrip `{ProtobufLaws} m r :
  ReadDir.ok m -> ReadDir.decode (len r) (ReadDir.encode m ++ r) = Ret (m, r).
Proof.
  start_roundtrip ReadDir.ok ReadDir.createBase ReadDir.encode ReadDir.decode.
  step_scalar ReadDir_shrinks (fun v m => m <| ReadDir.path := v |>).
  step_scalar ReadDir_shrinks (fun v m => m <| ReadDir.include_hidden := v |>).
  finish_roundtrip m.
Qed.
Lemma ReadDir_codec_ok `{ProtobufLaws} : scalar_ok ReadDir.codec ReadDir.wire_ok.
Proof. apply embedded_ok; [apply decode_with_shrinks, ReadDir_shrinks|apply ReadDir_roundtrip]. Qed.
#[export] Hint Resolve ReadDir_codec_ok : scalar_ok.

(** ** [ReadEmptyDirs] (message.ts, lines 1028-1031 and 5401-5444) *)
Module ReadEmptyDirs.
Record t := mk {
  path : string;
  include_hidden : bool;
}.
Definition createBase : t := {|
  path := "";
  include_hidden := false |}.
Definition encode `{ProtobufRuntime} (message : t) : bytes :=
  unless (message.(path) =? "")%string (tagged 10 (wr pb_string message.(path))) ++
  unless (negb message.(include_hidden)) (tagged 16 (wr pb_bool message.(include_hidden))).
Definition field `{ProtobufRuntime} (tag : Z) (reader : bytes) (message : t) : field_step t :=
  match Z.shiftr tag 3 with
  | 1 =>
      if negb (tag =? 10) then Break else
      Continue (fld pb_string (fun v => message <| path := v |>) reader)
  | 2 =>
      if negb (tag =? 16) then Break else
      Continue (fld pb_bool (fun v => message <| include_hidden := v |>) reader)
  | _ => Break
  end.
Definition decode `{ProtobufRuntime} : Z -> bytes -> outcome (t * bytes) :=
  decode_with field createBase.
Definition codec `{ProtobufRuntime} : scalar t := embedded encode decode.
(** The values the wire format can carry. *)
Definition ok `{ProtobufRuntime} (message : t) : Prop :=
  short_string message.(path).
Definition wire_ok `{ProtobufRuntime} (message : t) : Prop :=
  ok message /\ short_bytes (encode message).
End ReadEmptyDirs.

Lemma ReadEmptyDirs_shrinks `{ProtobufLaws} : field_shrinks ReadEmptyDirs.field.
Proof. solve_shrinks ReadEmptyDirs.field. Qed.
Lemma ReadEmptyDirs_roundtrip `{ProtobufLaws} m r :
  ReadEmptyDirs.ok m -> ReadEmptyDirs.decode (len r) (ReadEmptyDirs.encode m ++ r) = Ret (m, r).
Proof.
  start_roundtrip ReadEmptyDirs.ok ReadEmptyDirs.createBase ReadEmptyDirs.encode ReadEmptyDirs.decode.
  step_scalar ReadEmptyDirs_shrinks (fun v m => m <| ReadEmptyDirs.path := v |>).
  step_scalar ReadEmptyDirs_shrinks (fun v m => m <| ReadEmptyDirs.include_hidden := v |>).
  finish_roundtrip m.
Qed.
Lemma ReadEmptyDirs_codec_ok `{ProtobufLaws} : scalar_ok ReadEmptyDirs.codec ReadEmptyDirs.wire_ok.
Proof. apply embedded_ok; [apply decode_with_shrinks, ReadEmptyDirs_shrinks|apply ReadEmptyDirs_roundtrip]. Qed.
#[export] Hint Resolve ReadEmptyDirs_codec_ok : scalar_ok.

(** ** [ReadEmptyDirsResponse] (message.ts, lines 1033-1036 and 5475-5518) *)
Module ReadEmptyDirsResponse.
Record t := mk {
  path : string;
  empty_dirs : list FileDirectory.t;
}.
Definition createBase : t := {|
  path := "";
  empty_dirs := [] |}.
Definition encode `{ProtobufRuntime} (message : t) : bytes :=
  unless (message.(path) =? "")%string (tagged 10 (wr pb_string message.(path))) ++
  each message.(empty_dirs) (fun v => tagged 18 (wr FileDirectory.codec v)).
Definition field `{ProtobufRuntime} (tag : Z) (reader : bytes) (message : t) : field_step t :=
  match Z.shiftr tag 3 with
  | 1 =>
      if negb (tag =? 10) then Break else
      Continue (fld pb_string (fun v => message <| path := v |>) reader)
  | 2 =>
      if negb (tag =? 18) then Break else
      Continue (fld FileDirectory.codec (fun v => message <| empty_dirs := message.(empty_dirs) ++ [v] |>) reader)
  | _ => Break
  end.
Definition decode `{ProtobufRuntime} : Z -> bytes -> outcome (t * bytes) :=
  decode_with field createBase.
Definition codec `{ProtobufRuntime} : scalar t := embedded encode decode.
(** The values the wire format can carry. *)
Definition ok `{ProtobufRuntime} (message : t) : Prop :=
  short_string message.(path) /\
  Forall FileDirectory.wire_ok message.(empty_dirs).
Definition wire_ok `{ProtobufRuntime} (message : t) : Prop :=
  ok message /\ short_bytes (encode message).
End ReadEmptyDirsResponse.

Lemma ReadEmptyDirsResponse_shrinks `{ProtobufLaws} : field_shrinks ReadEmptyDirsResponse.field.
Proof. solve_shrinks ReadEmptyDirsResponse.field. Qed.
Lemma ReadEmptyDirsResponse_roundtrip `{ProtobufLaws} m r :
  ReadEmptyDirsResponse.ok m -> ReadEmptyDirsResponse.decode (len r) (ReadEmptyDirsResponse.encode m ++ r) = Ret (m, r).
Proof.
  start_roundtrip ReadEmptyDirsResponse.ok ReadEmptyDirsResponse.createBase ReadEmptyDirsResponse.encode ReadEmptyDirsResponse.decode.
  step_scalar ReadEmptyDirsResponse_shrinks (fun v m => m <| ReadEmptyDirsResponse.path := v |>).
  step_each ReadEmptyDirsResponse_shrinks (fun v m => m <| ReadEmptyDirsResponse.empty_dirs := v |>).
  finish_roundtrip m.
Qed.
Lemma ReadEmptyDirsResponse_codec_ok `{ProtobufLaws} : scalar_ok ReadEmptyDirsResponse.codec ReadEmptyDirsResponse.wire_ok.
Proof. apply embedded_ok; [apply decode_with_shrinks, ReadEmptyDirsResponse_shrinks|apply ReadEmptyDirsResponse_roundtrip]. Qed.
#[export] Hint Resolve ReadEmptyDirsResponse_codec_ok : scalar_ok.

(** ** [ReadAllFiles] (message.ts, lines 1038-1042 and 5551-5604) *)
Module ReadAllFiles.
Record t := mk {
  id : Z;
  path : string;
  include_hidden : bool;
}.
Definition createBase : t := {|
  id := 0;
  path := "";
  include_hidden := false |}.
Definition encode `{ProtobufRuntime} (message : t) : bytes :=
  unless (message.(id) =? 0) (tagged 8 (wr pb_int32 message.(id))) ++
  unless (message.(path) =? "")%string (tagged 18 (wr pb_string message.(path))) ++
  unless (negb message.(include_hidden)) (tagged 24 (wr pb_bool message.(include_hidden))).
Definition field `{ProtobufRuntime} (tag : Z) (reader : bytes) (message : t) : field_step t :=
  match Z.shiftr tag 3 with
  | 1 =>
      if negb (tag =? 8) then Break else
      Continue (fld pb_int32 (fun v => message <| id := v |>) reader)
  | 2 =>
      if negb (tag =? 18) then Break else
      Continue (fld pb_string (fun v => message <| path := v |>) reader)
  | 3 =>
      if negb (tag =? 24) then Break else
      Continue (fld pb_bool (fun v => message <| include_hidden := v |>) reader)
  | _ => Break
  end.
Definition decode `{ProtobufRuntime} : Z -> bytes -> outcome (t * bytes) :=
  decode_with field createBase.
Definition codec `{ProtobufRuntime} : scalar t := embedded encode decode.
(** The values the wire format can carry. *)
Definition ok `{ProtobufRuntime} (message : t) : Prop :=
  in_int32 message.(id) /\
  short_string message.(path).
Definition wire_ok `{ProtobufRuntime} (message : t) : Prop :=
  ok message /\ short_bytes (encode message).
End ReadAllFiles.

Lemma ReadAllFiles_shrinks `{ProtobufLaws} : field_shrinks ReadAllFiles.field.
Proof. solve_shrinks ReadAllFiles.field. Qed.
Lemma ReadAllFiles_roundtrip `{ProtobufLaws} m r :
  ReadAllFiles.ok m -> ReadAllFiles.decode (len r) (ReadAllFiles.encode m ++ r) = Ret (m, r).
Proof.
  start_roundtrip ReadAllFiles.ok ReadAllFiles.createBase ReadAllFiles.encode ReadAllFiles.decode.
  step_scalar ReadAllFiles_shrinks (fun v m => m <| ReadAllFiles.id := v |>).
  step_scalar ReadAllFiles_shrinks (fun v m => m <| ReadAllFiles.path := v |>).
  step_scalar ReadAllFiles_shrinks (fun v m => m <| ReadAllFiles.include_hidden := v |>).
  finish_roundtrip m.
Qed.
Lemma ReadAllFiles_codec_ok `{ProtobufLaws} : scalar_ok ReadAllFiles.codec ReadAllFiles.wire_ok.
Proof. apply embedded_ok; [apply decode_with_shrinks, ReadAllFiles_shrinks|apply ReadAllFiles_roundtrip]. Qed.
#[export] Hint Resolve ReadAllFiles_codec_ok : scalar_ok.

(** ** [FileRename] (message.ts, lines 1044-1048 and 5640-5693) *)
Module FileRename.
Record t := mk {
  id : Z;
  path : string;
  new_name : string;
}.
Definition createBase : t := {|
  id := 0;
  path := "";
  new_name := "" |}.
Definition encode `{ProtobufRuntime} (message : t) : bytes :=
  unless (message.(id) =? 0) (tagged 8 (wr pb_int32 message.(id))) ++
  unless (message.(path) =? "")%string (tagged 18 (wr pb_string message.(path))) ++
  unless (message.(new_name) =? "")%string (tagged 26 (wr pb_string message.(new_name))).
Definition field `{ProtobufRuntime} (tag : Z) (reader : bytes) (message : t) : field_step t :=
  match Z.shiftr tag 3 with
  | 1 =>
      if negb (tag =? 8) then Break else
      Continue (fld pb_int32 (fun v => message <| id := v |>) reader)
  | 2 =>
      if negb (tag =? 18) then Break else
      Continue (fld pb_string (fun v => message <| path := v |>) reader)
  | 3 =>
      if negb (tag =? 26) then Break else
      Continue (fld pb_string (fun v => message <| new_name := v |>) reader)
  | _ => Break
  end.
Definition decode `{ProtobufRuntime} : Z -> bytes -> outcome (t * bytes) :=
  decode_with field createBase.
Definition codec `{ProtobufRuntime} : scalar t := embedded encode decode.
(** The values the wire format can carry. *)
Definition ok `{ProtobufRuntime} (message : t) : Prop :=
  in_int32 message.(id) /\
  short_string message.(path) /\
  short_string message.(new_name).
Definition wire_ok `{ProtobufRuntime} (message : t) : Prop :=
  ok message /\ short_bytes (encode message).
End FileRename.

Lemma FileRename_shrinks `{ProtobufLaws} : field_shrinks FileRename.field.
Proof. solve_shrinks FileRename.field. Qed.
Lemma FileRename_roundtrip `{ProtobufLaws} m r :
  FileRename.ok m -> FileRename.decode (len r) (FileRename.encode m ++ r) = Ret (m, r).
Proof.
  start_roundtrip FileRename.ok FileRename.createBase FileRename.encode FileRename.decode.
  step_scalar FileRename_shrinks (fun v m => m <| FileRename.id := v |>).
  step_scalar FileRename_shrinks (fun v m => m <| FileRename.path := v |>).
  step_scalar FileRename_shrinks (fun v m => m <| FileRename.new_name := v |>).
  finish_roundtrip m.
Qed.
Lemma FileRename_codec_ok `{ProtobufLaws} : scalar_ok FileRename.codec FileRename.wire_ok.
Proof. apply embedded_ok; [apply decode_with_shrinks, FileRename_shrinks|apply FileRename_roundtrip]. Qed.
#[export] Hint Resolve FileRename_codec_ok : scalar_ok.

(** ** [FileTransferSendRequest] (message.ts, lines 1100-1105 and 6524-6587) *)
Module FileTransferSendRequest.
Record t := mk {
  id : Z;
  path : string;
  include_hidden : bool;
  file_num : Z;
}.
Definition createBase : t := {|
  id := 0;
  path := "";
  include_hidden := false;
  file_num := 0 |}.
Definition encode `{ProtobufRuntime} (message : t) : bytes :=
  unless (message.(id) =? 0) (tagged 8 (wr pb_int32 message.(id))) ++
  unless (message.(path) =? "")%string (tagged 18 (wr pb_string message.(path))) ++
  unless (negb message.(include_hidden)) (tagged 24 (wr pb_bool message.(include_hidden))) ++
  unless (message.(file_num) =? 0) (tagged 32 (wr pb_int32 message.(file_num))).
Definition field `{ProtobufRuntime} (tag : Z) (reader : bytes) (message : t) : field_step t :=
  match Z.shiftr tag 3 with
  | 1 =>
      if negb (tag =? 8) then Break else
      Continue (fld pb_int32 (fun v => message <| id := v |>) reader)
  | 2 =>
      if negb (tag =? 18) then Break else
      Continue (fld pb_string (fun v => message <| path := v |>) reader)
  | 3 =>
      if negb (tag =? 24) then Break else
      Continue (fld pb_bool (fun v => message <| include_hidden := v |>) reader)
  | 4 =>
      if negb (tag =? 32) then Break else
      Continue (fld pb_int32 (fun v => message <| file_num := v |>) reader)
  | _ => Break
  end.
Definition decode `{ProtobufRuntime} : Z -> bytes -> outcome (t * bytes) :=
  decode_with field createBase.
Definition codec `{ProtobufRuntime} : scalar t := embedded encode decode.
(** The values the wire format can carry. *)
Definition ok `{ProtobufRuntime} (message : t) : Prop :=
  in_int32 message.(id) /\
  short_string message.(path) /\
  in_int32 message.(file_num).
Definition wire_ok `{ProtobufRuntime} (message : t) : Prop :=
  ok message /\ short_bytes (encode message).
End FileTransferSendRequest.

Lemma FileTransferSendRequest_shrinks `{ProtobufLaws} : field_shrinks FileTransferSendRequest.field.
Proof. solve_shrinks FileTransferSendRequest.field. Qed.
Lemma FileTransferSendRequest_roundtrip `{ProtobufLaws} m r :
  FileTransferSendRequest.ok m -> FileTransferSendRequest.decode (len r) (FileTransferSendRequest.encode m ++ r) = Ret (m, r).
Proof.
  start_roundtrip FileTransferSendRequest.ok FileTransferSendRequest.createBase FileTransferSendRequest.encode FileTransferSendRequest.decode.
  step_scalar FileTransferSendRequest_shrinks (fun v m => m <| FileTransferSendRequest.id := v |>).
  step_scalar FileTransferSendRequest_shrinks (fun v m => m <| FileTransferSendRequest.path := v |>).
  step_scalar FileTransferSendRequest_shrinks (fun v m => m <| FileTransferSendRequest.include_hidden := v |>).
  step_scalar FileTransferSendRequest_shrinks (fun v m => m <| FileTransferSendRequest.file_num := v |>).
  finish_roundtrip m.
Qed.
Lemma FileTransferSendRequest_codec_ok `{ProtobufLaws} : scalar_ok FileTransferSendRequest.codec FileTransferSendRequest.wire_ok.
Proof. apply embedded_ok; [apply decode_with_shrinks, FileTransferSendRequest_shrinks|apply FileTransferSendRequest_roundtrip]. Qed.
#[export] Hint Resolve FileTransferSendRequest_codec_ok : scalar_ok.

(** ** [FileTransferReceiveRequest] (message.ts, lines 1119-1126 and 6808-6881) *)
Module FileTransferReceiveRequest.
Record t := mk {
  id : Z;
  path : string;
  files : list FileEntry.t;
  file_num : Z;
  total_size : Z;
}.
Definition createBase : t := {|
  id := 0;
  path := "";
  files := [];
  file_num := 0;
  total_size := 0 |}.
Definition encode `{ProtobufRuntime} (message : t) : bytes :=
  unless (message.(id) =? 0) (tagged 8 (wr pb_int32 message.(id))) ++
  unless (message.(path) =? "")%string (tagged 18 (wr pb_string message.(path))) ++
  each message.(files) (fun v => tagged 26 (wr FileEntry.codec v)) ++
  unless (message.(file_num) =? 0) (tagged 32 (wr pb_int32 message.(file_num))) ++
  unless (message.(total_size) =? 0) (tagged 40 (wr uint64_number message.(total_size))).
Definition field `{ProtobufRuntime} (tag : Z) (reader : bytes) (message : t) : field_step t :=
  match Z.shiftr tag 3 with
  | 1 =>
      if negb (tag =? 8) then Break else
      Continue (fld pb_int32 (fun v => message <| id := v |>) reader)
  | 2 =>
      if negb (tag =? 18) then Break else
      Continue (fld pb_string (fun v => message <| path := v |>) reader)
  | 3 =>
      if negb (tag =? 26) then Break else
      Continue (fld FileEntry.codec (fun v => message <| files := message.(files) ++ [v] |>) reader)
  | 4 =>
      if negb (tag =? 32) then Break else
      Continue (fld pb_int32 (fun v => message <| file_num := v |>) reader)
  | 5 =>
      if negb (tag =? 40) then Break else
      Continue (fld uint64_number (fun v => message <| total_size := v |>) reader)
  | _ => Break
  end.
Definition decode `{ProtobufRuntime} : Z -> bytes -> outcome (t * bytes) :=
  decode_with field createBase.
Definition codec `{ProtobufRuntime} : scalar t := embedded encode decode.
(** The values the wire format can carry. *)
Definition ok `{ProtobufRuntime} (message : t) : Prop :=
  in_int32 message.(id) /\
  short_string message.(path) /\
  Forall FileEntry.wire_ok message.(files) /\
  in_int32 message.(file_num) /\
  safe_uint message.(total_size).
Definition wire_ok `{ProtobufRuntime} (message : t) : Prop :=
  ok message /\ short_bytes (encode message).
End FileTransferReceiveRequest.

Lemma FileTransferReceiveRequest_shrinks `{ProtobufLaws} : field_shrinks FileTransferReceiveRequest.field.
Proof. solve_shrinks FileTransferReceiveRequest.field. Qed.
Lemma FileTransferReceiveRequest_roundtrip `{ProtobufLaws} m r :
  FileTransferReceiveRequest.ok m -> FileTransferReceiveRequest.decode (len r) (FileTransferReceiveRequest.encode m ++ r) = Ret (m, r).
Proof.
  start_roundtrip FileTransferReceiveRequest.ok FileTransferReceiveRequest.createBase FileTransferReceiveRequest.encode FileTransferReceiveRequest.decode.
  step_scalar FileTransferReceiveRequest_shrinks (fun v m => m <| FileTransferReceiveRequest.id := v |>).
  step_scalar FileTransferReceiveRequest_shrinks (fun v m => m <| FileTransferReceiveRequest.path := v |>).
  step_each FileTransferReceiveRequest_shrinks (fun v m => m <| FileTransferReceiveRequest.files := v |>).
  step_scalar FileTransferReceiveRequest_shrinks (fun v m => m <| FileTransferReceiveRequest.file_num := v |>).
  step_scalar FileTransferReceiveRequest_shrinks (fun v m => m <| FileTransferReceiveRequest.total_size := v |>).
  finish_roundtrip m.
Qed.
Lemma FileTransferReceiveRequest_codec_ok `{ProtobufLaws} : scalar_ok FileTransferReceiveRequest.codec FileTransferReceiveRequest.wire_ok.
Proof. apply embedded_ok; [apply decode_with_shrinks, FileTransferReceiveRequest_shrinks|apply FileTransferReceiveRequest_roundtrip]. Qed.
#[export] Hint Resolve FileTransferReceiveRequest_codec_ok : scalar_ok.

(** ** [FileDirCreate] (message.ts, lines 1140-1143 and 7105-7148) *)
Module FileDirCreate.
Record t := mk {
  id : Z;
  path : string;
}.
Definition createBase : t := {|
  id := 0;
  path := "" |}.
Definition encode `{ProtobufRuntime} (message : t) : bytes :=
  unless (message.(id) =? 0) (tagged 8 (wr pb_int32 message.(id))) ++
  unless (message.(path) =? "")%string (tagged 18 (wr pb_string message.(path))).
Definition field `{ProtobufRuntime} (tag : Z) (reader : bytes) (message : t) : field_step t :=
  match Z.shiftr tag 3 with
  | 1 =>
      if negb (tag =? 8) then Break else
      Continue (fld pb_int32 (fun v => message <| id := v |>) reader)
  | 2 =>
      if negb (tag =? 18) then Break else
      Continue (fld pb_string (fun v => message <| path := v |>) reader)
  | _ => Break
  end.
Definition decode `{ProtobufRuntime} : Z -> bytes -> outcome (t * bytes) :=
  decode_with field createBase.
Definition codec `{ProtobufRuntime} : scalar t := embedded encode decode.
(** The values the wire format can carry. *)
Definition ok `{ProtobufRuntime} (message : t) : Prop :=
  in_int32 message.(id) /\
  short_string message.(path).
Definition wire_ok `{ProtobufRuntime} (message : t) : Prop :=
  ok message /\ short_bytes (encode message).
End FileDirCreate.

Lemma FileDirCreate_shrinks `{ProtobufLaws} : field_shrinks FileDirCreate.field.
Proof. solve_shrinks FileDirCreate.field. Qed.
Lemma FileDirCreate_roundtrip `{ProtobufLaws} m r :
  FileDirCreate.ok m -> FileDirCreate.decode (len r) (FileDirCreate.encode m ++ r) = Ret (m, r).
Proof.
  start_roundtrip FileDirCreate.ok FileDirCreate.createBase FileDirCreate.encode FileDirCreate.decode.
  step_scalar FileDirCreate_shrinks (fun v m => m <| FileDirCreate.id := v |>).
  step_scalar FileDirCreate_shrinks (fun v m => m <| FileDirCreate.path := v |>).
  finish_roundtrip m.
Qed.
Lemma FileDirCreate_codec_ok `{ProtobufLaws} : scalar_ok FileDirCreate.codec FileDirCreate.wire_ok.
Proof. apply embedded_ok; [apply decode_with_shrinks, FileDirCreate_shrinks|apply FileDirCreate_roundtrip]. Qed.
#[export] Hint Resolve FileDirCreate_codec_ok : scalar_ok.

(** ** [FileRemoveDir] (message.ts, lines 1128-1132 and 6927-6980) *)
Module FileRemoveDir.
Record t := mk {
  id : Z;
  path : string;
  recursive : bool;
}.
Definition createBase : t := {|
  id := 0;
  path := "";
  recursive := false |}.
Definition encode `{ProtobufRuntime} (message : t) : bytes :=
  unless (message.(id) =? 0) (tagged 8 (wr pb_int32 message.(id))) ++
  unless (message.(path) =? "")%string (tagged 18 (wr pb_string message.(path))) ++
  unless (negb message.(recursive)) (tagged 24 (wr pb_bool message.(recursive))).
Definition field `{ProtobufRuntime} (tag : Z) (reader : bytes) (message : t) : field_step t :=
  match Z.shiftr tag 3 with
  | 1 =>
      if negb (tag =? 8) then Break else
      Continue (fld pb_int32 (fun v => message <| id := v |>) reader)
  | 2 =>
      if negb (tag =? 18) then Break else
      Continue (fld pb_string (fun v => message <| path := v |>) reader)
  | 3 =>
      if negb (tag =? 24) then Break else
      Continue (fld pb_bool (fun v => message <| recursive := v |>) reader)
  | _ => Break
  end.
Definition decode `{ProtobufRuntime} : Z -> bytes -> outcome (t * bytes) :=
  decode_with field createBase.
Definition codec `{ProtobufRuntime} : scalar t := embedded encode decode.
(** The values the wire format can carry. *)
Definition ok `{ProtobufRuntime} (message : t) : Prop :=
  in_int32 message.(id) /\
  short_string message.(path).
Definition wire_ok `{ProtobufRuntime} (message : t) : Prop :=
  ok message /\ short_bytes (encode message).
End FileRemoveDir.

Lemma FileRemoveDir_shrinks `{ProtobufLaws} : field_shrinks FileRemoveDir.field.
Proof. solve_shrinks FileRemoveDir.field. Qed.
Lemma FileRemoveDir_roundtrip `{ProtobufLaws} m r :
  FileRemoveDir.ok m -> FileRemoveDir.decode (len r) (FileRemoveDir.encode m ++ r) = Ret (m, r).
Proof.
  start_roundtrip FileRemoveDir.ok FileRemoveDir.createBase FileRemoveDir.encode FileRemoveDir.decode.
  step_scalar FileRemoveDir_shrinks (fun v m => m <| FileRemoveDir.id := v |>).
  step_scalar FileRemoveDir_shrinks (fun v m => m <| FileRemoveDir.path := v |>).
  step_scalar FileRemoveDir_shrinks (fun v m => m <| FileRemoveDir.recursive := v |>).
  finish_roundtrip m.
Qed.
Lemma FileRemoveDir_codec_ok `{ProtobufLaws} : scalar_ok FileRemoveDir.codec FileRemoveDir.wire_ok.
Proof. apply embedded_ok; [apply decode_with_shrinks, FileRemoveDir_shrinks|apply FileRemoveDir_roundtrip]. Qed.
#[export] Hint Resolve FileRemoveDir_codec_ok : scalar_ok.

(** ** [FileRemoveFile] (message.ts, lines 1134-1138 and 7016-7069) *)
Module FileRemoveFile.
Record t := mk {
  id : Z;
  path : string;
  file_num : Z;
}.
Definition createBase : t := {|
  id := 0;
  path := "";
  file_num := 0 |}.
Definition encode `{ProtobufRuntime} (message : t) : bytes :=
  unless (message.(id) =? 0) (tagged 8 (wr pb_int32 message.(id))) ++
  unless (message.(path) =? "")%string (tagged 18 (wr pb_string message.(path))) ++
  unless (message.(file_num) =? 0) (tagged 24 (wr pb_sint32 message.(file_num))).
Definition field `{ProtobufRuntime} (tag : Z) (reader : bytes) (message : t) : field_step t :=
  match Z.shiftr tag 3 with
  | 1 =>
      if negb (tag =? 8) then Break else
      Continue (fld pb_int32 (fun v => message <| id := v |>) reader)
  | 2 =>
      if negb (tag =? 18) then Break else
      Continue (fld pb_string (fun v => message <| path := v |>) reader)
  | 3 =>
      if negb (tag =? 24) then Break else
      Continue (fld pb_sint32 (fun v => message <| file_num := v |>) reader)
  | _ => Break
  end.
Definition decode `{ProtobufRuntime} : Z -> bytes -> outcome (t * bytes) :=
  decode_with field createBase.
Definition codec `{ProtobufRuntime} : scalar t := embedded encode decode.
(** The values the wire format can carry. *)
Definition ok `{ProtobufRuntime} (message : t) : Prop :=
  in_int32 message.(id) /\
  short_string message.(path) /\
  in_int32 message.(file_num).
Definition wire_ok `{ProtobufRuntime} (message : t) : Prop :=
  ok message /\ short_bytes (encode message).
End FileRemoveFile.

Lemma FileRemoveFile_shrinks `{ProtobufLaws} : field_shrinks FileRemoveFile.field.
Proof. solve_shrinks FileRemoveFile.field. Qed.
Lemma FileRemoveFile_roundtrip `{ProtobufLaws} m r :
  FileRemoveFile.ok m -> FileRemoveFile.decode (len r) (FileRemoveFile.encode m ++ r) = Ret (m, r).
Proof.
  start_roundtrip FileRemoveFile.ok FileRemoveFile.createBase FileRemoveFile.encode FileRemoveFile.decode.
  step_scalar FileRemoveFile_shrinks (fun v m => m <| FileRemoveFile.id := v |>).
  step_scalar FileRemoveFile_shrinks (fun v m => m <| FileRemoveFile.path := v |>).
  step_scalar FileRemoveFile_shrinks (fun v m => m <| FileRemoveFile.file_num := v |>).
  finish_roundtrip m.
Qed.
Lemma FileRemoveFile_codec_ok `{ProtobufLaws} : scalar_ok FileRemoveFile.codec FileRemoveFile.wire_ok.
Proof. apply embedded_ok; [apply decode_with_shrinks, FileRemoveFile_shrinks|apply FileRemoveFile_roundtrip]. Qed.
#[export] Hint Resolve FileRemoveFile_codec_ok : scalar_ok.

(** ** [FileTransferCancel] (message.ts, lines 1064-1066 and 5974-6007) *)
Module FileTransferCancel.
Record t := mk {
  id : Z;
}.
Definition createBase : t := {|
  id := 0 |}.
Definition encode `{ProtobufRuntime} (message : t) : bytes :=
  unless (message.(id) =? 0) (tagged 8 (wr pb_int32 message.(id))).
Definition field `{ProtobufRuntime} (tag : Z) (reader : bytes) (message : t) : field_step t :=
  match Z.shiftr tag 3 with
  | 1 =>
      if negb (tag =? 8) then Break else
      Continue (fld pb_int32 (fun v => message <| id := v |>) reader)
  | _ => Break
  end.
Definition decode `{ProtobufRuntime} : Z -> bytes -> outcome (t * bytes) :=
  decode_with field createBase.
Definition codec `{ProtobufRuntime} : scalar t := embedded encode decode.
(** The values the wire format can carry. *)
Definition ok `{ProtobufRuntime} (message : t) : Prop :=
  in_int32 message.(id).
Definition wire_ok `{ProtobufRuntime} (message : t) : Prop :=
  ok message /\ short_bytes (encode message).
End FileTransferCancel.

Lemma FileTransferCancel_shrinks `{ProtobufLaws} : field_shrinks FileTransferCancel.field.
Proof. solve_shrinks FileTransferCancel.field. Qed.
Lemma FileTransferCancel_roundtrip `{ProtobufLaws} m r :
  FileTransferCancel.ok m -> FileTransferCancel.decode (len r) (FileTransferCancel.encode m ++ r) = Ret (m, r).
Proof.
  start_roundtrip FileTransferCancel.ok FileTransferCancel.createBase FileTransferCancel.encode FileTransferCancel.decode.
  step_scalar FileTransferCancel_shrinks (fun v m => m <| FileTransferCancel.id := v |>).
  finish_roundtrip m.
Qed.
Lemma FileTransferCancel_codec_ok `{ProtobufLaws} : scalar_ok FileTransferCancel.codec FileTransferCancel.wire_ok.
Proof. apply embedded_ok; [apply decode_with_shrinks, FileTransferCancel_shrinks|apply FileTransferCancel_roundtrip]. Qed.
#[export] Hint Resolve FileTransferCancel_codec_ok : scalar_ok.

(** ** [FileTransferSendConfirmRequest] (message.ts, lines 1107-1112 and 6628-6691) *)
Module FileTransferSendConfirmRequest.
Record t := mk {
  id : Z;
  file_num : Z;
  skip : maybe bool;
  offset_blk : maybe Z;
}.
Definition createBase : t := {|
  id := 0;
  file_num := 0;
  skip := None;
  offset_blk := None |}.
Definition encode `{ProtobufRuntime} (message : t) : bytes :=
  unless (message.(id) =? 0) (tagged 8 (wr pb_int32 message.(id))) ++
  unless (message.(file_num) =? 0) (tagged 16 (wr pb_sint32 message.(file_num))) ++
  if_set message.(skip) (fun v => tagged 24 (wr pb_bool v)) ++
  if_set message.(offset_blk) (fun v => tagged 32 (wr pb_uint32 v)).
Definition field `{ProtobufRuntime} (tag : Z) (reader : bytes) (message : t) : field_step t :=
  match Z.shiftr tag 3 with
  | 1 =>
      if negb (tag =? 8) then Break else
      Continue (fld pb_int32 (fun v => message <| id := v |>) reader)
  | 2 =>
      if negb (tag =? 16) then Break else
      Continue (fld pb_sint32 (fun v => message <| file_num := v |>) reader)
  | 3 =>
      if negb (tag =? 24) then Break else
      Continue (fld pb_bool (fun v => message <| skip := Some v |>) reader)
  | 4 =>
      if negb (tag =? 32) then Break else
      Continue (fld pb_uint32 (fun v => message <| offset_blk := Some v |>) reader)
  | _ => Break
  end.
Definition decode `{ProtobufRuntime} : Z -> bytes -> outcome (t * bytes) :=
  decode_with field createBase.
Definition codec `{ProtobufRuntime} : scalar t := embedded encode decode.
(** The values the wire format can carry. *)
Definition ok `{ProtobufRuntime} (message : t) : Prop :=
  in_int32 message.(id) /\
  in_int32 message.(file_num) /\
  from_option in_uint32 True message.(offset_blk).
Definition wire_ok `{ProtobufRuntime} (message : t) : Prop :=
  ok message /\ short_bytes (encode message).
End FileTransferSendConfirmRequest.

Lemma FileTransferSendConfirmRequest_shrinks `{ProtobufLaws} : field_shrinks FileTransferSendConfirmRequest.field.
Proof. solve_shrinks FileTransferSendConfirmRequest.field. Qed.
Lemma FileTransferSendConfirmRequest_roundtrip `{ProtobufLaws} m r :
  FileTransferSendConfirmRequest.ok m -> FileTransferSendConfirmRequest.decode (len r) (FileTransferSendConfirmRequest.encode m ++ r) = Ret (m, r).
Proof.
  start_roundtrip FileTransferSendConfirmRequest.ok FileTransferSendConfirmRequest.createBase FileTransferSendConfirmRequest.encode FileTransferSendConfirmRequest.decode.
  step_scalar FileTransferSendConfirmRequest_shrinks (fun v m => m <| FileTransferSendConfirmRequest.id := v |>).
  step_scalar FileTransferSendConfirmRequest_shrinks (fun v m => m <| FileTransferSendConfirmRequest.file_num := v |>).
  step_opt FileTransferSendConfirmRequest_shrinks (fun v m => m <| FileTransferSendConfirmRequest.skip := v |>).
  step_opt FileTransferSendConfirmRequest_shrinks (fun v m => m <| FileTransferSendConfirmRequest.offset_blk := v |>).
  finish_roundtrip m.
Qed.
Lemma FileTransferSendConfirmRequest_codec_ok `{ProtobufLaws} : scalar_ok FileTransferSendConfirmRequest.codec FileTransferSendConfirmRequest.wire_ok.
Proof. apply embedded_ok; [apply decode_with_shrinks, FileTransferSendConfirmRequest_shrinks|apply FileTransferSendConfirmRequest_roundtrip]. Qed.
#[export] Hint Resolve FileTransferSendConfirmRequest_codec_ok : scalar_ok.

(** ** [FileAction] (message.ts, lines 1050-1062 and 5729-5874) *)
Module FileAction.
Record t := mk {
  read_dir : maybe ReadDir.t;
  send : maybe FileTransferSendRequest.t;
  receive : maybe FileTransferReceiveRequest.t;
  create : maybe FileDirCreate.t;
  remove_dir : maybe FileRemoveDir.t;
  remove_file : maybe FileRemoveFile.t;
  all_files : maybe ReadAllFiles.t;
  cancel : maybe FileTransferCancel.t;
  send_confirm : maybe FileTransferSendConfirmRequest.t;
  rename : maybe FileRename.t;
  read_empty_dirs : maybe ReadEmptyDirs.t;
}.
Definition createBase : t := {|
  read_dir := None;
  send := None;
  receive := None;
  create := None;
  remove_dir := None;
  remove_file := None;
  all_files := None;
  cancel := None;
  send_confirm := None;
  rename := None;
  read_empty_dirs := None |}.
Definition encode `{ProtobufRuntime} (message : t) : bytes :=
  if_set message.(read_dir) (fun v => tagged 10 (wr ReadDir.codec v)) ++
  if_set message.(send) (fun v => tagged 18 (wr FileTransferSendRequest.codec v)) ++
  if_set message.(receive) (fun v => tagged 26 (wr FileTransferReceiveRequest.codec v)) ++
  if_set message.(create) (fun v => tagged 34 (wr FileDirCreate.codec v)) ++
  if_set message.(remove_dir) (fun v => tagged 42 (wr FileRemoveDir.codec v)) ++
  if_set message.(remove_file) (fun v => tagged 50 (wr FileRemoveFile.codec v)) ++
  if_set message.(all_files) (fun v => tagged 58 (wr ReadAllFiles.codec v)) ++
  if_set message.(cancel) (fun v => tagged 66 (wr FileTransferCancel.codec v)) ++
  if_set message.(send_confirm) (fun v => tagged 74 (wr FileTransferSendConfirmRequest.codec v)) ++
  if_set message.(rename) (fun v => tagged 82 (wr FileRename.codec v)) ++
  if_set message.(read_empty_dirs) (fun v => tagged 90 (wr ReadEmptyDirs.codec v)).
Definition field `{ProtobufRuntime} (tag : Z) (reader : bytes) (message : t) : field_step t :=
  match Z.shiftr tag 3 with
  | 1 =>
      if negb (tag =? 10) then Break else
      Continue (fld ReadDir.codec (fun v => message <| read_dir := Some v |>) reader)
  | 2 =>
      if negb (tag =? 18) then Break else
      Continue (fld FileTransferSendRequest.codec (fun v => message <| send := Some v |>) reader)
  | 3 =>
      if negb (tag =? 26) then Break else
      Continue (fld FileTransferReceiveRequest.codec (fun v => message <| receive := Some v |>) reader)
  | 4 =>
      if negb (tag =? 34) then Break else
      Continue (fld FileDirCreate.codec (fun v => message <| create := Some v |>) reader)
  | 5 =>
      if negb (tag =? 42) then Break else
      Continue (fld FileRemoveDir.codec (fun v => message <| remove_dir := Some v |>) reader)
  | 6 =>
      if negb (tag =? 50) then Break else
      Continue (fld FileRemoveFile.codec (fun v => message <| remove_file := Some v |>) reader)
  | 7 =>
      if negb (tag =? 58) then Break else
      Continue (fld ReadAllFiles.codec (fun v => message <| all_files := Some v |>) reader)
  | 8 =>
      if negb (tag =? 66) then Break else
      Continue (fld FileTransferCancel.codec (fun v => message <| cancel := Some v |>) reader)
  | 9 =>
      if negb (tag =? 74) then Break else
      Continue (fld FileTransferSendConfirmRequest.codec (fun v => message <| send_confirm := Some v |>) reader)
  | 10 =>
      if negb (tag =? 82) then Break else
      Continue (fld FileRename.codec (fun v => message <| rename := Some v |>) reader)
  | 11 =>
      if negb (tag =? 90) then Break else
      Continue (fld ReadEmptyDirs.codec (fun v => message <| read_empty_dirs := Some v |>) reader)
  | _ => Break
  end.
Definition decode `{ProtobufRuntime} : Z -> bytes -> outcome (t * bytes) :=
  decode_with field createBase.
Definition codec `{ProtobufRuntime} : scalar t := embedded encode decode.
(** The values the wire format can carry. *)
Definition ok `{ProtobufRuntime} (message : t) : Prop :=
  from_option ReadDir.wire_ok True message.(read_dir) /\
  from_option FileTransferSendRequest.wire_ok True message.(send) /\
  from_option FileTransferReceiveRequest.wire_ok True message.(receive) /\
  from_option FileDirCreate.wire_ok True message.(create) /\
  from_option FileRemoveDir.wire_ok True message.(remove_dir) /\
  from_option FileRemoveFile.wire_ok True message.(remove_file) /\
  from_option ReadAllFiles.wire_ok True message.(all_files) /\
  from_option FileTransferCancel.wire_ok True message.(cancel) /\
  from_option FileTransferSendConfirmRequest.wire_ok True message.(send_confirm) /\
  from_option FileRename.wire_ok True message.(rename) /\
  from_option ReadEmptyDirs.wire_ok True message.(read_empty_dirs).
Definition wire_ok `{ProtobufRuntime} (message : t) : Prop :=
  ok message /\ short_bytes (encode message).
End FileAction.

Lemma FileAction_shrinks `{ProtobufLaws} : field_shrinks FileAction.field.
Proof. solve_shrinks FileAction.field. Qed.
Lemma FileAction_roundtrip `{ProtobufLaws} m r :
  FileAction.ok m -> FileAction.decode (len r) (FileAction.encode m ++ r) = Ret (m, r).
Proof.
  start_roundtrip FileAction.ok FileAction.createBase FileAction.encode FileAction.decode.
  step_opt FileAction_shrinks (fun v m => m <| FileAction.read_dir := v |>).
  step_opt FileAction_shrinks (fun v m => m <| FileAction.send := v |>).
  step_opt FileAction_shrinks (fun v m => m <| FileAction.receive := v |>).
  step_opt FileAction_shrinks (fun v m => m <| FileAction.create := v |>).
  step_opt FileAction_shrinks (fun v m => m <| FileAction.remove_dir := v |>).
  step_opt FileAction_shrinks (fun v m => m <| FileAction.remove_file := v |>).
  step_opt FileAction_shrinks (fun v m => m <| FileAction.all_files := v |>).
  step_opt FileAction_shrinks (fun v m => m <| FileAction.cancel := v |>).
  step_opt FileAction_shrinks (fun v m => m <| FileAction.send_confirm := v |>).
  step_opt FileAction_shrinks (fun v m => m <| FileAction.rename := v |>).
  step_opt FileAction_shrinks (fun v m => m <| FileAction.read_empty_dirs := v |>).
  finish_roundtrip m.
Qed.
Lemma FileAction_codec_ok `{ProtobufLaws} : scalar_ok FileAction.codec FileAction.wire_ok.
Proof. apply embedded_ok; [apply decode_with_shrinks, FileAction_shrinks|apply FileAction_roundtrip]. Qed.
#[export] Hint Resolve FileAction_codec_ok : scalar_ok.

(** ** [FileTransferBlock] (message.ts, lines 1086-1092 and 6316-6389) *)
Module FileTransferBlock.
Record t := mk {
  id : Z;
  file_num : Z;
  data : bytes;
  compressed : bool;
  blk_id : Z;
}.
Definition createBase : t := {|
  id := 0;
  file_num := 0;
  data := [];
  compressed := false;
  blk_id := 0 |}.
Definition encode `{ProtobufRuntime} (message : t) : bytes :=
  unless (message.(id) =? 0) (tagged 8 (wr pb_int32 message.(id))) ++
  unless (message.(file_num) =? 0) (tagged 16 (wr pb_sint32 message.(file_num))) ++
  unless (len message.(data) =? 0) (tagged 26 (wr pb_bytes message.(data))) ++
  unless (negb message.(compressed)) (tagged 32 (wr pb_bool message.(compressed))) ++
  unless (message.(blk_id) =? 0) (tagged 40 (wr pb_uint32 message.(blk_id))).
Definition field `{ProtobufRuntime} (tag : Z) (reader : bytes) (message : t) : field_step t :=
  match Z.shiftr tag 3 with
  | 1 =>
      if negb (tag =? 8) then Break else
      Continue (fld pb_int32 (fun v => message <| id := v |>) reader)
  | 2 =>
      if negb (tag =? 16) then Break else
      Continue (fld pb_sint32 (fun v => message <| file_num := v |>) reader)
  | 3 =>
      if negb (tag =? 26) then Break else
      Continue (fld pb_bytes (fun v => message <| data := v |>) reader)
  | 4 =>
      if negb (tag =? 32) then Break else
      Continue (fld pb_bool (fun v => message <| compressed := v |>) reader)
  | 5 =>
      if negb (tag =? 40) then Break else
      Continue (fld pb_uint32 (fun v => message <| blk_id := v |>) reader)
  | _ => Break
  end.
Definition decode `{ProtobufRuntime} : Z -> bytes -> outcome (t * bytes) :=
  decode_with field createBase.
Definition codec `{ProtobufRuntime} : scalar t := embedded encode decode.
(** The values the wire format can carry. *)
Definition ok `{ProtobufRuntime} (message : t) : Prop :=
  in_int32 message.(id) /\
  in_int32 message.(file_num) /\
  short_bytes message.(data) /\
  in_uint32 message.(blk_id).
Definition wire_ok `{ProtobufRuntime} (message : t) : Prop :=
  ok message /\ short_bytes (encode message).
End FileTransferBlock.

Lemma FileTransferBlock_shrinks `{ProtobufLaws} : field_shrinks FileTransferBlock.field.
Proof. solve_shrinks FileTransferBlock.field. Qed.
Lemma FileTransferBlock_roundtrip `{ProtobufLaws} m r :
  FileTransferBlock.ok m -> FileTransferBlock.decode (len r) (FileTransferBlock.encode m ++ r) = Ret (m, r).
Proof.
  start_roundtrip FileTransferBlock.ok FileTransferBlock.createBase FileTransferBlock.encode FileTransferBlock.decode.
  step_scalar FileTransferBlock_shrinks (fun v m => m <| FileTransferBlock.id := v |>).
  step_scalar FileTransferBlock_shrinks (fun v m => m <| FileTransferBlock.file_num := v |>).
  step_scalar FileTransferBlock_shrinks (fun v m => m <| FileTransferBlock.data := v |>).
  step_scalar FileTransferBlock_shrinks (fun v m => m <| FileTransferBlock.compressed := v |>).
  step_scalar FileTransferBlock_shrinks (fun v m => m <| FileTransferBlock.blk_id := v |>).
  finish_roundtrip m.
Qed.
Lemma FileTransferBlock_codec_ok `{ProtobufLaws} : scalar_ok FileTransferBlock.codec FileTransferBlock.wire_ok.
Proof. apply embedded_ok; [apply decode_with_shrinks, FileTransferBlock_shrinks|apply FileTransferBlock_roundtrip]. Qed.
#[export] Hint Resolve FileTransferBlock_codec_ok : scalar_ok.

(** ** [FileTransferError] (message.ts, lines 1094-1098 and 6435-6488) *)
Module FileTransferError.
Record t := mk {
  id : Z;
  error : string;
  file_num : Z;
}.
Definition createBase : t := {|
  id := 0;
  error := "";
  file_num := 0 |}.
Definition encode `{ProtobufRuntime} (message : t) : bytes :=
  unless (message.(id) =? 0) (tagged 8 (wr pb_int32 message.(id))) ++
  unless (message.(error) =? "")%string (tagged 18 (wr pb_string message.(error))) ++
  unless (message.(file_num) =? 0) (tagged 24 (wr pb_sint32 message.(file_num))).
Definition field `{ProtobufRuntime} (tag : Z) (reader : bytes) (message : t) : field_step t :=
  match Z.shiftr tag 3 with
  | 1 =>
      if negb (tag =? 8) then Break else
      Continue (fld pb_int32 (fun v => message <| id := v |>) reader)
  | 2 =>
      if negb (tag =? 18) then Break else
      Continue (fld pb_string (fun v => message <| error := v |>) reader)
  | 3 =>
      if negb (tag =? 24) then Break else
      Continue (fld pb_sint32 (fun v => message <| file_num := v |>) reader)
  | _ => Break
  end.
Definition decode `{ProtobufRuntime} : Z -> bytes -> outcome (t * bytes) :=
  decode_with field createBase.
Definition codec `{ProtobufRuntime} : scalar t := embedded encode decode.
(** The values the wire format can carry. *)
Definition ok `{ProtobufRuntime} (message : t) : Prop :=
  in_int32 message.(id) /\
  short_string message.(error) /\
  in_int32 message.(file_num).
Definition wire_ok `{ProtobufRuntime} (message : t) : Prop :=
  ok message /\ short_bytes (encode message).
End FileTransferError.

Lemma FileTransferError_shrinks `{ProtobufLaws} : field_shrinks FileTransferError.field.
Proof. solve_shrinks FileTransferError.field. Qed.
Lemma FileTransferError_roundtrip `{ProtobufLaws} m r :
  FileTransferError.ok m -> FileTransferError.decode (len r) (FileTransferError.encode m ++ r) = Ret (m, r).
Proof.
  start_roundtrip FileTransferError.ok FileTransferError.createBase FileTransferError.encode FileTransferError.decode.
  step_scalar FileTransferError_shrinks (fun v m => m <| FileTransferError.id := v |>).
  step_scalar FileTransferError_shrinks (fun v m => m <| FileTransferError.error := v |>).
  step_scalar FileTransferError_shrinks (fun v m => m <| FileTransferError.file_num := v |>).
  finish_roundtrip m.
Qed.
Lemma FileTransferError_codec_ok `{ProtobufLaws} : scalar_ok FileTransferError.codec FileTransferError.wire_ok.
Proof. apply embedded_ok; [apply decode_with_shrinks, FileTransferError_shrinks|apply FileTransferError_roundtrip]. Qed.
#[export] Hint Resolve FileTransferError_codec_ok : scalar_ok.

(** ** [FileTransferDone] (message.ts, lines 1114-1117 and 6734-6777) *)
Module FileTransferDone.
Record t := mk {
  id : Z;
  file_num : Z;
}.
Definition createBase : t := {|
  id := 0;
  file_num := 0 |}.
Definition encode `{ProtobufRuntime} (message : t) : bytes :=
  unless (message.(id) =? 0) (tagged 8 (wr pb_int32 message.(id))) ++
  unless (message.(file_num) =? 0) (tagged 16 (wr pb_sint32 message.(file_num))).
Definition field `{ProtobufRuntime} (tag : Z) (reader : bytes) (message : t) : field_step t :=
  match Z.shiftr tag 3 with
  | 1 =>
      if negb (tag =? 8) then Break else
      Continue (fld pb_int32 (fun v => message <| id := v |>) reader)
  | 2 =>
      if negb (tag =? 16) then Break else
      Continue (fld pb_sint32 (fun v => message <| file_num := v |>) reader)
  | _ => Break
  end.
Definition decode `{ProtobufRuntime} : Z -> bytes -> outcome (t * bytes) :=
  decode_with field createBase.
Definition codec `{ProtobufRuntime} : scalar t := embedded encode decode.
(** The values the wire format can carry. *)
Definition ok `{ProtobufRuntime} (message : t) : Prop :=
  in_int32 message.(id) /\
  in_int32 message.(file_num).
Definition wire_ok `{ProtobufRuntime} (message : t) : Prop :=
  ok message /\ short_bytes (encode message).
End FileTransferDone.

Lemma FileTransferDone_shrinks `{ProtobufLaws} : field_shrinks FileTransferDone.field.
Proof. solve_shrinks FileTransferDone.field. Qed.
Lemma FileTransferDone_roundtrip `{ProtobufLaws} m r :
  FileTransferDone.ok m -> FileTransferDone.decode (len r) (FileTransferDone.encode m ++ r) = Ret (m, r).
Proof.
  start_roundtrip FileTransferDone.ok FileTransferDone.createBase FileTransferDone.encode FileTransferDone.decode.
  step_scalar FileTransferDone_shrinks (fun v m => m <| FileTransferDone.id := v |>).
  step_scalar FileTransferDone_shrinks (fun v m => m <| FileTransferDone.file_num := v |>).
  finish_roundtrip m.
Qed.
Lemma FileTransferDone_codec_ok `{ProtobufLaws} : scalar_ok FileTransferDone.codec FileTransferDone.wire_ok.
Proof. apply embedded_ok; [apply decode_with_shrinks, FileTransferDone_shrinks|apply FileTransferDone_roundtrip]. Qed.
#[export] Hint Resolve FileTransferDone_codec_ok : scalar_ok.

(** ** [FileTransferDigest] (message.ts, lines 1077-1084 and 6182-6265) *)
Module FileTransferDigest.
Record t := mk {
  id : Z;
  file_num : Z;
  last_modified : Z;
  file_size : Z;
  is_upload : bool;
  is_identical : bool;
}.
Definition createBase : t := {|
  id := 0;
  file_num := 0;
  last_modified := 0;
  file_size := 0;
  is_upload := false;
  is_identical := false |}.
Definition encode `{ProtobufRuntime} (message : t) : bytes :=
  unless (message.(id) =? 0) (tagged 8 (wr pb_int32 message.(id))) ++
  unless (message.(file_num) =? 0) (tagged 16 (wr pb_sint32 message.(file_num))) ++
  unless (message.(last_modified) =? 0) (tagged 24 (wr uint64_number message.(last_modified))) ++
  unless (message.(file_size) =? 0) (tagged 32 (wr uint64_number message.(file_size))) ++
  unless (negb message.(is_upload)) (tagged 40 (wr pb_bool message.(is_upload))) ++
  unless (negb message.(is_identical)) (tagged 48 (wr pb_bool message.(is_identical))).
Definition field `{ProtobufRuntime} (tag : Z) (reader : bytes) (message : t) : field_step t :=
  match Z.shiftr tag 3 with
  | 1 =>
      if negb (tag =? 8) then Break else
      Continue (fld pb_int32 (fun v => message <| id := v |>) reader)
  | 2 =>
      if negb (tag =? 16) then Break else
      Continue (fld pb_sint32 (fun v => message <| file_num := v |>) reader)
  | 3 =>
      if negb (tag =? 24) then Break else
      Continue (fld uint64_number (fun v => message <| last_modified := v |>) reader)
  | 4 =>
      if negb (tag =? 32) then Break else
      Continue (fld uint64_number (fun v => message <| file_size := v |>) reader)
  | 5 =>
      if negb (tag =? 40) then Break else
      Continue (fld pb_bool (fun v => message <| is_upload := v |>) reader)
  | 6 =>
      if negb (tag =? 48) then Break else
      Continue (fld pb_bool (fun v => message <| is_identical := v |>) reader)
  | _ => Break
  end.
Definition decode `{ProtobufRuntime} : Z -> bytes -> outcome (t * bytes) :=
  decode_with field createBase.
Definition codec `{ProtobufRuntime} : scalar t := embedded encode decode.
(** The values the wire format can carry. *)
Definition ok `{ProtobufRuntime} (message : t) : Prop :=
  in_int32 message.(id) /\
  in_int32 message.(file_num) /\
  safe_uint message.(last_modified) /\
  safe_uint message.(file_size).
Definition wire_ok `{ProtobufRuntime} (message : t) : Prop :=
  ok message /\ short_bytes (encode message).
End FileTransferDigest.

Lemma FileTransferDigest_shrinks `{ProtobufLaws} : field_shrinks FileTransferDigest.field.
Proof. solve_shrinks FileTransferDigest.field. Qed.
Lemma FileTransferDigest_roundtrip `{ProtobufLaws} m r :
  FileTransferDigest.ok m -> FileTransferDigest.decode (len r) (FileTransferDigest.encode m ++ r) = Ret (m, r).
Proof.
  start_roundtrip FileTransferDigest.ok FileTransferDigest.createBase FileTransferDigest.encode FileTransferDigest.decode.
  step_scalar FileTransferDigest_shrinks (fun v m => m <| FileTransferDigest.id := v |>).
  step_scalar FileTransferDigest_shrinks (fun v m => m <| FileTransferDigest.file_num := v |>).
  step_scalar FileTransferDigest_shrinks (fun v m => m <| FileTransferDigest.last_modified := v |>).
  step_scalar FileTransferDigest_shrinks (fun v m => m <| FileTransferDigest.file_size := v |>).
  step_scalar FileTransferDigest_shrinks (fun v m => m <| FileTransferDigest.is_upload := v |>).
  step_scalar FileTransferDigest_shrinks (fun v m => m <| FileTransferDigest.is_identical := v |>).
  finish_roundtrip m.
Qed.
Lemma FileTransferDigest_codec_ok `{ProtobufLaws} : scalar_ok FileTransferDigest.codec FileTransferDigest.wire_ok.
Proof. apply embedded_ok; [apply decode_with_shrinks, FileTransferDigest_shrinks|apply FileTransferDigest_roundtrip]. Qed.
#[export] Hint Resolve FileTransferDigest_codec_ok : scalar_ok.

(** ** [FileResponse] (message.ts, lines 1068-1075 and 6031-6121) *)
Module FileResponse.
Record t := mk {
  dir : maybe FileDirectory.t;
  block : maybe FileTransferBlock.t;
  error : maybe FileTransferError.t;
  done : maybe FileTransferDone.t;
  digest : maybe FileTransferDigest.t;
  empty_dirs : maybe ReadEmptyDirsResponse.t;
}.
Definition createBase : t := {|
  dir := None;
  block := None;
  error := None;
  done := None;
  digest := None;
  empty_dirs := None |}.
Definition encode `{ProtobufRuntime} (message : t) : bytes :=
  if_set message.(dir) (fun v => tagged 10 (wr FileDirectory.codec v)) ++
  if_set message.(block) (fun v => tagged 18 (wr FileTransferBlock.codec v)) ++
  if_set message.(error) (fun v => tagged 26 (wr FileTransferError.codec v)) ++
  if_set message.(done) (fun v => tagged 34 (wr FileTransferDone.codec v)) ++
  if_set message.(digest) (fun v => tagged 42 (wr FileTransferDigest.codec v)) ++
  if_set message.(empty_dirs) (fun v => tagged 50 (wr ReadEmptyDirsResponse.codec v)).
Definition field `{ProtobufRuntime} (tag : Z) (reader : bytes) (message : t) : field_step t :=
  match Z.shiftr tag 3 with
  | 1 =>
      if negb (tag =? 10) then Break else
      Continue (fld FileDirectory.codec (fun v => message <| dir := Some v |>) reader)
  | 2 =>
      if negb (tag =? 18) then Break else
      Continue (fld FileTransferBlock.codec (fun v => message <| block := Some v |>) reader)
  | 3 =>
      if negb (tag =? 26) then Break else
      Continue (fld FileTransferError.codec (fun v => message <| error := Some v |>) reader)
  | 4 =>
      if negb (tag =? 34) then Break else
      Continue (fld FileTransferDone.codec (fun v => message <| done := Some v |>) reader)
  | 5 =>
      if negb (tag =? 42) then Break else
      Continue (fld FileTransferDigest.codec (fun v => message <| digest := Some v |>) reader)
  | 6 =>
      if negb (tag =? 50) then Break else
      Continue (fld ReadEmptyDirsResponse.codec (fun v => message <| empty_dirs := Some v |>) reader)
  | _ => Break
  end.
Definition decode `{ProtobufRuntime} : Z -> bytes -> outcome (t * bytes) :=
  decode_with field createBase.
Definition codec `{ProtobufRuntime} : scalar t := embedded encode decode.
(** The values the wire format can carry. *)
Definition ok `{ProtobufRuntime} (message : t) : Prop :=
  from_option FileDirectory.wire_ok True message.(dir) /\
  from_option FileTransferBlock.wire_ok True message.(block) /\
  from_option FileTransferError.wire_ok True message.(error) /\
  from_option FileTransferDone.wire_ok True message.(done) /\
  from_option FileTransferDigest.wire_ok True message.(digest) /\
  from_option ReadEmptyDirsResponse.wire_ok True message.(empty_dirs).
Definition wire_ok `{ProtobufRuntime} (message : t) : Prop :=
  ok message /\ short_bytes (encode message).
End FileResponse.

Lemma FileResponse_shrinks `{ProtobufLaws} : field_shrinks FileResponse.field.
Proof. solve_shrinks FileResponse.field. Qed.
Lemma FileResponse_roundtrip `{ProtobufLaws} m r :
  FileResponse.ok m -> FileResponse.decode (len r) (FileResponse.encode m ++ r) = Ret (m, r).
Proof.
  start_roundtrip FileResponse.ok FileResponse.createBase FileResponse.encode FileResponse.decode.
  step_opt FileResponse_shrinks (fun v m => m <| FileResponse.dir := v |>).
  step_opt FileResponse_shrinks (fun v m => m <| FileResponse.block := v |>).
  step_opt FileResponse_shrinks (fun v m => m <| FileResponse.error := v |>).
  step_opt FileResponse_shrinks (fun v m => m <| FileResponse.done := v |>).
  step_opt FileResponse_shrinks (fun v m => m <| FileResponse.digest := v |>).
  step_opt FileResponse_shrinks (fun v m => m <| FileResponse.empty_dirs := v |>).
  finish_roundtrip m.
Qed.
Lemma FileResponse_codec_ok `{ProtobufLaws} : scalar_ok FileResponse.codec FileResponse.wire_ok.
Proof. apply embedded_ok; [apply decode_with_shrinks, FileResponse_shrinks|apply FileResponse_roundtrip]. Qed.
#[export] Hint Resolve FileResponse_codec_ok : scalar_ok.
