(* ===== verification/ProtoMedia.v ===== *)
(** * Generated codecs: video, audio, cursor, clipboard and input messages

    [proto/message.ts], one module per message type: its record ([t], the TS interface; a number
    is a [Z], [T | undefined] is an option, an enum is its number), the default record, the bytes
    [encode] appends to the writer, the [switch] of [decode] ([field]) and [decode] itself, then the
    round trip [decode (encode m) = m] on the values the wire format can carry ([ok]). *)
From Stdlib Require Import Floats.SpecFloat.
From S2P Require Import Prelude ProtoWire ProtoFile.

(** ** [EncodedVideoFrame] (message.ts, lines 768-772 and 1784-1837) *)
Module EncodedVideoFrame.
Record t := mk {
  data : bytes;
  key : bool;
  pts : Z;
}.
Definition createBase : t := {|
  data := [];
  key := false;
  pts := 0 |}.
Definition encode `{ProtobufRuntime} (message : t) : bytes :=
  unless (len message.(data) =? 0) (tagged 10 (wr pb_bytes message.(data))) ++
  unless (negb message.(key)) (tagged 16 (wr pb_bool message.(key))) ++
  unless (message.(pts) =? 0) (tagged 24 (wr int64_number message.(pts))).
Definition field `{ProtobufRuntime} (tag : Z) (reader : bytes) (message : t) : field_step t :=
  match Z.shiftr tag 3 with
  | 1 =>
      if negb (tag =? 10) then Break else
      Continue (fld pb_bytes (fun v => message <| data := v |>) reader)
  | 2 =>
      if negb (tag =? 16) then Break else
      Continue (fld pb_bool (fun v => message <| key := v |>) reader)
  | 3 =>
      if negb (tag =? 24) then Break else
      Continue (fld int64_number (fun v => message <| pts := v |>) reader)
  | _ => Break
  end.
Definition decode `{ProtobufRuntime} : Z -> bytes -> outcome (t * bytes) :=
  decode_with field createBase.
Definition codec `{ProtobufRuntime} : scalar t := embedded encode decode.
(** The values the wire format can carry. *)
Definition ok `{ProtobufRuntime} (message : t) : Prop :=
  short_bytes message.(data) /\
  safe_int message.(pts).
Definition wire_ok `{ProtobufRuntime} (message : t) : Prop :=
  ok message /\ short_bytes (encode message).
End EncodedVideoFrame.

Lemma EncodedVideoFrame_shrinks `{ProtobufLaws} : field_shrinks EncodedVideoFrame.field.
Proof. solve_shrinks EncodedVideoFrame.field. Qed.
Lemma EncodedVideoFrame_roundtrip `{ProtobufLaws} m r :
  EncodedVideoFrame.ok m -> EncodedVideoFrame.decode (len r) (EncodedVideoFrame.encode m ++ r) = Ret (m, r).
Proof.
  start_roundtrip EncodedVideoFrame.ok EncodedVideoFrame.createBase EncodedVideoFrame.encode EncodedVideoFrame.decode.
  step_scalar EncodedVideoFrame_shrinks (fun v m => m <| EncodedVideoFrame.data := v |>).
  step_scalar EncodedVideoFrame_shrinks (fun v m => m <| EncodedVideoFrame.key := v |>).
  step_scalar EncodedVideoFrame_shrinks (fun v m => m <| EncodedVideoFrame.pts := v |>).
  finish_roundtrip m.
Qed.
Lemma EncodedVideoFrame_codec_ok `{ProtobufLaws} : scalar_ok EncodedVideoFrame.codec EncodedVideoFrame.wire_ok.
Proof. apply embedded_ok; [apply decode_with_shrinks, EncodedVideoFrame_shrinks|apply EncodedVideoFrame_roundtrip]. Qed.
#[export] Hint Resolve EncodedVideoFrame_codec_ok : scalar_ok.

(** ** [EncodedVideoFrames] (message.ts, lines 774-776 and 1873-1906) *)
Module EncodedVideoFrames.
Record t := mk {
  frames : list EncodedVideoFrame.t;
}.
Definition createBase : t := {|
  frames := [] |}.
Definition encode `{ProtobufRuntime} (message : t) : bytes :=
  each message.(frames) (fun v => tagged 10 (wr EncodedVideoFrame.codec v)).
Definition field `{ProtobufRuntime} (tag : Z) (reader : bytes) (message : t) : field_step t :=
  match Z.shiftr tag 3 with
  | 1 =>
      if negb (tag =? 10) then Break else
      Continue (fld EncodedVideoFrame.codec (fun v => message <| frames := message.(frames) ++ [v] |>) reader)
  | _ => Break
  end.
Definition decode `{ProtobufRuntime} : Z -> bytes -> outcome (t * bytes) :=
  decode_with field createBase.
Definition codec `{ProtobufRuntime} : scalar t := embedded encode decode.
(** The values the wire format can carry. *)
Definition ok `{ProtobufRuntime} (message : t) : Prop :=
  Forall EncodedVideoFrame.wire_ok message.(frames).
Definition wire_ok `{ProtobufRuntime} (message : t) : Prop :=
  ok message /\ short_bytes (encode message).
End EncodedVideoFrames.

Lemma EncodedVideoFrames_shrinks `{ProtobufLaws} : field_shrinks EncodedVideoFrames.field.
Proof. solve_shrinks EncodedVideoFrames.field. Qed.
Lemma EncodedVideoFrames_roundtrip `{ProtobufLaws} m r :
  EncodedVideoFrames.ok m -> EncodedVideoFrames.decode (len r) (EncodedVideoFrames.encode m ++ r) = Ret (m, r).
Proof.
  start_roundtrip EncodedVideoFrames.ok EncodedVideoFrames.createBase EncodedVideoFrames.encode EncodedVideoFrames.decode.
  step_each EncodedVideoFrames_shrinks (fun v m => m <| EncodedVideoFrames.frames := v |>).
  finish_roundtrip m.
Qed.
Lemma EncodedVideoFrames_codec_ok `{ProtobufLaws} : scalar_ok EncodedVideoFrames.codec EncodedVideoFrames.wire_ok.
Proof. apply embedded_ok; [apply decode_with_shrinks, EncodedVideoFrames_shrinks|apply EncodedVideoFrames_roundtrip]. Qed.
#[export] Hint Resolve EncodedVideoFrames_codec_ok : scalar_ok.

(** ** [RGB] (message.ts, lines 778-780 and 1934-1967) *)
Module RGB.
Record t := mk {
  compress : bool;
}.
Definition createBase : t := {|
  compress := false |}.
Definition encode `{ProtobufRuntime} (message : t) : bytes :=
  unless (negb message.(compress)) (tagged 8 (wr pb_bool message.(compress))).
Definition field `{ProtobufRuntime} (tag : Z) (reader : bytes) (message : t) : field_step t :=
  match Z.shiftr tag 3 with
  | 1 =>
      if negb (tag =? 8) then Break else
      Continue (fld pb_bool (fun v => message <| compress := v |>) reader)
  | _ => Break
  end.
Definition decode `{ProtobufRuntime} : Z -> bytes -> outcome (t * bytes) :=
  decode_with field createBase.
Definition codec `{ProtobufRuntime} : scalar t := embedded encode decode.
(** The values the wire format can carry. *)
Definition ok `{ProtobufRuntime} (message : t) : Prop :=
  True.
Definition wire_ok `{ProtobufRuntime} (message : t) : Prop :=
  ok message /\ short_bytes (encode message).
End RGB.

Lemma RGB_shrinks `{ProtobufLaws} : field_shrinks RGB.field.
Proof. solve_shrinks RGB.field. Qed.
Lemma RGB_roundtrip `{ProtobufLaws} m r :
  RGB.ok m -> RGB.decode (len r) (RGB.encode m ++ r) = Ret (m, r).
Proof.
  start_roundtrip RGB.ok RGB.createBase RGB.encode RGB.decode.
  step_scalar RGB_shrinks (fun v m => m <| RGB.compress := v |>).
  finish_roundtrip m.
Qed.
Lemma RGB_codec_ok `{ProtobufLaws} : scalar_ok RGB.codec RGB.wire_ok.
Proof. apply embedded_ok; [apply decode_with_shrinks, RGB_shrinks|apply RGB_roundtrip]. Qed.
#[export] Hint Resolve RGB_codec_ok : scalar_ok.

(** ** [YUV] (message.ts, lines 783-786 and 1991-2034) *)
Module YUV.
Record t := mk {
  compress : bool;
  stride : Z;
}.
Definition createBase : t := {|
  compress := false;
  stride := 0 |}.
Definition encode `{ProtobufRuntime} (message : t) : bytes :=
  unless (negb message.(compress)) (tagged 8 (wr pb_bool message.(compress))) ++
  unless (message.(stride) =? 0) (tagged 16 (wr pb_int32 message.(stride))).
Definition field `{ProtobufRuntime} (tag : Z) (reader : bytes) (message : t) : field_step t :=
  match Z.shiftr tag 3 with
  | 1 =>
      if negb (tag =? 8) then Break else
      Continue (fld pb_bool (fun v => message <| compress := v |>) reader)
  | 2 =>
      if negb (tag =? 16) then Break else
      Continue (fld pb_int32 (fun v => message <| stride := v |>) reader)
  | _ => Break
  end.
Definition decode `{ProtobufRuntime} : Z -> bytes -> outcome (t * bytes) :=
  decode_with field createBase.
Definition codec `{ProtobufRuntime} : scalar t := embedded encode decode.
(** The values the wire format can carry. *)
Definition ok `{ProtobufRuntime} (message : t) : Prop :=
  in_int32 message.(stride).
Definition wire_ok `{ProtobufRuntime} (message : t) : Prop :=
  ok message /\ short_bytes (encode message).
End YUV.

Lemma YUV_shrinks `{ProtobufLaws} : field_shrinks YUV.field.
Proof. solve_shrinks YUV.field. Qed.
Lemma YUV_roundtrip `{ProtobufLaws} m r :
  YUV.ok m -> YUV.decode (len r) (YUV.encode m ++ r) = Ret (m, r).
Proof.
  start_roundtrip YUV.ok YUV.createBase YUV.encode YUV.decode.
  step_scalar YUV_shrinks (fun v m => m <| YUV.compress := v |>).
  step_scalar YUV_shrinks (fun v m => m <| YUV.stride := v |>).
  finish_roundtrip m.
Qed.
Lemma YUV_codec_ok `{ProtobufLaws} : scalar_ok YUV.codec YUV.wire_ok.
Proof. apply embedded_ok; [apply decode_with_shrinks, YUV_shrinks|apply YUV_roundtrip]. Qed.
#[export] Hint Resolve YUV_codec_ok : scalar_ok.

(** ** [VideoFrame] (message.ts, lines 788-797 and 2065-2177) *)
Module VideoFrame.
Record t := mk {
  vp9s : maybe EncodedVideoFrames.t;
  rgb : maybe RGB.t;
  yuv : maybe YUV.t;
  h264s : maybe EncodedVideoFrames.t;
  h265s : maybe EncodedVideoFrames.t;
  vp8s : maybe EncodedVideoFrames.t;
  av1s : maybe EncodedVideoFrames.t;
  display : Z;
}.
Definition createBase : t := {|
  vp9s := None;
  rgb := None;
  yuv := None;
  h264s := None;
  h265s := None;
  vp8s := None;
  av1s := None;
  display := 0 |}.
Definition encode `{ProtobufRuntime} (message : t) : bytes :=
  if_set message.(vp9s) (fun v => tagged 50 (wr EncodedVideoFrames.codec v)) ++
  if_set message.(rgb) (fun v => tagged 58 (wr RGB.codec v)) ++
  if_set message.(yuv) (fun v => tagged 66 (wr YUV.codec v)) ++
  if_set message.(h264s) (fun v => tagged 82 (wr EncodedVideoFrames.codec v)) ++
  if_set message.(h265s) (fun v => tagged 90 (wr EncodedVideoFrames.codec v)) ++
  if_set message.(vp8s) (fun v => tagged 98 (wr EncodedVideoFrames.codec v)) ++
  if_set message.(av1s) (fun v => tagged 106 (wr EncodedVideoFrames.codec v)) ++
  unless (message.(display) =? 0) (tagged 112 (wr pb_int32 message.(display))).
Definition field `{ProtobufRuntime} (tag : Z) (reader : bytes) (message : t) : field_step t :=
  match Z.shiftr tag 3 with
  | 6 =>
      if negb (tag =? 50) then Break else
      Continue (fld EncodedVideoFrames.codec (fun v => message <| vp9s := Some v |>) reader)
  | 7 =>
      if negb (tag =? 58) then Break else
      Continue (fld RGB.codec (fun v => message <| rgb := Some v |>) reader)
  | 8 =>
      if negb (tag =? 66) then Break else
      Continue (fld YUV.codec (fun v => message <| yuv := Some v |>) reader)
  | 10 =>
      if negb (tag =? 82) then Break else
      Continue (fld EncodedVideoFrames.codec (fun v => message <| h264s := Some v |>) reader)
  | 11 =>
      if negb (tag =? 90) then Break else
      Continue (fld EncodedVideoFrames.codec (fun v => message <| h265s := Some v |>) reader)
  | 12 =>
      if negb (tag =? 98) then Break else
      Continue (fld EncodedVideoFrames.codec (fun v => message <| vp8s := Some v |>) reader)
  | 13 =>
      if negb (tag =? 106) then Break else
      Continue (fld EncodedVideoFrames.codec (fun v => message <| av1s := Some v |>) reader)
  | 14 =>
      if negb (tag =? 112) then Break else
      Continue (fld pb_int32 (fun v => message <| display := v |>) reader)
  | _ => Break
  end.
Definition decode `{ProtobufRuntime} : Z -> bytes -> outcome (t * bytes) :=
  decode_with field createBase.
Definition codec `{ProtobufRuntime} : scalar t := embedded encode decode.
(** The values the wire format can carry. *)
Definition ok `{ProtobufRuntime} (message : t) : Prop :=
  from_option EncodedVideoFrames.wire_ok True message.(vp9s) /\
  from_option RGB.wire_ok True message.(rgb) /\
  from_option YUV.wire_ok True message.(yuv) /\
  from_option EncodedVideoFrames.wire_ok True message.(h264s) /\
  from_option EncodedVideoFrames.wire_ok True message.(h265s) /\
  from_option EncodedVideoFrames.wire_ok True message.(vp8s) /\
  from_option EncodedVideoFrames.wire_ok True message.(av1s) /\
  in_int32 message.(display).
Definition wire_ok `{ProtobufRuntime} (message : t) : Prop :=
  ok message /\ short_bytes (encode message).
End VideoFrame.

Lemma VideoFrame_shrinks `{ProtobufLaws} : field_shrinks VideoFrame.field.
Proof. solve_shrinks VideoFrame.field. Qed.
Lemma VideoFrame_roundtrip `{ProtobufLaws} m r :
  VideoFrame.ok m -> VideoFrame.decode (len r) (VideoFrame.encode m ++ r) = Ret (m, r).
Proof.
  start_roundtrip VideoFrame.ok VideoFrame.createBase VideoFrame.encode VideoFrame.decode.
  step_opt VideoFrame_shrinks (fun v m => m <| VideoFrame.vp9s := v |>).
  step_opt VideoFrame_shrinks (fun v m => m <| VideoFrame.rgb := v |>).
  step_opt VideoFrame_shrinks (fun v m => m <| VideoFrame.yuv := v |>).
  step_opt VideoFrame_shrinks (fun v m => m <| VideoFrame.h264s := v |>).
  step_opt VideoFrame_shrinks (fun v m => m <| VideoFrame.h265s := v |>).
  step_opt VideoFrame_shrinks (fun v m => m <| VideoFrame.vp8s := v |>).
  step_opt VideoFrame_shrinks (fun v m => m <| VideoFrame.av1s := v |>).
  step_scalar VideoFrame_shrinks (fun v m => m <| VideoFrame.display := v |>).
  finish_roundtrip m.
Qed.
Lemma VideoFrame_codec_ok `{ProtobufLaws} : scalar_ok VideoFrame.codec VideoFrame.wire_ok.
Proof. apply embedded_ok; [apply decode_with_shrinks, VideoFrame_shrinks|apply VideoFrame_roundtrip]. Qed.
#[export] Hint Resolve VideoFrame_codec_ok : scalar_ok.

(** ** [TouchScaleUpdate] (message.ts, lines 908-915 and 3840-3873) *)
Module TouchScaleUpdate.
Record t := mk {
  scale : Z;
}.
Definition createBase : t := {|
  scale := 0 |}.
Definition encode `{ProtobufRuntime} (message : t) : bytes :=
  unless (message.(scale) =? 0) (tagged 8 (wr pb_int32 message.(scale))).
Definition field `{ProtobufRuntime} (tag : Z) (reader : bytes) (message : t) : field_step t :=
  match Z.shiftr tag 3 with
  | 1 =>
      if negb (tag =? 8) then Break else
      Continue (fld pb_int32 (fun v => message <| scale := v |>) reader)
  | _ => Break
  end.
Definition decode `{ProtobufRuntime} : Z -> bytes -> outcome (t * bytes) :=
  decode_with field createBase.
Definition codec `{ProtobufRuntime} : scalar t := embedded encode decode.
(** The values the wire format can carry. *)
Definition ok `{ProtobufRuntime} (message : t) : Prop :=
  in_int32 message.(scale).
Definition wire_ok `{ProtobufRuntime} (message : t) : Prop :=
  ok message /\ short_bytes (encode message).
End TouchScaleUpdate.

Lemma TouchScaleUpdate_shrinks `{ProtobufLaws} : field_shrinks TouchScaleUpdate.field.
Proof. solve_shrinks TouchScaleUpdate.field. Qed.
Lemma TouchScaleUpdate_roundtrip `{ProtobufLaws} m r :
  TouchScaleUpdate.ok m -> TouchScaleUpdate.decode (len r) (TouchScaleUpdate.encode m ++ r) = Ret (m, r).
Proof.
  start_roundtrip TouchScaleUpdate.ok TouchScaleUpdate.createBase TouchScaleUpdate.encode TouchScaleUpdate.decode.
  step_scalar TouchScaleUpdate_shrinks (fun v m => m <| TouchScaleUpdate.scale := v |>).
  finish_roundtrip m.
Qed.
Lemma TouchScaleUpdate_codec_ok `{ProtobufLaws} : scalar_ok TouchScaleUpdate.codec TouchScaleUpdate.wire_ok.
Proof. apply embedded_ok; [apply decode_with_shrinks, TouchScaleUpdate_shrinks|apply TouchScaleUpdate_roundtrip]. Qed.
#[export] Hint Resolve TouchScaleUpdate_codec_ok : scalar_ok.

(** ** [TouchPanStart] (message.ts, lines 917-920 and 3897-3940) *)
Module TouchPanStart.
Record t := mk {
  x : Z;
  y : Z;
}.
Definition createBase : t := {|
  x := 0;
  y := 0 |}.
Definition encode `{ProtobufRuntime} (message : t) : bytes :=
  unless (message.(x) =? 0) (tagged 8 (wr pb_int32 message.(x))) ++
  unless (message.(y) =? 0) (tagged 16 (wr pb_int32 message.(y))).
Definition field `{ProtobufRuntime} (tag : Z) (reader : bytes) (message : t) : field_step t :=
  match Z.shiftr tag 3 with
  | 1 =>
      if negb (tag =? 8) then Break else
      Continue (fld pb_int32 (fun v => message <| x := v |>) reader)
  | 2 =>
      if negb (tag =? 16) then Break else
      Continue (fld pb_int32 (fun v => message <| y := v |>) reader)
  | _ => Break
  end.
Definition decode `{ProtobufRuntime} : Z -> bytes -> outcome (t * bytes) :=
  decode_with field createBase.
Definition codec `{ProtobufRuntime} : scalar t := embedded encode decode.
(** The values the wire format can carry. *)
Definition ok `{ProtobufRuntime} (message : t) : Prop :=
  in_int32 message.(x) /\
  in_int32 message.(y).
Definition wire_ok `{ProtobufRuntime} (message : t) : Prop :=
  ok message /\ short_bytes (encode message).
End TouchPanStart.

Lemma TouchPanStart_shrinks `{ProtobufLaws} : field_shrinks TouchPanStart.field.
Proof. solve_shrinks TouchPanStart.field. Qed.
Lemma TouchPanStart_roundtrip `{ProtobufLaws} m r :
  TouchPanStart.ok m -> TouchPanStart.decode (len r) (TouchPanStart.encode m ++ r) = Ret (m, r).
Proof.
  start_roundtrip TouchPanStart.ok TouchPanStart.createBase TouchPanStart.encode TouchPanStart.decode.
  step_scalar TouchPanStart_shrinks (fun v m => m <| TouchPanStart.x := v |>).
  step_scalar TouchPanStart_shrinks (fun v m => m <| TouchPanStart.y := v |>).
  finish_roundtrip m.
Qed.
Lemma TouchPanStart_codec_ok `{ProtobufLaws} : scalar_ok TouchPanStart.codec TouchPanStart.wire_ok.
Proof. apply embedded_ok; [apply decode_with_shrinks, TouchPanStart_shrinks|apply TouchPanStart_roundtrip]. Qed.
#[export] Hint Resolve TouchPanStart_codec_ok : scalar_ok.

(** ** [TouchPanUpdate] (message.ts, lines 922-927 and 3971-4014) *)
Module TouchPanUpdate.
Record t := mk {
  x : Z;
  y : Z;
}.
Definition createBase : t := {|
  x := 0;
  y := 0 |}.
Definition encode `{ProtobufRuntime} (message : t) : bytes :=
  unless (message.(x) =? 0) (tagged 8 (wr pb_int32 message.(x))) ++
  unless (message.(y) =? 0) (tagged 16 (wr pb_int32 message.(y))).
Definition field `{ProtobufRuntime} (tag : Z) (reader : bytes) (message : t) : field_step t :=
  match Z.shiftr tag 3 with
  | 1 =>
      if negb (tag =? 8) then Break else
      Continue (fld pb_int32 (fun v => message <| x := v |>) reader)
  | 2 =>
      if negb (tag =? 16) then Break else
      Continue (fld pb_int32 (fun v => message <| y := v |>) reader)
  | _ => Break
  end.
Definition decode `{ProtobufRuntime} : Z -> bytes -> outcome (t * bytes) :=
  decode_with field createBase.
Definition codec `{ProtobufRuntime} : scalar t := embedded encode decode.
(** The values the wire format can carry. *)
Definition ok `{ProtobufRuntime} (message : t) : Prop :=
  in_int32 message.(x) /\
  in_int32 message.(y).
Definition wire_ok `{ProtobufRuntime} (message : t) : Prop :=
  ok message /\ short_bytes (encode message).
End TouchPanUpdate.

Lemma TouchPanUpdate_shrinks `{ProtobufLaws} : field_shrinks TouchPanUpdate.field.
Proof. solve_shrinks TouchPanUpdate.field. Qed.
Lemma TouchPanUpdate_roundtrip `{ProtobufLaws} m r :
  TouchPanUpdate.ok m -> TouchPanUpdate.decode (len r) (TouchPanUpdate.encode m ++ r) = Ret (m, r).
Proof.
  start_roundtrip TouchPanUpdate.ok TouchPanUpdate.createBase TouchPanUpdate.encode TouchPanUpdate.decode.
  step_scalar TouchPanUpdate_shrinks (fun v m => m <| TouchPanUpdate.x := v |>).
  step_scalar TouchPanUpdate_shrinks (fun v m => m <| TouchPanUpdate.y := v |>).
  finish_roundtrip m.
Qed.
Lemma TouchPanUpdate_codec_ok `{ProtobufLaws} : scalar_ok TouchPanUpdate.codec TouchPanUpdate.wire_ok.
Proof. apply embedded_ok; [apply decode_with_shrinks, TouchPanUpdate_shrinks|apply TouchPanUpdate_roundtrip]. Qed.
#[export] Hint Resolve TouchPanUpdate_codec_ok : scalar_ok.

(** ** [TouchPanEnd] (message.ts, lines 929-932 and 4045-4088) *)
Module TouchPanEnd.
Record t := mk {
  x : Z;
  y : Z;
}.
Definition createBase : t := {|
  x := 0;
  y := 0 |}.
Definition encode `{ProtobufRuntime} (message : t) : bytes :=
  unless (message.(x) =? 0) (tagged 8 (wr pb_int32 message.(x))) ++
  unless (message.(y) =? 0) (tagged 16 (wr pb_int32 message.(y))).
Definition field `{ProtobufRuntime} (tag : Z) (reader : bytes) (message : t) : field_step t :=
  match Z.shiftr tag 3 with
  | 1 =>
      if negb (tag =? 8) then Break else
      Continue (fld pb_int32 (fun v => message <| x := v |>) reader)
  | 2 =>
      if negb (tag =? 16) then Break else
      Continue (fld pb_int32 (fun v => message <| y := v |>) reader)
  | _ => Break
  end.
Definition decode `{ProtobufRuntime} : Z -> bytes -> outcome (t * bytes) :=
  decode_with field createBase.
Definition codec `{ProtobufRuntime} : scalar t := embedded encode decode.
(** The values the wire format can carry. *)
Definition ok `{ProtobufRuntime} (message : t) : Prop :=
  in_int32 message.(x) /\
  in_int32 message.(y).
Definition wire_ok `{ProtobufRuntime} (message : t) : Prop :=
  ok message /\ short_bytes (encode message).
End TouchPanEnd.

Lemma TouchPanEnd_shrinks `{ProtobufLaws} : field_shrinks TouchPanEnd.field.
Proof. solve_shrinks TouchPanEnd.field. Qed.
Lemma TouchPanEnd_roundtrip `{ProtobufLaws} m r :
  TouchPanEnd.ok m -> TouchPanEnd.decode (len r) (TouchPanEnd.encode m ++ r) = Ret (m, r).
Proof.
  start_roundtrip TouchPanEnd.ok TouchPanEnd.createBase TouchPanEnd.encode TouchPanEnd.decode.
  step_scalar TouchPanEnd_shrinks (fun v m => m <| TouchPanEnd.x := v |>).
  step_scalar TouchPanEnd_shrinks (fun v m => m <| TouchPanEnd.y := v |>).
  finish_roundtrip m.
Qed.
Lemma TouchPanEnd_codec_ok `{ProtobufLaws} : scalar_ok TouchPanEnd.codec TouchPanEnd.wire_ok.
Proof. apply embedded_ok; [apply decode_with_shrinks, TouchPanEnd_shrinks|apply TouchPanEnd_roundtrip]. Qed.
#[export] Hint Resolve TouchPanEnd_codec_ok : scalar_ok.

(** ** [TouchEvent] (message.ts, lines 934-939 and 4119-4182) *)
Module TouchEvent.
Record t := mk {
  scale_update : maybe TouchScaleUpdate.t;
  pan_start : maybe TouchPanStart.t;
  pan_update : maybe TouchPanUpdate.t;
  pan_end : maybe TouchPanEnd.t;
}.
Definition createBase : t := {|
  scale_update := None;
  pan_start := None;
  pan_update := None;
  pan_end := None |}.
Definition encode `{ProtobufRuntime} (message : t) : bytes :=
  if_set message.(scale_update) (fun v => tagged 10 (wr TouchScaleUpdate.codec v)) ++
  if_set message.(pan_start) (fun v => tagged 18 (wr TouchPanStart.codec v)) ++
  if_set message.(pan_update) (fun v => tagged 26 (wr TouchPanUpdate.codec v)) ++
  if_set message.(pan_end) (fun v => tagged 34 (wr TouchPanEnd.codec v)).
Definition field `{ProtobufRuntime} (tag : Z) (reader : bytes) (message : t) : field_step t :=
  match Z.shiftr tag 3 with
  | 1 =>
      if negb (tag =? 10) then Break else
      Continue (fld TouchScaleUpdate.codec (fun v => message <| scale_update := Some v |>) reader)
  | 2 =>
      if negb (tag =? 18) then Break else
      Continue (fld TouchPanStart.codec (fun v => message <| pan_start := Some v |>) reader)
  | 3 =>
      if negb (tag =? 26) then Break else
      Continue (fld TouchPanUpdate.codec (fun v => message <| pan_update := Some v |>) reader)
  | 4 =>
      if negb (tag =? 34) then Break else
      Continue (fld TouchPanEnd.codec (fun v => message <| pan_end := Some v |>) reader)
  | _ => Break
  end.
Definition decode `{ProtobufRuntime} : Z -> bytes -> outcome (t * bytes) :=
  decode_with field createBase.
Definition codec `{ProtobufRuntime} : scalar t := embedded encode decode.
(** The values the wire format can carry. *)
Definition ok `{ProtobufRuntime} (message : t) : Prop :=
  from_option TouchScaleUpdate.wire_ok True message.(scale_update) /\
  from_option TouchPanStart.wire_ok True message.(pan_start) /\
  from_option TouchPanUpdate.wire_ok True message.(pan_update) /\
  from_option TouchPanEnd.wire_ok True message.(pan_end).
Definition wire_ok `{ProtobufRuntime} (message : t) : Prop :=
  ok message /\ short_bytes (encode message).
End TouchEvent.

Lemma TouchEvent_shrinks `{ProtobufLaws} : field_shrinks TouchEvent.field.
Proof. solve_shrinks TouchEvent.field. Qed.
Lemma TouchEvent_roundtrip `{ProtobufLaws} m r :
  TouchEvent.ok m -> TouchEvent.decode (len r) (TouchEvent.encode m ++ r) = Ret (m, r).
Proof.
  start_roundtrip TouchEvent.ok TouchEvent.createBase TouchEvent.encode TouchEvent.decode.
  step_opt TouchEvent_shrinks (fun v m => m <| TouchEvent.scale_update := v |>).
  step_opt TouchEvent_shrinks (fun v m => m <| TouchEvent.pan_start := v |>).
  step_opt TouchEvent_shrinks (fun v m => m <| TouchEvent.pan_update := v |>).
  step_opt TouchEvent_shrinks (fun v m => m <| TouchEvent.pan_end := v |>).
  finish_roundtrip m.
Qed.
Lemma TouchEvent_codec_ok `{ProtobufLaws} : scalar_ok TouchEvent.codec TouchEvent.wire_ok.
Proof. apply embedded_ok; [apply decode_with_shrinks, TouchEvent_shrinks|apply TouchEvent_roundtrip]. Qed.
#[export] Hint Resolve TouchEvent_codec_ok : scalar_ok.

(** ** [PointerDeviceEvent] (message.ts, lines 941-944 and 4231-4286) *)
Module PointerDeviceEvent.
Record t := mk {
  touch_event : maybe TouchEvent.t;
  modifiers : list Z;
}.
Definition createBase : t := {|
  touch_event := None;
  modifiers := [] |}.
Definition encode `{ProtobufRuntime} (message : t) : bytes :=
  if_set message.(touch_event) (fun v => tagged 10 (wr TouchEvent.codec v)) ++
  tagged 18 (wr (packed pb_int32 []) message.(modifiers)).
Definition field `{ProtobufRuntime} (tag : Z) (reader : bytes) (message : t) : field_step t :=
  match Z.shiftr tag 3 with
  | 1 =>
      if negb (tag =? 10) then Break else
      Continue (fld TouchEvent.codec (fun v => message <| touch_event := Some v |>) reader)
  | 2 =>
      if tag =? 16 then
        Continue (fld pb_int32 (fun v => message <| modifiers := message.(modifiers) ++ [v] |>) reader)
      else if tag =? 18 then
        Continue (fld (packed pb_int32 message.(modifiers)) (fun vs => message <| modifiers := vs |>) reader)
      else Break
  | _ => Break
  end.
Definition decode `{ProtobufRuntime} : Z -> bytes -> outcome (t * bytes) :=
  decode_with field createBase.
Definition codec `{ProtobufRuntime} : scalar t := embedded encode decode.
(** The values the wire format can carry. *)
Definition ok `{ProtobufRuntime} (message : t) : Prop :=
  from_option TouchEvent.wire_ok True message.(touch_event) /\
  Forall in_int32 message.(modifiers) /\ short_bytes (each message.(modifiers) (wr pb_int32)).
Definition wire_ok `{ProtobufRuntime} (message : t) : Prop :=
  ok message /\ short_bytes (encode message).
End PointerDeviceEvent.

Lemma PointerDeviceEvent_shrinks `{ProtobufLaws} : field_shrinks PointerDeviceEvent.field.
Proof. solve_shrinks PointerDeviceEvent.field. Qed.
Lemma PointerDeviceEvent_roundtrip `{ProtobufLaws} m r :
  PointerDeviceEvent.ok m -> PointerDeviceEvent.decode (len r) (PointerDeviceEvent.encode m ++ r) = Ret (m, r).
Proof.
  start_roundtrip PointerDeviceEvent.ok PointerDeviceEvent.createBase PointerDeviceEvent.encode PointerDeviceEvent.decode.
  step_opt PointerDeviceEvent_shrinks (fun v m => m <| PointerDeviceEvent.touch_event := v |>).
  step_packed PointerDeviceEvent_shrinks (fun v m => m <| PointerDeviceEvent.modifiers := v |>).
  finish_roundtrip m.
Qed.
Lemma PointerDeviceEvent_codec_ok `{ProtobufLaws} : scalar_ok PointerDeviceEvent.codec PointerDeviceEvent.wire_ok.
Proof. apply embedded_ok; [apply decode_with_shrinks, PointerDeviceEvent_shrinks|apply PointerDeviceEvent_roundtrip]. Qed.
#[export] Hint Resolve PointerDeviceEvent_codec_ok : scalar_ok.

(** ** [MouseEvent] (message.ts, lines 946-951 and 4321-4396) *)
Module MouseEvent.
Record t := mk {
  mask : Z;
  x : Z;
  y : Z;
  modifiers : list Z;
}.
Definition createBase : t := {|
  mask := 0;
  x := 0;
  y := 0;
  modifiers := [] |}.
Definition encode `{ProtobufRuntime} (message : t) : bytes :=
  unless (message.(mask) =? 0) (tagged 8 (wr pb_int32 message.(mask))) ++
  unless (message.(x) =? 0) (tagged 16 (wr pb_sint32 message.(x))) ++
  unless (message.(y) =? 0) (tagged 24 (wr pb_sint32 message.(y))) ++
  tagged 34 (wr (packed pb_int32 []) message.(modifiers)).
Definition field `{ProtobufRuntime} (tag : Z) (reader : bytes) (message : t) : field_step t :=
  match Z.shiftr tag 3 with
  | 1 =>
      if negb (tag =? 8) then Break else
      Continue (fld pb_int32 (fun v => message <| mask := v |>) reader)
  | 2 =>
      if negb (tag =? 16) then Break else
      Continue (fld pb_sint32 (fun v => message <| x := v |>) reader)
  | 3 =>
      if negb (tag =? 24) then Break else
      Continue (fld pb_sint32 (fun v => message <| y := v |>) reader)
  | 4 =>
      if tag =? 32 then
        Continue (fld pb_int32 (fun v => message <| modifiers := message.(modifiers) ++ [v] |>) reader)
      else if tag =? 34 then
        Continue (fld (packed pb_int32 message.(modifiers)) (fun vs => message <| modifiers := vs |>) reader)
      else Break
  | _ => Break
  end.
Definition decode `{ProtobufRuntime} : Z -> bytes -> outcome (t * bytes) :=
  decode_with field createBase.
Definition codec `{ProtobufRuntime} : scalar t := embedded encode decode.
(** The values the wire format can carry. *)
Definition ok `{ProtobufRuntime} (message : t) : Prop :=
  in_int32 message.(mask) /\
  in_int32 message.(x) /\
  in_int32 message.(y) /\
  Forall in_int32 message.(modifiers) /\ short_bytes (each message.(modifiers) (wr pb_int32)).
Definition wire_ok `{ProtobufRuntime} (message : t) : Prop :=
  ok message /\ short_bytes (encode message).
End MouseEvent.

Lemma MouseEvent_shrinks `{ProtobufLaws} : field_shrinks MouseEvent.field.
Proof. solve_shrinks MouseEvent.field. Qed.
Lemma MouseEvent_roundtrip `{ProtobufLaws} m r :
  MouseEvent.ok m -> MouseEvent.decode (len r) (MouseEvent.encode m ++ r) = Ret (m, r).
Proof.
  start_roundtrip MouseEvent.ok MouseEvent.createBase MouseEvent.encode MouseEvent.decode.
  step_scalar MouseEvent_shrinks (fun v m => m <| MouseEvent.mask := v |>).
  step_scalar MouseEvent_shrinks (fun v m => m <| MouseEvent.x := v |>).
  step_scalar MouseEvent_shrinks (fun v m => m <| MouseEvent.y := v |>).
  step_packed MouseEvent_shrinks (fun v m => m <| MouseEvent.modifiers := v |>).
  finish_roundtrip m.
Qed.
Lemma MouseEvent_codec_ok `{ProtobufLaws} : scalar_ok MouseEvent.codec MouseEvent.wire_ok.
Proof. apply embedded_ok; [apply decode_with_shrinks, MouseEvent_shrinks|apply MouseEvent_roundtrip]. Qed.
#[export] Hint Resolve MouseEvent_codec_ok : scalar_ok.

(** ** [KeyEvent] (message.ts, lines 953-974 and 4439-4574) *)
Module KeyEvent.
Record t := mk {
  down : bool;
  press : bool;
  control_key : maybe Z;
  chr : maybe Z;
  unicode : maybe Z;
  seq : maybe string;
  win2win_hotkey : maybe Z;
  modifiers : list Z;
  mode : Z;
}.
Definition createBase : t := {|
  down := false;
  press := false;
  control_key := None;
  chr := None;
  unicode := None;
  seq := None;
  win2win_hotkey := None;
  modifiers := [];
  mode := 0 |}.
Definition encode `{ProtobufRuntime} (message : t) : bytes :=
  unless (negb message.(down)) (tagged 8 (wr pb_bool message.(down))) ++
  unless (negb message.(press)) (tagged 16 (wr pb_bool message.(press))) ++
  if_set message.(control_key) (fun v => tagged 24 (wr pb_int32 v)) ++
  if_set message.(chr) (fun v => tagged 32 (wr pb_uint32 v)) ++
  if_set message.(unicode) (fun v => tagged 40 (wr pb_uint32 v)) ++
  if_set message.(seq) (fun v => tagged 50 (wr pb_string v)) ++
  if_set message.(win2win_hotkey) (fun v => tagged 56 (wr pb_uint32 v)) ++
  tagged 66 (wr (packed pb_int32 []) message.(modifiers)) ++
  unless (message.(mode) =? 0) (tagged 72 (wr pb_int32 message.(mode))).
Definition field `{ProtobufRuntime} (tag : Z) (reader : bytes) (message : t) : field_step t :=
  match Z.shiftr tag 3 with
  | 1 =>
      if negb (tag =? 8) then Break else
      Continue (fld pb_bool (fun v => message <| down := v |>) reader)
  | 2 =>
      if negb (tag =? 16) then Break else
      Continue (fld pb_bool (fun v => message <| press := v |>) reader)
  | 3 =>
      if negb (tag =? 24) then Break else
      Continue (fld pb_int32 (fun v => message <| control_key := Some v |>) reader)
  | 4 =>
      if negb (tag =? 32) then Break else
      Continue (fld pb_uint32 (fun v => message <| chr := Some v |>) reader)
  | 5 =>
      if negb (tag =? 40) then Break else
      Continue (fld pb_uint32 (fun v => message <| unicode := Some v |>) reader)
  | 6 =>
      if negb (tag =? 50) then Break else
      Continue (fld pb_string (fun v => message <| seq := Some v |>) reader)
  | 7 =>
      if negb (tag =? 56) then Break else
      Continue (fld pb_uint32 (fun v => message <| win2win_hotkey := Some v |>) reader)
  | 8 =>
      if tag =? 64 then
        Continue (fld pb_int32 (fun v => message <| modifiers := message.(modifiers) ++ [v] |>) reader)
      else if tag =? 66 then
        Continue (fld (packed pb_int32 message.(modifiers)) (fun vs => message <| modifiers := vs |>) reader)
      else Break
  | 9 =>
      if negb (tag =? 72) then Break else
      Continue (fld pb_int32 (fun v => message <| mode := v |>) reader)
  | _ => Break
  end.
Definition decode `{ProtobufRuntime} : Z -> bytes -> outcome (t * bytes) :=
  decode_with field createBase.
Definition codec `{ProtobufRuntime} : scalar t := embedded encode decode.
(** The values the wire format can carry. *)
Definition ok `{ProtobufRuntime} (message : t) : Prop :=
  from_option in_int32 True message.(control_key) /\
  from_option in_uint32 True message.(chr) /\
  from_option in_uint32 True message.(unicode) /\
  from_option short_string True message.(seq) /\
  from_option in_uint32 True message.(win2win_hotkey) /\
  Forall in_int32 message.(modifiers) /\ short_bytes (each message.(modifiers) (wr pb_int32)) /\
  in_int32 message.(mode).
Definition wire_ok `{ProtobufRuntime} (message : t) : Prop :=
  ok message /\ short_bytes (encode message).
End KeyEvent.

Lemma KeyEvent_shrinks `{ProtobufLaws} : field_shrinks KeyEvent.field.
Proof. solve_shrinks KeyEvent.field. Qed.
Lemma KeyEvent_roundtrip `{ProtobufLaws} m r :
  KeyEvent.ok m -> KeyEvent.decode (len r) (KeyEvent.encode m ++ r) = Ret (m, r).
Proof.
  start_roundtrip KeyEvent.ok KeyEvent.createBase KeyEvent.encode KeyEvent.decode.
  step_scalar KeyEvent_shrinks (fun v m => m <| KeyEvent.down := v |>).
  step_scalar KeyEvent_shrinks (fun v m => m <| KeyEvent.press := v |>).
  step_opt KeyEvent_shrinks (fun v m => m <| KeyEvent.control_key := v |>).
  step_opt KeyEvent_shrinks (fun v m => m <| KeyEvent.chr := v |>).
  step_opt KeyEvent_shrinks (fun v m => m <| KeyEvent.unicode := v |>).
  step_opt KeyEvent_shrinks (fun v m => m <| KeyEvent.seq := v |>).
  step_opt KeyEvent_shrinks (fun v m => m <| KeyEvent.win2win_hotkey := v |>).
  step_packed KeyEvent_shrinks (fun v m => m <| KeyEvent.modifiers := v |>).
  step_scalar KeyEvent_shrinks (fun v m => m <| KeyEvent.mode := v |>).
  finish_roundtrip m.
Qed.
Lemma KeyEvent_codec_ok `{ProtobufLaws} : scalar_ok KeyEvent.codec KeyEvent.wire_ok.
Proof. apply embedded_ok; [apply decode_with_shrinks, KeyEvent_shrinks|apply KeyEvent_roundtrip]. Qed.
#[export] Hint Resolve KeyEvent_codec_ok : scalar_ok.

(** ** [CursorData] (message.ts, lines 976-983 and 4642-4725) *)
Module CursorData.
Record t := mk {
  id : Z;
  hotx : Z;
  hoty : Z;
  width : Z;
  height : Z;
  colors : bytes;
}.
Definition createBase : t := {|
  id := 0;
  hotx := 0;
  hoty := 0;
  width := 0;
  height := 0;
  colors := [] |}.
Definition encode `{ProtobufRuntime} (message : t) : bytes :=
  unless (message.(id) =? 0) (tagged 8 (wr uint64_number message.(id))) ++
  unless (message.(hotx) =? 0) (tagged 16 (wr pb_sint32 message.(hotx))) ++
  unless (message.(hoty) =? 0) (tagged 24 (wr pb_sint32 message.(hoty))) ++
  unless (message.(width) =? 0) (tagged 32 (wr pb_int32 message.(width))) ++
  unless (message.(height) =? 0) (tagged 40 (wr pb_int32 message.(height))) ++
  unless (len message.(colors) =? 0) (tagged 50 (wr pb_bytes message.(colors))).
Definition field `{ProtobufRuntime} (tag : Z) (reader : bytes) (message : t) : field_step t :=
  match Z.shiftr tag 3 with
  | 1 =>
      if negb (tag =? 8) then Break else
      Continue (fld uint64_number (fun v => message <| id := v |>) reader)
  | 2 =>
      if negb (tag =? 16) then Break else
      Continue (fld pb_sint32 (fun v => message <| hotx := v |>) reader)
  | 3 =>
      if negb (tag =? 24) then Break else
      Continue (fld pb_sint32 (fun v => message <| hoty := v |>) reader)
  | 4 =>
      if negb (tag =? 32) then Break else
      Continue (fld pb_int32 (fun v => message <| width := v |>) reader)
  | 5 =>
      if negb (tag =? 40) then Break else
      Continue (fld pb_int32 (fun v => message <| height := v |>) reader)
  | 6 =>
      if negb (tag =? 50) then Break else
      Continue (fld pb_bytes (fun v => message <| colors := v |>) reader)
  | _ => Break
  end.
Definition decode `{ProtobufRuntime} : Z -> bytes -> outcome (t * bytes) :=
  decode_with field createBase.
Definition codec `{ProtobufRuntime} : scalar t := embedded encode decode.
(** The values the wire format can carry. *)
Definition ok `{ProtobufRuntime} (message : t) : Prop :=
  safe_uint message.(id) /\
  in_int32 message.(hotx) /\
  in_int32 message.(hoty) /\
  in_int32 message.(width) /\
  in_int32 message.(height) /\
  short_bytes message.(colors).
Definition wire_ok `{ProtobufRuntime} (message : t) : Prop :=
  ok message /\ short_bytes (encode message).
End CursorData.

Lemma CursorData_shrinks `{ProtobufLaws} : field_shrinks CursorData.field.
Proof. solve_shrinks CursorData.field. Qed.
Lemma CursorData_roundtrip `{ProtobufLaws} m r :
  CursorData.ok m -> CursorData.decode (len r) (CursorData.encode m ++ r) = Ret (m, r).
Proof.
  start_roundtrip CursorData.ok CursorData.createBase CursorData.encode CursorData.decode.
  step_scalar CursorData_shrinks (fun v m => m <| CursorData.id := v |>).
  step_scalar CursorData_shrinks (fun v m => m <| CursorData.hotx := v |>).
  step_scalar CursorData_shrinks (fun v m => m <| CursorData.hoty := v |>).
  step_scalar CursorData_shrinks (fun v m => m <| CursorData.width := v |>).
  step_scalar CursorData_shrinks (fun v m => m <| CursorData.height := v |>).
  step_scalar CursorData_shrinks (fun v m => m <| CursorData.colors := v |>).
  finish_roundtrip m.
Qed.
Lemma CursorData_codec_ok `{ProtobufLaws} : scalar_ok CursorData.codec CursorData.wire_ok.
Proof. apply embedded_ok; [apply decode_with_shrinks, CursorData_shrinks|apply CursorData_roundtrip]. Qed.
#[export] Hint Resolve CursorData_codec_ok : scalar_ok.

(** ** [CursorPosition] (message.ts, lines 985-988 and 4776-4819) *)
Module CursorPosition.
Record t := mk {
  x : Z;
  y : Z;
}.
Definition createBase : t := {|
  x := 0;
  y := 0 |}.
Definition encode `{ProtobufRuntime} (message : t) : bytes :=
  unless (message.(x) =? 0) (tagged 8 (wr pb_sint32 message.(x))) ++
  unless (message.(y) =? 0) (tagged 16 (wr pb_sint32 message.(y))).
Definition field `{ProtobufRuntime} (tag : Z) (reader : bytes) (message : t) : field_step t :=
  match Z.shiftr tag 3 with
  | 1 =>
      if negb (tag =? 8) then Break else
      Continue (fld pb_sint32 (fun v => message <| x := v |>) reader)
  | 2 =>
      if negb (tag =? 16) then Break else
      Continue (fld pb_sint32 (fun v => message <| y := v |>) reader)
  | _ => Break
  end.
Definition decode `{ProtobufRuntime} : Z -> bytes -> outcome (t * bytes) :=
  decode_with field createBase.
Definition codec `{ProtobufRuntime} : scalar t := embedded encode decode.
(** The values the wire format can carry. *)
Definition ok `{ProtobufRuntime} (message : t) : Prop :=
  in_int32 message.(x) /\
  in_int32 message.(y).
Definition wire_ok `{ProtobufRuntime} (message : t) : Prop :=
  ok message /\ short_bytes (encode message).
End CursorPosition.

Lemma CursorPosition_shrinks `{ProtobufLaws} : field_shrinks CursorPosition.field.
Proof. solve_shrinks CursorPosition.field. Qed.
Lemma CursorPosition_roundtrip `{ProtobufLaws} m r :
  CursorPosition.ok m -> CursorPosition.decode (len r) (CursorPosition.encode m ++ r) = Ret (m, r).
Proof.
  start_roundtrip CursorPosition.ok CursorPosition.createBase CursorPosition.encode CursorPosition.decode.
  step_scalar CursorPosition_shrinks (fun v m => m <| CursorPosition.x := v |>).
  step_scalar CursorPosition_shrinks (fun v m => m <| CursorPosition.y := v |>).
  finish_roundtrip m.
Qed.
Lemma CursorPosition_codec_ok `{ProtobufLaws} : scalar_ok CursorPosition.codec CursorPosition.wire_ok.
Proof. apply embedded_ok; [apply decode_with_shrinks, CursorPosition_shrinks|apply CursorPosition_roundtrip]. Qed.
#[export] Hint Resolve CursorPosition_codec_ok : scalar_ok.

(** ** [Clipboard] (message.ts, lines 995-1003 and 4924-5007) *)
Module Clipboard.
Record t := mk {
  compress : bool;
  content : bytes;
  width : Z;
  height : Z;
  format : Z;
  special_name : string;
}.
Definition createBase : t := {|
  compress := false;
  content := [];
  width := 0;
  height := 0;
  format := 0;
  special_name := "" |}.
Definition encode `{ProtobufRuntime} (message : t) : bytes :=
  unless (negb message.(compress)) (tagged 8 (wr pb_bool message.(compress))) ++
  unless (len message.(content) =? 0) (tagged 18 (wr pb_bytes message.(content))) ++
  unless (message.(width) =? 0) (tagged 24 (wr pb_int32 message.(width))) ++
  unless (message.(height) =? 0) (tagged 32 (wr pb_int32 message.(height))) ++
  unless (message.(format) =? 0) (tagged 40 (wr pb_int32 message.(format))) ++
  unless (message.(special_name) =? "")%string (tagged 50 (wr pb_string message.(special_name))).
Definition field `{ProtobufRuntime} (tag : Z) (reader : bytes) (message : t) : field_step t :=
  match Z.shiftr tag 3 with
  | 1 =>
      if negb (tag =? 8) then Break else
      Continue (fld pb_bool (fun v => message <| compress := v |>) reader)
  | 2 =>
      if negb (tag =? 18) then Break else
      Continue (fld pb_bytes (fun v => message <| content := v |>) reader)
  | 3 =>
      if negb (tag =? 24) then Break else
      Continue (fld pb_int32 (fun v => message <| width := v |>) reader)
  | 4 =>
      if negb (tag =? 32) then Break else
      Continue (fld pb_int32 (fun v => message <| height := v |>) reader)
  | 5 =>
      if negb (tag =? 40) then Break else
      Continue (fld pb_int32 (fun v => message <| format := v |>) reader)
  | 6 =>
      if negb (tag =? 50) then Break else
      Continue (fld pb_string (fun v => message <| special_name := v |>) reader)
  | _ => Break
  end.
Definition decode `{ProtobufRuntime} : Z -> bytes -> outcome (t * bytes) :=
  decode_with field createBase.
Definition codec `{ProtobufRuntime} : scalar t := embedded encode decode.
(** The values the wire format can carry. *)
Definition ok `{ProtobufRuntime} (message : t) : Prop :=
  short_bytes message.(content) /\
  in_int32 message.(width) /\
  in_int32 message.(height) /\
  in_int32 message.(format) /\
  short_string message.(special_name).
Definition wire_ok `{ProtobufRuntime} (message : t) : Prop :=
  ok message /\ short_bytes (encode message).
End Clipboard.

Lemma Clipboard_shrinks `{ProtobufLaws} : field_shrinks Clipboard.field.
Proof. solve_shrinks Clipboard.field. Qed.
Lemma Clipboard_roundtrip `{ProtobufLaws} m r :
  Clipboard.ok m -> Clipboard.decode (len r) (Clipboard.encode m ++ r) = Ret (m, r).
Proof.
  start_roundtrip Clipboard.ok Clipboard.createBase Clipboard.encode Clipboard.decode.
  step_scalar Clipboard_shrinks (fun v m => m <| Clipboard.compress := v |>).
  step_scalar Clipboard_shrinks (fun v m => m <| Clipboard.content := v |>).
  step_scalar Clipboard_shrinks (fun v m => m <| Clipboard.width := v |>).
  step_scalar Clipboard_shrinks (fun v m => m <| Clipboard.height := v |>).
  step_scalar Clipboard_shrinks (fun v m => m <| Clipboard.format := v |>).
  step_scalar Clipboard_shrinks (fun v m => m <| Clipboard.special_name := v |>).
  finish_roundtrip m.
Qed.
Lemma Clipboard_codec_ok `{ProtobufLaws} : scalar_ok Clipboard.codec Clipboard.wire_ok.
Proof. apply embedded_ok; [apply decode_with_shrinks, Clipboard_shrinks|apply Clipboard_roundtrip]. Qed.
#[export] Hint Resolve Clipboard_codec_ok : scalar_ok.

(** ** [MultiClipboards] (message.ts, lines 1005-1007 and 5058-5091) *)
Module MultiClipboards.
Record t := mk {
  clipboards : list Clipboard.t;
}.
Definition createBase : t := {|
  clipboards := [] |}.
Definition encode `{ProtobufRuntime} (message : t) : bytes :=
  each message.(clipboards) (fun v => tagged 10 (wr Clipboard.codec v)).
Definition field `{ProtobufRuntime} (tag : Z) (reader : bytes) (message : t) : field_step t :=
  match Z.shiftr tag 3 with
  | 1 =>
      if negb (tag =? 10) then Break else
      Continue (fld Clipboard.codec (fun v => message <| clipboards := message.(clipboards) ++ [v] |>) reader)
  | _ => Break
  end.
Definition decode `{ProtobufRuntime} : Z -> bytes -> outcome (t * bytes) :=
  decode_with field createBase.
Definition codec `{ProtobufRuntime} : scalar t := embedded encode decode.
(** The values the wire format can carry. *)
Definition ok `{ProtobufRuntime} (message : t) : Prop :=
  Forall Clipboard.wire_ok message.(clipboards).
Definition wire_ok `{ProtobufRuntime} (message : t) : Prop :=
  ok message /\ short_bytes (encode message).
End MultiClipboards.

Lemma MultiClipboards_shrinks `{ProtobufLaws} : field_shrinks MultiClipboards.field.
Proof. solve_shrinks MultiClipboards.field. Qed.
Lemma MultiClipboards_roundtrip `{ProtobufLaws} m r :
  MultiClipboards.ok m -> MultiClipboards.decode (len r) (MultiClipboards.encode m ++ r) = Ret (m, r).
Proof.
  start_roundtrip MultiClipboards.ok MultiClipboards.createBase MultiClipboards.encode MultiClipboards.decode.
  step_each MultiClipboards_shrinks (fun v m => m <| MultiClipboards.clipboards := v |>).
  finish_roundtrip m.
Qed.
Lemma MultiClipboards_codec_ok `{ProtobufLaws} : scalar_ok MultiClipboards.codec MultiClipboards.wire_ok.
Proof. apply embedded_ok; [apply decode_with_shrinks, MultiClipboards_shrinks|apply MultiClipboards_roundtrip]. Qed.
#[export] Hint Resolve MultiClipboards_codec_ok : scalar_ok.

(** ** [AudioFormat] (message.ts, lines 1467-1470 and 9491-9534) *)
Module AudioFormat.
Record t := mk {
  sample_rate : Z;
  channels : Z;
}.
Definition createBase : t := {|
  sample_rate := 0;
  channels := 0 |}.
Definition encode `{ProtobufRuntime} (message : t) : bytes :=
  unless (message.(sample_rate) =? 0) (tagged 8 (wr pb_uint32 message.(sample_rate))) ++
  unless (message.(channels) =? 0) (tagged 16 (wr pb_uint32 message.(channels))).
Definition field `{ProtobufRuntime} (tag : Z) (reader : bytes) (message : t) : field_step t :=
  match Z.shiftr tag 3 with
  | 1 =>
      if negb (tag =? 8) then Break else
      Continue (fld pb_uint32 (fun v => message <| sample_rate := v |>) reader)
  | 2 =>
      if negb (tag =? 16) then Break else
      Continue (fld pb_uint32 (fun v => message <| channels := v |>) reader)
  | _ => Break
  end.
Definition decode `{ProtobufRuntime} : Z -> bytes -> outcome (t * bytes) :=
  decode_with field createBase.
Definition codec `{ProtobufRuntime} : scalar t := embedded encode decode.
(** The values the wire format can carry. *)
Definition ok `{ProtobufRuntime} (message : t) : Prop :=
  in_uint32 message.(sample_rate) /\
  in_uint32 message.(channels).
Definition wire_ok `{ProtobufRuntime} (message : t) : Prop :=
  ok message /\ short_bytes (encode message).
End AudioFormat.

Lemma AudioFormat_shrinks `{ProtobufLaws} : field_shrinks AudioFormat.field.
Proof. solve_shrinks AudioFormat.field. Qed.
Lemma AudioFormat_roundtrip `{ProtobufLaws} m r :
  AudioFormat.ok m -> AudioFormat.decode (len r) (AudioFormat.encode m ++ r) = Ret (m, r).
Proof.
  start_roundtrip AudioFormat.ok AudioFormat.createBase AudioFormat.encode AudioFormat.decode.
  step_scalar AudioFormat_shrinks (fun v m => m <| AudioFormat.sample_rate := v |>).
  step_scalar AudioFormat_shrinks (fun v m => m <| AudioFormat.channels := v |>).
  finish_roundtrip m.
Qed.
Lemma AudioFormat_codec_ok `{ProtobufLaws} : scalar_ok AudioFormat.codec AudioFormat.wire_ok.
Proof. apply embedded_ok; [apply decode_with_shrinks, AudioFormat_shrinks|apply AudioFormat_roundtrip]. Qed.
#[export] Hint Resolve AudioFormat_codec_ok : scalar_ok.

(** ** [AudioFrame] (message.ts, lines 1472-1474 and 9565-9598) *)
Module AudioFrame.
Record t := mk {
  data : bytes;
}.
Definition createBase : t := {|
  data := [] |}.
Definition encode `{ProtobufRuntime} (message : t) : bytes :=
  unless (len message.(data) =? 0) (tagged 10 (wr pb_bytes message.(data))).
Definition field `{ProtobufRuntime} (tag : Z) (reader : bytes) (message : t) : field_step t :=
  match Z.shiftr tag 3 with
  | 1 =>
      if negb (tag =? 10) then Break else
      Continue (fld pb_bytes (fun v => message <| data := v |>) reader)
  | _ => Break
  end.
Definition decode `{ProtobufRuntime} : Z -> bytes -> outcome (t * bytes) :=
  decode_with field createBase.
Definition codec `{ProtobufRuntime} : scalar t := embedded encode decode.
(** The values the wire format can carry. *)
Definition ok `{ProtobufRuntime} (message : t) : Prop :=
  short_bytes message.(data).
Definition wire_ok `{ProtobufRuntime} (message : t) : Prop :=
  ok message /\ short_bytes (encode message).
End AudioFrame.

Lemma AudioFrame_shrinks `{ProtobufLaws} : field_shrinks AudioFrame.field.
Proof. solve_shrinks AudioFrame.field. Qed.
Lemma AudioFrame_roundtrip `{ProtobufLaws} m r :
  AudioFrame.ok m -> AudioFrame.decode (len r) (AudioFrame.encode m ++ r) = Ret (m, r).
Proof.
  start_roundtrip AudioFrame.ok AudioFrame.createBase AudioFrame.encode AudioFrame.decode.
  step_scalar AudioFrame_shrinks (fun v m => m <| AudioFrame.data := v |>).
  finish_roundtrip m.
Qed.
Lemma AudioFrame_codec_ok `{ProtobufLaws} : scalar_ok AudioFrame.codec AudioFrame.wire_ok.
Proof. apply embedded_ok; [apply decode_with_shrinks, AudioFrame_shrinks|apply AudioFrame_roundtrip]. Qed.
#[export] Hint Resolve AudioFrame_codec_ok : scalar_ok.
