(* ===== verification/ProtoSession.v ===== *)
(** * Generated codecs: handshake, login and peer-information messages

    [proto/message.ts], one module per message type: its record ([t], the TS interface; a number
    is a [Z], [T | undefined] is an option, an enum is its number), the default record, the bytes
    [encode] appends to the writer, the [switch] of [decode] ([field]) and [decode] itself, then the
    round trip [decode (encode m) = m] on the values the wire format can carry ([ok]). *)
From Stdlib Require Import Floats.SpecFloat.
From S2P Require Import Prelude ProtoWire ProtoFile ProtoMedia.

(** ** [IdPk] (message.ts, lines 799-802 and 2248-2291) *)
Module IdPk.
Record t := mk {
  id : string;
  pk : bytes;
}.
Definition createBase : t := {|
  id := "";
  pk := [] |}.
Definition encode `{ProtobufRuntime} (message : t) : bytes :=
  unless (message.(id) =? "")%string (tagged 10 (wr pb_string message.(id))) ++
  unless (len message.(pk) =? 0) (tagged 18 (wr pb_bytes message.(pk))).
Definition field `{ProtobufRuntime} (tag : Z) (reader : bytes) (message : t) : field_step t :=
  match Z.shiftr tag 3 with
  | 1 =>
      if negb (tag =? 10) then Break else
      Continue (fld pb_string (fun v => message <| id := v |>) reader)
  | 2 =>
      if negb (tag =? 18) then Break else
      Continue (fld pb_bytes (fun v => message <| pk := v |>) reader)
  | _ => Break
  end.
Definition decode `{ProtobufRuntime} : Z -> bytes -> outcome (t * bytes) :=
  decode_with field createBase.
Definition codec `{ProtobufRuntime} : scalar t := embedded encode decode.
(** The values the wire format can carry. *)
Definition ok `{ProtobufRuntime} (message : t) : Prop :=
  short_string message.(id) /\
  short_bytes message.(pk).
Definition wire_ok `{ProtobufRuntime} (message : t) : Prop :=
  ok message /\ short_bytes (encode message).
End IdPk.

Lemma IdPk_shrinks `{ProtobufLaws} : field_shrinks IdPk.field.
Proof. solve_shrinks IdPk.field. Qed.
Lemma IdPk_roundtrip `{ProtobufLaws} m r :
  IdPk.ok m -> IdPk.decode (len r) (IdPk.encode m ++ r) = Ret (m, r).
Proof.
  start_roundtrip IdPk.ok IdPk.createBase IdPk.encode IdPk.decode.
  step_scalar IdPk_shrinks (fun v m => m <| IdPk.id := v |>).
  step_scalar IdPk_shrinks (fun v m => m <| IdPk.pk := v |>).
  finish_roundtrip m.
Qed.
Lemma IdPk_codec_ok `{ProtobufLaws} : scalar_ok IdPk.codec IdPk.wire_ok.
Proof. apply embedded_ok; [apply decode_with_shrinks, IdPk_shrinks|apply IdPk_roundtrip]. Qed.
#[export] Hint Resolve IdPk_codec_ok : scalar_ok.

(** ** [Resolution] (message.ts, lines 1209-1212 and 8059-8102) *)
Module Resolution.
Record t := mk {
  width : Z;
  height : Z;
}.
Definition createBase : t := {|
  width := 0;
  height := 0 |}.
Definition encode `{ProtobufRuntime} (message : t) : bytes :=
  unless (message.(width) =? 0) (tagged 8 (wr pb_int32 message.(width))) ++
  unless (message.(height) =? 0) (tagged 16 (wr pb_int32 message.(height))).
Definition field `{ProtobufRuntime} (tag : Z) (reader : bytes) (message : t) : field_step t :=
  match Z.shiftr tag 3 with
  | 1 =>
      if negb (tag =? 8) then Break else
      Continue (fld pb_int32 (fun v => message <| width := v |>) reader)
  | 2 =>
      if negb (tag =? 16) then Break else
      Continue (fld pb_int32 (fun v => message <| height := v |>) reader)
  | _ => Break
  end.
Definition decode `{ProtobufRuntime} : Z -> bytes -> outcome (t * bytes) :=
  decode_with field createBase.
Definition codec `{ProtobufRuntime} : scalar t := embedded encode decode.
(** The values the wire format can carry. *)
Definition ok `{ProtobufRuntime} (message : t) : Prop :=
  in_int32 message.(width) /\
  in_int32 message.(height).
Definition wire_ok `{ProtobufRuntime} (message : t) : Prop :=
  ok message /\ short_bytes (encode message).
End Resolution.

Lemma Resolution_shrinks `{ProtobufLaws} : field_shrinks Resolution.field.
Proof. solve_shrinks Resolution.field. Qed.
Lemma Resolution_roundtrip `{ProtobufLaws} m r :
  Resolution.ok m -> Resolution.decode (len r) (Resolution.encode m ++ r) = Ret (m, r).
Proof.
  start_roundtrip Resolution.ok Resolution.createBase Resolution.encode Resolution.decode.
  step_scalar Resolution_shrinks (fun v m => m <| Resolution.width := v |>).
  step_scalar Resolution_shrinks (fun v m => m <| Resolution.height := v |>).
  finish_roundtrip m.
Qed.
Lemma Resolution_codec_ok `{ProtobufLaws} : scalar_ok Resolution.codec Resolution.wire_ok.
Proof. apply embedded_ok; [apply decode_with_shrinks, Resolution_shrinks|apply Resolution_roundtrip]. Qed.
#[export] Hint Resolve Resolution_codec_ok : scalar_ok.

(** ** [DisplayInfo] (message.ts, lines 804-814 and 2322-2445) *)
Module DisplayInfo.
Record t := mk {
  x : Z;
  y : Z;
  width : Z;
  height : Z;
  name : string;
  online : bool;
  cursor_embedded : bool;
  original_resolution : maybe Resolution.t;
  scale : spec_float;
}.
Definition createBase : t := {|
  x := 0;
  y := 0;
  width := 0;
  height := 0;
  name := "";
  online := false;
  cursor_embedded := false;
  original_resolution := None;
  scale := S754_zero false |}.
Definition encode `{ProtobufRuntime} (message : t) : bytes :=
  unless (message.(x) =? 0) (tagged 8 (wr pb_sint32 message.(x))) ++
  unless (message.(y) =? 0) (tagged 16 (wr pb_sint32 message.(y))) ++
  unless (message.(width) =? 0) (tagged 24 (wr pb_int32 message.(width))) ++
  unless (message.(height) =? 0) (tagged 32 (wr pb_int32 message.(height))) ++
  unless (message.(name) =? "")%string (tagged 42 (wr pb_string message.(name))) ++
  unless (negb message.(online)) (tagged 48 (wr pb_bool message.(online))) ++
  unless (negb message.(cursor_embedded)) (tagged 56 (wr pb_bool message.(cursor_embedded))) ++
  if_set message.(original_resolution) (fun v => tagged 66 (wr Resolution.codec v)) ++
  unless (is_zero message.(scale)) (tagged 73 (wr pb_double message.(scale))).
Definition field `{ProtobufRuntime} (tag : Z) (reader : bytes) (message : t) : field_step t :=
  match Z.shiftr tag 3 with
  | 1 =>
      if negb (tag =? 8) then Break else
      Continue (fld pb_sint32 (fun v => message <| x := v |>) reader)
  | 2 =>
      if negb (tag =? 16) then Break else
      Continue (fld pb_sint32 (fun v => message <| y := v |>) reader)
  | 3 =>
      if negb (tag =? 24) then Break else
      Continue (fld pb_int32 (fun v => message <| width := v |>) reader)
  | 4 =>
      if negb (tag =? 32) then Break else
      Continue (fld pb_int32 (fun v => message <| height := v |>) reader)
  | 5 =>
      if negb (tag =? 42) then Break else
      Continue (fld pb_string (fun v => message <| name := v |>) reader)
  | 6 =>
      if negb (tag =? 48) then Break else
      Continue (fld pb_bool (fun v => message <| online := v |>) reader)
  | 7 =>
      if negb (tag =? 56) then Break else
      Continue (fld pb_bool (fun v => message <| cursor_embedded := v |>) reader)
  | 8 =>
      if negb (tag =? 66) then Break else
      Continue (fld Resolution.codec (fun v => message <| original_resolution := Some v |>) reader)
  | 9 =>
      if negb (tag =? 73) then Break else
      Continue (fld pb_double (fun v => message <| scale := v |>) reader)
  | _ => Break
  end.
Definition decode `{ProtobufRuntime} : Z -> bytes -> outcome (t * bytes) :=
  decode_with field createBase.
Definition codec `{ProtobufRuntime} : scalar t := embedded encode decode.
(** The values the wire format can carry. *)
Definition ok `{ProtobufRuntime} (message : t) : Prop :=
  in_int32 message.(x) /\
  in_int32 message.(y) /\
  in_int32 message.(width) /\
  in_int32 message.(height) /\
  short_string message.(name) /\
  from_option Resolution.wire_ok True message.(original_resolution) /\
  not_neg_zero message.(scale).
Definition wire_ok `{ProtobufRuntime} (message : t) : Prop :=
  ok message /\ short_bytes (encode message).
End DisplayInfo.

Lemma DisplayInfo_shrinks `{ProtobufLaws} : field_shrinks DisplayInfo.field.
Proof. solve_shrinks DisplayInfo.field. Qed.
Lemma DisplayInfo_roundtrip `{ProtobufLaws} m r :
  DisplayInfo.ok m -> DisplayInfo.decode (len r) (DisplayInfo.encode m ++ r) = Ret (m, r).
Proof.
  start_roundtrip DisplayInfo.ok DisplayInfo.createBase DisplayInfo.encode DisplayInfo.decode.
  step_scalar DisplayInfo_shrinks (fun v m => m <| DisplayInfo.x := v |>).
  step_scalar DisplayInfo_shrinks (fun v m => m <| DisplayInfo.y := v |>).
  step_scalar DisplayInfo_shrinks (fun v m => m <| DisplayInfo.width := v |>).
  step_scalar DisplayInfo_shrinks (fun v m => m <| DisplayInfo.height := v |>).
  step_scalar DisplayInfo_shrinks (fun v m => m <| DisplayInfo.name := v |>).
  step_scalar DisplayInfo_shrinks (fun v m => m <| DisplayInfo.online := v |>).
  step_scalar DisplayInfo_shrinks (fun v m => m <| DisplayInfo.cursor_embedded := v |>).
  step_opt DisplayInfo_shrinks (fun v m => m <| DisplayInfo.original_resolution := v |>).
  step_scalar DisplayInfo_shrinks (fun v m => m <| DisplayInfo.scale := v |>).
  finish_roundtrip m.
Qed.
Lemma DisplayInfo_codec_ok `{ProtobufLaws} : scalar_ok DisplayInfo.codec DisplayInfo.wire_ok.
Proof. apply embedded_ok; [apply decode_with_shrinks, DisplayInfo_shrinks|apply DisplayInfo_roundtrip]. Qed.
#[export] Hint Resolve DisplayInfo_codec_ok : scalar_ok.

(** ** [PortForward] (message.ts, lines 816-819 and 2515-2558) *)
Module PortForward.
Record t := mk {
  host : string;
  port : Z;
}.
Definition createBase : t := {|
  host := "";
  port := 0 |}.
Definition encode `{ProtobufRuntime} (message : t) : bytes :=
  unless (message.(host) =? "")%string (tagged 10 (wr pb_string message.(host))) ++
  unless (message.(port) =? 0) (tagged 16 (wr pb_int32 message.(port))).
Definition field `{ProtobufRuntime} (tag : Z) (reader : bytes) (message : t) : field_step t :=
  match Z.shiftr tag 3 with
  | 1 =>
      if negb (tag =? 10) then Break else
      Continue (fld pb_string (fun v => message <| host := v |>) reader)
  | 2 =>
      if negb (tag =? 16) then Break else
      Continue (fld pb_int32 (fun v => message <| port := v |>) reader)
  | _ => Break
  end.
Definition decode `{ProtobufRuntime} : Z -> bytes -> outcome (t * bytes) :=
  decode_with field createBase.
Definition codec `{ProtobufRuntime} : scalar t := embedded encode decode.
(** The values the wire format can carry. *)
Definition ok `{ProtobufRuntime} (message : t) : Prop :=
  short_string message.(host) /\
  in_int32 message.(port).
Definition wire_ok `{ProtobufRuntime} (message : t) : Prop :=
  ok message /\ short_bytes (encode message).
End PortForward.

Lemma PortForward_shrinks `{ProtobufLaws} : field_shrinks PortForward.field.
Proof. solve_shrinks PortForward.field. Qed.
Lemma PortForward_roundtrip `{ProtobufLaws} m r :
  PortForward.ok m -> PortForward.decode (len r) (PortForward.encode m ++ r) = Ret (m, r).
Proof.
  start_roundtrip PortForward.ok PortForward.createBase PortForward.encode PortForward.decode.
  step_scalar PortForward_shrinks (fun v m => m <| PortForward.host := v |>).
  step_scalar PortForward_shrinks (fun v m => m <| PortForward.port := v |>).
  finish_roundtrip m.
Qed.
Lemma PortForward_codec_ok `{ProtobufLaws} : scalar_ok PortForward.codec PortForward.wire_ok.
Proof. apply embedded_ok; [apply decode_with_shrinks, PortForward_shrinks|apply PortForward_roundtrip]. Qed.
#[export] Hint Resolve PortForward_codec_ok : scalar_ok.

(** ** [FileTransfer] (message.ts, lines 821-824 and 2589-2632) *)
Module FileTransfer.
Record t := mk {
  dir : string;
  show_hidden : bool;
}.
Definition createBase : t := {|
  dir := "";
  show_hidden := false |}.
Definition encode `{ProtobufRuntime} (message : t) : bytes :=
  unless (message.(dir) =? "")%string (tagged 10 (wr pb_string message.(dir))) ++
  unless (negb message.(show_hidden)) (tagged 16 (wr pb_bool message.(show_hidden))).
Definition field `{ProtobufRuntime} (tag : Z) (reader : bytes) (message : t) : field_step t :=
  match Z.shiftr tag 3 with
  | 1 =>
      if negb (tag =? 10) then Break else
      Continue (fld pb_string (fun v => message <| dir := v |>) reader)
  | 2 =>
      if negb (tag =? 16) then Break else
      Continue (fld pb_bool (fun v => message <| show_hidden := v |>) reader)
  | _ => Break
  end.
Definition decode `{ProtobufRuntime} : Z -> bytes -> outcome (t * bytes) :=
  decode_with field createBase.
Definition codec `{ProtobufRuntime} : scalar t := embedded encode decode.
(** The values the wire format can carry. *)
Definition ok `{ProtobufRuntime} (message : t) : Prop :=
  short_string message.(dir).
Definition wire_ok `{ProtobufRuntime} (message : t) : Prop :=
  ok message /\ short_bytes (encode message).
End FileTransfer.

Lemma FileTransfer_shrinks `{ProtobufLaws} : field_shrinks FileTransfer.field.
Proof. solve_shrinks FileTransfer.field. Qed.
Lemma FileTransfer_roundtrip `{ProtobufLaws} m r :
  FileTransfer.ok m -> FileTransfer.decode (len r) (FileTransfer.encode m ++ r) = Ret (m, r).
Proof.
  start_roundtrip FileTransfer.ok FileTransfer.createBase FileTransfer.encode FileTransfer.decode.
  step_scalar FileTransfer_shrinks (fun v m => m <| FileTransfer.dir := v |>).
  step_scalar FileTransfer_shrinks (fun v m => m <| FileTransfer.show_hidden := v |>).
  finish_roundtrip m.
Qed.
Lemma FileTransfer_codec_ok `{ProtobufLaws} : scalar_ok FileTransfer.codec FileTransfer.wire_ok.
Proof. apply embedded_ok; [apply decode_with_shrinks, FileTransfer_shrinks|apply FileTransfer_roundtrip]. Qed.
#[export] Hint Resolve FileTransfer_codec_ok : scalar_ok.

(** ** [OSLogin] (message.ts, lines 826-829 and 2663-2706) *)
Module OSLogin.
Record t := mk {
  username : string;
  password : string;
}.
Definition createBase : t := {|
  username := "";
  password := "" |}.
Definition encode `{ProtobufRuntime} (message : t) : bytes :=
  unless (message.(username) =? "")%string (tagged 10 (wr pb_string message.(username))) ++
  unless (message.(password) =? "")%string (tagged 18 (wr pb_string message.(password))).
Definition field `{ProtobufRuntime} (tag : Z) (reader : bytes) (message : t) : field_step t :=
  match Z.shiftr tag 3 with
  | 1 =>
      if negb (tag =? 10) then Break else
      Continue (fld pb_string (fun v => message <| username := v |>) reader)
  | 2 =>
      if negb (tag =? 18) then Break else
      Continue (fld pb_string (fun v => message <| password := v |>) reader)
  | _ => Break
  end.
Definition decode `{ProtobufRuntime} : Z -> bytes -> outcome (t * bytes) :=
  decode_with field createBase.
Definition codec `{ProtobufRuntime} : scalar t := embedded encode decode.
(** The values the wire format can carry. *)
Definition ok `{ProtobufRuntime} (message : t) : Prop :=
  short_string message.(username) /\
  short_string message.(password).
Definition wire_ok `{ProtobufRuntime} (message : t) : Prop :=
  ok message /\ short_bytes (encode message).
End OSLogin.

Lemma OSLogin_shrinks `{ProtobufLaws} : field_shrinks OSLogin.field.
Proof. solve_shrinks OSLogin.field. Qed.
Lemma OSLogin_roundtrip `{ProtobufLaws} m r :
  OSLogin.ok m -> OSLogin.decode (len r) (OSLogin.encode m ++ r) = Ret (m, r).
Proof.
  start_roundtrip OSLogin.ok OSLogin.createBase OSLogin.encode OSLogin.decode.
  step_scalar OSLogin_shrinks (fun v m => m <| OSLogin.username := v |>).
  step_scalar OSLogin_shrinks (fun v m => m <| OSLogin.password := v |>).
  finish_roundtrip m.
Qed.
Lemma OSLogin_codec_ok `{ProtobufLaws} : scalar_ok OSLogin.codec OSLogin.wire_ok.
Proof. apply embedded_ok; [apply decode_with_shrinks, OSLogin_shrinks|apply OSLogin_roundtrip]. Qed.
#[export] Hint Resolve OSLogin_codec_ok : scalar_ok.

(** ** [CodecAbility] (message.ts, lines 860-866 and 3186-3259) *)
Module CodecAbility.
Record t := mk {
  vp8 : bool;
  vp9 : bool;
  av1 : bool;
  h264 : bool;
  h265 : bool;
}.
Definition createBase : t := {|
  vp8 := false;
  vp9 := false;
  av1 := false;
  h264 := false;
  h265 := false |}.
Definition encode `{ProtobufRuntime} (message : t) : bytes :=
  unless (negb message.(vp8)) (tagged 8 (wr pb_bool message.(vp8))) ++
  unless (negb message.(vp9)) (tagged 16 (wr pb_bool message.(vp9))) ++
  unless (negb message.(av1)) (tagged 24 (wr pb_bool message.(av1))) ++
  unless (negb message.(h264)) (tagged 32 (wr pb_bool message.(h264))) ++
  unless (negb message.(h265)) (tagged 40 (wr pb_bool message.(h265))).
Definition field `{ProtobufRuntime} (tag : Z) (reader : bytes) (message : t) : field_step t :=
  match Z.shiftr tag 3 with
  | 1 =>
      if negb (tag =? 8) then Break else
      Continue (fld pb_bool (fun v => message <| vp8 := v |>) reader)
  | 2 =>
      if negb (tag =? 16) then Break else
      Continue (fld pb_bool (fun v => message <| vp9 := v |>) reader)
  | 3 =>
      if negb (tag =? 24) then Break else
      Continue (fld pb_bool (fun v => message <| av1 := v |>) reader)
  | 4 =>
      if negb (tag =? 32) then Break else
      Continue (fld pb_bool (fun v => message <| h264 := v |>) reader)
  | 5 =>
      if negb (tag =? 40) then Break else
      Continue (fld pb_bool (fun v => message <| h265 := v |>) reader)
  | _ => Break
  end.
Definition decode `{ProtobufRuntime} : Z -> bytes -> outcome (t * bytes) :=
  decode_with field createBase.
Definition codec `{ProtobufRuntime} : scalar t := embedded encode decode.
(** The values the wire format can carry. *)
Definition ok `{ProtobufRuntime} (message : t) : Prop :=
  True.
Definition wire_ok `{ProtobufRuntime} (message : t) : Prop :=
  ok message /\ short_bytes (encode message).
End CodecAbility.

Lemma CodecAbility_shrinks `{ProtobufLaws} : field_shrinks CodecAbility.field.
Proof. solve_shrinks CodecAbility.field. Qed.
Lemma CodecAbility_roundtrip `{ProtobufLaws} m r :
  CodecAbility.ok m -> CodecAbility.decode (len r) (CodecAbility.encode m ++ r) = Ret (m, r).
Proof.
  start_roundtrip CodecAbility.ok CodecAbility.createBase CodecAbility.encode CodecAbility.decode.
  step_scalar CodecAbility_shrinks (fun v m => m <| CodecAbility.vp8 := v |>).
  step_scalar CodecAbility_shrinks (fun v m => m <| CodecAbility.vp9 := v |>).
  step_scalar CodecAbility_shrinks (fun v m => m <| CodecAbility.av1 := v |>).
  step_scalar CodecAbility_shrinks (fun v m => m <| CodecAbility.h264 := v |>).
  step_scalar CodecAbility_shrinks (fun v m => m <| CodecAbility.h265 := v |>).
  finish_roundtrip m.
Qed.
Lemma CodecAbility_codec_ok `{ProtobufLaws} : scalar_ok CodecAbility.codec CodecAbility.wire_ok.
Proof. apply embedded_ok; [apply decode_with_shrinks, CodecAbility_shrinks|apply CodecAbility_roundtrip]. Qed.
#[export] Hint Resolve CodecAbility_codec_ok : scalar_ok.

(** ** [SupportedDecoding] (message.ts, lines 1321-1330 and 8796-8908) *)
Module SupportedDecoding.
Record t := mk {
  ability_vp9 : Z;
  ability_h264 : Z;
  ability_h265 : Z;
  prefer : Z;
  ability_vp8 : Z;
  ability_av1 : Z;
  i444 : maybe CodecAbility.t;
  prefer_chroma : Z;
}.
Definition createBase : t := {|
  ability_vp9 := 0;
  ability_h264 := 0;
  ability_h265 := 0;
  prefer := 0;
  ability_vp8 := 0;
  ability_av1 := 0;
  i444 := None;
  prefer_chroma := 0 |}.
Definition encode `{ProtobufRuntime} (message : t) : bytes :=
  unless (message.(ability_vp9) =? 0) (tagged 8 (wr pb_int32 message.(ability_vp9))) ++
  unless (message.(ability_h264) =? 0) (tagged 16 (wr pb_int32 message.(ability_h264))) ++
  unless (message.(ability_h265) =? 0) (tagged 24 (wr pb_int32 message.(ability_h265))) ++
  unless (message.(prefer) =? 0) (tagged 32 (wr pb_int32 message.(prefer))) ++
  unless (message.(ability_vp8) =? 0) (tagged 40 (wr pb_int32 message.(ability_vp8))) ++
  unless (message.(ability_av1) =? 0) (tagged 48 (wr pb_int32 message.(ability_av1))) ++
  if_set message.(i444) (fun v => tagged 58 (wr CodecAbility.codec v)) ++
  unless (message.(prefer_chroma) =? 0) (tagged 64 (wr pb_int32 message.(prefer_chroma))).
Definition field `{ProtobufRuntime} (tag : Z) (reader : bytes) (message : t) : field_step t :=
  match Z.shiftr tag 3 with
  | 1 =>
      if negb (tag =? 8) then Break else
      Continue (fld pb_int32 (fun v => message <| ability_vp9 := v |>) reader)
  | 2 =>
      if negb (tag =? 16) then Break else
      Continue (fld pb_int32 (fun v => message <| ability_h264 := v |>) reader)
  | 3 =>
      if negb (tag =? 24) then Break else
      Continue (fld pb_int32 (fun v => message <| ability_h265 := v |>) reader)
  | 4 =>
      if negb (tag =? 32) then Break else
      Continue (fld pb_int32 (fun v => message <| prefer := v |>) reader)
  | 5 =>
      if negb (tag =? 40) then Break else
      Continue (fld pb_int32 (fun v => message <| ability_vp8 := v |>) reader)
  | 6 =>
      if negb (tag =? 48) then Break else
      Continue (fld pb_int32 (fun v => message <| ability_av1 := v |>) reader)
  | 7 =>
      if negb (tag =? 58) then Break else
      Continue (fld CodecAbility.codec (fun v => message <| i444 := Some v |>) reader)
  | 8 =>
      if negb (tag =? 64) then Break else
      Continue (fld pb_int32 (fun v => message <| prefer_chroma := v |>) reader)
  | _ => Break
  end.
Definition decode `{ProtobufRuntime} : Z -> bytes -> outcome (t * bytes) :=
  decode_with field createBase.
Definition codec `{ProtobufRuntime} : scalar t := embedded encode decode.
(** The values the wire format can carry. *)
Definition ok `{ProtobufRuntime} (message : t) : Prop :=
  in_int32 message.(ability_vp9) /\
  in_int32 message.(ability_h264) /\
  in_int32 message.(ability_h265) /\
  in_int32 message.(prefer) /\
  in_int32 message.(ability_vp8) /\
  in_int32 message.(ability_av1) /\
  from_option CodecAbility.wire_ok True message.(i444) /\
  in_int32 message.(prefer_chroma).
Definition wire_ok `{ProtobufRuntime} (message : t) : Prop :=
  ok message /\ short_bytes (encode message).
End SupportedDecoding.

Lemma SupportedDecoding_shrinks `{ProtobufLaws} : field_shrinks SupportedDecoding.field.
Proof. solve_shrinks SupportedDecoding.field. Qed.
Lemma SupportedDecoding_roundtrip `{ProtobufLaws} m r :
  SupportedDecoding.ok m -> SupportedDecoding.decode (len r) (SupportedDecoding.encode m ++ r) = Ret (m, r).
Proof.
  start_roundtrip SupportedDecoding.ok SupportedDecoding.createBase SupportedDecoding.encode SupportedDecoding.decode.
  step_scalar SupportedDecoding_shrinks (fun v m => m <| SupportedDecoding.ability_vp9 := v |>).
  step_scalar SupportedDecoding_shrinks (fun v m => m <| SupportedDecoding.ability_h264 := v |>).
  step_scalar SupportedDecoding_shrinks (fun v m => m <| SupportedDecoding.ability_h265 := v |>).
  step_scalar SupportedDecoding_shrinks (fun v m => m <| SupportedDecoding.prefer := v |>).
  step_scalar SupportedDecoding_shrinks (fun v m => m <| SupportedDecoding.ability_vp8 := v |>).
  step_scalar SupportedDecoding_shrinks (fun v m => m <| SupportedDecoding.ability_av1 := v |>).
  step_opt SupportedDecoding_shrinks (fun v m => m <| SupportedDecoding.i444 := v |>).
  step_scalar SupportedDecoding_shrinks (fun v m => m <| SupportedDecoding.prefer_chroma := v |>).
  finish_roundtrip m.
Qed.
Lemma SupportedDecoding_codec_ok `{ProtobufLaws} : scalar_ok SupportedDecoding.codec SupportedDecoding.wire_ok.
Proof. apply embedded_ok; [apply decode_with_shrinks, SupportedDecoding_shrinks|apply SupportedDecoding_roundtrip]. Qed.
#[export] Hint Resolve SupportedDecoding_codec_ok : scalar_ok.

(** ** [OptionMessage] (message.ts, lines 1389-1410 and 8971-9149) *)
Module OptionMessage.
Record t := mk {
  image_quality : Z;
  lock_after_session_end : Z;
  show_remote_cursor : Z;
  privacy_mode : Z;
  block_input : Z;
  custom_image_quality : Z;
  disable_audio : Z;
  disable_clipboard : Z;
  enable_file_transfer : Z;
  supported_decoding : maybe SupportedDecoding.t;
  custom_fps : Z;
  disable_keyboard : Z;
  follow_remote_cursor : Z;
  follow_remote_window : Z;
}.
Definition createBase : t := {|
  image_quality := 0;
  lock_after_session_end := 0;
  show_remote_cursor := 0;
  privacy_mode := 0;
  block_input := 0;
  custom_image_quality := 0;
  disable_audio := 0;
  disable_clipboard := 0;
  enable_file_transfer := 0;
  supported_decoding := None;
  custom_fps := 0;
  disable_keyboard := 0;
  follow_remote_cursor := 0;
  follow_remote_window := 0 |}.
Definition encode `{ProtobufRuntime} (message : t) : bytes :=
  unless (message.(image_quality) =? 0) (tagged 8 (wr pb_int32 message.(image_quality))) ++
  unless (message.(lock_after_session_end) =? 0) (tagged 16 (wr pb_int32 message.(lock_after_session_end))) ++
  unless (message.(show_remote_cursor) =? 0) (tagged 24 (wr pb_int32 message.(show_remote_cursor))) ++
  unless (message.(privacy_mode) =? 0) (tagged 32 (wr pb_int32 message.(privacy_mode))) ++
  unless (message.(block_input) =? 0) (tagged 40 (wr pb_int32 message.(block_input))) ++
  unless (message.(custom_image_quality) =? 0) (tagged 48 (wr pb_int32 message.(custom_image_quality))) ++
  unless (message.(disable_audio) =? 0) (tagged 56 (wr pb_int32 message.(disable_audio))) ++
  unless (message.(disable_clipboard) =? 0) (tagged 64 (wr pb_int32 message.(disable_clipboard))) ++
  unless (message.(enable_file_transfer) =? 0) (tagged 72 (wr pb_int32 message.(enable_file_transfer))) ++
  if_set message.(supported_decoding) (fun v => tagged 82 (wr SupportedDecoding.codec v)) ++
  unless (message.(custom_fps) =? 0) (tagged 88 (wr pb_int32 message.(custom_fps))) ++
  unless (message.(disable_keyboard) =? 0) (tagged 96 (wr pb_int32 message.(disable_keyboard))) ++
  unless (message.(follow_remote_cursor) =? 0) (tagged 120 (wr pb_int32 message.(follow_remote_cursor))) ++
  unless (message.(follow_remote_window) =? 0) (tagged 128 (wr pb_int32 message.(follow_remote_window))).
Definition field `{ProtobufRuntime} (tag : Z) (reader : bytes) (message : t) : field_step t :=
  match Z.shiftr tag 3 with
  | 1 =>
      if negb (tag =? 8) then Break else
      Continue (fld pb_int32 (fun v => message <| image_quality := v |>) reader)
  | 2 =>
      if negb (tag =? 16) then Break else
      Continue (fld pb_int32 (fun v => message <| lock_after_session_end := v |>) reader)
  | 3 =>
      if negb (tag =? 24) then Break else
      Continue (fld pb_int32 (fun v => message <| show_remote_cursor := v |>) reader)
  | 4 =>
      if negb (tag =? 32) then Break else
      Continue (fld pb_int32 (fun v => message <| privacy_mode := v |>) reader)
  | 5 =>
      if negb (tag =? 40) then Break else
      Continue (fld pb_int32 (fun v => message <| block_input := v |>) reader)
  | 6 =>
      if negb (tag =? 48) then Break else
      Continue (fld pb_int32 (fun v => message <| custom_image_quality := v |>) reader)
  | 7 =>
      if negb (tag =? 56) then Break else
      Continue (fld pb_int32 (fun v => message <| disable_audio := v |>) reader)
  | 8 =>
      if negb (tag =? 64) then Break else
      Continue (fld pb_int32 (fun v => message <| disable_clipboard := v |>) reader)
  | 9 =>
      if negb (tag =? 72) then Break else
      Continue (fld pb_int32 (fun v => message <| enable_file_transfer := v |>) reader)
  | 10 =>
      if negb (tag =? 82) then Break else
      Continue (fld SupportedDecoding.codec (fun v => message <| supported_decoding := Some v |>) reader)
  | 11 =>
      if negb (tag =? 88) then Break else
      Continue (fld pb_int32 (fun v => message <| custom_fps := v |>) reader)
  | 12 =>
      if negb (tag =? 96) then Break else
      Continue (fld pb_int32 (fun v => message <| disable_keyboard := v |>) reader)
  | 15 =>
      if negb (tag =? 120) then Break else
      Continue (fld pb_int32 (fun v => message <| follow_remote_cursor := v |>) reader)
  | 16 =>
      if negb (tag =? 128) then Break else
      Continue (fld pb_int32 (fun v => message <| follow_remote_window := v |>) reader)
  | _ => Break
  end.
Definition decode `{ProtobufRuntime} : Z -> bytes -> outcome (t * bytes) :=
  decode_with field createBase.
Definition codec `{ProtobufRuntime} : scalar t := embedded encode decode.
(** The values the wire format can carry. *)
Definition ok `{ProtobufRuntime} (message : t) : Prop :=
  in_int32 message.(image_quality) /\
  in_int32 message.(lock_after_session_end) /\
  in_int32 message.(show_remote_cursor) /\
  in_int32 message.(privacy_mode) /\
  in_int32 message.(block_input) /\
  in_int32 message.(custom_image_quality) /\
  in_int32 message.(disable_audio) /\
  in_int32 message.(disable_clipboard) /\
  in_int32 message.(enable_file_transfer) /\
  from_option SupportedDecoding.wire_ok True message.(supported_decoding) /\
  in_int32 message.(custom_fps) /\
  in_int32 message.(disable_keyboard) /\
  in_int32 message.(follow_remote_cursor) /\
  in_int32 message.(follow_remote_window).
Definition wire_ok `{ProtobufRuntime} (message : t) : Prop :=
  ok message /\ short_bytes (encode message).
End OptionMessage.

Lemma OptionMessage_shrinks `{ProtobufLaws} : field_shrinks OptionMessage.field.
Proof. solve_shrinks OptionMessage.field. Qed.
Lemma OptionMessage_roundtrip `{ProtobufLaws} m r :
  OptionMessage.ok m -> OptionMessage.decode (len r) (OptionMessage.encode m ++ r) = Ret (m, r).
Proof.
  start_roundtrip OptionMessage.ok OptionMessage.createBase OptionMessage.encode OptionMessage.decode.
  step_scalar OptionMessage_shrinks (fun v m => m <| OptionMessage.image_quality := v |>).
  step_scalar OptionMessage_shrinks (fun v m => m <| OptionMessage.lock_after_session_end := v |>).
  step_scalar OptionMessage_shrinks (fun v m => m <| OptionMessage.show_remote_cursor := v |>).
  step_scalar OptionMessage_shrinks (fun v m => m <| OptionMessage.privacy_mode := v |>).
  step_scalar OptionMessage_shrinks (fun v m => m <| OptionMessage.block_input := v |>).
  step_scalar OptionMessage_shrinks (fun v m => m <| OptionMessage.custom_image_quality := v |>).
  step_scalar OptionMessage_shrinks (fun v m => m <| OptionMessage.disable_audio := v |>).
  step_scalar OptionMessage_shrinks (fun v m => m <| OptionMessage.disable_clipboard := v |>).
  step_scalar OptionMessage_shrinks (fun v m => m <| OptionMessage.enable_file_transfer := v |>).
  step_opt OptionMessage_shrinks (fun v m => m <| OptionMessage.supported_decoding := v |>).
  step_scalar OptionMessage_shrinks (fun v m => m <| OptionMessage.custom_fps := v |>).
  step_scalar OptionMessage_shrinks (fun v m => m <| OptionMessage.disable_keyboard := v |>).
  step_scalar OptionMessage_shrinks (fun v m => m <| OptionMessage.follow_remote_cursor := v |>).
  step_scalar OptionMessage_shrinks (fun v m => m <| OptionMessage.follow_remote_window := v |>).
  finish_roundtrip m.
Qed.
Lemma OptionMessage_codec_ok `{ProtobufLaws} : scalar_ok OptionMessage.codec OptionMessage.wire_ok.
Proof. apply embedded_ok; [apply decode_with_shrinks, OptionMessage_shrinks|apply OptionMessage_roundtrip]. Qed.
#[export] Hint Resolve OptionMessage_codec_ok : scalar_ok.

(** ** [LoginRequest] (message.ts, lines 831-845 and 2737-2904) *)
Module LoginRequest.
Record t := mk {
  username : string;
  password : bytes;
  my_id : string;
  my_name : string;
  option : maybe OptionMessage.t;
  file_transfer : maybe FileTransfer.t;
  port_forward : maybe PortForward.t;
  video_ack_required : bool;
  session_id : Z;
  version : string;
  os_login : maybe OSLogin.t;
  my_platform : string;
  hwid : bytes;
}.
Definition createBase : t := {|
  username := "";
  password := [];
  my_id := "";
  my_name := "";
  option := None;
  file_transfer := None;
  port_forward := None;
  video_ack_required := false;
  session_id := 0;
  version := "";
  os_login := None;
  my_platform := "";
  hwid := [] |}.
Definition encode `{ProtobufRuntime} (message : t) : bytes :=
  unless (message.(username) =? "")%string (tagged 10 (wr pb_string message.(username))) ++
  unless (len message.(password) =? 0) (tagged 18 (wr pb_bytes message.(password))) ++
  unless (message.(my_id) =? "")%string (tagged 34 (wr pb_string message.(my_id))) ++
  unless (message.(my_name) =? "")%string (tagged 42 (wr pb_string message.(my_name))) ++
  if_set message.(option) (fun v => tagged 50 (wr OptionMessage.codec v)) ++
  if_set message.(file_transfer) (fun v => tagged 58 (wr FileTransfer.codec v)) ++
  if_set message.(port_forward) (fun v => tagged 66 (wr PortForward.codec v)) ++
  unless (negb message.(video_ack_required)) (tagged 72 (wr pb_bool message.(video_ack_required))) ++
  unless (message.(session_id) =? 0) (tagged 80 (wr uint64_number message.(session_id))) ++
  unless (message.(version) =? "")%string (tagged 90 (wr pb_string message.(version))) ++
  if_set message.(os_login) (fun v => tagged 98 (wr OSLogin.codec v)) ++
  unless (message.(my_platform) =? "")%string (tagged 106 (wr pb_string message.(my_platform))) ++
  unless (len message.(hwid) =? 0) (tagged 114 (wr pb_bytes message.(hwid))).
Definition field `{ProtobufRuntime} (tag : Z) (reader : bytes) (message : t) : field_step t :=
  match Z.shiftr tag 3 with
  | 1 =>
      if negb (tag =? 10) then Break else
      Continue (fld pb_string (fun v => message <| username := v |>) reader)
  | 2 =>
      if negb (tag =? 18) then Break else
      Continue (fld pb_bytes (fun v => message <| password := v |>) reader)
  | 4 =>
      if negb (tag =? 34) then Break else
      Continue (fld pb_string (fun v => message <| my_id := v |>) reader)
  | 5 =>
      if negb (tag =? 42) then Break else
      Continue (fld pb_string (fun v => message <| my_name := v |>) reader)
  | 6 =>
      if negb (tag =? 50) then Break else
      Continue (fld OptionMessage.codec (fun v => message <| option := Some v |>) reader)
  | 7 =>
      if negb (tag =? 58) then Break else
      Continue (fld FileTransfer.codec (fun v => message <| file_transfer := Some v |>) reader)
  | 8 =>
      if negb (tag =? 66) then Break else
      Continue (fld PortForward.codec (fun v => message <| port_forward := Some v |>) reader)
  | 9 =>
      if negb (tag =? 72) then Break else
      Continue (fld pb_bool (fun v => message <| video_ack_required := v |>) reader)
  | 10 =>
      if negb (tag =? 80) then Break else
      Continue (fld uint64_number (fun v => message <| session_id := v |>) reader)
  | 11 =>
      if negb (tag =? 90) then Break else
      Continue (fld pb_string (fun v => message <| version := v |>) reader)
  | 12 =>
      if negb (tag =? 98) then Break else
      Continue (fld OSLogin.codec (fun v => message <| os_login := Some v |>) reader)
  | 13 =>
      if negb (tag =? 106) then Break else
      Continue (fld pb_string (fun v => message <| my_platform := v |>) reader)
  | 14 =>
      if negb (tag =? 114) then Break else
      Continue (fld pb_bytes (fun v => message <| hwid := v |>) reader)
  | _ => Break
  end.
Definition decode `{ProtobufRuntime} : Z -> bytes -> outcome (t * bytes) :=
  decode_with field createBase.
Definition codec `{ProtobufRuntime} : scalar t := embedded encode decode.
(** The values the wire format can carry. *)
Definition ok `{ProtobufRuntime} (message : t) : Prop :=
  short_string message.(username) /\
  short_bytes message.(password) /\
  short_string message.(my_id) /\
  short_string message.(my_name) /\
  from_option OptionMessage.wire_ok True message.(option) /\
  from_option FileTransfer.wire_ok True message.(file_transfer) /\
  from_option PortForward.wire_ok True message.(port_forward) /\
  safe_uint message.(session_id) /\
  short_string message.(version) /\
  from_option OSLogin.wire_ok True message.(os_login) /\
  short_string message.(my_platform) /\
  short_bytes message.(hwid).
Definition wire_ok `{ProtobufRuntime} (message : t) : Prop :=
  ok message /\ short_bytes (encode message).
End LoginRequest.

Lemma LoginRequest_shrinks `{ProtobufLaws} : field_shrinks LoginRequest.field.
Proof. solve_shrinks LoginRequest.field. Qed.
Lemma LoginRequest_roundtrip `{ProtobufLaws} m r :
  LoginRequest.ok m -> LoginRequest.decode (len r) (LoginRequest.encode m ++ r) = Ret (m, r).
Proof.
  start_roundtrip LoginRequest.ok LoginRequest.createBase LoginRequest.encode LoginRequest.decode.
  step_scalar LoginRequest_shrinks (fun v m => m <| LoginRequest.username := v |>).
  step_scalar LoginRequest_shrinks (fun v m => m <| LoginRequest.password := v |>).
  step_scalar LoginRequest_shrinks (fun v m => m <| LoginRequest.my_id := v |>).
  step_scalar LoginRequest_shrinks (fun v m => m <| LoginRequest.my_name := v |>).
  step_opt LoginRequest_shrinks (fun v m => m <| LoginRequest.option := v |>).
  step_opt LoginRequest_shrinks (fun v m => m <| LoginRequest.file_transfer := v |>).
  step_opt LoginRequest_shrinks (fun v m => m <| LoginRequest.port_forward := v |>).
  step_scalar LoginRequest_shrinks (fun v m => m <| LoginRequest.video_ack_required := v |>).
  step_scalar LoginRequest_shrinks (fun v m => m <| LoginRequest.session_id := v |>).
  step_scalar LoginRequest_shrinks (fun v m => m <| LoginRequest.version := v |>).
  step_opt LoginRequest_shrinks (fun v m => m <| LoginRequest.os_login := v |>).
  step_scalar LoginRequest_shrinks (fun v m => m <| LoginRequest.my_platform := v |>).
  step_scalar LoginRequest_shrinks (fun v m => m <| LoginRequest.hwid := v |>).
  finish_roundtrip m.
Qed.
Lemma LoginRequest_codec_ok `{ProtobufLaws} : scalar_ok LoginRequest.codec LoginRequest.wire_ok.
Proof. apply embedded_ok; [apply decode_with_shrinks, LoginRequest_shrinks|apply LoginRequest_roundtrip]. Qed.
#[export] Hint Resolve LoginRequest_codec_ok : scalar_ok.

(** ** [Auth2FA] (message.ts, lines 847-850 and 2998-3041) *)
Module Auth2FA.
Record t := mk {
  code : string;
  hwid : bytes;
}.
Definition createBase : t := {|
  code := "";
  hwid := [] |}.
Definition encode `{ProtobufRuntime} (message : t) : bytes :=
  unless (message.(code) =? "")%string (tagged 10 (wr pb_string message.(code))) ++
  unless (len message.(hwid) =? 0) (tagged 18 (wr pb_bytes message.(hwid))).
Definition field `{ProtobufRuntime} (tag : Z) (reader : bytes) (message : t) : field_step t :=
  match Z.shiftr tag 3 with
  | 1 =>
      if negb (tag =? 10) then Break else
      Continue (fld pb_string (fun v => message <| code := v |>) reader)
  | 2 =>
      if negb (tag =? 18) then Break else
      Continue (fld pb_bytes (fun v => message <| hwid := v |>) reader)
  | _ => Break
  end.
Definition decode `{ProtobufRuntime} : Z -> bytes -> outcome (t * bytes) :=
  decode_with field createBase.
Definition codec `{ProtobufRuntime} : scalar t := embedded encode decode.
(** The values the wire format can carry. *)
Definition ok `{ProtobufRuntime} (message : t) : Prop :=
  short_string message.(code) /\
  short_bytes message.(hwid).
Definition wire_ok `{ProtobufRuntime} (message : t) : Prop :=
  ok message /\ short_bytes (encode message).
End Auth2FA.

Lemma Auth2FA_shrinks `{ProtobufLaws} : field_shrinks Auth2FA.field.
Proof. solve_shrinks Auth2FA.field. Qed.
Lemma Auth2FA_roundtrip `{ProtobufLaws} m r :
  Auth2FA.ok m -> Auth2FA.decode (len r) (Auth2FA.encode m ++ r) = Ret (m, r).
Proof.
  start_roundtrip Auth2FA.ok Auth2FA.createBase Auth2FA.encode Auth2FA.decode.
  step_scalar Auth2FA_shrinks (fun v m => m <| Auth2FA.code := v |>).
  step_scalar Auth2FA_shrinks (fun v m => m <| Auth2FA.hwid := v |>).
  finish_roundtrip m.
Qed.
Lemma Auth2FA_codec_ok `{ProtobufLaws} : scalar_ok Auth2FA.codec Auth2FA.wire_ok.
Proof. apply embedded_ok; [apply decode_with_shrinks, Auth2FA_shrinks|apply Auth2FA_roundtrip]. Qed.
#[export] Hint Resolve Auth2FA_codec_ok : scalar_ok.

(** ** [Features] (message.ts, lines 856-858 and 3129-3162) *)
Module Features.
Record t := mk {
  privacy_mode : bool;
}.
Definition createBase : t := {|
  privacy_mode := false |}.
Definition encode `{ProtobufRuntime} (message : t) : bytes :=
  unless (negb message.(privacy_mode)) (tagged 8 (wr pb_bool message.(privacy_mode))).
Definition field `{ProtobufRuntime} (tag : Z) (reader : bytes) (message : t) : field_step t :=
  match Z.shiftr tag 3 with
  | 1 =>
      if negb (tag =? 8) then Break else
      Continue (fld pb_bool (fun v => message <| privacy_mode := v |>) reader)
  | _ => Break
  end.
Definition decode `{ProtobufRuntime} : Z -> bytes -> outcome (t * bytes) :=
  decode_with field createBase.
Definition codec `{ProtobufRuntime} : scalar t := embedded encode decode.
(** The values the wire format can carry. *)
Definition ok `{ProtobufRuntime} (message : t) : Prop :=
  True.
Definition wire_ok `{ProtobufRuntime} (message : t) : Prop :=
  ok message /\ short_bytes (encode message).
End Features.

Lemma Features_shrinks `{ProtobufLaws} : field_shrinks Features.field.
Proof. solve_shrinks Features.field. Qed.
Lemma Features_roundtrip `{ProtobufLaws} m r :
  Features.ok m -> Features.decode (len r) (Features.encode m ++ r) = Ret (m, r).
Proof.
  start_roundtrip Features.ok Features.createBase Features.encode Features.decode.
  step_scalar Features_shrinks (fun v m => m <| Features.privacy_mode := v |>).
  finish_roundtrip m.
Qed.
Lemma Features_codec_ok `{ProtobufLaws} : scalar_ok Features.codec Features.wire_ok.
Proof. apply embedded_ok; [apply decode_with_shrinks, Features_shrinks|apply Features_roundtrip]. Qed.
#[export] Hint Resolve Features_codec_ok : scalar_ok.

(** ** [SupportedEncoding] (message.ts, lines 868-874 and 3305-3378) *)
Module SupportedEncoding.
Record t := mk {
  h264 : bool;
  h265 : bool;
  vp8 : bool;
  av1 : bool;
  i444 : maybe CodecAbility.t;
}.
Definition createBase : t := {|
  h264 := false;
  h265 := false;
  vp8 := false;
  av1 := false;
  i444 := None |}.
Definition encode `{ProtobufRuntime} (message : t) : bytes :=
  unless (negb message.(h264)) (tagged 8 (wr pb_bool message.(h264))) ++
  unless (negb message.(h265)) (tagged 16 (wr pb_bool message.(h265))) ++
  unless (negb message.(vp8)) (tagged 24 (wr pb_bool message.(vp8))) ++
  unless (negb message.(av1)) (tagged 32 (wr pb_bool message.(av1))) ++
  if_set message.(i444) (fun v => tagged 42 (wr CodecAbility.codec v)).
Definition field `{ProtobufRuntime} (tag : Z) (reader : bytes) (message : t) : field_step t :=
  match Z.shiftr tag 3 with
  | 1 =>
      if negb (tag =? 8) then Break else
      Continue (fld pb_bool (fun v => message <| h264 := v |>) reader)
  | 2 =>
      if negb (tag =? 16) then Break else
      Continue (fld pb_bool (fun v => message <| h265 := v |>) reader)
  | 3 =>
      if negb (tag =? 24) then Break else
      Continue (fld pb_bool (fun v => message <| vp8 := v |>) reader)
  | 4 =>
      if negb (tag =? 32) then Break else
      Continue (fld pb_bool (fun v => message <| av1 := v |>) reader)
  | 5 =>
      if negb (tag =? 42) then Break else
      Continue (fld CodecAbility.codec (fun v => message <| i444 := Some v |>) reader)
  | _ => Break
  end.
Definition decode `{ProtobufRuntime} : Z -> bytes -> outcome (t * bytes) :=
  decode_with field createBase.
Definition codec `{ProtobufRuntime} : scalar t := embedded encode decode.
(** The values the wire format can carry. *)
Definition ok `{ProtobufRuntime} (message : t) : Prop :=
  from_option CodecAbility.wire_ok True message.(i444).
Definition wire_ok `{ProtobufRuntime} (message : t) : Prop :=
  ok message /\ short_bytes (encode message).
End SupportedEncoding.

Lemma SupportedEncoding_shrinks `{ProtobufLaws} : field_shrinks SupportedEncoding.field.
Proof. solve_shrinks SupportedEncoding.field. Qed.
Lemma SupportedEncoding_roundtrip `{ProtobufLaws} m r :
  SupportedEncoding.ok m -> SupportedEncoding.decode (len r) (SupportedEncoding.encode m ++ r) = Ret (m, r).
Proof.
  start_roundtrip SupportedEncoding.ok SupportedEncoding.createBase SupportedEncoding.encode SupportedEncoding.decode.
  step_scalar SupportedEncoding_shrinks (fun v m => m <| SupportedEncoding.h264 := v |>).
  step_scalar SupportedEncoding_shrinks (fun v m => m <| SupportedEncoding.h265 := v |>).
  step_scalar SupportedEncoding_shrinks (fun v m => m <| SupportedEncoding.vp8 := v |>).
  step_scalar SupportedEncoding_shrinks (fun v m => m <| SupportedEncoding.av1 := v |>).
  step_opt SupportedEncoding_shrinks (fun v m => m <| SupportedEncoding.i444 := v |>).
  finish_roundtrip m.
Qed.
Lemma SupportedEncoding_codec_ok `{ProtobufLaws} : scalar_ok SupportedEncoding.codec SupportedEncoding.wire_ok.
Proof. apply embedded_ok; [apply decode_with_shrinks, SupportedEncoding_shrinks|apply SupportedEncoding_roundtrip]. Qed.
#[export] Hint Resolve SupportedEncoding_codec_ok : scalar_ok.

(** ** [SupportedResolutions] (message.ts, lines 1219-1221 and 8209-8242) *)
Module SupportedResolutions.
Record t := mk {
  resolutions : list Resolution.t;
}.
Definition createBase : t := {|
  resolutions := [] |}.
Definition encode `{ProtobufRuntime} (message : t) : bytes :=
  each message.(resolutions) (fun v => tagged 10 (wr Resolution.codec v)).
Definition field `{ProtobufRuntime} (tag : Z) (reader : bytes) (message : t) : field_step t :=
  match Z.shiftr tag 3 with
  | 1 =>
      if negb (tag =? 10) then Break else
      Continue (fld Resolution.codec (fun v => message <| resolutions := message.(resolutions) ++ [v] |>) reader)
  | _ => Break
  end.
Definition decode `{ProtobufRuntime} : Z -> bytes -> outcome (t * bytes) :=
  decode_with field createBase.
Definition codec `{ProtobufRuntime} : scalar t := embedded encode decode.
(** The values the wire format can carry. *)
Definition ok `{ProtobufRuntime} (message : t) : Prop :=
  Forall Resolution.wire_ok message.(resolutions).
Definition wire_ok `{ProtobufRuntime} (message : t) : Prop :=
  ok message /\ short_bytes (encode message).
End SupportedResolutions.

Lemma SupportedResolutions_shrinks `{ProtobufLaws} : field_shrinks SupportedResolutions.field.
Proof. solve_shrinks SupportedResolutions.field. Qed.
Lemma SupportedResolutions_roundtrip `{ProtobufLaws} m r :
  SupportedResolutions.ok m -> SupportedResolutions.decode (len r) (SupportedResolutions.encode m ++ r) = Ret (m, r).
Proof.
  start_roundtrip SupportedResolutions.ok SupportedResolutions.createBase SupportedResolutions.encode SupportedResolutions.decode.
  step_each SupportedResolutions_shrinks (fun v m => m <| SupportedResolutions.resolutions := v |>).
  finish_roundtrip m.
Qed.
Lemma SupportedResolutions_codec_ok `{ProtobufLaws} : scalar_ok SupportedResolutions.codec SupportedResolutions.wire_ok.
Proof. apply embedded_ok; [apply decode_with_shrinks, SupportedResolutions_shrinks|apply SupportedResolutions_roundtrip]. Qed.
#[export] Hint Resolve SupportedResolutions_codec_ok : scalar_ok.

(** ** [WindowsSession] (message.ts, lines 897-900 and 3673-3716) *)
Module WindowsSession.
Record t := mk {
  sid : Z;
  name : string;
}.
Definition createBase : t := {|
  sid := 0;
  name := "" |}.
Definition encode `{ProtobufRuntime} (message : t) : bytes :=
  unless (message.(sid) =? 0) (tagged 8 (wr pb_uint32 message.(sid))) ++
  unless (message.(name) =? "")%string (tagged 18 (wr pb_string message.(name))).
Definition field `{ProtobufRuntime} (tag : Z) (reader : bytes) (message : t) : field_step t :=
  match Z.shiftr tag 3 with
  | 1 =>
      if negb (tag =? 8) then Break else
      Continue (fld pb_uint32 (fun v => message <| sid := v |>) reader)
  | 2 =>
      if negb (tag =? 18) then Break else
      Continue (fld pb_string (fun v => message <| name := v |>) reader)
  | _ => Break
  end.
Definition decode `{ProtobufRuntime} : Z -> bytes -> outcome (t * bytes) :=
  decode_with field createBase.
Definition codec `{ProtobufRuntime} : scalar t := embedded encode decode.
(** The values the wire format can carry. *)
Definition ok `{ProtobufRuntime} (message : t) : Prop :=
  in_uint32 message.(sid) /\
  short_string message.(name).
Definition wire_ok `{ProtobufRuntime} (message : t) : Prop :=
  ok message /\ short_bytes (encode message).
End WindowsSession.

Lemma WindowsSession_shrinks `{ProtobufLaws} : field_shrinks WindowsSession.field.
Proof. solve_shrinks WindowsSession.field. Qed.
Lemma WindowsSession_roundtrip `{ProtobufLaws} m r :
  WindowsSession.ok m -> WindowsSession.decode (len r) (WindowsSession.encode m ++ r) = Ret (m, r).
Proof.
  start_roundtrip WindowsSession.ok WindowsSession.createBase WindowsSession.encode WindowsSession.decode.
  step_scalar WindowsSession_shrinks (fun v m => m <| WindowsSession.sid := v |>).
  step_scalar WindowsSession_shrinks (fun v m => m <| WindowsSession.name := v |>).
  finish_roundtrip m.
Qed.
Lemma WindowsSession_codec_ok `{ProtobufLaws} : scalar_ok WindowsSession.codec WindowsSession.wire_ok.
Proof. apply embedded_ok; [apply decode_with_shrinks, WindowsSession_shrinks|apply WindowsSession_roundtrip]. Qed.
#[export] Hint Resolve WindowsSession_codec_ok : scalar_ok.

(** ** [WindowsSessions] (message.ts, lines 1683-1686 and 10321-10364) *)
Module WindowsSessions.
Record t := mk {
  sessions : list WindowsSession.t;
  current_sid : Z;
}.
Definition createBase : t := {|
  sessions := [];
  current_sid := 0 |}.
Definition encode `{ProtobufRuntime} (message : t) : bytes :=
  each message.(sessions) (fun v => tagged 10 (wr WindowsSession.codec v)) ++
  unless (message.(current_sid) =? 0) (tagged 16 (wr pb_uint32 message.(current_sid))).
Definition field `{ProtobufRuntime} (tag : Z) (reader : bytes) (message : t) : field_step t :=
  match Z.shiftr tag 3 with
  | 1 =>
      if negb (tag =? 10) then Break else
      Continue (fld WindowsSession.codec (fun v => message <| sessions := message.(sessions) ++ [v] |>) reader)
  | 2 =>
      if negb (tag =? 16) then Break else
      Continue (fld pb_uint32 (fun v => message <| current_sid := v |>) reader)
  | _ => Break
  end.
Definition decode `{ProtobufRuntime} : Z -> bytes -> outcome (t * bytes) :=
  decode_with field createBase.
Definition codec `{ProtobufRuntime} : scalar t := embedded encode decode.
(** The values the wire format can carry. *)
Definition ok `{ProtobufRuntime} (message : t) : Prop :=
  Forall WindowsSession.wire_ok message.(sessions) /\
  in_uint32 message.(current_sid).
Definition wire_ok `{ProtobufRuntime} (message : t) : Prop :=
  ok message /\ short_bytes (encode message).
End WindowsSessions.

Lemma WindowsSessions_shrinks `{ProtobufLaws} : field_shrinks WindowsSessions.field.
Proof. solve_shrinks WindowsSessions.field. Qed.
Lemma WindowsSessions_roundtrip `{ProtobufLaws} m r :
  WindowsSessions.ok m -> WindowsSessions.decode (len r) (WindowsSessions.encode m ++ r) = Ret (m, r).
Proof.
  start_roundtrip WindowsSessions.ok WindowsSessions.createBase WindowsSessions.encode WindowsSessions.decode.
  step_each WindowsSessions_shrinks (fun v m => m <| WindowsSessions.sessions := v |>).
  step_scalar WindowsSessions_shrinks (fun v m => m <| WindowsSessions.current_sid := v |>).
  finish_roundtrip m.
Qed.
Lemma WindowsSessions_codec_ok `{ProtobufLaws} : scalar_ok WindowsSessions.codec WindowsSessions.wire_ok.
Proof. apply embedded_ok; [apply decode_with_shrinks, WindowsSessions_shrinks|apply WindowsSessions_roundtrip]. Qed.
#[export] Hint Resolve WindowsSessions_codec_ok : scalar_ok.

(** ** [PeerInfo] (message.ts, lines 876-895 and 3426-3582) *)
Module PeerInfo.
Record t := mk {
  username : string;
  hostname : string;
  platform : string;
  displays : list DisplayInfo.t;
  current_display : Z;
  sas_enabled : bool;
  version : string;
  features : maybe Features.t;
  encoding : maybe SupportedEncoding.t;
  resolutions : maybe SupportedResolutions.t;
  platform_additions : string;
  windows_sessions : maybe WindowsSessions.t;
}.
Definition createBase : t := {|
  username := "";
  hostname := "";
  platform := "";
  displays := [];
  current_display := 0;
  sas_enabled := false;
  version := "";
  features := None;
  encoding := None;
  resolutions := None;
  platform_additions := "";
  windows_sessions := None |}.
Definition encode `{ProtobufRuntime} (message : t) : bytes :=
  unless (message.(username) =? "")%string (tagged 10 (wr pb_string message.(username))) ++
  unless (message.(hostname) =? "")%string (tagged 18 (wr pb_string message.(hostname))) ++
  unless (message.(platform) =? "")%string (tagged 26 (wr pb_string message.(platform))) ++
  each message.(displays) (fun v => tagged 34 (wr DisplayInfo.codec v)) ++
  unless (message.(current_display) =? 0) (tagged 40 (wr pb_int32 message.(current_display))) ++
  unless (negb message.(sas_enabled)) (tagged 48 (wr pb_bool message.(sas_enabled))) ++
  unless (message.(version) =? "")%string (tagged 58 (wr pb_string message.(version))) ++
  if_set message.(features) (fun v => tagged 74 (wr Features.codec v)) ++
  if_set message.(encoding) (fun v => tagged 82 (wr SupportedEncoding.codec v)) ++
  if_set message.(resolutions) (fun v => tagged 90 (wr SupportedResolutions.codec v)) ++
  unless (message.(platform_additions) =? "")%string (tagged 98 (wr pb_string message.(platform_additions))) ++
  if_set message.(windows_sessions) (fun v => tagged 106 (wr WindowsSessions.codec v)).
Definition field `{ProtobufRuntime} (tag : Z) (reader : bytes) (message : t) : field_step t :=
  match Z.shiftr tag 3 with
  | 1 =>
      if negb (tag =? 10) then Break else
      Continue (fld pb_string (fun v => message <| username := v |>) reader)
  | 2 =>
      if negb (tag =? 18) then Break else
      Continue (fld pb_string (fun v => message <| hostname := v |>) reader)
  | 3 =>
      if negb (tag =? 26) then Break else
      Continue (fld pb_string (fun v => message <| platform := v |>) reader)
  | 4 =>
      if negb (tag =? 34) then Break else
      Continue (fld DisplayInfo.codec (fun v => message <| displays := message.(displays) ++ [v] |>) reader)
  | 5 =>
      if negb (tag =? 40) then Break else
      Continue (fld pb_int32 (fun v => message <| current_display := v |>) reader)
  | 6 =>
      if negb (tag =? 48) then Break else
      Continue (fld pb_bool (fun v => message <| sas_enabled := v |>) reader)
  | 7 =>
      if negb (tag =? 58) then Break else
      Continue (fld pb_string (fun v => message <| version := v |>) reader)
  | 9 =>
      if negb (tag =? 74) then Break else
      Continue (fld Features.codec (fun v => message <| features := Some v |>) reader)
  | 10 =>
      if negb (tag =? 82) then Break else
      Continue (fld SupportedEncoding.codec (fun v => message <| encoding := Some v |>) reader)
  | 11 =>
      if negb (tag =? 90) then Break else
      Continue (fld SupportedResolutions.codec (fun v => message <| resolutions := Some v |>) reader)
  | 12 =>
      if negb (tag =? 98) then Break else
      Continue (fld pb_string (fun v => message <| platform_additions := v |>) reader)
  | 13 =>
      if negb (tag =? 106) then Break else
      Continue (fld WindowsSessions.codec (fun v => message <| windows_sessions := Some v |>) reader)
  | _ => Break
  end.
Definition decode `{ProtobufRuntime} : Z -> bytes -> outcome (t * bytes) :=
  decode_with field createBase.
Definition codec `{ProtobufRuntime} : scalar t := embedded encode decode.
(** The values the wire format can carry. *)
Definition ok `{ProtobufRuntime} (message : t) : Prop :=
  short_string message.(username) /\
  short_string message.(hostname) /\
  short_string message.(platform) /\
  Forall DisplayInfo.wire_ok message.(displays) /\
  in_int32 message.(current_display) /\
  short_string message.(version) /\
  from_option Features.wire_ok True message.(features) /\
  from_option SupportedEncoding.wire_ok True message.(encoding) /\
  from_option SupportedResolutions.wire_ok True message.(resolutions) /\
  short_string message.(platform_additions) /\
  from_option WindowsSessions.wire_ok True message.(windows_sessions).
Definition wire_ok `{ProtobufRuntime} (message : t) : Prop :=
  ok message /\ short_bytes (encode message).
End PeerInfo.

Lemma PeerInfo_shrinks `{ProtobufLaws} : field_shrinks PeerInfo.field.
Proof. solve_shrinks PeerInfo.field. Qed.
Lemma PeerInfo_roundtrip `{ProtobufLaws} m r :
  PeerInfo.ok m -> PeerInfo.decode (len r) (PeerInfo.encode m ++ r) = Ret (m, r).
Proof.
  start_roundtrip PeerInfo.ok PeerInfo.createBase PeerInfo.encode PeerInfo.decode.
  step_scalar PeerInfo_shrinks (fun v m => m <| PeerInfo.username := v |>).
  step_scalar PeerInfo_shrinks (fun v m => m <| PeerInfo.hostname := v |>).
  step_scalar PeerInfo_shrinks (fun v m => m <| PeerInfo.platform := v |>).
  step_each PeerInfo_shrinks (fun v m => m <| PeerInfo.displays := v |>).
  step_scalar PeerInfo_shrinks (fun v m => m <| PeerInfo.current_display := v |>).
  step_scalar PeerInfo_shrinks (fun v m => m <| PeerInfo.sas_enabled := v |>).
  step_scalar PeerInfo_shrinks (fun v m => m <| PeerInfo.version := v |>).
  step_opt PeerInfo_shrinks (fun v m => m <| PeerInfo.features := v |>).
  step_opt PeerInfo_shrinks (fun v m => m <| PeerInfo.encoding := v |>).
  step_opt PeerInfo_shrinks (fun v m => m <| PeerInfo.resolutions := v |>).
  step_scalar PeerInfo_shrinks (fun v m => m <| PeerInfo.platform_additions := v |>).
  step_opt PeerInfo_shrinks (fun v m => m <| PeerInfo.windows_sessions := v |>).
  finish_roundtrip m.
Qed.
Lemma PeerInfo_codec_ok `{ProtobufLaws} : scalar_ok PeerInfo.codec PeerInfo.wire_ok.
Proof. apply embedded_ok; [apply decode_with_shrinks, PeerInfo_shrinks|apply PeerInfo_roundtrip]. Qed.
#[export] Hint Resolve PeerInfo_codec_ok : scalar_ok.

(** ** [LoginResponse] (message.ts, lines 902-906 and 3747-3800) *)
Module LoginResponse.
Record t := mk {
  error : maybe string;
  peer_info : maybe PeerInfo.t;
  enable_trusted_devices : bool;
}.
Definition createBase : t := {|
  error := None;
  peer_info := None;
  enable_trusted_devices := false |}.
Definition encode `{ProtobufRuntime} (message : t) : bytes :=
  if_set message.(error) (fun v => tagged 10 (wr pb_string v)) ++
  if_set message.(peer_info) (fun v => tagged 18 (wr PeerInfo.codec v)) ++
  unless (negb message.(enable_trusted_devices)) (tagged 24 (wr pb_bool message.(enable_trusted_devices))).
Definition field `{ProtobufRuntime} (tag : Z) (reader : bytes) (message : t) : field_step t :=
  match Z.shiftr tag 3 with
  | 1 =>
      if negb (tag =? 10) then Break else
      Continue (fld pb_string (fun v => message <| error := Some v |>) reader)
  | 2 =>
      if negb (tag =? 18) then Break else
      Continue (fld PeerInfo.codec (fun v => message <| peer_info := Some v |>) reader)
  | 3 =>
      if negb (tag =? 24) then Break else
      Continue (fld pb_bool (fun v => message <| enable_trusted_devices := v |>) reader)
  | _ => Break
  end.
Definition decode `{ProtobufRuntime} : Z -> bytes -> outcome (t * bytes) :=
  decode_with field createBase.
Definition codec `{ProtobufRuntime} : scalar t := embedded encode decode.
(** The values the wire format can carry. *)
Definition ok `{ProtobufRuntime} (message : t) : Prop :=
  from_option short_string True message.(error) /\
  from_option PeerInfo.wire_ok True message.(peer_info).
Definition wire_ok `{ProtobufRuntime} (message : t) : Prop :=
  ok message /\ short_bytes (encode message).
End LoginResponse.

Lemma LoginResponse_shrinks `{ProtobufLaws} : field_shrinks LoginResponse.field.
Proof. solve_shrinks LoginResponse.field. Qed.
Lemma LoginResponse_roundtrip `{ProtobufLaws} m r :
  LoginResponse.ok m -> LoginResponse.decode (len r) (LoginResponse.encode m ++ r) = Ret (m, r).
Proof.
  start_roundtrip LoginResponse.ok LoginResponse.createBase LoginResponse.encode LoginResponse.decode.
  step_opt LoginResponse_shrinks (fun v m => m <| LoginResponse.error := v |>).
  step_opt LoginResponse_shrinks (fun v m => m <| LoginResponse.peer_info := v |>).
  step_scalar LoginResponse_shrinks (fun v m => m <| LoginResponse.enable_trusted_devices := v |>).
  finish_roundtrip m.
Qed.
Lemma LoginResponse_codec_ok `{ProtobufLaws} : scalar_ok LoginResponse.codec LoginResponse.wire_ok.
Proof. apply embedded_ok; [apply decode_with_shrinks, LoginResponse_shrinks|apply LoginResponse_roundtrip]. Qed.
#[export] Hint Resolve LoginResponse_codec_ok : scalar_ok.

(** ** [Hash] (message.ts, lines 990-993 and 4850-4893) *)
Module Hash.
Record t := mk {
  salt : string;
  challenge : string;
}.
Definition createBase : t := {|
  salt := "";
  challenge := "" |}.
Definition encode `{ProtobufRuntime} (message : t) : bytes :=
  unless (message.(salt) =? "")%string (tagged 10 (wr pb_string message.(salt))) ++
  unless (message.(challenge) =? "")%string (tagged 18 (wr pb_string message.(challenge))).
Definition field `{ProtobufRuntime} (tag : Z) (reader : bytes) (message : t) : field_step t :=
  match Z.shiftr tag 3 with
  | 1 =>
      if negb (tag =? 10) then Break else
      Continue (fld pb_string (fun v => message <| salt := v |>) reader)
  | 2 =>
      if negb (tag =? 18) then Break else
      Continue (fld pb_string (fun v => message <| challenge := v |>) reader)
  | _ => Break
  end.
Definition decode `{ProtobufRuntime} : Z -> bytes -> outcome (t * bytes) :=
  decode_with field createBase.
Definition codec `{ProtobufRuntime} : scalar t := embedded encode decode.
(** The values the wire format can carry. *)
Definition ok `{ProtobufRuntime} (message : t) : Prop :=
  short_string message.(salt) /\
  short_string message.(challenge).
Definition wire_ok `{ProtobufRuntime} (message : t) : Prop :=
  ok message /\ short_bytes (encode message).
End Hash.

Lemma Hash_shrinks `{ProtobufLaws} : field_shrinks Hash.field.
Proof. solve_shrinks Hash.field. Qed.
Lemma Hash_roundtrip `{ProtobufLaws} m r :
  Hash.ok m -> Hash.decode (len r) (Hash.encode m ++ r) = Ret (m, r).
Proof.
  start_roundtrip Hash.ok Hash.createBase Hash.encode Hash.decode.
  step_scalar Hash_shrinks (fun v m => m <| Hash.salt := v |>).
  step_scalar Hash_shrinks (fun v m => m <| Hash.challenge := v |>).
  finish_roundtrip m.
Qed.
Lemma Hash_codec_ok `{ProtobufLaws} : scalar_ok Hash.codec Hash.wire_ok.
Proof. apply embedded_ok; [apply decode_with_shrinks, Hash_shrinks|apply Hash_roundtrip]. Qed.
#[export] Hint Resolve Hash_codec_ok : scalar_ok.

(** ** [TestDelay] (message.ts, lines 1451-1456 and 9256-9319) *)
Module TestDelay.
Record t := mk {
  time : Z;
  from_client : bool;
  last_delay : Z;
  target_bitrate : Z;
}.
Definition createBase : t := {|
  time := 0;
  from_client := false;
  last_delay := 0;
  target_bitrate := 0 |}.
Definition encode `{ProtobufRuntime} (message : t) : bytes :=
  unless (message.(time) =? 0) (tagged 8 (wr int64_number message.(time))) ++
  unless (negb message.(from_client)) (tagged 16 (wr pb_bool message.(from_client))) ++
  unless (message.(last_delay) =? 0) (tagged 24 (wr pb_uint32 message.(last_delay))) ++
  unless (message.(target_bitrate) =? 0) (tagged 32 (wr pb_uint32 message.(target_bitrate))).
Definition field `{ProtobufRuntime} (tag : Z) (reader : bytes) (message : t) : field_step t :=
  match Z.shiftr tag 3 with
  | 1 =>
      if negb (tag =? 8) then Break else
      Continue (fld int64_number (fun v => message <| time := v |>) reader)
  | 2 =>
      if negb (tag =? 16) then Break else
      Continue (fld pb_bool (fun v => message <| from_client := v |>) reader)
  | 3 =>
      if negb (tag =? 24) then Break else
      Continue (fld pb_uint32 (fun v => message <| last_delay := v |>) reader)
  | 4 =>
      if negb (tag =? 32) then Break else
      Continue (fld pb_uint32 (fun v => message <| target_bitrate := v |>) reader)
  | _ => Break
  end.
Definition decode `{ProtobufRuntime} : Z -> bytes -> outcome (t * bytes) :=
  decode_with field createBase.
Definition codec `{ProtobufRuntime} : scalar t := embedded encode decode.
(** The values the wire format can carry. *)
Definition ok `{ProtobufRuntime} (message : t) : Prop :=
  safe_int message.(time) /\
  in_uint32 message.(last_delay) /\
  in_uint32 message.(target_bitrate).
Definition wire_ok `{ProtobufRuntime} (message : t) : Prop :=
  ok message /\ short_bytes (encode message).
End TestDelay.

Lemma TestDelay_shrinks `{ProtobufLaws} : field_shrinks TestDelay.field.
Proof. solve_shrinks TestDelay.field. Qed.
Lemma TestDelay_roundtrip `{ProtobufLaws} m r :
  TestDelay.ok m -> TestDelay.decode (len r) (TestDelay.encode m ++ r) = Ret (m, r).
Proof.
  start_roundtrip TestDelay.ok TestDelay.createBase TestDelay.encode TestDelay.decode.
  step_scalar TestDelay_shrinks (fun v m => m <| TestDelay.time := v |>).
  step_scalar TestDelay_shrinks (fun v m => m <| TestDelay.from_client := v |>).
  step_scalar TestDelay_shrinks (fun v m => m <| TestDelay.last_delay := v |>).
  step_scalar TestDelay_shrinks (fun v m => m <| TestDelay.target_bitrate := v |>).
  finish_roundtrip m.
Qed.
Lemma TestDelay_codec_ok `{ProtobufLaws} : scalar_ok TestDelay.codec TestDelay.wire_ok.
Proof. apply embedded_ok; [apply decode_with_shrinks, TestDelay_shrinks|apply TestDelay_roundtrip]. Qed.
#[export] Hint Resolve TestDelay_codec_ok : scalar_ok.

(** ** [PublicKey] (message.ts, lines 1458-1461 and 9360-9403) *)
Module PublicKey.
Record t := mk {
  asymmetric_value : bytes;
  symmetric_value : bytes;
}.
Definition createBase : t := {|
  asymmetric_value := [];
  symmetric_value := [] |}.
Definition encode `{ProtobufRuntime} (message : t) : bytes :=
  unless (len message.(asymmetric_value) =? 0) (tagged 10 (wr pb_bytes message.(asymmetric_value))) ++
  unless (len message.(symmetric_value) =? 0) (tagged 18 (wr pb_bytes message.(symmetric_value))).
Definition field `{ProtobufRuntime} (tag : Z) (reader : bytes) (message : t) : field_step t :=
  match Z.shiftr tag 3 with
  | 1 =>
      if negb (tag =? 10) then Break else
      Continue (fld pb_bytes (fun v => message <| asymmetric_value := v |>) reader)
  | 2 =>
      if negb (tag =? 18) then Break else
      Continue (fld pb_bytes (fun v => message <| symmetric_value := v |>) reader)
  | _ => Break
  end.
Definition decode `{ProtobufRuntime} : Z -> bytes -> outcome (t * bytes) :=
  decode_with field createBase.
Definition codec `{ProtobufRuntime} : scalar t := embedded encode decode.
(** The values the wire format can carry. *)
Definition ok `{ProtobufRuntime} (message : t) : Prop :=
  short_bytes message.(asymmetric_value) /\
  short_bytes message.(symmetric_value).
Definition wire_ok `{ProtobufRuntime} (message : t) : Prop :=
  ok message /\ short_bytes (encode message).
End PublicKey.

Lemma PublicKey_shrinks `{ProtobufLaws} : field_shrinks PublicKey.field.
Proof. solve_shrinks PublicKey.field. Qed.
Lemma PublicKey_roundtrip `{ProtobufLaws} m r :
  PublicKey.ok m -> PublicKey.decode (len r) (PublicKey.encode m ++ r) = Ret (m, r).
Proof.
  start_roundtrip PublicKey.ok PublicKey.createBase PublicKey.encode PublicKey.decode.
  step_scalar PublicKey_shrinks (fun v m => m <| PublicKey.asymmetric_value := v |>).
  step_scalar PublicKey_shrinks (fun v m => m <| PublicKey.symmetric_value := v |>).
  finish_roundtrip m.
Qed.
Lemma PublicKey_codec_ok `{ProtobufLaws} : scalar_ok PublicKey.codec PublicKey.wire_ok.
Proof. apply embedded_ok; [apply decode_with_shrinks, PublicKey_shrinks|apply PublicKey_roundtrip]. Qed.
#[export] Hint Resolve PublicKey_codec_ok : scalar_ok.

(** ** [SignedId] (message.ts, lines 1463-1465 and 9434-9467) *)
Module SignedId.
Record t := mk {
  id : bytes;
}.
Definition createBase : t := {|
  id := [] |}.
Definition encode `{ProtobufRuntime} (message : t) : bytes :=
  unless (len message.(id) =? 0) (tagged 10 (wr pb_bytes message.(id))).
Definition field `{ProtobufRuntime} (tag : Z) (reader : bytes) (message : t) : field_step t :=
  match Z.shiftr tag 3 with
  | 1 =>
      if negb (tag =? 10) then Break else
      Continue (fld pb_bytes (fun v => message <| id := v |>) reader)
  | _ => Break
  end.
Definition decode `{ProtobufRuntime} : Z -> bytes -> outcome (t * bytes) :=
  decode_with field createBase.
Definition codec `{ProtobufRuntime} : scalar t := embedded encode decode.
(** The values the wire format can carry. *)
Definition ok `{ProtobufRuntime} (message : t) : Prop :=
  short_bytes message.(id).
Definition wire_ok `{ProtobufRuntime} (message : t) : Prop :=
  ok message /\ short_bytes (encode message).
End SignedId.

Lemma SignedId_shrinks `{ProtobufLaws} : field_shrinks SignedId.field.
Proof. solve_shrinks SignedId.field. Qed.
Lemma SignedId_roundtrip `{ProtobufLaws} m r :
  SignedId.ok m -> SignedId.decode (len r) (SignedId.encode m ++ r) = Ret (m, r).
Proof.
  start_roundtrip SignedId.ok SignedId.createBase SignedId.encode SignedId.decode.
  step_scalar SignedId_shrinks (fun v m => m <| SignedId.id := v |>).
  finish_roundtrip m.
Qed.
Lemma SignedId_codec_ok `{ProtobufLaws} : scalar_ok SignedId.codec SignedId.wire_ok.
Proof. apply embedded_ok; [apply decode_with_shrinks, SignedId_shrinks|apply SignedId_roundtrip]. Qed.
#[export] Hint Resolve SignedId_codec_ok : scalar_ok.
