(* ===== verification/ProtoMessage.v ===== *)
(** * Generated codecs: session control, clipboard redirection and the top-level [Message]

    [proto/message.ts], one module per message type: its record ([t], the TS interface; a number
    is a [Z], [T | undefined] is an option, an enum is its number), the default record, the bytes
    [encode] appends to the writer, the [switch] of [decode] ([field]) and [decode] itself, then the
    round trip [decode (encode m) = m] on the values the wire format can carry ([ok]). *)
From Stdlib Require Import Floats.SpecFloat.
From S2P Require Import Prelude ProtoWire ProtoFile ProtoMedia ProtoSession.

(** ** [ChatMessage] (message.ts, lines 852-854 and 3072-3105) *)
Module ChatMessage.
Record t := mk {
  text : string;
}.
Definition createBase : t := {|
  text := "" |}.
Definition encode `{ProtobufRuntime} (message : t) : bytes :=
  unless (message.(text) =? "")%string (tagged 10 (wr pb_string message.(text))).
Definition field `{ProtobufRuntime} (tag : Z) (reader : bytes) (message : t) : field_step t :=
  match Z.shiftr tag 3 with
  | 1 =>
      if negb (tag =? 10) then Break else
      Continue (fld pb_string (fun v => message <| text := v |>) reader)
  | _ => Break
  end.
Definition decode `{ProtobufRuntime} : Z -> bytes -> outcome (t * bytes) :=
  decode_with field createBase.
Definition codec `{ProtobufRuntime} : scalar t := embedded encode decode.
(** The values the wire format can carry. *)
Definition ok `{ProtobufRuntime} (message : t) : Prop :=
  short_string message.(text).
Definition wire_ok `{ProtobufRuntime} (message : t) : Prop :=
  ok message /\ short_bytes (encode message).
End ChatMessage.

Lemma ChatMessage_shrinks `{ProtobufLaws} : field_shrinks ChatMessage.field.
Proof. solve_shrinks ChatMessage.field. Qed.
Lemma ChatMessage_roundtrip `{ProtobufLaws} m r :
  ChatMessage.ok m -> ChatMessage.decode (len r) (ChatMessage.encode m ++ r) = Ret (m, r).
Proof.
  start_roundtrip ChatMessage.ok ChatMessage.createBase ChatMessage.encode ChatMessage.decode.
  step_scalar ChatMessage_shrinks (fun v m => m <| ChatMessage.text := v |>).
  finish_roundtrip m.
Qed.
Lemma ChatMessage_codec_ok `{ProtobufLaws} : scalar_ok ChatMessage.codec ChatMessage.wire_ok.
Proof. apply embedded_ok; [apply decode_with_shrinks, ChatMessage_shrinks|apply ChatMessage_roundtrip]. Qed.
#[export] Hint Resolve ChatMessage_codec_ok : scalar_ok.

(** ** [CliprdrMonitorReady] (message.ts, lines 1146-1147 and 7179-7202) *)
Module CliprdrMonitorReady.
Record t := mk { }.
Definition createBase : t := mk.
Definition encode `{ProtobufRuntime} (message : t) : bytes := [].
Definition field `{ProtobufRuntime} (tag : Z) (reader : bytes) (message : t) : field_step t := Break.
Definition decode `{ProtobufRuntime} : Z -> bytes -> outcome (t * bytes) :=
  decode_with field createBase.
Definition codec `{ProtobufRuntime} : scalar t := embedded encode decode.
(** The values the wire format can carry. *)
Definition ok `{ProtobufRuntime} (message : t) : Prop :=
  True.
Definition wire_ok `{ProtobufRuntime} (message : t) : Prop :=
  ok message /\ short_bytes (encode message).
End CliprdrMonitorReady.

Lemma CliprdrMonitorReady_shrinks `{ProtobufLaws} : field_shrinks CliprdrMonitorReady.field.
Proof. solve_shrinks CliprdrMonitorReady.field. Qed.
Lemma CliprdrMonitorReady_roundtrip `{ProtobufLaws} m r :
  CliprdrMonitorReady.ok m -> CliprdrMonitorReady.decode (len r) (CliprdrMonitorReady.encode m ++ r) = Ret (m, r).
Proof.
  start_roundtrip CliprdrMonitorReady.ok CliprdrMonitorReady.createBase CliprdrMonitorReady.encode CliprdrMonitorReady.decode.
  finish_roundtrip m.
Qed.
Lemma CliprdrMonitorReady_codec_ok `{ProtobufLaws} : scalar_ok CliprdrMonitorReady.codec CliprdrMonitorReady.wire_ok.
Proof. apply embedded_ok; [apply decode_with_shrinks, CliprdrMonitorReady_shrinks|apply CliprdrMonitorReady_roundtrip]. Qed.
#[export] Hint Resolve CliprdrMonitorReady_codec_ok : scalar_ok.

(** ** [CliprdrFormat] (message.ts, lines 1149-1152 and 7222-7265) *)
Module CliprdrFormat.
Record t := mk {
  id : Z;
  format : string;
}.
Definition createBase : t := {|
  id := 0;
  format := "" |}.
Definition encode `{ProtobufRuntime} (message : t) : bytes :=
  unless (message.(id) =? 0) (tagged 16 (wr pb_int32 message.(id))) ++
  unless (message.(format) =? "")%string (tagged 26 (wr pb_string message.(format))).
Definition field `{ProtobufRuntime} (tag : Z) (reader : bytes) (message : t) : field_step t :=
  match Z.shiftr tag 3 with
  | 2 =>
      if negb (tag =? 16) then Break else
      Continue (fld pb_int32 (fun v => message <| id := v |>) reader)
  | 3 =>
      if negb (tag =? 26) then Break else
      Continue (fld pb_string (fun v => message <| format := v |>) reader)
  | _ => Break
  end.
Definition decode `{ProtobufRuntime} : Z -> bytes -> outcome (t * bytes) :=
  decode_with field createBase.
Definition codec `{ProtobufRuntime} : scalar t := embedded encode decode.
(** The values the wire format can carry. *)
Definition ok `{ProtobufRuntime} (message : t) : Prop :=
  in_int32 message.(id) /\
  short_string message.(format).
Definition wire_ok `{ProtobufRuntime} (message : t) : Prop :=
  ok message /\ short_bytes (encode message).
End CliprdrFormat.

Lemma CliprdrFormat_shrinks `{ProtobufLaws} : field_shrinks CliprdrFormat.field.
Proof. solve_shrinks CliprdrFormat.field. Qed.
Lemma CliprdrFormat_roundtrip `{ProtobufLaws} m r :
  CliprdrFormat.ok m -> CliprdrFormat.decode (len r) (CliprdrFormat.encode m ++ r) = Ret (m, r).
Proof.
  start_roundtrip CliprdrFormat.ok CliprdrFormat.createBase CliprdrFormat.encode CliprdrFormat.decode.
  step_scalar CliprdrFormat_shrinks (fun v m => m <| CliprdrFormat.id := v |>).
  step_scalar CliprdrFormat_shrinks (fun v m => m <| CliprdrFormat.format := v |>).
  finish_roundtrip m.
Qed.
Lemma CliprdrFormat_codec_ok `{ProtobufLaws} : scalar_ok CliprdrFormat.codec CliprdrFormat.wire_ok.
Proof. apply embedded_ok; [apply decode_with_shrinks, CliprdrFormat_shrinks|apply CliprdrFormat_roundtrip]. Qed.
#[export] Hint Resolve CliprdrFormat_codec_ok : scalar_ok.

(** ** [CliprdrServerFormatList] (message.ts, lines 1154-1156 and 7296-7329) *)
Module CliprdrServerFormatList.
Record t := mk {
  formats : list CliprdrFormat.t;
}.
Definition createBase : t := {|
  formats := [] |}.
Definition encode `{ProtobufRuntime} (message : t) : bytes :=
  each message.(formats) (fun v => tagged 18 (wr CliprdrFormat.codec v)).
Definition field `{ProtobufRuntime} (tag : Z) (reader : bytes) (message : t) : field_step t :=
  match Z.shiftr tag 3 with
  | 2 =>
      if negb (tag =? 18) then Break else
      Continue (fld CliprdrFormat.codec (fun v => message <| formats := message.(formats) ++ [v] |>) reader)
  | _ => Break
  end.
Definition decode `{ProtobufRuntime} : Z -> bytes -> outcome (t * bytes) :=
  decode_with field createBase.
Definition codec `{ProtobufRuntime} : scalar t := embedded encode decode.
(** The values the wire format can carry. *)
Definition ok `{ProtobufRuntime} (message : t) : Prop :=
  Forall CliprdrFormat.wire_ok message.(formats).
Definition wire_ok `{ProtobufRuntime} (message : t) : Prop :=
  ok message /\ short_bytes (encode message).
End CliprdrServerFormatList.

Lemma CliprdrServerFormatList_shrinks `{ProtobufLaws} : field_shrinks CliprdrServerFormatList.field.
Proof. solve_shrinks CliprdrServerFormatList.field. Qed.
Lemma CliprdrServerFormatList_roundtrip `{ProtobufLaws} m r :
  CliprdrServerFormatList.ok m -> CliprdrServerFormatList.decode (len r) (CliprdrServerFormatList.encode m ++ r) = Ret (m, r).
Proof.
  start_roundtrip CliprdrServerFormatList.ok CliprdrServerFormatList.createBase CliprdrServerFormatList.encode CliprdrServerFormatList.decode.
  step_each CliprdrServerFormatList_shrinks (fun v m => m <| CliprdrServerFormatList.formats := v |>).
  finish_roundtrip m.
Qed.
Lemma CliprdrServerFormatList_codec_ok `{ProtobufLaws} : scalar_ok CliprdrServerFormatList.codec CliprdrServerFormatList.wire_ok.
Proof. apply embedded_ok; [apply decode_with_shrinks, CliprdrServerFormatList_shrinks|apply CliprdrServerFormatList_roundtrip]. Qed.
#[export] Hint Resolve CliprdrServerFormatList_codec_ok : scalar_ok.

(** ** [CliprdrServerFormatListResponse] (message.ts, lines 1158-1160 and 7357-7390) *)
Module CliprdrServerFormatListResponse.
Record t := mk {
  msg_flags : Z;
}.
Definition createBase : t := {|
  msg_flags := 0 |}.
Definition encode `{ProtobufRuntime} (message : t) : bytes :=
  unless (message.(msg_flags) =? 0) (tagged 16 (wr pb_int32 message.(msg_flags))).
Definition field `{ProtobufRuntime} (tag : Z) (reader : bytes) (message : t) : field_step t :=
  match Z.shiftr tag 3 with
  | 2 =>
      if negb (tag =? 16) then Break else
      Continue (fld pb_int32 (fun v => message <| msg_flags := v |>) reader)
  | _ => Break
  end.
Definition decode `{ProtobufRuntime} : Z -> bytes -> outcome (t * bytes) :=
  decode_with field createBase.
Definition codec `{ProtobufRuntime} : scalar t := embedded encode decode.
(** The values the wire format can carry. *)
Definition ok `{ProtobufRuntime} (message : t) : Prop :=
  in_int32 message.(msg_flags).
Definition wire_ok `{ProtobufRuntime} (message : t) : Prop :=
  ok message /\ short_bytes (encode message).
End CliprdrServerFormatListResponse.

Lemma CliprdrServerFormatListResponse_shrinks `{ProtobufLaws} : field_shrinks CliprdrServerFormatListResponse.field.
Proof. solve_shrinks CliprdrServerFormatListResponse.field. Qed.
Lemma CliprdrServerFormatListResponse_roundtrip `{ProtobufLaws} m r :
  CliprdrServerFormatListResponse.ok m -> CliprdrServerFormatListResponse.decode (len r) (CliprdrServerFormatListResponse.encode m ++ r) = Ret (m, r).
Proof.
  start_roundtrip CliprdrServerFormatListResponse.ok CliprdrServerFormatListResponse.createBase CliprdrServerFormatListResponse.encode CliprdrServerFormatListResponse.decode.
  step_scalar CliprdrServerFormatListResponse_shrinks (fun v m => m <| CliprdrServerFormatListResponse.msg_flags := v |>).
  finish_roundtrip m.
Qed.
Lemma CliprdrServerFormatListResponse_codec_ok `{ProtobufLaws} : scalar_ok CliprdrServerFormatListResponse.codec CliprdrServerFormatListResponse.wire_ok.
Proof. apply embedded_ok; [apply decode_with_shrinks, CliprdrServerFormatListResponse_shrinks|apply CliprdrServerFormatListResponse_roundtrip]. Qed.
#[export] Hint Resolve CliprdrServerFormatListResponse_codec_ok : scalar_ok.

(** ** [CliprdrServerFormatDataRequest] (message.ts, lines 1162-1164 and 7416-7449) *)
Module CliprdrServerFormatDataRequest.
Record t := mk {
  requested_format_id : Z;
}.
Definition createBase : t := {|
  requested_format_id := 0 |}.
Definition encode `{ProtobufRuntime} (message : t) : bytes :=
  unless (message.(requested_format_id) =? 0) (tagged 16 (wr pb_int32 message.(requested_format_id))).
Definition field `{ProtobufRuntime} (tag : Z) (reader : bytes) (message : t) : field_step t :=
  match Z.shiftr tag 3 with
  | 2 =>
      if negb (tag =? 16) then Break else
      Continue (fld pb_int32 (fun v => message <| requested_format_id := v |>) reader)
  | _ => Break
  end.
Definition decode `{ProtobufRuntime} : Z -> bytes -> outcome (t * bytes) :=
  decode_with field createBase.
Definition codec `{ProtobufRuntime} : scalar t := embedded encode decode.
(** The values the wire format can carry. *)
Definition ok `{ProtobufRuntime} (message : t) : Prop :=
  in_int32 message.(requested_format_id).
Definition wire_ok `{ProtobufRuntime} (message : t) : Prop :=
  ok message /\ short_bytes (encode message).
End CliprdrServerFormatDataRequest.

Lemma CliprdrServerFormatDataRequest_shrinks `{ProtobufLaws} : field_shrinks CliprdrServerFormatDataRequest.field.
Proof. solve_shrinks CliprdrServerFormatDataRequest.field. Qed.
Lemma CliprdrServerFormatDataRequest_roundtrip `{ProtobufLaws} m r :
  CliprdrServerFormatDataRequest.ok m -> CliprdrServerFormatDataRequest.decode (len r) (CliprdrServerFormatDataRequest.encode m ++ r) = Ret (m, r).
Proof.
  start_roundtrip CliprdrServerFormatDataRequest.ok CliprdrServerFormatDataRequest.createBase CliprdrServerFormatDataRequest.encode CliprdrServerFormatDataRequest.decode.
  step_scalar CliprdrServerFormatDataRequest_shrinks (fun v m => m <| CliprdrServerFormatDataRequest.requested_format_id := v |>).
  finish_roundtrip m.
Qed.
Lemma CliprdrServerFormatDataRequest_codec_ok `{ProtobufLaws} : scalar_ok CliprdrServerFormatDataRequest.codec CliprdrServerFormatDataRequest.wire_ok.
Proof. apply embedded_ok; [apply decode_with_shrinks, CliprdrServerFormatDataRequest_shrinks|apply CliprdrServerFormatDataRequest_roundtrip]. Qed.
#[export] Hint Resolve CliprdrServerFormatDataRequest_codec_ok : scalar_ok.

(** ** [CliprdrServerFormatDataResponse] (message.ts, lines 1166-1169 and 7477-7520) *)
Module CliprdrServerFormatDataResponse.
Record t := mk {
  msg_flags : Z;
  format_data : bytes;
}.
Definition createBase : t := {|
  msg_flags := 0;
  format_data := [] |}.
Definition encode `{ProtobufRuntime} (message : t) : bytes :=
  unless (message.(msg_flags) =? 0) (tagged 16 (wr pb_int32 message.(msg_flags))) ++
  unless (len message.(format_data) =? 0) (tagged 26 (wr pb_bytes message.(format_data))).
Definition field `{ProtobufRuntime} (tag : Z) (reader : bytes) (message : t) : field_step t :=
  match Z.shiftr tag 3 with
  | 2 =>
      if negb (tag =? 16) then Break else
      Continue (fld pb_int32 (fun v => message <| msg_flags := v |>) reader)
  | 3 =>
      if negb (tag =? 26) then Break else
      Continue (fld pb_bytes (fun v => message <| format_data := v |>) reader)
  | _ => Break
  end.
Definition decode `{ProtobufRuntime} : Z -> bytes -> outcome (t * bytes) :=
  decode_with field createBase.
Definition codec `{ProtobufRuntime} : scalar t := embedded encode decode.
(** The values the wire format can carry. *)
Definition ok `{ProtobufRuntime} (message : t) : Prop :=
  in_int32 message.(msg_flags) /\
  short_bytes message.(format_data).
Definition wire_ok `{ProtobufRuntime} (message : t) : Prop :=
  ok message /\ short_bytes (encode message).
End CliprdrServerFormatDataResponse.

Lemma CliprdrServerFormatDataResponse_shrinks `{ProtobufLaws} : field_shrinks CliprdrServerFormatDataResponse.field.
Proof. solve_shrinks CliprdrServerFormatDataResponse.field. Qed.
Lemma CliprdrServerFormatDataResponse_roundtrip `{ProtobufLaws} m r :
  CliprdrServerFormatDataResponse.ok m -> CliprdrServerFormatDataResponse.decode (len r) (CliprdrServerFormatDataResponse.encode m ++ r) = Ret (m, r).
Proof.
  start_roundtrip CliprdrServerFormatDataResponse.ok CliprdrServerFormatDataResponse.createBase CliprdrServerFormatDataResponse.encode CliprdrServerFormatDataResponse.decode.
  step_scalar CliprdrServerFormatDataResponse_shrinks (fun v m => m <| CliprdrServerFormatDataResponse.msg_flags := v |>).
  step_scalar CliprdrServerFormatDataResponse_shrinks (fun v m => m <| CliprdrServerFormatDataResponse.format_data := v |>).
  finish_roundtrip m.
Qed.
Lemma CliprdrServerFormatDataResponse_codec_ok `{ProtobufLaws} : scalar_ok CliprdrServerFormatDataResponse.codec CliprdrServerFormatDataResponse.wire_ok.
Proof. apply embedded_ok; [apply decode_with_shrinks, CliprdrServerFormatDataResponse_shrinks|apply CliprdrServerFormatDataResponse_roundtrip]. Qed.
#[export] Hint Resolve CliprdrServerFormatDataResponse_codec_ok : scalar_ok.

(** ** [CliprdrFileContentsRequest] (message.ts, lines 1171-1180 and 7553-7665) *)
Module CliprdrFileContentsRequest.
Record t := mk {
  stream_id : Z;
  list_index : Z;
  dw_flags : Z;
  n_position_low : Z;
  n_position_high : Z;
  cb_requested : Z;
  have_clip_data_id : bool;
  clip_data_id : Z;
}.
Definition createBase : t := {|
  stream_id := 0;
  list_index := 0;
  dw_flags := 0;
  n_position_low := 0;
  n_position_high := 0;
  cb_requested := 0;
  have_clip_data_id := false;
  clip_data_id := 0 |}.
Definition encode `{ProtobufRuntime} (message : t) : bytes :=
  unless (message.(stream_id) =? 0) (tagged 16 (wr pb_int32 message.(stream_id))) ++
  unless (message.(list_index) =? 0) (tagged 24 (wr pb_int32 message.(list_index))) ++
  unless (message.(dw_flags) =? 0) (tagged 32 (wr pb_int32 message.(dw_flags))) ++
  unless (message.(n_position_low) =? 0) (tagged 40 (wr pb_int32 message.(n_position_low))) ++
  unless (message.(n_position_high) =? 0) (tagged 48 (wr pb_int32 message.(n_position_high))) ++
  unless (message.(cb_requested) =? 0) (tagged 56 (wr pb_int32 message.(cb_requested))) ++
  unless (negb message.(have_clip_data_id)) (tagged 64 (wr pb_bool message.(have_clip_data_id))) ++
  unless (message.(clip_data_id) =? 0) (tagged 72 (wr pb_int32 message.(clip_data_id))).
Definition field `{ProtobufRuntime} (tag : Z) (reader : bytes) (message : t) : field_step t :=
  match Z.shiftr tag 3 with
  | 2 =>
      if negb (tag =? 16) then Break else
      Continue (fld pb_int32 (fun v => message <| stream_id := v |>) reader)
  | 3 =>
      if negb (tag =? 24) then Break else
      Continue (fld pb_int32 (fun v => message <| list_index := v |>) reader)
  | 4 =>
      if negb (tag =? 32) then Break else
      Continue (fld pb_int32 (fun v => message <| dw_flags := v |>) reader)
  | 5 =>
      if negb (tag =? 40) then Break else
      Continue (fld pb_int32 (fun v => message <| n_position_low := v |>) reader)
  | 6 =>
      if negb (tag =? 48) then Break else
      Continue (fld pb_int32 (fun v => message <| n_position_high := v |>) reader)
  | 7 =>
      if negb (tag =? 56) then Break else
      Continue (fld pb_int32 (fun v => message <| cb_requested := v |>) reader)
  | 8 =>
      if negb (tag =? 64) then Break else
      Continue (fld pb_bool (fun v => message <| have_clip_data_id := v |>) reader)
  | 9 =>
      if negb (tag =? 72) then Break else
      Continue (fld pb_int32 (fun v => message <| clip_data_id := v |>) reader)
  | _ => Break
  end.
Definition decode `{ProtobufRuntime} : Z -> bytes -> outcome (t * bytes) :=
  decode_with field createBase.
Definition codec `{ProtobufRuntime} : scalar t := embedded encode decode.
(** The values the wire format can carry. *)
Definition ok `{ProtobufRuntime} (message : t) : Prop :=
  in_int32 message.(stream_id) /\
  in_int32 message.(list_index) /\
  in_int32 message.(dw_flags) /\
  in_int32 message.(n_position_low) /\
  in_int32 message.(n_position_high) /\
  in_int32 message.(cb_requested) /\
  in_int32 message.(clip_data_id).
Definition wire_ok `{ProtobufRuntime} (message : t) : Prop :=
  ok message /\ short_bytes (encode message).
End CliprdrFileContentsRequest.

Lemma CliprdrFileContentsRequest_shrinks `{ProtobufLaws} : field_shrinks CliprdrFileContentsRequest.field.
Proof. solve_shrinks CliprdrFileContentsRequest.field. Qed.
Lemma CliprdrFileContentsRequest_roundtrip `{ProtobufLaws} m r :
  CliprdrFileContentsRequest.ok m -> CliprdrFileContentsRequest.decode (len r) (CliprdrFileContentsRequest.encode m ++ r) = Ret (m, r).
Proof.
  start_roundtrip CliprdrFileContentsRequest.ok CliprdrFileContentsRequest.createBase CliprdrFileContentsRequest.encode CliprdrFileContentsRequest.decode.
  step_scalar CliprdrFileContentsRequest_shrinks (fun v m => m <| CliprdrFileContentsRequest.stream_id := v |>).
  step_scalar CliprdrFileContentsRequest_shrinks (fun v m => m <| CliprdrFileContentsRequest.list_index := v |>).
  step_scalar CliprdrFileContentsRequest_shrinks (fun v m => m <| CliprdrFileContentsRequest.dw_flags := v |>).
  step_scalar CliprdrFileContentsRequest_shrinks (fun v m => m <| CliprdrFileContentsRequest.n_position_low := v |>).
  step_scalar CliprdrFileContentsRequest_shrinks (fun v m => m <| CliprdrFileContentsRequest.n_position_high := v |>).
  step_scalar CliprdrFileContentsRequest_shrinks (fun v m => m <| CliprdrFileContentsRequest.cb_requested := v |>).
  step_scalar CliprdrFileContentsRequest_shrinks (fun v m => m <| CliprdrFileContentsRequest.have_clip_data_id := v |>).
  step_scalar CliprdrFileContentsRequest_shrinks (fun v m => m <| CliprdrFileContentsRequest.clip_data_id := v |>).
  finish_roundtrip m.
Qed.
Lemma CliprdrFileContentsRequest_codec_ok `{ProtobufLaws} : scalar_ok CliprdrFileContentsRequest.codec CliprdrFileContentsRequest.wire_ok.
Proof. apply embedded_ok; [apply decode_with_shrinks, CliprdrFileContentsRequest_shrinks|apply CliprdrFileContentsRequest_roundtrip]. Qed.
#[export] Hint Resolve CliprdrFileContentsRequest_codec_ok : scalar_ok.

(** ** [CliprdrFileContentsResponse] (message.ts, lines 1182-1186 and 7726-7779) *)
Module CliprdrFileContentsResponse.
Record t := mk {
  msg_flags : Z;
  stream_id : Z;
  requested_data : bytes;
}.
Definition createBase : t := {|
  msg_flags := 0;
  stream_id := 0;
  requested_data := [] |}.
Definition encode `{ProtobufRuntime} (message : t) : bytes :=
  unless (message.(msg_flags) =? 0) (tagged 24 (wr pb_int32 message.(msg_flags))) ++
  unless (message.(stream_id) =? 0) (tagged 32 (wr pb_int32 message.(stream_id))) ++
  unless (len message.(requested_data) =? 0) (tagged 42 (wr pb_bytes message.(requested_data))).
Definition field `{ProtobufRuntime} (tag : Z) (reader : bytes) (message : t) : field_step t :=
  match Z.shiftr tag 3 with
  | 3 =>
      if negb (tag =? 24) then Break else
      Continue (fld pb_int32 (fun v => message <| msg_flags := v |>) reader)
  | 4 =>
      if negb (tag =? 32) then Break else
      Continue (fld pb_int32 (fun v => message <| stream_id := v |>) reader)
  | 5 =>
      if negb (tag =? 42) then Break else
      Continue (fld pb_bytes (fun v => message <| requested_data := v |>) reader)
  | _ => Break
  end.
Definition decode `{ProtobufRuntime} : Z -> bytes -> outcome (t * bytes) :=
  decode_with field createBase.
Definition codec `{ProtobufRuntime} : scalar t := embedded encode decode.
(** The values the wire format can carry. *)
Definition ok `{ProtobufRuntime} (message : t) : Prop :=
  in_int32 message.(msg_flags) /\
  in_int32 message.(stream_id) /\
  short_bytes message.(requested_data).
Definition wire_ok `{ProtobufRuntime} (message : t) : Prop :=
  ok message /\ short_bytes (encode message).
End CliprdrFileContentsResponse.

Lemma CliprdrFileContentsResponse_shrinks `{ProtobufLaws} : field_shrinks CliprdrFileContentsResponse.field.
Proof. solve_shrinks CliprdrFileContentsResponse.field. Qed.
Lemma CliprdrFileContentsResponse_roundtrip `{ProtobufLaws} m r :
  CliprdrFileContentsResponse.ok m -> CliprdrFileContentsResponse.decode (len r) (CliprdrFileContentsResponse.encode m ++ r) = Ret (m, r).
Proof.
  start_roundtrip CliprdrFileContentsResponse.ok CliprdrFileContentsResponse.createBase CliprdrFileContentsResponse.encode CliprdrFileContentsResponse.decode.
  step_scalar CliprdrFileContentsResponse_shrinks (fun v m => m <| CliprdrFileContentsResponse.msg_flags := v |>).
  step_scalar CliprdrFileContentsResponse_shrinks (fun v m => m <| CliprdrFileContentsResponse.stream_id := v |>).
  step_scalar CliprdrFileContentsResponse_shrinks (fun v m => m <| CliprdrFileContentsResponse.requested_data := v |>).
  finish_roundtrip m.
Qed.
Lemma CliprdrFileContentsResponse_codec_ok `{ProtobufLaws} : scalar_ok CliprdrFileContentsResponse.codec CliprdrFileContentsResponse.wire_ok.
Proof. apply embedded_ok; [apply decode_with_shrinks, CliprdrFileContentsResponse_shrinks|apply CliprdrFileContentsResponse_roundtrip]. Qed.
#[export] Hint Resolve CliprdrFileContentsResponse_codec_ok : scalar_ok.

(** ** [CliprdrTryEmpty] (message.ts, lines 1195-1196 and 7815-7838) *)
Module CliprdrTryEmpty.
Record t := mk { }.
Definition createBase : t := mk.
Definition encode `{ProtobufRuntime} (message : t) : bytes := [].
Definition field `{ProtobufRuntime} (tag : Z) (reader : bytes) (message : t) : field_step t := Break.
Definition decode `{ProtobufRuntime} : Z -> bytes -> outcome (t * bytes) :=
  decode_with field createBase.
Definition codec `{ProtobufRuntime} : scalar t := embedded encode decode.
(** The values the wire format can carry. *)
Definition ok `{ProtobufRuntime} (message : t) : Prop :=
  True.
Definition wire_ok `{ProtobufRuntime} (message : t) : Prop :=
  ok message /\ short_bytes (encode message).
End CliprdrTryEmpty.

Lemma CliprdrTryEmpty_shrinks `{ProtobufLaws} : field_shrinks CliprdrTryEmpty.field.
Proof. solve_shrinks CliprdrTryEmpty.field. Qed.
Lemma CliprdrTryEmpty_roundtrip `{ProtobufLaws} m r :
  CliprdrTryEmpty.ok m -> CliprdrTryEmpty.decode (len r) (CliprdrTryEmpty.encode m ++ r) = Ret (m, r).
Proof.
  start_roundtrip CliprdrTryEmpty.ok CliprdrTryEmpty.createBase CliprdrTryEmpty.encode CliprdrTryEmpty.decode.
  finish_roundtrip m.
Qed.
Lemma CliprdrTryEmpty_codec_ok `{ProtobufLaws} : scalar_ok CliprdrTryEmpty.codec CliprdrTryEmpty.wire_ok.
Proof. apply embedded_ok; [apply decode_with_shrinks, CliprdrTryEmpty_shrinks|apply CliprdrTryEmpty_roundtrip]. Qed.
#[export] Hint Resolve CliprdrTryEmpty_codec_ok : scalar_ok.

(** ** [Cliprdr] (message.ts, lines 1198-1207 and 7858-7970) *)
Module Cliprdr.
Record t := mk {
  ready : maybe CliprdrMonitorReady.t;
  format_list : maybe CliprdrServerFormatList.t;
  format_list_response : maybe CliprdrServerFormatListResponse.t;
  format_data_request : maybe CliprdrServerFormatDataRequest.t;
  format_data_response : maybe CliprdrServerFormatDataResponse.t;
  file_contents_request : maybe CliprdrFileContentsRequest.t;
  file_contents_response : maybe CliprdrFileContentsResponse.t;
  try_empty : maybe CliprdrTryEmpty.t;
}.
Definition createBase : t := {|
  ready := None;
  format_list := None;
  format_list_response := None;
  format_data_request := None;
  format_data_response := None;
  file_contents_request := None;
  file_contents_response := None;
  try_empty := None |}.
Definition encode `{ProtobufRuntime} (message : t) : bytes :=
  if_set message.(ready) (fun v => tagged 10 (wr CliprdrMonitorReady.codec v)) ++
  if_set message.(format_list) (fun v => tagged 18 (wr CliprdrServerFormatList.codec v)) ++
  if_set message.(format_list_response) (fun v => tagged 26 (wr CliprdrServerFormatListResponse.codec v)) ++
  if_set message.(format_data_request) (fun v => tagged 34 (wr CliprdrServerFormatDataRequest.codec v)) ++
  if_set message.(format_data_response) (fun v => tagged 42 (wr CliprdrServerFormatDataResponse.codec v)) ++
  if_set message.(file_contents_request) (fun v => tagged 50 (wr CliprdrFileContentsRequest.codec v)) ++
  if_set message.(file_contents_response) (fun v => tagged 58 (wr CliprdrFileContentsResponse.codec v)) ++
  if_set message.(try_empty) (fun v => tagged 66 (wr CliprdrTryEmpty.codec v)).
Definition field `{ProtobufRuntime} (tag : Z) (reader : bytes) (message : t) : field_step t :=
  match Z.shiftr tag 3 with
  | 1 =>
      if negb (tag =? 10) then Break else
      Continue (fld CliprdrMonitorReady.codec (fun v => message <| ready := Some v |>) reader)
  | 2 =>
      if negb (tag =? 18) then Break else
      Continue (fld CliprdrServerFormatList.codec (fun v => message <| format_list := Some v |>) reader)
  | 3 =>
      if negb (tag =? 26) then Break else
      Continue (fld CliprdrServerFormatListResponse.codec (fun v => message <| format_list_response := Some v |>) reader)
  | 4 =>
      if negb (tag =? 34) then Break else
      Continue (fld CliprdrServerFormatDataRequest.codec (fun v => message <| format_data_request := Some v |>) reader)
  | 5 =>
      if negb (tag =? 42) then Break else
      Continue (fld CliprdrServerFormatDataResponse.codec (fun v => message <| format_data_response := Some v |>) reader)
  | 6 =>
      if negb (tag =? 50) then Break else
      Continue (fld CliprdrFileContentsRequest.codec (fun v => message <| file_contents_request := Some v |>) reader)
  | 7 =>
      if negb (tag =? 58) then Break else
      Continue (fld CliprdrFileContentsResponse.codec (fun v => message <| file_contents_response := Some v |>) reader)
  | 8 =>
      if negb (tag =? 66) then Break else
      Continue (fld CliprdrTryEmpty.codec (fun v => message <| try_empty := Some v |>) reader)
  | _ => Break
  end.
Definition decode `{ProtobufRuntime} : Z -> bytes -> outcome (t * bytes) :=
  decode_with field createBase.
Definition codec `{ProtobufRuntime} : scalar t := embedded encode decode.
(** The values the wire format can carry. *)
Definition ok `{ProtobufRuntime} (message : t) : Prop :=
  from_option CliprdrMonitorReady.wire_ok True message.(ready) /\
  from_option CliprdrServerFormatList.wire_ok True message.(format_list) /\
  from_option CliprdrServerFormatListResponse.wire_ok True message.(format_list_response) /\
  from_option CliprdrServerFormatDataRequest.wire_ok True message.(format_data_request) /\
  from_option CliprdrServerFormatDataResponse.wire_ok True message.(format_data_response) /\
  from_option CliprdrFileContentsRequest.wire_ok True message.(file_contents_request) /\
  from_option CliprdrFileContentsResponse.wire_ok True message.(file_contents_response) /\
  from_option CliprdrTryEmpty.wire_ok True message.(try_empty).
Definition wire_ok `{ProtobufRuntime} (message : t) : Prop :=
  ok message /\ short_bytes (encode message).
End Cliprdr.

Lemma Cliprdr_shrinks `{ProtobufLaws} : field_shrinks Cliprdr.field.
Proof. solve_shrinks Cliprdr.field. Qed.
Lemma Cliprdr_roundtrip `{ProtobufLaws} m r :
  Cliprdr.ok m -> Cliprdr.decode (len r) (Cliprdr.encode m ++ r) = Ret (m, r).
Proof.
  start_roundtrip Cliprdr.ok Cliprdr.createBase Cliprdr.encode Cliprdr.decode.
  step_opt Cliprdr_shrinks (fun v m => m <| Cliprdr.ready := v |>).
  step_opt Cliprdr_shrinks (fun v m => m <| Cliprdr.format_list := v |>).
  step_opt Cliprdr_shrinks (fun v m => m <| Cliprdr.format_list_response := v |>).
  step_opt Cliprdr_shrinks (fun v m => m <| Cliprdr.format_data_request := v |>).
  step_opt Cliprdr_shrinks (fun v m => m <| Cliprdr.format_data_response := v |>).
  step_opt Cliprdr_shrinks (fun v m => m <| Cliprdr.file_contents_request := v |>).
  step_opt Cliprdr_shrinks (fun v m => m <| Cliprdr.file_contents_response := v |>).
  step_opt Cliprdr_shrinks (fun v m => m <| Cliprdr.try_empty := v |>).
  finish_roundtrip m.
Qed.
Lemma Cliprdr_codec_ok `{ProtobufLaws} : scalar_ok Cliprdr.codec Cliprdr.wire_ok.
Proof. apply embedded_ok; [apply decode_with_shrinks, Cliprdr_shrinks|apply Cliprdr_roundtrip]. Qed.
#[export] Hint Resolve Cliprdr_codec_ok : scalar_ok.

(** ** [DisplayResolution] (message.ts, lines 1214-1217 and 8133-8176) *)
Module DisplayResolution.
Record t := mk {
  display : Z;
  resolution : maybe Resolution.t;
}.
Definition createBase : t := {|
  display := 0;
  resolution := None |}.
Definition encode `{ProtobufRuntime} (message : t) : bytes :=
  unless (message.(display) =? 0) (tagged 8 (wr pb_int32 message.(display))) ++
  if_set message.(resolution) (fun v => tagged 18 (wr Resolution.codec v)).
Definition field `{ProtobufRuntime} (tag : Z) (reader : bytes) (message : t) : field_step t :=
  match Z.shiftr tag 3 with
  | 1 =>
      if negb (tag =? 8) then Break else
      Continue (fld pb_int32 (fun v => message <| display := v |>) reader)
  | 2 =>
      if negb (tag =? 18) then Break else
      Continue (fld Resolution.codec (fun v => message <| resolution := Some v |>) reader)
  | _ => Break
  end.
Definition decode `{ProtobufRuntime} : Z -> bytes -> outcome (t * bytes) :=
  decode_with field createBase.
Definition codec `{ProtobufRuntime} : scalar t := embedded encode decode.
(** The values the wire format can carry. *)
Definition ok `{ProtobufRuntime} (message : t) : Prop :=
  in_int32 message.(display) /\
  from_option Resolution.wire_ok True message.(resolution).
Definition wire_ok `{ProtobufRuntime} (message : t) : Prop :=
  ok message /\ short_bytes (encode message).
End DisplayResolution.

Lemma DisplayResolution_shrinks `{ProtobufLaws} : field_shrinks DisplayResolution.field.
Proof. solve_shrinks DisplayResolution.field. Qed.
Lemma DisplayResolution_roundtrip `{ProtobufLaws} m r :
  DisplayResolution.ok m -> DisplayResolution.decode (len r) (DisplayResolution.encode m ++ r) = Ret (m, r).
Proof.
  start_roundtrip DisplayResolution.ok DisplayResolution.createBase DisplayResolution.encode DisplayResolution.decode.
  step_scalar DisplayResolution_shrinks (fun v m => m <| DisplayResolution.display := v |>).
  step_opt DisplayResolution_shrinks (fun v m => m <| DisplayResolution.resolution := v |>).
  finish_roundtrip m.
Qed.
Lemma DisplayResolution_codec_ok `{ProtobufLaws} : scalar_ok DisplayResolution.codec DisplayResolution.wire_ok.
Proof. apply embedded_ok; [apply decode_with_shrinks, DisplayResolution_shrinks|apply DisplayResolution_roundtrip]. Qed.
#[export] Hint Resolve DisplayResolution_codec_ok : scalar_ok.

(** ** [SwitchDisplay] (message.ts, lines 1223-1235 and 8270-8382) *)
Module SwitchDisplay.
Record t := mk {
  display : Z;
  x : Z;
  y : Z;
  width : Z;
  height : Z;
  cursor_embedded : bool;
  resolutions : maybe SupportedResolutions.t;
  original_resolution : maybe Resolution.t;
}.
Definition createBase : t := {|
  display := 0;
  x := 0;
  y := 0;
  width := 0;
  height := 0;
  cursor_embedded := false;
  resolutions := None;
  original_resolution := None |}.
Definition encode `{ProtobufRuntime} (message : t) : bytes :=
  unless (message.(display) =? 0) (tagged 8 (wr pb_int32 message.(display))) ++
  unless (message.(x) =? 0) (tagged 16 (wr pb_sint32 message.(x))) ++
  unless (message.(y) =? 0) (tagged 24 (wr pb_sint32 message.(y))) ++
  unless (message.(width) =? 0) (tagged 32 (wr pb_int32 message.(width))) ++
  unless (message.(height) =? 0) (tagged 40 (wr pb_int32 message.(height))) ++
  unless (negb message.(cursor_embedded)) (tagged 48 (wr pb_bool message.(cursor_embedded))) ++
  if_set message.(resolutions) (fun v => tagged 58 (wr SupportedResolutions.codec v)) ++
  if_set message.(original_resolution) (fun v => tagged 66 (wr Resolution.codec v)).
Definition field `{ProtobufRuntime} (tag : Z) (reader : bytes) (message : t) : field_step t :=
  match Z.shiftr tag 3 with
  | 1 =>
      if negb (tag =? 8) then Break else
      Continue (fld pb_int32 (fun v => message <| display := v |>) reader)
  | 2 =>
      if negb (tag =? 16) then Break else
      Continue (fld pb_sint32 (fun v => message <| x := v |>) reader)
  | 3 =>
      if negb (tag =? 24) then Break else
      Continue (fld pb_sint32 (fun v => message <| y := v |>) reader)
  | 4 =>
      if negb (tag =? 32) then Break else
      Continue (fld pb_int32 (fun v => message <| width := v |>) reader)
  | 5 =>
      if negb (tag =? 40) then Break else
      Continue (fld pb_int32 (fun v => message <| height := v |>) reader)
  | 6 =>
      if negb (tag =? 48) then Break else
      Continue (fld pb_bool (fun v => message <| cursor_embedded := v |>) reader)
  | 7 =>
      if negb (tag =? 58) then Break else
      Continue (fld SupportedResolutions.codec (fun v => message <| resolutions := Some v |>) reader)
  | 8 =>
      if negb (tag =? 66) then Break else
      Continue (fld Resolution.codec (fun v => message <| original_resolution := Some v |>) reader)
  | _ => Break
  end.
Definition decode `{ProtobufRuntime} : Z -> bytes -> outcome (t * bytes) :=
  decode_with field createBase.
Definition codec `{ProtobufRuntime} : scalar t := embedded encode decode.
(** The values the wire format can carry. *)
Definition ok `{ProtobufRuntime} (message : t) : Prop :=
  in_int32 message.(display) /\
  in_int32 message.(x) /\
  in_int32 message.(y) /\
  in_int32 message.(width) /\
  in_int32 message.(height) /\
  from_option SupportedResolutions.wire_ok True message.(resolutions) /\
  from_option Resolution.wire_ok True message.(original_resolution).
Definition wire_ok `{ProtobufRuntime} (message : t) : Prop :=
  ok message /\ short_bytes (encode message).
End SwitchDisplay.

Lemma SwitchDisplay_shrinks `{ProtobufLaws} : field_shrinks SwitchDisplay.field.
Proof. solve_shrinks SwitchDisplay.field. Qed.
Lemma SwitchDisplay_roundtrip `{ProtobufLaws} m r :
  SwitchDisplay.ok m -> SwitchDisplay.decode (len r) (SwitchDisplay.encode m ++ r) = Ret (m, r).
Proof.
  start_roundtrip SwitchDisplay.ok SwitchDisplay.createBase SwitchDisplay.encode SwitchDisplay.decode.
  step_scalar SwitchDisplay_shrinks (fun v m => m <| SwitchDisplay.display := v |>).
  step_scalar SwitchDisplay_shrinks (fun v m => m <| SwitchDisplay.x := v |>).
  step_scalar SwitchDisplay_shrinks (fun v m => m <| SwitchDisplay.y := v |>).
  step_scalar SwitchDisplay_shrinks (fun v m => m <| SwitchDisplay.width := v |>).
  step_scalar SwitchDisplay_shrinks (fun v m => m <| SwitchDisplay.height := v |>).
  step_scalar SwitchDisplay_shrinks (fun v m => m <| SwitchDisplay.cursor_embedded := v |>).
  step_opt SwitchDisplay_shrinks (fun v m => m <| SwitchDisplay.resolutions := v |>).
  step_opt SwitchDisplay_shrinks (fun v m => m <| SwitchDisplay.original_resolution := v |>).
  finish_roundtrip m.
Qed.
Lemma SwitchDisplay_codec_ok `{ProtobufLaws} : scalar_ok SwitchDisplay.codec SwitchDisplay.wire_ok.
Proof. apply embedded_ok; [apply decode_with_shrinks, SwitchDisplay_shrinks|apply SwitchDisplay_roundtrip]. Qed.
#[export] Hint Resolve SwitchDisplay_codec_ok : scalar_ok.

(** ** [CaptureDisplays] (message.ts, lines 1237-1241 and 8449-8538) *)
Module CaptureDisplays.
Record t := mk {
  add : list Z;
  sub : list Z;
  set : list Z;
}.
Definition createBase : t := {|
  add := [];
  sub := [];
  set := [] |}.
Definition encode `{ProtobufRuntime} (message : t) : bytes :=
  tagged 10 (wr (packed pb_int32 []) message.(add)) ++
  tagged 18 (wr (packed pb_int32 []) message.(sub)) ++
  tagged 26 (wr (packed pb_int32 []) message.(set)).
Definition field `{ProtobufRuntime} (tag : Z) (reader : bytes) (message : t) : field_step t :=
  match Z.shiftr tag 3 with
  | 1 =>
      if tag =? 8 then
        Continue (fld pb_int32 (fun v => message <| add := message.(add) ++ [v] |>) reader)
      else if tag =? 10 then
        Continue (fld (packed pb_int32 message.(add)) (fun vs => message <| add := vs |>) reader)
      else Break
  | 2 =>
      if tag =? 16 then
        Continue (fld pb_int32 (fun v => message <| sub := message.(sub) ++ [v] |>) reader)
      else if tag =? 18 then
        Continue (fld (packed pb_int32 message.(sub)) (fun vs => message <| sub := vs |>) reader)
      else Break
  | 3 =>
      if tag =? 24 then
        Continue (fld pb_int32 (fun v => message <| set := message.(set) ++ [v] |>) reader)
      else if tag =? 26 then
        Continue (fld (packed pb_int32 message.(set)) (fun vs => message <| set := vs |>) reader)
      else Break
  | _ => Break
  end.
Definition decode `{ProtobufRuntime} : Z -> bytes -> outcome (t * bytes) :=
  decode_with field createBase.
Definition codec `{ProtobufRuntime} : scalar t := embedded encode decode.
(** The values the wire format can carry. *)
Definition ok `{ProtobufRuntime} (message : t) : Prop :=
  Forall in_int32 message.(add) /\ short_bytes (each message.(add) (wr pb_int32)) /\
  Forall in_int32 message.(sub) /\ short_bytes (each message.(sub) (wr pb_int32)) /\
  Forall in_int32 message.(set) /\ short_bytes (each message.(set) (wr pb_int32)).
Definition wire_ok `{ProtobufRuntime} (message : t) : Prop :=
  ok message /\ short_bytes (encode message).
End CaptureDisplays.

Lemma CaptureDisplays_shrinks `{ProtobufLaws} : field_shrinks CaptureDisplays.field.
Proof. solve_shrinks CaptureDisplays.field. Qed.
Lemma CaptureDisplays_roundtrip `{ProtobufLaws} m r :
  CaptureDisplays.ok m -> CaptureDisplays.decode (len r) (CaptureDisplays.encode m ++ r) = Ret (m, r).
Proof.
  start_roundtrip CaptureDisplays.ok CaptureDisplays.createBase CaptureDisplays.encode CaptureDisplays.decode.
  step_packed CaptureDisplays_shrinks (fun v m => m <| CaptureDisplays.add := v |>).
  step_packed CaptureDisplays_shrinks (fun v m => m <| CaptureDisplays.sub := v |>).
  step_packed CaptureDisplays_shrinks (fun v m => m <| CaptureDisplays.set := v |>).
  finish_roundtrip m.
Qed.
Lemma CaptureDisplays_codec_ok `{ProtobufLaws} : scalar_ok CaptureDisplays.codec CaptureDisplays.wire_ok.
Proof. apply embedded_ok; [apply decode_with_shrinks, CaptureDisplays_shrinks|apply CaptureDisplays_roundtrip]. Qed.
#[export] Hint Resolve CaptureDisplays_codec_ok : scalar_ok.

(** ** [ToggleVirtualDisplay] (message.ts, lines 1243-1246 and 8574-8617) *)
Module ToggleVirtualDisplay.
Record t := mk {
  display : Z;
  on : bool;
}.
Definition createBase : t := {|
  display := 0;
  on := false |}.
Definition encode `{ProtobufRuntime} (message : t) : bytes :=
  unless (message.(display) =? 0) (tagged 8 (wr pb_int32 message.(display))) ++
  unless (negb message.(on)) (tagged 16 (wr pb_bool message.(on))).
Definition field `{ProtobufRuntime} (tag : Z) (reader : bytes) (message : t) : field_step t :=
  match Z.shiftr tag 3 with
  | 1 =>
      if negb (tag =? 8) then Break else
      Continue (fld pb_int32 (fun v => message <| display := v |>) reader)
  | 2 =>
      if negb (tag =? 16) then Break else
      Continue (fld pb_bool (fun v => message <| on := v |>) reader)
  | _ => Break
  end.
Definition decode `{ProtobufRuntime} : Z -> bytes -> outcome (t * bytes) :=
  decode_with field createBase.
Definition codec `{ProtobufRuntime} : scalar t := embedded encode decode.
(** The values the wire format can carry. *)
Definition ok `{ProtobufRuntime} (message : t) : Prop :=
  in_int32 message.(display).
Definition wire_ok `{ProtobufRuntime} (message : t) : Prop :=
  ok message /\ short_bytes (encode message).
End ToggleVirtualDisplay.

Lemma ToggleVirtualDisplay_shrinks `{ProtobufLaws} : field_shrinks ToggleVirtualDisplay.field.
Proof. solve_shrinks ToggleVirtualDisplay.field. Qed.
Lemma ToggleVirtualDisplay_roundtrip `{ProtobufLaws} m r :
  ToggleVirtualDisplay.ok m -> ToggleVirtualDisplay.decode (len r) (ToggleVirtualDisplay.encode m ++ r) = Ret (m, r).
Proof.
  start_roundtrip ToggleVirtualDisplay.ok ToggleVirtualDisplay.createBase ToggleVirtualDisplay.encode ToggleVirtualDisplay.decode.
  step_scalar ToggleVirtualDisplay_shrinks (fun v m => m <| ToggleVirtualDisplay.display := v |>).
  step_scalar ToggleVirtualDisplay_shrinks (fun v m => m <| ToggleVirtualDisplay.on := v |>).
  finish_roundtrip m.
Qed.
Lemma ToggleVirtualDisplay_codec_ok `{ProtobufLaws} : scalar_ok ToggleVirtualDisplay.codec ToggleVirtualDisplay.wire_ok.
Proof. apply embedded_ok; [apply decode_with_shrinks, ToggleVirtualDisplay_shrinks|apply ToggleVirtualDisplay_roundtrip]. Qed.
#[export] Hint Resolve ToggleVirtualDisplay_codec_ok : scalar_ok.

(** ** [TogglePrivacyMode] (message.ts, lines 1248-1251 and 8648-8691) *)
Module TogglePrivacyMode.
Record t := mk {
  impl_key : string;
  on : bool;
}.
Definition createBase : t := {|
  impl_key := "";
  on := false |}.
Definition encode `{ProtobufRuntime} (message : t) : bytes :=
  unless (message.(impl_key) =? "")%string (tagged 10 (wr pb_string message.(impl_key))) ++
  unless (negb message.(on)) (tagged 16 (wr pb_bool message.(on))).
Definition field `{ProtobufRuntime} (tag : Z) (reader : bytes) (message : t) : field_step t :=
  match Z.shiftr tag 3 with
  | 1 =>
      if negb (tag =? 10) then Break else
      Continue (fld pb_string (fun v => message <| impl_key := v |>) reader)
  | 2 =>
      if negb (tag =? 16) then Break else
      Continue (fld pb_bool (fun v => message <| on := v |>) reader)
  | _ => Break
  end.
Definition decode `{ProtobufRuntime} : Z -> bytes -> outcome (t * bytes) :=
  decode_with field createBase.
Definition codec `{ProtobufRuntime} : scalar t := embedded encode decode.
(** The values the wire format can carry. *)
Definition ok `{ProtobufRuntime} (message : t) : Prop :=
  short_string message.(impl_key).
Definition wire_ok `{ProtobufRuntime} (message : t) : Prop :=
  ok message /\ short_bytes (encode message).
End TogglePrivacyMode.

Lemma TogglePrivacyMode_shrinks `{ProtobufLaws} : field_shrinks TogglePrivacyMode.field.
Proof. solve_shrinks TogglePrivacyMode.field. Qed.
Lemma TogglePrivacyMode_roundtrip `{ProtobufLaws} m r :
  TogglePrivacyMode.ok m -> TogglePrivacyMode.decode (len r) (TogglePrivacyMode.encode m ++ r) = Ret (m, r).
Proof.
  start_roundtrip TogglePrivacyMode.ok TogglePrivacyMode.createBase TogglePrivacyMode.encode TogglePrivacyMode.decode.
  step_scalar TogglePrivacyMode_shrinks (fun v m => m <| TogglePrivacyMode.impl_key := v |>).
  step_scalar TogglePrivacyMode_shrinks (fun v m => m <| TogglePrivacyMode.on := v |>).
  finish_roundtrip m.
Qed.
Lemma TogglePrivacyMode_codec_ok `{ProtobufLaws} : scalar_ok TogglePrivacyMode.codec TogglePrivacyMode.wire_ok.
Proof. apply embedded_ok; [apply decode_with_shrinks, TogglePrivacyMode_shrinks|apply TogglePrivacyMode_roundtrip]. Qed.
#[export] Hint Resolve TogglePrivacyMode_codec_ok : scalar_ok.

(** ** [PermissionInfo] (message.ts, lines 1253-1256 and 8722-8765) *)
Module PermissionInfo.
Record t := mk {
  permission : Z;
  enabled : bool;
}.
Definition createBase : t := {|
  permission := 0;
  enabled := false |}.
Definition encode `{ProtobufRuntime} (message : t) : bytes :=
  unless (message.(permission) =? 0) (tagged 8 (wr pb_int32 message.(permission))) ++
  unless (negb message.(enabled)) (tagged 16 (wr pb_bool message.(enabled))).
Definition field `{ProtobufRuntime} (tag : Z) (reader : bytes) (message : t) : field_step t :=
  match Z.shiftr tag 3 with
  | 1 =>
      if negb (tag =? 8) then Break else
      Continue (fld pb_int32 (fun v => message <| permission := v |>) reader)
  | 2 =>
      if negb (tag =? 16) then Break else
      Continue (fld pb_bool (fun v => message <| enabled := v |>) reader)
  | _ => Break
  end.
Definition decode `{ProtobufRuntime} : Z -> bytes -> outcome (t * bytes) :=
  decode_with field createBase.
Definition codec `{ProtobufRuntime} : scalar t := embedded encode decode.
(** The values the wire format can carry. *)
Definition ok `{ProtobufRuntime} (message : t) : Prop :=
  in_int32 message.(permission).
Definition wire_ok `{ProtobufRuntime} (message : t) : Prop :=
  ok message /\ short_bytes (encode message).
End PermissionInfo.

Lemma PermissionInfo_shrinks `{ProtobufLaws} : field_shrinks PermissionInfo.field.
Proof. solve_shrinks PermissionInfo.field. Qed.
Lemma PermissionInfo_roundtrip `{ProtobufLaws} m r :
  PermissionInfo.ok m -> PermissionInfo.decode (len r) (PermissionInfo.encode m ++ r) = Ret (m, r).
Proof.
  start_roundtrip PermissionInfo.ok PermissionInfo.createBase PermissionInfo.encode PermissionInfo.decode.
  step_scalar PermissionInfo_shrinks (fun v m => m <| PermissionInfo.permission := v |>).
  step_scalar PermissionInfo_shrinks (fun v m => m <| PermissionInfo.enabled := v |>).
  finish_roundtrip m.
Qed.
Lemma PermissionInfo_codec_ok `{ProtobufLaws} : scalar_ok PermissionInfo.codec PermissionInfo.wire_ok.
Proof. apply embedded_ok; [apply decode_with_shrinks, PermissionInfo_shrinks|apply PermissionInfo_roundtrip]. Qed.
#[export] Hint Resolve PermissionInfo_codec_ok : scalar_ok.

(** ** [MessageBox] (message.ts, lines 1477-1489 and 9622-9685) *)
Module MessageBox.
Record t := mk {
  msgtype : string;
  title : string;
  text : string;
  link : string;
}.
Definition createBase : t := {|
  msgtype := "";
  title := "";
  text := "";
  link := "" |}.
Definition encode `{ProtobufRuntime} (message : t) : bytes :=
  unless (message.(msgtype) =? "")%string (tagged 10 (wr pb_string message.(msgtype))) ++
  unless (message.(title) =? "")%string (tagged 18 (wr pb_string message.(title))) ++
  unless (message.(text) =? "")%string (tagged 26 (wr pb_string message.(text))) ++
  unless (message.(link) =? "")%string (tagged 34 (wr pb_string message.(link))).
Definition field `{ProtobufRuntime} (tag : Z) (reader : bytes) (message : t) : field_step t :=
  match Z.shiftr tag 3 with
  | 1 =>
      if negb (tag =? 10) then Break else
      Continue (fld pb_string (fun v => message <| msgtype := v |>) reader)
  | 2 =>
      if negb (tag =? 18) then Break else
      Continue (fld pb_string (fun v => message <| title := v |>) reader)
  | 3 =>
      if negb (tag =? 26) then Break else
      Continue (fld pb_string (fun v => message <| text := v |>) reader)
  | 4 =>
      if negb (tag =? 34) then Break else
      Continue (fld pb_string (fun v => message <| link := v |>) reader)
  | _ => Break
  end.
Definition decode `{ProtobufRuntime} : Z -> bytes -> outcome (t * bytes) :=
  decode_with field createBase.
Definition codec `{ProtobufRuntime} : scalar t := embedded encode decode.
(** The values the wire format can carry. *)
Definition ok `{ProtobufRuntime} (message : t) : Prop :=
  short_string message.(msgtype) /\
  short_string message.(title) /\
  short_string message.(text) /\
  short_string message.(link).
Definition wire_ok `{ProtobufRuntime} (message : t) : Prop :=
  ok message /\ short_bytes (encode message).
End MessageBox.

Lemma MessageBox_shrinks `{ProtobufLaws} : field_shrinks MessageBox.field.
Proof. solve_shrinks MessageBox.field. Qed.
Lemma MessageBox_roundtrip `{ProtobufLaws} m r :
  MessageBox.ok m -> MessageBox.decode (len r) (MessageBox.encode m ++ r) = Ret (m, r).
Proof.
  start_roundtrip MessageBox.ok MessageBox.createBase MessageBox.encode MessageBox.decode.
  step_scalar MessageBox_shrinks (fun v m => m <| MessageBox.msgtype := v |>).
  step_scalar MessageBox_shrinks (fun v m => m <| MessageBox.title := v |>).
  step_scalar MessageBox_shrinks (fun v m => m <| MessageBox.text := v |>).
  step_scalar MessageBox_shrinks (fun v m => m <| MessageBox.link := v |>).
  finish_roundtrip m.
Qed.
Lemma MessageBox_codec_ok `{ProtobufLaws} : scalar_ok MessageBox.codec MessageBox.wire_ok.
Proof. apply embedded_ok; [apply decode_with_shrinks, MessageBox_shrinks|apply MessageBox_roundtrip]. Qed.
#[export] Hint Resolve MessageBox_codec_ok : scalar_ok.

(** ** [BackNotification] (message.ts, lines 1491-1500 and 9726-9789) *)
Module BackNotification.
Record t := mk {
  privacy_mode_state : maybe Z;
  block_input_state : maybe Z;
  details : string;
  impl_key : string;
}.
Definition createBase : t := {|
  privacy_mode_state := None;
  block_input_state := None;
  details := "";
  impl_key := "" |}.
Definition encode `{ProtobufRuntime} (message : t) : bytes :=
  if_set message.(privacy_mode_state) (fun v => tagged 8 (wr pb_int32 v)) ++
  if_set message.(block_input_state) (fun v => tagged 16 (wr pb_int32 v)) ++
  unless (message.(details) =? "")%string (tagged 26 (wr pb_string message.(details))) ++
  unless (message.(impl_key) =? "")%string (tagged 34 (wr pb_string message.(impl_key))).
Definition field `{ProtobufRuntime} (tag : Z) (reader : bytes) (message : t) : field_step t :=
  match Z.shiftr tag 3 with
  | 1 =>
      if negb (tag =? 8) then Break else
      Continue (fld pb_int32 (fun v => message <| privacy_mode_state := Some v |>) reader)
  | 2 =>
      if negb (tag =? 16) then Break else
      Continue (fld pb_int32 (fun v => message <| block_input_state := Some v |>) reader)
  | 3 =>
      if negb (tag =? 26) then Break else
      Continue (fld pb_string (fun v => message <| details := v |>) reader)
  | 4 =>
      if negb (tag =? 34) then Break else
      Continue (fld pb_string (fun v => message <| impl_key := v |>) reader)
  | _ => Break
  end.
Definition decode `{ProtobufRuntime} : Z -> bytes -> outcome (t * bytes) :=
  decode_with field createBase.
Definition codec `{ProtobufRuntime} : scalar t := embedded encode decode.
(** The values the wire format can carry. *)
Definition ok `{ProtobufRuntime} (message : t) : Prop :=
  from_option in_int32 True message.(privacy_mode_state) /\
  from_option in_int32 True message.(block_input_state) /\
  short_string message.(details) /\
  short_string message.(impl_key).
Definition wire_ok `{ProtobufRuntime} (message : t) : Prop :=
  ok message /\ short_bytes (encode message).
End BackNotification.

Lemma BackNotification_shrinks `{ProtobufLaws} : field_shrinks BackNotification.field.
Proof. solve_shrinks BackNotification.field. Qed.
Lemma BackNotification_roundtrip `{ProtobufLaws} m r :
  BackNotification.ok m -> BackNotification.decode (len r) (BackNotification.encode m ++ r) = Ret (m, r).
Proof.
  start_roundtrip BackNotification.ok BackNotification.createBase BackNotification.encode BackNotification.decode.
  step_opt BackNotification_shrinks (fun v m => m <| BackNotification.privacy_mode_state := v |>).
  step_opt BackNotification_shrinks (fun v m => m <| BackNotification.block_input_state := v |>).
  step_scalar BackNotification_shrinks (fun v m => m <| BackNotification.details := v |>).
  step_scalar BackNotification_shrinks (fun v m => m <| BackNotification.impl_key := v |>).
  finish_roundtrip m.
Qed.
Lemma BackNotification_codec_ok `{ProtobufLaws} : scalar_ok BackNotification.codec BackNotification.wire_ok.
Proof. apply embedded_ok; [apply decode_with_shrinks, BackNotification_shrinks|apply BackNotification_roundtrip]. Qed.
#[export] Hint Resolve BackNotification_codec_ok : scalar_ok.

(** ** [ElevationRequestWithLogon] (message.ts, lines 1650-1653 and 9834-9877) *)
Module ElevationRequestWithLogon.
Record t := mk {
  username : string;
  password : string;
}.
Definition createBase : t := {|
  username := "";
  password := "" |}.
Definition encode `{ProtobufRuntime} (message : t) : bytes :=
  unless (message.(username) =? "")%string (tagged 10 (wr pb_string message.(username))) ++
  unless (message.(password) =? "")%string (tagged 18 (wr pb_string message.(password))).
Definition field `{ProtobufRuntime} (tag : Z) (reader : bytes) (message : t) : field_step t :=
  match Z.shiftr tag 3 with
  | 1 =>
      if negb (tag =? 10) then Break else
      Continue (fld pb_string (fun v => message <| username := v |>) reader)
  | 2 =>
      if negb (tag =? 18) then Break else
      Continue (fld pb_string (fun v => message <| password := v |>) reader)
  | _ => Break
  end.
Definition decode `{ProtobufRuntime} : Z -> bytes -> outcome (t * bytes) :=
  decode_with field createBase.
Definition codec `{ProtobufRuntime} : scalar t := embedded encode decode.
(** The values the wire format can carry. *)
Definition ok `{ProtobufRuntime} (message : t) : Prop :=
  short_string message.(username) /\
  short_string message.(password).
Definition wire_ok `{ProtobufRuntime} (message : t) : Prop :=
  ok message /\ short_bytes (encode message).
End ElevationRequestWithLogon.

Lemma ElevationRequestWithLogon_shrinks `{ProtobufLaws} : field_shrinks ElevationRequestWithLogon.field.
Proof. solve_shrinks ElevationRequestWithLogon.field. Qed.
Lemma ElevationRequestWithLogon_roundtrip `{ProtobufLaws} m r :
  ElevationRequestWithLogon.ok m -> ElevationRequestWithLogon.decode (len r) (ElevationRequestWithLogon.encode m ++ r) = Ret (m, r).
Proof.
  start_roundtrip ElevationRequestWithLogon.ok ElevationRequestWithLogon.createBase ElevationRequestWithLogon.encode ElevationRequestWithLogon.decode.
  step_scalar ElevationRequestWithLogon_shrinks (fun v m => m <| ElevationRequestWithLogon.username := v |>).
  step_scalar ElevationRequestWithLogon_shrinks (fun v m => m <| ElevationRequestWithLogon.password := v |>).
  finish_roundtrip m.
Qed.
Lemma ElevationRequestWithLogon_codec_ok `{ProtobufLaws} : scalar_ok ElevationRequestWithLogon.codec ElevationRequestWithLogon.wire_ok.
Proof. apply embedded_ok; [apply decode_with_shrinks, ElevationRequestWithLogon_shrinks|apply ElevationRequestWithLogon_roundtrip]. Qed.
#[export] Hint Resolve ElevationRequestWithLogon_codec_ok : scalar_ok.

(** ** [ElevationRequest] (message.ts, lines 1655-1658 and 9908-9951) *)
Module ElevationRequest.
Record t := mk {
  direct : maybe bool;
  logon : maybe ElevationRequestWithLogon.t;
}.
Definition createBase : t := {|
  direct := None;
  logon := None |}.
Definition encode `{ProtobufRuntime} (message : t) : bytes :=
  if_set message.(direct) (fun v => tagged 8 (wr pb_bool v)) ++
  if_set message.(logon) (fun v => tagged 18 (wr ElevationRequestWithLogon.codec v)).
Definition field `{ProtobufRuntime} (tag : Z) (reader : bytes) (message : t) : field_step t :=
  match Z.shiftr tag 3 with
  | 1 =>
      if negb (tag =? 8) then Break else
      Continue (fld pb_bool (fun v => message <| direct := Some v |>) reader)
  | 2 =>
      if negb (tag =? 18) then Break else
      Continue (fld ElevationRequestWithLogon.codec (fun v => message <| logon := Some v |>) reader)
  | _ => Break
  end.
Definition decode `{ProtobufRuntime} : Z -> bytes -> outcome (t * bytes) :=
  decode_with field createBase.
Definition codec `{ProtobufRuntime} : scalar t := embedded encode decode.
(** The values the wire format can carry. *)
Definition ok `{ProtobufRuntime} (message : t) : Prop :=
  from_option ElevationRequestWithLogon.wire_ok True message.(logon).
Definition wire_ok `{ProtobufRuntime} (message : t) : Prop :=
  ok message /\ short_bytes (encode message).
End ElevationRequest.

Lemma ElevationRequest_shrinks `{ProtobufLaws} : field_shrinks ElevationRequest.field.
Proof. solve_shrinks ElevationRequest.field. Qed.
Lemma ElevationRequest_roundtrip `{ProtobufLaws} m r :
  ElevationRequest.ok m -> ElevationRequest.decode (len r) (ElevationRequest.encode m ++ r) = Ret (m, r).
Proof.
  start_roundtrip ElevationRequest.ok ElevationRequest.createBase ElevationRequest.encode ElevationRequest.decode.
  step_opt ElevationRequest_shrinks (fun v m => m <| ElevationRequest.direct := v |>).
  step_opt ElevationRequest_shrinks (fun v m => m <| ElevationRequest.logon := v |>).
  finish_roundtrip m.
Qed.
Lemma ElevationRequest_codec_ok `{ProtobufLaws} : scalar_ok ElevationRequest.codec ElevationRequest.wire_ok.
Proof. apply embedded_ok; [apply decode_with_shrinks, ElevationRequest_shrinks|apply ElevationRequest_roundtrip]. Qed.
#[export] Hint Resolve ElevationRequest_codec_ok : scalar_ok.

(** ** [SwitchSidesRequest] (message.ts, lines 1660-1662 and 9984-10017) *)
Module SwitchSidesRequest.
Record t := mk {
  uuid : bytes;
}.
Definition createBase : t := {|
  uuid := [] |}.
Definition encode `{ProtobufRuntime} (message : t) : bytes :=
  unless (len message.(uuid) =? 0) (tagged 10 (wr pb_bytes message.(uuid))).
Definition field `{ProtobufRuntime} (tag : Z) (reader : bytes) (message : t) : field_step t :=
  match Z.shiftr tag 3 with
  | 1 =>
      if negb (tag =? 10) then Break else
      Continue (fld pb_bytes (fun v => message <| uuid := v |>) reader)
  | _ => Break
  end.
Definition decode `{ProtobufRuntime} : Z -> bytes -> outcome (t * bytes) :=
  decode_with field createBase.
Definition codec `{ProtobufRuntime} : scalar t := embedded encode decode.
(** The values the wire format can carry. *)
Definition ok `{ProtobufRuntime} (message : t) : Prop :=
  short_bytes message.(uuid).
Definition wire_ok `{ProtobufRuntime} (message : t) : Prop :=
  ok message /\ short_bytes (encode message).
End SwitchSidesRequest.

Lemma SwitchSidesRequest_shrinks `{ProtobufLaws} : field_shrinks SwitchSidesRequest.field.
Proof. solve_shrinks SwitchSidesRequest.field. Qed.
Lemma SwitchSidesRequest_roundtrip `{ProtobufLaws} m r :
  SwitchSidesRequest.ok m -> SwitchSidesRequest.decode (len r) (SwitchSidesRequest.encode m ++ r) = Ret (m, r).
Proof.
  start_roundtrip SwitchSidesRequest.ok SwitchSidesRequest.createBase SwitchSidesRequest.encode SwitchSidesRequest.decode.
  step_scalar SwitchSidesRequest_shrinks (fun v m => m <| SwitchSidesRequest.uuid := v |>).
  finish_roundtrip m.
Qed.
Lemma SwitchSidesRequest_codec_ok `{ProtobufLaws} : scalar_ok SwitchSidesRequest.codec SwitchSidesRequest.wire_ok.
Proof. apply embedded_ok; [apply decode_with_shrinks, SwitchSidesRequest_shrinks|apply SwitchSidesRequest_roundtrip]. Qed.
#[export] Hint Resolve SwitchSidesRequest_codec_ok : scalar_ok.

(** ** [SwitchSidesResponse] (message.ts, lines 1664-1667 and 10041-10084) *)
Module SwitchSidesResponse.
Record t := mk {
  uuid : bytes;
  lr : maybe LoginRequest.t;
}.
Definition createBase : t := {|
  uuid := [];
  lr := None |}.
Definition encode `{ProtobufRuntime} (message : t) : bytes :=
  unless (len message.(uuid) =? 0) (tagged 10 (wr pb_bytes message.(uuid))) ++
  if_set message.(lr) (fun v => tagged 18 (wr LoginRequest.codec v)).
Definition field `{ProtobufRuntime} (tag : Z) (reader : bytes) (message : t) : field_step t :=
  match Z.shiftr tag 3 with
  | 1 =>
      if negb (tag =? 10) then Break else
      Continue (fld pb_bytes (fun v => message <| uuid := v |>) reader)
  | 2 =>
      if negb (tag =? 18) then Break else
      Continue (fld LoginRequest.codec (fun v => message <| lr := Some v |>) reader)
  | _ => Break
  end.
Definition decode `{ProtobufRuntime} : Z -> bytes -> outcome (t * bytes) :=
  decode_with field createBase.
Definition codec `{ProtobufRuntime} : scalar t := embedded encode decode.
(** The values the wire format can carry. *)
Definition ok `{ProtobufRuntime} (message : t) : Prop :=
  short_bytes message.(uuid) /\
  from_option LoginRequest.wire_ok True message.(lr).
Definition wire_ok `{ProtobufRuntime} (message : t) : Prop :=
  ok message /\ short_bytes (encode message).
End SwitchSidesResponse.

Lemma SwitchSidesResponse_shrinks `{ProtobufLaws} : field_shrinks SwitchSidesResponse.field.
Proof. solve_shrinks SwitchSidesResponse.field. Qed.
Lemma SwitchSidesResponse_roundtrip `{ProtobufLaws} m r :
  SwitchSidesResponse.ok m -> SwitchSidesResponse.decode (len r) (SwitchSidesResponse.encode m ++ r) = Ret (m, r).
Proof.
  start_roundtrip SwitchSidesResponse.ok SwitchSidesResponse.createBase SwitchSidesResponse.encode SwitchSidesResponse.decode.
  step_scalar SwitchSidesResponse_shrinks (fun v m => m <| SwitchSidesResponse.uuid := v |>).
  step_opt SwitchSidesResponse_shrinks (fun v m => m <| SwitchSidesResponse.lr := v |>).
  finish_roundtrip m.
Qed.
Lemma SwitchSidesResponse_codec_ok `{ProtobufLaws} : scalar_ok SwitchSidesResponse.codec SwitchSidesResponse.wire_ok.
Proof. apply embedded_ok; [apply decode_with_shrinks, SwitchSidesResponse_shrinks|apply SwitchSidesResponse_roundtrip]. Qed.
#[export] Hint Resolve SwitchSidesResponse_codec_ok : scalar_ok.

(** ** [SwitchBack] (message.ts, lines 1669-1670 and 10115-10138) *)
Module SwitchBack.
Record t := mk { }.
Definition createBase : t := mk.
Definition encode `{ProtobufRuntime} (message : t) : bytes := [].
Definition field `{ProtobufRuntime} (tag : Z) (reader : bytes) (message : t) : field_step t := Break.
Definition decode `{ProtobufRuntime} : Z -> bytes -> outcome (t * bytes) :=
  decode_with field createBase.
Definition codec `{ProtobufRuntime} : scalar t := embedded encode decode.
(** The values the wire format can carry. *)
Definition ok `{ProtobufRuntime} (message : t) : Prop :=
  True.
Definition wire_ok `{ProtobufRuntime} (message : t) : Prop :=
  ok message /\ short_bytes (encode message).
End SwitchBack.

Lemma SwitchBack_shrinks `{ProtobufLaws} : field_shrinks SwitchBack.field.
Proof. solve_shrinks SwitchBack.field. Qed.
Lemma SwitchBack_roundtrip `{ProtobufLaws} m r :
  SwitchBack.ok m -> SwitchBack.decode (len r) (SwitchBack.encode m ++ r) = Ret (m, r).
Proof.
  start_roundtrip SwitchBack.ok SwitchBack.createBase SwitchBack.encode SwitchBack.decode.
  finish_roundtrip m.
Qed.
Lemma SwitchBack_codec_ok `{ProtobufLaws} : scalar_ok SwitchBack.codec SwitchBack.wire_ok.
Proof. apply embedded_ok; [apply decode_with_shrinks, SwitchBack_shrinks|apply SwitchBack_roundtrip]. Qed.
#[export] Hint Resolve SwitchBack_codec_ok : scalar_ok.

(** ** [PluginRequest] (message.ts, lines 1672-1675 and 10158-10201) *)
Module PluginRequest.
Record t := mk {
  id : string;
  content : bytes;
}.
Definition createBase : t := {|
  id := "";
  content := [] |}.
Definition encode `{ProtobufRuntime} (message : t) : bytes :=
  unless (message.(id) =? "")%string (tagged 10 (wr pb_string message.(id))) ++
  unless (len message.(content) =? 0) (tagged 18 (wr pb_bytes message.(content))).
Definition field `{ProtobufRuntime} (tag : Z) (reader : bytes) (message : t) : field_step t :=
  match Z.shiftr tag 3 with
  | 1 =>
      if negb (tag =? 10) then Break else
      Continue (fld pb_string (fun v => message <| id := v |>) reader)
  | 2 =>
      if negb (tag =? 18) then Break else
      Continue (fld pb_bytes (fun v => message <| content := v |>) reader)
  | _ => Break
  end.
Definition decode `{ProtobufRuntime} : Z -> bytes -> outcome (t * bytes) :=
  decode_with field createBase.
Definition codec `{ProtobufRuntime} : scalar t := embedded encode decode.
(** The values the wire format can carry. *)
Definition ok `{ProtobufRuntime} (message : t) : Prop :=
  short_string message.(id) /\
  short_bytes message.(content).
Definition wire_ok `{ProtobufRuntime} (message : t) : Prop :=
  ok message /\ short_bytes (encode message).
End PluginRequest.

Lemma PluginRequest_shrinks `{ProtobufLaws} : field_shrinks PluginRequest.field.
Proof. solve_shrinks PluginRequest.field. Qed.
Lemma PluginRequest_roundtrip `{ProtobufLaws} m r :
  PluginRequest.ok m -> PluginRequest.decode (len r) (PluginRequest.encode m ++ r) = Ret (m, r).
Proof.
  start_roundtrip PluginRequest.ok PluginRequest.createBase PluginRequest.encode PluginRequest.decode.
  step_scalar PluginRequest_shrinks (fun v m => m <| PluginRequest.id := v |>).
  step_scalar PluginRequest_shrinks (fun v m => m <| PluginRequest.content := v |>).
  finish_roundtrip m.
Qed.
Lemma PluginRequest_codec_ok `{ProtobufLaws} : scalar_ok PluginRequest.codec PluginRequest.wire_ok.
Proof. apply embedded_ok; [apply decode_with_shrinks, PluginRequest_shrinks|apply PluginRequest_roundtrip]. Qed.
#[export] Hint Resolve PluginRequest_codec_ok : scalar_ok.

(** ** [PluginFailure] (message.ts, lines 1677-1681 and 10232-10285) *)
Module PluginFailure.
Record t := mk {
  id : string;
  name : string;
  msg : string;
}.
Definition createBase : t := {|
  id := "";
  name := "";
  msg := "" |}.
Definition encode `{ProtobufRuntime} (message : t) : bytes :=
  unless (message.(id) =? "")%string (tagged 10 (wr pb_string message.(id))) ++
  unless (message.(name) =? "")%string (tagged 18 (wr pb_string message.(name))) ++
  unless (message.(msg) =? "")%string (tagged 26 (wr pb_string message.(msg))).
Definition field `{ProtobufRuntime} (tag : Z) (reader : bytes) (message : t) : field_step t :=
  match Z.shiftr tag 3 with
  | 1 =>
      if negb (tag =? 10) then Break else
      Continue (fld pb_string (fun v => message <| id := v |>) reader)
  | 2 =>
      if negb (tag =? 18) then Break else
      Continue (fld pb_string (fun v => message <| name := v |>) reader)
  | 3 =>
      if negb (tag =? 26) then Break else
      Continue (fld pb_string (fun v => message <| msg := v |>) reader)
  | _ => Break
  end.
Definition decode `{ProtobufRuntime} : Z -> bytes -> outcome (t * bytes) :=
  decode_with field createBase.
Definition codec `{ProtobufRuntime} : scalar t := embedded encode decode.
(** The values the wire format can carry. *)
Definition ok `{ProtobufRuntime} (message : t) : Prop :=
  short_string message.(id) /\
  short_string message.(name) /\
  short_string message.(msg).
Definition wire_ok `{ProtobufRuntime} (message : t) : Prop :=
  ok message /\ short_bytes (encode message).
End PluginFailure.

Lemma PluginFailure_shrinks `{ProtobufLaws} : field_shrinks PluginFailure.field.
Proof. solve_shrinks PluginFailure.field. Qed.
Lemma PluginFailure_roundtrip `{ProtobufLaws} m r :
  PluginFailure.ok m -> PluginFailure.decode (len r) (PluginFailure.encode m ++ r) = Ret (m, r).
Proof.
  start_roundtrip PluginFailure.ok PluginFailure.createBase PluginFailure.encode PluginFailure.decode.
  step_scalar PluginFailure_shrinks (fun v m => m <| PluginFailure.id := v |>).
  step_scalar PluginFailure_shrinks (fun v m => m <| PluginFailure.name := v |>).
  step_scalar PluginFailure_shrinks (fun v m => m <| PluginFailure.msg := v |>).
  finish_roundtrip m.
Qed.
Lemma PluginFailure_codec_ok `{ProtobufLaws} : scalar_ok PluginFailure.codec PluginFailure.wire_ok.
Proof. apply embedded_ok; [apply decode_with_shrinks, PluginFailure_shrinks|apply PluginFailure_roundtrip]. Qed.
#[export] Hint Resolve PluginFailure_codec_ok : scalar_ok.

(** ** [MessageQuery] (message.ts, lines 1689-1695 and 10397-10430) *)
Module MessageQuery.
Record t := mk {
  switch_display : Z;
}.
Definition createBase : t := {|
  switch_display := 0 |}.
Definition encode `{ProtobufRuntime} (message : t) : bytes :=
  unless (message.(switch_display) =? 0) (tagged 8 (wr pb_int32 message.(switch_display))).
Definition field `{ProtobufRuntime} (tag : Z) (reader : bytes) (message : t) : field_step t :=
  match Z.shiftr tag 3 with
  | 1 =>
      if negb (tag =? 8) then Break else
      Continue (fld pb_int32 (fun v => message <| switch_display := v |>) reader)
  | _ => Break
  end.
Definition decode `{ProtobufRuntime} : Z -> bytes -> outcome (t * bytes) :=
  decode_with field createBase.
Definition codec `{ProtobufRuntime} : scalar t := embedded encode decode.
(** The values the wire format can carry. *)
Definition ok `{ProtobufRuntime} (message : t) : Prop :=
  in_int32 message.(switch_display).
Definition wire_ok `{ProtobufRuntime} (message : t) : Prop :=
  ok message /\ short_bytes (encode message).
End MessageQuery.

Lemma MessageQuery_shrinks `{ProtobufLaws} : field_shrinks MessageQuery.field.
Proof. solve_shrinks MessageQuery.field. Qed.
Lemma MessageQuery_roundtrip `{ProtobufLaws} m r :
  MessageQuery.ok m -> MessageQuery.decode (len r) (MessageQuery.encode m ++ r) = Ret (m, r).
Proof.
  start_roundtrip MessageQuery.ok MessageQuery.createBase MessageQuery.encode MessageQuery.decode.
  step_scalar MessageQuery_shrinks (fun v m => m <| MessageQuery.switch_display := v |>).
  finish_roundtrip m.
Qed.
Lemma MessageQuery_codec_ok `{ProtobufLaws} : scalar_ok MessageQuery.codec MessageQuery.wire_ok.
Proof. apply embedded_ok; [apply decode_with_shrinks, MessageQuery_shrinks|apply MessageQuery_roundtrip]. Qed.
#[export] Hint Resolve MessageQuery_codec_ok : scalar_ok.

(** ** [Misc] (message.ts, lines 1697-1740 and 10454-10841) *)
Module Misc.
Record t := mk {
  chat_message : maybe ChatMessage.t;
  switch_display : maybe SwitchDisplay.t;
  permission_info : maybe PermissionInfo.t;
  option : maybe OptionMessage.t;
  audio_format : maybe AudioFormat.t;
  close_reason : maybe string;
  refresh_video : maybe bool;
  video_received : maybe bool;
  back_notification : maybe BackNotification.t;
  restart_remote_device : maybe bool;
  uac : maybe bool;
  foreground_window_elevated : maybe bool;
  stop_service : maybe bool;
  elevation_request : maybe ElevationRequest.t;
  elevation_response : maybe string;
  portable_service_running : maybe bool;
  switch_sides_request : maybe SwitchSidesRequest.t;
  switch_back : maybe SwitchBack.t;
  change_resolution : maybe Resolution.t;
  plugin_request : maybe PluginRequest.t;
  plugin_failure : maybe PluginFailure.t;
  full_speed_fps : maybe Z;
  auto_adjust_fps : maybe Z;
  client_record_status : maybe bool;
  capture_displays : maybe CaptureDisplays.t;
  refresh_video_display : maybe Z;
  toggle_virtual_display : maybe ToggleVirtualDisplay.t;
  toggle_privacy_mode : maybe TogglePrivacyMode.t;
  supported_encoding : maybe SupportedEncoding.t;
  selected_sid : maybe Z;
  change_display_resolution : maybe DisplayResolution.t;
  message_query : maybe MessageQuery.t;
  follow_current_display : maybe Z;
}.
Definition createBase : t := {|
  chat_message := None;
  switch_display := None;
  permission_info := None;
  option := None;
  audio_format := None;
  close_reason := None;
  refresh_video := None;
  video_received := None;
  back_notification := None;
  restart_remote_device := None;
  uac := None;
  foreground_window_elevated := None;
  stop_service := None;
  elevation_request := None;
  elevation_response := None;
  portable_service_running := None;
  switch_sides_request := None;
  switch_back := None;
  change_resolution := None;
  plugin_request := None;
  plugin_failure := None;
  full_speed_fps := None;
  auto_adjust_fps := None;
  client_record_status := None;
  capture_displays := None;
  refresh_video_display := None;
  toggle_virtual_display := None;
  toggle_privacy_mode := None;
  supported_encoding := None;
  selected_sid := None;
  change_display_resolution := None;
  message_query := None;
  follow_current_display := None |}.
Definition encode `{ProtobufRuntime} (message : t) : bytes :=
  if_set message.(chat_message) (fun v => tagged 34 (wr ChatMessage.codec v)) ++
  if_set message.(switch_display) (fun v => tagged 42 (wr SwitchDisplay.codec v)) ++
  if_set message.(permission_info) (fun v => tagged 50 (wr PermissionInfo.codec v)) ++
  if_set message.(option) (fun v => tagged 58 (wr OptionMessage.codec v)) ++
  if_set message.(audio_format) (fun v => tagged 66 (wr AudioFormat.codec v)) ++
  if_set message.(close_reason) (fun v => tagged 74 (wr pb_string v)) ++
  if_set message.(refresh_video) (fun v => tagged 80 (wr pb_bool v)) ++
  if_set message.(video_received) (fun v => tagged 96 (wr pb_bool v)) ++
  if_set message.(back_notification) (fun v => tagged 106 (wr BackNotification.codec v)) ++
  if_set message.(restart_remote_device) (fun v => tagged 112 (wr pb_bool v)) ++
  if_set message.(uac) (fun v => tagged 120 (wr pb_bool v)) ++
  if_set message.(foreground_window_elevated) (fun v => tagged 128 (wr pb_bool v)) ++
  if_set message.(stop_service) (fun v => tagged 136 (wr pb_bool v)) ++
  if_set message.(elevation_request) (fun v => tagged 146 (wr ElevationRequest.codec v)) ++
  if_set message.(elevation_response) (fun v => tagged 154 (wr pb_string v)) ++
  if_set message.(portable_service_running) (fun v => tagged 160 (wr pb_bool v)) ++
  if_set message.(switch_sides_request) (fun v => tagged 170 (wr SwitchSidesRequest.codec v)) ++
  if_set message.(switch_back) (fun v => tagged 178 (wr SwitchBack.codec v)) ++
  if_set message.(change_resolution) (fun v => tagged 194 (wr Resolution.codec v)) ++
  if_set message.(plugin_request) (fun v => tagged 202 (wr PluginRequest.codec v)) ++
  if_set message.(plugin_failure) (fun v => tagged 210 (wr PluginFailure.codec v)) ++
  if_set message.(full_speed_fps) (fun v => tagged 216 (wr pb_uint32 v)) ++
  if_set message.(auto_adjust_fps) (fun v => tagged 224 (wr pb_uint32 v)) ++
  if_set message.(client_record_status) (fun v => tagged 232 (wr pb_bool v)) ++
  if_set message.(capture_displays) (fun v => tagged 242 (wr CaptureDisplays.codec v)) ++
  if_set message.(refresh_video_display) (fun v => tagged 248 (wr pb_int32 v)) ++
  if_set message.(toggle_virtual_display) (fun v => tagged 258 (wr ToggleVirtualDisplay.codec v)) ++
  if_set message.(toggle_privacy_mode) (fun v => tagged 266 (wr TogglePrivacyMode.codec v)) ++
  if_set message.(supported_encoding) (fun v => tagged 274 (wr SupportedEncoding.codec v)) ++
  if_set message.(selected_sid) (fun v => tagged 280 (wr pb_uint32 v)) ++
  if_set message.(change_display_resolution) (fun v => tagged 290 (wr DisplayResolution.codec v)) ++
  if_set message.(message_query) (fun v => tagged 298 (wr MessageQuery.codec v)) ++
  if_set message.(follow_current_display) (fun v => tagged 304 (wr pb_int32 v)).
Definition field `{ProtobufRuntime} (tag : Z) (reader : bytes) (message : t) : field_step t :=
  match Z.shiftr tag 3 with
  | 4 =>
      if negb (tag =? 34) then Break else
      Continue (fld ChatMessage.codec (fun v => message <| chat_message := Some v |>) reader)
  | 5 =>
      if negb (tag =? 42) then Break else
      Continue (fld SwitchDisplay.codec (fun v => message <| switch_display := Some v |>) reader)
  | 6 =>
      if negb (tag =? 50) then Break else
      Continue (fld PermissionInfo.codec (fun v => message <| permission_info := Some v |>) reader)
  | 7 =>
      if negb (tag =? 58) then Break else
      Continue (fld OptionMessage.codec (fun v => message <| option := Some v |>) reader)
  | 8 =>
      if negb (tag =? 66) then Break else
      Continue (fld AudioFormat.codec (fun v => message <| audio_format := Some v |>) reader)
  | 9 =>
      if negb (tag =? 74) then Break else
      Continue (fld pb_string (fun v => message <| close_reason := Some v |>) reader)
  | 10 =>
      if negb (tag =? 80) then Break else
      Continue (fld pb_bool (fun v => message <| refresh_video := Some v |>) reader)
  | 12 =>
      if negb (tag =? 96) then Break else
      Continue (fld pb_bool (fun v => message <| video_received := Some v |>) reader)
  | 13 =>
      if negb (tag =? 106) then Break else
      Continue (fld BackNotification.codec (fun v => message <| back_notification := Some v |>) reader)
  | 14 =>
      if negb (tag =? 112) then Break else
      Continue (fld pb_bool (fun v => message <| restart_remote_device := Some v |>) reader)
  | 15 =>
      if negb (tag =? 120) then Break else
      Continue (fld pb_bool (fun v => message <| uac := Some v |>) reader)
  | 16 =>
      if negb (tag =? 128) then Break else
      Continue (fld pb_bool (fun v => message <| foreground_window_elevated := Some v |>) reader)
  | 17 =>
      if negb (tag =? 136) then Break else
      Continue (fld pb_bool (fun v => message <| stop_service := Some v |>) reader)
  | 18 =>
      if negb (tag =? 146) then Break else
      Continue (fld ElevationRequest.codec (fun v => message <| elevation_request := Some v |>) reader)
  | 19 =>
      if negb (tag =? 154) then Break else
      Continue (fld pb_string (fun v => message <| elevation_response := Some v |>) reader)
  | 20 =>
      if negb (tag =? 160) then Break else
      Continue (fld pb_bool (fun v => message <| portable_service_running := Some v |>) reader)
  | 21 =>
      if negb (tag =? 170) then Break else
      Continue (fld SwitchSidesRequest.codec (fun v => message <| switch_sides_request := Some v |>) reader)
  | 22 =>
      if negb (tag =? 178) then Break else
      Continue (fld SwitchBack.codec (fun v => message <| switch_back := Some v |>) reader)
  | 24 =>
      if negb (tag =? 194) then Break else
      Continue (fld Resolution.codec (fun v => message <| change_resolution := Some v |>) reader)
  | 25 =>
      if negb (tag =? 202) then Break else
      Continue (fld PluginRequest.codec (fun v => message <| plugin_request := Some v |>) reader)
  | 26 =>
      if negb (tag =? 210) then Break else
      Continue (fld PluginFailure.codec (fun v => message <| plugin_failure := Some v |>) reader)
  | 27 =>
      if negb (tag =? 216) then Break else
      Continue (fld pb_uint32 (fun v => message <| full_speed_fps := Some v |>) reader)
  | 28 =>
      if negb (tag =? 224) then Break else
      Continue (fld pb_uint32 (fun v => message <| auto_adjust_fps := Some v |>) reader)
  | 29 =>
      if negb (tag =? 232) then Break else
      Continue (fld pb_bool (fun v => message <| client_record_status := Some v |>) reader)
  | 30 =>
      if negb (tag =? 242) then Break else
      Continue (fld CaptureDisplays.codec (fun v => message <| capture_displays := Some v |>) reader)
  | 31 =>
      if negb (tag =? 248) then Break else
      Continue (fld pb_int32 (fun v => message <| refresh_video_display := Some v |>) reader)
  | 32 =>
      if negb (tag =? 258) then Break else
      Continue (fld ToggleVirtualDisplay.codec (fun v => message <| toggle_virtual_display := Some v |>) reader)
  | 33 =>
      if negb (tag =? 266) then Break else
      Continue (fld TogglePrivacyMode.codec (fun v => message <| toggle_privacy_mode := Some v |>) reader)
  | 34 =>
      if negb (tag =? 274) then Break else
      Continue (fld SupportedEncoding.codec (fun v => message <| supported_encoding := Some v |>) reader)
  | 35 =>
      if negb (tag =? 280) then Break else
      Continue (fld pb_uint32 (fun v => message <| selected_sid := Some v |>) reader)
  | 36 =>
      if negb (tag =? 290) then Break else
      Continue (fld DisplayResolution.codec (fun v => message <| change_display_resolution := Some v |>) reader)
  | 37 =>
      if negb (tag =? 298) then Break else
      Continue (fld MessageQuery.codec (fun v => message <| message_query := Some v |>) reader)
  | 38 =>
      if negb (tag =? 304) then Break else
      Continue (fld pb_int32 (fun v => message <| follow_current_display := Some v |>) reader)
  | _ => Break
  end.
Definition decode `{ProtobufRuntime} : Z -> bytes -> outcome (t * bytes) :=
  decode_with field createBase.
Definition codec `{ProtobufRuntime} : scalar t := embedded encode decode.
(** The values the wire format can carry. *)
Definition ok `{ProtobufRuntime} (message : t) : Prop :=
  from_option ChatMessage.wire_ok True message.(chat_message) /\
  from_option SwitchDisplay.wire_ok True message.(switch_display) /\
  from_option PermissionInfo.wire_ok True message.(permission_info) /\
  from_option OptionMessage.wire_ok True message.(option) /\
  from_option AudioFormat.wire_ok True message.(audio_format) /\
  from_option short_string True message.(close_reason) /\
  from_option BackNotification.wire_ok True message.(back_notification) /\
  from_option ElevationRequest.wire_ok True message.(elevation_request) /\
  from_option short_string True message.(elevation_response) /\
  from_option SwitchSidesRequest.wire_ok True message.(switch_sides_request) /\
  from_option SwitchBack.wire_ok True message.(switch_back) /\
  from_option Resolution.wire_ok True message.(change_resolution) /\
  from_option PluginRequest.wire_ok True message.(plugin_request) /\
  from_option PluginFailure.wire_ok True message.(plugin_failure) /\
  from_option in_uint32 True message.(full_speed_fps) /\
  from_option in_uint32 True message.(auto_adjust_fps) /\
  from_option CaptureDisplays.wire_ok True message.(capture_displays) /\
  from_option in_int32 True message.(refresh_video_display) /\
  from_option ToggleVirtualDisplay.wire_ok True message.(toggle_virtual_display) /\
  from_option TogglePrivacyMode.wire_ok True message.(toggle_privacy_mode) /\
  from_option SupportedEncoding.wire_ok True message.(supported_encoding) /\
  from_option in_uint32 True message.(selected_sid) /\
  from_option DisplayResolution.wire_ok True message.(change_display_resolution) /\
  from_option MessageQuery.wire_ok True message.(message_query) /\
  from_option in_int32 True message.(follow_current_display).
Definition wire_ok `{ProtobufRuntime} (message : t) : Prop :=
  ok message /\ short_bytes (encode message).
End Misc.

Lemma Misc_shrinks `{ProtobufLaws} : field_shrinks Misc.field.
Proof. solve_shrinks Misc.field. Qed.
Lemma Misc_roundtrip `{ProtobufLaws} m r :
  Misc.ok m -> Misc.decode (len r) (Misc.encode m ++ r) = Ret (m, r).
Proof.
  start_roundtrip Misc.ok Misc.createBase Misc.encode Misc.decode.
  step_opt Misc_shrinks (fun v m => m <| Misc.chat_message := v |>).
  step_opt Misc_shrinks (fun v m => m <| Misc.switch_display := v |>).
  step_opt Misc_shrinks (fun v m => m <| Misc.permission_info := v |>).
  step_opt Misc_shrinks (fun v m => m <| Misc.option := v |>).
  step_opt Misc_shrinks (fun v m => m <| Misc.audio_format := v |>).
  step_opt Misc_shrinks (fun v m => m <| Misc.close_reason := v |>).
  step_opt Misc_shrinks (fun v m => m <| Misc.refresh_video := v |>).
  step_opt Misc_shrinks (fun v m => m <| Misc.video_received := v |>).
  step_opt Misc_shrinks (fun v m => m <| Misc.back_notification := v |>).
  step_opt Misc_shrinks (fun v m => m <| Misc.restart_remote_device := v |>).
  step_opt Misc_shrinks (fun v m => m <| Misc.uac := v |>).
  step_opt Misc_shrinks (fun v m => m <| Misc.foreground_window_elevated := v |>).
  step_opt Misc_shrinks (fun v m => m <| Misc.stop_service := v |>).
  step_opt Misc_shrinks (fun v m => m <| Misc.elevation_request := v |>).
  step_opt Misc_shrinks (fun v m => m <| Misc.elevation_response := v |>).
  step_opt Misc_shrinks (fun v m => m <| Misc.portable_service_running := v |>).
  step_opt Misc_shrinks (fun v m => m <| Misc.switch_sides_request := v |>).
  step_opt Misc_shrinks (fun v m => m <| Misc.switch_back := v |>).
  step_opt Misc_shrinks (fun v m => m <| Misc.change_resolution := v |>).
  step_opt Misc_shrinks (fun v m => m <| Misc.plugin_request := v |>).
  step_opt Misc_shrinks (fun v m => m <| Misc.plugin_failure := v |>).
  step_opt Misc_shrinks (fun v m => m <| Misc.full_speed_fps := v |>).
  step_opt Misc_shrinks (fun v m => m <| Misc.auto_adjust_fps := v |>).
  step_opt Misc_shrinks (fun v m => m <| Misc.client_record_status := v |>).
  step_opt Misc_shrinks (fun v m => m <| Misc.capture_displays := v |>).
  step_opt Misc_shrinks (fun v m => m <| Misc.refresh_video_display := v |>).
  step_opt Misc_shrinks (fun v m => m <| Misc.toggle_virtual_display := v |>).
  step_opt Misc_shrinks (fun v m => m <| Misc.toggle_privacy_mode := v |>).
  step_opt Misc_shrinks (fun v m => m <| Misc.supported_encoding := v |>).
  step_opt Misc_shrinks (fun v m => m <| Misc.selected_sid := v |>).
  step_opt Misc_shrinks (fun v m => m <| Misc.change_display_resolution := v |>).
  step_opt Misc_shrinks (fun v m => m <| Misc.message_query := v |>).
  step_opt Misc_shrinks (fun v m => m <| Misc.follow_current_display := v |>).
  finish_roundtrip m.
Qed.
Lemma Misc_codec_ok `{ProtobufLaws} : scalar_ok Misc.codec Misc.wire_ok.
Proof. apply embedded_ok; [apply decode_with_shrinks, Misc_shrinks|apply Misc_roundtrip]. Qed.
#[export] Hint Resolve Misc_codec_ok : scalar_ok.

(** ** [VoiceCallRequest] (message.ts, lines 1742-1746 and 11091-11134) *)
Module VoiceCallRequest.
Record t := mk {
  req_timestamp : Z;
  is_connect : bool;
}.
Definition createBase : t := {|
  req_timestamp := 0;
  is_connect := false |}.
Definition encode `{ProtobufRuntime} (message : t) : bytes :=
  unless (message.(req_timestamp) =? 0) (tagged 8 (wr int64_number message.(req_timestamp))) ++
  unless (negb message.(is_connect)) (tagged 16 (wr pb_bool message.(is_connect))).
Definition field `{ProtobufRuntime} (tag : Z) (reader : bytes) (message : t) : field_step t :=
  match Z.shiftr tag 3 with
  | 1 =>
      if negb (tag =? 8) then Break else
      Continue (fld int64_number (fun v => message <| req_timestamp := v |>) reader)
  | 2 =>
      if negb (tag =? 16) then Break else
      Continue (fld pb_bool (fun v => message <| is_connect := v |>) reader)
  | _ => Break
  end.
Definition decode `{ProtobufRuntime} : Z -> bytes -> outcome (t * bytes) :=
  decode_with field createBase.
Definition codec `{ProtobufRuntime} : scalar t := embedded encode decode.
(** The values the wire format can carry. *)
Definition ok `{ProtobufRuntime} (message : t) : Prop :=
  safe_int message.(req_timestamp).
Definition wire_ok `{ProtobufRuntime} (message : t) : Prop :=
  ok message /\ short_bytes (encode message).
End VoiceCallRequest.

Lemma VoiceCallRequest_shrinks `{ProtobufLaws} : field_shrinks VoiceCallRequest.field.
Proof. solve_shrinks VoiceCallRequest.field. Qed.
Lemma VoiceCallRequest_roundtrip `{ProtobufLaws} m r :
  VoiceCallRequest.ok m -> VoiceCallRequest.decode (len r) (VoiceCallRequest.encode m ++ r) = Ret (m, r).
Proof.
  start_roundtrip VoiceCallRequest.ok VoiceCallRequest.createBase VoiceCallRequest.encode VoiceCallRequest.decode.
  step_scalar VoiceCallRequest_shrinks (fun v m => m <| VoiceCallRequest.req_timestamp := v |>).
  step_scalar VoiceCallRequest_shrinks (fun v m => m <| VoiceCallRequest.is_connect := v |>).
  finish_roundtrip m.
Qed.
Lemma VoiceCallRequest_codec_ok `{ProtobufLaws} : scalar_ok VoiceCallRequest.codec VoiceCallRequest.wire_ok.
Proof. apply embedded_ok; [apply decode_with_shrinks, VoiceCallRequest_shrinks|apply VoiceCallRequest_roundtrip]. Qed.
#[export] Hint Resolve VoiceCallRequest_codec_ok : scalar_ok.

(** ** [VoiceCallResponse] (message.ts, lines 1748-1753 and 11165-11218) *)
Module VoiceCallResponse.
Record t := mk {
  accepted : bool;
  req_timestamp : Z;
  ack_timestamp : Z;
}.
Definition createBase : t := {|
  accepted := false;
  req_timestamp := 0;
  ack_timestamp := 0 |}.
Definition encode `{ProtobufRuntime} (message : t) : bytes :=
  unless (negb message.(accepted)) (tagged 8 (wr pb_bool message.(accepted))) ++
  unless (message.(req_timestamp) =? 0) (tagged 16 (wr int64_number message.(req_timestamp))) ++
  unless (message.(ack_timestamp) =? 0) (tagged 24 (wr int64_number message.(ack_timestamp))).
Definition field `{ProtobufRuntime} (tag : Z) (reader : bytes) (message : t) : field_step t :=
  match Z.shiftr tag 3 with
  | 1 =>
      if negb (tag =? 8) then Break else
      Continue (fld pb_bool (fun v => message <| accepted := v |>) reader)
  | 2 =>
      if negb (tag =? 16) then Break else
      Continue (fld int64_number (fun v => message <| req_timestamp := v |>) reader)
  | 3 =>
      if negb (tag =? 24) then Break else
      Continue (fld int64_number (fun v => message <| ack_timestamp := v |>) reader)
  | _ => Break
  end.
Definition decode `{ProtobufRuntime} : Z -> bytes -> outcome (t * bytes) :=
  decode_with field createBase.
Definition codec `{ProtobufRuntime} : scalar t := embedded encode decode.
(** The values the wire format can carry. *)
Definition ok `{ProtobufRuntime} (message : t) : Prop :=
  safe_int message.(req_timestamp) /\
  safe_int message.(ack_timestamp).
Definition wire_ok `{ProtobufRuntime} (message : t) : Prop :=
  ok message /\ short_bytes (encode message).
End VoiceCallResponse.

Lemma VoiceCallResponse_shrinks `{ProtobufLaws} : field_shrinks VoiceCallResponse.field.
Proof. solve_shrinks VoiceCallResponse.field. Qed.
Lemma VoiceCallResponse_roundtrip `{ProtobufLaws} m r :
  VoiceCallResponse.ok m -> VoiceCallResponse.decode (len r) (VoiceCallResponse.encode m ++ r) = Ret (m, r).
Proof.
  start_roundtrip VoiceCallResponse.ok VoiceCallResponse.createBase VoiceCallResponse.encode VoiceCallResponse.decode.
  step_scalar VoiceCallResponse_shrinks (fun v m => m <| VoiceCallResponse.accepted := v |>).
  step_scalar VoiceCallResponse_shrinks (fun v m => m <| VoiceCallResponse.req_timestamp := v |>).
  step_scalar VoiceCallResponse_shrinks (fun v m => m <| VoiceCallResponse.ack_timestamp := v |>).
  finish_roundtrip m.
Qed.
Lemma VoiceCallResponse_codec_ok `{ProtobufLaws} : scalar_ok VoiceCallResponse.codec VoiceCallResponse.wire_ok.
Proof. apply embedded_ok; [apply decode_with_shrinks, VoiceCallResponse_shrinks|apply VoiceCallResponse_roundtrip]. Qed.
#[export] Hint Resolve VoiceCallResponse_codec_ok : scalar_ok.

(** ** [Message] (message.ts, lines 1755-1782 and 11254-11564) *)
Module Message.
Record t := mk {
  signed_id : maybe SignedId.t;
  public_key : maybe PublicKey.t;
  test_delay : maybe TestDelay.t;
  video_frame : maybe VideoFrame.t;
  login_request : maybe LoginRequest.t;
  login_response : maybe LoginResponse.t;
  hash : maybe Hash.t;
  mouse_event : maybe MouseEvent.t;
  audio_frame : maybe AudioFrame.t;
  cursor_data : maybe CursorData.t;
  cursor_position : maybe CursorPosition.t;
  cursor_id : maybe Z;
  key_event : maybe KeyEvent.t;
  clipboard : maybe Clipboard.t;
  file_action : maybe FileAction.t;
  file_response : maybe FileResponse.t;
  misc : maybe Misc.t;
  cliprdr : maybe Cliprdr.t;
  message_box : maybe MessageBox.t;
  switch_sides_response : maybe SwitchSidesResponse.t;
  voice_call_request : maybe VoiceCallRequest.t;
  voice_call_response : maybe VoiceCallResponse.t;
  peer_info : maybe PeerInfo.t;
  pointer_device_event : maybe PointerDeviceEvent.t;
  auth_2fa : maybe Auth2FA.t;
  multi_clipboards : maybe MultiClipboards.t;
}.
Definition createBase : t := {|
  signed_id := None;
  public_key := None;
  test_delay := None;
  video_frame := None;
  login_request := None;
  login_response := None;
  hash := None;
  mouse_event := None;
  audio_frame := None;
  cursor_data := None;
  cursor_position := None;
  cursor_id := None;
  key_event := None;
  clipboard := None;
  file_action := None;
  file_response := None;
  misc := None;
  cliprdr := None;
  message_box := None;
  switch_sides_response := None;
  voice_call_request := None;
  voice_call_response := None;
  peer_info := None;
  pointer_device_event := None;
  auth_2fa := None;
  multi_clipboards := None |}.
Definition encode `{ProtobufRuntime} (message : t) : bytes :=
  if_set message.(signed_id) (fun v => tagged 26 (wr SignedId.codec v)) ++
  if_set message.(public_key) (fun v => tagged 34 (wr PublicKey.codec v)) ++
  if_set message.(test_delay) (fun v => tagged 42 (wr TestDelay.codec v)) ++
  if_set message.(video_frame) (fun v => tagged 50 (wr VideoFrame.codec v)) ++
  if_set message.(login_request) (fun v => tagged 58 (wr LoginRequest.codec v)) ++
  if_set message.(login_response) (fun v => tagged 66 (wr LoginResponse.codec v)) ++
  if_set message.(hash) (fun v => tagged 74 (wr Hash.codec v)) ++
  if_set message.(mouse_event) (fun v => tagged 82 (wr MouseEvent.codec v)) ++
  if_set message.(audio_frame) (fun v => tagged 90 (wr AudioFrame.codec v)) ++
  if_set message.(cursor_data) (fun v => tagged 98 (wr CursorData.codec v)) ++
  if_set message.(cursor_position) (fun v => tagged 106 (wr CursorPosition.codec v)) ++
  if_set message.(cursor_id) (fun v => tagged 112 (wr uint64_number v)) ++
  if_set message.(key_event) (fun v => tagged 122 (wr KeyEvent.codec v)) ++
  if_set message.(clipboard) (fun v => tagged 130 (wr Clipboard.codec v)) ++
  if_set message.(file_action) (fun v => tagged 138 (wr FileAction.codec v)) ++
  if_set message.(file_response) (fun v => tagged 146 (wr FileResponse.codec v)) ++
  if_set message.(misc) (fun v => tagged 154 (wr Misc.codec v)) ++
  if_set message.(cliprdr) (fun v => tagged 162 (wr Cliprdr.codec v)) ++
  if_set message.(message_box) (fun v => tagged 170 (wr MessageBox.codec v)) ++
  if_set message.(switch_sides_response) (fun v => tagged 178 (wr SwitchSidesResponse.codec v)) ++
  if_set message.(voice_call_request) (fun v => tagged 186 (wr VoiceCallRequest.codec v)) ++
  if_set message.(voice_call_response) (fun v => tagged 194 (wr VoiceCallResponse.codec v)) ++
  if_set message.(peer_info) (fun v => tagged 202 (wr PeerInfo.codec v)) ++
  if_set message.(pointer_device_event) (fun v => tagged 210 (wr PointerDeviceEvent.codec v)) ++
  if_set message.(auth_2fa) (fun v => tagged 218 (wr Auth2FA.codec v)) ++
  if_set message.(multi_clipboards) (fun v => tagged 226 (wr MultiClipboards.codec v)).
Definition field `{ProtobufRuntime} (tag : Z) (reader : bytes) (message : t) : field_step t :=
  match Z.shiftr tag 3 with
  | 3 =>
      if negb (tag =? 26) then Break else
      Continue (fld SignedId.codec (fun v => message <| signed_id := Some v |>) reader)
  | 4 =>
      if negb (tag =? 34) then Break else
      Continue (fld PublicKey.codec (fun v => message <| public_key := Some v |>) reader)
  | 5 =>
      if negb (tag =? 42) then Break else
      Continue (fld TestDelay.codec (fun v => message <| test_delay := Some v |>) reader)
  | 6 =>
      if negb (tag =? 50) then Break else
      Continue (fld VideoFrame.codec (fun v => message <| video_frame := Some v |>) reader)
  | 7 =>
      if negb (tag =? 58) then Break else
      Continue (fld LoginRequest.codec (fun v => message <| login_request := Some v |>) reader)
  | 8 =>
      if negb (tag =? 66) then Break else
      Continue (fld LoginResponse.codec (fun v => message <| login_response := Some v |>) reader)
  | 9 =>
      if negb (tag =? 74) then Break else
      Continue (fld Hash.codec (fun v => message <| hash := Some v |>) reader)
  | 10 =>
      if negb (tag =? 82) then Break else
      Continue (fld MouseEvent.codec (fun v => message <| mouse_event := Some v |>) reader)
  | 11 =>
      if negb (tag =? 90) then Break else
      Continue (fld AudioFrame.codec (fun v => message <| audio_frame := Some v |>) reader)
  | 12 =>
      if negb (tag =? 98) then Break else
      Continue (fld CursorData.codec (fun v => message <| cursor_data := Some v |>) reader)
  | 13 =>
      if negb (tag =? 106) then Break else
      Continue (fld CursorPosition.codec (fun v => message <| cursor_position := Some v |>) reader)
  | 14 =>
      if negb (tag =? 112) then Break else
      Continue (fld uint64_number (fun v => message <| cursor_id := Some v |>) reader)
  | 15 =>
      if negb (tag =? 122) then Break else
      Continue (fld KeyEvent.codec (fun v => message <| key_event := Some v |>) reader)
  | 16 =>
      if negb (tag =? 130) then Break else
      Continue (fld Clipboard.codec (fun v => message <| clipboard := Some v |>) reader)
  | 17 =>
      if negb (tag =? 138) then Break else
      Continue (fld FileAction.codec (fun v => message <| file_action := Some v |>) reader)
  | 18 =>
      if negb (tag =? 146) then Break else
      Continue (fld FileResponse.codec (fun v => message <| file_response := Some v |>) reader)
  | 19 =>
      if negb (tag =? 154) then Break else
      Continue (fld Misc.codec (fun v => message <| misc := Some v |>) reader)
  | 20 =>
      if negb (tag =? 162) then Break else
      Continue (fld Cliprdr.codec (fun v => message <| cliprdr := Some v |>) reader)
  | 21 =>
      if negb (tag =? 170) then Break else
      Continue (fld MessageBox.codec (fun v => message <| message_box := Some v |>) reader)
  | 22 =>
      if negb (tag =? 178) then Break else
      Continue (fld SwitchSidesResponse.codec (fun v => message <| switch_sides_response := Some v |>) reader)
  | 23 =>
      if negb (tag =? 186) then Break else
      Continue (fld VoiceCallRequest.codec (fun v => message <| voice_call_request := Some v |>) reader)
  | 24 =>
      if negb (tag =? 194) then Break else
      Continue (fld VoiceCallResponse.codec (fun v => message <| voice_call_response := Some v |>) reader)
  | 25 =>
      if negb (tag =? 202) then Break else
      Continue (fld PeerInfo.codec (fun v => message <| peer_info := Some v |>) reader)
  | 26 =>
      if negb (tag =? 210) then Break else
      Continue (fld PointerDeviceEvent.codec (fun v => message <| pointer_device_event := Some v |>) reader)
  | 27 =>
      if negb (tag =? 218) then Break else
      Continue (fld Auth2FA.codec (fun v => message <| auth_2fa := Some v |>) reader)
  | 28 =>
      if negb (tag =? 226) then Break else
      Continue (fld MultiClipboards.codec (fun v => message <| multi_clipboards := Some v |>) reader)
  | _ => Break
  end.
Definition decode `{ProtobufRuntime} : Z -> bytes -> outcome (t * bytes) :=
  decode_with field createBase.
Definition codec `{ProtobufRuntime} : scalar t := embedded encode decode.
(** The values the wire format can carry. *)
Definition ok `{ProtobufRuntime} (message : t) : Prop :=
  from_option SignedId.wire_ok True message.(signed_id) /\
  from_option PublicKey.wire_ok True message.(public_key) /\
  from_option TestDelay.wire_ok True message.(test_delay) /\
  from_option VideoFrame.wire_ok True message.(video_frame) /\
  from_option LoginRequest.wire_ok True message.(login_request) /\
  from_option LoginResponse.wire_ok True message.(login_response) /\
  from_option Hash.wire_ok True message.(hash) /\
  from_option MouseEvent.wire_ok True message.(mouse_event) /\
  from_option AudioFrame.wire_ok True message.(audio_frame) /\
  from_option CursorData.wire_ok True message.(cursor_data) /\
  from_option CursorPosition.wire_ok True message.(cursor_position) /\
  from_option safe_uint True message.(cursor_id) /\
  from_option KeyEvent.wire_ok True message.(key_event) /\
  from_option Clipboard.wire_ok True message.(clipboard) /\
  from_option FileAction.wire_ok True message.(file_action) /\
  from_option FileResponse.wire_ok True message.(file_response) /\
  from_option Misc.wire_ok True message.(misc) /\
  from_option Cliprdr.wire_ok True message.(cliprdr) /\
  from_option MessageBox.wire_ok True message.(message_box) /\
  from_option SwitchSidesResponse.wire_ok True message.(switch_sides_response) /\
  from_option VoiceCallRequest.wire_ok True message.(voice_call_request) /\
  from_option VoiceCallResponse.wire_ok True message.(voice_call_response) /\
  from_option PeerInfo.wire_ok True message.(peer_info) /\
  from_option PointerDeviceEvent.wire_ok True message.(pointer_device_event) /\
  from_option Auth2FA.wire_ok True message.(auth_2fa) /\
  from_option MultiClipboards.wire_ok True message.(multi_clipboards).
Definition wire_ok `{ProtobufRuntime} (message : t) : Prop :=
  ok message /\ short_bytes (encode message).
End Message.

Lemma Message_shrinks `{ProtobufLaws} : field_shrinks Message.field.
Proof. solve_shrinks Message.field. Qed.
Lemma Message_roundtrip `{ProtobufLaws} m r :
  Message.ok m -> Message.decode (len r) (Message.encode m ++ r) = Ret (m, r).
Proof.
  start_roundtrip Message.ok Message.createBase Message.encode Message.decode.
  step_opt Message_shrinks (fun v m => m <| Message.signed_id := v |>).
  step_opt Message_shrinks (fun v m => m <| Message.public_key := v |>).
  step_opt Message_shrinks (fun v m => m <| Message.test_delay := v |>).
  step_opt Message_shrinks (fun v m => m <| Message.video_frame := v |>).
  step_opt Message_shrinks (fun v m => m <| Message.login_request := v |>).
  step_opt Message_shrinks (fun v m => m <| Message.login_response := v |>).
  step_opt Message_shrinks (fun v m => m <| Message.hash := v |>).
  step_opt Message_shrinks (fun v m => m <| Message.mouse_event := v |>).
  step_opt Message_shrinks (fun v m => m <| Message.audio_frame := v |>).
  step_opt Message_shrinks (fun v m => m <| Message.cursor_data := v |>).
  step_opt Message_shrinks (fun v m => m <| Message.cursor_position := v |>).
  step_opt Message_shrinks (fun v m => m <| Message.cursor_id := v |>).
  step_opt Message_shrinks (fun v m => m <| Message.key_event := v |>).
  step_opt Message_shrinks (fun v m => m <| Message.clipboard := v |>).
  step_opt Message_shrinks (fun v m => m <| Message.file_action := v |>).
  step_opt Message_shrinks (fun v m => m <| Message.file_response := v |>).
  step_opt Message_shrinks (fun v m => m <| Message.misc := v |>).
  step_opt Message_shrinks (fun v m => m <| Message.cliprdr := v |>).
  step_opt Message_shrinks (fun v m => m <| Message.message_box := v |>).
  step_opt Message_shrinks (fun v m => m <| Message.switch_sides_response := v |>).
  step_opt Message_shrinks (fun v m => m <| Message.voice_call_request := v |>).
  step_opt Message_shrinks (fun v m => m <| Message.voice_call_response := v |>).
  step_opt Message_shrinks (fun v m => m <| Message.peer_info := v |>).
  step_opt Message_shrinks (fun v m => m <| Message.pointer_device_event := v |>).
  step_opt Message_shrinks (fun v m => m <| Message.auth_2fa := v |>).
  step_opt Message_shrinks (fun v m => m <| Message.multi_clipboards := v |>).
  finish_roundtrip m.
Qed.
Lemma Message_codec_ok `{ProtobufLaws} : scalar_ok Message.codec Message.wire_ok.
Proof. apply embedded_ok; [apply decode_with_shrinks, Message_shrinks|apply Message_roundtrip]. Qed.
#[export] Hint Resolve Message_codec_ok : scalar_ok.
