(* ===== verification/ProtoRendezvous.v ===== *)
(** * Generated codecs: the rendezvous messages

    [proto/rendezvous.ts], in the same form as the message codecs. *)
From S2P Require Import Prelude ProtoWire.

(** ** [RegisterPeer] (rendezvous.ts, lines 96-99 and 371-414) *)
Module RegisterPeer.
Record t := mk {
  id : string;
  serial : Z;
}.
Definition createBase : t := {|
  id := "";
  serial := 0 |}.
Definition encode `{ProtobufRuntime} (message : t) : bytes :=
  unless (message.(id) =? "")%string (tagged 10 (wr pb_string message.(id))) ++
  unless (message.(serial) =? 0) (tagged 16 (wr pb_int32 message.(serial))).
Definition field `{ProtobufRuntime} (tag : Z) (reader : bytes) (message : t) : field_step t :=
  match Z.shiftr tag 3 with
  | 1 =>
      if negb (tag =? 10) then Break else
      Continue (fld pb_string (fun v => message <| id := v |>) reader)
  | 2 =>
      if negb (tag =? 16) then Break else
      Continue (fld pb_int32 (fun v => message <| serial := v |>) reader)
  | _ => Break
  end.
Definition decode `{ProtobufRuntime} : Z -> bytes -> outcome (t * bytes) :=
  decode_with field createBase.
Definition codec `{ProtobufRuntime} : scalar t := embedded encode decode.
(** The values the wire format can carry. *)
Definition ok `{ProtobufRuntime} (message : t) : Prop :=
  short_string message.(id) /\
  in_int32 message.(serial).
Definition wire_ok `{ProtobufRuntime} (message : t) : Prop :=
  ok message /\ short_bytes (encode message).
End RegisterPeer.

Lemma RegisterPeer_shrinks `{ProtobufLaws} : field_shrinks RegisterPeer.field.
Proof. solve_shrinks RegisterPeer.field. Qed.
Lemma RegisterPeer_roundtrip `{ProtobufLaws} m r :
  RegisterPeer.ok m -> RegisterPeer.decode (len r) (RegisterPeer.encode m ++ r) = Ret (m, r).
Proof.
  start_roundtrip RegisterPeer.ok RegisterPeer.createBase RegisterPeer.encode RegisterPeer.decode.
  step_scalar RegisterPeer_shrinks (fun v m => m <| RegisterPeer.id := v |>).
  step_scalar RegisterPeer_shrinks (fun v m => m <| RegisterPeer.serial := v |>).
  finish_roundtrip m.
Qed.
Lemma RegisterPeer_codec_ok `{ProtobufLaws} : scalar_ok RegisterPeer.codec RegisterPeer.wire_ok.
Proof. apply embedded_ok; [apply decode_with_shrinks, RegisterPeer_shrinks|apply RegisterPeer_roundtrip]. Qed.
#[export] Hint Resolve RegisterPeer_codec_ok : scalar_ok.

(** ** [RegisterPeerResponse] (rendezvous.ts, lines 101-103 and 445-478) *)
Module RegisterPeerResponse.
Record t := mk {
  request_pk : bool;
}.
Definition createBase : t := {|
  request_pk := false |}.
Definition encode `{ProtobufRuntime} (message : t) : bytes :=
  unless (negb message.(request_pk)) (tagged 16 (wr pb_bool message.(request_pk))).
Definition field `{ProtobufRuntime} (tag : Z) (reader : bytes) (message : t) : field_step t :=
  match Z.shiftr tag 3 with
  | 2 =>
      if negb (tag =? 16) then Break else
      Continue (fld pb_bool (fun v => message <| request_pk := v |>) reader)
  | _ => Break
  end.
Definition decode `{ProtobufRuntime} : Z -> bytes -> outcome (t * bytes) :=
  decode_with field createBase.
Definition codec `{ProtobufRuntime} : scalar t := embedded encode decode.
(** The values the wire format can carry. *)
Definition ok `{ProtobufRuntime} (message : t) : Prop :=
  True.
Definition wire_ok `{ProtobufRuntime} (message : t) : Prop :=
  ok message /\ short_bytes (encode message).
End RegisterPeerResponse.

Lemma RegisterPeerResponse_shrinks `{ProtobufLaws} : field_shrinks RegisterPeerResponse.field.
Proof. solve_shrinks RegisterPeerResponse.field. Qed.
Lemma RegisterPeerResponse_roundtrip `{ProtobufLaws} m r :
  RegisterPeerResponse.ok m -> RegisterPeerResponse.decode (len r) (RegisterPeerResponse.encode m ++ r) = Ret (m, r).
Proof.
  start_roundtrip RegisterPeerResponse.ok RegisterPeerResponse.createBase RegisterPeerResponse.encode RegisterPeerResponse.decode.
  step_scalar RegisterPeerResponse_shrinks (fun v m => m <| RegisterPeerResponse.request_pk := v |>).
  finish_roundtrip m.
Qed.
Lemma RegisterPeerResponse_codec_ok `{ProtobufLaws} : scalar_ok RegisterPeerResponse.codec RegisterPeerResponse.wire_ok.
Proof. apply embedded_ok; [apply decode_with_shrinks, RegisterPeerResponse_shrinks|apply RegisterPeerResponse_roundtrip]. Qed.
#[export] Hint Resolve RegisterPeerResponse_codec_ok : scalar_ok.

(** ** [PunchHoleRequest] (rendezvous.ts, lines 105-112 and 502-585) *)
Module PunchHoleRequest.
Record t := mk {
  id : string;
  nat_type : Z;
  licence_key : string;
  conn_type : Z;
  token : string;
  version : string;
}.
Definition createBase : t := {|
  id := "";
  nat_type := 0;
  licence_key := "";
  conn_type := 0;
  token := "";
  version := "" |}.
Definition encode `{ProtobufRuntime} (message : t) : bytes :=
  unless (message.(id) =? "")%string (tagged 10 (wr pb_string message.(id))) ++
  unless (message.(nat_type) =? 0) (tagged 16 (wr pb_int32 message.(nat_type))) ++
  unless (message.(licence_key) =? "")%string (tagged 26 (wr pb_string message.(licence_key))) ++
  unless (message.(conn_type) =? 0) (tagged 32 (wr pb_int32 message.(conn_type))) ++
  unless (message.(token) =? "")%string (tagged 42 (wr pb_string message.(token))) ++
  unless (message.(version) =? "")%string (tagged 50 (wr pb_string message.(version))).
Definition field `{ProtobufRuntime} (tag : Z) (reader : bytes) (message : t) : field_step t :=
  match Z.shiftr tag 3 with
  | 1 =>
      if negb (tag =? 10) then Break else
      Continue (fld pb_string (fun v => message <| id := v |>) reader)
  | 2 =>
      if negb (tag =? 16) then Break else
      Continue (fld pb_int32 (fun v => message <| nat_type := v |>) reader)
  | 3 =>
      if negb (tag =? 26) then Break else
      Continue (fld pb_string (fun v => message <| licence_key := v |>) reader)
  | 4 =>
      if negb (tag =? 32) then Break else
      Continue (fld pb_int32 (fun v => message <| conn_type := v |>) reader)
  | 5 =>
      if negb (tag =? 42) then Break else
      Continue (fld pb_string (fun v => message <| token := v |>) reader)
  | 6 =>
      if negb (tag =? 50) then Break else
      Continue (fld pb_string (fun v => message <| version := v |>) reader)
  | _ => Break
  end.
Definition decode `{ProtobufRuntime} : Z -> bytes -> outcome (t * bytes) :=
  decode_with field createBase.
Definition codec `{ProtobufRuntime} : scalar t := embedded encode decode.
(** The values the wire format can carry. *)
Definition ok `{ProtobufRuntime} (message : t) : Prop :=
  short_string message.(id) /\
  in_int32 message.(nat_type) /\
  short_string message.(licence_key) /\
  in_int32 message.(conn_type) /\
  short_string message.(token) /\
  short_string message.(version).
Definition wire_ok `{ProtobufRuntime} (message : t) : Prop :=
  ok message /\ short_bytes (encode message).
End PunchHoleRequest.

Lemma PunchHoleRequest_shrinks `{ProtobufLaws} : field_shrinks PunchHoleRequest.field.
Proof. solve_shrinks PunchHoleRequest.field. Qed.
Lemma PunchHoleRequest_roundtrip `{ProtobufLaws} m r :
  PunchHoleRequest.ok m -> PunchHoleRequest.decode (len r) (PunchHoleRequest.encode m ++ r) = Ret (m, r).
Proof.
  start_roundtrip PunchHoleRequest.ok PunchHoleRequest.createBase PunchHoleRequest.encode PunchHoleRequest.decode.
  step_scalar PunchHoleRequest_shrinks (fun v m => m <| PunchHoleRequest.id := v |>).
  step_scalar PunchHoleRequest_shrinks (fun v m => m <| PunchHoleRequest.nat_type := v |>).
  step_scalar PunchHoleRequest_shrinks (fun v m => m <| PunchHoleRequest.licence_key := v |>).
  step_scalar PunchHoleRequest_shrinks (fun v m => m <| PunchHoleRequest.conn_type := v |>).
  step_scalar PunchHoleRequest_shrinks (fun v m => m <| PunchHoleRequest.token := v |>).
  step_scalar PunchHoleRequest_shrinks (fun v m => m <| PunchHoleRequest.version := v |>).
  finish_roundtrip m.
Qed.
Lemma PunchHoleRequest_codec_ok `{ProtobufLaws} : scalar_ok PunchHoleRequest.codec PunchHoleRequest.wire_ok.
Proof. apply embedded_ok; [apply decode_with_shrinks, PunchHoleRequest_shrinks|apply PunchHoleRequest_roundtrip]. Qed.
#[export] Hint Resolve PunchHoleRequest_codec_ok : scalar_ok.

(** ** [PunchHole] (rendezvous.ts, lines 114-118 and 636-689) *)
Module PunchHole.
Record t := mk {
  socket_addr : bytes;
  relay_server : string;
  nat_type : Z;
}.
Definition createBase : t := {|
  socket_addr := [];
  relay_server := "";
  nat_type := 0 |}.
Definition encode `{ProtobufRuntime} (message : t) : bytes :=
  unless (len message.(socket_addr) =? 0) (tagged 10 (wr pb_bytes message.(socket_addr))) ++
  unless (message.(relay_server) =? "")%string (tagged 18 (wr pb_string message.(relay_server))) ++
  unless (message.(nat_type) =? 0) (tagged 24 (wr pb_int32 message.(nat_type))).
Definition field `{ProtobufRuntime} (tag : Z) (reader : bytes) (message : t) : field_step t :=
  match Z.shiftr tag 3 with
  | 1 =>
      if negb (tag =? 10) then Break else
      Continue (fld pb_bytes (fun v => message <| socket_addr := v |>) reader)
  | 2 =>
      if negb (tag =? 18) then Break else
      Continue (fld pb_string (fun v => message <| relay_server := v |>) reader)
  | 3 =>
      if negb (tag =? 24) then Break else
      Continue (fld pb_int32 (fun v => message <| nat_type := v |>) reader)
  | _ => Break
  end.
Definition decode `{ProtobufRuntime} : Z -> bytes -> outcome (t * bytes) :=
  decode_with field createBase.
Definition codec `{ProtobufRuntime} : scalar t := embedded encode decode.
(** The values the wire format can carry. *)
Definition ok `{ProtobufRuntime} (message : t) : Prop :=
  short_bytes message.(socket_addr) /\
  short_string message.(relay_server) /\
  in_int32 message.(nat_type).
Definition wire_ok `{ProtobufRuntime} (message : t) : Prop :=
  ok message /\ short_bytes (encode message).
End PunchHole.

Lemma PunchHole_shrinks `{ProtobufLaws} : field_shrinks PunchHole.field.
Proof. solve_shrinks PunchHole.field. Qed.
Lemma PunchHole_roundtrip `{ProtobufLaws} m r :
  PunchHole.ok m -> PunchHole.decode (len r) (PunchHole.encode m ++ r) = Ret (m, r).
Proof.
  start_roundtrip PunchHole.ok PunchHole.createBase PunchHole.encode PunchHole.decode.
  step_scalar PunchHole_shrinks (fun v m => m <| PunchHole.socket_addr := v |>).
  step_scalar PunchHole_shrinks (fun v m => m <| PunchHole.relay_server := v |>).
  step_scalar PunchHole_shrinks (fun v m => m <| PunchHole.nat_type := v |>).
  finish_roundtrip m.
Qed.
Lemma PunchHole_codec_ok `{ProtobufLaws} : scalar_ok PunchHole.codec PunchHole.wire_ok.
Proof. apply embedded_ok; [apply decode_with_shrinks, PunchHole_shrinks|apply PunchHole_roundtrip]. Qed.
#[export] Hint Resolve PunchHole_codec_ok : scalar_ok.

(** ** [TestNatRequest] (rendezvous.ts, lines 120-122 and 725-758) *)
Module TestNatRequest.
Record t := mk {
  serial : Z;
}.
Definition createBase : t := {|
  serial := 0 |}.
Definition encode `{ProtobufRuntime} (message : t) : bytes :=
  unless (message.(serial) =? 0) (tagged 8 (wr pb_int32 message.(serial))).
Definition field `{ProtobufRuntime} (tag : Z) (reader : bytes) (message : t) : field_step t :=
  match Z.shiftr tag 3 with
  | 1 =>
      if negb (tag =? 8) then Break else
      Continue (fld pb_int32 (fun v => message <| serial := v |>) reader)
  | _ => Break
  end.
Definition decode `{ProtobufRuntime} : Z -> bytes -> outcome (t * bytes) :=
  decode_with field createBase.
Definition codec `{ProtobufRuntime} : scalar t := embedded encode decode.
(** The values the wire format can carry. *)
Definition ok `{ProtobufRuntime} (message : t) : Prop :=
  in_int32 message.(serial).
Definition wire_ok `{ProtobufRuntime} (message : t) : Prop :=
  ok message /\ short_bytes (encode message).
End TestNatRequest.

Lemma TestNatRequest_shrinks `{ProtobufLaws} : field_shrinks TestNatRequest.field.
Proof. solve_shrinks TestNatRequest.field. Qed.
Lemma TestNatRequest_roundtrip `{ProtobufLaws} m r :
  TestNatRequest.ok m -> TestNatRequest.decode (len r) (TestNatRequest.encode m ++ r) = Ret (m, r).
Proof.
  start_roundtrip TestNatRequest.ok TestNatRequest.createBase TestNatRequest.encode TestNatRequest.decode.
  step_scalar TestNatRequest_shrinks (fun v m => m <| TestNatRequest.serial := v |>).
  finish_roundtrip m.
Qed.
Lemma TestNatRequest_codec_ok `{ProtobufLaws} : scalar_ok TestNatRequest.codec TestNatRequest.wire_ok.
Proof. apply embedded_ok; [apply decode_with_shrinks, TestNatRequest_shrinks|apply TestNatRequest_roundtrip]. Qed.
#[export] Hint Resolve TestNatRequest_codec_ok : scalar_ok.

(** ** [ConfigUpdate] (rendezvous.ts, lines 270-273 and 1326-1369) *)
Module ConfigUpdate.
Record t := mk {
  serial : Z;
  rendezvous_servers : list string;
}.
Definition createBase : t := {|
  serial := 0;
  rendezvous_servers := [] |}.
Definition encode `{ProtobufRuntime} (message : t) : bytes :=
  unless (message.(serial) =? 0) (tagged 8 (wr pb_int32 message.(serial))) ++
  each message.(rendezvous_servers) (fun v => tagged 18 (wr pb_string v)).
Definition field `{ProtobufRuntime} (tag : Z) (reader : bytes) (message : t) : field_step t :=
  match Z.shiftr tag 3 with
  | 1 =>
      if negb (tag =? 8) then Break else
      Continue (fld pb_int32 (fun v => message <| serial := v |>) reader)
  | 2 =>
      if negb (tag =? 18) then Break else
      Continue (fld pb_string (fun v => message <| rendezvous_servers := message.(rendezvous_servers) ++ [v] |>) reader)
  | _ => Break
  end.
Definition decode `{ProtobufRuntime} : Z -> bytes -> outcome (t * bytes) :=
  decode_with field createBase.
Definition codec `{ProtobufRuntime} : scalar t := embedded encode decode.
(** The values the wire format can carry. *)
Definition ok `{ProtobufRuntime} (message : t) : Prop :=
  in_int32 message.(serial) /\
  Forall short_string message.(rendezvous_servers).
Definition wire_ok `{ProtobufRuntime} (message : t) : Prop :=
  ok message /\ short_bytes (encode message).
End ConfigUpdate.

Lemma ConfigUpdate_shrinks `{ProtobufLaws} : field_shrinks ConfigUpdate.field.
Proof. solve_shrinks ConfigUpdate.field. Qed.
Lemma ConfigUpdate_roundtrip `{ProtobufLaws} m r :
  ConfigUpdate.ok m -> ConfigUpdate.decode (len r) (ConfigUpdate.encode m ++ r) = Ret (m, r).
Proof.
  start_roundtrip ConfigUpdate.ok ConfigUpdate.createBase ConfigUpdate.encode ConfigUpdate.decode.
  step_scalar ConfigUpdate_shrinks (fun v m => m <| ConfigUpdate.serial := v |>).
  step_each ConfigUpdate_shrinks (fun v m => m <| ConfigUpdate.rendezvous_servers := v |>).
  finish_roundtrip m.
Qed.
Lemma ConfigUpdate_codec_ok `{ProtobufLaws} : scalar_ok ConfigUpdate.codec ConfigUpdate.wire_ok.
Proof. apply embedded_ok; [apply decode_with_shrinks, ConfigUpdate_shrinks|apply ConfigUpdate_roundtrip]. Qed.
#[export] Hint Resolve ConfigUpdate_codec_ok : scalar_ok.

(** ** [TestNatResponse] (rendezvous.ts, lines 125-129 and 782-825) *)
Module TestNatResponse.
Record t := mk {
  port : Z;
  cu : maybe ConfigUpdate.t;
}.
Definition createBase : t := {|
  port := 0;
  cu := None |}.
Definition encode `{ProtobufRuntime} (message : t) : bytes :=
  unless (message.(port) =? 0) (tagged 8 (wr pb_int32 message.(port))) ++
  if_set message.(cu) (fun v => tagged 18 (wr ConfigUpdate.codec v)).
Definition field `{ProtobufRuntime} (tag : Z) (reader : bytes) (message : t) : field_step t :=
  match Z.shiftr tag 3 with
  | 1 =>
      if negb (tag =? 8) then Break else
      Continue (fld pb_int32 (fun v => message <| port := v |>) reader)
  | 2 =>
      if negb (tag =? 18) then Break else
      Continue (fld ConfigUpdate.codec (fun v => message <| cu := Some v |>) reader)
  | _ => Break
  end.
Definition decode `{ProtobufRuntime} : Z -> bytes -> outcome (t * bytes) :=
  decode_with field createBase.
Definition codec `{ProtobufRuntime} : scalar t := embedded encode decode.
(** The values the wire format can carry. *)
Definition ok `{ProtobufRuntime} (message : t) : Prop :=
  in_int32 message.(port) /\
  from_option ConfigUpdate.wire_ok True message.(cu).
Definition wire_ok `{ProtobufRuntime} (message : t) : Prop :=
  ok message /\ short_bytes (encode message).
End TestNatResponse.

Lemma TestNatResponse_shrinks `{ProtobufLaws} : field_shrinks TestNatResponse.field.
Proof. solve_shrinks TestNatResponse.field. Qed.
Lemma TestNatResponse_roundtrip `{ProtobufLaws} m r :
  TestNatResponse.ok m -> TestNatResponse.decode (len r) (TestNatResponse.encode m ++ r) = Ret (m, r).
Proof.
  start_roundtrip TestNatResponse.ok TestNatResponse.createBase TestNatResponse.encode TestNatResponse.decode.
  step_scalar TestNatResponse_shrinks (fun v m => m <| TestNatResponse.port := v |>).
  step_opt TestNatResponse_shrinks (fun v m => m <| TestNatResponse.cu := v |>).
  finish_roundtrip m.
Qed.
Lemma TestNatResponse_codec_ok `{ProtobufLaws} : scalar_ok TestNatResponse.codec TestNatResponse.wire_ok.
Proof. apply embedded_ok; [apply decode_with_shrinks, TestNatResponse_shrinks|apply TestNatResponse_roundtrip]. Qed.
#[export] Hint Resolve TestNatResponse_codec_ok : scalar_ok.

(** ** [PunchHoleSent] (rendezvous.ts, lines 131-137 and 856-929) *)
Module PunchHoleSent.
Record t := mk {
  socket_addr : bytes;
  id : string;
  relay_server : string;
  nat_type : Z;
  version : string;
}.
Definition createBase : t := {|
  socket_addr := [];
  id := "";
  relay_server := "";
  nat_type := 0;
  version := "" |}.
Definition encode `{ProtobufRuntime} (message : t) : bytes :=
  unless (len message.(socket_addr) =? 0) (tagged 10 (wr pb_bytes message.(socket_addr))) ++
  unless (message.(id) =? "")%string (tagged 18 (wr pb_string message.(id))) ++
  unless (message.(relay_server) =? "")%string (tagged 26 (wr pb_string message.(relay_server))) ++
  unless (message.(nat_type) =? 0) (tagged 32 (wr pb_int32 message.(nat_type))) ++
  unless (message.(version) =? "")%string (tagged 42 (wr pb_string message.(version))).
Definition field `{ProtobufRuntime} (tag : Z) (reader : bytes) (message : t) : field_step t :=
  match Z.shiftr tag 3 with
  | 1 =>
      if negb (tag =? 10) then Break else
      Continue (fld pb_bytes (fun v => message <| socket_addr := v |>) reader)
  | 2 =>
      if negb (tag =? 18) then Break else
      Continue (fld pb_string (fun v => message <| id := v |>) reader)
  | 3 =>
      if negb (tag =? 26) then Break else
      Continue (fld pb_string (fun v => message <| relay_server := v |>) reader)
  | 4 =>
      if negb (tag =? 32) then Break else
      Continue (fld pb_int32 (fun v => message <| nat_type := v |>) reader)
  | 5 =>
      if negb (tag =? 42) then Break else
      Continue (fld pb_string (fun v => message <| version := v |>) reader)
  | _ => Break
  end.
Definition decode `{ProtobufRuntime} : Z -> bytes -> outcome (t * bytes) :=
  decode_with field createBase.
Definition codec `{ProtobufRuntime} : scalar t := embedded encode decode.
(** The values the wire format can carry. *)
Definition ok `{ProtobufRuntime} (message : t) : Prop :=
  short_bytes message.(socket_addr) /\
  short_string message.(id) /\
  short_string message.(relay_server) /\
  in_int32 message.(nat_type) /\
  short_string message.(version).
Definition wire_ok `{ProtobufRuntime} (message : t) : Prop :=
  ok message /\ short_bytes (encode message).
End PunchHoleSent.

Lemma PunchHoleSent_shrinks `{ProtobufLaws} : field_shrinks PunchHoleSent.field.
Proof. solve_shrinks PunchHoleSent.field. Qed.
Lemma PunchHoleSent_roundtrip `{ProtobufLaws} m r :
  PunchHoleSent.ok m -> PunchHoleSent.decode (len r) (PunchHoleSent.encode m ++ r) = Ret (m, r).
Proof.
  start_roundtrip PunchHoleSent.ok PunchHoleSent.createBase PunchHoleSent.encode PunchHoleSent.decode.
  step_scalar PunchHoleSent_shrinks (fun v m => m <| PunchHoleSent.socket_addr := v |>).
  step_scalar PunchHoleSent_shrinks (fun v m => m <| PunchHoleSent.id := v |>).
  step_scalar PunchHoleSent_shrinks (fun v m => m <| PunchHoleSent.relay_server := v |>).
  step_scalar PunchHoleSent_shrinks (fun v m => m <| PunchHoleSent.nat_type := v |>).
  step_scalar PunchHoleSent_shrinks (fun v m => m <| PunchHoleSent.version := v |>).
  finish_roundtrip m.
Qed.
Lemma PunchHoleSent_codec_ok `{ProtobufLaws} : scalar_ok PunchHoleSent.codec PunchHoleSent.wire_ok.
Proof. apply embedded_ok; [apply decode_with_shrinks, PunchHoleSent_shrinks|apply PunchHoleSent_roundtrip]. Qed.
#[export] Hint Resolve PunchHoleSent_codec_ok : scalar_ok.

(** ** [RegisterPk] (rendezvous.ts, lines 139-144 and 975-1038) *)
Module RegisterPk.
Record t := mk {
  id : string;
  uuid : bytes;
  pk : bytes;
  old_id : string;
}.
Definition createBase : t := {|
  id := "";
  uuid := [];
  pk := [];
  old_id := "" |}.
Definition encode `{ProtobufRuntime} (message : t) : bytes :=
  unless (message.(id) =? "")%string (tagged 10 (wr pb_string message.(id))) ++
  unless (len message.(uuid) =? 0) (tagged 18 (wr pb_bytes message.(uuid))) ++
  unless (len message.(pk) =? 0) (tagged 26 (wr pb_bytes message.(pk))) ++
  unless (message.(old_id) =? "")%string (tagged 34 (wr pb_string message.(old_id))).
Definition field `{ProtobufRuntime} (tag : Z) (reader : bytes) (message : t) : field_step t :=
  match Z.shiftr tag 3 with
  | 1 =>
      if negb (tag =? 10) then Break else
      Continue (fld pb_string (fun v => message <| id := v |>) reader)
  | 2 =>
      if negb (tag =? 18) then Break else
      Continue (fld pb_bytes (fun v => message <| uuid := v |>) reader)
  | 3 =>
      if negb (tag =? 26) then Break else
      Continue (fld pb_bytes (fun v => message <| pk := v |>) reader)
  | 4 =>
      if negb (tag =? 34) then Break else
      Continue (fld pb_string (fun v => message <| old_id := v |>) reader)
  | _ => Break
  end.
Definition decode `{ProtobufRuntime} : Z -> bytes -> outcome (t * bytes) :=
  decode_with field createBase.
Definition codec `{ProtobufRuntime} : scalar t := embedded encode decode.
(** The values the wire format can carry. *)
Definition ok `{ProtobufRuntime} (message : t) : Prop :=
  short_string message.(id) /\
  short_bytes message.(uuid) /\
  short_bytes message.(pk) /\
  short_string message.(old_id).
Definition wire_ok `{ProtobufRuntime} (message : t) : Prop :=
  ok message /\ short_bytes (encode message).
End RegisterPk.

Lemma RegisterPk_shrinks `{ProtobufLaws} : field_shrinks RegisterPk.field.
Proof. solve_shrinks RegisterPk.field. Qed.
Lemma RegisterPk_roundtrip `{ProtobufLaws} m r :
  RegisterPk.ok m -> RegisterPk.decode (len r) (RegisterPk.encode m ++ r) = Ret (m, r).
Proof.
  start_roundtrip RegisterPk.ok RegisterPk.createBase RegisterPk.encode RegisterPk.decode.
  step_scalar RegisterPk_shrinks (fun v m => m <| RegisterPk.id := v |>).
  step_scalar RegisterPk_shrinks (fun v m => m <| RegisterPk.uuid := v |>).
  step_scalar RegisterPk_shrinks (fun v m => m <| RegisterPk.pk := v |>).
  step_scalar RegisterPk_shrinks (fun v m => m <| RegisterPk.old_id := v |>).
  finish_roundtrip m.
Qed.
Lemma RegisterPk_codec_ok `{ProtobufLaws} : scalar_ok RegisterPk.codec RegisterPk.wire_ok.
Proof. apply embedded_ok; [apply decode_with_shrinks, RegisterPk_shrinks|apply RegisterPk_roundtrip]. Qed.
#[export] Hint Resolve RegisterPk_codec_ok : scalar_ok.

(** ** [RegisterPkResponse] (rendezvous.ts, lines 146-149 and 1079-1122) *)
Module RegisterPkResponse.
Record t := mk {
  result : Z;
  keep_alive : Z;
}.
Definition createBase : t := {|
  result := 0;
  keep_alive := 0 |}.
Definition encode `{ProtobufRuntime} (message : t) : bytes :=
  unless (message.(result) =? 0) (tagged 8 (wr pb_int32 message.(result))) ++
  unless (message.(keep_alive) =? 0) (tagged 16 (wr pb_int32 message.(keep_alive))).
Definition field `{ProtobufRuntime} (tag : Z) (reader : bytes) (message : t) : field_step t :=
  match Z.shiftr tag 3 with
  | 1 =>
      if negb (tag =? 8) then Break else
      Continue (fld pb_int32 (fun v => message <| result := v |>) reader)
  | 2 =>
      if negb (tag =? 16) then Break else
      Continue (fld pb_int32 (fun v => message <| keep_alive := v |>) reader)
  | _ => Break
  end.
Definition decode `{ProtobufRuntime} : Z -> bytes -> outcome (t * bytes) :=
  decode_with field createBase.
Definition codec `{ProtobufRuntime} : scalar t := embedded encode decode.
(** The values the wire format can carry. *)
Definition ok `{ProtobufRuntime} (message : t) : Prop :=
  in_int32 message.(result) /\
  in_int32 message.(keep_alive).
Definition wire_ok `{ProtobufRuntime} (message : t) : Prop :=
  ok message /\ short_bytes (encode message).
End RegisterPkResponse.

Lemma RegisterPkResponse_shrinks `{ProtobufLaws} : field_shrinks RegisterPkResponse.field.
Proof. solve_shrinks RegisterPkResponse.field. Qed.
Lemma RegisterPkResponse_roundtrip `{ProtobufLaws} m r :
  RegisterPkResponse.ok m -> RegisterPkResponse.decode (len r) (RegisterPkResponse.encode m ++ r) = Ret (m, r).
Proof.
  start_roundtrip RegisterPkResponse.ok RegisterPkResponse.createBase RegisterPkResponse.encode RegisterPkResponse.decode.
  step_scalar RegisterPkResponse_shrinks (fun v m => m <| RegisterPkResponse.result := v |>).
  step_scalar RegisterPkResponse_shrinks (fun v m => m <| RegisterPkResponse.keep_alive := v |>).
  finish_roundtrip m.
Qed.
Lemma RegisterPkResponse_codec_ok `{ProtobufLaws} : scalar_ok RegisterPkResponse.codec RegisterPkResponse.wire_ok.
Proof. apply embedded_ok; [apply decode_with_shrinks, RegisterPkResponse_shrinks|apply RegisterPkResponse_roundtrip]. Qed.
#[export] Hint Resolve RegisterPkResponse_codec_ok : scalar_ok.

(** ** [PunchHoleResponse] (rendezvous.ts, lines 214-223 and 1153-1265) *)
Module PunchHoleResponse.
Record t := mk {
  socket_addr : bytes;
  pk : bytes;
  failure : Z;
  relay_server : string;
  nat_type : maybe Z;
  is_local : maybe bool;
  other_failure : string;
  feedback : Z;
}.
Definition createBase : t := {|
  socket_addr := [];
  pk := [];
  failure := 0;
  relay_server := "";
  nat_type := None;
  is_local := None;
  other_failure := "";
  feedback := 0 |}.
Definition encode `{ProtobufRuntime} (message : t) : bytes :=
  unless (len message.(socket_addr) =? 0) (tagged 10 (wr pb_bytes message.(socket_addr))) ++
  unless (len message.(pk) =? 0) (tagged 18 (wr pb_bytes message.(pk))) ++
  unless (message.(failure) =? 0) (tagged 24 (wr pb_int32 message.(failure))) ++
  unless (message.(relay_server) =? "")%string (tagged 34 (wr pb_string message.(relay_server))) ++
  if_set message.(nat_type) (fun v => tagged 40 (wr pb_int32 v)) ++
  if_set message.(is_local) (fun v => tagged 48 (wr pb_bool v)) ++
  unless (message.(other_failure) =? "")%string (tagged 58 (wr pb_string message.(other_failure))) ++
  unless (message.(feedback) =? 0) (tagged 64 (wr pb_int32 message.(feedback))).
Definition field `{ProtobufRuntime} (tag : Z) (reader : bytes) (message : t) : field_step t :=
  match Z.shiftr tag 3 with
  | 1 =>
      if negb (tag =? 10) then Break else
      Continue (fld pb_bytes (fun v => message <| socket_addr := v |>) reader)
  | 2 =>
      if negb (tag =? 18) then Break else
      Continue (fld pb_bytes (fun v => message <| pk := v |>) reader)
  | 3 =>
      if negb (tag =? 24) then Break else
      Continue (fld pb_int32 (fun v => message <| failure := v |>) reader)
  | 4 =>
      if negb (tag =? 34) then Break else
      Continue (fld pb_string (fun v => message <| relay_server := v |>) reader)
  | 5 =>
      if negb (tag =? 40) then Break else
      Continue (fld pb_int32 (fun v => message <| nat_type := Some v |>) reader)
  | 6 =>
      if negb (tag =? 48) then Break else
      Continue (fld pb_bool (fun v => message <| is_local := Some v |>) reader)
  | 7 =>
      if negb (tag =? 58) then Break else
      Continue (fld pb_string (fun v => message <| other_failure := v |>) reader)
  | 8 =>
      if negb (tag =? 64) then Break else
      Continue (fld pb_int32 (fun v => message <| feedback := v |>) reader)
  | _ => Break
  end.
Definition decode `{ProtobufRuntime} : Z -> bytes -> outcome (t * bytes) :=
  decode_with field createBase.
Definition codec `{ProtobufRuntime} : scalar t := embedded encode decode.
(** The values the wire format can carry. *)
Definition ok `{ProtobufRuntime} (message : t) : Prop :=
  short_bytes message.(socket_addr) /\
  short_bytes message.(pk) /\
  in_int32 message.(failure) /\
  short_string message.(relay_server) /\
  from_option in_int32 True message.(nat_type) /\
  short_string message.(other_failure) /\
  in_int32 message.(feedback).
Definition wire_ok `{ProtobufRuntime} (message : t) : Prop :=
  ok message /\ short_bytes (encode message).
End PunchHoleResponse.

Lemma PunchHoleResponse_shrinks `{ProtobufLaws} : field_shrinks PunchHoleResponse.field.
Proof. solve_shrinks PunchHoleResponse.field. Qed.
Lemma PunchHoleResponse_roundtrip `{ProtobufLaws} m r :
  PunchHoleResponse.ok m -> PunchHoleResponse.decode (len r) (PunchHoleResponse.encode m ++ r) = Ret (m, r).
Proof.
  start_roundtrip PunchHoleResponse.ok PunchHoleResponse.createBase PunchHoleResponse.encode PunchHoleResponse.decode.
  step_scalar PunchHoleResponse_shrinks (fun v m => m <| PunchHoleResponse.socket_addr := v |>).
  step_scalar PunchHoleResponse_shrinks (fun v m => m <| PunchHoleResponse.pk := v |>).
  step_scalar PunchHoleResponse_shrinks (fun v m => m <| PunchHoleResponse.failure := v |>).
  step_scalar PunchHoleResponse_shrinks (fun v m => m <| PunchHoleResponse.relay_server := v |>).
  step_opt PunchHoleResponse_shrinks (fun v m => m <| PunchHoleResponse.nat_type := v |>).
  step_opt PunchHoleResponse_shrinks (fun v m => m <| PunchHoleResponse.is_local := v |>).
  step_scalar PunchHoleResponse_shrinks (fun v m => m <| PunchHoleResponse.other_failure := v |>).
  step_scalar PunchHoleResponse_shrinks (fun v m => m <| PunchHoleResponse.feedback := v |>).
  finish_roundtrip m.
Qed.
Lemma PunchHoleResponse_codec_ok `{ProtobufLaws} : scalar_ok PunchHoleResponse.codec PunchHoleResponse.wire_ok.
Proof. apply embedded_ok; [apply decode_with_shrinks, PunchHoleResponse_shrinks|apply PunchHoleResponse_roundtrip]. Qed.
#[export] Hint Resolve PunchHoleResponse_codec_ok : scalar_ok.

(** ** [RequestRelay] (rendezvous.ts, lines 275-284 and 1402-1514) *)
Module RequestRelay.
Record t := mk {
  id : string;
  uuid : string;
  socket_addr : bytes;
  relay_server : string;
  secure : bool;
  licence_key : string;
  conn_type : Z;
  token : string;
}.
Definition createBase : t := {|
  id := "";
  uuid := "";
  socket_addr := [];
  relay_server := "";
  secure := false;
  licence_key := "";
  conn_type := 0;
  token := "" |}.
Definition encode `{ProtobufRuntime} (message : t) : bytes :=
  unless (message.(id) =? "")%string (tagged 10 (wr pb_string message.(id))) ++
  unless (message.(uuid) =? "")%string (tagged 18 (wr pb_string message.(uuid))) ++
  unless (len message.(socket_addr) =? 0) (tagged 26 (wr pb_bytes message.(socket_addr))) ++
  unless (message.(relay_server) =? "")%string (tagged 34 (wr pb_string message.(relay_server))) ++
  unless (negb message.(secure)) (tagged 40 (wr pb_bool message.(secure))) ++
  unless (message.(licence_key) =? "")%string (tagged 50 (wr pb_string message.(licence_key))) ++
  unless (message.(conn_type) =? 0) (tagged 56 (wr pb_int32 message.(conn_type))) ++
  unless (message.(token) =? "")%string (tagged 66 (wr pb_string message.(token))).
Definition field `{ProtobufRuntime} (tag : Z) (reader : bytes) (message : t) : field_step t :=
  match Z.shiftr tag 3 with
  | 1 =>
      if negb (tag =? 10) then Break else
      Continue (fld pb_string (fun v => message <| id := v |>) reader)
  | 2 =>
      if negb (tag =? 18) then Break else
      Continue (fld pb_string (fun v => message <| uuid := v |>) reader)
  | 3 =>
      if negb (tag =? 26) then Break else
      Continue (fld pb_bytes (fun v => message <| socket_addr := v |>) reader)
  | 4 =>
      if negb (tag =? 34) then Break else
      Continue (fld pb_string (fun v => message <| relay_server := v |>) reader)
  | 5 =>
      if negb (tag =? 40) then Break else
      Continue (fld pb_bool (fun v => message <| secure := v |>) reader)
  | 6 =>
      if negb (tag =? 50) then Break else
      Continue (fld pb_string (fun v => message <| licence_key := v |>) reader)
  | 7 =>
      if negb (tag =? 56) then Break else
      Continue (fld pb_int32 (fun v => message <| conn_type := v |>) reader)
  | 8 =>
      if negb (tag =? 66) then Break else
      Continue (fld pb_string (fun v => message <| token := v |>) reader)
  | _ => Break
  end.
Definition decode `{ProtobufRuntime} : Z -> bytes -> outcome (t * bytes) :=
  decode_with field createBase.
Definition codec `{ProtobufRuntime} : scalar t := embedded encode decode.
(** The values the wire format can carry. *)
Definition ok `{ProtobufRuntime} (message : t) : Prop :=
  short_string message.(id) /\
  short_string message.(uuid) /\
  short_bytes message.(socket_addr) /\
  short_string message.(relay_server) /\
  short_string message.(licence_key) /\
  in_int32 message.(conn_type) /\
  short_string message.(token).
Definition wire_ok `{ProtobufRuntime} (message : t) : Prop :=
  ok message /\ short_bytes (encode message).
End RequestRelay.

Lemma RequestRelay_shrinks `{ProtobufLaws} : field_shrinks RequestRelay.field.
Proof. solve_shrinks RequestRelay.field. Qed.
Lemma RequestRelay_roundtrip `{ProtobufLaws} m r :
  RequestRelay.ok m -> RequestRelay.decode (len r) (RequestRelay.encode m ++ r) = Ret (m, r).
Proof.
  start_roundtrip RequestRelay.ok RequestRelay.createBase RequestRelay.encode RequestRelay.decode.
  step_scalar RequestRelay_shrinks (fun v m => m <| RequestRelay.id := v |>).
  step_scalar RequestRelay_shrinks (fun v m => m <| RequestRelay.uuid := v |>).
  step_scalar RequestRelay_shrinks (fun v m => m <| RequestRelay.socket_addr := v |>).
  step_scalar RequestRelay_shrinks (fun v m => m <| RequestRelay.relay_server := v |>).
  step_scalar RequestRelay_shrinks (fun v m => m <| RequestRelay.secure := v |>).
  step_scalar RequestRelay_shrinks (fun v m => m <| RequestRelay.licence_key := v |>).
  step_scalar RequestRelay_shrinks (fun v m => m <| RequestRelay.conn_type := v |>).
  step_scalar RequestRelay_shrinks (fun v m => m <| RequestRelay.token := v |>).
  finish_roundtrip m.
Qed.
Lemma RequestRelay_codec_ok `{ProtobufLaws} : scalar_ok RequestRelay.codec RequestRelay.wire_ok.
Proof. apply embedded_ok; [apply decode_with_shrinks, RequestRelay_shrinks|apply RequestRelay_roundtrip]. Qed.
#[export] Hint Resolve RequestRelay_codec_ok : scalar_ok.

(** ** [RelayResponse] (rendezvous.ts, lines 286-295 and 1575-1687) *)
Module RelayResponse.
Record t := mk {
  socket_addr : bytes;
  uuid : string;
  relay_server : string;
  id : maybe string;
  pk : maybe bytes;
  refuse_reason : string;
  version : string;
  feedback : Z;
}.
Definition createBase : t := {|
  socket_addr := [];
  uuid := "";
  relay_server := "";
  id := None;
  pk := None;
  refuse_reason := "";
  version := "";
  feedback := 0 |}.
Definition encode `{ProtobufRuntime} (message : t) : bytes :=
  unless (len message.(socket_addr) =? 0) (tagged 10 (wr pb_bytes message.(socket_addr))) ++
  unless (message.(uuid) =? "")%string (tagged 18 (wr pb_string message.(uuid))) ++
  unless (message.(relay_server) =? "")%string (tagged 26 (wr pb_string message.(relay_server))) ++
  if_set message.(id) (fun v => tagged 34 (wr pb_string v)) ++
  if_set message.(pk) (fun v => tagged 42 (wr pb_bytes v)) ++
  unless (message.(refuse_reason) =? "")%string (tagged 50 (wr pb_string message.(refuse_reason))) ++
  unless (message.(version) =? "")%string (tagged 58 (wr pb_string message.(version))) ++
  unless (message.(feedback) =? 0) (tagged 72 (wr pb_int32 message.(feedback))).
Definition field `{ProtobufRuntime} (tag : Z) (reader : bytes) (message : t) : field_step t :=
  match Z.shiftr tag 3 with
  | 1 =>
      if negb (tag =? 10) then Break else
      Continue (fld pb_bytes (fun v => message <| socket_addr := v |>) reader)
  | 2 =>
      if negb (tag =? 18) then Break else
      Continue (fld pb_string (fun v => message <| uuid := v |>) reader)
  | 3 =>
      if negb (tag =? 26) then Break else
      Continue (fld pb_string (fun v => message <| relay_server := v |>) reader)
  | 4 =>
      if negb (tag =? 34) then Break else
      Continue (fld pb_string (fun v => message <| id := Some v |>) reader)
  | 5 =>
      if negb (tag =? 42) then Break else
      Continue (fld pb_bytes (fun v => message <| pk := Some v |>) reader)
  | 6 =>
      if negb (tag =? 50) then Break else
      Continue (fld pb_string (fun v => message <| refuse_reason := v |>) reader)
  | 7 =>
      if negb (tag =? 58) then Break else
      Continue (fld pb_string (fun v => message <| version := v |>) reader)
  | 9 =>
      if negb (tag =? 72) then Break else
      Continue (fld pb_int32 (fun v => message <| feedback := v |>) reader)
  | _ => Break
  end.
Definition decode `{ProtobufRuntime} : Z -> bytes -> outcome (t * bytes) :=
  decode_with field createBase.
Definition codec `{ProtobufRuntime} : scalar t := embedded encode decode.
(** The values the wire format can carry. *)
Definition ok `{ProtobufRuntime} (message : t) : Prop :=
  short_bytes message.(socket_addr) /\
  short_string message.(uuid) /\
  short_string message.(relay_server) /\
  from_option short_string True message.(id) /\
  from_option short_bytes True message.(pk) /\
  short_string message.(refuse_reason) /\
  short_string message.(version) /\
  in_int32 message.(feedback).
Definition wire_ok `{ProtobufRuntime} (message : t) : Prop :=
  ok message /\ short_bytes (encode message).
End RelayResponse.

Lemma RelayResponse_shrinks `{ProtobufLaws} : field_shrinks RelayResponse.field.
Proof. solve_shrinks RelayResponse.field. Qed.
Lemma RelayResponse_roundtrip `{ProtobufLaws} m r :
  RelayResponse.ok m -> RelayResponse.decode (len r) (RelayResponse.encode m ++ r) = Ret (m, r).
Proof.
  start_roundtrip RelayResponse.ok RelayResponse.createBase RelayResponse.encode RelayResponse.decode.
  step_scalar RelayResponse_shrinks (fun v m => m <| RelayResponse.socket_addr := v |>).
  step_scalar RelayResponse_shrinks (fun v m => m <| RelayResponse.uuid := v |>).
  step_scalar RelayResponse_shrinks (fun v m => m <| RelayResponse.relay_server := v |>).
  step_opt RelayResponse_shrinks (fun v m => m <| RelayResponse.id := v |>).
  step_opt RelayResponse_shrinks (fun v m => m <| RelayResponse.pk := v |>).
  step_scalar RelayResponse_shrinks (fun v m => m <| RelayResponse.refuse_reason := v |>).
  step_scalar RelayResponse_shrinks (fun v m => m <| RelayResponse.version := v |>).
  step_scalar RelayResponse_shrinks (fun v m => m <| RelayResponse.feedback := v |>).
  finish_roundtrip m.
Qed.
Lemma RelayResponse_codec_ok `{ProtobufLaws} : scalar_ok RelayResponse.codec RelayResponse.wire_ok.
Proof. apply embedded_ok; [apply decode_with_shrinks, RelayResponse_shrinks|apply RelayResponse_roundtrip]. Qed.
#[export] Hint Resolve RelayResponse_codec_ok : scalar_ok.

(** ** [SoftwareUpdate] (rendezvous.ts, lines 297-299 and 1748-1781) *)
Module SoftwareUpdate.
Record t := mk {
  url : string;
}.
Definition createBase : t := {|
  url := "" |}.
Definition encode `{ProtobufRuntime} (message : t) : bytes :=
  unless (message.(url) =? "")%string (tagged 10 (wr pb_string message.(url))).
Definition field `{ProtobufRuntime} (tag : Z) (reader : bytes) (message : t) : field_step t :=
  match Z.shiftr tag 3 with
  | 1 =>
      if negb (tag =? 10) then Break else
      Continue (fld pb_string (fun v => message <| url := v |>) reader)
  | _ => Break
  end.
Definition decode `{ProtobufRuntime} : Z -> bytes -> outcome (t * bytes) :=
  decode_with field createBase.
Definition codec `{ProtobufRuntime} : scalar t := embedded encode decode.
(** The values the wire format can carry. *)
Definition ok `{ProtobufRuntime} (message : t) : Prop :=
  short_string message.(url).
Definition wire_ok `{ProtobufRuntime} (message : t) : Prop :=
  ok message /\ short_bytes (encode message).
End SoftwareUpdate.

Lemma SoftwareUpdate_shrinks `{ProtobufLaws} : field_shrinks SoftwareUpdate.field.
Proof. solve_shrinks SoftwareUpdate.field. Qed.
Lemma SoftwareUpdate_roundtrip `{ProtobufLaws} m r :
  SoftwareUpdate.ok m -> SoftwareUpdate.decode (len r) (SoftwareUpdate.encode m ++ r) = Ret (m, r).
Proof.
  start_roundtrip SoftwareUpdate.ok SoftwareUpdate.createBase SoftwareUpdate.encode SoftwareUpdate.decode.
  step_scalar SoftwareUpdate_shrinks (fun v m => m <| SoftwareUpdate.url := v |>).
  finish_roundtrip m.
Qed.
Lemma SoftwareUpdate_codec_ok `{ProtobufLaws} : scalar_ok SoftwareUpdate.codec SoftwareUpdate.wire_ok.
Proof. apply embedded_ok; [apply decode_with_shrinks, SoftwareUpdate_shrinks|apply SoftwareUpdate_roundtrip]. Qed.
#[export] Hint Resolve SoftwareUpdate_codec_ok : scalar_ok.

(** ** [FetchLocalAddr] (rendezvous.ts, lines 307-310 and 1805-1848) *)
Module FetchLocalAddr.
Record t := mk {
  socket_addr : bytes;
  relay_server : string;
}.
Definition createBase : t := {|
  socket_addr := [];
  relay_server := "" |}.
Definition encode `{ProtobufRuntime} (message : t) : bytes :=
  unless (len message.(socket_addr) =? 0) (tagged 10 (wr pb_bytes message.(socket_addr))) ++
  unless (message.(relay_server) =? "")%string (tagged 18 (wr pb_string message.(relay_server))).
Definition field `{ProtobufRuntime} (tag : Z) (reader : bytes) (message : t) : field_step t :=
  match Z.shiftr tag 3 with
  | 1 =>
      if negb (tag =? 10) then Break else
      Continue (fld pb_bytes (fun v => message <| socket_addr := v |>) reader)
  | 2 =>
      if negb (tag =? 18) then Break else
      Continue (fld pb_string (fun v => message <| relay_server := v |>) reader)
  | _ => Break
  end.
Definition decode `{ProtobufRuntime} : Z -> bytes -> outcome (t * bytes) :=
  decode_with field createBase.
Definition codec `{ProtobufRuntime} : scalar t := embedded encode decode.
(** The values the wire format can carry. *)
Definition ok `{ProtobufRuntime} (message : t) : Prop :=
  short_bytes message.(socket_addr) /\
  short_string message.(relay_server).
Definition wire_ok `{ProtobufRuntime} (message : t) : Prop :=
  ok message /\ short_bytes (encode message).
End FetchLocalAddr.

Lemma FetchLocalAddr_shrinks `{ProtobufLaws} : field_shrinks FetchLocalAddr.field.
Proof. solve_shrinks FetchLocalAddr.field. Qed.
Lemma FetchLocalAddr_roundtrip `{ProtobufLaws} m r :
  FetchLocalAddr.ok m -> FetchLocalAddr.decode (len r) (FetchLocalAddr.encode m ++ r) = Ret (m, r).
Proof.
  start_roundtrip FetchLocalAddr.ok FetchLocalAddr.createBase FetchLocalAddr.encode FetchLocalAddr.decode.
  step_scalar FetchLocalAddr_shrinks (fun v m => m <| FetchLocalAddr.socket_addr := v |>).
  step_scalar FetchLocalAddr_shrinks (fun v m => m <| FetchLocalAddr.relay_server := v |>).
  finish_roundtrip m.
Qed.
Lemma FetchLocalAddr_codec_ok `{ProtobufLaws} : scalar_ok FetchLocalAddr.codec FetchLocalAddr.wire_ok.
Proof. apply embedded_ok; [apply decode_with_shrinks, FetchLocalAddr_shrinks|apply FetchLocalAddr_roundtrip]. Qed.
#[export] Hint Resolve FetchLocalAddr_codec_ok : scalar_ok.

(** ** [LocalAddr] (rendezvous.ts, lines 312-318 and 1879-1952) *)
Module LocalAddr.
Record t := mk {
  socket_addr : bytes;
  local_addr : bytes;
  relay_server : string;
  id : string;
  version : string;
}.
Definition createBase : t := {|
  socket_addr := [];
  local_addr := [];
  relay_server := "";
  id := "";
  version := "" |}.
Definition encode `{ProtobufRuntime} (message : t) : bytes :=
  unless (len message.(socket_addr) =? 0) (tagged 10 (wr pb_bytes message.(socket_addr))) ++
  unless (len message.(local_addr) =? 0) (tagged 18 (wr pb_bytes message.(local_addr))) ++
  unless (message.(relay_server) =? "")%string (tagged 26 (wr pb_string message.(relay_server))) ++
  unless (message.(id) =? "")%string (tagged 34 (wr pb_string message.(id))) ++
  unless (message.(version) =? "")%string (tagged 42 (wr pb_string message.(version))).
Definition field `{ProtobufRuntime} (tag : Z) (reader : bytes) (message : t) : field_step t :=
  match Z.shiftr tag 3 with
  | 1 =>
      if negb (tag =? 10) then Break else
      Continue (fld pb_bytes (fun v => message <| socket_addr := v |>) reader)
  | 2 =>
      if negb (tag =? 18) then Break else
      Continue (fld pb_bytes (fun v => message <| local_addr := v |>) reader)
  | 3 =>
      if negb (tag =? 26) then Break else
      Continue (fld pb_string (fun v => message <| relay_server := v |>) reader)
  | 4 =>
      if negb (tag =? 34) then Break else
      Continue (fld pb_string (fun v => message <| id := v |>) reader)
  | 5 =>
      if negb (tag =? 42) then Break else
      Continue (fld pb_string (fun v => message <| version := v |>) reader)
  | _ => Break
  end.
Definition decode `{ProtobufRuntime} : Z -> bytes -> outcome (t * bytes) :=
  decode_with field createBase.
Definition codec `{ProtobufRuntime} : scalar t := embedded encode decode.
(** The values the wire format can carry. *)
Definition ok `{ProtobufRuntime} (message : t) : Prop :=
  short_bytes message.(socket_addr) /\
  short_bytes message.(local_addr) /\
  short_string message.(relay_server) /\
  short_string message.(id) /\
  short_string message.(version).
Definition wire_ok `{ProtobufRuntime} (message : t) : Prop :=
  ok message /\ short_bytes (encode message).
End LocalAddr.

Lemma LocalAddr_shrinks `{ProtobufLaws} : field_shrinks LocalAddr.field.
Proof. solve_shrinks LocalAddr.field. Qed.
Lemma LocalAddr_roundtrip `{ProtobufLaws} m r :
  LocalAddr.ok m -> LocalAddr.decode (len r) (LocalAddr.encode m ++ r) = Ret (m, r).
Proof.
  start_roundtrip LocalAddr.ok LocalAddr.createBase LocalAddr.encode LocalAddr.decode.
  step_scalar LocalAddr_shrinks (fun v m => m <| LocalAddr.socket_addr := v |>).
  step_scalar LocalAddr_shrinks (fun v m => m <| LocalAddr.local_addr := v |>).
  step_scalar LocalAddr_shrinks (fun v m => m <| LocalAddr.relay_server := v |>).
  step_scalar LocalAddr_shrinks (fun v m => m <| LocalAddr.id := v |>).
  step_scalar LocalAddr_shrinks (fun v m => m <| LocalAddr.version := v |>).
  finish_roundtrip m.
Qed.
Lemma LocalAddr_codec_ok `{ProtobufLaws} : scalar_ok LocalAddr.codec LocalAddr.wire_ok.
Proof. apply embedded_ok; [apply decode_with_shrinks, LocalAddr_shrinks|apply LocalAddr_roundtrip]. Qed.
#[export] Hint Resolve LocalAddr_codec_ok : scalar_ok.

(** ** [PeerDiscovery] (rendezvous.ts, lines 320-328 and 1998-2091) *)
Module PeerDiscovery.
Record t := mk {
  cmd : string;
  mac : string;
  id : string;
  username : string;
  hostname : string;
  platform : string;
  misc : string;
}.
Definition createBase : t := {|
  cmd := "";
  mac := "";
  id := "";
  username := "";
  hostname := "";
  platform := "";
  misc := "" |}.
Definition encode `{ProtobufRuntime} (message : t) : bytes :=
  unless (message.(cmd) =? "")%string (tagged 10 (wr pb_string message.(cmd))) ++
  unless (message.(mac) =? "")%string (tagged 18 (wr pb_string message.(mac))) ++
  unless (message.(id) =? "")%string (tagged 26 (wr pb_string message.(id))) ++
  unless (message.(username) =? "")%string (tagged 34 (wr pb_string message.(username))) ++
  unless (message.(hostname) =? "")%string (tagged 42 (wr pb_string message.(hostname))) ++
  unless (message.(platform) =? "")%string (tagged 50 (wr pb_string message.(platform))) ++
  unless (message.(misc) =? "")%string (tagged 58 (wr pb_string message.(misc))).
Definition field `{ProtobufRuntime} (tag : Z) (reader : bytes) (message : t) : field_step t :=
  match Z.shiftr tag 3 with
  | 1 =>
      if negb (tag =? 10) then Break else
      Continue (fld pb_string (fun v => message <| cmd := v |>) reader)
  | 2 =>
      if negb (tag =? 18) then Break else
      Continue (fld pb_string (fun v => message <| mac := v |>) reader)
  | 3 =>
      if negb (tag =? 26) then Break else
      Continue (fld pb_string (fun v => message <| id := v |>) reader)
  | 4 =>
      if negb (tag =? 34) then Break else
      Continue (fld pb_string (fun v => message <| username := v |>) reader)
  | 5 =>
      if negb (tag =? 42) then Break else
      Continue (fld pb_string (fun v => message <| hostname := v |>) reader)
  | 6 =>
      if negb (tag =? 50) then Break else
      Continue (fld pb_string (fun v => message <| platform := v |>) reader)
  | 7 =>
      if negb (tag =? 58) then Break else
      Continue (fld pb_string (fun v => message <| misc := v |>) reader)
  | _ => Break
  end.
Definition decode `{ProtobufRuntime} : Z -> bytes -> outcome (t * bytes) :=
  decode_with field createBase.
Definition codec `{ProtobufRuntime} : scalar t := embedded encode decode.
(** The values the wire format can carry. *)
Definition ok `{ProtobufRuntime} (message : t) : Prop :=
  short_string message.(cmd) /\
  short_string message.(mac) /\
  short_string message.(id) /\
  short_string message.(username) /\
  short_string message.(hostname) /\
  short_string message.(platform) /\
  short_string message.(misc).
Definition wire_ok `{ProtobufRuntime} (message : t) : Prop :=
  ok message /\ short_bytes (encode message).
End PeerDiscovery.

Lemma PeerDiscovery_shrinks `{ProtobufLaws} : field_shrinks PeerDiscovery.field.
Proof. solve_shrinks PeerDiscovery.field. Qed.
Lemma PeerDiscovery_roundtrip `{ProtobufLaws} m r :
  PeerDiscovery.ok m -> PeerDiscovery.decode (len r) (PeerDiscovery.encode m ++ r) = Ret (m, r).
Proof.
  start_roundtrip PeerDiscovery.ok PeerDiscovery.createBase PeerDiscovery.encode PeerDiscovery.decode.
  step_scalar PeerDiscovery_shrinks (fun v m => m <| PeerDiscovery.cmd := v |>).
  step_scalar PeerDiscovery_shrinks (fun v m => m <| PeerDiscovery.mac := v |>).
  step_scalar PeerDiscovery_shrinks (fun v m => m <| PeerDiscovery.id := v |>).
  step_scalar PeerDiscovery_shrinks (fun v m => m <| PeerDiscovery.username := v |>).
  step_scalar PeerDiscovery_shrinks (fun v m => m <| PeerDiscovery.hostname := v |>).
  step_scalar PeerDiscovery_shrinks (fun v m => m <| PeerDiscovery.platform := v |>).
  step_scalar PeerDiscovery_shrinks (fun v m => m <| PeerDiscovery.misc := v |>).
  finish_roundtrip m.
Qed.
Lemma PeerDiscovery_codec_ok `{ProtobufLaws} : scalar_ok PeerDiscovery.codec PeerDiscovery.wire_ok.
Proof. apply embedded_ok; [apply decode_with_shrinks, PeerDiscovery_shrinks|apply PeerDiscovery_roundtrip]. Qed.
#[export] Hint Resolve PeerDiscovery_codec_ok : scalar_ok.

(** ** [OnlineRequest] (rendezvous.ts, lines 330-333 and 2147-2190) *)
Module OnlineRequest.
Record t := mk {
  id : string;
  peers : list string;
}.
Definition createBase : t := {|
  id := "";
  peers := [] |}.
Definition encode `{ProtobufRuntime} (message : t) : bytes :=
  unless (message.(id) =? "")%string (tagged 10 (wr pb_string message.(id))) ++
  each message.(peers) (fun v => tagged 18 (wr pb_string v)).
Definition field `{ProtobufRuntime} (tag : Z) (reader : bytes) (message : t) : field_step t :=
  match Z.shiftr tag 3 with
  | 1 =>
      if negb (tag =? 10) then Break else
      Continue (fld pb_string (fun v => message <| id := v |>) reader)
  | 2 =>
      if negb (tag =? 18) then Break else
      Continue (fld pb_string (fun v => message <| peers := message.(peers) ++ [v] |>) reader)
  | _ => Break
  end.
Definition decode `{ProtobufRuntime} : Z -> bytes -> outcome (t * bytes) :=
  decode_with field createBase.
Definition codec `{ProtobufRuntime} : scalar t := embedded encode decode.
(** The values the wire format can carry. *)
Definition ok `{ProtobufRuntime} (message : t) : Prop :=
  short_string message.(id) /\
  Forall short_string message.(peers).
Definition wire_ok `{ProtobufRuntime} (message : t) : Prop :=
  ok message /\ short_bytes (encode message).
End OnlineRequest.

Lemma OnlineRequest_shrinks `{ProtobufLaws} : field_shrinks OnlineRequest.field.
Proof. solve_shrinks OnlineRequest.field. Qed.
Lemma OnlineRequest_roundtrip `{ProtobufLaws} m r :
  OnlineRequest.ok m -> OnlineRequest.decode (len r) (OnlineRequest.encode m ++ r) = Ret (m, r).
Proof.
  start_roundtrip OnlineRequest.ok OnlineRequest.createBase OnlineRequest.encode OnlineRequest.decode.
  step_scalar OnlineRequest_shrinks (fun v m => m <| OnlineRequest.id := v |>).
  step_each OnlineRequest_shrinks (fun v m => m <| OnlineRequest.peers := v |>).
  finish_roundtrip m.
Qed.
Lemma OnlineRequest_codec_ok `{ProtobufLaws} : scalar_ok OnlineRequest.codec OnlineRequest.wire_ok.
Proof. apply embedded_ok; [apply decode_with_shrinks, OnlineRequest_shrinks|apply OnlineRequest_roundtrip]. Qed.
#[export] Hint Resolve OnlineRequest_codec_ok : scalar_ok.

(** ** [OnlineResponse] (rendezvous.ts, lines 335-337 and 2221-2254) *)
Module OnlineResponse.
Record t := mk {
  states : bytes;
}.
Definition createBase : t := {|
  states := [] |}.
Definition encode `{ProtobufRuntime} (message : t) : bytes :=
  unless (len message.(states) =? 0) (tagged 10 (wr pb_bytes message.(states))).
Definition field `{ProtobufRuntime} (tag : Z) (reader : bytes) (message : t) : field_step t :=
  match Z.shiftr tag 3 with
  | 1 =>
      if negb (tag =? 10) then Break else
      Continue (fld pb_bytes (fun v => message <| states := v |>) reader)
  | _ => Break
  end.
Definition decode `{ProtobufRuntime} : Z -> bytes -> outcome (t * bytes) :=
  decode_with field createBase.
Definition codec `{ProtobufRuntime} : scalar t := embedded encode decode.
(** The values the wire format can carry. *)
Definition ok `{ProtobufRuntime} (message : t) : Prop :=
  short_bytes message.(states).
Definition wire_ok `{ProtobufRuntime} (message : t) : Prop :=
  ok message /\ short_bytes (encode message).
End OnlineResponse.

Lemma OnlineResponse_shrinks `{ProtobufLaws} : field_shrinks OnlineResponse.field.
Proof. solve_shrinks OnlineResponse.field. Qed.
Lemma OnlineResponse_roundtrip `{ProtobufLaws} m r :
  OnlineResponse.ok m -> OnlineResponse.decode (len r) (OnlineResponse.encode m ++ r) = Ret (m, r).
Proof.
  start_roundtrip OnlineResponse.ok OnlineResponse.createBase OnlineResponse.encode OnlineResponse.decode.
  step_scalar OnlineResponse_shrinks (fun v m => m <| OnlineResponse.states := v |>).
  finish_roundtrip m.
Qed.
Lemma OnlineResponse_codec_ok `{ProtobufLaws} : scalar_ok OnlineResponse.codec OnlineResponse.wire_ok.
Proof. apply embedded_ok; [apply decode_with_shrinks, OnlineResponse_shrinks|apply OnlineResponse_roundtrip]. Qed.
#[export] Hint Resolve OnlineResponse_codec_ok : scalar_ok.

(** ** [KeyExchange] (rendezvous.ts, lines 339-341 and 2278-2311) *)
Module KeyExchange.
Record t := mk {
  keys : list bytes;
}.
Definition createBase : t := {|
  keys := [] |}.
Definition encode `{ProtobufRuntime} (message : t) : bytes :=
  each message.(keys) (fun v => tagged 10 (wr pb_bytes v)).
Definition field `{ProtobufRuntime} (tag : Z) (reader : bytes) (message : t) : field_step t :=
  match Z.shiftr tag 3 with
  | 1 =>
      if negb (tag =? 10) then Break else
      Continue (fld pb_bytes (fun v => message <| keys := message.(keys) ++ [v] |>) reader)
  | _ => Break
  end.
Definition decode `{ProtobufRuntime} : Z -> bytes -> outcome (t * bytes) :=
  decode_with field createBase.
Definition codec `{ProtobufRuntime} : scalar t := embedded encode decode.
(** The values the wire format can carry. *)
Definition ok `{ProtobufRuntime} (message : t) : Prop :=
  Forall short_bytes message.(keys).
Definition wire_ok `{ProtobufRuntime} (message : t) : Prop :=
  ok message /\ short_bytes (encode message).
End KeyExchange.

Lemma KeyExchange_shrinks `{ProtobufLaws} : field_shrinks KeyExchange.field.
Proof. solve_shrinks KeyExchange.field. Qed.
Lemma KeyExchange_roundtrip `{ProtobufLaws} m r :
  KeyExchange.ok m -> KeyExchange.decode (len r) (KeyExchange.encode m ++ r) = Ret (m, r).
Proof.
  start_roundtrip KeyExchange.ok KeyExchange.createBase KeyExchange.encode KeyExchange.decode.
  step_each KeyExchange_shrinks (fun v m => m <| KeyExchange.keys := v |>).
  finish_roundtrip m.
Qed.
Lemma KeyExchange_codec_ok `{ProtobufLaws} : scalar_ok KeyExchange.codec KeyExchange.wire_ok.
Proof. apply embedded_ok; [apply decode_with_shrinks, KeyExchange_shrinks|apply KeyExchange_roundtrip]. Qed.
#[export] Hint Resolve KeyExchange_codec_ok : scalar_ok.

(** ** [HealthCheck] (rendezvous.ts, lines 343-345 and 2335-2368) *)
Module HealthCheck.
Record t := mk {
  token : string;
}.
Definition createBase : t := {|
  token := "" |}.
Definition encode `{ProtobufRuntime} (message : t) : bytes :=
  unless (message.(token) =? "")%string (tagged 10 (wr pb_string message.(token))).
Definition field `{ProtobufRuntime} (tag : Z) (reader : bytes) (message : t) : field_step t :=
  match Z.shiftr tag 3 with
  | 1 =>
      if negb (tag =? 10) then Break else
      Continue (fld pb_string (fun v => message <| token := v |>) reader)
  | _ => Break
  end.
Definition decode `{ProtobufRuntime} : Z -> bytes -> outcome (t * bytes) :=
  decode_with field createBase.
Definition codec `{ProtobufRuntime} : scalar t := embedded encode decode.
(** The values the wire format can carry. *)
Definition ok `{ProtobufRuntime} (message : t) : Prop :=
  short_string message.(token).
Definition wire_ok `{ProtobufRuntime} (message : t) : Prop :=
  ok message /\ short_bytes (encode message).
End HealthCheck.

Lemma HealthCheck_shrinks `{ProtobufLaws} : field_shrinks HealthCheck.field.
Proof. solve_shrinks HealthCheck.field. Qed.
Lemma HealthCheck_roundtrip `{ProtobufLaws} m r :
  HealthCheck.ok m -> HealthCheck.decode (len r) (HealthCheck.encode m ++ r) = Ret (m, r).
Proof.
  start_roundtrip HealthCheck.ok HealthCheck.createBase HealthCheck.encode HealthCheck.decode.
  step_scalar HealthCheck_shrinks (fun v m => m <| HealthCheck.token := v |>).
  finish_roundtrip m.
Qed.
Lemma HealthCheck_codec_ok `{ProtobufLaws} : scalar_ok HealthCheck.codec HealthCheck.wire_ok.
Proof. apply embedded_ok; [apply decode_with_shrinks, HealthCheck_shrinks|apply HealthCheck_roundtrip]. Qed.
#[export] Hint Resolve HealthCheck_codec_ok : scalar_ok.

(** ** [RendezvousMessage] (rendezvous.ts, lines 347-369 and 2392-2647) *)
Module RendezvousMessage.
Record t := mk {
  register_peer : maybe RegisterPeer.t;
  register_peer_response : maybe RegisterPeerResponse.t;
  punch_hole_request : maybe PunchHoleRequest.t;
  punch_hole : maybe PunchHole.t;
  punch_hole_sent : maybe PunchHoleSent.t;
  punch_hole_response : maybe PunchHoleResponse.t;
  fetch_local_addr : maybe FetchLocalAddr.t;
  local_addr : maybe LocalAddr.t;
  configure_update : maybe ConfigUpdate.t;
  register_pk : maybe RegisterPk.t;
  register_pk_response : maybe RegisterPkResponse.t;
  software_update : maybe SoftwareUpdate.t;
  request_relay : maybe RequestRelay.t;
  relay_response : maybe RelayResponse.t;
  test_nat_request : maybe TestNatRequest.t;
  test_nat_response : maybe TestNatResponse.t;
  peer_discovery : maybe PeerDiscovery.t;
  online_request : maybe OnlineRequest.t;
  online_response : maybe OnlineResponse.t;
  key_exchange : maybe KeyExchange.t;
  hc : maybe HealthCheck.t;
}.
Definition createBase : t := {|
  register_peer := None;
  register_peer_response := None;
  punch_hole_request := None;
  punch_hole := None;
  punch_hole_sent := None;
  punch_hole_response := None;
  fetch_local_addr := None;
  local_addr := None;
  configure_update := None;
  register_pk := None;
  register_pk_response := None;
  software_update := None;
  request_relay := None;
  relay_response := None;
  test_nat_request := None;
  test_nat_response := None;
  peer_discovery := None;
  online_request := None;
  online_response := None;
  key_exchange := None;
  hc := None |}.
Definition encode `{ProtobufRuntime} (message : t) : bytes :=
  if_set message.(register_peer) (fun v => tagged 50 (wr RegisterPeer.codec v)) ++
  if_set message.(register_peer_response) (fun v => tagged 58 (wr RegisterPeerResponse.codec v)) ++
  if_set message.(punch_hole_request) (fun v => tagged 66 (wr PunchHoleRequest.codec v)) ++
  if_set message.(punch_hole) (fun v => tagged 74 (wr PunchHole.codec v)) ++
  if_set message.(punch_hole_sent) (fun v => tagged 82 (wr PunchHoleSent.codec v)) ++
  if_set message.(punch_hole_response) (fun v => tagged 90 (wr PunchHoleResponse.codec v)) ++
  if_set message.(fetch_local_addr) (fun v => tagged 98 (wr FetchLocalAddr.codec v)) ++
  if_set message.(local_addr) (fun v => tagged 106 (wr LocalAddr.codec v)) ++
  if_set message.(configure_update) (fun v => tagged 114 (wr ConfigUpdate.codec v)) ++
  if_set message.(register_pk) (fun v => tagged 122 (wr RegisterPk.codec v)) ++
  if_set message.(register_pk_response) (fun v => tagged 130 (wr RegisterPkResponse.codec v)) ++
  if_set message.(software_update) (fun v => tagged 138 (wr SoftwareUpdate.codec v)) ++
  if_set message.(request_relay) (fun v => tagged 146 (wr RequestRelay.codec v)) ++
  if_set message.(relay_response) (fun v => tagged 154 (wr RelayResponse.codec v)) ++
  if_set message.(test_nat_request) (fun v => tagged 162 (wr TestNatRequest.codec v)) ++
  if_set message.(test_nat_response) (fun v => tagged 170 (wr TestNatResponse.codec v)) ++
  if_set message.(peer_discovery) (fun v => tagged 178 (wr PeerDiscovery.codec v)) ++
  if_set message.(online_request) (fun v => tagged 186 (wr OnlineRequest.codec v)) ++
  if_set message.(online_response) (fun v => tagged 194 (wr OnlineResponse.codec v)) ++
  if_set message.(key_exchange) (fun v => tagged 202 (wr KeyExchange.codec v)) ++
  if_set message.(hc) (fun v => tagged 210 (wr HealthCheck.codec v)).
Definition field `{ProtobufRuntime} (tag : Z) (reader : bytes) (message : t) : field_step t :=
  match Z.shiftr tag 3 with
  | 6 =>
      if negb (tag =? 50) then Break else
      Continue (fld RegisterPeer.codec (fun v => message <| register_peer := Some v |>) reader)
  | 7 =>
      if negb (tag =? 58) then Break else
      Continue (fld RegisterPeerResponse.codec (fun v => message <| register_peer_response := Some v |>) reader)
  | 8 =>
      if negb (tag =? 66) then Break else
      Continue (fld PunchHoleRequest.codec (fun v => message <| punch_hole_request := Some v |>) reader)
  | 9 =>
      if negb (tag =? 74) then Break else
      Continue (fld PunchHole.codec (fun v => message <| punch_hole := Some v |>) reader)
  | 10 =>
      if negb (tag =? 82) then Break else
      Continue (fld PunchHoleSent.codec (fun v => message <| punch_hole_sent := Some v |>) reader)
  | 11 =>
      if negb (tag =? 90) then Break else
      Continue (fld PunchHoleResponse.codec (fun v => message <| punch_hole_response := Some v |>) reader)
  | 12 =>
      if negb (tag =? 98) then Break else
      Continue (fld FetchLocalAddr.codec (fun v => message <| fetch_local_addr := Some v |>) reader)
  | 13 =>
      if negb (tag =? 106) then Break else
      Continue (fld LocalAddr.codec (fun v => message <| local_addr := Some v |>) reader)
  | 14 =>
      if negb (tag =? 114) then Break else
      Continue (fld ConfigUpdate.codec (fun v => message <| configure_update := Some v |>) reader)
  | 15 =>
      if negb (tag =? 122) then Break else
      Continue (fld RegisterPk.codec (fun v => message <| register_pk := Some v |>) reader)
  | 16 =>
      if negb (tag =? 130) then Break else
      Continue (fld RegisterPkResponse.codec (fun v => message <| register_pk_response := Some v |>) reader)
  | 17 =>
      if negb (tag =? 138) then Break else
      Continue (fld SoftwareUpdate.codec (fun v => message <| software_update := Some v |>) reader)
  | 18 =>
      if negb (tag =? 146) then Break else
      Continue (fld RequestRelay.codec (fun v => message <| request_relay := Some v |>) reader)
  | 19 =>
      if negb (tag =? 154) then Break else
      Continue (fld RelayResponse.codec (fun v => message <| relay_response := Some v |>) reader)
  | 20 =>
      if negb (tag =? 162) then Break else
      Continue (fld TestNatRequest.codec (fun v => message <| test_nat_request := Some v |>) reader)
  | 21 =>
      if negb (tag =? 170) then Break else
      Continue (fld TestNatResponse.codec (fun v => message <| test_nat_response := Some v |>) reader)
  | 22 =>
      if negb (tag =? 178) then Break else
      Continue (fld PeerDiscovery.codec (fun v => message <| peer_discovery := Some v |>) reader)
  | 23 =>
      if negb (tag =? 186) then Break else
      Continue (fld OnlineRequest.codec (fun v => message <| online_request := Some v |>) reader)
  | 24 =>
      if negb (tag =? 194) then Break else
      Continue (fld OnlineResponse.codec (fun v => message <| online_response := Some v |>) reader)
  | 25 =>
      if negb (tag =? 202) then Break else
      Continue (fld KeyExchange.codec (fun v => message <| key_exchange := Some v |>) reader)
  | 26 =>
      if negb (tag =? 210) then Break else
      Continue (fld HealthCheck.codec (fun v => message <| hc := Some v |>) reader)
  | _ => Break
  end.
Definition decode `{ProtobufRuntime} : Z -> bytes -> outcome (t * bytes) :=
  decode_with field createBase.
Definition codec `{ProtobufRuntime} : scalar t := embedded encode decode.
(** The values the wire format can carry. *)
Definition ok `{ProtobufRuntime} (message : t) : Prop :=
  from_option RegisterPeer.wire_ok True message.(register_peer) /\
  from_option RegisterPeerResponse.wire_ok True message.(register_peer_response) /\
  from_option PunchHoleRequest.wire_ok True message.(punch_hole_request) /\
  from_option PunchHole.wire_ok True message.(punch_hole) /\
  from_option PunchHoleSent.wire_ok True message.(punch_hole_sent) /\
  from_option PunchHoleResponse.wire_ok True message.(punch_hole_response) /\
  from_option FetchLocalAddr.wire_ok True message.(fetch_local_addr) /\
  from_option LocalAddr.wire_ok True message.(local_addr) /\
  from_option ConfigUpdate.wire_ok True message.(configure_update) /\
  from_option RegisterPk.wire_ok True message.(register_pk) /\
  from_option RegisterPkResponse.wire_ok True message.(register_pk_response) /\
  from_option SoftwareUpdate.wire_ok True message.(software_update) /\
  from_option RequestRelay.wire_ok True message.(request_relay) /\
  from_option RelayResponse.wire_ok True message.(relay_response) /\
  from_option TestNatRequest.wire_ok True message.(test_nat_request) /\
  from_option TestNatResponse.wire_ok True message.(test_nat_response) /\
  from_option PeerDiscovery.wire_ok True message.(peer_discovery) /\
  from_option OnlineRequest.wire_ok True message.(online_request) /\
  from_option OnlineResponse.wire_ok True message.(online_response) /\
  from_option KeyExchange.wire_ok True message.(key_exchange) /\
  from_option HealthCheck.wire_ok True message.(hc).
Definition wire_ok `{ProtobufRuntime} (message : t) : Prop :=
  ok message /\ short_bytes (encode message).
End RendezvousMessage.

Lemma RendezvousMessage_shrinks `{ProtobufLaws} : field_shrinks RendezvousMessage.field.
Proof. solve_shrinks RendezvousMessage.field. Qed.
Lemma RendezvousMessage_roundtrip `{ProtobufLaws} m r :
  RendezvousMessage.ok m -> RendezvousMessage.decode (len r) (RendezvousMessage.encode m ++ r) = Ret (m, r).
Proof.
  start_roundtrip RendezvousMessage.ok RendezvousMessage.createBase RendezvousMessage.encode RendezvousMessage.decode.
  step_opt RendezvousMessage_shrinks (fun v m => m <| RendezvousMessage.register_peer := v |>).
  step_opt RendezvousMessage_shrinks (fun v m => m <| RendezvousMessage.register_peer_response := v |>).
  step_opt RendezvousMessage_shrinks (fun v m => m <| RendezvousMessage.punch_hole_request := v |>).
  step_opt RendezvousMessage_shrinks (fun v m => m <| RendezvousMessage.punch_hole := v |>).
  step_opt RendezvousMessage_shrinks (fun v m => m <| RendezvousMessage.punch_hole_sent := v |>).
  step_opt RendezvousMessage_shrinks (fun v m => m <| RendezvousMessage.punch_hole_response := v |>).
  step_opt RendezvousMessage_shrinks (fun v m => m <| RendezvousMessage.fetch_local_addr := v |>).
  step_opt RendezvousMessage_shrinks (fun v m => m <| RendezvousMessage.local_addr := v |>).
  step_opt RendezvousMessage_shrinks (fun v m => m <| RendezvousMessage.configure_update := v |>).
  step_opt RendezvousMessage_shrinks (fun v m => m <| RendezvousMessage.register_pk := v |>).
  step_opt RendezvousMessage_shrinks (fun v m => m <| RendezvousMessage.register_pk_response := v |>).
  step_opt RendezvousMessage_shrinks (fun v m => m <| RendezvousMessage.software_update := v |>).
  step_opt RendezvousMessage_shrinks (fun v m => m <| RendezvousMessage.request_relay := v |>).
  step_opt RendezvousMessage_shrinks (fun v m => m <| RendezvousMessage.relay_response := v |>).
  step_opt RendezvousMessage_shrinks (fun v m => m <| RendezvousMessage.test_nat_request := v |>).
  step_opt RendezvousMessage_shrinks (fun v m => m <| RendezvousMessage.test_nat_response := v |>).
  step_opt RendezvousMessage_shrinks (fun v m => m <| RendezvousMessage.peer_discovery := v |>).
  step_opt RendezvousMessage_shrinks (fun v m => m <| RendezvousMessage.online_request := v |>).
  step_opt RendezvousMessage_shrinks (fun v m => m <| RendezvousMessage.online_response := v |>).
  step_opt RendezvousMessage_shrinks (fun v m => m <| RendezvousMessage.key_exchange := v |>).
  step_opt RendezvousMessage_shrinks (fun v m => m <| RendezvousMessage.hc := v |>).
  finish_roundtrip m.
Qed.
Lemma RendezvousMessage_codec_ok `{ProtobufLaws} : scalar_ok RendezvousMessage.codec RendezvousMessage.wire_ok.
Proof. apply embedded_ok; [apply decode_with_shrinks, RendezvousMessage_shrinks|apply RendezvousMessage_roundtrip]. Qed.
#[export] Hint Resolve RendezvousMessage_codec_ok : scalar_ok.
