(* ===== verification/ProtoEnums.v ===== *)
(** * Generated enumerations

    The enums of [proto/message.ts] and [proto/rendezvous.ts]: their numbers, and the generated
    [...FromJSON] and [...ToJSON] functions, whose [switch] is the table [names].  The value [-1]
    ([UNRECOGNIZED]) is what [fromJSON] answers for anything that is not in the table. *)
From S2P Require Import Prelude.

Abbreviation enum := (list (string * Z)).

(** [switch (object) { case n: case "Name": return n; ... default: return UNRECOGNIZED }] *)
Definition enum_fromJSON (names : enum) (object : jsval) : Z :=
  match object with
  | VNum n => if existsb (fun e => e.2 =? n) names then n else -1
  | VStr s => from_option snd (-1) (find (fun e => (e.1 =? s)%string) names)
  | _ => -1
  end.
(** [switch (object) { case E.Name: return "Name"; ... default: return "UNRECOGNIZED" }] *)
Definition enum_toJSON (names : enum) (object : Z) : string :=
  from_option fst "UNRECOGNIZED"%string (find (fun e => e.2 =? object) names).

(** A table whose names differ and whose numbers differ. *)
Definition enum_ok (names : enum) : Prop := NoDup names.*1 /\ NoDup names.*2.

Lemma find_fst (names : enum) e :
  NoDup names.*1 -> e ∈ names -> find (fun f => (f.1 =? e.1)%string) names = Some e.
Proof.
  induction names as [|f names IH]; intros Hn He; [by apply not_elem_of_nil in He|].
  cbn in Hn. apply NoDup_cons in Hn as [Hf Hn]. apply elem_of_cons in He as [->|He]; cbn.
  - by rewrite String.eqb_refl.
  - destruct (String.eqb_spec f.1 e.1) as [E|_]; [|by apply IH].
    destruct Hf. rewrite E. by apply list_elem_of_fmap_2.
Qed.

Lemma find_snd (names : enum) e :
  NoDup names.*2 -> e ∈ names -> find (fun f => f.2 =? e.2) names = Some e.
Proof.
  induction names as [|f names IH]; intros Hn He; [by apply not_elem_of_nil in He|].
  cbn in Hn. apply NoDup_cons in Hn as [Hf Hn]. apply elem_of_cons in He as [->|He]; cbn.
  - by rewrite Z.eqb_refl.
  - destruct (Z.eqb_spec f.2 e.2) as [E|_]; [|by apply IH].
    destruct Hf. rewrite E. by apply list_elem_of_fmap_2.
Qed.

(** Names and numbers of a table convert into each other. *)
Lemma enum_roundtrip (names : enum) (v : Z) :
  enum_ok names -> v ∈ names.*2 ->
  enum_fromJSON names (VStr (enum_toJSON names v)) = v /\ enum_fromJSON names (VNum v) = v.
Proof.
  intros [Hs Hz] Hv. apply list_elem_of_fmap_1 in Hv as (e & -> & He).
  unfold enum_toJSON, enum_fromJSON. rewrite (find_snd _ _ Hz He). cbn.
  rewrite (find_fst _ _ Hs He). split; [done|].
  replace (existsb (fun f => f.2 =? e.2) names) with true; [done|].
  symmetry. apply existsb_exists. exists e. split; [by apply list_elem_of_In|apply Z.eqb_refl].
Qed.

(** [Chroma] (message.ts, lines 13-17) *)
Module Chroma.
Definition I420 : Z := 0.
Definition I444 : Z := 1.
Definition UNRECOGNIZED : Z := -1.
Definition names : enum :=
  [("I420", I420); ("I444", I444)].
Definition fromJSON : jsval -> Z := enum_fromJSON names.
Definition toJSON : Z -> string := enum_toJSON names.
End Chroma.

(** [KeyboardMode] (message.ts, lines 46-52) *)
Module KeyboardMode.
Definition Legacy : Z := 0.
Definition Map : Z := 1.
Definition Translate : Z := 2.
Definition Auto : Z := 3.
Definition UNRECOGNIZED : Z := -1.
Definition names : enum :=
  [("Legacy", Legacy); ("Map", Map); ("Translate", Translate); ("Auto", Auto)].
Definition fromJSON : jsval -> Z := enum_fromJSON names.
Definition toJSON : Z -> string := enum_toJSON names.
End KeyboardMode.

(** [ControlKey] (message.ts, lines 91-180) *)
Module ControlKey.
Definition Unknown : Z := 0.
Definition Alt : Z := 1.
Definition Backspace : Z := 2.
Definition CapsLock : Z := 3.
Definition Control : Z := 4.
Definition Delete : Z := 5.
Definition DownArrow : Z := 6.
Definition End : Z := 7.
Definition Escape : Z := 8.
Definition F1 : Z := 9.
Definition F10 : Z := 10.
Definition F11 : Z := 11.
Definition F12 : Z := 12.
Definition F2 : Z := 13.
Definition F3 : Z := 14.
Definition F4 : Z := 15.
Definition F5 : Z := 16.
Definition F6 : Z := 17.
Definition F7 : Z := 18.
Definition F8 : Z := 19.
Definition F9 : Z := 20.
Definition Home : Z := 21.
Definition LeftArrow : Z := 22.
Definition Meta : Z := 23.
Definition Option : Z := 24.
Definition PageDown : Z := 25.
Definition PageUp : Z := 26.
Definition Return : Z := 27.
Definition RightArrow : Z := 28.
Definition Shift : Z := 29.
Definition Space : Z := 30.
Definition Tab : Z := 31.
Definition UpArrow : Z := 32.
Definition Numpad0 : Z := 33.
Definition Numpad1 : Z := 34.
Definition Numpad2 : Z := 35.
Definition Numpad3 : Z := 36.
Definition Numpad4 : Z := 37.
Definition Numpad5 : Z := 38.
Definition Numpad6 : Z := 39.
Definition Numpad7 : Z := 40.
Definition Numpad8 : Z := 41.
Definition Numpad9 : Z := 42.
Definition Cancel : Z := 43.
Definition Clear : Z := 44.
Definition Menu : Z := 45.
Definition Pause : Z := 46.
Definition Kana : Z := 47.
Definition Hangul : Z := 48.
Definition Junja : Z := 49.
Definition Final : Z := 50.
Definition Hanja : Z := 51.
Definition Kanji : Z := 52.
Definition Convert : Z := 53.
Definition Select : Z := 54.
Definition Print : Z := 55.
Definition Execute : Z := 56.
Definition Snapshot : Z := 57.
Definition Insert : Z := 58.
Definition Help : Z := 59.
Definition Sleep : Z := 60.
Definition Separator : Z := 61.
Definition Scroll : Z := 62.
Definition NumLock : Z := 63.
Definition RWin : Z := 64.
Definition Apps : Z := 65.
Definition Multiply : Z := 66.
Definition Add : Z := 67.
Definition Subtract : Z := 68.
Definition Decimal : Z := 69.
Definition Divide : Z := 70.
Definition Equals : Z := 71.
Definition NumpadEnter : Z := 72.
Definition RShift : Z := 73.
Definition RControl : Z := 74.
Definition RAlt : Z := 75.
Definition VolumeMute : Z := 76.
Definition VolumeUp : Z := 77.
Definition VolumeDown : Z := 78.
Definition Power : Z := 79.
Definition CtrlAltDel : Z := 100.
Definition LockScreen : Z := 101.
Definition UNRECOGNIZED : Z := -1.
Definition names : enum :=
  [("Unknown", Unknown); ("Alt", Alt); ("Backspace", Backspace); ("CapsLock", CapsLock);
   ("Control", Control); ("Delete", Delete); ("DownArrow", DownArrow); ("End", End); ("Escape",
   Escape); ("F1", F1); ("F10", F10); ("F11", F11); ("F12", F12); ("F2", F2); ("F3", F3); ("F4",
   F4); ("F5", F5); ("F6", F6); ("F7", F7); ("F8", F8); ("F9", F9); ("Home", Home);
   ("LeftArrow", LeftArrow); ("Meta", Meta); ("Option", Option); ("PageDown", PageDown);
   ("PageUp", PageUp); ("Return", Return); ("RightArrow", RightArrow); ("Shift", Shift);
   ("Space", Space); ("Tab", Tab); ("UpArrow", UpArrow); ("Numpad0", Numpad0); ("Numpad1",
   Numpad1); ("Numpad2", Numpad2); ("Numpad3", Numpad3); ("Numpad4", Numpad4); ("Numpad5",
   Numpad5); ("Numpad6", Numpad6); ("Numpad7", Numpad7); ("Numpad8", Numpad8); ("Numpad9",
   Numpad9); ("Cancel", Cancel); ("Clear", Clear); ("Menu", Menu); ("Pause", Pause); ("Kana",
   Kana); ("Hangul", Hangul); ("Junja", Junja); ("Final", Final); ("Hanja", Hanja); ("Kanji",
   Kanji); ("Convert", Convert); ("Select", Select); ("Print", Print); ("Execute", Execute);
   ("Snapshot", Snapshot); ("Insert", Insert); ("Help", Help); ("Sleep", Sleep); ("Separator",
   Separator); ("Scroll", Scroll); ("NumLock", NumLock); ("RWin", RWin); ("Apps", Apps);
   ("Multiply", Multiply); ("Add", Add); ("Subtract", Subtract); ("Decimal", Decimal);
   ("Divide", Divide); ("Equals", Equals); ("NumpadEnter", NumpadEnter); ("RShift", RShift);
   ("RControl", RControl); ("RAlt", RAlt); ("VolumeMute", VolumeMute); ("VolumeUp", VolumeUp);
   ("VolumeDown", VolumeDown); ("Power", Power); ("CtrlAltDel", CtrlAltDel); ("LockScreen",
   LockScreen)].
Definition fromJSON : jsval -> Z := enum_fromJSON names.
Definition toJSON : Z -> string := enum_toJSON names.
End ControlKey.

(** [ClipboardFormat] (message.ts, lines 609-618) *)
Module ClipboardFormat.
Definition Text : Z := 0.
Definition Rtf : Z := 1.
Definition Html : Z := 2.
Definition ImageRgba : Z := 21.
Definition ImagePng : Z := 22.
Definition ImageSvg : Z := 23.
Definition Special : Z := 31.
Definition UNRECOGNIZED : Z := -1.
Definition names : enum :=
  [("Text", Text); ("Rtf", Rtf); ("Html", Html); ("ImageRgba", ImageRgba); ("ImagePng",
   ImagePng); ("ImageSvg", ImageSvg); ("Special", Special)].
Definition fromJSON : jsval -> Z := enum_fromJSON names.
Definition toJSON : Z -> string := enum_toJSON names.
End ClipboardFormat.

(** [FileType] (message.ts, lines 672-679) *)
Module FileType.
Definition Dir : Z := 0.
Definition DirLink : Z := 2.
Definition DirDrive : Z := 3.
Definition File : Z := 4.
Definition FileLink : Z := 5.
Definition UNRECOGNIZED : Z := -1.
Definition names : enum :=
  [("Dir", Dir); ("DirLink", DirLink); ("DirDrive", DirDrive); ("File", File); ("FileLink",
   FileLink)].
Definition fromJSON : jsval -> Z := enum_fromJSON names.
Definition toJSON : Z -> string := enum_toJSON names.
End FileType.

(** [ImageQuality] (message.ts, lines 723-729) *)
Module ImageQuality.
Definition NotSet : Z := 0.
Definition Low : Z := 2.
Definition Balanced : Z := 3.
Definition Best : Z := 4.
Definition UNRECOGNIZED : Z := -1.
Definition names : enum :=
  [("NotSet", NotSet); ("Low", Low); ("Balanced", Balanced); ("Best", Best)].
Definition fromJSON : jsval -> Z := enum_fromJSON names.
Definition toJSON : Z -> string := enum_toJSON names.
End ImageQuality.

(** [PermissionInfo_Permission] (message.ts, lines 1258-1267) *)
Module PermissionInfo_Permission.
Definition Keyboard : Z := 0.
Definition Clipboard : Z := 2.
Definition Audio : Z := 3.
Definition File : Z := 4.
Definition Restart : Z := 5.
Definition Recording : Z := 6.
Definition BlockInput : Z := 7.
Definition UNRECOGNIZED : Z := -1.
Definition names : enum :=
  [("Keyboard", Keyboard); ("Clipboard", Clipboard); ("Audio", Audio); ("File", File);
   ("Restart", Restart); ("Recording", Recording); ("BlockInput", BlockInput)].
Definition fromJSON : jsval -> Z := enum_fromJSON names.
Definition toJSON : Z -> string := enum_toJSON names.
End PermissionInfo_Permission.

(** [SupportedDecoding_PreferCodec] (message.ts, lines 1332-1340) *)
Module SupportedDecoding_PreferCodec.
Definition Auto : Z := 0.
Definition VP9 : Z := 1.
Definition H264 : Z := 2.
Definition H265 : Z := 3.
Definition VP8 : Z := 4.
Definition AV1 : Z := 5.
Definition UNRECOGNIZED : Z := -1.
Definition names : enum :=
  [("Auto", Auto); ("VP9", VP9); ("H264", H264); ("H265", H265); ("VP8", VP8); ("AV1", AV1)].
Definition fromJSON : jsval -> Z := enum_fromJSON names.
Definition toJSON : Z -> string := enum_toJSON names.
End SupportedDecoding_PreferCodec.

(** [OptionMessage_BoolOption] (message.ts, lines 1412-1417) *)
Module OptionMessage_BoolOption.
Definition NotSet : Z := 0.
Definition No : Z := 1.
Definition Yes : Z := 2.
Definition UNRECOGNIZED : Z := -1.
Definition names : enum :=
  [("NotSet", NotSet); ("No", No); ("Yes", Yes)].
Definition fromJSON : jsval -> Z := enum_fromJSON names.
Definition toJSON : Z -> string := enum_toJSON names.
End OptionMessage_BoolOption.

(** [BackNotification_BlockInputState] (message.ts, lines 1503-1510) *)
Module BackNotification_BlockInputState.
Definition BlkStateUnknown : Z := 0.
Definition BlkOnSucceeded : Z := 2.
Definition BlkOnFailed : Z := 3.
Definition BlkOffSucceeded : Z := 4.
Definition BlkOffFailed : Z := 5.
Definition UNRECOGNIZED : Z := -1.
Definition names : enum :=
  [("BlkStateUnknown", BlkStateUnknown); ("BlkOnSucceeded", BlkOnSucceeded); ("BlkOnFailed",
   BlkOnFailed); ("BlkOffSucceeded", BlkOffSucceeded); ("BlkOffFailed", BlkOffFailed)].
Definition fromJSON : jsval -> Z := enum_fromJSON names.
Definition toJSON : Z -> string := enum_toJSON names.
End BackNotification_BlockInputState.

(** [BackNotification_PrivacyModeState] (message.ts, lines 1554-1576) *)
Module BackNotification_PrivacyModeState.
Definition PrvStateUnknown : Z := 0.
Definition PrvOnByOther : Z := 2.
Definition PrvNotSupported : Z := 3.
Definition PrvOnSucceeded : Z := 4.
Definition PrvOnFailedDenied : Z := 5.
Definition PrvOnFailedPlugin : Z := 6.
Definition PrvOnFailed : Z := 7.
Definition PrvOffSucceeded : Z := 8.
Definition PrvOffByPeer : Z := 9.
Definition PrvOffFailed : Z := 10.
Definition PrvOffUnknown : Z := 11.
Definition UNRECOGNIZED : Z := -1.
Definition names : enum :=
  [("PrvStateUnknown", PrvStateUnknown); ("PrvOnByOther", PrvOnByOther); ("PrvNotSupported",
   PrvNotSupported); ("PrvOnSucceeded", PrvOnSucceeded); ("PrvOnFailedDenied",
   PrvOnFailedDenied); ("PrvOnFailedPlugin", PrvOnFailedPlugin); ("PrvOnFailed", PrvOnFailed);
   ("PrvOffSucceeded", PrvOffSucceeded); ("PrvOffByPeer", PrvOffByPeer); ("PrvOffFailed",
   PrvOffFailed); ("PrvOffUnknown", PrvOffUnknown)].
Definition fromJSON : jsval -> Z := enum_fromJSON names.
Definition toJSON : Z -> string := enum_toJSON names.
End BackNotification_PrivacyModeState.

(** [ConnType] (rendezvous.ts, lines 12-18) *)
Module ConnType.
Definition DEFAULT_CONN : Z := 0.
Definition FILE_TRANSFER : Z := 1.
Definition PORT_FORWARD : Z := 2.
Definition RDP : Z := 3.
Definition UNRECOGNIZED : Z := -1.
Definition names : enum :=
  [("DEFAULT_CONN", DEFAULT_CONN); ("FILE_TRANSFER", FILE_TRANSFER); ("PORT_FORWARD",
   PORT_FORWARD); ("RDP", RDP)].
Definition fromJSON : jsval -> Z := enum_fromJSON names.
Definition toJSON : Z -> string := enum_toJSON names.
End ConnType.

(** [NatType] (rendezvous.ts, lines 57-62) *)
Module NatType.
Definition UNKNOWN_NAT : Z := 0.
Definition ASYMMETRIC : Z := 1.
Definition SYMMETRIC : Z := 2.
Definition UNRECOGNIZED : Z := -1.
Definition names : enum :=
  [("UNKNOWN_NAT", UNKNOWN_NAT); ("ASYMMETRIC", ASYMMETRIC); ("SYMMETRIC", SYMMETRIC)].
Definition fromJSON : jsval -> Z := enum_fromJSON names.
Definition toJSON : Z -> string := enum_toJSON names.
End NatType.

(** [RegisterPkResponse_Result] (rendezvous.ts, lines 151-160) *)
Module RegisterPkResponse_Result.
Definition OK : Z := 0.
Definition UUID_MISMATCH : Z := 2.
Definition ID_EXISTS : Z := 3.
Definition TOO_FREQUENT : Z := 4.
Definition INVALID_ID_FORMAT : Z := 5.
Definition NOT_SUPPORT : Z := 6.
Definition SERVER_ERROR : Z := 7.
Definition UNRECOGNIZED : Z := -1.
Definition names : enum :=
  [("OK", OK); ("UUID_MISMATCH", UUID_MISMATCH); ("ID_EXISTS", ID_EXISTS); ("TOO_FREQUENT",
   TOO_FREQUENT); ("INVALID_ID_FORMAT", INVALID_ID_FORMAT); ("NOT_SUPPORT", NOT_SUPPORT);
   ("SERVER_ERROR", SERVER_ERROR)].
Definition fromJSON : jsval -> Z := enum_fromJSON names.
Definition toJSON : Z -> string := enum_toJSON names.
End RegisterPkResponse_Result.

(** [PunchHoleResponse_Failure] (rendezvous.ts, lines 225-231) *)
Module PunchHoleResponse_Failure.
Definition ID_NOT_EXIST : Z := 0.
Definition OFFLINE : Z := 2.
Definition LICENSE_MISMATCH : Z := 3.
Definition LICENSE_OVERUSE : Z := 4.
Definition UNRECOGNIZED : Z := -1.
Definition names : enum :=
  [("ID_NOT_EXIST", ID_NOT_EXIST); ("OFFLINE", OFFLINE); ("LICENSE_MISMATCH", LICENSE_MISMATCH);
   ("LICENSE_OVERUSE", LICENSE_OVERUSE)].
Definition fromJSON : jsval -> Z := enum_fromJSON names.
Definition toJSON : Z -> string := enum_toJSON names.
End PunchHoleResponse_Failure.

(** Every generated table is well formed. *)
Ltac solve_enum_ok := split; apply (bool_decide_unpack _); vm_compute; exact I.
Lemma ControlKey_ok : enum_ok ControlKey.names.
Proof. solve_enum_ok. Qed.
