(* ===== verification/ProtoTypes.v ===== *)
(** * What decoding yields is well typed

    The fields of a message are numbers of a width.  Each [_typed] predicate says that the fields
    of a message, and of the messages in it, are within their types: 32-bit fields within 32 bits,
    64-bit fields integers that a JS number holds exactly.  Decoding establishes it for whatever
    bytes arrive ([decodes_typed]), given what protobufjs documents of its readers
    ([ProtobufTypes]). *)
From S2P Require Import Prelude ProtoWire ProtoFile ProtoMedia ProtoSession ProtoMessage ProtoRendezvous.

(** Whatever [rd s] reads satisfies [P]. *)
Definition scalar_typed {A} (s : scalar A) (P : A -> Prop) : Prop :=
  forall r v r', rd s r = Ret (v, r') -> P v.
Class ProtobufTypes `{ProtobufRuntime} : Prop := {
  uint32_typed : scalar_typed pb_uint32 in_uint32;
  int32_typed : scalar_typed pb_int32 in_int32;
  sint32_typed : scalar_typed pb_sint32 in_int32;
  uint64_typed : scalar_typed pb_uint64 in_uint64;
  int64_typed : scalar_typed pb_int64 in_int64;
}.

(** ** Fields *)
Lemma longToNumber_typed z n : longToNumber z = Ret n -> n = z /\ safe_int z.
Proof.
  unfold longToNumber, safe_int. destruct (Z.ltb_spec MAX_SAFE_INTEGER z); [done|].
  destruct (Z.ltb_spec z (- MAX_SAFE_INTEGER)); [done|]. intros [= <-]. lia.
Qed.
Section Fields.
Context `{ProtobufTypes}.
Lemma rd_number_typed s P r v r' : scalar_typed s P -> rd_number s r = Ret (v, r') -> P v /\ safe_int v.
Proof.
  intros Hs. unfold rd_number. destruct (rd s r) as [[z r1]|e|] eqn:E; js_simpl; [|done..].
  destruct (longToNumber z) as [n|e|] eqn:El; js_simpl; [|done..]. intros [= <- <-].
  apply longToNumber_typed in El as [-> Hz]. split; [by eapply Hs|done].
Qed.
Lemma uint64_number_typed : scalar_typed uint64_number safe_uint.
Proof.
  intros r v r' E. apply (rd_number_typed _ _ _ _ _ uint64_typed) in E. unfold in_uint64, safe_int, safe_uint in *. lia.
Qed.
Lemma int64_number_typed : scalar_typed int64_number safe_int.
Proof. intros r v r' E. by apply (rd_number_typed _ _ _ _ _ int64_typed) in E as [_ ?]. Qed.
Lemma anything_typed {A} (s : scalar A) : scalar_typed s (fun _ => True).
Proof. done. Qed.
Lemma read_packed_typed {A} (s : scalar A) P fuel stop r acc vs r' : scalar_typed s P -> Forall P acc ->
  read_packed s fuel stop r acc = Ret (vs, r') -> Forall P vs.
Proof.
  intros Hs. revert r acc. induction fuel as [|fuel IH]; intros r acc Hacc; cbn [read_packed]; [done|].
  destruct (len r <=? stop); [by intros [= <- _]|].
  destruct (rd s r) as [[v r1]|e|] eqn:E; js_simpl; [|done..]. apply IH, Forall_app.
  split; [done|]. apply Forall_singleton. by eapply Hs.
Qed.
Lemma packed_typed {A} (s : scalar A) P acc : scalar_typed s P -> Forall P acc -> scalar_typed (packed s acc) (Forall P).
Proof.
  intros Hs Hacc r vs r'. cbn [packed rd]. destruct (rd pb_uint32 r) as [[n r1]|e|]; js_simpl; [|done..].
  by apply read_packed_typed.
Qed.
Lemma fld_typed {A M} (s : scalar A) P (set : A -> M) r m r' :
  scalar_typed s P -> fld s set r = Ret (m, r') -> exists v, P v /\ m = set v.
Proof.
  intros Hs. unfold fld. destruct (rd s r) as [[v r1]|e|] eqn:E; js_simpl; [|done..]. intros [= <- <-].
  exists v. split; [by eapply Hs|done].
Qed.
Lemma pushed_typed {A} (P : A -> Prop) l v : Forall P l -> P v -> Forall P (l ++ [v]).
Proof. intros Hl Hv. apply Forall_app. split; [done|]. by apply Forall_singleton. Qed.
End Fields.

(** ** Messages *)
(** The default message is well typed, and reading one more field keeps it so. *)
Definition decodes_typed `{ProtobufRuntime} {M} (field : Z -> bytes -> M -> field_step M) (base : M) (P : M -> Prop) : Prop :=
  P base /\ forall tag r m m' r', P m -> field tag r m = Continue (Ret (m', r')) -> P m'.
Section Messages.
Context `{ProtobufTypes} {M : Type} (field : Z -> bytes -> M -> field_step M) (base : M) (P : M -> Prop).
Hypothesis Htyped : decodes_typed field base P.
Lemma read_fields_typed fuel stop r m m' r' : P m -> read_fields field fuel stop r m = Ret (m', r') -> P m'.
Proof.
  revert r m. induction fuel as [|fuel IH]; intros r m Hm; cbn [read_fields]; [done|].
  destruct (len r <=? stop); [by intros [= <- _]|].
  destruct (rd pb_uint32 r) as [[tag r1]|e|]; js_simpl; [|done..].
  destruct (field tag r1 m) as [o|] eqn:Ef.
  - destruct o as [[m1 r2]|e|]; js_simpl; [|done..]. apply IH. destruct Htyped as [_ Hfield]. by eapply Hfield.
  - destruct (_ || _); [by intros [= <- _]|].
    destruct (skipType _ r1) as [r2|e|]; js_simpl; [|done..]. by apply IH.
Qed.
Lemma decode_typed stop r m r' : decode_with field base stop r = Ret (m, r') -> P m.
Proof. apply read_fields_typed, Htyped. Qed.
Lemma embedded_typed encode : scalar_typed (embedded encode (decode_with field base)) P.
Proof.
  intros r m r'. cbn [embedded rd]. destruct (rd pb_uint32 r) as [[n r1]|e|]; js_simpl; [|done..].
  apply decode_typed.
Qed.
End Messages.

Create HintDb typed.
#[export] Hint Resolve uint32_typed int32_typed sint32_typed uint64_number_typed int64_number_typed
  embedded_typed : typed.
Ltac field_typed Hf :=
  lazymatch type of Hf with
  | fld (packed _ _) _ _ = _ => eapply fld_typed in Hf; [|apply packed_typed; [eauto with typed|assumption]]
  | _ => eapply fld_typed in Hf; [|first [solve [eauto 3 with typed] | apply anything_typed]]
  end.
Ltac zero_typed := first
  [ exact I | apply Forall_nil_2 | unfold in_uint32, in_int32, safe_uint, safe_int, MAX_SAFE_INTEGER; lia ].
Tactic Notation "solve_typed" reference(field) reference(typed) :=
  split; [unfold typed; cbn; split_and?; zero_typed|];
  let m := fresh "m" in let Hm := fresh "Hm" in let Hf := fresh "Hf" in
  intros ? ? m ? ? Hm Hf; unfold typed in Hm; destruct_and? Hm;
  unfold field in Hf; repeat (case_match; try discriminate Hf); try discriminate Hf;
  injection Hf as Hf; field_typed Hf;
  let v := fresh "v" in let Hv := fresh "Hv" in destruct Hf as (v & Hv & ->);
  unfold typed; destruct m; cbn in *; split_and?;
  first [ assumption | exact I | by apply pushed_typed ].

(** ** [proto/message.ts] *)
Definition EncodedVideoFrame_typed (message : EncodedVideoFrame.t) : Prop :=
  safe_int message.(EncodedVideoFrame.pts).
Lemma EncodedVideoFrame_decodes_typed `{ProtobufTypes} : decodes_typed EncodedVideoFrame.field EncodedVideoFrame.createBase EncodedVideoFrame_typed.
Proof. solve_typed EncodedVideoFrame.field EncodedVideoFrame_typed. Qed.
#[export] Hint Resolve EncodedVideoFrame_decodes_typed : typed.
Definition EncodedVideoFrames_typed (message : EncodedVideoFrames.t) : Prop :=
  Forall EncodedVideoFrame_typed message.(EncodedVideoFrames.frames).
Lemma EncodedVideoFrames_decodes_typed `{ProtobufTypes} : decodes_typed EncodedVideoFrames.field EncodedVideoFrames.createBase EncodedVideoFrames_typed.
Proof. solve_typed EncodedVideoFrames.field EncodedVideoFrames_typed. Qed.
#[export] Hint Resolve EncodedVideoFrames_decodes_typed : typed.
Definition RGB_typed (message : RGB.t) : Prop :=
  True.
Lemma RGB_decodes_typed `{ProtobufTypes} : decodes_typed RGB.field RGB.createBase RGB_typed.
Proof. solve_typed RGB.field RGB_typed. Qed.
#[export] Hint Resolve RGB_decodes_typed : typed.
Definition YUV_typed (message : YUV.t) : Prop :=
  in_int32 message.(YUV.stride).
Lemma YUV_decodes_typed `{ProtobufTypes} : decodes_typed YUV.field YUV.createBase YUV_typed.
Proof. solve_typed YUV.field YUV_typed. Qed.
#[export] Hint Resolve YUV_decodes_typed : typed.
Definition VideoFrame_typed (message : VideoFrame.t) : Prop :=
  from_option EncodedVideoFrames_typed True message.(VideoFrame.vp9s) /\
  from_option RGB_typed True message.(VideoFrame.rgb) /\
  from_option YUV_typed True message.(VideoFrame.yuv) /\
  from_option EncodedVideoFrames_typed True message.(VideoFrame.h264s) /\
  from_option EncodedVideoFrames_typed True message.(VideoFrame.h265s) /\
  from_option EncodedVideoFrames_typed True message.(VideoFrame.vp8s) /\
  from_option EncodedVideoFrames_typed True message.(VideoFrame.av1s) /\
  in_int32 message.(VideoFrame.display).
Lemma VideoFrame_decodes_typed `{ProtobufTypes} : decodes_typed VideoFrame.field VideoFrame.createBase VideoFrame_typed.
Proof. solve_typed VideoFrame.field VideoFrame_typed. Qed.
#[export] Hint Resolve VideoFrame_decodes_typed : typed.
Definition IdPk_typed (message : IdPk.t) : Prop :=
  True.
Lemma IdPk_decodes_typed `{ProtobufTypes} : decodes_typed IdPk.field IdPk.createBase IdPk_typed.
Proof. solve_typed IdPk.field IdPk_typed. Qed.
#[export] Hint Resolve IdPk_decodes_typed : typed.
Definition Resolution_typed (message : Resolution.t) : Prop :=
  in_int32 message.(Resolution.width) /\
  in_int32 message.(Resolution.height).
Lemma Resolution_decodes_typed `{ProtobufTypes} : decodes_typed Resolution.field Resolution.createBase Resolution_typed.
Proof. solve_typed Resolution.field Resolution_typed. Qed.
#[export] Hint Resolve Resolution_decodes_typed : typed.
Definition DisplayInfo_typed (message : DisplayInfo.t) : Prop :=
  in_int32 message.(DisplayInfo.x) /\
  in_int32 message.(DisplayInfo.y) /\
  in_int32 message.(DisplayInfo.width) /\
  in_int32 message.(DisplayInfo.height) /\
  from_option Resolution_typed True message.(DisplayInfo.original_resolution).
Lemma DisplayInfo_decodes_typed `{ProtobufTypes} : decodes_typed DisplayInfo.field DisplayInfo.createBase DisplayInfo_typed.
Proof. solve_typed DisplayInfo.field DisplayInfo_typed. Qed.
#[export] Hint Resolve DisplayInfo_decodes_typed : typed.
Definition PortForward_typed (message : PortForward.t) : Prop :=
  in_int32 message.(PortForward.port).
Lemma PortForward_decodes_typed `{ProtobufTypes} : decodes_typed PortForward.field PortForward.createBase PortForward_typed.
Proof. solve_typed PortForward.field PortForward_typed. Qed.
#[export] Hint Resolve PortForward_decodes_typed : typed.
Definition FileTransfer_typed (message : FileTransfer.t) : Prop :=
  True.
Lemma FileTransfer_decodes_typed `{ProtobufTypes} : decodes_typed FileTransfer.field FileTransfer.createBase FileTransfer_typed.
Proof. solve_typed FileTransfer.field FileTransfer_typed. Qed.
#[export] Hint Resolve FileTransfer_decodes_typed : typed.
Definition OSLogin_typed (message : OSLogin.t) : Prop :=
  True.
Lemma OSLogin_decodes_typed `{ProtobufTypes} : decodes_typed OSLogin.field OSLogin.createBase OSLogin_typed.
Proof. solve_typed OSLogin.field OSLogin_typed. Qed.
#[export] Hint Resolve OSLogin_decodes_typed : typed.
Definition CodecAbility_typed (message : CodecAbility.t) : Prop :=
  True.
Lemma CodecAbility_decodes_typed `{ProtobufTypes} : decodes_typed CodecAbility.field CodecAbility.createBase CodecAbility_typed.
Proof. solve_typed CodecAbility.field CodecAbility_typed. Qed.
#[export] Hint Resolve CodecAbility_decodes_typed : typed.
Definition SupportedDecoding_typed (message : SupportedDecoding.t) : Prop :=
  in_int32 message.(SupportedDecoding.ability_vp9) /\
  in_int32 message.(SupportedDecoding.ability_h264) /\
  in_int32 message.(SupportedDecoding.ability_h265) /\
  in_int32 message.(SupportedDecoding.prefer) /\
  in_int32 message.(SupportedDecoding.ability_vp8) /\
  in_int32 message.(SupportedDecoding.ability_av1) /\
  from_option CodecAbility_typed True message.(SupportedDecoding.i444) /\
  in_int32 message.(SupportedDecoding.prefer_chroma).
Lemma SupportedDecoding_decodes_typed `{ProtobufTypes} : decodes_typed SupportedDecoding.field SupportedDecoding.createBase SupportedDecoding_typed.
Proof. solve_typed SupportedDecoding.field SupportedDecoding_typed. Qed.
#[export] Hint Resolve SupportedDecoding_decodes_typed : typed.
Definition OptionMessage_typed (message : OptionMessage.t) : Prop :=
  in_int32 message.(OptionMessage.image_quality) /\
  in_int32 message.(OptionMessage.lock_after_session_end) /\
  in_int32 message.(OptionMessage.show_remote_cursor) /\
  in_int32 message.(OptionMessage.privacy_mode) /\
  in_int32 message.(OptionMessage.block_input) /\
  in_int32 message.(OptionMessage.custom_image_quality) /\
  in_int32 message.(OptionMessage.disable_audio) /\
  in_int32 message.(OptionMessage.disable_clipboard) /\
  in_int32 message.(OptionMessage.enable_file_transfer) /\
  from_option SupportedDecoding_typed True message.(OptionMessage.supported_decoding) /\
  in_int32 message.(OptionMessage.custom_fps) /\
  in_int32 message.(OptionMessage.disable_keyboard) /\
  in_int32 message.(OptionMessage.follow_remote_cursor) /\
  in_int32 message.(OptionMessage.follow_remote_window).
Lemma OptionMessage_decodes_typed `{ProtobufTypes} : decodes_typed OptionMessage.field OptionMessage.createBase OptionMessage_typed.
Proof. solve_typed OptionMessage.field OptionMessage_typed. Qed.
#[export] Hint Resolve OptionMessage_decodes_typed : typed.
Definition LoginRequest_typed (message : LoginRequest.t) : Prop :=
  from_option OptionMessage_typed True message.(LoginRequest.option) /\
  from_option FileTransfer_typed True message.(LoginRequest.file_transfer) /\
  from_option PortForward_typed True message.(LoginRequest.port_forward) /\
  safe_uint message.(LoginRequest.session_id) /\
  from_option OSLogin_typed True message.(LoginRequest.os_login).
Lemma LoginRequest_decodes_typed `{ProtobufTypes} : decodes_typed LoginRequest.field LoginRequest.createBase LoginRequest_typed.
Proof. solve_typed LoginRequest.field LoginRequest_typed. Qed.
#[export] Hint Resolve LoginRequest_decodes_typed : typed.
Definition Auth2FA_typed (message : Auth2FA.t) : Prop :=
  True.
Lemma Auth2FA_decodes_typed `{ProtobufTypes} : decodes_typed Auth2FA.field Auth2FA.createBase Auth2FA_typed.
Proof. solve_typed Auth2FA.field Auth2FA_typed. Qed.
#[export] Hint Resolve Auth2FA_decodes_typed : typed.
Definition ChatMessage_typed (message : ChatMessage.t) : Prop :=
  True.
Lemma ChatMessage_decodes_typed `{ProtobufTypes} : decodes_typed ChatMessage.field ChatMessage.createBase ChatMessage_typed.
Proof. solve_typed ChatMessage.field ChatMessage_typed. Qed.
#[export] Hint Resolve ChatMessage_decodes_typed : typed.
Definition Features_typed (message : Features.t) : Prop :=
  True.
Lemma Features_decodes_typed `{ProtobufTypes} : decodes_typed Features.field Features.createBase Features_typed.
Proof. solve_typed Features.field Features_typed. Qed.
#[export] Hint Resolve Features_decodes_typed : typed.
Definition SupportedEncoding_typed (message : SupportedEncoding.t) : Prop :=
  from_option CodecAbility_typed True message.(SupportedEncoding.i444).
Lemma SupportedEncoding_decodes_typed `{ProtobufTypes} : decodes_typed SupportedEncoding.field SupportedEncoding.createBase SupportedEncoding_typed.
Proof. solve_typed SupportedEncoding.field SupportedEncoding_typed. Qed.
#[export] Hint Resolve SupportedEncoding_decodes_typed : typed.
Definition SupportedResolutions_typed (message : SupportedResolutions.t) : Prop :=
  Forall Resolution_typed message.(SupportedResolutions.resolutions).
Lemma SupportedResolutions_decodes_typed `{ProtobufTypes} : decodes_typed SupportedResolutions.field SupportedResolutions.createBase SupportedResolutions_typed.
Proof. solve_typed SupportedResolutions.field SupportedResolutions_typed. Qed.
#[export] Hint Resolve SupportedResolutions_decodes_typed : typed.
Definition WindowsSession_typed (message : WindowsSession.t) : Prop :=
  in_uint32 message.(WindowsSession.sid).
Lemma WindowsSession_decodes_typed `{ProtobufTypes} : decodes_typed WindowsSession.field WindowsSession.createBase WindowsSession_typed.
Proof. solve_typed WindowsSession.field WindowsSession_typed. Qed.
#[export] Hint Resolve WindowsSession_decodes_typed : typed.
Definition WindowsSessions_typed (message : WindowsSessions.t) : Prop :=
  Forall WindowsSession_typed message.(WindowsSessions.sessions) /\
  in_uint32 message.(WindowsSessions.current_sid).
Lemma WindowsSessions_decodes_typed `{ProtobufTypes} : decodes_typed WindowsSessions.field WindowsSessions.createBase WindowsSessions_typed.
Proof. solve_typed WindowsSessions.field WindowsSessions_typed. Qed.
#[export] Hint Resolve WindowsSessions_decodes_typed : typed.
Definition PeerInfo_typed (message : PeerInfo.t) : Prop :=
  Forall DisplayInfo_typed message.(PeerInfo.displays) /\
  in_int32 message.(PeerInfo.current_display) /\
  from_option Features_typed True message.(PeerInfo.features) /\
  from_option SupportedEncoding_typed True message.(PeerInfo.encoding) /\
  from_option SupportedResolutions_typed True message.(PeerInfo.resolutions) /\
  from_option WindowsSessions_typed True message.(PeerInfo.windows_sessions).
Lemma PeerInfo_decodes_typed `{ProtobufTypes} : decodes_typed PeerInfo.field PeerInfo.createBase PeerInfo_typed.
Proof. solve_typed PeerInfo.field PeerInfo_typed. Qed.
#[export] Hint Resolve PeerInfo_decodes_typed : typed.
Definition LoginResponse_typed (message : LoginResponse.t) : Prop :=
  from_option PeerInfo_typed True message.(LoginResponse.peer_info).
Lemma LoginResponse_decodes_typed `{ProtobufTypes} : decodes_typed LoginResponse.field LoginResponse.createBase LoginResponse_typed.
Proof. solve_typed LoginResponse.field LoginResponse_typed. Qed.
#[export] Hint Resolve LoginResponse_decodes_typed : typed.
Definition TouchScaleUpdate_typed (message : TouchScaleUpdate.t) : Prop :=
  in_int32 message.(TouchScaleUpdate.scale).
Lemma TouchScaleUpdate_decodes_typed `{ProtobufTypes} : decodes_typed TouchScaleUpdate.field TouchScaleUpdate.createBase TouchScaleUpdate_typed.
Proof. solve_typed TouchScaleUpdate.field TouchScaleUpdate_typed. Qed.
#[export] Hint Resolve TouchScaleUpdate_decodes_typed : typed.
Definition TouchPanStart_typed (message : TouchPanStart.t) : Prop :=
  in_int32 message.(TouchPanStart.x) /\
  in_int32 message.(TouchPanStart.y).
Lemma TouchPanStart_decodes_typed `{ProtobufTypes} : decodes_typed TouchPanStart.field TouchPanStart.createBase TouchPanStart_typed.
Proof. solve_typed TouchPanStart.field TouchPanStart_typed. Qed.
#[export] Hint Resolve TouchPanStart_decodes_typed : typed.
Definition TouchPanUpdate_typed (message : TouchPanUpdate.t) : Prop :=
  in_int32 message.(TouchPanUpdate.x) /\
  in_int32 message.(TouchPanUpdate.y).
Lemma TouchPanUpdate_decodes_typed `{ProtobufTypes} : decodes_typed TouchPanUpdate.field TouchPanUpdate.createBase TouchPanUpdate_typed.
Proof. solve_typed TouchPanUpdate.field TouchPanUpdate_typed. Qed.
#[export] Hint Resolve TouchPanUpdate_decodes_typed : typed.
Definition TouchPanEnd_typed (message : TouchPanEnd.t) : Prop :=
  in_int32 message.(TouchPanEnd.x) /\
  in_int32 message.(TouchPanEnd.y).
Lemma TouchPanEnd_decodes_typed `{ProtobufTypes} : decodes_typed TouchPanEnd.field TouchPanEnd.createBase TouchPanEnd_typed.
Proof. solve_typed TouchPanEnd.field TouchPanEnd_typed. Qed.
#[export] Hint Resolve TouchPanEnd_decodes_typed : typed.
Definition TouchEvent_typed (message : TouchEvent.t) : Prop :=
  from_option TouchScaleUpdate_typed True message.(TouchEvent.scale_update) /\
  from_option TouchPanStart_typed True message.(TouchEvent.pan_start) /\
  from_option TouchPanUpdate_typed True message.(TouchEvent.pan_update) /\
  from_option TouchPanEnd_typed True message.(TouchEvent.pan_end).
Lemma TouchEvent_decodes_typed `{ProtobufTypes} : decodes_typed TouchEvent.field TouchEvent.createBase TouchEvent_typed.
Proof. solve_typed TouchEvent.field TouchEvent_typed. Qed.
#[export] Hint Resolve TouchEvent_decodes_typed : typed.
Definition PointerDeviceEvent_typed (message : PointerDeviceEvent.t) : Prop :=
  from_option TouchEvent_typed True message.(PointerDeviceEvent.touch_event) /\
  Forall in_int32 message.(PointerDeviceEvent.modifiers).
Lemma PointerDeviceEvent_decodes_typed `{ProtobufTypes} : decodes_typed PointerDeviceEvent.field PointerDeviceEvent.createBase PointerDeviceEvent_typed.
Proof. solve_typed PointerDeviceEvent.field PointerDeviceEvent_typed. Qed.
#[export] Hint Resolve PointerDeviceEvent_decodes_typed : typed.
Definition MouseEvent_typed (message : MouseEvent.t) : Prop :=
  in_int32 message.(MouseEvent.mask) /\
  in_int32 message.(MouseEvent.x) /\
  in_int32 message.(MouseEvent.y) /\
  Forall in_int32 message.(MouseEvent.modifiers).
Lemma MouseEvent_decodes_typed `{ProtobufTypes} : decodes_typed MouseEvent.field MouseEvent.createBase MouseEvent_typed.
Proof. solve_typed MouseEvent.field MouseEvent_typed. Qed.
#[export] Hint Resolve MouseEvent_decodes_typed : typed.
Definition KeyEvent_typed (message : KeyEvent.t) : Prop :=
  from_option in_int32 True message.(KeyEvent.control_key) /\
  from_option in_uint32 True message.(KeyEvent.chr) /\
  from_option in_uint32 True message.(KeyEvent.unicode) /\
  from_option in_uint32 True message.(KeyEvent.win2win_hotkey) /\
  Forall in_int32 message.(KeyEvent.modifiers) /\
  in_int32 message.(KeyEvent.mode).
Lemma KeyEvent_decodes_typed `{ProtobufTypes} : decodes_typed KeyEvent.field KeyEvent.createBase KeyEvent_typed.
Proof. solve_typed KeyEvent.field KeyEvent_typed. Qed.
#[export] Hint Resolve KeyEvent_decodes_typed : typed.
Definition CursorData_typed (message : CursorData.t) : Prop :=
  safe_uint message.(CursorData.id) /\
  in_int32 message.(CursorData.hotx) /\
  in_int32 message.(CursorData.hoty) /\
  in_int32 message.(CursorData.width) /\
  in_int32 message.(CursorData.height).
Lemma CursorData_decodes_typed `{ProtobufTypes} : decodes_typed CursorData.field CursorData.createBase CursorData_typed.
Proof. solve_typed CursorData.field CursorData_typed. Qed.
#[export] Hint Resolve CursorData_decodes_typed : typed.
Definition CursorPosition_typed (message : CursorPosition.t) : Prop :=
  in_int32 message.(CursorPosition.x) /\
  in_int32 message.(CursorPosition.y).
Lemma CursorPosition_decodes_typed `{ProtobufTypes} : decodes_typed CursorPosition.field CursorPosition.createBase CursorPosition_typed.
Proof. solve_typed CursorPosition.field CursorPosition_typed. Qed.
#[export] Hint Resolve CursorPosition_decodes_typed : typed.
Definition Hash_typed (message : Hash.t) : Prop :=
  True.
Lemma Hash_decodes_typed `{ProtobufTypes} : decodes_typed Hash.field Hash.createBase Hash_typed.
Proof. solve_typed Hash.field Hash_typed. Qed.
#[export] Hint Resolve Hash_decodes_typed : typed.
Definition Clipboard_typed (message : Clipboard.t) : Prop :=
  in_int32 message.(Clipboard.width) /\
  in_int32 message.(Clipboard.height) /\
  in_int32 message.(Clipboard.format).
Lemma Clipboard_decodes_typed `{ProtobufTypes} : decodes_typed Clipboard.field Clipboard.createBase Clipboard_typed.
Proof. solve_typed Clipboard.field Clipboard_typed. Qed.
#[export] Hint Resolve Clipboard_decodes_typed : typed.
Definition MultiClipboards_typed (message : MultiClipboards.t) : Prop :=
  Forall Clipboard_typed message.(MultiClipboards.clipboards).
Lemma MultiClipboards_decodes_typed `{ProtobufTypes} : decodes_typed MultiClipboards.field MultiClipboards.createBase MultiClipboards_typed.
Proof. solve_typed MultiClipboards.field MultiClipboards_typed. Qed.
#[export] Hint Resolve MultiClipboards_decodes_typed : typed.
Definition FileEntry_typed (message : FileEntry.t) : Prop :=
  in_int32 message.(FileEntry.entry_type) /\
  safe_uint message.(FileEntry.size) /\
  safe_uint message.(FileEntry.modified_time).
Lemma FileEntry_decodes_typed `{ProtobufTypes} : decodes_typed FileEntry.field FileEntry.createBase FileEntry_typed.
Proof. solve_typed FileEntry.field FileEntry_typed. Qed.
#[export] Hint Resolve FileEntry_decodes_typed : typed.
Definition FileDirectory_typed (message : FileDirectory.t) : Prop :=
  in_int32 message.(FileDirectory.id) /\
  Forall FileEntry_typed message.(FileDirectory.entries).
Lemma FileDirectory_decodes_typed `{ProtobufTypes} : decodes_typed FileDirectory.field FileDirectory.createBase FileDirectory_typed.
Proof. solve_typed FileDirectory.field FileDirectory_typed. Qed.
#[export] Hint Resolve FileDirectory_decodes_typed : typed.
Definition ReadDir_typed (message : ReadDir.t) : Prop :=
  True.
Lemma ReadDir_decodes_typed `{ProtobufTypes} : decodes_typed ReadDir.field ReadDir.createBase ReadDir_typed.
Proof. solve_typed ReadDir.field ReadDir_typed. Qed.
#[export] Hint Resolve ReadDir_decodes_typed : typed.
Definition ReadEmptyDirs_typed (message : ReadEmptyDirs.t) : Prop :=
  True.
Lemma ReadEmptyDirs_decodes_typed `{ProtobufTypes} : decodes_typed ReadEmptyDirs.field ReadEmptyDirs.createBase ReadEmptyDirs_typed.
Proof. solve_typed ReadEmptyDirs.field ReadEmptyDirs_typed. Qed.
#[export] Hint Resolve ReadEmptyDirs_decodes_typed : typed.
Definition ReadEmptyDirsResponse_typed (message : ReadEmptyDirsResponse.t) : Prop :=
  Forall FileDirectory_typed message.(ReadEmptyDirsResponse.empty_dirs).
Lemma ReadEmptyDirsResponse_decodes_typed `{ProtobufTypes} : decodes_typed ReadEmptyDirsResponse.field ReadEmptyDirsResponse.createBase ReadEmptyDirsResponse_typed.
Proof. solve_typed ReadEmptyDirsResponse.field ReadEmptyDirsResponse_typed. Qed.
#[export] Hint Resolve ReadEmptyDirsResponse_decodes_typed : typed.
Definition ReadAllFiles_typed (message : ReadAllFiles.t) : Prop :=
  in_int32 message.(ReadAllFiles.id).
Lemma ReadAllFiles_decodes_typed `{ProtobufTypes} : decodes_typed ReadAllFiles.field ReadAllFiles.createBase ReadAllFiles_typed.
Proof. solve_typed ReadAllFiles.field ReadAllFiles_typed. Qed.
#[export] Hint Resolve ReadAllFiles_decodes_typed : typed.
Definition FileRename_typed (message : FileRename.t) : Prop :=
  in_int32 message.(FileRename.id).
Lemma FileRename_decodes_typed `{ProtobufTypes} : decodes_typed FileRename.field FileRename.createBase FileRename_typed.
Proof. solve_typed FileRename.field FileRename_typed. Qed.
#[export] Hint Resolve FileRename_decodes_typed : typed.
Definition FileTransferSendRequest_typed (message : FileTransferSendRequest.t) : Prop :=
  in_int32 message.(FileTransferSendRequest.id) /\
  in_int32 message.(FileTransferSendRequest.file_num).
Lemma FileTransferSendRequest_decodes_typed `{ProtobufTypes} : decodes_typed FileTransferSendRequest.field FileTransferSendRequest.createBase FileTransferSendRequest_typed.
Proof. solve_typed FileTransferSendRequest.field FileTransferSendRequest_typed. Qed.
#[export] Hint Resolve FileTransferSendRequest_decodes_typed : typed.
Definition FileTransferReceiveRequest_typed (message : FileTransferReceiveRequest.t) : Prop :=
  in_int32 message.(FileTransferReceiveRequest.id) /\
  Forall FileEntry_typed message.(FileTransferReceiveRequest.files) /\
  in_int32 message.(FileTransferReceiveRequest.file_num) /\
  safe_uint message.(FileTransferReceiveRequest.total_size).
Lemma FileTransferReceiveRequest_decodes_typed `{ProtobufTypes} : decodes_typed FileTransferReceiveRequest.field FileTransferReceiveRequest.createBase FileTransferReceiveRequest_typed.
Proof. solve_typed FileTransferReceiveRequest.field FileTransferReceiveRequest_typed. Qed.
#[export] Hint Resolve FileTransferReceiveRequest_decodes_typed : typed.
Definition FileDirCreate_typed (message : FileDirCreate.t) : Prop :=
  in_int32 message.(FileDirCreate.id).
Lemma FileDirCreate_decodes_typed `{ProtobufTypes} : decodes_typed FileDirCreate.field FileDirCreate.createBase FileDirCreate_typed.
Proof. solve_typed FileDirCreate.field FileDirCreate_typed. Qed.
#[export] Hint Resolve FileDirCreate_decodes_typed : typed.
Definition FileRemoveDir_typed (message : FileRemoveDir.t) : Prop :=
  in_int32 message.(FileRemoveDir.id).
Lemma FileRemoveDir_decodes_typed `{ProtobufTypes} : decodes_typed FileRemoveDir.field FileRemoveDir.createBase FileRemoveDir_typed.
Proof. solve_typed FileRemoveDir.field FileRemoveDir_typed. Qed.
#[export] Hint Resolve FileRemoveDir_decodes_typed : typed.
Definition FileRemoveFile_typed (message : FileRemoveFile.t) : Prop :=
  in_int32 message.(FileRemoveFile.id) /\
  in_int32 message.(FileRemoveFile.file_num).
Lemma FileRemoveFile_decodes_typed `{ProtobufTypes} : decodes_typed FileRemoveFile.field FileRemoveFile.createBase FileRemoveFile_typed.
Proof. solve_typed FileRemoveFile.field FileRemoveFile_typed. Qed.
#[export] Hint Resolve FileRemoveFile_decodes_typed : typed.
Definition FileTransferCancel_typed (message : FileTransferCancel.t) : Prop :=
  in_int32 message.(FileTransferCancel.id).
Lemma FileTransferCancel_decodes_typed `{ProtobufTypes} : decodes_typed FileTransferCancel.field FileTransferCancel.createBase FileTransferCancel_typed.
Proof. solve_typed FileTransferCancel.field FileTransferCancel_typed. Qed.
#[export] Hint Resolve FileTransferCancel_decodes_typed : typed.
Definition FileTransferSendConfirmRequest_typed (message : FileTransferSendConfirmRequest.t) : Prop :=
  in_int32 message.(FileTransferSendConfirmRequest.id) /\
  in_int32 message.(FileTransferSendConfirmRequest.file_num) /\
  from_option in_uint32 True message.(FileTransferSendConfirmRequest.offset_blk).
Lemma FileTransferSendConfirmRequest_decodes_typed `{ProtobufTypes} : decodes_typed FileTransferSendConfirmRequest.field FileTransferSendConfirmRequest.createBase FileTransferSendConfirmRequest_typed.
Proof. solve_typed FileTransferSendConfirmRequest.field FileTransferSendConfirmRequest_typed. Qed.
#[export] Hint Resolve FileTransferSendConfirmRequest_decodes_typed : typed.
Definition FileAction_typed (message : FileAction.t) : Prop :=
  from_option ReadDir_typed True message.(FileAction.read_dir) /\
  from_option FileTransferSendRequest_typed True message.(FileAction.send) /\
  from_option FileTransferReceiveRequest_typed True message.(FileAction.receive) /\
  from_option FileDirCreate_typed True message.(FileAction.create) /\
  from_option FileRemoveDir_typed True message.(FileAction.remove_dir) /\
  from_option FileRemoveFile_typed True message.(FileAction.remove_file) /\
  from_option ReadAllFiles_typed True message.(FileAction.all_files) /\
  from_option FileTransferCancel_typed True message.(FileAction.cancel) /\
  from_option FileTransferSendConfirmRequest_typed True message.(FileAction.send_confirm) /\
  from_option FileRename_typed True message.(FileAction.rename) /\
  from_option ReadEmptyDirs_typed True message.(FileAction.read_empty_dirs).
Lemma FileAction_decodes_typed `{ProtobufTypes} : decodes_typed FileAction.field FileAction.createBase FileAction_typed.
Proof. solve_typed FileAction.field FileAction_typed. Qed.
#[export] Hint Resolve FileAction_decodes_typed : typed.
Definition FileTransferBlock_typed (message : FileTransferBlock.t) : Prop :=
  in_int32 message.(FileTransferBlock.id) /\
  in_int32 message.(FileTransferBlock.file_num) /\
  in_uint32 message.(FileTransferBlock.blk_id).
Lemma FileTransferBlock_decodes_typed `{ProtobufTypes} : decodes_typed FileTransferBlock.field FileTransferBlock.createBase FileTransferBlock_typed.
Proof. solve_typed FileTransferBlock.field FileTransferBlock_typed. Qed.
#[export] Hint Resolve FileTransferBlock_decodes_typed : typed.
Definition FileTransferError_typed (message : FileTransferError.t) : Prop :=
  in_int32 message.(FileTransferError.id) /\
  in_int32 message.(FileTransferError.file_num).
Lemma FileTransferError_decodes_typed `{ProtobufTypes} : decodes_typed FileTransferError.field FileTransferError.createBase FileTransferError_typed.
Proof. solve_typed FileTransferError.field FileTransferError_typed. Qed.
#[export] Hint Resolve FileTransferError_decodes_typed : typed.
Definition FileTransferDone_typed (message : FileTransferDone.t) : Prop :=
  in_int32 message.(FileTransferDone.id) /\
  in_int32 message.(FileTransferDone.file_num).
Lemma FileTransferDone_decodes_typed `{ProtobufTypes} : decodes_typed FileTransferDone.field FileTransferDone.createBase FileTransferDone_typed.
Proof. solve_typed FileTransferDone.field FileTransferDone_typed. Qed.
#[export] Hint Resolve FileTransferDone_decodes_typed : typed.
Definition FileTransferDigest_typed (message : FileTransferDigest.t) : Prop :=
  in_int32 message.(FileTransferDigest.id) /\
  in_int32 message.(FileTransferDigest.file_num) /\
  safe_uint message.(FileTransferDigest.last_modified) /\
  safe_uint message.(FileTransferDigest.file_size).
Lemma FileTransferDigest_decodes_typed `{ProtobufTypes} : decodes_typed FileTransferDigest.field FileTransferDigest.createBase FileTransferDigest_typed.
Proof. solve_typed FileTransferDigest.field FileTransferDigest_typed. Qed.
#[export] Hint Resolve FileTransferDigest_decodes_typed : typed.
Definition FileResponse_typed (message : FileResponse.t) : Prop :=
  from_option FileDirectory_typed True message.(FileResponse.dir) /\
  from_option FileTransferBlock_typed True message.(FileResponse.block) /\
  from_option FileTransferError_typed True message.(FileResponse.error) /\
  from_option FileTransferDone_typed True message.(FileResponse.done) /\
  from_option FileTransferDigest_typed True message.(FileResponse.digest) /\
  from_option ReadEmptyDirsResponse_typed True message.(FileResponse.empty_dirs).
Lemma FileResponse_decodes_typed `{ProtobufTypes} : decodes_typed FileResponse.field FileResponse.createBase FileResponse_typed.
Proof. solve_typed FileResponse.field FileResponse_typed. Qed.
#[export] Hint Resolve FileResponse_decodes_typed : typed.
Definition CliprdrMonitorReady_typed (message : CliprdrMonitorReady.t) : Prop :=
  True.
Lemma CliprdrMonitorReady_decodes_typed `{ProtobufTypes} : decodes_typed CliprdrMonitorReady.field CliprdrMonitorReady.createBase CliprdrMonitorReady_typed.
Proof. solve_typed CliprdrMonitorReady.field CliprdrMonitorReady_typed. Qed.
#[export] Hint Resolve CliprdrMonitorReady_decodes_typed : typed.
Definition CliprdrFormat_typed (message : CliprdrFormat.t) : Prop :=
  in_int32 message.(CliprdrFormat.id).
Lemma CliprdrFormat_decodes_typed `{ProtobufTypes} : decodes_typed CliprdrFormat.field CliprdrFormat.createBase CliprdrFormat_typed.
Proof. solve_typed CliprdrFormat.field CliprdrFormat_typed. Qed.
#[export] Hint Resolve CliprdrFormat_decodes_typed : typed.
Definition CliprdrServerFormatList_typed (message : CliprdrServerFormatList.t) : Prop :=
  Forall CliprdrFormat_typed message.(CliprdrServerFormatList.formats).
Lemma CliprdrServerFormatList_decodes_typed `{ProtobufTypes} : decodes_typed CliprdrServerFormatList.field CliprdrServerFormatList.createBase CliprdrServerFormatList_typed.
Proof. solve_typed CliprdrServerFormatList.field CliprdrServerFormatList_typed. Qed.
#[export] Hint Resolve CliprdrServerFormatList_decodes_typed : typed.
Definition CliprdrServerFormatListResponse_typed (message : CliprdrServerFormatListResponse.t) : Prop :=
  in_int32 message.(CliprdrServerFormatListResponse.msg_flags).
Lemma CliprdrServerFormatListResponse_decodes_typed `{ProtobufTypes} : decodes_typed CliprdrServerFormatListResponse.field CliprdrServerFormatListResponse.createBase CliprdrServerFormatListResponse_typed.
Proof. solve_typed CliprdrServerFormatListResponse.field CliprdrServerFormatListResponse_typed. Qed.
#[export] Hint Resolve CliprdrServerFormatListResponse_decodes_typed : typed.
Definition CliprdrServerFormatDataRequest_typed (message : CliprdrServerFormatDataRequest.t) : Prop :=
  in_int32 message.(CliprdrServerFormatDataRequest.requested_format_id).
Lemma CliprdrServerFormatDataRequest_decodes_typed `{ProtobufTypes} : decodes_typed CliprdrServerFormatDataRequest.field CliprdrServerFormatDataRequest.createBase CliprdrServerFormatDataRequest_typed.
Proof. solve_typed CliprdrServerFormatDataRequest.field CliprdrServerFormatDataRequest_typed. Qed.
#[export] Hint Resolve CliprdrServerFormatDataRequest_decodes_typed : typed.
Definition CliprdrServerFormatDataResponse_typed (message : CliprdrServerFormatDataResponse.t) : Prop :=
  in_int32 message.(CliprdrServerFormatDataResponse.msg_flags).
Lemma CliprdrServerFormatDataResponse_decodes_typed `{ProtobufTypes} : decodes_typed CliprdrServerFormatDataResponse.field CliprdrServerFormatDataResponse.createBase CliprdrServerFormatDataResponse_typed.
Proof. solve_typed CliprdrServerFormatDataResponse.field CliprdrServerFormatDataResponse_typed. Qed.
#[export] Hint Resolve CliprdrServerFormatDataResponse_decodes_typed : typed.
Definition CliprdrFileContentsRequest_typed (message : CliprdrFileContentsRequest.t) : Prop :=
  in_int32 message.(CliprdrFileContentsRequest.stream_id) /\
  in_int32 message.(CliprdrFileContentsRequest.list_index) /\
  in_int32 message.(CliprdrFileContentsRequest.dw_flags) /\
  in_int32 message.(CliprdrFileContentsRequest.n_position_low) /\
  in_int32 message.(CliprdrFileContentsRequest.n_position_high) /\
  in_int32 message.(CliprdrFileContentsRequest.cb_requested) /\
  in_int32 message.(CliprdrFileContentsRequest.clip_data_id).
Lemma CliprdrFileContentsRequest_decodes_typed `{ProtobufTypes} : decodes_typed CliprdrFileContentsRequest.field CliprdrFileContentsRequest.createBase CliprdrFileContentsRequest_typed.
Proof. solve_typed CliprdrFileContentsRequest.field CliprdrFileContentsRequest_typed. Qed.
#[export] Hint Resolve CliprdrFileContentsRequest_decodes_typed : typed.
Definition CliprdrFileContentsResponse_typed (message : CliprdrFileContentsResponse.t) : Prop :=
  in_int32 message.(CliprdrFileContentsResponse.msg_flags) /\
  in_int32 message.(CliprdrFileContentsResponse.stream_id).
Lemma CliprdrFileContentsResponse_decodes_typed `{ProtobufTypes} : decodes_typed CliprdrFileContentsResponse.field CliprdrFileContentsResponse.createBase CliprdrFileContentsResponse_typed.
Proof. solve_typed CliprdrFileContentsResponse.field CliprdrFileContentsResponse_typed. Qed.
#[export] Hint Resolve CliprdrFileContentsResponse_decodes_typed : typed.
Definition CliprdrTryEmpty_typed (message : CliprdrTryEmpty.t) : Prop :=
  True.
Lemma CliprdrTryEmpty_decodes_typed `{ProtobufTypes} : decodes_typed CliprdrTryEmpty.field CliprdrTryEmpty.createBase CliprdrTryEmpty_typed.
Proof. solve_typed CliprdrTryEmpty.field CliprdrTryEmpty_typed. Qed.
#[export] Hint Resolve CliprdrTryEmpty_decodes_typed : typed.
Definition Cliprdr_typed (message : Cliprdr.t) : Prop :=
  from_option CliprdrMonitorReady_typed True message.(Cliprdr.ready) /\
  from_option CliprdrServerFormatList_typed True message.(Cliprdr.format_list) /\
  from_option CliprdrServerFormatListResponse_typed True message.(Cliprdr.format_list_response) /\
  from_option CliprdrServerFormatDataRequest_typed True message.(Cliprdr.format_data_request) /\
  from_option CliprdrServerFormatDataResponse_typed True message.(Cliprdr.format_data_response) /\
  from_option CliprdrFileContentsRequest_typed True message.(Cliprdr.file_contents_request) /\
  from_option CliprdrFileContentsResponse_typed True message.(Cliprdr.file_contents_response) /\
  from_option CliprdrTryEmpty_typed True message.(Cliprdr.try_empty).
Lemma Cliprdr_decodes_typed `{ProtobufTypes} : decodes_typed Cliprdr.field Cliprdr.createBase Cliprdr_typed.
Proof. solve_typed Cliprdr.field Cliprdr_typed. Qed.
#[export] Hint Resolve Cliprdr_decodes_typed : typed.
Definition DisplayResolution_typed (message : DisplayResolution.t) : Prop :=
  in_int32 message.(DisplayResolution.display) /\
  from_option Resolution_typed True message.(DisplayResolution.resolution).
Lemma DisplayResolution_decodes_typed `{ProtobufTypes} : decodes_typed DisplayResolution.field DisplayResolution.createBase DisplayResolution_typed.
Proof. solve_typed DisplayResolution.field DisplayResolution_typed. Qed.
#[export] Hint Resolve DisplayResolution_decodes_typed : typed.
Definition SwitchDisplay_typed (message : SwitchDisplay.t) : Prop :=
  in_int32 message.(SwitchDisplay.display) /\
  in_int32 message.(SwitchDisplay.x) /\
  in_int32 message.(SwitchDisplay.y) /\
  in_int32 message.(SwitchDisplay.width) /\
  in_int32 message.(SwitchDisplay.height) /\
  from_option SupportedResolutions_typed True message.(SwitchDisplay.resolutions) /\
  from_option Resolution_typed True message.(SwitchDisplay.original_resolution).
Lemma SwitchDisplay_decodes_typed `{ProtobufTypes} : decodes_typed SwitchDisplay.field SwitchDisplay.createBase SwitchDisplay_typed.
Proof. solve_typed SwitchDisplay.field SwitchDisplay_typed. Qed.
#[export] Hint Resolve SwitchDisplay_decodes_typed : typed.
Definition CaptureDisplays_typed (message : CaptureDisplays.t) : Prop :=
  Forall in_int32 message.(CaptureDisplays.add) /\
  Forall in_int32 message.(CaptureDisplays.sub) /\
  Forall in_int32 message.(CaptureDisplays.set).
Lemma CaptureDisplays_decodes_typed `{ProtobufTypes} : decodes_typed CaptureDisplays.field CaptureDisplays.createBase CaptureDisplays_typed.
Proof. solve_typed CaptureDisplays.field CaptureDisplays_typed. Qed.
#[export] Hint Resolve CaptureDisplays_decodes_typed : typed.
Definition ToggleVirtualDisplay_typed (message : ToggleVirtualDisplay.t) : Prop :=
  in_int32 message.(ToggleVirtualDisplay.display).
Lemma ToggleVirtualDisplay_decodes_typed `{ProtobufTypes} : decodes_typed ToggleVirtualDisplay.field ToggleVirtualDisplay.createBase ToggleVirtualDisplay_typed.
Proof. solve_typed ToggleVirtualDisplay.field ToggleVirtualDisplay_typed. Qed.
#[export] Hint Resolve ToggleVirtualDisplay_decodes_typed : typed.
Definition TogglePrivacyMode_typed (message : TogglePrivacyMode.t) : Prop :=
  True.
Lemma TogglePrivacyMode_decodes_typed `{ProtobufTypes} : decodes_typed TogglePrivacyMode.field TogglePrivacyMode.createBase TogglePrivacyMode_typed.
Proof. solve_typed TogglePrivacyMode.field TogglePrivacyMode_typed. Qed.
#[export] Hint Resolve TogglePrivacyMode_decodes_typed : typed.
Definition PermissionInfo_typed (message : PermissionInfo.t) : Prop :=
  in_int32 message.(PermissionInfo.permission).
Lemma PermissionInfo_decodes_typed `{ProtobufTypes} : decodes_typed PermissionInfo.field PermissionInfo.createBase PermissionInfo_typed.
Proof. solve_typed PermissionInfo.field PermissionInfo_typed. Qed.
#[export] Hint Resolve PermissionInfo_decodes_typed : typed.
Definition TestDelay_typed (message : TestDelay.t) : Prop :=
  safe_int message.(TestDelay.time) /\
  in_uint32 message.(TestDelay.last_delay) /\
  in_uint32 message.(TestDelay.target_bitrate).
Lemma TestDelay_decodes_typed `{ProtobufTypes} : decodes_typed TestDelay.field TestDelay.createBase TestDelay_typed.
Proof. solve_typed TestDelay.field TestDelay_typed. Qed.
#[export] Hint Resolve TestDelay_decodes_typed : typed.
Definition PublicKey_typed (message : PublicKey.t) : Prop :=
  True.
Lemma PublicKey_decodes_typed `{ProtobufTypes} : decodes_typed PublicKey.field PublicKey.createBase PublicKey_typed.
Proof. solve_typed PublicKey.field PublicKey_typed. Qed.
#[export] Hint Resolve PublicKey_decodes_typed : typed.
Definition SignedId_typed (message : SignedId.t) : Prop :=
  True.
Lemma SignedId_decodes_typed `{ProtobufTypes} : decodes_typed SignedId.field SignedId.createBase SignedId_typed.
Proof. solve_typed SignedId.field SignedId_typed. Qed.
#[export] Hint Resolve SignedId_decodes_typed : typed.
Definition AudioFormat_typed (message : AudioFormat.t) : Prop :=
  in_uint32 message.(AudioFormat.sample_rate) /\
  in_uint32 message.(AudioFormat.channels).
Lemma AudioFormat_decodes_typed `{ProtobufTypes} : decodes_typed AudioFormat.field AudioFormat.createBase AudioFormat_typed.
Proof. solve_typed AudioFormat.field AudioFormat_typed. Qed.
#[export] Hint Resolve AudioFormat_decodes_typed : typed.
Definition AudioFrame_typed (message : AudioFrame.t) : Prop :=
  True.
Lemma AudioFrame_decodes_typed `{ProtobufTypes} : decodes_typed AudioFrame.field AudioFrame.createBase AudioFrame_typed.
Proof. solve_typed AudioFrame.field AudioFrame_typed. Qed.
#[export] Hint Resolve AudioFrame_decodes_typed : typed.
Definition MessageBox_typed (message : MessageBox.t) : Prop :=
  True.
Lemma MessageBox_decodes_typed `{ProtobufTypes} : decodes_typed MessageBox.field MessageBox.createBase MessageBox_typed.
Proof. solve_typed MessageBox.field MessageBox_typed. Qed.
#[export] Hint Resolve MessageBox_decodes_typed : typed.
Definition BackNotification_typed (message : BackNotification.t) : Prop :=
  from_option in_int32 True message.(BackNotification.privacy_mode_state) /\
  from_option in_int32 True message.(BackNotification.block_input_state).
Lemma BackNotification_decodes_typed `{ProtobufTypes} : decodes_typed BackNotification.field BackNotification.createBase BackNotification_typed.
Proof. solve_typed BackNotification.field BackNotification_typed. Qed.
#[export] Hint Resolve BackNotification_decodes_typed : typed.
Definition ElevationRequestWithLogon_typed (message : ElevationRequestWithLogon.t) : Prop :=
  True.
Lemma ElevationRequestWithLogon_decodes_typed `{ProtobufTypes} : decodes_typed ElevationRequestWithLogon.field ElevationRequestWithLogon.createBase ElevationRequestWithLogon_typed.
Proof. solve_typed ElevationRequestWithLogon.field ElevationRequestWithLogon_typed. Qed.
#[export] Hint Resolve ElevationRequestWithLogon_decodes_typed : typed.
Definition ElevationRequest_typed (message : ElevationRequest.t) : Prop :=
  from_option ElevationRequestWithLogon_typed True message.(ElevationRequest.logon).
Lemma ElevationRequest_decodes_typed `{ProtobufTypes} : decodes_typed ElevationRequest.field ElevationRequest.createBase ElevationRequest_typed.
Proof. solve_typed ElevationRequest.field ElevationRequest_typed. Qed.
#[export] Hint Resolve ElevationRequest_decodes_typed : typed.
Definition SwitchSidesRequest_typed (message : SwitchSidesRequest.t) : Prop :=
  True.
Lemma SwitchSidesRequest_decodes_typed `{ProtobufTypes} : decodes_typed SwitchSidesRequest.field SwitchSidesRequest.createBase SwitchSidesRequest_typed.
Proof. solve_typed SwitchSidesRequest.field SwitchSidesRequest_typed. Qed.
#[export] Hint Resolve SwitchSidesRequest_decodes_typed : typed.
Definition SwitchSidesResponse_typed (message : SwitchSidesResponse.t) : Prop :=
  from_option LoginRequest_typed True message.(SwitchSidesResponse.lr).
Lemma SwitchSidesResponse_decodes_typed `{ProtobufTypes} : decodes_typed SwitchSidesResponse.field SwitchSidesResponse.createBase SwitchSidesResponse_typed.
Proof. solve_typed SwitchSidesResponse.field SwitchSidesResponse_typed. Qed.
#[export] Hint Resolve SwitchSidesResponse_decodes_typed : typed.
Definition SwitchBack_typed (message : SwitchBack.t) : Prop :=
  True.
Lemma SwitchBack_decodes_typed `{ProtobufTypes} : decodes_typed SwitchBack.field SwitchBack.createBase SwitchBack_typed.
Proof. solve_typed SwitchBack.field SwitchBack_typed. Qed.
#[export] Hint Resolve SwitchBack_decodes_typed : typed.
Definition PluginRequest_typed (message : PluginRequest.t) : Prop :=
  True.
Lemma PluginRequest_decodes_typed `{ProtobufTypes} : decodes_typed PluginRequest.field PluginRequest.createBase PluginRequest_typed.
Proof. solve_typed PluginRequest.field PluginRequest_typed. Qed.
#[export] Hint Resolve PluginRequest_decodes_typed : typed.
Definition PluginFailure_typed (message : PluginFailure.t) : Prop :=
  True.
Lemma PluginFailure_decodes_typed `{ProtobufTypes} : decodes_typed PluginFailure.field PluginFailure.createBase PluginFailure_typed.
Proof. solve_typed PluginFailure.field PluginFailure_typed. Qed.
#[export] Hint Resolve PluginFailure_decodes_typed : typed.
Definition MessageQuery_typed (message : MessageQuery.t) : Prop :=
  in_int32 message.(MessageQuery.switch_display).
Lemma MessageQuery_decodes_typed `{ProtobufTypes} : decodes_typed MessageQuery.field MessageQuery.createBase MessageQuery_typed.
Proof. solve_typed MessageQuery.field MessageQuery_typed. Qed.
#[export] Hint Resolve MessageQuery_decodes_typed : typed.
Definition Misc_typed (message : Misc.t) : Prop :=
  from_option ChatMessage_typed True message.(Misc.chat_message) /\
  from_option SwitchDisplay_typed True message.(Misc.switch_display) /\
  from_option PermissionInfo_typed True message.(Misc.permission_info) /\
  from_option OptionMessage_typed True message.(Misc.option) /\
  from_option AudioFormat_typed True message.(Misc.audio_format) /\
  from_option BackNotification_typed True message.(Misc.back_notification) /\
  from_option ElevationRequest_typed True message.(Misc.elevation_request) /\
  from_option SwitchSidesRequest_typed True message.(Misc.switch_sides_request) /\
  from_option SwitchBack_typed True message.(Misc.switch_back) /\
  from_option Resolution_typed True message.(Misc.change_resolution) /\
  from_option PluginRequest_typed True message.(Misc.plugin_request) /\
  from_option PluginFailure_typed True message.(Misc.plugin_failure) /\
  from_option in_uint32 True message.(Misc.full_speed_fps) /\
  from_option in_uint32 True message.(Misc.auto_adjust_fps) /\
  from_option CaptureDisplays_typed True message.(Misc.capture_displays) /\
  from_option in_int32 True message.(Misc.refresh_video_display) /\
  from_option ToggleVirtualDisplay_typed True message.(Misc.toggle_virtual_display) /\
  from_option TogglePrivacyMode_typed True message.(Misc.toggle_privacy_mode) /\
  from_option SupportedEncoding_typed True message.(Misc.supported_encoding) /\
  from_option in_uint32 True message.(Misc.selected_sid) /\
  from_option DisplayResolution_typed True message.(Misc.change_display_resolution) /\
  from_option MessageQuery_typed True message.(Misc.message_query) /\
  from_option in_int32 True message.(Misc.follow_current_display).
Lemma Misc_decodes_typed `{ProtobufTypes} : decodes_typed Misc.field Misc.createBase Misc_typed.
Proof. solve_typed Misc.field Misc_typed. Qed.
#[export] Hint Resolve Misc_decodes_typed : typed.
Definition VoiceCallRequest_typed (message : VoiceCallRequest.t) : Prop :=
  safe_int message.(VoiceCallRequest.req_timestamp).
Lemma VoiceCallRequest_decodes_typed `{ProtobufTypes} : decodes_typed VoiceCallRequest.field VoiceCallRequest.createBase VoiceCallRequest_typed.
Proof. solve_typed VoiceCallRequest.field VoiceCallRequest_typed. Qed.
#[export] Hint Resolve VoiceCallRequest_decodes_typed : typed.
Definition VoiceCallResponse_typed (message : VoiceCallResponse.t) : Prop :=
  safe_int message.(VoiceCallResponse.req_timestamp) /\
  safe_int message.(VoiceCallResponse.ack_timestamp).
Lemma VoiceCallResponse_decodes_typed `{ProtobufTypes} : decodes_typed VoiceCallResponse.field VoiceCallResponse.createBase VoiceCallResponse_typed.
Proof. solve_typed VoiceCallResponse.field VoiceCallResponse_typed. Qed.
#[export] Hint Resolve VoiceCallResponse_decodes_typed : typed.
Definition Message_typed (message : Message.t) : Prop :=
  from_option SignedId_typed True message.(Message.signed_id) /\
  from_option PublicKey_typed True message.(Message.public_key) /\
  from_option TestDelay_typed True message.(Message.test_delay) /\
  from_option VideoFrame_typed True message.(Message.video_frame) /\
  from_option LoginRequest_typed True message.(Message.login_request) /\
  from_option LoginResponse_typed True message.(Message.login_response) /\
  from_option Hash_typed True message.(Message.hash) /\
  from_option MouseEvent_typed True message.(Message.mouse_event) /\
  from_option AudioFrame_typed True message.(Message.audio_frame) /\
  from_option CursorData_typed True message.(Message.cursor_data) /\
  from_option CursorPosition_typed True message.(Message.cursor_position) /\
  from_option safe_uint True message.(Message.cursor_id) /\
  from_option KeyEvent_typed True message.(Message.key_event) /\
  from_option Clipboard_typed True message.(Message.clipboard) /\
  from_option FileAction_typed True message.(Message.file_action) /\
  from_option FileResponse_typed True message.(Message.file_response) /\
  from_option Misc_typed True message.(Message.misc) /\
  from_option Cliprdr_typed True message.(Message.cliprdr) /\
  from_option MessageBox_typed True message.(Message.message_box) /\
  from_option SwitchSidesResponse_typed True message.(Message.switch_sides_response) /\
  from_option VoiceCallRequest_typed True message.(Message.voice_call_request) /\
  from_option VoiceCallResponse_typed True message.(Message.voice_call_response) /\
  from_option PeerInfo_typed True message.(Message.peer_info) /\
  from_option PointerDeviceEvent_typed True message.(Message.pointer_device_event) /\
  from_option Auth2FA_typed True message.(Message.auth_2fa) /\
  from_option MultiClipboards_typed True message.(Message.multi_clipboards).
Lemma Message_decodes_typed `{ProtobufTypes} : decodes_typed Message.field Message.createBase Message_typed.
Proof. solve_typed Message.field Message_typed. Qed.
#[export] Hint Resolve Message_decodes_typed : typed.

(** ** [proto/rendezvous.ts] *)
Definition RegisterPeer_typed (message : RegisterPeer.t) : Prop :=
  in_int32 message.(RegisterPeer.serial).
Lemma RegisterPeer_decodes_typed `{ProtobufTypes} : decodes_typed RegisterPeer.field RegisterPeer.createBase RegisterPeer_typed.
Proof. solve_typed RegisterPeer.field RegisterPeer_typed. Qed.
#[export] Hint Resolve RegisterPeer_decodes_typed : typed.
Definition RegisterPeerResponse_typed (message : RegisterPeerResponse.t) : Prop :=
  True.
Lemma RegisterPeerResponse_decodes_typed `{ProtobufTypes} : decodes_typed RegisterPeerResponse.field RegisterPeerResponse.createBase RegisterPeerResponse_typed.
Proof. solve_typed RegisterPeerResponse.field RegisterPeerResponse_typed. Qed.
#[export] Hint Resolve RegisterPeerResponse_decodes_typed : typed.
Definition PunchHoleRequest_typed (message : PunchHoleRequest.t) : Prop :=
  in_int32 message.(PunchHoleRequest.nat_type) /\
  in_int32 message.(PunchHoleRequest.conn_type).
Lemma PunchHoleRequest_decodes_typed `{ProtobufTypes} : decodes_typed PunchHoleRequest.field PunchHoleRequest.createBase PunchHoleRequest_typed.
Proof. solve_typed PunchHoleRequest.field PunchHoleRequest_typed. Qed.
#[export] Hint Resolve PunchHoleRequest_decodes_typed : typed.
Definition PunchHole_typed (message : PunchHole.t) : Prop :=
  in_int32 message.(PunchHole.nat_type).
Lemma PunchHole_decodes_typed `{ProtobufTypes} : decodes_typed PunchHole.field PunchHole.createBase PunchHole_typed.
Proof. solve_typed PunchHole.field PunchHole_typed. Qed.
#[export] Hint Resolve PunchHole_decodes_typed : typed.
Definition TestNatRequest_typed (message : TestNatRequest.t) : Prop :=
  in_int32 message.(TestNatRequest.serial).
Lemma TestNatRequest_decodes_typed `{ProtobufTypes} : decodes_typed TestNatRequest.field TestNatRequest.createBase TestNatRequest_typed.
Proof. solve_typed TestNatRequest.field TestNatRequest_typed. Qed.
#[export] Hint Resolve TestNatRequest_decodes_typed : typed.
Definition ConfigUpdate_typed (message : ConfigUpdate.t) : Prop :=
  in_int32 message.(ConfigUpdate.serial).
Lemma ConfigUpdate_decodes_typed `{ProtobufTypes} : decodes_typed ConfigUpdate.field ConfigUpdate.createBase ConfigUpdate_typed.
Proof. solve_typed ConfigUpdate.field ConfigUpdate_typed. Qed.
#[export] Hint Resolve ConfigUpdate_decodes_typed : typed.
Definition TestNatResponse_typed (message : TestNatResponse.t) : Prop :=
  in_int32 message.(TestNatResponse.port) /\
  from_option ConfigUpdate_typed True message.(TestNatResponse.cu).
Lemma TestNatResponse_decodes_typed `{ProtobufTypes} : decodes_typed TestNatResponse.field TestNatResponse.createBase TestNatResponse_typed.
Proof. solve_typed TestNatResponse.field TestNatResponse_typed. Qed.
#[export] Hint Resolve TestNatResponse_decodes_typed : typed.
Definition PunchHoleSent_typed (message : PunchHoleSent.t) : Prop :=
  in_int32 message.(PunchHoleSent.nat_type).
Lemma PunchHoleSent_decodes_typed `{ProtobufTypes} : decodes_typed PunchHoleSent.field PunchHoleSent.createBase PunchHoleSent_typed.
Proof. solve_typed PunchHoleSent.field PunchHoleSent_typed. Qed.
#[export] Hint Resolve PunchHoleSent_decodes_typed : typed.
Definition RegisterPk_typed (message : RegisterPk.t) : Prop :=
  True.
Lemma RegisterPk_decodes_typed `{ProtobufTypes} : decodes_typed RegisterPk.field RegisterPk.createBase RegisterPk_typed.
Proof. solve_typed RegisterPk.field RegisterPk_typed. Qed.
#[export] Hint Resolve RegisterPk_decodes_typed : typed.
Definition RegisterPkResponse_typed (message : RegisterPkResponse.t) : Prop :=
  in_int32 message.(RegisterPkResponse.result) /\
  in_int32 message.(RegisterPkResponse.keep_alive).
Lemma RegisterPkResponse_decodes_typed `{ProtobufTypes} : decodes_typed RegisterPkResponse.field RegisterPkResponse.createBase RegisterPkResponse_typed.
Proof. solve_typed RegisterPkResponse.field RegisterPkResponse_typed. Qed.
#[export] Hint Resolve RegisterPkResponse_decodes_typed : typed.
Definition PunchHoleResponse_typed (message : PunchHoleResponse.t) : Prop :=
  in_int32 message.(PunchHoleResponse.failure) /\
  from_option in_int32 True message.(PunchHoleResponse.nat_type) /\
  in_int32 message.(PunchHoleResponse.feedback).
Lemma PunchHoleResponse_decodes_typed `{ProtobufTypes} : decodes_typed PunchHoleResponse.field PunchHoleResponse.createBase PunchHoleResponse_typed.
Proof. solve_typed PunchHoleResponse.field PunchHoleResponse_typed. Qed.
#[export] Hint Resolve PunchHoleResponse_decodes_typed : typed.
Definition RequestRelay_typed (message : RequestRelay.t) : Prop :=
  in_int32 message.(RequestRelay.conn_type).
Lemma RequestRelay_decodes_typed `{ProtobufTypes} : decodes_typed RequestRelay.field RequestRelay.createBase RequestRelay_typed.
Proof. solve_typed RequestRelay.field RequestRelay_typed. Qed.
#[export] Hint Resolve RequestRelay_decodes_typed : typed.
Definition RelayResponse_typed (message : RelayResponse.t) : Prop :=
  in_int32 message.(RelayResponse.feedback).
Lemma RelayResponse_decodes_typed `{ProtobufTypes} : decodes_typed RelayResponse.field RelayResponse.createBase RelayResponse_typed.
Proof. solve_typed RelayResponse.field RelayResponse_typed. Qed.
#[export] Hint Resolve RelayResponse_decodes_typed : typed.
Definition SoftwareUpdate_typed (message : SoftwareUpdate.t) : Prop :=
  True.
Lemma SoftwareUpdate_decodes_typed `{ProtobufTypes} : decodes_typed SoftwareUpdate.field SoftwareUpdate.createBase SoftwareUpdate_typed.
Proof. solve_typed SoftwareUpdate.field SoftwareUpdate_typed. Qed.
#[export] Hint Resolve SoftwareUpdate_decodes_typed : typed.
Definition FetchLocalAddr_typed (message : FetchLocalAddr.t) : Prop :=
  True.
Lemma FetchLocalAddr_decodes_typed `{ProtobufTypes} : decodes_typed FetchLocalAddr.field FetchLocalAddr.createBase FetchLocalAddr_typed.
Proof. solve_typed FetchLocalAddr.field FetchLocalAddr_typed. Qed.
#[export] Hint Resolve FetchLocalAddr_decodes_typed : typed.
Definition LocalAddr_typed (message : LocalAddr.t) : Prop :=
  True.
Lemma LocalAddr_decodes_typed `{ProtobufTypes} : decodes_typed LocalAddr.field LocalAddr.createBase LocalAddr_typed.
Proof. solve_typed LocalAddr.field LocalAddr_typed. Qed.
#[export] Hint Resolve LocalAddr_decodes_typed : typed.
Definition PeerDiscovery_typed (message : PeerDiscovery.t) : Prop :=
  True.
Lemma PeerDiscovery_decodes_typed `{ProtobufTypes} : decodes_typed PeerDiscovery.field PeerDiscovery.createBase PeerDiscovery_typed.
Proof. solve_typed PeerDiscovery.field PeerDiscovery_typed. Qed.
#[export] Hint Resolve PeerDiscovery_decodes_typed : typed.
Definition OnlineRequest_typed (message : OnlineRequest.t) : Prop :=
  True.
Lemma OnlineRequest_decodes_typed `{ProtobufTypes} : decodes_typed OnlineRequest.field OnlineRequest.createBase OnlineRequest_typed.
Proof. solve_typed OnlineRequest.field OnlineRequest_typed. Qed.
#[export] Hint Resolve OnlineRequest_decodes_typed : typed.
Definition OnlineResponse_typed (message : OnlineResponse.t) : Prop :=
  True.
Lemma OnlineResponse_decodes_typed `{ProtobufTypes} : decodes_typed OnlineResponse.field OnlineResponse.createBase OnlineResponse_typed.
Proof. solve_typed OnlineResponse.field OnlineResponse_typed. Qed.
#[export] Hint Resolve OnlineResponse_decodes_typed : typed.
Definition KeyExchange_typed (message : KeyExchange.t) : Prop :=
  True.
Lemma KeyExchange_decodes_typed `{ProtobufTypes} : decodes_typed KeyExchange.field KeyExchange.createBase KeyExchange_typed.
Proof. solve_typed KeyExchange.field KeyExchange_typed. Qed.
#[export] Hint Resolve KeyExchange_decodes_typed : typed.
Definition HealthCheck_typed (message : HealthCheck.t) : Prop :=
  True.
Lemma HealthCheck_decodes_typed `{ProtobufTypes} : decodes_typed HealthCheck.field HealthCheck.createBase HealthCheck_typed.
Proof. solve_typed HealthCheck.field HealthCheck_typed. Qed.
#[export] Hint Resolve HealthCheck_decodes_typed : typed.
Definition RendezvousMessage_typed (message : RendezvousMessage.t) : Prop :=
  from_option RegisterPeer_typed True message.(RendezvousMessage.register_peer) /\
  from_option RegisterPeerResponse_typed True message.(RendezvousMessage.register_peer_response) /\
  from_option PunchHoleRequest_typed True message.(RendezvousMessage.punch_hole_request) /\
  from_option PunchHole_typed True message.(RendezvousMessage.punch_hole) /\
  from_option PunchHoleSent_typed True message.(RendezvousMessage.punch_hole_sent) /\
  from_option PunchHoleResponse_typed True message.(RendezvousMessage.punch_hole_response) /\
  from_option FetchLocalAddr_typed True message.(RendezvousMessage.fetch_local_addr) /\
  from_option LocalAddr_typed True message.(RendezvousMessage.local_addr) /\
  from_option ConfigUpdate_typed True message.(RendezvousMessage.configure_update) /\
  from_option RegisterPk_typed True message.(RendezvousMessage.register_pk) /\
  from_option RegisterPkResponse_typed True message.(RendezvousMessage.register_pk_response) /\
  from_option SoftwareUpdate_typed True message.(RendezvousMessage.software_update) /\
  from_option RequestRelay_typed True message.(RendezvousMessage.request_relay) /\
  from_option RelayResponse_typed True message.(RendezvousMessage.relay_response) /\
  from_option TestNatRequest_typed True message.(RendezvousMessage.test_nat_request) /\
  from_option TestNatResponse_typed True message.(RendezvousMessage.test_nat_response) /\
  from_option PeerDiscovery_typed True message.(RendezvousMessage.peer_discovery) /\
  from_option OnlineRequest_typed True message.(RendezvousMessage.online_request) /\
  from_option OnlineResponse_typed True message.(RendezvousMessage.online_response) /\
  from_option KeyExchange_typed True message.(RendezvousMessage.key_exchange) /\
  from_option HealthCheck_typed True message.(RendezvousMessage.hc).
Lemma RendezvousMessage_decodes_typed `{ProtobufTypes} : decodes_typed RendezvousMessage.field RendezvousMessage.createBase RendezvousMessage_typed.
Proof. solve_typed RendezvousMessage.field RendezvousMessage_typed. Qed.
#[export] Hint Resolve RendezvousMessage_decodes_typed : typed.

(** C11.  Whatever bytes arrive, a message decoded from them is well typed: in it and in every message
    inside it the 32-bit fields hold 32-bit numbers and the 64-bit fields hold integers that a JS
    number represents exactly. *)
Theorem decoded_is_typed `{ProtobufTypes} stop data rest :
  (forall m, Message.decode stop data = Ret (m, rest) -> Message_typed m) /\
  (forall m, RendezvousMessage.decode stop data = Ret (m, rest) -> RendezvousMessage_typed m).
Proof.
  split; intros m; eapply decode_typed; [apply Message_decodes_typed|apply RendezvousMessage_decodes_typed].
Qed.
