(* ===== verification/ProtoJson.v ===== *)
(** * Generated conversions: objects in and out of messages

    Beside [encode] and [decode] every message type of [proto/message.ts] and
    [proto/rendezvous.ts] has [toJSON], [fromJSON], [fromPartial] and [create].  Here is what their
    lines have in common: how a field of each type is written and read ([kind]), that a field with
    its default value is left out, and that an absent field reads as its default.  A double is the
    one value a [json] cannot hold: [FloatJson] says what holds it. *)
From Stdlib Require Import Floats.SpecFloat.
From S2P Require Import Prelude JsMap JsStr Json Bytes Base64 ProtoWire ProtoEnums.
Local Open Scope string_scope.

Class FloatJson := {
  json_of_float : spec_float -> json;
  float_of_json : json -> spec_float;
}.
Class FloatJsonLaws `{FloatJson} := {
  float_of_json_of x : float_of_json (json_of_float x) = x;
  json_of_float_set x : json_of_float x <> JNull;
  json_of_float_ok x : json_ok (json_of_float x);
}.

(** ** The types of fields *)
Record kind (T : Type) := { to_json : T -> json; of_json : json -> outcome T }.
Arguments to_json {T} k v.
Arguments of_json {T} k j.

(** [globalThis.Number(j)]: a text that is no integer numeral, an array and an object, which mostly
    read as [NaN], are outside the model. *)
Definition js_Number (j : json) : outcome Z :=
  match j with
  | JNull => Ret 0%Z
  | JBool b => Ret (Z.b2z b)
  | JNum n => Ret n
  | JStr s => match parse s with Some (JNum n) => Ret n | _ => OutOfFuel end
  | JArr _ | JObj _ => OutOfFuel
  end.
(** [Math.round] of an integer is that integer. *)
Definition json_number : kind Z := {| to_json := JNum; of_json := js_Number |}.
Definition json_string : kind string := {| to_json := JStr; of_json j := Ret (json_String j) |}.
Definition json_bool : kind bool := {| to_json := JBool; of_json j := Ret (truthy j) |}.
(** As in a browser, where there is no [Buffer]. *)
Definition bytesFromBase64 (b64 : json) : outcome bytes := atob (json_String b64).
Definition base64FromBytes (arr : bytes) : string := btoa arr.
Definition json_bytes : kind bytes := {| to_json b := JStr (base64FromBytes b); of_json := bytesFromBase64 |}.
Definition json_double `{FloatJson} : kind spec_float := {| to_json := json_of_float; of_json j := Ret (float_of_json j) |}.
Definition enum_key (j : json) : jsval :=
  match j with JNum n => VNum n | JStr s => VStr s | _ => VUndefined end.
Definition json_enum (names : enum) : kind Z :=
  {| to_json v := JStr (enum_toJSON names v); of_json j := Ret (enum_fromJSON names (enum_key j)) |}.

(** ** Writing *)
(** The members that are present, in order. *)
Definition present (fields : list (string * option json)) : jsmap string json :=
  omap (fun fv => v ← fv.2; Some (fv.1, v)) fields.
(** [if (!(the default)) obj.f = v] *)
Definition omit_if (default : bool) (v : json) : option json := if default then None else Some v.
(** [if (message.f?.length) obj.f = message.f.map(...)] *)
Definition many {T} (k : kind T) (l : list T) : option json :=
  match l with [] => None | _ => Some (JArr (map (to_json k) l)) end.

(** ** Reading *)
(** [isSet(object.f) ? object.f : undefined]; a text, a number, a boolean and an array, whose members are
    those of their prototypes, are outside the model. *)
Definition set_member (object : json) (f : string) : outcome (option json) :=
  match object with
  | JNull => Throw (VError "TypeError" ("Cannot read properties of null (reading '" ++ f ++ "')"))
  | JObj o => Ret (match map_get o f with Some JNull => None | v => v end)
  | _ => OutOfFuel
  end.
Definition read {T} (k : kind T) (f : string) (default : T) (object : json) : outcome T :=
  v ← set_member object f;
  match v with Some v => of_json k v | None => mret default end.
Definition read_opt {T} (k : kind T) (f : string) (object : json) : outcome (option T) :=
  v ← set_member object f;
  match v with Some v => v ← of_json k v; mret (Some v) | None => mret None end.
(** [l.map(of_json)], left to right *)
Fixpoint read_all {T} (k : kind T) (l : list json) : outcome (list T) :=
  match l with
  | [] => mret []
  | j :: l => v ← of_json k j; vs ← read_all k l; mret (v :: vs)
  end.
(** [Array.isArray(object?.f) ? object.f.map(...) : []] *)
Definition read_list {T} (k : kind T) (f : string) (object : json) : outcome (list T) :=
  match object with
  | JObj o => match map_get o f with Some (JArr l) => read_all k l | _ => mret [] end
  | _ => mret []
  end.

(** ** Reading undoes writing *)
Definition kind_ok {T} (k : kind T) (P : T -> Prop) : Prop :=
  forall v, P v -> of_json k (to_json k v) = Ret v /\ to_json k v <> JNull /\ json_ok (to_json k v).
Lemma json_number_ok : kind_ok json_number (fun _ => True).
Proof. done. Qed.
Lemma json_string_ok : kind_ok json_string (fun _ => True).
Proof. done. Qed.
Lemma json_bool_ok : kind_ok json_bool (fun _ => True).
Proof. done. Qed.
Lemma json_bytes_ok : kind_ok json_bytes (fun _ => True).
Proof. intros v _. by split; [apply atob_btoa|]. Qed.
Lemma json_double_ok `{FloatJsonLaws} : kind_ok json_double (fun _ => True).
Proof.
  intros v _. cbn. rewrite float_of_json_of. by split_and!; [|apply json_of_float_set|apply json_of_float_ok].
Qed.
(** The numbers an enum names. *)
Definition named (names : enum) (v : Z) : Prop := v ∈ names.*2.
Lemma json_enum_ok names : enum_ok names -> kind_ok (json_enum names) (named names).
Proof.
  intros Hok v Hv. destruct (enum_roundtrip names v Hok Hv) as [E _]. split; [|done].
  cbn [of_json to_json json_enum enum_key]. by rewrite E.
Qed.
#[export] Hint Resolve json_number_ok json_string_ok json_bool_ok json_bytes_ok json_double_ok : kind_ok.
#[export] Hint Extern 1 (kind_ok (json_enum _) _) => (apply json_enum_ok; solve_enum_ok) : kind_ok.

Lemma present_get l f : NoDup l.*1 -> map_get (present l) f = map_get l f ≫= id.
Proof.
  unfold present. induction l as [|[f' v] l IH]; intros Hn; [done|]. cbn in Hn. apply NoDup_cons in Hn as [Hf Hn].
  cbn. destruct v as [v|]; cbn.
  - case_decide; [done|]. by apply IH.
  - case_decide as E; [|by apply IH]. subst f'. rewrite IH by done.
    assert (E : map_get l f = None) by (by apply map_get_None). by rewrite E.
Qed.
Section Fields.
Context {T : Type} (k : kind T) (P : T -> Prop) (l : list (string * option json)) (f : string).
Hypothesis Hk : kind_ok k P.
Hypothesis Hnd : NoDup l.*1.
Lemma set_member_present v : map_get l f = Some v -> v <> Some JNull -> set_member (JObj (present l)) f = Ret v.
Proof. intros E Hv. cbn. rewrite present_get, E by done. cbn. by destruct v as [[]|]. Qed.
Lemma read_present {U} (b : bool) v d (rest : T -> outcome U) :
  map_get l f = Some (omit_if b (to_json k v)) -> P v -> (b = true -> v = d) ->
  (read k f d (JObj (present l)) ≫= rest) = rest v.
Proof.
  intros E Hv Hd. destruct (Hk v Hv) as (Hr & Hn & _). unfold read. 
  rewrite (set_member_present _ E) by (destruct b; cbn; congruence).
  destruct b; cbn; [by rewrite Hd|]. by rewrite Hr.
Qed.
Lemma read_opt_present {U} (v : option T) (rest : option T -> outcome U) :
  map_get l f = Some (to_json k <$> v) -> from_option P True v ->
  (read_opt k f (JObj (present l)) ≫= rest) = rest v.
Proof.
  intros E Hv. unfold read_opt. destruct v as [v|].
  - destruct (Hk v Hv) as (Hr & Hn & _). rewrite (set_member_present _ E) by (cbn; congruence). cbn. by rewrite Hr.
  - by rewrite (set_member_present _ E).
Qed.
Lemma read_all_written vs : Forall P vs -> read_all k (map (to_json k) vs) = Ret vs.
Proof. induction 1 as [|v vs Hv _ IH]; [done|]. cbn. destruct (Hk v Hv) as [-> _]. cbn. by rewrite IH. Qed.
Lemma read_list_present {U} vs (rest : list T -> outcome U) :
  map_get l f = Some (many k vs) -> Forall P vs ->
  (read_list k f (JObj (present l)) ≫= rest) = rest vs.
Proof.
  intros E Hv. unfold read_list. rewrite present_get, E by done. cbn. destruct vs as [|v vs]; [done|].
  cbn [many id]. by rewrite (read_all_written (v :: vs)).
Qed.
Definition member_ok (v : option json) : Prop := from_option json_ok True v.
Lemma omit_if_ok b v : P v -> member_ok (omit_if b (to_json k v)).
Proof. intros Hv. destruct b; [done|]. by apply Hk. Qed.
Lemma opt_ok (v : option T) : from_option P True v -> member_ok (to_json k <$> v).
Proof. destruct v as [v|]; [|done]. intros Hv. by apply Hk. Qed.
Lemma many_ok vs : Forall P vs -> member_ok (many k vs).
Proof.
  intros Hv. destruct vs as [|v0 vs]; [done|]. cbn [many]. change (json_ok (JArr (map (to_json k) (v0 :: vs)))).
  apply json_ok_arr, Forall_map. eapply Forall_impl; [exact Hv|]. intros x Hx. by apply Hk.
Qed.
End Fields.
Lemma present_sub l f : f ∈ (present l).*1 -> f ∈ l.*1.
Proof.
  induction l as [|[f' [v|]] l IH]; cbn; [done| |intros Hf; right; by apply IH].
  intros [->|Hf]%elem_of_cons; [by left|right; by apply IH].
Qed.
Lemma present_ok l : NoDup l.*1 -> Forall (fun fv => member_ok fv.2) l -> json_ok (JObj (present l)).
Proof.
  intros Hn Hl. apply json_ok_obj. unfold map_ok, map_keys. split.
  - clear Hl. induction l as [|[f [v|]] l IH]; cbn in *; [done| |]; apply NoDup_cons in Hn as [Hf Hn]; [|by apply IH].
    apply NoDup_cons. split; [|by apply IH]. intros Hin. by apply Hf, present_sub.
  - clear Hn. induction Hl as [|[f [v|]] l Hv _ IH]; cbn in *; [constructor|by constructor|done].
Qed.

(** One field of a message after the other. *)
Lemma len_zero_empty (b : bytes) : (len b =? 0)%Z = true -> b = [].
Proof. intros E. by apply len_zero_nil, Z.eqb_eq. Qed.
Lemma double_default x : not_neg_zero x -> is_zero x = true -> x = S754_zero false.
Proof. by destruct x as [[]| | |]. Qed.
Ltac default_value := let E := fresh in intros E; first
  [ by apply Z.eqb_eq in E | by apply String.eqb_eq in E | by apply negb_true_iff in E
  | by apply len_zero_empty in E | by apply double_default in E ].
Lemma anything_opt {A} (v : option A) : from_option (fun _ => True) True v.
Proof. by destruct v. Qed.
Ltac conv_side Hnd := first
  [ exact Hnd | exact I | assumption | reflexivity | solve [auto with kind_ok nocore] | default_value
  | apply anything_opt | apply Forall_true; intros; exact I ].
Ltac by_members :=
  first [ apply present_ok; [assumption|] | apply json_ok_obj; [constructor|constructor] ];
  repeat (apply Forall_cons_2; [first
    [ eapply omit_if_ok | eapply opt_ok | eapply many_ok ]; [conv_side idtac|conv_side idtac] |]);
  apply Forall_nil_2.
Tactic Notation "solve_conv" reference(fromJSON) reference(toJSON) reference(conv) reference(known) :=
  let message := fresh "message" in let Hknown := fresh "Hknown" in let Hnd := fresh "Hnd" in
  intros message Hknown; destruct message; cbn [to_json of_json conv]; unfold toJSON, fromJSON;
  try match goal with |- context [present ?l] =>
    assert (Hnd : NoDup l.*1) by (apply (bool_decide_unpack _); vm_compute; exact I) end;
  unfold known in Hknown; destruct_and? Hknown;
  split; [|split; [done|by_members]];
  repeat first
    [ erewrite read_present by conv_side Hnd | erewrite read_opt_present by conv_side Hnd
    | erewrite read_list_present by conv_side Hnd ];
  done.

(** ** Copying a whole object *)
Lemma copied_opt {A B} (f : B -> A) (g : A -> B) (o : option A) : (forall x, f (g x) = x) -> f <$> (g <$> o) = o.
Proof. intros Hfg. destruct o; [|done]. cbn. by rewrite Hfg. Qed.
Lemma copied_list {A B} (f : B -> A) (g : A -> B) l : (forall x, f (g x) = x) -> map f (map g l) = l.
Proof. intros Hfg. induction l as [|x l IH]; [done|]. cbn. by rewrite Hfg, IH. Qed.
Tactic Notation "solve_whole" reference(copy) reference(all) ident(m) :=
  unfold copy, all; destruct m; cbn; f_equal; first
    [ reflexivity | apply copied_opt; solve [auto with whole nocore] | apply copied_list; solve [auto with whole nocore] ].
