(* ===== verification/ProtoFileValues.v ===== *)
(** * Generated conversions: the file-transfer messages

    [proto/message.ts], one module per message type: [toJSON], [fromJSON], [fromPartial] and
    [create].  [partial] is the object [fromPartial] takes, where a member that is absent,
    [undefined] or [null] is [None].  Reading undoes writing ([conv_ok]), and a partial object that
    has everything is copied ([whole]). *)
From Stdlib Require Import Floats.SpecFloat.
From S2P Require Import Prelude Json ProtoWire ProtoEnums ProtoJson ProtoFile.
Local Open Scope string_scope.

(** ** [FileEntry] (message.ts, lines 5194-5235) *)
Module FileEntryValue.
Definition fields `{FloatJson} (message : FileEntry.t) : list (string * option json) :=
  let 'FileEntry.mk entry_type name is_hidden size modified_time := message in
  [("entry_type", omit_if (entry_type =? 0)%Z (to_json (json_enum FileType.names) entry_type));
   ("name", omit_if (name =? "") (to_json json_string name));
   ("is_hidden", omit_if (negb is_hidden) (to_json json_bool is_hidden));
   ("size", omit_if (size =? 0)%Z (to_json json_number size));
   ("modified_time", omit_if (modified_time =? 0)%Z (to_json json_number modified_time))].
Definition toJSON `{FloatJson} (message : FileEntry.t) : json := JObj (present (fields message)).
Definition fromJSON `{FloatJson} (object : json) : outcome FileEntry.t :=
  entry_type ← read (json_enum FileType.names) "entry_type" 0%Z object;
  name ← read json_string "name" "" object;
  is_hidden ← read json_bool "is_hidden" false object;
  size ← read json_number "size" 0%Z object;
  modified_time ← read json_number "modified_time" 0%Z object;
  mret (FileEntry.mk entry_type name is_hidden size modified_time).
Definition conv `{FloatJson} : kind FileEntry.t := {| to_json := toJSON; of_json := fromJSON |}.
(** Every enum number has a name. *)
Definition known (message : FileEntry.t) : Prop :=
  named FileType.names message.(FileEntry.entry_type).
Record partial := { entry_type : maybe Z; name : maybe string; is_hidden : maybe bool; size : maybe Z;
  modified_time : maybe Z }.
Definition nothing : partial := {| entry_type := None; name := None; is_hidden := None; size := None; modified_time := None |}.
Definition fromPartial (object : partial) : FileEntry.t := {|
  FileEntry.entry_type := default 0%Z object.(entry_type);
  FileEntry.name := default "" object.(name);
  FileEntry.is_hidden := default false object.(is_hidden);
  FileEntry.size := default 0%Z object.(size);
  FileEntry.modified_time := default 0%Z object.(modified_time) |}.
Definition whole (message : FileEntry.t) : partial :=
  let 'FileEntry.mk entry_type name is_hidden size modified_time := message in
  {| entry_type := Some entry_type; name := Some name; is_hidden := Some is_hidden;
    size := Some size; modified_time := Some modified_time |}.
Definition create (base : maybe partial) : FileEntry.t := fromPartial (default nothing base).
Lemma FileEntry_conv_ok `{FloatJsonLaws} : kind_ok conv known.
Proof. solve_conv fromJSON toJSON conv known. Qed.
Lemma FileEntry_whole m : fromPartial (whole m) = m.
Proof. solve_whole fromPartial whole m. Qed.
End FileEntryValue.
#[export] Hint Resolve FileEntryValue.FileEntry_conv_ok : kind_ok.
#[export] Hint Resolve FileEntryValue.FileEntry_whole : whole.

(** ** [FileDirectory] (message.ts, lines 5293-5324) *)
Module FileDirectoryValue.
Definition fields `{FloatJson} (message : FileDirectory.t) : list (string * option json) :=
  let 'FileDirectory.mk id path entries := message in
  [("id", omit_if (id =? 0)%Z (to_json json_number id));
   ("path", omit_if (path =? "") (to_json json_string path));
   ("entries", many FileEntryValue.conv entries)].
Definition toJSON `{FloatJson} (message : FileDirectory.t) : json := JObj (present (fields message)).
Definition fromJSON `{FloatJson} (object : json) : outcome FileDirectory.t :=
  id ← read json_number "id" 0%Z object;
  path ← read json_string "path" "" object;
  entries ← read_list FileEntryValue.conv "entries" object;
  mret (FileDirectory.mk id path entries).
Definition conv `{FloatJson} : kind FileDirectory.t := {| to_json := toJSON; of_json := fromJSON |}.
(** Every enum number has a name. *)
Definition known (message : FileDirectory.t) : Prop :=
  Forall FileEntryValue.known message.(FileDirectory.entries).
Record partial := { id : maybe Z; path : maybe string; entries : maybe (list FileEntryValue.partial) }.
Definition nothing : partial := {| id := None; path := None; entries := None |}.
Definition fromPartial (object : partial) : FileDirectory.t := {|
  FileDirectory.id := default 0%Z object.(id);
  FileDirectory.path := default "" object.(path);
  FileDirectory.entries := default [] (map FileEntryValue.fromPartial <$> object.(entries)) |}.
Definition whole (message : FileDirectory.t) : partial :=
  let 'FileDirectory.mk id path entries := message in
  {| id := Some id; path := Some path; entries := Some (map FileEntryValue.whole entries) |}.
Definition create (base : maybe partial) : FileDirectory.t := fromPartial (default nothing base).
Lemma FileDirectory_conv_ok `{FloatJsonLaws} : kind_ok conv known.
Proof. solve_conv fromJSON toJSON conv known. Qed.
Lemma FileDirectory_whole m : fromPartial (whole m) = m.
Proof. solve_whole fromPartial whole m. Qed.
End FileDirectoryValue.
#[export] Hint Resolve FileDirectoryValue.FileDirectory_conv_ok : kind_ok.
#[export] Hint Resolve FileDirectoryValue.FileDirectory_whole : whole.

(** ** [ReadDir] (message.ts, lines 5372-5398) *)
Module ReadDirValue.
Definition fields `{FloatJson} (message : ReadDir.t) : list (string * option json) :=
  let 'ReadDir.mk path include_hidden := message in
  [("path", omit_if (path =? "") (to_json json_string path));
   ("include_hidden", omit_if (negb include_hidden) (to_json json_bool include_hidden))].
Definition toJSON `{FloatJson} (message : ReadDir.t) : json := JObj (present (fields message)).
Definition fromJSON `{FloatJson} (object : json) : outcome ReadDir.t :=
  path ← read json_string "path" "" object;
  include_hidden ← read json_bool "include_hidden" false object;
  mret (ReadDir.mk path include_hidden).
Definition conv `{FloatJson} : kind ReadDir.t := {| to_json := toJSON; of_json := fromJSON |}.
Definition known (message : ReadDir.t) : Prop :=
  True.
Record partial := { path : maybe string; include_hidden : maybe bool }.
Definition nothing : partial := {| path := None; include_hidden := None |}.
Definition fromPartial (object : partial) : ReadDir.t := {|
  ReadDir.path := default "" object.(path);
  ReadDir.include_hidden := default false object.(include_hidden) |}.
Definition whole (message : ReadDir.t) : partial :=
  let 'ReadDir.mk path include_hidden := message in
  {| path := Some path; include_hidden := Some include_hidden |}.
Definition create (base : maybe partial) : ReadDir.t := fromPartial (default nothing base).
Lemma ReadDir_conv_ok `{FloatJsonLaws} : kind_ok conv known.
Proof. solve_conv fromJSON toJSON conv known. Qed.
Lemma ReadDir_whole m : fromPartial (whole m) = m.
Proof. solve_whole fromPartial whole m. Qed.
End ReadDirValue.
#[export] Hint Resolve ReadDirValue.ReadDir_conv_ok : kind_ok.
#[export] Hint Resolve ReadDirValue.ReadDir_whole : whole.

(** ** [ReadEmptyDirs] (message.ts, lines 5446-5472) *)
Module ReadEmptyDirsValue.
Definition fields `{FloatJson} (message : ReadEmptyDirs.t) : list (string * option json) :=
  let 'ReadEmptyDirs.mk path include_hidden := message in
  [("path", omit_if (path =? "") (to_json json_string path));
   ("include_hidden", omit_if (negb include_hidden) (to_json json_bool include_hidden))].
Definition toJSON `{FloatJson} (message : ReadEmptyDirs.t) : json := JObj (present (fields message)).
Definition fromJSON `{FloatJson} (object : json) : outcome ReadEmptyDirs.t :=
  path ← read json_string "path" "" object;
  include_hidden ← read json_bool "include_hidden" false object;
  mret (ReadEmptyDirs.mk path include_hidden).
Definition conv `{FloatJson} : kind ReadEmptyDirs.t := {| to_json := toJSON; of_json := fromJSON |}.
Definition known (message : ReadEmptyDirs.t) : Prop :=
  True.
Record partial := { path : maybe string; include_hidden : maybe bool }.
Definition nothing : partial := {| path := None; include_hidden := None |}.
Definition fromPartial (object : partial) : ReadEmptyDirs.t := {|
  ReadEmptyDirs.path := default "" object.(path);
  ReadEmptyDirs.include_hidden := default false object.(include_hidden) |}.
Definition whole (message : ReadEmptyDirs.t) : partial :=
  let 'ReadEmptyDirs.mk path include_hidden := message in
  {| path := Some path; include_hidden := Some include_hidden |}.
Definition create (base : maybe partial) : ReadEmptyDirs.t := fromPartial (default nothing base).
Lemma ReadEmptyDirs_conv_ok `{FloatJsonLaws} : kind_ok conv known.
Proof. solve_conv fromJSON toJSON conv known. Qed.
Lemma ReadEmptyDirs_whole m : fromPartial (whole m) = m.
Proof. solve_whole fromPartial whole m. Qed.
End ReadEmptyDirsValue.
#[export] Hint Resolve ReadEmptyDirsValue.ReadEmptyDirs_conv_ok : kind_ok.
#[export] Hint Resolve ReadEmptyDirsValue.ReadEmptyDirs_whole : whole.

(** ** [ReadEmptyDirsResponse] (message.ts, lines 5520-5548) *)
Module ReadEmptyDirsResponseValue.
Definition fields `{FloatJson} (message : ReadEmptyDirsResponse.t) : list (string * option json) :=
  let 'ReadEmptyDirsResponse.mk path empty_dirs := message in
  [("path", omit_if (path =? "") (to_json json_string path));
   ("empty_dirs", many FileDirectoryValue.conv empty_dirs)].
Definition toJSON `{FloatJson} (message : ReadEmptyDirsResponse.t) : json := JObj (present (fields message)).
Definition fromJSON `{FloatJson} (object : json) : outcome ReadEmptyDirsResponse.t :=
  path ← read json_string "path" "" object;
  empty_dirs ← read_list FileDirectoryValue.conv "empty_dirs" object;
  mret (ReadEmptyDirsResponse.mk path empty_dirs).
Definition conv `{FloatJson} : kind ReadEmptyDirsResponse.t := {| to_json := toJSON; of_json := fromJSON |}.
(** Every enum number has a name. *)
Definition known (message : ReadEmptyDirsResponse.t) : Prop :=
  Forall FileDirectoryValue.known message.(ReadEmptyDirsResponse.empty_dirs).
Record partial := { path : maybe string; empty_dirs : maybe (list FileDirectoryValue.partial) }.
Definition nothing : partial := {| path := None; empty_dirs := None |}.
Definition fromPartial (object : partial) : ReadEmptyDirsResponse.t := {|
  ReadEmptyDirsResponse.path := default "" object.(path);
  ReadEmptyDirsResponse.empty_dirs := default [] (map FileDirectoryValue.fromPartial <$> object.(empty_dirs)) |}.
Definition whole (message : ReadEmptyDirsResponse.t) : partial :=
  let 'ReadEmptyDirsResponse.mk path empty_dirs := message in
  {| path := Some path; empty_dirs := Some (map FileDirectoryValue.whole empty_dirs) |}.
Definition create (base : maybe partial) : ReadEmptyDirsResponse.t := fromPartial (default nothing base).
Lemma ReadEmptyDirsResponse_conv_ok `{FloatJsonLaws} : kind_ok conv known.
Proof. solve_conv fromJSON toJSON conv known. Qed.
Lemma ReadEmptyDirsResponse_whole m : fromPartial (whole m) = m.
Proof. solve_whole fromPartial whole m. Qed.
End ReadEmptyDirsResponseValue.
#[export] Hint Resolve ReadEmptyDirsResponseValue.ReadEmptyDirsResponse_conv_ok : kind_ok.
#[export] Hint Resolve ReadEmptyDirsResponseValue.ReadEmptyDirsResponse_whole : whole.

(** ** [ReadAllFiles] (message.ts, lines 5606-5637) *)
Module ReadAllFilesValue.
Definition fields `{FloatJson} (message : ReadAllFiles.t) : list (string * option json) :=
  let 'ReadAllFiles.mk id path include_hidden := message in
  [("id", omit_if (id =? 0)%Z (to_json json_number id));
   ("path", omit_if (path =? "") (to_json json_string path));
   ("include_hidden", omit_if (negb include_hidden) (to_json json_bool include_hidden))].
Definition toJSON `{FloatJson} (message : ReadAllFiles.t) : json := JObj (present (fields message)).
Definition fromJSON `{FloatJson} (object : json) : outcome ReadAllFiles.t :=
  id ← read json_number "id" 0%Z object;
  path ← read json_string "path" "" object;
  include_hidden ← read json_bool "include_hidden" false object;
  mret (ReadAllFiles.mk id path include_hidden).
Definition conv `{FloatJson} : kind ReadAllFiles.t := {| to_json := toJSON; of_json := fromJSON |}.
Definition known (message : ReadAllFiles.t) : Prop :=
  True.
Record partial := { id : maybe Z; path : maybe string; include_hidden : maybe bool }.
Definition nothing : partial := {| id := None; path := None; include_hidden := None |}.
Definition fromPartial (object : partial) : ReadAllFiles.t := {|
  ReadAllFiles.id := default 0%Z object.(id);
  ReadAllFiles.path := default "" object.(path);
  ReadAllFiles.include_hidden := default false object.(include_hidden) |}.
Definition whole (message : ReadAllFiles.t) : partial :=
  let 'ReadAllFiles.mk id path include_hidden := message in
  {| id := Some id; path := Some path; include_hidden := Some include_hidden |}.
Definition create (base : maybe partial) : ReadAllFiles.t := fromPartial (default nothing base).
Lemma ReadAllFiles_conv_ok `{FloatJsonLaws} : kind_ok conv known.
Proof. solve_conv fromJSON toJSON conv known. Qed.
Lemma ReadAllFiles_whole m : fromPartial (whole m) = m.
Proof. solve_whole fromPartial whole m. Qed.
End ReadAllFilesValue.
#[export] Hint Resolve ReadAllFilesValue.ReadAllFiles_conv_ok : kind_ok.
#[export] Hint Resolve ReadAllFilesValue.ReadAllFiles_whole : whole.

(** ** [FileRename] (message.ts, lines 5695-5726) *)
Module FileRenameValue.
Definition fields `{FloatJson} (message : FileRename.t) : list (string * option json) :=
  let 'FileRename.mk id path new_name := message in
  [("id", omit_if (id =? 0)%Z (to_json json_number id));
   ("path", omit_if (path =? "") (to_json json_string path));
   ("new_name", omit_if (new_name =? "") (to_json json_string new_name))].
Definition toJSON `{FloatJson} (message : FileRename.t) : json := JObj (present (fields message)).
Definition fromJSON `{FloatJson} (object : json) : outcome FileRename.t :=
  id ← read json_number "id" 0%Z object;
  path ← read json_string "path" "" object;
  new_name ← read json_string "new_name" "" object;
  mret (FileRename.mk id path new_name).
Definition conv `{FloatJson} : kind FileRename.t := {| to_json := toJSON; of_json := fromJSON |}.
Definition known (message : FileRename.t) : Prop :=
  True.
Record partial := { id : maybe Z; path : maybe string; new_name : maybe string }.
Definition nothing : partial := {| id := None; path := None; new_name := None |}.
Definition fromPartial (object : partial) : FileRename.t := {|
  FileRename.id := default 0%Z object.(id);
  FileRename.path := default "" object.(path);
  FileRename.new_name := default "" object.(new_name) |}.
Definition whole (message : FileRename.t) : partial :=
  let 'FileRename.mk id path new_name := message in
  {| id := Some id; path := Some path; new_name := Some new_name |}.
Definition create (base : maybe partial) : FileRename.t := fromPartial (default nothing base).
Lemma FileRename_conv_ok `{FloatJsonLaws} : kind_ok conv known.
Proof. solve_conv fromJSON toJSON conv known. Qed.
Lemma FileRename_whole m : fromPartial (whole m) = m.
Proof. solve_whole fromPartial whole m. Qed.
End FileRenameValue.
#[export] Hint Resolve FileRenameValue.FileRename_conv_ok : kind_ok.
#[export] Hint Resolve FileRenameValue.FileRename_whole : whole.

(** ** [FileTransferSendRequest] (message.ts, lines 6589-6625) *)
Module FileTransferSendRequestValue.
Definition fields `{FloatJson} (message : FileTransferSendRequest.t) : list (string * option json) :=
  let 'FileTransferSendRequest.mk id path include_hidden file_num := message in
  [("id", omit_if (id =? 0)%Z (to_json json_number id));
   ("path", omit_if (path =? "") (to_json json_string path));
   ("include_hidden", omit_if (negb include_hidden) (to_json json_bool include_hidden));
   ("file_num", omit_if (file_num =? 0)%Z (to_json json_number file_num))].
Definition toJSON `{FloatJson} (message : FileTransferSendRequest.t) : json := JObj (present (fields message)).
Definition fromJSON `{FloatJson} (object : json) : outcome FileTransferSendRequest.t :=
  id ← read json_number "id" 0%Z object;
  path ← read json_string "path" "" object;
  include_hidden ← read json_bool "include_hidden" false object;
  file_num ← read json_number "file_num" 0%Z object;
  mret (FileTransferSendRequest.mk id path include_hidden file_num).
Definition conv `{FloatJson} : kind FileTransferSendRequest.t := {| to_json := toJSON; of_json := fromJSON |}.
Definition known (message : FileTransferSendRequest.t) : Prop :=
  True.
Record partial := { id : maybe Z; path : maybe string; include_hidden : maybe bool; file_num : maybe Z }.
Definition nothing : partial := {| id := None; path := None; include_hidden := None; file_num := None |}.
Definition fromPartial (object : partial) : FileTransferSendRequest.t := {|
  FileTransferSendRequest.id := default 0%Z object.(id);
  FileTransferSendRequest.path := default "" object.(path);
  FileTransferSendRequest.include_hidden := default false object.(include_hidden);
  FileTransferSendRequest.file_num := default 0%Z object.(file_num) |}.
Definition whole (message : FileTransferSendRequest.t) : partial :=
  let 'FileTransferSendRequest.mk id path include_hidden file_num := message in
  {| id := Some id; path := Some path; include_hidden := Some include_hidden;
    file_num := Some file_num |}.
Definition create (base : maybe partial) : FileTransferSendRequest.t := fromPartial (default nothing base).
Lemma FileTransferSendRequest_conv_ok `{FloatJsonLaws} : kind_ok conv known.
Proof. solve_conv fromJSON toJSON conv known. Qed.
Lemma FileTransferSendRequest_whole m : fromPartial (whole m) = m.
Proof. solve_whole fromPartial whole m. Qed.
End FileTransferSendRequestValue.
#[export] Hint Resolve FileTransferSendRequestValue.FileTransferSendRequest_conv_ok : kind_ok.
#[export] Hint Resolve FileTransferSendRequestValue.FileTransferSendRequest_whole : whole.

(** ** [FileTransferReceiveRequest] (message.ts, lines 6883-6924) *)
Module FileTransferReceiveRequestValue.
Definition fields `{FloatJson} (message : FileTransferReceiveRequest.t) : list (string * option json) :=
  let 'FileTransferReceiveRequest.mk id path files file_num total_size := message in
  [("id", omit_if (id =? 0)%Z (to_json json_number id));
   ("path", omit_if (path =? "") (to_json json_string path));
   ("files", many FileEntryValue.conv files);
   ("file_num", omit_if (file_num =? 0)%Z (to_json json_number file_num));
   ("total_size", omit_if (total_size =? 0)%Z (to_json json_number total_size))].
Definition toJSON `{FloatJson} (message : FileTransferReceiveRequest.t) : json := JObj (present (fields message)).
Definition fromJSON `{FloatJson} (object : json) : outcome FileTransferReceiveRequest.t :=
  id ← read json_number "id" 0%Z object;
  path ← read json_string "path" "" object;
  files ← read_list FileEntryValue.conv "files" object;
  file_num ← read json_number "file_num" 0%Z object;
  total_size ← read json_number "total_size" 0%Z object;
  mret (FileTransferReceiveRequest.mk id path files file_num total_size).
Definition conv `{FloatJson} : kind FileTransferReceiveRequest.t := {| to_json := toJSON; of_json := fromJSON |}.
(** Every enum number has a name. *)
Definition known (message : FileTransferReceiveRequest.t) : Prop :=
  Forall FileEntryValue.known message.(FileTransferReceiveRequest.files).
Record partial := { id : maybe Z; path : maybe string; files : maybe (list FileEntryValue.partial);
  file_num : maybe Z; total_size : maybe Z }.
Definition nothing : partial := {| id := None; path := None; files := None; file_num := None; total_size := None |}.
Definition fromPartial (object : partial) : FileTransferReceiveRequest.t := {|
  FileTransferReceiveRequest.id := default 0%Z object.(id);
  FileTransferReceiveRequest.path := default "" object.(path);
  FileTransferReceiveRequest.files := default [] (map FileEntryValue.fromPartial <$> object.(files));
  FileTransferReceiveRequest.file_num := default 0%Z object.(file_num);
  FileTransferReceiveRequest.total_size := default 0%Z object.(total_size) |}.
Definition whole (message : FileTransferReceiveRequest.t) : partial :=
  let 'FileTransferReceiveRequest.mk id path files file_num total_size := message in
  {| id := Some id; path := Some path; files := Some (map FileEntryValue.whole files);
    file_num := Some file_num; total_size := Some total_size |}.
Definition create (base : maybe partial) : FileTransferReceiveRequest.t := fromPartial (default nothing base).
Lemma FileTransferReceiveRequest_conv_ok `{FloatJsonLaws} : kind_ok conv known.
Proof. solve_conv fromJSON toJSON conv known. Qed.
Lemma FileTransferReceiveRequest_whole m : fromPartial (whole m) = m.
Proof. solve_whole fromPartial whole m. Qed.
End FileTransferReceiveRequestValue.
#[export] Hint Resolve FileTransferReceiveRequestValue.FileTransferReceiveRequest_conv_ok : kind_ok.
#[export] Hint Resolve FileTransferReceiveRequestValue.FileTransferReceiveRequest_whole : whole.

(** ** [FileDirCreate] (message.ts, lines 7150-7176) *)
Module FileDirCreateValue.
Definition fields `{FloatJson} (message : FileDirCreate.t) : list (string * option json) :=
  let 'FileDirCreate.mk id path := message in
  [("id", omit_if (id =? 0)%Z (to_json json_number id));
   ("path", omit_if (path =? "") (to_json json_string path))].
Definition toJSON `{FloatJson} (message : FileDirCreate.t) : json := JObj (present (fields message)).
Definition fromJSON `{FloatJson} (object : json) : outcome FileDirCreate.t :=
  id ← read json_number "id" 0%Z object;
  path ← read json_string "path" "" object;
  mret (FileDirCreate.mk id path).
Definition conv `{FloatJson} : kind FileDirCreate.t := {| to_json := toJSON; of_json := fromJSON |}.
Definition known (message : FileDirCreate.t) : Prop :=
  True.
Record partial := { id : maybe Z; path : maybe string }.
Definition nothing : partial := {| id := None; path := None |}.
Definition fromPartial (object : partial) : FileDirCreate.t := {|
  FileDirCreate.id := default 0%Z object.(id);
  FileDirCreate.path := default "" object.(path) |}.
Definition whole (message : FileDirCreate.t) : partial :=
  let 'FileDirCreate.mk id path := message in
  {| id := Some id; path := Some path |}.
Definition create (base : maybe partial) : FileDirCreate.t := fromPartial (default nothing base).
Lemma FileDirCreate_conv_ok `{FloatJsonLaws} : kind_ok conv known.
Proof. solve_conv fromJSON toJSON conv known. Qed.
Lemma FileDirCreate_whole m : fromPartial (whole m) = m.
Proof. solve_whole fromPartial whole m. Qed.
End FileDirCreateValue.
#[export] Hint Resolve FileDirCreateValue.FileDirCreate_conv_ok : kind_ok.
#[export] Hint Resolve FileDirCreateValue.FileDirCreate_whole : whole.

(** ** [FileRemoveDir] (message.ts, lines 6982-7013) *)
Module FileRemoveDirValue.
Definition fields `{FloatJson} (message : FileRemoveDir.t) : list (string * option json) :=
  let 'FileRemoveDir.mk id path recursive := message in
  [("id", omit_if (id =? 0)%Z (to_json json_number id));
   ("path", omit_if (path =? "") (to_json json_string path));
   ("recursive", omit_if (negb recursive) (to_json json_bool recursive))].
Definition toJSON `{FloatJson} (message : FileRemoveDir.t) : json := JObj (present (fields message)).
Definition fromJSON `{FloatJson} (object : json) : outcome FileRemoveDir.t :=
  id ← read json_number "id" 0%Z object;
  path ← read json_string "path" "" object;
  recursive ← read json_bool "recursive" false object;
  mret (FileRemoveDir.mk id path recursive).
Definition conv `{FloatJson} : kind FileRemoveDir.t := {| to_json := toJSON; of_json := fromJSON |}.
Definition known (message : FileRemoveDir.t) : Prop :=
  True.
Record partial := { id : maybe Z; path : maybe string; recursive : maybe bool }.
Definition nothing : partial := {| id := None; path := None; recursive := None |}.
Definition fromPartial (object : partial) : FileRemoveDir.t := {|
  FileRemoveDir.id := default 0%Z object.(id);
  FileRemoveDir.path := default "" object.(path);
  FileRemoveDir.recursive := default false object.(recursive) |}.
Definition whole (message : FileRemoveDir.t) : partial :=
  let 'FileRemoveDir.mk id path recursive := message in
  {| id := Some id; path := Some path; recursive := Some recursive |}.
Definition create (base : maybe partial) : FileRemoveDir.t := fromPartial (default nothing base).
Lemma FileRemoveDir_conv_ok `{FloatJsonLaws} : kind_ok conv known.
Proof. solve_conv fromJSON toJSON conv known. Qed.
Lemma FileRemoveDir_whole m : fromPartial (whole m) = m.
Proof. solve_whole fromPartial whole m. Qed.
End FileRemoveDirValue.
#[export] Hint Resolve FileRemoveDirValue.FileRemoveDir_conv_ok : kind_ok.
#[export] Hint Resolve FileRemoveDirValue.FileRemoveDir_whole : whole.

(** ** [FileRemoveFile] (message.ts, lines 7071-7102) *)
Module FileRemoveFileValue.
Definition fields `{FloatJson} (message : FileRemoveFile.t) : list (string * option json) :=
  let 'FileRemoveFile.mk id path file_num := message in
  [("id", omit_if (id =? 0)%Z (to_json json_number id));
   ("path", omit_if (path =? "") (to_json json_string path));
   ("file_num", omit_if (file_num =? 0)%Z (to_json json_number file_num))].
Definition toJSON `{FloatJson} (message : FileRemoveFile.t) : json := JObj (present (fields message)).
Definition fromJSON `{FloatJson} (object : json) : outcome FileRemoveFile.t :=
  id ← read json_number "id" 0%Z object;
  path ← read json_string "path" "" object;
  file_num ← read json_number "file_num" 0%Z object;
  mret (FileRemoveFile.mk id path file_num).
Definition conv `{FloatJson} : kind FileRemoveFile.t := {| to_json := toJSON; of_json := fromJSON |}.
Definition known (message : FileRemoveFile.t) : Prop :=
  True.
Record partial := { id : maybe Z; path : maybe string; file_num : maybe Z }.
Definition nothing : partial := {| id := None; path := None; file_num := None |}.
Definition fromPartial (object : partial) : FileRemoveFile.t := {|
  FileRemoveFile.id := default 0%Z object.(id);
  FileRemoveFile.path := default "" object.(path);
  FileRemoveFile.file_num := default 0%Z object.(file_num) |}.
Definition whole (message : FileRemoveFile.t) : partial :=
  let 'FileRemoveFile.mk id path file_num := message in
  {| id := Some id; path := Some path; file_num := Some file_num |}.
Definition create (base : maybe partial) : FileRemoveFile.t := fromPartial (default nothing base).
Lemma FileRemoveFile_conv_ok `{FloatJsonLaws} : kind_ok conv known.
Proof. solve_conv fromJSON toJSON conv known. Qed.
Lemma FileRemoveFile_whole m : fromPartial (whole m) = m.
Proof. solve_whole fromPartial whole m. Qed.
End FileRemoveFileValue.
#[export] Hint Resolve FileRemoveFileValue.FileRemoveFile_conv_ok : kind_ok.
#[export] Hint Resolve FileRemoveFileValue.FileRemoveFile_whole : whole.

(** ** [FileTransferCancel] (message.ts, lines 6009-6028) *)
Module FileTransferCancelValue.
Definition fields `{FloatJson} (message : FileTransferCancel.t) : list (string * option json) :=
  let 'FileTransferCancel.mk id := message in
  [("id", omit_if (id =? 0)%Z (to_json json_number id))].
Definition toJSON `{FloatJson} (message : FileTransferCancel.t) : json := JObj (present (fields message)).
Definition fromJSON `{FloatJson} (object : json) : outcome FileTransferCancel.t :=
  id ← read json_number "id" 0%Z object;
  mret (FileTransferCancel.mk id).
Definition conv `{FloatJson} : kind FileTransferCancel.t := {| to_json := toJSON; of_json := fromJSON |}.
Definition known (message : FileTransferCancel.t) : Prop :=
  True.
Record partial := { id : maybe Z }.
Definition nothing : partial := {| id := None |}.
Definition fromPartial (object : partial) : FileTransferCancel.t := {|
  FileTransferCancel.id := default 0%Z object.(id) |}.
Definition whole (message : FileTransferCancel.t) : partial :=
  let 'FileTransferCancel.mk id := message in
  {| id := Some id |}.
Definition create (base : maybe partial) : FileTransferCancel.t := fromPartial (default nothing base).
Lemma FileTransferCancel_conv_ok `{FloatJsonLaws} : kind_ok conv known.
Proof. solve_conv fromJSON toJSON conv known. Qed.
Lemma FileTransferCancel_whole m : fromPartial (whole m) = m.
Proof. solve_whole fromPartial whole m. Qed.
End FileTransferCancelValue.
#[export] Hint Resolve FileTransferCancelValue.FileTransferCancel_conv_ok : kind_ok.
#[export] Hint Resolve FileTransferCancelValue.FileTransferCancel_whole : whole.

(** ** [FileTransferSendConfirmRequest] (message.ts, lines 6693-6731) *)
Module FileTransferSendConfirmRequestValue.
Definition fields `{FloatJson} (message : FileTransferSendConfirmRequest.t) : list (string * option json) :=
  let 'FileTransferSendConfirmRequest.mk id file_num skip offset_blk := message in
  [("id", omit_if (id =? 0)%Z (to_json json_number id));
   ("file_num", omit_if (file_num =? 0)%Z (to_json json_number file_num));
   ("skip", to_json json_bool <$> skip);
   ("offset_blk", to_json json_number <$> offset_blk)].
Definition toJSON `{FloatJson} (message : FileTransferSendConfirmRequest.t) : json := JObj (present (fields message)).
Definition fromJSON `{FloatJson} (object : json) : outcome FileTransferSendConfirmRequest.t :=
  id ← read json_number "id" 0%Z object;
  file_num ← read json_number "file_num" 0%Z object;
  skip ← read_opt json_bool "skip" object;
  offset_blk ← read_opt json_number "offset_blk" object;
  mret (FileTransferSendConfirmRequest.mk id file_num skip offset_blk).
Definition conv `{FloatJson} : kind FileTransferSendConfirmRequest.t := {| to_json := toJSON; of_json := fromJSON |}.
Definition known (message : FileTransferSendConfirmRequest.t) : Prop :=
  True.
Record partial := { id : maybe Z; file_num : maybe Z; skip : maybe bool; offset_blk : maybe Z }.
Definition nothing : partial := {| id := None; file_num := None; skip := None; offset_blk := None |}.
Definition fromPartial (object : partial) : FileTransferSendConfirmRequest.t := {|
  FileTransferSendConfirmRequest.id := default 0%Z object.(id);
  FileTransferSendConfirmRequest.file_num := default 0%Z object.(file_num);
  FileTransferSendConfirmRequest.skip := object.(skip);
  FileTransferSendConfirmRequest.offset_blk := object.(offset_blk) |}.
Definition whole (message : FileTransferSendConfirmRequest.t) : partial :=
  let 'FileTransferSendConfirmRequest.mk id file_num skip offset_blk := message in
  {| id := Some id; file_num := Some file_num; skip := skip; offset_blk := offset_blk |}.
Definition create (base : maybe partial) : FileTransferSendConfirmRequest.t := fromPartial (default nothing base).
Lemma FileTransferSendConfirmRequest_conv_ok `{FloatJsonLaws} : kind_ok conv known.
Proof. solve_conv fromJSON toJSON conv known. Qed.
Lemma FileTransferSendConfirmRequest_whole m : fromPartial (whole m) = m.
Proof. solve_whole fromPartial whole m. Qed.
End FileTransferSendConfirmRequestValue.
#[export] Hint Resolve FileTransferSendConfirmRequestValue.FileTransferSendConfirmRequest_conv_ok : kind_ok.
#[export] Hint Resolve FileTransferSendConfirmRequestValue.FileTransferSendConfirmRequest_whole : whole.

(** ** [FileAction] (message.ts, lines 5876-5971) *)
Module FileActionValue.
Definition fields `{FloatJson} (message : FileAction.t) : list (string * option json) :=
  let 'FileAction.mk read_dir send receive create remove_dir remove_file all_files cancel
    send_confirm rename read_empty_dirs := message in
  [("read_dir", to_json ReadDirValue.conv <$> read_dir);
   ("send", to_json FileTransferSendRequestValue.conv <$> send);
   ("receive", to_json FileTransferReceiveRequestValue.conv <$> receive);
   ("create", to_json FileDirCreateValue.conv <$> create);
   ("remove_dir", to_json FileRemoveDirValue.conv <$> remove_dir);
   ("remove_file", to_json FileRemoveFileValue.conv <$> remove_file);
   ("all_files", to_json ReadAllFilesValue.conv <$> all_files);
   ("cancel", to_json FileTransferCancelValue.conv <$> cancel);
   ("send_confirm", to_json FileTransferSendConfirmRequestValue.conv <$> send_confirm);
   ("rename", to_json FileRenameValue.conv <$> rename);
   ("read_empty_dirs", to_json ReadEmptyDirsValue.conv <$> read_empty_dirs)].
Definition toJSON `{FloatJson} (message : FileAction.t) : json := JObj (present (fields message)).
Definition fromJSON `{FloatJson} (object : json) : outcome FileAction.t :=
  read_dir ← read_opt ReadDirValue.conv "read_dir" object;
  send ← read_opt FileTransferSendRequestValue.conv "send" object;
  receive ← read_opt FileTransferReceiveRequestValue.conv "receive" object;
  create ← read_opt FileDirCreateValue.conv "create" object;
  remove_dir ← read_opt FileRemoveDirValue.conv "remove_dir" object;
  remove_file ← read_opt FileRemoveFileValue.conv "remove_file" object;
  all_files ← read_opt ReadAllFilesValue.conv "all_files" object;
  cancel ← read_opt FileTransferCancelValue.conv "cancel" object;
  send_confirm ← read_opt FileTransferSendConfirmRequestValue.conv "send_confirm" object;
  rename ← read_opt FileRenameValue.conv "rename" object;
  read_empty_dirs ← read_opt ReadEmptyDirsValue.conv "read_empty_dirs" object;
  mret (FileAction.mk read_dir send receive create remove_dir remove_file all_files cancel send_confirm rename read_empty_dirs).
Definition conv `{FloatJson} : kind FileAction.t := {| to_json := toJSON; of_json := fromJSON |}.
(** Every enum number has a name. *)
Definition known (message : FileAction.t) : Prop :=
  from_option ReadDirValue.known True message.(FileAction.read_dir) /\
  from_option FileTransferSendRequestValue.known True message.(FileAction.send) /\
  from_option FileTransferReceiveRequestValue.known True message.(FileAction.receive) /\
  from_option FileDirCreateValue.known True message.(FileAction.create) /\
  from_option FileRemoveDirValue.known True message.(FileAction.remove_dir) /\
  from_option FileRemoveFileValue.known True message.(FileAction.remove_file) /\
  from_option ReadAllFilesValue.known True message.(FileAction.all_files) /\
  from_option FileTransferCancelValue.known True message.(FileAction.cancel) /\
  from_option FileTransferSendConfirmRequestValue.known True message.(FileAction.send_confirm) /\
  from_option FileRenameValue.known True message.(FileAction.rename) /\
  from_option ReadEmptyDirsValue.known True message.(FileAction.read_empty_dirs).
Record partial := { read_dir : maybe ReadDirValue.partial; send : maybe FileTransferSendRequestValue.partial;
  receive : maybe FileTransferReceiveRequestValue.partial;
  create : maybe FileDirCreateValue.partial; remove_dir : maybe FileRemoveDirValue.partial;
  remove_file : maybe FileRemoveFileValue.partial; all_files : maybe ReadAllFilesValue.partial;
  cancel : maybe FileTransferCancelValue.partial;
  send_confirm : maybe FileTransferSendConfirmRequestValue.partial;
  rename : maybe FileRenameValue.partial; read_empty_dirs : maybe ReadEmptyDirsValue.partial }.
Definition nothing : partial := {| read_dir := None; send := None; receive := None; create := None; remove_dir := None;
  remove_file := None; all_files := None; cancel := None; send_confirm := None; rename := None;
  read_empty_dirs := None |}.
Definition fromPartial (object : partial) : FileAction.t := {|
  FileAction.read_dir := ReadDirValue.fromPartial <$> object.(read_dir);
  FileAction.send := FileTransferSendRequestValue.fromPartial <$> object.(send);
  FileAction.receive := FileTransferReceiveRequestValue.fromPartial <$> object.(receive);
  FileAction.create := FileDirCreateValue.fromPartial <$> object.(create);
  FileAction.remove_dir := FileRemoveDirValue.fromPartial <$> object.(remove_dir);
  FileAction.remove_file := FileRemoveFileValue.fromPartial <$> object.(remove_file);
  FileAction.all_files := ReadAllFilesValue.fromPartial <$> object.(all_files);
  FileAction.cancel := FileTransferCancelValue.fromPartial <$> object.(cancel);
  FileAction.send_confirm := FileTransferSendConfirmRequestValue.fromPartial <$> object.(send_confirm);
  FileAction.rename := FileRenameValue.fromPartial <$> object.(rename);
  FileAction.read_empty_dirs := ReadEmptyDirsValue.fromPartial <$> object.(read_empty_dirs) |}.
Definition whole (message : FileAction.t) : partial :=
  let 'FileAction.mk read_dir send receive create remove_dir remove_file all_files cancel
    send_confirm rename read_empty_dirs := message in
  {| read_dir := ReadDirValue.whole <$> read_dir;
    send := FileTransferSendRequestValue.whole <$> send;
    receive := FileTransferReceiveRequestValue.whole <$> receive;
    create := FileDirCreateValue.whole <$> create;
    remove_dir := FileRemoveDirValue.whole <$> remove_dir;
    remove_file := FileRemoveFileValue.whole <$> remove_file;
    all_files := ReadAllFilesValue.whole <$> all_files;
    cancel := FileTransferCancelValue.whole <$> cancel;
    send_confirm := FileTransferSendConfirmRequestValue.whole <$> send_confirm;
    rename := FileRenameValue.whole <$> rename;
    read_empty_dirs := ReadEmptyDirsValue.whole <$> read_empty_dirs |}.
Definition create_message (base : maybe partial) : FileAction.t := fromPartial (default nothing base).
Lemma FileAction_conv_ok `{FloatJsonLaws} : kind_ok conv known.
Proof. solve_conv fromJSON toJSON conv known. Qed.
Lemma FileAction_whole m : fromPartial (whole m) = m.
Proof. solve_whole fromPartial whole m. Qed.
End FileActionValue.
#[export] Hint Resolve FileActionValue.FileAction_conv_ok : kind_ok.
#[export] Hint Resolve FileActionValue.FileAction_whole : whole.

(** ** [FileTransferBlock] (message.ts, lines 6391-6432) *)
Module FileTransferBlockValue.
Definition fields `{FloatJson} (message : FileTransferBlock.t) : list (string * option json) :=
  let 'FileTransferBlock.mk id file_num data compressed blk_id := message in
  [("id", omit_if (id =? 0)%Z (to_json json_number id));
   ("file_num", omit_if (file_num =? 0)%Z (to_json json_number file_num));
   ("data", omit_if (len data =? 0)%Z (to_json json_bytes data));
   ("compressed", omit_if (negb compressed) (to_json json_bool compressed));
   ("blk_id", omit_if (blk_id =? 0)%Z (to_json json_number blk_id))].
Definition toJSON `{FloatJson} (message : FileTransferBlock.t) : json := JObj (present (fields message)).
Definition fromJSON `{FloatJson} (object : json) : outcome FileTransferBlock.t :=
  id ← read json_number "id" 0%Z object;
  file_num ← read json_number "file_num" 0%Z object;
  data ← read json_bytes "data" [] object;
  compressed ← read json_bool "compressed" false object;
  blk_id ← read json_number "blk_id" 0%Z object;
  mret (FileTransferBlock.mk id file_num data compressed blk_id).
Definition conv `{FloatJson} : kind FileTransferBlock.t := {| to_json := toJSON; of_json := fromJSON |}.
Definition known (message : FileTransferBlock.t) : Prop :=
  True.
Record partial := { id : maybe Z; file_num : maybe Z; data : maybe bytes; compressed : maybe bool; blk_id : maybe Z }.
Definition nothing : partial := {| id := None; file_num := None; data := None; compressed := None; blk_id := None |}.
Definition fromPartial (object : partial) : FileTransferBlock.t := {|
  FileTransferBlock.id := default 0%Z object.(id);
  FileTransferBlock.file_num := default 0%Z object.(file_num);
  FileTransferBlock.data := default [] object.(data);
  FileTransferBlock.compressed := default false object.(compressed);
  FileTransferBlock.blk_id := default 0%Z object.(blk_id) |}.
Definition whole (message : FileTransferBlock.t) : partial :=
  let 'FileTransferBlock.mk id file_num data compressed blk_id := message in
  {| id := Some id; file_num := Some file_num; data := Some data; compressed := Some compressed;
    blk_id := Some blk_id |}.
Definition create (base : maybe partial) : FileTransferBlock.t := fromPartial (default nothing base).
Lemma FileTransferBlock_conv_ok `{FloatJsonLaws} : kind_ok conv known.
Proof. solve_conv fromJSON toJSON conv known. Qed.
Lemma FileTransferBlock_whole m : fromPartial (whole m) = m.
Proof. solve_whole fromPartial whole m. Qed.
End FileTransferBlockValue.
#[export] Hint Resolve FileTransferBlockValue.FileTransferBlock_conv_ok : kind_ok.
#[export] Hint Resolve FileTransferBlockValue.FileTransferBlock_whole : whole.

(** ** [FileTransferError] (message.ts, lines 6490-6521) *)
Module FileTransferErrorValue.
Definition fields `{FloatJson} (message : FileTransferError.t) : list (string * option json) :=
  let 'FileTransferError.mk id error file_num := message in
  [("id", omit_if (id =? 0)%Z (to_json json_number id));
   ("error", omit_if (error =? "") (to_json json_string error));
   ("file_num", omit_if (file_num =? 0)%Z (to_json json_number file_num))].
Definition toJSON `{FloatJson} (message : FileTransferError.t) : json := JObj (present (fields message)).
Definition fromJSON `{FloatJson} (object : json) : outcome FileTransferError.t :=
  id ← read json_number "id" 0%Z object;
  error ← read json_string "error" "" object;
  file_num ← read json_number "file_num" 0%Z object;
  mret (FileTransferError.mk id error file_num).
Definition conv `{FloatJson} : kind FileTransferError.t := {| to_json := toJSON; of_json := fromJSON |}.
Definition known (message : FileTransferError.t) : Prop :=
  True.
Record partial := { id : maybe Z; error : maybe string; file_num : maybe Z }.
Definition nothing : partial := {| id := None; error := None; file_num := None |}.
Definition fromPartial (object : partial) : FileTransferError.t := {|
  FileTransferError.id := default 0%Z object.(id);
  FileTransferError.error := default "" object.(error);
  FileTransferError.file_num := default 0%Z object.(file_num) |}.
Definition whole (message : FileTransferError.t) : partial :=
  let 'FileTransferError.mk id error file_num := message in
  {| id := Some id; error := Some error; file_num := Some file_num |}.
Definition create (base : maybe partial) : FileTransferError.t := fromPartial (default nothing base).
Lemma FileTransferError_conv_ok `{FloatJsonLaws} : kind_ok conv known.
Proof. solve_conv fromJSON toJSON conv known. Qed.
Lemma FileTransferError_whole m : fromPartial (whole m) = m.
Proof. solve_whole fromPartial whole m. Qed.
End FileTransferErrorValue.
#[export] Hint Resolve FileTransferErrorValue.FileTransferError_conv_ok : kind_ok.
#[export] Hint Resolve FileTransferErrorValue.FileTransferError_whole : whole.

(** ** [FileTransferDone] (message.ts, lines 6779-6805) *)
Module FileTransferDoneValue.
Definition fields `{FloatJson} (message : FileTransferDone.t) : list (string * option json) :=
  let 'FileTransferDone.mk id file_num := message in
  [("id", omit_if (id =? 0)%Z (to_json json_number id));
   ("file_num", omit_if (file_num =? 0)%Z (to_json json_number file_num))].
Definition toJSON `{FloatJson} (message : FileTransferDone.t) : json := JObj (present (fields message)).
Definition fromJSON `{FloatJson} (object : json) : outcome FileTransferDone.t :=
  id ← read json_number "id" 0%Z object;
  file_num ← read json_number "file_num" 0%Z object;
  mret (FileTransferDone.mk id file_num).
Definition conv `{FloatJson} : kind FileTransferDone.t := {| to_json := toJSON; of_json := fromJSON |}.
Definition known (message : FileTransferDone.t) : Prop :=
  True.
Record partial := { id : maybe Z; file_num : maybe Z }.
Definition nothing : partial := {| id := None; file_num := None |}.
Definition fromPartial (object : partial) : FileTransferDone.t := {|
  FileTransferDone.id := default 0%Z object.(id);
  FileTransferDone.file_num := default 0%Z object.(file_num) |}.
Definition whole (message : FileTransferDone.t) : partial :=
  let 'FileTransferDone.mk id file_num := message in
  {| id := Some id; file_num := Some file_num |}.
Definition create (base : maybe partial) : FileTransferDone.t := fromPartial (default nothing base).
Lemma FileTransferDone_conv_ok `{FloatJsonLaws} : kind_ok conv known.
Proof. solve_conv fromJSON toJSON conv known. Qed.
Lemma FileTransferDone_whole m : fromPartial (whole m) = m.
Proof. solve_whole fromPartial whole m. Qed.
End FileTransferDoneValue.
#[export] Hint Resolve FileTransferDoneValue.FileTransferDone_conv_ok : kind_ok.
#[export] Hint Resolve FileTransferDoneValue.FileTransferDone_whole : whole.

(** ** [FileTransferDigest] (message.ts, lines 6267-6313) *)
Module FileTransferDigestValue.
Definition fields `{FloatJson} (message : FileTransferDigest.t) : list (string * option json) :=
  let 'FileTransferDigest.mk id file_num last_modified file_size is_upload is_identical := message
    in
  [("id", omit_if (id =? 0)%Z (to_json json_number id));
   ("file_num", omit_if (file_num =? 0)%Z (to_json json_number file_num));
   ("last_modified", omit_if (last_modified =? 0)%Z (to_json json_number last_modified));
   ("file_size", omit_if (file_size =? 0)%Z (to_json json_number file_size));
   ("is_upload", omit_if (negb is_upload) (to_json json_bool is_upload));
   ("is_identical", omit_if (negb is_identical) (to_json json_bool is_identical))].
Definition toJSON `{FloatJson} (message : FileTransferDigest.t) : json := JObj (present (fields message)).
Definition fromJSON `{FloatJson} (object : json) : outcome FileTransferDigest.t :=
  id ← read json_number "id" 0%Z object;
  file_num ← read json_number "file_num" 0%Z object;
  last_modified ← read json_number "last_modified" 0%Z object;
  file_size ← read json_number "file_size" 0%Z object;
  is_upload ← read json_bool "is_upload" false object;
  is_identical ← read json_bool "is_identical" false object;
  mret (FileTransferDigest.mk id file_num last_modified file_size is_upload is_identical).
Definition conv `{FloatJson} : kind FileTransferDigest.t := {| to_json := toJSON; of_json := fromJSON |}.
Definition known (message : FileTransferDigest.t) : Prop :=
  True.
Record partial := { id : maybe Z; file_num : maybe Z; last_modified : maybe Z; file_size : maybe Z;
  is_upload : maybe bool; is_identical : maybe bool }.
Definition nothing : partial := {| id := None; file_num := None; last_modified := None; file_size := None; is_upload := None;
  is_identical := None |}.
Definition fromPartial (object : partial) : FileTransferDigest.t := {|
  FileTransferDigest.id := default 0%Z object.(id);
  FileTransferDigest.file_num := default 0%Z object.(file_num);
  FileTransferDigest.last_modified := default 0%Z object.(last_modified);
  FileTransferDigest.file_size := default 0%Z object.(file_size);
  FileTransferDigest.is_upload := default false object.(is_upload);
  FileTransferDigest.is_identical := default false object.(is_identical) |}.
Definition whole (message : FileTransferDigest.t) : partial :=
  let 'FileTransferDigest.mk id file_num last_modified file_size is_upload is_identical := message
    in
  {| id := Some id; file_num := Some file_num; last_modified := Some last_modified;
    file_size := Some file_size; is_upload := Some is_upload; is_identical := Some is_identical |}.
Definition create (base : maybe partial) : FileTransferDigest.t := fromPartial (default nothing base).
Lemma FileTransferDigest_conv_ok `{FloatJsonLaws} : kind_ok conv known.
Proof. solve_conv fromJSON toJSON conv known. Qed.
Lemma FileTransferDigest_whole m : fromPartial (whole m) = m.
Proof. solve_whole fromPartial whole m. Qed.
End FileTransferDigestValue.
#[export] Hint Resolve FileTransferDigestValue.FileTransferDigest_conv_ok : kind_ok.
#[export] Hint Resolve FileTransferDigestValue.FileTransferDigest_whole : whole.

(** ** [FileResponse] (message.ts, lines 6123-6179) *)
Module FileResponseValue.
Definition fields `{FloatJson} (message : FileResponse.t) : list (string * option json) :=
  let 'FileResponse.mk dir block error done digest empty_dirs := message in
  [("dir", to_json FileDirectoryValue.conv <$> dir);
   ("block", to_json FileTransferBlockValue.conv <$> block);
   ("error", to_json FileTransferErrorValue.conv <$> error);
   ("done", to_json FileTransferDoneValue.conv <$> done);
   ("digest", to_json FileTransferDigestValue.conv <$> digest);
   ("empty_dirs", to_json ReadEmptyDirsResponseValue.conv <$> empty_dirs)].
Definition toJSON `{FloatJson} (message : FileResponse.t) : json := JObj (present (fields message)).
Definition fromJSON `{FloatJson} (object : json) : outcome FileResponse.t :=
  dir ← read_opt FileDirectoryValue.conv "dir" object;
  block ← read_opt FileTransferBlockValue.conv "block" object;
  error ← read_opt FileTransferErrorValue.conv "error" object;
  done ← read_opt FileTransferDoneValue.conv "done" object;
  digest ← read_opt FileTransferDigestValue.conv "digest" object;
  empty_dirs ← read_opt ReadEmptyDirsResponseValue.conv "empty_dirs" object;
  mret (FileResponse.mk dir block error done digest empty_dirs).
Definition conv `{FloatJson} : kind FileResponse.t := {| to_json := toJSON; of_json := fromJSON |}.
(** Every enum number has a name. *)
Definition known (message : FileResponse.t) : Prop :=
  from_option FileDirectoryValue.known True message.(FileResponse.dir) /\
  from_option FileTransferBlockValue.known True message.(FileResponse.block) /\
  from_option FileTransferErrorValue.known True message.(FileResponse.error) /\
  from_option FileTransferDoneValue.known True message.(FileResponse.done) /\
  from_option FileTransferDigestValue.known True message.(FileResponse.digest) /\
  from_option ReadEmptyDirsResponseValue.known True message.(FileResponse.empty_dirs).
Record partial := { dir : maybe FileDirectoryValue.partial; block : maybe FileTransferBlockValue.partial;
  error : maybe FileTransferErrorValue.partial; done : maybe FileTransferDoneValue.partial;
  digest : maybe FileTransferDigestValue.partial;
  empty_dirs : maybe ReadEmptyDirsResponseValue.partial }.
Definition nothing : partial := {| dir := None; block := None; error := None; done := None; digest := None; empty_dirs := None |}.
Definition fromPartial (object : partial) : FileResponse.t := {|
  FileResponse.dir := FileDirectoryValue.fromPartial <$> object.(dir);
  FileResponse.block := FileTransferBlockValue.fromPartial <$> object.(block);
  FileResponse.error := FileTransferErrorValue.fromPartial <$> object.(error);
  FileResponse.done := FileTransferDoneValue.fromPartial <$> object.(done);
  FileResponse.digest := FileTransferDigestValue.fromPartial <$> object.(digest);
  FileResponse.empty_dirs := ReadEmptyDirsResponseValue.fromPartial <$> object.(empty_dirs) |}.
Definition whole (message : FileResponse.t) : partial :=
  let 'FileResponse.mk dir block error done digest empty_dirs := message in
  {| dir := FileDirectoryValue.whole <$> dir; block := FileTransferBlockValue.whole <$> block;
    error := FileTransferErrorValue.whole <$> error; done := FileTransferDoneValue.whole <$> done;
    digest := FileTransferDigestValue.whole <$> digest;
    empty_dirs := ReadEmptyDirsResponseValue.whole <$> empty_dirs |}.
Definition create (base : maybe partial) : FileResponse.t := fromPartial (default nothing base).
Lemma FileResponse_conv_ok `{FloatJsonLaws} : kind_ok conv known.
Proof. solve_conv fromJSON toJSON conv known. Qed.
Lemma FileResponse_whole m : fromPartial (whole m) = m.
Proof. solve_whole fromPartial whole m. Qed.
End FileResponseValue.
#[export] Hint Resolve FileResponseValue.FileResponse_conv_ok : kind_ok.
#[export] Hint Resolve FileResponseValue.FileResponse_whole : whole.
