(* ===== verification/ProtoMediaValues.v ===== *)
(** * Generated conversions: video, audio, cursor, clipboard and input messages

    [proto/message.ts], one module per message type: [toJSON], [fromJSON], [fromPartial] and
    [create].  [partial] is the object [fromPartial] takes, where a member that is absent,
    [undefined] or [null] is [None].  Reading undoes writing ([conv_ok]), and a partial object that
    has everything is copied ([whole]). *)
From Stdlib Require Import Floats.SpecFloat.
From S2P Require Import Prelude Json ProtoWire ProtoEnums ProtoJson ProtoFile ProtoMedia ProtoFileValues.
Local Open Scope string_scope.

(** ** [EncodedVideoFrame] (message.ts, lines 1839-1870) *)
Module EncodedVideoFrameValue.
Definition fields `{FloatJson} (message : EncodedVideoFrame.t) : list (string * option json) :=
  let 'EncodedVideoFrame.mk data key pts := message in
  [("data", omit_if (len data =? 0)%Z (to_json json_bytes data));
   ("key", omit_if (negb key) (to_json json_bool key));
   ("pts", omit_if (pts =? 0)%Z (to_json json_number pts))].
Definition toJSON `{FloatJson} (message : EncodedVideoFrame.t) : json := JObj (present (fields message)).
Definition fromJSON `{FloatJson} (object : json) : outcome EncodedVideoFrame.t :=
  data ← read json_bytes "data" [] object;
  key ← read json_bool "key" false object;
  pts ← read json_number "pts" 0%Z object;
  mret (EncodedVideoFrame.mk data key pts).
Definition conv `{FloatJson} : kind EncodedVideoFrame.t := {| to_json := toJSON; of_json := fromJSON |}.
Definition known (message : EncodedVideoFrame.t) : Prop :=
  True.
Record partial := { data : maybe bytes; key : maybe bool; pts : maybe Z }.
Definition nothing : partial := {| data := None; key := None; pts := None |}.
Definition fromPartial (object : partial) : EncodedVideoFrame.t := {|
  EncodedVideoFrame.data := default [] object.(data);
  EncodedVideoFrame.key := default false object.(key);
  EncodedVideoFrame.pts := default 0%Z object.(pts) |}.
Definition whole (message : EncodedVideoFrame.t) : partial :=
  let 'EncodedVideoFrame.mk data key pts := message in
  {| data := Some data; key := Some key; pts := Some pts |}.
Definition create (base : maybe partial) : EncodedVideoFrame.t := fromPartial (default nothing base).
Lemma EncodedVideoFrame_conv_ok `{FloatJsonLaws} : kind_ok conv known.
Proof. solve_conv fromJSON toJSON conv known. Qed.
Lemma EncodedVideoFrame_whole m : fromPartial (whole m) = m.
Proof. solve_whole fromPartial whole m. Qed.
End EncodedVideoFrameValue.
#[export] Hint Resolve EncodedVideoFrameValue.EncodedVideoFrame_conv_ok : kind_ok.
#[export] Hint Resolve EncodedVideoFrameValue.EncodedVideoFrame_whole : whole.

(** ** [EncodedVideoFrames] (message.ts, lines 1908-1931) *)
Module EncodedVideoFramesValue.
Definition fields `{FloatJson} (message : EncodedVideoFrames.t) : list (string * option json) :=
  let 'EncodedVideoFrames.mk frames := message in
  [("frames", many EncodedVideoFrameValue.conv frames)].
Definition toJSON `{FloatJson} (message : EncodedVideoFrames.t) : json := JObj (present (fields message)).
Definition fromJSON `{FloatJson} (object : json) : outcome EncodedVideoFrames.t :=
  frames ← read_list EncodedVideoFrameValue.conv "frames" object;
  mret (EncodedVideoFrames.mk frames).
Definition conv `{FloatJson} : kind EncodedVideoFrames.t := {| to_json := toJSON; of_json := fromJSON |}.
(** Every enum number has a name. *)
Definition known (message : EncodedVideoFrames.t) : Prop :=
  Forall EncodedVideoFrameValue.known message.(EncodedVideoFrames.frames).
Record partial := { frames : maybe (list EncodedVideoFrameValue.partial) }.
Definition nothing : partial := {| frames := None |}.
Definition fromPartial (object : partial) : EncodedVideoFrames.t := {|
  EncodedVideoFrames.frames := default [] (map EncodedVideoFrameValue.fromPartial <$> object.(frames)) |}.
Definition whole (message : EncodedVideoFrames.t) : partial :=
  let 'EncodedVideoFrames.mk frames := message in
  {| frames := Some (map EncodedVideoFrameValue.whole frames) |}.
Definition create (base : maybe partial) : EncodedVideoFrames.t := fromPartial (default nothing base).
Lemma EncodedVideoFrames_conv_ok `{FloatJsonLaws} : kind_ok conv known.
Proof. solve_conv fromJSON toJSON conv known. Qed.
Lemma EncodedVideoFrames_whole m : fromPartial (whole m) = m.
Proof. solve_whole fromPartial whole m. Qed.
End EncodedVideoFramesValue.
#[export] Hint Resolve EncodedVideoFramesValue.EncodedVideoFrames_conv_ok : kind_ok.
#[export] Hint Resolve EncodedVideoFramesValue.EncodedVideoFrames_whole : whole.

(** ** [RGB] (message.ts, lines 1969-1988) *)
Module RGBValue.
Definition fields `{FloatJson} (message : RGB.t) : list (string * option json) :=
  let 'RGB.mk compress := message in
  [("compress", omit_if (negb compress) (to_json json_bool compress))].
Definition toJSON `{FloatJson} (message : RGB.t) : json := JObj (present (fields message)).
Definition fromJSON `{FloatJson} (object : json) : outcome RGB.t :=
  compress ← read json_bool "compress" false object;
  mret (RGB.mk compress).
Definition conv `{FloatJson} : kind RGB.t := {| to_json := toJSON; of_json := fromJSON |}.
Definition known (message : RGB.t) : Prop :=
  True.
Record partial := { compress : maybe bool }.
Definition nothing : partial := {| compress := None |}.
Definition fromPartial (object : partial) : RGB.t := {|
  RGB.compress := default false object.(compress) |}.
Definition whole (message : RGB.t) : partial :=
  let 'RGB.mk compress := message in
  {| compress := Some compress |}.
Definition create (base : maybe partial) : RGB.t := fromPartial (default nothing base).
Lemma RGB_conv_ok `{FloatJsonLaws} : kind_ok conv known.
Proof. solve_conv fromJSON toJSON conv known. Qed.
Lemma RGB_whole m : fromPartial (whole m) = m.
Proof. solve_whole fromPartial whole m. Qed.
End RGBValue.
#[export] Hint Resolve RGBValue.RGB_conv_ok : kind_ok.
#[export] Hint Resolve RGBValue.RGB_whole : whole.

(** ** [YUV] (message.ts, lines 2036-2062) *)
Module YUVValue.
Definition fields `{FloatJson} (message : YUV.t) : list (string * option json) :=
  let 'YUV.mk compress stride := message in
  [("compress", omit_if (negb compress) (to_json json_bool compress));
   ("stride", omit_if (stride =? 0)%Z (to_json json_number stride))].
Definition toJSON `{FloatJson} (message : YUV.t) : json := JObj (present (fields message)).
Definition fromJSON `{FloatJson} (object : json) : outcome YUV.t :=
  compress ← read json_bool "compress" false object;
  stride ← read json_number "stride" 0%Z object;
  mret (YUV.mk compress stride).
Definition conv `{FloatJson} : kind YUV.t := {| to_json := toJSON; of_json := fromJSON |}.
Definition known (message : YUV.t) : Prop :=
  True.
Record partial := { compress : maybe bool; stride : maybe Z }.
Definition nothing : partial := {| compress := None; stride := None |}.
Definition fromPartial (object : partial) : YUV.t := {|
  YUV.compress := default false object.(compress);
  YUV.stride := default 0%Z object.(stride) |}.
Definition whole (message : YUV.t) : partial :=
  let 'YUV.mk compress stride := message in
  {| compress := Some compress; stride := Some stride |}.
Definition create (base : maybe partial) : YUV.t := fromPartial (default nothing base).
Lemma YUV_conv_ok `{FloatJsonLaws} : kind_ok conv known.
Proof. solve_conv fromJSON toJSON conv known. Qed.
Lemma YUV_whole m : fromPartial (whole m) = m.
Proof. solve_whole fromPartial whole m. Qed.
End YUVValue.
#[export] Hint Resolve YUVValue.YUV_conv_ok : kind_ok.
#[export] Hint Resolve YUVValue.YUV_whole : whole.

(** ** [VideoFrame] (message.ts, lines 2179-2245) *)
Module VideoFrameValue.
Definition fields `{FloatJson} (message : VideoFrame.t) : list (string * option json) :=
  let 'VideoFrame.mk vp9s rgb yuv h264s h265s vp8s av1s display := message in
  [("vp9s", to_json EncodedVideoFramesValue.conv <$> vp9s);
   ("rgb", to_json RGBValue.conv <$> rgb);
   ("yuv", to_json YUVValue.conv <$> yuv);
   ("h264s", to_json EncodedVideoFramesValue.conv <$> h264s);
   ("h265s", to_json EncodedVideoFramesValue.conv <$> h265s);
   ("vp8s", to_json EncodedVideoFramesValue.conv <$> vp8s);
   ("av1s", to_json EncodedVideoFramesValue.conv <$> av1s);
   ("display", omit_if (display =? 0)%Z (to_json json_number display))].
Definition toJSON `{FloatJson} (message : VideoFrame.t) : json := JObj (present (fields message)).
Definition fromJSON `{FloatJson} (object : json) : outcome VideoFrame.t :=
  vp9s ← read_opt EncodedVideoFramesValue.conv "vp9s" object;
  rgb ← read_opt RGBValue.conv "rgb" object;
  yuv ← read_opt YUVValue.conv "yuv" object;
  h264s ← read_opt EncodedVideoFramesValue.conv "h264s" object;
  h265s ← read_opt EncodedVideoFramesValue.conv "h265s" object;
  vp8s ← read_opt EncodedVideoFramesValue.conv "vp8s" object;
  av1s ← read_opt EncodedVideoFramesValue.conv "av1s" object;
  display ← read json_number "display" 0%Z object;
  mret (VideoFrame.mk vp9s rgb yuv h264s h265s vp8s av1s display).
Definition conv `{FloatJson} : kind VideoFrame.t := {| to_json := toJSON; of_json := fromJSON |}.
(** Every enum number has a name. *)
Definition known (message : VideoFrame.t) : Prop :=
  from_option EncodedVideoFramesValue.known True message.(VideoFrame.vp9s) /\
  from_option RGBValue.known True message.(VideoFrame.rgb) /\
  from_option YUVValue.known True message.(VideoFrame.yuv) /\
  from_option EncodedVideoFramesValue.known True message.(VideoFrame.h264s) /\
  from_option EncodedVideoFramesValue.known True message.(VideoFrame.h265s) /\
  from_option EncodedVideoFramesValue.known True message.(VideoFrame.vp8s) /\
  from_option EncodedVideoFramesValue.known True message.(VideoFrame.av1s).
Record partial := { vp9s : maybe EncodedVideoFramesValue.partial; rgb : maybe RGBValue.partial;
  yuv : maybe YUVValue.partial; h264s : maybe EncodedVideoFramesValue.partial;
  h265s : maybe EncodedVideoFramesValue.partial; vp8s : maybe EncodedVideoFramesValue.partial;
  av1s : maybe EncodedVideoFramesValue.partial; display : maybe Z }.
Definition nothing : partial := {| vp9s := None; rgb := None; yuv := None; h264s := None; h265s := None; vp8s := None; av1s := None;
  display := None |}.
Definition fromPartial (object : partial) : VideoFrame.t := {|
  VideoFrame.vp9s := EncodedVideoFramesValue.fromPartial <$> object.(vp9s);
  VideoFrame.rgb := RGBValue.fromPartial <$> object.(rgb);
  VideoFrame.yuv := YUVValue.fromPartial <$> object.(yuv);
  VideoFrame.h264s := EncodedVideoFramesValue.fromPartial <$> object.(h264s);
  VideoFrame.h265s := EncodedVideoFramesValue.fromPartial <$> object.(h265s);
  VideoFrame.vp8s := EncodedVideoFramesValue.fromPartial <$> object.(vp8s);
  VideoFrame.av1s := EncodedVideoFramesValue.fromPartial <$> object.(av1s);
  VideoFrame.display := default 0%Z object.(display) |}.
Definition whole (message : VideoFrame.t) : partial :=
  let 'VideoFrame.mk vp9s rgb yuv h264s h265s vp8s av1s display := message in
  {| vp9s := EncodedVideoFramesValue.whole <$> vp9s; rgb := RGBValue.whole <$> rgb;
    yuv := YUVValue.whole <$> yuv; h264s := EncodedVideoFramesValue.whole <$> h264s;
    h265s := EncodedVideoFramesValue.whole <$> h265s;
    vp8s := EncodedVideoFramesValue.whole <$> vp8s; av1s := EncodedVideoFramesValue.whole <$> av1s;
    display := Some display |}.
Definition create (base : maybe partial) : VideoFrame.t := fromPartial (default nothing base).
Lemma VideoFrame_conv_ok `{FloatJsonLaws} : kind_ok conv known.
Proof. solve_conv fromJSON toJSON conv known. Qed.
Lemma VideoFrame_whole m : fromPartial (whole m) = m.
Proof. solve_whole fromPartial whole m. Qed.
End VideoFrameValue.
#[export] Hint Resolve VideoFrameValue.VideoFrame_conv_ok : kind_ok.
#[export] Hint Resolve VideoFrameValue.VideoFrame_whole : whole.

(** ** [TouchScaleUpdate] (message.ts, lines 3875-3894) *)
Module TouchScaleUpdateValue.
Definition fields `{FloatJson} (message : TouchScaleUpdate.t) : list (string * option json) :=
  let 'TouchScaleUpdate.mk scale := message in
  [("scale", omit_if (scale =? 0)%Z (to_json json_number scale))].
Definition toJSON `{FloatJson} (message : TouchScaleUpdate.t) : json := JObj (present (fields message)).
Definition fromJSON `{FloatJson} (object : json) : outcome TouchScaleUpdate.t :=
  scale ← read json_number "scale" 0%Z object;
  mret (TouchScaleUpdate.mk scale).
Definition conv `{FloatJson} : kind TouchScaleUpdate.t := {| to_json := toJSON; of_json := fromJSON |}.
Definition known (message : TouchScaleUpdate.t) : Prop :=
  True.
Record partial := { scale : maybe Z }.
Definition nothing : partial := {| scale := None |}.
Definition fromPartial (object : partial) : TouchScaleUpdate.t := {|
  TouchScaleUpdate.scale := default 0%Z object.(scale) |}.
Definition whole (message : TouchScaleUpdate.t) : partial :=
  let 'TouchScaleUpdate.mk scale := message in
  {| scale := Some scale |}.
Definition create (base : maybe partial) : TouchScaleUpdate.t := fromPartial (default nothing base).
Lemma TouchScaleUpdate_conv_ok `{FloatJsonLaws} : kind_ok conv known.
Proof. solve_conv fromJSON toJSON conv known. Qed.
Lemma TouchScaleUpdate_whole m : fromPartial (whole m) = m.
Proof. solve_whole fromPartial whole m. Qed.
End TouchScaleUpdateValue.
#[export] Hint Resolve TouchScaleUpdateValue.TouchScaleUpdate_conv_ok : kind_ok.
#[export] Hint Resolve TouchScaleUpdateValue.TouchScaleUpdate_whole : whole.

(** ** [TouchPanStart] (message.ts, lines 3942-3968) *)
Module TouchPanStartValue.
Definition fields `{FloatJson} (message : TouchPanStart.t) : list (string * option json) :=
  let 'TouchPanStart.mk x y := message in
  [("x", omit_if (x =? 0)%Z (to_json json_number x));
   ("y", omit_if (y =? 0)%Z (to_json json_number y))].
Definition toJSON `{FloatJson} (message : TouchPanStart.t) : json := JObj (present (fields message)).
Definition fromJSON `{FloatJson} (object : json) : outcome TouchPanStart.t :=
  x ← read json_number "x" 0%Z object;
  y ← read json_number "y" 0%Z object;
  mret (TouchPanStart.mk x y).
Definition conv `{FloatJson} : kind TouchPanStart.t := {| to_json := toJSON; of_json := fromJSON |}.
Definition known (message : TouchPanStart.t) : Prop :=
  True.
Record partial := { x : maybe Z; y : maybe Z }.
Definition nothing : partial := {| x := None; y := None |}.
Definition fromPartial (object : partial) : TouchPanStart.t := {|
  TouchPanStart.x := default 0%Z object.(x);
  TouchPanStart.y := default 0%Z object.(y) |}.
Definition whole (message : TouchPanStart.t) : partial :=
  let 'TouchPanStart.mk x y := message in
  {| x := Some x; y := Some y |}.
Definition create (base : maybe partial) : TouchPanStart.t := fromPartial (default nothing base).
Lemma TouchPanStart_conv_ok `{FloatJsonLaws} : kind_ok conv known.
Proof. solve_conv fromJSON toJSON conv known. Qed.
Lemma TouchPanStart_whole m : fromPartial (whole m) = m.
Proof. solve_whole fromPartial whole m. Qed.
End TouchPanStartValue.
#[export] Hint Resolve TouchPanStartValue.TouchPanStart_conv_ok : kind_ok.
#[export] Hint Resolve TouchPanStartValue.TouchPanStart_whole : whole.

(** ** [TouchPanUpdate] (message.ts, lines 4016-4042) *)
Module TouchPanUpdateValue.
Definition fields `{FloatJson} (message : TouchPanUpdate.t) : list (string * option json) :=
  let 'TouchPanUpdate.mk x y := message in
  [("x", omit_if (x =? 0)%Z (to_json json_number x));
   ("y", omit_if (y =? 0)%Z (to_json json_number y))].
Definition toJSON `{FloatJson} (message : TouchPanUpdate.t) : json := JObj (present (fields message)).
Definition fromJSON `{FloatJson} (object : json) : outcome TouchPanUpdate.t :=
  x ← read json_number "x" 0%Z object;
  y ← read json_number "y" 0%Z object;
  mret (TouchPanUpdate.mk x y).
Definition conv `{FloatJson} : kind TouchPanUpdate.t := {| to_json := toJSON; of_json := fromJSON |}.
Definition known (message : TouchPanUpdate.t) : Prop :=
  True.
Record partial := { x : maybe Z; y : maybe Z }.
Definition nothing : partial := {| x := None; y := None |}.
Definition fromPartial (object : partial) : TouchPanUpdate.t := {|
  TouchPanUpdate.x := default 0%Z object.(x);
  TouchPanUpdate.y := default 0%Z object.(y) |}.
Definition whole (message : TouchPanUpdate.t) : partial :=
  let 'TouchPanUpdate.mk x y := message in
  {| x := Some x; y := Some y |}.
Definition create (base : maybe partial) : TouchPanUpdate.t := fromPartial (default nothing base).
Lemma TouchPanUpdate_conv_ok `{FloatJsonLaws} : kind_ok conv known.
Proof. solve_conv fromJSON toJSON conv known. Qed.
Lemma TouchPanUpdate_whole m : fromPartial (whole m) = m.
Proof. solve_whole fromPartial whole m. Qed.
End TouchPanUpdateValue.
#[export] Hint Resolve TouchPanUpdateValue.TouchPanUpdate_conv_ok : kind_ok.
#[export] Hint Resolve TouchPanUpdateValue.TouchPanUpdate_whole : whole.

(** ** [TouchPanEnd] (message.ts, lines 4090-4116) *)
Module TouchPanEndValue.
Definition fields `{FloatJson} (message : TouchPanEnd.t) : list (string * option json) :=
  let 'TouchPanEnd.mk x y := message in
  [("x", omit_if (x =? 0)%Z (to_json json_number x));
   ("y", omit_if (y =? 0)%Z (to_json json_number y))].
Definition toJSON `{FloatJson} (message : TouchPanEnd.t) : json := JObj (present (fields message)).
Definition fromJSON `{FloatJson} (object : json) : outcome TouchPanEnd.t :=
  x ← read json_number "x" 0%Z object;
  y ← read json_number "y" 0%Z object;
  mret (TouchPanEnd.mk x y).
Definition conv `{FloatJson} : kind TouchPanEnd.t := {| to_json := toJSON; of_json := fromJSON |}.
Definition known (message : TouchPanEnd.t) : Prop :=
  True.
Record partial := { x : maybe Z; y : maybe Z }.
Definition nothing : partial := {| x := None; y := None |}.
Definition fromPartial (object : partial) : TouchPanEnd.t := {|
  TouchPanEnd.x := default 0%Z object.(x);
  TouchPanEnd.y := default 0%Z object.(y) |}.
Definition whole (message : TouchPanEnd.t) : partial :=
  let 'TouchPanEnd.mk x y := message in
  {| x := Some x; y := Some y |}.
Definition create (base : maybe partial) : TouchPanEnd.t := fromPartial (default nothing base).
Lemma TouchPanEnd_conv_ok `{FloatJsonLaws} : kind_ok conv known.
Proof. solve_conv fromJSON toJSON conv known. Qed.
Lemma TouchPanEnd_whole m : fromPartial (whole m) = m.
Proof. solve_whole fromPartial whole m. Qed.
End TouchPanEndValue.
#[export] Hint Resolve TouchPanEndValue.TouchPanEnd_conv_ok : kind_ok.
#[export] Hint Resolve TouchPanEndValue.TouchPanEnd_whole : whole.

(** ** [TouchEvent] (message.ts, lines 4184-4228) *)
Module TouchEventValue.
Definition fields `{FloatJson} (message : TouchEvent.t) : list (string * option json) :=
  let 'TouchEvent.mk scale_update pan_start pan_update pan_end := message in
  [("scale_update", to_json TouchScaleUpdateValue.conv <$> scale_update);
   ("pan_start", to_json TouchPanStartValue.conv <$> pan_start);
   ("pan_update", to_json TouchPanUpdateValue.conv <$> pan_update);
   ("pan_end", to_json TouchPanEndValue.conv <$> pan_end)].
Definition toJSON `{FloatJson} (message : TouchEvent.t) : json := JObj (present (fields message)).
Definition fromJSON `{FloatJson} (object : json) : outcome TouchEvent.t :=
  scale_update ← read_opt TouchScaleUpdateValue.conv "scale_update" object;
  pan_start ← read_opt TouchPanStartValue.conv "pan_start" object;
  pan_update ← read_opt TouchPanUpdateValue.conv "pan_update" object;
  pan_end ← read_opt TouchPanEndValue.conv "pan_end" object;
  mret (TouchEvent.mk scale_update pan_start pan_update pan_end).
Definition conv `{FloatJson} : kind TouchEvent.t := {| to_json := toJSON; of_json := fromJSON |}.
(** Every enum number has a name. *)
Definition known (message : TouchEvent.t) : Prop :=
  from_option TouchScaleUpdateValue.known True message.(TouchEvent.scale_update) /\
  from_option TouchPanStartValue.known True message.(TouchEvent.pan_start) /\
  from_option TouchPanUpdateValue.known True message.(TouchEvent.pan_update) /\
  from_option TouchPanEndValue.known True message.(TouchEvent.pan_end).
Record partial := { scale_update : maybe TouchScaleUpdateValue.partial; pan_start : maybe TouchPanStartValue.partial;
  pan_update : maybe TouchPanUpdateValue.partial; pan_end : maybe TouchPanEndValue.partial }.
Definition nothing : partial := {| scale_update := None; pan_start := None; pan_update := None; pan_end := None |}.
Definition fromPartial (object : partial) : TouchEvent.t := {|
  TouchEvent.scale_update := TouchScaleUpdateValue.fromPartial <$> object.(scale_update);
  TouchEvent.pan_start := TouchPanStartValue.fromPartial <$> object.(pan_start);
  TouchEvent.pan_update := TouchPanUpdateValue.fromPartial <$> object.(pan_update);
  TouchEvent.pan_end := TouchPanEndValue.fromPartial <$> object.(pan_end) |}.
Definition whole (message : TouchEvent.t) : partial :=
  let 'TouchEvent.mk scale_update pan_start pan_update pan_end := message in
  {| scale_update := TouchScaleUpdateValue.whole <$> scale_update;
    pan_start := TouchPanStartValue.whole <$> pan_start;
    pan_update := TouchPanUpdateValue.whole <$> pan_update;
    pan_end := TouchPanEndValue.whole <$> pan_end |}.
Definition create (base : maybe partial) : TouchEvent.t := fromPartial (default nothing base).
Lemma TouchEvent_conv_ok `{FloatJsonLaws} : kind_ok conv known.
Proof. solve_conv fromJSON toJSON conv known. Qed.
Lemma TouchEvent_whole m : fromPartial (whole m) = m.
Proof. solve_whole fromPartial whole m. Qed.
End TouchEventValue.
#[export] Hint Resolve TouchEventValue.TouchEvent_conv_ok : kind_ok.
#[export] Hint Resolve TouchEventValue.TouchEvent_whole : whole.

(** ** [PointerDeviceEvent] (message.ts, lines 4288-4318) *)
Module PointerDeviceEventValue.
Definition fields `{FloatJson} (message : PointerDeviceEvent.t) : list (string * option json) :=
  let 'PointerDeviceEvent.mk touch_event modifiers := message in
  [("touch_event", to_json TouchEventValue.conv <$> touch_event);
   ("modifiers", many (json_enum ControlKey.names) modifiers)].
Definition toJSON `{FloatJson} (message : PointerDeviceEvent.t) : json := JObj (present (fields message)).
Definition fromJSON `{FloatJson} (object : json) : outcome PointerDeviceEvent.t :=
  touch_event ← read_opt TouchEventValue.conv "touch_event" object;
  modifiers ← read_list (json_enum ControlKey.names) "modifiers" object;
  mret (PointerDeviceEvent.mk touch_event modifiers).
Definition conv `{FloatJson} : kind PointerDeviceEvent.t := {| to_json := toJSON; of_json := fromJSON |}.
(** Every enum number has a name. *)
Definition known (message : PointerDeviceEvent.t) : Prop :=
  from_option TouchEventValue.known True message.(PointerDeviceEvent.touch_event) /\
  Forall (named ControlKey.names) message.(PointerDeviceEvent.modifiers).
Record partial := { touch_event : maybe TouchEventValue.partial; modifiers : maybe (list Z) }.
Definition nothing : partial := {| touch_event := None; modifiers := None |}.
Definition fromPartial (object : partial) : PointerDeviceEvent.t := {|
  PointerDeviceEvent.touch_event := TouchEventValue.fromPartial <$> object.(touch_event);
  PointerDeviceEvent.modifiers := default [] object.(modifiers) |}.
Definition whole (message : PointerDeviceEvent.t) : partial :=
  let 'PointerDeviceEvent.mk touch_event modifiers := message in
  {| touch_event := TouchEventValue.whole <$> touch_event; modifiers := Some modifiers |}.
Definition create (base : maybe partial) : PointerDeviceEvent.t := fromPartial (default nothing base).
Lemma PointerDeviceEvent_conv_ok `{FloatJsonLaws} : kind_ok conv known.
Proof. solve_conv fromJSON toJSON conv known. Qed.
Lemma PointerDeviceEvent_whole m : fromPartial (whole m) = m.
Proof. solve_whole fromPartial whole m. Qed.
End PointerDeviceEventValue.
#[export] Hint Resolve PointerDeviceEventValue.PointerDeviceEvent_conv_ok : kind_ok.
#[export] Hint Resolve PointerDeviceEventValue.PointerDeviceEvent_whole : whole.

(** ** [MouseEvent] (message.ts, lines 4398-4436) *)
Module MouseEventValue.
Definition fields `{FloatJson} (message : MouseEvent.t) : list (string * option json) :=
  let 'MouseEvent.mk mask x y modifiers := message in
  [("mask", omit_if (mask =? 0)%Z (to_json json_number mask));
   ("x", omit_if (x =? 0)%Z (to_json json_number x));
   ("y", omit_if (y =? 0)%Z (to_json json_number y));
   ("modifiers", many (json_enum ControlKey.names) modifiers)].
Definition toJSON `{FloatJson} (message : MouseEvent.t) : json := JObj (present (fields message)).
Definition fromJSON `{FloatJson} (object : json) : outcome MouseEvent.t :=
  mask ← read json_number "mask" 0%Z object;
  x ← read json_number "x" 0%Z object;
  y ← read json_number "y" 0%Z object;
  modifiers ← read_list (json_enum ControlKey.names) "modifiers" object;
  mret (MouseEvent.mk mask x y modifiers).
Definition conv `{FloatJson} : kind MouseEvent.t := {| to_json := toJSON; of_json := fromJSON |}.
(** Every enum number has a name. *)
Definition known (message : MouseEvent.t) : Prop :=
  Forall (named ControlKey.names) message.(MouseEvent.modifiers).
Record partial := { mask : maybe Z; x : maybe Z; y : maybe Z; modifiers : maybe (list Z) }.
Definition nothing : partial := {| mask := None; x := None; y := None; modifiers := None |}.
Definition fromPartial (object : partial) : MouseEvent.t := {|
  MouseEvent.mask := default 0%Z object.(mask);
  MouseEvent.x := default 0%Z object.(x);
  MouseEvent.y := default 0%Z object.(y);
  MouseEvent.modifiers := default [] object.(modifiers) |}.
Definition whole (message : MouseEvent.t) : partial :=
  let 'MouseEvent.mk mask x y modifiers := message in
  {| mask := Some mask; x := Some x; y := Some y; modifiers := Some modifiers |}.
Definition create (base : maybe partial) : MouseEvent.t := fromPartial (default nothing base).
Lemma MouseEvent_conv_ok `{FloatJsonLaws} : kind_ok conv known.
Proof. solve_conv fromJSON toJSON conv known. Qed.
Lemma MouseEvent_whole m : fromPartial (whole m) = m.
Proof. solve_whole fromPartial whole m. Qed.
End MouseEventValue.
#[export] Hint Resolve MouseEventValue.MouseEvent_conv_ok : kind_ok.
#[export] Hint Resolve MouseEventValue.MouseEvent_whole : whole.

(** ** [KeyEvent] (message.ts, lines 4576-4639) *)
Module KeyEventValue.
Definition fields `{FloatJson} (message : KeyEvent.t) : list (string * option json) :=
  let 'KeyEvent.mk down press control_key chr unicode seq win2win_hotkey modifiers mode := message
    in
  [("down", omit_if (negb down) (to_json json_bool down));
   ("press", omit_if (negb press) (to_json json_bool press));
   ("control_key", to_json (json_enum ControlKey.names) <$> control_key);
   ("chr", to_json json_number <$> chr);
   ("unicode", to_json json_number <$> unicode);
   ("seq", to_json json_string <$> seq);
   ("win2win_hotkey", to_json json_number <$> win2win_hotkey);
   ("modifiers", many (json_enum ControlKey.names) modifiers);
   ("mode", omit_if (mode =? 0)%Z (to_json (json_enum KeyboardMode.names) mode))].
Definition toJSON `{FloatJson} (message : KeyEvent.t) : json := JObj (present (fields message)).
Definition fromJSON `{FloatJson} (object : json) : outcome KeyEvent.t :=
  down ← read json_bool "down" false object;
  press ← read json_bool "press" false object;
  control_key ← read_opt (json_enum ControlKey.names) "control_key" object;
  chr ← read_opt json_number "chr" object;
  unicode ← read_opt json_number "unicode" object;
  seq ← read_opt json_string "seq" object;
  win2win_hotkey ← read_opt json_number "win2win_hotkey" object;
  modifiers ← read_list (json_enum ControlKey.names) "modifiers" object;
  mode ← read (json_enum KeyboardMode.names) "mode" 0%Z object;
  mret (KeyEvent.mk down press control_key chr unicode seq win2win_hotkey modifiers mode).
Definition conv `{FloatJson} : kind KeyEvent.t := {| to_json := toJSON; of_json := fromJSON |}.
(** Every enum number has a name. *)
Definition known (message : KeyEvent.t) : Prop :=
  from_option (named ControlKey.names) True message.(KeyEvent.control_key) /\
  Forall (named ControlKey.names) message.(KeyEvent.modifiers) /\
  named KeyboardMode.names message.(KeyEvent.mode).
Record partial := { down : maybe bool; press : maybe bool; control_key : maybe Z; chr : maybe Z; unicode : maybe Z;
  seq : maybe string; win2win_hotkey : maybe Z; modifiers : maybe (list Z); mode : maybe Z }.
Definition nothing : partial := {| down := None; press := None; control_key := None; chr := None; unicode := None; seq := None;
  win2win_hotkey := None; modifiers := None; mode := None |}.
Definition fromPartial (object : partial) : KeyEvent.t := {|
  KeyEvent.down := default false object.(down);
  KeyEvent.press := default false object.(press);
  KeyEvent.control_key := object.(control_key);
  KeyEvent.chr := object.(chr);
  KeyEvent.unicode := object.(unicode);
  KeyEvent.seq := object.(seq);
  KeyEvent.win2win_hotkey := object.(win2win_hotkey);
  KeyEvent.modifiers := default [] object.(modifiers);
  KeyEvent.mode := default 0%Z object.(mode) |}.
Definition whole (message : KeyEvent.t) : partial :=
  let 'KeyEvent.mk down press control_key chr unicode seq win2win_hotkey modifiers mode := message
    in
  {| down := Some down; press := Some press; control_key := control_key; chr := chr;
    unicode := unicode; seq := seq; win2win_hotkey := win2win_hotkey; modifiers := Some modifiers;
    mode := Some mode |}.
Definition create (base : maybe partial) : KeyEvent.t := fromPartial (default nothing base).
Lemma KeyEvent_conv_ok `{FloatJsonLaws} : kind_ok conv known.
Proof. solve_conv fromJSON toJSON conv known. Qed.
Lemma KeyEvent_whole m : fromPartial (whole m) = m.
Proof. solve_whole fromPartial whole m. Qed.
End KeyEventValue.
#[export] Hint Resolve KeyEventValue.KeyEvent_conv_ok : kind_ok.
#[export] Hint Resolve KeyEventValue.KeyEvent_whole : whole.

(** ** [CursorData] (message.ts, lines 4727-4773) *)
Module CursorDataValue.
Definition fields `{FloatJson} (message : CursorData.t) : list (string * option json) :=
  let 'CursorData.mk id hotx hoty width height colors := message in
  [("id", omit_if (id =? 0)%Z (to_json json_number id));
   ("hotx", omit_if (hotx =? 0)%Z (to_json json_number hotx));
   ("hoty", omit_if (hoty =? 0)%Z (to_json json_number hoty));
   ("width", omit_if (width =? 0)%Z (to_json json_number width));
   ("height", omit_if (height =? 0)%Z (to_json json_number height));
   ("colors", omit_if (len colors =? 0)%Z (to_json json_bytes colors))].
Definition toJSON `{FloatJson} (message : CursorData.t) : json := JObj (present (fields message)).
Definition fromJSON `{FloatJson} (object : json) : outcome CursorData.t :=
  id ← read json_number "id" 0%Z object;
  hotx ← read json_number "hotx" 0%Z object;
  hoty ← read json_number "hoty" 0%Z object;
  width ← read json_number "width" 0%Z object;
  height ← read json_number "height" 0%Z object;
  colors ← read json_bytes "colors" [] object;
  mret (CursorData.mk id hotx hoty width height colors).
Definition conv `{FloatJson} : kind CursorData.t := {| to_json := toJSON; of_json := fromJSON |}.
Definition known (message : CursorData.t) : Prop :=
  True.
Record partial := { id : maybe Z; hotx : maybe Z; hoty : maybe Z; width : maybe Z; height : maybe Z;
  colors : maybe bytes }.
Definition nothing : partial := {| id := None; hotx := None; hoty := None; width := None; height := None; colors := None |}.
Definition fromPartial (object : partial) : CursorData.t := {|
  CursorData.id := default 0%Z object.(id);
  CursorData.hotx := default 0%Z object.(hotx);
  CursorData.hoty := default 0%Z object.(hoty);
  CursorData.width := default 0%Z object.(width);
  CursorData.height := default 0%Z object.(height);
  CursorData.colors := default [] object.(colors) |}.
Definition whole (message : CursorData.t) : partial :=
  let 'CursorData.mk id hotx hoty width height colors := message in
  {| id := Some id; hotx := Some hotx; hoty := Some hoty; width := Some width;
    height := Some height; colors := Some colors |}.
Definition create (base : maybe partial) : CursorData.t := fromPartial (default nothing base).
Lemma CursorData_conv_ok `{FloatJsonLaws} : kind_ok conv known.
Proof. solve_conv fromJSON toJSON conv known. Qed.
Lemma CursorData_whole m : fromPartial (whole m) = m.
Proof. solve_whole fromPartial whole m. Qed.
End CursorDataValue.
#[export] Hint Resolve CursorDataValue.CursorData_conv_ok : kind_ok.
#[export] Hint Resolve CursorDataValue.CursorData_whole : whole.

(** ** [CursorPosition] (message.ts, lines 4821-4847) *)
Module CursorPositionValue.
Definition fields `{FloatJson} (message : CursorPosition.t) : list (string * option json) :=
  let 'CursorPosition.mk x y := message in
  [("x", omit_if (x =? 0)%Z (to_json json_number x));
   ("y", omit_if (y =? 0)%Z (to_json json_number y))].
Definition toJSON `{FloatJson} (message : CursorPosition.t) : json := JObj (present (fields message)).
Definition fromJSON `{FloatJson} (object : json) : outcome CursorPosition.t :=
  x ← read json_number "x" 0%Z object;
  y ← read json_number "y" 0%Z object;
  mret (CursorPosition.mk x y).
Definition conv `{FloatJson} : kind CursorPosition.t := {| to_json := toJSON; of_json := fromJSON |}.
Definition known (message : CursorPosition.t) : Prop :=
  True.
Record partial := { x : maybe Z; y : maybe Z }.
Definition nothing : partial := {| x := None; y := None |}.
Definition fromPartial (object : partial) : CursorPosition.t := {|
  CursorPosition.x := default 0%Z object.(x);
  CursorPosition.y := default 0%Z object.(y) |}.
Definition whole (message : CursorPosition.t) : partial :=
  let 'CursorPosition.mk x y := message in
  {| x := Some x; y := Some y |}.
Definition create (base : maybe partial) : CursorPosition.t := fromPartial (default nothing base).
Lemma CursorPosition_conv_ok `{FloatJsonLaws} : kind_ok conv known.
Proof. solve_conv fromJSON toJSON conv known. Qed.
Lemma CursorPosition_whole m : fromPartial (whole m) = m.
Proof. solve_whole fromPartial whole m. Qed.
End CursorPositionValue.
#[export] Hint Resolve CursorPositionValue.CursorPosition_conv_ok : kind_ok.
#[export] Hint Resolve CursorPositionValue.CursorPosition_whole : whole.

(** ** [Clipboard] (message.ts, lines 5009-5055) *)
Module ClipboardValue.
Definition fields `{FloatJson} (message : Clipboard.t) : list (string * option json) :=
  let 'Clipboard.mk compress content width height format special_name := message in
  [("compress", omit_if (negb compress) (to_json json_bool compress));
   ("content", omit_if (len content =? 0)%Z (to_json json_bytes content));
   ("width", omit_if (width =? 0)%Z (to_json json_number width));
   ("height", omit_if (height =? 0)%Z (to_json json_number height));
   ("format", omit_if (format =? 0)%Z (to_json (json_enum ClipboardFormat.names) format));
   ("special_name", omit_if (special_name =? "") (to_json json_string special_name))].
Definition toJSON `{FloatJson} (message : Clipboard.t) : json := JObj (present (fields message)).
Definition fromJSON `{FloatJson} (object : json) : outcome Clipboard.t :=
  compress ← read json_bool "compress" false object;
  content ← read json_bytes "content" [] object;
  width ← read json_number "width" 0%Z object;
  height ← read json_number "height" 0%Z object;
  format ← read (json_enum ClipboardFormat.names) "format" 0%Z object;
  special_name ← read json_string "special_name" "" object;
  mret (Clipboard.mk compress content width height format special_name).
Definition conv `{FloatJson} : kind Clipboard.t := {| to_json := toJSON; of_json := fromJSON |}.
(** Every enum number has a name. *)
Definition known (message : Clipboard.t) : Prop :=
  named ClipboardFormat.names message.(Clipboard.format).
Record partial := { compress : maybe bool; content : maybe bytes; width : maybe Z; height : maybe Z; format : maybe Z;
  special_name : maybe string }.
Definition nothing : partial := {| compress := None; content := None; width := None; height := None; format := None;
  special_name := None |}.
Definition fromPartial (object : partial) : Clipboard.t := {|
  Clipboard.compress := default false object.(compress);
  Clipboard.content := default [] object.(content);
  Clipboard.width := default 0%Z object.(width);
  Clipboard.height := default 0%Z object.(height);
  Clipboard.format := default 0%Z object.(format);
  Clipboard.special_name := default "" object.(special_name) |}.
Definition whole (message : Clipboard.t) : partial :=
  let 'Clipboard.mk compress content width height format special_name := message in
  {| compress := Some compress; content := Some content; width := Some width; height := Some height;
    format := Some format; special_name := Some special_name |}.
Definition create (base : maybe partial) : Clipboard.t := fromPartial (default nothing base).
Lemma Clipboard_conv_ok `{FloatJsonLaws} : kind_ok conv known.
Proof. solve_conv fromJSON toJSON conv known. Qed.
Lemma Clipboard_whole m : fromPartial (whole m) = m.
Proof. solve_whole fromPartial whole m. Qed.
End ClipboardValue.
#[export] Hint Resolve ClipboardValue.Clipboard_conv_ok : kind_ok.
#[export] Hint Resolve ClipboardValue.Clipboard_whole : whole.

(** ** [MultiClipboards] (message.ts, lines 5093-5116) *)
Module MultiClipboardsValue.
Definition fields `{FloatJson} (message : MultiClipboards.t) : list (string * option json) :=
  let 'MultiClipboards.mk clipboards := message in
  [("clipboards", many ClipboardValue.conv clipboards)].
Definition toJSON `{FloatJson} (message : MultiClipboards.t) : json := JObj (present (fields message)).
Definition fromJSON `{FloatJson} (object : json) : outcome MultiClipboards.t :=
  clipboards ← read_list ClipboardValue.conv "clipboards" object;
  mret (MultiClipboards.mk clipboards).
Definition conv `{FloatJson} : kind MultiClipboards.t := {| to_json := toJSON; of_json := fromJSON |}.
(** Every enum number has a name. *)
Definition known (message : MultiClipboards.t) : Prop :=
  Forall ClipboardValue.known message.(MultiClipboards.clipboards).
Record partial := { clipboards : maybe (list ClipboardValue.partial) }.
Definition nothing : partial := {| clipboards := None |}.
Definition fromPartial (object : partial) : MultiClipboards.t := {|
  MultiClipboards.clipboards := default [] (map ClipboardValue.fromPartial <$> object.(clipboards)) |}.
Definition whole (message : MultiClipboards.t) : partial :=
  let 'MultiClipboards.mk clipboards := message in
  {| clipboards := Some (map ClipboardValue.whole clipboards) |}.
Definition create (base : maybe partial) : MultiClipboards.t := fromPartial (default nothing base).
Lemma MultiClipboards_conv_ok `{FloatJsonLaws} : kind_ok conv known.
Proof. solve_conv fromJSON toJSON conv known. Qed.
Lemma MultiClipboards_whole m : fromPartial (whole m) = m.
Proof. solve_whole fromPartial whole m. Qed.
End MultiClipboardsValue.
#[export] Hint Resolve MultiClipboardsValue.MultiClipboards_conv_ok : kind_ok.
#[export] Hint Resolve MultiClipboardsValue.MultiClipboards_whole : whole.

(** ** [AudioFormat] (message.ts, lines 9536-9562) *)
Module AudioFormatValue.
Definition fields `{FloatJson} (message : AudioFormat.t) : list (string * option json) :=
  let 'AudioFormat.mk sample_rate channels := message in
  [("sample_rate", omit_if (sample_rate =? 0)%Z (to_json json_number sample_rate));
   ("channels", omit_if (channels =? 0)%Z (to_json json_number channels))].
Definition toJSON `{FloatJson} (message : AudioFormat.t) : json := JObj (present (fields message)).
Definition fromJSON `{FloatJson} (object : json) : outcome AudioFormat.t :=
  sample_rate ← read json_number "sample_rate" 0%Z object;
  channels ← read json_number "channels" 0%Z object;
  mret (AudioFormat.mk sample_rate channels).
Definition conv `{FloatJson} : kind AudioFormat.t := {| to_json := toJSON; of_json := fromJSON |}.
Definition known (message : AudioFormat.t) : Prop :=
  True.
Record partial := { sample_rate : maybe Z; channels : maybe Z }.
Definition nothing : partial := {| sample_rate := None; channels := None |}.
Definition fromPartial (object : partial) : AudioFormat.t := {|
  AudioFormat.sample_rate := default 0%Z object.(sample_rate);
  AudioFormat.channels := default 0%Z object.(channels) |}.
Definition whole (message : AudioFormat.t) : partial :=
  let 'AudioFormat.mk sample_rate channels := message in
  {| sample_rate := Some sample_rate; channels := Some channels |}.
Definition create (base : maybe partial) : AudioFormat.t := fromPartial (default nothing base).
Lemma AudioFormat_conv_ok `{FloatJsonLaws} : kind_ok conv known.
Proof. solve_conv fromJSON toJSON conv known. Qed.
Lemma AudioFormat_whole m : fromPartial (whole m) = m.
Proof. solve_whole fromPartial whole m. Qed.
End AudioFormatValue.
#[export] Hint Resolve AudioFormatValue.AudioFormat_conv_ok : kind_ok.
#[export] Hint Resolve AudioFormatValue.AudioFormat_whole : whole.

(** ** [AudioFrame] (message.ts, lines 9600-9619) *)
Module AudioFrameValue.
Definition fields `{FloatJson} (message : AudioFrame.t) : list (string * option json) :=
  let 'AudioFrame.mk data := message in
  [("data", omit_if (len data =? 0)%Z (to_json json_bytes data))].
Definition toJSON `{FloatJson} (message : AudioFrame.t) : json := JObj (present (fields message)).
Definition fromJSON `{FloatJson} (object : json) : outcome AudioFrame.t :=
  data ← read json_bytes "data" [] object;
  mret (AudioFrame.mk data).
Definition conv `{FloatJson} : kind AudioFrame.t := {| to_json := toJSON; of_json := fromJSON |}.
Definition known (message : AudioFrame.t) : Prop :=
  True.
Record partial := { data : maybe bytes }.
Definition nothing : partial := {| data := None |}.
Definition fromPartial (object : partial) : AudioFrame.t := {|
  AudioFrame.data := default [] object.(data) |}.
Definition whole (message : AudioFrame.t) : partial :=
  let 'AudioFrame.mk data := message in
  {| data := Some data |}.
Definition create (base : maybe partial) : AudioFrame.t := fromPartial (default nothing base).
Lemma AudioFrame_conv_ok `{FloatJsonLaws} : kind_ok conv known.
Proof. solve_conv fromJSON toJSON conv known. Qed.
Lemma AudioFrame_whole m : fromPartial (whole m) = m.
Proof. solve_whole fromPartial whole m. Qed.
End AudioFrameValue.
#[export] Hint Resolve AudioFrameValue.AudioFrame_conv_ok : kind_ok.
#[export] Hint Resolve AudioFrameValue.AudioFrame_whole : whole.
