(* ===== verification/ProtoSessionValues.v ===== *)
(** * Generated conversions: handshake, login and peer-information messages

    [proto/message.ts], one module per message type: [toJSON], [fromJSON], [fromPartial] and
    [create].  [partial] is the object [fromPartial] takes, where a member that is absent,
    [undefined] or [null] is [None].  Reading undoes writing ([conv_ok]), and a partial object that
    has everything is copied ([whole]). *)
From Stdlib Require Import Floats.SpecFloat.
From S2P Require Import Prelude Json ProtoWire ProtoEnums ProtoJson ProtoFile ProtoMedia ProtoSession ProtoFileValues ProtoMediaValues.
Local Open Scope string_scope.

(** ** [IdPk] (message.ts, lines 2293-2319) *)
Module IdPkValue.
Definition fields `{FloatJson} (message : IdPk.t) : list (string * option json) :=
  let 'IdPk.mk id pk := message in
  [("id", omit_if (id =? "") (to_json json_string id));
   ("pk", omit_if (len pk =? 0)%Z (to_json json_bytes pk))].
Definition toJSON `{FloatJson} (message : IdPk.t) : json := JObj (present (fields message)).
Definition fromJSON `{FloatJson} (object : json) : outcome IdPk.t :=
  id ← read json_string "id" "" object;
  pk ← read json_bytes "pk" [] object;
  mret (IdPk.mk id pk).
Definition conv `{FloatJson} : kind IdPk.t := {| to_json := toJSON; of_json := fromJSON |}.
Definition known (message : IdPk.t) : Prop :=
  True.
Record partial := { id : maybe string; pk : maybe bytes }.
Definition nothing : partial := {| id := None; pk := None |}.
Definition fromPartial (object : partial) : IdPk.t := {|
  IdPk.id := default "" object.(id);
  IdPk.pk := default [] object.(pk) |}.
Definition whole (message : IdPk.t) : partial :=
  let 'IdPk.mk id pk := message in
  {| id := Some id; pk := Some pk |}.
Definition create (base : maybe partial) : IdPk.t := fromPartial (default nothing base).
Lemma IdPk_conv_ok `{FloatJsonLaws} : kind_ok conv known.
Proof. solve_conv fromJSON toJSON conv known. Qed.
Lemma IdPk_whole m : fromPartial (whole m) = m.
Proof. solve_whole fromPartial whole m. Qed.
End IdPkValue.
#[export] Hint Resolve IdPkValue.IdPk_conv_ok : kind_ok.
#[export] Hint Resolve IdPkValue.IdPk_whole : whole.

(** ** [Resolution] (message.ts, lines 8104-8130) *)
Module ResolutionValue.
Definition fields `{FloatJson} (message : Resolution.t) : list (string * option json) :=
  let 'Resolution.mk width height := message in
  [("width", omit_if (width =? 0)%Z (to_json json_number width));
   ("height", omit_if (height =? 0)%Z (to_json json_number height))].
Definition toJSON `{FloatJson} (message : Resolution.t) : json := JObj (present (fields message)).
Definition fromJSON `{FloatJson} (object : json) : outcome Resolution.t :=
  width ← read json_number "width" 0%Z object;
  height ← read json_number "height" 0%Z object;
  mret (Resolution.mk width height).
Definition conv `{FloatJson} : kind Resolution.t := {| to_json := toJSON; of_json := fromJSON |}.
Definition known (message : Resolution.t) : Prop :=
  True.
Record partial := { width : maybe Z; height : maybe Z }.
Definition nothing : partial := {| width := None; height := None |}.
Definition fromPartial (object : partial) : Resolution.t := {|
  Resolution.width := default 0%Z object.(width);
  Resolution.height := default 0%Z object.(height) |}.
Definition whole (message : Resolution.t) : partial :=
  let 'Resolution.mk width height := message in
  {| width := Some width; height := Some height |}.
Definition create (base : maybe partial) : Resolution.t := fromPartial (default nothing base).
Lemma Resolution_conv_ok `{FloatJsonLaws} : kind_ok conv known.
Proof. solve_conv fromJSON toJSON conv known. Qed.
Lemma Resolution_whole m : fromPartial (whole m) = m.
Proof. solve_whole fromPartial whole m. Qed.
End ResolutionValue.
#[export] Hint Resolve ResolutionValue.Resolution_conv_ok : kind_ok.
#[export] Hint Resolve ResolutionValue.Resolution_whole : whole.

(** ** [DisplayInfo] (message.ts, lines 2447-2512) *)
Module DisplayInfoValue.
Definition fields `{FloatJson} (message : DisplayInfo.t) : list (string * option json) :=
  let 'DisplayInfo.mk x y width height name online cursor_embedded original_resolution scale :=
    message in
  [("x", omit_if (x =? 0)%Z (to_json json_number x));
   ("y", omit_if (y =? 0)%Z (to_json json_number y));
   ("width", omit_if (width =? 0)%Z (to_json json_number width));
   ("height", omit_if (height =? 0)%Z (to_json json_number height));
   ("name", omit_if (name =? "") (to_json json_string name));
   ("online", omit_if (negb online) (to_json json_bool online));
   ("cursor_embedded", omit_if (negb cursor_embedded) (to_json json_bool cursor_embedded));
   ("original_resolution", to_json ResolutionValue.conv <$> original_resolution);
   ("scale", omit_if (is_zero scale) (to_json json_double scale))].
Definition toJSON `{FloatJson} (message : DisplayInfo.t) : json := JObj (present (fields message)).
Definition fromJSON `{FloatJson} (object : json) : outcome DisplayInfo.t :=
  x ← read json_number "x" 0%Z object;
  y ← read json_number "y" 0%Z object;
  width ← read json_number "width" 0%Z object;
  height ← read json_number "height" 0%Z object;
  name ← read json_string "name" "" object;
  online ← read json_bool "online" false object;
  cursor_embedded ← read json_bool "cursor_embedded" false object;
  original_resolution ← read_opt ResolutionValue.conv "original_resolution" object;
  scale ← read json_double "scale" (S754_zero false) object;
  mret (DisplayInfo.mk x y width height name online cursor_embedded original_resolution scale).
Definition conv `{FloatJson} : kind DisplayInfo.t := {| to_json := toJSON; of_json := fromJSON |}.
(** Every enum number has a name. *)
Definition known (message : DisplayInfo.t) : Prop :=
  from_option ResolutionValue.known True message.(DisplayInfo.original_resolution) /\
  not_neg_zero message.(DisplayInfo.scale).
Record partial := { x : maybe Z; y : maybe Z; width : maybe Z; height : maybe Z; name : maybe string;
  online : maybe bool; cursor_embedded : maybe bool;
  original_resolution : maybe ResolutionValue.partial; scale : maybe spec_float }.
Definition nothing : partial := {| x := None; y := None; width := None; height := None; name := None; online := None;
  cursor_embedded := None; original_resolution := None; scale := None |}.
Definition fromPartial (object : partial) : DisplayInfo.t := {|
  DisplayInfo.x := default 0%Z object.(x);
  DisplayInfo.y := default 0%Z object.(y);
  DisplayInfo.width := default 0%Z object.(width);
  DisplayInfo.height := default 0%Z object.(height);
  DisplayInfo.name := default "" object.(name);
  DisplayInfo.online := default false object.(online);
  DisplayInfo.cursor_embedded := default false object.(cursor_embedded);
  DisplayInfo.original_resolution := ResolutionValue.fromPartial <$> object.(original_resolution);
  DisplayInfo.scale := default (S754_zero false) object.(scale) |}.
Definition whole (message : DisplayInfo.t) : partial :=
  let 'DisplayInfo.mk x y width height name online cursor_embedded original_resolution scale :=
    message in
  {| x := Some x; y := Some y; width := Some width; height := Some height; name := Some name;
    online := Some online; cursor_embedded := Some cursor_embedded;
    original_resolution := ResolutionValue.whole <$> original_resolution; scale := Some scale |}.
Definition create (base : maybe partial) : DisplayInfo.t := fromPartial (default nothing base).
Lemma DisplayInfo_conv_ok `{FloatJsonLaws} : kind_ok conv known.
Proof. solve_conv fromJSON toJSON conv known. Qed.
Lemma DisplayInfo_whole m : fromPartial (whole m) = m.
Proof. solve_whole fromPartial whole m. Qed.
End DisplayInfoValue.
#[export] Hint Resolve DisplayInfoValue.DisplayInfo_conv_ok : kind_ok.
#[export] Hint Resolve DisplayInfoValue.DisplayInfo_whole : whole.

(** ** [PortForward] (message.ts, lines 2560-2586) *)
Module PortForwardValue.
Definition fields `{FloatJson} (message : PortForward.t) : list (string * option json) :=
  let 'PortForward.mk host port := message in
  [("host", omit_if (host =? "") (to_json json_string host));
   ("port", omit_if (port =? 0)%Z (to_json json_number port))].
Definition toJSON `{FloatJson} (message : PortForward.t) : json := JObj (present (fields message)).
Definition fromJSON `{FloatJson} (object : json) : outcome PortForward.t :=
  host ← read json_string "host" "" object;
  port ← read json_number "port" 0%Z object;
  mret (PortForward.mk host port).
Definition conv `{FloatJson} : kind PortForward.t := {| to_json := toJSON; of_json := fromJSON |}.
Definition known (message : PortForward.t) : Prop :=
  True.
Record partial := { host : maybe string; port : maybe Z }.
Definition nothing : partial := {| host := None; port := None |}.
Definition fromPartial (object : partial) : PortForward.t := {|
  PortForward.host := default "" object.(host);
  PortForward.port := default 0%Z object.(port) |}.
Definition whole (message : PortForward.t) : partial :=
  let 'PortForward.mk host port := message in
  {| host := Some host; port := Some port |}.
Definition create (base : maybe partial) : PortForward.t := fromPartial (default nothing base).
Lemma PortForward_conv_ok `{FloatJsonLaws} : kind_ok conv known.
Proof. solve_conv fromJSON toJSON conv known. Qed.
Lemma PortForward_whole m : fromPartial (whole m) = m.
Proof. solve_whole fromPartial whole m. Qed.
End PortForwardValue.
#[export] Hint Resolve PortForwardValue.PortForward_conv_ok : kind_ok.
#[export] Hint Resolve PortForwardValue.PortForward_whole : whole.

(** ** [FileTransfer] (message.ts, lines 2634-2660) *)
Module FileTransferValue.
Definition fields `{FloatJson} (message : FileTransfer.t) : list (string * option json) :=
  let 'FileTransfer.mk dir show_hidden := message in
  [("dir", omit_if (dir =? "") (to_json json_string dir));
   ("show_hidden", omit_if (negb show_hidden) (to_json json_bool show_hidden))].
Definition toJSON `{FloatJson} (message : FileTransfer.t) : json := JObj (present (fields message)).
Definition fromJSON `{FloatJson} (object : json) : outcome FileTransfer.t :=
  dir ← read json_string "dir" "" object;
  show_hidden ← read json_bool "show_hidden" false object;
  mret (FileTransfer.mk dir show_hidden).
Definition conv `{FloatJson} : kind FileTransfer.t := {| to_json := toJSON; of_json := fromJSON |}.
Definition known (message : FileTransfer.t) : Prop :=
  True.
Record partial := { dir : maybe string; show_hidden : maybe bool }.
Definition nothing : partial := {| dir := None; show_hidden := None |}.
Definition fromPartial (object : partial) : FileTransfer.t := {|
  FileTransfer.dir := default "" object.(dir);
  FileTransfer.show_hidden := default false object.(show_hidden) |}.
Definition whole (message : FileTransfer.t) : partial :=
  let 'FileTransfer.mk dir show_hidden := message in
  {| dir := Some dir; show_hidden := Some show_hidden |}.
Definition create (base : maybe partial) : FileTransfer.t := fromPartial (default nothing base).
Lemma FileTransfer_conv_ok `{FloatJsonLaws} : kind_ok conv known.
Proof. solve_conv fromJSON toJSON conv known. Qed.
Lemma FileTransfer_whole m : fromPartial (whole m) = m.
Proof. solve_whole fromPartial whole m. Qed.
End FileTransferValue.
#[export] Hint Resolve FileTransferValue.FileTransfer_conv_ok : kind_ok.
#[export] Hint Resolve FileTransferValue.FileTransfer_whole : whole.

(** ** [OSLogin] (message.ts, lines 2708-2734) *)
Module OSLoginValue.
Definition fields `{FloatJson} (message : OSLogin.t) : list (string * option json) :=
  let 'OSLogin.mk username password := message in
  [("username", omit_if (username =? "") (to_json json_string username));
   ("password", omit_if (password =? "") (to_json json_string password))].
Definition toJSON `{FloatJson} (message : OSLogin.t) : json := JObj (present (fields message)).
Definition fromJSON `{FloatJson} (object : json) : outcome OSLogin.t :=
  username ← read json_string "username" "" object;
  password ← read json_string "password" "" object;
  mret (OSLogin.mk username password).
Definition conv `{FloatJson} : kind OSLogin.t := {| to_json := toJSON; of_json := fromJSON |}.
Definition known (message : OSLogin.t) : Prop :=
  True.
Record partial := { username : maybe string; password : maybe string }.
Definition nothing : partial := {| username := None; password := None |}.
Definition fromPartial (object : partial) : OSLogin.t := {|
  OSLogin.username := default "" object.(username);
  OSLogin.password := default "" object.(password) |}.
Definition whole (message : OSLogin.t) : partial :=
  let 'OSLogin.mk username password := message in
  {| username := Some username; password := Some password |}.
Definition create (base : maybe partial) : OSLogin.t := fromPartial (default nothing base).
Lemma OSLogin_conv_ok `{FloatJsonLaws} : kind_ok conv known.
Proof. solve_conv fromJSON toJSON conv known. Qed.
Lemma OSLogin_whole m : fromPartial (whole m) = m.
Proof. solve_whole fromPartial whole m. Qed.
End OSLoginValue.
#[export] Hint Resolve OSLoginValue.OSLogin_conv_ok : kind_ok.
#[export] Hint Resolve OSLoginValue.OSLogin_whole : whole.

(** ** [CodecAbility] (message.ts, lines 3261-3302) *)
Module CodecAbilityValue.
Definition fields `{FloatJson} (message : CodecAbility.t) : list (string * option json) :=
  let 'CodecAbility.mk vp8 vp9 av1 h264 h265 := message in
  [("vp8", omit_if (negb vp8) (to_json json_bool vp8));
   ("vp9", omit_if (negb vp9) (to_json json_bool vp9));
   ("av1", omit_if (negb av1) (to_json json_bool av1));
   ("h264", omit_if (negb h264) (to_json json_bool h264));
   ("h265", omit_if (negb h265) (to_json json_bool h265))].
Definition toJSON `{FloatJson} (message : CodecAbility.t) : json := JObj (present (fields message)).
Definition fromJSON `{FloatJson} (object : json) : outcome CodecAbility.t :=
  vp8 ← read json_bool "vp8" false object;
  vp9 ← read json_bool "vp9" false object;
  av1 ← read json_bool "av1" false object;
  h264 ← read json_bool "h264" false object;
  h265 ← read json_bool "h265" false object;
  mret (CodecAbility.mk vp8 vp9 av1 h264 h265).
Definition conv `{FloatJson} : kind CodecAbility.t := {| to_json := toJSON; of_json := fromJSON |}.
Definition known (message : CodecAbility.t) : Prop :=
  True.
Record partial := { vp8 : maybe bool; vp9 : maybe bool; av1 : maybe bool; h264 : maybe bool; h265 : maybe bool }.
Definition nothing : partial := {| vp8 := None; vp9 := None; av1 := None; h264 := None; h265 := None |}.
Definition fromPartial (object : partial) : CodecAbility.t := {|
  CodecAbility.vp8 := default false object.(vp8);
  CodecAbility.vp9 := default false object.(vp9);
  CodecAbility.av1 := default false object.(av1);
  CodecAbility.h264 := default false object.(h264);
  CodecAbility.h265 := default false object.(h265) |}.
Definition whole (message : CodecAbility.t) : partial :=
  let 'CodecAbility.mk vp8 vp9 av1 h264 h265 := message in
  {| vp8 := Some vp8; vp9 := Some vp9; av1 := Some av1; h264 := Some h264; h265 := Some h265 |}.
Definition create (base : maybe partial) : CodecAbility.t := fromPartial (default nothing base).
Lemma CodecAbility_conv_ok `{FloatJsonLaws} : kind_ok conv known.
Proof. solve_conv fromJSON toJSON conv known. Qed.
Lemma CodecAbility_whole m : fromPartial (whole m) = m.
Proof. solve_whole fromPartial whole m. Qed.
End CodecAbilityValue.
#[export] Hint Resolve CodecAbilityValue.CodecAbility_conv_ok : kind_ok.
#[export] Hint Resolve CodecAbilityValue.CodecAbility_whole : whole.

(** ** [SupportedDecoding] (message.ts, lines 8910-8968) *)
Module SupportedDecodingValue.
Definition fields `{FloatJson} (message : SupportedDecoding.t) : list (string * option json) :=
  let 'SupportedDecoding.mk ability_vp9 ability_h264 ability_h265 prefer ability_vp8 ability_av1
    i444 prefer_chroma := message in
  [("ability_vp9", omit_if (ability_vp9 =? 0)%Z (to_json json_number ability_vp9));
   ("ability_h264", omit_if (ability_h264 =? 0)%Z (to_json json_number ability_h264));
   ("ability_h265", omit_if (ability_h265 =? 0)%Z (to_json json_number ability_h265));
   ("prefer", omit_if (prefer =? 0)%Z (to_json (json_enum SupportedDecoding_PreferCodec.names) prefer));
   ("ability_vp8", omit_if (ability_vp8 =? 0)%Z (to_json json_number ability_vp8));
   ("ability_av1", omit_if (ability_av1 =? 0)%Z (to_json json_number ability_av1));
   ("i444", to_json CodecAbilityValue.conv <$> i444);
   ("prefer_chroma", omit_if (prefer_chroma =? 0)%Z (to_json (json_enum Chroma.names) prefer_chroma))].
Definition toJSON `{FloatJson} (message : SupportedDecoding.t) : json := JObj (present (fields message)).
Definition fromJSON `{FloatJson} (object : json) : outcome SupportedDecoding.t :=
  ability_vp9 ← read json_number "ability_vp9" 0%Z object;
  ability_h264 ← read json_number "ability_h264" 0%Z object;
  ability_h265 ← read json_number "ability_h265" 0%Z object;
  prefer ← read (json_enum SupportedDecoding_PreferCodec.names) "prefer" 0%Z object;
  ability_vp8 ← read json_number "ability_vp8" 0%Z object;
  ability_av1 ← read json_number "ability_av1" 0%Z object;
  i444 ← read_opt CodecAbilityValue.conv "i444" object;
  prefer_chroma ← read (json_enum Chroma.names) "prefer_chroma" 0%Z object;
  mret (SupportedDecoding.mk ability_vp9 ability_h264 ability_h265 prefer ability_vp8 ability_av1 i444 prefer_chroma).
Definition conv `{FloatJson} : kind SupportedDecoding.t := {| to_json := toJSON; of_json := fromJSON |}.
(** Every enum number has a name. *)
Definition known (message : SupportedDecoding.t) : Prop :=
  named SupportedDecoding_PreferCodec.names message.(SupportedDecoding.prefer) /\
  from_option CodecAbilityValue.known True message.(SupportedDecoding.i444) /\
  named Chroma.names message.(SupportedDecoding.prefer_chroma).
Record partial := { ability_vp9 : maybe Z; ability_h264 : maybe Z; ability_h265 : maybe Z; prefer : maybe Z;
  ability_vp8 : maybe Z; ability_av1 : maybe Z; i444 : maybe CodecAbilityValue.partial;
  prefer_chroma : maybe Z }.
Definition nothing : partial := {| ability_vp9 := None; ability_h264 := None; ability_h265 := None; prefer := None;
  ability_vp8 := None; ability_av1 := None; i444 := None; prefer_chroma := None |}.
Definition fromPartial (object : partial) : SupportedDecoding.t := {|
  SupportedDecoding.ability_vp9 := default 0%Z object.(ability_vp9);
  SupportedDecoding.ability_h264 := default 0%Z object.(ability_h264);
  SupportedDecoding.ability_h265 := default 0%Z object.(ability_h265);
  SupportedDecoding.prefer := default 0%Z object.(prefer);
  SupportedDecoding.ability_vp8 := default 0%Z object.(ability_vp8);
  SupportedDecoding.ability_av1 := default 0%Z object.(ability_av1);
  SupportedDecoding.i444 := CodecAbilityValue.fromPartial <$> object.(i444);
  SupportedDecoding.prefer_chroma := default 0%Z object.(prefer_chroma) |}.
Definition whole (message : SupportedDecoding.t) : partial :=
  let 'SupportedDecoding.mk ability_vp9 ability_h264 ability_h265 prefer ability_vp8 ability_av1
    i444 prefer_chroma := message in
  {| ability_vp9 := Some ability_vp9; ability_h264 := Some ability_h264;
    ability_h265 := Some ability_h265; prefer := Some prefer; ability_vp8 := Some ability_vp8;
    ability_av1 := Some ability_av1; i444 := CodecAbilityValue.whole <$> i444;
    prefer_chroma := Some prefer_chroma |}.
Definition create (base : maybe partial) : SupportedDecoding.t := fromPartial (default nothing base).
Lemma SupportedDecoding_conv_ok `{FloatJsonLaws} : kind_ok conv known.
Proof. solve_conv fromJSON toJSON conv known. Qed.
Lemma SupportedDecoding_whole m : fromPartial (whole m) = m.
Proof. solve_whole fromPartial whole m. Qed.
End SupportedDecodingValue.
#[export] Hint Resolve SupportedDecodingValue.SupportedDecoding_conv_ok : kind_ok.
#[export] Hint Resolve SupportedDecodingValue.SupportedDecoding_whole : whole.

(** ** [OptionMessage] (message.ts, lines 9151-9253) *)
Module OptionMessageValue.
Definition fields `{FloatJson} (message : OptionMessage.t) : list (string * option json) :=
  let 'OptionMessage.mk image_quality lock_after_session_end show_remote_cursor privacy_mode
    block_input custom_image_quality disable_audio disable_clipboard enable_file_transfer
    supported_decoding custom_fps disable_keyboard follow_remote_cursor follow_remote_window :=
    message in
  [("image_quality", omit_if (image_quality =? 0)%Z (to_json (json_enum ImageQuality.names) image_quality));
   ("lock_after_session_end", omit_if (lock_after_session_end =? 0)%Z (to_json (json_enum OptionMessage_BoolOption.names) lock_after_session_end));
   ("show_remote_cursor", omit_if (show_remote_cursor =? 0)%Z (to_json (json_enum OptionMessage_BoolOption.names) show_remote_cursor));
   ("privacy_mode", omit_if (privacy_mode =? 0)%Z (to_json (json_enum OptionMessage_BoolOption.names) privacy_mode));
   ("block_input", omit_if (block_input =? 0)%Z (to_json (json_enum OptionMessage_BoolOption.names) block_input));
   ("custom_image_quality", omit_if (custom_image_quality =? 0)%Z (to_json json_number custom_image_quality));
   ("disable_audio", omit_if (disable_audio =? 0)%Z (to_json (json_enum OptionMessage_BoolOption.names) disable_audio));
   ("disable_clipboard", omit_if (disable_clipboard =? 0)%Z (to_json (json_enum OptionMessage_BoolOption.names) disable_clipboard));
   ("enable_file_transfer", omit_if (enable_file_transfer =? 0)%Z (to_json (json_enum OptionMessage_BoolOption.names) enable_file_transfer));
   ("supported_decoding", to_json SupportedDecodingValue.conv <$> supported_decoding);
   ("custom_fps", omit_if (custom_fps =? 0)%Z (to_json json_number custom_fps));
   ("disable_keyboard", omit_if (disable_keyboard =? 0)%Z (to_json (json_enum OptionMessage_BoolOption.names) disable_keyboard));
   ("follow_remote_cursor", omit_if (follow_remote_cursor =? 0)%Z (to_json (json_enum OptionMessage_BoolOption.names) follow_remote_cursor));
   ("follow_remote_window", omit_if (follow_remote_window =? 0)%Z (to_json (json_enum OptionMessage_BoolOption.names) follow_remote_window))].
Definition toJSON `{FloatJson} (message : OptionMessage.t) : json := JObj (present (fields message)).
Definition fromJSON `{FloatJson} (object : json) : outcome OptionMessage.t :=
  image_quality ← read (json_enum ImageQuality.names) "image_quality" 0%Z object;
  lock_after_session_end ← read (json_enum OptionMessage_BoolOption.names) "lock_after_session_end" 0%Z object;
  show_remote_cursor ← read (json_enum OptionMessage_BoolOption.names) "show_remote_cursor" 0%Z object;
  privacy_mode ← read (json_enum OptionMessage_BoolOption.names) "privacy_mode" 0%Z object;
  block_input ← read (json_enum OptionMessage_BoolOption.names) "block_input" 0%Z object;
  custom_image_quality ← read json_number "custom_image_quality" 0%Z object;
  disable_audio ← read (json_enum OptionMessage_BoolOption.names) "disable_audio" 0%Z object;
  disable_clipboard ← read (json_enum OptionMessage_BoolOption.names) "disable_clipboard" 0%Z object;
  enable_file_transfer ← read (json_enum OptionMessage_BoolOption.names) "enable_file_transfer" 0%Z object;
  supported_decoding ← read_opt SupportedDecodingValue.conv "supported_decoding" object;
  custom_fps ← read json_number "custom_fps" 0%Z object;
  disable_keyboard ← read (json_enum OptionMessage_BoolOption.names) "disable_keyboard" 0%Z object;
  follow_remote_cursor ← read (json_enum OptionMessage_BoolOption.names) "follow_remote_cursor" 0%Z object;
  follow_remote_window ← read (json_enum OptionMessage_BoolOption.names) "follow_remote_window" 0%Z object;
  mret (OptionMessage.mk image_quality lock_after_session_end show_remote_cursor privacy_mode block_input custom_image_quality disable_audio disable_clipboard enable_file_transfer supported_decoding custom_fps disable_keyboard follow_remote_cursor follow_remote_window).
Definition conv `{FloatJson} : kind OptionMessage.t := {| to_json := toJSON; of_json := fromJSON |}.
(** Every enum number has a name. *)
Definition known (message : OptionMessage.t) : Prop :=
  named ImageQuality.names message.(OptionMessage.image_quality) /\
  named OptionMessage_BoolOption.names message.(OptionMessage.lock_after_session_end) /\
  named OptionMessage_BoolOption.names message.(OptionMessage.show_remote_cursor) /\
  named OptionMessage_BoolOption.names message.(OptionMessage.privacy_mode) /\
  named OptionMessage_BoolOption.names message.(OptionMessage.block_input) /\
  named OptionMessage_BoolOption.names message.(OptionMessage.disable_audio) /\
  named OptionMessage_BoolOption.names message.(OptionMessage.disable_clipboard) /\
  named OptionMessage_BoolOption.names message.(OptionMessage.enable_file_transfer) /\
  from_option SupportedDecodingValue.known True message.(OptionMessage.supported_decoding) /\
  named OptionMessage_BoolOption.names message.(OptionMessage.disable_keyboard) /\
  named OptionMessage_BoolOption.names message.(OptionMessage.follow_remote_cursor) /\
  named OptionMessage_BoolOption.names message.(OptionMessage.follow_remote_window).
Record partial := { image_quality : maybe Z; lock_after_session_end : maybe Z; show_remote_cursor : maybe Z;
  privacy_mode : maybe Z; block_input : maybe Z; custom_image_quality : maybe Z;
  disable_audio : maybe Z; disable_clipboard : maybe Z; enable_file_transfer : maybe Z;
  supported_decoding : maybe SupportedDecodingValue.partial; custom_fps : maybe Z;
  disable_keyboard : maybe Z; follow_remote_cursor : maybe Z; follow_remote_window : maybe Z }.
Definition nothing : partial := {| image_quality := None; lock_after_session_end := None; show_remote_cursor := None;
  privacy_mode := None; block_input := None; custom_image_quality := None; disable_audio := None;
  disable_clipboard := None; enable_file_transfer := None; supported_decoding := None;
  custom_fps := None; disable_keyboard := None; follow_remote_cursor := None;
  follow_remote_window := None |}.
Definition fromPartial (object : partial) : OptionMessage.t := {|
  OptionMessage.image_quality := default 0%Z object.(image_quality);
  OptionMessage.lock_after_session_end := default 0%Z object.(lock_after_session_end);
  OptionMessage.show_remote_cursor := default 0%Z object.(show_remote_cursor);
  OptionMessage.privacy_mode := default 0%Z object.(privacy_mode);
  OptionMessage.block_input := default 0%Z object.(block_input);
  OptionMessage.custom_image_quality := default 0%Z object.(custom_image_quality);
  OptionMessage.disable_audio := default 0%Z object.(disable_audio);
  OptionMessage.disable_clipboard := default 0%Z object.(disable_clipboard);
  OptionMessage.enable_file_transfer := default 0%Z object.(enable_file_transfer);
  OptionMessage.supported_decoding := SupportedDecodingValue.fromPartial <$> object.(supported_decoding);
  OptionMessage.custom_fps := default 0%Z object.(custom_fps);
  OptionMessage.disable_keyboard := default 0%Z object.(disable_keyboard);
  OptionMessage.follow_remote_cursor := default 0%Z object.(follow_remote_cursor);
  OptionMessage.follow_remote_window := default 0%Z object.(follow_remote_window) |}.
Definition whole (message : OptionMessage.t) : partial :=
  let 'OptionMessage.mk image_quality lock_after_session_end show_remote_cursor privacy_mode
    block_input custom_image_quality disable_audio disable_clipboard enable_file_transfer
    supported_decoding custom_fps disable_keyboard follow_remote_cursor follow_remote_window :=
    message in
  {| image_quality := Some image_quality; lock_after_session_end := Some lock_after_session_end;
    show_remote_cursor := Some show_remote_cursor; privacy_mode := Some privacy_mode;
    block_input := Some block_input; custom_image_quality := Some custom_image_quality;
    disable_audio := Some disable_audio; disable_clipboard := Some disable_clipboard;
    enable_file_transfer := Some enable_file_transfer;
    supported_decoding := SupportedDecodingValue.whole <$> supported_decoding;
    custom_fps := Some custom_fps; disable_keyboard := Some disable_keyboard;
    follow_remote_cursor := Some follow_remote_cursor;
    follow_remote_window := Some follow_remote_window |}.
Definition create (base : maybe partial) : OptionMessage.t := fromPartial (default nothing base).
Lemma OptionMessage_conv_ok `{FloatJsonLaws} : kind_ok conv known.
Proof. solve_conv fromJSON toJSON conv known. Qed.
Lemma OptionMessage_whole m : fromPartial (whole m) = m.
Proof. solve_whole fromPartial whole m. Qed.
End OptionMessageValue.
#[export] Hint Resolve OptionMessageValue.OptionMessage_conv_ok : kind_ok.
#[export] Hint Resolve OptionMessageValue.OptionMessage_whole : whole.

(** ** [LoginRequest] (message.ts, lines 2906-2995) *)
Module LoginRequestValue.
Definition fields `{FloatJson} (message : LoginRequest.t) : list (string * option json) :=
  let 'LoginRequest.mk username password my_id my_name option file_transfer port_forward
    video_ack_required session_id version os_login my_platform hwid := message in
  [("username", omit_if (username =? "") (to_json json_string username));
   ("password", omit_if (len password =? 0)%Z (to_json json_bytes password));
   ("my_id", omit_if (my_id =? "") (to_json json_string my_id));
   ("my_name", omit_if (my_name =? "") (to_json json_string my_name));
   ("option", to_json OptionMessageValue.conv <$> option);
   ("file_transfer", to_json FileTransferValue.conv <$> file_transfer);
   ("port_forward", to_json PortForwardValue.conv <$> port_forward);
   ("video_ack_required", omit_if (negb video_ack_required) (to_json json_bool video_ack_required));
   ("session_id", omit_if (session_id =? 0)%Z (to_json json_number session_id));
   ("version", omit_if (version =? "") (to_json json_string version));
   ("os_login", to_json OSLoginValue.conv <$> os_login);
   ("my_platform", omit_if (my_platform =? "") (to_json json_string my_platform));
   ("hwid", omit_if (len hwid =? 0)%Z (to_json json_bytes hwid))].
Definition toJSON `{FloatJson} (message : LoginRequest.t) : json := JObj (present (fields message)).
Definition fromJSON `{FloatJson} (object : json) : outcome LoginRequest.t :=
  username ← read json_string "username" "" object;
  password ← read json_bytes "password" [] object;
  my_id ← read json_string "my_id" "" object;
  my_name ← read json_string "my_name" "" object;
  option ← read_opt OptionMessageValue.conv "option" object;
  file_transfer ← read_opt FileTransferValue.conv "file_transfer" object;
  port_forward ← read_opt PortForwardValue.conv "port_forward" object;
  video_ack_required ← read json_bool "video_ack_required" false object;
  session_id ← read json_number "session_id" 0%Z object;
  version ← read json_string "version" "" object;
  os_login ← read_opt OSLoginValue.conv "os_login" object;
  my_platform ← read json_string "my_platform" "" object;
  hwid ← read json_bytes "hwid" [] object;
  mret (LoginRequest.mk username password my_id my_name option file_transfer port_forward video_ack_required session_id version os_login my_platform hwid).
Definition conv `{FloatJson} : kind LoginRequest.t := {| to_json := toJSON; of_json := fromJSON |}.
(** Every enum number has a name. *)
Definition known (message : LoginRequest.t) : Prop :=
  from_option OptionMessageValue.known True message.(LoginRequest.option) /\
  from_option FileTransferValue.known True message.(LoginRequest.file_transfer) /\
  from_option PortForwardValue.known True message.(LoginRequest.port_forward) /\
  from_option OSLoginValue.known True message.(LoginRequest.os_login).
Record partial := { username : maybe string; password : maybe bytes; my_id : maybe string; my_name : maybe string;
  option : maybe OptionMessageValue.partial; file_transfer : maybe FileTransferValue.partial;
  port_forward : maybe PortForwardValue.partial; video_ack_required : maybe bool;
  session_id : maybe Z; version : maybe string; os_login : maybe OSLoginValue.partial;
  my_platform : maybe string; hwid : maybe bytes }.
Definition nothing : partial := {| username := None; password := None; my_id := None; my_name := None; option := None;
  file_transfer := None; port_forward := None; video_ack_required := None; session_id := None;
  version := None; os_login := None; my_platform := None; hwid := None |}.
Definition fromPartial (object : partial) : LoginRequest.t := {|
  LoginRequest.username := default "" object.(username);
  LoginRequest.password := default [] object.(password);
  LoginRequest.my_id := default "" object.(my_id);
  LoginRequest.my_name := default "" object.(my_name);
  LoginRequest.option := OptionMessageValue.fromPartial <$> object.(option);
  LoginRequest.file_transfer := FileTransferValue.fromPartial <$> object.(file_transfer);
  LoginRequest.port_forward := PortForwardValue.fromPartial <$> object.(port_forward);
  LoginRequest.video_ack_required := default false object.(video_ack_required);
  LoginRequest.session_id := default 0%Z object.(session_id);
  LoginRequest.version := default "" object.(version);
  LoginRequest.os_login := OSLoginValue.fromPartial <$> object.(os_login);
  LoginRequest.my_platform := default "" object.(my_platform);
  LoginRequest.hwid := default [] object.(hwid) |}.
Definition whole (message : LoginRequest.t) : partial :=
  let 'LoginRequest.mk username password my_id my_name option file_transfer port_forward
    video_ack_required session_id version os_login my_platform hwid := message in
  {| username := Some username; password := Some password; my_id := Some my_id;
    my_name := Some my_name; option := OptionMessageValue.whole <$> option;
    file_transfer := FileTransferValue.whole <$> file_transfer;
    port_forward := PortForwardValue.whole <$> port_forward;
    video_ack_required := Some video_ack_required; session_id := Some session_id;
    version := Some version; os_login := OSLoginValue.whole <$> os_login;
    my_platform := Some my_platform; hwid := Some hwid |}.
Definition create (base : maybe partial) : LoginRequest.t := fromPartial (default nothing base).
Lemma LoginRequest_conv_ok `{FloatJsonLaws} : kind_ok conv known.
Proof. solve_conv fromJSON toJSON conv known. Qed.
Lemma LoginRequest_whole m : fromPartial (whole m) = m.
Proof. solve_whole fromPartial whole m. Qed.
End LoginRequestValue.
#[export] Hint Resolve LoginRequestValue.LoginRequest_conv_ok : kind_ok.
#[export] Hint Resolve LoginRequestValue.LoginRequest_whole : whole.

(** ** [Auth2FA] (message.ts, lines 3043-3069) *)
Module Auth2FAValue.
Definition fields `{FloatJson} (message : Auth2FA.t) : list (string * option json) :=
  let 'Auth2FA.mk code hwid := message in
  [("code", omit_if (code =? "") (to_json json_string code));
   ("hwid", omit_if (len hwid =? 0)%Z (to_json json_bytes hwid))].
Definition toJSON `{FloatJson} (message : Auth2FA.t) : json := JObj (present (fields message)).
Definition fromJSON `{FloatJson} (object : json) : outcome Auth2FA.t :=
  code ← read json_string "code" "" object;
  hwid ← read json_bytes "hwid" [] object;
  mret (Auth2FA.mk code hwid).
Definition conv `{FloatJson} : kind Auth2FA.t := {| to_json := toJSON; of_json := fromJSON |}.
Definition known (message : Auth2FA.t) : Prop :=
  True.
Record partial := { code : maybe string; hwid : maybe bytes }.
Definition nothing : partial := {| code := None; hwid := None |}.
Definition fromPartial (object : partial) : Auth2FA.t := {|
  Auth2FA.code := default "" object.(code);
  Auth2FA.hwid := default [] object.(hwid) |}.
Definition whole (message : Auth2FA.t) : partial :=
  let 'Auth2FA.mk code hwid := message in
  {| code := Some code; hwid := Some hwid |}.
Definition create (base : maybe partial) : Auth2FA.t := fromPartial (default nothing base).
Lemma Auth2FA_conv_ok `{FloatJsonLaws} : kind_ok conv known.
Proof. solve_conv fromJSON toJSON conv known. Qed.
Lemma Auth2FA_whole m : fromPartial (whole m) = m.
Proof. solve_whole fromPartial whole m. Qed.
End Auth2FAValue.
#[export] Hint Resolve Auth2FAValue.Auth2FA_conv_ok : kind_ok.
#[export] Hint Resolve Auth2FAValue.Auth2FA_whole : whole.

(** ** [Features] (message.ts, lines 3164-3183) *)
Module FeaturesValue.
Definition fields `{FloatJson} (message : Features.t) : list (string * option json) :=
  let 'Features.mk privacy_mode := message in
  [("privacy_mode", omit_if (negb privacy_mode) (to_json json_bool privacy_mode))].
Definition toJSON `{FloatJson} (message : Features.t) : json := JObj (present (fields message)).
Definition fromJSON `{FloatJson} (object : json) : outcome Features.t :=
  privacy_mode ← read json_bool "privacy_mode" false object;
  mret (Features.mk privacy_mode).
Definition conv `{FloatJson} : kind Features.t := {| to_json := toJSON; of_json := fromJSON |}.
Definition known (message : Features.t) : Prop :=
  True.
Record partial := { privacy_mode : maybe bool }.
Definition nothing : partial := {| privacy_mode := None |}.
Definition fromPartial (object : partial) : Features.t := {|
  Features.privacy_mode := default false object.(privacy_mode) |}.
Definition whole (message : Features.t) : partial :=
  let 'Features.mk privacy_mode := message in
  {| privacy_mode := Some privacy_mode |}.
Definition create (base : maybe partial) : Features.t := fromPartial (default nothing base).
Lemma Features_conv_ok `{FloatJsonLaws} : kind_ok conv known.
Proof. solve_conv fromJSON toJSON conv known. Qed.
Lemma Features_whole m : fromPartial (whole m) = m.
Proof. solve_whole fromPartial whole m. Qed.
End FeaturesValue.
#[export] Hint Resolve FeaturesValue.Features_conv_ok : kind_ok.
#[export] Hint Resolve FeaturesValue.Features_whole : whole.

(** ** [SupportedEncoding] (message.ts, lines 3380-3423) *)
Module SupportedEncodingValue.
Definition fields `{FloatJson} (message : SupportedEncoding.t) : list (string * option json) :=
  let 'SupportedEncoding.mk h264 h265 vp8 av1 i444 := message in
  [("h264", omit_if (negb h264) (to_json json_bool h264));
   ("h265", omit_if (negb h265) (to_json json_bool h265));
   ("vp8", omit_if (negb vp8) (to_json json_bool vp8));
   ("av1", omit_if (negb av1) (to_json json_bool av1));
   ("i444", to_json CodecAbilityValue.conv <$> i444)].
Definition toJSON `{FloatJson} (message : SupportedEncoding.t) : json := JObj (present (fields message)).
Definition fromJSON `{FloatJson} (object : json) : outcome SupportedEncoding.t :=
  h264 ← read json_bool "h264" false object;
  h265 ← read json_bool "h265" false object;
  vp8 ← read json_bool "vp8" false object;
  av1 ← read json_bool "av1" false object;
  i444 ← read_opt CodecAbilityValue.conv "i444" object;
  mret (SupportedEncoding.mk h264 h265 vp8 av1 i444).
Definition conv `{FloatJson} : kind SupportedEncoding.t := {| to_json := toJSON; of_json := fromJSON |}.
(** Every enum number has a name. *)
Definition known (message : SupportedEncoding.t) : Prop :=
  from_option CodecAbilityValue.known True message.(SupportedEncoding.i444).
Record partial := { h264 : maybe bool; h265 : maybe bool; vp8 : maybe bool; av1 : maybe bool;
  i444 : maybe CodecAbilityValue.partial }.
Definition nothing : partial := {| h264 := None; h265 := None; vp8 := None; av1 := None; i444 := None |}.
Definition fromPartial (object : partial) : SupportedEncoding.t := {|
  SupportedEncoding.h264 := default false object.(h264);
  SupportedEncoding.h265 := default false object.(h265);
  SupportedEncoding.vp8 := default false object.(vp8);
  SupportedEncoding.av1 := default false object.(av1);
  SupportedEncoding.i444 := CodecAbilityValue.fromPartial <$> object.(i444) |}.
Definition whole (message : SupportedEncoding.t) : partial :=
  let 'SupportedEncoding.mk h264 h265 vp8 av1 i444 := message in
  {| h264 := Some h264; h265 := Some h265; vp8 := Some vp8; av1 := Some av1;
    i444 := CodecAbilityValue.whole <$> i444 |}.
Definition create (base : maybe partial) : SupportedEncoding.t := fromPartial (default nothing base).
Lemma SupportedEncoding_conv_ok `{FloatJsonLaws} : kind_ok conv known.
Proof. solve_conv fromJSON toJSON conv known. Qed.
Lemma SupportedEncoding_whole m : fromPartial (whole m) = m.
Proof. solve_whole fromPartial whole m. Qed.
End SupportedEncodingValue.
#[export] Hint Resolve SupportedEncodingValue.SupportedEncoding_conv_ok : kind_ok.
#[export] Hint Resolve SupportedEncodingValue.SupportedEncoding_whole : whole.

(** ** [SupportedResolutions] (message.ts, lines 8244-8267) *)
Module SupportedResolutionsValue.
Definition fields `{FloatJson} (message : SupportedResolutions.t) : list (string * option json) :=
  let 'SupportedResolutions.mk resolutions := message in
  [("resolutions", many ResolutionValue.conv resolutions)].
Definition toJSON `{FloatJson} (message : SupportedResolutions.t) : json := JObj (present (fields message)).
Definition fromJSON `{FloatJson} (object : json) : outcome SupportedResolutions.t :=
  resolutions ← read_list ResolutionValue.conv "resolutions" object;
  mret (SupportedResolutions.mk resolutions).
Definition conv `{FloatJson} : kind SupportedResolutions.t := {| to_json := toJSON; of_json := fromJSON |}.
(** Every enum number has a name. *)
Definition known (message : SupportedResolutions.t) : Prop :=
  Forall ResolutionValue.known message.(SupportedResolutions.resolutions).
Record partial := { resolutions : maybe (list ResolutionValue.partial) }.
Definition nothing : partial := {| resolutions := None |}.
Definition fromPartial (object : partial) : SupportedResolutions.t := {|
  SupportedResolutions.resolutions := default [] (map ResolutionValue.fromPartial <$> object.(resolutions)) |}.
Definition whole (message : SupportedResolutions.t) : partial :=
  let 'SupportedResolutions.mk resolutions := message in
  {| resolutions := Some (map ResolutionValue.whole resolutions) |}.
Definition create (base : maybe partial) : SupportedResolutions.t := fromPartial (default nothing base).
Lemma SupportedResolutions_conv_ok `{FloatJsonLaws} : kind_ok conv known.
Proof. solve_conv fromJSON toJSON conv known. Qed.
Lemma SupportedResolutions_whole m : fromPartial (whole m) = m.
Proof. solve_whole fromPartial whole m. Qed.
End SupportedResolutionsValue.
#[export] Hint Resolve SupportedResolutionsValue.SupportedResolutions_conv_ok : kind_ok.
#[export] Hint Resolve SupportedResolutionsValue.SupportedResolutions_whole : whole.

(** ** [WindowsSession] (message.ts, lines 3718-3744) *)
Module WindowsSessionValue.
Definition fields `{FloatJson} (message : WindowsSession.t) : list (string * option json) :=
  let 'WindowsSession.mk sid name := message in
  [("sid", omit_if (sid =? 0)%Z (to_json json_number sid));
   ("name", omit_if (name =? "") (to_json json_string name))].
Definition toJSON `{FloatJson} (message : WindowsSession.t) : json := JObj (present (fields message)).
Definition fromJSON `{FloatJson} (object : json) : outcome WindowsSession.t :=
  sid ← read json_number "sid" 0%Z object;
  name ← read json_string "name" "" object;
  mret (WindowsSession.mk sid name).
Definition conv `{FloatJson} : kind WindowsSession.t := {| to_json := toJSON; of_json := fromJSON |}.
Definition known (message : WindowsSession.t) : Prop :=
  True.
Record partial := { sid : maybe Z; name : maybe string }.
Definition nothing : partial := {| sid := None; name := None |}.
Definition fromPartial (object : partial) : WindowsSession.t := {|
  WindowsSession.sid := default 0%Z object.(sid);
  WindowsSession.name := default "" object.(name) |}.
Definition whole (message : WindowsSession.t) : partial :=
  let 'WindowsSession.mk sid name := message in
  {| sid := Some sid; name := Some name |}.
Definition create (base : maybe partial) : WindowsSession.t := fromPartial (default nothing base).
Lemma WindowsSession_conv_ok `{FloatJsonLaws} : kind_ok conv known.
Proof. solve_conv fromJSON toJSON conv known. Qed.
Lemma WindowsSession_whole m : fromPartial (whole m) = m.
Proof. solve_whole fromPartial whole m. Qed.
End WindowsSessionValue.
#[export] Hint Resolve WindowsSessionValue.WindowsSession_conv_ok : kind_ok.
#[export] Hint Resolve WindowsSessionValue.WindowsSession_whole : whole.

(** ** [WindowsSessions] (message.ts, lines 10366-10394) *)
Module WindowsSessionsValue.
Definition fields `{FloatJson} (message : WindowsSessions.t) : list (string * option json) :=
  let 'WindowsSessions.mk sessions current_sid := message in
  [("sessions", many WindowsSessionValue.conv sessions);
   ("current_sid", omit_if (current_sid =? 0)%Z (to_json json_number current_sid))].
Definition toJSON `{FloatJson} (message : WindowsSessions.t) : json := JObj (present (fields message)).
Definition fromJSON `{FloatJson} (object : json) : outcome WindowsSessions.t :=
  sessions ← read_list WindowsSessionValue.conv "sessions" object;
  current_sid ← read json_number "current_sid" 0%Z object;
  mret (WindowsSessions.mk sessions current_sid).
Definition conv `{FloatJson} : kind WindowsSessions.t := {| to_json := toJSON; of_json := fromJSON |}.
(** Every enum number has a name. *)
Definition known (message : WindowsSessions.t) : Prop :=
  Forall WindowsSessionValue.known message.(WindowsSessions.sessions).
Record partial := { sessions : maybe (list WindowsSessionValue.partial); current_sid : maybe Z }.
Definition nothing : partial := {| sessions := None; current_sid := None |}.
Definition fromPartial (object : partial) : WindowsSessions.t := {|
  WindowsSessions.sessions := default [] (map WindowsSessionValue.fromPartial <$> object.(sessions));
  WindowsSessions.current_sid := default 0%Z object.(current_sid) |}.
Definition whole (message : WindowsSessions.t) : partial :=
  let 'WindowsSessions.mk sessions current_sid := message in
  {| sessions := Some (map WindowsSessionValue.whole sessions); current_sid := Some current_sid |}.
Definition create (base : maybe partial) : WindowsSessions.t := fromPartial (default nothing base).
Lemma WindowsSessions_conv_ok `{FloatJsonLaws} : kind_ok conv known.
Proof. solve_conv fromJSON toJSON conv known. Qed.
Lemma WindowsSessions_whole m : fromPartial (whole m) = m.
Proof. solve_whole fromPartial whole m. Qed.
End WindowsSessionsValue.
#[export] Hint Resolve WindowsSessionsValue.WindowsSessions_conv_ok : kind_ok.
#[export] Hint Resolve WindowsSessionsValue.WindowsSessions_whole : whole.

(** ** [PeerInfo] (message.ts, lines 3584-3670) *)
Module PeerInfoValue.
Definition fields `{FloatJson} (message : PeerInfo.t) : list (string * option json) :=
  let 'PeerInfo.mk username hostname platform displays current_display sas_enabled version features
    encoding resolutions platform_additions windows_sessions := message in
  [("username", omit_if (username =? "") (to_json json_string username));
   ("hostname", omit_if (hostname =? "") (to_json json_string hostname));
   ("platform", omit_if (platform =? "") (to_json json_string platform));
   ("displays", many DisplayInfoValue.conv displays);
   ("current_display", omit_if (current_display =? 0)%Z (to_json json_number current_display));
   ("sas_enabled", omit_if (negb sas_enabled) (to_json json_bool sas_enabled));
   ("version", omit_if (version =? "") (to_json json_string version));
   ("features", to_json FeaturesValue.conv <$> features);
   ("encoding", to_json SupportedEncodingValue.conv <$> encoding);
   ("resolutions", to_json SupportedResolutionsValue.conv <$> resolutions);
   ("platform_additions", omit_if (platform_additions =? "") (to_json json_string platform_additions));
   ("windows_sessions", to_json WindowsSessionsValue.conv <$> windows_sessions)].
Definition toJSON `{FloatJson} (message : PeerInfo.t) : json := JObj (present (fields message)).
Definition fromJSON `{FloatJson} (object : json) : outcome PeerInfo.t :=
  username ← read json_string "username" "" object;
  hostname ← read json_string "hostname" "" object;
  platform ← read json_string "platform" "" object;
  displays ← read_list DisplayInfoValue.conv "displays" object;
  current_display ← read json_number "current_display" 0%Z object;
  sas_enabled ← read json_bool "sas_enabled" false object;
  version ← read json_string "version" "" object;
  features ← read_opt FeaturesValue.conv "features" object;
  encoding ← read_opt SupportedEncodingValue.conv "encoding" object;
  resolutions ← read_opt SupportedResolutionsValue.conv "resolutions" object;
  platform_additions ← read json_string "platform_additions" "" object;
  windows_sessions ← read_opt WindowsSessionsValue.conv "windows_sessions" object;
  mret (PeerInfo.mk username hostname platform displays current_display sas_enabled version features encoding resolutions platform_additions windows_sessions).
Definition conv `{FloatJson} : kind PeerInfo.t := {| to_json := toJSON; of_json := fromJSON |}.
(** Every enum number has a name. *)
Definition known (message : PeerInfo.t) : Prop :=
  Forall DisplayInfoValue.known message.(PeerInfo.displays) /\
  from_option FeaturesValue.known True message.(PeerInfo.features) /\
  from_option SupportedEncodingValue.known True message.(PeerInfo.encoding) /\
  from_option SupportedResolutionsValue.known True message.(PeerInfo.resolutions) /\
  from_option WindowsSessionsValue.known True message.(PeerInfo.windows_sessions).
Record partial := { username : maybe string; hostname : maybe string; platform : maybe string;
  displays : maybe (list DisplayInfoValue.partial); current_display : maybe Z;
  sas_enabled : maybe bool; version : maybe string; features : maybe FeaturesValue.partial;
  encoding : maybe SupportedEncodingValue.partial;
  resolutions : maybe SupportedResolutionsValue.partial; platform_additions : maybe string;
  windows_sessions : maybe WindowsSessionsValue.partial }.
Definition nothing : partial := {| username := None; hostname := None; platform := None; displays := None; current_display := None;
  sas_enabled := None; version := None; features := None; encoding := None; resolutions := None;
  platform_additions := None; windows_sessions := None |}.
Definition fromPartial (object : partial) : PeerInfo.t := {|
  PeerInfo.username := default "" object.(username);
  PeerInfo.hostname := default "" object.(hostname);
  PeerInfo.platform := default "" object.(platform);
  PeerInfo.displays := default [] (map DisplayInfoValue.fromPartial <$> object.(displays));
  PeerInfo.current_display := default 0%Z object.(current_display);
  PeerInfo.sas_enabled := default false object.(sas_enabled);
  PeerInfo.version := default "" object.(version);
  PeerInfo.features := FeaturesValue.fromPartial <$> object.(features);
  PeerInfo.encoding := SupportedEncodingValue.fromPartial <$> object.(encoding);
  PeerInfo.resolutions := SupportedResolutionsValue.fromPartial <$> object.(resolutions);
  PeerInfo.platform_additions := default "" object.(platform_additions);
  PeerInfo.windows_sessions := WindowsSessionsValue.fromPartial <$> object.(windows_sessions) |}.
Definition whole (message : PeerInfo.t) : partial :=
  let 'PeerInfo.mk username hostname platform displays current_display sas_enabled version features
    encoding resolutions platform_additions windows_sessions := message in
  {| username := Some username; hostname := Some hostname; platform := Some platform;
    displays := Some (map DisplayInfoValue.whole displays); current_display := Some current_display;
    sas_enabled := Some sas_enabled; version := Some version;
    features := FeaturesValue.whole <$> features;
    encoding := SupportedEncodingValue.whole <$> encoding;
    resolutions := SupportedResolutionsValue.whole <$> resolutions;
    platform_additions := Some platform_additions;
    windows_sessions := WindowsSessionsValue.whole <$> windows_sessions |}.
Definition create (base : maybe partial) : PeerInfo.t := fromPartial (default nothing base).
Lemma PeerInfo_conv_ok `{FloatJsonLaws} : kind_ok conv known.
Proof. solve_conv fromJSON toJSON conv known. Qed.
Lemma PeerInfo_whole m : fromPartial (whole m) = m.
Proof. solve_whole fromPartial whole m. Qed.
End PeerInfoValue.
#[export] Hint Resolve PeerInfoValue.PeerInfo_conv_ok : kind_ok.
#[export] Hint Resolve PeerInfoValue.PeerInfo_whole : whole.

(** ** [LoginResponse] (message.ts, lines 3802-3837) *)
Module LoginResponseValue.
Definition fields `{FloatJson} (message : LoginResponse.t) : list (string * option json) :=
  let 'LoginResponse.mk error peer_info enable_trusted_devices := message in
  [("error", to_json json_string <$> error);
   ("peer_info", to_json PeerInfoValue.conv <$> peer_info);
   ("enable_trusted_devices", omit_if (negb enable_trusted_devices) (to_json json_bool enable_trusted_devices))].
Definition toJSON `{FloatJson} (message : LoginResponse.t) : json := JObj (present (fields message)).
Definition fromJSON `{FloatJson} (object : json) : outcome LoginResponse.t :=
  error ← read_opt json_string "error" object;
  peer_info ← read_opt PeerInfoValue.conv "peer_info" object;
  enable_trusted_devices ← read json_bool "enable_trusted_devices" false object;
  mret (LoginResponse.mk error peer_info enable_trusted_devices).
Definition conv `{FloatJson} : kind LoginResponse.t := {| to_json := toJSON; of_json := fromJSON |}.
(** Every enum number has a name. *)
Definition known (message : LoginResponse.t) : Prop :=
  from_option PeerInfoValue.known True message.(LoginResponse.peer_info).
Record partial := { error : maybe string; peer_info : maybe PeerInfoValue.partial;
  enable_trusted_devices : maybe bool }.
Definition nothing : partial := {| error := None; peer_info := None; enable_trusted_devices := None |}.
Definition fromPartial (object : partial) : LoginResponse.t := {|
  LoginResponse.error := object.(error);
  LoginResponse.peer_info := PeerInfoValue.fromPartial <$> object.(peer_info);
  LoginResponse.enable_trusted_devices := default false object.(enable_trusted_devices) |}.
Definition whole (message : LoginResponse.t) : partial :=
  let 'LoginResponse.mk error peer_info enable_trusted_devices := message in
  {| error := error; peer_info := PeerInfoValue.whole <$> peer_info;
    enable_trusted_devices := Some enable_trusted_devices |}.
Definition create (base : maybe partial) : LoginResponse.t := fromPartial (default nothing base).
Lemma LoginResponse_conv_ok `{FloatJsonLaws} : kind_ok conv known.
Proof. solve_conv fromJSON toJSON conv known. Qed.
Lemma LoginResponse_whole m : fromPartial (whole m) = m.
Proof. solve_whole fromPartial whole m. Qed.
End LoginResponseValue.
#[export] Hint Resolve LoginResponseValue.LoginResponse_conv_ok : kind_ok.
#[export] Hint Resolve LoginResponseValue.LoginResponse_whole : whole.

(** ** [Hash] (message.ts, lines 4895-4921) *)
Module HashValue.
Definition fields `{FloatJson} (message : Hash.t) : list (string * option json) :=
  let 'Hash.mk salt challenge := message in
  [("salt", omit_if (salt =? "") (to_json json_string salt));
   ("challenge", omit_if (challenge =? "") (to_json json_string challenge))].
Definition toJSON `{FloatJson} (message : Hash.t) : json := JObj (present (fields message)).
Definition fromJSON `{FloatJson} (object : json) : outcome Hash.t :=
  salt ← read json_string "salt" "" object;
  challenge ← read json_string "challenge" "" object;
  mret (Hash.mk salt challenge).
Definition conv `{FloatJson} : kind Hash.t := {| to_json := toJSON; of_json := fromJSON |}.
Definition known (message : Hash.t) : Prop :=
  True.
Record partial := { salt : maybe string; challenge : maybe string }.
Definition nothing : partial := {| salt := None; challenge := None |}.
Definition fromPartial (object : partial) : Hash.t := {|
  Hash.salt := default "" object.(salt);
  Hash.challenge := default "" object.(challenge) |}.
Definition whole (message : Hash.t) : partial :=
  let 'Hash.mk salt challenge := message in
  {| salt := Some salt; challenge := Some challenge |}.
Definition create (base : maybe partial) : Hash.t := fromPartial (default nothing base).
Lemma Hash_conv_ok `{FloatJsonLaws} : kind_ok conv known.
Proof. solve_conv fromJSON toJSON conv known. Qed.
Lemma Hash_whole m : fromPartial (whole m) = m.
Proof. solve_whole fromPartial whole m. Qed.
End HashValue.
#[export] Hint Resolve HashValue.Hash_conv_ok : kind_ok.
#[export] Hint Resolve HashValue.Hash_whole : whole.

(** ** [TestDelay] (message.ts, lines 9321-9357) *)
Module TestDelayValue.
Definition fields `{FloatJson} (message : TestDelay.t) : list (string * option json) :=
  let 'TestDelay.mk time from_client last_delay target_bitrate := message in
  [("time", omit_if (time =? 0)%Z (to_json json_number time));
   ("from_client", omit_if (negb from_client) (to_json json_bool from_client));
   ("last_delay", omit_if (last_delay =? 0)%Z (to_json json_number last_delay));
   ("target_bitrate", omit_if (target_bitrate =? 0)%Z (to_json json_number target_bitrate))].
Definition toJSON `{FloatJson} (message : TestDelay.t) : json := JObj (present (fields message)).
Definition fromJSON `{FloatJson} (object : json) : outcome TestDelay.t :=
  time ← read json_number "time" 0%Z object;
  from_client ← read json_bool "from_client" false object;
  last_delay ← read json_number "last_delay" 0%Z object;
  target_bitrate ← read json_number "target_bitrate" 0%Z object;
  mret (TestDelay.mk time from_client last_delay target_bitrate).
Definition conv `{FloatJson} : kind TestDelay.t := {| to_json := toJSON; of_json := fromJSON |}.
Definition known (message : TestDelay.t) : Prop :=
  True.
Record partial := { time : maybe Z; from_client : maybe bool; last_delay : maybe Z; target_bitrate : maybe Z }.
Definition nothing : partial := {| time := None; from_client := None; last_delay := None; target_bitrate := None |}.
Definition fromPartial (object : partial) : TestDelay.t := {|
  TestDelay.time := default 0%Z object.(time);
  TestDelay.from_client := default false object.(from_client);
  TestDelay.last_delay := default 0%Z object.(last_delay);
  TestDelay.target_bitrate := default 0%Z object.(target_bitrate) |}.
Definition whole (message : TestDelay.t) : partial :=
  let 'TestDelay.mk time from_client last_delay target_bitrate := message in
  {| time := Some time; from_client := Some from_client; last_delay := Some last_delay;
    target_bitrate := Some target_bitrate |}.
Definition create (base : maybe partial) : TestDelay.t := fromPartial (default nothing base).
Lemma TestDelay_conv_ok `{FloatJsonLaws} : kind_ok conv known.
Proof. solve_conv fromJSON toJSON conv known. Qed.
Lemma TestDelay_whole m : fromPartial (whole m) = m.
Proof. solve_whole fromPartial whole m. Qed.
End TestDelayValue.
#[export] Hint Resolve TestDelayValue.TestDelay_conv_ok : kind_ok.
#[export] Hint Resolve TestDelayValue.TestDelay_whole : whole.

(** ** [PublicKey] (message.ts, lines 9405-9431) *)
Module PublicKeyValue.
Definition fields `{FloatJson} (message : PublicKey.t) : list (string * option json) :=
  let 'PublicKey.mk asymmetric_value symmetric_value := message in
  [("asymmetric_value", omit_if (len asymmetric_value =? 0)%Z (to_json json_bytes asymmetric_value));
   ("symmetric_value", omit_if (len symmetric_value =? 0)%Z (to_json json_bytes symmetric_value))].
Definition toJSON `{FloatJson} (message : PublicKey.t) : json := JObj (present (fields message)).
Definition fromJSON `{FloatJson} (object : json) : outcome PublicKey.t :=
  asymmetric_value ← read json_bytes "asymmetric_value" [] object;
  symmetric_value ← read json_bytes "symmetric_value" [] object;
  mret (PublicKey.mk asymmetric_value symmetric_value).
Definition conv `{FloatJson} : kind PublicKey.t := {| to_json := toJSON; of_json := fromJSON |}.
Definition known (message : PublicKey.t) : Prop :=
  True.
Record partial := { asymmetric_value : maybe bytes; symmetric_value : maybe bytes }.
Definition nothing : partial := {| asymmetric_value := None; symmetric_value := None |}.
Definition fromPartial (object : partial) : PublicKey.t := {|
  PublicKey.asymmetric_value := default [] object.(asymmetric_value);
  PublicKey.symmetric_value := default [] object.(symmetric_value) |}.
Definition whole (message : PublicKey.t) : partial :=
  let 'PublicKey.mk asymmetric_value symmetric_value := message in
  {| asymmetric_value := Some asymmetric_value; symmetric_value := Some symmetric_value |}.
Definition create (base : maybe partial) : PublicKey.t := fromPartial (default nothing base).
Lemma PublicKey_conv_ok `{FloatJsonLaws} : kind_ok conv known.
Proof. solve_conv fromJSON toJSON conv known. Qed.
Lemma PublicKey_whole m : fromPartial (whole m) = m.
Proof. solve_whole fromPartial whole m. Qed.
End PublicKeyValue.
#[export] Hint Resolve PublicKeyValue.PublicKey_conv_ok : kind_ok.
#[export] Hint Resolve PublicKeyValue.PublicKey_whole : whole.

(** ** [SignedId] (message.ts, lines 9469-9488) *)
Module SignedIdValue.
Definition fields `{FloatJson} (message : SignedId.t) : list (string * option json) :=
  let 'SignedId.mk id := message in
  [("id", omit_if (len id =? 0)%Z (to_json json_bytes id))].
Definition toJSON `{FloatJson} (message : SignedId.t) : json := JObj (present (fields message)).
Definition fromJSON `{FloatJson} (object : json) : outcome SignedId.t :=
  id ← read json_bytes "id" [] object;
  mret (SignedId.mk id).
Definition conv `{FloatJson} : kind SignedId.t := {| to_json := toJSON; of_json := fromJSON |}.
Definition known (message : SignedId.t) : Prop :=
  True.
Record partial := { id : maybe bytes }.
Definition nothing : partial := {| id := None |}.
Definition fromPartial (object : partial) : SignedId.t := {|
  SignedId.id := default [] object.(id) |}.
Definition whole (message : SignedId.t) : partial :=
  let 'SignedId.mk id := message in
  {| id := Some id |}.
Definition create (base : maybe partial) : SignedId.t := fromPartial (default nothing base).
Lemma SignedId_conv_ok `{FloatJsonLaws} : kind_ok conv known.
Proof. solve_conv fromJSON toJSON conv known. Qed.
Lemma SignedId_whole m : fromPartial (whole m) = m.
Proof. solve_whole fromPartial whole m. Qed.
End SignedIdValue.
#[export] Hint Resolve SignedIdValue.SignedId_conv_ok : kind_ok.
#[export] Hint Resolve SignedIdValue.SignedId_whole : whole.
