(* ===== verification/ProtoMessageValues.v ===== *)
(** * Generated conversions: session control, clipboard redirection and the top-level [Message]

    [proto/message.ts], one module per message type: [toJSON], [fromJSON], [fromPartial] and
    [create].  [partial] is the object [fromPartial] takes, where a member that is absent,
    [undefined] or [null] is [None].  Reading undoes writing ([conv_ok]), and a partial object that
    has everything is copied ([whole]). *)
From Stdlib Require Import Floats.SpecFloat.
From S2P Require Import Prelude Json ProtoWire ProtoEnums ProtoJson ProtoFile ProtoMedia ProtoSession ProtoMessage ProtoFileValues ProtoMediaValues ProtoSessionValues.
Local Open Scope string_scope.

(** ** [ChatMessage] (message.ts, lines 3107-3126) *)
Module ChatMessageValue.
Definition fields `{FloatJson} (message : ChatMessage.t) : list (string * option json) :=
  let 'ChatMessage.mk text := message in
  [("text", omit_if (text =? "") (to_json json_string text))].
Definition toJSON `{FloatJson} (message : ChatMessage.t) : json := JObj (present (fields message)).
Definition fromJSON `{FloatJson} (object : json) : outcome ChatMessage.t :=
  text ← read json_string "text" "" object;
  mret (ChatMessage.mk text).
Definition conv `{FloatJson} : kind ChatMessage.t := {| to_json := toJSON; of_json := fromJSON |}.
Definition known (message : ChatMessage.t) : Prop :=
  True.
Record partial := { text : maybe string }.
Definition nothing : partial := {| text := None |}.
Definition fromPartial (object : partial) : ChatMessage.t := {|
  ChatMessage.text := default "" object.(text) |}.
Definition whole (message : ChatMessage.t) : partial :=
  let 'ChatMessage.mk text := message in
  {| text := Some text |}.
Definition create (base : maybe partial) : ChatMessage.t := fromPartial (default nothing base).
Lemma ChatMessage_conv_ok `{FloatJsonLaws} : kind_ok conv known.
Proof. solve_conv fromJSON toJSON conv known. Qed.
Lemma ChatMessage_whole m : fromPartial (whole m) = m.
Proof. solve_whole fromPartial whole m. Qed.
End ChatMessageValue.
#[export] Hint Resolve ChatMessageValue.ChatMessage_conv_ok : kind_ok.
#[export] Hint Resolve ChatMessageValue.ChatMessage_whole : whole.

(** ** [CliprdrMonitorReady] (message.ts, lines 7204-7219) *)
Module CliprdrMonitorReadyValue.
Definition fields `{FloatJson} (message : CliprdrMonitorReady.t) : list (string * option json) :=
  [].
Definition toJSON `{FloatJson} (message : CliprdrMonitorReady.t) : json := JObj (present (fields message)).
Definition fromJSON `{FloatJson} (object : json) : outcome CliprdrMonitorReady.t :=
  mret CliprdrMonitorReady.mk.
Definition conv `{FloatJson} : kind CliprdrMonitorReady.t := {| to_json := toJSON; of_json := fromJSON |}.
Definition known (message : CliprdrMonitorReady.t) : Prop :=
  True.
Record partial := { }.
Definition nothing : partial := Build_partial.
Definition fromPartial (object : partial) : CliprdrMonitorReady.t := CliprdrMonitorReady.mk.
Definition whole (message : CliprdrMonitorReady.t) : partial := nothing.
Definition create (base : maybe partial) : CliprdrMonitorReady.t := fromPartial (default nothing base).
Lemma CliprdrMonitorReady_conv_ok `{FloatJsonLaws} : kind_ok conv known.
Proof. solve_conv fromJSON toJSON conv known. Qed.
Lemma CliprdrMonitorReady_whole m : fromPartial (whole m) = m.
Proof. solve_whole fromPartial whole m. Qed.
End CliprdrMonitorReadyValue.
#[export] Hint Resolve CliprdrMonitorReadyValue.CliprdrMonitorReady_conv_ok : kind_ok.
#[export] Hint Resolve CliprdrMonitorReadyValue.CliprdrMonitorReady_whole : whole.

(** ** [CliprdrFormat] (message.ts, lines 7267-7293) *)
Module CliprdrFormatValue.
Definition fields `{FloatJson} (message : CliprdrFormat.t) : list (string * option json) :=
  let 'CliprdrFormat.mk id format := message in
  [("id", omit_if (id =? 0)%Z (to_json json_number id));
   ("format", omit_if (format =? "") (to_json json_string format))].
Definition toJSON `{FloatJson} (message : CliprdrFormat.t) : json := JObj (present (fields message)).
Definition fromJSON `{FloatJson} (object : json) : outcome CliprdrFormat.t :=
  id ← read json_number "id" 0%Z object;
  format ← read json_string "format" "" object;
  mret (CliprdrFormat.mk id format).
Definition conv `{FloatJson} : kind CliprdrFormat.t := {| to_json := toJSON; of_json := fromJSON |}.
Definition known (message : CliprdrFormat.t) : Prop :=
  True.
Record partial := { id : maybe Z; format : maybe string }.
Definition nothing : partial := {| id := None; format := None |}.
Definition fromPartial (object : partial) : CliprdrFormat.t := {|
  CliprdrFormat.id := default 0%Z object.(id);
  CliprdrFormat.format := default "" object.(format) |}.
Definition whole (message : CliprdrFormat.t) : partial :=
  let 'CliprdrFormat.mk id format := message in
  {| id := Some id; format := Some format |}.
Definition create (base : maybe partial) : CliprdrFormat.t := fromPartial (default nothing base).
Lemma CliprdrFormat_conv_ok `{FloatJsonLaws} : kind_ok conv known.
Proof. solve_conv fromJSON toJSON conv known. Qed.
Lemma CliprdrFormat_whole m : fromPartial (whole m) = m.
Proof. solve_whole fromPartial whole m. Qed.
End CliprdrFormatValue.
#[export] Hint Resolve CliprdrFormatValue.CliprdrFormat_conv_ok : kind_ok.
#[export] Hint Resolve CliprdrFormatValue.CliprdrFormat_whole : whole.

(** ** [CliprdrServerFormatList] (message.ts, lines 7331-7354) *)
Module CliprdrServerFormatListValue.
Definition fields `{FloatJson} (message : CliprdrServerFormatList.t) : list (string * option json) :=
  let 'CliprdrServerFormatList.mk formats := message in
  [("formats", many CliprdrFormatValue.conv formats)].
Definition toJSON `{FloatJson} (message : CliprdrServerFormatList.t) : json := JObj (present (fields message)).
Definition fromJSON `{FloatJson} (object : json) : outcome CliprdrServerFormatList.t :=
  formats ← read_list CliprdrFormatValue.conv "formats" object;
  mret (CliprdrServerFormatList.mk formats).
Definition conv `{FloatJson} : kind CliprdrServerFormatList.t := {| to_json := toJSON; of_json := fromJSON |}.
(** Every enum number has a name. *)
Definition known (message : CliprdrServerFormatList.t) : Prop :=
  Forall CliprdrFormatValue.known message.(CliprdrServerFormatList.formats).
Record partial := { formats : maybe (list CliprdrFormatValue.partial) }.
Definition nothing : partial := {| formats := None |}.
Definition fromPartial (object : partial) : CliprdrServerFormatList.t := {|
  CliprdrServerFormatList.formats := default [] (map CliprdrFormatValue.fromPartial <$> object.(formats)) |}.
Definition whole (message : CliprdrServerFormatList.t) : partial :=
  let 'CliprdrServerFormatList.mk formats := message in
  {| formats := Some (map CliprdrFormatValue.whole formats) |}.
Definition create (base : maybe partial) : CliprdrServerFormatList.t := fromPartial (default nothing base).
Lemma CliprdrServerFormatList_conv_ok `{FloatJsonLaws} : kind_ok conv known.
Proof. solve_conv fromJSON toJSON conv known. Qed.
Lemma CliprdrServerFormatList_whole m : fromPartial (whole m) = m.
Proof. solve_whole fromPartial whole m. Qed.
End CliprdrServerFormatListValue.
#[export] Hint Resolve CliprdrServerFormatListValue.CliprdrServerFormatList_conv_ok : kind_ok.
#[export] Hint Resolve CliprdrServerFormatListValue.CliprdrServerFormatList_whole : whole.

(** ** [CliprdrServerFormatListResponse] (message.ts, lines 7392-7413) *)
Module CliprdrServerFormatListResponseValue.
Definition fields `{FloatJson} (message : CliprdrServerFormatListResponse.t) : list (string * option json) :=
  let 'CliprdrServerFormatListResponse.mk msg_flags := message in
  [("msg_flags", omit_if (msg_flags =? 0)%Z (to_json json_number msg_flags))].
Definition toJSON `{FloatJson} (message : CliprdrServerFormatListResponse.t) : json := JObj (present (fields message)).
Definition fromJSON `{FloatJson} (object : json) : outcome CliprdrServerFormatListResponse.t :=
  msg_flags ← read json_number "msg_flags" 0%Z object;
  mret (CliprdrServerFormatListResponse.mk msg_flags).
Definition conv `{FloatJson} : kind CliprdrServerFormatListResponse.t := {| to_json := toJSON; of_json := fromJSON |}.
Definition known (message : CliprdrServerFormatListResponse.t) : Prop :=
  True.
Record partial := { msg_flags : maybe Z }.
Definition nothing : partial := {| msg_flags := None |}.
Definition fromPartial (object : partial) : CliprdrServerFormatListResponse.t := {|
  CliprdrServerFormatListResponse.msg_flags := default 0%Z object.(msg_flags) |}.
Definition whole (message : CliprdrServerFormatListResponse.t) : partial :=
  let 'CliprdrServerFormatListResponse.mk msg_flags := message in
  {| msg_flags := Some msg_flags |}.
Definition create (base : maybe partial) : CliprdrServerFormatListResponse.t := fromPartial (default nothing base).
Lemma CliprdrServerFormatListResponse_conv_ok `{FloatJsonLaws} : kind_ok conv known.
Proof. solve_conv fromJSON toJSON conv known. Qed.
Lemma CliprdrServerFormatListResponse_whole m : fromPartial (whole m) = m.
Proof. solve_whole fromPartial whole m. Qed.
End CliprdrServerFormatListResponseValue.
#[export] Hint Resolve CliprdrServerFormatListResponseValue.CliprdrServerFormatListResponse_conv_ok : kind_ok.
#[export] Hint Resolve CliprdrServerFormatListResponseValue.CliprdrServerFormatListResponse_whole : whole.

(** ** [CliprdrServerFormatDataRequest] (message.ts, lines 7451-7474) *)
Module CliprdrServerFormatDataRequestValue.
Definition fields `{FloatJson} (message : CliprdrServerFormatDataRequest.t) : list (string * option json) :=
  let 'CliprdrServerFormatDataRequest.mk requested_format_id := message in
  [("requested_format_id", omit_if (requested_format_id =? 0)%Z (to_json json_number requested_format_id))].
Definition toJSON `{FloatJson} (message : CliprdrServerFormatDataRequest.t) : json := JObj (present (fields message)).
Definition fromJSON `{FloatJson} (object : json) : outcome CliprdrServerFormatDataRequest.t :=
  requested_format_id ← read json_number "requested_format_id" 0%Z object;
  mret (CliprdrServerFormatDataRequest.mk requested_format_id).
Definition conv `{FloatJson} : kind CliprdrServerFormatDataRequest.t := {| to_json := toJSON; of_json := fromJSON |}.
Definition known (message : CliprdrServerFormatDataRequest.t) : Prop :=
  True.
Record partial := { requested_format_id : maybe Z }.
Definition nothing : partial := {| requested_format_id := None |}.
Definition fromPartial (object : partial) : CliprdrServerFormatDataRequest.t := {|
  CliprdrServerFormatDataRequest.requested_format_id := default 0%Z object.(requested_format_id) |}.
Definition whole (message : CliprdrServerFormatDataRequest.t) : partial :=
  let 'CliprdrServerFormatDataRequest.mk requested_format_id := message in
  {| requested_format_id := Some requested_format_id |}.
Definition create (base : maybe partial) : CliprdrServerFormatDataRequest.t := fromPartial (default nothing base).
Lemma CliprdrServerFormatDataRequest_conv_ok `{FloatJsonLaws} : kind_ok conv known.
Proof. solve_conv fromJSON toJSON conv known. Qed.
Lemma CliprdrServerFormatDataRequest_whole m : fromPartial (whole m) = m.
Proof. solve_whole fromPartial whole m. Qed.
End CliprdrServerFormatDataRequestValue.
#[export] Hint Resolve CliprdrServerFormatDataRequestValue.CliprdrServerFormatDataRequest_conv_ok : kind_ok.
#[export] Hint Resolve CliprdrServerFormatDataRequestValue.CliprdrServerFormatDataRequest_whole : whole.

(** ** [CliprdrServerFormatDataResponse] (message.ts, lines 7522-7550) *)
Module CliprdrServerFormatDataResponseValue.
Definition fields `{FloatJson} (message : CliprdrServerFormatDataResponse.t) : list (string * option json) :=
  let 'CliprdrServerFormatDataResponse.mk msg_flags format_data := message in
  [("msg_flags", omit_if (msg_flags =? 0)%Z (to_json json_number msg_flags));
   ("format_data", omit_if (len format_data =? 0)%Z (to_json json_bytes format_data))].
Definition toJSON `{FloatJson} (message : CliprdrServerFormatDataResponse.t) : json := JObj (present (fields message)).
Definition fromJSON `{FloatJson} (object : json) : outcome CliprdrServerFormatDataResponse.t :=
  msg_flags ← read json_number "msg_flags" 0%Z object;
  format_data ← read json_bytes "format_data" [] object;
  mret (CliprdrServerFormatDataResponse.mk msg_flags format_data).
Definition conv `{FloatJson} : kind CliprdrServerFormatDataResponse.t := {| to_json := toJSON; of_json := fromJSON |}.
Definition known (message : CliprdrServerFormatDataResponse.t) : Prop :=
  True.
Record partial := { msg_flags : maybe Z; format_data : maybe bytes }.
Definition nothing : partial := {| msg_flags := None; format_data := None |}.
Definition fromPartial (object : partial) : CliprdrServerFormatDataResponse.t := {|
  CliprdrServerFormatDataResponse.msg_flags := default 0%Z object.(msg_flags);
  CliprdrServerFormatDataResponse.format_data := default [] object.(format_data) |}.
Definition whole (message : CliprdrServerFormatDataResponse.t) : partial :=
  let 'CliprdrServerFormatDataResponse.mk msg_flags format_data := message in
  {| msg_flags := Some msg_flags; format_data := Some format_data |}.
Definition create (base : maybe partial) : CliprdrServerFormatDataResponse.t := fromPartial (default nothing base).
Lemma CliprdrServerFormatDataResponse_conv_ok `{FloatJsonLaws} : kind_ok conv known.
Proof. solve_conv fromJSON toJSON conv known. Qed.
Lemma CliprdrServerFormatDataResponse_whole m : fromPartial (whole m) = m.
Proof. solve_whole fromPartial whole m. Qed.
End CliprdrServerFormatDataResponseValue.
#[export] Hint Resolve CliprdrServerFormatDataResponseValue.CliprdrServerFormatDataResponse_conv_ok : kind_ok.
#[export] Hint Resolve CliprdrServerFormatDataResponseValue.CliprdrServerFormatDataResponse_whole : whole.

(** ** [CliprdrFileContentsRequest] (message.ts, lines 7667-7723) *)
Module CliprdrFileContentsRequestValue.
Definition fields `{FloatJson} (message : CliprdrFileContentsRequest.t) : list (string * option json) :=
  let 'CliprdrFileContentsRequest.mk stream_id list_index dw_flags n_position_low n_position_high
    cb_requested have_clip_data_id clip_data_id := message in
  [("stream_id", omit_if (stream_id =? 0)%Z (to_json json_number stream_id));
   ("list_index", omit_if (list_index =? 0)%Z (to_json json_number list_index));
   ("dw_flags", omit_if (dw_flags =? 0)%Z (to_json json_number dw_flags));
   ("n_position_low", omit_if (n_position_low =? 0)%Z (to_json json_number n_position_low));
   ("n_position_high", omit_if (n_position_high =? 0)%Z (to_json json_number n_position_high));
   ("cb_requested", omit_if (cb_requested =? 0)%Z (to_json json_number cb_requested));
   ("have_clip_data_id", omit_if (negb have_clip_data_id) (to_json json_bool have_clip_data_id));
   ("clip_data_id", omit_if (clip_data_id =? 0)%Z (to_json json_number clip_data_id))].
Definition toJSON `{FloatJson} (message : CliprdrFileContentsRequest.t) : json := JObj (present (fields message)).
Definition fromJSON `{FloatJson} (object : json) : outcome CliprdrFileContentsRequest.t :=
  stream_id ← read json_number "stream_id" 0%Z object;
  list_index ← read json_number "list_index" 0%Z object;
  dw_flags ← read json_number "dw_flags" 0%Z object;
  n_position_low ← read json_number "n_position_low" 0%Z object;
  n_position_high ← read json_number "n_position_high" 0%Z object;
  cb_requested ← read json_number "cb_requested" 0%Z object;
  have_clip_data_id ← read json_bool "have_clip_data_id" false object;
  clip_data_id ← read json_number "clip_data_id" 0%Z object;
  mret (CliprdrFileContentsRequest.mk stream_id list_index dw_flags n_position_low n_position_high cb_requested have_clip_data_id clip_data_id).
Definition conv `{FloatJson} : kind CliprdrFileContentsRequest.t := {| to_json := toJSON; of_json := fromJSON |}.
Definition known (message : CliprdrFileContentsRequest.t) : Prop :=
  True.
Record partial := { stream_id : maybe Z; list_index : maybe Z; dw_flags : maybe Z; n_position_low : maybe Z;
  n_position_high : maybe Z; cb_requested : maybe Z; have_clip_data_id : maybe bool;
  clip_data_id : maybe Z }.
Definition nothing : partial := {| stream_id := None; list_index := None; dw_flags := None; n_position_low := None;
  n_position_high := None; cb_requested := None; have_clip_data_id := None;
  clip_data_id := None |}.
Definition fromPartial (object : partial) : CliprdrFileContentsRequest.t := {|
  CliprdrFileContentsRequest.stream_id := default 0%Z object.(stream_id);
  CliprdrFileContentsRequest.list_index := default 0%Z object.(list_index);
  CliprdrFileContentsRequest.dw_flags := default 0%Z object.(dw_flags);
  CliprdrFileContentsRequest.n_position_low := default 0%Z object.(n_position_low);
  CliprdrFileContentsRequest.n_position_high := default 0%Z object.(n_position_high);
  CliprdrFileContentsRequest.cb_requested := default 0%Z object.(cb_requested);
  CliprdrFileContentsRequest.have_clip_data_id := default false object.(have_clip_data_id);
  CliprdrFileContentsRequest.clip_data_id := default 0%Z object.(clip_data_id) |}.
Definition whole (message : CliprdrFileContentsRequest.t) : partial :=
  let 'CliprdrFileContentsRequest.mk stream_id list_index dw_flags n_position_low n_position_high
    cb_requested have_clip_data_id clip_data_id := message in
  {| stream_id := Some stream_id; list_index := Some list_index; dw_flags := Some dw_flags;
    n_position_low := Some n_position_low; n_position_high := Some n_position_high;
    cb_requested := Some cb_requested; have_clip_data_id := Some have_clip_data_id;
    clip_data_id := Some clip_data_id |}.
Definition create (base : maybe partial) : CliprdrFileContentsRequest.t := fromPartial (default nothing base).
Lemma CliprdrFileContentsRequest_conv_ok `{FloatJsonLaws} : kind_ok conv known.
Proof. solve_conv fromJSON toJSON conv known. Qed.
Lemma CliprdrFileContentsRequest_whole m : fromPartial (whole m) = m.
Proof. solve_whole fromPartial whole m. Qed.
End CliprdrFileContentsRequestValue.
#[export] Hint Resolve CliprdrFileContentsRequestValue.CliprdrFileContentsRequest_conv_ok : kind_ok.
#[export] Hint Resolve CliprdrFileContentsRequestValue.CliprdrFileContentsRequest_whole : whole.

(** ** [CliprdrFileContentsResponse] (message.ts, lines 7781-7812) *)
Module CliprdrFileContentsResponseValue.
Definition fields `{FloatJson} (message : CliprdrFileContentsResponse.t) : list (string * option json) :=
  let 'CliprdrFileContentsResponse.mk msg_flags stream_id requested_data := message in
  [("msg_flags", omit_if (msg_flags =? 0)%Z (to_json json_number msg_flags));
   ("stream_id", omit_if (stream_id =? 0)%Z (to_json json_number stream_id));
   ("requested_data", omit_if (len requested_data =? 0)%Z (to_json json_bytes requested_data))].
Definition toJSON `{FloatJson} (message : CliprdrFileContentsResponse.t) : json := JObj (present (fields message)).
Definition fromJSON `{FloatJson} (object : json) : outcome CliprdrFileContentsResponse.t :=
  msg_flags ← read json_number "msg_flags" 0%Z object;
  stream_id ← read json_number "stream_id" 0%Z object;
  requested_data ← read json_bytes "requested_data" [] object;
  mret (CliprdrFileContentsResponse.mk msg_flags stream_id requested_data).
Definition conv `{FloatJson} : kind CliprdrFileContentsResponse.t := {| to_json := toJSON; of_json := fromJSON |}.
Definition known (message : CliprdrFileContentsResponse.t) : Prop :=
  True.
Record partial := { msg_flags : maybe Z; stream_id : maybe Z; requested_data : maybe bytes }.
Definition nothing : partial := {| msg_flags := None; stream_id := None; requested_data := None |}.
Definition fromPartial (object : partial) : CliprdrFileContentsResponse.t := {|
  CliprdrFileContentsResponse.msg_flags := default 0%Z object.(msg_flags);
  CliprdrFileContentsResponse.stream_id := default 0%Z object.(stream_id);
  CliprdrFileContentsResponse.requested_data := default [] object.(requested_data) |}.
Definition whole (message : CliprdrFileContentsResponse.t) : partial :=
  let 'CliprdrFileContentsResponse.mk msg_flags stream_id requested_data := message in
  {| msg_flags := Some msg_flags; stream_id := Some stream_id;
    requested_data := Some requested_data |}.
Definition create (base : maybe partial) : CliprdrFileContentsResponse.t := fromPartial (default nothing base).
Lemma CliprdrFileContentsResponse_conv_ok `{FloatJsonLaws} : kind_ok conv known.
Proof. solve_conv fromJSON toJSON conv known. Qed.
Lemma CliprdrFileContentsResponse_whole m : fromPartial (whole m) = m.
Proof. solve_whole fromPartial whole m. Qed.
End CliprdrFileContentsResponseValue.
#[export] Hint Resolve CliprdrFileContentsResponseValue.CliprdrFileContentsResponse_conv_ok : kind_ok.
#[export] Hint Resolve CliprdrFileContentsResponseValue.CliprdrFileContentsResponse_whole : whole.

(** ** [CliprdrTryEmpty] (message.ts, lines 7840-7855) *)
Module CliprdrTryEmptyValue.
Definition fields `{FloatJson} (message : CliprdrTryEmpty.t) : list (string * option json) :=
  [].
Definition toJSON `{FloatJson} (message : CliprdrTryEmpty.t) : json := JObj (present (fields message)).
Definition fromJSON `{FloatJson} (object : json) : outcome CliprdrTryEmpty.t :=
  mret CliprdrTryEmpty.mk.
Definition conv `{FloatJson} : kind CliprdrTryEmpty.t := {| to_json := toJSON; of_json := fromJSON |}.
Definition known (message : CliprdrTryEmpty.t) : Prop :=
  True.
Record partial := { }.
Definition nothing : partial := Build_partial.
Definition fromPartial (object : partial) : CliprdrTryEmpty.t := CliprdrTryEmpty.mk.
Definition whole (message : CliprdrTryEmpty.t) : partial := nothing.
Definition create (base : maybe partial) : CliprdrTryEmpty.t := fromPartial (default nothing base).
Lemma CliprdrTryEmpty_conv_ok `{FloatJsonLaws} : kind_ok conv known.
Proof. solve_conv fromJSON toJSON conv known. Qed.
Lemma CliprdrTryEmpty_whole m : fromPartial (whole m) = m.
Proof. solve_whole fromPartial whole m. Qed.
End CliprdrTryEmptyValue.
#[export] Hint Resolve CliprdrTryEmptyValue.CliprdrTryEmpty_conv_ok : kind_ok.
#[export] Hint Resolve CliprdrTryEmptyValue.CliprdrTryEmpty_whole : whole.

(** ** [Cliprdr] (message.ts, lines 7972-8056) *)
Module CliprdrValue.
Definition fields `{FloatJson} (message : Cliprdr.t) : list (string * option json) :=
  let 'Cliprdr.mk ready format_list format_list_response format_data_request format_data_response
    file_contents_request file_contents_response try_empty := message in
  [("ready", to_json CliprdrMonitorReadyValue.conv <$> ready);
   ("format_list", to_json CliprdrServerFormatListValue.conv <$> format_list);
   ("format_list_response", to_json CliprdrServerFormatListResponseValue.conv <$> format_list_response);
   ("format_data_request", to_json CliprdrServerFormatDataRequestValue.conv <$> format_data_request);
   ("format_data_response", to_json CliprdrServerFormatDataResponseValue.conv <$> format_data_response);
   ("file_contents_request", to_json CliprdrFileContentsRequestValue.conv <$> file_contents_request);
   ("file_contents_response", to_json CliprdrFileContentsResponseValue.conv <$> file_contents_response);
   ("try_empty", to_json CliprdrTryEmptyValue.conv <$> try_empty)].
Definition toJSON `{FloatJson} (message : Cliprdr.t) : json := JObj (present (fields message)).
Definition fromJSON `{FloatJson} (object : json) : outcome Cliprdr.t :=
  ready ← read_opt CliprdrMonitorReadyValue.conv "ready" object;
  format_list ← read_opt CliprdrServerFormatListValue.conv "format_list" object;
  format_list_response ← read_opt CliprdrServerFormatListResponseValue.conv "format_list_response" object;
  format_data_request ← read_opt CliprdrServerFormatDataRequestValue.conv "format_data_request" object;
  format_data_response ← read_opt CliprdrServerFormatDataResponseValue.conv "format_data_response" object;
  file_contents_request ← read_opt CliprdrFileContentsRequestValue.conv "file_contents_request" object;
  file_contents_response ← read_opt CliprdrFileContentsResponseValue.conv "file_contents_response" object;
  try_empty ← read_opt CliprdrTryEmptyValue.conv "try_empty" object;
  mret (Cliprdr.mk ready format_list format_list_response format_data_request format_data_response file_contents_request file_contents_response try_empty).
Definition conv `{FloatJson} : kind Cliprdr.t := {| to_json := toJSON; of_json := fromJSON |}.
(** Every enum number has a name. *)
Definition known (message : Cliprdr.t) : Prop :=
  from_option CliprdrMonitorReadyValue.known True message.(Cliprdr.ready) /\
  from_option CliprdrServerFormatListValue.known True message.(Cliprdr.format_list) /\
  from_option CliprdrServerFormatListResponseValue.known True message.(Cliprdr.format_list_response) /\
  from_option CliprdrServerFormatDataRequestValue.known True message.(Cliprdr.format_data_request) /\
  from_option CliprdrServerFormatDataResponseValue.known True message.(Cliprdr.format_data_response) /\
  from_option CliprdrFileContentsRequestValue.known True message.(Cliprdr.file_contents_request) /\
  from_option CliprdrFileContentsResponseValue.known True message.(Cliprdr.file_contents_response) /\
  from_option CliprdrTryEmptyValue.known True message.(Cliprdr.try_empty).
Record partial := { ready : maybe CliprdrMonitorReadyValue.partial;
  format_list : maybe CliprdrServerFormatListValue.partial;
  format_list_response : maybe CliprdrServerFormatListResponseValue.partial;
  format_data_request : maybe CliprdrServerFormatDataRequestValue.partial;
  format_data_response : maybe CliprdrServerFormatDataResponseValue.partial;
  file_contents_request : maybe CliprdrFileContentsRequestValue.partial;
  file_contents_response : maybe CliprdrFileContentsResponseValue.partial;
  try_empty : maybe CliprdrTryEmptyValue.partial }.
Definition nothing : partial := {| ready := None; format_list := None; format_list_response := None; format_data_request := None;
  format_data_response := None; file_contents_request := None; file_contents_response := None;
  try_empty := None |}.
Definition fromPartial (object : partial) : Cliprdr.t := {|
  Cliprdr.ready := CliprdrMonitorReadyValue.fromPartial <$> object.(ready);
  Cliprdr.format_list := CliprdrServerFormatListValue.fromPartial <$> object.(format_list);
  Cliprdr.format_list_response := CliprdrServerFormatListResponseValue.fromPartial <$> object.(format_list_response);
  Cliprdr.format_data_request := CliprdrServerFormatDataRequestValue.fromPartial <$> object.(format_data_request);
  Cliprdr.format_data_response := CliprdrServerFormatDataResponseValue.fromPartial <$> object.(format_data_response);
  Cliprdr.file_contents_request := CliprdrFileContentsRequestValue.fromPartial <$> object.(file_contents_request);
  Cliprdr.file_contents_response := CliprdrFileContentsResponseValue.fromPartial <$> object.(file_contents_response);
  Cliprdr.try_empty := CliprdrTryEmptyValue.fromPartial <$> object.(try_empty) |}.
Definition whole (message : Cliprdr.t) : partial :=
  let 'Cliprdr.mk ready format_list format_list_response format_data_request format_data_response
    file_contents_request file_contents_response try_empty := message in
  {| ready := CliprdrMonitorReadyValue.whole <$> ready;
    format_list := CliprdrServerFormatListValue.whole <$> format_list;
    format_list_response := CliprdrServerFormatListResponseValue.whole <$> format_list_response;
    format_data_request := CliprdrServerFormatDataRequestValue.whole <$> format_data_request;
    format_data_response := CliprdrServerFormatDataResponseValue.whole <$> format_data_response;
    file_contents_request := CliprdrFileContentsRequestValue.whole <$> file_contents_request;
    file_contents_response := CliprdrFileContentsResponseValue.whole <$> file_contents_response;
    try_empty := CliprdrTryEmptyValue.whole <$> try_empty |}.
Definition create (base : maybe partial) : Cliprdr.t := fromPartial (default nothing base).
Lemma Cliprdr_conv_ok `{FloatJsonLaws} : kind_ok conv known.
Proof. solve_conv fromJSON toJSON conv known. Qed.
Lemma Cliprdr_whole m : fromPartial (whole m) = m.
Proof. solve_whole fromPartial whole m. Qed.
End CliprdrValue.
#[export] Hint Resolve CliprdrValue.Cliprdr_conv_ok : kind_ok.
#[export] Hint Resolve CliprdrValue.Cliprdr_whole : whole.

(** ** [DisplayResolution] (message.ts, lines 8178-8206) *)
Module DisplayResolutionValue.
Definition fields `{FloatJson} (message : DisplayResolution.t) : list (string * option json) :=
  let 'DisplayResolution.mk display resolution := message in
  [("display", omit_if (display =? 0)%Z (to_json json_number display));
   ("resolution", to_json ResolutionValue.conv <$> resolution)].
Definition toJSON `{FloatJson} (message : DisplayResolution.t) : json := JObj (present (fields message)).
Definition fromJSON `{FloatJson} (object : json) : outcome DisplayResolution.t :=
  display ← read json_number "display" 0%Z object;
  resolution ← read_opt ResolutionValue.conv "resolution" object;
  mret (DisplayResolution.mk display resolution).
Definition conv `{FloatJson} : kind DisplayResolution.t := {| to_json := toJSON; of_json := fromJSON |}.
(** Every enum number has a name. *)
Definition known (message : DisplayResolution.t) : Prop :=
  from_option ResolutionValue.known True message.(DisplayResolution.resolution).
Record partial := { display : maybe Z; resolution : maybe ResolutionValue.partial }.
Definition nothing : partial := {| display := None; resolution := None |}.
Definition fromPartial (object : partial) : DisplayResolution.t := {|
  DisplayResolution.display := default 0%Z object.(display);
  DisplayResolution.resolution := ResolutionValue.fromPartial <$> object.(resolution) |}.
Definition whole (message : DisplayResolution.t) : partial :=
  let 'DisplayResolution.mk display resolution := message in
  {| display := Some display; resolution := ResolutionValue.whole <$> resolution |}.
Definition create (base : maybe partial) : DisplayResolution.t := fromPartial (default nothing base).
Lemma DisplayResolution_conv_ok `{FloatJsonLaws} : kind_ok conv known.
Proof. solve_conv fromJSON toJSON conv known. Qed.
Lemma DisplayResolution_whole m : fromPartial (whole m) = m.
Proof. solve_whole fromPartial whole m. Qed.
End DisplayResolutionValue.
#[export] Hint Resolve DisplayResolutionValue.DisplayResolution_conv_ok : kind_ok.
#[export] Hint Resolve DisplayResolutionValue.DisplayResolution_whole : whole.

(** ** [SwitchDisplay] (message.ts, lines 8384-8446) *)
Module SwitchDisplayValue.
Definition fields `{FloatJson} (message : SwitchDisplay.t) : list (string * option json) :=
  let 'SwitchDisplay.mk display x y width height cursor_embedded resolutions original_resolution :=
    message in
  [("display", omit_if (display =? 0)%Z (to_json json_number display));
   ("x", omit_if (x =? 0)%Z (to_json json_number x));
   ("y", omit_if (y =? 0)%Z (to_json json_number y));
   ("width", omit_if (width =? 0)%Z (to_json json_number width));
   ("height", omit_if (height =? 0)%Z (to_json json_number height));
   ("cursor_embedded", omit_if (negb cursor_embedded) (to_json json_bool cursor_embedded));
   ("resolutions", to_json SupportedResolutionsValue.conv <$> resolutions);
   ("original_resolution", to_json ResolutionValue.conv <$> original_resolution)].
Definition toJSON `{FloatJson} (message : SwitchDisplay.t) : json := JObj (present (fields message)).
Definition fromJSON `{FloatJson} (object : json) : outcome SwitchDisplay.t :=
  display ← read json_number "display" 0%Z object;
  x ← read json_number "x" 0%Z object;
  y ← read json_number "y" 0%Z object;
  width ← read json_number "width" 0%Z object;
  height ← read json_number "height" 0%Z object;
  cursor_embedded ← read json_bool "cursor_embedded" false object;
  resolutions ← read_opt SupportedResolutionsValue.conv "resolutions" object;
  original_resolution ← read_opt ResolutionValue.conv "original_resolution" object;
  mret (SwitchDisplay.mk display x y width height cursor_embedded resolutions original_resolution).
Definition conv `{FloatJson} : kind SwitchDisplay.t := {| to_json := toJSON; of_json := fromJSON |}.
(** Every enum number has a name. *)
Definition known (message : SwitchDisplay.t) : Prop :=
  from_option SupportedResolutionsValue.known True message.(SwitchDisplay.resolutions) /\
  from_option ResolutionValue.known True message.(SwitchDisplay.original_resolution).
Record partial := { display : maybe Z; x : maybe Z; y : maybe Z; width : maybe Z; height : maybe Z;
  cursor_embedded : maybe bool; resolutions : maybe SupportedResolutionsValue.partial;
  original_resolution : maybe ResolutionValue.partial }.
Definition nothing : partial := {| display := None; x := None; y := None; width := None; height := None; cursor_embedded := None;
  resolutions := None; original_resolution := None |}.
Definition fromPartial (object : partial) : SwitchDisplay.t := {|
  SwitchDisplay.display := default 0%Z object.(display);
  SwitchDisplay.x := default 0%Z object.(x);
  SwitchDisplay.y := default 0%Z object.(y);
  SwitchDisplay.width := default 0%Z object.(width);
  SwitchDisplay.height := default 0%Z object.(height);
  SwitchDisplay.cursor_embedded := default false object.(cursor_embedded);
  SwitchDisplay.resolutions := SupportedResolutionsValue.fromPartial <$> object.(resolutions);
  SwitchDisplay.original_resolution := ResolutionValue.fromPartial <$> object.(original_resolution) |}.
Definition whole (message : SwitchDisplay.t) : partial :=
  let 'SwitchDisplay.mk display x y width height cursor_embedded resolutions original_resolution :=
    message in
  {| display := Some display; x := Some x; y := Some y; width := Some width; height := Some height;
    cursor_embedded := Some cursor_embedded;
    resolutions := SupportedResolutionsValue.whole <$> resolutions;
    original_resolution := ResolutionValue.whole <$> original_resolution |}.
Definition create (base : maybe partial) : SwitchDisplay.t := fromPartial (default nothing base).
Lemma SwitchDisplay_conv_ok `{FloatJsonLaws} : kind_ok conv known.
Proof. solve_conv fromJSON toJSON conv known. Qed.
Lemma SwitchDisplay_whole m : fromPartial (whole m) = m.
Proof. solve_whole fromPartial whole m. Qed.
End SwitchDisplayValue.
#[export] Hint Resolve SwitchDisplayValue.SwitchDisplay_conv_ok : kind_ok.
#[export] Hint Resolve SwitchDisplayValue.SwitchDisplay_whole : whole.

(** ** [CaptureDisplays] (message.ts, lines 8540-8571) *)
Module CaptureDisplaysValue.
Definition fields `{FloatJson} (message : CaptureDisplays.t) : list (string * option json) :=
  let 'CaptureDisplays.mk add sub set := message in
  [("add", many json_number add);
   ("sub", many json_number sub);
   ("set", many json_number set)].
Definition toJSON `{FloatJson} (message : CaptureDisplays.t) : json := JObj (present (fields message)).
Definition fromJSON `{FloatJson} (object : json) : outcome CaptureDisplays.t :=
  add ← read_list json_number "add" object;
  sub ← read_list json_number "sub" object;
  set ← read_list json_number "set" object;
  mret (CaptureDisplays.mk add sub set).
Definition conv `{FloatJson} : kind CaptureDisplays.t := {| to_json := toJSON; of_json := fromJSON |}.
Definition known (message : CaptureDisplays.t) : Prop :=
  True.
Record partial := { add : maybe (list Z); sub : maybe (list Z); set : maybe (list Z) }.
Definition nothing : partial := {| add := None; sub := None; set := None |}.
Definition fromPartial (object : partial) : CaptureDisplays.t := {|
  CaptureDisplays.add := default [] object.(add);
  CaptureDisplays.sub := default [] object.(sub);
  CaptureDisplays.set := default [] object.(set) |}.
Definition whole (message : CaptureDisplays.t) : partial :=
  let 'CaptureDisplays.mk add sub set := message in
  {| add := Some add; sub := Some sub; set := Some set |}.
Definition create (base : maybe partial) : CaptureDisplays.t := fromPartial (default nothing base).
Lemma CaptureDisplays_conv_ok `{FloatJsonLaws} : kind_ok conv known.
Proof. solve_conv fromJSON toJSON conv known. Qed.
Lemma CaptureDisplays_whole m : fromPartial (whole m) = m.
Proof. solve_whole fromPartial whole m. Qed.
End CaptureDisplaysValue.
#[export] Hint Resolve CaptureDisplaysValue.CaptureDisplays_conv_ok : kind_ok.
#[export] Hint Resolve CaptureDisplaysValue.CaptureDisplays_whole : whole.

(** ** [ToggleVirtualDisplay] (message.ts, lines 8619-8645) *)
Module ToggleVirtualDisplayValue.
Definition fields `{FloatJson} (message : ToggleVirtualDisplay.t) : list (string * option json) :=
  let 'ToggleVirtualDisplay.mk display on := message in
  [("display", omit_if (display =? 0)%Z (to_json json_number display));
   ("on", omit_if (negb on) (to_json json_bool on))].
Definition toJSON `{FloatJson} (message : ToggleVirtualDisplay.t) : json := JObj (present (fields message)).
Definition fromJSON `{FloatJson} (object : json) : outcome ToggleVirtualDisplay.t :=
  display ← read json_number "display" 0%Z object;
  on ← read json_bool "on" false object;
  mret (ToggleVirtualDisplay.mk display on).
Definition conv `{FloatJson} : kind ToggleVirtualDisplay.t := {| to_json := toJSON; of_json := fromJSON |}.
Definition known (message : ToggleVirtualDisplay.t) : Prop :=
  True.
Record partial := { display : maybe Z; on : maybe bool }.
Definition nothing : partial := {| display := None; on := None |}.
Definition fromPartial (object : partial) : ToggleVirtualDisplay.t := {|
  ToggleVirtualDisplay.display := default 0%Z object.(display);
  ToggleVirtualDisplay.on := default false object.(on) |}.
Definition whole (message : ToggleVirtualDisplay.t) : partial :=
  let 'ToggleVirtualDisplay.mk display on := message in
  {| display := Some display; on := Some on |}.
Definition create (base : maybe partial) : ToggleVirtualDisplay.t := fromPartial (default nothing base).
Lemma ToggleVirtualDisplay_conv_ok `{FloatJsonLaws} : kind_ok conv known.
Proof. solve_conv fromJSON toJSON conv known. Qed.
Lemma ToggleVirtualDisplay_whole m : fromPartial (whole m) = m.
Proof. solve_whole fromPartial whole m. Qed.
End ToggleVirtualDisplayValue.
#[export] Hint Resolve ToggleVirtualDisplayValue.ToggleVirtualDisplay_conv_ok : kind_ok.
#[export] Hint Resolve ToggleVirtualDisplayValue.ToggleVirtualDisplay_whole : whole.

(** ** [TogglePrivacyMode] (message.ts, lines 8693-8719) *)
Module TogglePrivacyModeValue.
Definition fields `{FloatJson} (message : TogglePrivacyMode.t) : list (string * option json) :=
  let 'TogglePrivacyMode.mk impl_key on := message in
  [("impl_key", omit_if (impl_key =? "") (to_json json_string impl_key));
   ("on", omit_if (negb on) (to_json json_bool on))].
Definition toJSON `{FloatJson} (message : TogglePrivacyMode.t) : json := JObj (present (fields message)).
Definition fromJSON `{FloatJson} (object : json) : outcome TogglePrivacyMode.t :=
  impl_key ← read json_string "impl_key" "" object;
  on ← read json_bool "on" false object;
  mret (TogglePrivacyMode.mk impl_key on).
Definition conv `{FloatJson} : kind TogglePrivacyMode.t := {| to_json := toJSON; of_json := fromJSON |}.
Definition known (message : TogglePrivacyMode.t) : Prop :=
  True.
Record partial := { impl_key : maybe string; on : maybe bool }.
Definition nothing : partial := {| impl_key := None; on := None |}.
Definition fromPartial (object : partial) : TogglePrivacyMode.t := {|
  TogglePrivacyMode.impl_key := default "" object.(impl_key);
  TogglePrivacyMode.on := default false object.(on) |}.
Definition whole (message : TogglePrivacyMode.t) : partial :=
  let 'TogglePrivacyMode.mk impl_key on := message in
  {| impl_key := Some impl_key; on := Some on |}.
Definition create (base : maybe partial) : TogglePrivacyMode.t := fromPartial (default nothing base).
Lemma TogglePrivacyMode_conv_ok `{FloatJsonLaws} : kind_ok conv known.
Proof. solve_conv fromJSON toJSON conv known. Qed.
Lemma TogglePrivacyMode_whole m : fromPartial (whole m) = m.
Proof. solve_whole fromPartial whole m. Qed.
End TogglePrivacyModeValue.
#[export] Hint Resolve TogglePrivacyModeValue.TogglePrivacyMode_conv_ok : kind_ok.
#[export] Hint Resolve TogglePrivacyModeValue.TogglePrivacyMode_whole : whole.

(** ** [PermissionInfo] (message.ts, lines 8767-8793) *)
Module PermissionInfoValue.
Definition fields `{FloatJson} (message : PermissionInfo.t) : list (string * option json) :=
  let 'PermissionInfo.mk permission enabled := message in
  [("permission", omit_if (permission =? 0)%Z (to_json (json_enum PermissionInfo_Permission.names) permission));
   ("enabled", omit_if (negb enabled) (to_json json_bool enabled))].
Definition toJSON `{FloatJson} (message : PermissionInfo.t) : json := JObj (present (fields message)).
Definition fromJSON `{FloatJson} (object : json) : outcome PermissionInfo.t :=
  permission ← read (json_enum PermissionInfo_Permission.names) "permission" 0%Z object;
  enabled ← read json_bool "enabled" false object;
  mret (PermissionInfo.mk permission enabled).
Definition conv `{FloatJson} : kind PermissionInfo.t := {| to_json := toJSON; of_json := fromJSON |}.
(** Every enum number has a name. *)
Definition known (message : PermissionInfo.t) : Prop :=
  named PermissionInfo_Permission.names message.(PermissionInfo.permission).
Record partial := { permission : maybe Z; enabled : maybe bool }.
Definition nothing : partial := {| permission := None; enabled := None |}.
Definition fromPartial (object : partial) : PermissionInfo.t := {|
  PermissionInfo.permission := default 0%Z object.(permission);
  PermissionInfo.enabled := default false object.(enabled) |}.
Definition whole (message : PermissionInfo.t) : partial :=
  let 'PermissionInfo.mk permission enabled := message in
  {| permission := Some permission; enabled := Some enabled |}.
Definition create (base : maybe partial) : PermissionInfo.t := fromPartial (default nothing base).
Lemma PermissionInfo_conv_ok `{FloatJsonLaws} : kind_ok conv known.
Proof. solve_conv fromJSON toJSON conv known. Qed.
Lemma PermissionInfo_whole m : fromPartial (whole m) = m.
Proof. solve_whole fromPartial whole m. Qed.
End PermissionInfoValue.
#[export] Hint Resolve PermissionInfoValue.PermissionInfo_conv_ok : kind_ok.
#[export] Hint Resolve PermissionInfoValue.PermissionInfo_whole : whole.

(** ** [MessageBox] (message.ts, lines 9687-9723) *)
Module MessageBoxValue.
Definition fields `{FloatJson} (message : MessageBox.t) : list (string * option json) :=
  let 'MessageBox.mk msgtype title text link := message in
  [("msgtype", omit_if (msgtype =? "") (to_json json_string msgtype));
   ("title", omit_if (title =? "") (to_json json_string title));
   ("text", omit_if (text =? "") (to_json json_string text));
   ("link", omit_if (link =? "") (to_json json_string link))].
Definition toJSON `{FloatJson} (message : MessageBox.t) : json := JObj (present (fields message)).
Definition fromJSON `{FloatJson} (object : json) : outcome MessageBox.t :=
  msgtype ← read json_string "msgtype" "" object;
  title ← read json_string "title" "" object;
  text ← read json_string "text" "" object;
  link ← read json_string "link" "" object;
  mret (MessageBox.mk msgtype title text link).
Definition conv `{FloatJson} : kind MessageBox.t := {| to_json := toJSON; of_json := fromJSON |}.
Definition known (message : MessageBox.t) : Prop :=
  True.
Record partial := { msgtype : maybe string; title : maybe string; text : maybe string; link : maybe string }.
Definition nothing : partial := {| msgtype := None; title := None; text := None; link := None |}.
Definition fromPartial (object : partial) : MessageBox.t := {|
  MessageBox.msgtype := default "" object.(msgtype);
  MessageBox.title := default "" object.(title);
  MessageBox.text := default "" object.(text);
  MessageBox.link := default "" object.(link) |}.
Definition whole (message : MessageBox.t) : partial :=
  let 'MessageBox.mk msgtype title text link := message in
  {| msgtype := Some msgtype; title := Some title; text := Some text; link := Some link |}.
Definition create (base : maybe partial) : MessageBox.t := fromPartial (default nothing base).
Lemma MessageBox_conv_ok `{FloatJsonLaws} : kind_ok conv known.
Proof. solve_conv fromJSON toJSON conv known. Qed.
Lemma MessageBox_whole m : fromPartial (whole m) = m.
Proof. solve_whole fromPartial whole m. Qed.
End MessageBoxValue.
#[export] Hint Resolve MessageBoxValue.MessageBox_conv_ok : kind_ok.
#[export] Hint Resolve MessageBoxValue.MessageBox_whole : whole.

(** ** [BackNotification] (message.ts, lines 9791-9831) *)
Module BackNotificationValue.
Definition fields `{FloatJson} (message : BackNotification.t) : list (string * option json) :=
  let 'BackNotification.mk privacy_mode_state block_input_state details impl_key := message in
  [("privacy_mode_state", to_json (json_enum BackNotification_PrivacyModeState.names) <$> privacy_mode_state);
   ("block_input_state", to_json (json_enum BackNotification_BlockInputState.names) <$> block_input_state);
   ("details", omit_if (details =? "") (to_json json_string details));
   ("impl_key", omit_if (impl_key =? "") (to_json json_string impl_key))].
Definition toJSON `{FloatJson} (message : BackNotification.t) : json := JObj (present (fields message)).
Definition fromJSON `{FloatJson} (object : json) : outcome BackNotification.t :=
  privacy_mode_state ← read_opt (json_enum BackNotification_PrivacyModeState.names) "privacy_mode_state" object;
  block_input_state ← read_opt (json_enum BackNotification_BlockInputState.names) "block_input_state" object;
  details ← read json_string "details" "" object;
  impl_key ← read json_string "impl_key" "" object;
  mret (BackNotification.mk privacy_mode_state block_input_state details impl_key).
Definition conv `{FloatJson} : kind BackNotification.t := {| to_json := toJSON; of_json := fromJSON |}.
(** Every enum number has a name. *)
Definition known (message : BackNotification.t) : Prop :=
  from_option (named BackNotification_PrivacyModeState.names) True message.(BackNotification.privacy_mode_state) /\
  from_option (named BackNotification_BlockInputState.names) True message.(BackNotification.block_input_state).
Record partial := { privacy_mode_state : maybe Z; block_input_state : maybe Z; details : maybe string;
  impl_key : maybe string }.
Definition nothing : partial := {| privacy_mode_state := None; block_input_state := None; details := None; impl_key := None |}.
Definition fromPartial (object : partial) : BackNotification.t := {|
  BackNotification.privacy_mode_state := object.(privacy_mode_state);
  BackNotification.block_input_state := object.(block_input_state);
  BackNotification.details := default "" object.(details);
  BackNotification.impl_key := default "" object.(impl_key) |}.
Definition whole (message : BackNotification.t) : partial :=
  let 'BackNotification.mk privacy_mode_state block_input_state details impl_key := message in
  {| privacy_mode_state := privacy_mode_state; block_input_state := block_input_state;
    details := Some details; impl_key := Some impl_key |}.
Definition create (base : maybe partial) : BackNotification.t := fromPartial (default nothing base).
Lemma BackNotification_conv_ok `{FloatJsonLaws} : kind_ok conv known.
Proof. solve_conv fromJSON toJSON conv known. Qed.
Lemma BackNotification_whole m : fromPartial (whole m) = m.
Proof. solve_whole fromPartial whole m. Qed.
End BackNotificationValue.
#[export] Hint Resolve BackNotificationValue.BackNotification_conv_ok : kind_ok.
#[export] Hint Resolve BackNotificationValue.BackNotification_whole : whole.

(** ** [ElevationRequestWithLogon] (message.ts, lines 9879-9905) *)
Module ElevationRequestWithLogonValue.
Definition fields `{FloatJson} (message : ElevationRequestWithLogon.t) : list (string * option json) :=
  let 'ElevationRequestWithLogon.mk username password := message in
  [("username", omit_if (username =? "") (to_json json_string username));
   ("password", omit_if (password =? "") (to_json json_string password))].
Definition toJSON `{FloatJson} (message : ElevationRequestWithLogon.t) : json := JObj (present (fields message)).
Definition fromJSON `{FloatJson} (object : json) : outcome ElevationRequestWithLogon.t :=
  username ← read json_string "username" "" object;
  password ← read json_string "password" "" object;
  mret (ElevationRequestWithLogon.mk username password).
Definition conv `{FloatJson} : kind ElevationRequestWithLogon.t := {| to_json := toJSON; of_json := fromJSON |}.
Definition known (message : ElevationRequestWithLogon.t) : Prop :=
  True.
Record partial := { username : maybe string; password : maybe string }.
Definition nothing : partial := {| username := None; password := None |}.
Definition fromPartial (object : partial) : ElevationRequestWithLogon.t := {|
  ElevationRequestWithLogon.username := default "" object.(username);
  ElevationRequestWithLogon.password := default "" object.(password) |}.
Definition whole (message : ElevationRequestWithLogon.t) : partial :=
  let 'ElevationRequestWithLogon.mk username password := message in
  {| username := Some username; password := Some password |}.
Definition create (base : maybe partial) : ElevationRequestWithLogon.t := fromPartial (default nothing base).
Lemma ElevationRequestWithLogon_conv_ok `{FloatJsonLaws} : kind_ok conv known.
Proof. solve_conv fromJSON toJSON conv known. Qed.
Lemma ElevationRequestWithLogon_whole m : fromPartial (whole m) = m.
Proof. solve_whole fromPartial whole m. Qed.
End ElevationRequestWithLogonValue.
#[export] Hint Resolve ElevationRequestWithLogonValue.ElevationRequestWithLogon_conv_ok : kind_ok.
#[export] Hint Resolve ElevationRequestWithLogonValue.ElevationRequestWithLogon_whole : whole.

(** ** [ElevationRequest] (message.ts, lines 9953-9981) *)
Module ElevationRequestValue.
Definition fields `{FloatJson} (message : ElevationRequest.t) : list (string * option json) :=
  let 'ElevationRequest.mk direct logon := message in
  [("direct", to_json json_bool <$> direct);
   ("logon", to_json ElevationRequestWithLogonValue.conv <$> logon)].
Definition toJSON `{FloatJson} (message : ElevationRequest.t) : json := JObj (present (fields message)).
Definition fromJSON `{FloatJson} (object : json) : outcome ElevationRequest.t :=
  direct ← read_opt json_bool "direct" object;
  logon ← read_opt ElevationRequestWithLogonValue.conv "logon" object;
  mret (ElevationRequest.mk direct logon).
Definition conv `{FloatJson} : kind ElevationRequest.t := {| to_json := toJSON; of_json := fromJSON |}.
(** Every enum number has a name. *)
Definition known (message : ElevationRequest.t) : Prop :=
  from_option ElevationRequestWithLogonValue.known True message.(ElevationRequest.logon).
Record partial := { direct : maybe bool; logon : maybe ElevationRequestWithLogonValue.partial }.
Definition nothing : partial := {| direct := None; logon := None |}.
Definition fromPartial (object : partial) : ElevationRequest.t := {|
  ElevationRequest.direct := object.(direct);
  ElevationRequest.logon := ElevationRequestWithLogonValue.fromPartial <$> object.(logon) |}.
Definition whole (message : ElevationRequest.t) : partial :=
  let 'ElevationRequest.mk direct logon := message in
  {| direct := direct; logon := ElevationRequestWithLogonValue.whole <$> logon |}.
Definition create (base : maybe partial) : ElevationRequest.t := fromPartial (default nothing base).
Lemma ElevationRequest_conv_ok `{FloatJsonLaws} : kind_ok conv known.
Proof. solve_conv fromJSON toJSON conv known. Qed.
Lemma ElevationRequest_whole m : fromPartial (whole m) = m.
Proof. solve_whole fromPartial whole m. Qed.
End ElevationRequestValue.
#[export] Hint Resolve ElevationRequestValue.ElevationRequest_conv_ok : kind_ok.
#[export] Hint Resolve ElevationRequestValue.ElevationRequest_whole : whole.

(** ** [SwitchSidesRequest] (message.ts, lines 10019-10038) *)
Module SwitchSidesRequestValue.
Definition fields `{FloatJson} (message : SwitchSidesRequest.t) : list (string * option json) :=
  let 'SwitchSidesRequest.mk uuid := message in
  [("uuid", omit_if (len uuid =? 0)%Z (to_json json_bytes uuid))].
Definition toJSON `{FloatJson} (message : SwitchSidesRequest.t) : json := JObj (present (fields message)).
Definition fromJSON `{FloatJson} (object : json) : outcome SwitchSidesRequest.t :=
  uuid ← read json_bytes "uuid" [] object;
  mret (SwitchSidesRequest.mk uuid).
Definition conv `{FloatJson} : kind SwitchSidesRequest.t := {| to_json := toJSON; of_json := fromJSON |}.
Definition known (message : SwitchSidesRequest.t) : Prop :=
  True.
Record partial := { uuid : maybe bytes }.
Definition nothing : partial := {| uuid := None |}.
Definition fromPartial (object : partial) : SwitchSidesRequest.t := {|
  SwitchSidesRequest.uuid := default [] object.(uuid) |}.
Definition whole (message : SwitchSidesRequest.t) : partial :=
  let 'SwitchSidesRequest.mk uuid := message in
  {| uuid := Some uuid |}.
Definition create (base : maybe partial) : SwitchSidesRequest.t := fromPartial (default nothing base).
Lemma SwitchSidesRequest_conv_ok `{FloatJsonLaws} : kind_ok conv known.
Proof. solve_conv fromJSON toJSON conv known. Qed.
Lemma SwitchSidesRequest_whole m : fromPartial (whole m) = m.
Proof. solve_whole fromPartial whole m. Qed.
End SwitchSidesRequestValue.
#[export] Hint Resolve SwitchSidesRequestValue.SwitchSidesRequest_conv_ok : kind_ok.
#[export] Hint Resolve SwitchSidesRequestValue.SwitchSidesRequest_whole : whole.

(** ** [SwitchSidesResponse] (message.ts, lines 10086-10112) *)
Module SwitchSidesResponseValue.
Definition fields `{FloatJson} (message : SwitchSidesResponse.t) : list (string * option json) :=
  let 'SwitchSidesResponse.mk uuid lr := message in
  [("uuid", omit_if (len uuid =? 0)%Z (to_json json_bytes uuid));
   ("lr", to_json LoginRequestValue.conv <$> lr)].
Definition toJSON `{FloatJson} (message : SwitchSidesResponse.t) : json := JObj (present (fields message)).
Definition fromJSON `{FloatJson} (object : json) : outcome SwitchSidesResponse.t :=
  uuid ← read json_bytes "uuid" [] object;
  lr ← read_opt LoginRequestValue.conv "lr" object;
  mret (SwitchSidesResponse.mk uuid lr).
Definition conv `{FloatJson} : kind SwitchSidesResponse.t := {| to_json := toJSON; of_json := fromJSON |}.
(** Every enum number has a name. *)
Definition known (message : SwitchSidesResponse.t) : Prop :=
  from_option LoginRequestValue.known True message.(SwitchSidesResponse.lr).
Record partial := { uuid : maybe bytes; lr : maybe LoginRequestValue.partial }.
Definition nothing : partial := {| uuid := None; lr := None |}.
Definition fromPartial (object : partial) : SwitchSidesResponse.t := {|
  SwitchSidesResponse.uuid := default [] object.(uuid);
  SwitchSidesResponse.lr := LoginRequestValue.fromPartial <$> object.(lr) |}.
Definition whole (message : SwitchSidesResponse.t) : partial :=
  let 'SwitchSidesResponse.mk uuid lr := message in
  {| uuid := Some uuid; lr := LoginRequestValue.whole <$> lr |}.
Definition create (base : maybe partial) : SwitchSidesResponse.t := fromPartial (default nothing base).
Lemma SwitchSidesResponse_conv_ok `{FloatJsonLaws} : kind_ok conv known.
Proof. solve_conv fromJSON toJSON conv known. Qed.
Lemma SwitchSidesResponse_whole m : fromPartial (whole m) = m.
Proof. solve_whole fromPartial whole m. Qed.
End SwitchSidesResponseValue.
#[export] Hint Resolve SwitchSidesResponseValue.SwitchSidesResponse_conv_ok : kind_ok.
#[export] Hint Resolve SwitchSidesResponseValue.SwitchSidesResponse_whole : whole.

(** ** [SwitchBack] (message.ts, lines 10140-10155) *)
Module SwitchBackValue.
Definition fields `{FloatJson} (message : SwitchBack.t) : list (string * option json) :=
  [].
Definition toJSON `{FloatJson} (message : SwitchBack.t) : json := JObj (present (fields message)).
Definition fromJSON `{FloatJson} (object : json) : outcome SwitchBack.t :=
  mret SwitchBack.mk.
Definition conv `{FloatJson} : kind SwitchBack.t := {| to_json := toJSON; of_json := fromJSON |}.
Definition known (message : SwitchBack.t) : Prop :=
  True.
Record partial := { }.
Definition nothing : partial := Build_partial.
Definition fromPartial (object : partial) : SwitchBack.t := SwitchBack.mk.
Definition whole (message : SwitchBack.t) : partial := nothing.
Definition create (base : maybe partial) : SwitchBack.t := fromPartial (default nothing base).
Lemma SwitchBack_conv_ok `{FloatJsonLaws} : kind_ok conv known.
Proof. solve_conv fromJSON toJSON conv known. Qed.
Lemma SwitchBack_whole m : fromPartial (whole m) = m.
Proof. solve_whole fromPartial whole m. Qed.
End SwitchBackValue.
#[export] Hint Resolve SwitchBackValue.SwitchBack_conv_ok : kind_ok.
#[export] Hint Resolve SwitchBackValue.SwitchBack_whole : whole.

(** ** [PluginRequest] (message.ts, lines 10203-10229) *)
Module PluginRequestValue.
Definition fields `{FloatJson} (message : PluginRequest.t) : list (string * option json) :=
  let 'PluginRequest.mk id content := message in
  [("id", omit_if (id =? "") (to_json json_string id));
   ("content", omit_if (len content =? 0)%Z (to_json json_bytes content))].
Definition toJSON `{FloatJson} (message : PluginRequest.t) : json := JObj (present (fields message)).
Definition fromJSON `{FloatJson} (object : json) : outcome PluginRequest.t :=
  id ← read json_string "id" "" object;
  content ← read json_bytes "content" [] object;
  mret (PluginRequest.mk id content).
Definition conv `{FloatJson} : kind PluginRequest.t := {| to_json := toJSON; of_json := fromJSON |}.
Definition known (message : PluginRequest.t) : Prop :=
  True.
Record partial := { id : maybe string; content : maybe bytes }.
Definition nothing : partial := {| id := None; content := None |}.
Definition fromPartial (object : partial) : PluginRequest.t := {|
  PluginRequest.id := default "" object.(id);
  PluginRequest.content := default [] object.(content) |}.
Definition whole (message : PluginRequest.t) : partial :=
  let 'PluginRequest.mk id content := message in
  {| id := Some id; content := Some content |}.
Definition create (base : maybe partial) : PluginRequest.t := fromPartial (default nothing base).
Lemma PluginRequest_conv_ok `{FloatJsonLaws} : kind_ok conv known.
Proof. solve_conv fromJSON toJSON conv known. Qed.
Lemma PluginRequest_whole m : fromPartial (whole m) = m.
Proof. solve_whole fromPartial whole m. Qed.
End PluginRequestValue.
#[export] Hint Resolve PluginRequestValue.PluginRequest_conv_ok : kind_ok.
#[export] Hint Resolve PluginRequestValue.PluginRequest_whole : whole.

(** ** [PluginFailure] (message.ts, lines 10287-10318) *)
Module PluginFailureValue.
Definition fields `{FloatJson} (message : PluginFailure.t) : list (string * option json) :=
  let 'PluginFailure.mk id name msg := message in
  [("id", omit_if (id =? "") (to_json json_string id));
   ("name", omit_if (name =? "") (to_json json_string name));
   ("msg", omit_if (msg =? "") (to_json json_string msg))].
Definition toJSON `{FloatJson} (message : PluginFailure.t) : json := JObj (present (fields message)).
Definition fromJSON `{FloatJson} (object : json) : outcome PluginFailure.t :=
  id ← read json_string "id" "" object;
  name ← read json_string "name" "" object;
  msg ← read json_string "msg" "" object;
  mret (PluginFailure.mk id name msg).
Definition conv `{FloatJson} : kind PluginFailure.t := {| to_json := toJSON; of_json := fromJSON |}.
Definition known (message : PluginFailure.t) : Prop :=
  True.
Record partial := { id : maybe string; name : maybe string; msg : maybe string }.
Definition nothing : partial := {| id := None; name := None; msg := None |}.
Definition fromPartial (object : partial) : PluginFailure.t := {|
  PluginFailure.id := default "" object.(id);
  PluginFailure.name := default "" object.(name);
  PluginFailure.msg := default "" object.(msg) |}.
Definition whole (message : PluginFailure.t) : partial :=
  let 'PluginFailure.mk id name msg := message in
  {| id := Some id; name := Some name; msg := Some msg |}.
Definition create (base : maybe partial) : PluginFailure.t := fromPartial (default nothing base).
Lemma PluginFailure_conv_ok `{FloatJsonLaws} : kind_ok conv known.
Proof. solve_conv fromJSON toJSON conv known. Qed.
Lemma PluginFailure_whole m : fromPartial (whole m) = m.
Proof. solve_whole fromPartial whole m. Qed.
End PluginFailureValue.
#[export] Hint Resolve PluginFailureValue.PluginFailure_conv_ok : kind_ok.
#[export] Hint Resolve PluginFailureValue.PluginFailure_whole : whole.

(** ** [MessageQuery] (message.ts, lines 10432-10451) *)
Module MessageQueryValue.
Definition fields `{FloatJson} (message : MessageQuery.t) : list (string * option json) :=
  let 'MessageQuery.mk switch_display := message in
  [("switch_display", omit_if (switch_display =? 0)%Z (to_json json_number switch_display))].
Definition toJSON `{FloatJson} (message : MessageQuery.t) : json := JObj (present (fields message)).
Definition fromJSON `{FloatJson} (object : json) : outcome MessageQuery.t :=
  switch_display ← read json_number "switch_display" 0%Z object;
  mret (MessageQuery.mk switch_display).
Definition conv `{FloatJson} : kind MessageQuery.t := {| to_json := toJSON; of_json := fromJSON |}.
Definition known (message : MessageQuery.t) : Prop :=
  True.
Record partial := { switch_display : maybe Z }.
Definition nothing : partial := {| switch_display := None |}.
Definition fromPartial (object : partial) : MessageQuery.t := {|
  MessageQuery.switch_display := default 0%Z object.(switch_display) |}.
Definition whole (message : MessageQuery.t) : partial :=
  let 'MessageQuery.mk switch_display := message in
  {| switch_display := Some switch_display |}.
Definition create (base : maybe partial) : MessageQuery.t := fromPartial (default nothing base).
Lemma MessageQuery_conv_ok `{FloatJsonLaws} : kind_ok conv known.
Proof. solve_conv fromJSON toJSON conv known. Qed.
Lemma MessageQuery_whole m : fromPartial (whole m) = m.
Proof. solve_whole fromPartial whole m. Qed.
End MessageQueryValue.
#[export] Hint Resolve MessageQueryValue.MessageQuery_conv_ok : kind_ok.
#[export] Hint Resolve MessageQueryValue.MessageQuery_whole : whole.

(** ** [Misc] (message.ts, lines 10843-11088) *)
Module MiscValue.
Definition fields `{FloatJson} (message : Misc.t) : list (string * option json) :=
  let 'Misc.mk chat_message switch_display permission_info option audio_format close_reason
    refresh_video video_received back_notification restart_remote_device uac
    foreground_window_elevated stop_service elevation_request elevation_response
    portable_service_running switch_sides_request switch_back change_resolution plugin_request
    plugin_failure full_speed_fps auto_adjust_fps client_record_status capture_displays
    refresh_video_display toggle_virtual_display toggle_privacy_mode supported_encoding selected_sid
    change_display_resolution message_query follow_current_display := message in
  [("chat_message", to_json ChatMessageValue.conv <$> chat_message);
   ("switch_display", to_json SwitchDisplayValue.conv <$> switch_display);
   ("permission_info", to_json PermissionInfoValue.conv <$> permission_info);
   ("option", to_json OptionMessageValue.conv <$> option);
   ("audio_format", to_json AudioFormatValue.conv <$> audio_format);
   ("close_reason", to_json json_string <$> close_reason);
   ("refresh_video", to_json json_bool <$> refresh_video);
   ("video_received", to_json json_bool <$> video_received);
   ("back_notification", to_json BackNotificationValue.conv <$> back_notification);
   ("restart_remote_device", to_json json_bool <$> restart_remote_device);
   ("uac", to_json json_bool <$> uac);
   ("foreground_window_elevated", to_json json_bool <$> foreground_window_elevated);
   ("stop_service", to_json json_bool <$> stop_service);
   ("elevation_request", to_json ElevationRequestValue.conv <$> elevation_request);
   ("elevation_response", to_json json_string <$> elevation_response);
   ("portable_service_running", to_json json_bool <$> portable_service_running);
   ("switch_sides_request", to_json SwitchSidesRequestValue.conv <$> switch_sides_request);
   ("switch_back", to_json SwitchBackValue.conv <$> switch_back);
   ("change_resolution", to_json ResolutionValue.conv <$> change_resolution);
   ("plugin_request", to_json PluginRequestValue.conv <$> plugin_request);
   ("plugin_failure", to_json PluginFailureValue.conv <$> plugin_failure);
   ("full_speed_fps", to_json json_number <$> full_speed_fps);
   ("auto_adjust_fps", to_json json_number <$> auto_adjust_fps);
   ("client_record_status", to_json json_bool <$> client_record_status);
   ("capture_displays", to_json CaptureDisplaysValue.conv <$> capture_displays);
   ("refresh_video_display", to_json json_number <$> refresh_video_display);
   ("toggle_virtual_display", to_json ToggleVirtualDisplayValue.conv <$> toggle_virtual_display);
   ("toggle_privacy_mode", to_json TogglePrivacyModeValue.conv <$> toggle_privacy_mode);
   ("supported_encoding", to_json SupportedEncodingValue.conv <$> supported_encoding);
   ("selected_sid", to_json json_number <$> selected_sid);
   ("change_display_resolution", to_json DisplayResolutionValue.conv <$> change_display_resolution);
   ("message_query", to_json MessageQueryValue.conv <$> message_query);
   ("follow_current_display", to_json json_number <$> follow_current_display)].
Definition toJSON `{FloatJson} (message : Misc.t) : json := JObj (present (fields message)).
Definition fromJSON `{FloatJson} (object : json) : outcome Misc.t :=
  chat_message ← read_opt ChatMessageValue.conv "chat_message" object;
  switch_display ← read_opt SwitchDisplayValue.conv "switch_display" object;
  permission_info ← read_opt PermissionInfoValue.conv "permission_info" object;
  option ← read_opt OptionMessageValue.conv "option" object;
  audio_format ← read_opt AudioFormatValue.conv "audio_format" object;
  close_reason ← read_opt json_string "close_reason" object;
  refresh_video ← read_opt json_bool "refresh_video" object;
  video_received ← read_opt json_bool "video_received" object;
  back_notification ← read_opt BackNotificationValue.conv "back_notification" object;
  restart_remote_device ← read_opt json_bool "restart_remote_device" object;
  uac ← read_opt json_bool "uac" object;
  foreground_window_elevated ← read_opt json_bool "foreground_window_elevated" object;
  stop_service ← read_opt json_bool "stop_service" object;
  elevation_request ← read_opt ElevationRequestValue.conv "elevation_request" object;
  elevation_response ← read_opt json_string "elevation_response" object;
  portable_service_running ← read_opt json_bool "portable_service_running" object;
  switch_sides_request ← read_opt SwitchSidesRequestValue.conv "switch_sides_request" object;
  switch_back ← read_opt SwitchBackValue.conv "switch_back" object;
  change_resolution ← read_opt ResolutionValue.conv "change_resolution" object;
  plugin_request ← read_opt PluginRequestValue.conv "plugin_request" object;
  plugin_failure ← read_opt PluginFailureValue.conv "plugin_failure" object;
  full_speed_fps ← read_opt json_number "full_speed_fps" object;
  auto_adjust_fps ← read_opt json_number "auto_adjust_fps" object;
  client_record_status ← read_opt json_bool "client_record_status" object;
  capture_displays ← read_opt CaptureDisplaysValue.conv "capture_displays" object;
  refresh_video_display ← read_opt json_number "refresh_video_display" object;
  toggle_virtual_display ← read_opt ToggleVirtualDisplayValue.conv "toggle_virtual_display" object;
  toggle_privacy_mode ← read_opt TogglePrivacyModeValue.conv "toggle_privacy_mode" object;
  supported_encoding ← read_opt SupportedEncodingValue.conv "supported_encoding" object;
  selected_sid ← read_opt json_number "selected_sid" object;
  change_display_resolution ← read_opt DisplayResolutionValue.conv "change_display_resolution" object;
  message_query ← read_opt MessageQueryValue.conv "message_query" object;
  follow_current_display ← read_opt json_number "follow_current_display" object;
  mret (Misc.mk chat_message switch_display permission_info option audio_format close_reason refresh_video video_received back_notification restart_remote_device uac foreground_window_elevated stop_service elevation_request elevation_response portable_service_running switch_sides_request switch_back change_resolution plugin_request plugin_failure full_speed_fps auto_adjust_fps client_record_status capture_displays refresh_video_display toggle_virtual_display toggle_privacy_mode supported_encoding selected_sid change_display_resolution message_query follow_current_display).
Definition conv `{FloatJson} : kind Misc.t := {| to_json := toJSON; of_json := fromJSON |}.
(** Every enum number has a name. *)
Definition known (message : Misc.t) : Prop :=
  from_option ChatMessageValue.known True message.(Misc.chat_message) /\
  from_option SwitchDisplayValue.known True message.(Misc.switch_display) /\
  from_option PermissionInfoValue.known True message.(Misc.permission_info) /\
  from_option OptionMessageValue.known True message.(Misc.option) /\
  from_option AudioFormatValue.known True message.(Misc.audio_format) /\
  from_option BackNotificationValue.known True message.(Misc.back_notification) /\
  from_option ElevationRequestValue.known True message.(Misc.elevation_request) /\
  from_option SwitchSidesRequestValue.known True message.(Misc.switch_sides_request) /\
  from_option SwitchBackValue.known True message.(Misc.switch_back) /\
  from_option ResolutionValue.known True message.(Misc.change_resolution) /\
  from_option PluginRequestValue.known True message.(Misc.plugin_request) /\
  from_option PluginFailureValue.known True message.(Misc.plugin_failure) /\
  from_option CaptureDisplaysValue.known True message.(Misc.capture_displays) /\
  from_option ToggleVirtualDisplayValue.known True message.(Misc.toggle_virtual_display) /\
  from_option TogglePrivacyModeValue.known True message.(Misc.toggle_privacy_mode) /\
  from_option SupportedEncodingValue.known True message.(Misc.supported_encoding) /\
  from_option DisplayResolutionValue.known True message.(Misc.change_display_resolution) /\
  from_option MessageQueryValue.known True message.(Misc.message_query).
Record partial := { chat_message : maybe ChatMessageValue.partial; switch_display : maybe SwitchDisplayValue.partial;
  permission_info : maybe PermissionInfoValue.partial; option : maybe OptionMessageValue.partial;
  audio_format : maybe AudioFormatValue.partial; close_reason : maybe string;
  refresh_video : maybe bool; video_received : maybe bool;
  back_notification : maybe BackNotificationValue.partial; restart_remote_device : maybe bool;
  uac : maybe bool; foreground_window_elevated : maybe bool; stop_service : maybe bool;
  elevation_request : maybe ElevationRequestValue.partial; elevation_response : maybe string;
  portable_service_running : maybe bool;
  switch_sides_request : maybe SwitchSidesRequestValue.partial;
  switch_back : maybe SwitchBackValue.partial; change_resolution : maybe ResolutionValue.partial;
  plugin_request : maybe PluginRequestValue.partial;
  plugin_failure : maybe PluginFailureValue.partial; full_speed_fps : maybe Z;
  auto_adjust_fps : maybe Z; client_record_status : maybe bool;
  capture_displays : maybe CaptureDisplaysValue.partial; refresh_video_display : maybe Z;
  toggle_virtual_display : maybe ToggleVirtualDisplayValue.partial;
  toggle_privacy_mode : maybe TogglePrivacyModeValue.partial;
  supported_encoding : maybe SupportedEncodingValue.partial; selected_sid : maybe Z;
  change_display_resolution : maybe DisplayResolutionValue.partial;
  message_query : maybe MessageQueryValue.partial; follow_current_display : maybe Z }.
Definition nothing : partial := {| chat_message := None; switch_display := None; permission_info := None; option := None;
  audio_format := None; close_reason := None; refresh_video := None; video_received := None;
  back_notification := None; restart_remote_device := None; uac := None;
  foreground_window_elevated := None; stop_service := None; elevation_request := None;
  elevation_response := None; portable_service_running := None; switch_sides_request := None;
  switch_back := None; change_resolution := None; plugin_request := None; plugin_failure := None;
  full_speed_fps := None; auto_adjust_fps := None; client_record_status := None;
  capture_displays := None; refresh_video_display := None; toggle_virtual_display := None;
  toggle_privacy_mode := None; supported_encoding := None; selected_sid := None;
  change_display_resolution := None; message_query := None; follow_current_display := None |}.
Definition fromPartial (object : partial) : Misc.t := {|
  Misc.chat_message := ChatMessageValue.fromPartial <$> object.(chat_message);
  Misc.switch_display := SwitchDisplayValue.fromPartial <$> object.(switch_display);
  Misc.permission_info := PermissionInfoValue.fromPartial <$> object.(permission_info);
  Misc.option := OptionMessageValue.fromPartial <$> object.(option);
  Misc.audio_format := AudioFormatValue.fromPartial <$> object.(audio_format);
  Misc.close_reason := object.(close_reason);
  Misc.refresh_video := object.(refresh_video);
  Misc.video_received := object.(video_received);
  Misc.back_notification := BackNotificationValue.fromPartial <$> object.(back_notification);
  Misc.restart_remote_device := object.(restart_remote_device);
  Misc.uac := object.(uac);
  Misc.foreground_window_elevated := object.(foreground_window_elevated);
  Misc.stop_service := object.(stop_service);
  Misc.elevation_request := ElevationRequestValue.fromPartial <$> object.(elevation_request);
  Misc.elevation_response := object.(elevation_response);
  Misc.portable_service_running := object.(portable_service_running);
  Misc.switch_sides_request := SwitchSidesRequestValue.fromPartial <$> object.(switch_sides_request);
  Misc.switch_back := SwitchBackValue.fromPartial <$> object.(switch_back);
  Misc.change_resolution := ResolutionValue.fromPartial <$> object.(change_resolution);
  Misc.plugin_request := PluginRequestValue.fromPartial <$> object.(plugin_request);
  Misc.plugin_failure := PluginFailureValue.fromPartial <$> object.(plugin_failure);
  Misc.full_speed_fps := object.(full_speed_fps);
  Misc.auto_adjust_fps := object.(auto_adjust_fps);
  Misc.client_record_status := object.(client_record_status);
  Misc.capture_displays := CaptureDisplaysValue.fromPartial <$> object.(capture_displays);
  Misc.refresh_video_display := object.(refresh_video_display);
  Misc.toggle_virtual_display := ToggleVirtualDisplayValue.fromPartial <$> object.(toggle_virtual_display);
  Misc.toggle_privacy_mode := TogglePrivacyModeValue.fromPartial <$> object.(toggle_privacy_mode);
  Misc.supported_encoding := SupportedEncodingValue.fromPartial <$> object.(supported_encoding);
  Misc.selected_sid := object.(selected_sid);
  Misc.change_display_resolution := DisplayResolutionValue.fromPartial <$> object.(change_display_resolution);
  Misc.message_query := MessageQueryValue.fromPartial <$> object.(message_query);
  Misc.follow_current_display := object.(follow_current_display) |}.
Definition whole (message : Misc.t) : partial :=
  let 'Misc.mk chat_message switch_display permission_info option audio_format close_reason
    refresh_video video_received back_notification restart_remote_device uac
    foreground_window_elevated stop_service elevation_request elevation_response
    portable_service_running switch_sides_request switch_back change_resolution plugin_request
    plugin_failure full_speed_fps auto_adjust_fps client_record_status capture_displays
    refresh_video_display toggle_virtual_display toggle_privacy_mode supported_encoding selected_sid
    change_display_resolution message_query follow_current_display := message in
  {| chat_message := ChatMessageValue.whole <$> chat_message;
    switch_display := SwitchDisplayValue.whole <$> switch_display;
    permission_info := PermissionInfoValue.whole <$> permission_info;
    option := OptionMessageValue.whole <$> option;
    audio_format := AudioFormatValue.whole <$> audio_format; close_reason := close_reason;
    refresh_video := refresh_video; video_received := video_received;
    back_notification := BackNotificationValue.whole <$> back_notification;
    restart_remote_device := restart_remote_device; uac := uac;
    foreground_window_elevated := foreground_window_elevated; stop_service := stop_service;
    elevation_request := ElevationRequestValue.whole <$> elevation_request;
    elevation_response := elevation_response; portable_service_running := portable_service_running;
    switch_sides_request := SwitchSidesRequestValue.whole <$> switch_sides_request;
    switch_back := SwitchBackValue.whole <$> switch_back;
    change_resolution := ResolutionValue.whole <$> change_resolution;
    plugin_request := PluginRequestValue.whole <$> plugin_request;
    plugin_failure := PluginFailureValue.whole <$> plugin_failure; full_speed_fps := full_speed_fps;
    auto_adjust_fps := auto_adjust_fps; client_record_status := client_record_status;
    capture_displays := CaptureDisplaysValue.whole <$> capture_displays;
    refresh_video_display := refresh_video_display;
    toggle_virtual_display := ToggleVirtualDisplayValue.whole <$> toggle_virtual_display;
    toggle_privacy_mode := TogglePrivacyModeValue.whole <$> toggle_privacy_mode;
    supported_encoding := SupportedEncodingValue.whole <$> supported_encoding;
    selected_sid := selected_sid;
    change_display_resolution := DisplayResolutionValue.whole <$> change_display_resolution;
    message_query := MessageQueryValue.whole <$> message_query;
    follow_current_display := follow_current_display |}.
Definition create (base : maybe partial) : Misc.t := fromPartial (default nothing base).
Lemma Misc_conv_ok `{FloatJsonLaws} : kind_ok conv known.
Proof. solve_conv fromJSON toJSON conv known. Qed.
Lemma Misc_whole m : fromPartial (whole m) = m.
Proof. solve_whole fromPartial whole m. Qed.
End MiscValue.
#[export] Hint Resolve MiscValue.Misc_conv_ok : kind_ok.
#[export] Hint Resolve MiscValue.Misc_whole : whole.

(** ** [VoiceCallRequest] (message.ts, lines 11136-11162) *)
Module VoiceCallRequestValue.
Definition fields `{FloatJson} (message : VoiceCallRequest.t) : list (string * option json) :=
  let 'VoiceCallRequest.mk req_timestamp is_connect := message in
  [("req_timestamp", omit_if (req_timestamp =? 0)%Z (to_json json_number req_timestamp));
   ("is_connect", omit_if (negb is_connect) (to_json json_bool is_connect))].
Definition toJSON `{FloatJson} (message : VoiceCallRequest.t) : json := JObj (present (fields message)).
Definition fromJSON `{FloatJson} (object : json) : outcome VoiceCallRequest.t :=
  req_timestamp ← read json_number "req_timestamp" 0%Z object;
  is_connect ← read json_bool "is_connect" false object;
  mret (VoiceCallRequest.mk req_timestamp is_connect).
Definition conv `{FloatJson} : kind VoiceCallRequest.t := {| to_json := toJSON; of_json := fromJSON |}.
Definition known (message : VoiceCallRequest.t) : Prop :=
  True.
Record partial := { req_timestamp : maybe Z; is_connect : maybe bool }.
Definition nothing : partial := {| req_timestamp := None; is_connect := None |}.
Definition fromPartial (object : partial) : VoiceCallRequest.t := {|
  VoiceCallRequest.req_timestamp := default 0%Z object.(req_timestamp);
  VoiceCallRequest.is_connect := default false object.(is_connect) |}.
Definition whole (message : VoiceCallRequest.t) : partial :=
  let 'VoiceCallRequest.mk req_timestamp is_connect := message in
  {| req_timestamp := Some req_timestamp; is_connect := Some is_connect |}.
Definition create (base : maybe partial) : VoiceCallRequest.t := fromPartial (default nothing base).
Lemma VoiceCallRequest_conv_ok `{FloatJsonLaws} : kind_ok conv known.
Proof. solve_conv fromJSON toJSON conv known. Qed.
Lemma VoiceCallRequest_whole m : fromPartial (whole m) = m.
Proof. solve_whole fromPartial whole m. Qed.
End VoiceCallRequestValue.
#[export] Hint Resolve VoiceCallRequestValue.VoiceCallRequest_conv_ok : kind_ok.
#[export] Hint Resolve VoiceCallRequestValue.VoiceCallRequest_whole : whole.

(** ** [VoiceCallResponse] (message.ts, lines 11220-11251) *)
Module VoiceCallResponseValue.
Definition fields `{FloatJson} (message : VoiceCallResponse.t) : list (string * option json) :=
  let 'VoiceCallResponse.mk accepted req_timestamp ack_timestamp := message in
  [("accepted", omit_if (negb accepted) (to_json json_bool accepted));
   ("req_timestamp", omit_if (req_timestamp =? 0)%Z (to_json json_number req_timestamp));
   ("ack_timestamp", omit_if (ack_timestamp =? 0)%Z (to_json json_number ack_timestamp))].
Definition toJSON `{FloatJson} (message : VoiceCallResponse.t) : json := JObj (present (fields message)).
Definition fromJSON `{FloatJson} (object : json) : outcome VoiceCallResponse.t :=
  accepted ← read json_bool "accepted" false object;
  req_timestamp ← read json_number "req_timestamp" 0%Z object;
  ack_timestamp ← read json_number "ack_timestamp" 0%Z object;
  mret (VoiceCallResponse.mk accepted req_timestamp ack_timestamp).
Definition conv `{FloatJson} : kind VoiceCallResponse.t := {| to_json := toJSON; of_json := fromJSON |}.
Definition known (message : VoiceCallResponse.t) : Prop :=
  True.
Record partial := { accepted : maybe bool; req_timestamp : maybe Z; ack_timestamp : maybe Z }.
Definition nothing : partial := {| accepted := None; req_timestamp := None; ack_timestamp := None |}.
Definition fromPartial (object : partial) : VoiceCallResponse.t := {|
  VoiceCallResponse.accepted := default false object.(accepted);
  VoiceCallResponse.req_timestamp := default 0%Z object.(req_timestamp);
  VoiceCallResponse.ack_timestamp := default 0%Z object.(ack_timestamp) |}.
Definition whole (message : VoiceCallResponse.t) : partial :=
  let 'VoiceCallResponse.mk accepted req_timestamp ack_timestamp := message in
  {| accepted := Some accepted; req_timestamp := Some req_timestamp;
    ack_timestamp := Some ack_timestamp |}.
Definition create (base : maybe partial) : VoiceCallResponse.t := fromPartial (default nothing base).
Lemma VoiceCallResponse_conv_ok `{FloatJsonLaws} : kind_ok conv known.
Proof. solve_conv fromJSON toJSON conv known. Qed.
Lemma VoiceCallResponse_whole m : fromPartial (whole m) = m.
Proof. solve_whole fromPartial whole m. Qed.
End VoiceCallResponseValue.
#[export] Hint Resolve VoiceCallResponseValue.VoiceCallResponse_conv_ok : kind_ok.
#[export] Hint Resolve VoiceCallResponseValue.VoiceCallResponse_whole : whole.

(** ** [Message] (message.ts, lines 11566-11767) *)
Module MessageValue.
Definition fields `{FloatJson} (message : Message.t) : list (string * option json) :=
  let 'Message.mk signed_id public_key test_delay video_frame login_request login_response hash
    mouse_event audio_frame cursor_data cursor_position cursor_id key_event clipboard file_action
    file_response misc cliprdr message_box switch_sides_response voice_call_request
    voice_call_response peer_info pointer_device_event auth_2fa multi_clipboards := message in
  [("signed_id", to_json SignedIdValue.conv <$> signed_id);
   ("public_key", to_json PublicKeyValue.conv <$> public_key);
   ("test_delay", to_json TestDelayValue.conv <$> test_delay);
   ("video_frame", to_json VideoFrameValue.conv <$> video_frame);
   ("login_request", to_json LoginRequestValue.conv <$> login_request);
   ("login_response", to_json LoginResponseValue.conv <$> login_response);
   ("hash", to_json HashValue.conv <$> hash);
   ("mouse_event", to_json MouseEventValue.conv <$> mouse_event);
   ("audio_frame", to_json AudioFrameValue.conv <$> audio_frame);
   ("cursor_data", to_json CursorDataValue.conv <$> cursor_data);
   ("cursor_position", to_json CursorPositionValue.conv <$> cursor_position);
   ("cursor_id", to_json json_number <$> cursor_id);
   ("key_event", to_json KeyEventValue.conv <$> key_event);
   ("clipboard", to_json ClipboardValue.conv <$> clipboard);
   ("file_action", to_json FileActionValue.conv <$> file_action);
   ("file_response", to_json FileResponseValue.conv <$> file_response);
   ("misc", to_json MiscValue.conv <$> misc);
   ("cliprdr", to_json CliprdrValue.conv <$> cliprdr);
   ("message_box", to_json MessageBoxValue.conv <$> message_box);
   ("switch_sides_response", to_json SwitchSidesResponseValue.conv <$> switch_sides_response);
   ("voice_call_request", to_json VoiceCallRequestValue.conv <$> voice_call_request);
   ("voice_call_response", to_json VoiceCallResponseValue.conv <$> voice_call_response);
   ("peer_info", to_json PeerInfoValue.conv <$> peer_info);
   ("pointer_device_event", to_json PointerDeviceEventValue.conv <$> pointer_device_event);
   ("auth_2fa", to_json Auth2FAValue.conv <$> auth_2fa);
   ("multi_clipboards", to_json MultiClipboardsValue.conv <$> multi_clipboards)].
Definition toJSON `{FloatJson} (message : Message.t) : json := JObj (present (fields message)).
Definition fromJSON `{FloatJson} (object : json) : outcome Message.t :=
  signed_id ← read_opt SignedIdValue.conv "signed_id" object;
  public_key ← read_opt PublicKeyValue.conv "public_key" object;
  test_delay ← read_opt TestDelayValue.conv "test_delay" object;
  video_frame ← read_opt VideoFrameValue.conv "video_frame" object;
  login_request ← read_opt LoginRequestValue.conv "login_request" object;
  login_response ← read_opt LoginResponseValue.conv "login_response" object;
  hash ← read_opt HashValue.conv "hash" object;
  mouse_event ← read_opt MouseEventValue.conv "mouse_event" object;
  audio_frame ← read_opt AudioFrameValue.conv "audio_frame" object;
  cursor_data ← read_opt CursorDataValue.conv "cursor_data" object;
  cursor_position ← read_opt CursorPositionValue.conv "cursor_position" object;
  cursor_id ← read_opt json_number "cursor_id" object;
  key_event ← read_opt KeyEventValue.conv "key_event" object;
  clipboard ← read_opt ClipboardValue.conv "clipboard" object;
  file_action ← read_opt FileActionValue.conv "file_action" object;
  file_response ← read_opt FileResponseValue.conv "file_response" object;
  misc ← read_opt MiscValue.conv "misc" object;
  cliprdr ← read_opt CliprdrValue.conv "cliprdr" object;
  message_box ← read_opt MessageBoxValue.conv "message_box" object;
  switch_sides_response ← read_opt SwitchSidesResponseValue.conv "switch_sides_response" object;
  voice_call_request ← read_opt VoiceCallRequestValue.conv "voice_call_request" object;
  voice_call_response ← read_opt VoiceCallResponseValue.conv "voice_call_response" object;
  peer_info ← read_opt PeerInfoValue.conv "peer_info" object;
  pointer_device_event ← read_opt PointerDeviceEventValue.conv "pointer_device_event" object;
  auth_2fa ← read_opt Auth2FAValue.conv "auth_2fa" object;
  multi_clipboards ← read_opt MultiClipboardsValue.conv "multi_clipboards" object;
  mret (Message.mk signed_id public_key test_delay video_frame login_request login_response hash mouse_event audio_frame cursor_data cursor_position cursor_id key_event clipboard file_action file_response misc cliprdr message_box switch_sides_response voice_call_request voice_call_response peer_info pointer_device_event auth_2fa multi_clipboards).
Definition conv `{FloatJson} : kind Message.t := {| to_json := toJSON; of_json := fromJSON |}.
(** Every enum number has a name. *)
Definition known (message : Message.t) : Prop :=
  from_option SignedIdValue.known True message.(Message.signed_id) /\
  from_option PublicKeyValue.known True message.(Message.public_key) /\
  from_option TestDelayValue.known True message.(Message.test_delay) /\
  from_option VideoFrameValue.known True message.(Message.video_frame) /\
  from_option LoginRequestValue.known True message.(Message.login_request) /\
  from_option LoginResponseValue.known True message.(Message.login_response) /\
  from_option HashValue.known True message.(Message.hash) /\
  from_option MouseEventValue.known True message.(Message.mouse_event) /\
  from_option AudioFrameValue.known True message.(Message.audio_frame) /\
  from_option CursorDataValue.known True message.(Message.cursor_data) /\
  from_option CursorPositionValue.known True message.(Message.cursor_position) /\
  from_option KeyEventValue.known True message.(Message.key_event) /\
  from_option ClipboardValue.known True message.(Message.clipboard) /\
  from_option FileActionValue.known True message.(Message.file_action) /\
  from_option FileResponseValue.known True message.(Message.file_response) /\
  from_option MiscValue.known True message.(Message.misc) /\
  from_option CliprdrValue.known True message.(Message.cliprdr) /\
  from_option MessageBoxValue.known True message.(Message.message_box) /\
  from_option SwitchSidesResponseValue.known True message.(Message.switch_sides_response) /\
  from_option VoiceCallRequestValue.known True message.(Message.voice_call_request) /\
  from_option VoiceCallResponseValue.known True message.(Message.voice_call_response) /\
  from_option PeerInfoValue.known True message.(Message.peer_info) /\
  from_option PointerDeviceEventValue.known True message.(Message.pointer_device_event) /\
  from_option Auth2FAValue.known True message.(Message.auth_2fa) /\
  from_option MultiClipboardsValue.known True message.(Message.multi_clipboards).
Record partial := { signed_id : maybe SignedIdValue.partial; public_key : maybe PublicKeyValue.partial;
  test_delay : maybe TestDelayValue.partial; video_frame : maybe VideoFrameValue.partial;
  login_request : maybe LoginRequestValue.partial;
  login_response : maybe LoginResponseValue.partial; hash : maybe HashValue.partial;
  mouse_event : maybe MouseEventValue.partial; audio_frame : maybe AudioFrameValue.partial;
  cursor_data : maybe CursorDataValue.partial;
  cursor_position : maybe CursorPositionValue.partial; cursor_id : maybe Z;
  key_event : maybe KeyEventValue.partial; clipboard : maybe ClipboardValue.partial;
  file_action : maybe FileActionValue.partial; file_response : maybe FileResponseValue.partial;
  misc : maybe MiscValue.partial; cliprdr : maybe CliprdrValue.partial;
  message_box : maybe MessageBoxValue.partial;
  switch_sides_response : maybe SwitchSidesResponseValue.partial;
  voice_call_request : maybe VoiceCallRequestValue.partial;
  voice_call_response : maybe VoiceCallResponseValue.partial;
  peer_info : maybe PeerInfoValue.partial;
  pointer_device_event : maybe PointerDeviceEventValue.partial;
  auth_2fa : maybe Auth2FAValue.partial; multi_clipboards : maybe MultiClipboardsValue.partial }.
Definition nothing : partial := {| signed_id := None; public_key := None; test_delay := None; video_frame := None;
  login_request := None; login_response := None; hash := None; mouse_event := None;
  audio_frame := None; cursor_data := None; cursor_position := None; cursor_id := None;
  key_event := None; clipboard := None; file_action := None; file_response := None; misc := None;
  cliprdr := None; message_box := None; switch_sides_response := None; voice_call_request := None;
  voice_call_response := None; peer_info := None; pointer_device_event := None; auth_2fa := None;
  multi_clipboards := None |}.
Definition fromPartial (object : partial) : Message.t := {|
  Message.signed_id := SignedIdValue.fromPartial <$> object.(signed_id);
  Message.public_key := PublicKeyValue.fromPartial <$> object.(public_key);
  Message.test_delay := TestDelayValue.fromPartial <$> object.(test_delay);
  Message.video_frame := VideoFrameValue.fromPartial <$> object.(video_frame);
  Message.login_request := LoginRequestValue.fromPartial <$> object.(login_request);
  Message.login_response := LoginResponseValue.fromPartial <$> object.(login_response);
  Message.hash := HashValue.fromPartial <$> object.(hash);
  Message.mouse_event := MouseEventValue.fromPartial <$> object.(mouse_event);
  Message.audio_frame := AudioFrameValue.fromPartial <$> object.(audio_frame);
  Message.cursor_data := CursorDataValue.fromPartial <$> object.(cursor_data);
  Message.cursor_position := CursorPositionValue.fromPartial <$> object.(cursor_position);
  Message.cursor_id := object.(cursor_id);
  Message.key_event := KeyEventValue.fromPartial <$> object.(key_event);
  Message.clipboard := ClipboardValue.fromPartial <$> object.(clipboard);
  Message.file_action := FileActionValue.fromPartial <$> object.(file_action);
  Message.file_response := FileResponseValue.fromPartial <$> object.(file_response);
  Message.misc := MiscValue.fromPartial <$> object.(misc);
  Message.cliprdr := CliprdrValue.fromPartial <$> object.(cliprdr);
  Message.message_box := MessageBoxValue.fromPartial <$> object.(message_box);
  Message.switch_sides_response := SwitchSidesResponseValue.fromPartial <$> object.(switch_sides_response);
  Message.voice_call_request := VoiceCallRequestValue.fromPartial <$> object.(voice_call_request);
  Message.voice_call_response := VoiceCallResponseValue.fromPartial <$> object.(voice_call_response);
  Message.peer_info := PeerInfoValue.fromPartial <$> object.(peer_info);
  Message.pointer_device_event := PointerDeviceEventValue.fromPartial <$> object.(pointer_device_event);
  Message.auth_2fa := Auth2FAValue.fromPartial <$> object.(auth_2fa);
  Message.multi_clipboards := MultiClipboardsValue.fromPartial <$> object.(multi_clipboards) |}.
Definition whole (message : Message.t) : partial :=
  let 'Message.mk signed_id public_key test_delay video_frame login_request login_response hash
    mouse_event audio_frame cursor_data cursor_position cursor_id key_event clipboard file_action
    file_response misc cliprdr message_box switch_sides_response voice_call_request
    voice_call_response peer_info pointer_device_event auth_2fa multi_clipboards := message in
  {| signed_id := SignedIdValue.whole <$> signed_id;
    public_key := PublicKeyValue.whole <$> public_key;
    test_delay := TestDelayValue.whole <$> test_delay;
    video_frame := VideoFrameValue.whole <$> video_frame;
    login_request := LoginRequestValue.whole <$> login_request;
    login_response := LoginResponseValue.whole <$> login_response; hash := HashValue.whole <$> hash;
    mouse_event := MouseEventValue.whole <$> mouse_event;
    audio_frame := AudioFrameValue.whole <$> audio_frame;
    cursor_data := CursorDataValue.whole <$> cursor_data;
    cursor_position := CursorPositionValue.whole <$> cursor_position; cursor_id := cursor_id;
    key_event := KeyEventValue.whole <$> key_event; clipboard := ClipboardValue.whole <$> clipboard;
    file_action := FileActionValue.whole <$> file_action;
    file_response := FileResponseValue.whole <$> file_response; misc := MiscValue.whole <$> misc;
    cliprdr := CliprdrValue.whole <$> cliprdr; message_box := MessageBoxValue.whole <$> message_box;
    switch_sides_response := SwitchSidesResponseValue.whole <$> switch_sides_response;
    voice_call_request := VoiceCallRequestValue.whole <$> voice_call_request;
    voice_call_response := VoiceCallResponseValue.whole <$> voice_call_response;
    peer_info := PeerInfoValue.whole <$> peer_info;
    pointer_device_event := PointerDeviceEventValue.whole <$> pointer_device_event;
    auth_2fa := Auth2FAValue.whole <$> auth_2fa;
    multi_clipboards := MultiClipboardsValue.whole <$> multi_clipboards |}.
Definition create (base : maybe partial) : Message.t := fromPartial (default nothing base).
Lemma Message_conv_ok `{FloatJsonLaws} : kind_ok conv known.
Proof. solve_conv fromJSON toJSON conv known. Qed.
Lemma Message_whole m : fromPartial (whole m) = m.
Proof. solve_whole fromPartial whole m. Qed.
End MessageValue.
#[export] Hint Resolve MessageValue.Message_conv_ok : kind_ok.
#[export] Hint Resolve MessageValue.Message_whole : whole.
