(* ===== verification/ProtoRendezvousValues.v ===== *)
(** * Generated conversions: the rendezvous messages

    [proto/rendezvous.ts], one module per message type: [toJSON], [fromJSON], [fromPartial] and
    [create].  [partial] is the object [fromPartial] takes, where a member that is absent,
    [undefined] or [null] is [None].  Reading undoes writing ([conv_ok]), and a partial object that
    has everything is copied ([whole]). *)
From Stdlib Require Import Floats.SpecFloat.
From S2P Require Import Prelude Json ProtoWire ProtoEnums ProtoJson ProtoRendezvous.
Local Open Scope string_scope.

(** ** [RegisterPeer] (rendezvous.ts, lines 416-442) *)
Module RegisterPeerValue.
Definition fields `{FloatJson} (message : RegisterPeer.t) : list (string * option json) :=
  let 'RegisterPeer.mk id serial := message in
  [("id", omit_if (id =? "") (to_json json_string id));
   ("serial", omit_if (serial =? 0)%Z (to_json json_number serial))].
Definition toJSON `{FloatJson} (message : RegisterPeer.t) : json := JObj (present (fields message)).
Definition fromJSON `{FloatJson} (object : json) : outcome RegisterPeer.t :=
  id ← read json_string "id" "" object;
  serial ← read json_number "serial" 0%Z object;
  mret (RegisterPeer.mk id serial).
Definition conv `{FloatJson} : kind RegisterPeer.t := {| to_json := toJSON; of_json := fromJSON |}.
Definition known (message : RegisterPeer.t) : Prop :=
  True.
Record partial := { id : maybe string; serial : maybe Z }.
Definition nothing : partial := {| id := None; serial := None |}.
Definition fromPartial (object : partial) : RegisterPeer.t := {|
  RegisterPeer.id := default "" object.(id);
  RegisterPeer.serial := default 0%Z object.(serial) |}.
Definition whole (message : RegisterPeer.t) : partial :=
  let 'RegisterPeer.mk id serial := message in
  {| id := Some id; serial := Some serial |}.
Definition create (base : maybe partial) : RegisterPeer.t := fromPartial (default nothing base).
Lemma RegisterPeer_conv_ok `{FloatJsonLaws} : kind_ok conv known.
Proof. solve_conv fromJSON toJSON conv known. Qed.
Lemma RegisterPeer_whole m : fromPartial (whole m) = m.
Proof. solve_whole fromPartial whole m. Qed.
End RegisterPeerValue.
#[export] Hint Resolve RegisterPeerValue.RegisterPeer_conv_ok : kind_ok.
#[export] Hint Resolve RegisterPeerValue.RegisterPeer_whole : whole.

(** ** [RegisterPeerResponse] (rendezvous.ts, lines 480-499) *)
Module RegisterPeerResponseValue.
Definition fields `{FloatJson} (message : RegisterPeerResponse.t) : list (string * option json) :=
  let 'RegisterPeerResponse.mk request_pk := message in
  [("request_pk", omit_if (negb request_pk) (to_json json_bool request_pk))].
Definition toJSON `{FloatJson} (message : RegisterPeerResponse.t) : json := JObj (present (fields message)).
Definition fromJSON `{FloatJson} (object : json) : outcome RegisterPeerResponse.t :=
  request_pk ← read json_bool "request_pk" false object;
  mret (RegisterPeerResponse.mk request_pk).
Definition conv `{FloatJson} : kind RegisterPeerResponse.t := {| to_json := toJSON; of_json := fromJSON |}.
Definition known (message : RegisterPeerResponse.t) : Prop :=
  True.
Record partial := { request_pk : maybe bool }.
Definition nothing : partial := {| request_pk := None |}.
Definition fromPartial (object : partial) : RegisterPeerResponse.t := {|
  RegisterPeerResponse.request_pk := default false object.(request_pk) |}.
Definition whole (message : RegisterPeerResponse.t) : partial :=
  let 'RegisterPeerResponse.mk request_pk := message in
  {| request_pk := Some request_pk |}.
Definition create (base : maybe partial) : RegisterPeerResponse.t := fromPartial (default nothing base).
Lemma RegisterPeerResponse_conv_ok `{FloatJsonLaws} : kind_ok conv known.
Proof. solve_conv fromJSON toJSON conv known. Qed.
Lemma RegisterPeerResponse_whole m : fromPartial (whole m) = m.
Proof. solve_whole fromPartial whole m. Qed.
End RegisterPeerResponseValue.
#[export] Hint Resolve RegisterPeerResponseValue.RegisterPeerResponse_conv_ok : kind_ok.
#[export] Hint Resolve RegisterPeerResponseValue.RegisterPeerResponse_whole : whole.

(** ** [PunchHoleRequest] (rendezvous.ts, lines 587-633) *)
Module PunchHoleRequestValue.
Definition fields `{FloatJson} (message : PunchHoleRequest.t) : list (string * option json) :=
  let 'PunchHoleRequest.mk id nat_type licence_key conn_type token version := message in
  [("id", omit_if (id =? "") (to_json json_string id));
   ("nat_type", omit_if (nat_type =? 0)%Z (to_json (json_enum NatType.names) nat_type));
   ("licence_key", omit_if (licence_key =? "") (to_json json_string licence_key));
   ("conn_type", omit_if (conn_type =? 0)%Z (to_json (json_enum ConnType.names) conn_type));
   ("token", omit_if (token =? "") (to_json json_string token));
   ("version", omit_if (version =? "") (to_json json_string version))].
Definition toJSON `{FloatJson} (message : PunchHoleRequest.t) : json := JObj (present (fields message)).
Definition fromJSON `{FloatJson} (object : json) : outcome PunchHoleRequest.t :=
  id ← read json_string "id" "" object;
  nat_type ← read (json_enum NatType.names) "nat_type" 0%Z object;
  licence_key ← read json_string "licence_key" "" object;
  conn_type ← read (json_enum ConnType.names) "conn_type" 0%Z object;
  token ← read json_string "token" "" object;
  version ← read json_string "version" "" object;
  mret (PunchHoleRequest.mk id nat_type licence_key conn_type token version).
Definition conv `{FloatJson} : kind PunchHoleRequest.t := {| to_json := toJSON; of_json := fromJSON |}.
(** Every enum number has a name. *)
Definition known (message : PunchHoleRequest.t) : Prop :=
  named NatType.names message.(PunchHoleRequest.nat_type) /\
  named ConnType.names message.(PunchHoleRequest.conn_type).
Record partial := { id : maybe string; nat_type : maybe Z; licence_key : maybe string; conn_type : maybe Z;
  token : maybe string; version : maybe string }.
Definition nothing : partial := {| id := None; nat_type := None; licence_key := None; conn_type := None; token := None;
  version := None |}.
Definition fromPartial (object : partial) : PunchHoleRequest.t := {|
  PunchHoleRequest.id := default "" object.(id);
  PunchHoleRequest.nat_type := default 0%Z object.(nat_type);
  PunchHoleRequest.licence_key := default "" object.(licence_key);
  PunchHoleRequest.conn_type := default 0%Z object.(conn_type);
  PunchHoleRequest.token := default "" object.(token);
  PunchHoleRequest.version := default "" object.(version) |}.
Definition whole (message : PunchHoleRequest.t) : partial :=
  let 'PunchHoleRequest.mk id nat_type licence_key conn_type token version := message in
  {| id := Some id; nat_type := Some nat_type; licence_key := Some licence_key;
    conn_type := Some conn_type; token := Some token; version := Some version |}.
Definition create (base : maybe partial) : PunchHoleRequest.t := fromPartial (default nothing base).
Lemma PunchHoleRequest_conv_ok `{FloatJsonLaws} : kind_ok conv known.
Proof. solve_conv fromJSON toJSON conv known. Qed.
Lemma PunchHoleRequest_whole m : fromPartial (whole m) = m.
Proof. solve_whole fromPartial whole m. Qed.
End PunchHoleRequestValue.
#[export] Hint Resolve PunchHoleRequestValue.PunchHoleRequest_conv_ok : kind_ok.
#[export] Hint Resolve PunchHoleRequestValue.PunchHoleRequest_whole : whole.

(** ** [PunchHole] (rendezvous.ts, lines 691-722) *)
Module PunchHoleValue.
Definition fields `{FloatJson} (message : PunchHole.t) : list (string * option json) :=
  let 'PunchHole.mk socket_addr relay_server nat_type := message in
  [("socket_addr", omit_if (len socket_addr =? 0)%Z (to_json json_bytes socket_addr));
   ("relay_server", omit_if (relay_server =? "") (to_json json_string relay_server));
   ("nat_type", omit_if (nat_type =? 0)%Z (to_json (json_enum NatType.names) nat_type))].
Definition toJSON `{FloatJson} (message : PunchHole.t) : json := JObj (present (fields message)).
Definition fromJSON `{FloatJson} (object : json) : outcome PunchHole.t :=
  socket_addr ← read json_bytes "socket_addr" [] object;
  relay_server ← read json_string "relay_server" "" object;
  nat_type ← read (json_enum NatType.names) "nat_type" 0%Z object;
  mret (PunchHole.mk socket_addr relay_server nat_type).
Definition conv `{FloatJson} : kind PunchHole.t := {| to_json := toJSON; of_json := fromJSON |}.
(** Every enum number has a name. *)
Definition known (message : PunchHole.t) : Prop :=
  named NatType.names message.(PunchHole.nat_type).
Record partial := { socket_addr : maybe bytes; relay_server : maybe string; nat_type : maybe Z }.
Definition nothing : partial := {| socket_addr := None; relay_server := None; nat_type := None |}.
Definition fromPartial (object : partial) : PunchHole.t := {|
  PunchHole.socket_addr := default [] object.(socket_addr);
  PunchHole.relay_server := default "" object.(relay_server);
  PunchHole.nat_type := default 0%Z object.(nat_type) |}.
Definition whole (message : PunchHole.t) : partial :=
  let 'PunchHole.mk socket_addr relay_server nat_type := message in
  {| socket_addr := Some socket_addr; relay_server := Some relay_server;
    nat_type := Some nat_type |}.
Definition create (base : maybe partial) : PunchHole.t := fromPartial (default nothing base).
Lemma PunchHole_conv_ok `{FloatJsonLaws} : kind_ok conv known.
Proof. solve_conv fromJSON toJSON conv known. Qed.
Lemma PunchHole_whole m : fromPartial (whole m) = m.
Proof. solve_whole fromPartial whole m. Qed.
End PunchHoleValue.
#[export] Hint Resolve PunchHoleValue.PunchHole_conv_ok : kind_ok.
#[export] Hint Resolve PunchHoleValue.PunchHole_whole : whole.

(** ** [TestNatRequest] (rendezvous.ts, lines 760-779) *)
Module TestNatRequestValue.
Definition fields `{FloatJson} (message : TestNatRequest.t) : list (string * option json) :=
  let 'TestNatRequest.mk serial := message in
  [("serial", omit_if (serial =? 0)%Z (to_json json_number serial))].
Definition toJSON `{FloatJson} (message : TestNatRequest.t) : json := JObj (present (fields message)).
Definition fromJSON `{FloatJson} (object : json) : outcome TestNatRequest.t :=
  serial ← read json_number "serial" 0%Z object;
  mret (TestNatRequest.mk serial).
Definition conv `{FloatJson} : kind TestNatRequest.t := {| to_json := toJSON; of_json := fromJSON |}.
Definition known (message : TestNatRequest.t) : Prop :=
  True.
Record partial := { serial : maybe Z }.
Definition nothing : partial := {| serial := None |}.
Definition fromPartial (object : partial) : TestNatRequest.t := {|
  TestNatRequest.serial := default 0%Z object.(serial) |}.
Definition whole (message : TestNatRequest.t) : partial :=
  let 'TestNatRequest.mk serial := message in
  {| serial := Some serial |}.
Definition create (base : maybe partial) : TestNatRequest.t := fromPartial (default nothing base).
Lemma TestNatRequest_conv_ok `{FloatJsonLaws} : kind_ok conv known.
Proof. solve_conv fromJSON toJSON conv known. Qed.
Lemma TestNatRequest_whole m : fromPartial (whole m) = m.
Proof. solve_whole fromPartial whole m. Qed.
End TestNatRequestValue.
#[export] Hint Resolve TestNatRequestValue.TestNatRequest_conv_ok : kind_ok.
#[export] Hint Resolve TestNatRequestValue.TestNatRequest_whole : whole.

(** ** [ConfigUpdate] (rendezvous.ts, lines 1371-1399) *)
Module ConfigUpdateValue.
Definition fields `{FloatJson} (message : ConfigUpdate.t) : list (string * option json) :=
  let 'ConfigUpdate.mk serial rendezvous_servers := message in
  [("serial", omit_if (serial =? 0)%Z (to_json json_number serial));
   ("rendezvous_servers", many json_string rendezvous_servers)].
Definition toJSON `{FloatJson} (message : ConfigUpdate.t) : json := JObj (present (fields message)).
Definition fromJSON `{FloatJson} (object : json) : outcome ConfigUpdate.t :=
  serial ← read json_number "serial" 0%Z object;
  rendezvous_servers ← read_list json_string "rendezvous_servers" object;
  mret (ConfigUpdate.mk serial rendezvous_servers).
Definition conv `{FloatJson} : kind ConfigUpdate.t := {| to_json := toJSON; of_json := fromJSON |}.
Definition known (message : ConfigUpdate.t) : Prop :=
  True.
Record partial := { serial : maybe Z; rendezvous_servers : maybe (list string) }.
Definition nothing : partial := {| serial := None; rendezvous_servers := None |}.
Definition fromPartial (object : partial) : ConfigUpdate.t := {|
  ConfigUpdate.serial := default 0%Z object.(serial);
  ConfigUpdate.rendezvous_servers := default [] object.(rendezvous_servers) |}.
Definition whole (message : ConfigUpdate.t) : partial :=
  let 'ConfigUpdate.mk serial rendezvous_servers := message in
  {| serial := Some serial; rendezvous_servers := Some rendezvous_servers |}.
Definition create (base : maybe partial) : ConfigUpdate.t := fromPartial (default nothing base).
Lemma ConfigUpdate_conv_ok `{FloatJsonLaws} : kind_ok conv known.
Proof. solve_conv fromJSON toJSON conv known. Qed.
Lemma ConfigUpdate_whole m : fromPartial (whole m) = m.
Proof. solve_whole fromPartial whole m. Qed.
End ConfigUpdateValue.
#[export] Hint Resolve ConfigUpdateValue.ConfigUpdate_conv_ok : kind_ok.
#[export] Hint Resolve ConfigUpdateValue.ConfigUpdate_whole : whole.

(** ** [TestNatResponse] (rendezvous.ts, lines 827-853) *)
Module TestNatResponseValue.
Definition fields `{FloatJson} (message : TestNatResponse.t) : list (string * option json) :=
  let 'TestNatResponse.mk port cu := message in
  [("port", omit_if (port =? 0)%Z (to_json json_number port));
   ("cu", to_json ConfigUpdateValue.conv <$> cu)].
Definition toJSON `{FloatJson} (message : TestNatResponse.t) : json := JObj (present (fields message)).
Definition fromJSON `{FloatJson} (object : json) : outcome TestNatResponse.t :=
  port ← read json_number "port" 0%Z object;
  cu ← read_opt ConfigUpdateValue.conv "cu" object;
  mret (TestNatResponse.mk port cu).
Definition conv `{FloatJson} : kind TestNatResponse.t := {| to_json := toJSON; of_json := fromJSON |}.
(** Every enum number has a name. *)
Definition known (message : TestNatResponse.t) : Prop :=
  from_option ConfigUpdateValue.known True message.(TestNatResponse.cu).
Record partial := { port : maybe Z; cu : maybe ConfigUpdateValue.partial }.
Definition nothing : partial := {| port := None; cu := None |}.
Definition fromPartial (object : partial) : TestNatResponse.t := {|
  TestNatResponse.port := default 0%Z object.(port);
  TestNatResponse.cu := ConfigUpdateValue.fromPartial <$> object.(cu) |}.
Definition whole (message : TestNatResponse.t) : partial :=
  let 'TestNatResponse.mk port cu := message in
  {| port := Some port; cu := ConfigUpdateValue.whole <$> cu |}.
Definition create (base : maybe partial) : TestNatResponse.t := fromPartial (default nothing base).
Lemma TestNatResponse_conv_ok `{FloatJsonLaws} : kind_ok conv known.
Proof. solve_conv fromJSON toJSON conv known. Qed.
Lemma TestNatResponse_whole m : fromPartial (whole m) = m.
Proof. solve_whole fromPartial whole m. Qed.
End TestNatResponseValue.
#[export] Hint Resolve TestNatResponseValue.TestNatResponse_conv_ok : kind_ok.
#[export] Hint Resolve TestNatResponseValue.TestNatResponse_whole : whole.

(** ** [PunchHoleSent] (rendezvous.ts, lines 931-972) *)
Module PunchHoleSentValue.
Definition fields `{FloatJson} (message : PunchHoleSent.t) : list (string * option json) :=
  let 'PunchHoleSent.mk socket_addr id relay_server nat_type version := message in
  [("socket_addr", omit_if (len socket_addr =? 0)%Z (to_json json_bytes socket_addr));
   ("id", omit_if (id =? "") (to_json json_string id));
   ("relay_server", omit_if (relay_server =? "") (to_json json_string relay_server));
   ("nat_type", omit_if (nat_type =? 0)%Z (to_json (json_enum NatType.names) nat_type));
   ("version", omit_if (version =? "") (to_json json_string version))].
Definition toJSON `{FloatJson} (message : PunchHoleSent.t) : json := JObj (present (fields message)).
Definition fromJSON `{FloatJson} (object : json) : outcome PunchHoleSent.t :=
  socket_addr ← read json_bytes "socket_addr" [] object;
  id ← read json_string "id" "" object;
  relay_server ← read json_string "relay_server" "" object;
  nat_type ← read (json_enum NatType.names) "nat_type" 0%Z object;
  version ← read json_string "version" "" object;
  mret (PunchHoleSent.mk socket_addr id relay_server nat_type version).
Definition conv `{FloatJson} : kind PunchHoleSent.t := {| to_json := toJSON; of_json := fromJSON |}.
(** Every enum number has a name. *)
Definition known (message : PunchHoleSent.t) : Prop :=
  named NatType.names message.(PunchHoleSent.nat_type).
Record partial := { socket_addr : maybe bytes; id : maybe string; relay_server : maybe string; nat_type : maybe Z;
  version : maybe string }.
Definition nothing : partial := {| socket_addr := None; id := None; relay_server := None; nat_type := None; version := None |}.
Definition fromPartial (object : partial) : PunchHoleSent.t := {|
  PunchHoleSent.socket_addr := default [] object.(socket_addr);
  PunchHoleSent.id := default "" object.(id);
  PunchHoleSent.relay_server := default "" object.(relay_server);
  PunchHoleSent.nat_type := default 0%Z object.(nat_type);
  PunchHoleSent.version := default "" object.(version) |}.
Definition whole (message : PunchHoleSent.t) : partial :=
  let 'PunchHoleSent.mk socket_addr id relay_server nat_type version := message in
  {| socket_addr := Some socket_addr; id := Some id; relay_server := Some relay_server;
    nat_type := Some nat_type; version := Some version |}.
Definition create (base : maybe partial) : PunchHoleSent.t := fromPartial (default nothing base).
Lemma PunchHoleSent_conv_ok `{FloatJsonLaws} : kind_ok conv known.
Proof. solve_conv fromJSON toJSON conv known. Qed.
Lemma PunchHoleSent_whole m : fromPartial (whole m) = m.
Proof. solve_whole fromPartial whole m. Qed.
End PunchHoleSentValue.
#[export] Hint Resolve PunchHoleSentValue.PunchHoleSent_conv_ok : kind_ok.
#[export] Hint Resolve PunchHoleSentValue.PunchHoleSent_whole : whole.

(** ** [RegisterPk] (rendezvous.ts, lines 1040-1076) *)
Module RegisterPkValue.
Definition fields `{FloatJson} (message : RegisterPk.t) : list (string * option json) :=
  let 'RegisterPk.mk id uuid pk old_id := message in
  [("id", omit_if (id =? "") (to_json json_string id));
   ("uuid", omit_if (len uuid =? 0)%Z (to_json json_bytes uuid));
   ("pk", omit_if (len pk =? 0)%Z (to_json json_bytes pk));
   ("old_id", omit_if (old_id =? "") (to_json json_string old_id))].
Definition toJSON `{FloatJson} (message : RegisterPk.t) : json := JObj (present (fields message)).
Definition fromJSON `{FloatJson} (object : json) : outcome RegisterPk.t :=
  id ← read json_string "id" "" object;
  uuid ← read json_bytes "uuid" [] object;
  pk ← read json_bytes "pk" [] object;
  old_id ← read json_string "old_id" "" object;
  mret (RegisterPk.mk id uuid pk old_id).
Definition conv `{FloatJson} : kind RegisterPk.t := {| to_json := toJSON; of_json := fromJSON |}.
Definition known (message : RegisterPk.t) : Prop :=
  True.
Record partial := { id : maybe string; uuid : maybe bytes; pk : maybe bytes; old_id : maybe string }.
Definition nothing : partial := {| id := None; uuid := None; pk := None; old_id := None |}.
Definition fromPartial (object : partial) : RegisterPk.t := {|
  RegisterPk.id := default "" object.(id);
  RegisterPk.uuid := default [] object.(uuid);
  RegisterPk.pk := default [] object.(pk);
  RegisterPk.old_id := default "" object.(old_id) |}.
Definition whole (message : RegisterPk.t) : partial :=
  let 'RegisterPk.mk id uuid pk old_id := message in
  {| id := Some id; uuid := Some uuid; pk := Some pk; old_id := Some old_id |}.
Definition create (base : maybe partial) : RegisterPk.t := fromPartial (default nothing base).
Lemma RegisterPk_conv_ok `{FloatJsonLaws} : kind_ok conv known.
Proof. solve_conv fromJSON toJSON conv known. Qed.
Lemma RegisterPk_whole m : fromPartial (whole m) = m.
Proof. solve_whole fromPartial whole m. Qed.
End RegisterPkValue.
#[export] Hint Resolve RegisterPkValue.RegisterPk_conv_ok : kind_ok.
#[export] Hint Resolve RegisterPkValue.RegisterPk_whole : whole.

(** ** [RegisterPkResponse] (rendezvous.ts, lines 1124-1150) *)
Module RegisterPkResponseValue.
Definition fields `{FloatJson} (message : RegisterPkResponse.t) : list (string * option json) :=
  let 'RegisterPkResponse.mk result keep_alive := message in
  [("result", omit_if (result =? 0)%Z (to_json (json_enum RegisterPkResponse_Result.names) result));
   ("keep_alive", omit_if (keep_alive =? 0)%Z (to_json json_number keep_alive))].
Definition toJSON `{FloatJson} (message : RegisterPkResponse.t) : json := JObj (present (fields message)).
Definition fromJSON `{FloatJson} (object : json) : outcome RegisterPkResponse.t :=
  result ← read (json_enum RegisterPkResponse_Result.names) "result" 0%Z object;
  keep_alive ← read json_number "keep_alive" 0%Z object;
  mret (RegisterPkResponse.mk result keep_alive).
Definition conv `{FloatJson} : kind RegisterPkResponse.t := {| to_json := toJSON; of_json := fromJSON |}.
(** Every enum number has a name. *)
Definition known (message : RegisterPkResponse.t) : Prop :=
  named RegisterPkResponse_Result.names message.(RegisterPkResponse.result).
Record partial := { result : maybe Z; keep_alive : maybe Z }.
Definition nothing : partial := {| result := None; keep_alive := None |}.
Definition fromPartial (object : partial) : RegisterPkResponse.t := {|
  RegisterPkResponse.result := default 0%Z object.(result);
  RegisterPkResponse.keep_alive := default 0%Z object.(keep_alive) |}.
Definition whole (message : RegisterPkResponse.t) : partial :=
  let 'RegisterPkResponse.mk result keep_alive := message in
  {| result := Some result; keep_alive := Some keep_alive |}.
Definition create (base : maybe partial) : RegisterPkResponse.t := fromPartial (default nothing base).
Lemma RegisterPkResponse_conv_ok `{FloatJsonLaws} : kind_ok conv known.
Proof. solve_conv fromJSON toJSON conv known. Qed.
Lemma RegisterPkResponse_whole m : fromPartial (whole m) = m.
Proof. solve_whole fromPartial whole m. Qed.
End RegisterPkResponseValue.
#[export] Hint Resolve RegisterPkResponseValue.RegisterPkResponse_conv_ok : kind_ok.
#[export] Hint Resolve RegisterPkResponseValue.RegisterPkResponse_whole : whole.

(** ** [PunchHoleResponse] (rendezvous.ts, lines 1267-1323) *)
Module PunchHoleResponseValue.
Definition fields `{FloatJson} (message : PunchHoleResponse.t) : list (string * option json) :=
  let 'PunchHoleResponse.mk socket_addr pk failure relay_server nat_type is_local other_failure
    feedback := message in
  [("socket_addr", omit_if (len socket_addr =? 0)%Z (to_json json_bytes socket_addr));
   ("pk", omit_if (len pk =? 0)%Z (to_json json_bytes pk));
   ("failure", omit_if (failure =? 0)%Z (to_json (json_enum PunchHoleResponse_Failure.names) failure));
   ("relay_server", omit_if (relay_server =? "") (to_json json_string relay_server));
   ("nat_type", to_json (json_enum NatType.names) <$> nat_type);
   ("is_local", to_json json_bool <$> is_local);
   ("other_failure", omit_if (other_failure =? "") (to_json json_string other_failure));
   ("feedback", omit_if (feedback =? 0)%Z (to_json json_number feedback))].
Definition toJSON `{FloatJson} (message : PunchHoleResponse.t) : json := JObj (present (fields message)).
Definition fromJSON `{FloatJson} (object : json) : outcome PunchHoleResponse.t :=
  socket_addr ← read json_bytes "socket_addr" [] object;
  pk ← read json_bytes "pk" [] object;
  failure ← read (json_enum PunchHoleResponse_Failure.names) "failure" 0%Z object;
  relay_server ← read json_string "relay_server" "" object;
  nat_type ← read_opt (json_enum NatType.names) "nat_type" object;
  is_local ← read_opt json_bool "is_local" object;
  other_failure ← read json_string "other_failure" "" object;
  feedback ← read json_number "feedback" 0%Z object;
  mret (PunchHoleResponse.mk socket_addr pk failure relay_server nat_type is_local other_failure feedback).
Definition conv `{FloatJson} : kind PunchHoleResponse.t := {| to_json := toJSON; of_json := fromJSON |}.
(** Every enum number has a name. *)
Definition known (message : PunchHoleResponse.t) : Prop :=
  named PunchHoleResponse_Failure.names message.(PunchHoleResponse.failure) /\
  from_option (named NatType.names) True message.(PunchHoleResponse.nat_type).
Record partial := { socket_addr : maybe bytes; pk : maybe bytes; failure : maybe Z; relay_server : maybe string;
  nat_type : maybe Z; is_local : maybe bool; other_failure : maybe string; feedback : maybe Z }.
Definition nothing : partial := {| socket_addr := None; pk := None; failure := None; relay_server := None; nat_type := None;
  is_local := None; other_failure := None; feedback := None |}.
Definition fromPartial (object : partial) : PunchHoleResponse.t := {|
  PunchHoleResponse.socket_addr := default [] object.(socket_addr);
  PunchHoleResponse.pk := default [] object.(pk);
  PunchHoleResponse.failure := default 0%Z object.(failure);
  PunchHoleResponse.relay_server := default "" object.(relay_server);
  PunchHoleResponse.nat_type := object.(nat_type);
  PunchHoleResponse.is_local := object.(is_local);
  PunchHoleResponse.other_failure := default "" object.(other_failure);
  PunchHoleResponse.feedback := default 0%Z object.(feedback) |}.
Definition whole (message : PunchHoleResponse.t) : partial :=
  let 'PunchHoleResponse.mk socket_addr pk failure relay_server nat_type is_local other_failure
    feedback := message in
  {| socket_addr := Some socket_addr; pk := Some pk; failure := Some failure;
    relay_server := Some relay_server; nat_type := nat_type; is_local := is_local;
    other_failure := Some other_failure; feedback := Some feedback |}.
Definition create (base : maybe partial) : PunchHoleResponse.t := fromPartial (default nothing base).
Lemma PunchHoleResponse_conv_ok `{FloatJsonLaws} : kind_ok conv known.
Proof. solve_conv fromJSON toJSON conv known. Qed.
Lemma PunchHoleResponse_whole m : fromPartial (whole m) = m.
Proof. solve_whole fromPartial whole m. Qed.
End PunchHoleResponseValue.
#[export] Hint Resolve PunchHoleResponseValue.PunchHoleResponse_conv_ok : kind_ok.
#[export] Hint Resolve PunchHoleResponseValue.PunchHoleResponse_whole : whole.

(** ** [RequestRelay] (rendezvous.ts, lines 1516-1572) *)
Module RequestRelayValue.
Definition fields `{FloatJson} (message : RequestRelay.t) : list (string * option json) :=
  let 'RequestRelay.mk id uuid socket_addr relay_server secure licence_key conn_type token :=
    message in
  [("id", omit_if (id =? "") (to_json json_string id));
   ("uuid", omit_if (uuid =? "") (to_json json_string uuid));
   ("socket_addr", omit_if (len socket_addr =? 0)%Z (to_json json_bytes socket_addr));
   ("relay_server", omit_if (relay_server =? "") (to_json json_string relay_server));
   ("secure", omit_if (negb secure) (to_json json_bool secure));
   ("licence_key", omit_if (licence_key =? "") (to_json json_string licence_key));
   ("conn_type", omit_if (conn_type =? 0)%Z (to_json (json_enum ConnType.names) conn_type));
   ("token", omit_if (token =? "") (to_json json_string token))].
Definition toJSON `{FloatJson} (message : RequestRelay.t) : json := JObj (present (fields message)).
Definition fromJSON `{FloatJson} (object : json) : outcome RequestRelay.t :=
  id ← read json_string "id" "" object;
  uuid ← read json_string "uuid" "" object;
  socket_addr ← read json_bytes "socket_addr" [] object;
  relay_server ← read json_string "relay_server" "" object;
  secure ← read json_bool "secure" false object;
  licence_key ← read json_string "licence_key" "" object;
  conn_type ← read (json_enum ConnType.names) "conn_type" 0%Z object;
  token ← read json_string "token" "" object;
  mret (RequestRelay.mk id uuid socket_addr relay_server secure licence_key conn_type token).
Definition conv `{FloatJson} : kind RequestRelay.t := {| to_json := toJSON; of_json := fromJSON |}.
(** Every enum number has a name. *)
Definition known (message : RequestRelay.t) : Prop :=
  named ConnType.names message.(RequestRelay.conn_type).
Record partial := { id : maybe string; uuid : maybe string; socket_addr : maybe bytes; relay_server : maybe string;
  secure : maybe bool; licence_key : maybe string; conn_type : maybe Z; token : maybe string }.
Definition nothing : partial := {| id := None; uuid := None; socket_addr := None; relay_server := None; secure := None;
  licence_key := None; conn_type := None; token := None |}.
Definition fromPartial (object : partial) : RequestRelay.t := {|
  RequestRelay.id := default "" object.(id);
  RequestRelay.uuid := default "" object.(uuid);
  RequestRelay.socket_addr := default [] object.(socket_addr);
  RequestRelay.relay_server := default "" object.(relay_server);
  RequestRelay.secure := default false object.(secure);
  RequestRelay.licence_key := default "" object.(licence_key);
  RequestRelay.conn_type := default 0%Z object.(conn_type);
  RequestRelay.token := default "" object.(token) |}.
Definition whole (message : RequestRelay.t) : partial :=
  let 'RequestRelay.mk id uuid socket_addr relay_server secure licence_key conn_type token :=
    message in
  {| id := Some id; uuid := Some uuid; socket_addr := Some socket_addr;
    relay_server := Some relay_server; secure := Some secure; licence_key := Some licence_key;
    conn_type := Some conn_type; token := Some token |}.
Definition create (base : maybe partial) : RequestRelay.t := fromPartial (default nothing base).
Lemma RequestRelay_conv_ok `{FloatJsonLaws} : kind_ok conv known.
Proof. solve_conv fromJSON toJSON conv known. Qed.
Lemma RequestRelay_whole m : fromPartial (whole m) = m.
Proof. solve_whole fromPartial whole m. Qed.
End RequestRelayValue.
#[export] Hint Resolve RequestRelayValue.RequestRelay_conv_ok : kind_ok.
#[export] Hint Resolve RequestRelayValue.RequestRelay_whole : whole.

(** ** [RelayResponse] (rendezvous.ts, lines 1689-1745) *)
Module RelayResponseValue.
Definition fields `{FloatJson} (message : RelayResponse.t) : list (string * option json) :=
  let 'RelayResponse.mk socket_addr uuid relay_server id pk refuse_reason version feedback :=
    message in
  [("socket_addr", omit_if (len socket_addr =? 0)%Z (to_json json_bytes socket_addr));
   ("uuid", omit_if (uuid =? "") (to_json json_string uuid));
   ("relay_server", omit_if (relay_server =? "") (to_json json_string relay_server));
   ("id", to_json json_string <$> id);
   ("pk", to_json json_bytes <$> pk);
   ("refuse_reason", omit_if (refuse_reason =? "") (to_json json_string refuse_reason));
   ("version", omit_if (version =? "") (to_json json_string version));
   ("feedback", omit_if (feedback =? 0)%Z (to_json json_number feedback))].
Definition toJSON `{FloatJson} (message : RelayResponse.t) : json := JObj (present (fields message)).
Definition fromJSON `{FloatJson} (object : json) : outcome RelayResponse.t :=
  socket_addr ← read json_bytes "socket_addr" [] object;
  uuid ← read json_string "uuid" "" object;
  relay_server ← read json_string "relay_server" "" object;
  id ← read_opt json_string "id" object;
  pk ← read_opt json_bytes "pk" object;
  refuse_reason ← read json_string "refuse_reason" "" object;
  version ← read json_string "version" "" object;
  feedback ← read json_number "feedback" 0%Z object;
  mret (RelayResponse.mk socket_addr uuid relay_server id pk refuse_reason version feedback).
Definition conv `{FloatJson} : kind RelayResponse.t := {| to_json := toJSON; of_json := fromJSON |}.
Definition known (message : RelayResponse.t) : Prop :=
  True.
Record partial := { socket_addr : maybe bytes; uuid : maybe string; relay_server : maybe string; id : maybe string;
  pk : maybe bytes; refuse_reason : maybe string; version : maybe string; feedback : maybe Z }.
Definition nothing : partial := {| socket_addr := None; uuid := None; relay_server := None; id := None; pk := None;
  refuse_reason := None; version := None; feedback := None |}.
Definition fromPartial (object : partial) : RelayResponse.t := {|
  RelayResponse.socket_addr := default [] object.(socket_addr);
  RelayResponse.uuid := default "" object.(uuid);
  RelayResponse.relay_server := default "" object.(relay_server);
  RelayResponse.id := object.(id);
  RelayResponse.pk := object.(pk);
  RelayResponse.refuse_reason := default "" object.(refuse_reason);
  RelayResponse.version := default "" object.(version);
  RelayResponse.feedback := default 0%Z object.(feedback) |}.
Definition whole (message : RelayResponse.t) : partial :=
  let 'RelayResponse.mk socket_addr uuid relay_server id pk refuse_reason version feedback :=
    message in
  {| socket_addr := Some socket_addr; uuid := Some uuid; relay_server := Some relay_server;
    id := id; pk := pk; refuse_reason := Some refuse_reason; version := Some version;
    feedback := Some feedback |}.
Definition create (base : maybe partial) : RelayResponse.t := fromPartial (default nothing base).
Lemma RelayResponse_conv_ok `{FloatJsonLaws} : kind_ok conv known.
Proof. solve_conv fromJSON toJSON conv known. Qed.
Lemma RelayResponse_whole m : fromPartial (whole m) = m.
Proof. solve_whole fromPartial whole m. Qed.
End RelayResponseValue.
#[export] Hint Resolve RelayResponseValue.RelayResponse_conv_ok : kind_ok.
#[export] Hint Resolve RelayResponseValue.RelayResponse_whole : whole.

(** ** [SoftwareUpdate] (rendezvous.ts, lines 1783-1802) *)
Module SoftwareUpdateValue.
Definition fields `{FloatJson} (message : SoftwareUpdate.t) : list (string * option json) :=
  let 'SoftwareUpdate.mk url := message in
  [("url", omit_if (url =? "") (to_json json_string url))].
Definition toJSON `{FloatJson} (message : SoftwareUpdate.t) : json := JObj (present (fields message)).
Definition fromJSON `{FloatJson} (object : json) : outcome SoftwareUpdate.t :=
  url ← read json_string "url" "" object;
  mret (SoftwareUpdate.mk url).
Definition conv `{FloatJson} : kind SoftwareUpdate.t := {| to_json := toJSON; of_json := fromJSON |}.
Definition known (message : SoftwareUpdate.t) : Prop :=
  True.
Record partial := { url : maybe string }.
Definition nothing : partial := {| url := None |}.
Definition fromPartial (object : partial) : SoftwareUpdate.t := {|
  SoftwareUpdate.url := default "" object.(url) |}.
Definition whole (message : SoftwareUpdate.t) : partial :=
  let 'SoftwareUpdate.mk url := message in
  {| url := Some url |}.
Definition create (base : maybe partial) : SoftwareUpdate.t := fromPartial (default nothing base).
Lemma SoftwareUpdate_conv_ok `{FloatJsonLaws} : kind_ok conv known.
Proof. solve_conv fromJSON toJSON conv known. Qed.
Lemma SoftwareUpdate_whole m : fromPartial (whole m) = m.
Proof. solve_whole fromPartial whole m. Qed.
End SoftwareUpdateValue.
#[export] Hint Resolve SoftwareUpdateValue.SoftwareUpdate_conv_ok : kind_ok.
#[export] Hint Resolve SoftwareUpdateValue.SoftwareUpdate_whole : whole.

(** ** [FetchLocalAddr] (rendezvous.ts, lines 1850-1876) *)
Module FetchLocalAddrValue.
Definition fields `{FloatJson} (message : FetchLocalAddr.t) : list (string * option json) :=
  let 'FetchLocalAddr.mk socket_addr relay_server := message in
  [("socket_addr", omit_if (len socket_addr =? 0)%Z (to_json json_bytes socket_addr));
   ("relay_server", omit_if (relay_server =? "") (to_json json_string relay_server))].
Definition toJSON `{FloatJson} (message : FetchLocalAddr.t) : json := JObj (present (fields message)).
Definition fromJSON `{FloatJson} (object : json) : outcome FetchLocalAddr.t :=
  socket_addr ← read json_bytes "socket_addr" [] object;
  relay_server ← read json_string "relay_server" "" object;
  mret (FetchLocalAddr.mk socket_addr relay_server).
Definition conv `{FloatJson} : kind FetchLocalAddr.t := {| to_json := toJSON; of_json := fromJSON |}.
Definition known (message : FetchLocalAddr.t) : Prop :=
  True.
Record partial := { socket_addr : maybe bytes; relay_server : maybe string }.
Definition nothing : partial := {| socket_addr := None; relay_server := None |}.
Definition fromPartial (object : partial) : FetchLocalAddr.t := {|
  FetchLocalAddr.socket_addr := default [] object.(socket_addr);
  FetchLocalAddr.relay_server := default "" object.(relay_server) |}.
Definition whole (message : FetchLocalAddr.t) : partial :=
  let 'FetchLocalAddr.mk socket_addr relay_server := message in
  {| socket_addr := Some socket_addr; relay_server := Some relay_server |}.
Definition create (base : maybe partial) : FetchLocalAddr.t := fromPartial (default nothing base).
Lemma FetchLocalAddr_conv_ok `{FloatJsonLaws} : kind_ok conv known.
Proof. solve_conv fromJSON toJSON conv known. Qed.
Lemma FetchLocalAddr_whole m : fromPartial (whole m) = m.
Proof. solve_whole fromPartial whole m. Qed.
End FetchLocalAddrValue.
#[export] Hint Resolve FetchLocalAddrValue.FetchLocalAddr_conv_ok : kind_ok.
#[export] Hint Resolve FetchLocalAddrValue.FetchLocalAddr_whole : whole.

(** ** [LocalAddr] (rendezvous.ts, lines 1954-1995) *)
Module LocalAddrValue.
Definition fields `{FloatJson} (message : LocalAddr.t) : list (string * option json) :=
  let 'LocalAddr.mk socket_addr local_addr relay_server id version := message in
  [("socket_addr", omit_if (len socket_addr =? 0)%Z (to_json json_bytes socket_addr));
   ("local_addr", omit_if (len local_addr =? 0)%Z (to_json json_bytes local_addr));
   ("relay_server", omit_if (relay_server =? "") (to_json json_string relay_server));
   ("id", omit_if (id =? "") (to_json json_string id));
   ("version", omit_if (version =? "") (to_json json_string version))].
Definition toJSON `{FloatJson} (message : LocalAddr.t) : json := JObj (present (fields message)).
Definition fromJSON `{FloatJson} (object : json) : outcome LocalAddr.t :=
  socket_addr ← read json_bytes "socket_addr" [] object;
  local_addr ← read json_bytes "local_addr" [] object;
  relay_server ← read json_string "relay_server" "" object;
  id ← read json_string "id" "" object;
  version ← read json_string "version" "" object;
  mret (LocalAddr.mk socket_addr local_addr relay_server id version).
Definition conv `{FloatJson} : kind LocalAddr.t := {| to_json := toJSON; of_json := fromJSON |}.
Definition known (message : LocalAddr.t) : Prop :=
  True.
Record partial := { socket_addr : maybe bytes; local_addr : maybe bytes; relay_server : maybe string;
  id : maybe string; version : maybe string }.
Definition nothing : partial := {| socket_addr := None; local_addr := None; relay_server := None; id := None; version := None |}.
Definition fromPartial (object : partial) : LocalAddr.t := {|
  LocalAddr.socket_addr := default [] object.(socket_addr);
  LocalAddr.local_addr := default [] object.(local_addr);
  LocalAddr.relay_server := default "" object.(relay_server);
  LocalAddr.id := default "" object.(id);
  LocalAddr.version := default "" object.(version) |}.
Definition whole (message : LocalAddr.t) : partial :=
  let 'LocalAddr.mk socket_addr local_addr relay_server id version := message in
  {| socket_addr := Some socket_addr; local_addr := Some local_addr;
    relay_server := Some relay_server; id := Some id; version := Some version |}.
Definition create (base : maybe partial) : LocalAddr.t := fromPartial (default nothing base).
Lemma LocalAddr_conv_ok `{FloatJsonLaws} : kind_ok conv known.
Proof. solve_conv fromJSON toJSON conv known. Qed.
Lemma LocalAddr_whole m : fromPartial (whole m) = m.
Proof. solve_whole fromPartial whole m. Qed.
End LocalAddrValue.
#[export] Hint Resolve LocalAddrValue.LocalAddr_conv_ok : kind_ok.
#[export] Hint Resolve LocalAddrValue.LocalAddr_whole : whole.

(** ** [PeerDiscovery] (rendezvous.ts, lines 2093-2144) *)
Module PeerDiscoveryValue.
Definition fields `{FloatJson} (message : PeerDiscovery.t) : list (string * option json) :=
  let 'PeerDiscovery.mk cmd mac id username hostname platform misc := message in
  [("cmd", omit_if (cmd =? "") (to_json json_string cmd));
   ("mac", omit_if (mac =? "") (to_json json_string mac));
   ("id", omit_if (id =? "") (to_json json_string id));
   ("username", omit_if (username =? "") (to_json json_string username));
   ("hostname", omit_if (hostname =? "") (to_json json_string hostname));
   ("platform", omit_if (platform =? "") (to_json json_string platform));
   ("misc", omit_if (misc =? "") (to_json json_string misc))].
Definition toJSON `{FloatJson} (message : PeerDiscovery.t) : json := JObj (present (fields message)).
Definition fromJSON `{FloatJson} (object : json) : outcome PeerDiscovery.t :=
  cmd ← read json_string "cmd" "" object;
  mac ← read json_string "mac" "" object;
  id ← read json_string "id" "" object;
  username ← read json_string "username" "" object;
  hostname ← read json_string "hostname" "" object;
  platform ← read json_string "platform" "" object;
  misc ← read json_string "misc" "" object;
  mret (PeerDiscovery.mk cmd mac id username hostname platform misc).
Definition conv `{FloatJson} : kind PeerDiscovery.t := {| to_json := toJSON; of_json := fromJSON |}.
Definition known (message : PeerDiscovery.t) : Prop :=
  True.
Record partial := { cmd : maybe string; mac : maybe string; id : maybe string; username : maybe string;
  hostname : maybe string; platform : maybe string; misc : maybe string }.
Definition nothing : partial := {| cmd := None; mac := None; id := None; username := None; hostname := None; platform := None;
  misc := None |}.
Definition fromPartial (object : partial) : PeerDiscovery.t := {|
  PeerDiscovery.cmd := default "" object.(cmd);
  PeerDiscovery.mac := default "" object.(mac);
  PeerDiscovery.id := default "" object.(id);
  PeerDiscovery.username := default "" object.(username);
  PeerDiscovery.hostname := default "" object.(hostname);
  PeerDiscovery.platform := default "" object.(platform);
  PeerDiscovery.misc := default "" object.(misc) |}.
Definition whole (message : PeerDiscovery.t) : partial :=
  let 'PeerDiscovery.mk cmd mac id username hostname platform misc := message in
  {| cmd := Some cmd; mac := Some mac; id := Some id; username := Some username;
    hostname := Some hostname; platform := Some platform; misc := Some misc |}.
Definition create (base : maybe partial) : PeerDiscovery.t := fromPartial (default nothing base).
Lemma PeerDiscovery_conv_ok `{FloatJsonLaws} : kind_ok conv known.
Proof. solve_conv fromJSON toJSON conv known. Qed.
Lemma PeerDiscovery_whole m : fromPartial (whole m) = m.
Proof. solve_whole fromPartial whole m. Qed.
End PeerDiscoveryValue.
#[export] Hint Resolve PeerDiscoveryValue.PeerDiscovery_conv_ok : kind_ok.
#[export] Hint Resolve PeerDiscoveryValue.PeerDiscovery_whole : whole.

(** ** [OnlineRequest] (rendezvous.ts, lines 2192-2218) *)
Module OnlineRequestValue.
Definition fields `{FloatJson} (message : OnlineRequest.t) : list (string * option json) :=
  let 'OnlineRequest.mk id peers := message in
  [("id", omit_if (id =? "") (to_json json_string id));
   ("peers", many json_string peers)].
Definition toJSON `{FloatJson} (message : OnlineRequest.t) : json := JObj (present (fields message)).
Definition fromJSON `{FloatJson} (object : json) : outcome OnlineRequest.t :=
  id ← read json_string "id" "" object;
  peers ← read_list json_string "peers" object;
  mret (OnlineRequest.mk id peers).
Definition conv `{FloatJson} : kind OnlineRequest.t := {| to_json := toJSON; of_json := fromJSON |}.
Definition known (message : OnlineRequest.t) : Prop :=
  True.
Record partial := { id : maybe string; peers : maybe (list string) }.
Definition nothing : partial := {| id := None; peers := None |}.
Definition fromPartial (object : partial) : OnlineRequest.t := {|
  OnlineRequest.id := default "" object.(id);
  OnlineRequest.peers := default [] object.(peers) |}.
Definition whole (message : OnlineRequest.t) : partial :=
  let 'OnlineRequest.mk id peers := message in
  {| id := Some id; peers := Some peers |}.
Definition create (base : maybe partial) : OnlineRequest.t := fromPartial (default nothing base).
Lemma OnlineRequest_conv_ok `{FloatJsonLaws} : kind_ok conv known.
Proof. solve_conv fromJSON toJSON conv known. Qed.
Lemma OnlineRequest_whole m : fromPartial (whole m) = m.
Proof. solve_whole fromPartial whole m. Qed.
End OnlineRequestValue.
#[export] Hint Resolve OnlineRequestValue.OnlineRequest_conv_ok : kind_ok.
#[export] Hint Resolve OnlineRequestValue.OnlineRequest_whole : whole.

(** ** [OnlineResponse] (rendezvous.ts, lines 2256-2275) *)
Module OnlineResponseValue.
Definition fields `{FloatJson} (message : OnlineResponse.t) : list (string * option json) :=
  let 'OnlineResponse.mk states := message in
  [("states", omit_if (len states =? 0)%Z (to_json json_bytes states))].
Definition toJSON `{FloatJson} (message : OnlineResponse.t) : json := JObj (present (fields message)).
Definition fromJSON `{FloatJson} (object : json) : outcome OnlineResponse.t :=
  states ← read json_bytes "states" [] object;
  mret (OnlineResponse.mk states).
Definition conv `{FloatJson} : kind OnlineResponse.t := {| to_json := toJSON; of_json := fromJSON |}.
Definition known (message : OnlineResponse.t) : Prop :=
  True.
Record partial := { states : maybe bytes }.
Definition nothing : partial := {| states := None |}.
Definition fromPartial (object : partial) : OnlineResponse.t := {|
  OnlineResponse.states := default [] object.(states) |}.
Definition whole (message : OnlineResponse.t) : partial :=
  let 'OnlineResponse.mk states := message in
  {| states := Some states |}.
Definition create (base : maybe partial) : OnlineResponse.t := fromPartial (default nothing base).
Lemma OnlineResponse_conv_ok `{FloatJsonLaws} : kind_ok conv known.
Proof. solve_conv fromJSON toJSON conv known. Qed.
Lemma OnlineResponse_whole m : fromPartial (whole m) = m.
Proof. solve_whole fromPartial whole m. Qed.
End OnlineResponseValue.
#[export] Hint Resolve OnlineResponseValue.OnlineResponse_conv_ok : kind_ok.
#[export] Hint Resolve OnlineResponseValue.OnlineResponse_whole : whole.

(** ** [KeyExchange] (rendezvous.ts, lines 2313-2332) *)
Module KeyExchangeValue.
Definition fields `{FloatJson} (message : KeyExchange.t) : list (string * option json) :=
  let 'KeyExchange.mk keys := message in
  [("keys", many json_bytes keys)].
Definition toJSON `{FloatJson} (message : KeyExchange.t) : json := JObj (present (fields message)).
Definition fromJSON `{FloatJson} (object : json) : outcome KeyExchange.t :=
  keys ← read_list json_bytes "keys" object;
  mret (KeyExchange.mk keys).
Definition conv `{FloatJson} : kind KeyExchange.t := {| to_json := toJSON; of_json := fromJSON |}.
Definition known (message : KeyExchange.t) : Prop :=
  True.
Record partial := { keys : maybe (list bytes) }.
Definition nothing : partial := {| keys := None |}.
Definition fromPartial (object : partial) : KeyExchange.t := {|
  KeyExchange.keys := default [] object.(keys) |}.
Definition whole (message : KeyExchange.t) : partial :=
  let 'KeyExchange.mk keys := message in
  {| keys := Some keys |}.
Definition create (base : maybe partial) : KeyExchange.t := fromPartial (default nothing base).
Lemma KeyExchange_conv_ok `{FloatJsonLaws} : kind_ok conv known.
Proof. solve_conv fromJSON toJSON conv known. Qed.
Lemma KeyExchange_whole m : fromPartial (whole m) = m.
Proof. solve_whole fromPartial whole m. Qed.
End KeyExchangeValue.
#[export] Hint Resolve KeyExchangeValue.KeyExchange_conv_ok : kind_ok.
#[export] Hint Resolve KeyExchangeValue.KeyExchange_whole : whole.

(** ** [HealthCheck] (rendezvous.ts, lines 2370-2389) *)
Module HealthCheckValue.
Definition fields `{FloatJson} (message : HealthCheck.t) : list (string * option json) :=
  let 'HealthCheck.mk token := message in
  [("token", omit_if (token =? "") (to_json json_string token))].
Definition toJSON `{FloatJson} (message : HealthCheck.t) : json := JObj (present (fields message)).
Definition fromJSON `{FloatJson} (object : json) : outcome HealthCheck.t :=
  token ← read json_string "token" "" object;
  mret (HealthCheck.mk token).
Definition conv `{FloatJson} : kind HealthCheck.t := {| to_json := toJSON; of_json := fromJSON |}.
Definition known (message : HealthCheck.t) : Prop :=
  True.
Record partial := { token : maybe string }.
Definition nothing : partial := {| token := None |}.
Definition fromPartial (object : partial) : HealthCheck.t := {|
  HealthCheck.token := default "" object.(token) |}.
Definition whole (message : HealthCheck.t) : partial :=
  let 'HealthCheck.mk token := message in
  {| token := Some token |}.
Definition create (base : maybe partial) : HealthCheck.t := fromPartial (default nothing base).
Lemma HealthCheck_conv_ok `{FloatJsonLaws} : kind_ok conv known.
Proof. solve_conv fromJSON toJSON conv known. Qed.
Lemma HealthCheck_whole m : fromPartial (whole m) = m.
Proof. solve_whole fromPartial whole m. Qed.
End HealthCheckValue.
#[export] Hint Resolve HealthCheckValue.HealthCheck_conv_ok : kind_ok.
#[export] Hint Resolve HealthCheckValue.HealthCheck_whole : whole.

(** ** [RendezvousMessage] (rendezvous.ts, lines 2649-2821) *)
Module RendezvousMessageValue.
Definition fields `{FloatJson} (message : RendezvousMessage.t) : list (string * option json) :=
  let 'RendezvousMessage.mk register_peer register_peer_response punch_hole_request punch_hole
    punch_hole_sent punch_hole_response fetch_local_addr local_addr configure_update register_pk
    register_pk_response software_update request_relay relay_response test_nat_request
    test_nat_response peer_discovery online_request online_response key_exchange hc := message in
  [("register_peer", to_json RegisterPeerValue.conv <$> register_peer);
   ("register_peer_response", to_json RegisterPeerResponseValue.conv <$> register_peer_response);
   ("punch_hole_request", to_json PunchHoleRequestValue.conv <$> punch_hole_request);
   ("punch_hole", to_json PunchHoleValue.conv <$> punch_hole);
   ("punch_hole_sent", to_json PunchHoleSentValue.conv <$> punch_hole_sent);
   ("punch_hole_response", to_json PunchHoleResponseValue.conv <$> punch_hole_response);
   ("fetch_local_addr", to_json FetchLocalAddrValue.conv <$> fetch_local_addr);
   ("local_addr", to_json LocalAddrValue.conv <$> local_addr);
   ("configure_update", to_json ConfigUpdateValue.conv <$> configure_update);
   ("register_pk", to_json RegisterPkValue.conv <$> register_pk);
   ("register_pk_response", to_json RegisterPkResponseValue.conv <$> register_pk_response);
   ("software_update", to_json SoftwareUpdateValue.conv <$> software_update);
   ("request_relay", to_json RequestRelayValue.conv <$> request_relay);
   ("relay_response", to_json RelayResponseValue.conv <$> relay_response);
   ("test_nat_request", to_json TestNatRequestValue.conv <$> test_nat_request);
   ("test_nat_response", to_json TestNatResponseValue.conv <$> test_nat_response);
   ("peer_discovery", to_json PeerDiscoveryValue.conv <$> peer_discovery);
   ("online_request", to_json OnlineRequestValue.conv <$> online_request);
   ("online_response", to_json OnlineResponseValue.conv <$> online_response);
   ("key_exchange", to_json KeyExchangeValue.conv <$> key_exchange);
   ("hc", to_json HealthCheckValue.conv <$> hc)].
Definition toJSON `{FloatJson} (message : RendezvousMessage.t) : json := JObj (present (fields message)).
Definition fromJSON `{FloatJson} (object : json) : outcome RendezvousMessage.t :=
  register_peer ← read_opt RegisterPeerValue.conv "register_peer" object;
  register_peer_response ← read_opt RegisterPeerResponseValue.conv "register_peer_response" object;
  punch_hole_request ← read_opt PunchHoleRequestValue.conv "punch_hole_request" object;
  punch_hole ← read_opt PunchHoleValue.conv "punch_hole" object;
  punch_hole_sent ← read_opt PunchHoleSentValue.conv "punch_hole_sent" object;
  punch_hole_response ← read_opt PunchHoleResponseValue.conv "punch_hole_response" object;
  fetch_local_addr ← read_opt FetchLocalAddrValue.conv "fetch_local_addr" object;
  local_addr ← read_opt LocalAddrValue.conv "local_addr" object;
  configure_update ← read_opt ConfigUpdateValue.conv "configure_update" object;
  register_pk ← read_opt RegisterPkValue.conv "register_pk" object;
  register_pk_response ← read_opt RegisterPkResponseValue.conv "register_pk_response" object;
  software_update ← read_opt SoftwareUpdateValue.conv "software_update" object;
  request_relay ← read_opt RequestRelayValue.conv "request_relay" object;
  relay_response ← read_opt RelayResponseValue.conv "relay_response" object;
  test_nat_request ← read_opt TestNatRequestValue.conv "test_nat_request" object;
  test_nat_response ← read_opt TestNatResponseValue.conv "test_nat_response" object;
  peer_discovery ← read_opt PeerDiscoveryValue.conv "peer_discovery" object;
  online_request ← read_opt OnlineRequestValue.conv "online_request" object;
  online_response ← read_opt OnlineResponseValue.conv "online_response" object;
  key_exchange ← read_opt KeyExchangeValue.conv "key_exchange" object;
  hc ← read_opt HealthCheckValue.conv "hc" object;
  mret (RendezvousMessage.mk register_peer register_peer_response punch_hole_request punch_hole punch_hole_sent punch_hole_response fetch_local_addr local_addr configure_update register_pk register_pk_response software_update request_relay relay_response test_nat_request test_nat_response peer_discovery online_request online_response key_exchange hc).
Definition conv `{FloatJson} : kind RendezvousMessage.t := {| to_json := toJSON; of_json := fromJSON |}.
(** Every enum number has a name. *)
Definition known (message : RendezvousMessage.t) : Prop :=
  from_option RegisterPeerValue.known True message.(RendezvousMessage.register_peer) /\
  from_option RegisterPeerResponseValue.known True message.(RendezvousMessage.register_peer_response) /\
  from_option PunchHoleRequestValue.known True message.(RendezvousMessage.punch_hole_request) /\
  from_option PunchHoleValue.known True message.(RendezvousMessage.punch_hole) /\
  from_option PunchHoleSentValue.known True message.(RendezvousMessage.punch_hole_sent) /\
  from_option PunchHoleResponseValue.known True message.(RendezvousMessage.punch_hole_response) /\
  from_option FetchLocalAddrValue.known True message.(RendezvousMessage.fetch_local_addr) /\
  from_option LocalAddrValue.known True message.(RendezvousMessage.local_addr) /\
  from_option ConfigUpdateValue.known True message.(RendezvousMessage.configure_update) /\
  from_option RegisterPkValue.known True message.(RendezvousMessage.register_pk) /\
  from_option RegisterPkResponseValue.known True message.(RendezvousMessage.register_pk_response) /\
  from_option SoftwareUpdateValue.known True message.(RendezvousMessage.software_update) /\
  from_option RequestRelayValue.known True message.(RendezvousMessage.request_relay) /\
  from_option RelayResponseValue.known True message.(RendezvousMessage.relay_response) /\
  from_option TestNatRequestValue.known True message.(RendezvousMessage.test_nat_request) /\
  from_option TestNatResponseValue.known True message.(RendezvousMessage.test_nat_response) /\
  from_option PeerDiscoveryValue.known True message.(RendezvousMessage.peer_discovery) /\
  from_option OnlineRequestValue.known True message.(RendezvousMessage.online_request) /\
  from_option OnlineResponseValue.known True message.(RendezvousMessage.online_response) /\
  from_option KeyExchangeValue.known True message.(RendezvousMessage.key_exchange) /\
  from_option HealthCheckValue.known True message.(RendezvousMessage.hc).
Record partial := { register_peer : maybe RegisterPeerValue.partial;
  register_peer_response : maybe RegisterPeerResponseValue.partial;
  punch_hole_request : maybe PunchHoleRequestValue.partial;
  punch_hole : maybe PunchHoleValue.partial; punch_hole_sent : maybe PunchHoleSentValue.partial;
  punch_hole_response : maybe PunchHoleResponseValue.partial;
  fetch_local_addr : maybe FetchLocalAddrValue.partial; local_addr : maybe LocalAddrValue.partial;
  configure_update : maybe ConfigUpdateValue.partial; register_pk : maybe RegisterPkValue.partial;
  register_pk_response : maybe RegisterPkResponseValue.partial;
  software_update : maybe SoftwareUpdateValue.partial;
  request_relay : maybe RequestRelayValue.partial;
  relay_response : maybe RelayResponseValue.partial;
  test_nat_request : maybe TestNatRequestValue.partial;
  test_nat_response : maybe TestNatResponseValue.partial;
  peer_discovery : maybe PeerDiscoveryValue.partial;
  online_request : maybe OnlineRequestValue.partial;
  online_response : maybe OnlineResponseValue.partial;
  key_exchange : maybe KeyExchangeValue.partial; hc : maybe HealthCheckValue.partial }.
Definition nothing : partial := {| register_peer := None; register_peer_response := None; punch_hole_request := None;
  punch_hole := None; punch_hole_sent := None; punch_hole_response := None;
  fetch_local_addr := None; local_addr := None; configure_update := None; register_pk := None;
  register_pk_response := None; software_update := None; request_relay := None;
  relay_response := None; test_nat_request := None; test_nat_response := None;
  peer_discovery := None; online_request := None; online_response := None; key_exchange := None;
  hc := None |}.
Definition fromPartial (object : partial) : RendezvousMessage.t := {|
  RendezvousMessage.register_peer := RegisterPeerValue.fromPartial <$> object.(register_peer);
  RendezvousMessage.register_peer_response := RegisterPeerResponseValue.fromPartial <$> object.(register_peer_response);
  RendezvousMessage.punch_hole_request := PunchHoleRequestValue.fromPartial <$> object.(punch_hole_request);
  RendezvousMessage.punch_hole := PunchHoleValue.fromPartial <$> object.(punch_hole);
  RendezvousMessage.punch_hole_sent := PunchHoleSentValue.fromPartial <$> object.(punch_hole_sent);
  RendezvousMessage.punch_hole_response := PunchHoleResponseValue.fromPartial <$> object.(punch_hole_response);
  RendezvousMessage.fetch_local_addr := FetchLocalAddrValue.fromPartial <$> object.(fetch_local_addr);
  RendezvousMessage.local_addr := LocalAddrValue.fromPartial <$> object.(local_addr);
  RendezvousMessage.configure_update := ConfigUpdateValue.fromPartial <$> object.(configure_update);
  RendezvousMessage.register_pk := RegisterPkValue.fromPartial <$> object.(register_pk);
  RendezvousMessage.register_pk_response := RegisterPkResponseValue.fromPartial <$> object.(register_pk_response);
  RendezvousMessage.software_update := SoftwareUpdateValue.fromPartial <$> object.(software_update);
  RendezvousMessage.request_relay := RequestRelayValue.fromPartial <$> object.(request_relay);
  RendezvousMessage.relay_response := RelayResponseValue.fromPartial <$> object.(relay_response);
  RendezvousMessage.test_nat_request := TestNatRequestValue.fromPartial <$> object.(test_nat_request);
  RendezvousMessage.test_nat_response := TestNatResponseValue.fromPartial <$> object.(test_nat_response);
  RendezvousMessage.peer_discovery := PeerDiscoveryValue.fromPartial <$> object.(peer_discovery);
  RendezvousMessage.online_request := OnlineRequestValue.fromPartial <$> object.(online_request);
  RendezvousMessage.online_response := OnlineResponseValue.fromPartial <$> object.(online_response);
  RendezvousMessage.key_exchange := KeyExchangeValue.fromPartial <$> object.(key_exchange);
  RendezvousMessage.hc := HealthCheckValue.fromPartial <$> object.(hc) |}.
Definition whole (message : RendezvousMessage.t) : partial :=
  let 'RendezvousMessage.mk register_peer register_peer_response punch_hole_request punch_hole
    punch_hole_sent punch_hole_response fetch_local_addr local_addr configure_update register_pk
    register_pk_response software_update request_relay relay_response test_nat_request
    test_nat_response peer_discovery online_request online_response key_exchange hc := message in
  {| register_peer := RegisterPeerValue.whole <$> register_peer;
    register_peer_response := RegisterPeerResponseValue.whole <$> register_peer_response;
    punch_hole_request := PunchHoleRequestValue.whole <$> punch_hole_request;
    punch_hole := PunchHoleValue.whole <$> punch_hole;
    punch_hole_sent := PunchHoleSentValue.whole <$> punch_hole_sent;
    punch_hole_response := PunchHoleResponseValue.whole <$> punch_hole_response;
    fetch_local_addr := FetchLocalAddrValue.whole <$> fetch_local_addr;
    local_addr := LocalAddrValue.whole <$> local_addr;
    configure_update := ConfigUpdateValue.whole <$> configure_update;
    register_pk := RegisterPkValue.whole <$> register_pk;
    register_pk_response := RegisterPkResponseValue.whole <$> register_pk_response;
    software_update := SoftwareUpdateValue.whole <$> software_update;
    request_relay := RequestRelayValue.whole <$> request_relay;
    relay_response := RelayResponseValue.whole <$> relay_response;
    test_nat_request := TestNatRequestValue.whole <$> test_nat_request;
    test_nat_response := TestNatResponseValue.whole <$> test_nat_response;
    peer_discovery := PeerDiscoveryValue.whole <$> peer_discovery;
    online_request := OnlineRequestValue.whole <$> online_request;
    online_response := OnlineResponseValue.whole <$> online_response;
    key_exchange := KeyExchangeValue.whole <$> key_exchange; hc := HealthCheckValue.whole <$> hc |}.
Definition create (base : maybe partial) : RendezvousMessage.t := fromPartial (default nothing base).
Lemma RendezvousMessage_conv_ok `{FloatJsonLaws} : kind_ok conv known.
Proof. solve_conv fromJSON toJSON conv known. Qed.
Lemma RendezvousMessage_whole m : fromPartial (whole m) = m.
Proof. solve_whole fromPartial whole m. Qed.
End RendezvousMessageValue.
#[export] Hint Resolve RendezvousMessageValue.RendezvousMessage_conv_ok : kind_ok.
#[export] Hint Resolve RendezvousMessageValue.RendezvousMessage_whole : whole.
