(* ===== verification/ProtoFacts.v ===== *)
(** * What the generated codecs promise

    The statements about the codecs of [proto/message.ts] and [proto/rendezvous.ts] as a whole:
    what is encoded is decoded again, no input makes a decoder hang, the names of the enums convert
    back and forth, and so do messages and the objects made of them.  The lemmas behind them are in
    the files of the messages. *)
From S2P Require Import Prelude ProtoWire ProtoFile ProtoMedia ProtoSession ProtoMessage ProtoRendezvous.
From S2P Require Import Json ProtoEnums ProtoJson ProtoMessageValues ProtoRendezvousValues.

(** C9.  Every message the protocol can carry survives the wire: [decode] of its encoding is the
    message, for session and for rendezvous messages; two messages are never encoded alike. *)
Theorem codecs_roundtrip `{ProtobufLaws} :
  (forall m, Message.ok m -> Message.decode 0 (Message.encode m) = Ret (m, [])) /\
  (forall m, RendezvousMessage.ok m -> RendezvousMessage.decode 0 (RendezvousMessage.encode m) = Ret (m, [])) /\
  (forall m m', Message.ok m -> Message.ok m' -> Message.encode m = Message.encode m' -> m = m').
Proof.
  assert (Hm : forall m, Message.ok m -> Message.decode 0 (Message.encode m) = Ret (m, [])).
  { intros m Hm. pose proof (Message_roundtrip m [] Hm) as E. by rewrite app_nil_r, len_nil in E. }
  split; [done|]. split.
  - intros m Hok. pose proof (RendezvousMessage_roundtrip m [] Hok) as E.
    by rewrite app_nil_r, len_nil in E.
  - intros m m' Hok Hok' E. pose proof (Hm m Hok) as D. rewrite E, (Hm m' Hok') in D. by simplify_eq.
Qed.

(** C10.  No bytes make a decoder hang or read past the end: whatever a peer or a server sends, decoding
    it ends, with a message or with an exception, and leaves no more input than there was. *)
Theorem decoding_ends `{ProtobufLaws} stop data :
  shrinking data (Message.decode stop data) /\ shrinking data (RendezvousMessage.decode stop data).
Proof.
  split; apply decode_with_shrinks; [apply Message_shrinks|apply RendezvousMessage_shrinks].
Qed.

(** The generated tables. *)
Definition enum_tables : list enum :=
  [Chroma.names; KeyboardMode.names; ControlKey.names; ClipboardFormat.names; FileType.names;
   ImageQuality.names; PermissionInfo_Permission.names; SupportedDecoding_PreferCodec.names;
   OptionMessage_BoolOption.names; BackNotification_BlockInputState.names;
   BackNotification_PrivacyModeState.names; ConnType.names; NatType.names;
   RegisterPkResponse_Result.names; PunchHoleResponse_Failure.names].
Lemma enum_tables_ok : Forall enum_ok enum_tables.
Proof. repeat (apply Forall_cons; split); try apply Forall_nil; solve_enum_ok. Qed.

(** Every number of every generated enum is read back from its name and from itself, and is never
    the number of [UNRECOGNIZED]. *)
Theorem enums_roundtrip names v : names ∈ enum_tables -> v ∈ names.*2 ->
  enum_fromJSON names (VStr (enum_toJSON names v)) = v /\ enum_fromJSON names (VNum v) = v /\ v <> -1.
Proof.
  intros Hn Hv. pose proof enum_tables_ok as Hok. rewrite Forall_forall in Hok.
  destruct (enum_roundtrip names v (Hok _ Hn) Hv) as [E1 E2]. split; [done|]. split; [done|].
  assert (Hall : Forall (fun t : enum => Forall (fun x => x <> -1) t.*2) enum_tables)
    by (apply (bool_decide_unpack _); vm_compute; exact I).
  rewrite Forall_forall in Hall. specialize (Hall _ Hn). rewrite Forall_forall in Hall. auto.
Qed.

(** ** The conversions *)
(** Through the object [toJSON] makes, and through the text of that object. *)
Definition survives {T} (k : kind T) (m : T) : Prop :=
  of_json k (to_json k m) = Ret m /\
  (j ← parse (stringify (to_json k m)); Some (of_json k j)) = Some (Ret m).
Lemma kind_survives {T} (k : kind T) P m : kind_ok k P -> P m -> survives k m.
Proof.
  intros Hk Hm. destruct (Hk m Hm) as (E & _ & Hj). unfold survives. by rewrite parse_stringify; cbn; rewrite ?E.
Qed.

(** C12.  Messages survive as objects.  Every session message and every rendezvous message whose enums
    have names is read back by [fromJSON] from what [toJSON] makes of it, and from the JSON text of
    that; [fromPartial], which the sockets apply to whatever they are given to send, copies every
    message unchanged; and [create] of nothing is the default message. *)
Theorem values_roundtrip `{FloatJsonLaws} :
  (forall m, MessageValue.known m -> survives MessageValue.conv m) /\
  (forall m, RendezvousMessageValue.known m -> survives RendezvousMessageValue.conv m) /\
  (forall m, MessageValue.fromPartial (MessageValue.whole m) = m) /\
  (forall m, RendezvousMessageValue.fromPartial (RendezvousMessageValue.whole m) = m) /\
  MessageValue.create None = Message.createBase /\
  RendezvousMessageValue.create None = RendezvousMessage.createBase.
Proof.
  split_and!; try reflexivity; intros m.
  - apply kind_survives, MessageValue.Message_conv_ok.
  - apply kind_survives, RendezvousMessageValue.RendezvousMessage_conv_ok.
  - apply MessageValue.Message_whole.
  - apply RendezvousMessageValue.RendezvousMessage_whole.
Qed.
