(* ===== verification/Crypto.v ===== *)
(** * Crypto helpers: [helpers/crypto_sodium.js] and [hashPassword]

    The primitives are libsodium's and fast-sha256's, parameters of the model (class [Sodium])
    with the one law the channel relies on: opening undoes sealing under the same key and nonce.
    What the repository itself computes is the nonce of each frame, [makeOnce]. *)
From Stdlib Require Import Strings.Byte.
From S2P Require Import Prelude JsStr.

Class Sodium := {
  (** [crypto_secretbox_easy(message, nonce, key)] and its inverse, which throws on a forgery *)
  secretbox_easy : bytes -> bytes -> bytes -> bytes;
  secretbox_open_easy : bytes -> bytes -> bytes -> outcome bytes;
  (** [crypto_sign_open(signed, pk)] throws when the signature does not verify *)
  sign_open : bytes -> bytes -> outcome bytes;
  (** [crypto_box_easy(message, nonce, theirPk, ourSk)] *)
  box_easy : bytes -> bytes -> bytes -> bytes -> bytes;
  (** [from_base64(s, ORIGINAL)] *)
  from_base64 : string -> outcome bytes;
  (** the digest of the bytes fed to a [sha256.Hash] *)
  sha256 : bytes -> bytes;
}.

Class SodiumLaws `{Sodium} : Prop := {
  secretbox_open : forall m n k, secretbox_open_easy (secretbox_easy m n k) n k = Ret m;
}.

(** The peer's side of [crypto_box_easy]: the public key of a secret key and the opening of a
    sealed box, which gives the text back to the holder of the key it was sealed to. *)
Class BoxLaws `{Sodium} := {
  box_public : bytes -> bytes;
  box_open_easy : bytes -> bytes -> bytes -> bytes -> outcome bytes;
  box_open : forall m n ourSk theirSk,
    box_open_easy (box_easy m n (box_public theirSk) ourSk) n (box_public ourSk) theirSk = Ret m;
}.

(** [for (index = 0; index < 24 && value > 0; index++)]: what is left of the array stays 0. *)
Fixpoint makeOnce_loop (room : nat) (value : Z) : bytes :=
  match room with
  | O => []
  | S room' =>
      if 0 <? value then
        let byte := Z.land (to_int32 value) 0xff in
        byte_of_Z byte :: makeOnce_loop room' ((value - byte) / 256)
      else replicate room x00
  end.
Definition makeOnce (value : Z) : bytes := makeOnce_loop 24 value.

(** The number a little-endian byte string denotes. *)
Fixpoint le_value (bs : bytes) : Z :=
  match bs with [] => 0 | b :: bs => Z_of_byte b + 256 * le_value bs end.

Section Helpers.
Context `{Sodium}.

Definition encrypt (unsigned : bytes) (nonce : Z) (key : bytes) : bytes :=
  secretbox_easy unsigned (makeOnce nonce) key.
Definition decrypt (signed : bytes) (nonce : Z) (key : bytes) : outcome bytes :=
  secretbox_open_easy signed (makeOnce nonce) key.

(** The key argument of [verify]: a base64 string or bytes. *)
Inductive verify_key := PkBase64 (s : string) | PkBytes (b : bytes).
Definition verify (signed : bytes) (pk : verify_key) : outcome bytes :=
  pk ← match pk with PkBase64 s => from_base64 s | PkBytes b => Ret b end;
  sign_open signed pk.

Definition seal (unsigned theirPk ourSk : bytes) : bytes :=
  box_easy unsigned (replicate 24 x00) theirPk ourSk.

(** [hashPassword(datas)]: strings are encoded as UTF-8; an [undefined] makes [update] throw. *)
Inductive hash_data := HashString (s : string) | HashBytes (b : bytes) | HashUndefined.
Definition hash_update (d : hash_data) : outcome bytes :=
  match d with
  | HashString s => Ret (list_byte_of_string s)
  | HashBytes b => Ret b
  | HashUndefined => Throw (VError "TypeError" "Cannot read properties of undefined (reading 'length')")
  end.
Fixpoint hash_updates (datas : list hash_data) : outcome bytes :=
  match datas with
  | [] => Ret []
  | d :: datas => b ← hash_update d; bs ← hash_updates datas; mret (b ++ bs)
  end.
Definition hashPassword (datas : list hash_data) : outcome bytes :=
  bs ← hash_updates datas; mret (sha256 bs).
End Helpers.

(** ** The nonce of a frame *)
Lemma land_to_int32 v : Z.land (to_int32 v) 0xff = v mod 256.
Proof.
  change 0xff with (Z.ones 8). rewrite Z.land_ones by lia. change (2 ^ 8) with 256.
  assert (E : (v mod 2 ^ 32) mod 256 = v mod 256)
    by (rewrite Z.mod_mod_divide; [done|by exists (2 ^ 24)]).
  unfold to_int32. destruct (v mod 2 ^ 32 <? 2 ^ 31); [done|].
  rewrite <- E. rewrite Zminus_mod. change (2 ^ 32 mod 256) with 0.
  by rewrite Z.sub_0_r, Z.mod_mod.
Qed.

Lemma le_value_replicate n : le_value (replicate n x00) = 0.
Proof. induction n as [|n IH]; [done|]. cbn [replicate le_value]. by rewrite IH. Qed.

Lemma makeOnce_loop_value room v :
  0 <= v < 256 ^ Z.of_nat room -> le_value (makeOnce_loop room v) = v.
Proof.
  revert v. induction room as [|room IH]; intros v Hv.
  { change (256 ^ Z.of_nat 0) with 1 in Hv. cbn. lia. }
  cbn [makeOnce_loop]. destruct (Z.ltb_spec 0 v); [|rewrite le_value_replicate; lia].
  cbn [le_value]. rewrite land_to_int32, Z_of_byte_of_Z, Z.mod_mod by lia.
  rewrite Nat2Z.inj_succ, Z.pow_succ_r in Hv by lia.
  pose proof (Z.div_mod v 256 ltac:(lia)) as Hdm.
  replace ((v - v mod 256) / 256) with (v / 256)
    by (replace (v - v mod 256) with (v / 256 * 256) by lia; by rewrite Z.div_mul).
  rewrite IH; [lia|]. split; [apply Z.div_pos; lia|apply Z.div_lt_upper_bound; lia].
Qed.

Lemma makeOnce_value v : 0 <= v < 2 ^ 192 -> le_value (makeOnce v) = v.
Proof. apply (makeOnce_loop_value 24). Qed.

Lemma makeOnce_length v : length (makeOnce v) = 24%nat.
Proof.
  unfold makeOnce. generalize 24%nat as room. intros room. revert v.
  induction room as [|room IH]; intros v; [done|]. cbn [makeOnce_loop].
  destruct (0 <? v); [|apply length_replicate]. cbn [length]. by rewrite IH.
Qed.

Lemma makeOnce_inj v w :
  0 <= v < 2 ^ 192 -> 0 <= w < 2 ^ 192 -> makeOnce v = makeOnce w -> v = w.
Proof.
  intros Hv Hw E. rewrite <- (makeOnce_value v), <- (makeOnce_value w) by done. by rewrite E.
Qed.

Section Laws.
Context `{SodiumLaws}.
Lemma decrypt_encrypt m n k : decrypt (encrypt m n k) n k = Ret m.
Proof. apply secretbox_open. Qed.
End Laws.
