(* ===== verification/Config.v ===== *)
(** * Configuration: [helpers/config.ts], and [helpers/format_error.ts]

    [localStorage] is a map from keys to strings.  An embedded INI text provides defaults and
    overrides; [getEffectiveOption] is the precedence rule every other part reads options with. *)
From Stdlib Require Import Strings.Ascii.
From S2P Require Import Prelude JsMap JsStr Json Base64.
Local Open Scope string_scope.

Abbreviation storage := (gmap string string).
Abbreviation ini := (jsmap string (jsmap string string)).

(** ** [parseIniConfig] *)
(** The [for] loop's variables: [result] and [currentSection]. *)
Definition ini_line (st : ini * string) (line : string) : ini * string :=
  let '(result, currentSection) := st in
  let line := trim line in
  if (line =? "") || startsWith line "#" || startsWith line ";" then st
  else if startsWith line "[" && endsWith line "]" then
    let currentSection := trim (substring 1 (String.length line - 2) line) in
    (map_set result currentSection [], currentSection)
  else
    let eqIdx := indexOf line "=" in
    if (0 <? eqIdx)%Z then
      let key := trim (slice_to (Z.to_nat eqIdx) line) in
      let value := trim (slice_from (Z.to_nat (eqIdx + 1)) line) in
      if negb (currentSection =? "") then
        (map_set result currentSection
           (map_set (default [] (map_get result currentSection)) key value), currentSection)
      else
        let result := if map_has result "" then result else map_set result "" [] in
        (map_set result "" (map_set (default [] (map_get result "")) key value), currentSection)
    else st.

Definition newline : ascii := "010".
Definition parseIniConfig (text : string) : ini :=
  (foldl ini_line ([], "") (split_on newline text)).1.

(** ** [loadCustomConfig] *)
Definition normalizeSettingName (mode : string) (settings : jsmap string string) (st : storage) :
    storage :=
  foldl (fun st kv =>
    let normalized := replace_all "_" "-" kv.1 in
    let st := <[mode ++ ":" ++ normalized := kv.2]> st in
    let underscored := replace_all "-" "_" normalized in
    <[mode ++ ":" ++ underscored := kv.2]> st) st settings.

(** [config[""]["app-name"]], when both are truthy *)
Definition app_name (config : ini) : option string :=
  sec ← map_get config ""; v ← map_get sec "app-name";
  if v =? "" then None else Some v.

(** [loadCustomConfig]: [el] is the text of the [custom-config] element; an exception of [atob]
    leaves the text as it is. *)
Definition loadCustomConfig (el : option string) (st : storage) : storage :=
  match el with
  | None => st
  | Some text =>
      let text := trim text in
      if text =? "" then st else
      let text := match atob text with Ret decoded => binary_string decoded | _ => text end in
      let config := parseIniConfig text in
      let st := match app_name config with
                | Some v => <["app-name" := v]> st | None => st end in
      let st := match map_get config "default-settings" with
                | Some s => normalizeSettingName "default" s st | None => st end in
      match map_get config "override-settings" with
      | Some s => normalizeSettingName "override" s st | None => st end
  end.

Definition getEffectiveOption (st : storage) (key : string) : string :=
  match st !! ("override:" ++ key) with
  | Some v => v
  | None =>
      match st !! key with
      | Some v => v
      | None => default "" (st !! ("default:" ++ key))
      end
  end.

(** ** [formatErrorMessage] *)
(** [String(value)] *)
Definition js_String (v : jsval) : string :=
  match v with
  | VUndefined => "undefined"
  | VNull => "null"
  | VBool b => string_of_bool b
  | VNum n => string_of_Z n
  | VStr s => s
  | VError name message => if message =? "" then name else name ++ ": " ++ message
  | VObj _ => "[object Object]"
  end.

(** [typeof obj.f === "string" && obj.f] *)
Fixpoint string_field (fields : list (string * jsval)) (f : string) : option string :=
  match fields with
  | [] => None
  | (k, v) :: fields =>
      if k =? f then match v with VStr s => if s =? "" then None else Some s | _ => None end
      else string_field fields f
  end.

Definition formatErrorMessage (value : jsval) (fallback : string) : string :=
  match value with
  | VUndefined | VNull => fallback
  | VStr s => if s =? "" then fallback else s
  | VError _ message => if message =? "" then fallback else message
  | VObj fields =>
      match string_field fields "message", string_field fields "reason",
            string_field fields "text" with
      | Some m, _, _ => m
      | None, Some r, _ => r
      | None, None, Some t => t
      | None, None, None => fallback
      end
  | v => js_String v
  end.

(** ** Laws *)
Lemma string_of_Z_nonempty n : string_of_Z n <> "".
Proof. destruct (number_head n) as (c & r & -> & _). done. Qed.

Lemma string_field_nonempty fields f v : string_field fields f = Some v -> v <> "".
Proof.
  induction fields as [|[k x] fields IH]; cbn; [done|]. destruct (k =? f); [|done].
  destruct x as [| | | |s| |]; try done. destruct (String.eqb_spec s ""); [done|]. by intros [= <-].
Qed.
(** Whatever is thrown, the user gets to read something. *)
Lemma formatErrorMessage_nonempty v fallback : fallback <> "" -> formatErrorMessage v fallback <> "".
Proof.
  intros Hf. destruct v as [| |[]|n|s|name msg|fields]; cbn; try done; [apply string_of_Z_nonempty|..].
  - by destruct (String.eqb_spec s "").
  - by destruct (String.eqb_spec msg "").
  - destruct (string_field fields "message") eqn:E1; [by eapply string_field_nonempty|].
    destruct (string_field fields "reason") eqn:E2; [by eapply string_field_nonempty|].
    destruct (string_field fields "text") eqn:E3; [by eapply string_field_nonempty|done].
Qed.

Lemma string_app_inj (p s t : string) : p ++ s = p ++ t -> s = t.
Proof. induction p as [|c p IH]; [done|]. intros [= E]. by apply IH. Qed.

Lemma replace_all_hyphenated k :
  replace_all "_" "-" (replace_all "-" "_" (replace_all "_" "-" k)) = replace_all "_" "-" k.
Proof.
  induction k as [|c k IH]; [done|].
  destruct c as [[] [] [] [] [] [] [] []]; exact (f_equal (String _) IH).
Qed.
Lemma replace_all_twice k : replace_all "_" "-" (replace_all "_" "-" k) = replace_all "_" "-" k.
Proof.
  induction k as [|c k IH]; [done|].
  destruct c as [[] [] [] [] [] [] [] []]; exact (f_equal (String _) IH).
Qed.

(** The two spellings under which a setting is stored, and the name they share. *)
Definition hyphenated (k : string) : string := replace_all "_" "-" k.
Definition underscored (k : string) : string := replace_all "-" "_" (hyphenated k).
Lemma hyphenated_spelling k w :
  w = hyphenated k \/ w = underscored k -> hyphenated w = hyphenated k.
Proof. intros [->| ->]; [apply replace_all_twice|apply replace_all_hyphenated]. Qed.

Lemma setting_key_inj mode v w : mode ++ ":" ++ v = mode ++ ":" ++ w -> v = w.
Proof. intros E%string_app_inj. by injection E. Qed.

Lemma normalizeSettingName_other mode settings st w :
  hyphenated w ∉ map (fun kv => hyphenated kv.1) settings ->
  normalizeSettingName mode settings st !! (mode ++ ":" ++ w) = st !! (mode ++ ":" ++ w).
Proof.
  unfold normalizeSettingName. revert st.
  induction settings as [|[k v] settings IH]; intros st; [done|].
  cbn [map foldl fst snd]. rewrite not_elem_of_cons. intros [Hne Hw]. rewrite IH by done.
  rewrite !lookup_insert_ne; [done| |];
    intros <-%setting_key_inj; destruct Hne; apply hyphenated_spelling; auto.
Qed.

Lemma normalizeSettingName_lookup mode settings st k v w :
  NoDup (map (fun kv => hyphenated kv.1) settings) -> (k, v) ∈ settings ->
  w = hyphenated k \/ w = underscored k ->
  normalizeSettingName mode settings st !! (mode ++ ":" ++ w) = Some v.
Proof.
  intros Hn Hin Hw. revert st. induction settings as [|[k' v'] settings IH]; intros st;
    [by apply not_elem_of_nil in Hin|].
  cbn [map] in Hn. apply NoDup_cons in Hn as [Hk Hn].
  apply elem_of_cons in Hin as [[= <- <-]|Hin]; [|by apply IH].
  unfold normalizeSettingName. cbn [foldl fst snd].
  change (normalizeSettingName mode settings
    (<[mode ++ ":" ++ underscored k := v]> (<[mode ++ ":" ++ hyphenated k := v]> st))
    !! (mode ++ ":" ++ w) = Some v).
  rewrite normalizeSettingName_other by (by rewrite (hyphenated_spelling k w Hw)).
  destruct (decide (w = underscored k)) as [->|Hne]; [by rewrite lookup_insert_eq|].
  destruct Hw as [->|]; [|done]. rewrite lookup_insert_ne; [by rewrite lookup_insert_eq|].
  intros E%setting_key_inj. done.
Qed.
