(* ===== verification/ViewerCrypto.v ===== *)
(** * The password token: [helpers/viewer-crypto.js]

    The page that opens the viewer sends the password of the session encrypted to the viewer's
    key, in an unsigned JWT.  [decryptToken] takes the envelope apart and decrypts it.  The
    browser's WebCrypto is the class [WebCrypto]; base64, text decoding and JSON are modelled. *)
From Stdlib Require Import Strings.Byte Strings.Ascii.
From S2P Require Import Prelude JsMap JsStr Json Base64.
Local Open Scope string_scope.

Class WebCrypto := {
  public_key : Type;
  private_key : Type;
  (** [importKey("spki", ...)] of an ECDH P-256 key *)
  import_spki : bytes -> outcome public_key;
  (** [deriveBits({ name: "ECDH", public }, privateKey, 256)] *)
  ecdh : public_key -> private_key -> outcome bytes;
  (** [deriveBits({ name: "HKDF", hash: "SHA-256", salt, info }, key, 256)], key first *)
  hkdf : bytes -> bytes -> bytes -> bytes;
  (** [decrypt({ name: "AES-GCM", iv }, key, data)]: [iv], key, data *)
  aes_gcm_decrypt : bytes -> bytes -> bytes -> outcome bytes;
}.

Definition HKDF_INFO : string := "fort-rc-token-v1".

Definition arrayBufferToBase64 (buffer : bytes) : string := btoa buffer.
Definition base64ToArrayBuffer (b64 : string) : outcome bytes := atob b64.

Definition base64UrlToArrayBuffer (b64url : string) : outcome bytes :=
  let b64 := replace_all "_" "/" (replace_all "-" "+" b64url) in
  let pad := (str_len b64 mod 4)%Z in
  base64ToArrayBuffer
    (if (pad =? 2)%Z then b64 ++ "==" else if (pad =? 3)%Z then b64 ++ "="
     else if (pad =? 1)%Z then b64 ++ "===" else b64).

Definition parseUnsignedJwtPayload (jwt : string) : outcome json :=
  match split_on "." jwt with
  | _ :: part :: _ =>
      buffer ← base64UrlToArrayBuffer part;
      match parse (TextDecoder_decode buffer) with
      | Some payload => Ret payload
      | None => Throw (VError "SyntaxError" "invalid JSON")
      end
  | _ => Throw (VError "Error" "invalid JWT envelope")
  end.

(** [const { f } = payload]; only an object has such fields, and [null] throws. *)
Definition destructure (payload : json) (f : string) : outcome (option json) :=
  match payload with
  | JNull => Throw (VError "TypeError" "Cannot destructure")
  | JObj o => Ret (map_get o f)
  | _ => Ret None
  end.
(** The text of a member that passed the truth test. *)
Definition crypto_field (v : option json) : option string :=
  match v with Some j => if truthy j then Some (json_String j) else None | None => None end.

Section ViewerCrypto.
Context `{WebCrypto}.

Definition deriveAesKey (privateKey : private_key) (ephemeralPublicKey : public_key) : outcome bytes :=
  sharedBits ← ecdh ephemeralPublicKey privateKey;
  Ret (hkdf sharedBits [] (list_byte_of_string HKDF_INFO)).

Definition decryptToken (privateKey : private_key) (encryptedTokenB64 : string) : outcome string :=
  envelope ← base64ToArrayBuffer encryptedTokenB64;
  payload ← parseUnsignedJwtPayload (TextDecoder_decode envelope);
  encryptedToken ← destructure payload "encryptedToken";
  iv ← destructure payload "iv";
  ephemeralPublicKey ← destructure payload "ephemeralPublicKey";
  match crypto_field encryptedToken, crypto_field iv, crypto_field ephemeralPublicKey with
  | Some encryptedToken, Some iv, Some ephemeralPublicKey =>
      spki ← base64ToArrayBuffer ephemeralPublicKey;
      ephemeralPub ← import_spki spki;
      aesKey ← deriveAesKey privateKey ephemeralPub;
      iv ← base64ToArrayBuffer iv;
      data ← base64ToArrayBuffer encryptedToken;
      plaintext ← aes_gcm_decrypt iv aesKey data;
      mret (TextDecoder_decode plaintext)
  | _, _, _ => Throw (VError "Error" "JWT envelope missing crypto fields")
  end.
End ViewerCrypto.

(** ** What the opener sends

    The other half of the key agreement and of AES-GCM, and how the halves fit. *)
Class WebCryptoLaws `{WebCrypto} := {
  public_of : private_key -> public_key;
  export_spki : public_key -> bytes;
  aes_gcm_encrypt : bytes -> bytes -> bytes -> bytes;
  import_export : forall pk, import_spki (export_spki pk) = Ret pk;
  export_nonempty : forall pk, export_spki pk <> [];
  ecdh_agrees : forall a b, exists s, ecdh (public_of a) b = Ret s /\ ecdh (public_of b) a = Ret s;
  gcm_nonempty : forall iv k m, aes_gcm_encrypt iv k m <> [];
  gcm_opens : forall iv k m, aes_gcm_decrypt iv k (aes_gcm_encrypt iv k m) = Ret m;
}.

(** Unpadded base64url. *)
Definition url_char (v : Z) : ascii :=
  let c := b64_char v in if Ascii.eqb c "+" then "-" else if Ascii.eqb c "/" then "_" else c.
Definition base64url (bs : bytes) : string := string_of_list_ascii (map url_char (sextets bs)).

Section Opener.
Context `{WebCryptoLaws}.

(** The payload of protocol version 1, as the comment at the top of the file describes it. *)
Definition envelope_payload (ephemeral : private_key) (shared iv : bytes) (token : string) : json :=
  JObj [("encryptedToken", JStr (btoa (aes_gcm_encrypt iv (hkdf shared [] (list_byte_of_string HKDF_INFO))
          (list_byte_of_string token))));
        ("iv", JStr (btoa iv));
        ("ephemeralPublicKey", JStr (btoa (export_spki (public_of ephemeral))))].
Definition envelope (header signature : string) (payload : json) : string :=
  btoa (list_byte_of_string (header ++ "." ++ base64url (list_byte_of_string (stringify payload)) ++ "." ++ signature)).
End Opener.

(** ** ASCII texts *)
Definition is_ascii (c : ascii) : bool := (nat_of_ascii c <? 128)%nat.
Definition no_dot (c : ascii) : bool := negb (Ascii.eqb "." c).
Lemma ascii_utf8 s : str_forall is_ascii s = true -> utf8_text s.
Proof.
  intros H. apply ascii_text. unfold list_byte_of_string. revert H.
  induction s as [|c s IH]; [done|]. cbn. intros [Hc Hs]%andb_true_iff. rewrite IH by done.
  rewrite andb_true_r. revert Hc. clear. unfold is_ascii, is_ascii_byte, Z_of_byte.
  destruct c as [[] [] [] [] [] [] [] []]; by vm_compute.
Qed.
Lemma str_forall_list P cs : str_forall P (string_of_list_ascii cs) = forallb P cs.
Proof. induction cs as [|c cs IH]; [done|]. cbn. by rewrite IH. Qed.
Lemma chars_forall (P : ascii -> bool) (char : Z -> ascii) vs :
  Forall sextet vs -> forallb (fun v => P (char (Z.of_nat v))) (seq 0 64) = true ->
  forallb P (map char vs) = true.
Proof.
  intros Hvs HP. rewrite forallb_forall in HP. induction Hvs as [|v vs Hv _ IH]; [done|]. cbn.
  rewrite IH, andb_true_r. unfold sextet in Hv. specialize (HP (Z.to_nat v)). rewrite Z2Nat.id in HP by lia.
  apply HP, in_seq. lia.
Qed.
Lemma btoa_forall (P : ascii -> bool) bs :
  P "="%char = true -> forallb (fun v => P (b64_char (Z.of_nat v))) (seq 0 64) = true ->
  str_forall P (btoa bs) = true.
Proof.
  intros Hp HP. unfold btoa. rewrite str_forall_list, forallb_app.
  rewrite chars_forall by (done || apply sextets_range). unfold padding.
  destruct (length bs mod 3)%nat as [|[|[|]]]; cbn; by rewrite ?Hp.
Qed.

(** ** base64url *)
Lemma url_chars_back vs : Forall sextet vs ->
  replace_all "_" "/" (replace_all "-" "+" (string_of_list_ascii (map url_char vs))) =
  string_of_list_ascii (map b64_char vs).
Proof.
  induction 1 as [|v vs Hv _ IH]; [done|]. cbn. rewrite IH. f_equal. revert v Hv.
  apply (all_sextets (fun v => (if ((if (url_char v =? "-")%char then "+" else url_char v) =? "_")%char then "/"
    else if (url_char v =? "-")%char then "+" else url_char v)%char = b64_char v)).
  repeat constructor.
Qed.
Lemma string_of_list_ascii_app cs ds :
  string_of_list_ascii (cs ++ ds) = string_of_list_ascii cs ++ string_of_list_ascii ds.
Proof. induction cs as [|c cs IH]; [done|]. cbn. by rewrite IH. Qed.
Lemma string_of_list_ascii_len cs : str_len (string_of_list_ascii cs) = Z.of_nat (length cs).
Proof. unfold str_len. f_equal. induction cs as [|c cs IH]; [done|]. cbn. by rewrite IH. Qed.

Lemma base64url_roundtrip bs : base64UrlToArrayBuffer (base64url bs) = Ret bs.
Proof.
  unfold base64UrlToArrayBuffer, base64url, base64ToArrayBuffer.
  rewrite url_chars_back by apply sextets_range.
  rewrite <- (atob_btoa bs). f_equal. unfold btoa. rewrite string_of_list_ascii_app.
  rewrite string_of_list_ascii_len, length_map, sextets_length, <- (Nat2Z.inj_mod _ 4).
  rewrite Nat.mul_comm, Nat.add_comm, Nat.Div0.mod_add. unfold padding.
  pose proof (Nat.mod_upper_bound (length bs) 3).
  destruct (length bs mod 3)%nat as [|[|[|]]]; [by rewrite string_app_nil_r|done|done|lia].
Qed.

(** The JSON text of a payload made of ASCII strings is ASCII. *)
Lemma quote_chars_ascii s : str_forall is_ascii s = true -> str_forall is_ascii (quote_chars s) = true.
Proof.
  induction s as [|c s IH]; [done|]. cbn [str_forall quote_chars]. intros [Hc Hs]%andb_true_iff.
  rewrite str_forall_app, (IH Hs), andb_true_r. revert Hc. clear.
  destruct c as [[] [] [] [] [] [] [] []]; by vm_compute.
Qed.
Lemma quote_ascii s : str_forall is_ascii s = true -> str_forall is_ascii (quote s) = true.
Proof. intros H. unfold quote. cbn. by rewrite str_forall_app, quote_chars_ascii. Qed.

Section Token.
Context `{WebCryptoLaws}.

Lemma payload_ascii e shared iv token : str_forall is_ascii (stringify (envelope_payload e shared iv token)) = true.
Proof.
  unfold envelope_payload. cbn [stringify map fst snd join]. rewrite !str_forall_app, !quote_ascii; try done; by apply btoa_forall.
Qed.
Lemma base64url_forall (P : ascii -> bool) bs :
  forallb (fun v => P (url_char (Z.of_nat v))) (seq 0 64) = true -> str_forall P (base64url bs) = true.
Proof. intros HP. unfold base64url. rewrite str_forall_list. by apply chars_forall; [apply sextets_range|]. Qed.

Lemma crypto_field_btoa bs : bs <> [] -> crypto_field (Some (JStr (btoa bs))) = Some (btoa bs).
Proof.
  intros Hb. unfold crypto_field, truthy, truthy_json, truthy, truthy_string.
  rewrite bool_decide_true; [done|]. intros E. apply Hb. pose proof (atob_btoa bs) as Ha. rewrite E in Ha.
  by injection Ha.
Qed.

Lemma payload_fields e shared iv token :
  let payload := envelope_payload e shared iv token in
  destructure payload "encryptedToken" = Ret (Some (JStr (btoa (aes_gcm_encrypt iv
    (hkdf shared [] (list_byte_of_string HKDF_INFO)) (list_byte_of_string token))))) /\
  destructure payload "iv" = Ret (Some (JStr (btoa iv))) /\
  destructure payload "ephemeralPublicKey" = Ret (Some (JStr (btoa (export_spki (public_of e))))).
Proof. done. Qed.

(** C21.  The token survives the trip.  Whatever key pair the viewer announced, an opener that follows
    protocol version 1 -- deriving the key from an ephemeral key pair, sealing the token under a
    nonce, and wrapping the pieces in an unsigned JWT with any header and signature of URL-safe
    characters -- sends an envelope that [decryptToken] turns back into the token. *)
Theorem token_roundtrip viewer ephemeral shared iv token header signature :
  ecdh (public_of viewer) ephemeral = Ret shared -> iv <> [] -> utf8_text token ->
  str_forall is_ascii (header ++ signature) = true -> str_forall no_dot header = true ->
  decryptToken viewer (envelope header signature (envelope_payload ephemeral shared iv token)) = Ret token.
Proof.
  intros Hs Hiv Htok Ha Hd. rewrite str_forall_app in Ha. apply andb_true_iff in Ha as [Hh Hsig].
  unfold decryptToken, envelope, base64ToArrayBuffer. rewrite atob_btoa. cbn [mbind outcome_bind].
  set (payload := envelope_payload ephemeral shared iv token).
  rewrite TextDecoder_text by (apply ascii_utf8; rewrite !str_forall_app, Hh, Hsig, base64url_forall; done).
  unfold parseUnsignedJwtPayload. change ("." ++ ?s) with (String "." s).
  rewrite split_on_cut by done. change ("." ++ signature) with (String "." signature).
  rewrite split_on_cut by (by apply base64url_forall).
  rewrite base64url_roundtrip. cbn [mbind outcome_bind].
  rewrite TextDecoder_text by (apply ascii_utf8, payload_ascii).
  rewrite parse_stringify by (cbn; split; [apply (bool_decide_unpack _); vm_compute; exact I|done]).
  destruct (payload_fields ephemeral shared iv token) as (F1 & F2 & F3). fold payload in F1, F2, F3.
  destruct (ecdh_agrees viewer ephemeral) as (s & Es & Es'). rewrite Hs in Es. injection Es as <-.
  cbn [mbind outcome_bind]. rewrite F1, F2, F3. cbn [mbind outcome_bind].
  rewrite !crypto_field_btoa by (done || apply gcm_nonempty || apply export_nonempty).
  rewrite !atob_btoa. cbn [mbind outcome_bind]. rewrite import_export. cbn [mbind outcome_bind].
  unfold deriveAesKey. rewrite Es'. cbn [mbind outcome_bind]. rewrite gcm_opens. cbn [mbind outcome_bind mret outcome_ret].
  by rewrite TextDecoder_text.
Qed.
End Token.
