(* ===== verification/YCbCr.v ===== *)
(** * From YCbCr to RGB: [web/yuv-canvas-1.2.6.js]

    [convertYCbCr] turns a decoded frame into RGBA bytes: one loop for frames with a quarter of the
    chroma samples (two rows and two columns at a time, four running pointers), one for any other
    ratio of powers of two.  The theorem says that both compute the same picture, pixel by pixel,
    that of a formula; numbers are written out as the code has them, with [| 0] as [to_int32].
    An index outside a typed array reads [undefined], 0 after [| 0], and is not written. *)
From Stdlib Require Import Strings.Byte.
From stdpp Require Import numbers list_numbers.
From S2P Require Import Prelude.

(** ** Frames *)
Record format := {
  displayWidth : Z; displayHeight : Z; width : Z; height : Z; cropLeft : Z; cropTop : Z;
  chromaWidth : Z; chromaHeight : Z }.
Record plane := { plane_bytes : bytes; stride : Z }.
Record planes := { plane_y : plane; plane_u : plane; plane_v : plane }.

(** ** Ratios: [depower] *)
(** [while (n != 0) { n = n >> 1; shiftCount++ }]; 32 turns are enough unless [n] is negative, for
    which the loop does not end. *)
Fixpoint shift_count (fuel : nat) (n : Z) : outcome Z :=
  if n =? 0 then Ret 0
  else match fuel with
       | O => OutOfFuel
       | S fuel => c ← shift_count fuel (Z.shiftr n 1); mret (c + 1)
       end.
Section Depower.
(** How a quotient prints. *)
Context (ratio_text : Z -> Z -> string).
(** The ratio is [num / den]; a division by zero gives an infinity or [NaN], 0 after [>>]. *)
Definition depower (num den : Z) : outcome Z :=
  shiftCount ← shift_count 32 (Z.shiftr (to_int32 (Z.quot num den)) 1);
  if negb (den =? 0) && (num =? den * to_int32 (Z.shiftl 1 shiftCount)) then mret shiftCount
  else Throw (VStr (String.append "chroma plane dimensions must be power of 2 ratio to luma plane dimensions; got "
                      (ratio_text num den))).
End Depower.

(** ** Pixels *)
(** [b[i] | 0] *)
Definition read (b : bytes) (i : Z) : Z :=
  if i <? 0 then 0 else match b !! Z.to_nat i with Some x => Z_of_byte x | None => 0 end.
(** [out[i] = v] of a [Uint8ClampedArray] *)
Definition clamp8 (v : Z) : Z := Z.max 0 (Z.min 255 v).
Definition store (out : bytes) (i v : Z) : bytes :=
  if i <? 0 then out else <[Z.to_nat i := byte_of_Z (clamp8 v)]> out.
Definition shift8 (v : Z) : Z := Z.shiftr (to_int32 v) 8.

Definition multCrR (colorCr : Z) : Z := to_int32 (to_int32 (409 * colorCr) - 57088).
Definition multCbCrG (colorCb colorCr : Z) : Z := to_int32 (to_int32 (100 * colorCb) + to_int32 (208 * colorCr) - 34816).
Definition multCbB (colorCb : Z) : Z := to_int32 (to_int32 (516 * colorCb) - 70912).
Definition multY (b : bytes) (i : Z) : Z := to_int32 (298 * read b i).
(** The three assignments of a pixel. *)
Definition put_pixel (out : bytes) (ptr y cb cr : Z) : bytes :=
  store (store (store out ptr (shift8 (y + multCrR cr)))
    (ptr + 1) (shift8 (y - multCbCrG cb cr)))
    (ptr + 2) (shift8 (y + multCbB cb)).

(** ** Two rows and two columns at a time *)
Record cursor := {
  output : bytes; outPtr0 : Z; outPtr1 : Z; Y0Ptr : Z; Y1Ptr : Z; CbPtr : Z; CrPtr : Z; ydec : Z }.
Definition quad (p : planes) (s : cursor) : cursor :=
  let Y := plane_bytes (plane_y p) in
  let colorCb := read (plane_bytes (plane_u p)) (CbPtr s) in
  let colorCr := read (plane_bytes (plane_v p)) (CrPtr s) in
  let out := put_pixel (output s) (outPtr0 s) (multY Y (Y0Ptr s)) colorCb colorCr in
  let out := put_pixel out (outPtr0 s + 4) (multY Y (Y0Ptr s + 1)) colorCb colorCr in
  let out := put_pixel out (outPtr1 s) (multY Y (Y1Ptr s)) colorCb colorCr in
  let out := put_pixel out (outPtr1 s + 4) (multY Y (Y1Ptr s + 1)) colorCb colorCr in
  {| output := out; outPtr0 := outPtr0 s + 8; outPtr1 := outPtr1 s + 8; Y0Ptr := Y0Ptr s + 2;
     Y1Ptr := Y1Ptr s + 2; CbPtr := CbPtr s + 1; CrPtr := CrPtr s + 1; ydec := ydec s |}.
(** The values of a counter that starts at 0 and goes up by two below [n]. *)
Definition by_two (n : Z) : list Z := map (Z.mul 2) (seqZ 0 ((n + 1) / 2)).
Definition row_pair (w : Z) (p : planes) (s : cursor) (y : Z) : cursor :=
  let strideY := to_int32 (stride (plane_y p)) in
  let y0 := to_int32 (y * strideY) in
  let s := {| output := output s; outPtr0 := outPtr0 s; outPtr1 := outPtr1 s; Y0Ptr := y0; Y1Ptr := to_int32 (y0 + strideY);
              CbPtr := to_int32 (ydec s * to_int32 (stride (plane_u p)));
              CrPtr := to_int32 (ydec s * to_int32 (stride (plane_v p))); ydec := ydec s |} in
  let s := foldl (fun s _ => quad p s) s (by_two w) in
  let outStride := to_int32 (Z.shiftl w 2) in
  {| output := output s; outPtr0 := outPtr0 s + outStride; outPtr1 := outPtr1 s + outStride; Y0Ptr := Y0Ptr s;
     Y1Ptr := Y1Ptr s; CbPtr := CbPtr s; CrPtr := CrPtr s; ydec := ydec s + 1 |}.
Definition convert_quarter (w h : Z) (p : planes) (out : bytes) : bytes :=
  output (foldl (row_pair w p)
    {| output := out; outPtr0 := 0; outPtr1 := to_int32 (Z.shiftl w 2); Y0Ptr := 0; Y1Ptr := 0; CbPtr := 0; CrPtr := 0;
       ydec := 0 |} (by_two h)).

(** ** One pixel at a time *)
Record one_cursor := { one_output : bytes; outPtr : Z; YPtr : Z }.
Definition one_pixel (hdec cb cr : Z) (p : planes) (s : one_cursor) (x : Z) : one_cursor :=
  let xdec := Z.shiftr x hdec in
  let colorCb := read (plane_bytes (plane_u p)) (cb + xdec) in
  let colorCr := read (plane_bytes (plane_v p)) (cr + xdec) in
  {| one_output := put_pixel (one_output s) (outPtr s) (multY (plane_bytes (plane_y p)) (YPtr s)) colorCb colorCr;
     outPtr := outPtr s + 4; YPtr := YPtr s + 1 |}.
Definition one_row (w hdec vdec : Z) (p : planes) (s : one_cursor) (y : Z) : one_cursor :=
  let yd := Z.shiftr y vdec in
  let cb := to_int32 (yd * to_int32 (stride (plane_u p))) in
  let cr := to_int32 (yd * to_int32 (stride (plane_v p))) in
  foldl (one_pixel hdec cb cr p) {| one_output := one_output s; outPtr := outPtr s;
    YPtr := to_int32 (y * to_int32 (stride (plane_y p))) |} (seqZ 0 w).
Definition convert_any (w h hdec vdec : Z) (p : planes) (out : bytes) : bytes :=
  one_output (foldl (one_row w hdec vdec p) {| one_output := out; outPtr := 0; YPtr := 0 |} (seqZ 0 h)).

Definition convertYCbCr (ratio_text : Z -> Z -> string) (f : format) (p : planes) (out : bytes) : outcome bytes :=
  let w := to_int32 (width f) in
  let h := to_int32 (height f) in
  hdec ← depower ratio_text (width f) (chromaWidth f);
  vdec ← depower ratio_text (height f) (chromaHeight f);
  mret (if (to_int32 hdec =? 1) && (to_int32 vdec =? 1) then convert_quarter w h p out
        else convert_any w h (to_int32 hdec) (to_int32 vdec) p out).

(** ** The picture *)
(** The colour of a pixel: red, green and blue from luma and chroma, in 256ths. *)
Definition chan (k Y Cb Cr : Z) : Z :=
  if k =? 0 then (298 * Y + 409 * Cr - 57088) / 256
  else if k =? 1 then (298 * Y - 100 * Cb - 208 * Cr + 34816) / 256
  else (298 * Y + 516 * Cb - 70912) / 256.
(** What a plane holds for a column and a row. *)
Definition sample (p : plane) (x y : Z) : Z := read (plane_bytes p) (y * stride p + x).
Definition color (p : planes) (hdec vdec x y k : Z) : byte :=
  byte_of_Z (clamp8 (chan k (sample (plane_y p) x y)
    (sample (plane_u p) (Z.shiftr x hdec) (Z.shiftr y vdec)) (sample (plane_v p) (Z.shiftr x hdec) (Z.shiftr y vdec)))).

(** *** Machine integers *)
Lemma to_int32_small z : - 2 ^ 31 <= z < 2 ^ 31 -> to_int32 z = z.
Proof.
  intros Hz. unfold to_int32. destruct (Z.leb_spec 0 z).
  - rewrite Z.mod_small by lia. destruct (Z.ltb_spec z (2 ^ 31)); lia.
  - replace (z mod 2 ^ 32) with (z + 2 ^ 32) by (symmetry; rewrite <- (Z.mod_small (z + 2 ^ 32) (2 ^ 32)) by lia;
      replace (z + 2 ^ 32) with (z + 1 * 2 ^ 32) by lia; by rewrite Z.mod_add).
    destruct (Z.ltb_spec (z + 2 ^ 32) (2 ^ 31)); lia.
Qed.
Lemma read_range b i : 0 <= read b i < 256.
Proof. unfold read. destruct (i <? 0); [lia|]. destruct (b !! Z.to_nat i) as [x|]; [|lia]. apply Z_of_byte_range. Qed.

(** *** Writing a pixel *)
Lemma store_length out i v : length (store out i v) = length out.
Proof. unfold store. destruct (i <? 0); [done|]. apply length_insert. Qed.
Lemma store_at out i j v : 0 <= i < len out -> 0 <= j ->
  store out i v !! Z.to_nat j = if j =? i then Some (byte_of_Z (clamp8 v)) else out !! Z.to_nat j.
Proof.
  intros Hi Hj. unfold store, len in *. destruct (Z.ltb_spec i 0); [lia|]. destruct (Z.eqb_spec j i) as [->|Hn].
  - apply list_lookup_insert_eq. lia.
  - apply list_lookup_insert_ne. lia.
Qed.
Lemma put_pixel_length out ptr y cb cr : length (put_pixel out ptr y cb cr) = length out.
Proof. unfold put_pixel. by rewrite !store_length. Qed.
Lemma shifts k Y Cb Cr : 0 <= Y < 256 -> 0 <= Cb < 256 -> 0 <= Cr < 256 -> 0 <= k < 3 ->
  (if k =? 0 then shift8 (to_int32 (298 * Y) + multCrR Cr)
   else if k =? 1 then shift8 (to_int32 (298 * Y) - multCbCrG Cb Cr)
   else shift8 (to_int32 (298 * Y) + multCbB Cb)) = chan k Y Cb Cr.
Proof.
  intros HY Hb Hr Hk. unfold shift8, multCrR, multCbCrG, multCbB, chan.
  rewrite (to_int32_small (298 * Y)), (to_int32_small (409 * Cr)), (to_int32_small (100 * Cb)),
    (to_int32_small (208 * Cr)), (to_int32_small (516 * Cb)), (to_int32_small (409 * Cr - 57088)),
    (to_int32_small (100 * Cb + 208 * Cr - 34816)), (to_int32_small (516 * Cb - 70912)), !to_int32_small by lia.
  rewrite !Z.shiftr_div_pow2 by lia. change (2 ^ 8) with 256. repeat case_match; f_equal; lia.
Qed.
Lemma put_pixel_at out q Y Cb Cr q' k :
  0 <= Y < 256 -> 0 <= Cb < 256 -> 0 <= Cr < 256 -> 0 <= q -> 4 * q + 4 <= len out -> 0 <= q' -> 0 <= k < 4 ->
  put_pixel out (4 * q) (to_int32 (298 * Y)) Cb Cr !! Z.to_nat (4 * q' + k) =
    if (q' =? q) && (k <? 3) then Some (byte_of_Z (clamp8 (chan k Y Cb Cr))) else out !! Z.to_nat (4 * q' + k).
Proof.
  intros HY Hb Hr Hq Hl Hq' Hk. pose proof (shifts k Y Cb Cr HY Hb Hr) as Hs. unfold put_pixel, len in *.
  rewrite !store_at by (unfold len; rewrite ?store_length; lia).
  destruct (Z.eqb_spec q' q) as [->|Hne]; cbn [andb].
  - destruct (Z.ltb_spec k 3).
    + rewrite <- Hs by lia. destruct (Z.eqb_spec k 0) as [->|]; [|destruct (Z.eqb_spec k 1) as [->|]];
        repeat (case_match; try lia); done.
    + repeat (case_match; try lia); done.
  - repeat (case_match; try lia); done.
Qed.

(** *** Painted so far *)
Section Painting.
Context (col : Z -> Z -> Z -> byte) (w h : Z) (out0 : bytes) (whole : len out0 = w * h * 4).
(** The pixels of [D] have their colour, the others and every fourth byte are as they were. *)
Definition painted (D : Z -> Z -> Prop) (out : bytes) : Prop :=
  length out = length out0 /\
  forall x y k, 0 <= x < w -> 0 <= y < h -> 0 <= k < 4 ->
    (D x y -> k < 3 -> out !! Z.to_nat (4 * (y * w + x) + k) = Some (col x y k)) /\
    (~ D x y \/ k = 3 -> out !! Z.to_nat (4 * (y * w + x) + k) = out0 !! Z.to_nat (4 * (y * w + x) + k)).
Lemma painted_none D : (forall x y, 0 <= x < w -> 0 <= y < h -> ~ D x y) -> painted D out0.
Proof. intros HD. split; [done|]. intros x y k Hx Hy Hk. split; [|done]. intros Hd. by destruct (HD x y). Qed.
Lemma painted_iff (D D' : Z -> Z -> Prop) out :
  (forall x y, 0 <= x < w -> 0 <= y < h -> D x y <-> D' x y) -> painted D out -> painted D' out.
Proof. intros HD [Hl Hp]. split; [done|]. intros x y k Hx Hy Hk. rewrite <- (HD x y) by done. by apply Hp. Qed.
Lemma pixel_inj x y x' y' : 0 <= x < w -> 0 <= x' < w -> y' * w + x' = y * w + x -> x' = x /\ y' = y.
Proof. intros. assert (y' = y) by nia. split; nia. Qed.

Lemma painted_put D out x y Y Cb Cr : painted D out -> 0 <= x < w -> 0 <= y < h ->
  0 <= Y < 256 -> 0 <= Cb < 256 -> 0 <= Cr < 256 ->
  (forall k, 0 <= k < 3 -> byte_of_Z (clamp8 (chan k Y Cb Cr)) = col x y k) ->
  painted (fun x' y' => D x' y' \/ (x' = x /\ y' = y)) (put_pixel out (4 * (y * w + x)) (to_int32 (298 * Y)) Cb Cr).
Proof.
  intros [Hl Hp] Hx Hy HY Hb Hr Hc. split; [by rewrite put_pixel_length|]. intros x' y' k Hx' Hy' Hk.
  assert (Hsize : 4 * (y * w + x) + 4 <= len out) by (unfold len in *; rewrite Hl; nia).
  rewrite put_pixel_at by (done || nia).
  destruct (Z.eqb_spec (y' * w + x') (y * w + x)) as [E|E]; cbn [andb].
  - apply pixel_inj in E as [-> ->]; [|done..]. destruct (Z.ltb_spec k 3).
    + split; [intros _ _; f_equal; apply Hc; lia|]. intros [Hn|]; [destruct Hn; by right|lia].
    + split; [lia|]. intros _. apply (Hp x y k); [done..|right; lia].
  - destruct (Hp x' y' k Hx' Hy' Hk) as [H1 H2]. split.
    + intros [Hd|[-> ->]]; [by apply H1|done].
    + intros [Hn|Hk3]; apply H2; [left; tauto|by right].
Qed.
End Painting.

(** *** The loops *)
Section Loops.
Context (p : planes) (w h : Z) (out0 : bytes).
(** Everything is counted in 31 bits. *)
Record fits31 : Prop := {
  width_small : 0 <= w < 2 ^ 29;
  height_small : 0 <= h < 2 ^ 31;
  strides_small : Forall (fun q => 0 <= stride q /\ h * stride q < 2 ^ 31) [plane_y p; plane_u p; plane_v p];
}.
Hypothesis small : fits31.
Hypothesis sized : len out0 = w * h * 4.
Lemma plane_small q y : q ∈ [plane_y p; plane_u p; plane_v p] -> 0 <= y < h ->
  to_int32 (stride q) = stride q /\ to_int32 (y * stride q) = y * stride q.
Proof.
  intros Hq Hy. destruct small as [_ Hh Hs]. rewrite Forall_forall in Hs. destruct (Hs q Hq).
  split; apply to_int32_small; nia.
Qed.
Lemma shifted_row y n : 0 <= y < h -> 0 <= n -> 0 <= Z.shiftr y n < h.
Proof.
  intros Hy Hn. split; [apply Z.shiftr_nonneg; lia|]. rewrite Z.shiftr_div_pow2 by lia.
  assert (0 < 2 ^ n) by (apply Z.pow_pos_nonneg; lia). pose proof (Z.div_le_upper_bound y (2 ^ n) y). nia.
Qed.

(** **** One pixel at a time *)
Section Any.
Context (hdec vdec : Z) (Hh : 0 <= hdec) (Hv : 0 <= vdec).
Abbreviation done_so_far := (painted (color p hdec vdec) w h out0).
Lemma one_pixels y n s : 0 <= y < h -> (Z.of_nat n <= w) ->
  done_so_far (fun _ y' => y' < y) (one_output s) -> outPtr s = 4 * (y * w) -> YPtr s = y * stride (plane_y p) ->
  let yd := Z.shiftr y vdec in
  let s' := foldl (one_pixel hdec (yd * stride (plane_u p)) (yd * stride (plane_v p)) p) s (seqZ 0 (Z.of_nat n)) in
  done_so_far (fun x' y' => y' < y \/ (y' = y /\ x' < Z.of_nat n)) (one_output s') /\
  outPtr s' = 4 * (y * w + Z.of_nat n) /\ YPtr s' = y * stride (plane_y p) + Z.of_nat n.
Proof.
  intros Hy Hn Hd Ho HY yd. induction n as [|n IH].
  - change (seqZ 0 (Z.of_nat 0)) with (@nil Z). cbn [foldl]. split_and!; [|lia|lia].
    eapply painted_iff; [|done]. intros x' y' ? ?; lia.
  - destruct IH as (Hd' & Ho' & HY'); [lia|]. cbv zeta in *.
    rewrite (seqZ_S 0 n), foldl_app, Z.add_0_l. cbn [foldl]. set (s1 := foldl _ s _) in *.
    unfold one_pixel. cbn [one_output outPtr YPtr]. rewrite Ho', HY'. split_and!; [|lia..].
    eapply painted_iff; cycle 1.
    { unfold multY. eapply (painted_put _ _ _ _ sized); [exact Hd'|lia|lia|apply read_range..|].
      intros k Hk. unfold color, sample. do 3 f_equal; f_equal; lia. }
    intros x' y' ? ?. cbn beta. lia.
Qed.
Lemma one_rows n s : Z.of_nat n <= h -> done_so_far (fun _ _ => False) (one_output s) -> outPtr s = 0 ->
  let s' := foldl (one_row w hdec vdec p) s (seqZ 0 (Z.of_nat n)) in
  done_so_far (fun _ y' => y' < Z.of_nat n) (one_output s') /\ outPtr s' = 4 * (Z.of_nat n * w).
Proof.
  intros Hn Hd Ho. induction n as [|n IH].
  - change (seqZ 0 (Z.of_nat 0)) with (@nil Z). cbn [foldl]. split; [|lia].
    eapply painted_iff; [|exact Hd]. intros x' y' ? ?. cbn beta. lia.
  - destruct IH as (Hd' & Ho'); [lia|]. cbv zeta in *. rewrite (seqZ_S 0 n), foldl_app, Z.add_0_l. cbn [foldl].
    set (s1 := foldl _ s _) in *. set (y := Z.of_nat n) in *. assert (Hy : 0 <= y < h) by lia.
    pose proof (shifted_row y vdec Hy Hv) as Hyd. unfold one_row.
    destruct (plane_small (plane_y p) y ltac:(set_solver) Hy) as [-> ->].
    destruct (plane_small (plane_u p) (Z.shiftr y vdec) ltac:(set_solver) Hyd) as [-> ->].
    destruct (plane_small (plane_v p) (Z.shiftr y vdec) ltac:(set_solver) Hyd) as [-> ->].
    destruct (width_small small) as [Hw0 _].
    destruct (one_pixels y (Z.to_nat w) {| one_output := one_output s1; outPtr := outPtr s1; YPtr := y * stride (plane_y p) |})
      as (Hd2 & Ho2 & _); [done|lia|done..|]. rewrite Z2Nat.id in Hd2, Ho2 by lia. split; [|rewrite Ho2; lia].
    eapply painted_iff; [|exact Hd2]. intros x' y' ? ?. cbn beta. lia.
Qed.
Lemma convert_any_paints : done_so_far (fun _ _ => True) (convert_any w h hdec vdec p out0).
Proof.
  destruct (height_small small) as [Hh0 _]. unfold convert_any. replace (seqZ 0 h) with (seqZ 0 (Z.of_nat (Z.to_nat h))) by (f_equal; lia).
  eapply painted_iff; [|apply one_rows; [lia| |done]].
  - intros x y ? ?. cbn beta. lia.
  - apply painted_none. intros x y _ _ [].  
Qed.
End Any.

(** **** Two rows and two columns at a time *)
Section Quarter.
Context (w2 h2 : Z) (even_width : w = 2 * w2) (even_height : h = 2 * h2).
Abbreviation done_so_far := (painted (color p 1 1) w h out0).
Lemma by_two_even n : 0 <= n -> by_two (2 * n) = map (Z.mul 2) (seqZ 0 n).
Proof. intros Hn. unfold by_two. do 2 f_equal. Z.to_euclidean_division_equations; lia. Qed.
Lemma half n k : 0 <= k < 2 -> Z.shiftr (2 * n + k) 1 = n.
Proof. intros Hk. rewrite Z.shiftr_div_pow2 by lia. Z.to_euclidean_division_equations; lia. Qed.
(** A cursor at column [2 * n] of the rows [2 * r] and [2 * r + 1]. *)
Record at_quad (r n : Z) (s : cursor) : Prop := {
  at_out0 : outPtr0 s = 4 * (2 * r * w + 2 * n);
  at_out1 : outPtr1 s = 4 * ((2 * r + 1) * w + 2 * n);
  at_y0 : Y0Ptr s = 2 * r * stride (plane_y p) + 2 * n;
  at_y1 : Y1Ptr s = (2 * r + 1) * stride (plane_y p) + 2 * n;
  at_cb : CbPtr s = r * stride (plane_u p) + n;
  at_cr : CrPtr s = r * stride (plane_v p) + n;
  at_row : ydec s = r;
}.
(** One pixel of the four, in the row [2 * r + j] and the column [2 * n + i]. *)
Lemma quad_put D out r n i j Y : 0 <= r < h2 -> 0 <= n < w2 -> 0 <= i < 2 -> 0 <= j < 2 ->
  Y = (2 * r + j) * stride (plane_y p) + (2 * n + i) -> done_so_far D out ->
  done_so_far (fun x' y' => D x' y' \/ (x' = 2 * n + i /\ y' = 2 * r + j))
    (put_pixel out (4 * ((2 * r + j) * w + (2 * n + i))) (multY (plane_bytes (plane_y p)) Y)
       (read (plane_bytes (plane_u p)) (r * stride (plane_u p) + n))
       (read (plane_bytes (plane_v p)) (r * stride (plane_v p) + n))).
Proof.
  intros Hr Hn Hi Hj -> Hd. unfold multY.
  eapply (painted_put _ _ _ _ sized); [exact Hd|lia|lia|apply read_range..|].
  intros k Hk. unfold color, sample. by rewrite !half.
Qed.
Lemma quad_step D r n s : 0 <= r < h2 -> 0 <= n < w2 -> at_quad r n s -> done_so_far D (output s) ->
  at_quad r (n + 1) (quad p s) /\
  done_so_far (fun x' y' => D x' y' \/ (2 * n <= x' < 2 * n + 2 /\ 2 * r <= y' < 2 * r + 2)) (output (quad p s)).
Proof.
  intros Hr Hn [E0 E1 EY0 EY1 Eb Er Ed] Hd. unfold quad. cbn [output]. split.
  - split; cbn [outPtr0 outPtr1 Y0Ptr Y1Ptr CbPtr CrPtr ydec]; lia.
  - rewrite Eb, Er.
    pose proof (quad_put D (output s) r n 0 0 (Y0Ptr s) Hr Hn ltac:(lia) ltac:(lia) ltac:(lia) Hd) as H1.
    pose proof (quad_put _ _ r n 1 0 (Y0Ptr s + 1) Hr Hn ltac:(lia) ltac:(lia) ltac:(lia) H1) as H2.
    pose proof (quad_put _ _ r n 0 1 (Y1Ptr s) Hr Hn ltac:(lia) ltac:(lia) ltac:(lia) H2) as H3.
    pose proof (quad_put _ _ r n 1 1 (Y1Ptr s + 1) Hr Hn ltac:(lia) ltac:(lia) ltac:(lia) H3) as H4.
    replace (4 * ((2 * r + 0) * w + (2 * n + 0))) with (outPtr0 s) in * by lia.
    replace (4 * ((2 * r + 0) * w + (2 * n + 1))) with (outPtr0 s + 4) in * by lia.
    replace (4 * ((2 * r + 1) * w + (2 * n + 0))) with (outPtr1 s) in * by lia.
    replace (4 * ((2 * r + 1) * w + (2 * n + 1))) with (outPtr1 s + 4) in * by lia.
    eapply painted_iff; [|exact H4]. intros x' y' ? ?. cbn beta.
    assert (Hq : 2 * n <= x' < 2 * n + 2 /\ 2 * r <= y' < 2 * r + 2 <->
      (((x' = 2 * n + 0 /\ y' = 2 * r + 0) \/ (x' = 2 * n + 1 /\ y' = 2 * r + 0)) \/ (x' = 2 * n + 0 /\ y' = 2 * r + 1)) \/
      (x' = 2 * n + 1 /\ y' = 2 * r + 1)) by lia.
    rewrite Hq. tauto.
Qed.
Lemma quads D r n s : 0 <= r < h2 -> Z.of_nat n <= w2 -> at_quad r 0 s -> done_so_far D (output s) ->
  let s' := foldl (fun s _ => quad p s) s (map (Z.mul 2) (seqZ 0 (Z.of_nat n))) in
  at_quad r (Z.of_nat n) s' /\
  done_so_far (fun x' y' => D x' y' \/ (0 <= x' < 2 * Z.of_nat n /\ 2 * r <= y' < 2 * r + 2)) (output s').
Proof.
  intros Hr Hn Ha Hd. induction n as [|n IH].
  - change (seqZ 0 (Z.of_nat 0)) with (@nil Z). cbn [map foldl]. split; [done|].
    eapply painted_iff; [|exact Hd]. intros x' y' ? ?. cbn beta. assert (~ (0 <= x' < 2 * Z.of_nat 0)) by lia. tauto.
  - destruct IH as (Ha' & Hd'); [lia|]. cbv zeta in *. rewrite (seqZ_S 0 n), map_app, foldl_app, Z.add_0_l. cbn [map foldl].
    destruct (quad_step _ r (Z.of_nat n) _ Hr ltac:(lia) Ha' Hd') as [Ha2 Hd2].
    split; [by rewrite Nat2Z.inj_succ, <- Z.add_1_r|].
    eapply painted_iff; [|exact Hd2]. intros x' y' ? ?. cbn beta.
    assert (Hq : 0 <= x' < 2 * Z.of_nat (S n) <-> 0 <= x' < 2 * Z.of_nat n \/ 2 * Z.of_nat n <= x' < 2 * Z.of_nat n + 2) by lia.
    rewrite Hq. tauto.
Qed.
Lemma row_pairs n s : Z.of_nat n <= h2 -> done_so_far (fun _ _ => False) (output s) ->
  outPtr0 s = 0 -> outPtr1 s = 4 * w -> ydec s = 0 ->
  let s' := foldl (row_pair w p) s (map (Z.mul 2) (seqZ 0 (Z.of_nat n))) in
  done_so_far (fun _ y' => y' < 2 * Z.of_nat n) (output s') /\
  outPtr0 s' = 4 * (2 * Z.of_nat n * w) /\ outPtr1 s' = 4 * ((2 * Z.of_nat n + 1) * w) /\ ydec s' = Z.of_nat n.
Proof.
  intros Hn Hd E0 E1 Ed. induction n as [|n IH].
  - change (seqZ 0 (Z.of_nat 0)) with (@nil Z). cbn [map foldl]. split_and!; [|lia..].
    eapply painted_iff; [|exact Hd]. intros x' y' ? ?. cbn beta. lia.
  - destruct IH as (Hd' & E0' & E1' & Ed'); [lia|]. cbv zeta in *.
    rewrite (seqZ_S 0 n), map_app, foldl_app, Z.add_0_l. cbn [map foldl]. set (s1 := foldl _ s _) in *. set (r := Z.of_nat n) in *.
    assert (Hr : 0 <= r < h2) by lia. assert (Hy : 0 <= 2 * r < h) by lia. assert (Hy1 : 0 <= 2 * r + 1 < h) by lia.
    assert (Hc : 0 <= r < h) by lia. unfold row_pair.
    destruct (plane_small (plane_y p) (2 * r) ltac:(set_solver) Hy) as [-> ->].
    destruct (plane_small (plane_y p) (2 * r + 1) ltac:(set_solver) Hy1) as [_ Ey1].
    replace (2 * r * stride (plane_y p) + stride (plane_y p)) with ((2 * r + 1) * stride (plane_y p)) by lia.
    rewrite Ey1, Ed'.
    destruct (plane_small (plane_u p) r ltac:(set_solver) Hc) as [-> ->].
    destruct (plane_small (plane_v p) r ltac:(set_solver) Hc) as [-> ->].
    destruct (width_small small) as [Hw0 Hw1].
    assert (Eb : by_two w = map (Z.mul 2) (seqZ 0 (Z.of_nat (Z.to_nat w2))))
      by (rewrite even_width, by_two_even by lia; do 2 f_equal; lia).
    assert (Ew : to_int32 (Z.shiftl w 2) = 4 * w)
      by (rewrite Z.shiftl_mul_pow2 by lia; rewrite to_int32_small; lia).
    rewrite Eb, Ew.
    match goal with |- context [foldl (fun s _ => quad p s) ?s2 _] =>
      destruct (quads (fun _ y' => y' < 2 * r) r (Z.to_nat w2) s2 Hr) as [[A0 A1 _ _ _ _ Ar] Hd2] end;
      [lia|split; cbn [outPtr0 outPtr1 Y0Ptr Y1Ptr CbPtr CrPtr ydec]; lia|exact Hd'|].
    cbn [output outPtr0 outPtr1 ydec]. rewrite A0, A1, Ar. split_and!; [|lia..].
    eapply painted_iff; [|exact Hd2]. intros x' y' ? ?. cbn beta. lia.
Qed.
Lemma convert_quarter_paints : done_so_far (fun _ _ => True) (convert_quarter w h p out0).
Proof.
  destruct (height_small small) as [Hh0 _]. destruct (width_small small) as [Hw0 Hw1]. unfold convert_quarter.
  rewrite even_height at 2. rewrite by_two_even by lia.
  replace (seqZ 0 h2) with (seqZ 0 (Z.of_nat (Z.to_nat h2))) by (f_equal; lia).
  eapply painted_iff; [|apply row_pairs; [lia| |done| |done]].
  - intros x y ? ?. cbn beta. lia.
  - apply painted_none. intros x y _ _ [].
  - cbn [outPtr1]. rewrite Z.shiftl_mul_pow2 by lia. rewrite to_int32_small; lia.
Qed.
End Quarter.
End Loops.

(** ** Powers of two *)
Lemma shift_count_spec fuel n : 0 <= n < 2 ^ Z.of_nat fuel ->
  exists c, shift_count fuel n = Ret c /\ 0 <= c <= Z.of_nat fuel /\ (if n =? 0 then c = 0 else 2 ^ c <= 2 * n < 2 * 2 ^ c).
Proof.
  revert n. induction fuel as [|fuel IH]; intros n Hn.
  - change (2 ^ Z.of_nat 0) with 1 in Hn. assert (n = 0) as -> by lia. by exists 0.
  - cbn [shift_count]. destruct (Z.eqb_spec n 0) as [->|Hne]; [exists 0; split_and!; [done|lia..]|].
    rewrite Nat2Z.inj_succ, Z.pow_succ_r in Hn by lia.
    destruct (IH (Z.shiftr n 1)) as (c & E & Hc & Hb).
    { rewrite Z.shiftr_div_pow2 by lia. change (2 ^ 1) with 2. Z.to_euclidean_division_equations; lia. }
    exists (c + 1). rewrite E. split; [done|]. split; [lia|]. rewrite Z.pow_add_r by lia. change (2 ^ 1) with 2.
    rewrite Z.shiftr_div_pow2 in Hb by lia. change (2 ^ 1) with 2 in Hb.
    destruct (Z.eqb_spec (n / 2) 0) as [E0|E0].
    + subst c. change (2 ^ 0) with 1. Z.to_euclidean_division_equations; lia.
    + Z.to_euclidean_division_equations; lia.
Qed.
Section Ratio.
Context (ratio_text : Z -> Z -> string).
Lemma depower_run num den : 0 < den -> 0 <= num < 2 ^ 31 ->
  exists c, 0 <= c < 31 /\ depower ratio_text num den =
    (if num =? den * 2 ^ c then Ret c else
       Throw (VStr (String.append "chroma plane dimensions must be power of 2 ratio to luma plane dimensions; got "
                      (ratio_text num den)))) /\
    (num / den < 2 -> c = 0) /\ (2 <= num / den -> 2 ^ c <= num / den < 2 * 2 ^ c).
Proof.
  intros Hden Hnum. set (q := num / den). assert (Hq : 0 <= q < 2 ^ 31).
  { subst q. split; [apply Z.div_pos; lia|]. apply Z.div_lt_upper_bound; nia. }
  assert (Eq : Z.quot num den = q) by (subst q; by rewrite Z.quot_div_nonneg by lia).
  unfold depower. rewrite Eq, to_int32_small by lia.
  destruct (shift_count_spec 32 (Z.shiftr q 1)) as (c & E & Hc & Hb).
  { rewrite Z.shiftr_div_pow2 by lia. change (2 ^ 1) with 2. change (2 ^ Z.of_nat 32) with (2 * 2 ^ 31).
    Z.to_euclidean_division_equations; lia. }
  rewrite Z.shiftr_div_pow2 in Hb by lia. change (2 ^ 1) with 2 in Hb.
  assert (Hc31 : c < 31).
  { destruct (Z.lt_ge_cases c 31) as [|Hge]; [done|exfalso]. destruct (Z.eqb_spec (q / 2) 0); [lia|].
    pose proof (Z.pow_le_mono_r 2 31 c). Z.to_euclidean_division_equations; lia. }
  exists c. split; [lia|]. rewrite E. cbn [mbind outcome_bind]. split; [|split].
  - rewrite Z.shiftl_mul_pow2, Z.mul_1_l by lia. pose proof (Z.pow_lt_mono_r 2 c 31). pose proof (Z.pow_nonneg 2 c).
    rewrite to_int32_small by lia. destruct (Z.eqb_spec den 0); [lia|]. by destruct (num =? den * 2 ^ c).
  - intros Hlt. destruct (Z.eqb_spec (q / 2) 0) as [E0|E0]; [done|]. Z.to_euclidean_division_equations; lia.
  - intros Hge. destruct (Z.eqb_spec (q / 2) 0) as [E0|E0]; Z.to_euclidean_division_equations; lia.
Qed.
(** The exponent of an exact ratio is found; any other ratio throws. *)
Lemma depower_exact den c : 0 < den -> 0 <= c -> den * 2 ^ c < 2 ^ 31 -> depower ratio_text (den * 2 ^ c) den = Ret c.
Proof.
  intros Hden Hc Hb. pose proof (Z.pow_pos_nonneg 2 c). destruct (depower_run (den * 2 ^ c) den) as (c' & Hc' & E & H0 & H1); [lia|nia|].
  assert (Eq : den * 2 ^ c / den = 2 ^ c) by (rewrite Z.mul_comm; apply Z.div_mul; lia). rewrite Eq in H0, H1.
  assert (c' = c) as ->; [|by rewrite E, Z.eqb_refl].
  destruct (Z.lt_ge_cases (2 ^ c) 2) as [Hlt|Hge].
  - rewrite H0 by done. destruct (decide (c = 0)) as [|Hn]; [done|].
    pose proof (Z.pow_le_mono_r 2 1 c). lia.
  - destruct (H1 Hge) as [Hl Hu]. rewrite <- Z.pow_succ_r in Hu by lia.
    apply Z.pow_le_mono_r_iff in Hl; [|lia..]. apply Z.pow_lt_mono_r_iff in Hu; lia.
Qed.
Lemma depower_other num den : 0 < den -> 0 <= num < 2 ^ 31 -> (forall c, 0 <= c -> num <> den * 2 ^ c) ->
  exists text, depower ratio_text num den = Throw (VStr text).
Proof.
  intros Hden Hnum Hno. destruct (depower_run num den Hden Hnum) as (c & Hc & E & _).
  rewrite E. destruct (Z.eqb_spec num (den * 2 ^ c)) as [En|]; [|by eexists]. by destruct (Hno c); [lia|].
Qed.

(** ** The conversion *)
(** Byte [k] of the pixel at column [x] of row [y]. *)
Definition pixel (b : bytes) (w x y k : Z) : option byte := b !! Z.to_nat ((y * w + x) * 4 + k).
(** What can be converted: both chroma ratios are powers of two, and nothing overflows. *)
Definition convertible (f : format) (p : planes) (hdec vdec : Z) : Prop :=
  0 < chromaWidth f /\ 0 < chromaHeight f /\ 0 <= hdec /\ 0 <= vdec /\
  width f = chromaWidth f * 2 ^ hdec /\ height f = chromaHeight f * 2 ^ vdec /\
  fits31 p (width f) (height f).

Lemma converts f p hdec vdec out : convertible f p hdec vdec -> len out = width f * height f * 4 ->
  exists out', convertYCbCr ratio_text f p out = Ret out' /\ length out' = length out /\
     forall x y k, 0 <= x < width f -> 0 <= y < height f -> 0 <= k < 4 ->
       pixel out' (width f) x y k = if k <? 3 then Some (color p hdec vdec x y k) else pixel out (width f) x y k.
Proof.
  intros (Hcw & Hch & Hh & Hv & Ew & Eh & Hsmall) Hsized.
  destruct (width_small _ _ _ Hsmall) as [Hw0 Hw1]. destruct (height_small _ _ _ Hsmall) as [Hh0 Hh1].
  assert (Hexp : forall c n, 0 <= c -> 0 < n -> n * 2 ^ c < 2 ^ 31 -> to_int32 c = c).
  { intros c n Hc Hn Hlt. apply to_int32_small. pose proof (Z.pow_gt_lin_r 2 c). nia. }
  unfold convertYCbCr. rewrite (to_int32_small (width f)), (to_int32_small (height f)) by lia.
  assert (Ehd : depower ratio_text (width f) (chromaWidth f) = Ret hdec) by (rewrite Ew; apply depower_exact; lia).
  assert (Evd : depower ratio_text (height f) (chromaHeight f) = Ret vdec) by (rewrite Eh; apply depower_exact; lia).
  rewrite Ehd, Evd. cbn [mbind outcome_bind mret outcome_ret].
  rewrite (Hexp hdec (chromaWidth f)), (Hexp vdec (chromaHeight f)) by lia.
  assert (Hp : painted (color p hdec vdec) (width f) (height f) out (fun _ _ => True)
    (if (hdec =? 1) && (vdec =? 1) then convert_quarter (width f) (height f) p out
     else convert_any (width f) (height f) hdec vdec p out)).
  { destruct (Z.eqb_spec hdec 1) as [->|]; [destruct (Z.eqb_spec vdec 1) as [->|]|]; cbn [andb].
    - apply (convert_quarter_paints p _ _ out Hsmall Hsized (chromaWidth f) (chromaHeight f)); lia.
    - by apply convert_any_paints.
    - by apply convert_any_paints. }
  destruct Hp as [Hl Hp]. eexists. split; [done|]. split; [done|]. intros x y k Hx Hy Hk.
  unfold pixel. replace ((y * width f + x) * 4 + k) with (4 * (y * width f + x) + k) by lia.
  destruct (Hp x y k Hx Hy Hk) as [H1 H2]. destruct (Z.ltb_spec k 3); [by apply H1|]. apply H2. right. lia.
Qed.

(** C33.  Both loops of the conversion compute the same picture.  For every frame whose chroma planes are
    smaller by powers of two, whichever loop is taken, red, green and blue of each pixel are those of
    one formula, applied to the luma sample of the pixel and to the chroma samples its position
    shifts down to; opacity is not touched; no index or product leaves the 32 bits the code works
    with.  Any other ratio throws. *)
Theorem convertYCbCr_spec f p hdec vdec out :
  convertible f p hdec vdec -> len out = width f * height f * 4 ->
  (exists out', convertYCbCr ratio_text f p out = Ret out' /\ length out' = length out /\
     forall x y k, 0 <= x < width f -> 0 <= y < height f -> 0 <= k < 4 ->
       pixel out' (width f) x y k = if k <? 3 then Some (color p hdec vdec x y k) else pixel out (width f) x y k) /\
  (forall f', 0 < chromaWidth f' -> 0 <= width f' < 2 ^ 31 -> (forall c, 0 <= c -> width f' <> chromaWidth f' * 2 ^ c) ->
     exists text, convertYCbCr ratio_text f' p out = Throw (VStr text)).
Proof.
  intros Hc Hl. split; [by apply converts|]. intros f' Hcw Hw Hno. unfold convertYCbCr.
  destruct (depower_other (width f') (chromaWidth f') Hcw Hw Hno) as [text ->]. by exists text.
Qed.
End Ratio.

(** ** Two sinks, one picture *)
(** What the fragment shader of the same package shows for the three bytes, in 10^11ths of a level. *)
Definition shader (k Y Cb Cr : Z) : Z :=
  if k =? 0 then 116438281250 * Y + 159602734375 * Cr - 255 * 87078515625
  else if k =? 1 then 116438281250 * Y - 39176171875 * Cb - 81296875000 * Cr + 255 * 52959375000
  else 116438281250 * Y + 201723437500 * Cb - 255 * 108139062500.
(** The integer formula stays within three levels of it. *)
Lemma chan_near_shader k Y Cb Cr : 0 <= Y < 256 -> 0 <= Cb < 256 -> 0 <= Cr < 256 ->
  Z.abs (shader k Y Cb Cr - 10 ^ 11 * chan k Y Cb Cr) < 3 * 10 ^ 11.
Proof. intros. unfold shader, chan. repeat case_match; Z.to_euclidean_division_equations; lia. Qed.
