(* ===== verification/VideoDraw.v ===== *)
(** * Painting: [helpers/video_draw.js]

    [draw] converts a decoded frame to RGBA ([YCbCr]), cuts the visible rectangle out of it and
    hands it to the application.  The two buffers [draw] keeps between calls are its state.  What the application is handed is the buffer itself, so that a
    call shows the pixels it has at that moment. *)
From Stdlib Require Import Strings.Byte.
From stdpp Require Import numbers list_numbers.
From S2P Require Import Prelude YCbCr.

(** ** Typed arrays *)
Definition range_error {A} (text : string) : outcome A := Throw (VError "RangeError" text).
Definition new_bytes (n : Z) (fill : byte) : outcome bytes :=
  if n <? 0 then range_error "Invalid typed array length" else Ret (replicate (Z.to_nat n) fill).
(** An index counts from the end when it is negative, and is clamped. *)
Definition clamp (b : bytes) (i : Z) : Z := if i <? 0 then Z.max 0 (len b + i) else Z.min i (len b).
Definition subarray (b : bytes) (from to : Z) : bytes :=
  take (Z.to_nat (clamp b to - clamp b from)) (drop (Z.to_nat (clamp b from)) b).
Definition typed_set (target src : bytes) (offset : Z) : outcome bytes :=
  if (offset <? 0) || (len target <? offset + len src) then range_error "offset is out of bounds"
  else Ret (take (Z.to_nat offset) target ++ src ++ drop (Z.to_nat (offset + len src)) target).

Lemma subarray_length b from to : 0 <= from <= to -> to <= len b -> len (subarray b from to) = to - from.
Proof.
  intros Hf Ht. unfold subarray, clamp. destruct (Z.ltb_spec to 0), (Z.ltb_spec from 0); try lia.
  unfold len in *. rewrite length_take, length_drop. lia.
Qed.
Lemma subarray_lookup b from to i : 0 <= from <= to -> to <= len b -> 0 <= i < to - from ->
  subarray b from to !! Z.to_nat i = b !! Z.to_nat (from + i).
Proof.
  intros Hf Ht Hi. unfold subarray, clamp. destruct (Z.ltb_spec to 0), (Z.ltb_spec from 0); try lia.
  rewrite lookup_take_lt, lookup_drop by lia. f_equal. lia.
Qed.
Lemma typed_set_fits target src offset : 0 <= offset -> offset + len src <= len target ->
  exists r, typed_set target src offset = Ret r /\ len r = len target /\
    forall i, 0 <= i -> r !! Z.to_nat i =
      if (offset <=? i) && (i <? offset + len src) then src !! Z.to_nat (i - offset) else target !! Z.to_nat i.
Proof.
  intros Ho Hl. unfold typed_set. destruct (Z.ltb_spec offset 0); [lia|].
  destruct (Z.ltb_spec (len target) (offset + len src)); [lia|]. cbn [orb]. eexists. split; [done|].
  pose proof (len_nonneg src). split.
  - rewrite !len_app. unfold len in *. rewrite length_take, length_drop. lia.
  - intros i Hi. destruct (Z.leb_spec offset i), (Z.ltb_spec i (offset + len src)); cbn [andb]; try lia; unfold len in *.
    + rewrite lookup_app_r by (rewrite length_take; lia). rewrite length_take.
      rewrite lookup_app_l by lia. f_equal. lia.
    + rewrite lookup_app_r by (rewrite length_take; lia). rewrite length_take.
      rewrite lookup_app_r by lia. rewrite lookup_drop. f_equal. lia.
    + rewrite lookup_app_l by (rewrite length_take; lia). by rewrite lookup_take_lt by lia.
Qed.

Section Draw.
(** How a quotient prints, in the text of an error. *)
Context (ratio_text : Z -> Z -> string).
Record rgba := { rgba_session : string; rgba_display : Z; rgba_width : Z; rgba_height : Z; rgba_pixels : option bytes }.
Record canvas := { flipPixels : option bytes; lastDw : Z; lastDh : Z; temp : option bytes; shown : list rgba }.
Definition new_canvas : canvas := {| flipPixels := None; lastDw := 0; lastDh := 0; temp := None; shown := [] |}.

Definition undefined_buffer : jsval := VError "TypeError" "Cannot read properties of undefined".
Definition draw_row (f : format) (y : Z) : js canvas unit :=
  let srcStart := ((cropTop f + y) * width f + cropLeft f) * 4 in
  let dstRow := displayWidth f * 4 in
  t ← gets temp;
  flip ← gets flipPixels;
  match t, flip with
  | Some t, Some flip =>
      r ← lift_outcome (typed_set flip (subarray t srcStart (srcStart + dstRow)) (y * dstRow));
      modify (fun c => c <| flipPixels := Some r |>)
  | _, _ => throw undefined_buffer
  end.
(** A new buffer when the visible size has changed, and when the frame's size has. *)
Definition resize_flip (dw dh : Z) : js canvas unit :=
  last ← gets (fun c => (lastDw c, lastDh c));
  when (negb (dw =? last.1) || negb (dh =? last.2)) (
    modify (fun c => c <| lastDw := dw |> <| lastDh := dh |>);;
    b ← lift_outcome (new_bytes (dw * dh * 4) x00);
    modify (fun c => c <| flipPixels := Some b |>)).
Definition resize_temp (fsize : Z) : js canvas unit :=
  t ← gets temp;
  when (match t with Some t => negb (len t =? fsize) | None => true end) (
    b ← lift_outcome (new_bytes fsize xff);
    modify (fun c => c <| temp := Some b |>)).
Definition convert (f : format) (p : planes) : js canvas unit :=
  t ← gets temp;
  match t with
  | Some t => b ← lift_outcome (convertYCbCr ratio_text f p t); modify (fun c => c <| temp := Some b |>)
  | None => throw undefined_buffer
  end.
Definition onRgba (r : option bytes -> rgba) : js canvas unit :=
  modify (fun c => c <| shown := shown c ++ [r (flipPixels c)] |>).
Definition draw (display : Z) (f : format) (p : planes) (sessionId : option string) : js canvas unit :=
  let dw := displayWidth f in
  let dh := displayHeight f in
  resize_flip dw dh;;
  resize_temp (width f * height f * 4);;
  convert f p;;
  for_of (seqZ 0 dh) (draw_row f);;
  onRgba (Build_rgba (default EmptyString sessionId) display dw dh).

(** ** What is shown *)
(** The visible rectangle lies within the frame. *)
Definition fits (f : format) : Prop :=
  0 < displayWidth f /\ 0 < displayHeight f /\ 0 <= cropLeft f /\ 0 <= cropTop f /\
  cropLeft f + displayWidth f <= width f /\ cropTop f + displayHeight f <= height f.
Definition opaque (b : bytes) : Prop := forall i, (i mod 4 = 3)%nat -> (i < length b)%nat -> b !! i = Some xff.
Record canvas_ok (c : canvas) : Prop := {
  last_size : 0 <= lastDw c /\ 0 <= lastDh c;
  flip_size : match flipPixels c with Some b => len b = lastDw c * lastDh c * 4 | None => lastDw c = 0 /\ lastDh c = 0 end;
  temp_opaque : from_option opaque True (temp c);
}.

Lemma row_bounds f y : fits f -> 0 <= y < displayHeight f ->
  0 <= ((cropTop f + y) * width f + cropLeft f) * 4 /\
  ((cropTop f + y) * width f + cropLeft f) * 4 + displayWidth f * 4 <= width f * height f * 4 /\
  0 <= y * (displayWidth f * 4) /\
  y * (displayWidth f * 4) + displayWidth f * 4 <= displayWidth f * displayHeight f * 4.
Proof. intros (? & ? & ? & ? & ? & ?) Hy. repeat split; nia. Qed.

Lemma draw_row_spec f y c t flip : fits f -> 0 <= y < displayHeight f ->
  temp c = Some t -> len t = width f * height f * 4 ->
  flipPixels c = Some flip -> len flip = displayWidth f * displayHeight f * 4 ->
  exists flip', draw_row f y c = (Ret tt, c <| flipPixels := Some flip' |>) /\ len flip' = len flip /\
    (forall x k, 0 <= x < displayWidth f -> 0 <= k < 4 ->
       pixel flip' (displayWidth f) x y k = pixel t (width f) (cropLeft f + x) (cropTop f + y) k) /\
    (forall i, 0 <= i < y * displayWidth f * 4 -> flip' !! Z.to_nat i = flip !! Z.to_nat i).
Proof.
  intros Hf Hy Ht Hlt Hp Hlp. destruct (row_bounds f y Hf Hy) as (Hs & Hse & Hd & Hde).
  set (src := ((cropTop f + y) * width f + cropLeft f) * 4) in *.
  pose proof (subarray_length t src (src + displayWidth f * 4)) as Hl.
  destruct Hf as (Hdw & _). destruct (typed_set_fits flip (subarray t src (src + displayWidth f * 4)) (y * (displayWidth f * 4)))
    as (r & Er & Hlr & Hr); [lia|rewrite Hl; lia|].
  exists r. unfold draw_row. js_steps. rewrite Ht, Hp. fold src. rewrite Er. js_steps. split; [done|]. split; [done|].
  rewrite Hl in Hr by lia. split.
  - intros x k Hx Hk. unfold pixel. rewrite Hr by nia.
    destruct (Z.leb_spec (y * (displayWidth f * 4)) ((y * displayWidth f + x) * 4 + k)); [|nia].
    destruct (Z.ltb_spec ((y * displayWidth f + x) * 4 + k) (y * (displayWidth f * 4) + (src + displayWidth f * 4 - src))); [|nia].
    cbn [andb]. rewrite subarray_lookup by nia. do 2 f_equal. unfold src. ring.
  - intros i Hi. rewrite Hr by lia. by destruct (Z.leb_spec (y * (displayWidth f * 4)) i); [nia|].
Qed.

Lemma draw_rows_spec f t (n : nat) : fits f -> len t = width f * height f * 4 ->
  forall y c flip, 0 <= y -> y + Z.of_nat n <= displayHeight f -> temp c = Some t ->
  flipPixels c = Some flip -> len flip = displayWidth f * displayHeight f * 4 ->
  exists flip', for_of (seqZ y (Z.of_nat n)) (draw_row f) c = (Ret tt, c <| flipPixels := Some flip' |>) /\
    len flip' = len flip /\
    (forall x y' k, 0 <= x < displayWidth f -> y <= y' < y + Z.of_nat n -> 0 <= k < 4 ->
       pixel flip' (displayWidth f) x y' k = pixel t (width f) (cropLeft f + x) (cropTop f + y') k) /\
    (forall i, 0 <= i < y * displayWidth f * 4 -> flip' !! Z.to_nat i = flip !! Z.to_nat i).
Proof.
  intros Hf Hlt. induction n as [|n IH]; intros y c flip Hy Hn Ht Hp Hlp.
  - exists flip. rewrite seqZ_nil by lia. split_and!; [|done|lia|done]. cbn. destruct c; cbn in *. by subst.
  - rewrite seqZ_cons by lia. cbn [for_of].
    destruct (draw_row_spec f y c t flip Hf ltac:(lia) Ht Hlt Hp Hlp) as (flip1 & E1 & Hl1 & Hr1 & Hk1).
    rewrite (bind_eq _ _ _ _ _ E1). replace (Z.pred (Z.of_nat (S n))) with (Z.of_nat n) by lia.
    set (c1 := c <| flipPixels := Some flip1 |>) in *.
    destruct (IH (Z.succ y) c1 flip1) as (flip2 & E2 & Hl2 & Hr2 & Hk2);
      [lia|lia|subst c1; by destruct c|subst c1; by destruct c|congruence|].
    exists flip2. rewrite E2. assert (Hdw : 0 < displayWidth f) by apply Hf. split_and!.
    + subst c1. by destruct c.
    + congruence.
    + intros x y' k Hx Hy' Hk. destruct (decide (y' = y)) as [->|]; [|apply Hr2; lia].
      rewrite <- Hr1 by done. unfold pixel. apply Hk2. nia.
    + intros i Hi. rewrite Hk2 by nia. by apply Hk1.
Qed.

(** The buffer the conversion writes to, and the one the rectangle is copied to. *)
Definition source (f : format) (c : canvas) : bytes :=
  match temp c with
  | Some t => if len t =? width f * height f * 4 then t else replicate (Z.to_nat (width f * height f * 4)) xff
  | None => replicate (Z.to_nat (width f * height f * 4)) xff
  end.
Definition target (f : format) (c : canvas) : bytes :=
  match flipPixels c with
  | Some b => if (displayWidth f =? lastDw c) && (displayHeight f =? lastDh c) then b
              else replicate (Z.to_nat (displayWidth f * displayHeight f * 4)) x00
  | None => replicate (Z.to_nat (displayWidth f * displayHeight f * 4)) x00
  end.
Definition prepared (f : format) (converted : bytes) (c : canvas) : canvas :=
  {| flipPixels := Some (target f c); lastDw := displayWidth f; lastDh := displayHeight f;
     temp := Some converted; shown := shown c |}.
Lemma resize_flip_run f c : canvas_ok c -> fits f -> resize_flip (displayWidth f) (displayHeight f) c =
  (Ret tt, {| flipPixels := Some (target f c); lastDw := displayWidth f; lastDh := displayHeight f;
              temp := temp c; shown := shown c |}).
Proof.
  intros [_ Hflip _] (? & ? & _). unfold resize_flip, target, new_bytes. destruct c as [fl dw dh t sh]. js_steps.
  cbn [lastDw lastDh flipPixels temp shown fst snd] in *.
  destruct (Z.ltb_spec (displayWidth f * displayHeight f * 4) 0); [nia|].
  destruct (Z.eqb_spec (displayWidth f) dw) as [<-|]; [destruct (Z.eqb_spec (displayHeight f) dh) as [<-|]|];
    destruct fl; cbn [negb orb andb]; js_steps; try reflexivity; lia.
Qed.
Lemma resize_temp_run f c : fits f ->
  resize_temp (width f * height f * 4) c = (Ret tt, c <| temp := Some (source f c) |>).
Proof.
  intros (? & ? & ? & ? & ? & ?). unfold resize_temp, source, new_bytes. destruct c as [fl dw dh t sh]. js_steps.
  cbn [temp]. destruct (Z.ltb_spec (width f * height f * 4) 0); [nia|].
  destruct t as [t|]; [destruct (Z.eqb_spec (len t) (width f * height f * 4))|]; cbn [negb]; js_steps; reflexivity.
Qed.
Lemma draw_prepares display f p sid c b : canvas_ok c -> fits f -> convertYCbCr ratio_text f p (source f c) = Ret b ->
  draw display f p sid c =
  (for_of (seqZ 0 (displayHeight f)) (draw_row f);;
   onRgba (Build_rgba (default EmptyString sid) display (displayWidth f) (displayHeight f))) (prepared f b c).
Proof.
  intros Hc Hf Hb. unfold draw. cbv zeta. rewrite (bind_eq _ _ _ _ _ (resize_flip_run f c Hc Hf)).
  rewrite (bind_eq _ _ _ _ _ (resize_temp_run f _ Hf)).
  set (c1 := _ <| temp := _ |>). assert (Ec : convert f p c1 = (Ret tt, prepared f b c)).
  { unfold convert. rewrite bind_gets. change (temp c1) with (Some (source f c)). cbv iota. rewrite Hb. by js_steps. }
  by rewrite (bind_eq _ _ _ _ _ Ec).
Qed.
Lemma target_length f c : canvas_ok c -> fits f -> len (target f c) = displayWidth f * displayHeight f * 4.
Proof.
  intros [_ Hflip _] (? & ? & _). unfold target.
  assert (E : len (replicate (Z.to_nat (displayWidth f * displayHeight f * 4)) x00) = displayWidth f * displayHeight f * 4)
    by (rewrite len_replicate; nia).
  destruct c as [[b|] dw dh t sh]; cbn [flipPixels lastDw lastDh] in *; [|done].
  destruct (Z.eqb_spec (displayWidth f) dw) as [<-|]; [|done].
  by destruct (Z.eqb_spec (displayHeight f) dh) as [<-|].
Qed.
Lemma source_length f c : fits f -> len (source f c) = width f * height f * 4.
Proof.
  intros (? & ? & ? & ? & ? & ?). unfold source.
  assert (E : len (replicate (Z.to_nat (width f * height f * 4)) xff) = width f * height f * 4) by (rewrite len_replicate; nia).
  destruct (temp c) as [t|]; [|done]. by destruct (Z.eqb_spec (len t) (width f * height f * 4)).
Qed.
Lemma source_opaque f c : canvas_ok c -> opaque (source f c).
Proof.
  intros [_ _ Ht] i Hi Hl. unfold source in *.
  destruct (temp c) as [t|]; [destruct (_ =? _); [by apply Ht|]|]; rewrite length_replicate in Hl; by apply lookup_replicate_2.
Qed.
(** The index of a byte, as that of a pixel and one of its bytes. *)
Lemma pixel_of_index (w h : Z) (b : bytes) i : 0 < w -> len b = w * h * 4 -> (i < length b)%nat ->
  exists x y k, 0 <= x < w /\ 0 <= y < h /\ 0 <= k < 4 /\ k = Z.of_nat i mod 4 /\
    forall b' : bytes, pixel b' w x y k = b' !! i.
Proof.
  intros Hw Hl Hi. set (q := Z.of_nat i / 4). exists (q mod w), (q / w), (Z.of_nat i mod 4). unfold len in Hl.
  assert (Hq : 0 <= q < w * h) by (subst q; Z.to_euclidean_division_equations; lia).
  pose proof (Z.mod_pos_bound q w Hw). pose proof (Z.mod_pos_bound (Z.of_nat i) 4 ltac:(lia)).
  split_and!; try lia.
  - apply Z.div_pos; lia.
  - apply Z.div_lt_upper_bound; lia.
  - intros b'. unfold pixel. f_equal. pose proof (Z.div_mod q w). pose proof (Z.div_mod (Z.of_nat i) 4) as E4.
    change (Z.of_nat i / 4) with q in E4. lia.
Qed.
Lemma converted_opaque f p hdec vdec c b : canvas_ok c -> fits f -> convertible f p hdec vdec ->
  convertYCbCr ratio_text f p (source f c) = Ret b -> len b = width f * height f * 4 /\ opaque b.
Proof.
  intros Hc Hf Hconv E. pose proof (source_length f c Hf) as Hl. pose proof (source_opaque f c Hc) as Ho.
  destruct (converts ratio_text f p hdec vdec (source f c) Hconv Hl) as (b' & E' & Hl' & Hp).
  assert (b' = b) as -> by congruence. assert (Hlb : len b = width f * height f * 4) by (unfold len in *; congruence).
  split; [exact Hlb|]. intros i Hi Hib. destruct Hf as (? & ? & ? & ? & ? & ?).
  destruct (pixel_of_index (width f) (height f) b i) as (x & y & k & Hx & Hy & Hk & Ek & Hpx); [lia|done..|].
  pose proof (Nat2Z.inj_mod i 4) as Em. rewrite Hi in Em. change (3 = Z.of_nat i mod 4) in Em. rewrite <- Em in Ek. subst k.
  rewrite <- Hpx, Hp, Hpx by done. cbn. apply Ho; [done|congruence].
Qed.

(** A frame that cannot be converted. *)
Lemma draw_throws display f p sid c e : canvas_ok c -> fits f -> convertYCbCr ratio_text f p (source f c) = Throw e ->
  exists c', draw display f p sid c = (Throw e, c') /\ canvas_ok c' /\ shown c' = shown c.
Proof.
  intros Hc Hf He. unfold draw. cbv zeta. rewrite (bind_eq _ _ _ _ _ (resize_flip_run f c Hc Hf)).
  rewrite (bind_eq _ _ _ _ _ (resize_temp_run f _ Hf)). set (c1 := _ <| temp := _ |>).
  exists c1. split; [|split; [|done]].
  - unfold mbind at 1, js_bind at 1. unfold convert. rewrite bind_gets. change (temp c1) with (Some (source f c)).
    cbv iota. by rewrite He.
  - assert (0 < displayWidth f /\ 0 < displayHeight f) by (split; apply Hf).
    split; [cbn; lia|by apply target_length|exact (source_opaque f c Hc)].
Qed.

(** C34.  What is painted is the visible rectangle of the frame.  Whatever was painted before, painting a
    frame whose visible rectangle lies within it, whose chroma planes are smaller by powers of two
    and whose sizes fit 31 bits does not fail and hands the application exactly one picture, of that
    rectangle's size: each of its pixels is opaque and has the colour of the frame's samples at the
    rectangle's offset.  A frame whose width is no such multiple throws and shows nothing.  Either way
    the buffers are then ready for the next frame, of whatever size. *)
Theorem draw_shows_crop display f p hdec vdec sid c :
  canvas_ok c -> fits f -> convertible f p hdec vdec ->
  (exists c' px, draw display f p sid c = (Ret tt, c') /\ canvas_ok c' /\
    shown c' = shown c ++ [{| rgba_session := default EmptyString sid; rgba_display := display;
      rgba_width := displayWidth f; rgba_height := displayHeight f; rgba_pixels := Some px |}] /\
    len px = displayWidth f * displayHeight f * 4 /\
    forall x y k, 0 <= x < displayWidth f -> 0 <= y < displayHeight f -> 0 <= k < 4 ->
      pixel px (displayWidth f) x y k =
        Some (if k <? 3 then color p hdec vdec (cropLeft f + x) (cropTop f + y) k else xff)) /\
  (forall f' p', fits f' -> 0 < chromaWidth f' -> width f' < 2 ^ 31 ->
    (forall n, 0 <= n -> width f' <> chromaWidth f' * 2 ^ n) ->
    exists text c', draw display f' p' sid c = (Throw (VStr text), c') /\ canvas_ok c' /\ shown c' = shown c).
Proof.
  intros Hc Hf Hconv. split.
  2: { intros f' p' Hf' Hcw Hw Hno. assert (0 <= width f') by (destruct Hf' as (? & ? & ? & ? & ? & ?); lia).
       destruct (depower_other ratio_text (width f') (chromaWidth f') Hcw ltac:(done) Hno) as [text E].
       exists text. apply draw_throws; [done..|]. unfold convertYCbCr. by rewrite E. }
  pose proof (source_length f c Hf) as Hl. pose proof (target_length f c Hc Hf) as Hlt.
  destruct (converts ratio_text f p hdec vdec (source f c) Hconv Hl) as (b & E & Hlb & Hb).
  destruct (converted_opaque f p hdec vdec c b Hc Hf Hconv E) as [Hsize Hop].
  assert (Hwh : 0 < displayWidth f /\ 0 < displayHeight f) by (split; apply Hf).
  destruct (draw_rows_spec f b (Z.to_nat (displayHeight f)) Hf Hsize 0 (prepared f b c) (target f c))
    as (px & Ep & Hlp & Hpx & _); [lia|lia|done..|].
  rewrite Z2Nat.id in Ep, Hpx by lia. eexists _, px. split_and!.
  - rewrite (draw_prepares _ _ _ _ _ b), (bind_eq _ _ _ _ _ Ep) by done. reflexivity.
  - split; cbn; [lia|by rewrite Hlp|done].
  - reflexivity.
  - by rewrite Hlp.
  - intros x y k Hx Hy Hk. destruct (Hf) as (_ & _ & Hcl & Hct & Hw & Hh). rewrite Hpx, Hb by (done || lia).
    destruct (k <? 3) eqn:E3; [done|]. apply Z.ltb_ge in E3. assert (k = 3) as -> by lia.
    unfold pixel. apply (source_opaque f c Hc).
    + assert (0 <= (cropTop f + y) * width f + (cropLeft f + x)) as Hm by nia.
      replace (Z.to_nat _) with (3 + Z.to_nat ((cropTop f + y) * width f + (cropLeft f + x)) * 4)%nat by lia.
      by rewrite Nat.Div0.mod_add.
    + destruct (row_bounds f y Hf Hy) as (? & ? & _). unfold len in Hl. nia.
Qed.
End Draw.
