(* ===== verification/PushEvent.v ===== *)
(** * Events to the Flutter side: [helpers/push_event.js]

    Flutter receives one JSON object per event whose members are all strings; an [event] is that
    object before [JSON.stringify]. *)
From S2P Require Import Prelude JsMap JsStr Json.
Local Open Scope string_scope.

(** The payload values the callers pass. *)
Inductive evval :=
  | EvStr (s : string)
  | EvBytes (b : bytes)
  | EvJson (j : json)
  | EvUndefined.

Abbreviation payload := (jsmap string evval).
Abbreviation event := (jsmap string string).

(** [Uint8Array.prototype.toString] *)
Definition bytes_toString (b : bytes) : string := join "," (map (fun x => string_of_Z (Z_of_byte x)) b).

(** [JSON.stringify(undefined)] is undefined, and the outer [JSON.stringify] drops that member. *)
Definition jsonfyForDart (p : payload) : event :=
  foldl (fun tmp kv =>
    if kv.1 =? "" then tmp else
    match kv.2 with
    | EvStr s => map_set tmp kv.1 s
    | EvBytes b => map_set tmp kv.1 ("[" ++ bytes_toString b ++ "]")
    | EvJson j => map_set tmp kv.1 (stringify j)
    | EvUndefined => map_delete tmp kv.1
    end) [] p.

Definition makeEvent (name : string) (p : payload) (sessionId : option string) : event :=
  let e := map_set (jsonfyForDart p) "name" name in
  match sessionId with
  | Some sid => if sid =? "" then e else map_set e "session_id" sid
  | None => e
  end.

(** What [onGlobalEvent] receives. *)
Definition event_text (e : event) : string := stringify (JObj (map (fun kv => (kv.1, JStr kv.2)) e)).

(** A payload all of whose members are strings. *)
Definition strs (l : list (string * string)) : payload := map (fun kv => (kv.1, EvStr kv.2)) l.

Lemma jsonfyForDart_strs (l : list (string * string)) :
  map_ok l -> "" ∉ map_keys l -> jsonfyForDart (strs l) = l.
Proof.
  unfold jsonfyForDart. enough (G : forall acc : event, NoDup (map_keys (acc ++ l)) -> "" ∉ map_keys l ->
    foldl (fun tmp kv => if kv.1 =? "" then tmp else
      match kv.2 with
      | EvStr s => map_set tmp kv.1 s
      | EvBytes b => map_set tmp kv.1 ("[" ++ bytes_toString b ++ "]")
      | EvJson j => map_set tmp kv.1 (stringify j)
      | EvUndefined => map_delete tmp kv.1
      end) acc (strs l) = (acc ++ l)%list) by apply (G []).
  induction l as [|[k v] l IH]; intros acc Hd Hn; cbn; [by rewrite app_nil_r|].
  destruct (String.eqb_spec k "") as [->|Hk]; [by destruct Hn; left|].
  assert (E : map_set acc k v = (acc ++ [(k, v)])%list).
  { clear -Hd. induction acc as [|[k' v'] acc IHa]; cbn; [done|].
    unfold map_keys in *. cbn in Hd. apply NoDup_cons in Hd as [Hin Hd].
    rewrite decide_False.
    - by rewrite IHa.
    - intros ->. apply Hin. rewrite fmap_app. apply elem_of_app. right. by left. }
  rewrite E, IH.
  - by rewrite <- app_assoc.
  - by rewrite <- app_assoc.
  - intros Hin. apply Hn. by right.
Qed.

(** Every event carries its name, whatever the payload holds. *)
Lemma makeEvent_name name p sid : map_get (makeEvent name p sid) "name" = Some name.
Proof.
  unfold makeEvent. destruct sid as [sid|]; [|apply map_get_set_eq].
  destruct (sid =? ""); [apply map_get_set_eq|]. rewrite map_get_set_ne by done.
  apply map_get_set_eq.
Qed.
Lemma makeEvent_session name p sid : sid <> "" ->
  map_get (makeEvent name p (Some sid)) "session_id" = Some sid.
Proof.
  intros Hs. unfold makeEvent. destruct (String.eqb_spec sid ""); [done|]. apply map_get_set_eq.
Qed.
