(* ===== verification/Websock.v ===== *)
(** * The socket: [connections/websock.ts]

    One [Websock] wraps a browser [WebSocket]: frames out ([wire], in the order the browser was
    handed them), decoded messages in ([_buf]), the sequence numbers of the encrypted channel, and
    the status string that [next] polls.  Browser callbacks ([onopen], [onmessage], ...) are
    operations here.  The ingress handler a session installs is
    [BaseConnection.handleIngressMessage]; it only uses its own socket, so it is modelled next to it. *)
From S2P Require Import Prelude ProtoWire ProtoSession ProtoMessage ProtoRendezvous Crypto JsStr.

Inductive ready_state := CONNECTING | OPEN | CLOSING | CLOSED.
#[export] Instance ready_state_eq_dec : EqDecision ready_state.
Proof. solve_decision. Defined.

Inductive IngressAction := queue | consume.

(** What [_buf] holds: the rendezvous socket decodes one type, session sockets the other. *)
Inductive incoming :=
  | Rendezvous (m : RendezvousMessage.t)
  | Session (m : Message.t).

(** The promise [open] returns. *)
Inductive promise := Pending | Resolved | Rejected (e : jsval).
Definition reject (e : jsval) (p : promise) : promise :=
  match p with Pending => Rejected e | _ => p end.
Definition resolve (p : promise) : promise :=
  match p with Pending => Resolved | _ => p end.

Record Websock := {
  _buf : list incoming;
  _status : jsval;
  _latency : Z;
  (** the key, the number of frames sent under it, and the number received *)
  _secretKey : option (bytes * Z * Z);
  _isRendezvous : bool;
  (** whether a session's handler is installed *)
  _ingressHandler : bool;
  (** the browser's [WebSocket]: its state, the frames sent, and whether [onmessage] is ours *)
  readyState : ready_state;
  wire : list bytes;
  listening : bool;
  (** the promise of the last [open()] *)
  opening : promise;
}.

Definition status_open : jsval := VStr "open".
(** [this._status == "open"] *)
Definition is_open (s : jsval) : bool :=
  match s with VStr s => (s =? "open")%string | _ => false end.
(** [!this._status] *)
Definition status_falsy (s : jsval) : bool :=
  match s with
  | VStr s => (s =? "")%string
  | VUndefined | VNull => true | VBool b => negb b | VNum n => n =? 0
  | _ => false
  end.

(** [new Websock(uri, isRendezvous)] at time [now] *)
Definition newWebsock (isRendezvous : bool) (now : Z) : Websock := {|
  _buf := [];
  _status := VStr "";
  _latency := now;
  _secretKey := None;
  _isRendezvous := isRendezvous;
  _ingressHandler := false;
  readyState := CONNECTING;
  wire := [];
  listening := true;
  opening := Pending |}.

Section Websock.
Context `{ProtobufRuntime} `{Sodium}.

(** [WebSocket.prototype.send]: throws while connecting, is ignored after [close]. *)
Definition browser_send (data : bytes) : js Websock unit := fun ws =>
  match readyState ws with
  | CONNECTING => (Throw (VError "InvalidStateError" "Still in CONNECTING state."), ws)
  | OPEN => (Ret tt, ws <| wire := wire ws ++ [data] |>)
  | _ => (Ret tt, ws)
  end.

Definition setSecretKey (key : bytes) (ws : Websock) : Websock :=
  ws <| _secretKey := Some (key, 0, 0) |>.

Definition sendMessage (json : Message.t) : js Websock unit :=
  let data := Message.encode json in
  k ← gets _secretKey;
  match k with
  | Some (key, n, m) =>
      modify (fun ws => ws <| _secretKey := Some (key, n + 1, m) |>);;
      browser_send (encrypt data (n + 1) key)
  | None => browser_send data
  end.

Definition sendRendezvous (data : RendezvousMessage.t) : js Websock unit :=
  browser_send (RendezvousMessage.encode data).

Definition parseMessage (data : bytes) : outcome Message.t :=
  '(m, _) ← Message.decode 0 data; mret m.
Definition parseRendezvous (data : bytes) : outcome RendezvousMessage.t :=
  '(m, _) ← RendezvousMessage.decode 0 data; mret m.

Definition setIngressHandler (installed : bool) (ws : Websock) : Websock :=
  ws <| _ingressHandler := installed |>.

(** ** [open]: the promise and the browser callbacks it registers *)
Definition openSocket (ws : Websock) : Websock := ws <| opening := Pending |>.
(** the [setTimeout] callback *)
Definition on_open_timeout (ws : Websock) : Websock :=
  if is_open (_status ws) then ws
  else ws <| opening ::= reject (if status_falsy (_status ws) then VStr "Timeout" else _status ws) |>.
Definition on_open (now : Z) (ws : Websock) : Websock :=
  ws <| readyState := OPEN |> <| _latency := now - _latency ws |> <| _status := status_open |>
     <| opening ::= resolve |>.
Definition on_close (e : jsval) (ws : Websock) : Websock :=
  ws <| readyState := CLOSED |> <| _status := e |>
     <| opening ::= reject (VStr "Reset by the peer") |>.
Definition on_error (e : jsval) (ws : Websock) : Websock :=
  if status_falsy (_status ws) then
    ws <| opening ::= reject (VStr (if _isRendezvous ws then "Failed to connect to rendezvous server"
                                    else "Failed to connect to relay server")) |>
  else ws <| _status := e |>.

(** ** [next]: one run of its polling function
    [None] means that it has scheduled itself again. *)
Definition next_poll (timeout tm0 now : Z) : js Websock (option incoming) := fun ws =>
  match _buf ws with
  | m :: rest => (Ret (Some m), ws <| _buf := rest |>)
  | [] =>
      if negb (is_open (_status ws)) then (Throw (_status ws), ws)
      else if (0 <? timeout) && (tm0 + timeout <? now) then (Throw (VStr "Timeout"), ws)
      else (Ret None, ws)
  end.

Definition close (ws : Websock) : Websock :=
  let ws := ws <| _ingressHandler := false |> <| _status := VStr "" |> in
  let ws := match readyState ws with
            | OPEN | CONNECTING => ws <| readyState := CLOSING |> | _ => ws end in
  ws <| listening := false |>.

(** [BaseConnection.handleIngressMessage]: keepalive pings are echoed at once. *)
Definition handleIngressMessage (msg : Message.t) : js Websock IngressAction :=
  match Message.test_delay msg with
  | Some td =>
      if negb (TestDelay.from_client td) then
        sendMessage (Message.createBase <| Message.test_delay := Some td |>);;
        mret consume
      else mret queue
  | None => mret queue
  end.

(** [_recv_message] for a binary frame; a text frame changes nothing. *)
Definition _recv_message (data : bytes) : js Websock unit :=
  k ← gets _secretKey;
  bytes ← match k with
          | Some (key, n, m) =>
              modify (fun ws => ws <| _secretKey := Some (key, n, m + 1) |>);;
              lift_outcome (decrypt data (m + 1) key)
          | None => mret data
          end;
  rdv ← gets _isRendezvous;
  if (rdv : bool) then
    msg ← lift_outcome (parseRendezvous bytes);
    modify (fun ws => ws <| _buf := _buf ws ++ [Rendezvous msg] |>)
  else
    msg ← lift_outcome (parseMessage bytes);
    installed ← gets _ingressHandler;
    action ← (if (installed : bool) then handleIngressMessage msg else mret queue);
    match action with
    | consume => skip
    | queue => modify (fun ws => ws <| _buf := _buf ws ++ [Session msg] |>)
    end.

(** A frame arrives: after [close] the browser's callback is a no-op. *)
Definition on_message (data : bytes) (ws : Websock) : Websock :=
  if listening ws then exec (_recv_message data) ws else ws.

(** A run of frames arriving, and a run of messages sent. *)
Definition receive_all (frames : list bytes) (ws : Websock) : Websock :=
  foldl (fun ws f => on_message f ws) ws frames.
Definition send_all (ms : list Message.t) (ws : Websock) : Websock :=
  foldl (fun ws m => exec (sendMessage m) ws) ws ms.

End Websock.

(** ** The channel two ends share *)
Section Channel.
Context `{ProtobufLaws} `{SodiumLaws}.

(** The frames of a run of messages sent under [key] after [n] earlier ones. *)
Fixpoint sealed_frames (key : bytes) (n : Z) (ms : list Message.t) : list bytes :=
  match ms with
  | [] => []
  | m :: ms => encrypt (Message.encode m) (n + 1) key :: sealed_frames key (n + 1) ms
  end.

Lemma sendMessage_open m ws key n k :
  readyState ws = OPEN -> _secretKey ws = Some (key, n, k) ->
  sendMessage m ws = (Ret tt, ws <| _secretKey := Some (key, n + 1, k) |>
                                 <| wire := wire ws ++ [encrypt (Message.encode m) (n + 1) key] |>).
Proof.
  intros Ho Hk. unfold sendMessage. js_steps. rewrite Hk. js_steps.
  unfold browser_send. destruct ws; cbn in *. by subst.
Qed.

Lemma sendMessage_plain m ws :
  readyState ws = OPEN -> _secretKey ws = None ->
  sendMessage m ws = (Ret tt, ws <| wire := wire ws ++ [Message.encode m] |>).
Proof.
  intros Ho Hk. unfold sendMessage. js_steps. rewrite Hk. unfold browser_send. by rewrite Ho.
Qed.

Lemma send_all_sealed ms ws key n k :
  readyState ws = OPEN -> _secretKey ws = Some (key, n, k) ->
  send_all ms ws = ws <| _secretKey := Some (key, n + len ms, k) |>
                      <| wire := wire ws ++ sealed_frames key n ms |>.
Proof.
  revert ws n. induction ms as [|m ms IH]; intros ws n Ho Hk; cbn [send_all foldl sealed_frames].
  - rewrite len_nil, Z.add_0_r, app_nil_r. destruct ws; cbn in *. by subst.
  - unfold exec. rewrite (sendMessage_open m ws key n k) by done. cbn [snd].
    fold (send_all ms). rewrite len_cons.
    unfold send_all in IH. rewrite (IH _ (n + 1)); [|done..].
    destruct ws; cbn. rewrite <- app_assoc, <- Z.add_assoc. done.
Qed.

Lemma sealed_frames_lookup key n ms i m :
  ms !! i = Some m ->
  sealed_frames key n ms !! i =
    Some (secretbox_easy (Message.encode m) (makeOnce (n + 1 + Z.of_nat i)) key).
Proof.
  revert n i. induction ms as [|m' ms IH]; intros n i; [done|].
  cbn [sealed_frames]. destruct i as [|i]; simpl.
  - intros [= ->]. unfold encrypt. by rewrite Z.add_0_r.
  - intros E. rewrite (IH (n + 1) i E). by rewrite Nat2Z.inj_succ, <- Z.add_1_l, Z.add_assoc.
Qed.

Lemma parseMessage_encode m : Message.ok m -> parseMessage (Message.encode m) = Ret m.
Proof.
  intros Hm. unfold parseMessage. pose proof (Message_roundtrip m [] Hm) as E.
  rewrite app_nil_r, len_nil in E. by rewrite E.
Qed.

(** A sealed frame that arrives in sequence is decoded and queued, or handed to the handler. *)
Lemma recv_sealed m ws key n k :
  Message.ok m -> _secretKey ws = Some (key, n, k) -> _isRendezvous ws = false ->
  _ingressHandler ws = false ->
  _recv_message (encrypt (Message.encode m) (k + 1) key) ws =
    (Ret tt, ws <| _secretKey := Some (key, n, k + 1) |> <| _buf := _buf ws ++ [Session m] |>).
Proof.
  intros Hm Hk Hr Hi. destruct ws; cbn in *; subst. unfold _recv_message. js_steps.
  cbn [_secretKey]. js_steps. rewrite decrypt_encrypt. js_steps. cbn [_isRendezvous]. cbv iota.
  rewrite parseMessage_encode by done. done.
Qed.

Lemma receive_all_sealed ms ws key n k :
  Forall Message.ok ms -> _secretKey ws = Some (key, n, k) -> _isRendezvous ws = false ->
  _ingressHandler ws = false -> listening ws = true ->
  receive_all (sealed_frames key k ms) ws =
    ws <| _secretKey := Some (key, n, k + len ms) |> <| _buf := _buf ws ++ map Session ms |>.
Proof.
  intros Hms. revert ws k. induction Hms as [|m ms Hm _ IH]; intros ws k Hk Hr Hi Hl;
    cbn [sealed_frames receive_all foldl map].
  - rewrite len_nil, Z.add_0_r, app_nil_r. destruct ws; cbn in *. by subst.
  - unfold on_message at 2, exec. rewrite Hl, (recv_sealed m ws key n k) by done. cbn [snd].
    unfold receive_all in IH. rewrite (IH _ (k + 1)); [|done..]. rewrite len_cons.
    destruct ws; cbn. rewrite <- app_assoc, <- Z.add_assoc. done.
Qed.

(** The encrypted channel delivers.  When one end of a relay connection sends any run of
    messages and its frames reach the other end unchanged, the other end's queue receives exactly
    those messages in that order, and both sequence numbers have advanced together, so the
    channel is ready for the next run. *)
Theorem channel_delivers ms a b key n na nb :
  Forall Message.ok ms ->
  readyState a = OPEN -> _secretKey a = Some (key, n, na) ->
  _secretKey b = Some (key, nb, n) -> _isRendezvous b = false ->
  _ingressHandler b = false -> listening b = true ->
  let a' := send_all ms a in
  let b' := receive_all (drop (length (wire a)) (wire a')) b in
  _buf b' = _buf b ++ map Session ms /\
  _secretKey a' = Some (key, n + len ms, na) /\
  _secretKey b' = Some (key, nb, n + len ms).
Proof.
  intros Hms Ho Ha Hb Hr Hi Hl a' b'. subst a' b'.
  rewrite (send_all_sealed ms a key n na) by done. destruct a; unfold constant; cbn [wire apply_update _secretKey].
  rewrite drop_app_length, (receive_all_sealed ms b key nb n) by done. by destruct b.
Qed.

(** A frame that does not open under the next nonce leaves the queue alone but still counts, so
    the frame after it is tried under the nonce after it. *)
Lemma recv_forged data ws key n k e :
  _secretKey ws = Some (key, n, k) -> decrypt data (k + 1) key = Throw e ->
  _recv_message data ws = (Throw e, ws <| _secretKey := Some (key, n, k + 1) |>).
Proof.
  intros Hk E. unfold _recv_message. js_steps. rewrite Hk. js_steps. by rewrite E.
Qed.

(** A run of frames with one of them replaced. *)
Lemma sealed_frames_app key n ms ms' :
  sealed_frames key n (ms ++ ms') = sealed_frames key n ms ++ sealed_frames key (n + len ms) ms'.
Proof.
  revert n. induction ms as [|m ms IH]; intros n; [by rewrite len_nil, Z.add_0_r|].
  cbn [app sealed_frames]. by rewrite IH, len_cons, Z.add_assoc.
Qed.
Lemma sealed_frames_replace key k before lost after bad :
  <[length before := bad]> (sealed_frames key k (before ++ [lost] ++ after)) =
  sealed_frames key k before ++ bad :: sealed_frames key (k + len before + 1) after.
Proof.
  assert (L : forall ms k, length (sealed_frames key k ms) = length ms).
  { clear. induction ms as [|m ms IH]; intros k; [done|]. cbn. by rewrite IH. }
  rewrite sealed_frames_app. rewrite <- (L before k) at 1. rewrite insert_app_r_alt by done.
  by rewrite Nat.sub_diag.
Qed.
(** A bad frame only advances the count. *)
Lemma on_message_forged bad ws key n k e : _secretKey ws = Some (key, n, k) -> listening ws = true ->
  decrypt bad (k + 1) key = Throw e -> on_message bad ws = ws <| _secretKey := Some (key, n, k + 1) |>.
Proof.
  intros Hk Hl E. unfold on_message, exec. rewrite (recv_forged bad ws key n k e) by done.
  by destruct ws; cbn in *; subst.
Qed.

(** C29.  The nonces of the frames one end sends are pairwise different: the [i]-th frame after [n]
    earlier ones is sealed under the 24-byte little-endian form of [n + 1 + i], and while the
    counter stays a safe integer no two of them coincide. *)
Theorem frame_nonces_distinct ms ws key n k i j mi mj :
  readyState ws = OPEN -> _secretKey ws = Some (key, n, k) ->
  0 <= n -> n + len ms <= MAX_SAFE_INTEGER ->
  ms !! i = Some mi -> ms !! j = Some mj -> i <> j ->
  exists ni nj,
    wire (send_all ms ws) !! (length (wire ws) + i)%nat =
      Some (secretbox_easy (Message.encode mi) ni key) /\
    wire (send_all ms ws) !! (length (wire ws) + j)%nat =
      Some (secretbox_easy (Message.encode mj) nj key) /\
    length ni = 24%nat /\ ni <> nj.
Proof.
  intros Ho Hk Hn Hmax Hi Hj Hij. rewrite (send_all_sealed ms ws key n k) by done.
  destruct ws; unfold constant; cbn [wire apply_update]. rewrite !lookup_app_r by lia.
  rewrite !Nat.add_sub_swap, !Nat.sub_diag, !Nat.add_0_l by lia.
  pose proof (lookup_lt_Some _ _ _ Hi). pose proof (lookup_lt_Some _ _ _ Hj).
  unfold len, MAX_SAFE_INTEGER in Hmax.
  eexists _, _. split; [by apply sealed_frames_lookup|]. split; [by apply sealed_frames_lookup|].
  split; [apply makeOnce_length|]. intros E. apply makeOnce_inj in E; lia.
Qed.

(** The two directions of a connection share one key, and each end counts its own frames from 1:
    the first frame in either direction is sealed under the same nonce. *)
Lemma both_ends_start_at_nonce_one a b key ma mb :
  readyState a = OPEN -> readyState b = OPEN ->
  wire (exec (sendMessage ma) (setSecretKey key a)) =
    wire a ++ [secretbox_easy (Message.encode ma) (makeOnce 1) key] /\
  wire (exec (sendMessage mb) (setSecretKey key b)) =
    wire b ++ [secretbox_easy (Message.encode mb) (makeOnce 1) key].
Proof.
  intros Ha Hb. unfold exec. split; rewrite (sendMessage_open _ _ key 0 0) by (by destruct a, b);
    by destruct a, b.
Qed.

(** ** What a session sees of an incoming message *)

(** The ingress policy as a specification: the echoes to send back and the messages to queue. *)
Definition is_server_ping (m : Message.t) : bool :=
  match Message.test_delay m with Some td => negb (TestDelay.from_client td) | None => false end.
Definition ping_echo (m : Message.t) : Message.t :=
  Message.createBase <| Message.test_delay := Message.test_delay m |>.

Lemma recv_plain m ws :
  Message.ok m -> _secretKey ws = None -> _isRendezvous ws = false ->
  _ingressHandler ws = true -> readyState ws = OPEN ->
  _recv_message (Message.encode m) ws =
    (Ret tt, if is_server_ping m then ws <| wire := wire ws ++ [Message.encode (ping_echo m)] |>
             else ws <| _buf := _buf ws ++ [Session m] |>).
Proof.
  intros Hm Hk Hr Hi Ho. destruct ws; cbn in *; subst. unfold _recv_message. js_steps.
  cbn [_secretKey]. js_steps. cbn [_isRendezvous]. cbv iota. rewrite parseMessage_encode by done.
  js_steps. cbn [_ingressHandler]. cbv iota. unfold handleIngressMessage, is_server_ping, ping_echo.
  destruct (Message.test_delay m) as [td|] eqn:Etd; [|by js_steps].
  destruct (negb _) eqn:Ef; cbv iota; [|by js_steps].
  rewrite js_bind_assoc. erewrite bind_eq; [|by apply sendMessage_plain].
  by js_steps.
Qed.

(** Keepalive.  Of any run of messages a session's socket receives in the clear, exactly the
    pings of the server are answered, each with an echo of itself and in order, and exactly the
    others are queued, in order: no ping reaches the session and no other message is lost. *)
Theorem ingress_answers_pings ms ws :
  Forall Message.ok ms -> _secretKey ws = None -> _isRendezvous ws = false ->
  _ingressHandler ws = true -> readyState ws = OPEN -> listening ws = true ->
  let ws' := receive_all (map Message.encode ms) ws in
  _buf ws' = _buf ws ++ map Session (filter (fun m => is_server_ping m = false) ms) /\
  wire ws' = wire ws ++ map (fun m => Message.encode (ping_echo m))
                            (filter (fun m => is_server_ping m = true) ms).
Proof.
  intros Hms. revert ws. induction Hms as [|m ms Hm _ IH]; intros ws Hk Hr Hi Ho Hl ws'; subst ws'.
  { cbn. by rewrite !app_nil_r. }
  cbn [map receive_all foldl]. unfold on_message at 2 4, exec. rewrite Hl, recv_plain by done.
  cbn [snd]. rewrite !filter_cons.
  destruct (is_server_ping m) eqn:Em; cbn [decide_rel];
    match goal with |- context [foldl _ ?w _] => specialize (IH w) end;
    destruct ws; cbn in *; subst; destruct (IH eq_refl eq_refl eq_refl eq_refl eq_refl) as [E1 E2];
    unfold receive_all in E1, E2; rewrite E1, E2, <- app_assoc; done.
Qed.

End Channel.

(** What the browser (and the timer of [open]) reports. *)
Inductive browser_event :=
  | BOpen (now : Z) | BClose (e : jsval) | BError (e : jsval) | BTimeout | BMessage (data : bytes).

(** A [schedule] lists the moments at which an awaited promise is looked at again: each with the
    time and the events since the last. *)
Abbreviation schedule := (list (Z * list browser_event)).
Record net := { socket : Websock; future : schedule }.

(** ** Reading the queue *)
Section Reading.
Context `{ProtobufRuntime} `{Sodium}.

(** [next] hands out the queue from its front; an empty queue throws the status of a socket that
    is not open, and times out on one that is; in both cases nothing is lost. *)
Lemma next_poll_spec timeout tm0 now ws :
  next_poll timeout tm0 now ws =
    match _buf ws with
    | m :: rest => (Ret (Some m), ws <| _buf := rest |>)
    | [] => (if is_open (_status ws)
             then if bool_decide (0 < timeout /\ tm0 + timeout < now) then Throw (VStr "Timeout")
                  else Ret None
             else Throw (_status ws), ws)
    end.
Proof.
  unfold next_poll. destruct (_buf ws); [|done]. destruct (is_open (_status ws)); [|done].
  cbn [negb]. destruct (Z.ltb_spec 0 timeout), (Z.ltb_spec (tm0 + timeout) now);
    cbn [andb]; first [rewrite bool_decide_true by done | rewrite bool_decide_false by lia]; done.
Qed.

(** Polling with a time limit ends: a poll after the deadline settles the promise. *)
Lemma next_poll_settles timeout tm0 now ws :
  0 < timeout -> tm0 + timeout < now -> exists r, next_poll timeout tm0 now ws = r /\ r.1 <> Ret None.
Proof.
  intros. eexists. split; [done|]. rewrite next_poll_spec. destruct (_buf ws); [|done].
  destruct (is_open _); [|done]. by rewrite bool_decide_true.
Qed.

(** ** The life of a socket *)

Definition deliver (ev : browser_event) (ws : Websock) : Websock :=
  match ev with
  | BOpen now => on_open now ws
  | BClose e => on_close e ws
  | BError e => on_error e ws
  | BTimeout => on_open_timeout ws
  | BMessage d => on_message d ws
  end.
Definition deliver_all (evs : list browser_event) (ws : Websock) : Websock :=
  foldl (fun ws ev => deliver ev ws) ws evs.

(** The states in which the browser reports each of them. *)
Definition can_occur (ev : browser_event) (ws : Websock) : Prop :=
  match ev with
  | BOpen _ => readyState ws = CONNECTING
  | BClose _ | BError _ => readyState ws <> CLOSED
  | BTimeout => True
  | BMessage _ => readyState ws = OPEN
  end.

Inductive ws_event := EvBrowser (ev : browser_event) | EvSend (m : Message.t) | EvDispose.

(** The browser's events, the caller's sends and [close]. *)
Inductive ws_step : Websock -> ws_event -> Websock -> Prop :=
  | step_browser ws ev : can_occur ev ws -> ws_step ws (EvBrowser ev) (deliver ev ws)
  | step_send ws m : ws_step ws (EvSend m) (exec (sendMessage m) ws)
  | step_dispose ws : ws_step ws EvDispose (close ws).

Inductive ws_run : Websock -> list ws_event -> Websock -> Prop :=
  | run_nil ws : ws_run ws [] ws
  | run_cons ws e ws' es ws'' : ws_step ws e ws' -> ws_run ws' es ws'' -> ws_run ws (e :: es) ws''.

(** What sending and receiving leave alone. *)
Definition same_life (a b : Websock) : Prop :=
  readyState b = readyState a /\ opening b = opening a /\ _status b = _status a /\
  listening b = listening a /\ _isRendezvous b = _isRendezvous a /\
  _ingressHandler b = _ingressHandler a.

Lemma same_life_refl a : same_life a a.
Proof. done. Qed.
Lemma same_life_trans a b c : same_life a b -> same_life b c -> same_life a c.
Proof. unfold same_life. intuition congruence. Qed.

Lemma sendMessage_life m ws : same_life ws (exec (sendMessage m) ws).
Proof.
  unfold exec, sendMessage. js_steps. destruct ws as [? ? ? [[[key n] k]|] ? ? rs ? ? ?];
    cbn [_secretKey]; js_steps; unfold browser_send; by destruct rs.
Qed.
Lemma handleIngressMessage_life m ws : same_life ws (exec (handleIngressMessage m) ws).
Proof.
  unfold handleIngressMessage. destruct (Message.test_delay m) as [td|]; [|done].
  destruct (negb _); [|done]. pose proof (sendMessage_life
    (Message.createBase <| Message.test_delay := Some td |>) ws) as L.
  unfold exec, mbind, js_bind in *. by destruct (sendMessage _ ws) as [[[]|e|] ws'].
Qed.

Lemma recv_message_life d ws : same_life ws (exec (_recv_message d) ws).
Proof.
  unfold exec, _recv_message. js_steps.
  assert (Hrest : forall o ws0, same_life ws ws0 -> same_life ws
    ((bytes ← lift_outcome o;
      rdv ← gets _isRendezvous;
      if (rdv : bool) then
        msg ← lift_outcome (parseRendezvous bytes);
        modify (fun ws => ws <| _buf := _buf ws ++ [Rendezvous msg] |>)
      else
        msg ← lift_outcome (parseMessage bytes);
        installed ← gets _ingressHandler;
        action ← (if (installed : bool) then handleIngressMessage msg else mret queue);
        match action with
        | consume => skip
        | queue => modify (fun ws => ws <| _buf := _buf ws ++ [Session msg] |>)
        end) ws0).2).
  { intros o ws0 L. destruct o as [bs|e|]; [|done..]. js_steps.
    destruct (_isRendezvous ws0).
    - destruct (parseRendezvous bs); [|done..]. js_steps. by destruct ws0.
    - destruct (parseMessage bs) as [m|e|]; [|done..]. js_steps.
      pose proof (same_life_trans _ _ _ L (handleIngressMessage_life m ws0)) as L'.
      destruct (_ingressHandler ws0); [|js_steps; by destruct ws0].
      unfold exec, mbind, js_bind in *.
      destruct (handleIngressMessage m ws0) as [[[]|e|] ws1]; cbn in *; [|done..]. by destruct ws1. }
  destruct (_secretKey ws) as [[[key n] k]|]; js_steps.
  - apply Hrest. by destruct ws.
  - by apply (Hrest (Ret d)).
Qed.

Lemma on_message_life d ws : same_life ws (on_message d ws).
Proof. unfold on_message. destruct (listening ws); [apply recv_message_life|done]. Qed.

(** [open] settles once: whatever the browser reports and the caller does afterwards, a
    settled promise keeps its outcome, and one that resolved did so because the socket opened. *)
Theorem open_settles_once ws es ws' :
  ws_run ws es ws' ->
  (opening ws <> Pending -> opening ws' = opening ws) /\
  (opening ws = Pending -> opening ws' = Resolved -> exists now, EvBrowser (BOpen now) ∈ es).
Proof.
  induction 1 as [ws|ws e ws1 es ws2 Hs _ [IH1 IH2]]; [by split; [|congruence]|].
  assert (Hone : (opening ws <> Pending -> opening ws1 = opening ws) /\
                 (opening ws1 = Resolved -> opening ws = Pending -> exists now, e = EvBrowser (BOpen now))).
  { destruct Hs as [ws [now|e|e| |d] _|ws m|ws]; cbn [deliver];
      try (destruct (on_message_life d ws) as (_ & -> & _); split; [done|congruence]);
      try (destruct (sendMessage_life m ws) as (_ & -> & _); split; [done|congruence]).
    - destruct ws as [? ? ? ? ? ? ? ? ? []]; cbn; (split; [congruence|eauto]).
    - destruct ws as [? ? ? ? ? ? ? ? ? []]; cbn; split; congruence.
    - unfold on_error. destruct (status_falsy _); destruct ws as [? ? ? ? ? ? ? ? ? []]; cbn;
        split; congruence.
    - unfold on_open_timeout. destruct (is_open _); destruct ws as [? ? ? ? ? ? ? ? ? []]; cbn;
        split; congruence.
    - unfold close. destruct ws as [? ? ? ? ? ? [] ? ? []]; cbn; split; congruence. }
  destruct Hone as [H1 H2]. split.
  - intros Hp. rewrite IH1; [by apply H1|]. by rewrite H1.
  - intros Hp Hr. assert (Hd : opening ws1 = Pending \/ opening ws1 <> Pending)
      by (destruct (opening ws1); auto; by right).
    destruct Hd as [E|E].
    + destruct (IH2 E Hr) as [now Hin]. exists now. by right.
    + destruct H2 as [now ->]; [by rewrite <- IH1|done|]. exists now. by left.
Qed.

(** A closed socket is silent: after [close], no event the browser can still deliver and no
    further send puts a frame on the wire, adds to the queue or brings the socket back. *)
Theorem closed_is_silent ws es ws' :
  ws_run (close ws) es ws' ->
  wire ws' = wire ws /\ _buf ws' = _buf ws /\ readyState ws' ∈ [CLOSING; CLOSED].
Proof.
  assert (Hrun : forall w, ws_run w es ws' -> listening w = false ->
    readyState w ∈ [CLOSING; CLOSED] ->
    wire ws' = wire w /\ _buf ws' = _buf w /\ readyState ws' ∈ [CLOSING; CLOSED]).
  { induction 1 as [w|w e w1 es w2 Hs _ IH]; [done|]. intros Hl Hr.
    assert (Hone : wire w1 = wire w /\ _buf w1 = _buf w /\ listening w1 = false /\
                   readyState w1 ∈ [CLOSING; CLOSED]).
    { destruct Hs as [w [now|e|e| |d] E|w m|w]; cbn [deliver can_occur] in *.
      - rewrite E in Hr. set_solver.
      - destruct w; cbn in *. repeat split; [done|]. set_solver.
      - unfold on_error. by destruct (status_falsy _), w.
      - unfold on_open_timeout. by destruct (is_open _), w.
      - unfold on_message. by rewrite Hl.
      - unfold exec, sendMessage. js_steps. destruct w as [? ? ? [[[key n] k]|] ? ? rs ? ? ?];
          cbn [_secretKey]; js_steps; unfold browser_send; cbn in *; destruct rs; try done;
          set_solver.
      - unfold close. destruct w as [? ? ? ? ? ? [] ? ? ?]; cbn in *; repeat split; set_solver. }
    destruct Hone as (<- & <- & Hl' & Hr'). by apply IH. }
  intros Hws. destruct (Hrun _ Hws) as (-> & -> & Hr').
  - by destruct ws as [? ? ? ? ? ? [] ? ? ?].
  - destruct ws as [? ? ? ? ? ? [] ? ? ?]; cbn; set_solver.
  - split; [|split; [|done]]; by destruct ws as [? ? ? ? ? ? [] ? ? ?].
Qed.

(** ** Awaiting the socket

    While a caller awaits, the browser delivers the events of its [schedule]. *)

Definition on_socket {A} (m : js Websock A) : js net A := fun n =>
  let '(r, ws) := m (socket n) in (r, {| socket := ws; future := future n |}).

(** [await ws.open()] *)
Fixpoint await_open_loop (f : schedule) (ws : Websock) : outcome unit * net :=
  match opening ws, f with
  | Resolved, _ => (Ret tt, {| socket := ws; future := f |})
  | Rejected e, _ => (Throw e, {| socket := ws; future := f |})
  | Pending, [] => (OutOfFuel, {| socket := ws; future := [] |})
  | Pending, (_, evs) :: f => await_open_loop f (deliver_all evs ws)
  end.
Definition await_open : js net unit := fun n => await_open_loop (future n) (openSocket (socket n)).

(** [await ws.next(timeout)]: the time of the call is that of the first look. *)
Fixpoint await_next_loop (timeout tm0 : Z) (f : schedule) (ws : Websock) : outcome incoming * net :=
  match f with
  | [] => (OutOfFuel, {| socket := ws; future := [] |})
  | (now, evs) :: f =>
      match next_poll timeout tm0 now (deliver_all evs ws) with
      | (Ret (Some m), ws) => (Ret m, {| socket := ws; future := f |})
      | (Ret None, ws) => await_next_loop timeout tm0 f ws
      | (Throw e, ws) => (Throw e, {| socket := ws; future := f |})
      | (OutOfFuel, ws) => (OutOfFuel, {| socket := ws; future := f |})
      end
  end.
Definition await_next (timeout : Z) : js net incoming := fun n =>
  await_next_loop timeout (hd 0 (future n).*1) (future n) (socket n).

(** [next] with a time limit settles: a schedule that reaches past the deadline is enough. *)
Lemma await_next_loop_settles timeout tm0 f ws now :
  0 < timeout -> now ∈ f.*1 -> tm0 + timeout < now -> (await_next_loop timeout tm0 f ws).1 <> OutOfFuel.
Proof.
  intros Ht. revert ws. induction f as [|[t evs] f IH]; intros ws; cbn; [by intros []%not_elem_of_nil|].
  intros Hin Hnow. rewrite next_poll_spec. destruct (_buf _); [|done].
  destruct (is_open _); [|done]. case_bool; [done|]. apply elem_of_cons in Hin as [->|Hin]; [|by apply IH].
  lia.
Qed.

End Reading.
