(* ===== verification/Link.v ===== *)
(** * A keyed connection as a pair of queues

    Two ends that have agreed a session key over a relay, and the frames between them, as a
    transition system ([link_step]): either end may send, the browser may hand either end the next
    frame of the other, and either end's [next] may take a message from its queue, in any order.
    The specification ([spec_step]) knows neither frames nor keys: in each direction it has the
    messages in transit and the messages waiting to be taken.  [link_refines] is the simulation,
    [link_drains] the progress of a link nobody sends on and on which not both ends answer pings. *)
From Stdlib Require Import Strings.Byte.
From S2P Require Import Prelude JsMap JsStr Json ProtoWire ProtoSession ProtoMessage Crypto Websock.
#[local] Open Scope Z_scope.

Inductive side := Near | Far.
#[export] Instance side_eq_dec : EqDecision side.
Proof. solve_decision. Defined.
Definition other (s : side) : side := match s with Near => Far | Far => Near end.
Lemma other_other s : other (other s) = s.
Proof. by destruct s. Qed.
Lemma other_ne s : other s <> s.
Proof. by destruct s. Qed.
Lemma side_cases s s' : s' = s \/ s' = other s.
Proof. destruct s, s'; auto. Qed.

Definition upd {A} (s : side) (x : A) (f : side -> A) (s' : side) : A :=
  if decide (s' = s) then x else f s'.
Lemma upd_same {A} s (x : A) f : upd s x f s = x.
Proof. unfold upd. by rewrite decide_True. Qed.
Lemma upd_other {A} s (x : A) f : upd s x f (other s) = f (other s).
Proof. unfold upd. by rewrite decide_False by apply other_ne. Qed.
Lemma upd_at_other {A} s (x : A) f : upd (other s) x f s = f s.
Proof. unfold upd. rewrite decide_False; [done|]. intros E. by apply (other_ne s). Qed.

Create HintDb upd.
#[export] Hint Rewrite @upd_same @upd_other @upd_at_other other_other : upd.

(** What an observer of the two ends sees. *)
Inductive label := Sent (s : side) (m : Message.t) | Arrived (s : side) | Took (s : side) (m : incoming).

(** ** The specification *)
Record spec := { transit : side -> list Message.t; inbox : side -> list Message.t }.
Definition spec_init : spec := {| transit _ := []; inbox _ := [] |}.

Section Spec.
(** The ends that answer pings. *)
Variable answers : side -> bool.

Definition spec_arrive (s : side) (m : Message.t) (rest : list Message.t) (q : spec) : spec :=
  if answers s && is_server_ping m then
    {| transit := upd (other s) (transit q (other s) ++ [ping_echo m]) (upd s rest (transit q));
       inbox := inbox q |}
  else {| transit := upd s rest (transit q); inbox := upd s (inbox q s ++ [m]) (inbox q) |}.

Inductive spec_step : spec -> label -> spec -> Prop :=
  | spec_sent q s m :
      spec_step q (Sent s m)
        {| transit := upd (other s) (transit q (other s) ++ [m]) (transit q); inbox := inbox q |}
  | spec_arrived q s m rest :
      transit q s = m :: rest -> spec_step q (Arrived s) (spec_arrive s m rest q)
  | spec_took q s m rest :
      inbox q s = m :: rest ->
      spec_step q (Took s (Session m)) {| transit := transit q; inbox := upd s rest (inbox q) |}.

(** The runs of a labelled transition system. *)
Inductive run {S} (step : S -> label -> S -> Prop) : S -> list label -> S -> Prop :=
  | run_here x : run step x [] x
  | run_next x l y ls z : step x l y -> run step y ls z -> run step x (l :: ls) z.
End Spec.

Definition is_send (l : label) : bool := match l with Sent _ _ => true | _ => false end.

(** ** What the specification promises *)
Section Promise.
Variable answers : side -> bool.

(** The messages [s] sent, those it took, and those that are for it to take. *)
Definition sends (s : side) (ls : list label) : list Message.t :=
  omap (fun l => match l with Sent s' m => if decide (s' = s) then Some m else None | _ => None end) ls.
Definition takes (s : side) (ls : list label) : list incoming :=
  omap (fun l => match l with Took s' m => if decide (s' = s) then Some m else None | _ => None end) ls.
Definition kept (s : side) (ms : list Message.t) : list Message.t :=
  filter (fun m => answers s && is_server_ping m = false) ms.
Lemma kept_app s ms ms' : kept s (ms ++ ms') = kept s ms ++ kept s ms'.
Proof. apply filter_app. Qed.
Lemma kept_cons s m ms : kept s (m :: ms) = (if answers s && is_server_ping m then [] else [m]) ++ kept s ms.
Proof. unfold kept. rewrite filter_cons. by destruct (_ && _). Qed.

(** What is still to be taken at [s], in order. *)
Definition pending (s : side) (q : spec) : list Message.t := inbox q s ++ kept s (transit q s).

Lemma spec_step_fifo q l q' s :
  spec_step answers q l q' -> answers (other s) = false ->
  map Session (pending s q ++ kept s (sends (other s) [l])) = takes s [l] ++ map Session (pending s q').
Proof.
  intros Hstep Hno. unfold pending. destruct Hstep as [q s1 m|q s1 m rest E|q s1 m rest E];
    destruct (side_cases s s1) as [-> | ->]; unfold sends, takes, spec_arrive;
    cbn [omap list_omap transit inbox]; rewrite ?E, ?Hno; cbn [andb];
    repeat first [rewrite decide_True by done
                 |rewrite decide_False by (intros e; by apply (other_ne s))];
    repeat case_match; cbn [transit inbox]; autorewrite with upd;
    rewrite ?E, ?kept_app, ?kept_cons; cbn [map app]; rewrite ?app_nil_r, ?app_assoc; try done;
    match goal with E : _ && _ = _ |- _ => by rewrite E, ?app_nil_r end.
Qed.
Lemma omap_cons_app {A B} (f : A -> option B) x l : omap f (x :: l) = omap f [x] ++ omap f l.
Proof. cbn [omap list_omap]. by destruct (f x). Qed.

Lemma sends_app s ls ls' : sends s (ls ++ ls') = sends s ls ++ sends s ls'.
Proof. apply omap_app. Qed.
Lemma sends_quiet s ls : Forall (fun l => is_send l = false) ls -> sends s ls = [].
Proof. induction 1 as [|[]]; [done|done|by unfold sends in *; cbn..]. Qed.

(** Towards an end whose peer does not answer pings: what was to be taken and what was sent since
    is what was taken and what remains. *)
Lemma spec_run_fifo q ls q' s :
  run (spec_step answers) q ls q' -> answers (other s) = false ->
  map Session (pending s q ++ kept s (sends (other s) ls)) = takes s ls ++ map Session (pending s q').
Proof.
  intros Hr Hno. induction Hr as [q|q l q1 ls q2 Hstep _ IH]; [by rewrite app_nil_r|].
  unfold sends, takes. rewrite (omap_cons_app _ l ls), (omap_cons_app _ l ls). fold (sends (other s) ls) (takes s ls).
  rewrite <- app_assoc, <- IH, kept_app, app_assoc, !map_app, <- map_app.
  pose proof (spec_step_fifo _ _ _ _ Hstep Hno) as E. unfold sends, takes in E. rewrite E.
  by rewrite <- !app_assoc.
Qed.

(** Every step that is not a send uses up some of this. *)
Definition weight (s : side) : nat := if answers s then 4 else 2.
Definition work (q : spec) : nat :=
  weight Near * length (transit q Near) + length (inbox q Near) +
  weight Far * length (transit q Far) + length (inbox q Far).

Lemma spec_step_work q l q' :
  negb (answers Near && answers Far) -> spec_step answers q l q' -> is_send l = false ->
  (work q' < work q)%nat.
Proof.
  intros Hone Hstep. unfold work, weight.
  destruct Hstep as [q s m|q s m rest E|q s m rest E]; [done| |]; intros _; destruct s;
    unfold spec_arrive, upd; cbn [other transit inbox] in *;
    destruct (answers Near), (answers Far); try done; cbn [andb];
    repeat case_match; cbn [transit inbox]; rewrite ?E; repeat case_match; try discriminate;
    rewrite ?length_app; cbn [length]; lia.
Qed.
Lemma spec_run_work q ls q' :
  negb (answers Near && answers Far) -> run (spec_step answers) q ls q' ->
  Forall (fun l => is_send l = false) ls -> (length ls + work q' <= work q)%nat.
Proof.
  intros Hone Hr Hq. induction Hr as [q|q l q1 ls q2 Hstep _ IH]; [cbn; lia|].
  inversion_clear Hq. pose proof (spec_step_work _ _ _ Hone Hstep). cbn [length]. intuition lia.
Qed.
End Promise.

Section Link.
Context `{ProtobufLaws} `{SodiumLaws}.

(** ** The two ends: [sendMessage], [_recv_message] and [next] on either, and what has arrived *)
Record link := { ends : side -> Websock; arrived : side -> nat }.

Inductive link_step : link -> label -> link -> Prop :=
  | link_sent c s m : Message.ok m ->
      link_step c (Sent s m) {| ends := upd s (exec (sendMessage m) (ends c s)) (ends c); arrived := arrived c |}
  | link_arrived c s frame : wire (ends c (other s)) !! arrived c s = Some frame ->
      link_step c (Arrived s)
        {| ends := upd s (on_message frame (ends c s)) (ends c);
           arrived := upd s (Datatypes.S (arrived c s)) (arrived c) |}
  | link_took c s timeout tm0 now m ws :
      next_poll timeout tm0 now (ends c s) = (Ret (Some m), ws) ->
      link_step c (Took s m) {| ends := upd s ws (ends c); arrived := arrived c |}.

(** An end right after the handshake: open, keyed with nothing sent or received, its queue empty. *)
Definition keyed_end (key : bytes) (ws : Websock) : Prop :=
  readyState ws = OPEN /\ listening ws = true /\ _isRendezvous ws = false /\ _buf ws = [] /\
  _secretKey ws = Some (key, 0, 0).
Definition keyed_link (key : bytes) (c : link) : Prop :=
  forall s, keyed_end key (ends c s) /\ arrived c s = length (wire (ends c (other s))).

Definition handlers (c : link) (s : side) : bool := _ingressHandler (ends c s).

(** ** The simulation *)
Definition end_sim (key : bytes) (answers : bool) (ws : Websock) (sent recv : Z) (queue : list Message.t) : Prop :=
  readyState ws = OPEN /\ listening ws = true /\ _isRendezvous ws = false /\ _ingressHandler ws = answers /\
  _secretKey ws = Some (key, sent, recv) /\ _buf ws = map Session queue.

(** What is between the ends in the direction of [s]: the frames [s] has not received are those of
    the messages in transit, sealed under the numbers [s] expects. *)
Definition way_sim (key : bytes) (sender : Websock) (sent recv : Z) (seen : nat) (ms : list Message.t) : Prop :=
  Forall Message.ok ms /\ sent = recv + len ms /\
  exists before, wire sender = before ++ sealed_frames key recv ms /\ length before = seen.

Definition sim (key : bytes) (answers : side -> bool) (c : link) (q : spec) : Prop :=
  exists sent recv : side -> Z, forall s,
    end_sim key (answers s) (ends c s) (sent s) (recv s) (inbox q s) /\
    way_sim key (ends c (other s)) (sent (other s)) (recv s) (arrived c s) (transit q s).


(** Sending puts the message at the end of the other direction. *)
Lemma end_send key a ws sent recv queue m :
  end_sim key a ws sent recv queue ->
  end_sim key a (exec (sendMessage m) ws) (sent + 1) recv queue /\
  wire (exec (sendMessage m) ws) = wire ws ++ [encrypt (Message.encode m) (sent + 1) key].
Proof.
  intros (Ho & Hl & Hr & Hi & Hk & Hb). unfold exec. rewrite (sendMessage_open m ws key sent recv) by done.
  by destruct ws.
Qed.
Lemma way_send key ws ws' sent recv seen ms m :
  Message.ok m -> wire ws' = wire ws ++ [encrypt (Message.encode m) (sent + 1) key] ->
  way_sim key ws sent recv seen ms -> way_sim key ws' (sent + 1) recv seen (ms ++ [m]).
Proof.
  intros Hm Hw (Hok & -> & before & E & Hlen). split; [by apply Forall_app_2; [|constructor]|].
  split; [by rewrite len_app, len_cons, len_nil; lia|].
  exists before. split; [|done]. by rewrite Hw, E, sealed_frames_app, app_assoc.
Qed.
(** Nothing else the ends do moves a direction, whose sender's wire stays as it is. *)
Lemma way_same key ws ws' sent recv seen ms :
  wire ws' = wire ws -> way_sim key ws sent recv seen ms -> way_sim key ws' sent recv seen ms.
Proof. unfold way_sim. by intros ->. Qed.

Lemma ping_echo_ok m : Message.ok m -> Message.ok (ping_echo m).
Proof.
  unfold Message.ok. intros Hm. decompose [and] Hm.
  repeat split; try done.
Qed.

(** The next frame of a direction is the sealed form of its first message; receiving it takes the
    message out of the direction. *)
Lemma way_next key ws sent recv seen ms frame :
  way_sim key ws sent recv seen ms -> wire ws !! seen = Some frame ->
  exists m rest, ms = m :: rest /\ frame = encrypt (Message.encode m) (recv + 1) key /\ Message.ok m /\
    way_sim key ws sent (recv + 1) (Datatypes.S seen) rest.
Proof.
  intros (Hok & -> & before & E & <-). rewrite E, lookup_app_r, Nat.sub_diag by done.
  destruct ms as [|m rest]; [done|]. intros [= <-]. exists m, rest. inversion_clear Hok.
  split_and!; [done..|]. rewrite len_cons. split; [done|]. split; [lia|].
  exists (before ++ [encrypt (Message.encode m) (recv + 1) key]). rewrite <- app_assoc.
  split; [exact E|]. rewrite length_app. cbn. lia.
Qed.

(** What an end does with it. *)
Lemma end_arrive key a ws sent recv queue m :
  Message.ok m -> end_sim key a ws sent recv queue ->
  let ws' := on_message (encrypt (Message.encode m) (recv + 1) key) ws in
  if a && is_server_ping m
  then end_sim key a ws' (sent + 1) (recv + 1) queue /\
       wire ws' = wire ws ++ [encrypt (Message.encode (ping_echo m)) (sent + 1) key]
  else end_sim key a ws' sent (recv + 1) (queue ++ [m]) /\ wire ws' = wire ws.
Proof.
  intros Hm (Ho & Hl & Hr & Hi & Hk & Hb) ws'.
  assert (E : ws' = if a && is_server_ping m
    then ws <| _secretKey := Some (key, sent + 1, recv + 1) |>
            <| wire := wire ws ++ [encrypt (Message.encode (ping_echo m)) (sent + 1) key] |>
    else ws <| _secretKey := Some (key, sent, recv + 1) |> <| _buf := _buf ws ++ [Session m] |>).
  { subst ws'. unfold on_message, exec. rewrite Hl. unfold _recv_message. js_steps. rewrite Hk. js_steps.
    rewrite decrypt_encrypt. js_steps. set (ws1 := ws <| _secretKey := Some (key, sent, recv + 1) |>).
    assert (_isRendezvous ws1 = false) as -> by (by destruct ws).
    assert (_ingressHandler ws1 = a) as Ha by (by destruct ws).
    assert (Hs1 : forall m', sendMessage m' ws1 = (Ret tt, ws1 <| _secretKey := Some (key, sent + 1, recv + 1) |>
      <| wire := wire ws1 ++ [encrypt (Message.encode m') (sent + 1) key] |>))
      by (intros m'; apply (sendMessage_open m' ws1 key sent (recv + 1)); by destruct ws).
    rewrite parseMessage_encode by done. js_steps. rewrite Ha.
    unfold handleIngressMessage, is_server_ping, ping_echo.
    destruct a; [|by js_steps; destruct ws]. cbn [andb].
    destruct (Message.test_delay m) as [td|]; [|by js_steps; destruct ws].
    destruct (negb _); cbv iota; [|by js_steps; destruct ws]. rewrite js_bind_assoc.
    erewrite bind_eq by apply Hs1. js_steps. by destruct ws. }
  rewrite E. destruct (a && _); destruct ws; cbn in *; subst; unfold end_sim; cbn;
    rewrite ?map_app; done.
Qed.

(** One step of the link is one step of the specification. *)
Lemma link_step_sim key answers c q l c' :
  sim key answers c q -> link_step c l c' -> exists q', spec_step answers q l q' /\ sim key answers c' q'.
Proof.
  intros (sent & received & Hsim) Hstep.
  destruct Hstep as [c s m Hm|c s frame Hf|c s timeout tm0 now m ws Hp];
    destruct (Hsim s) as [He Hw]; destruct (Hsim (other s)) as [He' Hw']; rewrite other_other in Hw'.
  - eexists. split; [constructor|]. destruct (end_send _ _ _ _ _ _ m He) as [He2 Hw2].
    exists (upd s (sent s + 1) sent), received. intros s'.
    destruct (side_cases s s') as [-> | ->]; cbn [ends arrived transit inbox]; autorewrite with upd;
      (split; [done|]); [done|]. by eapply way_send.
  - destruct (way_next _ _ _ _ _ _ _ Hw Hf) as (m & rest & Et & -> & Hm & Hw1).
    eexists. split; [by constructor|]. pose proof (end_arrive _ _ _ _ _ _ m Hm He) as Ha. cbv zeta in Ha.
    unfold spec_arrive. destruct (answers s && is_server_ping m); destruct Ha as [He2 Hw2].
    + exists (upd s (sent s + 1) sent), (upd s (received s + 1) received). intros s'.
      destruct (side_cases s s') as [-> | ->]; cbn [ends arrived transit inbox]; autorewrite with upd;
        (split; [done|]); [done|]. eapply way_send; [by apply ping_echo_ok|exact Hw2|done].
    + exists sent, (upd s (received s + 1) received). intros s'.
      destruct (side_cases s s') as [-> | ->]; cbn [ends arrived transit inbox]; autorewrite with upd;
        (split; [done|]); [done|]. by eapply way_same.
  - destruct He as (Ho & Hl & Hr & Hi & Hk & Hb). rewrite next_poll_spec, Hb in Hp.
    destruct (inbox q s) as [|m0 rest] eqn:Eq; cbn [map] in Hp;
      [by repeat case_match|]. injection Hp as <- <-.
    eexists. split; [by eapply spec_took|]. exists sent, received. intros s'.
    destruct (side_cases s s') as [-> | ->]; cbn [ends arrived transit inbox]; autorewrite with upd;
      (split; [|by first [done|eapply way_same; [|done]; destruct (ends c s)]]); [|done].
    by destruct (ends c s).
Qed.

Lemma keyed_sim key c : keyed_link key c -> sim key (handlers c) c spec_init.
Proof.
  intros Hk. exists (fun _ => 0), (fun _ => 0). intros s.
  destruct (Hk s) as [(Ho & Hl & Hr & Hb & Hs) Ha]. split; [done|].
  split; [constructor|]. split; [done|]. exists (wire (ends c (other s))). by rewrite app_nil_r.
Qed.

Lemma link_run_sim key answers c q ls c' :
  sim key answers c q -> run link_step c ls c' ->
  exists q', run (spec_step answers) q ls q' /\ sim key answers c' q'.
Proof.
  intros Hs Hr. revert q Hs. induction Hr as [c|c l c1 ls c2 Hstep _ IH]; intros q Hs.
  - exists q. split; [constructor|done].
  - destruct (link_step_sim _ _ _ _ _ _ Hs Hstep) as (q1 & Hq & Hs1).
    destruct (IH q1 Hs1) as (q2 & Hq2 & Hs2). exists q2. split; [by econstructor|done].
Qed.

(** C7.  The encrypted link refines a pair of queues.  Whatever the two ends and the browser do
    after the handshake, in whatever order, is a behaviour of the specification with the same
    observable steps -- every frame that arrives is the oldest message in transit, unchanged, a
    ping of the server is answered by an end that has a handler and otherwise queued, and what
    [next] takes is the oldest message queued -- and the queue an end is left with is the
    specification's. *)
Theorem link_refines key c ls c' :
  keyed_link key c -> run link_step c ls c' ->
  exists q, run (spec_step (handlers c)) spec_init ls q /\
    forall s, _buf (ends c' s) = map Session (inbox q s).
Proof.
  intros Hk Hr. destruct (link_run_sim _ _ _ _ _ _ (keyed_sim _ _ Hk) Hr) as (q & Hq & sent & received & Hs).
  exists q. split; [done|]. intros s. by destruct (Hs s) as [(_ & _ & _ & _ & _ & Hb) _].
Qed.

(** When neither end can receive or take anything more, nothing is left in the specification. *)
Definition at_rest (c : link) : Prop := forall l c', link_step c l c' -> is_send l = true.
Lemma at_rest_done key answers c q s : sim key answers c q -> at_rest c -> transit q s = [] /\ inbox q s = [].
Proof.
  intros (sent & received & Hsim) Hrest. destruct (Hsim s) as [(_ & _ & _ & _ & _ & Hb) (_ & _ & before & Hw & Hl)].
  split.
  - destruct (transit q s) as [|m rest] eqn:Et; [done|]. exfalso.
    assert (E : wire (ends c (other s)) !! arrived c s = Some (encrypt (Message.encode m) (received s + 1) key))
      by (by rewrite Hw, <- Hl, lookup_app_r, Nat.sub_diag).
    by pose proof (Hrest _ _ (link_arrived c s _ E)).
  - destruct (inbox q s) as [|m rest]; [done|]. exfalso.
    assert (E : next_poll 0 0 0 (ends c s) = (Ret (Some (Session m)), (ends c s) <| _buf := map Session rest |>))
      by (unfold next_poll; by rewrite Hb).
    by pose proof (Hrest _ _ (link_took c s 0 0 0 _ _ E)).
Qed.

Lemma run_app {S} (step : S -> label -> S -> Prop) x ls y ls' z :
  run step x ls y -> run step y ls' z -> run step x (ls ++ ls') z.
Proof. induction 1; [done|]. intros. cbn. econstructor; eauto. Qed.

(** C8.  The encrypted link delivers.  When at most one end answers pings (two would echo one for ever),
    then, however the link was used, once the ends stop sending only finitely many frames can still
    arrive and messages be taken, and when that is over an end whose peer answers no pings has taken
    every message its peer ever sent, in order and each once, except the pings it answered itself. *)
Theorem link_drains key c ls c1 :
  keyed_link key c -> negb (handlers c Near && handlers c Far) -> run link_step c ls c1 ->
  exists most, forall ls' c2, run link_step c1 ls' c2 -> Forall (fun l => is_send l = false) ls' ->
    (length ls' <= most)%nat /\
    (at_rest c2 -> forall s, handlers c (other s) = false ->
      takes s (ls ++ ls') = map Session (kept (handlers c) s (sends (other s) ls))).
Proof.
  intros Hk Hone Hr. destruct (link_run_sim _ _ _ _ _ _ (keyed_sim _ _ Hk) Hr) as (q1 & Hq1 & Hs1).
  exists (work (handlers c) q1). intros ls' c2 Hr' Hno.
  destruct (link_run_sim _ _ _ _ _ _ Hs1 Hr') as (q2 & Hq2 & Hs2).
  split; [pose proof (spec_run_work _ _ _ _ Hone Hq2 Hno); lia|].
  intros Hrest s Hs. destruct (at_rest_done _ _ _ _ s Hs2 Hrest) as [Ht Hi].
  pose proof (spec_run_fifo _ _ _ _ s (run_app _ _ _ _ _ _ Hq1 Hq2) Hs) as E.
  unfold pending in E. rewrite Ht, Hi in E. cbn in E. rewrite app_nil_r in E. rewrite <- E.
  by rewrite sends_app, (sends_quiet _ ls'), app_nil_r.
Qed.
End Link.
