(* ===== verification/SessionConnect.v ===== *)
(** * Establishing a session: [connections/session_connect.ts]

    A session asks the rendezvous server for its peer ([startPunchHole]), opens the relay it is
    told to use, and agrees a key with the peer over it ([secureHandshake], [connectRelay]).  The
    libsodium key generators are arguments ([keys]); the browser's side of each socket is the
    [schedule] of its [net]. *)
From Stdlib Require Import Strings.Byte.
From S2P Require Import Prelude JsMap JsStr Json ProtoWire ProtoSession ProtoMessage ProtoRendezvous ProtoEnums.
From S2P Require Import Crypto Config PushEvent Websock.
Local Open Scope string_scope.

(** [ensureLoginSessionId]: [rand] is [Math.random() * 0xffffffff] without its fraction. *)
Definition ensureLoginSessionId (rand : Z) (sid : option Z) : Z :=
  match sid with
  | Some s => if (s =? 0)%Z then (let r := to_uint32 rand in if (r =? 0)%Z then 1 else r) else s
  | None => let r := to_uint32 rand in if (r =? 0)%Z then 1 else r
  end.

Definition getDefaultUri (host : string) (isRelay : bool) : string :=
  "wss://" ++ host ++ "/ws/" ++ (if isRelay then "relay" else "id").

Definition punchHoleFailureMessage (failure : Z) : string :=
  if (failure =? PunchHoleResponse_Failure.ID_NOT_EXIST)%Z then "ID does not exist"
  else if (failure =? PunchHoleResponse_Failure.OFFLINE)%Z then "Remote desktop is offline"
  else if (failure =? PunchHoleResponse_Failure.LICENSE_MISMATCH)%Z then "Key mismatch"
  else if (failure =? PunchHoleResponse_Failure.LICENSE_OVERUSE)%Z then "Key overuse"
  else "Unknown error (code: " ++ string_of_Z failure ++ ")".

Definition RS_PK : string := "1+osBpZv1anmzl0VBLmVJXYvwDp3TN3nX+DS9YOcuXc=".

(** What [genBoxKeyPair] and [genSecretKey] return. *)
Record keys := { mySk : bytes; asymmetric_value : bytes; secret_key : bytes }.

Section SessionConnect.
Context `{ProtobufRuntime} `{Sodium}.
(** [localStorage] *)
Variable st : storage.

(** [getEffectiveOption("key") || RS_PK] *)
Definition server_key : string := or_empty (getEffectiveOption st "key") RS_PK.

(** The [try] block on [pkIn]: the peer's signing key as vouched for by the server. *)
Definition trusted_pk (peerId : string) (pkIn : option bytes) : option bytes :=
  pk ← pkIn;
  match (pk ← verify pk (PkBase64 server_key);
         '(idpk, _) ← IdPk.decode 0 pk;
         mret (if IdPk.id idpk =? peerId then IdPk.pk idpk else pk)) with
  | Ret pk => if negb (len pk =? 32)%Z then None else Some pk
  | _ => None
  end.

(** The empty [PublicKey] that tells the peer to go on in the clear. *)
Definition refusal : Message.t := Message.createBase <| Message.public_key := Some PublicKey.createBase |>.
Definition refuse : js net (option bool) := on_socket (sendMessage refusal);; mret None.

Definition key_message (k : keys) (theirPk : bytes) : Message.t :=
  Message.createBase <| Message.public_key := Some (PublicKey.createBase
    <| PublicKey.asymmetric_value := asymmetric_value k |>
    <| PublicKey.symmetric_value := seal (secret_key k) theirPk (mySk k) |>) |>.

Definition signed_id (msg : incoming) : option SignedId.t :=
  match msg with Session m => Message.signed_id m | Rendezvous _ => None end.

(** [None] is the [undefined] of a bare [return]. *)
Definition secureHandshake (k : keys) (peerId : string) (pkIn : option bytes) : js net (option bool) :=
  match trusted_pk peerId pkIn with
  | None => refuse
  | Some pk =>
      msg ← await_next 12000;
      match signed_id msg with
      | None => refuse
      | Some signedId =>
          match verify (SignedId.id signedId) (PkBytes pk) with
          | Throw _ => refuse
          | OutOfFuel => lift_outcome OutOfFuel
          | Ret signedId =>
              '(idpk, _) ← lift_outcome (IdPk.decode 0 signedId);
              if negb (IdPk.id idpk =? peerId) then refuse
              else
                let theirPk := IdPk.pk idpk in
                if negb (len theirPk =? 32)%Z then refuse
                else
                  on_socket (sendMessage (key_message k theirPk));;
                  on_socket (modify (setSecretKey (secret_key k)));;
                  mret (Some true)
          end
      end
  end.

(** ** [connectRelay] *)
Record relay_env := { relay : net; pushed : list event }.
Definition on_relay {A} (m : js net A) : js relay_env A := fun e =>
  let '(r, n) := m (relay e) in (r, {| relay := n; pushed := pushed e |}).
Definition push (name : string) (p : payload) (sessionId : option string) : js relay_env unit :=
  modify (fun e => e <| pushed := (pushed e ++ [makeEvent name p sessionId])%list |>).

Definition relay_request (rr : RelayResponse.t) : RendezvousMessage.t :=
  RendezvousMessage.createBase <| RendezvousMessage.request_relay := Some (RequestRelay.createBase
    <| RequestRelay.licence_key := getEffectiveOption st "key" |>
    <| RequestRelay.uuid := RelayResponse.uuid rr |>) |>.

Definition connectRelay (k : keys) (now : Z) (rr : RelayResponse.t) (peerId : string)
    (sessionId : option string) (onReady : bool -> js relay_env unit) : js relay_env unit :=
  on_relay (modify (fun n => n <| socket := newWebsock false now |>));;
  on_relay await_open;;
  on_relay (on_socket (sendRendezvous (relay_request rr)));;
  secure ← on_relay (secureHandshake k peerId (RelayResponse.pk rr));
  let secure := default false secure in
  push "connection_ready" [("secure", EvJson (JBool secure)); ("direct", EvJson (JBool false))] sessionId;;
  onReady secure.

(** ** [startPunchHole] *)
Definition punch_request (id : string) (connType : Z) : RendezvousMessage.t :=
  RendezvousMessage.createBase <| RendezvousMessage.punch_hole_request := Some (PunchHoleRequest.createBase
    <| PunchHoleRequest.id := id |>
    <| PunchHoleRequest.licence_key := getEffectiveOption st "key" |>
    <| PunchHoleRequest.conn_type := connType |>
    <| PunchHoleRequest.nat_type := NatType.SYMMETRIC |>
    <| PunchHoleRequest.token := getEffectiveOption st "access_token" |>) |>.

(** Up to [ws.close()]: the rendezvous socket, opened at [now], and the answer it gets. *)
Definition punch (id : string) (connType now : Z) (f : schedule) : outcome incoming * net :=
  (await_open;;
   on_socket (sendRendezvous (punch_request id connType));;
   msg ← await_next 12000;
   on_socket (modify close);;
   mret msg) {| socket := newWebsock true now; future := f |}.

(** [E] is the caller's state: [reportError] and [onRelay] are its callbacks. *)
Definition startPunchHole {E} (id : string) (connType now : Z) (f : schedule)
    (onRelay : RelayResponse.t -> js E unit) (reportError : string -> string -> js E unit) : js E bool :=
  msg ← lift_outcome (punch id connType now f).1;
  match msg with
  | Rendezvous msg =>
      match RendezvousMessage.punch_hole_response msg, RendezvousMessage.relay_response msg with
      | Some phr, _ =>
          if truthy (PunchHoleResponse.other_failure phr) then
            reportError "Error" (PunchHoleResponse.other_failure phr);; mret false
          else if negb (PunchHoleResponse.failure phr =? PunchHoleResponse_Failure.UNRECOGNIZED)%Z then
            reportError "Error" (punchHoleFailureMessage (PunchHoleResponse.failure phr));; mret false
          else mret false
      | None, Some rr =>
          if negb (truthy (RelayResponse.version rr)) then
            reportError "Error" "Remote version is low, not support web";; mret false
          else onRelay rr;; mret true
      | None, None => mret false
      end
  | Session _ => mret false
  end.
End SessionConnect.

(** ** While the handshake waits

    Before a key is set and a handler installed, what the browser delivers cannot make the socket
    send anything. *)
Section Waiting.
Context `{ProtobufRuntime} `{Sodium}.

Definition unkeyed (w0 w : Websock) : Prop :=
  _secretKey w = None /\ _ingressHandler w = false /\ wire w = wire w0.

Lemma recv_unkeyed d w0 w : unkeyed w0 w -> unkeyed w0 (exec (_recv_message d) w).
Proof.
  intros (Hk & Hi & Hw). unfold exec, _recv_message. js_steps. rewrite Hk. js_steps.
  destruct (_isRendezvous w).
  - destruct (parseRendezvous d); [|done..]. js_steps. by destruct w.
  - destruct (parseMessage d); [|done..]. js_steps. rewrite Hi. js_steps. by destruct w.
Qed.

Lemma deliver_unkeyed ev w0 w : unkeyed w0 w -> unkeyed w0 (deliver ev w).
Proof.
  intros Hu. destruct ev as [now|e|e| |d]; cbn [deliver].
  - by destruct w.
  - by destruct w.
  - unfold on_error. destruct (status_falsy _); by destruct w.
  - unfold on_open_timeout. destruct (is_open _); by destruct w.
  - unfold on_message. destruct (listening w); [by apply recv_unkeyed|done].
Qed.
Lemma deliver_all_unkeyed evs w0 w : unkeyed w0 w -> unkeyed w0 (deliver_all evs w).
Proof.
  revert w. induction evs as [|ev evs IH]; intros w Hu; [done|]. by apply IH, deliver_unkeyed.
Qed.

Lemma next_poll_socket timeout tm0 now w :
  exists buf, (next_poll timeout tm0 now w).2 = w <| _buf := buf |>.
Proof.
  rewrite next_poll_spec. destruct (_buf w) as [|m rest] eqn:E; [|by exists rest].
  exists []. by destruct w; cbn in *; subst.
Qed.

Lemma await_next_loop_unkeyed timeout tm0 f w0 w :
  unkeyed w0 w -> unkeyed w0 (socket (await_next_loop timeout tm0 f w).2).
Proof.
  revert w. induction f as [|[now evs] f IH]; intros w Hu; [done|]. cbn [await_next_loop].
  apply (deliver_all_unkeyed evs) in Hu. revert Hu. generalize (deliver_all evs w). clear w.
  intros w Hu. destruct (next_poll_socket timeout tm0 now w) as [buf Eb].
  destruct (next_poll timeout tm0 now w) as [r w']. cbn in Eb. subst w'.
  assert (Hu' : unkeyed w0 (w <| _buf := buf |>)) by (by destruct w).
  destruct r as [[m|]|e|]; cbn [snd socket]; [done|by apply IH|done..].
Qed.

(** The plain frame [refuse] sends, if the socket still sends. *)
Lemma send_unkeyed m w : _secretKey w = None ->
  (sendMessage m w).2 = w \/
  (sendMessage m w) = (Ret tt, w <| wire := (wire w ++ [Message.encode m])%list |>).
Proof.
  intros Hk. unfold sendMessage. js_steps. rewrite Hk. unfold browser_send.
  destruct (readyState w); auto.
Qed.
End Waiting.

(** ** What the handshake establishes *)
Section Handshake.
Context `{ProtobufRuntime} `{Sodium}.
Variable st : storage.

(** [body] is an identity: it names [peerId] and carries the key [pk]. *)
Definition identity (body : bytes) (peerId : string) (pk : bytes) : Prop :=
  exists idpk rest, IdPk.decode 0 body = Ret (idpk, rest) /\ IdPk.id idpk = peerId /\ IdPk.pk idpk = pk.
(** The configured server signed [blob]: the text in it is the identity of [peerId] with the key
    [pk], or the identity of somebody else, and then the text itself is the key. *)
Definition server_vouches (peerId : string) (blob pk : bytes) : Prop :=
  exists serverKey body,
    from_base64 (or_empty (getEffectiveOption st "key") "1+osBpZv1anmzl0VBLmVJXYvwDp3TN3nX+DS9YOcuXc=") = Ret serverKey /\
    sign_open blob serverKey = Ret body /\
    (identity body peerId pk \/ exists other pk', identity body other pk' /\ other <> peerId /\ pk = body).

Lemma verify_opens signed key body : verify signed key = Ret body ->
  exists k, match key with PkBase64 s => from_base64 s | PkBytes b => Ret b end = Ret k /\ sign_open signed k = Ret body.
Proof.
  unfold verify. destruct (match key with PkBase64 s => from_base64 s | PkBytes b => Ret b end) as [k| |]; [|done..].
  by exists k.
Qed.
(** The peer's signing key is one the server vouches for. *)
Lemma trusted_pk_spec peerId pkIn pk :
  trusted_pk st peerId pkIn = Some pk ->
  len pk = 32%Z /\ exists blob, pkIn = Some blob /\ server_vouches peerId blob pk.
Proof.
  unfold trusted_pk. destruct pkIn as [blob|]; [|done]. cbn [mbind option_bind].
  destruct (verify blob _) as [body|e|] eqn:Ev; [|done..]. cbn [mbind outcome_bind].
  destruct (IdPk.decode 0 body) as [[idpk rest]|e|] eqn:Ed; [|done..]. cbn.
  intros E. match type of E with context [negb (len ?x =? 32)%Z] =>
    destruct (Z.eqb_spec (len x) 32) as [El|]; [|done]; cbn in E; injection E as <- end.
  split; [done|]. exists blob. split; [done|]. apply verify_opens in Ev as (key & Ek & Eo). exists key, body.
  split; [exact Ek|]. split; [done|]. destruct (String.eqb_spec (IdPk.id idpk) peerId) as [Hid|Hid].
  - left. by exists idpk, rest.
  - right. exists (IdPk.id idpk), (IdPk.pk idpk). split; [by exists idpk, rest|done].
Qed.

(** C13.  Authentication.  [secureHandshake] reports a secure connection only if the blob it was given is
    signed by the configured server (by the built-in key when none is configured), a 32-byte key
    comes of it (the one signed for the requested peer, or, when the signed identity is another
    peer's, its text taken for a key), some message is signed by that key, and what that message
    signs is the requested peer's identity with a 32-byte box key.  Then the one frame sent is the
    session key sealed to that box key (or nothing, when the socket sends no more), and the socket
    goes on under that session key with both counters at zero. *)
Theorem handshake_authenticates k peerId pkIn n n' :
  _secretKey (socket n) = None -> _ingressHandler (socket n) = false ->
  secureHandshake st k peerId pkIn n = (Ret (Some true), n') ->
  exists blob pk signed body theirPk,
    pkIn = Some blob /\ server_vouches peerId blob pk /\ len pk = 32%Z /\
    sign_open signed pk = Ret body /\ identity body peerId theirPk /\ len theirPk = 32%Z /\
    _secretKey (socket n') = Some (secret_key k, 0, 0)%Z /\
    (wire (socket n') = (wire (socket n) ++ [Message.encode (key_message k theirPk)])%list \/
     wire (socket n') = wire (socket n)).
Proof.
  intros Hk Hi. unfold secureHandshake.
  assert (Href : forall m, ~ refuse m = (Ret (Some true), n')).
  { intros m. unfold refuse, mbind, js_bind, on_socket.
    by destruct (sendMessage refusal (socket m)) as [[[]| |] ?]. }
  destruct (trusted_pk st peerId pkIn) as [pk|] eqn:Etp; [|by intros E%Href].
  destruct (trusted_pk_spec _ _ _ Etp) as [Hlen (blob & Hblob & Hv)]. unfold mbind at 1, js_bind at 1.
  pose proof (await_next_loop_unkeyed 12000 (hd 0%Z (future n).*1) (future n) (socket n) (socket n)
    ltac:(done)) as Hu.
  unfold await_next.
  destruct (await_next_loop 12000 _ _ _) as [[msg|e|] n1]; [|done..]. cbn [snd] in Hu.
  destruct (signed_id msg) as [sid|]; [|by intros E%Href].
  destruct (verify (SignedId.id sid) (PkBytes pk)) as [body|e|] eqn:Ev; [|by intros E%Href|done].
  apply verify_opens in Ev as (pk' & [= <-] & Ev).
  destruct (IdPk.decode 0 body) as [[idpk rest]|e|] eqn:Ed; [|done..]. js_steps.
  destruct (String.eqb_spec (IdPk.id idpk) peerId) as [Hid|]; [|by intros E%Href]. cbn [negb].
  destruct (Z.eqb_spec (len (IdPk.pk idpk)) 32) as [Hl|]; [|by intros E%Href]. cbn [negb].
  destruct Hu as (Hk1 & _ & Hw1). unfold on_socket, mbind, js_bind, mret, js_ret.
  pose proof (send_unkeyed (key_message k (IdPk.pk idpk)) (socket n1) Hk1) as Hs.
  destruct (sendMessage _ (socket n1)) as [[[]|e|] w2]; [|done..]. cbn. intros [= <-].
  exists blob, pk, (SignedId.id sid), body, (IdPk.pk idpk). do 4 (split; [done|]).
  split; [by exists idpk, rest|]. split; [done|]. cbn [socket snd] in *.
  split; [by destruct w2|]. destruct Hs as [->|[= ->]].
  - right. rewrite <- Hw1. by destruct (socket n1).
  - left. rewrite <- Hw1. by destruct (socket n1).
Qed.

(** C15.  Refusal.  When the handshake does not report a secure connection, for whatever reason
    (no vouched key, a wrong message, a bad signature, a wrong identity, a time-out), no session
    key is set and nothing but at most one empty [PublicKey] has been sent: no key material. *)
Theorem handshake_refusal_is_harmless k peerId pkIn n r n' :
  _secretKey (socket n) = None -> _ingressHandler (socket n) = false ->
  secureHandshake st k peerId pkIn n = (r, n') -> r <> Ret (Some true) ->
  _secretKey (socket n') = None /\
  (wire (socket n') = wire (socket n) \/
   wire (socket n') = (wire (socket n) ++ [Message.encode refusal])%list).
Proof.
  intros Hk Hi. set (harmless := fun w => _secretKey w = None /\ (wire w = wire (socket n) \/
    wire w = (wire (socket n) ++ [Message.encode refusal])%list)).
  assert (Hu0 : unkeyed (socket n) (socket n)) by done.
  assert (Href : forall m, unkeyed (socket n) (socket m) -> harmless (socket (refuse m).2)).
  { intros m (Hkm & _ & Hwm). unfold refuse, mbind, js_bind, on_socket, harmless.
    pose proof (send_unkeyed refusal (socket m) Hkm) as Hs.
    destruct (sendMessage refusal (socket m)) as [o w]. cbn in Hs. destruct Hs as [->|[= -> ->]].
    - destruct o as [[]|e|]; cbn; (split; [done|by left]).
    - cbn. split; [by destruct (socket m)|]. right. rewrite <- Hwm. by destruct (socket m). }
  intros E Hr. change (harmless (socket n')). revert E. unfold secureHandshake.
  destruct (trusted_pk st peerId pkIn) as [pk|]; [|intros E; specialize (Href _ Hu0); by rewrite E in Href].
  unfold mbind at 1, js_bind at 1, await_next.
  pose proof (await_next_loop_unkeyed 12000 (hd 0%Z (future n).*1) (future n) _ _ Hu0) as Hu.
  assert (Hdone : forall m, unkeyed (socket n) (socket m) -> harmless (socket m))
    by (intros m (? & ? & ?); split; auto).
  destruct (await_next_loop 12000 _ _ _) as [[msg|e|] n1]; cbn [snd] in Hu;
    [|intros [= <- <-]; by apply Hdone..].
  specialize (Href _ Hu). specialize (Hdone _ Hu).
  destruct (signed_id msg) as [sid|]; [|intros E; by rewrite E in Href].
  destruct (verify (SignedId.id sid) (PkBytes pk)) as [body|e|];
    [|intros E; by rewrite E in Href|by intros [= <- <-]].
  destruct (IdPk.decode 0 body) as [[idpk rest]|e|]; [|by intros [= <- <-]..]. js_steps.
  destruct (IdPk.id idpk =? peerId); cbn [negb]; [|intros E; by rewrite E in Href].
  destruct (len (IdPk.pk idpk) =? 32)%Z; cbn [negb]; [|intros E; by rewrite E in Href].
  unfold on_socket, mbind, js_bind, mret, js_ret.
  pose proof (send_unkeyed (key_message k (IdPk.pk idpk)) (socket n1) ltac:(by destruct Hu)) as Hs.
  destruct (sendMessage _ (socket n1)) as [[[]|e|] w2]; cbn in Hs |- *.
  - by intros [= <- <-].
  - destruct Hs as [->|[=]]. by intros [= <- <-].
  - destruct Hs as [->|[=]]. by intros [= <- <-].
Qed.

(** C14.  An honest peer is accepted.  If the server's blob and the peer's signed identity are what
    the encoder of [IdPk] produces for this peer, under signatures that verify, and the peer's
    [SignedId] is the first message in the queue, the handshake succeeds: it sends one frame and
    switches the socket to the session key with both counters at zero; and the peer, decoding the
    frame and opening the box in it with its own secret key, obtains that session key. *)
Theorem handshake_accepts_honest_peer `{!ProtobufLaws} `{!BoxLaws}
    k peerId signed signPk sid peerSk n now evs f msg rest :
  let boxPk := box_public peerSk in
  verify signed (PkBase64 (server_key st)) = Ret (IdPk.encode {| IdPk.id := peerId; IdPk.pk := signPk |}) ->
  verify (SignedId.id sid) (PkBytes signPk) = Ret (IdPk.encode {| IdPk.id := peerId; IdPk.pk := boxPk |}) ->
  IdPk.ok {| IdPk.id := peerId; IdPk.pk := signPk |} ->
  IdPk.ok {| IdPk.id := peerId; IdPk.pk := boxPk |} ->
  len signPk = 32%Z -> len boxPk = 32%Z ->
  asymmetric_value k = box_public (mySk k) -> Message.ok (key_message k boxPk) ->
  future n = (now, evs) :: f ->
  _buf (deliver_all evs (socket n)) = Session msg :: rest -> Message.signed_id msg = Some sid ->
  readyState (deliver_all evs (socket n)) = OPEN ->
  _secretKey (deliver_all evs (socket n)) = None ->
  exists w' frame m key, secureHandshake st k peerId (Some signed) n = (Ret (Some true), {| socket := w'; future := f |}) /\
    _secretKey w' = Some (secret_key k, 0, 0)%Z /\
    wire w' = (wire (deliver_all evs (socket n)) ++ [frame])%list /\
    Message.decode 0 frame = Ret (m, []) /\ Message.public_key m = Some key /\
    box_open_easy (PublicKey.symmetric_value key) (replicate 24 x00) (PublicKey.asymmetric_value key) peerSk =
      Ret (secret_key k).
Proof.
  intros boxPk Hv1 Hv2 Hok1 Hok2 Hl1 Hl2 Hk Hm Hf Hbuf Hsid Hopen Hkey.
  assert (Hdec : forall m, IdPk.ok m -> IdPk.decode 0 (IdPk.encode m) = Ret (m, [])).
  { intros m Hi. pose proof (IdPk_roundtrip m [] Hi) as E. by rewrite app_nil_r, len_nil in E. }
  assert (Htp : trusted_pk st peerId (Some signed) = Some signPk).
  { unfold trusted_pk. cbn [mbind option_bind]. rewrite Hv1. cbn [mbind outcome_bind].
    rewrite Hdec by done. cbn [mbind outcome_bind mret outcome_ret IdPk.id IdPk.pk].
    by rewrite String.eqb_refl, Hl1. }
  unfold secureHandshake. rewrite Htp.
  erewrite bind_eq; [|unfold await_next; rewrite Hf; cbn [await_next_loop];
    by rewrite next_poll_spec, Hbuf].
  cbn [signed_id]. rewrite Hsid, Hv2, Hdec by done. js_steps.
  cbn [IdPk.id IdPk.pk]. rewrite String.eqb_refl, Hl2. cbn [negb Z.eqb Pos.eqb].
  unfold on_socket, mbind, js_bind. cbn [socket future].
  rewrite sendMessage_plain; [|by destruct (deliver_all evs (socket n))..].
  eexists _, _, (key_message k boxPk), _. split; [done|]. split; [by destruct (deliver_all evs (socket n))|].
  split; [by destruct (deliver_all evs (socket n))|].
  pose proof (Message_roundtrip _ [] Hm) as E. rewrite app_nil_r, len_nil in E.
  split; [exact E|]. split; [reflexivity|]. cbn [PublicKey.symmetric_value PublicKey.asymmetric_value].
  rewrite Hk. apply box_open.
Qed.
End Handshake.

(** ** What the rendezvous answer decides *)
Section PunchHole.
Context `{ProtobufRuntime} `{Sodium}.
Variable st : storage.
Context {E : Type} (onRelay : RelayResponse.t -> js E unit) (reportError : string -> string -> js E unit).

(** [startPunchHole] goes on to the relay exactly when the rendezvous server answered with a
    [RelayResponse] of a versioned peer and no [PunchHoleResponse], and resolves to true only
    then; on every other answer it never touches the relay, reports at most one error, and
    resolves to false if the report does not throw. *)
Theorem startPunchHole_verdict id connType now f msg e :
  (punch st id connType now f).1 = Ret (Rendezvous msg) ->
  (exists rr, RendezvousMessage.punch_hole_response msg = None /\
     RendezvousMessage.relay_response msg = Some rr /\ RelayResponse.version rr <> "" /\
     startPunchHole st id connType now f onRelay reportError e = (onRelay rr;; mret true) e) \/
  ((forall rr, RendezvousMessage.punch_hole_response msg = None ->
      RendezvousMessage.relay_response msg = Some rr -> RelayResponse.version rr = "") /\
   (startPunchHole st id connType now f onRelay reportError e = (Ret false, e) \/
    exists text, text <> "" /\
      startPunchHole st id connType now f onRelay reportError e = (reportError "Error" text;; mret false) e)).
Proof.
  intros Hp. unfold startPunchHole. rewrite Hp. js_steps.
  destruct (RendezvousMessage.punch_hole_response msg) as [phr|] eqn:Ephr.
  - right. split; [done|]. unfold truthy, truthy_string.
    destruct (decide (PunchHoleResponse.other_failure phr = "")) as [Eo|Eo].
    + rewrite bool_decide_false by (intros X; by apply X). cbv iota.
      destruct (_ =? _)%Z; [by left|]. right. eexists. split; [|done].
      unfold punchHoleFailureMessage. repeat (destruct (_ =? _)%Z; [done|]). done.
    + rewrite bool_decide_true by done. right. by eexists.
  - destruct (RendezvousMessage.relay_response msg) as [rr|] eqn:Err.
    + unfold truthy, truthy_string. destruct (decide (RelayResponse.version rr = "")) as [Ev|Ev].
      * right. rewrite bool_decide_false by (intros X; by apply X). split; [by intros ? _ [= <-]|].
        right. eexists. split; [|reflexivity]. done.
      * left. exists rr. rewrite bool_decide_true by done. done.
    + right. split; [done|]. by left.
Qed.

(** Protobuf's default [failure] is 0, the code of ID_NOT_EXIST: an answer that reports no failure
    at all (one carrying the peer's address, say) is shown as a missing ID. *)
Lemma punch_success_reads_as_missing_id id connType now f msg phr e :
  (punch st id connType now f).1 = Ret (Rendezvous msg) ->
  RendezvousMessage.punch_hole_response msg = Some phr ->
  PunchHoleResponse.failure phr = PunchHoleResponse.failure PunchHoleResponse.createBase ->
  PunchHoleResponse.other_failure phr = "" ->
  startPunchHole st id connType now f onRelay reportError e =
    (reportError "Error" "ID does not exist";; mret false) e.
Proof.
  intros Hp Hphr Hf Ho. unfold startPunchHole. rewrite Hp. js_steps. by rewrite Hphr, Ho, Hf.
Qed.
End PunchHole.

(** The login id is a non-zero 32-bit number, and is drawn once. *)
Lemma ensureLoginSessionId_range rand sid :
  (match sid with Some s => 0 <= s < 2 ^ 32 | None => True end)%Z ->
  (0 < ensureLoginSessionId rand sid < 2 ^ 32)%Z /\
  forall rand', ensureLoginSessionId rand' (Some (ensureLoginSessionId rand sid)) = ensureLoginSessionId rand sid.
Proof.
  intros Hs. assert (Hr : (0 < (let r := to_uint32 rand in if (r =? 0)%Z then 1 else r) < 2 ^ 32)%Z).
  { cbv zeta. unfold to_uint32. pose proof (Z.mod_pos_bound rand (2 ^ 32) ltac:(lia)).
    destruct (Z.eqb_spec (rand mod 2 ^ 32) 0); lia. }
  assert (H0 : (0 < ensureLoginSessionId rand sid < 2 ^ 32)%Z).
  { destruct sid as [s|]; cbn [ensureLoginSessionId]; [|done]. destruct (Z.eqb_spec s 0); [done|lia]. }
  split; [done|]. intros rand'. unfold ensureLoginSessionId at 1.
  destruct (Z.eqb_spec (ensureLoginSessionId rand sid) 0); [lia|done].
Qed.
