(* ===== verification/FtProtocol.v ===== *)
(** * File-transfer messages: [connections/ft/ft_protocol.ts]

    One constructor function per request or response, and the JSON forms of listings that the
    Flutter side reads.  [fromPartial] of a field that is [undefined] is the field's default. *)
From S2P Require Import Prelude JsMap JsStr Json ProtoWire ProtoFile ProtoSession ProtoMessage PushEvent.
Local Open Scope string_scope.

Definition BLOCK_SIZE : Z := 128 * 1024.

Definition entry_json (e : FileEntry.t) : json :=
  JObj [("entry_type", JNum (FileEntry.entry_type e)); ("name", JStr (FileEntry.name e));
        ("size", JNum (FileEntry.size e)); ("modified_time", JNum (FileEntry.modified_time e))].

Definition fd_json (id : Z) (path : string) (entries : list FileEntry.t) : json :=
  JObj [("id", JNum id); ("path", JStr path); ("entries", JArr (map entry_json entries))].
Definition fdToJson (id : Z) (path : string) (entries : list FileEntry.t) : string :=
  stringify (fd_json id path entries).

Definition makeFileAction (msg : FileAction.t) : Message.t :=
  Message.createBase <| Message.file_action := Some msg |>.
Definition makeFileResponse (msg : FileResponse.t) : Message.t :=
  Message.createBase <| Message.file_response := Some msg |>.

Definition readDirAction (path : string) (includeHidden : bool) : Message.t :=
  makeFileAction (FileAction.createBase <| FileAction.read_dir := Some (ReadDir.createBase
    <| ReadDir.path := path |>
    <| ReadDir.include_hidden := includeHidden |>) |>).
Definition sendAction (id : Z) (path : string) (fileNum : Z) (includeHidden : bool) : Message.t :=
  makeFileAction (FileAction.createBase <| FileAction.send := Some (FileTransferSendRequest.createBase
    <| FileTransferSendRequest.id := id |>
    <| FileTransferSendRequest.path := path |>
    <| FileTransferSendRequest.file_num := fileNum |>
    <| FileTransferSendRequest.include_hidden := includeHidden |>) |>).
Definition receiveAction (id : Z) (path : string) (files : list FileEntry.t) (fileNum totalSize : Z) : Message.t :=
  makeFileAction (FileAction.createBase <| FileAction.receive := Some (FileTransferReceiveRequest.createBase
    <| FileTransferReceiveRequest.id := id |>
    <| FileTransferReceiveRequest.path := path |>
    <| FileTransferReceiveRequest.files := files |>
    <| FileTransferReceiveRequest.file_num := fileNum |>
    <| FileTransferReceiveRequest.total_size := totalSize |>) |>).
Definition digestResponse (id fileNum fileSize lastModified : Z) : Message.t :=
  makeFileResponse (FileResponse.createBase <| FileResponse.digest := Some (FileTransferDigest.createBase
    <| FileTransferDigest.id := id |>
    <| FileTransferDigest.file_num := fileNum |>
    <| FileTransferDigest.file_size := fileSize |>
    <| FileTransferDigest.last_modified := lastModified |>
    <| FileTransferDigest.is_upload := true |>
    <| FileTransferDigest.is_identical := false |>) |>).
Definition sendConfirmAction (id fileNum : Z) (skip : bool) (offsetBlk : Z) : Message.t :=
  makeFileAction (FileAction.createBase <| FileAction.send_confirm :=
    Some (let c := FileTransferSendConfirmRequest.createBase
            <| FileTransferSendConfirmRequest.id := id |>
            <| FileTransferSendConfirmRequest.file_num := fileNum |> in
          if skip then c <| FileTransferSendConfirmRequest.skip := Some true |>
          else c <| FileTransferSendConfirmRequest.offset_blk := Some offsetBlk |>) |>).
Definition cancelAction (id : Z) : Message.t :=
  makeFileAction (FileAction.createBase <| FileAction.cancel := Some (FileTransferCancel.createBase
    <| FileTransferCancel.id := id |>) |>).
Definition removeFileAction (id : Z) (path : string) (fileNum : Z) : Message.t :=
  makeFileAction (FileAction.createBase <| FileAction.remove_file := Some (FileRemoveFile.createBase
    <| FileRemoveFile.id := id |>
    <| FileRemoveFile.path := path |>
    <| FileRemoveFile.file_num := fileNum |>) |>).
Definition createDirAction (id : Z) (path : string) : Message.t :=
  makeFileAction (FileAction.createBase <| FileAction.create := Some (FileDirCreate.createBase
    <| FileDirCreate.id := id |>
    <| FileDirCreate.path := path |>) |>).
Definition renameAction (id : Z) (path newName : string) : Message.t :=
  makeFileAction (FileAction.createBase <| FileAction.rename := Some (FileRename.createBase
    <| FileRename.id := id |>
    <| FileRename.path := path |>
    <| FileRename.new_name := newName |>) |>).
Definition allFilesAction (id : Z) (path : string) (includeHidden : bool) : Message.t :=
  makeFileAction (FileAction.createBase <| FileAction.all_files := Some (ReadAllFiles.createBase
    <| ReadAllFiles.id := id |>
    <| ReadAllFiles.path := path |>
    <| ReadAllFiles.include_hidden := includeHidden |>) |>).
Definition readEmptyDirsAction (path : string) (includeHidden : bool) : Message.t :=
  makeFileAction (FileAction.createBase <| FileAction.read_empty_dirs := Some (ReadEmptyDirs.createBase
    <| ReadEmptyDirs.path := path |>
    <| ReadEmptyDirs.include_hidden := includeHidden |>) |>).
Definition removeDirAction (id : Z) (path : string) : Message.t :=
  makeFileAction (FileAction.createBase <| FileAction.remove_dir := Some (FileRemoveDir.createBase
    <| FileRemoveDir.id := id |>
    <| FileRemoveDir.path := path |>
    <| FileRemoveDir.recursive := true |>) |>).
Definition blockResponse (id fileNum : Z) (data : bytes) (compressed : bool) (blkId : Z) : Message.t :=
  makeFileResponse (FileResponse.createBase <| FileResponse.block := Some (FileTransferBlock.createBase
    <| FileTransferBlock.id := id |>
    <| FileTransferBlock.file_num := fileNum |>
    <| FileTransferBlock.data := data |>
    <| FileTransferBlock.compressed := compressed |>
    <| FileTransferBlock.blk_id := blkId |>) |>).
Definition doneResponse (id fileNum : Z) : Message.t :=
  makeFileResponse (FileResponse.createBase <| FileResponse.done := Some (FileTransferDone.createBase
    <| FileTransferDone.id := id |>
    <| FileTransferDone.file_num := fileNum |>) |>).

Definition empty_dirs_json (res : ReadEmptyDirsResponse.t) : json :=
  JObj [("path", JStr (ReadEmptyDirsResponse.path res));
        ("empty_dirs", JArr (map (fun fd => fd_json (FileDirectory.id fd) (FileDirectory.path fd)
                                               (FileDirectory.entries fd))
                                 (ReadEmptyDirsResponse.empty_dirs res)))].
Definition emptyDirsToJson (res : ReadEmptyDirsResponse.t) : string := stringify (empty_dirs_json res).

Definition peerInfoEvent (pi : PeerInfo.t) : list (string * string) :=
  let privacy_mode := match PeerInfo.features pi with
                      | Some f => Features.privacy_mode f | None => false end in
  [("username", PeerInfo.username pi); ("hostname", PeerInfo.hostname pi);
   ("platform", PeerInfo.platform pi); ("sas_enabled", string_of_bool (PeerInfo.sas_enabled pi));
   ("displays", "[]"); ("version", PeerInfo.version pi);
   ("features", stringify (JObj [("privacy_mode", JBool privacy_mode)]));
   ("current_display", string_of_Z (PeerInfo.current_display pi));
   ("resolutions", "[]"); ("platform_additions", PeerInfo.platform_additions pi)].

(** ** Listings survive the trip through JSON text *)
Lemma entry_json_ok e : json_ok (entry_json e).
Proof.
  apply json_ok_obj. split; [by apply (bool_decide_unpack _)|]. by repeat constructor.
Qed.
Lemma fd_json_ok id path entries : json_ok (fd_json id path entries).
Proof.
  apply json_ok_obj. split; [by apply (bool_decide_unpack _)|].
  repeat constructor. apply json_ok_arr. apply Forall_fmap, Forall_true. intros e. apply entry_json_ok.
Qed.

(** What the reader of an [entry_json] gets back: everything but [is_hidden], which is not sent. *)
Definition visible (e : FileEntry.t) : Z * string * Z * Z :=
  (FileEntry.entry_type e, FileEntry.name e, FileEntry.size e, FileEntry.modified_time e).
Lemma entry_json_inj e e' : entry_json e = entry_json e' -> visible e = visible e'.
Proof. unfold entry_json, visible. congruence. Qed.

(** A directory listing sent to Flutter as text parses to the listing itself, and two listings
    with the same text have the same id, path and (in order) entries. *)
Theorem fdToJson_faithful id path entries id' path' entries' :
  parse (fdToJson id path entries) = Some (fd_json id path entries) /\
  (fdToJson id path entries = fdToJson id' path' entries' ->
   id = id' /\ path = path' /\ map visible entries = map visible entries').
Proof.
  assert (Hp : forall i p es, parse (fdToJson i p es) = Some (fd_json i p es))
    by (intros; apply parse_stringify, fd_json_ok).
  split; [apply Hp|]. intros E. pose proof (Hp id path entries) as H1. rewrite E, Hp in H1.
  injection H1 as E1 E2 E3. split; [done|]. split; [done|].
  clear E. revert entries' E3. induction entries as [|e es IH]; intros [|e' es']; try done.
  cbn [map]. intros E3. f_equal; [apply entry_json_inj; congruence|]. apply IH. congruence.
Qed.

Lemma emptyDirsToJson_parses res : parse (emptyDirsToJson res) = Some (empty_dirs_json res).
Proof.
  apply parse_stringify, json_ok_obj. split; [by apply (bool_decide_unpack _)|].
  repeat constructor. apply json_ok_arr, Forall_fmap, Forall_true. intros d. apply fd_json_ok.
Qed.
