(* ===== verification/FtBrowserIo.v ===== *)
(** * Browser file access: [connections/ft/ft_browser_io.ts]

    The files a user picks, the folder upload plan built from them, the save dialogs and the
    disk targets downloads are written to.  What the user and the disk do is part of the state:
    the answers to the coming save dialogs, how much a target can hold, how much of a picked file
    can still be read.  The module's variables are the fields [lastPickedFiles], [lastFolderPlan]. *)
From Stdlib Require Import Strings.Ascii Sorting.Permutation Sorting.Sorted.
From S2P Require Import Prelude JsMap JsStr Json PushEvent.
Local Open Scope string_scope.

(** A picked file: [broken_at] is the first offset the browser can no longer read (the file
    changed on disk), if any. *)
Record File := {
  name : string;
  webkitRelativePath : option string;
  lastModified : Z;
  content : bytes;
  broken_at : option Z;
}.
Definition size (f : File) : Z := len (content f).

Record FolderUploadPlan := {
  folderName : string;
  files : list File;
  relativeNames : list string;
  totalSize : Z;
}.

(** A [FileSystemWritableFileStream]: what was written, how much fits, whether moving the finished
    file into place will fail, and whether the stream still accepts writes. *)
Record disk_target :=
  { written : bytes; capacity : option Z; close_fails : bool; errored : bool; closed : bool }.

(** The user's answer to [showSaveFilePicker] (with what the chosen place allows), or its absence. *)
Inductive dialog := NoPicker | Chosen (capacity : option Z) (close_fails : bool) | Failed (error_name : string).

Record io := {
  lastPickedFiles : list File;
  lastFolderPlan : option FolderUploadPlan;
  dialogs : list dialog;
  disk : list disk_target;
  (** downloads handed to the browser by clicking a link: name and contents *)
  clicked : list (string * bytes);
}.

(** [DownloadSaveTarget]: a reference to an open target. *)
Abbreviation target := nat.
(** [PickDownloadResult] *)
Inductive PickDownloadResult := Picked (t : target) | Cancelled | Unsupported.

(** ** Upload plans *)
Definition pickFiles (chosen : list File) : js io (list File) :=
  modify (fun s => s <| lastPickedFiles := chosen |>);; mret chosen.
Definition getPickedFile (index : Z) (s : io) : option File :=
  if (index <? 0)%Z then None else lastPickedFiles s !! Z.to_nat index.
Definition takeFolderPlan : js io (option FolderUploadPlan) :=
  plan ← gets lastFolderPlan;
  modify (fun s => s <| lastFolderPlan := None |>);;
  mret plan.

Definition relativePath (file : File) : string :=
  match webkitRelativePath file with
  | Some rel => if (0 <? str_len rel)%Z then rel else name file
  | None => name file
  end.

Fixpoint folderRootName (files : list File) : string :=
  match files with
  | [] => ""
  | file :: files =>
      let rel := relativePath file in
      let idx := indexOf rel "/" in
      if (0 <? idx)%Z then slice_to (Z.to_nat idx) rel else folderRootName files
  end.

Definition slash : ascii := "/".
Definition hasHiddenPathSegment (rel : string) : bool :=
  existsb (fun part => startsWith part ".") (split_on slash rel).

(** The loop body: what a file contributes to [picked]. *)
Definition pick_one (root : string) (includeHidden : bool) (file : File) : option (File * string) :=
  let relPath := relativePath file in
  if negb (startsWith relPath (root ++ "/")) then None
  else
    let rel := slice_from (String.length root + 1) relPath in
    if negb (truthy rel) then None
    else if negb includeHidden && hasHiddenPathSegment rel then None
    else Some (file, rel).

Section Plan.
(** [a.localeCompare(b)]: the browser's collation. *)
Variable localeCompare : string -> string -> Z.

(** [Array.prototype.sort]: stable.  For a comparator that is an order its result is unique, and
    is that of insertion sort. *)
Fixpoint insert_by {A} (key : A -> string) (x : A) (l : list A) : list A :=
  match l with
  | [] => [x]
  | y :: l' => if (localeCompare (key x) (key y) <=? 0)%Z then x :: l else y :: insert_by key x l'
  end.
Definition sort_by {A} (key : A -> string) (l : list A) : list A := foldr (insert_by key) [] l.

Definition buildFolderUploadPlan (fs : list File) (includeHidden : bool) : option FolderUploadPlan :=
  if bool_decide (fs = []) then None
  else
    let root := folderRootName fs in
    if negb (truthy root) then None
    else
      let picked := omap (pick_one root includeHidden) fs in
      if bool_decide (picked = []) then None
      else
        let picked := sort_by snd picked in
        Some {| folderName := root;
                files := map fst picked;
                relativeNames := map snd picked;
                totalSize := foldl (fun sum p => sum + size p.1)%Z 0%Z picked |}.
End Plan.

(** ** Events about picked files *)
Definition file_entry_json (file : File) : json :=
  JObj [("entry_type", JNum 4); ("name", JStr (name file)); ("size", JNum (size file));
        ("modified_time", JNum (lastModified file / 1000))].
Definition fileToEntryJson (file : File) : string := stringify (file_entry_json file).

Definition selected_file_event (handleIndex : Z) (file : File) : payload :=
  strs [("handleIndex", string_of_Z handleIndex); ("file", fileToEntryJson file)].
Definition notifySelectedFile (handleIndex : Z) (file : File) (sid : option string) : event :=
  makeEvent "selected_files" (selected_file_event handleIndex file) sid.

Definition notifySelectedFolder (plan : FolderUploadPlan) (sid : option string) : js io event :=
  modify (fun s => s <| lastFolderPlan := Some plan |>);;
  mret (makeEvent "selected_folder"
    (strs [("folder_name", folderName plan); ("total_size", string_of_Z (totalSize plan));
           ("file_count", string_of_Z (len (files plan)))]) sid).

(** ** Save targets *)
Definition newTarget (cap : option Z) (cf : bool) : disk_target :=
  {| written := []; capacity := cap; close_fails := cf; errored := false; closed := false |}.
Definition openSaveFilePicker : js io PickDownloadResult := fun s =>
  match dialogs s with
  | [] => (OutOfFuel, s)
  | d :: ds =>
      let s := s <| dialogs := ds |> in
      match d with
      | NoPicker => (Ret Unsupported, s)
      | Chosen cap cf =>
          (Ret (Picked (length (disk s))),
           s <| disk := (disk s ++ [newTarget cap cf])%list |>)
      | Failed e => (Ret (if e =? "AbortError" then Cancelled else Unsupported), s)
      end
  end.

Definition remoteDownloadSuggestedName (fileName : string) (isFolderDownload : bool) : string :=
  let base := or_empty fileName "download" in
  if isFolderDownload then base ++ ".zip" else base.
Definition pickDownloadSaveTarget (suggestedName : string) : js io PickDownloadResult := openSaveFilePicker.

(** [writable.write(blob)]: refused once closed; running out of space errors the stream. *)
Definition writeDownloadChunk (t : target) (data : bytes) : js io unit := fun s =>
  match disk s !! t with
  | None => (Throw (VError "TypeError" "target"), s)
  | Some d =>
      if closed d || errored d then (Throw (VError "TypeError" "Cannot write to a closed writable stream"), s)
      else if match capacity d with Some c => (c <? len (written d) + len data)%Z | None => false end then
        (Throw (VError "QuotaExceededError" "The quota has been exceeded."),
         s <| disk := <[t := d <| errored := true |>]> (disk s) |>)
      else (Ret tt, s <| disk := <[t := d <| written := (written d ++ data)%list |>]> (disk s) |>)
  end.

Definition closeDownloadTarget (t : target) : js io unit := fun s =>
  match disk s !! t with
  | None => (Throw (VError "TypeError" "target"), s)
  | Some d =>
      if closed d || errored d then (Throw (VError "TypeError" "Cannot close a closed writable stream"), s)
      else if close_fails d then
        (Throw (VError "InvalidModificationError" "The file could not be saved"),
         s <| disk := <[t := d <| errored := true |>]> (disk s) |>)
      else (Ret tt, s <| disk := <[t := d <| closed := true |>]> (disk s) |>)
  end.

(** The result: false for "cancelled". *)
Definition saveDownload (filename : string) (data : bytes) (t : option target) : js io bool :=
  match t with
  | Some t => writeDownloadChunk t data;; closeDownloadTarget t;; mret true
  | None =>
      pick ← openSaveFilePicker;
      match pick with
      | Cancelled => mret false
      | Picked t => writeDownloadChunk t data;; closeDownloadTarget t;; mret true
      | Unsupported =>
          modify (fun s => s <| clicked := (clicked s ++ [(filename, data)])%list |>);; mret true
      end
  end.

(** [file.slice(offset, offset + size)], clamped to the file, and its [arrayBuffer()]. *)
Definition file_slice (f : File) (offset n : Z) : bytes :=
  take (Z.to_nat (Z.min (offset + n) (size f) - Z.min offset (size f)))
       (drop (Z.to_nat (Z.min offset (size f))) (content f)).
Definition readFileChunk (f : File) (offset n : Z) : outcome bytes :=
  if match broken_at f with Some b => (b <? offset + n)%Z | None => false end then
    Throw (VError "NotReadableError" "The requested file could not be read")
  else Ret (file_slice f offset n).

(** Disk operations end, and reading a block has an outcome. *)
Lemma write_ends t data s : (writeDownloadChunk t data s).1 <> OutOfFuel.
Proof.
  unfold writeDownloadChunk. destruct (_ !! _) as [d|]; [|done]. destruct (_ || _); [done|].
  destruct (capacity d) as [c|]; [|done]. by destruct (_ <? _)%Z.
Qed.
Lemma close_ends t s : (closeDownloadTarget t s).1 <> OutOfFuel.
Proof. unfold closeDownloadTarget. destruct (_ !! _) as [d|]; [|done].
  destruct (_ || _); [done|]. by destruct (close_fails d). Qed.

(** ** Reading a file in blocks *)
Lemma file_slice_spec f offset n :
  (0 <= offset)%Z -> (0 <= n)%Z -> (offset + n <= size f)%Z ->
  len (file_slice f offset n) = n /\
  (take (Z.to_nat offset) (content f) ++ file_slice f offset n)%list =
    take (Z.to_nat (offset + n)) (content f).
Proof.
  intros Ho Hn Hle. unfold file_slice, size in *. rewrite !Z.min_l by lia.
  replace (Z.to_nat (offset + n - offset)) with (Z.to_nat n) by lia. split.
  - unfold len in *. rewrite length_take, length_drop. lia.
  - rewrite Z2Nat.inj_add by lia. rewrite <- (take_drop (Z.to_nat offset) (content f)) at 3.
    rewrite take_app_ge by (rewrite length_take; unfold len in Hle; lia).
    f_equal. f_equal. rewrite length_take. unfold len in Hle. lia.
Qed.

(** ** What an upload plan contains *)
Section PlanFacts.
Variable localeCompare : string -> string -> Z.

Lemma insert_by_perm {A} (key : A -> string) x l : insert_by localeCompare key x l ≡ₚ x :: l.
Proof.
  induction l as [|y l IH]; cbn; [done|]. destruct (_ <=? 0)%Z; [done|].
  rewrite IH. apply perm_swap.
Qed.
Lemma sort_by_perm {A} (key : A -> string) l : sort_by localeCompare key l ≡ₚ l.
Proof. induction l as [|x l IH]; cbn; [done|]. by rewrite insert_by_perm, IH. Qed.

Lemma insert_by_sorted {A} (key : A -> string) x l :
  (forall a b, (localeCompare a b <= 0)%Z \/ (localeCompare b a <= 0)%Z) ->
  Sorted (fun a b => (localeCompare (key a) (key b) <= 0)%Z) l ->
  Sorted (fun a b => (localeCompare (key a) (key b) <= 0)%Z) (insert_by localeCompare key x l).
Proof.
  intros Htot. induction 1 as [|y l Hs IH Hhd]; cbn; [by repeat constructor|].
  destruct (Z.leb_spec (localeCompare (key x) (key y)) 0) as [Hle|Hgt].
  - by repeat constructor.
  - constructor; [done|]. destruct (Htot (key x) (key y)) as [|Hyx]; [lia|].
    destruct l as [|z l]; cbn; [by constructor|]. apply HdRel_inv in Hhd.
    destruct (_ <=? 0)%Z; by constructor.
Qed.
Lemma sort_by_sorted {A} (key : A -> string) l :
  (forall a b, (localeCompare a b <= 0)%Z \/ (localeCompare b a <= 0)%Z) ->
  Sorted (fun a b => (localeCompare (key a) (key b) <= 0)%Z) (sort_by localeCompare key l).
Proof. intros Htot. induction l as [|x l IH]; cbn; [constructor|]. by apply insert_by_sorted. Qed.

Lemma foldl_sum (l : list (File * string)) n :
  foldl (fun s p => s + size p.1)%Z n l = (n + foldr (fun f s => size f + s)%Z 0%Z (map fst l))%Z.
Proof.
  revert n. induction l as [|p l IH]; intros n; cbn; [lia|]. rewrite IH. lia.
Qed.

(** *** What is to be uploaded, in the words of paths *)
Definition picked_path (f : File) : string :=
  match webkitRelativePath f with Some "" | None => name f | Some path => path end.
Definition no_slash (s : string) : bool := str_forall (fun c => negb (Ascii.eqb slash c)) s.
(** [f] lies in the folder [dir]. *)
Definition in_folder (dir : string) (f : File) : Prop :=
  dir <> "" /\ no_slash dir = true /\ exists rest, picked_path f = dir ++ "/" ++ rest.
(** The folder of the first picked file that lies in one. *)
Definition first_folder (fs : list File) (root : string) : Prop := exists before f after,
  fs = (before ++ f :: after)%list /\ in_folder root f /\ Forall (fun g => forall dir, ~ in_folder dir g) before.
(** A name on the path starts with a dot. *)
Definition hidden (rel : string) : Prop :=
  exists rest, rel = "." ++ rest \/ exists dir, rel = dir ++ "/." ++ rest.
Definition eligible (root : string) (includeHidden : bool) (f : File) (rel : string) : Prop :=
  picked_path f = root ++ "/" ++ rel /\ rel <> "" /\ (includeHidden = true \/ ~ hidden rel).
(** [r]: whether [f] is uploaded, and under which path. *)
Definition upload_path (root : string) (includeHidden : bool) (f : File) (r : option string) : Prop :=
  match r with
  | Some rel => eligible root includeHidden f rel
  | None => forall rel, ~ eligible root includeHidden f rel
  end.
Definition uploaded (fs : list File) (rels : list (option string)) : list (File * string) :=
  omap id (zip_with (fun f r => pair f <$> r) fs rels).

Lemma relativePath_picked f : relativePath f = picked_path f.
Proof. unfold relativePath, picked_path. destruct (webkitRelativePath f) as [[|c s]|]; [done| |done]. by case_match. Qed.
(** A text without a slash, or what is before and after its first one. *)
Lemma cut_at_slash s : no_slash s = true \/ exists w t, s = w ++ "/" ++ t /\ no_slash w = true.
Proof.
  induction s as [|c s [IH|(w & t & -> & Hw)]]; [by left| |].
  - unfold no_slash in *. cbn [str_forall]. destruct (Ascii.eqb_spec slash c) as [<-|]; [right; by exists "", s|by left].
  - destruct (Ascii.eqb_spec slash c) as [<-|Hc]; [right; by exists "", (w ++ "/" ++ t)|].
    right. exists (String c w), t. split; [done|]. unfold no_slash in *. cbn [str_forall].
    rewrite Hw. by rewrite (proj2 (Ascii.eqb_neq _ _) Hc).
Qed.
Lemma cut_again w t dir u : no_slash w = true -> w ++ "/" ++ t = dir ++ "/" ++ u ->
  (dir = w /\ t = u) \/ exists dir', dir = w ++ "/" ++ dir' /\ t = dir' ++ "/" ++ u.
Proof.
  unfold no_slash. revert dir. induction w as [|c w IH]; intros [|d dir] Hw E.
  - left. split; [done|]. by injection E.
  - right. exists dir. by injection E as <- E.
  - by injection E as -> _.
  - injection E as <- E. apply andb_true_iff in Hw as [_ Hw].
    destruct (IH dir Hw E) as [[-> ->]|(dir' & -> & ->)]; [by left|right; by exists dir'].
Qed.
Lemma no_slash_in dir rest : no_slash (dir ++ String slash rest) = false.
Proof. unfold no_slash. rewrite str_forall_app. cbn [str_forall]. rewrite Ascii.eqb_refl. apply andb_false_r. Qed.
Lemma starts_with_dot w : startsWith w "." = true <-> exists rest, w = "." ++ rest.
Proof. apply startsWith_spec. Qed.

Lemma hasHidden_hidden rel : hasHiddenPathSegment rel = true <-> hidden rel.
Proof.
  unfold hasHiddenPathSegment. remember (String.length rel) as n eqn:En. revert rel En.
  induction n as [n IH] using lt_wf_ind. intros rel ->. destruct (cut_at_slash rel) as [Hs|(w & t & -> & Hw)].
  - rewrite split_on_whole by done. cbn [existsb]. rewrite orb_false_r, starts_with_dot. unfold hidden.
    split; intros [rest E]; [by exists rest; left|]. exists rest. destruct E as [E|[dir ->]]; [done|].
    change (no_slash (dir ++ String slash (String "." rest)) = true) in Hs. by rewrite no_slash_in in Hs.
  - change (w ++ "/" ++ t) with (w ++ String slash t). rewrite split_on_cut by done. cbn [existsb].
    rewrite orb_true_iff, starts_with_dot, (IH (String.length t)); [|rewrite !string_length_app; change (String.length "/") with 1%nat; lia|done].
    unfold hidden. split.
    + intros [[rest ->]|(rest & [->|[dir ->]])]; [exists (rest ++ String slash t); by left|..]; exists rest; right.
      * by exists w.
      * exists (w ++ "/" ++ dir). by rewrite <- !string_app_assoc.
    + intros (rest & [E|[dir E]]).
      * left. destruct w as [|c w]; [done|]. injection E as -> _. by exists w.
      * right. exists rest. destruct (cut_again w t dir (String "." rest) Hw E) as [[-> ->]|(dir' & -> & ->)]; [by left|right].
        by exists dir'.
Qed.

(** *** The root *)
Lemma indexOf_folder w t : no_slash w = true -> indexOf (w ++ "/" ++ t) "/" = Z.of_nat (String.length w).
Proof.
  unfold indexOf, no_slash. intros Hw. assert (String.index 0 "/" (w ++ "/" ++ t) = Some (String.length w)) as ->; [|done].
  induction w as [|c w IH]; [by destruct t|]. apply andb_true_iff in Hw as [Hc Hw].
  change (String c w ++ "/" ++ t) with (String c (w ++ "/" ++ t)). cbn [String.index]. rewrite IH by done.
  cbn [String.prefix]. destruct (ascii_dec "/" c) as [<-|]; [done|]. done.
Qed.
Lemma indexOf_no_slash s : no_slash s = true -> indexOf s "/" = (-1)%Z.
Proof.
  unfold indexOf, no_slash. intros Hs. assert (String.index 0 "/" s = None) as ->; [|done].
  induction s as [|c s IH]; [done|]. apply andb_true_iff in Hs as [Hc Hs]. cbn [String.index]. rewrite IH by done.
  cbn [String.prefix]. destruct (ascii_dec "/" c) as [<-|]; [done|]. done.
Qed.
Lemma folderRootName_cons f fs : folderRootName (f :: fs) =
  if (0 <? indexOf (picked_path f) "/")%Z then slice_to (Z.to_nat (indexOf (picked_path f) "/")) (picked_path f)
  else folderRootName fs.
Proof. cbn [folderRootName]. by rewrite relativePath_picked. Qed.
Lemma folder_of_file f fs dir : in_folder dir f -> folderRootName (f :: fs) = dir.
Proof.
  intros (Hne & Hd & rest & E). rewrite folderRootName_cons, E, indexOf_folder by done.
  destruct dir as [|c dir]; [done|]. destruct (Z.ltb_spec 0 (Z.of_nat (String.length (String c dir)))); [|cbn in *; lia].
  by rewrite Nat2Z.id, slice_to_app.
Qed.
Lemma folder_of_none f fs : (forall dir, ~ in_folder dir f) -> folderRootName (f :: fs) = folderRootName fs.
Proof.
  intros Hf. rewrite folderRootName_cons. destruct (cut_at_slash (picked_path f)) as [Hs|(w & t & E & Hw)].
  - by rewrite indexOf_no_slash.
  - rewrite E, indexOf_folder by done. destruct w as [|c w]; [done|]. exfalso. apply (Hf (String c w)).
    split; [done|]. split; [done|]. by exists t.
Qed.
Lemma in_folder_or f : (exists dir, in_folder dir f) \/ forall dir, ~ in_folder dir f.
Proof.
  destruct (cut_at_slash (picked_path f)) as [Hs|(w & t & E & Hw)].
  - right. intros dir (_ & _ & rest & E). rewrite E in Hs. change ("/" ++ rest) with (String slash rest) in Hs.
    by rewrite no_slash_in in Hs.
  - destruct w as [|c w]; [|left; exists (String c w); split; [done|]; split; [done|by exists t]].
    right. intros [|d dir] (Hne & Hd & rest & E'); [done|]. rewrite E in E'. injection E' as <- _. done.
Qed.
Lemma first_folder_root fs root : first_folder fs root -> folderRootName fs = root.
Proof.
  intros (before & f & after & -> & Hf & Hb). induction Hb as [|g before Hg _ IH]; [by apply folder_of_file|].
  cbn [app]. by rewrite folder_of_none.
Qed.
Lemma root_first_folder fs : folderRootName fs <> "" -> first_folder fs (folderRootName fs).
Proof.
  induction fs as [|f fs IH]; [done|]. destruct (in_folder_or f) as [[dir Hf]|Hf].
  - intros _. rewrite (folder_of_file f fs dir Hf). exists [], f, fs. split; [done|]. split; [done|constructor].
  - rewrite folder_of_none by done. intros Hr. destruct (IH Hr) as (before & g & after & E & Hg & Hb).
    exists (f :: before), g, after. split; [by rewrite E|]. split; [done|by constructor].
Qed.

(** *** One file *)
Lemma pick_one_upload_path root hid f :
  upload_path root hid f (snd <$> pick_one root hid f) /\ pick_one root hid f = pair f <$> (snd <$> pick_one root hid f).
Proof.
  unfold pick_one. rewrite relativePath_picked.
  assert (Hrest : forall t, picked_path f = (root ++ "/") ++ t ->
    slice_from (String.length root + 1) (picked_path f) = t).
  { intros t ->. replace (String.length root + 1)%nat with (String.length (root ++ "/")) by (by rewrite string_length_app).
    apply slice_from_app. }
  assert (Hno : forall rel, picked_path f = root ++ "/" ++ rel -> startsWith (picked_path f) (root ++ "/") = true).
  { intros rel ->. apply startsWith_spec. exists rel. by rewrite <- string_app_assoc. }
  destruct (startsWith (picked_path f) (root ++ "/")) eqn:E; cbn [negb].
  2: { split; [|done]. intros rel [Er _]. pose proof (Hno rel Er). congruence. }
  apply startsWith_spec in E as [t Et]. rewrite (Hrest t Et). unfold truthy, truthy_string.
  assert (Hsame : forall rel, picked_path f = root ++ "/" ++ rel -> rel = t).
  { intros rel Er. rewrite <- (Hrest t Et), (Hrest rel); [done|]. by rewrite Er, string_app_assoc. }
  destruct (decide (t <> "")) as [Ht|Ht].
  2: { rewrite bool_decide_false by done. split; [|done]. intros rel (Er & Hne & _). apply Ht.
       by rewrite <- (Hsame rel Er). }
  rewrite bool_decide_true by done. cbn [negb]. destruct (negb hid && hasHiddenPathSegment t) eqn:Eh.
  - split; [|done]. intros rel (Er & _ & Hh). rewrite (Hsame rel Er) in Hh.
    apply andb_true_iff in Eh as [Eh1 Eh2]. rewrite hasHidden_hidden in Eh2. destruct hid; [done|]. by destruct Hh.
  - split; [|done]. cbn. split; [by rewrite Et, <- string_app_assoc|]. split; [done|].
    destruct hid; [by left|right]. cbn in Eh. intros Hh. apply hasHidden_hidden in Hh. congruence.
Qed.
Lemma picked_uploaded root hid fs :
  let rels := map (fun f => snd <$> pick_one root hid f) fs in
  Forall2 (upload_path root hid) fs rels /\ omap (pick_one root hid) fs = uploaded fs rels.
Proof.
  unfold uploaded. induction fs as [|f fs [IH1 IH2]]; [by split|]. destruct (pick_one_upload_path root hid f) as [H1 H2].
  cbn [map zip_with]. split; [by constructor|]. cbn [omap list_omap]. rewrite <- H2. cbn [id].
  by destruct (pick_one root hid f); cbn in IH2 |- *; rewrite IH2.
Qed.

(** C31.  An upload plan is faithful to the picked files.  It is for the first folder a picked file lies
    in; its files are exactly the picked ones below that folder that, unless hidden files are
    included, have no name starting with a dot on their path, each as often as it was picked and
    with its path below the folder; they are in collation order, and the announced total is the sum
    of their sizes.  There is no plan exactly when there is nothing to upload. *)
Theorem buildFolderUploadPlan_spec fs hid :
  (forall a b, (localeCompare a b <= 0)%Z \/ (localeCompare b a <= 0)%Z) ->
  match buildFolderUploadPlan localeCompare fs hid with
  | Some plan =>
      first_folder fs (folderName plan) /\
      (exists rels, Forall2 (upload_path (folderName plan) hid) fs rels /\
         zip (files plan) (relativeNames plan) ≡ₚ uploaded fs rels) /\
      length (files plan) = length (relativeNames plan) /\ files plan <> [] /\
      Sorted (fun a b => (localeCompare a b <= 0)%Z) (relativeNames plan) /\
      totalSize plan = foldr (fun f s => size f + s)%Z 0%Z (files plan)
  | None => forall root f rel, first_folder fs root -> f ∈ fs -> ~ eligible root hid f rel
  end.
Proof.
  intros Htot. unfold buildFolderUploadPlan. case_bool_decide as Hfs; [subst; intros root f rel _ Hin; by apply elem_of_nil in Hin|].
  unfold truthy, truthy_string. destruct (decide (folderRootName fs <> "")) as [Hroot|Hroot].
  2: { rewrite bool_decide_false by done. intros root f rel Hr. exfalso. apply Hroot.
       rewrite (first_folder_root fs root Hr). by destruct Hr as (? & ? & ? & _ & (? & _) & _). }
  rewrite bool_decide_true by done. cbn [negb]. set (picked := omap _ fs).
  destruct (picked_uploaded (folderRootName fs) hid fs) as [Hall Heq]. fold picked in Heq.
  set (rels := map _ fs) in *. case_bool_decide as Hp.
  { intros root f rel Hr Hin He. rewrite <- (first_folder_root fs root Hr) in He.
    destruct (pick_one_upload_path (folderRootName fs) hid f) as [Hu Eq].
    destruct (pick_one (folderRootName fs) hid f) as [p|] eqn:Ep; [|by apply (Hu rel)].
    assert (Hx : p ∈ picked) by (apply list_elem_of_omap; by exists f). rewrite Hp in Hx. by apply elem_of_nil in Hx. }
  cbn [files relativeNames folderName totalSize]. set (sorted := sort_by localeCompare snd picked).
  pose proof (sort_by_perm snd picked : sorted ≡ₚ picked) as Hperm.
  assert (Hzip : zip (map fst sorted) (map snd sorted) = sorted) by apply zip_fst_snd.
  split; [by apply root_first_folder|]. split; [exists rels; split; [done|]; rewrite Hzip, <- Heq; exact Hperm|]. split; [by rewrite !length_map|].
  split; [|split].
  - intros E. apply map_eq_nil in E. rewrite E in Hperm. symmetry in Hperm. by apply Permutation_nil_r in Hperm.
  - assert (Hs : Sorted (fun a b => (localeCompare a.2 b.2 <= 0)%Z) sorted) by (by apply sort_by_sorted).
    revert Hs. clear. intros Hs. induction Hs as [|p l Hs IH Hhd]; cbn; [constructor|].
    constructor; [done|]. destruct Hhd; constructor. done.
  - by rewrite foldl_sum.
Qed.
End PlanFacts.
