(* ===== verification/FtZip.v ===== *)
(** * Folder downloads as zip files: [connections/ft/ft_zip_stream.ts], [ft_folder_zip.ts]

    The zip writer is the fflate package, a parameter (class [Fflate]): what it emits through
    [ondata] is a function of the operations performed on it so far, and [zipSync] of its argument.
    Everything the repository does around it is modelled: entry paths, when entries start and end,
    which chunks reach the disk, and when [finish] settles. *)
From Stdlib Require Import Strings.Ascii.
From S2P Require Import Prelude JsMap JsStr Bytes ProtoFile FtBrowserIo Websock.
Local Open Scope string_scope.

(** The operations performed on one [Zip] and its [ZipPassThrough] entries. *)
Inductive zip_op := ZAdd (path : string) | ZPush (data : bytes) (final : bool) | ZEnd.
(** One call of [ondata]. *)
Inductive emission := ZChunk (chunk : bytes) (final : bool) | ZErr (err : jsval).

Class Fflate := {
  zip_emit : list zip_op -> zip_op -> list emission;
  zipSync : jsmap string bytes -> outcome bytes;
}.

Definition backslash : ascii := "092".
Definition zipEntryPath (rootName relName : string) : string :=
  let rel := strip_leading slash (replace_all backslash slash relName) in
  if negb (truthy rel) then rootName else rootName ++ "/" ++ rel.

Definition folderDownloadFilename (fileName : string) : string := or_empty fileName "download" ++ ".zip".

(** ** [FolderZipStreamer] *)
Record FolderZipStreamer := {
  zip : list zip_op;
  zip_target : target;
  root : string;
  currentEntry : bool;
  currentFileNum : option Z;
  settled : bool;
  finished : promise;
}.
Definition newFolderZipStreamer (t : target) (root : string) : FolderZipStreamer := {|
  zip := []; zip_target := t; root := root; currentEntry := false; currentFileNum := None;
  settled := false; finished := Pending |}.

Section Zip.
Context `{Fflate}.
Abbreviation zs := (js (FolderZipStreamer * io)).
Definition zget {A} (f : FolderZipStreamer -> A) : zs A := gets (fun s => f s.1).
Definition zset (f : FolderZipStreamer -> FolderZipStreamer) : zs unit := modify (fun s => (f s.1, s.2)).
Definition on_io {S A} (m : js io A) : js (S * io) A := fun s => let '(r, i) := m s.2 in (r, (s.1, i)).

Definition settle (p : promise -> promise) : zs unit :=
  zset (fun z => z <| settled := true |> <| finished ::= p |>).

(** [zip.ondata].  [writeChain] runs its writes one after the other in the order they were queued;
    the model performs each when it is queued. *)
Definition ondata (e : emission) : zs unit :=
  done ← zget settled;
  if (done : bool) then skip else
  match e with
  | ZErr err => settle (reject err)
  | ZChunk chunk final =>
      t ← zget zip_target;
      try_catch
        (on_io (writeDownloadChunk t chunk);;
         when final
           (zset (fun z => z <| settled := true |>);;
            on_io (closeDownloadTarget t);;
            zset (fun z => z <| finished ::= resolve |>)))
        (fun e => done ← zget settled; when (negb done) (settle (reject e)))
  end.

(** An operation on the zip, with the [ondata] calls it makes. *)
Definition zip_do (op : zip_op) : zs unit :=
  ops ← zget zip;
  zset (fun z => z <| zip := (ops ++ [op])%list |>);;
  for_of (zip_emit ops op) ondata.

Definition finishCurrentEntry : zs unit :=
  cur ← zget currentEntry;
  if negb cur then skip else
  zip_do (ZPush [] true);;
  zset (fun z => z <| currentEntry := false |> <| currentFileNum := None |>).

(** [files[fileNum]], and [entry?.name] *)
Definition nth_entry (files : list FileEntry.t) (fileNum : Z) : option FileEntry.t :=
  if (fileNum <? 0)%Z then None else files !! Z.to_nat fileNum.
Definition entry_name (files : list FileEntry.t) (fileNum : Z) : string :=
  match nth_entry files fileNum with Some e => FileEntry.name e | None => "" end.

Definition startEntry (fileNum : Z) (files : list FileEntry.t) : zs unit :=
  let relName := entry_name files fileNum in
  if negb (truthy relName) then
    throw (VError "Error" ("Missing folder entry for file_num " ++ string_of_Z fileNum))
  else
    rt ← zget root;
    zip_do (ZAdd (zipEntryPath rt relName));;
    zset (fun z => z <| currentEntry := true |> <| currentFileNum := Some fileNum |>).

Definition zip_appendBlock (fileNum : Z) (data : bytes) (files : list FileEntry.t) : zs unit :=
  cur ← zget currentFileNum;
  (if bool_decide (cur <> Some fileNum) then finishCurrentEntry;; startEntry fileNum files else skip);;
  zip_do (ZPush data false).

(** A [finished] that never settles keeps [finish] waiting for ever. *)
Definition finish : zs unit :=
  finishCurrentEntry;;
  zip_do ZEnd;;
  p ← zget finished;
  match p with
  | Pending => lift_outcome OutOfFuel
  | Resolved => skip
  | Rejected e => throw e
  end.

(** ** The in-memory archive *)
(** The object literal [zipEntries], filled in file order: an equal path overwrites. *)
Fixpoint zip_entries (root : string) (chunksForFileNum : Z -> list bytes) (i : Z) (files : list FileEntry.t)
    (zipEntries : jsmap string bytes) : outcome (jsmap string bytes) :=
  match files with
  | [] => mret zipEntries
  | f :: files =>
      let relName := FileEntry.name f in
      if negb (truthy relName) then zip_entries root chunksForFileNum (i + 1) files zipEntries
      else
        data ← concatChunks (chunksForFileNum i);
        zip_entries root chunksForFileNum (i + 1) files (map_set zipEntries (zipEntryPath root relName) data)
  end.
Definition buildFolderZipFromChunks (rootName : string) (files : list FileEntry.t)
    (chunksForFileNum : Z -> list bytes) : outcome bytes :=
  entries ← zip_entries (or_empty rootName "download") chunksForFileNum 0 files []; zipSync entries.
End Zip.

(** ** Entry paths *)
Lemma strip_leading_head x s c t : strip_leading x s = String c t -> c <> x.
Proof.
  induction s as [|d s IH]; cbn; [done|]. destruct (Ascii.eqb_spec d x); [done|]. by intros [= <- _].
Qed.
Lemma replace_all_absent x y s : x <> y -> str_forall (fun c => negb (Ascii.eqb c x)) (replace_all x y s) = true.
Proof.
  intros Hxy. induction s as [|c s IH]; [done|]. cbn. rewrite IH, andb_true_r.
  destruct (Ascii.eqb_spec c x); apply negb_true_iff, Ascii.eqb_neq; congruence.
Qed.
Lemma strip_leading_forall p x s : str_forall p s = true -> str_forall p (strip_leading x s) = true.
Proof.
  induction s as [|c s IH]; [done|]. cbn. intros [Hc Hs]%andb_true_iff.
  destruct (Ascii.eqb c x); [by apply IH|]. cbn. by rewrite Hc.
Qed.

(** Zip entry paths stay inside the archive's root folder as far as separators go: the path is
    the root itself or the root, a slash and a relative part that is non-empty, does not start
    with a slash and holds no backslash. *)
Theorem zipEntryPath_relative rootName relName :
  zipEntryPath rootName relName = rootName \/
  exists c rel, zipEntryPath rootName relName = rootName ++ "/" ++ String c rel /\ c <> slash /\
    str_forall (fun c => negb (Ascii.eqb c backslash)) (String c rel) = true.
Proof.
  unfold zipEntryPath. cbv zeta. set (rel := strip_leading _ _).
  destruct rel as [|c t] eqn:E; [by left|]. right. exists c, t. split; [done|].
  split; [by eapply strip_leading_head|]. rewrite <- E. by apply strip_leading_forall, replace_all_absent.
Qed.

(** ** The entries a streamed archive gets *)

(** Reading zip operations the way they are meant: an entry is added when no other one is open, takes
    pushes until the final one, and the archive is ended once, with no entry open. *)
Record archive_state := { entries : list (string * bytes); open_entry : option (string * bytes); ended : bool }.
Definition empty_archive : archive_state := {| entries := []; open_entry := None; ended := false |}.
Definition archive_step (st : archive_state) (op : zip_op) : option archive_state :=
  match op, open_entry st, ended st with
  | ZAdd p, None, false => Some (st <| open_entry := Some (p, []) |>)
  | ZPush d false, Some (p, b), false => Some (st <| open_entry := Some (p, b ++ d)%list |>)
  | ZPush d true, Some (p, b), false => Some (st <| entries ::= fun es => es ++ [(p, b ++ d)] |> <| open_entry := None |>)%list
  | ZEnd, None, false => Some (st <| ended := true |>)
  | _, _, _ => None
  end.
Fixpoint archive_run (st : archive_state) (ops : list zip_op) : option archive_state :=
  match ops with [] => Some st | op :: ops => st ← archive_step st op; archive_run st ops end.
(** The entries of a complete archive; [None] of operations that make none. *)
Definition zip_contents (ops : list zip_op) : option (list (string * bytes)) :=
  st ← archive_run empty_archive ops; if ended st then Some (entries st) else None.

(** Blocks that arrive one after the other for the same file make one entry. *)
Fixpoint grouped (blocks : list (Z * bytes)) : list (Z * list bytes) :=
  match blocks with
  | [] => []
  | (n, d) :: blocks =>
      match grouped blocks with
      | (m, ds) :: gs => if bool_decide (m = n) then (n, d :: ds) :: gs else (n, [d]) :: (m, ds) :: gs
      | [] => [(n, [d])]
      end
  end.
Definition blocks_of_group (g : Z * list bytes) : list (Z * bytes) := map (pair g.1) g.2.
(** No group is empty, and neighbours belong to different files. *)
Fixpoint separate (prev : option Z) (gs : list (Z * list bytes)) : Prop :=
  match gs with [] => True | g :: gs => prev <> Some g.1 /\ g.2 <> [] /\ separate (Some g.1) gs end.
Lemma separate_weaken prev gs : separate prev gs -> separate None gs.
Proof. destruct gs; [done|]. by intros (_ & H1 & H2). Qed.
Lemma grouped_separate blocks : separate None (grouped blocks).
Proof.
  induction blocks as [|[n d] blocks IH]; [done|]. cbn [grouped]. destruct (grouped blocks) as [|[m ds] gs]; [done|].
  destruct IH as (_ & Hne & Hs). case_bool_decide as Hmn; [by subst|]. cbn. split_and!; try done. intros [= E]. by apply Hmn.
Qed.
Lemma grouped_blocks blocks : concat (map blocks_of_group (grouped blocks)) = blocks.
Proof.
  induction blocks as [|[n d] blocks IH]; [done|]. rewrite <- IH at 2. cbn [grouped].
  destruct (grouped blocks) as [|[m ds] gs]; [done|]. case_bool_decide as Hmn; [by subst|done].
Qed.

Section Streaming.
Context `{Fflate}.
Variable files : list FileEntry.t.

Lemma bind_zget {A B} (f : FolderZipStreamer -> A) (k : A -> js (FolderZipStreamer * io) B) s :
  (zget f ≫= k) s = k (f s.1) s.
Proof. done. Qed.
Lemma bind_zset {B} f (k : unit -> js (FolderZipStreamer * io) B) s :
  (zset f ≫= k) s = k tt (f s.1, s.2).
Proof. done. Qed.
Lemma zset_run f (s : FolderZipStreamer * io) : zset f s = (Ret tt, (f s.1, s.2)).
Proof. done. Qed.
Ltac zstep := first [rewrite bind_zget | rewrite bind_zset | rewrite zset_run | js_step].
Ltac zsteps := cbv zeta beta; repeat zstep; cbn [fst snd].

(** What no zip operation touches. *)
Definition same_entry (a b : FolderZipStreamer) : Prop :=
  currentEntry b = currentEntry a /\ currentFileNum b = currentFileNum a /\ root b = root a /\
  zip_target b = zip_target a.

Lemma ondata_ok e s : exists s', ondata e s = (Ret tt, s') /\ zip s'.1 = zip s.1 /\ same_entry s.1 s'.1.
Proof.
  destruct s as [z i]. unfold ondata. zsteps.
  destruct (settled z) eqn:Es; [by (eexists; split)|].
  destruct e as [chunk final|err]; [|by (eexists; split; [done|]; destruct z)]. zsteps.
  assert (Hcatch : forall (m : js (FolderZipStreamer * io) unit) h s0, (exists s', m s0 = (Ret tt, s') /\ zip s'.1 = zip z /\ same_entry z s'.1) \/
     (exists e s', m s0 = (Throw e, s') /\ (exists s2, h e s' = (Ret tt, s2) /\ zip s2.1 = zip z /\ same_entry z s2.1)) ->
     exists s', try_catch m h s0 = (Ret tt, s') /\ zip s'.1 = zip z /\ same_entry z s'.1).
  { intros m h s0 [(s' & E & R)|(e & s' & E & s2 & E2 & R)]; unfold try_catch; rewrite E; eauto. }
  apply Hcatch. clear Hcatch.
  assert (Hh : forall e z' i', zip z' = zip z -> same_entry z z' -> exists s2,
     (done ← zget settled; when (negb done) (settle (reject e))) (z', i') = (Ret tt, s2) /\
     zip s2.1 = zip z /\ same_entry z s2.1).
  { intros e z' i' Hz Hs. zsteps. destruct (settled z'); cbn [negb when]; [by (eexists; split)|].
    unfold settle. zsteps. eexists. split; [done|]. by destruct z'. }
  pose proof (write_ends (zip_target z) chunk i) as Hw.
  assert (E1 : forall k : unit -> js (FolderZipStreamer * io) unit, (on_io (writeDownloadChunk (zip_target z) chunk) ≫= k) (z, i) =
    match writeDownloadChunk (zip_target z) chunk i with
    | (Ret _, i1) => k tt (z, i1) | (Throw e, i1) => (Throw e, (z, i1))
    | (OutOfFuel, i1) => (OutOfFuel, (z, i1)) end).
  { intros k. unfold on_io, mbind, js_bind. cbn [fst snd].
    by destruct (writeDownloadChunk (zip_target z) chunk i) as [[[]| |] ?]. }
  rewrite E1. clear E1.
  destruct (writeDownloadChunk (zip_target z) chunk i) as [[[]|e|] i1]; [| |done].
  2: { right. exists e. eexists. split; [done|]. by apply Hh. }
  destruct final; cbn [when]; [|left; by (eexists; split)]. zsteps.
  pose proof (close_ends (zip_target z) i1) as Hc. unfold on_io, mbind, js_bind. cbn [fst snd].
  destruct (closeDownloadTarget (zip_target z) i1) as [[[]|e|] i2]; [| |done].
  - left. eexists. split; [done|]. by destruct z.
  - right. exists e. eexists. split; [done|]. apply Hh; by destruct z.
Qed.

Lemma zip_do_ok op s : exists s', zip_do op s = (Ret tt, s') /\ zip s'.1 = (zip s.1 ++ [op])%list /\
  same_entry s.1 s'.1.
Proof.
  unfold zip_do. zsteps. generalize (zip_emit (zip s.1) op). intros es.
  match goal with |- context [for_of es ondata ?x] => set (s1 := x) end.
  assert (H1 : zip s1.1 = (zip s.1 ++ [op])%list /\ same_entry s.1 s1.1) by (by destruct s as [[] ?]).
  clearbody s1. revert s1 H1. induction es as [|e es IH]; intros s1 [Hz Hs]; [by exists s1|].
  destruct (ondata_ok e s1) as (s2 & E & Hz2 & Hs2). cbn [for_of].
  erewrite bind_eq by done. apply IH. split; [by rewrite Hz2|].
  unfold same_entry in *. intuition congruence.
Qed.

(** The operations for groups of blocks. *)
Definition path_of (rt : string) (i : Z) : string := zipEntryPath rt (entry_name files i).
Definition close_entry (opened : bool) : list zip_op := if opened then [ZPush [] true] else [].
Fixpoint script (rt : string) (opened : bool) (gs : list (Z * list bytes)) : list zip_op :=
  match gs with
  | [] => close_entry opened
  | g :: gs => close_entry opened ++ ZAdd (path_of rt g.1) :: map (fun d => ZPush d false) g.2 ++ script rt true gs
  end%list.
Definition append_blocks (blocks : list (Z * bytes)) : js (FolderZipStreamer * io) unit :=
  for_of blocks (fun b => zip_appendBlock b.1 b.2 files).

Lemma append_same ds i s : currentFileNum s.1 = Some i ->
  exists s', append_blocks (map (pair i) ds) s = (Ret tt, s') /\
    zip s'.1 = (zip s.1 ++ map (fun d => ZPush d false) ds)%list /\ same_entry s.1 s'.1.
Proof.
  unfold append_blocks. revert s. induction ds as [|d ds IH]; intros s Hn; cbn [map for_of].
  { exists s. by rewrite app_nil_r. }
  destruct (zip_do_ok (ZPush d false) s) as (s1 & E & Hz & Hs).
  assert (E1 : zip_appendBlock (i, d).1 (i, d).2 files s = (Ret tt, s1)).
  { unfold zip_appendBlock. cbn [fst snd]. zsteps.
    rewrite bool_decide_false by (intros X; by apply X). by zsteps. }
  erewrite bind_eq by done.
  destruct (IH s1) as (s2 & E2 & Hz2 & Hs2); [unfold same_entry in Hs; intuition congruence|].
  exists s2. split; [done|]. split; [by rewrite Hz2, Hz, <- app_assoc|].
  unfold same_entry in *. intuition congruence.
Qed.

(** The first block of a file whose entry is not the open one. *)
Lemma append_first i d s :
  entry_name files i <> "" -> currentFileNum s.1 <> Some i ->
  exists s', zip_appendBlock i d files s = (Ret tt, s') /\
    zip s'.1 = (zip s.1 ++ (if currentEntry s.1 then [ZPush [] true] else []) ++
                [ZAdd (path_of (root s.1) i); ZPush d false])%list /\
    currentEntry s'.1 = true /\ currentFileNum s'.1 = Some i /\ root s'.1 = root s.1.
Proof.
  intros Hname Hn. unfold zip_appendBlock. zsteps. rewrite bool_decide_true by done.
  assert (H1 : exists s1, finishCurrentEntry s = (Ret tt, s1) /\ root s1.1 = root s.1 /\
    zip s1.1 = (zip s.1 ++ if currentEntry s.1 then [ZPush [] true] else [])%list).
  { unfold finishCurrentEntry. zsteps. destruct (currentEntry s.1); cbn [negb].
    - destruct (zip_do_ok (ZPush [] true) s) as (s1 & E & Hz & _ & _ & Hr & _). erewrite bind_eq by done.
      zsteps. eexists. split; [done|]. cbn. by destruct s1 as [[] ?].
    - exists s. by rewrite app_nil_r. }
  destruct H1 as (s1 & E1 & Hr1 & Hz1). rewrite js_bind_assoc. erewrite bind_eq by done.
  assert (H2 : exists s2, startEntry i files s1 = (Ret tt, s2) /\ root s2.1 = root s1.1 /\
    zip s2.1 = (zip s1.1 ++ [ZAdd (path_of (root s1.1) i)])%list /\
    currentEntry s2.1 = true /\ currentFileNum s2.1 = Some i).
  { unfold startEntry, truthy, truthy_string, zget. cbv zeta. rewrite bool_decide_true by done. cbn [negb].
    zsteps. destruct (zip_do_ok (ZAdd (zipEntryPath (root s1.1) (entry_name files i))) s1)
      as (s2 & E & Hz & _ & _ & Hr & _). erewrite bind_eq by done. zsteps.
    eexists. split; [done|]. cbn. by destruct s2 as [[] ?]. }
  destruct H2 as (s2 & E2 & Hr2 & Hz2 & Hc2 & Hn2). erewrite bind_eq by done.
  destruct (zip_do_ok (ZPush d false) s2) as (s3 & E3 & Hz3 & Hc3 & Hn3 & Hr3 & _).
  exists s3. split; [done|]. rewrite Hz3, Hz2, Hz1, Hr1, <- !app_assoc. repeat split; congruence.
Qed.

Lemma append_script gs : forall s,
  Forall (fun g => entry_name files g.1 <> "") gs -> separate (currentFileNum s.1) gs ->
  exists s', (append_blocks (concat (map blocks_of_group gs));; finishCurrentEntry) s = (Ret tt, s') /\
    zip s'.1 = (zip s.1 ++ script (root s.1) (currentEntry s.1) gs)%list.
Proof.
  induction gs as [|[i [|d ds]] gs IH]; intros s Hnames Hsep; cbn [map concat script].
  - unfold append_blocks. cbn [for_of]. js_steps. unfold finishCurrentEntry. zsteps.
    destruct (currentEntry s.1); cbn [negb close_entry]; [|exists s; by rewrite app_nil_r].
    destruct (zip_do_ok (ZPush [] true) s) as (s1 & E & Hz & _). erewrite bind_eq by done.
    zsteps. eexists. split; [done|]. cbn. by destruct s1 as [[] ?].
  - by destruct Hsep as (_ & ? & _).
  - destruct Hsep as (Hcur & _ & Hsep). apply Forall_cons in Hnames as [Hname Hnames]. cbn [fst snd] in *.
    destruct (append_first i d s Hname) as (s1 & E1 & Hz1 & Hc1 & Hn1 & Hr1); [done|].
    destruct (append_same ds i s1 Hn1) as (s2 & E2 & Hz2 & Hc2 & Hn2 & Hr2 & _).
    destruct (IH s2 Hnames) as (s3 & E3 & Hz3); [by rewrite Hn2, Hn1|]. exists s3. split.
    + unfold append_blocks, blocks_of_group in *. cbn [map app for_of fst snd]. rewrite js_bind_assoc.
      erewrite bind_eq by done. cbn [fst snd].
      revert E3. unfold mbind at 1, js_bind at 1. unfold mbind at 1, js_bind at 1.
      rewrite for_of_app. unfold mbind, js_bind. by rewrite E2.
    + rewrite Hz3, Hz2, Hz1, Hr2, Hr1, Hc2, Hc1. unfold close_entry. rewrite <- !app_assoc. done.
Qed.

Definition group_entry (rt : string) (g : Z * list bytes) : string * bytes := (path_of rt g.1, concat g.2).
Lemma run_pushes ds ops es p b :
  archive_run {| entries := es; open_entry := Some (p, b); ended := false |} (map (fun d => ZPush d false) ds ++ ops)%list =
  archive_run {| entries := es; open_entry := Some (p, b ++ concat ds)%list; ended := false |} ops.
Proof.
  revert b. induction ds as [|d ds IH]; intros b; cbn [map app concat]; [by rewrite app_nil_r|].
  rewrite app_assoc. exact (IH (b ++ d)%list).
Qed.
(** An entry that is still open is finished first. *)
Lemma run_close es cur ops :
  archive_run {| entries := es; open_entry := cur; ended := false |}
    (close_entry (match cur with Some _ => true | None => false end) ++ ops)%list =
  archive_run {| entries := es ++ option_list cur; open_entry := None; ended := false |}%list ops.
Proof. destruct cur as [[p b]|]; cbn; by rewrite ?app_nil_r. Qed.
Lemma run_script rt gs : forall es cur,
  archive_run {| entries := es; open_entry := cur; ended := false |}
    (script rt (match cur with Some _ => true | None => false end) gs ++ [ZEnd])%list =
  Some {| entries := es ++ option_list cur ++ map (group_entry rt) gs; open_entry := None; ended := true |}%list.
Proof.
  induction gs as [|g gs IH]; intros es cur; cbn [script map].
  - rewrite run_close. cbn. by rewrite app_nil_r.
  - rewrite <- app_assoc, run_close, <- app_comm_cons, <- app_assoc. set (es1 := (es ++ option_list cur)%list).
    etrans; [exact (run_pushes g.2 (script rt true gs ++ [ZEnd])%list es1 (path_of rt g.1) [])|].
    rewrite (IH es1 (Some _)). subst es1. cbn. by rewrite <- app_assoc.
Qed.

Lemma finish_zip s : exists r s1 s2, finishCurrentEntry s = (Ret tt, s1) /\ finish s = (r, s2) /\
  zip s2.1 = (zip s1.1 ++ [ZEnd])%list /\
  r = match finished s2.1 with Pending => OutOfFuel | Resolved => Ret tt | Rejected e => Throw e end.
Proof.
  assert (H1 : exists s1, finishCurrentEntry s = (Ret tt, s1)).
  { unfold finishCurrentEntry. zsteps. destruct (currentEntry s.1); cbn [negb]; [|by exists s].
    destruct (zip_do_ok (ZPush [] true) s) as (s1 & E & _). erewrite bind_eq by done. zsteps. by eexists. }
  destruct H1 as [s1 E1]. destruct (zip_do_ok ZEnd s1) as (s2 & E2 & Hz & _).
  unfold finish. erewrite bind_eq by done. erewrite bind_eq by done. zsteps.
  exists (match finished s2.1 with
          | Pending => OutOfFuel | Resolved => Ret tt | Rejected e => Throw e end), s1, s2.
  split; [done|]. split; [|done]. by destruct (finished s2.1).
Qed.

(** ** What reaches the disk *)
(** Everything the zip writer emits for operations performed after [before]. *)
Fixpoint emissions (before ops : list zip_op) : list emission :=
  match ops with [] => [] | op :: ops => zip_emit before op ++ emissions (before ++ [op]) ops end%list.
Lemma emissions_snoc before ops op : emissions before (ops ++ [op])%list =
  (emissions before ops ++ zip_emit (before ++ ops) op)%list.
Proof.
  revert before. induction ops as [|o ops IH]; intros before; cbn [app emissions]; [by rewrite !app_nil_r|].
  by rewrite IH, <- !app_assoc.
Qed.
(** A zip writer that succeeds: chunks, the last one marked. *)
Definition chunks_then_last (cs : list bytes) (c : bytes) : list emission :=
  (map (fun c => ZChunk c false) cs ++ [ZChunk c true])%list.
Definition healthy (d : disk_target) : Prop :=
  closed d = false /\ errored d = false /\ capacity d = None /\ close_fails d = false.

Section Archived.
Context (t : target) (d0 : disk_target) (cs : list bytes) (c : bytes).
Hypothesis d0_healthy : healthy d0.
(** After [k] of the emissions: the chunks are on the disk, after the last one the file is closed. *)
Definition landed (k : nat) (s : FolderZipStreamer * io) : Prop :=
  zip_target s.1 = t /\
  if decide (k <= length cs)%nat then
    settled s.1 = false /\ finished s.1 = Pending /\
    disk s.2 !! t = Some (d0 <| written := (written d0 ++ concat (take k cs))%list |>)
  else
    settled s.1 = true /\ finished s.1 = Resolved /\
    disk s.2 !! t = Some (d0 <| written := (written d0 ++ concat cs ++ c)%list |> <| closed := true |>).

Lemma write_healthy d data i : disk i !! t = Some d -> healthy d ->
  exists i', writeDownloadChunk t data i = (Ret tt, i') /\
    disk i' !! t = Some (d <| written := (written d ++ data)%list |>).
Proof.
  intros Hd (Hc & He & Hcap & _). unfold writeDownloadChunk. rewrite Hd, Hc, He, Hcap. eexists. split; [reflexivity|].
  destruct i. cbn in *. unfold constant. apply list_lookup_insert_eq. by eapply lookup_lt_Some.
Qed.
Lemma close_healthy d i : disk i !! t = Some d -> healthy d ->
  exists i', closeDownloadTarget t i = (Ret tt, i') /\ disk i' !! t = Some (d <| closed := true |>).
Proof.
  intros Hd (Hc & He & _ & Hf). unfold closeDownloadTarget. rewrite Hd, Hc, He, Hf. eexists. split; [reflexivity|].
  destruct i. cbn in *. unfold constant. apply list_lookup_insert_eq. by eapply lookup_lt_Some.
Qed.
(** One emission more. *)
Lemma landed_step k e s : landed k s -> chunks_then_last cs c !! k = Some e ->
  exists s', ondata e s = (Ret tt, s') /\ landed (S k) s'.
Proof.
  intros [Ht Hk] He. assert (Hle : (k <= length cs)%nat).
  { apply lookup_lt_Some in He. unfold chunks_then_last in He. rewrite length_app, length_map in He. cbn in He. lia. }
  rewrite decide_True in Hk by done. destruct Hk as (Hset & Hfin & Hd), s as [z i]. cbn [fst snd] in *.
  unfold ondata. zsteps. rewrite Hset. assert (Hh : healthy (d0 <| written := (written d0 ++ concat (take k cs))%list |>))
    by (unfold healthy in *; by destruct d0).
  unfold chunks_then_last in He. destruct (decide (k < length cs)%nat) as [Hlt|Hge].
  - destruct (lookup_lt_is_Some_2 cs k Hlt) as [x Hx].
    rewrite lookup_app_l, list_lookup_fmap, Hx in He by (rewrite length_map; lia). injection He as <-. zsteps.
    destruct (write_healthy _ x i Hd Hh) as (i' & E & Hd'). rewrite Ht. unfold try_catch, on_io, mbind, js_bind.
    cbn [fst snd]. rewrite E. eexists. split; [reflexivity|]. split; [done|]. rewrite decide_True by lia.
    do 2 (split; [done|]). cbn [snd]. rewrite Hd'. f_equal. erewrite take_S_r by done.
    rewrite concat_app. cbn [concat]. rewrite app_nil_r, app_assoc. by destruct d0.
  - assert (k = length cs) as -> by lia. rewrite lookup_app_r, length_map, Nat.sub_diag in He by (rewrite length_map; lia).
    injection He as <-. zsteps. destruct (write_healthy _ c i Hd Hh) as (i1 & E1 & Hd1). rewrite firstn_all in *.
    set (d1 := d0 <| written := _ |> <| written := _ |>) in Hd1.
    assert (Hh1 : healthy d1) by (unfold healthy in *; by destruct d0).
    destruct (close_healthy d1 i1 Hd1 Hh1) as (i2 & E2 & Hd2). rewrite Ht. unfold try_catch, on_io, mbind, js_bind.
    cbn [fst snd]. rewrite E1. cbn [when zset modify fst snd]. rewrite E2. eexists. split; [reflexivity|].
    split; [by destruct z|]. rewrite decide_False by lia. cbn [fst snd]. rewrite Hd2.
    split; [by destruct z|]. split; [by destruct z; cbn in *; subst|]. f_equal. subst d1. destruct d0. cbn.
    by rewrite <- app_assoc.
Qed.
Lemma landed_run es : forall k rest s, landed k s -> drop k (chunks_then_last cs c) = (es ++ rest)%list ->
  landed (k + length es) (exec (for_of es ondata) s).
Proof.
  induction es as [|e es IH]; intros k rest s Hk Hes; cbn [length for_of]; [by rewrite Nat.add_0_r|].
  assert (He : chunks_then_last cs c !! k = Some e)
    by (rewrite <- (Nat.add_0_r k), <- lookup_drop, Hes; done).
  destruct (landed_step k e s Hk He) as (s1 & E & Hk1). unfold exec. erewrite bind_eq by exact E.
  rewrite <- Nat.add_succ_comm. apply (IH (S k) rest s1 Hk1).
  by rewrite <- (Nat.add_1_r k), <- drop_drop, Hes.
Qed.

(** As long as the writer goes on to make a good archive, the disk holds what it emitted so far. *)
Definition kept (s : FolderZipStreamer * io) : Prop := forall rest,
  (emissions [] (zip s.1) ++ rest)%list = chunks_then_last cs c -> landed (length (emissions [] (zip s.1))) s.
Definition keeps (s s' : FolderZipStreamer * io) : Prop := kept s -> kept s'.
#[local] Instance keeps_preorder : PreOrder keeps.
Proof. split; unfold keeps; auto. Qed.

Lemma zip_do_keeps op : preserves keeps (zip_do op).
Proof.
  intros s Hs rest Hrest. destruct (zip_do_ok op s) as (s' & E & Hz & _). rewrite E in *. cbn [snd] in *.
  rewrite Hz, emissions_snoc, <- app_assoc in Hrest. cbn [app] in Hrest. specialize (Hs _ Hrest).
  rewrite Hz, emissions_snoc, length_app. cbn [app].
  revert E. unfold zip_do. zsteps. intros E. set (s1 := (_, s.2)) in E. change s' with (snd (Ret tt : outcome unit, s')).
  rewrite <- E. apply (landed_run _ _ rest); [by destruct s as [[] ?]|].
  by rewrite <- Hrest, drop_app_length.
Qed.
Lemma zset_keeps f : (forall z, zip (f z) = zip z /\ zip_target (f z) = zip_target z /\ settled (f z) = settled z /\
  finished (f z) = finished z) -> preserves keeps (zset f).
Proof.
  intros Hf s Hs rest. unfold zset, modify. cbn [fst snd]. destruct (Hf s.1) as (Hz & Ht & Hse & Hfi). rewrite Hz.
  intros Hrest. specialize (Hs rest Hrest). unfold landed in *. cbn [fst snd]. by rewrite Ht, Hse, Hfi.
Qed.
Lemma finishCurrentEntry_keeps : preserves keeps finishCurrentEntry.
Proof.
  unfold finishCurrentEntry. apply (preserves_bind keeps); [apply (preserves_gets keeps)|]. intros cur.
  destruct (negb cur); [apply (preserves_skip keeps)|]. apply (preserves_bind keeps); [apply zip_do_keeps|]. intros _. apply zset_keeps. by intros [].
Qed.
Lemma append_keeps blocks : preserves keeps (append_blocks blocks).
Proof.
  apply (preserves_for_of keeps). intros b. unfold zip_appendBlock. apply (preserves_bind keeps); [apply (preserves_gets keeps)|]. intros cur.
  apply (preserves_bind keeps); [|intros _; apply zip_do_keeps]. destruct (bool_decide _); [|apply (preserves_skip keeps)].
  apply (preserves_bind keeps); [apply finishCurrentEntry_keeps|]. intros _. unfold startEntry. cbv zeta.
  destruct (negb _); [apply (preserves_throw keeps)|]. apply (preserves_bind keeps); [apply (preserves_gets keeps)|]. intros rt.
  apply (preserves_bind keeps); [apply zip_do_keeps|]. intros _. apply zset_keeps. by intros [].
Qed.
Lemma finish_keeps : preserves keeps finish.
Proof.
  unfold finish. apply (preserves_bind keeps); [apply finishCurrentEntry_keeps|]. intros _.
  apply (preserves_bind keeps); [apply zip_do_keeps|]. intros _. apply (preserves_bind keeps); [apply (preserves_gets keeps)|]. intros p.
  destruct p; [apply (preserves_lift keeps)|apply (preserves_skip keeps)|apply (preserves_throw keeps)].
Qed.
Lemma stream_keeps blocks : preserves keeps (append_blocks blocks;; finish).
Proof. apply (preserves_bind keeps); [apply append_keeps|intros _; apply finish_keeps]. Qed.
End Archived.

(** C30.  Streaming a folder to disk.  Whatever blocks of named files arrive, in whatever order, the zip
    operations performed make a complete archive: one entry after the other for every stretch of
    blocks of the same file (so one per file with a block, when files arrive one by one), under the
    file's path, with the bytes of these blocks in order, added, finished and only then followed by
    the next one, and the archive ended after the last one -- whatever the disk does meanwhile.  And
    if the disk is healthy and the zip writer emits chunks for these operations, the last one marked,
    then finishing succeeds, exactly these chunks are on the disk in order, and the file is closed. *)
Theorem streamed_entries t rt blocks i :
  Forall (fun b => entry_name files b.1 <> "") blocks ->
  let '(r, (z, i')) := (append_blocks blocks;; finish) (newFolderZipStreamer t rt, i) in
  zip_contents (zip z) = Some (map (group_entry rt) (grouped blocks)) /\
  forall d cs c, disk i !! t = Some d -> healthy d -> emissions [] (zip z) = chunks_then_last cs c ->
    r = Ret tt /\ disk i' !! t = Some (d <| written := (written d ++ concat cs ++ c)%list |> <| closed := true |>).
Proof.
  intros Hnames. set (s0 := (newFolderZipStreamer t rt, i)).
  assert (Hn : Forall (fun g => entry_name files g.1 <> "") (grouped blocks)).
  { rewrite <- (grouped_blocks blocks) in Hnames. pose proof (grouped_separate blocks) as Hs. revert Hs Hnames.
    generalize (@None Z). induction (grouped blocks) as [|[n [|d ds]] gs IH]; intros prev Hs Hnames; [done|by destruct Hs as (_ & ? & _)|].
    destruct Hs as (_ & _ & Hs). cbn [map concat blocks_of_group fst snd app] in Hnames. apply Forall_cons in Hnames as [Hb Hnames].
    apply Forall_app in Hnames as [_ Hnames]. constructor; [done|by eapply IH]. }
  destruct (append_script (grouped blocks) s0 Hn (grouped_separate blocks)) as (s1 & E & Hz).
  rewrite grouped_blocks in E. cbn [s0 fst zip newFolderZipStreamer root currentEntry app] in Hz.
  pose proof (fun d cs c Hh => stream_keeps t d cs c Hh blocks s0) as Hkeeps. revert E Hkeeps.
  unfold mbind, js_bind. destruct (append_blocks blocks s0) as [[[]|e|] sa]; try done.
  intros Ef Hkeeps. destruct (finish_zip sa) as (r & s1' & s2 & E1 & E2 & Hz2 & Hr). rewrite E2 in *. cbn [snd] in Hkeeps.
  assert (s1' = s1) as -> by congruence. destruct s2 as [z i']. cbn [fst] in Hz2, Hr. split.
  { unfold zip_contents. rewrite Hz2, Hz. pose proof (run_script rt (grouped blocks) [] None) as Er.
    cbv iota in Er. change {| entries := []; open_entry := None; ended := false |} with empty_archive in Er.
    by rewrite Er. }
  intros d cs c Hd Hh Hem. destruct (Hkeeps d cs c Hh) with (rest := @nil emission) as [_ Hk]; [|by rewrite app_nil_r|].
  { intros rest _. split; [done|]. rewrite decide_True by apply Nat.le_0_l. cbn. rewrite app_nil_r. split; [done|].
    split; [done|]. rewrite Hd. by destruct d. }
  cbn [fst] in Hk. rewrite Hem in Hk. unfold chunks_then_last in Hk. rewrite length_app, length_map in Hk. cbn [length] in Hk.
  rewrite decide_False in Hk by lia. destruct Hk as (_ & Hfin & Hdisk). split; [by rewrite Hr, Hfin|exact Hdisk].
Qed.

Lemma ondata_close_fails z i d c :
  settled z = false -> disk i !! zip_target z = Some d -> closed d = false -> errored d = false ->
  capacity d = None -> close_fails d = true ->
  exists i', ondata (ZChunk c true) (z, i) = (Ret tt, (z <| settled := true |>, i')).
Proof.
  intros Hs Hd Hcl Her Hcap Hcf. unfold ondata. zsteps. rewrite Hs. zsteps.
  unfold try_catch, on_io, mbind, js_bind. cbn [fst snd].
  unfold writeDownloadChunk. rewrite Hd, Hcl, Her, Hcap. cbn [orb when].
  unfold zset, modify. cbn [fst snd]. unfold closeDownloadTarget. cbn [disk].
  match goal with |- context [<[zip_target z:=?d']> (disk i)] => set (d1 := d') end.
  assert (E : zip_target (z <| settled := true |>) = zip_target z) by (by destruct z).
  change (disk (i <| disk := <[zip_target z:=d1]> (disk i) |>)) with (<[zip_target z:=d1]> (disk i)).
  assert (Hl : <[zip_target z:=d1]> (disk i) !! zip_target z = Some d1)
    by (apply list_lookup_insert_eq; by eapply lookup_lt_Some).
  rewrite Hl. assert (Hd1 : closed d1 = false /\ errored d1 = false /\ close_fails d1 = true)
    by (subst d1; by destruct d). destruct Hd1 as (-> & -> & ->). cbn [orb].
  eexists. unfold zget, gets. cbn [fst]. by destruct z.
Qed.

(** If the disk refuses to close the finished archive, the streamer has marked itself settled
    already, so its [catch] does nothing and [finish] waits for ever. *)
Lemma finish_hangs_when_close_fails z i d c :
  currentEntry z = false -> settled z = false -> finished z = Pending ->
  disk i !! zip_target z = Some d -> closed d = false -> errored d = false -> capacity d = None ->
  close_fails d = true -> zip_emit (zip z) ZEnd = [ZChunk c true] ->
  eval finish (z, i) = OutOfFuel.
Proof.
  intros Hc Hs Hf Hd Hcl Her Hcap Hcf Hz.
  destruct (ondata_close_fails (z <| zip := (zip z ++ [ZEnd])%list |>) i d c) as [i' E];
    [by destruct z..|].
  assert (E1 : finishCurrentEntry (z, i) = (Ret tt, (z, i)))
    by (unfold finishCurrentEntry; zsteps; by rewrite Hc).
  assert (E2 : zip_do ZEnd (z, i) = (Ret tt, (z <| zip := (zip z ++ [ZEnd])%list |> <| settled := true |>, i'))).
  { unfold zip_do. zsteps. rewrite Hz. cbn [for_of]. by erewrite bind_eq by done. }
  unfold eval, finish. erewrite bind_eq by done. erewrite bind_eq by done. zsteps.
  by destruct z; cbn in *; subst.
Qed.
End Streaming.
