(* ===== verification/Audio.v ===== *)
(** * Sound: [helpers/audio.js]

    The Opus worker and the player belong to the page: every remote-desktop session uses the same
    ones.  The worker is what it was told; it answers each packet with samples some time later
    ([on_samples]).  A player is a [PCMPlayer] of the package, known here by its options and by the
    samples it was fed; one that was replaced is never fed again, but nothing stops it either. *)
From S2P Require Import Prelude.

(** [opusWorker.postMessage] of a format or of a packet. *)
Inductive worker_message := Format (channels sampleRate : Z) | Packet (data : bytes).
Record PCMPlayer := { channels : Z; sampleRate : Z; fed : list bytes }.
(** [flushingTime] is 2000 in all of them. *)
Definition newAudioPlayer (channels sampleRate : Z) : PCMPlayer :=
  {| channels := channels; sampleRate := sampleRate; fed := [] |}.

Record audio := { posted : list worker_message; pcmPlayer : option PCMPlayer; replaced : list PCMPlayer }.
Definition newAudio : audio := {| posted := []; pcmPlayer := None; replaced := [] |}.

Definition initAudio (channels sampleRate : Z) (a : audio) : audio :=
  {| posted := posted a ++ [Format channels sampleRate]; pcmPlayer := Some (newAudioPlayer channels sampleRate);
     replaced := replaced a ++ option_list (pcmPlayer a) |}.
Definition playAudio (packet : bytes) (a : audio) : audio := a <| posted := posted a ++ [Packet packet] |>.
(** The [onmessage] of [bindOpusWorkerOnInit]. *)
Definition on_samples (samples : bytes) : js audio unit := fun a =>
  match pcmPlayer a with
  | Some p => (Ret tt, a <| pcmPlayer := Some (p <| fed := fed p ++ [samples] |>) |>)
  | None => (Throw (VError "TypeError" "Cannot read properties of undefined"), a)
  end.

(** Samples of packets that were posted before a change of format go to the new player: the worker is
    not asked which format they have. *)
Lemma late_samples_reach_new_player a samples ch rate :
  on_samples samples (initAudio ch rate a) =
    (Ret tt, (initAudio ch rate a) <| pcmPlayer := Some {| channels := ch; sampleRate := rate; fed := [samples] |} |>).
Proof. done. Qed.
