(* ===== verification/Mobile.v ===== *)
(** * Mobile browsers: [helpers/mobile.js]

    [isMobile] looks for two patterns in the user agent.  They stand here as in the source, in the
    part of the pattern language they use; [parse_pattern] reads them and [m] matches as
    ECMAScript does, by continuations.  Whether a text matches does not depend on the order in which
    the alternatives are tried: [test_iff] says it in terms of the words a pattern describes. *)
From Stdlib Require Import Strings.Ascii.
From S2P Require Import Prelude JsStr.
Local Open Scope string_scope.

Module Pattern.
(** ** Patterns *)
Definition ranges := list (ascii * ascii).
Inductive pattern :=
  | Empty
  | Class (r : ranges)
  | AnyChar
  (** a class, or with [None] any character, repeated: the patterns repeat nothing else *)
  | Many (r : option ranges)
  | Cat (p q : pattern)
  | Or (p q : pattern)
  | Opt (p : pattern).
Definition chr (c : ascii) : pattern := Class [(c, c)].

(** ** Reading the literals *)
Definition many (p : pattern) : option pattern :=
  match p with Class r => Some (Many (Some r)) | AnyChar => Some (Many None) | _ => None end.
Fixpoint parse_class (s : list ascii) : option (ranges * list ascii) :=
  match s with
  | "]"%char :: s => Some ([], s)
  | lo :: "-"%char :: hi :: s => '(r, s) ← parse_class s; Some ((lo, hi) :: r, s)
  | c :: s => '(r, s) ← parse_class s; Some ((c, c) :: r, s)
  | [] => None
  end.
Definition escape (c : ascii) : pattern := if (c =? "d")%char then Class [("0", "9")]%char else chr c.
(** [alt] goes up to the end or a closing bracket. *)
Fixpoint alt (fuel : nat) (s : list ascii) : option (pattern * list ascii) :=
  match fuel with
  | O => None
  | S fuel =>
      let atom (s : list ascii) : option (pattern * list ascii) :=
        match s with
        | "("%char :: s => '(p, s) ← alt fuel s; match s with ")"%char :: s => Some (p, s) | _ => None end
        | "["%char :: s => '(r, s) ← parse_class s; Some (Class r, s)
        | "."%char :: s => Some (AnyChar, s)
        | "092"%char :: c :: s => Some (escape c, s)
        | c :: s => Some (chr c, s)
        | [] => None
        end in
      match s with
      | [] => Some (Empty, [])
      | ")"%char :: _ => Some (Empty, s)
      | "|"%char :: s => '(q, s) ← alt fuel s; Some (Or Empty q, s)
      | _ =>
          '(p, s) ← atom s;
          '(p, s) ← match s with
                    | "+"%char :: s => p ← many p; Some (p, s)
                    | "?"%char :: s => Some (Opt p, s)
                    | _ => Some (p, s)
                    end;
          '(q, s) ← alt fuel s;
          Some (match q with Or q r => Or (Cat p q) r | q => Cat p q end, s)
      end
  end.
Definition parse_pattern (text : string) : option pattern :=
  let s := list_ascii_of_string text in
  match alt (S (length s)) s with Some (p, []) => Some p | _ => None end.

(** ** Matching, with the [i] flag *)
Definition upper_ascii (c : ascii) : ascii :=
  let n := nat_of_ascii c in
  if ((97 <=? n) && (n <=? 122))%nat then ascii_of_nat (n - 32) else c.
Definition within (c : ascii) (r : ascii * ascii) : bool :=
  (nat_of_ascii r.1 <=? nat_of_ascii c)%nat && (nat_of_ascii c <=? nat_of_ascii r.2)%nat.
Definition in_class (r : ranges) (c : ascii) : bool :=
  existsb (fun r => within (lower_ascii c) r || within (upper_ascii c) r) r.
(** Not a line terminator. *)
Definition any (c : ascii) : bool := negb ((nat_of_ascii c =? 10)%nat || (nat_of_ascii c =? 13)%nat).
Definition accepts (r : option ranges) : ascii -> bool := match r with Some r => in_class r | None => any end.
(** A run of [f], as long as possible first.  ([if] rather than [&&] and [||], whose arguments are all
    computed.) *)
Fixpoint run (f : ascii -> bool) (k : list ascii -> bool) (s : list ascii) : bool :=
  match s with
  | c :: s => if f c then if run f k s then true else k s else false
  | [] => false
  end.
Fixpoint m (p : pattern) (k : list ascii -> bool) (s : list ascii) : bool :=
  match p with
  | Empty => k s
  | Class r => match s with c :: s => if in_class r c then k s else false | [] => false end
  | AnyChar => match s with c :: s => if any c then k s else false | [] => false end
  | Many r => run (accepts r) k s
  | Cat p q => m p (m q k) s
  | Or p q => if m p k s then true else m q k s
  | Opt p => if m p k s then true else k s
  end.
(** [test]: a match anywhere. *)
Fixpoint search (p : pattern) (s : list ascii) : bool :=
  if m p (fun _ => true) s then true else match s with _ :: s => search p s | [] => false end.
Definition test (text s : string) : option bool :=
  p ← parse_pattern text; Some (search p (list_ascii_of_string s)).

(** ** What a pattern describes *)
Inductive describes : pattern -> list ascii -> Prop :=
  | d_empty : describes Empty []
  | d_class r c : in_class r c = true -> describes (Class r) [c]
  | d_any c : any c = true -> describes AnyChar [c]
  | d_many r s : s <> [] -> Forall (fun c => accepts r c = true) s -> describes (Many r) s
  | d_cat p q s t : describes p s -> describes q t -> describes (Cat p q) (s ++ t)%list
  | d_left p q s : describes p s -> describes (Or p q) s
  | d_right p q s : describes q s -> describes (Or p q) s
  | d_some p s : describes p s -> describes (Opt p) s
  | d_none p : describes (Opt p) [].

Lemma run_iff f k s : run f k s = true <->
  exists u v, s = (u ++ v)%list /\ u <> [] /\ Forall (fun c => f c = true) u /\ k v = true.
Proof.
  induction s as [|c s IH]; cbn [run].
  { split; [done|]. by intros ([] & v & E & Hu & _). }
  change (f c && (run f k s || k s) = true <-> exists u v, c :: s = (u ++ v)%list /\ u <> [] /\
    Forall (fun c => f c = true) u /\ k v = true). rewrite andb_true_iff, orb_true_iff, IH. split.
  - intros [Hc [(u & v & -> & Hu & Hf & Hk)|Hk]]; [exists (c :: u), v|exists [c], s]; by repeat constructor.
  - intros ([|c' u] & v & E & Hu & Hf & Hk); [done|]. injection E as <- ->. inversion_clear Hf as [|? ? Hc Hf'].
    split; [done|]. destruct u as [|c' u]; [by right|left]. by exists (c' :: u), v.
Qed.
Lemma m_iff p : forall k s, m p k s = true <-> exists u v, s = (u ++ v)%list /\ describes p u /\ k v = true.
Proof.
  assert (Hor : forall a b : bool, (if a then true else b) = true <-> a = true \/ b = true)
    by (intros a b; apply orb_true_iff).
  assert (Hand : forall a b : bool, (if a then b else false) = true <-> a = true /\ b = true)
    by (intros a b; apply andb_true_iff).
  induction p as [|r| |r|p IHp q IHq|p IHp q IHq|p IHp]; intros k s; cbn [m].
  - split; [intros Hk; exists [], s; by repeat constructor|]. intros (u & v & -> & Hd & Hk). by inversion Hd.
  - split.
    + destruct s as [|c s]; [done|]. intros [Hc Hk]%Hand. exists [c], s. by repeat constructor.
    + intros (u & v & -> & Hd & Hk). inversion Hd; subst. cbn. by apply Hand.
  - split.
    + destruct s as [|c s]; [done|]. intros [Hc Hk]%Hand. exists [c], s. by repeat constructor.
    + intros (u & v & -> & Hd & Hk). inversion Hd; subst. cbn. by apply Hand.
  - rewrite run_iff. split.
    + intros (u & v & -> & Hu & Hf & Hk). exists u, v. split; [done|]. by split; [constructor|].
    + intros (u & v & -> & Hd & Hk). inversion Hd; subst. by exists u, v.
  - rewrite IHp. split.
    + intros (u & v & -> & Hd & (u' & v' & -> & Hd' & Hk)%IHq). exists (u ++ u')%list, v'. rewrite app_assoc.
      by repeat constructor.
    + intros (u & v & -> & Hd & Hk). inversion Hd; subst. eexists _, _. rewrite <- app_assoc. split; [done|].
      split; [done|]. apply IHq. by eexists _, _.
  - rewrite Hor, IHp, IHq. split.
    + intros [(u & v & -> & Hd & Hk)|(u & v & -> & Hd & Hk)]; exists u, v;
        (split; [done|]); (split; [|done]); [by apply d_left|by apply d_right].
    + intros (u & v & -> & Hd & Hk). inversion Hd; subst; [left|right]; by exists u, v.
  - rewrite Hor, IHp. split.
    + intros [(u & v & -> & Hd & Hk)|Hk]; [exists u, v|exists [], s]; by repeat constructor.
    + intros (u & v & -> & Hd & Hk). inversion Hd; subst; [left|by right]. by exists u, v.
Qed.
(** A search finds exactly the texts that contain a word of the pattern. *)
Lemma search_iff p s : search p s = true <-> exists a w b, s = (a ++ w ++ b)%list /\ describes p w.
Proof.
  assert (Hm : forall s, m p (fun _ => true) s = true <-> exists w b, s = (w ++ b)%list /\ describes p w).
  { intros t. rewrite m_iff. split; [intros (u & v & E & Hd & _)|intros (u & v & E & Hd)]; by exists u, v. }
  assert (Hor : forall a b : bool, (if a then true else b) = true <-> a = true \/ b = true)
    by (intros a b; apply orb_true_iff).
  induction s as [|c s IH]; cbn [search]; rewrite Hor, Hm.
  - split; [intros [(w & b & E & Hd)|]; [by exists [], w, b|done]|]. intros (a & w & b & E & Hd).
    destruct a; [|done]. left. by exists w, b.
  - rewrite IH. split.
    + intros [(w & b & E & Hd)|(a & w & b & -> & Hd)]; [by exists [], w, b|by exists (c :: a), w, b].
    + intros ([|c' a] & w & b & E & Hd); [left; by exists w, b|]. injection E as <- ->. right. by exists a, w, b.
Qed.
Lemma test_iff text p s : parse_pattern text = Some p ->
  test text s = Some true <-> exists a w b, list_ascii_of_string s = (a ++ w ++ b)%list /\ describes p w.
Proof. intros E. unfold test. rewrite E, <- search_iff. cbn. split; [by intros [=]|by intros ->]. Qed.

End Pattern.
Import Pattern.

(** ** [isMobile] *)
Definition families : string :=
  "(android|bb\d+|meego).+mobile|avantgo|bada\/|blackberry|blazer|compal|elaine|fennec|hiptop|iemobile|ip(hone|" ++
  "od)|ipad|iris|kindle|Android|Silk|lge |maemo|midp|mmp|netfront|opera m(ob|in)i|palm( os)?|phone|p(ixi|re)\/|" ++
  "plucker|pocket|psp|series(4|6)0|symbian|treo|up\.(browser|link)|vodafone|wap|windows (ce|phone)|xda|xiino".
Definition models : string :=
  "1207|6310|6590|3gso|4thp|50[1-6]i|770s|802s|a wa|abac|ac(er|oo|s\-)|ai(ko|rn)|al(av|ca|co)|amoi|an(ex|ny|" ++
  "yw)|aptu|ar(ch|go)|as(te|us)|attw|au(di|\-m|r |s )|avan|be(ck|ll|nq)|bi(lb|rd)|bl(ac|az)|br(e|v)w|bumb|" ++
  "bw\-(n|u)|c55\/|capi|ccwa|cdm\-|cell|chtm|cldc|cmd\-|co(mp|nd)|craw|da(it|ll|ng)|dbte|dc\-s|devi|dica|dmob|" ++
  "do(c|p)o|ds(12|\-d)|el(49|ai)|em(l2|ul)|er(ic|k0)|esl8|ez([4-7]0|os|wa|ze)|fetc|fly(\-|_)|g1 u|g560|gene|" ++
  "gf\-5|g\-mo|go(\.w|od)|gr(ad|un)|haie|hcit|hd\-(m|p|t)|hei\-|hi(pt|ta)|hp( i|ip)|hs\-c|ht(c(\-| |_|a|g|p|s|" ++
  "t)|tp)|hu(aw|tc)|i\-(20|go|ma)|i230|iac( |\-|\/)|ibro|idea|ig01|ikom|im1k|inno|ipaq|iris|ja(t|v)a|jbro|jemu|" ++
  "jigs|kddi|keji|kgt( |\/)|klon|kpt |kwc\-|kyo(c|k)|le(no|xi)|lg( g|\/(k|l|u)|50|54|\-[a-w])|libw|lynx|m1\-w|" ++
  "m3ga|m50\/|ma(te|ui|xo)|mc(01|21|ca)|m\-cr|me(rc|ri)|mi(o8|oa|ts)|mmef|mo(01|02|bi|de|do|t(\-| |o|v)|zz)|" ++
  "mt(50|p1|v )|mwbp|mywa|n10[0-2]|n20[2-3]|n30(0|2)|n50(0|2|5)|n7(0(0|1)|10)|ne((c|m)\-|on|tf|wf|wg|wt)|nok(6|" ++
  "i)|nzph|o2im|op(ti|wv)|oran|owg1|p800|pan(a|d|t)|pdxg|pg(13|\-([1-8]|c))|phil|pire|pl(ay|uc)|pn\-2|po(ck|rt|" ++
  "se)|prox|psio|pt\-g|qa\-a|qc(07|12|21|32|60|\-[2-7]|i\-)|qtek|r380|r600|raks|rim9|ro(ve|zo)|s55\/|sa(ge|ma|" ++
  "mm|ms|ny|va)|sc(01|h\-|oo|p\-)|sdk\/|se(c(\-|0|1)|47|mc|nd|ri)|sgh\-|shar|sie(\-|m)|sk\-0|sl(45|id)|sm(al|" ++
  "ar|b3|it|t5)|so(ft|ny)|sp(01|h\-|v\-|v )|sy(01|mb)|t2(18|50)|t6(00|10|18)|ta(gt|lk)|tcl\-|tdg\-|tel(i|m)|" ++
  "tim\-|t\-mo|to(pl|sh)|ts(70|m\-|m3|m5)|tx\-9|up(\.b|g1|si)|utst|v400|v750|veri|vi(rg|te)|vk(40|5[0-3]|\-v)|" ++
  "vm40|voda|vulc|vx(52|53|60|61|70|80|81|83|85|98)|w3c(\-| )|webc|whit|wi(g |nc|nw)|wmlb|wonu|x700|yas\-|your|" ++
  "zeto|zte\-".
Definition isMobile (userAgent : string) : bool :=
  default false (test families userAgent) || default false (test models (slice_to 4 userAgent)).
Definition isDesktop (userAgent : string) : bool := negb (isMobile userAgent).

(** Both literals are read to the end, so a browser is mobile when its user agent contains a word of the
    first pattern anywhere or one of the second in its first four characters. *)
Lemma isMobile_iff userAgent : exists p q, parse_pattern families = Some p /\ parse_pattern models = Some q /\
  (isMobile userAgent = true <->
    (exists a w b, list_ascii_of_string userAgent = (a ++ w ++ b)%list /\ describes p w) \/
    (exists a w b, list_ascii_of_string (slice_to 4 userAgent) = (a ++ w ++ b)%list /\ describes q w)).
Proof.
  assert (Hp : is_Some (parse_pattern families)) by (vm_compute; by eexists).
  assert (Hq : is_Some (parse_pattern models)) by (vm_compute; by eexists).
  destruct Hp as [p Hp], Hq as [q Hq]. exists p, q. do 2 (split; [done|]).
  rewrite <- (test_iff families p userAgent Hp), <- (test_iff models q _ Hq). unfold isMobile, test. rewrite Hp, Hq.
  cbn. rewrite orb_true_iff. split; (intros [E|E]; [left|right]; congruence).
Qed.

Example a_phone : isMobile "Mozilla/5.0 (Linux; Android 14; Pixel 8) Chrome/126.0 Mobile Safari/537.36" = true.
Proof. by vm_compute. Qed.
Example a_desktop : isMobile "Mozilla/5.0 (X11; Linux x86_64) AppleWebKit/537.36 Chrome/126.0 Safari/537.36" = false.
Proof. by vm_compute. Qed.
Example an_old_model : isMobile "Nokia6100/1.0" = true.
Proof. by vm_compute. Qed.
