(* ===== verification/Page.v ===== *)
(** * The page: what all connections share

    Browser globals the connections read and write: [localStorage], the clock, the random source,
    the events handed to Flutter, file access ([io]), whether the zstd decoder is loaded, and the
    sound.  A
    computation of a component with state [S] runs on [S * page]; [zoom] runs a part's computation
    inside the whole, and an asynchronous computation also carries a [schedule]: what the rest of
    the page does at each of its [await]s. *)
From S2P Require Import Prelude JsMap JsStr Json PushEvent Config FtBrowserIo Audio.

Record page := {
  localStorage : storage;
  now : Z;
  (** [Math.random() * 0xffffffff], without its fraction, at the next use *)
  rand : Z;
  events : list event;
  page_io : io;
  zstd_ready : bool;
  sound : audio;
}.

Section Page.
Context {S : Type}.

Definition self {A} (f : S -> A) : js (S * page) A := gets (fun s => f s.1).
Definition update (f : S -> S) : js (S * page) unit := modify (fun s => (f s.1, s.2)).
Definition of_page {A} (f : page -> A) : js (S * page) A := gets (fun s => f s.2).
Definition update_page (f : page -> page) : js (S * page) unit := modify (fun s => (s.1, f s.2)).

(** A computation on file access. *)
Definition with_io {A} (m : js io A) : js (S * page) A := fun s =>
  let '(r, i) := m (page_io s.2) in (r, (s.1, s.2 <| page_io := i |>)).

(** A computation on a part of the state. *)
Definition zoom {T A} (proj : S -> T) (put : T -> S -> S) (m : js (T * page) A) : js (S * page) A :=
  fun s => let '(r, tp) := m (proj s.1, s.2) in (r, (put tp.1 s.1, tp.2)).

(** [pushEvent(name, payload, sessionId)] *)
Definition pushEvent (name : string) (p : payload) (sessionId : option string) : js (S * page) unit :=
  update_page (fun pg => pg <| events := events pg ++ [makeEvent name p sessionId] |>).

Lemma bind_self {A B} (f : S -> A) (k : A -> js (S * page) B) s : (self f ≫= k) s = k (f s.1) s.
Proof. done. Qed.
Lemma bind_update {B} f (k : unit -> js (S * page) B) s : (update f ≫= k) s = k tt (f s.1, s.2).
Proof. done. Qed.
Lemma bind_of_page {A B} (f : page -> A) (k : A -> js (S * page) B) s : (of_page f ≫= k) s = k (f s.2) s.
Proof. done. Qed.
Lemma bind_update_page {B} f (k : unit -> js (S * page) B) s :
  (update_page f ≫= k) s = k tt (s.1, f s.2).
Proof. done. Qed.
Lemma bind_pushEvent {B} n p sid (k : unit -> js (S * page) B) s :
  (pushEvent n p sid ≫= k) s = k tt (s.1, s.2 <| events := events s.2 ++ [makeEvent n p sid] |>).
Proof. done. Qed.
Lemma update_run f s : update f s = (Ret tt, (f s.1, s.2)).
Proof. done. Qed.
Lemma update_page_run f s : update_page f s = (Ret tt, (s.1, f s.2)).
Proof. done. Qed.
Lemma pushEvent_run n p sid s :
  pushEvent n p sid s = (Ret tt, (s.1, s.2 <| events := events s.2 ++ [makeEvent n p sid] |>)).
Proof. done. Qed.
Lemma with_io_bind {A B} (m : js io A) (k : A -> js (S * page) B) s :
  (with_io m ≫= k) s =
    match m (page_io s.2) with
    | (Ret a, i) => k a (s.1, s.2 <| page_io := i |>)
    | (Throw e, i) => (Throw e, (s.1, s.2 <| page_io := i |>))
    | (OutOfFuel, i) => (OutOfFuel, (s.1, s.2 <| page_io := i |>))
    end.
Proof. unfold with_io, mbind, js_bind. by destruct (m (page_io s.2)) as [[]]. Qed.
Lemma zoom_bind {T A B} (proj : S -> T) put (m : js (T * page) A) (k : A -> js (S * page) B) s :
  (zoom proj put m ≫= k) s =
    match m (proj s.1, s.2) with
    | (Ret a, tp) => k a (put tp.1 s.1, tp.2)
    | (Throw e, tp) => (Throw e, (put tp.1 s.1, tp.2))
    | (OutOfFuel, tp) => (OutOfFuel, (put tp.1 s.1, tp.2))
    end.
Proof. unfold zoom, mbind, js_bind. by destruct (m (proj s.1, s.2)) as [[]]. Qed.
End Page.

(** What the parts of a computation preserve, the whole preserves. *)
Section PagePreserves.
Context {S : Type} (R : S * page -> S * page -> Prop) `{!PreOrder R}.
Lemma preserves_self {A} (f : S -> A) : preserves R (self f).
Proof. by apply preserves_gets. Qed.
Lemma preserves_of_page {A} (f : page -> A) : preserves R (of_page f).
Proof. by apply preserves_gets. Qed.
Lemma preserves_update f : (forall s, R s (f s.1, s.2)) -> preserves R (update f).
Proof. intros Hf. by apply preserves_modify. Qed.
Lemma preserves_update_page f : (forall s, R s (s.1, f s.2)) -> preserves R (update_page f).
Proof. intros Hf. by apply preserves_modify. Qed.
Lemma preserves_zoom {T A} (proj : S -> T) put (m : js (T * page) A) (R' : T * page -> T * page -> Prop) :
  preserves R' m -> (forall s tp, R' (proj s.1, s.2) tp -> R s (put tp.1 s.1, tp.2)) ->
  preserves R (zoom proj put m).
Proof.
  intros Hm HR s. unfold zoom. specialize (Hm (proj s.1, s.2)). specialize (HR s).
  destruct (m (proj s.1, s.2)) as [r tp]. by apply HR.
Qed.
End PagePreserves.
#[export] Hint Resolve preserves_self preserves_of_page : preserves.

Ltac page_step :=
  first [ rewrite bind_self | rewrite bind_update | rewrite bind_of_page | rewrite bind_update_page
        | rewrite bind_pushEvent | rewrite update_run | rewrite update_page_run | rewrite pushEvent_run
        | js_step ].
Ltac page_steps := cbv zeta beta; repeat page_step; cbn [fst snd].

(** ** Asynchronous computations *)
Section Async.
Context {S : Type}.
(** What happens to the state at each coming [await]. *)
Abbreviation interference := (list (S -> S)).

Definition sync {A} (m : js S A) : js (S * interference) A := fun s =>
  let '(r, s') := m s.1 in (r, (s', s.2)).
(** [await]: the rest of the page runs. *)
Definition pause : js (S * interference) unit := fun s =>
  match s.2 with
  | [] => (OutOfFuel, s)
  | f :: fs => (Ret tt, (f s.1, fs))
  end.
Lemma sync_bind {A B} (m : js S A) (k : A -> js (S * interference) B) s :
  (sync m ≫= k) s =
    match m s.1 with
    | (Ret a, s') => k a (s', s.2)
    | (Throw e, s') => (Throw e, (s', s.2))
    | (OutOfFuel, s') => (OutOfFuel, (s', s.2))
    end.
Proof. unfold sync, mbind, js_bind. by destruct (m s.1) as [[]]. Qed.
Lemma pause_bind {B} (k : unit -> js (S * interference) B) s f fs :
  (pause ≫= k) (s, f :: fs) = k tt (f s, fs).
Proof. done. Qed.
End Async.
