(* ===== verification/FtJobs.v ===== *)
(** * Transfer jobs: [connections/ft/ft_jobs.ts]

    Jobs are objects that handlers hold on to across [await]s and that several maps refer to, so
    they live in a heap ([writeHeap], [readHeap]) and the maps hold references.  A removed job is
    no longer in its map but can still be reached by whoever holds it. *)
From Stdlib Require Import Strings.Ascii.
From S2P Require Import Prelude JsMap JsStr Json Bytes ProtoFile PushEvent FtProtocol FtBrowserIo FtZip Page.
Local Open Scope string_scope.

(** A reference to a job. *)
Abbreviation jobref := nat.

Record WriteJob := {
  w_id : Z;
  w_remotePath : string;
  w_localPath : string;
  w_fileNum : Z;
  w_fileName : string;
  chunks : list bytes;
  fileChunks : jsmap Z (list bytes);
  w_files : list FileEntry.t;
  isFolderDownload : bool;
  w_finishedSize : Z;
  w_totalSize : Z;
  w_lastTick : Z;
  (** bytes and milliseconds whose quotient [speed] is; [None] is the initial 0 *)
  w_speed : option (Z * Z);
  w_waitingConfirm : bool;
  skipConfirm : bool;
  saveTarget : option target;
  streamingToDisk : bool;
  folderZipStream : option FolderZipStreamer;
}.

Record ReadJob := {
  r_id : Z;
  r_remotePath : string;
  r_localPath : string;
  r_fileNum : Z;
  file : option File;
  uploadFiles : list File;
  r_files : list FileEntry.t;
  offset : Z;
  r_finishedSize : Z;
  finishedBase : Z;
  r_totalSize : Z;
  r_includeHidden : bool;
  blkId : Z;
  r_lastTick : Z;
  r_speed : option (Z * Z);
  active : bool;
  r_waitingConfirm : bool;
}.

Record FileJobManager := {
  writeJobs : jsmap Z jobref;
  readJobs : jsmap Z jobref;
  pendingUploads : jsmap Z File;
  writeHeap : list WriteJob;
  readHeap : list ReadJob;
}.
Definition newFileJobManager : FileJobManager :=
  {| writeJobs := []; readJobs := []; pendingUploads := []; writeHeap := []; readHeap := [] |}.

(** The job an id is mapped to. *)
Definition getWriteJob (id : Z) (m : FileJobManager) : option (jobref * WriteJob) :=
  l ← map_get (writeJobs m) id; j ← writeHeap m !! l; mret (l, j).
Definition getReadJob (id : Z) (m : FileJobManager) : option (jobref * ReadJob) :=
  l ← map_get (readJobs m) id; j ← readHeap m !! l; mret (l, j).
Definition set_write (l : jobref) (f : WriteJob -> WriteJob) (m : FileJobManager) : FileJobManager :=
  m <| writeHeap := alter f l (writeHeap m) |>.
Definition set_read (l : jobref) (f : ReadJob -> ReadJob) (m : FileJobManager) : FileJobManager :=
  m <| readHeap := alter f l (readHeap m) |>.

Definition is_path_sep (c : ascii) : bool := Ascii.eqb c slash || Ascii.eqb c backslash.
(** [remotePath.split(/[/\\]/).pop() || "download"] *)
Definition path_basename (remotePath : string) : string :=
  or_empty (List.last (split_if is_path_sep remotePath) "") "download".

Section FtJobs.
Context `{Zstd} `{Fflate}.
Abbreviation jobs A := (js (FileJobManager * page) A).

Definition createDownloadJob (id : Z) (remotePath localPath : string) (fileNum : Z) (isFolder : bool) :
    jobs jobref :=
  tick ← of_page now;
  l ← self (fun m => length (writeHeap m));
  let job := {| w_id := id; w_remotePath := remotePath; w_localPath := localPath; w_fileNum := fileNum;
                w_fileName := path_basename remotePath; chunks := []; fileChunks := []; w_files := [];
                isFolderDownload := isFolder; w_finishedSize := 0; w_totalSize := 0; w_lastTick := tick;
                w_speed := None; w_waitingConfirm := false; skipConfirm := false; saveTarget := None;
                streamingToDisk := false; folderZipStream := None |} in
  update (fun m => m <| writeHeap := (writeHeap m ++ [job])%list |> <| writeJobs := map_set (writeJobs m) id l |>);;
  mret l.

(** [Number(e.size || 0)] is the size. *)
Definition setDownloadFiles (l : jobref) (entries : list FileEntry.t) : jobs unit :=
  update (set_write l (fun j => j <| w_files := entries |>
    <| w_totalSize := foldl (fun sum e => sum + FileEntry.size e)%Z 0%Z entries |>)).

(** [uploadFiles[fileNum] ?? uploadFiles[0]]; a negative index is undefined. *)
Definition nth_file (fs : list File) (n : Z) : option File :=
  if (n <? 0)%Z then None else fs !! Z.to_nat n.

Definition createMultiFileUploadJob (id : Z) (localPath remotePath : string) (fileNum : Z)
    (ufiles : list File) (entries : list FileEntry.t) (total : Z) (includeHidden : bool) : jobs jobref :=
  tick ← of_page now;
  l ← self (fun m => length (readHeap m));
  let job := {| r_id := id; r_remotePath := remotePath; r_localPath := localPath; r_fileNum := fileNum;
                file := match nth_file ufiles fileNum with Some f => Some f | None => nth_file ufiles 0 end;
                uploadFiles := ufiles; r_files := entries; offset := 0; r_finishedSize := 0;
                finishedBase := 0; r_totalSize := total; r_includeHidden := includeHidden; blkId := 0;
                r_lastTick := tick; r_speed := None; active := false; r_waitingConfirm := false |} in
  update (fun m => m <| readHeap := (readHeap m ++ [job])%list |> <| readJobs := map_set (readJobs m) id l |>);;
  match ufiles with
  | [f] => update (fun m => m <| pendingUploads := map_set (pendingUploads m) id f |>)
  | _ => skip
  end;;
  mret l.

(** The entry [createUploadJob] announces a single file with. *)
Definition single_entry (f : File) : FileEntry.t :=
  FileEntry.createBase <| FileEntry.name := "" |> <| FileEntry.size := size f |>
    <| FileEntry.modified_time := (lastModified f / 1000)%Z |> <| FileEntry.entry_type := 4 |>.
Definition createUploadJob (id : Z) (localPath remotePath : string) (fileNum : Z) (f : File)
    (includeHidden : bool) : jobs jobref :=
  createMultiFileUploadJob id localPath remotePath fileNum [f] [single_entry f] (size f) includeHidden.

Definition removeJob_pure (id : Z) (m : FileJobManager) : FileJobManager :=
  m <| writeJobs := map_delete (writeJobs m) id |> <| readJobs := map_delete (readJobs m) id |>
    <| pendingUploads := map_delete (pendingUploads m) id |>.
Definition removeJob (id : Z) : jobs unit := update (removeJob_pure id).

(** [progressPayload]; [speed_text] is how a quotient of bytes by milliseconds over 1000 prints. *)
Definition progressPayload (speed_text : Z * Z -> string) (id fileNum : Z) (speed : option (Z * Z))
    (finishedSize : Z) : payload :=
  strs [("id", string_of_Z id); ("file_num", string_of_Z fileNum);
        ("speed", match speed with Some q => speed_text q | None => "0" end);
        ("finished_size", string_of_Z finishedSize)].

(** [updateSpeed]: the new [speed] and [lastTick]. *)
Definition updateSpeed (speed : option (Z * Z)) (lastTick delta tnow : Z) : option (Z * Z) * Z :=
  ((if (0 <? tnow - lastTick)%Z then Some (delta, tnow - lastTick) else speed), tnow).

(** ** Receiving *)
Definition streamsToDisk (j : WriteJob) : bool := truthy (saveTarget j) && negb (isFolderDownload j).
Definition streamsFolderZip (j : WriteJob) : bool := truthy (saveTarget j) && isFolderDownload j.

(** The three lines every branch of [appendBlock] ends with. *)
Definition count_block (l : jobref) (fileNum : Z) (data : bytes) : jobs unit :=
  tnow ← of_page now;
  update (set_write l (fun j =>
    let '(speed, tick) := updateSpeed (w_speed j) (w_lastTick j) (len data) tnow in
    j <| w_fileNum := fileNum |> <| w_speed := speed |> <| w_lastTick := tick |>
      <| w_finishedSize := (w_finishedSize j + len data)%Z |>)).

(** Runs a computation of the job's [FolderZipStreamer]. *)
Definition with_zip {A} (l : jobref) (z : FolderZipStreamer) (m : js (FolderZipStreamer * io) A) : jobs A :=
  fun s => let '(r, zi) := m (z, page_io s.2) in
    (r, (set_write l (fun j => j <| folderZipStream := Some zi.1 |>) s.1, s.2 <| page_io := zi.2 |>)).

Definition block_bytes (data : bytes) (compressed : bool) : jobs bytes :=
  if (compressed : bool) then
    ready ← of_page zstd_ready;
    let '(d, ready') := decompress ready data in
    update_page (fun pg => pg <| zstd_ready := ready' |>);;
    match d with
    | Some d => mret d
    | None => throw (VError "Error" "decompress failed")
    end
  else mret data.

Definition appendBlock (l : jobref) (fileNum : Z) (data : bytes) (compressed : bool) : jobs unit :=
  data ← block_bytes data compressed;
  job ← self (fun m => writeHeap m !! l);
  match job with
  | None => throw VUndefined
  | Some j =>
      match saveTarget j with
      | Some t =>
          if negb (isFolderDownload j) then
            with_io (writeDownloadChunk t data);;
            update (set_write l (fun j => j <| streamingToDisk := true |>));;
            count_block l fileNum data
          else
            let z := match folderZipStream j with
                     | Some z => z
                     | None => newFolderZipStreamer t (or_empty (w_fileName j) "download")
                     end in
            with_zip l z (zip_appendBlock fileNum data (w_files j));;
            count_block l fileNum data
      | None =>
          (if isFolderDownload j || (0 <? len (w_files j))%Z then
             update (set_write l (fun j => j <| fileChunks :=
               map_set (fileChunks j) fileNum (default [] (map_get (fileChunks j) fileNum) ++ [data])%list |>))
           else
             update (set_write l (fun j => j <| chunks := (chunks j ++ [data])%list |>)));;
          count_block l fileNum data
      end
  end.

Definition chunksForFile (j : WriteJob) (fileNum : Z) : list bytes :=
  default [] (map_get (fileChunks j) fileNum).

Definition download_cancelled : jsval := VError "Error" "Download cancelled".

Definition finalizeFolderDownloadAsZip (l : jobref) (j : WriteJob) : jobs unit :=
  match folderZipStream j with
  | Some z => with_zip l z finish
  | None =>
      zipped ← lift_outcome (buildFolderZipFromChunks (w_fileName j) (w_files j) (chunksForFile j));
      ok ← with_io (saveDownload (folderDownloadFilename (w_fileName j)) zipped (saveTarget j));
      if negb ok then throw download_cancelled else skip
  end.

Definition finalizeDownload (l : jobref) : jobs unit :=
  job ← self (fun m => writeHeap m !! l);
  match job with
  | None => throw VUndefined
  | Some j =>
      if isFolderDownload j && (0 <? len (w_files j))%Z then finalizeFolderDownloadAsZip l j
      else
        match streamingToDisk j, saveTarget j with
        | true, Some t => with_io (closeDownloadTarget t)
        | _, _ =>
            let cs := if (0 <? map_count (fileChunks j))%Z then chunksForFile j (w_fileNum j) else chunks j in
            out ← lift_outcome (concatChunks cs);
            ok ← with_io (saveDownload (or_empty (w_fileName j) "download") out (saveTarget j));
            if negb ok then throw download_cancelled else skip
        end
  end.

(** ** Sending: [nextUploadBlock], up to and after its [await] *)
Inductive block_read := NoFile | AtEnd | Reading (f : File) (read : outcome bytes).

Definition current_file (j : ReadJob) : option File :=
  match file j with Some f => Some f | None => nth_file (uploadFiles j) (r_fileNum j) end.

Definition startBlockRead (j : ReadJob) : block_read :=
  match current_file j with
  | None => NoFile
  | Some f =>
      if (size f <=? offset j)%Z then AtEnd
      else Reading f (readFileChunk f (offset j) (Z.min BLOCK_SIZE (size f - offset j)))
  end.

(** [None] is the null result; otherwise the data and whether the file is finished. *)
Definition finishBlockRead (l : jobref) (r : block_read) : jobs (option (bytes * bool)) :=
  match r with
  | NoFile => mret None
  | AtEnd => mret (Some ([], true))
  | Reading f read =>
      data ← lift_outcome read;
      tnow ← of_page now;
      update (set_read l (fun j =>
        let off := (offset j + len data)%Z in
        let '(speed, tick) := updateSpeed (r_speed j) (r_lastTick j) (len data) tnow in
        j <| offset := off |> <| r_finishedSize := (finishedBase j + off)%Z |> <| r_speed := speed |>
          <| r_lastTick := tick |> <| blkId := (blkId j + 1)%Z |>));;
      off ← self (fun m => option_map offset (readHeap m !! l));
      mret (Some (data, (size f <=? default 0 off)%Z))
  end.
End FtJobs.

(** ** Downloads save what was received *)
Section Downloads.
Context `{Zstd} `{Fflate}.

(** A block as [handleBlock] passes it on: file number, data, compressed. *)
Abbreviation block := (Z * bytes * bool)%type.
(** [d] is what the block stands for. *)
Definition unpacks (b : block) (d : bytes) : Prop :=
  if b.2 then zstd_init = Ret tt /\ zstd_decode b.1.2 (decompress_bound (len b.1.2)) = Ret d
  else d = b.1.2.
Definition receive_blocks (l : jobref) (bs : list block) : js (FileJobManager * page) unit :=
  for_of bs (fun b => appendBlock l b.1.1 b.1.2 b.2).

Lemma block_bytes_ok b d s : unpacks b d ->
  exists ready, block_bytes b.1.2 b.2 s = (Ret d, (s.1, s.2 <| zstd_ready := ready |>)).
Proof.
  unfold unpacks, block_bytes. destruct b as [[n data] [|]]; cbn [fst snd].
  - intros [Hi Hd]. page_steps. exists true. unfold decompress. rewrite Hi.
    assert (E : (if zstd_ready s.2 then Ret tt else Ret tt) = Ret tt :> outcome unit)
      by (by destruct (zstd_ready s.2)).
    rewrite E, Hd. by page_steps.
  - intros ->. exists (zstd_ready s.2). by destruct s as [m []].
Qed.

Lemma alter_lookup {A} (f : A -> A) (h : list A) l x : h !! l = Some x -> alter f l h !! l = Some (f x).
Proof. intros E. by rewrite list_lookup_alter_eq, E. Qed.

Lemma count_block_run l n d s j : writeHeap s.1 !! l = Some j ->
  exists m' j', count_block l n d s = (Ret tt, (m', s.2)) /\ writeHeap m' !! l = Some j' /\
    readJobs m' = readJobs s.1 /\ writeJobs m' = writeJobs s.1 /\
    chunks j' = chunks j /\ fileChunks j' = fileChunks j /\ w_files j' = w_files j /\
    isFolderDownload j' = isFolderDownload j /\ saveTarget j' = saveTarget j /\
    streamingToDisk j' = streamingToDisk j /\ w_fileName j' = w_fileName j /\ w_fileNum j' = n /\
    w_finishedSize j' = (w_finishedSize j + len d)%Z /\ folderZipStream j' = folderZipStream j /\
    w_remotePath j' = w_remotePath j /\ w_localPath j' = w_localPath j.
Proof.
  intros Hj. unfold count_block. page_steps. unfold updateSpeed.
  eexists _, _. split; [done|]. split; [by apply alter_lookup|].
  destruct s as [m pg]. cbn. unfold set_write. by destruct m, j.
Qed.

(** *** In memory *)
Definition memory_job (l : jobref) (s : FileJobManager * page) (n : Z) (fs : list FileEntry.t) (name : string)
    (ds : list bytes) : Prop :=
  exists j, writeHeap s.1 !! l = Some j /\ saveTarget j = None /\ isFolderDownload j = false /\
    streamingToDisk j = false /\ w_files j = fs /\ w_fileName j = name /\
    (if (0 <? len fs)%Z
     then fileChunks j = (match ds with [] => [] | _ => [(n, ds)] end) /\ (chunks j = []) /\
          (ds <> [] -> w_fileNum j = n)
     else fileChunks j = [] /\ chunks j = ds) /\
    w_finishedSize j = len (concat ds).

(** The maps, the files and the events, which a block does not touch. *)
Definition same_maps (s s' : FileJobManager * page) : Prop :=
  writeJobs s'.1 = writeJobs s.1 /\ readJobs s'.1 = readJobs s.1 /\ page_io s'.2 = page_io s.2 /\
  events s'.2 = events s.2.

Lemma appendBlock_memory l s n fs name ds b d :
  memory_job l s n fs name ds -> unpacks b d -> b.1.1 = n ->
  exists s', appendBlock l b.1.1 b.1.2 b.2 s = (Ret tt, s') /\ memory_job l s' n fs name (ds ++ [d])%list /\
    same_maps s s'.
Proof.
  intros (j & Hj & Hst & Hfd & Hsd & Hfs & Hnm & Hch & Hsz) Hb Hn. unfold appendBlock.
  destruct (block_bytes_ok b d s Hb) as [ready E]. erewrite bind_eq by done. page_steps.
  rewrite Hj. cbv iota. rewrite Hst, Hfd, Hfs. cbn [orb]. rewrite js_bind_assoc || idtac.
  set (f := fun j : WriteJob => if (0 <? len fs)%Z
     then j <| fileChunks := map_set (fileChunks j) b.1.1 (default [] (map_get (fileChunks j) b.1.1) ++ [d])%list |>
     else j <| chunks := (chunks j ++ [d])%list |>).
  set (s1 := (set_write l f s.1, s.2 <| zstd_ready := ready |>) : FileJobManager * page).
  assert (E1 : (if (0 <? len fs)%Z then update (set_write l (fun j => j <| fileChunks :=
       map_set (fileChunks j) b.1.1 (default [] (map_get (fileChunks j) b.1.1) ++ [d])%list |>))
     else update (set_write l (fun j => j <| chunks := (chunks j ++ [d])%list |>)))
     (s.1, s.2 <| zstd_ready := ready |>) = (Ret tt, s1)).
  { subst s1 f. by destruct (0 <? len fs)%Z. }
  erewrite bind_eq by done.
  destruct (count_block_run l b.1.1 d s1 (f j)) as (m' & j' & E2 & Hj' & Cr & Cw & C1 & C2 & C3 & C4 & C5 & C6 & C7 & C8 & C9 & _);
    [by apply alter_lookup|].
  exists (m', s1.2). split; [by rewrite E2|]. split; [|split; [|split; [|split]]].
  2: { cbn [fst]. rewrite Cw. by destruct s as [[] []]. }
  2: { cbn [fst]. rewrite Cr. by destruct s as [[] []]. }
  2: { by destruct s as [? []]. }
  2: { by destruct s as [? []]. }
  exists j'. split; [done|]. rewrite C1, C2, C3, C4, C5, C6, C7, C8, C9. subst f. cbv beta.
  assert (Hlen : len (concat (ds ++ [d])%list) = (len (concat ds) + len d)%Z).
  { rewrite concat_app, len_app. cbn [concat]. by rewrite app_nil_r. }
  rewrite Hlen. clear E E1 E2 Cr Cw C1 C2 C3 C4 C5 C6 C7 C8 C9 Hj' Hb. clearbody s1.
  destruct (0 <? len fs)%Z; destruct j; cbn in *; subst.
  - destruct Hch as (-> & -> & Hfn). do 5 (split; [done|]). split; [|done].
    destruct ds as [|d0 ds]; cbn; [done|]. rewrite !decide_True by done. done.
  - destruct Hch as (-> & ->). done.
Qed.

Lemma receive_memory l s n fs name bs ds0 ds :
  memory_job l s n fs name ds0 -> Forall2 unpacks bs ds -> Forall (fun b => b.1.1 = n) bs ->
  exists s', receive_blocks l bs s = (Ret tt, s') /\ memory_job l s' n fs name (ds0 ++ ds)%list /\
    same_maps s s'.
Proof.
  intros Hm Hu. revert s ds0 Hm. induction Hu as [|b d bs ds Hb _ IH]; intros s ds0 Hm Hn.
  { exists s. by rewrite app_nil_r. }
  apply Forall_cons in Hn as [Hn Hns].
  destruct (appendBlock_memory l s n fs name ds0 b d Hm Hb Hn) as (s1 & E & Hm1 & Hio1).
  destruct (IH s1 (ds0 ++ [d])%list Hm1 Hns) as (s2 & E2 & Hm2 & Hio2).
  exists s2. unfold receive_blocks in *. cbn [for_of]. erewrite bind_eq by done.
  split; [done|]. split; [by rewrite <- app_assoc in Hm2|unfold same_maps in *; intuition congruence].
Qed.

(** Finalizing hands the browser the file. *)
Lemma finalize_memory l s n fs name ds rest :
  memory_job l s n fs name ds -> dialogs (page_io s.2) = NoPicker :: rest ->
  exists i', finalizeDownload l s = (Ret tt, (s.1, s.2 <| page_io := i' |>)) /\
    clicked i' = (clicked (page_io s.2) ++ [(or_empty name "download", concat ds)])%list.
Proof.
  intros (j & Hj & Hst & Hfd & Hsd & Hfs & Hnm & Hch & _) Hd.
  unfold finalizeDownload. page_steps. rewrite Hj. cbv iota. rewrite Hfd, Hsd, Hst, Hnm. cbn [andb].
  assert (Hcs : concat (if (0 <? map_count (fileChunks j))%Z then chunksForFile j (w_fileNum j) else chunks j) =
    concat ds).
  { unfold chunksForFile. cbn [app] in Hch. destruct (0 <? len fs)%Z.
    - destruct Hch as (-> & -> & Hfn). destruct ds as [|d ds]; [done|]. rewrite Hfn by done. cbn.
      by rewrite decide_True.
    - by destruct Hch as (-> & ->). }
  rewrite concatChunks_concat, Hcs. js_steps. rewrite with_io_bind. unfold saveDownload.
  unfold openSaveFilePicker, mbind, js_bind. rewrite Hd. cbn.
  eexists. split; [done|]. by destruct (page_io s.2).
Qed.

(** A file download without a save dialog.  Whatever the blocks were (plain or compressed), and
    whether or not the peer listed the file first, finalizing a download whose blocks were all
    received hands the browser one file, under the remote file's name, holding exactly the
    unpacked blocks in order. *)
Theorem download_saves_all_bytes l s n fs name bs ds rest :
  memory_job l s n fs name [] -> Forall2 unpacks bs ds -> Forall (fun b => b.1.1 = n) bs ->
  dialogs (page_io s.2) = NoPicker :: rest ->
  exists s', (receive_blocks l bs;; finalizeDownload l) s = (Ret tt, s') /\
    clicked (page_io s'.2) = (clicked (page_io s.2) ++ [(or_empty name "download", concat ds)])%list.
Proof.
  intros Hm Hu Hn Hd. destruct (receive_memory l s n fs name bs [] ds Hm Hu Hn) as (s1 & E & Hm1 & _ & _ & Hio & _).
  erewrite bind_eq by done. rewrite <- Hio in Hd.
  destruct (finalize_memory l s1 n fs name ds rest Hm1 Hd) as (i' & E2 & Hc).
  eexists. split; [done|]. rewrite <- Hio, <- Hc. by destruct s1 as [? []].
Qed.

(** *** To a file the user chose *)
Definition disk_job (l : jobref) (s : FileJobManager * page) (t : target) (ds : list bytes) : Prop :=
  exists j d, writeHeap s.1 !! l = Some j /\ saveTarget j = Some t /\ isFolderDownload j = false /\
    (ds <> [] -> streamingToDisk j = true) /\
    (ds = [] -> chunks j = [] /\ fileChunks j = [] /\ streamingToDisk j = false) /\
    disk (page_io s.2) !! t = Some d /\ written d = concat ds /\ capacity d = None /\
    close_fails d = false /\ errored d = false /\ closed d = false.

Lemma appendBlock_disk l s t ds b d :
  disk_job l s t ds -> unpacks b d ->
  exists s', appendBlock l b.1.1 b.1.2 b.2 s = (Ret tt, s') /\ disk_job l s' t (ds ++ [d])%list /\
    readJobs s'.1 = readJobs s.1 /\ writeJobs s'.1 = writeJobs s.1 /\ events s'.2 = events s.2.
Proof.
  intros (j & tg & Hj & Hst & Hfd & Hstr & _ & Ht & Hw & Hcap & Hcf & Her & Hcl) Hb. unfold appendBlock.
  destruct (block_bytes_ok b d s Hb) as [ready E]. erewrite bind_eq by done. page_steps.
  rewrite Hj. cbv iota. rewrite Hst, Hfd. cbn [negb]. rewrite with_io_bind.
  unfold writeDownloadChunk. cbn [page_io]. destruct s as [m pg]. cbn [fst snd] in *.
  replace (page_io (pg <| zstd_ready := ready |>)) with (page_io pg) by (by destruct pg).
  rewrite Ht, Hcl, Her, Hcap. cbn [orb]. page_steps.
  set (j1 := j <| streamingToDisk := true |>). set (s1 := (_, _) : FileJobManager * page).
  destruct (count_block_run l b.1.1 d s1 j1) as (m' & j' & E2 & Hj' & Cr & Cw & C1 & C2 & C3 & C4 & C5 & C6 & C7 & C8 & C9 & _);
    [by apply (alter_lookup (fun j => j <| streamingToDisk := true |>))|].
  exists (m', s1.2). split; [done|]. split; [|by cbn [fst snd]; rewrite Cr, Cw; destruct m, pg]. exists j', (tg <| written := (written tg ++ d)%list |>).
  split; [done|]. rewrite C4, C5, C6. split; [by destruct j|]. split; [by destruct j|].
  split; [by destruct j|]. split; [by destruct ds|]. split.
  { subst s1. cbn [snd page_io]. destruct pg as [? ? ? ? i ? ?]; cbn in *. destruct i; cbn in *.
    apply list_lookup_insert_eq. by eapply lookup_lt_Some. }
  rewrite concat_app. cbn [concat]. rewrite app_nil_r, <- Hw. by destruct tg.
Qed.

Lemma receive_disk l s t bs ds0 ds :
  disk_job l s t ds0 -> Forall2 unpacks bs ds ->
  exists s', receive_blocks l bs s = (Ret tt, s') /\ disk_job l s' t (ds0 ++ ds)%list.
Proof.
  intros Hm Hu. revert s ds0 Hm. induction Hu as [|b d bs ds Hb _ IH]; intros s ds0 Hm.
  { exists s. by rewrite app_nil_r. }
  destruct (appendBlock_disk l s t ds0 b d Hm Hb) as (s1 & E & Hm1 & _).
  destruct (IH s1 (ds0 ++ [d])%list Hm1) as (s2 & E2 & Hm2).
  exists s2. unfold receive_blocks in *. cbn [for_of]. erewrite bind_eq by done.
  split; [done|]. by rewrite <- app_assoc in Hm2.
Qed.

Lemma finalize_disk l s t ds : disk_job l s t ds -> exists i d,
  finalizeDownload l s = (Ret tt, (s.1, s.2 <| page_io := i |>)) /\
  disk i !! t = Some d /\ written d = concat ds /\ closed d = true.
Proof.
  intros Hm1. destruct s as [m pg].
  destruct Hm1 as (j & d & Hj & Hst & Hfd & Hstr & Hnil & Ht & Hw & Hcap & Hcf & Her & Hcl). cbn [fst snd] in *.
  assert (Hlt : (t < length (disk (page_io pg)))%nat) by (by eapply lookup_lt_Some).
  unfold finalizeDownload. page_steps. rewrite Hj. cbv iota. rewrite Hfd, Hst. cbn [andb app] in *.
  destruct ds as [|d0 ds].
  - destruct (Hnil eq_refl) as (Hc & Hfc & ->). rewrite Hc, Hfc. change (0 <? map_count [])%Z with false. cbv iota.
    rewrite concatChunks_concat. js_steps. rewrite with_io_bind.
    destruct d as [w cap cf er cl]; cbn in *; subst.
    unfold saveDownload, mbind, js_bind, writeDownloadChunk. rewrite Ht. cbn.
    destruct (page_io pg) as [lp lf dl dk ck] eqn:Eio. cbn in *.
    unfold closeDownloadTarget, constant. cbn. rewrite list_lookup_insert_eq by done. cbn.
    eexists _, _. split; [done|]. cbn. split; [apply list_lookup_insert_eq; by rewrite length_insert|].
    done.
  - rewrite Hstr by done. unfold with_io, closeDownloadTarget. cbn [fst snd]. rewrite Ht, Hcl, Her, Hcf. cbn.
    eexists _, _. split; [done|]. destruct (page_io pg) as [lp lf dl dk ck] eqn:Eio. cbn in *.
    split; [by apply list_lookup_insert_eq|]. by destruct d.
Qed.

(** A file download to a chosen place (with room on the disk): when all blocks were received and
    the download is finalized, the chosen file holds exactly the unpacked blocks in order and is
    closed; this also covers an empty file, for which no block arrives. *)
Theorem streamed_download_on_disk l s t bs ds :
  disk_job l s t [] -> Forall2 unpacks bs ds ->
  exists s' d, (receive_blocks l bs;; finalizeDownload l) s = (Ret tt, s') /\
    disk (page_io s'.2) !! t = Some d /\ written d = concat ds /\ closed d = true.
Proof.
  intros Hm Hu. destruct (receive_disk l s t bs [] ds Hm Hu) as (s1 & E & Hm1).
  erewrite bind_eq by done.
  destruct (finalize_disk l s1 t ds Hm1) as (i & d & E' & R). eexists _, d. split; [exact E'|]. by destruct s1 as [? []].
Qed.
End Downloads.
