(* ===== verification/FtJobsFacts.v ===== *)
(** * The tables of transfer jobs: [connections/ft/ft_jobs.ts]

    [jobs_ok] is what holds of a session's job tables at all times: ids are listed once, each is
    mapped to an existing job that carries the id, and every job's own numbers fit together.
    [jobs_step] relates two states of the tables between which no job object turned into another one
    and the invariant was kept; every operation on the tables is such a step, whatever it is called
    with and however it ends.  [spares] relates two states in which an id has the same entries:
    operations about other ids are such steps. *)
From S2P Require Import Prelude JsMap JsStr Json Bytes ProtoFile PushEvent FtProtocol FtBrowserIo FtZip Page FtJobs.
Local Open Scope string_scope.

(** ** A job by itself *)
(** The bytes a download holds in memory. *)
Definition held (fs : jsmap Z (list bytes)) : Z := foldr (fun kv n => len (concat kv.2) + n)%Z 0%Z fs.
Definition memory_bytes (j : WriteJob) : Z := (len (concat (chunks j)) + held (fileChunks j))%Z.
Definition entries_size (es : list FileEntry.t) : Z := foldl (fun sum e => sum + FileEntry.size e)%Z 0%Z es.

#[global] Arguments held : simpl never.
#[global] Arguments memory_bytes : simpl never.
#[global] Arguments entries_size : simpl never.

Record write_ok (j : WriteJob) : Prop := {
  (** the announced total is that of the announced files *)
  total_of_files : w_totalSize j = entries_size (w_files j);
  received_positive : (0 <= w_finishedSize j)%Z;
  (** without a chosen place, the progress reported is exactly what is held, nothing is streaming *)
  counts_held : saveTarget j = None ->
    w_finishedSize j = memory_bytes j /\ streamingToDisk j = false /\ folderZipStream j = None;
}.
Record read_ok (j : ReadJob) : Prop := {
  (** an entry for each file *)
  entry_per_file : length (r_files j) = length (uploadFiles j);
  (** the file being read is one of those picked for the job *)
  reads_given : forall f, file j = Some f -> f ∈ uploadFiles j;
}.

(** What never changes about a job, and what only grows. *)
Record write_kept (j j' : WriteJob) : Prop := {
  write_same : (w_id j', w_remotePath j', w_localPath j', w_fileName j', isFolderDownload j') =
    (w_id j, w_remotePath j, w_localPath j, w_fileName j, isFolderDownload j);
  write_grows : (w_finishedSize j <= w_finishedSize j')%Z;
  write_stays : is_Some (saveTarget j) -> is_Some (saveTarget j');
}.
Record read_kept (j j' : ReadJob) : Prop := {
  read_same : (r_id j', r_remotePath j', r_localPath j', uploadFiles j', r_files j', r_totalSize j', r_includeHidden j') =
    (r_id j, r_remotePath j, r_localPath j, uploadFiles j, r_files j, r_totalSize j, r_includeHidden j);
  read_grows : (finishedBase j <= finishedBase j')%Z;
}.
#[export] Instance write_kept_pre : PreOrder write_kept.
Proof. split; [by split|]. intros x y z [] []. split; [congruence|lia|auto]. Qed.
#[export] Instance read_kept_pre : PreOrder read_kept.
Proof. split; [by split|]. intros x y z [] []. split; [congruence|lia]. Qed.

(** An update of one job. *)
Definition write_step (j j' : WriteJob) : Prop := write_kept j j' /\ (write_ok j -> write_ok j').
Definition read_step (j j' : ReadJob) : Prop := read_kept j j' /\ (read_ok j -> read_ok j').
#[export] Instance write_step_pre : PreOrder write_step.
Proof. split; [by split|]. intros x y z [H1 ?] [H2 ?]. split; [exact (transitivity H1 H2)|auto]. Qed.
#[export] Instance read_step_pre : PreOrder read_step.
Proof. split; [by split|]. intros x y z [H1 ?] [H2 ?]. split; [exact (transitivity H1 H2)|auto]. Qed.

Lemma nth_file_elem fs n f : nth_file fs n = Some f -> f ∈ fs.
Proof. unfold nth_file. destruct (n <? 0)%Z; [done|]. apply list_elem_of_lookup_2. Qed.
(** Whatever a consistent upload reads comes from a file picked for it. *)
Lemma current_file_given j f : read_ok j -> current_file j = Some f -> f ∈ uploadFiles j.
Proof.
  intros Hok. unfold current_file. destruct (file j) as [f'|] eqn:E; [|apply nth_file_elem].
  intros [= <-]. by apply reads_given.
Qed.

(** ** The tables *)
Record jobs_ok (m : FileJobManager) : Prop := {
  writes_once : map_ok (writeJobs m);
  reads_once : map_ok (readJobs m);
  pending_once : map_ok (pendingUploads m);
  writes_live : forall id l, map_get (writeJobs m) id = Some l -> exists j, writeHeap m !! l = Some j /\ w_id j = id;
  reads_live : forall id l, map_get (readJobs m) id = Some l -> exists j, readHeap m !! l = Some j /\ r_id j = id;
  writes_ok : forall l j, writeHeap m !! l = Some j -> write_ok j;
  reads_ok : forall l j, readHeap m !! l = Some j -> read_ok j;
}.
Record jobs_kept (m m' : FileJobManager) : Prop := {
  writes_kept : forall l j, writeHeap m !! l = Some j -> exists j', writeHeap m' !! l = Some j' /\ write_kept j j';
  reads_kept : forall l j, readHeap m !! l = Some j -> exists j', readHeap m' !! l = Some j' /\ read_kept j j';
}.
Definition jobs_step (m m' : FileJobManager) : Prop := jobs_kept m m' /\ (jobs_ok m -> jobs_ok m').

#[export] Instance jobs_kept_pre : PreOrder jobs_kept.
Proof.
  split; [split; intros l j E; exists j; by split|]. intros x y z [W1 R1] [W2 R2]. split; intros l j E.
  - destruct (W1 l j E) as (j1 & E1 & K1). destruct (W2 l j1 E1) as (j2 & E2 & K2). exists j2.
    split; [done|exact (transitivity K1 K2)].
  - destruct (R1 l j E) as (j1 & E1 & K1). destruct (R2 l j1 E1) as (j2 & E2 & K2). exists j2.
    split; [done|exact (transitivity K1 K2)].
Qed.
#[export] Instance jobs_step_pre : PreOrder jobs_step.
Proof. split; [by split|]. intros x y z [H1 ?] [H2 ?]. split; [exact (transitivity H1 H2)|auto]. Qed.

Lemma newFileJobManager_ok : jobs_ok newFileJobManager.
Proof. split; cbn; try done; apply NoDup_nil_2. Qed.

(** Two ids never share a job. *)
Lemma writes_inj m id id' l : jobs_ok m ->
  map_get (writeJobs m) id = Some l -> map_get (writeJobs m) id' = Some l -> id = id'.
Proof.
  intros Hok E E'. destruct (writes_live m Hok _ _ E) as (j & Hj & <-).
  destruct (writes_live m Hok _ _ E') as (j' & Hj' & <-). congruence.
Qed.
Lemma reads_inj m id id' l : jobs_ok m ->
  map_get (readJobs m) id = Some l -> map_get (readJobs m) id' = Some l -> id = id'.
Proof.
  intros Hok E E'. destruct (reads_live m Hok _ _ E) as (j & Hj & <-).
  destruct (reads_live m Hok _ _ E') as (j' & Hj' & <-). congruence.
Qed.

(** What a lookup by id finds. *)
Lemma getReadJob_live id m l j : jobs_ok m -> getReadJob id m = Some (l, j) -> r_id j = id /\ read_ok j.
Proof.
  intros Hok. unfold getReadJob. destruct (map_get (readJobs m) id) as [l'|] eqn:E; [|done]. cbn.
  destruct (reads_live m Hok id l' E) as (j' & Hj & Hid). rewrite Hj. intros [= <- <-].
  split; [done|by apply (reads_ok m Hok l')].
Qed.
Lemma getWriteJob_live id m l j : jobs_ok m -> getWriteJob id m = Some (l, j) -> w_id j = id /\ write_ok j.
Proof.
  intros Hok. unfold getWriteJob. destruct (map_get (writeJobs m) id) as [l'|] eqn:E; [|done]. cbn.
  destruct (writes_live m Hok id l' E) as (j' & Hj & Hid). rewrite Hj. intros [= <- <-].
  split; [done|by apply (writes_ok m Hok l')].
Qed.

(** *** Updates of a job *)
Lemma lookup_alter_cases {A} (f : A -> A) (h : list A) l l' x : h !! l' = Some x ->
  alter f l h !! l' = Some (if decide (l' = l) then f x else x).
Proof.
  intros E. case_decide as Hl; [subst; by rewrite list_lookup_alter_eq, E|by rewrite list_lookup_alter_ne].
Qed.
Lemma lookup_alter_inv {A} (f : A -> A) (h : list A) l l' y : alter f l h !! l' = Some y ->
  exists x, h !! l' = Some x /\ (y = x \/ (l' = l /\ y = f x)).
Proof.
  intros E. destruct (h !! l') as [x|] eqn:Ex.
  - rewrite (lookup_alter_cases f h l l' x Ex) in E. exists x. split; [done|]. case_decide; simplify_eq; auto.
  - assert (Hl : (length h <= l')%nat) by (by apply lookup_ge_None). rewrite lookup_ge_None_2 in E; [done|].
    by rewrite length_alter.
Qed.

Lemma set_write_step l f m : (forall j, writeHeap m !! l = Some j -> write_step j (f j)) ->
  jobs_step m (set_write l f m).
Proof.
  intros Hf. destruct m as [ws rs ps wh rh]. unfold set_write. cbn in *. unfold constant. split; [split|intros []; split]; cbn in *; try done.
  - intros l' j E. rewrite (lookup_alter_cases f wh l l' j E). eexists. split; [done|].
    case_decide as Hl; [|reflexivity]. subst. by apply Hf.
  - intros l' j E. exists j. by split.
  - intros id l' E. destruct (writes_live0 id l' E) as (j & Ej & Hid).
    rewrite (lookup_alter_cases f wh l l' j Ej). eexists. split; [done|].
    case_decide as Hl; [|done]. subst l'. destruct (Hf j Ej) as [[Hs _ _] _]. congruence.
  - intros l' j' E. apply lookup_alter_inv in E as (j & Ej & [->|[-> ->]]); [by eapply writes_ok0|].
    by apply Hf; [|by eapply writes_ok0].
Qed.
Lemma set_read_step l f m : (forall j, readHeap m !! l = Some j -> read_step j (f j)) ->
  jobs_step m (set_read l f m).
Proof.
  intros Hf. destruct m as [ws rs ps wh rh]. unfold set_read. cbn in *. unfold constant. split; [split|intros []; split]; cbn in *; try done.
  - intros l' j E. exists j. by split.
  - intros l' j E. rewrite (lookup_alter_cases f rh l l' j E). eexists. split; [done|].
    case_decide as Hl; [|reflexivity]. subst. by apply Hf.
  - intros id l' E. destruct (reads_live0 id l' E) as (j & Ej & Hid).
    rewrite (lookup_alter_cases f rh l l' j Ej). eexists. split; [done|].
    case_decide as Hl; [|done]. subst l'. destruct (Hf j Ej) as [[Hs _] _]. congruence.
  - intros l' j' E. apply lookup_alter_inv in E as (j & Ej & [->|[-> ->]]); [by eapply reads_ok0|].
    by apply Hf; [|by eapply reads_ok0].
Qed.

(** *** Entering and leaving the tables *)
Lemma add_write_step job m : write_ok job -> 
  jobs_step m (m <| writeHeap := (writeHeap m ++ [job])%list |>
                 <| writeJobs := map_set (writeJobs m) (w_id job) (length (writeHeap m)) |>).
Proof.
  intros Hj. destruct m as [ws rs ps wh rh]. cbn. unfold constant. split; [split|intros []; split]; cbn in *; try done.
  - intros l j E. exists j. split; [by apply lookup_app_l_Some|done].
  - intros l j E. exists j. by split.
  - by apply map_set_ok.
  - intros id l E. destruct (decide (id = w_id job)) as [->|Hid].
    + rewrite map_get_set_eq in E. injection E as <-. exists job. by rewrite lookup_app_r, Nat.sub_diag by lia.
    + rewrite map_get_set_ne in E by done. destruct (writes_live0 id l E) as (j & Ej & ?).
      exists j. split; [by apply lookup_app_l_Some|done].
  - intros l j E. apply lookup_app_Some in E as [E|[_ E]]; [by eapply writes_ok0|].
    by apply list_lookup_singleton_Some in E as [_ <-].
Qed.
Lemma add_read_step job m : read_ok job ->
  jobs_step m (m <| readHeap := (readHeap m ++ [job])%list |>
                 <| readJobs := map_set (readJobs m) (r_id job) (length (readHeap m)) |>).
Proof.
  intros Hj. destruct m as [ws rs ps wh rh]. cbn. unfold constant. split; [split|intros []; split]; cbn in *; try done.
  - intros l j E. exists j. by split.
  - intros l j E. exists j. split; [by apply lookup_app_l_Some|done].
  - by apply map_set_ok.
  - intros id l E. destruct (decide (id = r_id job)) as [->|Hid].
    + rewrite map_get_set_eq in E. injection E as <-. exists job. by rewrite lookup_app_r, Nat.sub_diag by lia.
    + rewrite map_get_set_ne in E by done. destruct (reads_live0 id l E) as (j & Ej & ?).
      exists j. split; [by apply lookup_app_l_Some|done].
  - intros l j E. apply lookup_app_Some in E as [E|[_ E]]; [by eapply reads_ok0|].
    by apply list_lookup_singleton_Some in E as [_ <-].
Qed.
Lemma add_pending_step id f m : jobs_step m (m <| pendingUploads := map_set (pendingUploads m) id f |>).
Proof.
  destruct m. split; [split; cbn; intros l j E; exists j; by split|]. intros []. split; cbn in *; try done.
  by apply map_set_ok.
Qed.
(** Removing an id leaves the others where they were. *)
Lemma map_delete_sub {V} (m : jsmap Z V) id id' v : map_ok m -> map_get (map_delete m id) id' = Some v ->
  id' <> id /\ map_get m id' = Some v.
Proof.
  intros Hm E. destruct (decide (id' = id)) as [->|Hid]; [by rewrite map_get_delete_eq in E|].
  by rewrite map_get_delete_ne in E by done.
Qed.
Lemma removeJob_step id m : jobs_step m (removeJob_pure id m).
Proof.
  destruct m. unfold removeJob_pure. split; [split; cbn; intros l j E; exists j; by split|].
  intros []. split; cbn in *; unfold constant; try by apply map_delete_ok.
  - intros id' l E. apply map_delete_sub in E as [_ E]; [by apply writes_live0|done].
  - intros id' l E. apply map_delete_sub in E as [_ E]; [by apply reads_live0|done].
  - done.
  - done.
Qed.
Lemma clear_step m : jobs_step m (m <| readJobs := [] |> <| writeJobs := [] |> <| pendingUploads := [] |>).
Proof.
  destruct m. split; [split; cbn; intros l j E; exists j; by split|].
  intros []. split; cbn in *; unfold constant; done || apply NoDup_nil_2.
Qed.

(** ** The operations *)
Definition on_jobs (s s' : FileJobManager * page) : Prop := jobs_step s.1 s'.1.
#[export] Instance on_jobs_pre : PreOrder on_jobs.
Proof. split; [intros ?; unfold on_jobs; reflexivity|]. intros x y z H1 H2. unfold on_jobs in *. exact (transitivity H1 H2). Qed.

Lemma update_keeps_jobs f : (forall m, jobs_step m (f m)) -> preserves on_jobs (update f).
Proof. intros Hf [m pg]. apply Hf. Qed.
Lemma page_keeps_jobs f : preserves on_jobs (update_page f).
Proof. intros [m pg]. unfold on_jobs. reflexivity. Qed.
Lemma io_keeps_jobs {A} (m : js io A) : preserves on_jobs (with_io m).
Proof. intros [j pg]. unfold with_io, on_jobs. cbn [snd]. destruct (m _) as [r i]. reflexivity. Qed.

(** Updates of a job that keep it. *)
Ltac by_kept := split; [split; cbn; solve [done | lia] | intros []; split; cbn in *; try done; try lia ].
Ltac by_read := let j := fresh "j" in intros j; destruct j; unfold constant; cbn; by_kept.
(** An upload whose current file is finished, and its next file. *)
Lemma skip_file_step n j : read_step j
  match nth_file (uploadFiles j) n with Some f => j <| finishedBase := (finishedBase j + size f)%Z |> | None => j end.
Proof.
  destruct (nth_file (uploadFiles j) n) as [f|]; [|reflexivity].
  pose proof (len_nonneg (content f)). unfold size. destruct j; unfold constant; cbn. by_kept.
Qed.
Lemma next_file_step n j : read_step j (j <| r_fileNum := n |> <| file := nth_file (uploadFiles j) n |>
  <| offset := 0 |> <| blkId := 0 |> <| r_finishedSize := finishedBase j |> <| active := false |>
  <| r_waitingConfirm := true |>).
Proof.
  destruct j; unfold constant; cbn. by_kept. intros f. apply nth_file_elem.
Qed.
(** A download whose place was chosen. *)
Lemma target_step t j : write_step j (j <| saveTarget := Some t |>).
Proof. destruct j; unfold constant; cbn. by_kept. Qed.

Section Operations.
Context `{Zstd} `{Fflate}.

Lemma createDownloadJob_keeps id p t n isf : preserves on_jobs (createDownloadJob id p t n isf).
Proof.
  intros s. unfold createDownloadJob. rewrite bind_of_page, bind_self. cbv zeta. rewrite bind_update.
  unfold on_jobs. cbn [fst snd]. by apply (add_write_step
    {| w_id := id; w_remotePath := p; w_localPath := t; w_fileNum := n; w_fileName := path_basename p;
       chunks := []; fileChunks := []; w_files := []; isFolderDownload := isf; w_finishedSize := 0; w_totalSize := 0;
       w_lastTick := now s.2; w_speed := None; w_waitingConfirm := false; skipConfirm := false; saveTarget := None;
       streamingToDisk := false; folderZipStream := None |}).
Qed.
Lemma createMultiFileUploadJob_keeps id p t n fs es total h : length es = length fs ->
  preserves on_jobs (createMultiFileUploadJob id p t n fs es total h).
Proof.
  intros Hlen s. unfold createMultiFileUploadJob. rewrite bind_of_page, bind_self. cbv zeta. rewrite bind_update.
  set (job := {| r_id := id |}) at 1. assert (Hjob : read_ok job).
  { subst job. split; cbn; [done|]. intros f. destruct (nth_file fs n) eqn:E; [intros [= <-]; by eapply nth_file_elem|].
    exact (nth_file_elem fs 0 f). }
  pose proof (add_read_step job s.1 Hjob) as H1.
  assert (Hrest : preserves on_jobs (match fs with [f] => update (fun m => m <| pendingUploads :=
      map_set (pendingUploads m) id f |>) | _ => skip end;; (mret (length (readHeap s.1)) : js _ _))).
  { apply preserves_bind; [apply _| |intros; apply preserves_ret, _].
    destruct fs as [|f [|]]; try (apply preserves_skip, _). apply update_keeps_jobs. intros m. apply add_pending_step. }
  refine (transitivity (y := (_, s.2)) _ (Hrest _)). exact H1.
Qed.
Lemma createUploadJob_keeps id p t n f h : preserves on_jobs (createUploadJob id p t n f h).
Proof. by apply createMultiFileUploadJob_keeps. Qed.
Lemma setDownloadFiles_keeps l es : preserves on_jobs (setDownloadFiles l es).
Proof.
  apply update_keeps_jobs. intros m. apply set_write_step. intros j _. destruct j. by_kept.
Qed.
Lemma removeJob_keeps id : preserves on_jobs (removeJob id).
Proof. apply update_keeps_jobs. intros m. apply removeJob_step. Qed.
End Operations.

(** ** Receiving and sending *)
Lemma held_add m k d : held (map_set m k (default [] (map_get m k) ++ [d])%list) = (held m + len d)%Z.
Proof.
  assert (Hl : forall ds, len (concat (ds ++ [d])%list) = (len (concat ds) + len d)%Z).
  { intros ds. by rewrite concat_app, len_app; cbn [concat]; rewrite app_nil_r. }
  induction m as [|[k' ds] m IH]; cbn [map_set map_get]; [unfold held; cbn; rewrite app_nil_r; lia|].
  case_decide; unfold held in *; cbn [foldr snd fst default from_option]; [cbv [id]; rewrite Hl|rewrite IH]; lia.
Qed.
Lemma set_write_twice l f g m : set_write l f (set_write l g m) = set_write l (fun j => f (g j)) m.
Proof.
  destruct m as [? ? ? wh ?]. unfold set_write. cbn. unfold constant. f_equal. revert l.
  induction wh as [|x wh IH]; intros [|l]; cbn; f_equal; auto.
Qed.

Section Receiving.
Context `{Zstd} `{Fflate}.

(** What [count_block] does to its job. *)
Definition counted (fileNum : Z) (data : bytes) (tnow : Z) (j : WriteJob) : WriteJob :=
  let '(speed, tick) := updateSpeed (w_speed j) (w_lastTick j) (len data) tnow in
  j <| w_fileNum := fileNum |> <| w_speed := speed |> <| w_lastTick := tick |>
    <| w_finishedSize := (w_finishedSize j + len data)%Z |>.
Lemma count_block_runs l n d s :
  count_block l n d s = (Ret tt, (set_write l (counted n d (now s.2)) s.1, s.2)).
Proof. reflexivity. Qed.
(** The block is kept where the job keeps blocks in memory. *)
Definition hold (n : Z) (d : bytes) (in_files : bool) (j : WriteJob) : WriteJob :=
  if in_files then j <| fileChunks := map_set (fileChunks j) n (default [] (map_get (fileChunks j) n) ++ [d])%list |>
  else j <| chunks := (chunks j ++ [d])%list |>.
Lemma hold_step n d b t j : saveTarget j = None -> write_step j (counted n d t (hold n d b j)).
Proof.
  intros Hst. pose proof (len_nonneg d) as Hd.
  destruct b, j; unfold counted, hold, updateSpeed, constant; cbn in *; split; try (split; cbn; [done|lia|done]);
    intros [H1' H2' H3']; split; cbn in *; try done; try lia; intros _; destruct (H3' Hst) as (E & Es & Ez);
    (split; [|done]); unfold memory_bytes in *; cbn in *.
  - rewrite held_add. lia.
  - rewrite concat_app, len_app. cbn [concat]. rewrite app_nil_r. lia.
Qed.
(** Once a place was chosen, blocks go there and are only counted. *)
Lemma counted_step n d t j : is_Some (saveTarget j) -> write_step j (counted n d t j).
Proof.
  intros [tg Hst]. pose proof (len_nonneg d) as Hd. destruct j; unfold counted, updateSpeed, constant; cbn in *.
  split; [split; cbn; [done|lia|done]|]. intros []; split; cbn in *; try done; [lia|congruence].
Qed.
Lemma streaming_step j : is_Some (saveTarget j) -> write_step j (j <| streamingToDisk := true |>).
Proof.
  intros [tg Hst]. destruct j; unfold constant; cbn in *. split; [by split|]. intros []; split; cbn in *; try done. congruence.
Qed.
Lemma zip_step j z : (write_ok j -> is_Some (saveTarget j)) -> write_step j (j <| folderZipStream := Some z |>).
Proof.
  intros Hst. destruct j; unfold constant; cbn in *. split; [by split|]. intros Hok. destruct (Hst Hok) as [tg E].
  destruct Hok; split; cbn in *; try done. congruence.
Qed.

Lemma with_zip_keeps {A} l z (m : js (FolderZipStreamer * io) A) s :
  (forall j, writeHeap s.1 !! l = Some j -> write_ok j -> is_Some (saveTarget j)) ->
  on_jobs s (exec (with_zip l z m) s).
Proof.
  intros Hst. unfold exec, with_zip, on_jobs. destruct (m _) as [r zi]. cbn [fst snd].
  apply set_write_step. intros j Hj. apply zip_step. by apply Hst.
Qed.
Lemma block_bytes_keeps d c : preserves on_jobs (block_bytes d c).
Proof.
  unfold block_bytes. destruct c; [|apply preserves_ret, _]. apply preserves_bind; [apply _|apply preserves_of_page, _|].
  intros ready. destruct (decompress ready d) as [o ready']. apply preserves_bind; [apply _|apply page_keeps_jobs|].
  intros _. destruct o; [apply preserves_ret, _|apply preserves_throw, _].
Qed.

(** A block changes no job but the one it is for, however it ends. *)
Lemma appendBlock_keeps l n d c : preserves on_jobs (appendBlock l n d c).
Proof.
  unfold appendBlock. apply preserves_bind; [apply _|apply block_bytes_keeps|]. clear d. intros d s. rewrite bind_self.
  destruct (writeHeap s.1 !! l) as [j|] eqn:Hj; [|apply preserves_throw, _].
  destruct (saveTarget j) as [t|] eqn:Hst.
  - assert (Hcount : forall s', on_jobs s s' -> (forall j', writeHeap s'.1 !! l = Some j' -> is_Some (saveTarget j')) ->
      on_jobs s (count_block l n d s').2).
    { intros s' Hs Hs'. unfold on_jobs in *. rewrite count_block_runs. refine (transitivity Hs _). cbn [fst snd].
      apply set_write_step. intros j' Hj'. apply counted_step. eauto. }
    destruct (negb (isFolderDownload j)).
    + rewrite with_io_bind. unfold on_jobs in *. destruct (writeDownloadChunk t d (page_io s.2)) as [[[]|e|] i]; cbn [fst snd]; try reflexivity.
      rewrite bind_update. cbn [fst snd]. apply Hcount; cbn [fst].
      * apply set_write_step. intros j' Hj'. apply streaming_step. simplify_eq. by eexists.
      * intros j'. unfold set_write. intros E. assert (E' : alter (fun j => j <| streamingToDisk := true |>) l (writeHeap s.1) !! l = Some j') by (by destruct s as [[] ?]).
        rewrite list_lookup_alter_eq, Hj in E'. cbn in E'. simplify_eq. destruct j. by eexists.
    + pose proof (with_zip_keeps l (match folderZipStream j with Some z => z
        | None => newFolderZipStreamer t (or_empty (w_fileName j) "download") end)
        (zip_appendBlock n d (w_files j)) s) as Hz. cbv zeta. unfold exec, with_zip, mbind, js_bind in *.
      destruct (zip_appendBlock n d (w_files j) _) as [r zi]. cbn [fst snd] in *.
      assert (Hz' : on_jobs s (set_write l (fun j0 => j0 <| folderZipStream := Some zi.1 |>) s.1, s.2 <| page_io := zi.2 |>))
        by (apply Hz; intros j' Hj' _; simplify_eq; by eexists).
      destruct r as [[]|e|]; cbn [snd]; [|done..]. apply Hcount; [done|]. cbn [fst]. intros j' E.
      assert (E' : alter (fun j => j <| folderZipStream := Some zi.1 |>) l (writeHeap s.1) !! l = Some j') by (by destruct s as [[] ?]).
      rewrite list_lookup_alter_eq, Hj in E'. cbn in E'. simplify_eq. destruct j. by eexists.
  - set (b := isFolderDownload j || (0 <? len (w_files j))%Z).
    assert (E : forall s', (if b then update (set_write l (fun j => j <| fileChunks :=
        map_set (fileChunks j) n (default [] (map_get (fileChunks j) n) ++ [d])%list |>))
      else update (set_write l (fun j => j <| chunks := (chunks j ++ [d])%list |>))) s' =
      (Ret tt, (set_write l (hold n d b) s'.1, s'.2))) by (by destruct b).
    erewrite bind_eq by apply E. rewrite count_block_runs. unfold on_jobs. cbn [fst snd].
    rewrite set_write_twice. apply set_write_step. intros j' Hj'. apply hold_step. by simplify_eq.
Qed.

Lemma finalizeDownload_keeps l : preserves on_jobs (finalizeDownload l).
Proof.
  intros s. unfold finalizeDownload. rewrite bind_self.
  destruct (writeHeap s.1 !! l) as [j|] eqn:Hj; [|apply preserves_throw, _].
  assert (Hsave : forall n b t, preserves on_jobs (ok ← with_io (saveDownload n b t); if negb ok then throw download_cancelled else skip)).
  { intros. apply preserves_bind; [apply _|apply io_keeps_jobs|]. intros [|]; [apply preserves_skip, _|apply preserves_throw, _]. }
  destruct (isFolderDownload j && _).
  - unfold finalizeFolderDownloadAsZip. destruct (folderZipStream j) as [z|] eqn:Ez.
    + apply with_zip_keeps. intros j' Hj' [_ _ Hheld]. assert (j' = j) as -> by congruence. destruct (saveTarget j) as [t|] eqn:Et; [by eexists|].
      destruct (Hheld eq_refl) as (_ & _ & Hn). congruence.
    + apply preserves_bind; [apply _|apply preserves_lift, _|]. intros z. apply Hsave.
  - destruct (streamingToDisk j), (saveTarget j); try apply io_keeps_jobs;
      (apply preserves_bind; [apply _|apply preserves_lift, _|]; intros out; apply Hsave).
Qed.

Lemma finishBlockRead_keeps l r : preserves on_jobs (finishBlockRead l r).
Proof.
  unfold finishBlockRead. destruct r as [| |f o]; [apply preserves_ret, _..|].
  apply preserves_bind; [apply _|apply preserves_lift, _|]. intros d.
  apply preserves_bind; [apply _|apply preserves_of_page, _|]. intros t.
  apply preserves_bind; [apply _| |].
  - apply update_keeps_jobs. intros m. apply set_read_step. intros j _. destruct j; unfold updateSpeed, constant; cbn. by_kept.
  - intros _. apply preserves_bind; [apply _|apply preserves_self, _|]. intros off. apply preserves_ret, _.
Qed.
End Receiving.
#[export] Hint Resolve createDownloadJob_keeps createUploadJob_keeps setDownloadFiles_keeps removeJob_keeps appendBlock_keeps
  finalizeDownload_keeps finishBlockRead_keeps : preserves.

(** ** Other transfers

    An operation about one transfer leaves the entries of every other id where they are. *)
Section Spares.
Context (id0 : Z).
Definition entry_of (m : FileJobManager) : option jobref * option jobref * option File :=
  (map_get (writeJobs m) id0, map_get (readJobs m) id0, map_get (pendingUploads m) id0).
Definition spares (m m' : FileJobManager) : Prop := entry_of m' = entry_of m.
Definition jobs_spare (s s' : FileJobManager * page) : Prop := spares s.1 s'.1.
#[export] Instance jobs_spare_pre : PreOrder jobs_spare.
Proof. split; [done|]. intros x y z. unfold jobs_spare, spares. congruence. Qed.

Lemma set_write_spares l f m : spares m (set_write l f m).
Proof. by destruct m. Qed.
Lemma set_read_spares l f m : spares m (set_read l f m).
Proof. by destruct m. Qed.
Lemma removeJob_spares id m : id <> id0 -> spares m (removeJob_pure id m).
Proof.
  intros Hid. destruct m. unfold spares, entry_of, removeJob_pure, constant. cbn. unfold constant.
  by rewrite !map_get_delete_ne.
Qed.
Lemma add_pending_spares id f m : id <> id0 -> spares m (m <| pendingUploads := map_set (pendingUploads m) id f |>).
Proof. intros Hid. destruct m. unfold spares, entry_of, constant. cbn. by rewrite map_get_set_ne. Qed.
Lemma update_spares f : (forall m, spares m (f m)) -> preserves jobs_spare (update f).
Proof. intros Hf [m pg]. apply Hf. Qed.
Lemma page_spares f : preserves jobs_spare (update_page f).
Proof. by intros [m pg]. Qed.
Lemma io_spares {A} (m : js io A) : preserves jobs_spare (with_io m).
Proof. intros [j pg]. unfold with_io. by destruct (m _) as [r i]. Qed.

Context `{Zstd} `{Fflate}.
Lemma removeJob_keeps_others id : id <> id0 -> preserves jobs_spare (removeJob id).
Proof. intros Hid. apply update_spares. intros m. by apply removeJob_spares. Qed.
Lemma createDownloadJob_keeps_others id p t n isf : id <> id0 -> preserves jobs_spare (createDownloadJob id p t n isf).
Proof.
  intros Hid s. unfold createDownloadJob. rewrite bind_of_page, bind_self. cbv zeta. rewrite bind_update.
  destruct s as [m pg], m. unfold jobs_spare, spares, entry_of. cbn. unfold constant. by rewrite map_get_set_ne.
Qed.
Lemma createMultiFileUploadJob_keeps_others id p t n fs es total h : id <> id0 ->
  preserves jobs_spare (createMultiFileUploadJob id p t n fs es total h).
Proof.
  intros Hid s. unfold createMultiFileUploadJob. rewrite bind_of_page, bind_self. cbv zeta. rewrite bind_update.
  match goal with |- context [(?k (?m1, s.2))] => set (s1 := (m1, s.2)) end.
  assert (H1 : jobs_spare s s1).
  { subst s1. destruct s as [m pg], m. unfold jobs_spare, spares, entry_of. cbn. unfold constant. by rewrite map_get_set_ne. }
  refine (transitivity H1 _). clearbody s1. clear H1. revert s1.
  apply (preserves_bind jobs_spare); [|intros; apply (preserves_ret jobs_spare)].
  destruct fs as [|f [|]]; try apply (preserves_skip jobs_spare). apply update_spares. intros m. by apply add_pending_spares.
Qed.
Lemma setDownloadFiles_keeps_others l es : preserves jobs_spare (setDownloadFiles l es).
Proof. apply update_spares. intros m. apply set_write_spares. Qed.

(** Reading and writing blocks touches no entry at all. *)
Ltac entries_stay := repeat match goal with
  | |- forall _, _ => intros ?
  | |- preserves _ (match ?x with _ => _ end) => destruct x
  | |- preserves _ (_ ≫= _) => apply (preserves_bind jobs_spare)
  | |- preserves _ (mret _) => apply (preserves_ret jobs_spare)
  | |- preserves _ skip => apply (preserves_skip jobs_spare)
  | |- preserves _ (throw _) => apply (preserves_throw jobs_spare)
  | |- preserves _ (lift_outcome _) => apply (preserves_lift jobs_spare)
  | |- preserves _ (self _) => apply (preserves_self jobs_spare)
  | |- preserves _ (of_page _) => apply (preserves_of_page jobs_spare)
  | |- preserves _ (with_io _) => apply io_spares
  | |- preserves _ (update_page _) => apply page_spares
  | |- preserves _ (update _) => apply update_spares; intros ?; first [apply set_write_spares | apply set_read_spares]
  end.
Lemma with_zip_spares {A} l z (m : js (FolderZipStreamer * io) A) : preserves jobs_spare (with_zip l z m).
Proof. intros s. unfold with_zip. destruct (m _) as [r zi]. apply set_write_spares. Qed.
Lemma appendBlock_keeps_others l n d c : preserves jobs_spare (appendBlock l n d c).
Proof.
  unfold appendBlock, block_bytes, count_block. entries_stay; try apply with_zip_spares.
Qed.
Lemma finalizeDownload_keeps_others l : preserves jobs_spare (finalizeDownload l).
Proof.
  unfold finalizeDownload, finalizeFolderDownloadAsZip. entries_stay; try apply with_zip_spares.
Qed.
Lemma finishBlockRead_keeps_others l r : preserves jobs_spare (finishBlockRead l r).
Proof. unfold finishBlockRead. entries_stay. Qed.
End Spares.
#[export] Hint Resolve removeJob_keeps_others createDownloadJob_keeps_others createMultiFileUploadJob_keeps_others
  setDownloadFiles_keeps_others appendBlock_keeps_others finalizeDownload_keeps_others
  finishBlockRead_keeps_others : preserves.
