(* ===== verification/SessionBase.v ===== *)
(** * The shared session: [connections/session_base.ts], [helpers/peer_store.js]

    [BaseConnection]'s state is the record [base]; its concrete methods run on [base * page].  The
    methods that call abstract ones ([login], [handleHashMessage]) are written against the class
    [Session], which a kind of session instantiates. *)
From S2P Require Import Prelude JsMap JsStr Json ProtoWire ProtoSession ProtoMessage Crypto Config PushEvent.
From S2P Require Import Websock SessionConnect FtBrowserIo Page.
Local Open Scope string_scope.

Abbreviation options := (jsmap string json).

Record base := {
  _sessionId : option string;
  _msgs : list Message.t;
  _ws : option Websock;
  (** whether the message pump's interval is set *)
  _interval : bool;
  _id : string;
  _hash : option Hash.t;
  _password : option bytes;
  _plaintextPassword : option string;
  _loginSessionId : option Z;
  _options : options;
  _peerInfo : option PeerInfo.t;
}.
Definition newBase : base := {|
  _sessionId := None; _msgs := []; _ws := None; _interval := false; _id := ""; _hash := None;
  _password := None; _plaintextPassword := None; _loginSessionId := None; _options := [];
  _peerInfo := None |}.

(** ** Stored bytes *)
(** An element of [Uint8Array.from]; only numbers are stored. *)
Definition json_byte (j : json) : byte :=
  match j with JNum n => byte_of_Z n | JBool true => byte_of_Z 1 | _ => byte_of_Z 0 end.

(** ** Stored options of a peer *)
(** [getJsonObj(key)]: what does not parse to an object holds nothing. *)
Definition getJsonObj (st : storage) (key : string) : jsmap string json :=
  match st !! key with
  | Some text => match parse text with Some (JObj o) => o | _ => [] end
  | None => []
  end.
Definition getPeers (st : storage) : jsmap string json := getJsonObj st "peers".
Definition loadPeerOptions (st : storage) (peerId : string) : options :=
  if negb (truthy peerId) then []
  else match map_get (getPeers st) peerId with Some (JObj o) => o | _ => [] end.
Definition writePeers (peers : jsmap string json) (st : storage) : storage :=
  <["peers" := stringify (JObj peers)]> st.
Definition savePeerOptions (tnow : Z) (peerId : string) (opts : options) (st : storage) : storage :=
  let peers := getPeers st in
  writePeers (map_set peers peerId (JObj (map_set opts "tm" (JNum tnow)))) st.
Definition removePeer (peerId : string) (st : storage) : storage :=
  writePeers (map_delete (getPeers st) peerId) st.
Definition peerExists (st : storage) (peerId : string) : bool :=
  match map_get (getPeers st) peerId with Some j => truthy j | None => false end.
Definition peerHasPassword (st : storage) (peerId : string) : bool :=
  match map_get (loadPeerOptions st peerId) "password" with
  | Some (JStr p) => truthy p
  | Some JNull | None => false
  | Some _ => true
  end.
Definition setPeerField (tnow : Z) (peerId name : string) (value : option json) (st : storage) : storage :=
  let opts := loadPeerOptions st peerId in
  let opts := match value with
              | None | Some JNull => map_delete opts name
              | Some v => map_set opts name v
              end in
  savePeerOptions tnow peerId opts st.

Section Base.
Context `{ProtobufRuntime} `{Sodium}.
Abbreviation conn A := (js (base * page) A).

Definition ev (name : string) (p : payload) : conn unit :=
  sid ← self _sessionId; pushEvent name p sid.
Definition setPeerId (id : string) : conn unit := update (fun c => c <| _id := id |>).
Definition setPlaintextPassword (pw : string) : conn unit :=
  update (fun c => c <| _plaintextPassword := Some pw |>).

Definition getOption (name : string) (c : base) : option json := map_get (_options c) name.
Definition option_truthy (o : option json) : bool := match o with Some j => truthy j | None => false end.

(** [undefined] and [null] delete. *)
Definition setOption (name : string) (value : option json) : conn unit :=
  tnow ← of_page now;
  update (fun c => c <| _options := map_set
    (match value with
     | None | Some JNull => map_delete (_options c) name
     | Some v => map_set (_options c) name v
     end) "tm" (JNum tnow) |>);;
  opts ← self _options;
  id ← self _id;
  update_page (fun pg => pg <| localStorage ::= savePeerOptions tnow id opts |>).

(** [this._ws?.f(...)] *)
Definition on_ws (m : js Websock unit) : conn unit := fun s =>
  match _ws s.1 with
  | None => (Ret tt, s)
  | Some ws => let '(r, ws') := m ws in (r, (s.1 <| _ws := Some ws' |>, s.2))
  end.
Definition sendMessage (msg : Message.t) : conn unit := on_ws (Websock.sendMessage msg).
Definition queueMessage (msg : Message.t) : conn unit := update (fun c => c <| _msgs := (_msgs c ++ [msg])%list |>).

(** One firing of the pump's interval: each message leaves the queue before it is sent. *)
Fixpoint pump_loop (msgs : list Message.t) : conn unit :=
  match msgs with
  | [] => skip
  | msg :: rest =>
      update (fun c => c <| _msgs := rest |>);;
      sendMessage msg;;
      pump_loop rest
  end.
Definition pump : conn unit := msgs ← self _msgs; pump_loop msgs.

Definition startMessagePump : conn unit := update (fun c => c <| _interval := true |>).

(** [Uint8Array.from(JSON.parse("[" + p + "]"))], [None] when it throws *)
Definition parse_password (p : string) : option bytes :=
  match parse ("[" ++ p ++ "]") with
  | Some (JArr l) => Some (map json_byte l)
  | _ => None
  end.
Definition prepareConnect (id : string) : conn unit :=
  st ← of_page localStorage;
  update (fun c => c <| _id := id |> <| _options := loadPeerOptions st id |>);;
  pw ← self _password;
  (if negb (truthy pw) then
     p ← self (getOption "password");
     match p with
     | Some p =>
         if truthy p then
           match parse_password (json_String p) with
           | Some b => update (fun c => c <| _password := Some b |>)
           | None => skip
           end
         else skip
     | None => skip
     end
   else skip);;
  startMessagePump.

Definition json_is_string (o : option json) (p : string) : bool :=
  match o with Some (JStr s) => s =? p | Some (JNum n) => string_of_Z n =? p | _ => false end.
(** [remember] is what [getRemember] returns. *)
Definition persistPasswordIfRemembered (remember : bool) : conn unit :=
  pw ← self _password;
  match pw with
  | Some pw =>
      if negb remember || (len pw =? 0)%Z then skip
      else
        let p := bytes_toString pw in
        old ← self (getOption "password");
        if negb (json_is_string old p) then setOption "password" (Some (JStr p)) else skip
  | None => skip
  end.

Definition getStatus (c : base) : string :=
  let opened := match _ws c with Some ws => is_open (_status ws) | None => false end in
  stringify (JObj [("status_num", JNum (if opened then 1 else 0)); ("video_conn_count", JNum 0)]).

Definition setIngressHandler (installed : bool) : conn unit :=
  update (fun c => c <| _ws ::= option_map (Websock.setIngressHandler installed) |>).
Definition baseClose : conn unit :=
  update (fun c => c <| _msgs := [] |> <| _interval := false |>);;
  setIngressHandler false;;
  update (fun c => c <| _ws ::= option_map close |>).
End Base.

(** ** The interface to a kind of session

    [W] is the state of a program in which one session is [this]; [alive] says it still exists. *)
Class Session (W : Type) := {
  alive : W -> Prop;
  project : W -> base * page;
  on_base : forall A, js (base * page) A -> js W A;
  onPasswordRequired : js W unit;
  buildLoginRequest : option bytes -> js W LoginRequest.t;
  msgbox : string -> string -> string -> js W unit;
}.
Arguments on_base {W _ A}.
(** Running a computation on the base part is running it there; building a login request and
    showing progress leave the socket alone. *)
Class SessionLaws (W : Type) `{Session W} : Prop := {
  on_base_run : forall A (m : js (base * page) A) w, alive w ->
    (on_base m w).1 = (m (project w)).1 /\ project (on_base m w).2 = (m (project w)).2 /\ alive (on_base m w).2;
  buildLoginRequest_builds : forall p w, alive w -> exists r w', buildLoginRequest p w = (Ret r, w') /\
    LoginRequest.password r = default [] p /\
    LoginRequest.username r = _id (project w).1 /\ _ws (project w').1 = _ws (project w).1 /\ alive w';
  connecting_goes_on : forall t x w, alive w -> exists w', msgbox "connecting" t x w = (Ret tt, w') /\
    _ws (project w').1 = _ws (project w).1 /\ _id (project w').1 = _id (project w).1 /\ alive w';
}.

Section Login.
Context `{ProtobufRuntime} `{Sodium} {W : Type} `{!Session W}.

Definition login_message (r : LoginRequest.t) : Message.t :=
  Message.createBase <| Message.login_request := Some r |>.
Definition _sendLoginMessage (password : option bytes) : js W unit :=
  login_request ← buildLoginRequest password;
  on_base (sendMessage (login_message login_request)).

(** [this._hash?.salt] and [this._hash?.challenge] as [hashPassword] arguments *)
Definition salt_of (h : option Hash.t) : hash_data :=
  match h with Some h => HashString (Hash.salt h) | None => HashUndefined end.
Definition challenge_of (h : option Hash.t) : hash_data :=
  match h with Some h => HashString (Hash.challenge h) | None => HashUndefined end.

Definition login (password : option string) : js W unit :=
  if match password with Some pw => truthy pw | None => false end then
    h ← on_base (self _hash);
    p ← lift_outcome (hashPassword [HashString (default "" password); salt_of h]);
    on_base (update (fun c => c <| _password := Some p |>));;
    p ← lift_outcome (hashPassword [HashBytes p; challenge_of h]);
    msgbox "connecting" "Connecting..." "Logging in...";;
    _sendLoginMessage (Some p)
  else
    p ← on_base (self _password);
    h ← on_base (self _hash);
    p ← match p with
        | Some p => p ← lift_outcome (hashPassword [HashBytes p; challenge_of h]); mret (Some p)
        | None => mret None
        end;
    _sendLoginMessage p.

Definition handleHashMessage : js W unit :=
  pw ← on_base (self _plaintextPassword);
  if match pw with Some pw => truthy pw | None => false end then login pw
  else
    p ← on_base (self _password);
    if truthy p then login None else onPasswordRequired.
End Login.

(** ** Options and passwords persist *)
#[local] Arguments savePeerOptions : simpl never.
#[local] Arguments loadPeerOptions : simpl never.
Lemma parse_password_toString b : parse_password (bytes_toString b) = Some b.
Proof.
  unfold parse_password, bytes_toString.
  assert (E : "[" ++ join "," (map (fun x => string_of_Z (Z_of_byte x)) b) ++ "]" =
    stringify (JArr (map (fun x => JNum (Z_of_byte x)) b))) by (cbn [stringify]; by rewrite map_map).
  rewrite E, parse_stringify.
  - f_equal. rewrite map_map. rewrite <- (map_id b) at 2. apply map_ext. intros x. cbn.
    apply byte_of_Z_of_byte.
  - apply json_ok_arr, Forall_fmap, Forall_true. by intros x.
Qed.

Lemma getPeers_ok st : json_ok (JObj (getPeers st)).
Proof.
  unfold getPeers, getJsonObj. assert (H0 : json_ok (JObj [])) by (apply json_ok_obj; by repeat constructor).
  destruct (st !! "peers") as [text|]; [|done]. destruct (parse text) as [j|] eqn:E; [|done].
  apply parse_ok in E. by destruct j.
Qed.
Lemma getPeers_write peers st : json_ok (JObj peers) -> getPeers (writePeers peers st) = peers.
Proof.
  intros Hok. unfold getPeers, getJsonObj, writePeers. rewrite lookup_insert_eq.
  by rewrite parse_stringify.
Qed.
Lemma json_ok_set o k v : json_ok (JObj o) -> json_ok v -> json_ok (JObj (map_set o k v)).
Proof.
  intros [Hd Hf]%json_ok_obj Hv. apply json_ok_obj. split; [by apply map_set_ok|].
  by apply map_set_Forall.
Qed.
Lemma json_ok_delete o k : json_ok (JObj o) -> json_ok (JObj (map_delete o k)).
Proof.
  intros [Hd Hf]%json_ok_obj. apply json_ok_obj. split; [by apply map_delete_ok|].
  by apply map_delete_Forall.
Qed.
Lemma map_set_same {V} (o : jsmap string V) k v : map_set (map_set o k v) k v = map_set o k v.
Proof.
  induction o as [|[k' v'] o IH]; cbn; [by rewrite decide_True|].
  destruct (decide (k = k')) as [->|Hk]; cbn; [by rewrite decide_True|]. by rewrite decide_False, IH.
Qed.

Lemma getPeers_saved tnow peerId opts st : json_ok (JObj opts) ->
  getPeers (savePeerOptions tnow peerId opts st) = map_set (getPeers st) peerId (JObj (map_set opts "tm" (JNum tnow))).
Proof. intros Hok. apply getPeers_write, json_ok_set; [apply getPeers_ok|by apply json_ok_set]. Qed.

(** What is saved for a peer is what is loaded for it, and other peers keep what they had. *)
Lemma save_load tnow peerId opts st :
  peerId <> "" -> json_ok (JObj opts) ->
  loadPeerOptions (savePeerOptions tnow peerId opts st) peerId = map_set opts "tm" (JNum tnow) /\
  (forall other, other <> peerId ->
     loadPeerOptions (savePeerOptions tnow peerId opts st) other = loadPeerOptions st other).
Proof.
  intros Hid Hok. unfold loadPeerOptions. rewrite getPeers_saved by done. split.
  - unfold truthy, truthy_string. rewrite bool_decide_true by done. cbn [negb].
    by rewrite map_get_set_eq.
  - intros other Ho. by rewrite map_get_set_ne.
Qed.

Section Persistence.
Context `{ProtobufRuntime} `{Sodium}.

Definition value_json_ok (v : option json) : Prop := match v with Some j => json_ok j | None => True end.

Lemma setOption_run name v s :
  exists opts, setOption name v s =
    (Ret tt, (s.1 <| _options := map_set opts "tm" (JNum (now s.2)) |>,
              s.2 <| localStorage ::= savePeerOptions (now s.2) (_id s.1) (map_set opts "tm" (JNum (now s.2))) |>)) /\
    opts = match v with
           | None | Some JNull => map_delete (_options s.1) name
           | Some v => map_set (_options s.1) name v
           end.
Proof.
  eexists. split; [|done]. unfold setOption. page_steps. destruct s as [c pg]. by destruct c, pg.
Qed.

(** What the start of a connection takes from storage. *)
Lemma prepareConnect_run id c pg : let o := loadPeerOptions (localStorage pg) id in
  exists c', prepareConnect id (c, pg) = (Ret tt, (c', pg)) /\ _options c' = o /\ _id c' = id /\
    (_password c = None -> _password c' =
       match map_get o "password" with
       | Some p => if truthy p then parse_password (json_String p) else None
       | None => None
       end).
Proof.
  intros o. unfold prepareConnect. page_steps. destruct c as [? ? ? ? ? ? pw ? ? ? ?]. unfold constant, startMessagePump, getOption.
  cbn. fold o. destruct pw as [pw|]; cbn; js_steps; page_steps.
  - eexists. split; [reflexivity|]. done.
  - cbn [_options]. destruct (map_get o "password") as [p|].
    + destruct (truthy p).
      * destruct (parse_password (json_String p)); page_steps; (eexists; split; [reflexivity|done]).
      * page_steps. eexists. split; [reflexivity|done].
    + page_steps. eexists. split; [reflexivity|done].
Qed.

(** C35.  Options survive a restart.  After [setOption], any new session for the same peer starts with
    exactly the options this session has, whatever JSON values they are; options of other peers are not
    touched. *)
Theorem options_survive_restart name v c pg c0 :
  _id c <> "" -> json_ok (JObj (_options c)) -> value_json_ok v ->
  let '(r, (c', pg')) := setOption name v (c, pg) in
  r = Ret tt /\
  (exists c1, prepareConnect (_id c) (c0, pg') = (Ret tt, (c1, pg')) /\ _options c1 = _options c') /\
  (forall other, other <> _id c -> loadPeerOptions (localStorage pg') other = loadPeerOptions (localStorage pg) other).
Proof.
  intros Hid Hok Hv. destruct (setOption_run name v (c, pg)) as (opts & E & Eo). rewrite E. cbn [fst snd].
  assert (Hopts : json_ok (JObj opts)).
  { subst opts. cbn [fst]. destruct v as [[]|]; try (by apply json_ok_set); by apply json_ok_delete. }
  assert (Hopts' : json_ok (JObj (map_set opts "tm" (JNum (now pg))))) by (by apply json_ok_set).
  destruct (save_load (now pg) (_id c) _ (localStorage pg) Hid Hopts') as [Hsame Hother].
  split; [done|]. split.
  - set (pg' := pg <| localStorage ::= _ |>). destruct (prepareConnect_run (_id c) c0 pg') as (c1 & E1 & Eo1 & _).
    exists c1. split; [done|]. rewrite Eo1. subst pg'. destruct pg, c; cbn in *. rewrite Hsame. by rewrite map_set_same.
  - intros other Ho. destruct pg as [st ? ? ? ? ? ?]. cbn in *. by apply Hother.
Qed.

(** A stored password is read back, whether it was stored as a text or as a number. *)
Lemma password_read_back pw j : 1 < len pw -> json_is_string (Some j) (bytes_toString pw) = true ->
  truthy j = true /\ parse_password (json_String j) = Some pw.
Proof.
  intros Hl Hj. assert (Hne : bytes_toString pw <> "").
  { intros En. pose proof (parse_password_toString pw) as Ep. rewrite En in Ep. vm_compute in Ep. injection Ep as <-.
    by rewrite len_nil in Hl. }
  destruct j as [| |n|t| |]; cbn in Hj; try done; apply String.eqb_eq in Hj.
  - exfalso. pose proof (parse_password_toString pw) as Ep. rewrite <- Hj in Ep. unfold parse_password in Ep.
    change ("[" ++ string_of_Z n ++ "]") with (stringify (JArr [JNum n])) in Ep.
    rewrite parse_stringify in Ep; [|apply json_ok_arr; by repeat constructor]. injection Ep as <-.
    by rewrite len_cons, len_nil in Hl.
  - subst t. split; [|by apply parse_password_toString]. unfold truthy, truthy_json, truthy, truthy_string.
    by apply bool_decide_true.
Qed.

(** C36.  A remembered password survives a restart, also when it was changed.  When a session that should
    remember stores its password hash (which has more than one byte), whatever password was stored
    for the peer before, a new session for the same peer that has none yet starts with exactly those
    bytes.  The password this session has loaded, if any, is the stored one. *)
Theorem password_survives_restart pw c pg c0 :
  _id c <> "" -> json_ok (JObj (_options c)) -> _password c = Some pw -> 1 < len pw ->
  (forall j, map_get (_options c) "password" = Some j ->
     map_get (loadPeerOptions (localStorage pg) (_id c)) "password" = Some j) ->
  _password c0 = None ->
  let '(r, (c', pg')) := persistPasswordIfRemembered true (c, pg) in
  r = Ret tt /\ exists c1, prepareConnect (_id c) (c0, pg') = (Ret tt, (c1, pg')) /\ _password c1 = Some pw.
Proof.
  intros Hid Hok Hpw Hne Hold Hc0. unfold persistPasswordIfRemembered. page_steps. rewrite Hpw.
  cbv iota. cbn [negb orb]. destruct (Z.eqb_spec (len pw) 0) as [Hl|_]; [lia|].
  unfold getOption. page_steps. destruct (json_is_string _ _) eqn:Ej; cbn [negb].
  - destruct (map_get (_options c) "password") as [j|] eqn:Eo; [|done].
    destruct (password_read_back pw j Hne Ej) as [Ht Hp]. split; [done|].
    destruct (prepareConnect_run (_id c) c0 pg) as (c1 & E1 & _ & _ & Ep). exists c1. split; [done|].
    by rewrite (Ep Hc0), (Hold j eq_refl), Ht, Hp.
  - destruct (setOption_run "password" (Some (JStr (bytes_toString pw))) (c, pg)) as (opts & E & Eo).
    rewrite E. cbn [fst snd] in *.
    assert (Hopts : json_ok (JObj opts)) by (subst opts; by apply json_ok_set).
    assert (Hopts' : json_ok (JObj (map_set opts "tm" (JNum (now pg))))) by (by apply json_ok_set).
    destruct (save_load (now pg) (_id c) _ (localStorage pg) Hid Hopts') as [Hsame _].
    assert (Hget : map_get (map_set opts "tm" (JNum (now pg))) "password" = Some (JStr (bytes_toString pw)))
      by (rewrite map_get_set_ne by done; subst opts; apply map_get_set_eq).
    split; [done|]. set (pg' := pg <| localStorage ::= _ |>).
    destruct (prepareConnect_run (_id c) c0 pg') as (c1 & E1 & _ & _ & Ep). exists c1. split; [done|].
    assert (Hload : loadPeerOptions (localStorage pg') (_id c) = map_set opts "tm" (JNum (now pg)))
      by (subst pg'; destruct pg; cbn in *; by rewrite Hsame, map_set_same).
    destruct (password_read_back pw (JStr (bytes_toString pw)) Hne) as [Ht Hp]; [apply String.eqb_refl|].
    by rewrite (Ep Hc0), Hload, Hget, Ht, Hp.
Qed.
End Persistence.

(** ** The message pump *)
Section Pump.
Context `{ProtobufRuntime} `{Sodium}.

Lemma sendMessage_sends m ws : readyState ws <> CONNECTING ->
  exists ws', Websock.sendMessage m ws = (Ret tt, ws') /\ readyState ws' = readyState ws.
Proof.
  intros Hc. unfold Websock.sendMessage. js_steps.
  destruct ws as [? ? ? [[[key n] k]|] ? ? rs ? ? ?]; cbn [_secretKey]; js_steps; unfold browser_send;
    cbn in *; destruct rs; try done; by eexists.
Qed.

Lemma pump_loop_spec msgs c pg ws :
  _ws c = Some ws -> readyState ws <> CONNECTING -> _msgs c = msgs ->
  pump_loop msgs (c, pg) = (Ret tt, (c <| _msgs := [] |> <| _ws := Some (send_all msgs ws) |>, pg)).
Proof.
  revert c ws. induction msgs as [|m msgs IH]; intros c ws Hws Hc Hm; cbn [pump_loop].
  - destruct c; cbn in *; by subst.
  - page_steps. destruct (sendMessage_sends m ws Hc) as (ws' & E & Hrs).
    assert (E1 : sendMessage m (c <| _msgs := msgs |>, pg) = (Ret tt, (c <| _msgs := msgs |> <| _ws := Some ws' |>, pg))).
    { unfold sendMessage, on_ws. destruct c; cbn in *; subst. by rewrite E. }
    erewrite bind_eq by done. rewrite (IH _ ws'); [|by destruct c|by rewrite Hrs|by destruct c].
    unfold send_all. cbn [foldl]. unfold exec. rewrite E. by destruct c.
Qed.

(** One firing of the pump hands every queued message to the socket, in order, and empties the
    queue (for a socket past its opening, the only kind [connectRelay] installs). *)
Theorem pump_flushes c pg ws :
  _ws c = Some ws -> readyState ws <> CONNECTING ->
  pump (c, pg) = (Ret tt, (c <| _msgs := [] |> <| _ws := Some (send_all (_msgs c) ws) |>, pg)).
Proof. intros Hws Hc. unfold pump. page_steps. by apply pump_loop_spec. Qed.

(** Before there is a socket the pump runs already, and throws the queued messages away. *)
Lemma pump_drops_without_socket c pg :
  _ws c = None -> pump (c, pg) = (Ret tt, (c <| _msgs := [] |>, pg)).
Proof.
  intros Hws. unfold pump. page_steps. remember (_msgs c) as msgs eqn:Em. revert c Hws Em.
  induction msgs as [|m msgs IH]; intros c Hws Em; cbn [pump_loop]; [by destruct c; cbn in *; subst|].
  page_steps. assert (E1 : sendMessage m (c <| _msgs := msgs |>, pg) = (Ret tt, (c <| _msgs := msgs |>, pg))).
  { unfold sendMessage, on_ws. destruct c; cbn in *; by subst. }
  erewrite bind_eq by done. rewrite IH by (by destruct c). by destruct c.
Qed.
End Pump.

(** ** Logging in, for every kind of session *)
Section LoginFacts.
Context `{ProtobufRuntime} `{Sodium} {W : Type} `{!Session W} `{!SessionLaws W}.

Lemma on_base_ok {A} (m : js (base * page) A) w a bp :
  alive w -> m (project w) = (Ret a, bp) ->
  exists w', on_base m w = (Ret a, w') /\ project w' = bp /\ alive w'.
Proof.
  intros Hl E. destruct (on_base_run A m w Hl) as (E1 & E2 & El). rewrite E in E1, E2.
  destruct (on_base m w) as [r w']. cbn in *. subst. by exists w'.
Qed.

(** What the peer checks: the challenge response for a stored password hash. *)
Definition response (password_hash : bytes) (challenge : string) : bytes :=
  sha256 (password_hash ++ list_byte_of_string challenge).
Definition password_hash (pw salt : string) : bytes :=
  sha256 (list_byte_of_string pw ++ list_byte_of_string salt).

Lemma send_login p w c ws :
  alive w -> _ws (project w).1 = Some ws -> readyState ws <> CONNECTING ->
  _id (project w).1 = c ->
  exists r w', _sendLoginMessage p w = (Ret tt, w') /\ LoginRequest.username r = c /\
    LoginRequest.password r = default [] p /\
    _ws (project w').1 = Some (exec (Websock.sendMessage (login_message r)) ws).
Proof.
  intros Hl Hws Hc Hid. unfold _sendLoginMessage.
  destruct (buildLoginRequest_builds p w Hl) as (r & w1 & E1 & Hp & Hu & Hws1 & Hl1). erewrite bind_eq by done.
  destruct (sendMessage_sends (login_message r) ws Hc) as (ws' & Es & _).
  edestruct (on_base_ok (sendMessage (login_message r)) w1) as (w2 & E2 & Hp2 & _); [done| |].
  { unfold sendMessage, on_ws. rewrite Hws1, Hws, Es. done. }
  rewrite E2. exists r, w2. split; [done|]. split; [congruence|]. split; [done|].
  rewrite Hp2. unfold exec. rewrite Es. by destruct (project w1).1.
Qed.

(** C27.  Logging in with a typed password sends one login request, for the session's peer, answering
    the peer's challenge with the hash of the salted password hash; the password hash is kept. *)
Theorem login_answers_challenge pw h w ws :
  alive w -> pw <> "" -> _hash (project w).1 = Some h ->
  _ws (project w).1 = Some ws -> readyState ws <> CONNECTING ->
  exists r w', login (Some pw) w = (Ret tt, w') /\
    LoginRequest.username r = _id (project w).1 /\
    LoginRequest.password r = response (password_hash pw (Hash.salt h)) (Hash.challenge h) /\
    _ws (project w').1 = Some (exec (Websock.sendMessage (login_message r)) ws).
Proof.
  intros Hl Hpw Hh Hws Hc. unfold login, truthy at 1, truthy_string. rewrite bool_decide_true by done.
  cbv iota. destruct (on_base_ok (self _hash) w _ _ Hl eq_refl) as (w1 & E1 & P1 & Hl1). erewrite bind_eq by done.
  rewrite Hh. cbn [salt_of challenge_of default]. unfold hashPassword. cbn [hash_updates hash_update].
  cbn [mbind outcome_bind mret outcome_ret]. js_steps.
  edestruct (on_base_ok (update (fun c => c <| _password := Some (password_hash pw (Hash.salt h)) |>)) w1)
    as (w2 & E2 & P2 & Hl2); [done|by rewrite update_run|].
  rewrite app_nil_r. erewrite bind_eq by done. js_steps.
  destruct (connecting_goes_on "Connecting..." "Logging in..." w2 Hl2) as (w3 & E3 & P3 & I3 & Hl3).
  erewrite bind_eq by done. cbn [fst] in P2.
  assert (Hw3 : _ws (project w3).1 = Some ws) by (rewrite P3, P2, P1; cbn; by destruct (project w) as [[] ?]).
  destruct (send_login (Some (response (password_hash pw (Hash.salt h)) (Hash.challenge h))) w3 _ ws Hl3 Hw3 Hc eq_refl)
    as (r & w4 & E4 & Hu & Hp & Hws4).
  exists r, w4. split; [by rewrite app_nil_r|]. split; [|done]. rewrite Hu, I3, P2, P1. cbn.
  by destruct (project w) as [[] ?].
Qed.

(** A stored password hash answers a new challenge as the typed password would. *)
Theorem stored_password_answers_challenge ph h w ws :
  alive w -> _password (project w).1 = Some ph -> _hash (project w).1 = Some h ->
  _ws (project w).1 = Some ws -> readyState ws <> CONNECTING ->
  exists r w', login None w = (Ret tt, w') /\
    LoginRequest.username r = _id (project w).1 /\
    LoginRequest.password r = response ph (Hash.challenge h) /\
    _ws (project w').1 = Some (exec (Websock.sendMessage (login_message r)) ws).
Proof.
  intros Hl Hp Hh Hws Hc. unfold login. cbv iota.
  destruct (on_base_ok (self _password) w _ _ Hl eq_refl) as (w1 & E1 & P1 & Hl1). erewrite bind_eq by done.
  destruct (on_base_ok (self _hash) w1 _ _ Hl1 eq_refl) as (w2 & E2 & P2 & Hl2). erewrite bind_eq by done.
  rewrite P1, Hp, Hh. cbn [challenge_of]. unfold hashPassword. cbn [hash_updates hash_update].
  cbn [mbind outcome_bind mret outcome_ret]. js_steps. rewrite app_nil_r.
  rewrite <- P1, <- P2 in Hws.
  destruct (send_login (Some (response ph (Hash.challenge h))) w2 _ ws Hl2 Hws Hc eq_refl)
    as (r & w4 & E4 & Hu & Hp4 & Hws4).
  exists r, w4. split; [done|]. split; [|done]. by rewrite Hu, P2, P1.
Qed.
End LoginFacts.
