(* ===== verification/LocalStore.v ===== *)
(** * Settings kept in the browser: [helpers/options.js], [peers.js], [server_config.js], [version.js]

    Functions of [localStorage] that the bridge answers Flutter with.  Requests come as JSON text;
    what an object inherits from its prototype is not modelled, nor the collation of characters
    outside the Basic Multilingual Plane by [Array.prototype.sort]. *)
From Stdlib Require Import Strings.Ascii Sorting.Sorted.
From S2P Require Import Prelude JsMap JsStr Json Config PushEvent Websock SessionConnect FtBrowserIo Page SessionBase.
Local Open Scope string_scope.

(** ** [helpers/options.js] *)
(** [o[name]] of a parsed value, [None] for [undefined]; [null] throws. *)
Definition prop (j : json) (name : string) : outcome (option json) :=
  match j with
  | JNull => Throw (VError "TypeError" "Cannot read properties of null")
  | JObj o => Ret (map_get o name)
  | _ => Ret None
  end.
(** [String(v)] *)
Definition opt_String (v : option json) : string := match v with Some j => json_String j | None => "undefined" end.
(** [JSON.parse(text)] and [JSON.parse(localStorage.getItem(key)) || {}] *)
Definition parse_or_throw (text : string) : outcome json :=
  match parse text with Some j => Ret j | None => Throw (VError "SyntaxError" "invalid JSON") end.
Definition stored_json (st : storage) (key : string) : outcome json :=
  match st !! key with
  | None => Ret (JObj [])
  | Some text => j ← parse_or_throw text; mret (if truthy j then j else JObj [])
  end.

(** [o[name] = v] and what [JSON.stringify] keeps of it: an [undefined] member is left out. *)
Definition assign (o : jsmap string json) (name : string) (v : option json) : jsmap string json :=
  match v with Some v => map_set o name v | None => map_delete o name end.

(** Strict mode: a property of a number, string or boolean cannot be set. *)
Definition setUserDefaultOption (value : string) (st : storage) : storage :=
  match (obj ← parse_or_throw value;
         opts ← stored_json st "user-default-options";
         name ← prop obj "name";
         v ← prop obj "value";
         match opts with
         | JObj o => mret (JObj (assign o (opt_String name) v))
         | JArr l => mret (JArr l)
         | _ => Throw (VError "TypeError" "Cannot create property")
         end) with
  | Ret opts => <["user-default-options" := stringify opts]> st
  | _ => st
  end.

Definition defaultOptions : jsmap string string :=
  [("view_style", "original"); ("scroll_style", "scrollauto"); ("image_quality", "balanced");
   ("codec-preference", "auto"); ("custom_image_quality", "50"); ("custom-fps", "30")].
Definition getUserDefaultOption (st : storage) (value : string) : json :=
  let configValue := getEffectiveOption st value in
  if truthy configValue then JStr configValue
  else
    let fallback := JStr (default "" (map_get defaultOptions value)) in
    match (opts ← stored_json st "user-default-options"; prop opts value) with
    | Ret (Some j) => if truthy j then j else fallback
    | _ => fallback
    end.

(** A peer id that is missing or empty has no options. *)
Definition options_of (st : storage) (id : option json) : options :=
  match id with Some j => if truthy j then loadPeerOptions st (json_String j) else [] | None => [] end.
(** [None] is [undefined], also after a caught exception. *)
Definition getPeerOption (st : storage) (value : string) : option json :=
  match (obj ← parse_or_throw value;
         id ← prop obj "id";
         name ← prop obj "name";
         mret (match map_get (options_of st id) (opt_String name) with
               | Some JNull | None => getUserDefaultOption st (opt_String name)
               | Some j => j
               end)) with
  | Ret j => Some j
  | _ => None
  end.
Definition setPeerOption (tnow : Z) (param : string) (st : storage) : storage :=
  match (obj ← parse_or_throw param;
         id ← prop obj "id";
         name ← prop obj "name";
         value ← prop obj "value";
         mret (opt_String id, opt_String name, value)) with
  | Ret (id, name, value) => setPeerField tnow id name value st
  | _ => st
  end.

(** ** [helpers/peers.js] *)
Record card := { card_id : string; username : json; hostname : json; platform : json; alias : json }.
(** [v || ""] *)
Definition or_blank (v : option json) : json :=
  match v with Some j => if truthy j then j else JStr "" | None => JStr "" end.
Definition undefined_prop (f : string) : jsval :=
  VError "TypeError" ("Cannot read properties of undefined (reading '" ++ f ++ "')").
(** A member of the record under [info]. *)
Definition info_prop (info : option json) (f : string) : outcome (option json) :=
  match info with Some j => prop j f | None => Throw (undefined_prop f) end.

(** One turn of the loop: nothing for a peer that is skipped. *)
Definition recent_entry (id : string) (value : json) : outcome (option (string * card)) :=
  if id =? "" then mret None
  else
    tm ← prop value "tm";
    info ← prop value "info";
    username ← info_prop info "username";
    hostname ← info_prop info "hostname";
    platform ← info_prop info "platform";
    alias ← prop value "alias";
    let cardInfo := {| card_id := id; username := or_blank username; hostname := or_blank hostname;
                       platform := or_blank platform; alias := or_blank alias |} in
    match tm with
    | Some tm => if truthy tm then
        mret (Some (json_String tm ++ "," ++ id ++ ",[object Object]", cardInfo)) else mret None
    | None => mret None
    end.
Fixpoint recent_entries (peers : jsmap string json) : outcome (list (string * card)) :=
  match peers with
  | [] => mret []
  | (id, value) :: peers =>
      e ← recent_entry id value;
      es ← recent_entries peers;
      mret (match e with Some e => e :: es | None => es end)
  end.
(** The order of [Array.prototype.sort] without a comparator: that of the elements as strings. *)
Definition string_order (a b : string) : Z :=
  match String.compare a b with Lt => (-1)%Z | Eq => 0%Z | Gt => 1%Z end.
Definition getRecentPeers (st : storage) : outcome (list card) :=
  peers ← recent_entries (getPeers st);
  mret (map snd (rev (sort_by string_order fst peers))).

Definition card_json (c : card) : json :=
  JObj [("id", JStr (card_id c)); ("username", username c); ("hostname", hostname c);
        ("platform", platform c); ("alias", alias c)].
Definition peers_event (name : string) (peers : list card) : string :=
  stringify (JObj [("name", JStr name); ("peers", JStr (stringify (JArr (map card_json peers))))]).
(** The text handed to [onRegisteredEvent]. *)
Definition loadRecentPeers (st : storage) : outcome string :=
  peers ← getRecentPeers st; mret (peers_event "load_recent_peers" peers).

(** [favs.includes(id)]: of an array or of a string. *)
Definition favs_includes (favs : json) (id : string) : outcome bool :=
  match favs with
  | JArr l => Ret (existsb (fun j => match j with JStr s => s =? id | _ => false end) l)
  | JStr s => Ret (includes s id)
  | _ => Throw (VError "TypeError" "favs.includes is not a function")
  end.
Fixpoint filter_favs (favs : json) (peers : list card) : outcome (list card) :=
  match peers with
  | [] => Ret []
  | c :: peers =>
      keep ← favs_includes favs (card_id c);
      cs ← filter_favs favs peers;
      mret (if (keep : bool) then c :: cs else cs)
  end.
Definition loadFavPeers (st : storage) : option string :=
  match (favs ← parse_or_throw (default "[]" (st !! "fav"));
         peers ← getRecentPeers st;
         peersFav ← filter_favs favs peers;
         mret (peers_event "load_fav_peers" peersFav)) with
  | Ret text => Some text
  | _ => None
  end.

(** ** [helpers/server_config.js] *)
Definition PORT : Z := 21116.
Definition is_hex_group (s : string) : bool :=
  (String.length s <=? 4)%nat && str_forall (fun c => match digit_of c with Some _ => true | None => false end) s.
(** [/^([0-9a-fA-F]{0,4}:){1,7}[0-9a-fA-F]{0,4}$/]: two to eight groups between colons. *)
Definition isIPv6 (s : string) : bool :=
  let groups := split_on ":" s in
  (2 <=? length groups)%nat && (length groups <=? 8)%nat && forallb is_hex_group groups.

(** [s.split("]:")] has two pieces exactly when the separator occurs once. *)
Definition split_bracket (s : string) : option (string * string) :=
  match String.index 0 "]:" s with
  | Some i => let rest := slice_from (i + 2) s in
              if includes rest "]:" then None else Some (slice_to i s, rest)
  | None => None
  end.
Definition increasePort (host : string) (offset : Z) : string :=
  if isIPv6 host then
    if startsWith host "[" then
      match split_bracket host with
      | Some (h, p) => let port := parseInt_or_0 p in
          if (0 <? port)%Z then h ++ "]:" ++ string_of_Z (port + offset) else host
      | None => host
      end
    else host
  else if includes host ":" then
    match split_on ":" host with
    | [h; p] => let port := parseInt_or_0 p in
        if (0 <? port)%Z then h ++ ":" ++ string_of_Z (port + offset) else host
    | _ => host
    end
  else host.

Definition getApiServer (st : storage) : string :=
  let api_server := getEffectiveOption st "api-server" in
  if truthy api_server then api_server
  else
    let custom := getEffectiveOption st "custom-rendezvous-server" in
    if truthy custom then
      let s := increasePort custom (-2) in
      if s =? custom then "http://" ++ s ++ ":" ++ string_of_Z (PORT - 2) else "http://" ++ s
    else "https://admin.rustdesk.com".
Definition getAuditServer (st : storage) (typ : string) : string :=
  if negb (truthy (getEffectiveOption st "access_token")) then ""
  else
    let api_server := getApiServer st in
    if negb (truthy api_server) || includes api_server "rustdesk.com" then ""
    else api_server ++ "/api/audit/" ++ typ.

(** [getAlternativeCodecs]: [codecs] are the MIME types the browser reports, if it does. *)
Definition getAlternativeCodecs (codecs : option (list string)) : string :=
  let has c := existsb (fun mt => includes (toLowerCase mt) c) (default [] codecs) in
  stringify (JObj [("vp8", JBool true); ("vp9", JBool true); ("av1", JBool (has "av1"));
                   ("h264", JBool (has "h264")); ("h265", JBool (has "h265"))]).

(** ** [helpers/version.js] *)
Fixpoint version_parts (n last : Z) (parts : list string) : Z * Z :=
  match parts with
  | [] => (n, last)
  | x :: parts => let last := parseInt_or_0 x in version_parts (n * 1000 + last) last parts
  end.
Definition getVersionNumber (v : string) : Z :=
  let versions := split_on "-" v in
  let n := match versions with
           | release :: _ => let '(n, last) := version_parts 0 0 (split_on "." release) in n - last + last * 10
           | [] => 0
           end%Z in
  match versions with
  | _ :: pre :: _ => (n + parseInt_or_0 pre)%Z
  | _ => n
  end.

(** ** Decimal numerals and [parseInt] *)
Definition is_digit (c : ascii) : bool := match digit_val c with Some _ => true | None => false end.
Lemma digits_pretty (x : N) : str_forall is_digit (pretty x) = true.
Proof.
  unfold pretty, pretty_N. case_decide as Hx; [done|].
  enough (H : forall s, str_forall is_digit s = true -> str_forall is_digit (pretty_N_go x s) = true) by (by apply H).
  clear Hx. induction x as [x IH] using (well_founded_induction N.lt_wf_0). intros s Hs.
  destruct (decide (x = 0%N)) as [->|Hx]; [by rewrite pretty_N_go_0|].
  rewrite pretty_N_go_step by lia. apply IH; [apply N.div_lt; lia|]. cbn [str_forall].
  unfold is_digit at 1. rewrite digit_val_char by (apply N.mod_lt; lia). done.
Qed.
Lemma digit_of_val c d : digit_val c = Some d -> digit_of c = Some d /\ (0 <= d < 10)%Z.
Proof.
  unfold digit_val, digit_of. destruct (_ && _)%nat eqn:E; [|done]. intros [= <-].
  apply andb_true_iff in E as [?%Nat.leb_le ?%Nat.leb_le].
  destruct (Z.leb_spec 48 (Z.of_nat (nat_of_ascii c))); [|lia].
  destruct (Z.leb_spec (Z.of_nat (nat_of_ascii c)) 57); [|lia]. split; [done|lia].
Qed.
Lemma digits_value_parse acc s :
  str_forall is_digit s = true -> digits_value 10 acc s = (parse_digits acc s).1.
Proof.
  revert acc. induction s as [|c s IH]; intros acc; [done|]. cbn [str_forall digits_value parse_digits].
  intros [Hc Hs]%andb_true_iff. unfold is_digit in Hc. destruct (digit_val c) as [d|] eqn:E; [|done].
  destruct (digit_of_val _ _ E) as [-> Hd]. destruct (Z.ltb_spec d 10); [|lia]. by apply IH.
Qed.

Lemma parseInt_numeral n : (0 <= n)%Z -> parseInt (string_of_Z n) = Some n.
Proof.
  intros Hn. assert (E : string_of_Z n = pretty (Z.to_N n)) by (by destruct n; [| |lia]).
  rewrite E. destruct (pretty_N_head (Z.to_N n)) as (c & r & Ec & d & Hd).
  pose proof (digits_pretty (Z.to_N n)) as Hall. pose proof (parse_digits_pretty_N (Z.to_N n) "") as Hp.
  rewrite string_app_nil_r in Hp. rewrite Ec in *. destruct (digit_of_val _ _ Hd) as [Ho Hb].
  assert (Hhead : is_space c = false /\ Ascii.eqb c "-" = false /\ Ascii.eqb c "+" = false).
  { revert Hd. clear. destruct c as [[] [] [] [] [] [] [] []]; by vm_compute. }
  destruct Hhead as (Hsp & Hm & Hpl). unfold parseInt. cbn [trimStart]. rewrite Hsp, Hm, Hpl.
  assert (Hnox : forall x, (x = "0x" \/ x = "0X") -> startsWith (String c r) x = false).
  { intros x Hx. destruct (startsWith (String c r) x) eqn:Es; [|done]. apply startsWith_spec in Es as [t Et].
    rewrite Et in Hall. by destruct Hx as [-> | ->]. }
  unfold parse_radix. rewrite !Hnox by auto. cbn [orb]. unfold unsigned_int. rewrite Ho.
  destruct (Z.ltb_spec d 10); [|lia]. rewrite digits_value_parse by done. rewrite Hp.
  rewrite parse_digits_stop by done. cbn [fst]. f_equal. lia.
Qed.

(** ** Version numbers *)
Definition numeral (n : Z) : string := string_of_Z n.
(** The text of release [a.b.c], and of its pre-release [a.b.c-p]. *)
Definition version_text (a b c : Z) (p : option Z) : string :=
  numeral a ++ "." ++ numeral b ++ "." ++ numeral c ++
  match p with Some p => "-" ++ numeral p | None => "" end.

Lemma numeral_no c n : (0 <= n)%Z -> is_digit c = false ->
  str_forall (fun d => negb (Ascii.eqb c d)) (numeral n) = true.
Proof.
  intros Hn Hc. unfold numeral. assert (E : string_of_Z n = pretty (Z.to_N n)) by (by destruct n; [| |lia]).
  rewrite E. eapply str_forall_impl; [|apply digits_pretty]. intros d Hd.
  destruct (Ascii.eqb_spec c d) as [->|]; [by rewrite Hc in Hd|done].
Qed.

Lemma getVersionNumber_text a b c p :
  (0 <= a)%Z -> (0 <= b)%Z -> (0 <= c)%Z -> (forall q, p = Some q -> 0 <= q)%Z ->
  getVersionNumber (version_text a b c p) = (a * 1000000 + b * 1000 + c * 10 + default 0 p)%Z.
Proof.
  intros Ha Hb Hc Hp.
  assert (Hd : forall n, (0 <= n)%Z -> str_forall (fun d => negb (Ascii.eqb "." d)) (numeral n) = true)
    by (intros; by apply numeral_no).
  assert (Hm : forall n, (0 <= n)%Z -> str_forall (fun d => negb (Ascii.eqb "-" d)) (numeral n) = true)
    by (intros; by apply numeral_no).
  set (release := numeral a ++ String "." (numeral b ++ String "." (numeral c))).
  assert (Hrel : str_forall (fun d => negb (Ascii.eqb "-" d)) release = true).
  { unfold release. rewrite str_forall_app. cbn [str_forall]. rewrite str_forall_app. cbn [str_forall].
    by rewrite !Hm. }
  assert (Hparts : split_on "." release = [numeral a; numeral b; numeral c]).
  { unfold release. by rewrite !split_on_cut, split_on_whole by auto. }
  assert (Hnum : forall n, (0 <= n)%Z -> parseInt_or_0 (numeral n) = n).
  { intros n Hn. unfold parseInt_or_0, numeral. by rewrite parseInt_numeral. }
  assert (Hn : (let '(n, last) := version_parts 0 0 (split_on "." release) in n - last + last * 10)%Z =
    (a * 1000000 + b * 1000 + c * 10)%Z).
  { rewrite Hparts. cbn [version_parts]. rewrite !Hnum by done. lia. }
  unfold getVersionNumber, version_text.
  change (numeral a ++ "." ++ numeral b ++ "." ++ numeral c ++ ?t) with
    (numeral a ++ String "." (numeral b ++ String "." (numeral c ++ t))).
  destruct p as [q|]; cbn [default].
  - replace (numeral a ++ _) with (release ++ String "-" (numeral q))
      by (unfold release; by rewrite <- string_app_assoc, str_app_cons, <- string_app_assoc, str_app_cons).
    rewrite split_on_cut, split_on_whole by auto. rewrite Hn, Hnum by auto. cbn. lia.
  - replace (numeral a ++ _) with release by (unfold release; by rewrite string_app_nil_r).
    rewrite split_on_whole by done. rewrite Hn. lia.
Qed.

(** Lexicographic order of releases; a pre-release counts as above its release. *)
Definition version_compare (v w : Z * Z * Z * option Z) : comparison :=
  let '(a, b, c, p) := v in let '(a', b', c', p') := w in
  match Z.compare a a' with
  | Eq => match Z.compare b b' with
          | Eq => match Z.compare c c' with
                  | Eq => Z.compare (default 0%Z p) (default 0%Z p')
                  | r => r end
          | r => r end
  | r => r
  end.
Definition small_version (v : Z * Z * Z * option Z) : Prop :=
  let '(a, b, c, p) := v in
  (0 <= a /\ 0 <= b < 1000 /\ 0 <= c < 100 /\ 0 <= default 0 p < 10)%Z.
Definition written (v : Z * Z * Z * option Z) : string := let '(a, b, c, p) := v in version_text a b c p.

(** The number of a version orders versions.  For versions [a.b.c] and [a.b.c-p] with [b] below
    1000, [c] below 100 and [p] below 10, comparing version numbers is comparing the components
    from the left. *)
Theorem version_order v w : small_version v -> small_version w ->
  Z.compare (getVersionNumber (written v)) (getVersionNumber (written w)) = version_compare v w.
Proof.
  destruct v as [[[a b] c] p], w as [[[a' b'] c'] p']. cbn [small_version written version_compare].
  intros (? & ? & ? & Hp) (? & ? & ? & Hp').
  rewrite !getVersionNumber_text by (try lia; intros q E; subst; cbn in *; lia).
  destruct (Z.compare_spec a a') as [->|?|?]; [|apply Z.compare_lt_iff; lia|apply Z.compare_gt_iff; lia].
  destruct (Z.compare_spec b b') as [->|?|?]; [|apply Z.compare_lt_iff; lia|apply Z.compare_gt_iff; lia].
  destruct (Z.compare_spec c c') as [->|?|?]; [|apply Z.compare_lt_iff; lia|apply Z.compare_gt_iff; lia].
  destruct (Z.compare_spec (default 0%Z p) (default 0%Z p')) as [->|?|?];
    [apply Z.compare_eq_iff; lia|apply Z.compare_lt_iff; lia|apply Z.compare_gt_iff; lia].
Qed.

(** The bounds are needed: a patch number of 100 reaches the next minor version. *)
Example patch_overflows : getVersionNumber "1.2.100" = getVersionNumber "1.3.0".
Proof. reflexivity. Qed.

(** ** Hosts *)
(** A bracketed host is never taken for an IPv6 address, so its port is never moved. *)
Lemma isIPv6_no_bracket s : isIPv6 s = true -> startsWith s "[" = false.
Proof.
  intros H. destruct (startsWith s "[") eqn:E; [|done]. apply startsWith_spec in E as [t ->].
  unfold isIPv6 in H. apply andb_true_iff in H as [_ H]. unfold split_on in H.
  change ("[" ++ t) with (String "[" t) in H. cbn [split_if] in H.
  change (Ascii.eqb ":" "[") with false in H. cbv iota in H.
  destruct (split_if _ t) as [|w ws]; cbn [forallb] in H; apply andb_true_iff in H as [H _];
    unfold is_hex_group in H; apply andb_true_iff in H as [_ H]; done.
Qed.
(** The API server of a host and port is two ports below; that of a bracketed address is not a URL. *)
Example api_server_of_host :
  getApiServer {["custom-rendezvous-server" := "hbbs.example.com:21116"]} = "http://hbbs.example.com:21114".
Proof. reflexivity. Qed.
Example api_server_of_bracketed :
  getApiServer {["custom-rendezvous-server" := "[::1]:21116"]} = "http://[::1]:21116:21114".
Proof. reflexivity. Qed.
(** A short host name of hexadecimal letters is taken for an address and keeps its port. *)
Example api_server_of_hex_host :
  getApiServer {["custom-rendezvous-server" := "cafe:8080"]} = "http://cafe:8080:21114".
Proof. reflexivity. Qed.

(** ** Recent peers *)
(** One stored peer without [info] makes the whole list throw. *)
Lemma recent_needs_info peers id o :
  (id, JObj o) ∈ peers -> id <> "" -> map_get o "info" = None -> ~ returns (recent_entries peers).
Proof.
  intros Hin Hid Hinfo. assert (Hone : ~ returns (recent_entry id (JObj o))).
  { unfold recent_entry. destruct (String.eqb_spec id ""); [done|]. cbn [prop mbind outcome_bind].
    rewrite Hinfo. cbn. by intros []. }
  induction peers as [|[id' v] peers IH]; [by apply not_elem_of_nil in Hin|].
  cbn [recent_entries]. apply elem_of_cons in Hin as [[= <- <-]|Hin].
  - destruct (recent_entry id (JObj o)) eqn:E; [destruct Hone; by eexists|by intros []|by intros []].
  - destruct (recent_entry id' v); cbn; [|by intros []|by intros []].
    destruct (recent_entries peers); cbn; [destruct (IH Hin); by eexists|by intros []|by intros []].
Qed.

(** A peer's record is complete: it has a name, a time and an [info] object. *)
Definition complete (kv : string * json) : Prop :=
  kv.1 <> "" /\ exists o i tm, kv.2 = JObj o /\ map_get o "info" = Some (JObj i) /\ map_get o "tm" = Some tm /\
    truthy tm = true.
Lemma recent_entries_complete peers : Forall complete peers ->
  exists es, recent_entries peers = Ret es /\ map (fun e => card_id e.2) es = map_keys peers.
Proof.
  induction 1 as [|[id v] peers (Hid & o & i & tm & Hv & Hi & Ht & Htm) _ (es & IH & Hes)]; [by exists []|].
  cbn in Hid, Hv. subst v. cbn [recent_entries]. unfold recent_entry.
  destruct (String.eqb_spec id ""); [done|]. cbn [prop mbind outcome_bind info_prop]. rewrite Hi, Ht.
  cbn [mbind outcome_bind info_prop prop]. rewrite Htm. cbn [mbind outcome_bind mret outcome_ret].
  rewrite IH. cbn. eexists. split; [done|]. cbn. by rewrite Hes.
Qed.
