(* ===== verification/RecentPeers.v ===== *)
(** * The recent peers, newest first: [helpers/peers.js]

    [getRecentPeers] sorts its entries as texts, [time,id,[object Object]].  For times with equally
    many digits (every time from 2001 to 2286) that is their order in time, so the list goes from
    the peer used last to the one used first. *)
From Stdlib Require Import Strings.Ascii.
From stdpp Require Import pretty sorting.
From S2P Require Import Prelude JsMap JsStr Json Config PushEvent FtBrowserIo SessionBase LocalStore.
Local Open Scope string_scope.

(** ** Numerals of one length compare like numbers *)
Lemma parse_digits_range acc s : str_forall is_digit s = true ->
  (acc * 10 ^ Z.of_nat (String.length s) <= (parse_digits acc s).1 < (acc + 1) * 10 ^ Z.of_nat (String.length s))%Z.
Proof.
  revert acc. induction s as [|c s IH]; intros acc; [cbn; lia|]. cbn [str_forall parse_digits String.length].
  intros [Hc Hs]%andb_true_iff. unfold is_digit in Hc. destruct (digit_val c) as [d|] eqn:E; [|done].
  destruct (digit_of_val _ _ E) as [_ Hd]. specialize (IH (acc * 10 + d)%Z Hs).
  rewrite Nat2Z.inj_succ, Z.pow_succ_r by lia.
  assert (0 < 10 ^ Z.of_nat (String.length s))%Z by (apply Z.pow_pos_nonneg; lia). nia.
Qed.
Lemma digit_code c n : digit_val c = Some n -> nat_of_ascii c = Z.to_nat (n + 48).
Proof. unfold digit_val. destruct (_ && _); [|done]. intros [= <-]. lia. Qed.
Lemma digit_compare c d n m : digit_val c = Some n -> digit_val d = Some m -> (n < m)%Z -> Ascii.compare c d = Lt.
Proof.
  unfold digit_val, Ascii.compare. destruct (_ && _); [|done]. destruct (_ && _); [|done]. intros [= <-] [= <-] Hlt.
  apply N.compare_lt_iff. unfold nat_of_ascii in Hlt. lia.
Qed.
Lemma digits_compare acc s t x y : str_forall is_digit s = true -> str_forall is_digit t = true ->
  String.length s = String.length t -> ((parse_digits acc s).1 < (parse_digits acc t).1)%Z ->
  String.compare (s ++ x) (t ++ y) = Lt.
Proof.
  revert acc t. induction s as [|c s IH]; intros acc [|d t]; try done; [cbn; lia|].
  cbn [str_forall String.length]. intros [Hc Hs]%andb_true_iff [Hd Ht]%andb_true_iff [= Hl].
  change (String c s ++ x) with (String c (s ++ x)). change (String d t ++ y) with (String d (t ++ y)).
  cbn [parse_digits String.compare]. unfold is_digit in Hc, Hd.
  destruct (digit_val c) as [n|] eqn:En; [|done]. destruct (digit_val d) as [m|] eqn:Em; [|done]. intros Hlt.
  destruct (Z.lt_trichotomy n m) as [Hnm|[->|Hnm]].
  - by rewrite (digit_compare c d n m).
  - assert (c = d) as ->.
    { rewrite <- (ascii_nat_embedding c), <- (ascii_nat_embedding d).
      by rewrite (digit_code _ _ En), (digit_code _ _ Em). }
    unfold Ascii.compare. rewrite N.compare_refl. by eapply IH.
  - exfalso. pose proof (parse_digits_range (acc * 10 + n) s Hs) as H1. pose proof (parse_digits_range (acc * 10 + m) t Ht) as H2.
    rewrite Hl in H1. assert (0 < 10 ^ Z.of_nat (String.length t))%Z by (apply Z.pow_pos_nonneg; lia). nia.
Qed.
Lemma numerals_compare n m x y : (0 <= n < m)%Z -> String.length (string_of_Z n) = String.length (string_of_Z m) ->
  String.compare (string_of_Z n ++ x) (string_of_Z m ++ y) = Lt.
Proof.
  intros Hnm. assert (E : forall k, (0 <= k)%Z -> string_of_Z k = pretty (Z.to_N k)) by (by intros [| |]; [| |lia]).
  rewrite !E by lia. intros Hl. apply (digits_compare 0); [apply digits_pretty..|done|].
  assert (Hp : forall k : N, (parse_digits 0 (pretty k)).1 = Z.of_N k).
  { intros k. pose proof (parse_digits_pretty_N k "") as Hk. rewrite string_app_nil_r in Hk. rewrite Hk.
    by rewrite parse_digits_stop. }
  rewrite !Hp. lia.
Qed.

(** ** The list *)
Section Sorting.
Context {A : Type}.
Lemma StronglySorted_rev (R : relation A) l : StronglySorted R l -> StronglySorted (flip R) (rev l).
Proof.
  induction 1 as [|x l _ IH Hx]; [constructor|]. cbn [rev]. apply StronglySorted_app_2; [|done|repeat constructor].
  intros a b Ha ->%list_elem_of_singleton. unfold flip. rewrite Forall_forall in Hx. apply Hx.
  apply list_elem_of_In, in_rev. by apply list_elem_of_In.
Qed.
Lemma Sorted_weaken (R R' : relation A) l :
  (forall a b, a ∈ l -> b ∈ l -> R a b -> R' a b) -> Sorted R l -> Sorted R' l.
Proof.
  induction l as [|a l IH]; intros HR Hs; [constructor|]. apply Sorted_inv in Hs as [Hs Hh]. constructor.
  - apply IH; [|done]. intros x y Hx Hy. apply HR; by right.
  - destruct l as [|b l]; constructor. apply HdRel_inv in Hh. apply HR; [by left|by right; left|done].
Qed.
End Sorting.

(** A stored peer with its [info] and a time of [k] digits. *)
Definition timed (k : nat) (kv : string * json) : Prop :=
  kv.1 <> "" /\ exists o i t, kv.2 = JObj o /\ map_get o "info" = Some (JObj i) /\ map_get o "tm" = Some (JNum t) /\
    (0 < t)%Z /\ String.length (string_of_Z t) = k.
(** When a peer was last used, as stored. *)
Definition last_used (st : storage) (id : string) : Z :=
  match map_get (getPeers st) id with
  | Some (JObj o) => match map_get o "tm" with Some (JNum t) => t | _ => 0%Z end
  | _ => 0%Z
  end.

(** What a card shows of a stored value: the value, or nothing when there is none to show. *)
Definition shows (stored : option json) (v : json) : Prop :=
  match stored with
  | None | Some JNull | Some (JBool false) | Some (JNum 0%Z) => v = JStr ""
  | Some j => v = j
  end.
(** The card of a peer with the options [o] and the details [i]. *)
Record card_of (o i : jsmap string json) (c : card) : Prop := {
  shows_username : shows (map_get i "username") (username c);
  shows_hostname : shows (map_get i "hostname") (hostname c);
  shows_platform : shows (map_get i "platform") (platform c);
  shows_alias : shows (map_get o "alias") (alias c);
}.
Definition stored_card (st : storage) (c : card) : Prop := exists o i,
  map_get (getPeers st) (card_id c) = Some (JObj o) /\ map_get o "info" = Some (JObj i) /\ card_of o i c.
Lemma or_blank_shows v : shows v (or_blank v).
Proof.
  destruct v as [[|[]|n|t| |]|]; try done.
  - unfold or_blank, truthy, truthy_json, truthy, truthy_Z. by destruct n.
  - unfold or_blank, truthy, truthy_json, truthy, truthy_string. by destruct t.
Qed.

Lemma timed_complete k kv : timed k kv -> complete kv.
Proof.
  intros (Hid & o & i & t & Hv & Hi & Ht & Hpos & _). split; [done|]. exists o, i, (JNum t). split_and!; try done.
  unfold truthy, truthy_json, truthy, truthy_Z. by apply negb_true_iff, Z.eqb_neq; lia.
Qed.
(** The text an entry is sorted by starts with its time. *)
Lemma recent_entries_timed k peers : Forall (timed k) peers -> exists es, recent_entries peers = Ret es /\
  Forall2 (fun kv e => card_id e.2 = kv.1 /\ exists o t rest, kv.2 = JObj o /\ map_get o "tm" = Some (JNum t) /\
    (0 < t)%Z /\ String.length (string_of_Z t) = k /\ e.1 = string_of_Z t ++ rest /\
    exists i, map_get o "info" = Some (JObj i) /\ card_of o i e.2) peers es.
Proof.
  induction 1 as [|[id v] peers (Hid & o & i & t & Hv & Hi & Ht & Hpos & Hk) _ (es & IH & Hes)]; [by exists []|].
  cbn in Hid, Hv. subst v. cbn [recent_entries]. unfold recent_entry.
  destruct (String.eqb_spec id ""); [done|]. cbn [prop mbind outcome_bind info_prop]. rewrite Hi, Ht.
  cbn [mbind outcome_bind info_prop prop]. assert (truthy (JNum t) = true) as ->
    by (unfold truthy, truthy_json, truthy, truthy_Z; apply negb_true_iff, Z.eqb_neq; lia).
  cbn [mbind outcome_bind mret outcome_ret]. rewrite IH. cbn. eexists. split; [done|].
  constructor; [|done]. split; [done|]. exists o, t, (String "," (id ++ ",[object Object]")).
  do 5 (split; [done|]). exists i. split; [done|]. split; apply or_blank_shows.
Qed.

Section Recent.
Context (st : storage) (k : nat) (all_timed : Forall (timed k) (getPeers st)).

Lemma recent_keys : map_ok (getPeers st).
Proof. pose proof (getPeers_ok st) as Hok. by apply json_ok_obj in Hok as [? _]. Qed.
(** The entries, with the time each is of. *)
Definition of_time (e : string * card) : Prop := stored_card st e.2 /\ exists rest,
  e.1 = string_of_Z (last_used st (card_id e.2)) ++ rest /\ (0 < last_used st (card_id e.2))%Z /\
  String.length (string_of_Z (last_used st (card_id e.2))) = k.
Lemma recent_entries_of_time es : recent_entries (getPeers st) = Ret es -> Forall of_time es.
Proof.
  intros E. destruct (recent_entries_timed k _ all_timed) as (es' & E' & H2). assert (es' = es) as -> by congruence.
  clear E E'. pose proof recent_keys as Hkeys. rewrite Forall_forall. intros e He.
  apply list_elem_of_lookup in He as [i He]. destruct (Forall2_lookup_r _ _ _ _ _ H2 He) as ([id v] & Hv & Hid & o & t & rest & Ho & Ht & Hpos & Hk & Hr & i' & Hi & Hcard).
  cbn in *. assert (Hget : map_get (getPeers st) (card_id e.2) = Some v).
  { rewrite Hid. apply (map_get_elem (getPeers st) id v); [done|]. by eapply list_elem_of_lookup_2. }
  assert (Hl : last_used st (card_id e.2) = t) by (unfold last_used; by rewrite Hget, Ho, Ht).
  split; [exists o, i'; by rewrite Hget, Ho|]. exists rest. by rewrite Hl.
Qed.

Lemma recent_sorted : exists cs, getRecentPeers st = Ret cs /\
  map card_id cs ≡ₚ map_keys (getPeers st) /\ Forall (stored_card st) cs /\
  StronglySorted (fun a b => last_used st (card_id b) <= last_used st (card_id a))%Z cs.
Proof.
  destruct (recent_entries_complete (getPeers st)) as (es0 & E & Hids).
  { eapply Forall_impl; [exact all_timed|]. apply timed_complete. }
  unfold getRecentPeers. rewrite E. cbn [mbind outcome_bind mret outcome_ret].
  pose proof (sort_by_perm string_order fst es0) as Hperm. set (es := sort_by string_order fst es0) in *.
  eexists. split; [done|]. split; [by rewrite <- Hids, map_map, map_rev, <- Permutation_rev, Hperm|].
  assert (Ht : Forall of_time es) by (rewrite Hperm; by apply recent_entries_of_time).
  split.
  { apply Forall_forall. intros c Hc. apply list_elem_of_fmap in Hc as (e & -> & He).
    rewrite Forall_forall in Ht. apply Ht.
    apply list_elem_of_In, in_rev. by apply list_elem_of_In. }
  assert (Hs : Sorted (fun a b => string_order a.1 b.1 <= 0)%Z es).
  { apply sort_by_sorted. intros a b. unfold string_order. rewrite (String.compare_antisym b a).
    destruct (String.compare a b); cbn; lia. }
  assert (Hs' : Sorted (fun a b : string * card => last_used st (card_id a.2) <= last_used st (card_id b.2))%Z es).
  { apply (Sorted_weaken (fun a b => (string_order a.1 b.1 <= 0)%Z)); [|done]. rewrite Forall_forall in Ht.
    intros a b Ha Hb Hab. destruct (Ht a Ha) as (_ & ra & Ea & Pa & Ka). destruct (Ht b Hb) as (_ & rb & Eb & Pb & Kb).
    destruct (Z.le_gt_cases (last_used st (card_id a.2)) (last_used st (card_id b.2))) as [|Hgt]; [done|]. exfalso.
    unfold string_order in Hab. rewrite Ea, Eb, String.compare_antisym, numerals_compare in Hab; [done|lia|congruence]. }
  apply Sorted_StronglySorted in Hs'; [|intros a b c; lia]. apply StronglySorted_rev in Hs'. unfold flip in Hs'.
  exact (StronglySorted_fmap snd _ _ _ (fun _ _ H => H) Hs').
Qed.
End Recent.

(** Saving keeps what is stored of the others. *)
Lemma last_used_saved tnow id opts st id' : json_ok (JObj opts) ->
  last_used (savePeerOptions tnow id opts st) id' = if decide (id' = id) then tnow else last_used st id'.
Proof.
  intros Hok. unfold last_used. rewrite getPeers_saved by done. case_decide as Hid.
  - subst. by rewrite map_get_set_eq, map_get_set_eq.
  - by rewrite map_get_set_ne by congruence.
Qed.

(** C39.  The list of recent peers is complete and runs from the peer used last to the one used first:
    when every stored peer has its details and a time, and the times have equally many digits
    (as milliseconds since 1970 have until 2286), each peer is listed exactly once, with a card that
    shows its user, host, platform and alias, and no peer is listed before one that was used later,
    although the code compares texts.  In particular a peer whose options were just saved comes
    first.  (Without the details of one peer there is no list at all: [recent_needs_info].) *)
Theorem recent_newest_first st k : Forall (timed k) (getPeers st) ->
  (exists cs, getRecentPeers st = Ret cs /\ map card_id cs ≡ₚ map_keys (getPeers st) /\ Forall (stored_card st) cs /\
     StronglySorted (fun a b => last_used st (card_id b) <= last_used st (card_id a))%Z cs) /\
  (forall tnow id opts i, json_ok (JObj opts) -> id <> "" -> map_get opts "info" = Some (JObj i) ->
     (0 < tnow)%Z -> String.length (string_of_Z tnow) = k ->
     (forall id', id' ∈ map_keys (getPeers st) -> id' <> id -> (last_used st id' < tnow)%Z) ->
     exists c cs, getRecentPeers (savePeerOptions tnow id opts st) = Ret (c :: cs) /\ card_id c = id).
Proof.
  intros Ht. split; [by apply (recent_sorted st k)|]. intros tnow id opts i Hok Hid Hi Hpos Hk Hlast.
  assert (Ht' : Forall (timed k) (getPeers (savePeerOptions tnow id opts st))).
  { rewrite getPeers_saved by done. apply map_set_Forall; [done|]. split; [done|]. eexists _, i, tnow.
    split; [done|]. split_and!; [by rewrite map_get_set_ne|by rewrite map_get_set_eq|done..]. }
  destruct (recent_sorted _ k Ht') as (cs & E & Hperm & _ & Hs).
  assert (Hin : id ∈ map card_id cs).
  { rewrite Hperm, getPeers_saved by done. apply map_get_is_elem. rewrite map_get_set_eq. by eexists. }
  destruct cs as [|c cs]; [by apply elem_of_nil in Hin|]. exists c, cs. split; [done|].
  destruct (decide (card_id c = id)) as [|Hne]; [done|]. exfalso.
  assert (Hc : card_id c ∈ map_keys (getPeers st)).
  { assert (Hc : card_id c ∈ map card_id (c :: cs)) by by left.
    rewrite Hperm, getPeers_saved in Hc by done. apply map_get_is_elem in Hc. rewrite map_get_set_ne in Hc by done.
    by apply map_get_is_elem. }
  apply StronglySorted_cons in Hs as [Hall _]. cbn [map] in Hin. apply elem_of_cons in Hin as [->|Hin]; [done|].
  apply list_elem_of_fmap in Hin as (c' & -> & Hc'). rewrite Forall_forall in Hall. specialize (Hall c' Hc').
  rewrite !last_used_saved in Hall by done. rewrite decide_True, decide_False in Hall by done.
  specialize (Hlast _ Hc Hne). lia.
Qed.

(** Two peers, stored in the order they were added. *)
Definition peer_at (t : Z) : json := JObj [("info", JObj [("hostname", JStr "pc")]); ("tm", JNum t)].
Definition two_peers : jsmap string json := [("1", peer_at 1700000000001); ("2", peer_at 1700000000002)].
Lemma recent_newest_first_witness :
  Forall (timed 13) (getPeers (writePeers two_peers ∅)) /\
  exists cs, getRecentPeers (writePeers two_peers ∅) = Ret cs /\ StronglySorted (fun a b =>
    last_used (writePeers two_peers ∅) (card_id b) <= last_used (writePeers two_peers ∅) (card_id a))%Z cs.
Proof.
  assert (Ht : Forall (timed 13) (getPeers (writePeers two_peers ∅))).
  { rewrite getPeers_write by (cbn; split_and!; done || by apply (bool_decide_unpack _)). repeat constructor; cbn; try done;
      eexists _, _, _; split_and!; try reflexivity; lia. }
  split; [exact Ht|]. destruct (recent_newest_first _ 13 Ht) as [(cs & E & _ & _ & Hs) _]. exists cs. split; [exact E|exact Hs].
Defined.
