(* ===== verification/FtConnection.v ===== *)
(** * The file-transfer session: [connections/ft_connection.ts]

    [FtConnection]'s own state around [base] and the job manager, and every handler that stays
    within the session and the page; the ones that can end the session (they reach the registry)
    are in [FtSession].  An [async] method runs on a state that holds the session ([Host]), paired
    with the interference at its coming [await]s: alone with the page when only the session is
    studied, in the whole registry when it runs under the message loop.  A floating promise
    ([void f()]) is run in place, its exception dropped. *)
From S2P Require Import Prelude JsMap JsStr Json Bytes ProtoWire ProtoFile ProtoSession ProtoMessage Crypto.
From S2P Require Import PushEvent Websock SessionConnect FtProtocol FtBrowserIo FtZip Page FtJobs SessionBase.
From Stdlib Require Import Floats.SpecFloat.
Local Open Scope string_scope.

Record download_item := {
  d_id : Z; d_path : string; d_to : string; d_fileNum : Z; d_includeHidden : bool; d_isDir : bool }.

Record ft := {
  super : base;
  _peerPlatform : string;
  _peerHostname : string;
  _jobs : FileJobManager;
  _uploadTick : bool;
  _remember : bool;
  _closing : bool;
  _ftSessionEnded : bool;
  (** whether the progress interval is set *)
  _progressInterval : bool;
  _downloadQueue : list download_item;
  _downloadQueueRunning : bool;
}.
Definition newFtConnection : ft := {|
  super := newBase; _peerPlatform := ""; _peerHostname := ""; _jobs := newFileJobManager;
  _uploadTick := false; _remember := false; _closing := false; _ftSessionEnded := false;
  _progressInterval := false; _downloadQueue := []; _downloadQueueRunning := false |}.

(** The JSON form of a [PeerInfo]; [undefined] members are left out. *)
Section PeerInfoJson.
Variable float_json : spec_float -> json.
Definition resolution_json (r : Resolution.t) : json :=
  JObj [("width", JNum (Resolution.width r)); ("height", JNum (Resolution.height r))].
Definition display_json (d : DisplayInfo.t) : json :=
  JObj ([("x", JNum (DisplayInfo.x d)); ("y", JNum (DisplayInfo.y d)); ("width", JNum (DisplayInfo.width d));
         ("height", JNum (DisplayInfo.height d)); ("name", JStr (DisplayInfo.name d));
         ("online", JBool (DisplayInfo.online d)); ("cursor_embedded", JBool (DisplayInfo.cursor_embedded d))]
        ++ match DisplayInfo.original_resolution d with
           | Some r => [("original_resolution", resolution_json r)] | None => [] end
        ++ [("scale", float_json (DisplayInfo.scale d))])%list.
Definition ability_json (a : CodecAbility.t) : json :=
  JObj [("vp8", JBool (CodecAbility.vp8 a)); ("vp9", JBool (CodecAbility.vp9 a)); ("av1", JBool (CodecAbility.av1 a));
        ("h264", JBool (CodecAbility.h264 a)); ("h265", JBool (CodecAbility.h265 a))].
Definition encoding_json (e : SupportedEncoding.t) : json :=
  JObj ([("h264", JBool (SupportedEncoding.h264 e)); ("h265", JBool (SupportedEncoding.h265 e));
         ("vp8", JBool (SupportedEncoding.vp8 e)); ("av1", JBool (SupportedEncoding.av1 e))]
        ++ match SupportedEncoding.i444 e with Some a => [("i444", ability_json a)] | None => [] end)%list.
Definition windows_sessions_json (w : WindowsSessions.t) : json :=
  JObj [("sessions", JArr (map (fun s => JObj [("sid", JNum (WindowsSession.sid s));
                                              ("name", JStr (WindowsSession.name s))]) (WindowsSessions.sessions w)));
        ("current_sid", JNum (WindowsSessions.current_sid w))].
Definition peer_info_json (pi : PeerInfo.t) : json :=
  JObj ([("username", JStr (PeerInfo.username pi)); ("hostname", JStr (PeerInfo.hostname pi));
         ("platform", JStr (PeerInfo.platform pi)); ("displays", JArr (map display_json (PeerInfo.displays pi)));
         ("current_display", JNum (PeerInfo.current_display pi)); ("sas_enabled", JBool (PeerInfo.sas_enabled pi));
         ("version", JStr (PeerInfo.version pi))]
        ++ match PeerInfo.features pi with
           | Some f => [("features", JObj [("privacy_mode", JBool (Features.privacy_mode f))])] | None => [] end
        ++ match PeerInfo.encoding pi with Some e => [("encoding", encoding_json e)] | None => [] end
        ++ match PeerInfo.resolutions pi with
           | Some r => [("resolutions", JObj [("resolutions",
                          JArr (map resolution_json (SupportedResolutions.resolutions r)))])] | None => [] end
        ++ [("platform_additions", JStr (PeerInfo.platform_additions pi))]
        ++ match PeerInfo.windows_sessions pi with
           | Some w => [("windows_sessions", windows_sessions_json w)] | None => [] end)%list.
End PeerInfoJson.

(** A state that holds a transfer session and the page. *)
Class Host (St : Type) := here : forall A, js (ft * page) A -> js St A.
#[export] Instance self_host : Host (ft * page) := fun A m => m.

Section FtConnection.
Context `{ProtobufRuntime} `{Sodium} `{Zstd} `{Fflate}.
(** How a speed prints, and the browser's collation. *)
Context (speed_text : Z * Z -> string) (localeCompare : string -> string -> Z).

Abbreviation conn A := (js (ft * page) A).
Context {St : Type} `{!Host St}.
Abbreviation async A := (js (St * list (St -> St)) A).
Definition on_self {A} (m : conn A) : async A := sync (here A m).

Definition in_base {A} : js (base * page) A -> conn A := zoom super (fun b c => c <| super := b |>).
Definition in_jobs {A} : js (FileJobManager * page) A -> conn A := zoom _jobs (fun j c => c <| _jobs := j |>).
Definition evt (name : string) (p : payload) : conn unit := in_base (ev name p).
Definition send (m : Message.t) : conn unit := in_base (sendMessage m).
Definition queueMsg (m : Message.t) : conn unit := in_base (queueMessage m).
Definition job_done (id fileNum : Z) : conn unit :=
  evt "job_done" (strs [("id", string_of_Z id); ("file_num", string_of_Z fileNum)]).
(** Dereferences. *)
Definition readJob (l : jobref) (c : ft) : option ReadJob := readHeap (_jobs c) !! l.
Definition writeJob (l : jobref) (c : ft) : option WriteJob := writeHeap (_jobs c) !! l.
Definition on_readJob (l : jobref) (f : ReadJob -> ReadJob) : conn unit :=
  update (fun c => c <| _jobs ::= set_read l f |>).
Definition read_job (id : Z) (c : ft) : option (jobref * ReadJob) := getReadJob id (_jobs c).
Definition write_job (id : Z) (c : ft) : option (jobref * WriteJob) := getWriteJob id (_jobs c).

Definition buildFtLoginRequest (password : option bytes) : conn LoginRequest.t :=
  c ← self super;
  r ← of_page rand;
  let sid := ensureLoginSessionId r (_loginSessionId c) in
  in_base (update (fun b => b <| _loginSessionId := Some sid |>));;
  mret (LoginRequest.createBase
    <| LoginRequest.username := _id c |> <| LoginRequest.my_id := "web" |> <| LoginRequest.my_name := "web" |>
    <| LoginRequest.password := default [] password |> <| LoginRequest.session_id := sid |>
    <| LoginRequest.file_transfer := Some (FileTransfer.createBase <| FileTransfer.dir := "" |>
         <| FileTransfer.show_hidden := option_truthy (getOption "remote_show_hidden" c) |>) |>
    <| LoginRequest.video_ack_required := false |>).

(** ** Job outcomes *)
Definition pushJobError (id fileNum : Z) (err : string) : conn unit :=
  evt "job_error" (strs [("id", string_of_Z id); ("file_num", string_of_Z fileNum); ("err", err)]).

(** The live jobs of a map, in its order. *)
Definition live_reads (c : ft) : list ReadJob := omap (fun l => readHeap (_jobs c) !! l) (map_values (readJobs (_jobs c))).
Definition live_writes (c : ft) : list WriteJob := omap (fun l => writeHeap (_jobs c) !! l) (map_values (writeJobs (_jobs c))).

Definition clear_jobs : conn unit :=
  update (fun c => c <| _jobs ::= fun m => m <| readJobs := [] |> <| writeJobs := [] |> <| pendingUploads := [] |> |>).
Definition failActiveJobs (err : string) : conn unit :=
  reads ← self live_reads;
  for_of reads (fun job => pushJobError (r_id job) (r_fileNum job) err);;
  writes ← self live_writes;
  for_of writes (fun job => pushJobError (w_id job) (w_fileNum job) err);;
  clear_jobs.

Definition emitJobProgress : conn unit :=
  writes ← self live_writes;
  for_of writes (fun job => evt "job_progress"
    (progressPayload speed_text (w_id job) (w_fileNum job) (w_speed job) (w_finishedSize job)));;
  reads ← self live_reads;
  for_of reads (fun job =>
    when (active job || (0 <? r_finishedSize job)%Z)
      (evt "job_progress" (progressPayload speed_text (r_id job) (r_fileNum job) (r_speed job) (r_finishedSize job)))).

(** ** Requests that only send *)
Definition readRemoteDir (path : string) (includeHidden : bool) : conn unit := queueMsg (readDirAction path includeHidden).
Definition removeFile (id : Z) (path : string) (fileNum : Z) (isRemote : bool) : conn unit :=
  if (isRemote : bool) then send (removeFileAction id path fileNum) else job_done id fileNum.
Definition createDir (id : Z) (path : string) (isRemote : bool) : conn unit :=
  if (isRemote : bool) then send (createDirAction id path) else job_done id (-1).
Definition renameFile (id : Z) (path newName : string) (isRemote : bool) : conn unit :=
  if (isRemote : bool) then send (renameAction id path newName) else job_done id (-1).
Definition readDirToRemoveRecursive (id : Z) (path : string) (isRemote showHidden : bool) : conn unit :=
  when isRemote (send (allFilesAction id path showHidden)).
Definition removeAllEmptyDirs (id : Z) (path : string) (isRemote : bool) : conn unit :=
  when isRemote (send (removeDirAction id path)).
Definition readEmptyDirs (path : string) (includeHidden : bool) : conn unit :=
  send (readEmptyDirsAction path includeHidden).

Definition sendConfirm (id fileNum : Z) (skp : bool) (offsetBlk : Z) : conn unit :=
  send (sendConfirmAction id fileNum skp offsetBlk);;
  job ← self (read_job id);
  match job with
  | Some (l, _) => if negb skp then on_readJob l (fun j => j <| active := true |>) else skip
  | None => skip
  end.
Definition confirmOverrideFile (id fileNum : Z) (needOverride remember isUpload : bool) : conn unit :=
  sendConfirm id fileNum (negb needOverride) 0;;
  if isUpload && needOverride then
    job ← self (read_job id);
    match job with Some (l, _) => on_readJob l (fun j => j <| active := true |>) | None => skip end
  else skip.
Definition cancelJob (id : Z) : conn unit :=
  in_jobs (removeJob id);; send (cancelAction id).

(** ** Uploading *)
Definition queueDigestForCurrentFile (l : jobref) : conn unit :=
  job ← self (readJob l);
  match job with
  | Some job =>
      match current_file job with
      | Some f => queueMsg (digestResponse (r_id job) (r_fileNum job) (size f) (lastModified f / 1000))
      | None => skip
      end
  | None => throw VUndefined
  end.

Definition advanceUploadAfterFile (id : Z) (l : jobref) (finishedFileNum : Z) : conn unit :=
  on_readJob l (fun j => match nth_file (uploadFiles j) finishedFileNum with
                         | Some f => j <| finishedBase := (finishedBase j + size f)%Z |> | None => j end);;
  job ← self (readJob l);
  let nextFileNum := (finishedFileNum + 1)%Z in
  if (nextFileNum <? match job with Some j => len (r_files j) | None => 0 end)%Z then
    on_readJob l (fun j => j <| r_fileNum := nextFileNum |> <| file := nth_file (uploadFiles j) nextFileNum |>
      <| offset := 0 |> <| blkId := 0 |> <| r_finishedSize := finishedBase j |> <| active := false |>
      <| r_waitingConfirm := true |>);;
    queueDigestForCurrentFile l
  else
    in_jobs (removeJob id);;
    job_done id finishedFileNum.

(** What [pumpUploadBlocks] does at the end of a file. *)
Definition end_of_file (id : Z) (l : jobref) (job : ReadJob) : async unit :=
  if (r_fileNum job + 1 <? len (r_files job))%Z then
    on_self (advanceUploadAfterFile id l (r_fileNum job))
  else
    on_self (queueMsg (doneResponse id (r_fileNum job)));;
    on_self (in_jobs (removeJob id));;
    on_self (job_done id (r_fileNum job)).
(** One turn of [pumpUploadBlocks]' loop; [again] is the rest of the loop. *)
Definition pump_turn (id : Z) (again : async unit) : async unit :=
  job ← on_self (self (read_job id));
  match job with
  | None => skip
  | Some (l, job) =>
      if negb (active job) then skip
      else
        let read := startBlockRead job in
        pause;;
        next ← on_self (in_jobs (finishBlockRead l read));
        match next with
        | None => skip
        | Some (data, finished) =>
            job ← on_self (self (readJob l));
            match job with
            | None => skip
            | Some job =>
                (if (0 <? len data)%Z then
                   on_self (queueMsg (blockResponse id (r_fileNum job) data false (blkId job)))
                 else skip);;
                if (finished : bool) then end_of_file id l job
                else
                  pause;;
                  again
            end
        end
  end.
Fixpoint pump_turns (fuel : nat) (id : Z) : async unit :=
  match fuel with
  | O => lift_outcome OutOfFuel
  | S fuel => pump_turn id (pump_turns fuel id)
  end.
(** Every turn that goes on takes an entry of the schedule, so the schedule bounds the turns. *)
Definition pumpUploadBlocks (id : Z) : async unit :=
  tick ← on_self (self _uploadTick);
  if (tick : bool) then skip
  else
    on_self (update (fun c => c <| _uploadTick := true |>));;
    fuel ← gets (fun s => S (length s.2));
    try_finally (pump_turns fuel id) (on_self (update (fun c => c <| _uploadTick := false |>))).

Definition handleFileAction (fa : FileAction.t) : async unit :=
  match FileAction.send_confirm fa with
  | None => skip
  | Some c =>
      let id := FileTransferSendConfirmRequest.id c in
      job ← on_self (self (read_job id));
      match job with
      | None => skip
      | Some (l, _) =>
          if match FileTransferSendConfirmRequest.skip c with Some b => b | None => false end then
            on_self (advanceUploadAfterFile id l (FileTransferSendConfirmRequest.file_num c))
          else
            let offsetBlk := default 0%Z (FileTransferSendConfirmRequest.offset_blk c) in
            (if (0 <? offsetBlk)%Z then
               on_self (on_readJob l (fun j => j <| offset := (offsetBlk * BLOCK_SIZE)%Z |>
                 <| r_finishedSize := (offsetBlk * BLOCK_SIZE)%Z |> <| blkId := offsetBlk |>))
             else skip);;
            on_self (on_readJob l (fun j => j <| active := true |> <| r_waitingConfirm := false |>));;
            pumpUploadBlocks id
      end
  end.

(** ** Receiving *)
Definition handleDigest (d : FileTransferDigest.t) : conn unit :=
  let id := FileTransferDigest.id d in
  w ← self (write_job id);
  r ← self (read_job id);
  let job := match w, r with
             | Some (_, j), _ => Some (w_remotePath j, w_localPath j)
             | None, Some (_, j) => Some (r_remotePath j, r_localPath j)
             | None, None => None
             end in
  match job with
  | None => skip
  | Some (remotePath, localPath) =>
      if FileTransferDigest.is_upload d then
        evt "override_file_confirm"
          (strs [("id", string_of_Z id); ("file_num", string_of_Z (FileTransferDigest.file_num d));
                 ("read_path", or_empty remotePath localPath); ("is_upload", "true");
                 ("is_identical", string_of_bool (FileTransferDigest.is_identical d))])
      else sendConfirm id (FileTransferDigest.file_num d) false 0
  end.

Definition handleBlock (b : FileTransferBlock.t) : conn unit :=
  job ← self (write_job (FileTransferBlock.id b));
  match job with
  | None => skip
  | Some (l, _) =>
      try_catch
        (in_jobs (appendBlock l (FileTransferBlock.file_num b) (FileTransferBlock.data b)
                    (FileTransferBlock.compressed b)))
        (fun e => pushJobError (FileTransferBlock.id b) (FileTransferBlock.file_num b) (Config.js_String e))
  end.

(** [try { await finalizeDownload } catch]: whether the handler goes on *)
Definition try_finalize (l : jobref) (id fileNum : Z) : conn bool :=
  try_catch (in_jobs (finalizeDownload l);; mret true)
    (fun e => pushJobError id fileNum (Config.js_String e);; in_jobs (removeJob id);; mret false).
Definition handleDone (d : FileTransferDone.t) : conn unit :=
  let id := FileTransferDone.id d in
  uploading ← self (fun c => map_has (readJobs (_jobs c)) id);
  if (uploading : bool) then skip
  else
    job ← self (write_job id);
    match job with
    | Some (l, _) =>
        ok ← try_finalize l id (FileTransferDone.file_num d);
        if negb ok then skip
        else
          in_jobs (removeJob id);;
          job ← self (writeJob l);
          let fileNum := match job with
                         | Some j => if isFolderDownload j && (0 <? len (w_files j))%Z
                                     then (len (w_files j) - 1)%Z else FileTransferDone.file_num d
                         | None => FileTransferDone.file_num d
                         end in
          job_done id fileNum
    | None => job_done id (FileTransferDone.file_num d)
    end.

Definition handleError (e : FileTransferError.t) : conn unit :=
  in_jobs (removeJob (FileTransferError.id e));;
  pushJobError (FileTransferError.id e) (FileTransferError.file_num e) (FileTransferError.error e).

Definition handleFileResponse (fr : FileResponse.t) : conn unit :=
  match FileResponse.dir fr, FileResponse.empty_dirs fr, FileResponse.digest fr, FileResponse.block fr,
        FileResponse.done fr, FileResponse.error fr with
  | Some fd, _, _, _, _, _ =>
      job ← self (write_job (FileDirectory.id fd));
      match job with
      | Some (l, _) =>
          when (0 <? len (FileDirectory.entries fd))%Z
            (in_jobs (setDownloadFiles l (FileDirectory.entries fd)))
      | None => skip
      end;;
      evt "file_dir" (strs [("is_local", "false");
        ("value", fdToJson (FileDirectory.id fd) (FileDirectory.path fd) (FileDirectory.entries fd))])
  | None, Some ed, _, _, _, _ =>
      evt "empty_dirs" (strs [("is_local", "false"); ("value", emptyDirsToJson ed)])
  | None, None, Some d, _, _, _ => handleDigest d
  | None, None, None, Some b, _, _ => handleBlock b
  | None, None, None, None, Some d, _ => handleDone d
  | None, None, None, None, None, Some e => handleError e
  | None, None, None, None, None, None => skip
  end.

(** ** Starting transfers *)
(** [void f()]: a floating promise. *)
Definition floating (m : async unit) : async unit := try_catch m (fun _ => skip).

(** Whether the download may go on; the save dialog is open while it waits. *)
Definition ensureDownloadSaveTarget (l : jobref) : async bool :=
  job ← on_self (self (writeJob l));
  match job with
  | None => on_self (throw VUndefined)
  | Some job =>
      if truthy (saveTarget job) then mret true
      else
        let suggestedName := remoteDownloadSuggestedName (w_fileName job) (isFolderDownload job) in
        pause;;
        pick ← on_self (with_io (pickDownloadSaveTarget suggestedName));
        match pick with
        | Cancelled => mret false
        | Picked t =>
            on_self (update (fun c => c <| _jobs ::= set_write l (fun j => j <| saveTarget := Some t |>) |>));;
            mret true
        | Unsupported => mret true
        end
  end.

Definition startRemoteDownload (item : download_item) : async unit :=
  l ← on_self (in_jobs (createDownloadJob (d_id item) (d_path item) (d_to item) (d_fileNum item) (d_isDir item)));
  ok ← ensureDownloadSaveTarget l;
  if negb ok then
    on_self (in_jobs (removeJob (d_id item)));;
    on_self (pushJobError (d_id item) (d_fileNum item) "Download cancelled")
  else on_self (send (sendAction (d_id item) (d_path item) (d_fileNum item) (d_includeHidden item))).

Fixpoint download_turns (fuel : nat) : async unit :=
  match fuel with
  | O => lift_outcome OutOfFuel
  | S fuel =>
      queue ← on_self (self _downloadQueue);
      match queue with
      | [] => skip
      | item :: rest =>
          on_self (update (fun c => c <| _downloadQueue := rest |>));;
          startRemoteDownload item;;
          download_turns fuel
      end
  end.
(** Each download waits for its save dialog, so the schedule bounds the turns. *)
Definition processDownloadQueue : async unit :=
  running ← on_self (self _downloadQueueRunning);
  if (running : bool) then skip
  else
    on_self (update (fun c => c <| _downloadQueueRunning := true |>));;
    fuel ← gets (fun s => S (length s.2));
    try_finally (download_turns fuel) (on_self (update (fun c => c <| _downloadQueueRunning := false |>))).

Definition sendFiles (id : Z) (path to : string) (fileNum : Z) (includeHidden isRemote isDir : bool) : async unit :=
  if isRemote then
    on_self (update (fun c => c <| _downloadQueue := (_downloadQueue c ++
      [{| d_id := id; d_path := path; d_to := to; d_fileNum := fileNum; d_includeHidden := includeHidden;
          d_isDir := isDir |}])%list |>));;
    floating processDownloadQueue
  else
    f ← on_self (self (fun c => map_get (pendingUploads (_jobs c)) id));
    match f with
    | None => on_self (pushJobError id fileNum "No local file selected")
    | Some f =>
        l ← on_self (in_jobs (createUploadJob id path to fileNum f includeHidden));
        on_self (queueMsg (receiveAction id to [single_entry f] fileNum (size f)));;
        on_self (queueMsg (digestResponse id fileNum (size f) (lastModified f / 1000)))
    end.

Definition addJob (id : Z) (path to : string) (fileNum : Z) (includeHidden isRemote : bool) : conn unit :=
  if isRemote then in_jobs (createDownloadJob id path to fileNum false);; skip
  else
    f ← self (fun c => map_get (pendingUploads (_jobs c)) id);
    match f with
    | Some f => in_jobs (createUploadJob id path to fileNum f includeHidden);; skip
    | None => skip
    end.

Definition resumeRemoteDownload (id : Z) : async unit :=
  job ← on_self (self (write_job id));
  match job with
  | None => skip
  | Some (l, job) =>
      ok ← ensureDownloadSaveTarget l;
      job ← on_self (self (fun c => default job (writeJob l c)));
      if negb ok then on_self (pushJobError id (w_fileNum job) "Download cancelled")
      else on_self (send (sendAction id (w_remotePath job) (w_fileNum job) false))
  end.
Definition resumeJob (id : Z) (isRemote : bool) : async unit :=
  if isRemote then floating (resumeRemoteDownload id)
  else
    job ← on_self (self (read_job id));
    match job with
    | Some (l, job) =>
        if truthy (file job) then
          on_self (on_readJob l (fun j => j <| active := true |>));; floating (pumpUploadBlocks id)
        else skip
    | None => skip
    end.

Definition plan_entries (plan : FolderUploadPlan) : list FileEntry.t :=
  imap (fun i f => FileEntry.createBase <| FileEntry.name := default "" (relativeNames plan !! i) |>
    <| FileEntry.size := size f |> <| FileEntry.modified_time := (lastModified f / 1000)%Z |>
    <| FileEntry.entry_type := 4 |>) (files plan).
Definition sendFolderUpload (id : Z) (to : string) (includeHidden : bool) : conn unit :=
  plan ← with_io takeFolderPlan;
  match plan with
  | None => pushJobError id 0 "No folder selected"
  | Some plan =>
      let entries := plan_entries plan in
      l ← in_jobs (createMultiFileUploadJob id (folderName plan) to 0 (files plan) entries (totalSize plan) includeHidden);
      queueMsg (receiveAction id to entries 0 (totalSize plan));;
      queueDigestForCurrentFile l
  end.

Definition sendLocalFiles (id handleIndex : Z) (path to : string) (fileNum : Z) (includeHidden isRemote : bool) :
    async unit :=
  f ← on_self (of_page (fun pg => getPickedFile handleIndex (page_io pg)));
  match f with
  | None => on_self (pushJobError id fileNum "Local file not found")
  | Some f =>
      on_self (update (fun c => c <| _jobs ::= fun m => m <| pendingUploads := map_set (pendingUploads m) id f |> |>));;
      sendFiles id path to fileNum includeHidden isRemote false
  end.

(** ** Ending *)
Definition ws_open (c : ft) : bool := match _ws (super c) with Some ws => is_open (_status ws) | None => false end.
(** The [Set] of job ids: the uploads' in order, then the downloads' that are new. *)
Definition job_ids (c : ft) : list Z :=
  let reads := map_keys (readJobs (_jobs c)) in
  (reads ++ filter (fun id => id ∉ reads) (map_keys (writeJobs (_jobs c))))%list.
Definition cancelAllJobs : conn unit :=
  ids ← self job_ids;
  open ← self ws_open;
  for_of ids (fun id => when open (send (cancelAction id)));;
  clear_jobs.
(** [close()] *)
Definition ft_close : conn unit :=
  closing ← self _closing;
  if (closing : bool) then skip
  else
    update (fun c => c <| _closing := true |> <| _progressInterval := false |>);;
    cancelAllJobs;;
    in_base baseClose.
End FtConnection.
