(* ===== verification/FtTransfer.v ===== *)
(** * Uploads and downloads from end to end

    What [pumpUploadBlocks] sends for a file, however its [await]s interleave with the message
    pump's interval, and that the blocks it sends make the receiving side save the same bytes. *)
From S2P Require Import Prelude JsMap JsStr Json Bytes ProtoWire ProtoFile ProtoSession ProtoMessage Crypto.
From S2P Require Import PushEvent Websock SessionConnect FtProtocol FtBrowserIo FtZip Page FtJobs SessionBase.
From S2P Require Import FtConnection.
Local Open Scope list_scope.

(** ** A file in blocks *)
Fixpoint chop (fuel : nat) (data : bytes) : list bytes :=
  match fuel, data with
  | S fuel, _ :: _ => take (Z.to_nat BLOCK_SIZE) data :: chop fuel (drop (Z.to_nat BLOCK_SIZE) data)
  | _, _ => []
  end.
Definition blocks_of (data : bytes) : list bytes := chop (length data) data.

Lemma block_size_pos : (0 < Z.to_nat BLOCK_SIZE)%nat.
Proof. unfold BLOCK_SIZE. lia. Qed.
#[local] Opaque BLOCK_SIZE.

Lemma chop_fuel n m data : (length data <= n)%nat -> (length data <= m)%nat -> chop n data = chop m data.
Proof.
  pose proof block_size_pos as Hb. revert m data. induction n as [|n IH]; intros m data Hn Hm.
  { destruct data; [by destruct m|cbn in Hn; lia]. }
  destruct data as [|x data]; [by destruct m|]. destruct m as [|m]; [cbn in Hm; lia|].
  cbn [chop]. f_equal. apply IH; rewrite length_drop; cbn [length] in *; lia.
Qed.
Lemma blocks_of_nil : blocks_of [] = [].
Proof. done. Qed.
Lemma blocks_of_cons data : data <> [] ->
  blocks_of data = take (Z.to_nat BLOCK_SIZE) data :: blocks_of (drop (Z.to_nat BLOCK_SIZE) data).
Proof.
  pose proof block_size_pos. intros Hne. destruct data as [|x data]; [done|]. unfold blocks_of. cbn [length chop].
  f_equal. apply chop_fuel; rewrite length_drop; cbn [length]; lia.
Qed.
Lemma blocks_ind (P : bytes -> Prop) :
  P [] -> (forall data, data <> [] -> P (drop (Z.to_nat BLOCK_SIZE) data) -> P data) -> forall data, P data.
Proof.
  intros H0 H1 data. pose proof block_size_pos. remember (length data) as n eqn:E.
  revert data E. induction (lt_wf n) as [n _ IH]. intros data ->. destruct data as [|x data]; [done|].
  apply H1; [done|]. eapply IH; [|reflexivity]. rewrite length_drop. cbn [length]. lia.
Qed.

(** The blocks of a file are its bytes, and every block is non-empty and at most a block long. *)
Lemma blocks_of_concat data : concat (blocks_of data) = data.
Proof.
  induction data as [|data Hne IH] using blocks_ind; [done|]. rewrite blocks_of_cons by done. cbn [concat].
  by rewrite IH, take_drop.
Qed.
Lemma blocks_of_sizes data : Forall (fun d => 0 < len d <= BLOCK_SIZE) (blocks_of data).
Proof.
  pose proof block_size_pos. induction data as [|data Hne IH] using blocks_ind; [constructor|].
  rewrite blocks_of_cons by done. constructor; [|done]. unfold len. rewrite length_take.
  destruct data; [done|]. cbn [length]. lia.
Qed.

(** The messages that carry the rest [data] of file [n] of job [id], after block number [b]. *)
Definition block_messages (id n b : Z) (ds : list bytes) : list Message.t :=
  imap (fun i d => blockResponse id n d false (b + 1 + Z.of_nat i)) ds.
Lemma block_messages_cons id n b d ds :
  block_messages id n b (d :: ds) = blockResponse id n d false (b + 1) :: block_messages id n (b + 1) ds.
Proof.
  unfold block_messages. cbn [imap]. rewrite Z.add_0_r. f_equal. apply imap_ext. intros i x _.
  cbn [compose]. by rewrite Nat2Z.inj_succ, <- Z.add_1_l, !Z.add_assoc.
Qed.

Section Upload.
Context `{ProtobufRuntime} `{Sodium} `{Zstd} `{Fflate}.

(** ** What may happen meanwhile *)
Definition ready (c : ft) : Prop := exists ws, _ws (super c) = Some ws /\ readyState ws <> CONNECTING.

(** Interference that leaves the jobs alone and only moves queued messages to the socket. *)
Definition benign (f : ft * page -> ft * page) : Prop := forall s, ready s.1 ->
  _jobs (f s).1 = _jobs s.1 /\ _uploadTick (f s).1 = _uploadTick s.1 /\
  _sessionId (super (f s).1) = _sessionId (super s.1) /\
  exists k, _msgs (super (f s).1) = drop k (_msgs (super s.1)) /\
    _ws (super (f s).1) = option_map (send_all (take k (_msgs (super s.1)))) (_ws (super s.1)).

(** The page's own interference: time passes, events are pushed, the pump's interval fires. *)
Lemma benign_page (g : page -> page) : benign (fun s => (s.1, g s.2)).
Proof. intros s (ws & Hws & _). repeat split; try done. exists 0%nat. by rewrite Hws. Qed.
Lemma benign_pump : benign (exec (in_base pump)).
Proof.
  intros [c pg] (ws & Hws & Hc). unfold exec, in_base, zoom. cbn [fst snd].
  rewrite (pump_flushes (super c) pg ws) by done. cbn [fst snd]. destruct c as [b ? ? ? ? ? ? ? ? ? ?].
  cbn in *. split; [done|]. split; [done|]. split; [by destruct b|]. exists (length (_msgs b)).
  rewrite drop_all, firstn_all, Hws. by destruct b.
Qed.

Lemma send_all_ready ms ws : readyState ws <> CONNECTING -> readyState (send_all ms ws) <> CONNECTING.
Proof.
  revert ws. induction ms as [|m ms IH]; intros ws Hc; [done|]. unfold send_all in *. cbn [foldl].
  apply IH. destruct (sendMessage_sends m ws Hc) as (ws' & E & Hr). unfold exec. rewrite E. cbn. by rewrite Hr.
Qed.
Lemma send_all_app ms ms' ws : send_all (ms ++ ms') ws = send_all ms' (send_all ms ws).
Proof. apply foldl_app. Qed.

(** The messages given to the socket [w0] since the queue was [q0], followed by those still
    queued, are those of [q0] and then [extra]. *)
Definition tracked (w0 : Websock) (q0 extra : list Message.t) (c : ft) : Prop :=
  exists sent, _ws (super c) = Some (send_all sent w0) /\ sent ++ _msgs (super c) = q0 ++ extra.

Lemma tracked_ready w0 q0 extra c : readyState w0 <> CONNECTING -> tracked w0 q0 extra c -> ready c.
Proof. intros Hc (sent & E & _). eexists. split; [done|]. by apply send_all_ready. Qed.
Lemma tracked_benign w0 q0 extra f s : readyState w0 <> CONNECTING -> benign f ->
  tracked w0 q0 extra s.1 -> tracked w0 q0 extra (f s).1.
Proof.
  intros Hc Hf Ht. destruct (Hf s (tracked_ready _ _ _ _ Hc Ht)) as (_ & _ & _ & k & Hm & Hw).
  destruct Ht as (sent & E & Eq). exists (sent ++ take k (_msgs (super s.1))).
  rewrite Hw, Hm, E, send_all_app. split; [done|]. by rewrite <- app_assoc, take_drop.
Qed.

(** ** One upload *)
(** What an upload was made of. *)
Definition plan_of (j : ReadJob) : Z * list File * list FileEntry.t := (r_id j, uploadFiles j, r_files j).
(** File [n] of the upload [id], whose plan satisfies [Q], is being sent from offset [o], block [b]. *)
Definition uploading (Q : Z * list File * list FileEntry.t -> Prop)
    (c : ft) (id : Z) (l : jobref) (f : File) (n o b : Z) : Prop :=
  map_get (readJobs (_jobs c)) id = Some l /\ map_ok (readJobs (_jobs c)) /\
  exists j, readHeap (_jobs c) !! l = Some j /\ active j = true /\ file j = Some f /\ r_fileNum j = n /\
    Q (plan_of j) /\ offset j = o /\ blkId j = b.
(** The same of the last, or only, file. *)
Definition upload_at (c : ft) (id : Z) (l : jobref) (f : File) (n o b : Z) : Prop :=
  uploading (fun plan => len plan.2 <= n + 1) c id l f n o b.

Lemma uploading_benign Q f s id l fl n o b : ready s.1 -> benign f ->
  uploading Q s.1 id l fl n o b -> uploading Q (f s).1 id l fl n o b.
Proof. intros Hr Hf. destruct (Hf s Hr) as (E & _). unfold uploading. by rewrite E. Qed.

Lemma zoom_ret {S T A} (proj : S -> T) put (m : js (T * page) A) s a t pg :
  m (proj s.1, s.2) = (Ret a, (t, pg)) -> zoom proj put m s = (Ret a, (put t s.1, pg)).
Proof. intros E. unfold zoom. by rewrite E. Qed.

(** Reading the block at [o] of an unbroken file. *)
Lemma read_block f o : broken_at f = None -> 0 <= o < size f ->
  exists d, readFileChunk f o (Z.min BLOCK_SIZE (size f - o)) = Ret d /\
    d = take (Z.to_nat BLOCK_SIZE) (drop (Z.to_nat o) (content f)) /\
    len d = Z.min BLOCK_SIZE (size f - o).
Proof.
  intros Hb Ho. pose proof block_size_pos as Hbs. unfold readFileChunk. rewrite Hb.
  set (k := Z.min BLOCK_SIZE (size f - o)). assert (Hk0 : 0 <= k /\ o + k <= size f) by lia.
  exists (file_slice f o k). split; [done|].
  destruct (file_slice_spec f o k) as [Hl _]; [lia..|]. split; [|done].
  unfold file_slice. rewrite !Z.min_l by lia. replace (o + k - o) with k by lia. subst k.
  unfold size, len in *.
  destruct (Z.min_spec BLOCK_SIZE (Z.of_nat (length (content f)) - o)) as [[_ ->]|[Hle ->]]; [done|].
  rewrite !take_ge; [done|rewrite length_drop; lia..].
Qed.

(** What [nextUploadBlock] leaves behind after reading a block. *)
Lemma finish_read_spec Q c pg id l f n o b d :
  uploading Q c id l f n o b ->
  exists c' pg', in_jobs (finishBlockRead l (Reading f (Ret d))) (c, pg) =
      (Ret (Some (d, size f <=? o + len d)), (c', pg')) /\
    uploading Q c' id l f n (o + len d) (b + 1) /\ super c' = super c /\ _uploadTick c' = _uploadTick c /\
    events pg' = events pg.
Proof.
  intros (Hm & Hok & j & Hj & Hact & Hf & Hn & Hq & Ho & Hb). unfold in_jobs.
  set (j' := let '(speed, tick) := updateSpeed (r_speed j) (r_lastTick j) (len d) (now pg) in
        j <| offset := offset j + len d |> <| r_finishedSize := finishedBase j + (offset j + len d) |>
          <| r_speed := speed |> <| r_lastTick := tick |> <| blkId := blkId j + 1 |>).
  assert (E : finishBlockRead l (Reading f (Ret d)) (_jobs c, pg) =
    (Ret (Some (d, size f <=? o + len d)), (set_read l (fun j =>
        let off := (offset j + len d)%Z in
        let '(speed, tick) := updateSpeed (r_speed j) (r_lastTick j) (len d) (now pg) in
        j <| offset := off |> <| r_finishedSize := (finishedBase j + off)%Z |> <| r_speed := speed |>
          <| r_lastTick := tick |> <| blkId := (blkId j + 1)%Z |>) (_jobs c), pg))).
  { unfold finishBlockRead. page_steps. do 4 f_equal. unfold set_read. destruct (_jobs c) as [wj rj pu wh rh].
    cbn in *. unfold constant. rewrite list_lookup_alter_eq, Hj. cbn. destruct j; cbn in *. by subst. }
  erewrite zoom_ret by done. eexists _, _. split; [done|]. split; [|by destruct c].
  destruct c as [? ? ? jm ? ? ? ? ? ? ?]. cbn in *. unfold uploading, constant. cbn.
  destruct jm as [wj rj pu wh rh]. cbn in *. split; [done|]. split; [done|].
  eexists. unfold constant. rewrite list_lookup_alter_eq, Hj. cbn. split; [done|].
  destruct j; cbn in *. by subst.
Qed.

(** Queueing a message of the session. *)
Definition enqueue (m : Message.t) (c : ft) : ft := c <| super ::= fun b => b <| _msgs := _msgs b ++ [m] |> |>.
Lemma self_run {A} (g : ft -> A) (c : ft) (pg : page) : self g (c, pg) = (Ret (g c), (c, pg)).
Proof. done. Qed.
Lemma on_readJob_run l g c pg : on_readJob l g (c, pg) = (Ret tt, (c <| _jobs ::= set_read l g |>, pg)).
Proof. done. Qed.
Lemma queueMsg_run m c pg : queueMsg m (c, pg) =
  (Ret tt, (enqueue m c, pg)).
Proof. done. Qed.
Lemma tracked_queue w0 q0 extra c m : tracked w0 q0 extra c ->
  tracked w0 q0 (extra ++ [m]) (enqueue m c).
Proof.
  intros (sent & E & Eq). exists sent. destruct c as [[] ? ? ? ? ? ? ? ? ? ?]; cbn in *.
  split; [done|]. by rewrite app_assoc, Eq, app_assoc.
Qed.
Lemma uploading_queue Q c id l f n o b m : uploading Q c id l f n o b ->
  uploading Q (enqueue m c) id l f n o b.
Proof. by destruct c. Qed.

(** How an upload ends: the job is removed, Flutter told. *)
Definition job_over (id n : Z) (sid : option string) (m : FileJobManager) (evs : list event) : Prop :=
  map_get (readJobs m) id = None /\
  exists before, evs = before ++ [makeEvent "job_done" (strs [("id", string_of_Z id); ("file_num", string_of_Z n)]) sid].

Lemma evt_run n p c pg : evt n p (c, pg) =
  (Ret tt, (c, pg <| events := events pg ++ [makeEvent n p (_sessionId (super c))] |>)).
Proof. by destruct c. Qed.

Lemma on_self_bind {A B} (m : js (ft * page) A) (k : A -> js ((ft * page) * list (ft * page -> ft * page)) B) s :
  (on_self m ≫= k) s =
    match m s.1 with
    | (Ret a, s') => k a (s', s.2)
    | (Throw e, s') => (Throw e, (s', s.2))
    | (OutOfFuel, s') => (OutOfFuel, (s', s.2))
    end.
Proof. apply sync_bind. Qed.

Lemma remove_and_report c pg id n : map_ok (readJobs (_jobs c)) ->
  exists c' pg', (in_jobs (removeJob id);; job_done id n) (c, pg) = (Ret tt, (c', pg')) /\
    job_over id n (_sessionId (super c)) (_jobs c') (events pg') /\ super c' = super c /\ _uploadTick c' = _uploadTick c.
Proof.
  intros Hok. assert (E : in_jobs (removeJob id) (c, pg) = (Ret tt, (c <| _jobs ::= removeJob_pure id |>, pg)))
    by (by destruct c).
  erewrite bind_eq by exact E. unfold job_done. rewrite evt_run. eexists _, _. split; [reflexivity|].
  destruct c as [[] ? ? [] ? ? ? ? ? ? ?], pg; cbn in *. unfold job_over, constant. cbn.
  split; [|done]. split; [by apply map_get_delete_eq|]. by eexists.
Qed.

Lemma pause_run {B} (k : unit -> js ((ft * page) * list (ft * page -> ft * page)) B) s f fs :
  (pause ≫= k) (s, f :: fs) = k tt (f s, fs).
Proof. done. Qed.

Lemma upload_read Q c id l f n o b : uploading Q c id l f n o b ->
  exists j, read_job id c = Some (l, j) /\ active j = true /\ current_file j = Some f /\ offset j = o.
Proof.
  intros (Hm & _ & j & Hj & Hact & Hf & _ & _ & Ho & _). exists j. unfold read_job, getReadJob.
  rewrite Hm. cbn. rewrite Hj. cbn. unfold current_file. by rewrite Hf.
Qed.
Lemma upload_deref Q c id l f n o b : uploading Q c id l f n o b ->
  exists j, readJob l c = Some j /\ r_fileNum j = n /\ blkId j = b /\ Q (plan_of j).
Proof. intros (_ & _ & j & Hj & _ & _ & Hn & Hl & _ & Hb). by exists j. Qed.

Lemma cons_app_assoc {A} (x : A) l m : (x :: l) ++ m = [x] ++ l ++ m.
Proof. done. Qed.

(** *** The loop *)
Lemma on_self_seq {A B} (m : js (ft * page) A) (k : js (ft * page) B) s :
  (on_self m;; on_self k) s = on_self (m;; k) s.
Proof.
  rewrite on_self_bind. unfold on_self, here, self_host, sync, mbind, js_bind. cbn.
  destruct (m s.1) as [[] ?]; done.
Qed.
Lemma on_self_run {A} (m : js (ft * page) A) s r s' : m s.1 = (r, s') -> on_self m s = (r, (s', s.2)).
Proof. unfold on_self, here, self_host, sync. by intros ->. Qed.
Section Turns.
Context (Q : Z * list File * list FileEntry.t -> Prop) (w0 : Websock) (q0 : list Message.t) (id : Z) (l : jobref)
  (f : File) (n : Z) (sid : option string) (last : list Message.t) (Fin : FileJobManager -> list event -> Prop).
Hypothesis socket_open : readyState w0 <> CONNECTING.
Hypothesis unbroken : broken_at f = None.
(** The end of the file queues [last] and establishes [Fin]. *)
Hypothesis ends : forall c pg o b extra job sched,
  uploading Q c id l f n o b -> tracked w0 q0 extra c -> _sessionId (super c) = sid ->
  readJob l c = Some job -> r_fileNum job = n -> Q (plan_of job) ->
  exists c' pg', end_of_file id l job (c, pg, sched) = (Ret tt, (c', pg', sched)) /\
    tracked w0 q0 (extra ++ last) c' /\ Fin (_jobs c') (events pg') /\ _sessionId (super c') = sid.

(** From a state in which the bytes [rest] of the file are still to be read. *)
Lemma pump_turns_spec rest : forall fuel o b c pg sched extra,
  rest = drop (Z.to_nat o) (content f) -> 0 <= o <= size f ->
  uploading Q c id l f n o b -> tracked w0 q0 extra c -> _sessionId (super c) = sid ->
  Forall benign sched -> (2 * length (blocks_of rest) < length sched)%nat ->
  (length (blocks_of rest) < fuel)%nat ->
  exists c' pg' sched', pump_turns fuel id (c, pg, sched) = (Ret tt, (c', pg', sched')) /\
    tracked w0 q0 (extra ++ block_messages id n b (blocks_of rest) ++ last) c' /\
    Fin (_jobs c') (events pg') /\ _sessionId (super c') = sid.
Proof.
  pose proof block_size_pos as Hbs.
  induction rest as [|rest Hne IH] using blocks_ind;
    intros fuel o b c pg sched extra Hrest Ho Hup Ht Hsid Hben Hlen Hfuel;
    (destruct fuel as [|fuel]; [lia|]); cbn [pump_turns];
    destruct (upload_read _ _ _ _ _ _ _ _ Hup) as (j & Ej & Hact & Hcur & Hoff);
    unfold pump_turn; rewrite on_self_bind; unfold self, gets; cbn [fst snd]; rewrite Ej, Hact;
    cbn [negb]; cbv zeta; destruct sched as [|i sched]; [cbn in Hlen; lia| |cbn in Hlen; lia|];
    inversion_clear Hben as [|? ? Hi Hben'];
    rewrite pause_run; set (s1 := i (c, pg));
    pose proof (tracked_ready _ _ _ _ socket_open Ht) as Hrd;
    pose proof (uploading_benign Q i (c, pg) _ _ _ _ _ _ Hrd Hi Hup) as Hup1;
    pose proof (tracked_benign _ _ _ i (c, pg) socket_open Hi Ht) as Ht1;
    assert (Hsid1 : _sessionId (super s1.1) = sid) by (unfold s1; destruct (Hi (c, pg) Hrd) as (_ & _ & -> & _); done);
    fold s1 in Hup1, Ht1; destruct s1 as [c1 pg1]; cbn [fst snd] in *;
    unfold startBlockRead; rewrite Hcur, Hoff.
  - assert (size f <= o) by (unfold size, len; symmetry in Hrest; apply drop_nil_inv in Hrest; lia).
    destruct (Z.leb_spec (size f) o); [|lia]. rewrite on_self_bind. cbn [fst snd].
    assert (E : in_jobs (finishBlockRead l AtEnd) (c1, pg1) = (Ret (Some ([], true)), (c1, pg1))) by (by destruct c1).
    rewrite E. destruct (upload_deref _ _ _ _ _ _ _ _ Hup1) as (j1 & Ej1 & Hn1 & _ & Hq1).
    rewrite on_self_bind. cbn [fst snd]. rewrite Ej1. change (0 <? len ([] : bytes)) with false. cbv iota. js_step.
    destruct (ends c1 pg1 o b extra j1 sched Hup1 Ht1 Hsid1 Ej1 Hn1 Hq1) as (c2 & pg2 & E2 & Hrest2).
    rewrite E2. by eexists _, _, _.
  - assert (Hlt : o < size f).
    { destruct (Z.ltb_spec o (size f)); [done|]. exfalso. apply Hne. rewrite Hrest. apply drop_ge.
      unfold size, len in *. lia. }
    destruct (Z.leb_spec (size f) o); [lia|].
    destruct (read_block f o unbroken ltac:(lia)) as (d & Er & Ed & Hld). rewrite Er. rewrite <- Hrest in Ed.
    destruct (finish_read_spec Q c1 pg1 id l f n o b d Hup1) as (c2 & pg2 & E2 & Hup2 & Hs2 & _ & _).
    rewrite on_self_bind. cbn [fst snd]. rewrite E2.
    destruct (upload_deref _ _ _ _ _ _ _ _ Hup2) as (j2 & Ej2 & Hn2 & Hb2 & Hq2).
    rewrite on_self_bind. cbn [fst snd]. rewrite Ej2. destruct (Z.ltb_spec 0 (len d)); [|lia].
    rewrite on_self_bind. cbn [fst snd]. rewrite queueMsg_run, Hn2, Hb2.
    assert (Ht2 : tracked w0 q0 (extra ++ [blockResponse id n d false (b + 1)])
      (enqueue (blockResponse id n d false (b + 1)) c2)).
    { apply tracked_queue. destruct Ht1 as (sent & E1 & Eq). exists sent. by rewrite Hs2. }
    pose proof (uploading_queue _ _ _ _ _ _ _ _ (blockResponse id n d false (b + 1)) Hup2) as Hup3.
    assert (Ej3 : readJob l (enqueue (blockResponse id n d false (b + 1)) c2) = Some j2) by (by destruct c2).
    set (c3 := enqueue _ c2) in *.
    assert (Hsid3 : _sessionId (super c3) = sid) by (subst c3; rewrite <- Hsid1, <- Hs2; by destruct c2 as [[] ? ? ? ? ? ? ? ? ? ?]).
    rewrite (blocks_of_cons rest) in Hlen, Hfuel |- * by done. rewrite <- Ed in *. cbn [length] in Hlen, Hfuel.
    rewrite block_messages_cons. clearbody c3. unfold size, len in Hlt, Ho, Hld.
    destruct (Z.leb_spec (size f) (o + len d)) as [Hend|Hmore]; unfold size, len in Hend || unfold size, len in Hmore.
    + assert (Hnil : drop (Z.to_nat BLOCK_SIZE) rest = []).
      { rewrite Hrest, drop_drop. apply drop_ge. lia. }
      rewrite Hnil. cbn [blocks_of]. rewrite blocks_of_nil.
      destruct (ends c3 pg2 (o + len d) (b + 1) _ j2 sched Hup3 Ht2 Hsid3 Ej3 Hn2 Hq2) as (c4 & pg4 & E4 & Ht4 & Hf4).
      rewrite E4. eexists _, _, _. split; [done|]. split; [|done].
      rewrite <- app_assoc in Ht4. rewrite cons_app_assoc. exact Ht4.
    + destruct sched as [|i2 sched]; [cbn in Hlen; lia|]. inversion_clear Hben' as [|? ? Hi2 Hben2].
      rewrite pause_run. pose proof (tracked_ready _ _ _ _ socket_open Ht2) as Hrd3.
      pose proof (uploading_benign Q i2 (c3, pg2) _ _ _ _ _ _ Hrd3 Hi2 Hup3) as Hup4.
      pose proof (tracked_benign _ _ _ i2 (c3, pg2) socket_open Hi2 Ht2) as Ht4.
      assert (Hsid4 : _sessionId (super (i2 (c3, pg2)).1) = sid)
        by (destruct (Hi2 (c3, pg2) Hrd3) as (_ & _ & -> & _); done).
      destruct (i2 (c3, pg2)) as [c4 pg4]. cbn [fst snd] in *.
      assert (Hdr : drop (Z.to_nat BLOCK_SIZE) rest = drop (Z.to_nat (o + len d)) (content f))
        by (rewrite Hrest, drop_drop; f_equal; unfold len; lia).
      destruct (IH fuel (o + len d) (b + 1) c4 pg4 sched _ Hdr ltac:(unfold size, len; lia) Hup4 Ht4
        Hsid4 Hben2 ltac:(cbn in Hlen; lia) ltac:(lia)) as (c5 & pg5 & sched5 & E5 & Ht5 & Hf5).
      eexists _, _, _. split; [done|]. split; [|done]. rewrite <- app_assoc in Ht5. rewrite cons_app_assoc. exact Ht5.
Qed.

(** The whole of [pumpUploadBlocks] when no other upload is being pumped. *)
Lemma pump_sends_file c pg o b sched extra :
  0 <= o <= size f -> uploading Q c id l f n o b -> tracked w0 q0 extra c -> _sessionId (super c) = sid ->
  _uploadTick c = false -> Forall benign sched ->
  let blocks := blocks_of (drop (Z.to_nat o) (content f)) in
  (2 * length blocks < length sched)%nat ->
  exists c' pg' sched', pumpUploadBlocks id (c, pg, sched) = (Ret tt, (c', pg', sched')) /\
    tracked w0 q0 (extra ++ block_messages id n b blocks ++ last) c' /\ Fin (_jobs c') (events pg') /\
    _sessionId (super c') = sid /\ _uploadTick c' = false.
Proof.
  intros Ho Hup Ht Hsid Htick Hben blocks Hlen. unfold pumpUploadBlocks. rewrite on_self_bind.
  unfold self, gets at 1. cbn [fst snd]. rewrite Htick. rewrite on_self_bind. cbn [fst snd update modify].
  rewrite bind_gets. cbn [snd].
  destruct (pump_turns_spec (drop (Z.to_nat o) (content f))
    (S (length sched)) o b (c <| _uploadTick := true |>) pg sched extra) as (c' & pg' & sched' & E & Ht' & Hf & Hs);
    try done; try (by destruct c); [subst blocks; lia|].
  unfold try_finally, modify. cbn [fst snd]. rewrite E.
  eexists _, _, _. split; [done|]. cbn [fst snd]. split; [|by destruct c'].
  destruct Ht' as (sent & E1 & Eq). exists sent. by destruct c'.
Qed.
End Turns.

(** The end of the last file. *)
Lemma last_file_ends w0 q0 id l f n sid : forall c pg o b extra job sched,
  upload_at c id l f n o b -> tracked w0 q0 extra c -> _sessionId (super c) = sid ->
  readJob l c = Some job -> r_fileNum job = n -> len (plan_of job).2 <= n + 1 ->
  exists c' pg', end_of_file id l job (c, pg, sched) = (Ret tt, (c', pg', sched)) /\
    tracked w0 q0 (extra ++ [doneResponse id n]) c' /\ job_over id n sid (_jobs c') (events pg') /\
    _sessionId (super c') = sid.
Proof.
  intros c pg o b extra job sched (_ & Hok & _) Ht <- _ Hn Hl. cbn in Hl. unfold end_of_file. rewrite Hn.
  destruct (Z.ltb_spec (n + 1) (len (r_files job))); [lia|]. rewrite on_self_bind. cbn [fst snd]. rewrite queueMsg_run.
  pose proof (tracked_queue _ _ _ _ (doneResponse id n) Ht) as Ht1.
  assert (Hs : _sessionId (super (enqueue (doneResponse id n) c)) = _sessionId (super c))
    by (by destruct c as [[] ? ? ? ? ? ? ? ? ? ?]).
  destruct (remove_and_report (enqueue (doneResponse id n) c) pg id n) as (c2 & pg2 & E2 & Ho2 & Hs2 & _);
    [by destruct c|]. rewrite Hs in Ho2.
  exists c2, pg2. rewrite on_self_seq. erewrite on_self_run by exact E2. split; [done|]. rewrite Hs2. split; [|done].
  destruct Ht1 as (sent & E1 & Eq). exists sent. by rewrite Hs2.
Qed.

(** Uploading.  Once the peer has confirmed the last (or only) file of an upload from the job's
    current offset, [pumpUploadBlocks] terminates and has handed to the socket, or left queued in
    front of nothing else, exactly: what was queued before, then the rest of the file as
    consecutive blocks of [BLOCK_SIZE] bytes (the last one shorter) numbered from the block the
    offset stands at, then [Done]; the job is gone, Flutter was told, and the pump is free again.
    This holds however often the message pump fires, and whatever else the page does that leaves
    this session's jobs alone, during the waits. *)
Theorem upload_sends_file w0 c pg id l f n o b sched :
  _ws (super c) = Some w0 -> readyState w0 <> CONNECTING -> broken_at f = None -> 0 <= o <= size f ->
  upload_at c id l f n o b -> _uploadTick c = false -> Forall benign sched ->
  let blocks := blocks_of (drop (Z.to_nat o) (content f)) in
  (2 * length blocks < length sched)%nat ->
  exists c' pg' sched', pumpUploadBlocks id (c, pg, sched) = (Ret tt, (c', pg', sched')) /\
    tracked w0 (_msgs (super c)) (block_messages id n b blocks ++ [doneResponse id n]) c' /\
    job_over id n (_sessionId (super c)) (_jobs c') (events pg') /\ _uploadTick c' = false.
Proof.
  intros Hws Hw Hbr Ho Hup Htick Hben blocks Hlen.
  destruct (pump_sends_file (fun plan => len plan.2 <= n + 1) w0 (_msgs (super c)) id l f n (_sessionId (super c))
    [doneResponse id n] (job_over id n (_sessionId (super c))) Hw Hbr) with (c := c) (pg := pg) (o := o) (b := b)
    (sched := sched) (extra := [] : list Message.t) as (c' & pg' & sched' & E & Ht & Hf & _ & Hk); try done.
  - apply last_file_ends.
  - exists []. by rewrite app_nil_r.
  - by exists c', pg', sched'.
Qed.
End Upload.

(** ** From one end to the other *)
Section RoundTrip.
Context `{ProtobufRuntime} `{Sodium} `{Zstd} `{Fflate}.

(** What [msgLoop] does with a file response. *)
Definition receive_message (m : Message.t) : js (ft * page) unit :=
  match Message.file_response m with Some fr => handleFileResponse fr | None => skip end.

Definition downloading (c : ft) (pg : page) (id : Z) (l : jobref) (n : Z) (fs : list FileEntry.t) (name : string)
    (ds : list bytes) : Prop :=
  map_get (writeJobs (_jobs c)) id = Some l /\ map_ok (writeJobs (_jobs c)) /\ map_get (readJobs (_jobs c)) id = None /\
  memory_job l (_jobs c, pg) n fs name ds.

Lemma downloading_job c pg id l n fs name ds : downloading c pg id l n fs name ds ->
  exists j, write_job id c = Some (l, j).
Proof.
  intros (Hm & _ & _ & j & Hj & _). exists j. unfold write_job, getWriteJob. rewrite Hm. cbn in *. by rewrite Hj.
Qed.

Lemma receive_block c pg id l n fs name ds d k :
  downloading c pg id l n fs name ds ->
  exists c' pg', receive_message (blockResponse id n d false k) (c, pg) = (Ret tt, (c', pg')) /\
    downloading c' pg' id l n fs name (ds ++ [d]) /\ page_io pg' = page_io pg /\ events pg' = events pg /\
    super c' = super c.
Proof.
  intros Hd. destruct (downloading_job _ _ _ _ _ _ _ _ Hd) as [j Ej]. destruct Hd as (Hm & Hok & Hr & Hmem).
  change (receive_message (blockResponse id n d false k)) with (handleBlock (FileTransferBlock.mk id n d false k)).
  unfold handleBlock. cbn [FileTransferBlock.id FileTransferBlock.file_num FileTransferBlock.data
    FileTransferBlock.compressed]. page_steps. rewrite Ej. cbv iota. unfold try_catch, in_jobs.
  destruct (appendBlock_memory l (_jobs c, pg) n fs name ds (n, d, false) d Hmem eq_refl eq_refl)
    as ([jm pg'] & E & Hm' & Ew & Er & Eio & Eev). cbn [fst snd] in *.
  erewrite zoom_ret; [|exact E]. cbn [fst snd].
  exists (c <| _jobs := jm |>), pg'. split; [done|]. split; [|by destruct c].
  unfold downloading. destruct c; cbn in *. unfold constant. rewrite Ew, Er. done.
Qed.

Lemma receive_blocks_in_order c pg id l n fs name ds0 ds b :
  downloading c pg id l n fs name ds0 ->
  exists c' pg', for_of (block_messages id n b ds) receive_message (c, pg) = (Ret tt, (c', pg')) /\
    downloading c' pg' id l n fs name (ds0 ++ ds) /\ page_io pg' = page_io pg /\ events pg' = events pg /\
    super c' = super c.
Proof.
  revert c pg ds0 b. induction ds as [|d ds IH]; intros c pg ds0 b Hd.
  { exists c, pg. by rewrite app_nil_r. }
  rewrite block_messages_cons. cbn [for_of].
  destruct (receive_block c pg id l n fs name ds0 d (b + 1) Hd) as (c1 & pg1 & E & Hd1 & Hio & Hev & Hsup).
  erewrite bind_eq by exact E.
  destruct (IH c1 pg1 (ds0 ++ [d]) (b + 1) Hd1) as (c2 & pg2 & E2 & Hd2 & Hio2 & Hev2 & Hsup2).
  exists c2, pg2. split; [done|]. rewrite <- app_assoc in Hd2. split; [done|]. intuition congruence.
Qed.

(** [Done] for a download that can be finalized. *)
Lemma receive_finalizes c pg id l j n i' :
  map_get (writeJobs (_jobs c)) id = Some l -> map_ok (writeJobs (_jobs c)) -> map_get (readJobs (_jobs c)) id = None ->
  writeJob l c = Some j -> finalizeDownload l (_jobs c, pg) = (Ret tt, (_jobs c, pg <| page_io := i' |>)) ->
  exists c' pg', receive_message (doneResponse id n) (c, pg) = (Ret tt, (c', pg')) /\
    map_get (writeJobs (_jobs c')) id = None /\ page_io pg' = i' /\
    events pg' = events pg ++ [makeEvent "job_done" (strs [("id"%string, string_of_Z id); ("file_num"%string,
      string_of_Z (if isFolderDownload j && (0 <? len (w_files j)) then len (w_files j) - 1 else n))]) (_sessionId (super c))] /\
    super c' = super c.
Proof.
  intros Hm Hok Hr Hj E.
  assert (Ej : write_job id c = Some (l, j)) by (unfold write_job, getWriteJob; rewrite Hm; cbn; unfold writeJob in Hj; by rewrite Hj).
  change (receive_message (doneResponse id n)) with (handleDone (FileTransferDone.mk id n)).
  unfold handleDone. cbn [FileTransferDone.id FileTransferDone.file_num].
  page_steps. unfold map_has. rewrite Hr. cbv iota. page_steps. rewrite Ej. cbv iota.
  assert (E1 : try_finalize l id n (c, pg) = (Ret true, (c, pg <| page_io := i' |>))).
  { unfold try_finalize, try_catch. rewrite (bind_eq _ _ (c, pg) tt (c, pg <| page_io := i' |>)); [done|].
    unfold in_jobs. rewrite (zoom_ret _ _ _ (c, pg) tt (_jobs c) (pg <| page_io := i' |>)); [|exact E].
    by destruct c. }
  erewrite bind_eq by exact E1. cbn [negb].
  assert (E2 : in_jobs (removeJob id) (c, pg <| page_io := i' |>) =
    (Ret tt, (c <| _jobs ::= removeJob_pure id |>, pg <| page_io := i' |>))) by (by destruct c).
  erewrite bind_eq by exact E2. page_steps.
  assert (E3 : writeJob l (c <| _jobs ::= removeJob_pure id |>) = Some j) by (by destruct c as [? ? ? [] ? ? ? ? ? ? ?]).
  rewrite E3. unfold job_done. rewrite evt_run.
  eexists _, _. split; [reflexivity|]. destruct c as [? ? ? [] ? ? ? ? ? ? ?], pg; cbn in *. unfold constant.
  split; [by apply map_get_delete_eq|]. done.
Qed.
Lemma receive_done c pg id l n fs name ds rest :
  downloading c pg id l n fs name ds -> dialogs (page_io pg) = NoPicker :: rest ->
  exists c' pg', receive_message (doneResponse id n) (c, pg) = (Ret tt, (c', pg')) /\
    map_get (writeJobs (_jobs c')) id = None /\
    clicked (page_io pg') = clicked (page_io pg) ++ [(or_empty name "download"%string, concat ds)] /\
    events pg' = events pg ++
      [makeEvent "job_done" (strs [("id"%string, string_of_Z id); ("file_num"%string, string_of_Z n)]) (_sessionId (super c))] /\
    super c' = super c.
Proof.
  intros (Hm & Hok & Hr & Hmem) Hdlg.
  destruct (finalize_memory l (_jobs c, pg) n fs name ds rest Hmem Hdlg) as (i' & E & Hc).
  destruct Hmem as (j & Hj & _ & Hfd & _).
  destruct (receive_finalizes c pg id l j n i' Hm Hok Hr Hj E) as (c' & pg' & E' & Hm' & Hio & Hev & Hs).
  rewrite Hfd in Hev. exists c', pg'. by rewrite Hio.
Qed.

(** A transfer from end to end.  The messages an upload produces for a file (see
    [upload_sends_file]) are exactly what the receiving side needs: a download job that handles
    them in order hands the browser one file with the same bytes, under the name asked for, then
    removes the job and reports it done. *)
Theorem transfer_roundtrip f c pg id l n fs name rest :
  downloading c pg id l n fs name [] -> dialogs (page_io pg) = NoPicker :: rest ->
  exists c' pg',
    for_of (block_messages id n 0 (blocks_of (content f)) ++ [doneResponse id n]) receive_message (c, pg) =
      (Ret tt, (c', pg')) /\
    map_get (writeJobs (_jobs c')) id = None /\
    clicked (page_io pg') = clicked (page_io pg) ++ [(or_empty name "download"%string, content f)] /\
    events pg' = events pg ++
      [makeEvent "job_done" (strs [("id"%string, string_of_Z id); ("file_num"%string, string_of_Z n)]) (_sessionId (super c))].
Proof.
  intros Hd Hdlg. rewrite for_of_app.
  destruct (receive_blocks_in_order c pg id l n fs name [] (blocks_of (content f)) 0 Hd)
    as (c1 & pg1 & E & Hd1 & Hio & Hev & Hsup).
  erewrite bind_eq by exact E. rewrite <- Hio in Hdlg. cbn [app] in Hd1.
  destruct (receive_done c1 pg1 id l n fs name _ rest Hd1 Hdlg) as (c2 & pg2 & E2 & Hm & Hc & He & _).
  exists c2, pg2. cbn [for_of]. rewrite blocks_of_concat in Hc. rewrite Hio in Hc. rewrite Hev, Hsup in He.
  split; [|done]. erewrite bind_eq by exact E2. done.
Qed.
End RoundTrip.
