(* ===== verification/FtQueue.v ===== *)
(** * The download queue

    [sendFiles] of a remote file appends to [_downloadQueue]; one [processDownloadQueue] at a time
    works it off, asking where to save each file before the peer is asked for it, while the rest of
    the page goes on and may queue more.  Here that loop refines a first-in-first-out queue: what is
    asked of the peer, and what is reported as cancelled, is what [fifo] decides from the order of
    the calls and the answers to the save dialogs. *)
From S2P Require Import Prelude JsMap JsStr Json Bytes ProtoWire ProtoFile ProtoSession ProtoMessage Crypto.
From S2P Require Import PushEvent Websock SessionConnect FtProtocol FtBrowserIo FtZip Page FtJobs SessionBase.
From S2P Require Import FtConnection FtTransfer.
Local Open Scope list_scope.

(** ** The specification *)
Inductive fate := Requested | Declined.
(** Only dismissing the dialog cancels: a browser without one, or that refuses it, saves otherwise. *)
Definition fate_of (d : dialog) : fate :=
  match d with Failed e => if (e =? "AbortError")%string then Declined else Requested | _ => Requested end.

(** [arrivals]: what is queued during each dialog; [ds]: the coming answers.  [None]: the queue is not
    empty yet when these end. *)
Fixpoint fifo (arrivals : list (list download_item)) (items : list download_item) (ds : list dialog) :
    option (list (download_item * fate) * list dialog) :=
  match items, arrivals, ds with
  | [], _, _ => Some ([], ds)
  | item :: items, q :: arrivals, d :: ds =>
      option_map (fun r => ((item, fate_of d) :: r.1, r.2)) (fifo arrivals (items ++ q) ds)
  | _, _, _ => None
  end.

(** Every item is served once, in the order of the calls. *)
Lemma fifo_in_order arrivals items ds served ds' : fifo arrivals items ds = Some (served, ds') ->
  map fst served = items ++ concat (take (length served) arrivals).
Proof.
  revert items ds served. induction arrivals as [|q arrivals IH]; intros [|item items] ds served; cbn [fifo]; intros E.
  1-3: by simplify_eq.
  destruct ds as [|d ds]; [done|]. destruct (fifo arrivals (items ++ q) ds) as [[served' ds1]|] eqn:E1; [|done].
  simplify_eq/=. rewrite (IH _ _ _ E1). by rewrite <- app_assoc.
Qed.

(** What the peer is asked, and what Flutter is told. *)
Definition request (p : download_item * fate) : option Message.t :=
  match p.2 with
  | Requested => Some (sendAction (d_id p.1) (d_path p.1) (d_fileNum p.1) (d_includeHidden p.1))
  | Declined => None
  end.
Definition cancellation (sid : option string) (p : download_item * fate) : option event :=
  match p.2 with
  | Requested => None
  | Declined => Some (makeEvent "job_error" (strs [("id", string_of_Z (d_id p.1));
      ("file_num", string_of_Z (d_fileNum p.1)); ("err", "Download cancelled")])%string sid)
  end.
Definition is_request (m : Message.t) : bool :=
  match Message.file_action m with
  | Some a => match FileAction.send a with Some _ => true | None => false end
  | None => false
  end.
Definition is_cancellation (e : event) : bool :=
  bool_decide (map_get e "name" = Some "job_error") && bool_decide (map_get e "err" = Some "Download cancelled")%string.

Lemma is_cancellation_true p sid e : cancellation sid p = Some e -> is_cancellation e = true.
Proof.
  destruct p as [item []]; [done|]. intros [= <-]. unfold is_cancellation. rewrite makeEvent_name.
  destruct sid as [sid|]; [|reflexivity]. unfold makeEvent. by destruct (sid =? "")%string.
Qed.

Lemma omap_cons_list {A B} (f : A -> option B) x l : omap f (x :: l) = option_list (f x) ++ omap f l.
Proof. cbn. by destruct (f x). Qed.

Section Queue.
Context `{ProtobufRuntime} `{Sodium} `{Zstd} `{Fflate}.

(** ** What may happen during a dialog *)
Definition serving (c : ft) : Prop :=
  ready c /\ _downloadQueueRunning c = true /\ List.filter is_request (_msgs (super c)) = [].
(** [ms] were sent and [evs] pushed between two states. *)
Definition goes_out (rs : list Message.t) (es : list event) (s s' : ft * page) : Prop :=
  (exists ms, _ws (super s'.1) = option_map (send_all ms) (_ws (super s.1)) /\ List.filter is_request ms = rs) /\
  (exists evs, events s'.2 = events s.2 ++ evs /\ List.filter is_cancellation evs = es).
(** The rest of the page queues [q]; it neither asks for files nor answers the dialog. *)
Definition queueing (q : list download_item) (f : ft * page -> ft * page) : Prop := forall s, serving s.1 ->
  serving (f s).1 /\ _downloadQueue (f s).1 = _downloadQueue s.1 ++ q /\
  _sessionId (super (f s).1) = _sessionId (super s.1) /\ dialogs (page_io (f s).2) = dialogs (page_io s.2) /\
  goes_out [] [] s (f s).

Lemma goes_out_same s s' : _ws (super s'.1) = _ws (super s.1) -> events s'.2 = events s.2 -> goes_out [] [] s s'.
Proof.
  intros Ew Ee. split; exists []; (split; [|done]); [rewrite Ew|by rewrite Ee, app_nil_r].
  by destruct (_ws (super s.1)).
Qed.
Lemma goes_out_trans rs es rs' es' s s' s'' :
  goes_out rs es s s' -> goes_out rs' es' s' s'' -> goes_out (rs ++ rs') (es ++ es') s s''.
Proof.
  intros [(ms & Ew & Er) (evs & Ee & Ec)] [(ms' & Ew' & Er') (evs' & Ee' & Ec')]. split.
  - exists (ms ++ ms'). rewrite Ew', Ew, List.filter_app, Er, Er'. split; [|done].
    destruct (_ws (super s.1)); [|done]. cbn. by rewrite send_all_app.
  - exists (evs ++ evs'). rewrite Ee', Ee, List.filter_app, Ec, Ec', app_assoc. done.
Qed.

(** The page's own business: time, storage, decoded frames. *)
Lemma queueing_page g : (forall pg, events (g pg) = events pg /\ dialogs (page_io (g pg)) = dialogs (page_io pg)) ->
  queueing [] (fun s => (s.1, g s.2)).
Proof.
  intros Hg [c pg] Hs. destruct (Hg pg) as [He Hd]. cbn. split; [done|]. split; [by rewrite app_nil_r|].
  split; [done|]. split; [done|]. by apply goes_out_same.
Qed.
(** The message pump's interval. *)
Lemma queueing_pump : queueing [] (exec (in_base pump)).
Proof.
  intros [c pg] ((ws & Hws & Hc) & Hr & Hm). unfold exec, in_base, zoom. cbn [fst snd] in *.
  rewrite (pump_flushes (super c) pg ws) by done. cbn [fst snd]. unfold serving, goes_out, ready.
  destruct c as [[] ? ? ? ? ? ? ? ? qd ?]. cbn in *. subst. rewrite app_nil_r. split_and!; try done.
  - eexists. split; [done|]. by apply send_all_ready.
  - by eexists.
  - exists []. by rewrite app_nil_r.
Qed.
(** Flutter asking for another file: it is queued behind the others, nothing else happens. *)
Lemma queueing_sendFiles item : queueing [item] (fun s =>
  (exec (sendFiles (d_id item) (d_path item) (d_to item) (d_fileNum item) (d_includeHidden item) true (d_isDir item))
     (s, [])).1).
Proof.
  intros [c pg] (Hr & Hrun & Hm). cbn [fst snd] in *.
  assert (E : exec (sendFiles (d_id item) (d_path item) (d_to item) (d_fileNum item) (d_includeHidden item) true
      (d_isDir item)) ((c, pg), []) = ((c <| _downloadQueue := _downloadQueue c ++ [item] |>, pg), [])).
  { destruct item, c; cbn in *; by subst. }
  rewrite E. destruct c; cbn in *. split; [by split_and!|]. split; [done|]. split; [done|]. split; [done|].
  by apply goes_out_same.
Qed.

(** One after the other. *)
Lemma queueing_then q f q' g : queueing q f -> queueing q' g -> queueing (q ++ q') (fun s => g (f s)).
Proof.
  intros Hf Hg s Hs. destruct (Hf s Hs) as (Hs1 & Eq & Ei & Ed & Eo). destruct (Hg _ Hs1) as (Hs2 & Eq2 & Ei2 & Ed2 & Eo2).
  split; [done|]. split; [by rewrite Eq2, Eq, app_assoc|]. split; [congruence|]. split; [congruence|].
  exact (goes_out_trans _ _ _ _ _ _ _ Eo Eo2).
Qed.

(** ** One turn *)
Lemma send_run m c pg : ready c -> exists c', send m (c, pg) = (Ret tt, (c', pg)) /\
  ready c' /\ _ws (super c') = option_map (send_all [m]) (_ws (super c)) /\ _msgs (super c') = _msgs (super c) /\
  _sessionId (super c') = _sessionId (super c) /\ _downloadQueue c' = _downloadQueue c /\
  _downloadQueueRunning c' = _downloadQueueRunning c.
Proof.
  intros (ws & Hws & Hc). destruct (sendMessage_sends m ws Hc) as (ws' & E & Hr). unfold send, in_base, sendMessage, on_ws.
  erewrite zoom_ret; [|cbn; rewrite Hws, E; reflexivity]. destruct c as [[] ? ? ? ? ? ? ? ? ? ?]. cbn in *. subst.
  eexists. split; [done|]. cbn. split_and!; try done; [eexists; split; [done|by rewrite Hr]|].
  unfold send_all, exec. cbn. by rewrite E.
Qed.

(** The save dialog of a new job: whether it was answered. *)
Lemma dialog_run l job d ds f c pg fs : writeJob l c = Some job -> saveTarget job = None ->
  dialogs (page_io (f (c, pg)).2) = d :: ds ->
  exists g i, ensureDownloadSaveTarget l (c, pg, f :: fs) =
      (Ret (match fate_of d with Requested => true | Declined => false end),
       ((f (c, pg)).1 <| _jobs ::= g |>, (f (c, pg)).2 <| page_io := i |>, fs)) /\ dialogs i = ds.
Proof.
  intros Hj Ht Hd. unfold ensureDownloadSaveTarget. rewrite on_self_bind. cbn [fst snd].
  rewrite self_run, Hj, Ht.
  change (truthy None) with false. cbn match. rewrite pause_run, on_self_bind.
  destruct (f (c, pg)) as [c1 pg1]. cbn [fst snd] in *.
  unfold with_io, pickDownloadSaveTarget, openSaveFilePicker. cbn [fst snd]. rewrite Hd. unfold fate_of.
  destruct d as [|cap cf|e]; cbn [fst snd].
  - exists id. eexists. split; [by destruct c1|done].
  - rewrite on_self_bind, update_run. cbn [fst snd]. eexists _, _. by split.
  - destruct (e =? "AbortError")%string; exists id; eexists; (split; [by destruct c1|done]).
Qed.

Lemma new_job item c pg : exists l m job,
  in_jobs (createDownloadJob (d_id item) (d_path item) (d_to item) (d_fileNum item) (d_isDir item)) (c, pg) =
    (Ret l, (c <| _jobs := m |>, pg)) /\ writeHeap m !! l = Some job /\ saveTarget job = None.
Proof.
  unfold in_jobs, zoom, createDownloadJob. page_steps. eexists _, _, _. split; [reflexivity|]. cbn. unfold constant.
  by rewrite list_lookup_middle.
Qed.

(** How a turn goes on. *)
Definition goes_on (q : list download_item) (rs : list Message.t) (es : list event) (s s' : ft * page) : Prop :=
  serving s'.1 /\ _downloadQueue s'.1 = _downloadQueue s.1 ++ q /\
  _sessionId (super s'.1) = _sessionId (super s.1) /\ goes_out rs es s s'.
Lemma goes_on_trans q rs es q' rs' es' s s' s'' :
  goes_on q rs es s s' -> goes_on q' rs' es' s' s'' -> goes_on (q ++ q') (rs ++ rs') (es ++ es') s s''.
Proof.
  intros (_ & Eq & Ei & Eo) (Hs & Eq' & Ei' & Eo'). split; [done|]. split; [by rewrite Eq', Eq, app_assoc|].
  split; [congruence|]. by eapply goes_out_trans.
Qed.
Lemma goes_on_jobs s g i : serving s.1 ->
  goes_on [] [] [] s (s.1 <| _jobs ::= g |>, s.2 <| page_io := i |>).
Proof.
  destruct s as [c pg]. intros Hs. destruct c, pg; cbn in *. split; [done|]. split; [by rewrite app_nil_r|].
  split; [done|]. by apply goes_out_same.
Qed.

Lemma requests item c pg : serving c -> exists c',
  send (sendAction (d_id item) (d_path item) (d_fileNum item) (d_includeHidden item)) (c, pg) = (Ret tt, (c', pg)) /\
  goes_on [] (option_list (request (item, Requested))) [] (c, pg) (c', pg).
Proof.
  intros (Hr & Hrun & Hm).
  destruct (send_run (sendAction (d_id item) (d_path item) (d_fileNum item) (d_includeHidden item)) c pg Hr)
    as (c' & E & Hr' & Hw & Hm' & Hi & Hq & Hrun').
  exists c'. split; [done|]. unfold goes_on, serving. cbn [fst snd]. rewrite Hrun', Hm', app_nil_r.
  split; [done|]. split; [done|]. split; [done|]. cbn [fst snd]. split; [by eexists|]. exists []. by rewrite app_nil_r.
Qed.
Lemma declines item c pg : serving c -> exists c' pg',
  (in_jobs (removeJob (d_id item));; pushJobError (d_id item) (d_fileNum item) "Download cancelled") (c, pg) =
    (Ret tt, (c', pg')) /\ page_io pg' = page_io pg /\
  goes_on [] [] (option_list (cancellation (_sessionId (super c)) (item, Declined))) (c, pg) (c', pg').
Proof.
  intros (Hr & Hrun & Hm).
  assert (E : in_jobs (removeJob (d_id item)) (c, pg) = (Ret tt, (c <| _jobs ::= removeJob_pure (d_id item) |>, pg)))
    by (by destruct c).
  erewrite bind_eq by exact E. unfold pushJobError. rewrite evt_run. eexists _, _. split; [reflexivity|].
  split; [done|]. split; [by destruct c|]. split; [by destruct c; cbn; rewrite app_nil_r|]. split; [by destruct c|].
  split; cbn [fst snd]. { exists []. split; [destruct c as [b]; cbn; by destruct (_ws b)|done]. }
  eexists [_]. split; [reflexivity|]. cbn [List.filter].
  erewrite (is_cancellation_true (item, Declined) (_sessionId (super c))); by destruct c.
Qed.

(** The head of the queue is served: a dialog, then the request or the cancellation. *)
Lemma turn item q f d ds c pg fs :
  serving c -> queueing q f -> dialogs (page_io pg) = d :: ds ->
  let p := (item, fate_of d) in
  exists s', startRemoteDownload item (c, pg, f :: fs) = (Ret tt, (s', fs)) /\ dialogs (page_io s'.2) = ds /\
    goes_on q (option_list (request p)) (option_list (cancellation (_sessionId (super c)) p)) (c, pg) s'.
Proof.
  intros Hs Hf Hd p. unfold startRemoteDownload. destruct (new_job item c pg) as (l & m & job & En & Hl & Ht).
  rewrite on_self_bind. cbn [fst snd]. rewrite En. set (c1 := c <| _jobs := m |>).
  assert (G1 : goes_on [] [] [] (c, pg) (c1, pg)).
  { pose proof (goes_on_jobs (c, pg) (constant m) (page_io pg) Hs) as G. by destruct pg. }
  assert (goes_on q [] [] (c, pg) (f (c1, pg)) /\ dialogs (page_io (f (c1, pg)).2) = d :: ds) as [Gf Hd2].
  { destruct (Hf (c1, pg)) as (Hs2 & Hq & Hi & Ed & Ho); [apply G1|]. split; [|by rewrite Ed].
    apply (goes_on_trans [] [] [] q [] [] _ (c1, pg)); [done|by split]. }
  destruct (dialog_run l job d ds f c1 pg fs) as (g & i & Ed & Hi); [by destruct c|done|done|].
  erewrite bind_eq by exact Ed. clear Ed. destruct (f (c1, pg)) as [c2 pg2]. cbn [fst snd].
  pose proof (goes_on_trans _ _ _ _ _ _ _ _ _ Gf (goes_on_jobs (c2, pg2) g i (proj1 Gf))) as G.
  cbn [app fst snd] in G. rewrite app_nil_r in G.
  set (c3 := c2 <| _jobs ::= g |>) in *. set (pg3 := pg2 <| page_io := i |>) in *.
  assert (Hsid : _sessionId (super c3) = _sessionId (super c)) by apply G. subst p. destruct (fate_of d); cbn match.
  - destruct (requests item c3 pg3) as (c4 & E & G4); [apply G|]. cbn [negb].
    eexists (c4, pg3). split; [by apply (on_self_run _ (c3, pg3, fs))|]. split; [by destruct pg2|].
    pose proof (goes_on_trans _ _ _ _ _ _ _ _ _ G G4) as G'. by rewrite app_nil_r in G'.
  - destruct (declines item c3 pg3) as (c4 & pg4 & E & Ei & G4); [apply G|]. cbn [negb].
    exists (c4, pg4). rewrite on_self_seq. split; [by apply (on_self_run _ (c3, pg3, fs))|].
    split; [cbn [snd]; rewrite Ei; by destruct pg2|].
    pose proof (goes_on_trans _ _ _ _ _ _ _ _ _ G G4) as G'. by rewrite app_nil_r, Hsid in G'.
Qed.

(** ** The loop *)
Lemma shift_queue c pg q : serving c -> let c' := c <| _downloadQueue := q |> in
  serving c' /\ _downloadQueue c' = q /\ _sessionId (super c') = _sessionId (super c) /\
  goes_out [] [] (c, pg) (c', pg).
Proof. intros Hs. destruct c. split; [done|]. split; [done|]. split; [done|]. by apply goes_out_same. Qed.

Lemma turns_refine arrivals : forall sched fuel c pg served ds,
  Forall2 queueing arrivals sched -> (length arrivals < fuel)%nat -> serving c ->
  fifo arrivals (_downloadQueue c) (dialogs (page_io pg)) = Some (served, ds) ->
  exists s' sched', download_turns fuel (c, pg, sched) = (Ret tt, (s', sched')) /\
    _downloadQueue s'.1 = [] /\ dialogs (page_io s'.2) = ds /\ _sessionId (super s'.1) = _sessionId (super c) /\
    goes_out (omap request served) (omap (cancellation (_sessionId (super c))) served) (c, pg) s'.
Proof.
  induction arrivals as [|q arrivals IH]; intros sched fuel c pg served ds Hf Hfuel Hs E;
    (destruct fuel as [|fuel]; [lia|]); cbn [download_turns]; rewrite on_self_bind; cbn [fst snd]; rewrite self_run;
    destruct (_downloadQueue c) as [|item items] eqn:Eq; cbn [fifo] in E; try done.
  1-2: simplify_eq; exists (c, pg), sched; split_and!; try done; by apply goes_out_same.
  destruct (dialogs (page_io pg)) as [|d ds0] eqn:Ed; [done|].
  destruct (fifo arrivals (items ++ q) ds0) as [[served' ds1]|] eqn:E1; [|done]. cbn in E. injection E as <- <-.
  inversion Hf as [|? f ? fs Hq Hfs]; subst. rewrite on_self_bind, update_run. cbn [fst snd].
  destruct (shift_queue c pg items Hs) as (Hs1 & Eq1 & Ei1 & G1). set (c1 := c <| _downloadQueue := items |>) in *.
  destruct (turn item q f d ds0 c1 pg fs Hs1 Hq Ed) as ([c2 pg2] & Et & Ed2 & Hs2 & Eq2 & Ei2 & G2).
  erewrite bind_eq by exact Et. cbn [fst snd] in *.
  edestruct (IH fs fuel c2 pg2) as (s' & sched' & E' & Hn & Hd' & Hi' & G'); [done|cbn in Hfuel; lia|done| |].
  { rewrite Eq2, Eq1, Ed2. exact E1. }
  exists s', sched'. split; [exact E'|]. split; [done|]. split; [done|]. split; [congruence|].
  rewrite Ei2, Ei1 in *. pose proof (goes_out_trans _ _ _ _ _ _ _ (goes_out_trans _ _ _ _ _ _ _ G1 G2) G') as G.
  by rewrite !omap_cons_list.
Qed.

End Queue.
