(* ===== verification/FtCancel.v ===== *)
(** * Cancelling an upload

    [pumpUploadBlocks] holds on to its job across the [await] of a read.  What is still sent for a
    job that was removed meanwhile (cancelled by the user, refused by the peer): the block being
    read, no other one, and what the end of a file calls for if the block was its last. *)
From S2P Require Import Prelude JsMap JsStr Json Bytes ProtoWire ProtoFile ProtoSession ProtoMessage Crypto.
From S2P Require Import PushEvent Websock SessionConnect FtProtocol FtBrowserIo FtZip Page FtJobs SessionBase.
From S2P Require Import FtJobsFacts FtConnection FtTransfer.
Local Open Scope list_scope.

Section Cancel.
Context `{ProtobufRuntime} `{Sodium} `{Zstd} `{Fflate}.

(** The job is not, or no longer, one of the session's uploads. *)
Definition gone (id : Z) (c : ft) : Prop := map_get (readJobs (_jobs c)) id = None.
Lemma gone_read_job id c : gone id c -> read_job id c = None.
Proof. unfold gone, read_job, getReadJob. by intros ->. Qed.
Lemma cancelJob_gone id c pg : map_ok (readJobs (_jobs c)) -> gone id (exec (cancelJob id) (c, pg)).1.
Proof.
  intros Hok. unfold cancelJob, exec, in_jobs. rewrite zoom_bind. unfold removeJob. rewrite update_run. cbn [fst snd].
  set (c1 := c <| _jobs := removeJob_pure id (_jobs c) |>).
  assert (Hj : _jobs (send (cancelAction id) (c1, pg)).2.1 = _jobs c1).
  { unfold send, in_base, zoom. destruct (sendMessage _ _) as [r [b pg']]. by destruct c1. }
  unfold gone. rewrite Hj. subst c1. destruct c as [? ? ? [] ? ? ? ? ? ? ?]. cbn in *. unfold constant.
  by apply map_get_delete_eq.
Qed.

(** What a block read leaves behind, whether or not its job is still listed. *)
Lemma finish_read_orphan l f d c pg j : readHeap (_jobs c) !! l = Some j ->
  exists c' j', in_jobs (finishBlockRead l (Reading f (Ret d))) (c, pg) =
      (Ret (Some (d, size f <=? offset j + len d)), (c', pg)) /\
    readHeap (_jobs c') !! l = Some j' /\
    (r_id j' = r_id j /\ r_fileNum j' = r_fileNum j /\ r_files j' = r_files j /\ uploadFiles j' = uploadFiles j) /\
    blkId j' = blkId j + 1 /\ readJobs (_jobs c') = readJobs (_jobs c) /\ super c' = super c.
Proof.
  intros Hj. unfold in_jobs, zoom, finishBlockRead. page_steps. unfold set_read, updateSpeed.
  destruct c as [? ? ? [ws rs ps wh rh] ? ? ? ? ? ? ?]. cbn in *. unfold constant.
  rewrite list_lookup_alter_eq, Hj. eexists _, _. split; [destruct j; reflexivity|].
  cbn. rewrite list_lookup_alter_eq, Hj. split; [reflexivity|]. by destruct j.
Qed.

Section Orphan.
(** A pump that waits for a block of the job [j], which is removed meanwhile. *)
Context (id : Z) (c : ft) (pg : page) (l : jobref) (j : ReadJob) (f : File) (d : bytes).
Hypothesis listed : read_job id c = Some (l, j).
Hypothesis pumping : active j = true.
Hypothesis reading : startBlockRead j = Reading f (Ret d).
Hypothesis some_bytes : 0 < len d.
Context (meanwhile : ft * page -> ft * page) (j1 : ReadJob).
Hypothesis removed : gone id (meanwhile (c, pg)).1.
Hypothesis orphan : readHeap (_jobs (meanwhile (c, pg)).1) !! l = Some j1.
Definition block_in_flight : Message.t := blockResponse id (r_fileNum j1) d false (blkId j1 + 1).

(** Whether the block in flight ends its file, and whether that file is the upload's last one. *)
Definition ends_file : bool := size f <=? offset j1 + len d.
Definition more_files_follow : bool := r_fileNum j1 + 1 <? len (r_files j1).

(** The turn resumes with the block read. *)
Lemma orphan_turn again fs : exists c2 pg2 j2,
  pump_turn id again ((c, pg), meanwhile :: fs) =
    (if ends_file then
       if more_files_follow then on_self (advanceUploadAfterFile id l (r_fileNum j1))
       else on_self (queueMsg (doneResponse id (r_fileNum j1)));; on_self (in_jobs (removeJob id));;
            on_self (job_done id (r_fileNum j1))
     else pause;; again) ((enqueue block_in_flight c2, pg2), fs) /\
  readHeap (_jobs c2) !! l = Some j2 /\
  (r_id j2 = r_id j1 /\ r_fileNum j2 = r_fileNum j1 /\ r_files j2 = r_files j1 /\ uploadFiles j2 = uploadFiles j1) /\
  gone id c2 /\ super c2 = super (meanwhile (c, pg)).1 /\
  pg2 = (meanwhile (c, pg)).2.
Proof.
  unfold pump_turn. rewrite on_self_bind. cbn [fst snd]. unfold self, gets. cbn [fst snd]. rewrite listed, pumping.
  cbn [negb]. cbv zeta. rewrite reading, pause_bind, on_self_bind. cbn [fst snd].
  destruct (meanwhile (c, pg)) as [c1 pg1]. cbn [fst snd] in *.
  destruct (finish_read_orphan l f d c1 pg1 j1 orphan) as (c2 & j2 & E & Hj2 & (Ei & En & Ef & Eu) & Eb & Er & Es).
  rewrite E. rewrite on_self_bind. cbn [fst snd]. unfold readJob. rewrite Hj2. cbv iota.
  rewrite (proj2 (Z.ltb_lt _ _) some_bytes), on_self_bind. cbn [fst snd]. rewrite queueMsg_run, En, Eb.
  exists c2, pg1, j2. unfold block_in_flight, end_of_file. rewrite En, Ef. do 3 (split; [done|]).
  split; [|done]. unfold gone in *. by rewrite Er.
Qed.

(** What follows it: after the last block of a file the question about the next one, or [Done]. *)
Definition follow_up : list Message.t :=
  if ends_file then
    if more_files_follow then
      match nth_file (uploadFiles j1) (r_fileNum j1 + 1) with
      | Some f' => [digestResponse (r_id j1) (r_fileNum j1 + 1) (size f') (lastModified f' / 1000)]
      | None => []
      end
    else [doneResponse id (r_fileNum j1)]
  else [].
Lemma file_goes_on : offset j1 + len d < size f -> ends_file = false /\ follow_up = [].
Proof. intros Hlt. unfold follow_up, ends_file. by destruct (Z.leb_spec (size f) (offset j1 + len d)); [lia|]. Qed.
Definition reports : list event :=
  if ends_file && negb more_files_follow then
    [makeEvent "job_done" (strs [("id"%string, string_of_Z id); ("file_num"%string, string_of_Z (r_fileNum j1))])
       (_sessionId (super (meanwhile (c, pg)).1))]
  else [].
Definition enqueued (ms : list Message.t) (c : ft) : ft := foldl (fun c m => enqueue m c) c ms.

Lemma enqueued_super ms c1 c2 : super c1 = super c2 -> super (enqueued ms c1) = super (enqueued ms c2).
Proof.
  unfold enqueued. revert c1 c2. induction ms as [|m ms IH]; intros c1 c2 E; [done|]. apply IH.
  destruct c1, c2. cbn in *. by subst.
Qed.
Lemma enqueued_msgs ms c1 : _msgs (super (enqueued ms c1)) = _msgs (super c1) ++ ms.
Proof.
  unfold enqueued. revert c1. induction ms as [|m ms IH]; intros c1; cbn [foldl]; [by rewrite app_nil_r|].
  rewrite IH. destruct c1 as [[]]. unfold enqueue. cbn. unfold constant. by rewrite <- app_assoc.
Qed.
(** Moving on to the next file of an upload that is no longer listed. *)
Lemma orphan_advances c1 pg1 j2 : readHeap (_jobs c1) !! l = Some j2 ->
  r_id j2 = r_id j1 -> r_fileNum j2 = r_fileNum j1 -> r_files j2 = r_files j1 -> uploadFiles j2 = uploadFiles j1 ->
  more_files_follow = true -> exists c2, advanceUploadAfterFile id l (r_fileNum j1) (c1, pg1) = (Ret tt, (c2, pg1)) /\
    super c2 = super (enqueued (match nth_file (uploadFiles j1) (r_fileNum j1 + 1) with
      | Some f' => [digestResponse (r_id j1) (r_fileNum j1 + 1) (size f') (lastModified f' / 1000)]
      | None => [] end) c1).
Proof.
  intros Hj Hid Hn Hfs Hus Hmore. unfold advanceUploadAfterFile. erewrite bind_eq by apply on_readJob_run.
  set (g := fun j => match nth_file (uploadFiles j) _ with Some f => _ | None => j end).
  set (c3 := c1 <| _jobs ::= set_read l g |>).
  assert (Hj3 : readHeap (_jobs c3) !! l = Some (g j2)).
  { change (readHeap (_jobs c3)) with (readHeap (set_read l g (_jobs c1))). unfold set_read.
    destruct (_jobs c1). cbn in *. unfold constant. by rewrite list_lookup_alter_eq, Hj. }
  assert (Hg : r_id (g j2) = r_id j1 /\ r_files (g j2) = r_files j1 /\ uploadFiles (g j2) = uploadFiles j1).
  { unfold g. destruct (nth_file (uploadFiles j2) (r_fileNum j1)); by destruct j2. }
  destruct Hg as (Hgi & Hgf & Hgu). erewrite bind_eq by apply self_run. cbv zeta. unfold readJob. rewrite Hj3, Hgf.
  unfold more_files_follow in Hmore. rewrite Hmore. erewrite bind_eq by apply on_readJob_run.
  set (h := fun j : ReadJob => j <| r_fileNum := _ |> <| file := _ |> <| offset := _ |> <| blkId := _ |>
    <| r_finishedSize := _ |> <| active := _ |> <| r_waitingConfirm := _ |>).
  set (c4 := c3 <| _jobs ::= set_read l h |>).
  assert (Hj4 : readHeap (_jobs c4) !! l = Some (h (g j2))).
  { change (readHeap (_jobs c4)) with (readHeap (set_read l h (_jobs c3))). unfold set_read.
    destruct (_jobs c3). cbn in *. unfold constant. by rewrite list_lookup_alter_eq, Hj3. }
  unfold queueDigestForCurrentFile. erewrite bind_eq by apply self_run. unfold readJob. rewrite Hj4.
  assert (Hcf : current_file (h (g j2)) = nth_file (uploadFiles j1) (r_fileNum j1 + 1)).
  { unfold current_file, h. rewrite <- Hgu. destruct (g j2). cbn. by destruct (nth_file _ _). }
  assert (Hhi : r_id (h (g j2)) = r_id j1 /\ r_fileNum (h (g j2)) = r_fileNum j1 + 1)
    by (rewrite <- Hgi; unfold h; by destruct (g j2)).
  destruct Hhi as [Hhi Hhn]. rewrite Hcf. destruct (nth_file (uploadFiles j1) (r_fileNum j1 + 1)) as [f'|].
  - rewrite queueMsg_run, Hhi, Hhn. eexists. split; [reflexivity|]. apply (enqueued_super [_]). by destruct c1.
  - eexists. split; [reflexivity|]. by destruct c1.
Qed.

(** C26.  An upload removed while a block is being read sends that block and no other one, whatever
    happens meanwhile, as long as the job is not entered again.  If the block does not end its file
    nothing else is sent and nothing reported; the code only notices that the job is gone before it
    reads again, so a block that ends its file is still followed by the question about the next
    file, or, in the last file, by [Done] and the report that the job is done. *)
Theorem removed_upload_stops after fuel fs :
  (forall s, gone id s.1 -> gone id (after s).1) ->
  exists c2 pg2, pump_turns (S (S fuel)) id ((c, pg), meanwhile :: after :: fs) =
      (Ret tt, if ends_file then ((c2, pg2), after :: fs) else (after (c2, pg2), fs)) /\
    super c2 = super (enqueued (block_in_flight :: follow_up) (meanwhile (c, pg)).1) /\
    events pg2 = events (meanwhile (c, pg)).2 ++ reports.
Proof.
  intros Hafter. change (pump_turns (S (S fuel)) id) with (pump_turn id (pump_turns (S fuel) id)).
  destruct (orphan_turn (pump_turns (S fuel) id) (after :: fs)) as (c2 & pg2 & j2 & E & Hj & Hsame & Hg & Hs & ->).
  rewrite E. clear E. unfold follow_up, reports. fold ends_file more_files_follow.
  set (c1 := (meanwhile (c, pg)).1) in *. set (pg1 := (meanwhile (c, pg)).2).
  assert (Hs1 : super (enqueue block_in_flight c2) = super (enqueue block_in_flight c1)) by (by apply (enqueued_super [_])).
  destruct ends_file; [destruct more_files_follow eqn:Hmore|]; cbn [andb negb].
  - destruct Hsame as (Hid & Hn & Hfs & Hus).
    destruct (orphan_advances (enqueue block_in_flight c2) pg1 j2) as (c3 & E3 & Hs3); try done.
    exists c3, pg1. split; [by erewrite on_self_run by exact E3|]. split; [|by rewrite app_nil_r].
    rewrite Hs3. exact (enqueued_super _ _ _ Hs1).
  - rewrite !on_self_bind. cbn [fst snd]. rewrite queueMsg_run. rewrite on_self_bind. cbn [fst snd].
    set (c3 := enqueue _ (enqueue _ c2)).
    assert (E3 : in_jobs (removeJob id) (c3, pg1) = (Ret tt, (c3 <| _jobs ::= removeJob_pure id |>, pg1)))
      by (by destruct c3). rewrite E3. unfold on_self, here, self_host, sync, job_done. cbn [fst snd]. rewrite evt_run.
    assert (Hsup : super c3 = super (enqueued [block_in_flight; doneResponse id (r_fileNum j1)] c1))
      by (apply (enqueued_super [_; _]); exact Hs).
    assert (Hsid : _sessionId (super (c3 <| _jobs ::= removeJob_pure id |>)) = _sessionId (super c1)).
    { transitivity (_sessionId (super c3)); [by destruct c3|]. rewrite Hsup. by destruct c1 as [[]]. }
    eexists _, _. split; [reflexivity|]. split; [rewrite <- Hsup; by destruct c3|]. rewrite Hsid. by destruct pg1.
  - rewrite pause_bind. cbn [fst snd].
    exists (enqueue block_in_flight c2), pg1. split; [|split; [exact Hs1|by rewrite app_nil_r]].
    change (pump_turns (S fuel) id) with (pump_turn id (pump_turns fuel id)). unfold pump_turn.
    rewrite on_self_bind. unfold self, gets. cbn [fst snd]. rewrite gone_read_job; [by destruct (after _)|].
    apply Hafter. cbn. unfold gone in *. by destruct c2.
Qed.
End Orphan.
End Cancel.
