(* ===== verification/FtFolder.v ===== *)
(** * Uploading a folder from end to end

    [sendFolderUpload] announces the files of a folder and asks about the first one; every answer of
    the peer (skip this file, or send it from some block on) makes the session send that file and
    ask about the next one.  What is sent for any answers, whatever the page does meanwhile. *)
From S2P Require Import Prelude JsMap JsStr Json Bytes ProtoWire ProtoFile ProtoSession ProtoMessage Crypto.
From S2P Require Import PushEvent Websock SessionConnect FtProtocol FtBrowserIo FtZip Page FtJobs SessionBase.
From S2P Require Import FtConnection FtTransfer.
Local Open Scope list_scope.

(** What the peer answers about a file. *)
Inductive answer := Skip | From (blk : Z).
(** One answer: what happens before it arrives, and during the waits of its handling. *)
Record round := {
  between : ft * page -> ft * page;
  answered : answer;
  during : list (ft * page -> ft * page) }.

(** ** What is sent *)
Definition asks (id n : Z) (f : File) : Message.t := digestResponse id n (size f) (lastModified f / 1000).
Definition file_messages (id n : Z) (f : File) (a : answer) : list Message.t :=
  match a with
  | Skip => []
  | From b => block_messages id n b (blocks_of (drop (Z.to_nat (b * BLOCK_SIZE)) (content f)))
  end.
(** After the last file: [Done], unless it was skipped. *)
Definition end_messages (id n : Z) (a : answer) : list Message.t :=
  match a with Skip => [] | From _ => [doneResponse id n] end.
Fixpoint folder_messages (id n : Z) (fs : list File) (rs : list answer) : list Message.t :=
  match fs, rs with
  | f :: fs, a :: rs =>
      asks id n f :: file_messages id n f a ++
      match fs with [] => end_messages id n a | _ => folder_messages id (n + 1) fs rs end
  | _, _ => []
  end.

Section Folder.
Context `{ProtobufRuntime} `{Sodium} `{Zstd} `{Fflate}.

(** Running an asynchronous handler with what happens during its waits. *)
Definition with_waits (sched : list (ft * page -> ft * page))
    (m : js ((ft * page) * list (ft * page -> ft * page)) unit) : js (ft * page) unit :=
  fun s => let '(r, (s, _)) := m (s, sched) in (r, s).
(** What [msgLoop] does with the peer's answer about file [n]. *)
Definition answer_message (id n : Z) (a : answer) : Message.t :=
  match a with Skip => sendConfirmAction id n true 0 | From b => sendConfirmAction id n false b end.
Definition receive_answer (m : Message.t) : js ((ft * page) * list (ft * page -> ft * page)) unit :=
  match Message.file_action m with Some fa => handleFileAction fa | None => skip end.
Fixpoint answers (id n : Z) (rs : list round) : js (ft * page) unit :=
  match rs with
  | [] => skip
  | r :: rs =>
      modify (between r);;
      with_waits (during r) (receive_answer (answer_message id n (answered r)));;
      answers id (n + 1) rs
  end.
(** The file can be read, the answer is within the file, and the waits are many enough for it. *)
Definition fair (f : File) (r : round) : Prop :=
  broken_at f = None /\ benign (between r) /\ Forall benign (during r) /\
  match answered r with
  | Skip => True
  | From b => 0 <= b /\ b * BLOCK_SIZE <= size f /\
      (2 * length (blocks_of (drop (Z.to_nat (b * BLOCK_SIZE)) (content f))) < length (during r))%nat
  end.

(** ** An upload between two files *)
Definition of_files (id : Z) (fs : list File) (plan : Z * list File * list FileEntry.t) : Prop :=
  plan.1 = (id, fs) /\ len plan.2 = len fs.
(** The upload [id] of the files [fs]. *)
Definition uploads (m : FileJobManager) (id : Z) (l : jobref) (fs : list File) (K : ReadJob -> Prop) : Prop :=
  map_get (readJobs m) id = Some l /\ map_ok (readJobs m) /\
  exists j, readHeap m !! l = Some j /\ of_files id fs (plan_of j) /\ K j.
Definition at_file (fs : list File) (n : Z) (j : ReadJob) : Prop :=
  r_fileNum j = n /\ file j = nth_file fs n /\ offset j = 0 /\ blkId j = 0.

Lemma uploads_set m id l fs K g (K' : ReadJob -> Prop) :
  (forall j, plan_of j = plan_of (g j) /\ (of_files id fs (plan_of j) -> K j -> K' (g j))) ->
  uploads m id l fs K -> uploads (set_read l g m) id l fs K'.
Proof.
  intros Hg (Hm & Hok & j & Hj & Hp & HK). destruct m as [wj rj pu wh rh]. cbn in *. unfold uploads, constant. cbn.
  split; [done|]. split; [done|]. unfold constant. rewrite list_lookup_alter_eq, Hj. exists (g j).
  destruct (Hg j) as [Ep Hk]. split; [done|]. rewrite <- Ep. auto.
Qed.
Lemma nth_file_some (fs : list File) n : 0 <= n < len fs -> exists f, nth_file fs n = Some f.
Proof.
  intros Hn. unfold nth_file. destruct (Z.ltb_spec n 0); [lia|]. apply lookup_lt_is_Some. unfold len in *. lia.
Qed.


Lemma ask_next c pg id l fs n f : uploads (_jobs c) id l fs (at_file fs n) -> nth_file fs n = Some f ->
  queueDigestForCurrentFile l (c, pg) = (Ret tt, (enqueue (asks id n f) c, pg)).
Proof.
  intros (_ & _ & j & Hj & [Hp _] & Hn & Hf & _) Ef. injection Hp as Hid _. unfold queueDigestForCurrentFile.
  rewrite bind_gets || erewrite bind_eq by apply self_run. unfold readJob. rewrite Hj. unfold current_file.
  by rewrite Hf, Ef, Hid, Hn.
Qed.

(** Moving on after file [n]. *)
Lemma advance_asks c pg id l fs n f : uploads (_jobs c) id l fs (fun _ => True) -> 0 <= n ->
  nth_file fs (n + 1) = Some f ->
  exists c', advanceUploadAfterFile id l n (c, pg) = (Ret tt, (c', pg)) /\
    super c' = super (enqueue (asks id (n + 1) f) c) /\ _uploadTick c' = _uploadTick c /\
    uploads (_jobs c') id l fs (at_file fs (n + 1)).
Proof.
  intros Hu Hn0 Hf. unfold advanceUploadAfterFile. erewrite bind_eq by apply on_readJob_run.
  set (g := fun j => match nth_file (uploadFiles j) n with Some f => _ | None => j end).
  set (c1 := c <| _jobs ::= set_read l g |>).
  assert (Hu1 : uploads (_jobs c1) id l fs (fun _ => True)).
  { change (_jobs c1) with (set_read l g (_jobs c)). eapply uploads_set, Hu. intros j. split; [|done].
    unfold g. by destruct (nth_file (uploadFiles j) n). }
  erewrite bind_eq by apply self_run. cbv zeta. unfold readJob.
  pose proof Hu1 as (_ & _ & j1 & Hj1 & [_ Hl] & _). rewrite Hj1. cbn in Hl.
  assert (n + 1 < len fs).
  { unfold nth_file in Hf. destruct (n + 1 <? 0); [done|]. apply lookup_lt_Some in Hf. unfold len. lia. }
  destruct (Z.ltb_spec (n + 1) (len (r_files j1))); [|lia]. erewrite bind_eq by apply on_readJob_run.
  set (c2 := c1 <| _jobs ::= _ |>).
  assert (Hu2 : uploads (_jobs c2) id l fs (at_file fs (n + 1))).
  { eapply uploads_set, Hu1. intros j. split; [done|]. intros [Ep _] _. injection Ep as _ ->. by split. }
  rewrite (ask_next c2 pg id l fs (n + 1) f Hu2 Hf). eexists. split; [reflexivity|].
  unfold enqueue. by destruct c as [[] ? ? ? ? ? ? ? ? ? ?].
Qed.
Lemma advance_ends c pg id l fs n : uploads (_jobs c) id l fs (fun _ => True) -> len fs <= n + 1 ->
  exists c' pg', advanceUploadAfterFile id l n (c, pg) = (Ret tt, (c', pg')) /\
    super c' = super c /\ _uploadTick c' = _uploadTick c /\
    job_over id n (_sessionId (super c)) (_jobs c') (events pg').
Proof.
  intros Hu Hn. unfold advanceUploadAfterFile. erewrite bind_eq by apply on_readJob_run.
  set (g := fun j => match nth_file (uploadFiles j) n with Some f => _ | None => j end).
  set (c1 := c <| _jobs ::= set_read l g |>).
  assert (Hu1 : uploads (_jobs c1) id l fs (fun _ => True)).
  { change (_jobs c1) with (set_read l g (_jobs c)). eapply uploads_set, Hu. intros j. split; [|done].
    unfold g. by destruct (nth_file (uploadFiles j) n). }
  erewrite bind_eq by apply self_run. cbv zeta. unfold readJob.
  pose proof Hu1 as (_ & Hok & j1 & Hj1 & [_ Hl] & _). rewrite Hj1. cbn in Hl.
  destruct (Z.ltb_spec (n + 1) (len (r_files j1))); [lia|].
  destruct (remove_and_report c1 pg id n Hok) as (c2 & pg2 & E & Ho & Hs & Ht).
  exists c2, pg2. split; [exact E|]. split; [done|]. split; [done|]. exact Ho.
Qed.

(** ** One answer *)
Definition next_messages (id : Z) (fs : list File) (n : Z) (a : answer) : list Message.t :=
  match nth_file fs (n + 1) with Some f => [asks id (n + 1) f] | None => end_messages id n a end.
Definition after_file (id : Z) (l : jobref) (fs : list File) (n : Z) (sid : option string) (m : FileJobManager)
    (evs : list event) : Prop :=
  match nth_file fs (n + 1) with
  | Some _ => uploads m id l fs (at_file fs (n + 1))
  | None => job_over id n sid m evs
  end.
Lemma nth_file_none (fs : list File) n : 0 <= n -> nth_file fs n = None -> len fs <= n.
Proof.
  intros Hn. unfold nth_file. destruct (Z.ltb_spec n 0); [lia|]. rewrite lookup_ge_None. unfold len. lia.
Qed.
Lemma tracked_super w0 q0 extra c c' : super c' = super c -> tracked w0 q0 extra c -> tracked w0 q0 extra c'.
Proof. intros E. unfold tracked. by rewrite E. Qed.
Lemma enqueue_session m c : _sessionId (super (enqueue m c)) = _sessionId (super c).
Proof. by destruct c as [[] ? ? ? ? ? ? ? ? ? ?]. Qed.

(** Moving on, to the next file or to the end. *)
Lemma advance_spec w0 q0 extra c pg id l fs n sid : uploads (_jobs c) id l fs (fun _ => True) -> 0 <= n ->
  tracked w0 q0 extra c -> _sessionId (super c) = sid ->
  exists c' pg', advanceUploadAfterFile id l n (c, pg) = (Ret tt, (c', pg')) /\
    tracked w0 q0 (extra ++ next_messages id fs n Skip) c' /\ after_file id l fs n sid (_jobs c') (events pg') /\
    _sessionId (super c') = sid /\ _uploadTick c' = _uploadTick c.
Proof.
  intros Hu Hn Ht <-. unfold next_messages, after_file. destruct (nth_file fs (n + 1)) as [f|] eqn:Ef.
  - destruct (advance_asks c pg id l fs n f Hu Hn Ef) as (c' & E & Hs & Hk & Hu'). exists c', pg.
    split; [done|]. split; [eapply tracked_super, tracked_queue, Ht; exact Hs|]. split; [done|].
    by rewrite Hs, enqueue_session.
  - apply nth_file_none in Ef; [|lia]. destruct (advance_ends c pg id l fs n Hu Ef) as (c' & pg' & E & Hs & Hk & Ho).
    exists c', pg'. split; [done|]. split; [rewrite app_nil_r; by eapply tracked_super|]. by rewrite Hs.
Qed.

Lemma uploading_uploads c id l f n o b fs : uploading (of_files id fs) c id l f n o b ->
  uploads (_jobs c) id l fs (fun _ => True).
Proof. intros (Hm & Hok & j & Hj & _ & _ & _ & Hp & _). split; [done|]. split; [done|]. by exists j. Qed.
(** What [pumpUploadBlocks] does at the end of file [n]. *)
Lemma file_ends w0 q0 id l fs f n k sid : 0 <= n -> forall c pg o b extra job sched,
  uploading (of_files id fs) c id l f n o b -> tracked w0 q0 extra c -> _sessionId (super c) = sid ->
  readJob l c = Some job -> r_fileNum job = n -> of_files id fs (plan_of job) ->
  exists c' pg', end_of_file id l job (c, pg, sched) = (Ret tt, (c', pg', sched)) /\
    tracked w0 q0 (extra ++ next_messages id fs n (From k)) c' /\ after_file id l fs n sid (_jobs c') (events pg') /\
    _sessionId (super c') = sid.
Proof.
  intros Hn c pg o b extra job sched Hup Ht Hs Hj Hnum [Hp Hl]. cbn in Hl.
  destruct (nth_file fs (n + 1)) as [f'|] eqn:Ef.
  - unfold end_of_file. rewrite Hnum. destruct (Z.ltb_spec (n + 1) (len (r_files job))).
    2: { unfold nth_file in Ef. destruct (n + 1 <? 0); [done|]. apply lookup_lt_Some in Ef. unfold len in *. lia. }
    destruct (advance_spec w0 q0 extra c pg id l fs n sid (uploading_uploads _ _ _ _ _ _ _ _ Hup) Hn Ht Hs)
      as (c' & pg' & E & Ht' & Ha & Hs' & _). exists c', pg'. erewrite on_self_run by exact E.
    split; [done|]. unfold next_messages in *. by rewrite Ef in *.
  - unfold next_messages, after_file. rewrite Ef. apply nth_file_none in Ef; [|lia].
    apply (last_file_ends w0 q0 id l f n sid c pg o b extra job sched); try done; [|cbn; lia].
    destruct Hup as (Hm & Hok & j & Hj' & Ha & Hf & Hn' & [_ Hl'] & Hrest). split; [done|]. split; [done|].
    exists j. split_and!; try done; [|apply Hrest..]. cbn in *. lia.
Qed.

(** The session has sent [extra] and waits for the answer about file [n]. *)
Definition waits (w0 : Websock) (q0 extra : list Message.t) (id : Z) (l : jobref) (fs : list File) (n : Z)
    (sid : option string) (c : ft) : Prop :=
  tracked w0 q0 extra c /\ uploads (_jobs c) id l fs (at_file fs n) /\ _sessionId (super c) = sid /\
  _uploadTick c = false.
Lemma waits_benign w0 q0 extra id l fs n sid f s : readyState w0 <> CONNECTING -> benign f ->
  waits w0 q0 extra id l fs n sid s.1 -> waits w0 q0 extra id l fs n sid (f s).1.
Proof.
  intros Hc Hf (Ht & Hu & Hs & Hk). destruct (Hf s (tracked_ready _ _ _ _ Hc Ht)) as (Ej & Ek & Es & _).
  unfold waits. rewrite Ej, Ek, Es. by split; [apply tracked_benign|].
Qed.

Lemma uploads_read_job c id l fs K : uploads (_jobs c) id l fs K ->
  exists j, read_job id c = Some (l, j).
Proof. intros (Hm & _ & j & Hj & _). exists j. unfold read_job, getReadJob. rewrite Hm. cbn. by rewrite Hj. Qed.

(** The two branches of [handleFileAction]. *)
Lemma answer_skip id n c pg sched l j : read_job id c = Some (l, j) ->
  receive_answer (answer_message id n Skip) (c, pg, sched) = on_self (advanceUploadAfterFile id l n) (c, pg, sched).
Proof.
  intros E. change (receive_answer (answer_message id n Skip)) with
    (job ← on_self (self (read_job id)); match job with None => skip
     | Some (l, _) => on_self (advanceUploadAfterFile id l n) end : js ((ft * page) * list (ft * page -> ft * page)) unit).
  rewrite on_self_bind. unfold self, gets. cbn [fst snd]. by rewrite E.
Qed.
Definition resume_at (b : Z) (j : ReadJob) : ReadJob :=
  if 0 <? b then j <| offset := (b * BLOCK_SIZE)%Z |> <| r_finishedSize := (b * BLOCK_SIZE)%Z |> <| blkId := b |> else j.
Definition confirmed (b : Z) (j : ReadJob) : ReadJob := (resume_at b j) <| active := true |> <| r_waitingConfirm := false |>.
Lemma answer_from id n b c pg sched l j : read_job id c = Some (l, j) ->
  receive_answer (answer_message id n (From b)) (c, pg, sched) =
  pumpUploadBlocks id (c <| _jobs ::= set_read l (confirmed b) |>, pg, sched).
Proof.
  intros E. change (receive_answer (answer_message id n (From b))) with
    (job ← on_self (self (read_job id)); match job with None => skip
     | Some (l, _) =>
         (if 0 <? b then on_self (on_readJob l (fun j => j <| offset := (b * BLOCK_SIZE)%Z |>
            <| r_finishedSize := (b * BLOCK_SIZE)%Z |> <| blkId := b |>)) else skip);;
         on_self (on_readJob l (fun j => j <| active := true |> <| r_waitingConfirm := false |>));;
         pumpUploadBlocks id end : js ((ft * page) * list (ft * page -> ft * page)) unit).
  rewrite on_self_bind. unfold self, gets. cbn [fst snd]. rewrite E. unfold confirmed, resume_at. destruct (0 <? b); [|done].
  rewrite on_self_bind. cbn [fst snd]. rewrite on_readJob_run, on_self_bind. cbn [fst snd]. rewrite on_readJob_run.
  do 3 f_equal. destruct c as [? ? ? [] ? ? ? ? ? ? ?]. cbn. unfold constant, set_read. cbn. unfold constant.
  by rewrite list_alter_alter_eq.
Qed.

Lemma one_answer w0 q0 extra id l fs f n sid r c pg :
  readyState w0 <> CONNECTING -> 0 <= n -> nth_file fs n = Some f -> fair f r ->
  waits w0 q0 extra id l fs n sid c ->
  exists c' pg', with_waits (during r) (receive_answer (answer_message id n (answered r))) (c, pg) = (Ret tt, (c', pg')) /\
    tracked w0 q0 (extra ++ file_messages id n f (answered r) ++ next_messages id fs n (answered r)) c' /\
    after_file id l fs n sid (_jobs c') (events pg') /\ _sessionId (super c') = sid /\ _uploadTick c' = false.
Proof.
  intros Hc Hn Hf (Hbr & _ & Hben & Hr) (Ht & Hu & Hs & Hk). unfold with_waits.
  destruct (uploads_read_job _ _ _ _ _ Hu) as [j0 Ej0]. destruct Hu as (Hm & Hok & j & Hj & Hp & Ha).
  destruct (answered r) as [|b].
  - erewrite answer_skip by exact Ej0.
    destruct (advance_spec w0 q0 extra c pg id l fs n sid) as (c' & pg' & E & Ht' & Ha' & Hs' & Hk'); try done.
    { split; [done|]. split; [done|]. by exists j. }
    erewrite on_self_run by exact E. exists c', pg'. by rewrite Hk'.
  - destruct Hr as (Hb0 & Hbs & Hlen). erewrite answer_from by exact Ej0.
    assert (Hup : uploading (of_files id fs) (c <| _jobs ::= set_read l (confirmed b) |>) id l f n (b * BLOCK_SIZE) b).
    { destruct Ha as (Hn' & Hf' & Ho & Hb). destruct c as [? ? ? [] ? ? ? ? ? ? ?]. unfold uploading, constant, set_read. cbn in *.
      split; [done|]. split; [done|]. exists (confirmed b j). unfold constant. rewrite list_lookup_alter_eq, Hj. split; [done|].
      unfold confirmed, resume_at. rewrite Hf in Hf'. destruct (Z.ltb_spec 0 b); [by destruct j; cbn in *; subst|].
      assert (b = 0) as -> by lia. by destruct j; cbn in *; subst. }
    set (c1 := c <| _jobs ::= _ |>) in *.
    destruct (pump_sends_file (of_files id fs) w0 q0 id l f n sid (next_messages id fs n (From b)) (after_file id l fs n sid)
      Hc Hbr (file_ends w0 q0 id l fs f n b sid Hn) c1 pg (b * BLOCK_SIZE) b (during r) extra) as
      (c' & pg' & sched' & E & Ht' & Ha' & Hs' & Hk'); try done; [unfold BLOCK_SIZE in *; lia|].
    rewrite E. by exists c', pg'.
Qed.

(** ** All the answers *)
Lemma nth_file_drop (fs todo : list File) n f : 0 <= n -> f :: todo = drop (Z.to_nat n) fs ->
  nth_file fs n = Some f /\ todo = drop (Z.to_nat (n + 1)) fs.
Proof.
  intros Hn E. unfold nth_file. destruct (Z.ltb_spec n 0); [lia|]. split.
  - rewrite <- (Nat.add_0_r (Z.to_nat n)), <- lookup_drop, <- E. done.
  - replace (Z.to_nat (n + 1)) with (Z.to_nat n + 1)%nat by lia. by rewrite <- drop_drop, <- E.
Qed.
Lemma folder_run w0 q0 id l fs sid rs : forall todo f n extra c pg,
  readyState w0 <> CONNECTING -> 0 <= n -> f :: todo = drop (Z.to_nat n) fs -> Forall2 fair (f :: todo) rs ->
  waits w0 q0 (extra ++ [asks id n f]) id l fs n sid c ->
  exists c' pg', answers id n rs (c, pg) = (Ret tt, (c', pg')) /\
    tracked w0 q0 (extra ++ folder_messages id n (f :: todo) (map answered rs)) c' /\
    job_over id (n + len todo) sid (_jobs c') (events pg') /\ _sessionId (super c') = sid /\ _uploadTick c' = false.
Proof.
  induction rs as [|r rs IH]; intros todo f n extra c pg Hc Hn Htodo Hfair Hw; inversion_clear Hfair as [|? ? ? ? Hf Hfs].
  destruct (nth_file_drop _ _ _ _ Hn Htodo) as [Ef Htodo']. cbn [answers map folder_messages].
  erewrite bind_eq by reflexivity.
  pose proof (waits_benign _ _ _ _ _ _ _ _ (between r) (c, pg) Hc (proj1 (proj2 Hf)) Hw) as Hw1.
  destruct (between r (c, pg)) as [c1 pg1]. cbn [fst] in Hw1.
  destruct (one_answer _ _ _ _ _ _ _ _ _ r c1 pg1 Hc Hn Ef Hf Hw1) as (c2 & pg2 & E2 & Ht2 & Ha2 & Hs2 & Hk2).
  erewrite bind_eq by exact E2. unfold next_messages, after_file in *.
  rewrite <- app_assoc in Ht2. cbn [app] in Ht2. destruct todo as [|f' todo].
  - inversion Hfs; subst. assert (En : nth_file fs (n + 1) = None).
    { unfold nth_file. destruct (Z.ltb_spec (n + 1) 0); [done|]. apply lookup_ge_None_2. symmetry in Htodo'.
      apply drop_nil_inv in Htodo'. lia. }
    rewrite En in *. exists c2, pg2. cbn [answers]. rewrite Z.add_0_r. by split.
  - destruct (nth_file_drop _ _ (n + 1) _ ltac:(lia) Htodo') as [Ef' _]. rewrite Ef' in *.
    destruct (IH todo f' (n + 1) (extra ++ asks id n f :: file_messages id n f (answered r)) c2 pg2 Hc ltac:(lia) Htodo' Hfs)
      as (c3 & pg3 & E3 & Ht3 & Ho3 & Hrest).
    { split; [|done]. rewrite <- !app_assoc. exact Ht2. }
    exists c3, pg3. split; [exact E3|]. rewrite <- app_assoc in Ht3. split; [exact Ht3|].
    rewrite len_cons. by replace (n + (1 + len todo)) with (n + 1 + len todo) by lia.
Qed.

(** ** From the start *)
Lemma created_job m pg id local to fs f todo entries total includeHidden :
  map_ok (readJobs m) -> fs = f :: todo -> len entries = len fs ->
  exists m' l, createMultiFileUploadJob id local to 0 fs entries total includeHidden (m, pg) = (Ret l, (m', pg)) /\
    uploads m' id l fs (at_file fs 0).
Proof.
  intros Hok -> Hl. unfold createMultiFileUploadJob. page_steps. cbn [nth_file].
  set (j := {| r_id := id |}). set (m1 := m <| readHeap ::= _ |> <| readJobs := _ |>).
  assert (Hu : uploads m1 id (length (readHeap m)) (f :: todo) (at_file (f :: todo) 0)).
  { destruct m as [wj rj pu wh rh]. unfold uploads, constant. cbn in *. split; [by apply map_get_set_eq|].
    split; [by apply map_set_ok|]. exists j. unfold constant. rewrite list_lookup_middle by done. by split_and!. }
  exists (match todo with [] => m1 <| pendingUploads := map_set (pendingUploads m1) id f |> | _ => m1 end), (length (readHeap m)).
  destruct todo; (split; [reflexivity|]); [|exact Hu]. clearbody m1. by destruct m1.
Qed.
Lemma start_asks c pg plan f todo id to includeHidden :
  map_ok (readJobs (_jobs c)) -> lastFolderPlan (page_io pg) = Some plan -> files plan = f :: todo ->
  exists c' pg' l, sendFolderUpload id to includeHidden (c, pg) = (Ret tt, (c', pg')) /\
    super c' = super (enqueue (asks id 0 f)
      (enqueue (receiveAction id to (plan_entries plan) 0 (totalSize plan)) c)) /\
    _uploadTick c' = _uploadTick c /\ uploads (_jobs c') id l (files plan) (at_file (files plan) 0).
Proof.
  intros Hok Hp Hf. set (m := receiveAction id to (plan_entries plan) 0 (totalSize plan)).
  set (io1 := (page_io pg) <| lastFolderPlan := None |>). set (pg1 := pg <| page_io := io1 |>).
  assert (E0 : with_io takeFolderPlan (c, pg) = (Ret (Some plan), (c, pg1))).
  { unfold with_io, takeFolderPlan. by rewrite bind_gets; cbn [snd]; rewrite Hp. }
  unfold sendFolderUpload. erewrite bind_eq by exact E0.
  destruct (created_job (_jobs c) pg1 id (folderName plan) to _ _ _ (plan_entries plan) (totalSize plan) includeHidden Hok Hf)
    as (m' & l & E & Hu).
  { unfold len, plan_entries. by rewrite length_imap. }
  set (c1 := enqueue m (c <| _jobs := m' |>)).
  exists (enqueue (asks id 0 f) c1), pg1, l.
  assert (E1 : queueDigestForCurrentFile l (c1, pg1) = (Ret tt, (enqueue (asks id 0 f) c1, pg1))).
  { eapply ask_next with (n := 0); [exact Hu|]. by rewrite Hf. }
  split; [|by destruct c as [[] ? ? ? ? ? ? ? ? ? ?]].
  unfold in_jobs. erewrite bind_eq by (apply zoom_ret; exact E). cbn [fst snd].
  erewrite bind_eq by reflexivity. exact E1.
Qed.

(** C3.  Uploading a folder, while no other upload is being pumped.  The session announces the files of the
    picked folder (which can all be read) and asks about the first one; for every answer of the peer it sends what was asked for: nothing for a file to skip,
    else the file's blocks from the block asked for to the end, in order and complete; then it asks
    about the next file, or ends with [Done] (no [Done] when the last file is skipped), removes the
    job and reports it as done.  Nothing else is sent, whatever the page does that leaves the jobs
    alone between the answers and during the waits of their handling. *)
Theorem folder_upload_sends_files w0 c pg plan id to includeHidden rs :
  _ws (super c) = Some w0 -> readyState w0 <> CONNECTING -> map_ok (readJobs (_jobs c)) -> _uploadTick c = false ->
  lastFolderPlan (page_io pg) = Some plan -> files plan <> [] -> Forall2 fair (files plan) rs ->
  exists c' pg', (sendFolderUpload id to includeHidden;; answers id 0 rs) (c, pg) = (Ret tt, (c', pg')) /\
    tracked w0 (_msgs (super c)) (receiveAction id to (plan_entries plan) 0 (totalSize plan) ::
      folder_messages id 0 (files plan) (map answered rs)) c' /\
    job_over id (len (files plan) - 1) (_sessionId (super c)) (_jobs c') (events pg') /\ _uploadTick c' = false.
Proof.
  intros Hws Hc Hok Hk Hp Hne Hfair. destruct (files plan) as [|f todo] eqn:Ef; [done|].
  destruct (start_asks c pg plan f todo id to includeHidden Hok Hp Ef) as (c1 & pg1 & l & E1 & Hs1 & Hk1 & Hu1).
  rewrite Ef in Hu1. erewrite bind_eq by exact E1.
  set (m := receiveAction id to (plan_entries plan) 0 (totalSize plan)) in *.
  destruct (folder_run w0 (_msgs (super c)) id l (f :: todo) (_sessionId (super c)) rs todo f 0 [m] c1 pg1) as
    (c2 & pg2 & E2 & Ht2 & Ho2 & _ & Hk2); try done.
  - split; [|split; [done|split; [by rewrite Hs1, !enqueue_session|by rewrite Hk1]]].
    eapply tracked_super; [exact Hs1|]. apply (tracked_queue _ _ [m]), (tracked_queue _ _ []).
    exists []. by rewrite app_nil_r.
  - exists c2, pg2. split; [exact E2|]. split; [exact Ht2|]. rewrite len_cons.
    by replace (1 + len todo - 1) with (0 + len todo) by lia.
Qed.
End Folder.
