(* ===== verification/FtArchive.v ===== *)
(** * Downloading a folder from end to end

    Without a save dialog the blocks of a folder's files are kept in memory, and the last [Done] makes
    an archive of them.  What the archive holds when the files arrive as an upload sends them. *)
From S2P Require Import Prelude JsMap JsStr Json Bytes ProtoWire ProtoFile ProtoSession ProtoMessage Crypto.
From S2P Require Import PushEvent Websock SessionConnect FtProtocol FtBrowserIo FtZip Page FtJobs SessionBase.
From S2P Require Import FtConnection FtTransfer FtFolder.
Local Open Scope list_scope.

(** ** The entries of the archive *)
Definition archive_root (name : string) : string := or_empty name "download".
Definition entry_path (root : string) (e : FileEntry.t) : string := zipEntryPath root (FileEntry.name e).
(** The entries for files with these contents. *)
Definition archive (root : string) (fs : list FileEntry.t) (contents : list bytes) : jsmap string bytes :=
  zip_with (fun e d => (entry_path root e, d)) fs contents.

Section Entries.
Context `{Fflate}.
Lemma zip_entries_all root got fs : forall i acc, 0 <= i -> Forall (fun e => FileEntry.name e <> ""%string) fs ->
  NoDup (map_keys acc ++ map (entry_path root) fs) ->
  zip_entries root got i fs acc = Ret (acc ++ imap (fun k e => (entry_path root e, concat (got (i + Z.of_nat k)))) fs).
Proof.
  induction fs as [|e fs IH]; intros i acc Hi Hn Hd; cbn [zip_entries imap]; [by rewrite app_nil_r|].
  apply Forall_cons in Hn as [He Hn]. unfold truthy, truthy_string. rewrite bool_decide_true by done.
  cbn [negb]. rewrite concatChunks_concat. cbv beta iota delta [mbind outcome_bind].
  assert (Hnew : map_get acc (entry_path root e) = None).
  { apply map_get_None. intros Hin. apply NoDup_app in Hd as (_ & Hd & _). eapply Hd; [exact Hin|apply list_elem_of_here]. }
  fold (entry_path root e). rewrite IH; [|lia|done|].
  - rewrite map_set_new, <- app_assoc by done. cbn [app]. rewrite Z.add_0_r. do 3 f_equal. apply imap_ext.
    intros k x _. cbn [compose]. do 3 f_equal. lia.
  - rewrite map_set_new by done. unfold map_keys in *. rewrite map_app, <- app_assoc. exact Hd.
Qed.
End Entries.

(** ** The blocks *)
(** What is sent of a file. *)
Definition sent_of (f : File) (a : answer) : bytes :=
  match a with Skip => [] | From b => drop (Z.to_nat (b * BLOCK_SIZE)) (content f) end.
(** The questions and blocks of a folder, and the end, which is missing after a skipped file. *)
Fixpoint folder_body (id n : Z) (files : list File) (rs : list answer) : list Message.t :=
  match files, rs with
  | f :: files, a :: rs => asks id n f :: file_messages id n f a ++ folder_body id (n + 1) files rs
  | _, _ => []
  end.
Lemma file_messages_blocks id n f a : exists b, file_messages id n f a = block_messages id n b (blocks_of (sent_of f a)).
Proof. destruct a as [|b]; [by exists 0|by exists b]. Qed.
Lemma folder_messages_body id files : files <> [] -> forall n rs, length rs = length files ->
  folder_messages id n files rs = folder_body id n files rs ++ end_messages id (n + len files - 1) (List.last rs Skip).
Proof.
  induction files as [|f files IH]; [done|]. intros _ n [|a rs] Hl; [done|]. cbn [folder_messages folder_body].
  rewrite len_cons, <- app_comm_cons, <- app_assoc. do 2 f_equal. destruct files as [|f' files], rs as [|a' rs]; try done.
  - cbn [folder_body app List.last]. by replace (n + (1 + len []) - 1) with n by (unfold len; cbn; lia).
  - injection Hl as Hl. rewrite IH by (cbn; congruence). change (List.last (a :: a' :: rs) Skip) with (List.last (a' :: rs) Skip).
    do 2 f_equal. rewrite !len_cons. lia.
Qed.

Section Archive.
Context `{ProtobufRuntime} `{Sodium} `{Zstd} `{Fflate}.

(** ** The job while blocks arrive *)
Definition gathering (c : ft) (id : Z) (l : jobref) (name : string) (fs : list FileEntry.t) (got : Z -> list bytes) : Prop :=
  map_get (writeJobs (_jobs c)) id = Some l /\ map_ok (writeJobs (_jobs c)) /\ map_get (readJobs (_jobs c)) id = None /\
  exists j, writeHeap (_jobs c) !! l = Some j /\ saveTarget j = None /\ isFolderDownload j = true /\
    folderZipStream j = None /\ w_files j = fs /\ w_fileName j = name /\ forall n, chunksForFile j n = got n.
(** What the user is shown as the place of the job's files. *)
Definition shown_path (l : jobref) (c : ft) : string :=
  match writeHeap (_jobs c) !! l with Some j => or_empty (w_remotePath j) (w_localPath j) | None => ""%string end.
(** Nothing but the jobs changed. *)
Definition only_jobs (s s' : ft * page) : Prop :=
  super s'.1 = super s.1 /\ page_io s'.2 = page_io s.2 /\ events s'.2 = events s.2.
Definition more (n : Z) (ds : list bytes) (got : Z -> list bytes) (m : Z) : list bytes :=
  if m =? n then got m ++ ds else got m.

Lemma gathering_ext c id l name fs got got' : (forall n, got n = got' n) ->
  gathering c id l name fs got -> gathering c id l name fs got'.
Proof.
  intros E (H1' & H2' & H3' & j & Hj & H4' & H5' & H6' & H7' & H8' & Hg). split_and!; try done. exists j. split_and!; try done.
  intros n. by rewrite Hg.
Qed.
Lemma gather_block c pg id l name fs got n data packed d k : gathering c id l name fs got -> unpacks (n, data, packed) d ->
  exists c' pg', receive_message (blockResponse id n data packed k) (c, pg) = (Ret tt, (c', pg')) /\
    gathering c' id l name fs (more n [d] got) /\ shown_path l c' = shown_path l c /\ only_jobs (c, pg) (c', pg').
Proof.
  intros (Hm & Hok & Hr & j & Hj & Hst & Hfd & Hz & Hfs & Hnm & Hg) Hu.
  assert (Ej : write_job id c = Some (l, j)) by (unfold write_job, getWriteJob; rewrite Hm; cbn; by rewrite Hj).
  destruct (block_bytes_ok (n, data, packed) d (_jobs c, pg) Hu) as [rdy Eb]. cbn [fst snd] in Eb.
  change (receive_message (blockResponse id n data packed k)) with (handleBlock (FileTransferBlock.mk id n data packed k)).
  unfold handleBlock. cbn [FileTransferBlock.id FileTransferBlock.file_num FileTransferBlock.data
    FileTransferBlock.compressed]. page_steps. rewrite Ej. cbv iota. unfold try_catch, in_jobs.
  set (f := fun j : WriteJob => j <| fileChunks := map_set (fileChunks j) n (default [] (map_get (fileChunks j) n) ++ [d]) |>).
  destruct (count_block_run l n d (set_write l f (_jobs c), pg <| zstd_ready := rdy |>) (f j)) as
    (m' & j' & E2 & Hj' & Cr & Cw & _ & C2 & C3 & C4 & C5 & _ & C7 & _ & _ & C10 & C11 & C12); [by apply alter_lookup|].
  assert (E : appendBlock l n data packed (_jobs c, pg) = (Ret tt, (m', pg <| zstd_ready := rdy |>))).
  { unfold appendBlock. erewrite bind_eq by exact Eb. page_steps. rewrite Hj. cbv iota. rewrite Hst, Hfd. cbn [orb].
    by page_steps. }
  erewrite zoom_ret by exact E. cbn [fst snd]. exists (c <| _jobs := m' |>), (pg <| zstd_ready := rdy |>).
  split; [reflexivity|].
  cbn [fst] in Cr, Cw. split; [|split; [|by destruct c, pg]].
  2: { unfold shown_path. change (_jobs (c <| _jobs := m' |>)) with m'. rewrite Hj, Hj', C11, C12. by destruct j. }
  unfold gathering. change (_jobs (c <| _jobs := m' |>)) with m'. rewrite Cr, Cw.
  change (writeJobs (set_write l f (_jobs c))) with (writeJobs (_jobs c)).
  change (readJobs (set_write l f (_jobs c))) with (readJobs (_jobs c)).
  do 3 (split; [done|]). exists j'. split; [done|]. rewrite C3, C4, C5, C7, C10. do 5 (split; [by destruct j|]).
  intros m. unfold chunksForFile, more in *. rewrite C2. subst f. cbv beta.
  change (fileChunks (j <| fileChunks := ?x |>)) with x.
  destruct (Z.eqb_spec m n) as [->|Hne].
  - by rewrite map_get_set_eq, Hg.
  - by rewrite map_get_set_ne, Hg.
Qed.

Lemma only_jobs_trans s1 s2 s3 : only_jobs s1 s2 -> only_jobs s2 s3 -> only_jobs s1 s3.
Proof. unfold only_jobs. intuition congruence. Qed.
Lemma gather_blocks id l name fs n ds : forall c pg got b, gathering c id l name fs got ->
  exists c' pg', for_of (block_messages id n b ds) receive_message (c, pg) = (Ret tt, (c', pg')) /\
    gathering c' id l name fs (more n ds got) /\ shown_path l c' = shown_path l c /\ only_jobs (c, pg) (c', pg').
Proof.
  induction ds as [|d ds IH]; intros c pg got b Hg.
  { exists c, pg. split; [done|]. split; [|done]. eapply gathering_ext, Hg. intros m. unfold more.
    destruct (m =? n); [by rewrite app_nil_r|done]. }
  rewrite block_messages_cons. cbn [for_of].
  destruct (gather_block c pg id l name fs got n d false d (b + 1) Hg eq_refl) as (c1 & pg1 & E1 & Hg1 & Hp1 & H1').
  erewrite bind_eq by exact E1.
  destruct (IH c1 pg1 _ (b + 1) Hg1) as (c2 & pg2 & E2 & Hg2 & Hp2 & H2').
  exists c2, pg2. split; [exact E2|]. split; [|split; [by rewrite Hp2|by eapply only_jobs_trans]].
  eapply gathering_ext, Hg2. intros m. unfold more. destruct (m =? n); [by rewrite <- app_assoc|done].
Qed.
(** A question about a file only reaches the user. *)
Definition question (id : Z) (place : string) (sid : option string) (n : Z) : event :=
  makeEvent "override_file_confirm" (strs [("id"%string, string_of_Z id); ("file_num"%string, string_of_Z n);
    ("read_path"%string, place); ("is_upload"%string, "true"%string); ("is_identical"%string, "false"%string)]) sid.
Lemma question_run c pg id l name fs got n f : gathering c id l name fs got ->
  receive_message (asks id n f) (c, pg) = (Ret tt, (c, pg <| events := events pg ++
    [question id (shown_path l c) (_sessionId (super c)) n] |>)).
Proof.
  intros (Hm & _ & Hr & j & Hj & _).
  assert (Ej : write_job id c = Some (l, j)) by (unfold write_job, getWriteJob; rewrite Hm; cbn; by rewrite Hj).
  change (receive_message (asks id n f)) with (handleDigest (FileTransferDigest.mk id n (lastModified f / 1000) (size f) true
    false)). unfold handleDigest. cbn [FileTransferDigest.id FileTransferDigest.file_num FileTransferDigest.is_upload].
  erewrite bind_eq by apply self_run. erewrite bind_eq by apply self_run. rewrite Ej. cbv iota zeta.
  rewrite evt_run. unfold shown_path. by rewrite Hj.
Qed.
Definition questions (id : Z) (place : string) (sid : option string) (n : Z) (files : list File) : list event :=
  imap (fun i _ => question id place sid (n + Z.of_nat i)) files.
Lemma questions_cons id place sid n f files :
  questions id place sid n (f :: files) = question id place sid n :: questions id place sid (n + 1) files.
Proof.
  unfold questions. cbn [imap]. rewrite Z.add_0_r. f_equal. apply imap_ext. intros i x _. cbn [compose].
  by rewrite Nat2Z.inj_succ, <- Z.add_1_l, Z.add_assoc.
Qed.

(** The blocks of the files from number [n] on. *)
Definition more_files (n : Z) (contents : list bytes) (got : Z -> list bytes) (m : Z) : list bytes :=
  if m <? n then got m
  else match contents !! Z.to_nat (m - n) with Some d => got m ++ blocks_of d | None => got m end.
Lemma gather_files id l name fs files : forall rs n c pg got, length rs = length files -> gathering c id l name fs got ->
  exists c' pg', for_of (folder_body id n files rs) receive_message (c, pg) = (Ret tt, (c', pg')) /\
    gathering c' id l name fs (more_files n (zip_with sent_of files rs) got) /\ super c' = super c /\
    page_io pg' = page_io pg /\
    events pg' = events pg ++ questions id (shown_path l c) (_sessionId (super c)) n files.
Proof.
  induction files as [|f files IH]; intros [|a rs] n c pg got Hl Hg; try done; cbn [folder_body zip_with].
  { exists c, pg. split; [done|]. rewrite app_nil_r. split; [|done]. eapply gathering_ext, Hg. intros m.
    unfold more_files. by destruct (m <? n). }
  cbn [for_of]. erewrite bind_eq by (eapply question_run; exact Hg). rewrite for_of_app.
  set (pg0 := pg <| events := _ |>). destruct (file_messages_blocks id n f a) as [b ->].
  destruct (gather_blocks id l name fs n (blocks_of (sent_of f a)) c pg0 got b Hg)
    as (c1 & pg1 & E1 & Hg1 & Hp1 & Hs1 & Hio1 & Hev1). cbn [fst snd] in *.
  erewrite bind_eq by exact E1. injection Hl as Hl.
  destruct (IH rs (n + 1) c1 pg1 _ Hl Hg1) as (c2 & pg2 & E2 & Hg2 & Hs2 & Hio2 & Hev2).
  exists c2, pg2. split; [exact E2|]. rewrite Hs2, Hio2, Hev2, Hs1, Hio1, Hev1, Hp1, questions_cons.
  split; [|split; [done|]; split; [by destruct pg|]; subst pg0; destruct pg; cbn; by rewrite <- app_assoc].
  eapply gathering_ext, Hg2. intros m. unfold more_files, more.
  destruct (Z.ltb_spec m (n + 1)), (Z.ltb_spec m n), (Z.eqb_spec m n); try lia; try done.
  - subst. by rewrite Z.sub_diag.
  - by replace (Z.to_nat (m - n)) with (S (Z.to_nat (m - (n + 1)))) by lia.
Qed.

(** ** The end *)
Definition gathered (contents : list bytes) (got : Z -> list bytes) : Prop :=
  forall i d, contents !! i = Some d -> concat (got (Z.of_nat i)) = d.
Lemma archive_imap root fs contents got : length contents = length fs -> gathered contents got ->
  imap (fun i e => (entry_path root e, concat (got (Z.of_nat i)))) fs = archive root fs contents.
Proof.
  intros Hl Hg. apply list_eq. intros i. unfold archive. rewrite list_lookup_imap, lookup_zip_with.
  destruct (fs !! i) as [e|] eqn:Ee; [|done]. cbn. apply lookup_lt_Some in Ee. rewrite <- Hl in Ee.
  apply lookup_lt_is_Some in Ee as [d Ed]. rewrite Ed. cbn. by rewrite (Hg i d Ed).
Qed.
Lemma finalize_archive c pg id l name fs got contents zipped rest :
  gathering c id l name fs got -> fs <> [] -> length contents = length fs -> gathered contents got ->
  Forall (fun e => FileEntry.name e <> ""%string) fs -> NoDup (map (entry_path (archive_root name)) fs) ->
  zipSync (archive (archive_root name) fs contents) = Ret zipped -> dialogs (page_io pg) = NoPicker :: rest ->
  exists i', finalizeDownload l (_jobs c, pg) = (Ret tt, (_jobs c, pg <| page_io := i' |>)) /\
    clicked i' = clicked (page_io pg) ++ [(folderDownloadFilename name, zipped)].
Proof.
  intros (Hm & Hok & Hr & j & Hj & Hst & Hfd & Hz & Hfs & Hnm & Hg) Hne Hl Hgot Hn Hd Hzip Hdlg.
  unfold finalizeDownload. page_steps. rewrite Hj. cbv iota. rewrite Hfd, Hfs.
  assert (0 < len fs) by (destruct fs; [done|]; rewrite len_cons; pose proof (len_nonneg fs); lia).
  destruct (Z.ltb_spec 0 (len fs)); [|lia]. cbn [andb]. unfold finalizeFolderDownloadAsZip. rewrite Hz, Hfs, Hnm, Hst.
  assert (E : buildFolderZipFromChunks name fs (chunksForFile j) = Ret zipped).
  { unfold buildFolderZipFromChunks. fold (archive_root name). rewrite zip_entries_all by done. cbn [app].
    cbv beta iota delta [mbind outcome_bind]. rewrite <- Hzip. f_equal. apply archive_imap; [done|].
    intros i d E. rewrite Hg. by apply Hgot. }
  rewrite E. js_steps. rewrite with_io_bind. unfold saveDownload. unfold openSaveFilePicker, mbind, js_bind.
  cbn [snd]. rewrite Hdlg. cbn. eexists. split; [reflexivity|]. by destruct (page_io pg).
Qed.

Lemma archive_done c pg id l name fs got contents zipped rest n :
  gathering c id l name fs got -> fs <> [] -> length contents = length fs -> gathered contents got ->
  Forall (fun e => FileEntry.name e <> ""%string) fs -> NoDup (map (entry_path (archive_root name)) fs) ->
  zipSync (archive (archive_root name) fs contents) = Ret zipped -> dialogs (page_io pg) = NoPicker :: rest ->
  exists c' pg', receive_message (doneResponse id n) (c, pg) = (Ret tt, (c', pg')) /\
    map_get (writeJobs (_jobs c')) id = None /\
    clicked (page_io pg') = clicked (page_io pg) ++ [(folderDownloadFilename name, zipped)] /\
    events pg' = events pg ++ [makeEvent "job_done" (strs [("id"%string, string_of_Z id);
      ("file_num"%string, string_of_Z (len fs - 1))]) (_sessionId (super c))] /\ super c' = super c.
Proof.
  intros Hgat Hne Hl Hgot Hn Hd Hzip Hdlg.
  destruct (finalize_archive c pg id l name fs got contents zipped rest) as (i' & E & Hc); try done.
  destruct Hgat as (Hm & Hok & Hr & j & Hj & Hst & Hfd & Hz & Hfs & Hnm & Hg).
  destruct (receive_finalizes c pg id l j n i' Hm Hok Hr Hj E) as (c' & pg' & E' & Hm' & Hio & Hev & Hsup).
  assert (0 < len fs) by (destruct fs; [done|]; rewrite len_cons; pose proof (len_nonneg fs); lia).
  rewrite Hfd, Hfs, (proj2 (Z.ltb_lt _ _)) in Hev by done. exists c', pg'. by rewrite Hio.
Qed.

(** Whether the peer skipped the last file. *)
Definition last_skipped (rs : list answer) : bool := match List.last rs Skip with Skip => true | From _ => false end.

(** C4.  A folder from end to end.  The receiving side handles, in order, all the messages an upload sends
    for a folder (see [folder_upload_sends_files]), whatever was answered about each file: its job
    is a folder download that knows the files' names, and there is no save dialog.  Every question
    is put to the user, in order, and nothing is sent back.  Unless the last file was skipped, the
    browser is then handed one archive, named after the folder, whose entries are exactly the files
    in their order, each with the bytes sent for it (all of them when it was wanted from the start,
    none when it was skipped); the job is removed and its last file reported as done.  After a
    skipped last file there is no [Done]: nothing is handed over or reported, and the job goes on
    waiting with what it has. *)
Theorem folder_roundtrip files rs c pg id l name fs zipped rest :
  gathering c id l name fs (fun _ => []) -> files <> [] -> length rs = length files -> length files = length fs ->
  Forall (fun e => FileEntry.name e <> ""%string) fs -> NoDup (map (entry_path (archive_root name)) fs) ->
  zipSync (archive (archive_root name) fs (zip_with sent_of files rs)) = Ret zipped ->
  dialogs (page_io pg) = NoPicker :: rest ->
  let asked := questions id (shown_path l c) (_sessionId (super c)) 0 files in
  exists c' pg', for_of (folder_messages id 0 files rs) receive_message (c, pg) = (Ret tt, (c', pg')) /\
    super c' = super c /\
    if last_skipped rs then
      gathering c' id l name fs (more_files 0 (zip_with sent_of files rs) (fun _ => [])) /\
      page_io pg' = page_io pg /\ events pg' = events pg ++ asked
    else
      map_get (writeJobs (_jobs c')) id = None /\
      clicked (page_io pg') = clicked (page_io pg) ++ [(folderDownloadFilename name, zipped)] /\
      events pg' = events pg ++ asked ++ [makeEvent "job_done" (strs [("id"%string, string_of_Z id);
        ("file_num"%string, string_of_Z (len fs - 1))]) (_sessionId (super c))].
Proof.
  intros Hg Hne Hr Hl Hn Hd Hz Hdlg asked. rewrite folder_messages_body, for_of_app by done.
  destruct (gather_files id l name fs files rs 0 c pg _ Hr Hg) as (c1 & pg1 & E1 & Hg1 & Hs & Hio & Hev).
  erewrite bind_eq by exact E1. fold asked in Hev. unfold last_skipped. destruct (List.last rs Skip) as [|b]; [by exists c1, pg1|].
  rewrite <- Hio in Hdlg. cbn [end_messages for_of].
  destruct (archive_done c1 pg1 id l name fs _ (zip_with sent_of files rs) zipped rest (0 + len files - 1) Hg1)
    as (c2 & pg2 & E2 & Hm & Hc & He & Hs2); try done.
  - by destruct fs, files.
  - rewrite length_zip_with. lia.
  - intros i d Ei. unfold more_files. destruct (Z.ltb_spec (Z.of_nat i) 0); [lia|].
    rewrite Z.sub_0_r, Nat2Z.id, Ei. apply blocks_of_concat.
  - exists c2, pg2. erewrite bind_eq by exact E2. rewrite Hs2, Hc, He, Hio, Hev, Hs, <- app_assoc. done.
Qed.
End Archive.
