(* ===== verification/Common.v ===== *)
(** * Keys, texts and retries: [helpers/common.ts], [proto/gen_js_from_hbb.ts]

    [mapKey] turns the key names Flutter sends into [KeyEvent]s through the generated table
    [KEY_MAP]; [translate] looks texts up in the generated tables [LANGS], an argument here (the
    program's are in [Translate]; a text that names a property every JS object inherits, such as
    [constructor], is outside the model); [checkIfRetry] decides whether an error may be retried. *)
From Stdlib Require Import Strings.Ascii.
From S2P Require Import Prelude JsMap JsStr ProtoWire ProtoEnums ProtoMedia.
Local Open Scope string_scope.

(** ** UTF-16 code units of a string kept as UTF-8 *)
Fixpoint code_units (s : string) : list Z :=
  match s with
  | EmptyString => []
  | String a s1 =>
      let b := Z.of_nat (nat_of_ascii a) in
      if (b <? 0x80)%Z then b :: code_units s1
      else
        let cont c := Z.land (Z.of_nat (nat_of_ascii c)) 0x3f in
        match s1 with
        | EmptyString => [b]
        | String a2 s2 =>
            if (b <? 0xe0)%Z then (Z.land b 0x1f * 64 + cont a2)%Z :: code_units s2
            else
              match s2 with
              | EmptyString => [b]
              | String a3 s3 =>
                  if (b <? 0xf0)%Z then (Z.land b 0x0f * 4096 + cont a2 * 64 + cont a3)%Z :: code_units s3
                  else
                    match s3 with
                    | EmptyString => [b]
                    | String a4 s4 =>
                        let p := (Z.land b 0x07 * 262144 + cont a2 * 4096 + cont a3 * 64 + cont a4 - 0x10000)%Z in
                        (0xd800 + Z.shiftr p 10)%Z :: (0xdc00 + Z.land p 0x3ff)%Z :: code_units s4
                    end
              end
        end
  end.

(** ** Keys *)
Definition KEY_MAP : jsmap string string :=
  [("VK_A", "a"); ("VK_B", "b"); ("VK_C", "c"); ("VK_D", "d"); ("VK_E", "e"); ("VK_F", "f");
   ("VK_G", "g"); ("VK_H", "h"); ("VK_I", "i"); ("VK_J", "j"); ("VK_K", "k"); ("VK_L", "l");
   ("VK_M", "m"); ("VK_N", "n"); ("VK_O", "o"); ("VK_P", "p"); ("VK_Q", "q"); ("VK_R", "r");
   ("VK_S", "s"); ("VK_T", "t"); ("VK_U", "u"); ("VK_V", "v"); ("VK_W", "w"); ("VK_X", "x");
   ("VK_Y", "y"); ("VK_Z", "z"); ("VK_0", "0"); ("VK_1", "1"); ("VK_2", "2"); ("VK_3", "3");
   ("VK_4", "4"); ("VK_5", "5"); ("VK_6", "6"); ("VK_7", "7"); ("VK_8", "8"); ("VK_9", "9");
   ("VK_COMMA", ","); ("VK_SLASH", "/"); ("VK_SEMICOLON", ";"); ("VK_QUOTE", "'"); ("VK_LBRACKET",
   "["); ("VK_RBRACKET", "]"); ("VK_BACKSLASH", "\"); ("VK_MINUS", "-"); ("VK_PLUS", "=");
   ("VK_DIVIDE", "Divide"); ("VK_MULTIPLY", "Multiply"); ("VK_SUBTRACT", "Subtract"); ("VK_ADD",
   "Add"); ("VK_DECIMAL", "Decimal"); ("VK_F1", "F1"); ("VK_F2", "F2"); ("VK_F3", "F3"); ("VK_F4",
   "F4"); ("VK_F5", "F5"); ("VK_F6", "F6"); ("VK_F7", "F7"); ("VK_F8", "F8"); ("VK_F9", "F9");
   ("VK_F10", "F10"); ("VK_F11", "F11"); ("VK_F12", "F12"); ("VK_ENTER", "Return"); ("VK_CANCEL",
   "Cancel"); ("VK_BACK", "Backspace"); ("VK_TAB", "Tab"); ("VK_CLEAR", "Clear"); ("VK_RETURN",
   "Return"); ("VK_SHIFT", "Shift"); ("VK_CONTROL", "Control"); ("VK_MENU", "Alt"); ("VK_PAUSE",
   "Pause"); ("VK_CAPITAL", "CapsLock"); ("VK_KANA", "Kana"); ("VK_HANGUL", "Hangul"); ("VK_JUNJA",
   "Junja"); ("VK_FINAL", "Final"); ("VK_HANJA", "Hanja"); ("VK_KANJI", "Kanji"); ("VK_ESCAPE",
   "Escape"); ("VK_CONVERT", "Convert"); ("VK_SPACE", "Space"); ("VK_PRIOR", "PageUp"); ("VK_NEXT",
   "PageDown"); ("VK_END", "End"); ("VK_HOME", "Home"); ("VK_LEFT", "LeftArrow"); ("VK_UP",
   "UpArrow"); ("VK_RIGHT", "RightArrow"); ("VK_DOWN", "DownArrow"); ("VK_SELECT", "Select");
   ("VK_PRINT", "Print"); ("VK_EXECUTE", "Execute"); ("VK_SNAPSHOT", "Snapshot"); ("VK_SCROLL",
   "Scroll"); ("VK_INSERT", "Insert"); ("VK_DELETE", "Delete"); ("VK_HELP", "Help"); ("VK_SLEEP",
   "Sleep"); ("VK_SEPARATOR", "Separator"); ("VK_NUMPAD0", "Numpad0"); ("VK_NUMPAD1", "Numpad1");
   ("VK_NUMPAD2", "Numpad2"); ("VK_NUMPAD3", "Numpad3"); ("VK_NUMPAD4", "Numpad4"); ("VK_NUMPAD5",
   "Numpad5"); ("VK_NUMPAD6", "Numpad6"); ("VK_NUMPAD7", "Numpad7"); ("VK_NUMPAD8", "Numpad8");
   ("VK_NUMPAD9", "Numpad9"); ("Apps", "Apps"); ("Meta", "Meta"); ("RAlt", "RAlt"); ("RWin",
   "RWin"); ("RControl", "RControl"); ("RShift", "RShift"); ("CTRL_ALT_DEL", "CtrlAltDel");
   ("LOCK_SCREEN", "LockScreen")].

Definition zCode : Z := 122.
Definition aCode : Z := 97.
Definition mapKey (name : string) (isDesktop : bool) : KeyEvent.t :=
  let tmp := match map_get KEY_MAP name with Some t => or_empty t name | None => name end in
  match code_units tmp with
  | [chr] =>
      if negb isDesktop && ((zCode <? chr) || (chr <? aCode))%Z then
        KeyEvent.createBase <| KeyEvent.unicode := Some chr |>
      else KeyEvent.createBase <| KeyEvent.chr := Some chr |>
  | _ =>
      let control_key := ControlKey.fromJSON (VStr tmp) in
      KeyEvent.createBase <| KeyEvent.control_key := Some control_key |>
  end.

(** ** Texts *)
Section Translate.
(** [LANGS], and the [lang] of the page's address ([LANG]). *)
Variables (LANGS : jsmap string (jsmap string string)) (LANG : string).

(** [substring(length - 2)]: the last two characters, or all of a shorter text. *)
Definition locale_lang (locale : string) : string :=
  toLowerCase (slice_from (String.length locale - 2) locale).
Definition translate (locale text : string) : string :=
  let lang := or_empty LANG (locale_lang locale) in
  let en := default [] (map_get LANGS "en") in
  let dict := default en (map_get LANGS lang) in
  let res := default "" (map_get dict text) in
  let res := if negb (truthy res) && negb (lang =? "en") then default "" (map_get en text) else res in
  or_empty res text.
End Translate.

(** ** Retries *)
(** [retry_for_relay] is [undefined] in every call. *)
Definition checkIfRetry (msgtype title text : string) (retry_for_relay : bool) : bool :=
  let low := toLowerCase text in
  (msgtype =? "error") && (title =? "Connection Error") &&
  (((negb (includes text "10054") || negb (includes text "104")) && retry_for_relay)
   || forallb (fun w => negb (includes low w))
        ["offline"; "exist"; "handshake"; "failed"; "resolve"; "mismatch"; "manually"; "not allowed"]).

(** ** What [mapKey] produces *)
Definition set_fields (k : KeyEvent.t) : list Z :=
  match KeyEvent.control_key k with Some c => [c] | None => [] end ++
  match KeyEvent.chr k with Some c => [c] | None => [] end ++
  match KeyEvent.unicode k with Some c => [c] | None => [] end.

(** Every name in the table is a key: it maps to one character or to a control key the protocol
    knows, never to the [UNRECOGNIZED] placeholder; and whatever the name, exactly one of the three
    alternatives of the key event is set. *)
Theorem mapKey_total :
  Forall (fun kv => forall desktop, KeyEvent.control_key (mapKey kv.1 desktop) <> Some ControlKey.UNRECOGNIZED) KEY_MAP /\
  forall name desktop, length (set_fields (mapKey name desktop)) = 1%nat.
Proof.
  split.
  - assert (H : forallb (fun kv => negb (bool_decide
        (KeyEvent.control_key (mapKey kv.1 true) = Some ControlKey.UNRECOGNIZED)) &&
      negb (bool_decide (KeyEvent.control_key (mapKey kv.1 false) = Some ControlKey.UNRECOGNIZED))) KEY_MAP = true)
      by (vm_compute; reflexivity).
    apply Forall_forall. intros kv Hin desktop. rewrite forallb_forall in H.
    specialize (H kv (proj1 (list_elem_of_In _ _) Hin)). apply andb_true_iff in H as [H1 H2].
    apply negb_true_iff, bool_decide_eq_false in H1, H2. by destruct desktop.
  - intros name desktop. unfold mapKey. destruct (code_units _) as [|c [|c' l]]; [done| |done].
    by destruct (negb desktop && _).
Qed.
