(* ===== verification/Langs.v ===== *)
(** * The texts: [proto/gen_js_from_hbb.ts]

    [LANGS] has a table of texts for each of its languages: the one for English, which [translate]
    falls back to whatever the language, is here with the ids the other tables have rows for; those
    tables are in [TextsA] to [TextsD], and the whole in [Translate].
    The tables are generated from the native client's sources with their escape sequences left as
    they are, so a quotation mark in a text follows a backslash that is shown, too. *)
From Stdlib Require Import Strings.Ascii.
From S2P Require Import Prelude JsMap JsStr Json Common.
Local Open Scope string_scope.

(** Texts joined by what the generator made of a quotation mark. *)
Definition escaped_quote : string := String bslash (String dquote "").
Definition with_quotes (parts : list string) : string := join escaped_quote parts.
(** The blanks that look like none, or like others, in UTF-8. *)
Definition nbsp : string := String "194" (String "160" "").
Definition zwnj : string := String "226" (String "128" (String "140" "")).

(** [LANGS.en] *)
Definition en : jsmap string string := [
  ("desk_tip", "Your desktop can be accessed with this ID and password.");
  ("connecting_status", "Connecting to the RustDesk network...");
  ("not_ready_status", "Not ready. Please check your connection");
  ("ID/Relay Server", "ID/Relay server");
  ("id_change_tip", "Only a-z, A-Z, 0-9, - (dash) and _ (underscore) characters allowed. The first letter must be a-z, A-Z. Length between 6 and 16.");
  ("Slogan_tip", "Made with heart in this chaotic world!");
  ("Build Date", "Build date");
  ("Audio Input", "Audio input");
  ("Hardware Codec", "Hardware codec");
  ("ID Server", "ID server");
  ("Relay Server", "Relay server");
  ("API Server", "API server");
  ("invalid_http", "must start with http:// or https://");
  ("server_not_support", "Not yet supported by the server");
  ("Password Required", "Password required");
  ("Wrong Password", "Wrong password");
  ("Connection Error", "Connection error");
  ("Login Error", "Login error");
  ("Show Hidden Files", "Show hidden files");
  ("Refresh File", "Refresh file");
  ("Remote Computer", "Remote device ");
  ("Local Computer", "Local device ");
  ("Confirm Delete", "Confirm delete");
  ("Multi Select", "Multi select");
  ("Select All", "Select all");
  ("Unselect All", "Unselect all");
  ("Empty Directory", "Empty directory");
  ("Custom Image Quality", "Custom image quality");
  ("Adjust Window", "Adjust window");
  ("Insert Lock", "Insert lock");
  ("Set Password", "Set password");
  ("OS Password", "OS password");
  ("install_tip", "Due to UAC, RustDesk can not work properly as the remote side in some cases. To avoid UAC, please click the button below to install RustDesk to the system.");
  ("config_acc", with_quotes ["In order to control your Desktop remotely, you need to grant RustDesk "; "Accessibility"; " permissions."]);
  ("config_screen", with_quotes ["In order to access your Desktop remotely, you need to grant RustDesk "; "Screen Recording"; " permissions."]);
  ("Installation Path", "Installation path");
  ("agreement_tip", "By starting the installation, you accept the license agreement.");
  ("Accept and Install", "Accept and install");
  ("not_close_tcp_tip", "Don't close this window while you are using the tunnel");
  ("Remote Host", "Remote host");
  ("Remote Port", "Remote port");
  ("Local Port", "Local port");
  ("Local Address", "Local address");
  ("Change Local Port", "Change local port");
  ("setup_server_tip", "For faster connection, please set up your own server");
  ("Enter Remote ID", "Enter remote ID");
  ("Auto Login", with_quotes ["Auto Login (Only valid if you set "; "Lock after session end"; ")"]);
  ("Change Path", "Change path");
  ("Create Folder", "Create folder");
  ("whitelist_tip", "Only whitelisted IP can access me");
  ("verification_tip", "A verification code has been sent to the registered email address, enter the verification code to continue logging in.");
  ("whitelist_sep", "Separated by comma, semicolon, spaces or new line");
  ("Add Tag", "Add tag");
  ("Wrong credentials", "Wrong username or password");
  ("Edit Tag", "Edit tag");
  ("Forget Password", "Forget password");
  ("Add to Favorites", "Add to favorites");
  ("Remove from Favorites", "Remove from favorites");
  ("Socks5 Proxy", "Socks5 proxy");
  ("Socks5/Http(s) Proxy", "Socks5/Http(s) proxy");
  ("install_daemon_tip", "For starting on boot, you need to install system service.");
  ("Are you sure to close the connection?", "Are you sure you want to close the connection?");
  ("One-Finger Tap", "One-finger tap");
  ("Left Mouse", "Left mouse");
  ("One-Long Tap", "One-long tap");
  ("Two-Finger Tap", "Two-finger tap");
  ("Right Mouse", "Right mouse");
  ("One-Finger Move", "One-finger move");
  ("Double Tap & Move", "Double tap & move");
  ("Mouse Drag", "Mouse drag");
  ("Three-Finger vertically", "Three-finger vertically");
  ("Mouse Wheel", "Mouse wheel");
  ("Two-Finger Move", "Two-finger move");
  ("Canvas Move", "Canvas move");
  ("Pinch to Zoom", "Pinch to zoom");
  ("Canvas Zoom", "Canvas zoom");
  ("Share Screen", "Share screen");
  ("Screen Capture", "Screen capture");
  ("Input Control", "Input control");
  ("Audio Capture", "Audio capture");
  ("File Connection", "File connection");
  ("Screen Connection", "Screen connection");
  ("Open System Setting", "Open system setting");
  ("android_input_permission_tip1", with_quotes ["In order for a remote device to control your Android device via mouse or touch, you need to allow RustDesk to use the "; "Accessibility"; " service."]);
  ("android_input_permission_tip2", "Please go to the next system settings page, find and enter [Installed Services], turn on [RustDesk Input] service.");
  ("android_new_connection_tip", "New control request has been received, which wants to control your current device.");
  ("android_service_will_start_tip", with_quotes ["Turning on "; "Screen Capture"; " will automatically start the service, allowing other devices to request a connection to your device."]);
  ("android_stop_service_tip", "Closing the service will automatically close all established connections.");
  ("android_version_audio_tip", "The current Android version does not support audio capture, please upgrade to Android 10 or higher.");
  ("android_start_service_tip", "Tap [Start service] or enable [Screen Capture] permission to start the screen sharing service.");
  ("android_permission_may_not_change_tip", "Permissions for established connections may not be changed instantly until reconnected.");
  ("doc_mac_permission", "https://rustdesk.com/docs/en/client/mac/#enable-permissions");
  ("Ignore Battery Optimizations", "Ignore battery optimizations");
  ("android_open_battery_optimizations_tip", "If you want to disable this feature, please go to the next RustDesk application settings page, find and enter [Battery], Uncheck [Unrestricted]");
  ("remote_restarting_tip", "Remote device is restarting, please close this message box and reconnect with permanent password after a while");
  ("Exit Fullscreen", "Exit fullscreen");
  ("Mobile Actions", "Mobile actions");
  ("Select Monitor", "Select monitor");
  ("Control Actions", "Control actions");
  ("Display Settings", "Display settings");
  ("Image Quality", "Image quality");
  ("Scroll Style", "Scroll style");
  ("Show Toolbar", "Show toolbar");
  ("Hide Toolbar", "Hide toolbar");
  ("Direct Connection", "Direct connection");
  ("Relay Connection", "Relay connection");
  ("Secure Connection", "Secure connection");
  ("Insecure Connection", "Insecure connection");
  ("Dark Theme", "Dark theme");
  ("Light Theme", "Light theme");
  ("Follow System", "Follow system");
  ("Unlock Security Settings", "Unlock security settings");
  ("Unlock Network Settings", "Unlock network settings");
  ("Direct IP Access", "Direct IP access");
  ("Audio Input Device", "Audio input device");
  ("Use IP Whitelisting", "Use IP whitelisting");
  ("Pin Toolbar", "Pin toolbar");
  ("Unpin Toolbar", "Unpin toolbar");
  ("elevated_foreground_window_tip", "The current window of the remote desktop requires higher privilege to operate, so it's unable to use the mouse and keyboard temporarily. You can request the remote user to minimize the current window, or click elevation button on the connection management window. To avoid this problem, it is recommended to install the software on the remote device.");
  ("Keyboard Settings", "Keyboard settings");
  ("Full Access", "Full access");
  ("Screen Share", "Screen share");
  ("JumpLink", "View");
  ("Please Select the screen to be shared(Operate on the peer side).", "Please select the screen to be shared(Operate on the peer side).");
  ("One-time Password", "One-time password");
  ("hide_cm_tip", "Allow hiding only if accepting sessions via password and using permanent password");
  ("wayland_experiment_tip", "Wayland support is in experimental stage, please use X11 if you require unattended access.");
  ("software_render_tip", "If you're using Nvidia graphics card under Linux and the remote window closes immediately after connecting, switching to the open-source Nouveau driver and choosing to use software rendering may help. A software restart is required.");
  ("config_input", with_quotes ["In order to control remote desktop with keyboard, you need to grant RustDesk "; "Input Monitoring"; " permissions."]);
  ("config_microphone", with_quotes ["In order to speak remotely, you need to grant RustDesk "; "Record Audio"; " permissions."]);
  ("request_elevation_tip", "You can also request elevation if there is someone on the remote side.");
  ("Elevation Error", "Elevation error");
  ("still_click_uac_tip", "Still requires the remote user to click OK on the UAC window of running RustDesk.");
  ("Request Elevation", "Request elevation");
  ("wait_accept_uac_tip", "Please wait for the remote user to accept the UAC dialog.");
  ("Switch Sides", "Switch sides");
  ("Default View Style", "Default view style");
  ("Default Scroll Style", "Default scroll style");
  ("Default Image Quality", "Default image quality");
  ("Default Codec", "Default codec");
  ("Other Default Options", "Other default options");
  ("relay_hint_tip", with_quotes ["It may not be possible to connect directly; you can try connecting via relay. Additionally, if you want to use a relay on your first attempt, you can add the "; "/r"; " suffix to the ID or select the option "; "Always connect via relay"; " in the card of recent sessions if it exists."]);
  ("RDP Settings", "RDP settings");
  ("New Connection", "New connection");
  ("Your Device", "Your device");
  ("empty_recent_tip", "Oops, no recent sessions!\nTime to plan a new one.");
  ("empty_favorite_tip", "No favorite peers yet?\nLet's find someone to connect with and add it to your favorites!");
  ("empty_lan_tip", "Oh no, it looks like we haven't discovered any peers yet.");
  ("empty_address_book_tip", "Oh dear, it appears that there are currently no peers listed in your address book.");
  ("Empty Username", "Empty username");
  ("Empty Password", "Empty password");
  ("identical_file_tip", "This file is identical with the peer's one.");
  ("show_monitors_tip", "Show monitors in toolbar");
  ("View Mode", "View mode");
  ("login_linux_tip", "You need to login to remote Linux account to enable a X desktop session");
  ("verify_rustdesk_password_tip", "Verify RustDesk password");
  ("remember_account_tip", "Remember this account");
  ("os_account_desk_tip", "This account is used to login the remote OS and enable the desktop session in headless");
  ("OS Account", "OS account");
  ("another_user_login_title_tip", "Another user already logged in");
  ("another_user_login_text_tip", "Disconnect");
  ("xorg_not_found_title_tip", "Xorg not found");
  ("xorg_not_found_text_tip", "Please install Xorg");
  ("no_desktop_title_tip", "No desktop environment is available");
  ("no_desktop_text_tip", "Please install GNOME desktop");
  ("System Sound", "System sound");
  ("Copy Fingerprint", "Copy fingerprint");
  ("no fingerprints", "No fingerprints");
  ("resolution_original_tip", "Original resolution");
  ("resolution_fit_local_tip", "Fit local resolution");
  ("resolution_custom_tip", "Custom resolution");
  ("Accept and Elevate", "Accept and elevate");
  ("accept_and_elevate_btn_tooltip", "Accept the connection and elevate UAC permissions.");
  ("clipboard_wait_response_timeout_tip", "Timed out waiting for copy response.");
  ("logout_tip", "Are you sure you want to log out?");
  ("exceed_max_devices", "You have reached the maximum number of managed devices.");
  ("Change Password", "Change password");
  ("Refresh Password", "Refresh password");
  ("Grid View", "Grid view");
  ("List View", "List view");
  ("Toggle Tags", "Toggle tags");
  ("pull_ab_failed_tip", "Failed to refresh address book");
  ("push_ab_failed_tip", "Failed to sync address book to server");
  ("synced_peer_readded_tip", "The devices that were present in the recent sessions will be synchronized back to the address book.");
  ("Change Color", "Change color");
  ("Primary Color", "Primary color");
  ("HSV Color", "HSV color");
  ("Installation Successful!", "Installation successful!");
  ("scam_title", "You May Be Being SCAMMED!");
  ("scam_text1", "If you are on the phone with someone you DON'T know AND TRUST who has asked you to use RustDesk and start the service, do not proceed and hang up immediately.");
  ("scam_text2", "They are likely a scammer trying to steal your money or other private information.");
  ("auto_disconnect_option_tip", "Automatically close incoming sessions on user inactivity");
  ("Connection failed due to inactivity", "Automatically disconnected due to inactivity");
  ("upgrade_rustdesk_server_pro_to_{}_tip", "Please upgrade RustDesk Server Pro to version {} or newer!");
  ("pull_group_failed_tip", "Failed to refresh group");
  ("doc_fix_wayland", "https://rustdesk.com/docs/en/client/linux/#x11-required");
  ("display_is_plugged_out_msg", "The display is plugged out, switch to the first display.");
  ("selinux_tip", "SELinux is enabled on your device, which may prevent RustDesk from running properly as controlled side.");
  ("id_input_tip", with_quotes ["You can input an ID, a direct IP, or a domain with a port (<domain>:<port>).\nIf you want to access a device on another server, please append the server address (<id>@<server_address>?key=<key_value>), for example,\n9123456234@192.168.16.1:21117?key=5Qbwsde3unUcJBtrx9ZkvUmwFNoExHzpryHuPUdqlWM=.\nIf you want to access a device on a public server, please input "; "<id>@public"; ", the key is not needed for public server.\n\nIf you want to force the use of a relay connection on the first connection, add "; "/r"; " at the end of the ID, for example, "; "9123456234/r"; "."]);
  ("privacy_mode_impl_mag_tip", "Mode 1");
  ("privacy_mode_impl_virtual_display_tip", "Mode 2");
  ("idd_not_support_under_win10_2004_tip", "Indirect display driver is not supported. Windows 10, version 2004 or newer is required.");
  ("input_source_1_tip", "Input source 1");
  ("input_source_2_tip", "Input source 2");
  ("swap-left-right-mouse", "Swap left-right mouse button");
  ("2FA code", "2FA code");
  ("enable-2fa-title", "Enable two-factor authentication");
  ("enable-2fa-desc", "Please set up your authenticator now. You can use an authenticator app such as Authy, Microsoft or Google Authenticator on your phone or desktop.\n\nScan the QR code with your app and enter the code that your app shows to enable two-factor authentication.");
  ("wrong-2fa-code", "Can't verify the code. Check that code and local time settings are correct");
  ("enter-2fa-title", "Two-factor authentication");
  ("powered_by_me", "Powered by RustDesk");
  ("outgoing_only_desk_tip", "This is a customized edition.\nYou can connect to other devices, but other devices cannot connect to your device.");
  ("preset_password_warning", "This customized edition comes with a preset password. Anyone knowing this password could gain full control of your device. If you did not expect this, uninstall the software immediately.");
  ("share_warning_tip", "The fields above are shared and visible to others.");
  ("ab_web_console_tip", "More on web console");
  ("allow-only-conn-window-open-tip", "Only allow connection if RustDesk window is open");
  ("no_need_privacy_mode_no_physical_displays_tip", "No physical displays, no need to use the privacy mode.");
  ("Follow remote cursor", "");
  ("Follow remote window focus", "");
  ("default_proxy_tip", "Default protocol and port are Socks5 and 1080");
  ("no_audio_input_device_tip", "No audio input device found.");
  ("clear_Wayland_screen_selection_tip", "After clearing the screen selection, you can reselect the screen to share.");
  ("confirm_clear_Wayland_screen_selection_tip", "Are you sure to clear the Wayland screen selection?");
  ("android_new_voice_call_tip", "A new voice call request was received. If you accept, the audio will switch to voice communication.");
  ("texture_render_tip", "Use texture rendering to make the pictures smoother. You could try disabling this option if you encounter rendering issues.");
  ("floating_window_tip", "It helps to keep RustDesk background service");
  ("enable-bot-tip", "If you enable this feature, you can receive the 2FA code from your bot. It can also function as a connection notification.");
  ("enable-bot-desc", with_quotes ["1. Open a chat with @BotFather.\n2. Send the command "; "/newbot"; ". You will receive a token after completing this step.\n3. Start a chat with your newly created bot. Send a message beginning with a forward slash ("; "/"; ") like "; "/hello"; " to activate it.\n"]);
  ("cancel-2fa-confirm-tip", "Are you sure you want to cancel 2FA?");
  ("cancel-bot-confirm-tip", "Are you sure you want to cancel Telegram bot?");
  ("About RustDesk", "");
  ("network_error_tip", "Please check your network connection, then click retry.");
  ("enable-trusted-devices-tip", "Skip 2FA verification on trusted devices");
  ("one-way-file-transfer-tip", "One-way file transfer is enabled on the controlled side.");
  ("web_id_input_tip", with_quotes ["You can input an ID in the same server, direct IP access is not supported in web client.\nIf you want to access a device on another server, please append the server address (<id>@<server_address>?key=<key_value>), for example,\n9123456234@192.168.16.1:21117?key=5Qbwsde3unUcJBtrx9ZkvUmwFNoExHzpryHuPUdqlWM=.\nIf you want to access a device on a public server, please input "; "<id>@public"; ", the key is not needed for public server."]);
  ("new-version-of-{}-tip", "There is a new version of {} available")].

(** The ids of the texts, which are the English texts where these are short enough.  Every table but
    those of English and [README] has a row for each of them, in this order. *)
Definition text_ids : list string := [
  "Status";
  "Your Desktop";
  "desk_tip";
  "Password";
  "Ready";
  "Established";
  "connecting_status";
  "Enable service";
  "Start service";
  "Service is running";
  "Service is not running";
  "not_ready_status";
  "Control Remote Desktop";
  "Transfer file";
  "Connect";
  "Recent sessions";
  "Address book";
  "Confirmation";
  "TCP tunneling";
  "Remove";
  "Refresh random password";
  "Set your own password";
  "Enable keyboard/mouse";
  "Enable clipboard";
  "Enable file transfer";
  "Enable TCP tunneling";
  "IP Whitelisting";
  "ID/Relay Server";
  "Import server config";
  "Export Server Config";
  "Import server configuration successfully";
  "Export server configuration successfully";
  "Invalid server configuration";
  "Clipboard is empty";
  "Stop service";
  "Change ID";
  "Your new ID";
  "length %min% to %max%";
  "starts with a letter";
  "allowed characters";
  "id_change_tip";
  "Website";
  "About";
  "Slogan_tip";
  "Privacy Statement";
  "Mute";
  "Build Date";
  "Version";
  "Home";
  "Audio Input";
  "Enhancements";
  "Hardware Codec";
  "Adaptive bitrate";
  "ID Server";
  "Relay Server";
  "API Server";
  "invalid_http";
  "Invalid IP";
  "Invalid format";
  "server_not_support";
  "Not available";
  "Too frequent";
  "Cancel";
  "Skip";
  "Close";
  "Retry";
  "OK";
  "Password Required";
  "Please enter your password";
  "Remember password";
  "Wrong Password";
  "Do you want to enter again?";
  "Connection Error";
  "Error";
  "Reset by the peer";
  "Connecting...";
  "Connection in progress. Please wait.";
  "Please try 1 minute later";
  "Login Error";
  "Successful";
  "Connected, waiting for image...";
  "Name";
  "Type";
  "Modified";
  "Size";
  "Show Hidden Files";
  "Receive";
  "Send";
  "Refresh File";
  "Local";
  "Remote";
  "Remote Computer";
  "Local Computer";
  "Confirm Delete";
  "Delete";
  "Properties";
  "Multi Select";
  "Select All";
  "Unselect All";
  "Empty Directory";
  "Not an empty directory";
  "Are you sure you want to delete this file?";
  "Are you sure you want to delete this empty directory?";
  "Are you sure you want to delete the file of this directory?";
  "Do this for all conflicts";
  "This is irreversible!";
  "Deleting";
  "files";
  "Waiting";
  "Finished";
  "Speed";
  "Custom Image Quality";
  "Privacy mode";
  "Block user input";
  "Unblock user input";
  "Adjust Window";
  "Original";
  "Shrink";
  "Stretch";
  "Scrollbar";
  "ScrollAuto";
  "Good image quality";
  "Balanced";
  "Optimize reaction time";
  "Custom";
  "Show remote cursor";
  "Show quality monitor";
  "Disable clipboard";
  "Lock after session end";
  "Insert Ctrl + Alt + Del";
  "Insert Lock";
  "Refresh";
  "ID does not exist";
  "Failed to connect to rendezvous server";
  "Please try later";
  "Remote desktop is offline";
  "Key mismatch";
  "Timeout";
  "Failed to connect to relay server";
  "Failed to connect via rendezvous server";
  "Failed to connect via relay server";
  "Failed to make direct connection to remote desktop";
  "Set Password";
  "OS Password";
  "install_tip";
  "Click to upgrade";
  "Click to download";
  "Click to update";
  "Configure";
  "config_acc";
  "config_screen";
  "Installing ...";
  "Install";
  "Installation";
  "Installation Path";
  "Create start menu shortcuts";
  "Create desktop icon";
  "agreement_tip";
  "Accept and Install";
  "End-user license agreement";
  "Generating ...";
  "Your installation is lower version.";
  "not_close_tcp_tip";
  "Listening ...";
  "Remote Host";
  "Remote Port";
  "Action";
  "Add";
  "Local Port";
  "Local Address";
  "Change Local Port";
  "setup_server_tip";
  "Too short, at least 6 characters.";
  "The confirmation is not identical.";
  "Permissions";
  "Accept";
  "Dismiss";
  "Disconnect";
  "Enable file copy and paste";
  "Connected";
  "Direct and encrypted connection";
  "Relayed and encrypted connection";
  "Direct and unencrypted connection";
  "Relayed and unencrypted connection";
  "Enter Remote ID";
  "Enter your password";
  "Logging in...";
  "Enable RDP session sharing";
  "Auto Login";
  "Enable direct IP access";
  "Rename";
  "Space";
  "Create desktop shortcut";
  "Change Path";
  "Create Folder";
  "Please enter the folder name";
  "Fix it";
  "Warning";
  "Login screen using Wayland is not supported";
  "Reboot required";
  "Unsupported display server";
  "x11 expected";
  "Port";
  "Settings";
  "Username";
  "Invalid port";
  "Closed manually by the peer";
  "Enable remote configuration modification";
  "Run without install";
  "Connect via relay";
  "Always connect via relay";
  "whitelist_tip";
  "Login";
  "Verify";
  "Remember me";
  "Trust this device";
  "Verification code";
  "verification_tip";
  "Logout";
  "Tags";
  "Search ID";
  "whitelist_sep";
  "Add ID";
  "Add Tag";
  "Unselect all tags";
  "Network error";
  "Username missed";
  "Password missed";
  "Wrong credentials";
  "The verification code is incorrect or has expired";
  "Edit Tag";
  "Forget Password";
  "Favorites";
  "Add to Favorites";
  "Remove from Favorites";
  "Empty";
  "Invalid folder name";
  "Socks5 Proxy";
  "Socks5/Http(s) Proxy";
  "Discovered";
  "install_daemon_tip";
  "Remote ID";
  "Paste";
  "Paste here?";
  "Are you sure to close the connection?";
  "Download new version";
  "Touch mode";
  "Mouse mode";
  "One-Finger Tap";
  "Left Mouse";
  "One-Long Tap";
  "Two-Finger Tap";
  "Right Mouse";
  "One-Finger Move";
  "Double Tap & Move";
  "Mouse Drag";
  "Three-Finger vertically";
  "Mouse Wheel";
  "Two-Finger Move";
  "Canvas Move";
  "Pinch to Zoom";
  "Canvas Zoom";
  "Reset canvas";
  "No permission of file transfer";
  "Note";
  "Connection";
  "Share Screen";
  "Chat";
  "Total";
  "items";
  "Selected";
  "Screen Capture";
  "Input Control";
  "Audio Capture";
  "File Connection";
  "Screen Connection";
  "Do you accept?";
  "Open System Setting";
  "How to get Android input permission?";
  "android_input_permission_tip1";
  "android_input_permission_tip2";
  "android_new_connection_tip";
  "android_service_will_start_tip";
  "android_stop_service_tip";
  "android_version_audio_tip";
  "android_start_service_tip";
  "android_permission_may_not_change_tip";
  "Account";
  "Overwrite";
  "This file exists, skip or overwrite this file?";
  "Quit";
  "Help";
  "Failed";
  "Succeeded";
  "Someone turns on privacy mode, exit";
  "Unsupported";
  "Peer denied";
  "Please install plugins";
  "Peer exit";
  "Failed to turn off";
  "Turned off";
  "Language";
  "Keep RustDesk background service";
  "Ignore Battery Optimizations";
  "android_open_battery_optimizations_tip";
  "Start on boot";
  "Start the screen sharing service on boot, requires special permissions";
  "Connection not allowed";
  "Legacy mode";
  "Map mode";
  "Translate mode";
  "Use permanent password";
  "Use both passwords";
  "Set permanent password";
  "Enable remote restart";
  "Restart remote device";
  "Are you sure you want to restart";
  "Restarting remote device";
  "remote_restarting_tip";
  "Copied";
  "Exit Fullscreen";
  "Fullscreen";
  "Mobile Actions";
  "Select Monitor";
  "Control Actions";
  "Display Settings";
  "Ratio";
  "Image Quality";
  "Scroll Style";
  "Show Toolbar";
  "Hide Toolbar";
  "Direct Connection";
  "Relay Connection";
  "Secure Connection";
  "Insecure Connection";
  "Scale original";
  "Scale adaptive";
  "General";
  "Security";
  "Theme";
  "Dark Theme";
  "Light Theme";
  "Dark";
  "Light";
  "Follow System";
  "Enable hardware codec";
  "Unlock Security Settings";
  "Enable audio";
  "Unlock Network Settings";
  "Server";
  "Direct IP Access";
  "Proxy";
  "Apply";
  "Disconnect all devices?";
  "Clear";
  "Audio Input Device";
  "Use IP Whitelisting";
  "Network";
  "Pin Toolbar";
  "Unpin Toolbar";
  "Recording";
  "Directory";
  "Automatically record incoming sessions";
  "Automatically record outgoing sessions";
  "Change";
  "Start session recording";
  "Stop session recording";
  "Enable recording session";
  "Enable LAN discovery";
  "Deny LAN discovery";
  "Write a message";
  "Prompt";
  "Please wait for confirmation of UAC...";
  "elevated_foreground_window_tip";
  "Disconnected";
  "Other";
  "Confirm before closing multiple tabs";
  "Keyboard Settings";
  "Full Access";
  "Screen Share";
  "Wayland requires Ubuntu 21.04 or higher version.";
  "Wayland requires higher version of linux distro. Please try X11 desktop or change your OS.";
  "JumpLink";
  "Please Select the screen to be shared(Operate on the peer side).";
  "Show RustDesk";
  "This PC";
  "or";
  "Continue with";
  "Elevate";
  "Zoom cursor";
  "Accept sessions via password";
  "Accept sessions via click";
  "Accept sessions via both";
  "Please wait for the remote side to accept your session request...";
  "One-time Password";
  "Use one-time password";
  "One-time password length";
  "Request access to your device";
  "Hide connection management window";
  "hide_cm_tip";
  "wayland_experiment_tip";
  "Right click to select tabs";
  "Skipped";
  "Add to address book";
  "Group";
  "Search";
  "Closed manually by web console";
  "Local keyboard type";
  "Select local keyboard type";
  "software_render_tip";
  "Always use software rendering";
  "config_input";
  "config_microphone";
  "request_elevation_tip";
  "Wait";
  "Elevation Error";
  "Ask the remote user for authentication";
  "Choose this if the remote account is administrator";
  "Transmit the username and password of administrator";
  "still_click_uac_tip";
  "Request Elevation";
  "wait_accept_uac_tip";
  "Elevate successfully";
  "uppercase";
  "lowercase";
  "digit";
  "special character";
  "length>=8";
  "Weak";
  "Medium";
  "Strong";
  "Switch Sides";
  "Please confirm if you want to share your desktop?";
  "Display";
  "Default View Style";
  "Default Scroll Style";
  "Default Image Quality";
  "Default Codec";
  "Bitrate";
  "FPS";
  "Auto";
  "Other Default Options";
  "Voice call";
  "Text chat";
  "Stop voice call";
  "relay_hint_tip";
  "Reconnect";
  "Codec";
  "Resolution";
  "No transfers in progress";
  "Set one-time password length";
  "RDP Settings";
  "Sort by";
  "New Connection";
  "Restore";
  "Minimize";
  "Maximize";
  "Your Device";
  "empty_recent_tip";
  "empty_favorite_tip";
  "empty_lan_tip";
  "empty_address_book_tip";
  "eg: admin";
  "Empty Username";
  "Empty Password";
  "Me";
  "identical_file_tip";
  "show_monitors_tip";
  "View Mode";
  "login_linux_tip";
  "verify_rustdesk_password_tip";
  "remember_account_tip";
  "os_account_desk_tip";
  "OS Account";
  "another_user_login_title_tip";
  "another_user_login_text_tip";
  "xorg_not_found_title_tip";
  "xorg_not_found_text_tip";
  "no_desktop_title_tip";
  "no_desktop_text_tip";
  "No need to elevate";
  "System Sound";
  "Default";
  "New RDP";
  "Fingerprint";
  "Copy Fingerprint";
  "no fingerprints";
  "Select a peer";
  "Select peers";
  "Plugins";
  "Uninstall";
  "Update";
  "Enable";
  "Disable";
  "Options";
  "resolution_original_tip";
  "resolution_fit_local_tip";
  "resolution_custom_tip";
  "Collapse toolbar";
  "Accept and Elevate";
  "accept_and_elevate_btn_tooltip";
  "clipboard_wait_response_timeout_tip";
  "Incoming connection";
  "Outgoing connection";
  "Exit";
  "Open";
  "logout_tip";
  "Service";
  "Start";
  "Stop";
  "exceed_max_devices";
  "Sync with recent sessions";
  "Sort tags";
  "Open connection in new tab";
  "Move tab to new window";
  "Can not be empty";
  "Already exists";
  "Change Password";
  "Refresh Password";
  "ID";
  "Grid View";
  "List View";
  "Select";
  "Toggle Tags";
  "pull_ab_failed_tip";
  "push_ab_failed_tip";
  "synced_peer_readded_tip";
  "Change Color";
  "Primary Color";
  "HSV Color";
  "Installation Successful!";
  "Installation failed!";
  "Reverse mouse wheel";
  "{} sessions";
  "scam_title";
  "scam_text1";
  "scam_text2";
  "Don't show again";
  "I Agree";
  "Decline";
  "Timeout in minutes";
  "auto_disconnect_option_tip";
  "Connection failed due to inactivity";
  "Check for software update on startup";
  "upgrade_rustdesk_server_pro_to_{}_tip";
  "pull_group_failed_tip";
  "Filter by intersection";
  "Remove wallpaper during incoming sessions";
  "Test";
  "display_is_plugged_out_msg";
  "No displays";
  "Open in new window";
  "Show displays as individual windows";
  "Use all my displays for the remote session";
  "selinux_tip";
  "Change view";
  "Big tiles";
  "Small tiles";
  "List";
  "Virtual display";
  "Plug out all";
  "True color (4:4:4)";
  "Enable blocking user input";
  "id_input_tip";
  "privacy_mode_impl_mag_tip";
  "privacy_mode_impl_virtual_display_tip";
  "Enter privacy mode";
  "Exit privacy mode";
  "idd_not_support_under_win10_2004_tip";
  "input_source_1_tip";
  "input_source_2_tip";
  "Swap control-command key";
  "swap-left-right-mouse";
  "2FA code";
  "More";
  "enable-2fa-title";
  "enable-2fa-desc";
  "wrong-2fa-code";
  "enter-2fa-title";
  "Email verification code must be 6 characters.";
  "2FA code must be 6 digits.";
  "Multiple Windows sessions found";
  "Please select the session you want to connect to";
  "powered_by_me";
  "outgoing_only_desk_tip";
  "preset_password_warning";
  "Security Alert";
  "My address book";
  "Personal";
  "Owner";
  "Set shared password";
  "Exist in";
  "Read-only";
  "Read/Write";
  "Full Control";
  "share_warning_tip";
  "Everyone";
  "ab_web_console_tip";
  "allow-only-conn-window-open-tip";
  "no_need_privacy_mode_no_physical_displays_tip";
  "Follow remote cursor";
  "Follow remote window focus";
  "default_proxy_tip";
  "no_audio_input_device_tip";
  "Incoming";
  "Outgoing";
  "Clear Wayland screen selection";
  "clear_Wayland_screen_selection_tip";
  "confirm_clear_Wayland_screen_selection_tip";
  "android_new_voice_call_tip";
  "texture_render_tip";
  "Use texture rendering";
  "Floating window";
  "floating_window_tip";
  "Keep screen on";
  "Never";
  "During controlled";
  "During service is on";
  "Capture screen using DirectX";
  "Back";
  "Apps";
  "Volume up";
  "Volume down";
  "Power";
  "Telegram bot";
  "enable-bot-tip";
  "enable-bot-desc";
  "cancel-2fa-confirm-tip";
  "cancel-bot-confirm-tip";
  "About RustDesk";
  "Send clipboard keystrokes";
  "network_error_tip";
  "Unlock with PIN";
  "Requires at least {} characters";
  "Wrong PIN";
  "Set PIN";
  "Enable trusted devices";
  "Manage trusted devices";
  "Platform";
  "Days remaining";
  "enable-trusted-devices-tip";
  "Parent directory";
  "Resume";
  "Invalid file name";
  "one-way-file-transfer-tip";
  "Authentication Required";
  "Authenticate";
  "web_id_input_tip";
  "Download";
  "Upload folder";
  "Upload files";
  "Clipboard is synchronized";
  "Update client clipboard";
  "Untagged";
  "new-version-of-{}-tip";
  "Accessible devices"].
(** The table with these texts for them. *)
Definition texts (ts : list string) : jsmap string string := zip text_ids ts.

(** ** What is shown *)
(** The table of a language, as [translate] looks it up. *)
Definition table (LANGS : jsmap string (jsmap string string)) (LANG locale : string) : jsmap string string :=
  default (default [] (map_get LANGS "en")) (map_get LANGS (or_empty LANG (locale_lang locale))).
(** A table has a text for an id. *)
Definition translated (dict : jsmap string string) (id : string) : bool := truthy (default "" (map_get dict id)).

Lemma translated_lookup dict id : translated dict id = true -> map_get dict id = Some (default "" (map_get dict id)).
Proof. unfold translated. by destruct (map_get dict id). Qed.
Lemma not_translated dict id : translated dict id = false -> default "" (map_get dict id) = "".
Proof. unfold translated, truthy, truthy_string. by intros H%bool_decide_eq_false%dec_stable. Qed.
Lemma or_empty_truthy s d : truthy s = true -> or_empty s d = s.
Proof. unfold or_empty, truthy, truthy_string. intros H%bool_decide_eq_true. by rewrite bool_decide_false. Qed.

(** No text of the application is ever lost.  Whatever languages there are besides English, whichever
    is asked for, and whatever the text: it is shown in the language's own words if its table has
    any, in English if only the English table has some, and as it is otherwise; so what is not empty
    never becomes empty.  All but three ids of the English table have words there. *)
Theorem translate_never_empty LANGS LANG locale text : map_get LANGS "en" = Some en -> text <> "" ->
  (let shown := translate LANGS LANG locale text in
   shown <> "" /\
   (translated (table LANGS LANG locale) text = true -> map_get (table LANGS LANG locale) text = Some shown) /\
   (translated (table LANGS LANG locale) text = false -> translated en text = true -> map_get en text = Some shown) /\
   (translated (table LANGS LANG locale) text = false -> translated en text = false -> shown = text)) /\
  filter (fun id => translated en id = false) (map_keys en) =
    ["Follow remote cursor"; "Follow remote window focus"; "About RustDesk"].
Proof.
  intros Hen Ht. split; [|by vm_compute]. cbv zeta. unfold translate, table. rewrite Hen. change (default [] (Some en)) with en.
  set (lang := or_empty LANG (locale_lang locale)).
  set (dict := default en (map_get LANGS lang)).
  assert (Hdict : (lang =? "en") = true -> dict = en) by (intros E%String.eqb_eq; subst dict; by rewrite E, Hen).
  clearbody dict. destruct (translated dict text) eqn:Ed.
  - unfold translated in Ed. rewrite Ed. cbn [negb andb]. rewrite or_empty_truthy by done.
    split_and!; try done; [|intros _; by apply translated_lookup].
    unfold truthy, truthy_string in Ed. by apply bool_decide_eq_true in Ed.
  - pose proof (not_translated _ _ Ed) as E0. unfold translated in Ed. rewrite Ed. cbn [negb andb].
    assert (Eres : (if negb (lang =? "en") then default "" (map_get en text) else default "" (map_get dict text)) =
      default "" (map_get en text)) by (destruct (lang =? "en"); [by rewrite Hdict|done]).
    rewrite Eres. destruct (translated en text) eqn:Ee.
    + pose proof Ee as Et. unfold translated in Ee. rewrite or_empty_truthy by done.
      split_and!; try done; [|intros _ _; by apply translated_lookup].
      unfold truthy, truthy_string in Ee. by apply bool_decide_eq_true in Ee.
    + rewrite (not_translated _ _ Ee). by split_and!.
Qed.
Lemma translate_never_empty_witness :
  let LANGS := [("fr", [("desk_tip", "Votre bureau")]); ("en", en)] in
  translate LANGS "" "de-FR" "desk_tip" = "Votre bureau" /\
  translate LANGS "" "de-FR" "not_ready_status" = "Not ready. Please check your connection" /\
  translate LANGS "" "de-FR" "ID" <> "".
Proof.
  cbv zeta. split; [reflexivity|]. split; [reflexivity|].
  by apply (translate_never_empty [("fr", [("desk_tip", "Votre bureau")]); ("en", en)] "" "de-FR" "ID").
Defined.
