(* ===== verification/TextsA.v ===== *)
(** * The texts in [ar], [be], [bg], [ca], [cn], [cs], [da], [de], [el], [eo] and [es]

    Each table of [LANGS] in [proto/gen_js_from_hbb.ts] as its texts for [text_ids]; an empty text is one
    nobody has translated. *)
From S2P Require Import Prelude JsMap JsStr Json Common Langs.
Local Open Scope string_scope.

(** [LANGS.ar] *)
Definition lang_ar : jsmap string string := texts [
  "الحالة";
  "سطح مكتبك";
  "يمكن الوصول لسطح مكتبك بهذا المعرف والرقم السري.";
  "كلمة المرور";
  "جاهز";
  "تم الانشاء";
  "جاري الاتصال بشبكة RustDesk...";
  "تفعيل الخدمة";
  "بدء الخدمة";
  "الخدمة تعمل";
  "الخدمة لا تعمل";
  "غير جاهز. الرجاء التأكد من الاتصال";
  "التحكم بسطح المكتب البعيد";
  "نقل ملف";
  "اتصال";
  "الجلسات الحديثة";
  "كتاب العناوين";
  "التأكيد";
  "نفق TCP";
  "ازالة";
  "تحديث كلمة مرور عشوائية";
  "تعيين كلمة مرور خاصة بك";
  "تفعيل لوحة المفاتيح/الفأرة";
  "تفعيل الحافظة";
  "تفعيل نقل الملفات";
  "تفعيل نفق TCP";
  "القائمة البيضاء للـ IP";
  "معرف خادم الوسيط";
  "استيراد إعدادات الخادم";
  "تصدير إعدادات الخادم";
  "تم استيراد إعدادات الخادم بنجاح";
  "تم تصدير إعدادات الخادم بنجاح";
  "إعدادات الخادم غير صحيحة";
  "الحافظة فارغة";
  "إيقاف الخدمة";
  "تغيير المعرف";
  "معرفك الجديد";
  "الطول من %min% الى %max%";
  "يبدأ بحرف";
  "الحروف المسموح بها";
  "فقط a-z, A-Z, 0-9, - (dash) و _ مسموح بها. اول حرف يجب ان يكون a-z او A-Z. الطول بين 6 و 16.";
  "الموقع";
  "عن";
  "صنع بحب في هذا العالم الفوضوي!";
  "بيان الخصوصية";
  "كتم";
  "تاريخ البناء";
  "النسخة";
  "المنزل";
  "مصدر الصوت";
  "التحسينات";
  "ترميز العتاد";
  "معدل بت متكيف";
  "معرف الخادم";
  "خادم الوسيط";
  "خادم API";
  "يجب ان يبدأ بـ http:// او https://";
  "عنوان IP غير صحيح";
  "صيغة غير صحيحة";
  "الخادم غير مدعوم";
  "غير متوفر";
  "متكرر جدا";
  "إلغاء الأمر";
  "تجاوز";
  "إغلاق";
  "إعادة المحاولة";
  "موافق";
  "كلمة المرور اجبارية";
  "الرجاء كتابة كلمة المرور";
  "تذكر كلمة المرور";
  "كلمة مرور خاطئة";
  "هل تريد الادخال مرة اخرى؟";
  "خطأ غي الاتصال";
  "خطأ";
  "تمت اعادة التعيين بواسطة القرين";
  "جاري الاتصال...";
  "جاري الاتصال, الرجاء الانتظار...";
  "الرجاء المحاولة بعد دقيقة واحدة";
  "خطأ في تسجيل الدخول";
  "نجاح";
  "متصل, جاري انتظار الصورة...";
  "الاسم";
  "النوع";
  "آخر تعديل";
  "الحجم";
  "عرض الملفات المخفية";
  "استقبال";
  "ارسال";
  "تحديث الملف";
  "المحلي";
  "البعيد";
  "الحاسب البعيد";
  "الحاسب المحلي";
  "تأكيد الحذف";
  "حذف";
  "الخصائص";
  "اختيار متعدد";
  "تحديد الكل";
  "الغاء تحديد الكل";
  "مجلد فارغ";
  "مجلد غير فارغ";
  "هل انت متأكد من أنك تريد حذف هذا الملف؟";
  "هل انت متأكد من أنك تريد حذف هذا المجلد؟";
  "هل انت متأكد من أنك تريد حذف ملفات هذا المجلد؟";
  "فعل هذا لكل التعارضات";
  "لا يمكن التراجع عن هذا!";
  "جاري الحذف";
  "ملفات";
  "انتظار";
  "انتهى";
  "السرعة";
  "جودة صورة مخصصة";
  "وضع الخصوصية";
  "حجم ادخال المستخدم";
  "الغاء حجب ادخال المستخدم";
  "ضبط النافذة";
  "الاصلي";
  "تقليص";
  "تمديد";
  "شريط التمرير";
  "التمرير التلقائي";
  "دقة صورة جيدة";
  "متوازن";
  "تحسين وقت رد الفعل";
  "مخصص";
  "عرض مؤشر الجهاز البعيد";
  "عرض مراقب الجودة";
  "تعطيل الحافظة";
  "القفل بعد نهاية هذه الجلسة";
  "Ctrl + Alt + Del دخال";
  "قفل الادخال";
  "تحديث";
  "المعرف غير موجود";
  "فشل الاتصال بخادم rendezvous";
  "الرجاء المحاولة لاحقا";
  "سطح المكتب البعيد غير متصل";
  "المفتاح غير متطابق";
  "نفذ الوقت";
  "فشل الاتصال بالخادم الوسيط";
  "فشل الاتصال عير خادم rendezvous";
  "فشل الاتصال عبر الخادم الوسيط";
  "فشل في اجراء اتصال مباشر لسطح المكتب البعيد";
  "ضبط كلمة المرور";
  "كلمة مرور نظام التشغيل";
  "بسبب صلاحيات تحكم حساب المستخدم. RustDesk قد لا يعمل بشكل صحيح في جهة البعيد في بعض الحالات. لتفادي ذلك. الرجاء الضغط على الزر ادناه لتثبيت RustDesk في جهازك.";
  "اضغط للارتقاء";
  "اضغط للتنزيل";
  "ضغط للتحديث";
  "تهيئة";
  with_quotes ["لتتمكن من التحكم بسطح مكتبك البعيد, تحتاج الى منح RustDesk اذونات "; "امكانية الوصول"; "."];
  with_quotes ["لتتمكن من الوصول الى سطح مكتبك البعيد, تحتاج الى منح RustDesk اذونات "; "تسجيل الشاشة"; "."];
  "جاري التثبيت...";
  "تثبيت";
  "التثبيت";
  "مسار التثبيت";
  "انشاء اختصارات قائمة ابداء";
  "انشاء اختصار سطح المكتب";
  "بمجرد البدء بالتثبيت, فانت قد قبلت اتفاقية الترخيص.";
  "الموافقة والتثبيت";
  "اتفاقية ترخيص المستخدم النهائي";
  "جاري الانشاء...";
  "انت تحاول تثبيت نسخة قديمة.";
  "لا تغلق هذه النافذة اثناء استخدامك للنفق";
  "جاري الاستماع...";
  "المستضيف البعيد";
  "منفذ المستضيف البعيد";
  "فعل";
  "اضافة";
  "المنفذ المحلي";
  "العنوان المحلي";
  "تغيير المنفذ المحلي";
  "لاتصال اسرع, الرجاء اعداد خادم خاص بك";
  "قصير جدا. يجب ان يكون على الاقل 6 خانات";
  "التأكيد غير متطابق";
  "الاذونات";
  "قبول";
  "صرف";
  "قطع الاتصال";
  "السماح بالنسخ واللصق";
  "متصل";
  "اتصال مباشر مشفر";
  "اتصال غير مباشر مشفر";
  "اتصال مباشر غير مشفر";
  "اتصال غير مباشر غير مشفر";
  "ادخل المعرف البعيد";
  "ادخل كلمة المرور";
  "جاري تسجيل الدخول...";
  "تفعيل مشاركة الجلسة باستخدام RDP";
  "تسجيل دخول تلقائي";
  "تفعيل الوصول المباشر لعنوان IP";
  "اعادة تسمية";
  "مساحة";
  "انشاء اختصار سطح مكتب";
  "تغيير المسار";
  "انشاء مجلد";
  "الرجاء ادخال اسم المجلد";
  "اصلحه";
  "تحذير";
  "تسجيل الدخول باستخدام Wayland غير مدعوم";
  "يجب اعادة التشغيل";
  "خادم العرض غير مدعوم";
  "x11 متوقع";
  "المنفذ";
  "الاعدادات";
  "اسم المستخدم";
  "منفذ خاطئ";
  "اغلاق يدويا بواسطة القرين";
  "تفعيل تعديل اعدادات البعيد";
  "تشغيل بدون تثبيت";
  "الاتصال عبر وسيط";
  "الاتصال باستخدام وسيط دائما";
  "فقط قائمة الـ IP البيضاء تستطيع الوصول لي";
  "تسجيل الدخول";
  "تأكيد";
  "تذكرني";
  "الوثوق بهذا الجهاز";
  "رمز التحقق";
  "رمز التحقق ارسل الى بريدك الالكتروني المسجل. ادخل رمز التحقق للاستمرار بتسجيل الدخول.";
  "تسجيل الخروج";
  "العلامات";
  "البحث المعرف";
  "مفصولة بفاصلة او فاصلة منقوطة او سطر جديد";
  "اضافة معرف";
  "اضافة علامة";
  "عدم تحديد كل العلامات";
  "خطأ شبكة";
  "اسم المستخدم مفقود";
  "كلمة المرور مفقودة";
  "اسم مستخدم او كلمة مرور خاطئة";
  "رمز التحقق غير صحيح او منتهي";
  "تحرير علامة";
  "عدم تذكر كلمة المرور";
  "المفضلة";
  "اضافة للمفضلة";
  "ازالة من المفضلة";
  "فارغ";
  "اسم المجلد غير صحيح";
  "وكيل Socks5";
  "وكيل Socks5/Http(s)";
  "المكتشفة";
  "للبدء مع بدء تشغيل النظام. تحتاج الى تثبيت خدمة النظام.";
  "المعرف البعيد";
  "لصق";
  "لصق هنا؟";
  "هل انت متاكد من انك تريد اغلاق هذا الاتصال؟";
  "تنويل نسخة جديدة";
  "وضع اللمس";
  "وضع الفأرة";
  "لم اصبع واحد";
  "الفأرة اليسرى";
  "لمسة واحدة طويلة";
  "لمس اصبعين";
  "الفأرة اليمنى";
  "نقل الاصبع الواحد";
  "لمستان ونقل";
  "سحب الفأرة";
  "ثلاث اصابع افقيا";
  "عجلة الفارة";
  "نقل الاصبعين";
  "";
  "قرصة للتكبير";
  "";
  "";
  "لا يوجد اذن نقل الملف";
  "ملاحظة";
  "الاتصال";
  "مشاركة الشاشة";
  "محادثة";
  "الاجمالي";
  "عناصر";
  "محدد";
  "لقط الشاشة";
  "تحكم الادخال";
  "لقط الصوت";
  "اتصال الملف";
  "اتصال الشاشة";
  "هل تقبل؟";
  "فتح اعدادات النظام";
  "كيف تحصل على اذن الادخال في اندرويد؟";
  with_quotes ["لكي يتمكن جهاز بعيد من التحكم بجهازك الـ Android عن طريق الفارة أو اللمس، يلزمك السماح لـ RustDesk باستخدام خدمة "; "إمكانية الوصول"; "."];
  "يرجى الانتقال إلى صفحة إعدادات النظام التالية، والعثور على [الخدمات المثبتة]، وتشغيل خدمة [RustDesk Input].";
  "تم استلام طلب تحكم جديد، حيث يريد التحكم بجهازك الحالي.";
  with_quotes ["تشغيل "; "لقط الشاشة"; " سيبدأ الخدمة تلقائيا، حيث سيسمح للاجهزة الاخرى بطلب الاتصال مع جهازك."];
  "اغلاق الخدمة سيغلق جميع الاتصالات القائمة.";
  "نسخة اندرويد الحالية لا تدعم خدمة لقط الصوت، الرجاء الترقية الى نسخة 10 او أحدث.";
  "اضغط تشغيل الخدمة او فعل صلاحية لقط الشاشة لبدء خدمة مشاركة الشاشة.";
  "الاذونات الاتصالات القائمة قد لا تتغير مباشرة الا بعد اعادة الاتصال.";
  "الحساب";
  "استبدال";
  "الملف موجود, هل تريد التجاوز او الاستبدال؟";
  "خروج";
  "مساعدة";
  "فشل";
  "نجاح";
  "شخص ما فعل وضع الخصوصية, خروج";
  "غير مدعوم";
  "القرين رفض";
  "الرجاء تثبيت الاضافات";
  "خروج القرين";
  "فشل ايقاف التشغيل";
  "مطفئ";
  "اللغة";
  "ابق خدمة RustDesk تعمل في الخلفية";
  "تجاهل تحسينات البطارية";
  "اذا اردت تعطيل هذه الميزة, الرجاء الذهاب الى صفحة اعدادات تطبيق RustDesk, ابحث عن البطارية, الغ تحديد غير مقيد";
  "البدء عند تشغيل النظام";
  "تشغيل خدمة مشاركة الشاشة عند بدء تشغيل النظام, يحتاج الى اذونات خاصة";
  "الاتصال غير مسموح";
  "الوضع التقليدي";
  "وضع الخريطة";
  "وضع الترجمة";
  "استخدام كلمة مرور دائمة";
  "استخدام طريقتي كلمة المرور";
  "تعيين كلمة مرور دائمة";
  "تفعيل اعداة تشغيل البعيد";
  "اعادة تشغيل الجهاز البعيد";
  "هل انت متاكد من انك تريد اعادة التشغيل؟";
  "جاري اعادة تشغيل البعيد";
  "الجهاز البعيد يعيد التشغيل. الرجاء اغلاق هذه الرسالة واعادة الاتصال باستخدام كلمة المرور الدائمة بعد فترة بسيطة.";
  "منسوخ";
  "الخروج من ملئ الشاشة";
  "ملئ الشاشة";
  "اجراءات الهاتف";
  "اختر شاشة";
  "اجراءات التحكم";
  "اعدادات العرض";
  "النسبة";
  "جودة الصورة";
  "شكل التمرير";
  "عرض شريط الادوات";
  "اخفاء شريط الادوات";
  "اتصال مباشر";
  "اتصال الوسيط";
  "اتصال آمن";
  "اتصال غير آمن";
  "المقياس الأصلي";
  "مقياس التكيف";
  "عام";
  "الأمان";
  "السمة";
  "سمة غامقة";
  "سمة فاتحة";
  "غامق";
  "فاتح";
  "نفس نظام التشغيل";
  "تفعيل ترميز العتاد";
  "فتح اعدادات الامان";
  "تفعيل الصوت";
  "فتح اعدادات الشبكة";
  "الخادم";
  "وصول مباشر للـ IP";
  "الوكيل";
  "تطبيق";
  "قطع اتصال كل الاجهزة؟";
  "مسح";
  "جهاز ادخال الصوت";
  "استخدام قائمة الـ IP البيضاء";
  "الشبكة";
  "تثبيت شريط الادوات";
  "الغاء تثبيت شريط الادوات";
  "التسجيل";
  "المسار";
  "تسجيل الجلسات القادمة تلقائيا";
  "";
  "تغيير";
  "بدء تسجيل الجلسة";
  "ايقاف تسجيل الجلسة";
  "تفعيل تسجيل الجلسة";
  "تفعيل اكتشاف الشبكة المحلية";
  "رفض اكتشاف الشبكة المحلية";
  "اكتب رسالة";
  "";
  "الرجاء انتظار تاكيد تحكم حساب المستخدم...";
  "النافذة الحالية لسطح المكتب البعيد تحتاج صلاحية اعلى لتعمل, لذلك لن تستطيع استخدام الفارة ولوحة المفاتيح مؤقتا. تستطيع انت تطلب من المستخدم البعيد تصغير النافذة الحالية, او ضفط زر الارتقاء في نافذة ادارة الاتصال. لتفادي هذة المشكلة من المستحسن تثبيت البرنامج في الجهاز البعيد.";
  "مفصول";
  "اخرى";
  "التاكيد قبل اغلاق السنة عديدة";
  "اعدادات لوحة المفاتيح";
  "وصول كامل";
  "مشاركة الشاشة";
  "Wayland يتطلب نسخة ابونتو 21.04 او اعلى.";
  "Wayland يتطلب نسخة اعلى من توزيعة لينكس. الرجاء تجربة سطح مكتب X11 او غير نظام تشغيلك.";
  "رابط القفز";
  "الرجاء اختيار شاشة لمشاركتها (تعمل على جانب القرين).";
  "عرض RustDesk";
  "هذا الحاسب";
  "او";
  "متابعة مع";
  "ارتقاء";
  "تكبير المؤشر";
  "قبول الجلسات عبر كلمة المرور";
  "قبول الجلسات عبر الضغط";
  "قبول الجلسات عبر الاثنين";
  "الرجاء الانتظار حتى يقبل الطرف البعيد طلب الجلسة...";
  "كلمة مرور لمرة واحدة";
  "استخدام كلمة مرور لمرة واحدة";
  "طول كلمة مرور لمرة واحدة";
  "طلب الوصول إلى جهازك";
  "اخفاء نافذة ادارة الاتصال";
  "السماح بالاخفاء فقط في حالة قبول الجلسات عبر كلمة المرور واستخدام كلمة المرور الدائمة";
  "دعم Wayland لازال في المرحلة التجريبية. الرجاء استخدام X11 اذا اردت وصول كامل.";
  "الضغط بالزر الايمن لتحديد الالسنة";
  "متجاوز";
  "اضافة الى كتاب العناوين";
  "مجموعة";
  "بحث";
  "اغلق يدويا عبر طرفية الويب";
  "توع لوحة المفاتيح المحلية";
  "اختر نوع لوحة المفاتيح الملحية";
  "اذا كنت تستخدم بطاقة رسوميات Nvidia تحت لينكس والشاشة البعيد تغلق مباشرة بعد الاتصال, قم بالتبديل الى تعريفات Nouveau مفتوحة المصدر واختيار الترميز البرمجي قد يساعد. اعادة تشغيل البرناج مطلوبة.";
  "استخدام الترميز البرمجي دائما";
  with_quotes ["لتتمكن من التحكم بسطح المكتب البعيد. يجب من RustDesk اذونات "; "مراقبة المدخلات"; "."];
  with_quotes ["لتتمكن من التحدث. يجب منح RustDesk اذونات "; "تسجيل الصوت"; "."];
  "اطلب الارتقاء في حالة وجود شخص في الطرف الاخر.";
  "انتظر";
  "خطأ الارتقاء";
  "اسأل المستخدم البعيد التوثيق";
  "اختر اذا كان الحساب البعيد مدير للنظام";
  "انقل اسم المستخدم وكلمة مرور مدير النظام";
  "لازال يحتاج المستخدم البعيد للضغط على موافق في نافذة تحكم حساب المستخدم في RustDesk الذي يعمل.";
  "طلب ارتقاء";
  "الرجاء انتظار المستخدم البعيد حتى يوافق على طلب تحكم حساب المستخدم.";
  "الارتقاء بنجاح";
  "حرف كبير";
  "حرف صغير";
  "رقم";
  "رمز";
  "الطول 8 على الاقل";
  "ضعيف";
  "متوسط";
  "قوي";
  "تبديل الاماكن";
  "الرجاء التاكيد على انك تريد مشاركة سطح مكتبك؟";
  "العرض";
  "شكل العرض الافتراضي";
  "شكل التمرير الافتراضي";
  "دقة الصورة الافتراضية";
  "الترميز الاقتراضي";
  "معدل البت";
  "مشهد في الثانية";
  "تلقائي";
  "الخيارات الافتراضية الاخرى";
  "مكالمة صوتية";
  "دردشة نصية";
  "ايقاف المكالمة الصوتية";
  with_quotes ["قد لا يكون ممكن الاتصال مباشرة. يمكنك محاولة الاتصال عبر وسيط. ايضا اذا اردت استخدام وسيط لمحاولتك الاولى اضف لاحقة "; "/r"; " الى المعرف او اختر "; "الاتصال باستخدام وسيط دائما"; " في بطاقة الجلسات الحديثة ان وجدت."];
  "اعادة الاتصال";
  "الترميز";
  "الدقة";
  "لا توجد عمليات نقل حاليا";
  "تعيين طول كلمة مرور المرة الواحدة";
  "اعدادات RDP";
  "ترتيب حسب";
  "اتصال جديد";
  "استعادة";
  "تصغير";
  "تكبير";
  "جهازك";
  "للاسف. لا توجد جلسات حديثة\nحان الوقت للتخطيط لواحدة جديدة.";
  "لا يوجد اقران مفضلين حتى الان؟\nحسنا لنبحث عن شخص للاتصال معه ومن ثم اضافته للمفضلة.";
  "اه لا, يبدو انك لم تكتشف اي قرين بعد.";
  "يا عزيزي, يبدو انه لايوجد حاليا اي اقران في كتاب العناوين.";
  "مثلا: admin";
  "اسم مستخدم فارغ";
  "كلمة مرور فارغة";
  "انا";
  "هذا الملف مطابق لملف موجود عن القرين.";
  "عرض الشاشات في شريط الادوات";
  "وضع العرض";
  "تحتاج الى تسجيل الدخول حساب لينكس البعيد وتفعيل جلسة سطح مكتب X";
  "تحقق من كلمة مرور RustDesk";
  "تذكر هذا الحساب";
  "هذا الحساب مستخدم لتسجيل الدخول الى سطح المكتب البعيد وتفعيل الجلسة";
  "حساب نظام التشغيل";
  "مستخدم اخر مسجل دخول حاليا";
  "قطع الاتصال";
  "Xorg غير موجود";
  "الرجاء تثبيت Xorg";
  "لا يتوفر سطح مكتب";
  "الرجاء تثبيت سطح مكتب GNOME";
  "لا حاجة للارتقاء";
  "صوت النظام";
  "الافتراضي";
  "RDP جديد";
  "البصمة";
  "نسخ البصمة";
  "لا توجد بصمات اصابع";
  "اختر قرين";
  "اختر الاقران";
  "الاضافات";
  "الغاء التثبيت";
  "تحديث";
  "تفعيل";
  "تعطيل";
  "الخيارات";
  "الدقة الأصلية";
  "تناسب الدقة المحلية";
  "دقة مخصصة";
  "طي شريط الادوات";
  "قبول وارتقاء";
  "قبول الاتصال وارتقاء صلاحيات التحكم بصلاحيات المستخدم.";
  "انتهى وقت الانتظار لنسخ الرد.";
  "اتصال قادم";
  "اتصال مغادر";
  "خروج";
  "فتح";
  "هل انت متاكد من انك تريد تسجيل الخروج";
  "الخدمة";
  "تشغيل";
  "ايقاف";
  "لقد وصلت الحد الأقصى لعدد الاجهزة التي يمكن دارتها.";
  "المزامنة مع الجلسات الحديثة";
  "ترتيب العلامات";
  "فتح اتصال في لسان جديد";
  "نقل اللسان الى نافذة جديدة";
  "لا يمكن ان يكون فارغ";
  "موجود مسبقا";
  "تغيير كلمة المرور";
  "تحديث كلمة المرور";
  "المعرف";
  "عرض شبكي";
  "رعض قائمة";
  "اختيار";
  "تفعيل/تعطيل العلامات";
  "فشل تحديث كتاب العناوين";
  "فشل مزامنة كتاب العناوين مع الخادم";
  "الاجهزة الموجودة في الجلسات الحديثة سيتم مزامنتها مع كتاب العناوين";
  "";
  "";
  "";
  "";
  "";
  "";
  "";
  "";
  "";
  "";
  "";
  "";
  "";
  "";
  "";
  "";
  "";
  "";
  "";
  "";
  "";
  "";
  "";
  "";
  "";
  "";
  "";
  "";
  "";
  "";
  "";
  "";
  "";
  "";
  "";
  "";
  "";
  "";
  "";
  "";
  "";
  "";
  "";
  "";
  "";
  "";
  "";
  "";
  "";
  "";
  "";
  "";
  "";
  "";
  "";
  "";
  "";
  "";
  "";
  "";
  "";
  "";
  "";
  "";
  "";
  "";
  "";
  "";
  "";
  "";
  "";
  "";
  "";
  "";
  "";
  "";
  "";
  "";
  "";
  "";
  "";
  "";
  "";
  "";
  "";
  "";
  "";
  "";
  "";
  "";
  "";
  "";
  "";
  "";
  "";
  "";
  "";
  "";
  "";
  "";
  "";
  "";
  "";
  "";
  "";
  "";
  "";
  "";
  "";
  "";
  "";
  "";
  "";
  "";
  "";
  "";
  "";
  "";
  "";
  "";
  "";
  "";
  "";
  "";
  "";
  "";
  "";
  "";
  ""].
(** [LANGS.be] *)
Definition lang_be : jsmap string string := texts [
  "Статус";
  "Ваш працоўны стол";
  "Ваш працоўны стол даступны з гэтым ID і паролем.";
  "Пароль";
  "Гатовы";
  "Усталявана";
  "Падключэнне да сеткі RustDesk...";
  "Уключыць службу";
  "Запусціць службу";
  "Служба запушчана";
  "Служба не запушчана";
  "Не падключана. Праверце злучэнне.";
  "Кіраванне выдаленым працоўным сталом";
  "Перадаць файлы";
  "Падключыцца";
  "Апошнія сеансы";
  "Адрасная кніга";
  "Пацвярджэнне";
  "TCP-тунэляванне";
  "Выдаліць";
  "Абнавіць выпадковы пароль";
  "Усталяваць свой пароль";
  "Выкарыстоўваць клавіятуру/мыш";
  "Выкарыстоўваць буфер абмену";
  "Выкарыстоўваць перадачу файлаў";
  "Выкарыстоўваць тунэляванне TCP";
  "Спіс дазволеных IP-адрасоў";
  "ID/Рэтранслятар";
  "Імпартаваць канфігурацыю сервера";
  "Экспартаваць канфігурацыю сервера";
  "Канфігурацыя сервера паспяхова імпартавана";
  "Канфігурацыя сервера паспяхова экспартавана";
  "Няправільная канфігурацыя сервера";
  "Буфер абмену пусты";
  "Спыніць службу";
  "Змяніць ID";
  "Новы ID";
  "даўжыня %min%...%max%";
  "пачынаецца з літары";
  "дазволеныя сімвалы";
  "Дапускаюцца толькі сімвалы a-z, A-Z, 0-9, - (dash) і _ (падкрэсліванне). Першай павінна быць літара a-z, A-Z. Даўжыня ад 6 да 16.";
  "Сайт";
  "Пра праграму";
  "Зроблена з душой у гэтым вар'яцкім свеце!";
  "Заява аб канфідэнцыяльнасці";
  "Адключыць гук";
  "Дата зборкі";
  "Версія";
  "Галоўная";
  "Аўдыёўваход";
  "Палепшанні";
  "Апаратны кодэк";
  "Адаптыўны бітрэйт";
  "Сервер ID";
  "Рэтранслятар";
  "Сервер API";
  "Адрас павінен пачынацца з http:// або https://";
  "Няправільны IP-адрас";
  "Няправільны фармат";
  "Пакуль не падтрымліваецца серверам";
  "Недаступна";
  "Занадта часта";
  "Адмяніць";
  "Прапусціць";
  "Закрыць";
  "Паўтор";
  "ОК";
  "Патрабуецца пароль";
  "Увядзіце пароль";
  "Запомніць пароль";
  "Няправільны пароль";
  "Паўтарыць уваход?";
  "Памылка падключэння";
  "Памылка";
  "Скінута выдаленым вузлом";
  "Падключэнне...";
  "Выконваецца падключэнне. Пачакайце.";
  "Паспрабуйце праз хвіліну";
  "Памылка ўваходу";
  "Паспяхова";
  "Падключана, чаканне выявы...";
  "Імя";
  "Тып";
  "Зменена";
  "Памер";
  "Паказаць схаваныя файлы";
  "Атрымаць";
  "Адправіць";
  "Абнавіць файл";
  "Лакальны";
  "Выдалены";
  "Выдалены камп'ютар";
  "Лакальны камп'ютар";
  "Пацвердзіць выдаленне";
  "Выдаліць";
  "Уласцівасці";
  "Шматлікі выбар";
  "Абраць усе";
  "Зняць усе";
  "Пустая тэчка";
  "Тэчка не пустая";
  "Выдаліць гэты файл?";
  "Выдаліць пустую тэчку?";
  "Выдаліць файл з гэтай тэчкі?";
  "Прымяніць да ўсіх канфліктаў";
  "Гэта неабаротна!";
  "Выдаленне";
  "файлы";
  "Чаканне";
  "Завершана";
  "Хуткасць";
  "Якасць выявы па запыце";
  "Рэжым прыватнасці";
  "Забараніць ўвод на аддаленай прыладзе";
  "Адблакіраваць ўвод на аддаленай прыладзе";
  "Наладзіць акно";
  "Арыгінал";
  "Сціснуць";
  "Расцягнуць";
  "Паласа пракруткі";
  "Аўта-пракрутка";
  "Добрая якасць выявы";
  "Баланс паміж якасцю і адказам";
  "Оптымізацыя часу адказу";
  "Зададзена карыстальнікам";
  "Паказваць аддалены курсор";
  "Паказваць манітор якасці";
  "Адключыць буфер абмену";
  "Заблакаваць уліковы запіс пасля сеансу";
  "Уставіць Ctrl + Alt + Del";
  "Заблакаваць уліковы запіс";
  "Абнавіць";
  "ID не існуе";
  "Немагчыма падключыцца да паседкавага сервера";
  "Паспрабуйце пазней";
  "Аддаленая прылада не ў сетцы";
  "Неадпаведнасць ключоў";
  "Час чакання скончыўся";
  "Немагчыма падключыцца да рэтранслятара";
  "Немагчыма падключыцца праз паседкавы сервер";
  "Немагчыма падключыцца праз рэтранслятар";
  "Не ўдалося ўсталяваць прамое падключэнне да аддаленага працоўнага стала";
  "Усталяваць пароль";
  "Пароль ўваходу ў аперацыйную сістэму";
  "У некаторых выпадках RustDesk можа працаваць няправільна на аддаленым вузле з-за UAC. Каб пазбегнуць магчымых праблем з UAC, націсніце кнопку ніжэй для ўстаноўкі RustDesk у сістэме.";
  "Абнавіць";
  "Спампаваць";
  "Абнавіць";
  "Наладзіць";
  "Каб аддаленна кіраваць сваім працоўным сталом, вам неабходна дазволіць RustDesk правы доступу.";
  "Для аддаленага доступу да працоўнага сталу вам неабходна дазволіць RustDesk правы здымку экрана.";
  "Ідзе ўстаноўка...";
  "Усталяваць";
  "Устаноўка";
  "Шлях устаноўкі";
  with_quotes ["Стварыць ярлыкі ў меню "; "Пуск"; ""];
  "Стварыць значок на працоўным стале";
  "Пачынаючы ўстаноўку, вы прымаеце ўмовы ліцэнзійнага ўгоды.";
  "Прыняць і ўсталяваць";
  "Ліцэнзійная ўгода з канчатковым карыстальнікам";
  "Генеруецца...";
  "Ваша ўстаноўка ніжэйшай версіі";
  "Не зачыняць гэта акно пры выкарыстанні тунэлю.";
  "Праслухоўванне...";
  "Аддалены хост";
  "Аддалены порт";
  "Дзеянне";
  "Дадаць";
  "Лакальны порт";
  "Лакальны адрас";
  "Змяніць лакальны порт";
  "Для хуткага падключэння наладзьце свой сервер.";
  "Занадта кароткі, мінімум 6 сімвалаў.";
  "Пацверджанне не супадае.";
  "Дазволы";
  "Прыняць";
  "Адхіліць";
  "Адключыць";
  "Дазволіць капіраванне і ўстаўку файлаў";
  "Падключана";
  "Прамое і зашыфраванае падключэнне";
  "Рэтрансляванае і зашыфраванае падключэнне";
  "Прамое і незашыфраванае падключэнне";
  "Рэтрансляванае і незашыфраванае падключэнне";
  "Увядзіце дыстанцыйны ID";
  "Увядзіце пароль";
  "Уваход...";
  "Дазволіць абмен сеансамі RDP";
  "Аўтаматычны ўваход у ўліковы запіс";
  "Дазволіць прамы доступ па IP-адрасе";
  "Перайменаваць";
  "Месца";
  "Стварыць ярлык на працоўным стале";
  "Змяніць шлях";
  "Стварыць тэчку";
  "Калі ласка, увядзіце імя тэчкі";
  "Выправіць";
  "Папярэджанне";
  "Уваход у сістэму з выкарыстаннем Wayland не падтрымліваецца";
  "Патрабуецца перазагрузка";
  "Непадтрымліваемы сервер адлюстравання";
  "Чакаецца X11";
  "Порт";
  "Налады";
  "Імя карыстальніка";
  "Няправільны порт";
  "Зачынена аддаленым вузлом уручную";
  "Дазволіць змену канфігурацыі аддалена";
  "Запусціць без ўстаноўкі";
  "Падключыцца праз рэтранслятар";
  "Заўсёды падключацца праз рэтранслятар";
  "Толькі IP-адрэсы з белага спісу могуць атрымаць доступ да маёй прылады.";
  "Увайсці";
  "Праверыць";
  "Запомніць мяне";
  "Даверыць гэтую прыладу";
  "Праверачны код";
  "Выяўлена новая прылада, на зарэгістраваны адрас электроннай пошты адпраўлены праверачны код. Увядзіце яго, каб працягнуць уваход у сістэму.";
  "Выйсці";
  "Тэгі";
  "Пошук по ID";
  "Аддзяліць запятой, коскай з запятой, прабелам ці новым радком.";
  "Дадаць ID";
  "Дадаць тэг";
  "Скасаваць выбар усіх тэгаў";
  "Памылка сеткі";
  "Адсутнічае імя карыстальніка";
  "Забыты пароль";
  "Няправільныя імя ці пароль";
  "Праверачны код няправільны або скончыўся тэрмін яго дзеяння";
  "Рэдагаваць тэг";
  "Забыць пароль";
  "Абранае";
  "Дадаць у абранае";
  "Выдаліць з абранага";
  "Пуста";
  "Недапушчальнае імя тэчкі";
  "Socks5-проксі";
  "Socks5/Http(s)-проксі";
  "Знойдзена";
  "Для запуску пры загрузцы неабходна ўстанавіць сістэмную службу";
  "Аддалены ID";
  "Уставіць";
  "Уставіць тут?";
  "Ці ўпэўненыя, што жадаеце закрыць падключэнне?";
  "Спампаваць новую версію";
  "Рэжым сэнсарнага экрана";
  "Рэжым мышы/трэкпада";
  "Націск адным пальцам";
  "Левая кнопка мышы";
  "Доўгі націск адным пальцам";
  "Націск двума пальцамі";
  "Правая кнопка мышы";
  "Перамяшчэнне адным пальцам";
  "Двайны націск і перамяшчэнне";
  "Перацягванне мышшу";
  "Трыма пальцамі па вертыкалі";
  "Кола мышы";
  "Перамяшчэнне двума пальцамі";
  "Перамяшчэнне палатна";
  "Маштабаванне сціскам";
  "Маштаб палатна";
  "Скінуць палатно";
  "Няма дазволу на перадачу файлаў";
  "Нататка";
  "Падключэнне";
  "Дзяліцца экранам";
  "Чат";
  "Усяго";
  "элементы";
  "Выбрана";
  "Захоп экрана";
  "Кіраванне ўводам";
  "Захоп аўдыё";
  "Падлучэнне перадачы файлаў";
  "Падлучэнне прагляду/кіравання экранам";
  "Ці вы згодны?";
  "Адкрыць налады сістэмы";
  "Як атрымаць дазвол на ўвод Android?";
  with_quotes ["Каб аддалёная прылада магла кіраваць вашай Android-прыладай з дапамогай мышы або націсканняў, неабходна дазволіць RustDesk выкарыстоўваць паслугу "; "Асаблівыя магчымасці"; "."];
  with_quotes ["Зайдзіце на адпаведную старонку сістэмных налад, знайдзіце і ўступіце ў "; "Устаноўленыя паслугі"; ", уключыце паслугу "; "RustDesk Input"; "."];
  "Атрыманы запыт на кіраванне вашай бягучай прыладай.";
  "Уключэнне захопу экрана аўтаматычна запускае службу, дазваляючы іншым прыладам запытаць падлучэнне да гэтай прылады.";
  "Закрыццё службы аўтаматычна зачыніць усе ўстаноўленыя падлучэнні.";
  "Бягучая версія Android не падтрымлівае захоп звуку, абнавіце яе да Android 10 ці вышэй.";
  "Націсніце [Запусціць службу] або дазвольце [Захоп экрана], каб запусціць службу дэманстрацыі экрана.";
  "Дазволы для ўстаноўленых падлучэнняў не могуць быць змененыя, неабходна перападключэнне.";
  "Уліковы запіс";
  "Перазапісаць";
  "Файл існуе, прапусціць ці перазапісаць яго?";
  "Выйсці";
  "Дапамога";
  "Не ўдалося";
  "Выканана";
  "Хтосьці ўключыў рэжым прыватнасці, выхад";
  "Не падтрымліваецца";
  "Адмоўлена аддаленым вузлом";
  "Усталюйце плагіны";
  "Аддалены вузел адключаны";
  "Немагчыма адключыць";
  "Адключаны";
  "Мова";
  "Захаваць фонавую службу RustDesk";
  "Ігнараваць аптымізацыю патрэблення батарэі";
  "Перайдзіце на наступную старонку налад";
  "Запускаць пры загрузцы";
  "Запускаць службу дэманстрацыі экрана пры загрузцы (патрабуюцца спецыяльныя дазволы)";
  "Падключэнне не дазволена";
  "Стары рэжым";
  "Рэжым супастаўлення";
  "Рэжым перакладу";
  "Выкарыстоўваць пастаянны пароль";
  "Выкарыстоўваць абодва паролі";
  "Устанавіць пастаянны пароль";
  "Дазволіць аддалены перазапуск";
  "Перазапусціць аддаленую прыладу";
  "Вы ўпэўненыя, што хочаце перазагрузіць?";
  "Перазапуск аддаленай прылады";
  "Аддаленая прылада перазапускаецца. Закрыйце гэтае паведамленне і праз некаторы час перападключыцеся, выкарыстоўваючы пастаянны пароль.";
  "Скапіравана";
  "Выйсці з поўнаэкраннага рэжыму";
  "Поўнаэкранны рэжым";
  "Мабільныя дзеянні";
  "Выбраць манітор";
  "Дзеянні па кіраванню";
  "Налады адлюстравання";
  "Суадносіны";
  "Якасць выявы";
  "Стыль пракруткі";
  "Паказаць панэль інструментаў";
  "Схаваць панэль інструментаў";
  "Прамаое злучэнне";
  "Рэтрансляванае злучэнне";
  "Бяспечнае злучэнне";
  "Нябяспечнае злучэнне";
  "Арыгінальны маштаб";
  "Адаптыўны маштаб";
  "Агульныя";
  "Бяспека";
  "Тэма";
  "Цёмная тэма";
  "Светлая тэма";
  "Цёмны";
  "Светлы";
  "Прытрымлівацца сістэмы";
  "Уключыць апаратны кодэк";
  "Разблакаваць налады бяспекі";
  "Уключыць перадачу гуку";
  "Разблакаваць сеткавыя налады";
  "Сервер";
  "Прамы IP-доступ";
  "Проксі";
  "Прымяніць";
  "Адключыць усе прылады?";
  "Ачысціць";
  "Прылада ўводу гуку";
  "Выкарыстоўваць белы спіс IP";
  "Сетка";
  "Закрэпіць панэль інструментаў";
  "Адкрэпіць панэль інструментаў";
  "Запіс";
  "Тэчка";
  "Аўтаматычна запісваць уваходныя сесіі";
  "";
  "Змяніць";
  "Пачаць запіс сесіі";
  "Спыніць запіс сесіі";
  "Уключыць запіс сесіі";
  "Уключыць выяўленне ў лакальнай сетцы";
  "Забараніць выяўленне ў лакальнай сетцы";
  "Напісаць паведамленне";
  "Падказка";
  "Дачакайцеся пацверджання UAC...";
  "Бягучае акно аддаленага працоўнага стала патрабуе вышэйшых прывілегій для працы, таму часова немагчыма выкарыстоўваць мыш і клавіятуру. Можна папрасіць аддаленага карыстальніка згорнуць бягучае акно або націснуць кнопку павышэння правоў у акне кіравання падлучэннем. Каб прадухіліць гэтую праблему ў будучыні, рэкамендуецца ўстанавіць праграмнае забеспячэнне на аддаленай прыладзе.";
  "Адключана";
  "Іншае";
  "Пацвердзіць закрыццё некалькіх ўкладак";
  "Налады клавіятуры";
  "Поўны доступ";
  "Дэманстрацыя экрана";
  "Wayland патрабуе Ubuntu версіі 21.04 або навейшай.";
  "Для Wayland патрабуецца вышэйшая версія дыстрыбутыву Linux. Карыстайцеся працоўным сталом X11 або зменіце сваю АС.";
  "Перайсці па спасылцы";
  "Выберыце экран для дэманстрацыі (кіруецца аддаленай стараной).";
  "Паказаць RustDesk";
  "Гэты кампутар";
  "або";
  "Працягнуць з";
  "Павысіць";
  "Павялічэнне курсора";
  "Прымаць сеансы па паролю";
  "Прымаць сеансы націскам кнопкі";
  "Прымаць сеансы па паролю і націскам кнопкі";
  "Дачакайцеся, пакуль аддаленая старана прыме ваш запыт на сеанс...";
  "Аднаразовы пароль";
  "Выкарыстоўваць аднаразовы пароль";
  "Даўжыня аднагаразовага пароля";
  "Запыт на доступ да вашай прылады";
  "Схаваць акно кіравання падлучэннямі";
  "Дазваляць схаванне акна ў выпадку, калі прымаюцца сесіі па паролю або выкарыстоўваецца пастаянны пароль";
  "Падтрымка Wayland знаходзіцца на эксперыментальнай стадыі, калі вам неабходны аўтаматычны доступ, выкарыстоўвайце X11.";
  "Правы клік для выбару ўкладак";
  "Прапушчана";
  "Дадаць у адрасную кнігу";
  "Група";
  "Пошук";
  "Закрыта ўручную праз вэб-кансоль";
  "Тып лакальнай клавіятуры";
  "Выберыце тып лакальнай клавіятуры";
  "Калі ў вас ёсць відэакарта Nvidia і аддаленае акно зачыняецца адразу пасля падлучэння, магчыма, дапаможа ўстаноўка драйвера Nouveau і выбар выкарыстання праграмнай візуалізацыі. Патрабуецца перазагрузка.";
  "Заўсёды выкарыстоўваць праграмную візуалізацыю";
  "Каб кіраваць аддаленым працоўным сталом праз клавіятуру, неабходна дазволіць RustDesk маніторынг уводу.";
  "Каб размаўляць з аддаленай старонкай, неабходна дазволіць RustDesk запіс аўдыё.";
  "Таксама можна запытаць павышэнне правоў, калі хто-небудзь знаходзіцца на аддаленай старонцы.";
  "Чакайце";
  "Памылка павышэння правоў";
  "Запытаць аўтэнтыфікацыю ў аддаленага карыстальніка";
  "Выберыце гэта, калі аддалены акаўнт з'яўляецца адміністратарам";
  "Перадаць імя карыстальніка і пароль адміністратара";
  with_quotes ["Дагэтуль патрэбна, каб аддалены карыстальнік націснуў "; "OK"; " ў акне UAC пры запуску RustDesk."];
  "Запыт на павышэнне";
  "Пачакайце, пакуль аддалены карыстальнік пацвердзіць запыт UAC.";
  "Павышэнне паспяхова выканана";
  "Вялікія літары";
  "Малыя літары";
  "Лічбы";
  "Спецыяльныя сімвалы";
  "Даўжыня >= 8 сімвалаў";
  "Слабы";
  "Сярэдні";
  "Моцны";
  "Пераключыць бакі";
  "Пацвердзіце, калі хочаце дазволіць паказ вашага працоўнага стала?";
  "Адлюстраванне";
  "Стыль адлюстравання па змаўчанні";
  "Стыль пракруткі па змаўчанні";
  "Якасць выявы па змаўчанні";
  "Кодэк па змаўчанні";
  "Бітрэйт";
  "Колькасць кадраў у секунду";
  "Аўта";
  "Іншыя параметры па змаўчанні";
  "Галасавы выклік";
  "Тэкставы чат";
  "Спыніць галасавы выклік";
  with_quotes ["Непасрэднае падключэнне можа быць немагчымым. У гэтым выпадку можна спрабаваць падключыцца праз рэлей.\nАкрамя таго, калі вы хочаце адразу выкарыстоўваць рэлей, можна дадаць да ідэнтыфікатара суфікс "; "/r"; " або ўключыць "; "Заўсёды падключацца праз рэлей"; " ў наладах аддаленага вузла."];
  "Перападключыць";
  "Кодэк";
  "Разрознасць";
  "Перадача не ажыццяўляецца";
  "Усталяваць даўжыню аднаразовага пароля";
  "Налады RDP";
  "Сартаваць па";
  "Новае злучэнне";
  "Аднавіць";
  "Згарнуць";
  "Разгарнуць";
  "Ваша прылада";
  "Няма апошніх сеансаў!\nЧас запланаваць новы.";
  "Яшчэ няма выбраных аддаленых вузлоў?\nДавайце знойдзем, каго можна дадаць у выбранае.";
  "Не знойдзены аддаленыя вузлы.";
  "У адраснай кнізе няма аддаленых вузлоў.";
  "напрыклад: admin";
  "Пустае імя карыстальніка";
  "Пусты пароль";
  "Я";
  "Файл ідэнтычны файлу на аддаленым вузле";
  "Паказваць маніторы на панэлі інструментаў";
  "Рэжым прагляду";
  "Каб ўключыць сеанс працоўнага стала X, неабходна ўвайсці ў аддалены акаўнт Linux.";
  "Пацвердзіць пароль RustDesk";
  "Запомніць гэты акаўнт";
  "Гэты акаўнт выкарыстоўваецца для ўваходу ў аддаленую аперацыйную сістэму і ўключэння сеансу працоўнага сталу ў рэжыме headless.";
  "Акаўнт АС";
  "Іншы карыстальнік ўжо ўвайшоў у сістэму";
  "Адключыць";
  "Xorg не знойдзены";
  "Усталюйце Xorg";
  "Няма даступных працоўных сталоў";
  "Усталюйце GNOME Desktop";
  "Павышэнне правоў не патрабуецца";
  "Сістэмны гук";
  "Па змаўчанні";
  "Новы RDP";
  "Адбітак";
  "Капіраваць адбітак";
  "адбіткі адсутнічаюць";
  "Выберыце аддалены ўзел";
  "Выберыце аддаленыя ўзлы";
  "Плагіны";
  "Выдаліць";
  "Абнавіць";
  "Уключыць";
  "Адключыць";
  "Параметры";
  "Арыгінальнае разознасць";
  "Супадзенне з лакальнай разрознасцю";
  "Карыстацкая разрознасць";
  "Згарнуць панэль інструментаў";
  "Прыняць і павысіць";
  "Дазволіць падлучэнне і павысіць правы UAC.";
  "Час чакання адказу капіравання буфера абмену скончыўся";
  "Уваходнае падлучэнне";
  "Выходнае падлучэнне";
  "Выхад";
  "Адкрыць";
  "Вы сапраўды жадаеце выйсці?";
  "Служба";
  "Запусціць";
  "Спыніць";
  "Дасягнута максімальная колькасць кіруемых прылад.";
  "Сінхранізацыя з апошнімі сеансамі";
  "Сартаваць тэгі";
  "Адкрыць падлучэнне ў новай ўкладцы";
  "Перамясціць ўкладку ў новае акно";
  "Ня можа быць пустым";
  "Ужо існуе";
  "Змяніць пароль";
  "Абнавіць пароль";
  "ID";
  "Сетка";
  "Спіс";
  "Выбар";
  "Пераключыць тэгі";
  "Немагчыма абнавіць адрасную кнігу";
  "Немагчыма сінхранізаваць адрасную кнігу з серверам";
  "Прылады, якія былі на апошніх сеансах, будуць сінхранізаваны з адраснай кнігай.";
  "Змяніць колер";
  "Асноўны колер";
  "Колер HSV";
  "Інсталяцыя прайшла паспяхова!";
  "Інсталяцыя не ўдалася!";
  "Рэверс кола мышы";
  "{} сеансаў";
  "Вы можаце быць АБМАНУТЫ!";
  "Калі вы размаўляеце па тэлефоне з кімсці, каго вы НЕ ВЕДАЕЦЕ і каму НЕ ДАВЕРАЕЦЕ, і ён просіць вас выкарыстаць RustDesk і запусціць яго службу, не працягвайце і неадкладна адмяніце размову.";
  "Магчыма, гэта аферыст, які паспрабуе ўкрасць вашыя грошы або іншую асабістую інфармацыю.";
  "Не паказваць больш";
  "Я згодны";
  "Адхіліць";
  "Час чакання (у хвілінах)";
  "Аўтаматычна зачыняць уваходныя сеансы пры неактыўнасці карыстальніка";
  "Падлучэнне не ўдалося з-за неактыўнасці";
  "Праверка абнаўленняў праграмы пры запуску";
  "Абнавіце RustDesk Server Pro да версіі {} або новейшай!";
  "Немагчыма абнавіць групу";
  "Фільтраваць па перасячэнні";
  "Схаваць фон працоўнага стала падчас ўваходнага сеансу";
  "Тэст";
  "Дысплей адключаны, пераключыцеся на першы дысплей.";
  "Няма дысплеяў";
  "Адкрыць у новым акне";
  "Паказваць дысплеі ў асобных акнах";
  "Выкарыстоўваць усе мае дысплеі для аддаленага сеансу";
  "На вашай прыладзе ўключаны SELinux, што можа перашкаджаць правільнай працы RustDesk на кіруючым баку.";
  "Змяніць выгляд";
  "Вялікія пліткі";
  "Маленькія пліткі";
  "Спіс";
  "Віртуальны дысплей";
  "Адключыць усё";
  "True color (4:4:4)";
  "Дазволіць блакаванне ўводу карыстальніка на прыладзе";
  with_quotes ["Можна ўвесці ідэнтыфікатар, просты IP-адрас або дамен з портам (<дамен>:<порт>).\nКаб атрымаць доступ да прылады на іншым серверы, дадайце адрас сервера (<id>@<адрас_сервера>?key=<ключ_значэнне>), напрыклад:\n9123456234@192.168.16.1:21117?key=5Qbwsde3unUcJBtrx9ZkvUmwFNoExHzpryHuPUdqlWM=.\nКалі неабходна атрымаць доступ да прылады на грамадскім серверы, увядзіце "; "<id>@public"; ", ключ для грамадскага сервера не патрабуецца."];
  "Рэжым 1";
  "Рэжым 2";
  "Уключыць рэжым канфідэнцыяльнасці";
  "Адключыць рэжым канфідэнцыяльнасці";
  "Драйвер непрамога адлюстравання не падтрымліваецца. Патрабуецца Windows 10 версіі 2004 ці навейшая.";
  "Крыніца ўводу 1";
  "Крыніца ўводу 2";
  "Памяняць месцамі значэнні кнопак Ctrl і Command";
  "Памяняць месцамі значэнні левай і правай кнопак мышы";
  "Код двухфактарнай аўтэнтыфікацыі";
  "Яшчэ";
  "Выкарыстоўваць двухфактарную аўтэнтыфікацыю";
  "Наладзьце праграму аўтэнтыфікацыі. Выкарыстоўвайце, напрыклад, Authy, Microsoft або Google Authenticator на тэлефоне ці кампутары.\n\nСкануйце QR-код з дапамогай праграмы аўтэнтыфікацыі і ўвядзіце код, які пакажа гэта праграма, каб уключыць двухфактарную аўтэнтыфікацыю.";
  "Немагчыма пацвердзіць код. Праверце код і налады мясцовага часу.";
  "Двухфактарная аутэнтыфікацыя";
  "Код верыфікацыі па электроннай пошце павінен складацца з 6 сімвалаў.";
  "Код двухфактарнай аутэнтыфікацыі павінен складацца з 6 лічбаў.";
  "Знойдзена некалькі сеансаў Windows";
  "Выберыце сеанс, да якога вы жадаеце падключыцца";
  "На аснове RustDesk";
  "Гэта спецыялізаваная версія.\nВы можаце падключацца да іншых прылад, але іншыя прылады не могуць падключацца да вашай.";
  "Гэта спецыялізаваная версія з устаноўленым загадзя паролем. Любы, хто ведае гэты пароль, можа атрымаць поўны кантроль над вашай прыладай. Калі гэта для вас нечакана, адразу выдаліце гэта праграмнае забеспячэнне.";
  "Папярэджанне аб бяспецы";
  "Мая адрасная кніга";
  "Асабісты";
  "Уладальнік";
  "Устанавіць агульны пароль";
  "Існуе ў";
  "Толькі для чытання";
  "Чытанне і запіс";
  "Поўны кантроль";
  "Палі вышэй з'яўляюцца агульнымі і бачнымі іншым.";
  "Усе";
  "Больш у вэб-кансолі";
  "Дазволіць толькі падключэнне пры адкрытым акне RustDesk";
  "Фізічныя дысплеі адсутнічаюць, няма патрэбы выкарыстоўваць рэжым канфідэнцыяльнасці.";
  "Сачыць за аддаленага курсарам";
  "Сачыць за фокусам аддаленага акна";
  "Пратакол і порт па змаўчанні: Socks5 і 1080";
  "Прылада ўваходнага аудыё не знойдзена.";
  "Уваходныя";
  "Выходныя";
  "Адмяніць выбар экрана Wayland";
  "Пасля адмены можна зноў выбраць экран для дэманстрацыі.";
  "Адмяніць выбар экрана Wayland?";
  "Атрыман новы запыт на галасавы выклік. Калі вы прымеце яго, гук пераключыцца на галасавае злучэнне.";
  "Выкарыстоўваць візуалізацыю тэкстураў для павышэння каб плаўнасці выявы.";
  "Візуалізацыя тэкстураў";
  "Плавучае акно";
  "Дапамагае падтрымліваць фонавую службу RustDesk";
  "Трымаць экран уключаным";
  "Ніколі";
  "Пры кіраванні";
  "Пры запушчанай службе";
  "Захоп экрана з выкарыстаннем DirectX";
  "";
  "";
  "";
  "";
  "";
  "";
  "";
  "";
  "";
  "";
  "";
  "";
  "";
  "";
  "";
  "";
  "";
  "";
  "";
  "";
  "";
  "";
  "";
  "";
  "";
  "";
  "";
  "";
  "";
  "";
  "";
  "";
  "";
  "";
  "";
  "";
  ""].
(** [LANGS.bg] *)
Definition lang_bg : jsmap string string := texts [
  "Положение";
  "Вашата работна среда";
  "Вашата работна среда не може да бъде достъпена с този потребителски код и парола.";
  "Парола";
  "Готово";
  "Установен";
  "Свързване с RustDesk мрежата...";
  "Разреши услуга";
  "Стартирай услуга";
  "Услугата работи";
  "Услугата не работи";
  "Не е в готовност. Моля проверете мрежова връзка";
  "Отдалечено управление на работна среда";
  "Прехвърляне на файл";
  "Свързване";
  "Последни сесии";
  "Адресник";
  "Потвърждение";
  "TCP тунел";
  "Премахване";
  "Опресняване на произволна парола";
  "Задайте собствена парола";
  "Позволяване на клавиатура/мишка";
  "Позволяване достъп до клипборда";
  "Позволяване прехвърляне на файлове";
  "Позволяване на TCP тунели";
  "Определяне на позволени IP по списък";
  "ID/Препредаващ сървър";
  "Внасяне сървър настройки за ";
  "Изнасяне настройки на сървър";
  "Успешно внасяне на сървърни настройки";
  "Успешно изнасяне на сървърни настройки";
  "Недопустими сървърни настройки";
  "Клипбордът е празен";
  "Спираане на услуга";
  "Промяна определител (ID)";
  "Вашият нов определител (ID)";
  "дължина %min% до %max%";
  "започва с буква";
  "разрешени знаци";
  "Само a-z, A-Z, 0-9, - (dash) и _ (долна черта) са сред позволени. Първа буква следва да е a-z, A-Z. С дължина мержу 6 и 16.";
  "Уебсайт";
  "Относно";
  "Направено от сърце в този хаотичен свят!";
  "Декларация за поверителност";
  "Без звук";
  "Дата на изграждане";
  "Версия";
  "Начало";
  "Аудио вход";
  "Подобрения";
  "Хардуерен кодек";
  "Приспособяваще се скорост на предаване наданни";
  "ID сървър";
  "Препращащ сървър";
  "API сървър";
  "трябва да започва с http:// или https://";
  "Недопустим IP";
  "Недопустим формат";
  "Все още не се поддържа от сървъра";
  "Не е наличен";
  "Твърде често";
  "Отказ";
  "Пропускане";
  "Затваряне";
  "Преповтори";
  "Добре";
  "Изисква се парола";
  "Моля въведете парола";
  "Запомни паролата";
  "Грешна парола";
  "Искате ли да въведете отново?";
  "Грешка при свързване";
  "Грешка";
  "Нулирано от партньора";
  "Свързване...";
  "Връзката се извършва. Моля Изчакайте.";
  "Моля, опитайте 1 минута по-късно";
  "Грешка при вписване";
  "Успешен опит";
  "Свързано, чака се изображение...";
  "Име";
  "Тип";
  "Променен";
  "Размер";
  "Показване на скрити файлове";
  "Получаване";
  "Пращане";
  "Опресняване на файла";
  "Локално";
  "Отдалечено";
  "Отдалечен компютър";
  "Локален компютър";
  "Потвърдете изтриването";
  "Изтрий";
  "Свойства";
  "Множествен избор";
  "Избери всички";
  "Избери никой";
  "Празна папка";
  "Не е празна папка";
  "Сигурни ли сте, че искате да изтриете този файл?";
  "Сигурни ли сте, че искате да изтриете тази празна папка?";
  "Сигурни ли сте, че искате да изтриете файла от тази папка?";
  "Разреши така всички конфликти";
  "Това е необратимо!";
  "Изтриване";
  "файлове";
  "Изчакване";
  "Завършено";
  "Скорост";
  "Качество на изображението по свой избор";
  "Режим на поверителност";
  "Забрана за потребителски вход";
  "Разрешаване на потребителски въвеждане";
  "Нагласи прозореца";
  "Оригинално";
  "Свиване";
  "Разтегнат";
  "Плъзгач";
  "Автоматичено приплъзване";
  "Добро качество на изображението";
  "Уравновесен";
  "С оглед времето на реакция";
  "По собствено желание";
  "Показвай отдалечения курсор";
  "Показвай прозорец за качество";
  "Забрана за достъп до клипборд";
  "Заключване след край на ползване";
  "Поставяне Ctrl + Alt + Del";
  "Заявка за заключване";
  "Обновяване";
  "Несъществуващ определител (ID)";
  "Неуспешно свързване към сървъра за среща (rendezvous)";
  "Моля опитайте по-късно";
  "Отдалечената работна среда не е налична";
  "Ключово несъответствие";
  "Изтичане на времето";
  "Провал при свързване към препредаващ сървър";
  "Провал при свързване към сървър за срещи (rendezvous)";
  "Провал при свързване чрез препредаващ сървър";
  "Провал при установяване на пряка връзка с отдалечена работна среда";
  "Задаване на парола";
  "Парола на Операционната система";
  "Поради UAC, RustDesk в някои случай не може да работи правилно за отдалечена достъп. За да заобиколите UAC, моля, натиснете копчето по-долу, за да поставите RustDesk като системна услуга.";
  "Натиснете, за да надстроите";
  "Натиснете, за да изтеглите";
  "Натиснете, за да обновите";
  "Настройване";
  with_quotes ["За да управлявате вашия работна среда отдалечено, трябва да предоставите на RustDesk права от раздел "; "Достъпност"; "."];
  with_quotes ["За да управлявате вашия работна среда отдалечено, трябва да предоставите на RustDesk права от раздел "; "Запис на екрана"; "."];
  "Поставяне...";
  "Постави";
  "Поставяне";
  "Път към място за поставяне";
  "Бърз достъп от меню 'Старт'.";
  "Създайте икона на работния плот";
  "Започвайки поставянето, вие приемате лицензионното споразумение.";
  "Приемете и поставяте";
  "Споразумение с потребителя";
  "Пораждане...";
  "Вашата инсталация е по-ниска версия.";
  "Не затваряйте този прозорец, докато използвате тунела";
  "Слушане...";
  "Отдалечен сървър";
  "Отдалечен порт";
  "Действие";
  "Добави";
  "Локален порт";
  "Локален адрес";
  "Промяна на локалният порт";
  "За по-бърза връзка, моля направете свой собствен сървър";
  "Прекалено кратко, поне 6 знака";
  "Потвърждението не съвпада";
  "Разрешения";
  "Приеми";
  "Отхвърляне";
  "Прекъсване";
  "Разрешаване прехвърляне на файлове";
  "Свързан";
  "Пряка защитена връзка";
  "Препредадена защитена връзка";
  "Пряка незащитена връзка";
  "Препредадена незащитена връзка";
  "Въведете отдалеченото ID";
  "Въведете парола";
  "Вписване...";
  "Позволяване споделянето на RDP сесия";
  with_quotes ["Автоматично вписване (Валидно само ако зададете "; "Заключване след края на сесията"; ")"];
  "Разрешаване пряк IP достъп";
  "Преименуване";
  "Пространство";
  "Създайте пряк път на работния плот";
  "Промяна на пътя";
  "Създай папка";
  "Моля, въведете име на папката";
  "Оправи го";
  "Внимание";
  "Екран за влизане чрез Wayland не се поддържа";
  "Нужно е презареждане на ОС";
  "Неподдържан екранен сървър";
  "Очаква се x11";
  "Порт";
  "Настройки";
  "Потребителско име";
  "Недопустим порт";
  "Затворено ръчно от другата страна";
  "Разрешаване на отдалечена промяна на конфигурацията";
  "Стартирайте без инсталиране";
  "Свързване чрез препращане";
  "Винаги чрез препращане";
  "Само IP адресите от белия списък имат достъп до мен";
  "Влизане";
  "Потвърди";
  "Запомни ме";
  "Доверяване на това устройство";
  "Код за потвърждение";
  "На посочения имейл е изпратен код за потвърждение. Моля въведете го, за да продължите с влизането.";
  "Отписване (Изход)";
  "Белези";
  "Търси ID";
  "Разделени със запетая, точка и запетая, празни символи или нов ред";
  "Добави ID";
  "Добави етикет";
  "Премахнете избора на всички белези (tags)";
  "Мрежова грешка";
  "Липсващо потребителско име";
  "Липсваща парола";
  "Грешни пълномощия";
  "Кодът за проверка е неправилен или с изтекла давност.";
  "Промени белег";
  "Забравена парола";
  "Любими";
  "Добави към любими";
  "Премахване от любими";
  "Празно";
  "Непозволено име на папка";
  "Socks5 посредник";
  "Socks5/Http(s) посредник";
  "Открит";
  "За зареждане при стартиране на ОС следва да поставите RustDesk като системна услуга.";
  "Отдалечено ID";
  "Постави";
  "Постави тук?";
  "Сигурни ли сте, че искате да затворите връзката?";
  "Изтегляне на нова версия";
  "Режим сензорен (touch)";
  "Режим мишка";
  "Допир с един пръст";
  "Ляв бутон на мишката";
  "Дълъг допир";
  "Допир с два пръста";
  "Десен бутон на мишката";
  "Преместване с един пръст";
  "Двоен допир и преместване";
  "Провличане с мишката";
  "Три пръста вертикално";
  "Колело на мишката";
  "Движение с два пръста";
  "Преместване на платното";
  "Щипнете, за да увеличите";
  "Увеличение на платното";
  "Нулиране на платното";
  "Няма разрешение за прехвърляне на файлове";
  "Бележка";
  "Връзка";
  "Сподели екран";
  "Говор";
  "Общо";
  "неща";
  "Избрано";
  "Снемане на екрана";
  "Управление на вход";
  "Аудиозапис";
  "Файлова връзка";
  "Екранна връзка";
  "Приемате ли?";
  "Отворете системните настройки";
  "Как да получим право за въвеждане под Андрид?";
  with_quotes ["За да може отдалечено устройство да управлява вашето Android устройство чрез мишка или допир, трябва да разрешите на RustDesk да използва услугата "; "Достъпност"; "."];
  "Моля, отидете на следващата страница с системни настройки, намерете и въведете [Installed Services], включете услугата [RustDesk Input].";
  "Получена е нова заявка за отдалечено управление на вашето текущо устройство.";
  with_quotes ["Включването на "; "Снемане на екрана"; " автоматично ще стартира услугата, позволявайки на други устройства да поискат връзка с вашето устройство."];
  "Затварянето на услугата автоматично ще затвори всички установени връзки.";
  "Текущата версия на Android не поддържа аудиозапис. Моля, актуализирайте устройството с Android 10 или по-нов.";
  "Докоснете [Start service] или позволете [Screen Capture], за да започне услугата по споделяне на екрана.";
  "Разрешенията за установени връзки може да не се променят незабавно, а ще изискват да се свържете отново.";
  "Сметка";
  "Презаписване";
  "Този файл съществува вече. Пропускане или презаписване?";
  "Изход";
  "Помощ";
  "Неуспешно";
  "Успешно";
  "Някой включва режим на поверителност, изход";
  "Неподдържан";
  "Отказ от другата страна";
  "Моля поставете приставки";
  "Изход от другата страна";
  "Провал при опит за изключване";
  "Изкключен";
  "Език";
  "Запази работеща фонова услуга с RustDesk";
  "Игнорирай оптимизациите на батерията";
  "Ако искате да деактивирате тази функция, моля, отидете на следващата страница с настройки на приложението RustDesk, намерете и въведете [Battery], премахнете отметката от [Unrestricted]";
  "Стартирайте при зареждане";
  "";
  "Връзката непозволена";
  "По остарял начин";
  "По начин със съответствие (map)";
  "По нчаин с превод";
  "Използване на постоянна парола";
  "Използване и на двете пароли";
  "Задаване постоянна парола";
  "Разрешаване на отдалечен рестарт";
  "Рестартиране на отдалечено устройство";
  "Сигурни ли сте, че искате да рестартирате";
  "Рестартиране на отдалечено устройство";
  "Отдалеченото устройство се рестартира, моля, затворете това съобщение и се свържете отново с постоянна парола след известно време";
  "Преписано";
  "Изход от цял екран";
  "Цял екран";
  "Мобилни действия";
  "Изберете монитор";
  "Контролни действия";
  "Настройки на дисплея";
  "Съотношение";
  "Качество на изображението";
  "Стил на превъртане";
  "Показване на лентата с инструменти";
  "Скриване на лентата с инструменти";
  "Директна връзка";
  "Релейна връзка";
  "Сигурна връзка";
  "Несигурна връзка";
  "Оригинален мащаб";
  "Приспособимо мащабиране";
  "Основен";
  "Сигурност";
  "Тема";
  "Тъмна тема";
  "Светла тема";
  "Тъмна";
  "Светла";
  "Следвай система";
  "Позволяване  хардуерен кодек";
  "Отключи настройките за сигурност";
  "Разрешете аудиото";
  "Отключи мрежовите настройки";
  "Сървър";
  "Пряк IP достъп";
  "Посредник (Proxy)";
  "Прилагане";
  "Разкачване на всички устройства";
  "Изчистване";
  "Аудио входно устройство";
  "Използване бял списък с IP адреси";
  "Мрежа";
  "Закачане лента с инструменти";
  "Откачюане лента с инструменти";
  "Записване";
  "Директория";
  "Автоматичен запис на входящи сесии";
  "";
  "Промяна";
  "Започванена  запис";
  "Край на запис";
  "Позволяване запис";
  "Позволяване откриване във вътрешна мрежа";
  "Забрана за откриване във вътрешна мрежа";
  "Напишете съобщение";
  "Подкана";
  "Моля изчакайте за потвърждение от UAC...";
  "Текущият прозорец на отдалечения работен плот изисква по-високи привилегии за работа, така че временно не може да използва мишката и клавиатурата. Можете да поискате от отдалечения потребител да минимизира текущия прозорец или да щракнете върху бутона за повдигане в прозореца за управление на връзката. За да избегнете този проблем, се препоръчва да инсталирате софтуера на отдалеченото устройство.";
  "Прекъсната връзка";
  "Други";
  "Потвърждение преди затваряне на няколко раздела";
  "Настройки на клавиатурата";
  "Пълен достъп";
  "Споделяне на екрана";
  "Wayland изисква Ubuntu 21.04 или по-нов";
  "Wayland изисква по-нов Linux. Моля, опитайте с X11 или сменете операционната система.";
  "Препратка";
  "Моля, изберете екрана, който да бъде споделен (спрямо отдалечената страна).";
  "Покажи RustDesk";
  "Този компютър";
  "или";
  "Продължи с";
  "Повишаване";
  "Уголемяване курсор";
  "Приемане сесии чрез парола";
  "Приемане сесии чрез цъкване";
  "Приемане сесии и по двата начина";
  "Моля, изчакайте докато другата страна приеме заявката за отдалечен достъп...";
  "Еднократна парола";
  "Ползване на еднократна парола";
  "Дължина на еднократна парола";
  "Искане за достъп до ваше устройство";
  "Скриване на прозореца за управление на свързване";
  "Разрешаване скриване само ако се приемат сесии чрез постоянна парола";
  "Поддръжката на Wayland е в експериментален стадий, моля, използвайте X11, ако се нуждаете от безконтролен достъп..";
  "Десен бутон за избор на раздел";
  "Пропуснато";
  "Добавяне към познати адреси";
  "Група";
  "Търсене";
  "Затворен ръчно от уеб конзола";
  "Тип на тукашната клавиатура";
  "Избор на тип на тукашната клавиатура";
  "Ако използвате графична карта Nvidia под Linux и отдалеченият прозорец се затваря веднага след свързване, превключването към драйвера Nouveau с отворен код и изборът да използвате софтуерно изобразяване може да помогне. Изисква се рестартиране на софтуера.";
  "Винаги ползвай софтуерно изграждане на картината";
  with_quotes ["За да управлявате отдалечена среда с клавиатура, трябва да предоставите на RustDesk право за "; "Input Monitoring"; "."];
  with_quotes ["За да говорите отдалечено, трябва да предоставите на RustDesk право за "; "Запис на звук"; "."];
  "Можете също така да поискате разширени права, ако има някой от отдалечената страна.";
  "Изчакване";
  "Грешка при добвиане на разширени права";
  "Попитайте отдалечения потребител за удостоверяване";
  "Изберете това, ако отдалеченият потребител е администратор.";
  "Предаване на потребителското име и паролата на администратора";
  "Все още изисква отдалеченият потребител да щракне върху OK в прозореца на UAC при стартиран RustDesk.";
  "Поискайте разширени права";
  "Моля, изчакайте отдалеченият потребител да приеме диалоговия прозорец на UAC.";
  "Успешно получаване на разширени права";
  "големи букви";
  "малки букви";
  "цифра";
  "специален знак";
  "дължина>=8";
  "Слаба";
  "Средна";
  "Силна";
  "Размяна на страните";
  "Моля, потвърдете дали искате да споделите работното си пространство";
  "Екран";
  "Стил на изглед по подразбиране";
  "Стил на превъртане по подразбиране";
  "Качество на изображението по подразбиране";
  "Кодек по подразбиране";
  "Скорост на предаване на данни (bitrate)";
  "Кадри в секунда";
  "Автоматично";
  "Други опции по подразбиране";
  "Гласови обаждания";
  "Текстов разговор";
  "Прекратяване гласово обаждане";
  with_quotes ["Може да не е възможно да се свържете директно; можете да опитате да се свържете чрез реле. Освен това, ако искате да използвате реле при първия си опит, добавете наставка "; "/r"; " към идентификатора или да изберете опцията "; "Винаги свързване чрез реле"; " в картата на последните сесии, ако съществува."];
  "Повторно свързане";
  "Кодек";
  "Разделителна способност";
  "Няма текущи прехвърляния";
  "Задаване дължаина на еднократна парола";
  "RDP настройки";
  "Подредба по";
  "Ново свързване";
  "Възстановяване";
  "Смаляване";
  "Уголемяване";
  "Вашето устройство";
  "Ами сега, няма скорошни сесии!\nВреме е да планирате нова.";
  "Все още нямате любими връстници?\nНека намерим някой, с когото да се свържете, и да го добавим към вашите любими!";
  "О, не, изглежда, че все още не сме открили връстници.";
  "Изглежда, че в момента няма изброени връстници във вашата адресна книга.";
  "напр. admin";
  "Празно потребителско име";
  "Празна парола";
  "Мен";
  "Файлът съвпада с този от другата страна.";
  "Показване на мониторите в лентата с инструменти";
  "Режим на преглед";
  "Трябва да влезете в отдалечен Linux акаунт, за да активирате X сесия на работния плот";
  "Проверете RustDesk паролата";
  "Запомнете този акаунт";
  "Този акаунт се използва за влизане в отдалечената операционна система и позволява на десктоп сесията без глава";
  "Операционната система акаунт";
  "Друг потребител вече е влязъл";
  "Прекъснете връзката";
  "Xorg не е намерен";
  "Моля, инсталирайте Xorg";
  "Няма наличен работен плот";
  "Моля, инсталирайте работен плот GNOME";
  "";
  "Системен звук";
  "По подразбиране";
  "Нов RDP";
  "Пръстов отпечатък";
  "Копиране на пръстов отпечатък";
  "Няма пръстови отпечатъци";
  "Избери отдалечена страна";
  "Избери отдалечени страни";
  "Приставки";
  "Премахни";
  "Обновяване";
  "Позволяване";
  "Забрана";
  "Настроики";
  "Оригинална разделителна способност";
  "Приспособяване към тукашната разделителна способност";
  "Разделителна способност по свой избор";
  "Свиване на лентата с инструменти";
  "Приемане и предоставяне на допълнителни права";
  "Приемане на връзката предоставяне на UAC разрешения.";
  "Времето за изчакване на отговор за препис изтече.";
  "Входяща връзка";
  "Изходяща връзка";
  "Изход";
  "Отваряне";
  "Сигурни ли сте, че искате да излезете?";
  "Услуга";
  "Стартиране";
  "Спиране";
  "Достигнахте максималния брой управлявани устройства.";
  "Синхронизиране с последните сесии";
  "Подреди белези";
  "Разкриване на връзка в нов раздел";
  "Отделяне на раздела в нов прозорец";
  "Не може да е празно";
  "Вече съществува";
  "Промяна на парола";
  "Обновяване парола";
  "Определител (ID)";
  "Мрежов изглед";
  "Списъчен изглед";
  "Избиране";
  "Превключване на етикети";
  "Неуспешно опресняване на адресната книга";
  "Неуспешно синхронизиране на адресната книга със сървъра";
  "Устройствата, които са присъствали в последните сесии, ще бъдат синхронизирани обратно към адресната книга.";
  "Промяна на цвета";
  "Основен цвят";
  "HSV цвят";
  "Успешно поставяне!";
  "Провал при поставяне";
  "Обърнато колелото на мишката";
  "{} сесии";
  "Възможно е да сте ИЗМАМЕНИ!";
  "Ако разговаряте по телефона с някой, когото НЕ ПОЗНАВАТЕ и НЯМАТЕ ДОВЕРИЕ, който ви е помолил да използвате RustDesk и да стартирате услугата, не продължавайте и затворете незабавно.";
  "Те вероятно са измамник, който се опитва да открадне вашите пари или друга лична информация.";
  "Не показвай отново";
  "Съгласен";
  "Отказвам";
  "Време за отговор в минути";
  "Автоматично затваряне на входящите сесии при неактивност на потребителя";
  "Автоматично прекъсване на връзката поради неактивност";
  "";
  "Моля обновете RustDesk Server Pro на версия {} или по-нова!";
  "Неуспешно опресняване на групата";
  "Отсяване по пресичане";
  "Спри фоновото изображение по време на входящи сесии";
  "Проверка";
  "Дисплеят е изключен, превключете на първия монитор.";
  "Няма екрани";
  "Отваряне в нов прозорец";
  "Показване на екраните в отделни прозорци";
  "Използване на всички тукашни екрани за отдалечена работа";
  "SELinux е активиран на вашето устройство, което може да попречи на RustDesk да работи правилно като контролирана страна.";
  "Промяна изглед";
  "Големи заглавия";
  "Малки заглавия";
  "Списък";
  "Виртуален екран";
  "Изтръгване на всички";
  "";
  "Разрешаване на блокиране на потребителско въвеждане";
  with_quotes ["Можете да въведете ID, директен IP адрес или домейн с порт (<domain>:<port>).\nАко искате да получите достъп до устройство на друг сървър, моля, добавете адреса на сървъра (<id>@<server_address >?key=<key_value>), например\n9123456234@192.168.16.1:21117?key=5Qbwsde3unUcJBtrx9ZkvUmwFNoExHzpryHuPUdqlWM=.\nАко искате да получите достъп до устройство на обществен сървър, моля, въведете "; "<id>@public"; " , ключът не е необходим за публичен сървър"];
  "Режим 1";
  "Режим 2";
  "Влизане в поверителен режим";
  "Изход от поверителен режим";
  "Индиректен драйвер за дисплей не се поддържа. Изисква се Windows 10, версия 2004 или по-нова.";
  "Входен източник 1";
  "Входен източник 2";
  "";
  "Размяна на копчетата на мишката";
  "Код за Двуфакторно удостоверяване";
  "Повече";
  "Позволяване на двуфакторно удостоверяване";
  "Моля, настройте вашия удостоверител сега. Можете да използвате приложение за удостоверяване като Authy, Microsoft или Google Authenticator на вашия телефон или настолен компютър.\n\nСканирайте QR кода с вашето приложение и въведете кода, който приложението ви показва, за да активирате двуфакторно удостоверяване.";
  "е може да се потвърди кодът. Проверете дали настройките за код и локалното време са правилни";
  "Двуфакторно удостоверяване";
  "Кодът за проверка следва да е с дължина 6 знака.";
  "Кодът за 2FA (двуфакторно удостоверяване) трябва да е 6-цифрен";
  "Установени са няколко Windwos сесии";
  "Моля определете сесия към която искате да се свърженете";
  "";
  "";
  "";
  "Предупреждение за сигурност";
  "Моята адресна книга";
  "Личен";
  "Собственик";
  "Определяне споделена парола";
  "Съществува в";
  "Само четене";
  "Писане/четене";
  "Пълен контрол";
  "";
  "Всички";
  "";
  "";
  "";
  "Следвай отдалечения курсор";
  "Следвай фокуса на отдалечените прозорци";
  "";
  "";
  "Входящ";
  "Изходящ";
  "Изчистване избор на Wayland екран";
  "";
  "";
  "";
  "";
  "Използвай текстово изграждане";
  "Плаващ прозорец";
  "";
  "Запази екранът включен";
  "Никога";
  "Докато е обект на управление";
  "Докато услугата е включена";
  "Снемай екрана ползвайки DirectX";
  "Назад";
  "Приложения";
  "Усилване звук";
  "Намаляне звук";
  "Мощност";
  "Телеграм бот";
  "";
  "";
  "";
  "";
  "Относно RustDesk";
  "";
  "";
  "Отключване с PIN";
  "";
  "Грешен PIN";
  "Избор PIN";
  "Позволяване доверени устройства";
  "Управление доверени устройства";
  "Платформа";
  "Оставащи дни";
  "";
  "";
  "Възобновяване";
  "Невалидно име за файл";
  "";
  "";
  "";
  "";
  "";
  "";
  "";
  "";
  "";
  "";
  "";
  ""].
(** [LANGS.ca] *)
Definition lang_ca : jsmap string string := texts [
  "Estat";
  "Aquest ordinador";
  "Es pot accedir a aquest equip mitjançant les credencials:";
  "Contrasenya";
  "Preparat.";
  "S'ha establert.";
  "S'està connectant a la xarxa de RustDesk...";
  "Habilita el servei.";
  "Inicia el servei.";
  "El servei s'està executant.";
  "El servei no s'està executant.";
  "No disponible. Verifiqueu la connexió";
  "Dispositiu remot";
  "Transfereix fitxers";
  "Connecta";
  "Sessions recents";
  "Llibreta d'adreces";
  "Confirmació";
  "Túnel TCP";
  "Suprimeix";
  "Actualitza la contrasenya aleatòria";
  "Establiu la vostra contrasenya";
  "Habilita el teclat/ratolí";
  "Habilita el porta-retalls";
  "Habilita la transferència de fitxers";
  "Habilita el túnel TCP";
  "Adreces IP admeses";
  "ID/Repetidor del Servidor";
  "Importa la configuració del servidor";
  "Exporta la configuració del servidor";
  "S'ha importat la configuració del servidor correctament";
  "S'ha exportat la configuració del servidor correctament";
  "Configuració del servidor no vàlida";
  "El porta-retalls és buit";
  "Atura el servei";
  "Canvia la ID";
  "Identificador nou";
  "Entre %min% i %max% caràcters";
  "Comença amb una lletra";
  "Caràcters admesos";
  "Els caràcters admesos són: a-z, A-Z, 0-9, - (dash), _ (guió baix). El primer caràcter ha de ser a-z/A-Z, i una mida de 6 a 16 caràcters.";
  "Lloc web";
  "Quant al RustDesk";
  "Fet de tot cor dins d'aquest món caòtic!\nTraducció: Benet R. i Camps (BennyBeat).";
  "Declaració de privadesa";
  "Silencia";
  "Data de compilació";
  "Versió";
  "Inici";
  "Entrada d'àudio";
  "Millores";
  "Codificació per maquinari";
  "Taxa de bits adaptativa";
  "ID del servidor";
  "Repetidor del servidor";
  "Clau API del servidor";
  "ha de començar amb http:// o https://";
  "IP no vàlida";
  "Format no vàlid";
  "Encara no suportat pel servidor";
  "No disponible";
  "Massa freqüent";
  "Cancel·la";
  "Omet";
  "Surt";
  "Torna a provar";
  "D'acord";
  "Contrasenya requerida";
  "Inseriu la contrasenya";
  "Recorda la contrasenya";
  "Contrasenya no vàlida";
  "Voleu tornar a provar?";
  "Error de connexió";
  "Error";
  "Restablert pel client";
  "S'està connectant...";
  "S'està connectant. Espereu...";
  "Torneu a provar en 1 minut";
  "Error d'accés";
  "Correcte";
  "S'ha connectat; en espera de rebre la imatge...";
  "Nom";
  "Tipus";
  "Modificat";
  "Mida";
  "Mostra els fitxers ocults";
  "Rep";
  "Envia";
  "Actualitza";
  "Local";
  "Remot";
  "Dispositiu remot";
  "Aquest ordinador";
  "Confirmació de supressió";
  "Suprimeix";
  "Propietats";
  "Selecció múltiple";
  "Seleciona-ho tot";
  "Desselecciona-ho tot";
  "Carpeta buida";
  "No és una carpeta buida";
  "Segur que voleu suprimir aquest fitxer?";
  "Segur que voleu suprimir aquesta carpeta buida?";
  "Segur que voleu suprimir el fitxer d'aquesta carpeta?";
  "Aplica aquesta acció per a tots els conflictes";
  "Aquesta acció no es pot desfer!";
  "S'està suprimint";
  "fitxers";
  "En espera";
  "Ha finalitzat";
  "Velocitat";
  "Qualitat d'imatge personalitzada";
  "Mode privat";
  "Bloca el control a l'usuari";
  "Desbloca el control a l'usuari";
  "Ajusta la finestra";
  "Original";
  "Encongida";
  "Ampliada";
  "Barra de desplaçament";
  "Desplaçament automàtic";
  "Bona qualitat d'imatge";
  "Equilibrada";
  "Optimitza el temps de reacció";
  "Personalitzada";
  "Mostra el cursor remot";
  "Mostra la informació de flux";
  "Inhabilita el porta-retalls";
  "Bloca en finalitzar la sessió";
  "Insereix Ctrl + Alt + Del";
  "Bloca";
  "Actualitza";
  "Aquesta ID no existeix";
  "Ha fallat en connectar al servidor assignat";
  "Proveu més tard";
  "El dispositiu remot està desconnectat";
  "La clau no coincideix";
  "S'ha exhaurit el temps";
  "Ha fallat en connectar amb el repetidor del servidor";
  "Ha fallat en connectar mitjançant el servidor assignat";
  "Ha fallat en connectar mitjançant el repetidor del servidor";
  "Ha fallat la connexió directa amb el dispositiu remot";
  "Establiu una contrasenya";
  "Contrasenya del sistema";
  "En alguns casos és possible que el RustDesk no funcioni correctament per les restriccions UAC («User Account Control»; Control de comptes d'usuari). Per evitar aquest problema, instal·leu el RustDesk al vostre sistema.";
  "Feu clic per a actualitzar";
  "Feu clic per a baixar";
  "Feu clic per a actualitzar";
  "Configura";
  "Per a poder controlar el dispositiu remotament, faciliteu al RustDesk els permisos d'accessibilitat.";
  "Per a poder controlar el dispositiu remotament, faciliteu al RustDesk els permisos de gravació de pantalla.";
  "S'està instal·lant...";
  "Instal·la";
  "Instal·lació";
  "Ruta de la instal·lació";
  "Crea una drecera al menú d'inici";
  "Crea una icona a l'escriptori";
  "En iniciar la instal·lació, esteu acceptant l'acord de llicència d'usuari.";
  "Accepta i instal·la";
  "Acord de llicència d'usuari final";
  "S'està generant...";
  "La instal·lació actual és una versió inferior";
  "No tanqueu aquesta finestra mentre utilitzeu el túnel";
  "S'està escoltant...";
  "Amfitrió remot";
  "Port remot";
  "Acció";
  "Afegeix";
  "Port local";
  "Adreça local";
  "Canvia el port local";
  "Per a connexions més ràpides o privades, configureu el vostre servidor";
  "Massa curt. Són necessaris almenys 6 caràcters.";
  "Les contrasenyes no coincideixen.";
  "Permisos";
  "Accepta";
  "Ignora";
  "Desconnecta";
  "Habilita la còpia i enganxament de fitxers";
  "Connectat";
  "Connexió xifrada directa";
  "Connexió xifrada per repetidor";
  "Connexió directa sense xifratge";
  "Connexió per repetidor sense xifratge";
  "Inseriu la ID remota";
  "Inseriu la contrasenya";
  "S'està iniciant...";
  "Habilita l'ús compartit de sessions RDP";
  "Inici de sessió automàtic";
  "Habilita l'accés directe per IP";
  "Reanomena";
  "Espai";
  "Crea una drecera a l'escriptori";
  "Canvia la ruta";
  "Carpeta nova";
  "Inseriu el nom de la carpeta";
  "Repara";
  "Atenció";
  "L'inici de sessió amb Wayland encara no és compatible";
  "Cal reiniciar";
  "Servidor de visualització no compatible";
  "x11 necessari";
  "Port";
  "Configuració";
  "Nom d'usuari";
  "Port no vàlid";
  "Tancat manualment pel client";
  "Habilita la modificació remota de la configuració";
  "Inicia sense instal·lar";
  "Connecta mitjançant un repetidor";
  "Connecta sempre mitjançant un repetidor";
  "Només les IP admeses es podran connectar";
  "Inicia la sessió";
  "Verifica";
  "Recorda'm";
  "Confia en aquest dispositiu";
  "Codi de verificació";
  "S'ha enviat un codi de verificació al correu-e registrat. Inseriu-lo per a continuar amb l'inici de sessió.";
  "Tanca la sessió";
  "Etiquetes";
  "Cerca per ID";
  "Separades per coma, punt i coma, espai o una adreça per línia";
  "Afegeix una ID";
  "Afegeix una etiqueta";
  "Desselecciona totes les etiquetes";
  "Error de la xarxa";
  "No s'ha indicat el nom d'usuari";
  "No s'ha indicat la contrasenya";
  "Credencials errònies";
  "El codi de verificació no és vàlid o ha caducat";
  "Edita l'etiqueta";
  "Contrasenya oblidada";
  "Preferits";
  "Afegeix als preferits";
  "Suprimeix dels preferits";
  "Buida";
  "Nom de carpeta no vàlid";
  "Servidor intermediari Socks5";
  "Servidor intermediari Socks5/Http(s)";
  "Descobert";
  "Per a iniciar durant l'arrencada del sistema, heu d'instal·lar el servei.";
  "ID remota";
  "Enganxa";
  "Voleu enganxar aquí?";
  "Segur que voleu finalitzar la connexió?";
  "Baixa la versió nova";
  "Mode tàctil";
  "Mode ratolí";
  "Toc amb un dit";
  "Botó esquerre";
  "Toc prolongat";
  "Toc amb dos dits";
  "Botó dret";
  "Moviment amb un dit";
  "Toc doble i moveu";
  "Arrossega el ratolí";
  "Tres dits en vertical";
  "Roda del ratolí";
  "Moviment amb dos dits";
  "Moviment del llenç";
  "Pessic per escalar";
  "escala del llenç";
  "Reinici del llenç";
  "Cap permís per a transferència de fitxers";
  "Nota";
  "Connexió";
  "Compartició de pantalla";
  "Xat";
  "Total";
  "elements";
  "Seleccionat";
  "Captura de pantalla";
  "Control d'entrada";
  "Captura d'àudio";
  "Connexió de fitxer";
  "Connexió de pantalla";
  "Voleu acceptar?";
  "Obre la configuració del sistema";
  "Com modificar els permisos a Android?";
  "Per a controlar de forma remota el vostre dispositiu amb gestos o un ratolí, heu de permetre al RustDesk l'ús del servei «Accessibilitat».";
  "A l'apartat Configuració del sistema de la pàgina següent, aneu a «Serveis baixats», i activeu el «RustDesk Input».";
  "S'ha rebut una petició nova per a controlar el vostre dispositiu.";
  "Activant «Gravació de pantalla» s'iniciarà automàticament el servei que permet a altres enviar sol·licituds de connexió cap al vostre dispositiu.";
  "Tancant el servei finalitzaran automàticament les connexions en ús.";
  "Aquesta versió d'Android no suporta la captura d'àudio. Actualitzeu a Android 10 o superior.";
  "Toqueu a «Inicia el servei» o activeu el permís «Captura de pantalla» per a iniciar el servei de compartició de pantalla.";
  "Els permisos per a les connexions ja establertes poden no canviar, fins que no torneu a connectar.";
  "Compte";
  "Reemplaça";
  "Aquest fitxer ja existeix. Voleu ometre o reemplaçar l'original?";
  "Surt";
  "Ajuda";
  "Ha fallat";
  "Fet";
  "S'ha activat el Mode privat; surt";
  "No suportat";
  "Client denegat";
  "Instal·leu els complements";
  "Finalitzat pel client";
  "Ha fallat en desactivar";
  "Desactivat";
  "Idioma";
  "Manté el servei del RustDesk en rerefons";
  "Ignora les optimitzacions de bateria";
  "Si voleu desactivar aquesta característica, feu-ho des de la pàgina següent de configuració del RustDesk, utilitzant l'opció relativa a «Bateria»";
  "Inicia durant l'arrencada";
  "Per iniciar la compartició de pantalla durant l'arrencada del sistema, calen permisos especials";
  "Connexió no permesa";
  "Mode heretat";
  "Mode mapa";
  "Mode traduït";
  "Utilitza la contrasenya permanent";
  "Utilitza totes dues opcions";
  "Estableix la contrasenya permanent";
  "Habilita el reinici remot";
  "Reinicia el dispositiu remot";
  "Segur que voleu reiniciar";
  "Reinici del dispositiu remot";
  "S'està reiniciant el dispositiu remot. Tanqueu aquest missatge i torneu a connectar amb ell mitjançant la contrasenya, un cop estigui en línia.";
  "S'ha copiat";
  "Surt de la pantalla completa";
  "Pantalla completa";
  "Funcions mòbils";
  "Selecció de monitor";
  "Control de funcions";
  "Configuració de pantalla";
  "Relació";
  "Qualitat de la imatge";
  "Tipus de desplaçament";
  "Mostra la barra d'eines";
  "Amaga la barra d'eines";
  "Connexió directa";
  "Connexió amb repetidor";
  "Connexió segura";
  "Connexió no segura";
  "Escala original";
  "Escala adaptativa";
  "General";
  "Seguretat";
  "Tema";
  "Tema fosc";
  "Tema clar";
  "Fosc";
  "Clar";
  "Utilitza la configuració del sistema";
  "Habilita la codificació per maquinari";
  "Desbloca la configuració de seguretat";
  "Habilita l'àudio";
  "Desbloca la configuració de la xarxa";
  "Servidor";
  "Accés directe per IP";
  "Servidor intermediari";
  "Aplica";
  "Voleu desconnectar tots els dispositius?";
  "Buida";
  "Dispositiu d'entrada d'àudio";
  "Utilitza un llistat d'IP admeses";
  "Xarxa";
  "Ancora a la barra d'eines";
  "Desancora de la barra d'eines";
  "Gravació";
  "Contactes";
  "Enregistrament automàtic de sessions entrants";
  "";
  "Canvia";
  "Inicia la gravació de la sessió";
  "Atura la gravació de la sessió";
  "Habilita la gravació de la sessió";
  "Habilita el descobriment LAN";
  "Inhabilita el descobriment LAN";
  "Escriviu un missatge";
  "Sol·licitud";
  "Espereu a la confirmació de l'UAC...";
  "La finestra de connexió actual requereix permisos ampliats per a funcionar i, de forma temporal, no es pot utilitzar ni el teclat ni el ratolí. Demaneu a l'usuari remot que minimitzi la finestra actual, o bé que faci clic al botó Permisos ampliats de la finestra d'administració de la connexió. Per a evitar aquest problema en un futur, instal·leu el RustDesk al dispositiu remot.";
  "Desconnectat";
  "Altre";
  "Confirma abans de tancar diverses pestanyes alhora";
  "Configuració del teclat";
  "Accés complet";
  "Compartició de pantalla";
  "Wayland requereix Ubuntu 21.04 o superior";
  "Wayland requereix una versió superior de sistema Linux per a funcionar. Proveu iniciant un entorn d'escriptori amb x11 o actualitzeu el vostre sistema operatiu.";
  "Marcador";
  "Seleccioneu la pantalla que compartireu (quina serà visible al client)";
  "Mostra el RustDesk";
  "Aquest equip";
  "o";
  "Continua amb";
  "Permisos ampliats";
  "Escala del ratolí";
  "Accepta les sessions mitjançant una contrasenya";
  "Accepta les sessions expressament amb el ratolí";
  "Accepta les sessions de totes dues formes";
  "S'està esperant l'acceptació remota de la vostra connexió...";
  "Contrasenya d'un sol ús";
  "Utilitza una contrasenya d'un sol ús";
  "Mida de la contrasenya d'un sol ús";
  "Ha demanat connectar al vostre dispositiu";
  "Amaga la finestra d'administració de la connexió";
  "Permet amagar la finestra només en acceptar sessions entrants sempre que s'utilitzi una contrasenya permanent";
  "El suport per a Wayland està en fase experimental; es recomana l'ús d'x11 si us cal accés de forma desatesa.";
  "Feu clic amb el botó dret per a seleccionar pestanyes";
  "S'ha omès";
  "Afegeix a la llibreta d'adreces";
  "Grup";
  "Cerca";
  "Tancat manualment per la consola web";
  "Tipus de teclat local";
  "Seleccioneu el tipus de teclat local";
  "Si utilitzeu una gràfica Nvidia a Linux i la connexió remota es tanca immediatament en connectar, canviar al controlador lliure «Nouveau» amb renderització per programari, pot ajudar a solucionar el problema. Es requerirà en aquest cas reiniciar l'aplicació.";
  "Utilitza sempre la renderització de programari";
  "Per a poder controlar el dispositiu remotament amb el teclat, faciliteu al RustDesk els permisos d'entrada necessaris.";
  "Per a poder parlar remotament, faciliteu al RustDesk els permisos de gravació d'àudio necessaris.";
  "També, la part remota pot concedir aquests permisos de forma manual.";
  "Espereu";
  "Error de permisos";
  "Demaneu l'autenticació al client remot";
  "Trieu aquesta opció si el compte remot té permisos d'administrador";
  "Indiqueu l'usuari i contrasenya de l'administrador";
  "Es requereix acceptació manual a la part remota de la finestra «UAC» del RustDesk en execució.";
  "Sol·licita els permisos";
  "Espereu fins que l'usuari remot accepti la finestra de diàleg de l'«UAC».";
  "S'han acceptat els permisos";
  "majúscula";
  "minúscula";
  "número";
  "caràcter especial";
  "mida>=8";
  "Feble";
  "Acceptable";
  "Segura";
  "Inverteix la connexió";
  "Realment voleu que es controli aquest equip?";
  "Pantalla";
  "Estil de vista per defecte";
  "Estil de desplaçament per defecte";
  "Qualitat de la imatge per defecte";
  "Còdec per defecte";
  "Taxa de bits";
  "FPS";
  "Automàtic";
  "Altres opcions per defecte";
  "Trucada";
  "Xat";
  "Penja la trucada";
  "Quan no sigui possible la connexió directa, podeu provar mitjançant un repetidor. Addicionalment, si voleu que l'ús d'un repetidor sigui la primera opció per defecte, podeu afegir el sufix «/r» a la ID, o seleccionar l'opció «Connecta sempre mitjançant un repetidor» si ja existeix una fitxa amb aquesta ID a la pestanya de connexions recents.";
  "Torna a connectar";
  "Còdec";
  "Resolució";
  "Cap transferència iniciada";
  "Mida de la contrasenya d'un sol ús";
  "Opcions de connexió RDP";
  "Organitza per";
  "Connexió nova";
  "Restaura";
  "Minimitza";
  "Maximitza";
  "Aquest dispositiu";
  "No s'ha trobat cap sessió recent!\nS'afegiran automàticament les connexions que realitzeu.";
  "No heu afegit cap dispositiu aquí!\nPodeu afegir dispositius favorits en qualsevol moment.";
  "No s'ha trobat cap dispositiu proper.";
  "Sembla que no teniu cap dispositiu a la vostra llista d'adreces.";
  "p. ex.:admin";
  "Nom d'usuari buit";
  "Contrasenya buida";
  "Vós";
  "Aquest fitxer és idèntic al del client.";
  "Mostra les pantalles a la barra d'eines";
  "Mode espectador";
  "És necessari que inicieu prèviament sessió amb un entorn d'escriptori x11 habilitat";
  "Verifica la contrasenya del RustDesk";
  "Recorda aquest compte";
  "S'utilitza aquest compte per iniciar la sessió al sistema remot i habilitar el mode sense cap pantalla connectada";
  "Compte d'usuari";
  "Altre usuari ha iniciat ja una sessió";
  "Desconnecta";
  "No s'ha trobat l'entorn Xorg";
  "Instal·leu el Xorg";
  "Cap escriptori disponible";
  "Instal·leu l'entorn d'escriptori GNOME";
  "No calen permisos ampliats";
  "So del sistema";
  "per defecte";
  "Connexió RDP nova";
  "Empremta";
  "Copia l'empremta";
  "Cap empremta";
  "Seleccioneu un client";
  "Seleccioneu els clients";
  "Complements";
  "Desinstal·la";
  "Actualitza";
  "Activa";
  "Desactiva";
  "Opcions";
  "Resolució original";
  "Ajusta la resolució local";
  "Resolució personalitzada";
  "Minimitza la barra d'eines";
  "Accepta i permet";
  "Accepta la connexió i permet els permisos elevats UAC.";
  "S'ha esgotat el temps d'espera amb la resposta de còpia.";
  "Connexió entrant";
  "Connexió sortint";
  "Surt";
  "Obre";
  "Segur que voleu desconnectar?";
  "Servei";
  "Inicia";
  "Atura";
  "Heu assolit el nombre màxim de dispositius administrables.";
  "Sincronitza amb les sessions recents";
  "Ordena les etiquetes";
  "Obre la connexió en una pestanya nova";
  "Mou la pestanya a una finestra nova";
  "No pot estar buit";
  "Ja existeix";
  "Canvia la contrasenya";
  "Actualitza la contrasenya";
  "ID";
  "Disposició de graella";
  "Disposició de llista";
  "Selecciona";
  "Habilita les etiquetes";
  "Ha fallat en actualitzar la llista de contactes";
  "Ha fallat en actualitzar la llista amb el servidor";
  "Els dispositius que es troben a la llista de sessions recents se sincronitzaran novament a la llista de contactes.";
  "Canvia el color";
  "Color principal";
  "Color HSV";
  "S'ha instal·lat correctament";
  "Ha fallat la instal·lació";
  "Inverteix la roda del ratolí";
  "{} sessions";
  "Podríeu ser víctima d'una ESTAFA!";
  "Si cap persona qui NO coneixeu NI CONFIEU us demanés l'ús del RustDesk, no continueu i talleu la comunicació immediatament.";
  "Habitualment solen ser atacants intentant fer-se amb els vostres diners o informació privada.";
  "No tornis a mostrar";
  "Accepto";
  "No accepto";
  "Temps d'espera en minuts";
  "Tanca automàticament les sessions entrants per inactivitat de l'usuari";
  "Ha fallat la connexió per inactivitat";
  "Cerca actualitzacions en iniciar";
  "Actualitzeu el RustDesk Server Pro a la versió {} o superior!";
  "Ha fallat en actualitzar el grup";
  "Filtra per intersecció";
  "Inhabilita el fons d'escriptori durant la sessió entrant";
  "Prova";
  "El monitor està desconnectat; canvieu primer al monitor principal.";
  "Cap monitor";
  "Obre en una finestra nova";
  "Mostra cada monitor com una finestra individual";
  "Utilitza tots els meus monitors per a la connexió remota";
  "SELinux està activat al vostre dispositiu, la qual cosa evita que el RustDesk funcioni correctament com a equip controlable.";
  "Canvia la vista";
  "Mosaic gran";
  "Mosaic petit";
  "Llista";
  "Pantalla virtual";
  "Desconnecta-ho tot";
  "Color real (4:4:4)";
  "Bloca el control de l'usuari amb els dispositius d'entrada";
  "Evita que l'usuari pugui interactuar p. ex. amb el teclat o ratolí";
  "Mode 1";
  "Mode 2";
  "Inicia el Mode privat";
  "Surt del Mode privat";
  "El controlador indirecte de pantalla no està suportat; es requereix Windows 10 versió 2004 o superior.";
  "Font d'entrada 1";
  "Font d'entrada 2";
  "Canvia el comportament de la tecla Control";
  "Alterna el comportament dels botons esquerre-dret del ratolí";
  "Codi 2FA";
  "Més";
  "Habilita el mètode d'autenticació de factor doble";
  "Configureu ara el vostre autenticador. Podeu utilitzar una aplicació com 2fast, FreeOTP, MultiOTP, Microsoft o Google Authenticator al vostre telèfon o escriptori.\n\nEscanegeu el codi QR amb l'aplicació i escriviu els caràcters resultants per habilitar l'autenticació de factor doble.";
  "Codi 2FA no vàlid. Verifiqueu el que heu escrit i també que la configuració horària sigui correcta";
  "Autenticació de factor doble";
  "El codi de verificació de correu-e són 6 caràcters";
  "El codi de verificació 2FA haurien de ser almenys 6 dígits";
  "S'han trobat múltiples sessions en ús del Windows";
  "Indiqueu amb quina sessió voleu connectar";
  "Amb la tecnologia de RustDesk";
  "Aquesta és una versió personalitzada.\nPodeu connectar amb altres dispositius, però no s'accepten connexions d'entrada cap el vostre dispositiu.";
  "Aquesta versió personalitzada té una contrasenya preestablerta. Qualsevol persona que la conegui pot tenir accés total al vostre dispositiu. Si no és el comportament desitjat, desinstal·leu aquest programa immediatament.";
  "Alerta de seguretat";
  "Llibreta d'adreces";
  "Personal";
  "Propietari";
  "Establiu una contrasenya compartida";
  "Existeix a";
  "Només lectura";
  "Lectura/Escriptura";
  "Control total";
  "Els camps a continuació estan compartits i són visibles a d'altres.";
  "Tothom";
  "Més a la consola web";
  "Permet la connexió només si la finestra del RustDesk està activa";
  "Cap monitor físic. No cal l'ús del Mode privat";
  "Segueix al cursor remot";
  "Segueix el focus remot de la finestra activa";
  "El protocol per defecte és Socks5 al port 1080";
  "No s'ha trobat cap dispositiu d'àudio.";
  "Entrant";
  "Sortint";
  "Neteja la pantalla de selecció Wayland";
  "En netejar la finestra de selecció, podreu tornar a triar quina pantalla compartir.";
  "Segur que voleu netejar la pantalla de selecció del Wayland";
  "S'ha rebut una petició de trucada entrant. Si accepteu, la font d'àudio canviarà a comunicació per veu.";
  "Utilitzeu aquesta opció per suavitzar la imatge. Desactiveu-ho si trobeu cap problema amb el renderitzat";
  "Utilitza la renderització de textures";
  "Finestra flotant";
  "Ajuda a mantenir el servei del RustDesk en rerefons";
  "Manté la pantalla activa";
  "Mai";
  "Durant la connexió";
  "Mentre el servei està actiu";
  "Captura utilitzant el DirectX";
  "Enrere";
  "Aplicacions";
  "Volum amunt";
  "Volum avall";
  "Encesa";
  "Bot del Telegram";
  "Si habiliteu aquesta característica, podreu rebre el codi 2FA mitjançant el vostre bot. També funciona com a notificador de la connexió.";
  with_quotes ["1. Obriu un xat amb @BotFather.\n2. Envieu l'ordre "; "/newbot"; ". Rebreu un testimoni en acompletar aquest pas.\n3. Inicieu una conversa amb el vostre bot nou que acabeu de crear, enviant un missatge que comenci amb ("; "/"; "), com ara "; "/hello"; " per a activar-lo.\n"];
  "Segur que voleu cancel·lar l'autenticació 2FA?";
  "Segur que voleu cancel·lar el bot de Telegram?";
  "Quant al RustDesk";
  "Envia les pulsacions de tecles del porta-retalls";
  "Verifiqueu la vostra connexió a Internet i torneu a provar";
  "Desbloca amb PIN";
  "Són necessaris almenys {} caràcters";
  "PIN no vàlid";
  "Definiu un codi PIN";
  "Habilita els dispositius de confiança";
  "Administra els dispositius de confiança";
  "Platforma";
  "Dies restants";
  "Omet l'autenticació de factor doble (2FA) als dispositius de confiança";
  "Carpeta pare";
  "Continua";
  "Nom de fitxer no vàlid";
  "One-way file transfer is enabled on the controlled side.";
  "Autenticació requerida";
  "Autentica";
  "Podeu inserir el número ID al propi servidor; l'accés directe per IP no és compatible amb el client web.\nSi voleu accedir a un dispositiu d'un altre servidor, afegiu l'adreça del servidor, com ara <id>@<adreça_del_servidor>?key=<valor_de_la_clau> (p. ex.\n9123456234@192.168.16.1:21117?key=5Qbwsde3unUcJBtrx9ZkvUmwFNoExHzpryHuPUdqlWM=.\nSi voleu accedir a un dispositiu en un servidor públic, no cal que inseriu la clau pública «<id>@» per al servidor públic.";
  "";
  "";
  "";
  "";
  "";
  "";
  "";
  ""].
(** [LANGS.cn] *)
Definition lang_cn : jsmap string string := texts [
  "状态";
  "你的桌面";
  "你的桌面可以通过下面的 ID 和密码访问。";
  "密码";
  "就绪";
  "已建立";
  "正在接入 RustDesk 网络...";
  "允许服务";
  "启动服务";
  "服务正在运行";
  "服务未运行";
  "未就绪，请检查网络连接";
  "控制远程桌面";
  "传输文件";
  "连接";
  "最近访问过";
  "地址簿";
  "确认";
  "TCP 隧道";
  "删除";
  "刷新随机密码";
  "设置密码";
  "允许控制键盘/鼠标";
  "允许同步剪贴板";
  "允许传输文件";
  "允许建立 TCP 隧道";
  "IP 白名单";
  "ID/中继服务器";
  "导入服务器配置";
  "导出服务器配置";
  "导入服务器配置信息成功";
  "导出服务器配置信息成功";
  "服务器配置无效，请修改后重新复制配置信息到剪贴板，然后点击此按钮";
  "复制配置信息到剪贴板后点击此按钮，可以自动导入配置";
  "停止服务";
  "更改 ID";
  "你的新 ID";
  "长度在 %min% 与 %max% 之间";
  "以字母开头";
  "使用允许的字符";
  "只可以使用字母 a-z, A-Z, 0-9, - (dash), _ (下划线)。首字母必须是 a-z, A-Z。长度在 6 与 16 之间。";
  "网站";
  "关于";
  "在这个混乱的世界中，用心制作！";
  "隐私声明";
  "静音";
  "构建日期";
  "版本";
  "主页";
  "音频输入";
  "增强功能";
  "硬件编解码";
  "自适应码率";
  "ID 服务器";
  "中继服务器";
  "API 服务器";
  "必须以 http:// 或者 https:// 开头";
  "无效 IP";
  "无效格式";
  "服务器暂不支持";
  "不可用";
  "修改太频繁，请稍后再试";
  "取消";
  "跳过";
  "关闭";
  "再试";
  "确认";
  "需要密码";
  "请输入密码";
  "记住密码";
  "密码错误";
  "是否要再次输入？";
  "连接错误";
  "错误";
  "连接被对方关闭";
  "正在连接...";
  "正在进行连接，请稍候。";
  "一分钟后再试";
  "登录错误";
  "成功";
  "已连接，等待画面传输...";
  "名称";
  "类型";
  "修改时间";
  "大小";
  "显示隐藏文件";
  "接受";
  "发送";
  "刷新文件";
  "本地";
  "远程";
  "远程电脑";
  "本地电脑";
  "确认删除";
  "删除";
  "属性";
  "多选";
  "全选";
  "取消全选";
  "空文件夹";
  "这不是一个空文件夹";
  "是否删除此文件？";
  "是否删除此空文件夹？";
  "是否删除此文件夹下的文件？";
  "应用于其它冲突";
  "此操作不可逆！";
  "正在删除";
  "文件";
  "正在等待...";
  "完成";
  "速度";
  "设置画面质量";
  "隐私模式";
  "阻止用户输入";
  "取消阻止用户输入";
  "调节窗口";
  "原始比例";
  "收缩";
  "伸展";
  "滚动条";
  "自动滚动";
  "画质最优化";
  "平衡";
  "速度最优化";
  "自定义";
  "显示远程光标";
  "显示质量监测";
  "禁用剪贴板";
  "会话结束后锁定远程电脑";
  "插入 Ctrl + Alt + Del";
  "锁定远程电脑";
  "刷新画面";
  "ID 不存在";
  "连接注册服务器失败";
  "请稍后再试";
  "远程电脑处于离线状态";
  "Key 不匹配";
  "连接超时";
  "无法连接到中继服务器";
  "无法通过注册服务器建立连接";
  "无法通过中继服务器建立连接";
  "无法直接连接到远程桌面";
  "设置密码";
  "操作系统密码";
  "你正在运行未安装版本，由于 UAC 限制，作为被控端，会在某些情况下无法控制鼠标键盘，或者录制屏幕，请点击下面的按钮将 RustDesk 安装到系统，从而规避上述问题。";
  "点击这里升级";
  "点击这里下载";
  "点击这里更新";
  "配置";
  with_quotes ["为了能够远程控制你的桌面, 请给予 RustDesk "; "辅助功能"; " 权限。"];
  with_quotes ["为了能够远程访问你的桌面, 请给予 RustDesk "; "屏幕录制"; " 权限。"];
  "安装中...";
  "安装";
  "安装";
  "安装路径";
  "创建启动菜单快捷方式";
  "创建桌面图标";
  "开始安装即表示接受许可协议。";
  "同意并安装";
  "用户协议";
  "正在生成...";
  "你安装的版本比当前运行的低。";
  "请在使用隧道的时候，不要关闭本窗口";
  "正在等待隧道连接...";
  "远程主机";
  "远程端口";
  "动作";
  "添加";
  "本地端口";
  "当前地址";
  "修改本地端口";
  "如果需要更快连接速度，你可以选择自建服务器";
  "太短了，至少 6 个字符";
  "两次输入不匹配";
  "权限";
  "接受";
  "拒绝";
  "断开连接";
  "允许复制粘贴文件";
  "已连接";
  "加密直连";
  "加密中继连接";
  "非加密直连";
  "非加密中继连接";
  "输入对方 ID";
  "输入密码";
  "正在登录...";
  "允许 RDP 会话共享";
  "自动登录（设置断开后锁定才有效）";
  "允许 IP 直接访问";
  "重命名";
  "空格";
  "创建桌面快捷方式";
  "更改路径";
  "创建文件夹";
  "请输入文件夹名称";
  "修复";
  "警告";
  "不支持使用 Wayland 登录界面";
  "重启后才能生效";
  "不支持当前显示服务器";
  "请切换到 x11";
  "端口";
  "设置";
  "用户名";
  "无效端口";
  "被对方手动关闭";
  "允许远程修改配置";
  "不安装直接运行";
  "中继连接";
  "强制走中继连接";
  "只有白名单里的 IP 才能访问本机";
  "登录";
  "验证";
  "记住我";
  "信任此设备";
  "验证码";
  "已向注册邮箱发送了登录验证码，请输入验证码继续登录";
  "登出";
  "标签";
  "查找 ID";
  "可以使用逗号，分号，空格或者换行符作为分隔符";
  "增加 ID";
  "增加标签";
  "取消选择所有标签";
  "网络错误";
  "用户名没有填写";
  "密码没有填写";
  "提供的登录信息错误";
  "验证码错误或已超时";
  "修改标签";
  "忘记密码";
  "收藏";
  "加入到收藏";
  "从收藏中删除";
  "空空如也";
  "无效文件夹名称";
  "Socks5 代理";
  "Socks5/Http(s) 代理";
  "已发现";
  "为了开机启动，请安装系统服务。";
  "远程 ID";
  "粘贴";
  "粘贴到这里？";
  "是否确认关闭连接？";
  "下载新版本";
  "触屏模式";
  "鼠标模式";
  "单指轻触";
  "鼠标左键";
  "单指长按";
  "双指轻触";
  "鼠标右键";
  "单指移动";
  "双击并移动";
  "鼠标选中拖动";
  "三指垂直滑动";
  "鼠标滚轮";
  "双指移动";
  "移动画布";
  "双指缩放";
  "缩放画布";
  "重置画布";
  "没有文件传输权限";
  "备注";
  "连接";
  "共享屏幕";
  "聊天消息";
  "总计";
  "个项目";
  "已选择";
  "屏幕录制";
  "输入控制";
  "音频录制";
  "文件连接";
  "屏幕连接";
  "是否接受？";
  "打开系统设置";
  "如何获取安卓的输入权限？";
  with_quotes ["为了让远程设备通过鼠标或触屏控制您的安卓设备，你需要允许 RustDesk 使用"; "无障碍"; "服务。"];
  "请在接下来的系统设置页面里，找到并进入 [已安装的服务] 页面，将 [RustDesk Input] 服务开启。";
  "收到新的连接控制请求，对方想要控制你当前的设备。";
  "开启录屏权限将自动开启服务，允许其他设备向此设备请求建立连接。";
  "关闭服务将自动关闭所有已建立的连接。";
  "当前安卓版本不支持音频录制，请升级至安卓 10 或更高。";
  "点击开始服务或启用屏幕捕获权限，即可启动屏幕共享服务";
  "对于已建立的连接，权限可能不会立即发生改变，除非重新建立连接。";
  "账户";
  "覆盖";
  "这个文件/文件夹已存在，跳过/覆盖？";
  "退出";
  "帮助";
  "失败";
  "成功";
  "其他用户使用隐私模式，退出";
  "不支持";
  "被控端拒绝";
  "请安装插件";
  "被控端退出";
  "退出失败";
  "退出";
  "语言";
  "保持 RustDesk 后台服务";
  "忽略电池优化";
  "如需关闭此功能，请在接下来的 RustDesk 应用设置页面中，找到并进入 [电源] 页面，取消勾选 [不受限制]";
  "开机自启动";
  "开机自动启动屏幕共享服务，此功能需要一些特殊权限。";
  "对方不允许连接";
  "传统模式";
  "1:1 传输";
  "翻译模式";
  "使用固定密码";
  "同时使用两种密码";
  "设置固定密码";
  "允许远程重启";
  "重启远程电脑";
  "确定要重启";
  "正在重启远程设备";
  "远程设备正在重启, 请关闭当前提示框, 并在一段时间后使用永久密码重新连接";
  "已复制";
  "退出全屏";
  "全屏";
  "移动端操作";
  "选择监视器";
  "控制操作";
  "显示设置";
  "比例";
  "画质";
  "滚屏方式";
  "显示工具栏";
  "隐藏工具栏";
  "直接连接";
  "中继连接";
  "安全连接";
  "非安全连接";
  "原始尺寸";
  "适应窗口";
  "常规";
  "安全";
  "主题";
  "暗黑主题";
  "明亮主题";
  "黑暗";
  "明亮";
  "跟随系统";
  "启用硬件编解码";
  "解锁安全设置";
  "允许传输音频";
  "解锁网络设置";
  "服务器";
  "IP 直接访问";
  "代理";
  "应用";
  "断开所有远程连接？";
  "清空";
  "音频输入设备";
  "只允许白名单上的 IP 访问";
  "网络";
  "固定工具栏";
  "取消固定工具栏";
  "录屏";
  "目录";
  "自动录制传入会话";
  "自动录制传出会话";
  "更改";
  "开始录屏";
  "结束录屏";
  "允许录制会话";
  "允许局域网发现";
  "拒绝局域网发现";
  "输入聊天消息";
  "提示";
  "请等待对方确认 UAC...";
  "远端桌面的当前窗口需要更高的权限才能操作, 暂时无法使用鼠标键盘, 可以请求对方最小化当前窗口, 或者在连接管理窗口点击提升。为避免这个问题，建议在远端设备上安装本软件。";
  "会话已结束";
  "其他";
  "关闭多个标签页时向您确认";
  "键盘设置";
  "完全访问";
  "仅共享屏幕";
  "Wayland 需要 Ubuntu 21.04 或更高版本。";
  "Wayland 需要更高版本的 linux 发行版。 请尝试 X11 桌面或更改您的操作系统。";
  "查看";
  "请选择要分享的画面（对端操作）。";
  "显示 RustDesk";
  "此电脑";
  "或";
  "使用";
  "提权";
  "缩放光标";
  "只允许密码访问";
  "只允许点击访问";
  "允许密码或点击访问";
  "请等待对方接受你的连接...";
  "一次性密码";
  "使用一次性密码";
  "一次性密码长度";
  "请求访问你的设备";
  "隐藏连接管理窗口";
  "在只允许密码连接并且只用固定密码的情况下才允许隐藏";
  "Wayland 支持处于实验阶段，如果你需要使用无人值守访问，请使用 X11。";
  "右键选择选项卡";
  "已跳过";
  "添加到地址簿";
  "小组";
  "搜索";
  "被 web 控制台手动关闭";
  "本地键盘类型";
  "请选择本地键盘类型";
  "如果你使用英伟达显卡, 并且远程窗口在会话建立后会立刻关闭, 那么安装 nouveau 驱动并且选择使用软件渲染可能会有帮助。重启软件后生效。";
  "始终使用软件渲染";
  with_quotes ["为了能够通过键盘控制远程桌面, 请给予 RustDesk "; "输入监控"; " 权限。"];
  with_quotes ["为了支持通过麦克风进行音频传输，请给予 RustDesk "; "录音"; "权限。"];
  "如果对面有人, 也可以请求提升权限。";
  "等待";
  "提权失败";
  "请求远端用户授权";
  "当对面电脑是管理员账号时选择该选项";
  "发送管理员账号的用户名密码";
  "依然需要被控端用户在运行 RustDesk 的 UAC 窗口点击确认。";
  "请求提权";
  "请等待远端用户确认 UAC 对话框。";
  "提权成功";
  "大写字母";
  "小写字母";
  "数字";
  "特殊字符";
  "长度不小于 8";
  "弱";
  "中";
  "强";
  "反转访问方向";
  "请确认是否要让对方访问你的桌面？";
  "显示";
  "默认显示方式";
  "默认滚动方式";
  "默认图像质量";
  "默认编解码";
  "码率";
  "帧率";
  "自动";
  "其它默认选项";
  "语音通话";
  "文字聊天";
  "停止语音通话";
  "可能无法直连，可以尝试中继连接。\n另外，如果想直接使用中继连接，可以在 ID 后面添加/r，如果最近访问里存在该卡片，也可以在卡片选项里选择强制走中继连接。";
  "重连";
  "编解码";
  "分辨率";
  "无进行中的传输";
  "设置一次性密码长度";
  "RDP 设置";
  "排序方式";
  "新连接";
  "恢复";
  "最小化";
  "最大化";
  "你的设备";
  "无最近会话，是时候开始新会话了！";
  "还没有收藏的被控端？找一个人连接并将其添加到收藏吧！";
  "情况不妙，似乎未发现任何被控端！";
  "似乎目前地址簿内无被控端";
  "例如：admin";
  "空用户名";
  "空密码";
  "我";
  "此文件与对方的一致";
  "在工具栏上显示监视器";
  "浏览模式";
  "登录被控端的 Linux 账户，才能启用 X 桌面";
  "验证 RustDesk 密码";
  "记住此账户";
  "在无显示器的环境下，此账户用于登录被控系统，并启用桌面";
  "系统账户";
  "其他用户已登录";
  "断开";
  "Xorg 未安装";
  "请安装 Xorg";
  "desktop 未安装";
  "请安装 desktop";
  "无需提升权限";
  "系统音频";
  "默认";
  "新 RDP 连接";
  "指纹";
  "复制指纹";
  "没有指纹";
  "选择一个被控端";
  "选择被控";
  "插件";
  "卸载";
  "更新";
  "启用";
  "禁用";
  "选项";
  "原始分辨率";
  "适应本地分辨率";
  "自定义分辨率";
  "折叠工具栏";
  "接受并提权";
  "接受连接并提升 UAC 权限";
  "等待拷贝响应超时";
  "收到的连接";
  "发起的连接";
  "退出";
  "打开";
  "确定要退出登录吗？";
  "服务";
  "启动";
  "停止";
  "管理的设备数已达到最大值";
  "同步最近会话";
  "对标签进行排序";
  "在选项卡中打开新连接";
  "将标签页移至新窗口";
  "不能为空";
  "已经存在";
  "更改密码";
  "刷新密码";
  "ID";
  "网格视图";
  "列表视图";
  "选择";
  "切换标签";
  "获取地址簿失败";
  "上传地址簿失败";
  "最近会话中存在的设备将会被重新同步到地址簿。";
  "更改颜色";
  "基本色";
  "HSV 色";
  "安装成功!";
  "安装失败!";
  "鼠标滚轮反向";
  "{} 个会话";
  "你可能被骗了！";
  "如果你正在和素不相识的人通话，而对方要求你使用 RustDesk 启动服务，请勿继续操作并立刻挂断电话。";
  "他们很可能是骗子，试图窃取您的钱财或其他个人信息。";
  "下次不再显示";
  "同意";
  "拒绝";
  "超时（分钟）";
  "自动关闭不活跃的会话";
  "由于长时间无操作, 连接被自动断开";
  "启动时检查软件更新";
  "请升级专业版服务器到{}或更高版本！";
  "获取组信息失败";
  "按交集过滤";
  "接受会话时移除桌面壁纸";
  "测试";
  "显示器被拔出，切换到第一个显示器。";
  "没有显示器。";
  "在新的窗口中打开";
  "在单个窗口中打开显示器";
  "将我的所有显示器用于远程会话";
  "SELinux 处于启用状态，RustDesk 可能无法作为被控正常运行。";
  "更改视图";
  "大磁贴";
  "小磁贴";
  "列表";
  "虚拟显示器";
  "拔出所有";
  "真彩模式（4:4:4）";
  "允许阻止用户输入";
  with_quotes ["可以输入 ID、直连 IP，或域名和端口号（<域名>:<端口号>）。\n要访问另一台服务器上的设备，请附加服务器地址（<ID>@<服务器地址>?key=<密钥>）。比如，\n9123456234@192.168.16.1:21117?key=5Qbwsde3unUcJBtrx9ZkvUmwFNoExHzpryHuPUdqlWM=。\n要访问公共服务器上的设备，请输入 "; "<ID>@public"; "，无需密钥。\n\n如果您想要在首次连接时，强制走中继连接，请在 ID 的后面添加 "; "/r"; "，例如，"; "9123456234/r"; "。"];
  "模式 1";
  "模式 2";
  "进入隐私模式";
  "退出隐私模式";
  "不支持 Indirect display driver 。需要 Windows 10 版本 2004 及更高的版本。";
  "输入源 1";
  "输入源 2";
  "交换 Control 键和 Command 键";
  "交换鼠标左右键";
  "双重认证代码";
  "更多";
  "启用双重认证";
  "现在请设置身份验证器。您可以在手机或台式电脑上使用 Authy、Microsoft 或 Google Authenticator 等验证器。用验证器扫描二维码，然后输入显示的验证码以启用双重认证。";
  "无法验证此验证码。请检查验证码和本地时间设置是否正确。";
  "双重认证";
  "Email 验证码必须是 6 个字符。";
  "双重认证代码必须是 6 位数字。";
  "发现多个 Windows 会话";
  "请选择您要连接的会话";
  "由 RustDesk 提供支持";
  "当前版本的软件是定制版本。\n您可以连接至其他设备，但是其他设备无法连接至您的设备。";
  "此定制版本附有预设密码。 任何知晓此密码的人都能完全控制您的设备。如果这不是您所预期的，请立即卸载此软件。";
  "安全警告";
  "我的地址簿";
  "个人的";
  "所有者";
  "设置共享密码";
  "存在于";
  "只读";
  "读写";
  "完全控制";
  "上述的字段為共享且对其他人可见。";
  "所有人";
  "打开 Web 控制台以执行更多操作";
  "仅当 RustDesk 窗口打开时允许连接";
  "没有物理显示器，没必要使用隐私模式。";
  "跟随远程光标";
  "跟随远程窗口焦点";
  "默认代理协议及端口为 Socks5 和 1080";
  "未找到音频输入设备";
  "被控";
  "主控";
  "清除 Wayland 的屏幕选择";
  "清除 Wayland 的屏幕选择后，您可以重新选择分享的屏幕。";
  "是否确认清除 Wayland 的分享屏幕选择？";
  "收到新的语音呼叫请求。如果您接受，音频将切换为语音通信。";
  "使用纹理渲染，使图片更加流畅。 如果您遭遇渲染问题，可尝试关闭此选项。";
  "使用纹理渲染";
  "悬浮窗";
  "有助于保持 RustDesk 后台服务";
  "保持屏幕开启";
  "从不";
  "被控期间";
  "服务开启期间";
  "使用 DirectX 捕获屏幕";
  "回退";
  "应用";
  "提升音量";
  "降低音量";
  "电源";
  "Telegram 机器人";
  "如果您启用此功能，您可以从您的机器人接收双重认证码，亦可作为连线通知之用。";
  with_quotes ["1. 开启与 @BotFather 的对话。\n2. 发送命令 "; "/newbot"; "。 您将在完成此步骤后收到权杖 (Token)。\n3. 开始与您刚创建的机器人的对话。发送一则以正斜杠 ("; "/"; ") 开头的消息来启用它，例如 "; "/hello"; "。"];
  "确定要取消双重认证吗？";
  "确定要取消 Telegram 机器人吗？";
  "关于 RustDesk";
  "发送剪贴板按键";
  "请检查网络连接，然后点击再试";
  "使用 PIN 码解锁设置";
  "不少于{}个字符";
  "PIN 码错误";
  "设置 PIN 码";
  "启用信任设备";
  "管理信任设备";
  "平台";
  "剩余天数";
  "允许受信任的设备跳过 2FA 验证";
  "父目录";
  "继续";
  "无效文件名";
  "被控端启用了单向文件传输";
  "需要身份验证";
  "认证";
  with_quotes ["可以输入同一个服务器内的 ID，web 客户端不支持直接 IP 访问。\n要访问另一台服务器上的设备，请附加服务器地址（<ID>@<服务器地址>?key=<密钥>）。比如，\n9123456234@192.168.16.1:21117?key=5Qbwsde3unUcJBtrx9ZkvUmwFNoExHzpryHuPUdqlWM=。\n要访问公共服务器上的设备，请输入 "; "<ID>@public"; "，无需密钥。"];
  "下载";
  "上传文件夹";
  "上传文件";
  "剪贴板已同步";
  "更新客户端的粘贴板";
  "无标签";
  "{} 版本更新";
  "可访问的设备"].
(** [LANGS.cs] *)
Definition lang_cs : jsmap string string := texts [
  "Stav";
  "Vaše plocha";
  "Pomocí tohoto ID a hesla lze přistupovat k pracovní ploše.";
  "Heslo";
  "Připraveno";
  "Navázáno";
  "Připojování k RustDesk síti...";
  "Povolit službu";
  "Spustit službu";
  "Služba je spuštěná";
  "Služba není spuštěná";
  "Nepřipraveno. Zkontrolujte své připojení.";
  "Ovládat vzdálenou plochu";
  "Přenos souborů";
  "Připojit";
  "Nedávné relace";
  "Adresář kontaktů";
  "Potvrzení";
  "TCP tunelování";
  "Odebrat";
  "Vytvořit nové náhodné heslo";
  "Nastavte si své vlastní heslo";
  "Povolit klávesnici/myš";
  "Povolit schránku";
  "Povolit přenos souborů";
  "Povolit TCP tunelování";
  "Povolování pouze z daných IP adres";
  "ID/předávací server";
  "Importovat konfiguraci serveru";
  "Exportovat konfiguraci serveru";
  "Konfigurace serveru úspěšně importována";
  "Konfigurace serveru úspěšně exportována";
  "Neplatná konfigurace serveru";
  "Schránka je prázdná";
  "Zastavit službu";
  "Změnit ID";
  "Vaše nové ID";
  "délka mezi %min% a %max%";
  "začíná písmenem";
  "povolené znaky";
  "Použít je možné pouze znaky a-z, A-Z, 0-9, - (dash) a _ (podtržítko). Dále je třeba aby začínalo písmenem a-z, A-Z. Délka mezi 6 a 16 znaky.";
  "Webové stránky";
  "O aplikaci";
  "Vytvořeno srdcem v tomto chaotickém světě!";
  "Prohlášení o ochraně osobních údajů";
  "Ztlumit zvuk";
  "Datum sestavení";
  "Verze";
  "Domů";
  "Vstup zvuku";
  "Vylepšení";
  "Hardwarový kodek";
  "Adaptivní datový tok";
  "ID Server";
  "Předávací server";
  "API Server";
  "Je třeba, aby začínalo na http:// nebo https://";
  "Neplatná IP";
  "Neplatný formát";
  "Server zatím nepodporuje";
  "Není k dispozici";
  "Příliš časté";
  "Storno";
  "Přeskočit";
  "Zavřít";
  "Zkusit znovu";
  "OK";
  "Vyžadováno heslo";
  "Zadejte své heslo";
  "Zapamatovat heslo";
  "Nesprávné heslo";
  "Chcete se znovu připojit?";
  "Chyba spojení";
  "Chyba";
  "Resetováno protistranou";
  "Připojování...";
  "Probíhá připojování, vyčkejte prosím.";
  "Zkuste to prosím o 1 minutu později";
  "Chyba přihlášení se";
  "Úspěšné";
  "Připojeno, čeká se na obraz...";
  "Název";
  "Typ";
  "Změněno";
  "Velikost";
  "Zobrazit skryté soubory";
  "Přijmout";
  "Odeslat";
  "Znovu načíst soubor";
  "Místní";
  "Vzdálené";
  "Vzdálený počítač";
  "Místní počítač";
  "Potvrdit smazání";
  "Smazat";
  "Vlastnosti";
  "Vícenásobný výběr";
  "Vybrat vše";
  "Zrušit výběr všech";
  "Prázdná složka";
  "Neprázdná složka";
  "Opravdu chcete tento soubor vymazat?";
  "Opravdu chcete tuto prázdnou složku smazat?";
  "Opravdu chcete vymazat soubor z této složky?";
  "Naložit takto se všemi konflikty";
  "Toto nelze vzít zpět";
  "Mazání";
  "soubory";
  "Čeká se";
  "Dokončeno";
  "Rychlost";
  "Uživatelsky určená kvalita obrazu";
  "Režim ochrany soukromí";
  "Blokovat vstupní zařízení uživatele";
  "Odblokovat vstupní zařízení uživatele";
  "Přizpůsobit velikost okna";
  "Původní";
  "Oříznout";
  "Roztáhnout";
  "Posuvník";
  "Automatické rolování";
  "Dobrá kvalita obrazu";
  "Vyvážená";
  "Optimalizovat reakční dobu";
  "Vlastní";
  "Zobrazit vzdálený kurzor";
  "Zobrazit monitor kvality";
  "Vypnout schránku";
  "Po ukončení relace zamknout plochu";
  "Vložit Ctrl + Alt + Del";
  "Zamknout";
  "Načíst znovu";
  "Toto ID neexistuje";
  "Nepodařilo se připojit ke zprostředkovávajícímu serveru";
  "Zkuste to později";
  "Vzdálená plocha není připojená ke službě";
  "Neshoda klíčů";
  "Překročen časový limit pro navázání spojení";
  "Nepodařilo se připojit k předávacímu serveru";
  "Nepodařilo se připojit prostřednictvím zprostředkovávajícího serveru";
  "Nepodařilo se připojit prostřednictvím předávacího serveru";
  "Nepodařilo s navázat přímé připojení ke vzdálené ploše";
  "Nastavit heslo";
  "Heslo do operačního systému";
  "Kvůli řízení oprávnění v systému (UAC), RustDesk v některých případech na protistraně nefunguje správně. Abyste se UAC vyhnuli, klikněte na níže uvedené tlačítko a nainstalujte tak RustDesk do systému.";
  "Aktualizovat";
  "Stáhnout";
  "Aktualizovat";
  "Nastavit";
  with_quotes ["Aby bylo možné na dálku ovládat vaši plochu, je třeba aplikaci RustDesk udělit oprávnění pro "; "Zpřístupnění pro hendikepované"; "."];
  with_quotes ["Aby bylo možné přistupovat k vaší ploše na dálku, je třeba aplikaci RustDesk udělit oprávnění pro "; "Nahrávání obsahu obrazovky"; "."];
  "Instaluje se ...";
  "Nainstalovat";
  "Instalace";
  "Umístění instalace";
  "Vytvořit zástupce v nabídce Start";
  "Vytvořit ikonu na ploše";
  "Spuštěním instalace přijímáte licenční ujednání.";
  "Přijmout a nainstalovat";
  "Licenční ujednání s koncovým uživatelem";
  "Vytváření ...";
  "Máte nainstalovanou starší verzi";
  "Po dobu, po kterou tunel potřebujete, nezavírejte toto okno";
  "Očekávaní spojení ...";
  "Vzdálený hostitel";
  "Vzdálený port";
  "Akce";
  "Přidat";
  "Místní port";
  "Místní adresa";
  "Změnit místní port";
  "Rychlejší připojení získáte vytvořením si svého vlastního serveru";
  "Příliš krátké, alespoň 6 znaků.";
  "Kontrolní zadání se neshoduje.";
  "Oprávnění";
  "Přijmout";
  "Zahodit";
  "Odpojit";
  "Povolit kopírování a vkládání souborů";
  "Připojeno";
  "Přímé a šifrované spojení";
  "Předávané a šifrované spojení";
  "Přímé a nešifrované spojení";
  "Předávané a nešifrované spojení";
  "Zadejte ID protistrany";
  "Zadejte své heslo";
  "Přihlašování...";
  "Povolit sdílení relace RDP";
  "Automatické přihlášení";
  "Povolit přímý přístup k IP";
  "Přejmenovat";
  "Mezera";
  "Vytvořit zástupce na ploše";
  "Změnit umístění";
  "Vytvořit složku";
  "Zadejte název pro složku";
  "Opravit to";
  "Upozornění";
  "Přihlašovací obrazovka pomocí systému Wayland není podporována";
  "Je vyžadován restart";
  "Nepodporovaný zobrazovací server";
  "očekávaný x11";
  "Port";
  "Nastavení";
  "Uživatelské jméno";
  "Neplatné číslo portu";
  "Ručně ukončeno protistranou";
  "Povolit vzdálenou úpravu konfigurace";
  "Spustit bez instalace";
  "Připojení přes předávací server";
  "Vždy se připojovat prostřednictvím předávacího serveru";
  "Přístup je umožněn pouze z IP adres, nacházejících se na seznamu povolených";
  "Přihlásit se";
  "Ověřit";
  "Zapamatovat si";
  "Důvěřovat tomuto zařízení";
  "Ověřovací kód";
  "Na registrovanou e-mailovou adresu byl zaslán ověřovací kód, zadejte jej a pokračujte v přihlašování.";
  "Odhlásit se";
  "Štítky";
  "Hledat ID";
  "Oddělené čárkou, středníkem, mezerami, nebo novým řádkem.";
  "Přidat ID";
  "Přidat štítek";
  "Zrušit výběr všech štítků";
  "Chyba sítě";
  "Chybí uživatelské jméno";
  "Chybí heslo";
  "Nesprávné přihlašovací údaje";
  "Ověřovací kód je nesprávný, nebo jeho platnost vypršela";
  "Upravit štítek";
  "Přestat si pamatovat heslo";
  "Oblíbené";
  "Přidat do oblíbených";
  "Odebrat z oblíbených";
  "Prázdné";
  "Neplatný název složky";
  "Socks5 proxy";
  "Socks5/Http(s) proxy";
  "Objeveno";
  "Pokud má být spouštěno při startu systému, je třeba nainstalovat systémovou službu.";
  "Vzdálené ID";
  "Vložit";
  "Vložit zde?";
  "Opravdu chcete spojení uzavřít?";
  "Stáhnout novou verzi";
  "Režim dotyku";
  "Režim myši";
  "Klepnutí jedním prstem";
  "Levé tlačítko myši";
  "Jedno dlouhé klepnutí";
  "Klepnutí dvěma prsty";
  "Pravé tlačítko myši";
  "Přesouvání jedním prstem";
  "Dvojité klepnutí a přesun";
  "Přetažení myší";
  "Třemi prsty svisle";
  "Kolečko myši";
  "Posun dvěma prsty";
  "Posun zobrazení";
  "Přiblížíte roztažením dvěma prsty";
  "Přiblížení zobrazení";
  "Vrátit měřítko zobrazení na výchozí";
  "Žádné oprávnění k přenosu souborů";
  "Poznámka";
  "Připojení";
  "Sdílet obrazovku";
  "Chat";
  "Celkem";
  "Položek";
  "Vybráno";
  "Zachytávání obrazovky";
  "Ovládání vstupních zařízení";
  "Zachytávání zvuku";
  "Souborové spojení";
  "Spojení obrazovky";
  "Přijímáte?";
  "Otevřít nastavení systému";
  "Jak v systému Android získat oprávnění pro vstupní zařízení?";
  "Aby vzdálené zařízení mohlo ovládat vaše Android zařízení prostřednictví myši či dotyků, je třeba povolit, aby RustDesk mohlo používat službu „Zpřístupnění hendikepovaným“.";
  "Přejděte na následující stránku nastavení systému, najděte a přejděte do [Nainstalované služby] a zapněte službu [RustDesk vstup].";
  "Obdržen nový požadavek na řízení zařízení, který chce ovládat vaše stávající zařízení.";
  "Zapnutí „Zachytávání obsahu obrazovky“ automaticky spustí službu, což umožní ostatním zařízením žádat o připojení k vašemu zařízení.";
  "Zastavení služby automaticky ukončí veškerá navázaná spojení.";
  "Vámi nyní používaná verze systému Android nepodporuje zachytávání zvuku – přejděte na Android 10, nebo novější.";
  "Klepnutím na možnost [Spustit službu], nebo povolením oprávnění [Snímání obrazovky] spustíte službu sdílení obrazovky.";
  "Oprávnění pro navázaná připojení lze změnit až po opětovném připojení.";
  "Účet";
  "Přepsat";
  "Tento soubor existuje, přeskočit, nebo přepsat tento soubor?";
  "Ukončit";
  "Nápověda";
  "Nepodařilo se";
  "Úspěšný";
  "Někdo zapne režim ochrany soukromí, ukončete ho";
  "Nepodporováno";
  "Protistrana odmítla";
  "Nainstalujte si prosím pluginy";
  "Ukončení protistrany";
  "Nepodařilo se vypnout";
  "Vypnutý";
  "Jazyk";
  "Zachovat službu RustDesk na pozadí";
  "Ignorovat optimalizaci baterie";
  "Pokud chcete tuto funkci zakázat, přejděte na další stránku nastavení aplikace RustDesk, najděte a zadejte [Baterie], zrušte zaškrtnutí [Neomezeno].";
  "Spustit při startu systému";
  "Spuštění služby sdílení obrazovky při spuštění systému, vyžaduje zvláštní oprávnění";
  "Připojení není povoleno";
  "Režim Legacy";
  "Režim mapování";
  "Režim překladu";
  "Použít trvalé heslo";
  "Použít obě hesla";
  "Nastavit trvalé heslo";
  "Povolit vzdálené restartování";
  "Restartovat vzdálené zařízení";
  "Jste si jisti, že chcete restartovat";
  "Restartování vzdáleného zařízení";
  "Vzdálené zařízení se restartuje, zavřete prosím toto okno a po chvíli se znovu připojte pomocí trvalého hesla.";
  "Zkopírováno";
  "Ukončit celou obrazovku";
  "Celá obrazovka";
  "Mobilní akce";
  "Vybrat monitor";
  "Ovládací akce";
  "Nastavení obrazovky";
  "Poměr";
  "Kvalita obrazu";
  "Styl posouvání";
  "Zobrazit panel nástrojů";
  "Skrýt panel nástrojů";
  "Přímé spojení";
  "Připojení předávací server";
  "Zabezpečené připojení";
  "Nezabezpečené připojení";
  "Originální měřítko";
  "Adaptivní měřítko";
  "Obecné";
  "Zabezpečení";
  "Motiv";
  "Tmavý motiv";
  "Světlý motiv";
  "Tmavý";
  "Světlý";
  "Podle systému";
  "Povolit hardwarový kodek";
  "Odemknout nastavení zabezpečení";
  "Povolit zvuk";
  "Odemknout nastavení sítě";
  "Server";
  "Přímý IP přístup";
  "Proxy";
  "Použít";
  "Odpojit všechna zařízení?";
  "Smazat";
  "Vstupní zvukové zařízení";
  "Použít bílou listinu IP";
  "Síť";
  "Připnout panel nástrojů";
  "Odepnout panel nástrojů";
  "Nahrávání";
  "Adresář";
  "Automaticky nahrávat příchozí relace";
  "";
  "Změnit";
  "Spustit záznam relace";
  "Zastavit záznam relace";
  "Povolit nahrávání relace";
  "Povolit zjišťování sítě LAN";
  "Zakázat zjišťování sítě LAN";
  "Napsat zprávu";
  "Výzva";
  "Počkejte prosím na potvrzení UAC...";
  "Aktuální okno vzdálené plochy vyžaduje vyšší oprávnění, takže dočasně nemůže používat myš a klávesnici. Můžete vzdáleného uživatele požádat, aby aktuální okno minimalizoval, nebo kliknout na tlačítko pro zvýšení v okně správy připojení. Chcete-li se tomuto problému vyhnout, doporučujeme nainstalovat software na vzdálené zařízení.";
  "Odpojeno";
  "Jiné";
  "Potvrdit před zavřením více karet";
  "Nastavení klávesnice";
  "Úplný přístup";
  "Sdílení obrazovky";
  "Wayland vyžaduje Ubuntu 21.04, nebo vyšší verzi.";
  "Wayland vyžaduje vyšší verzi linuxové distribuce. Zkuste prosím X11 desktop, nebo změňte OS.";
  "JumpLink";
  "Vyberte prosím obrazovku, kterou chcete sdílet (Ovládejte na straně protistrany).";
  "Zobrazit RustDesk";
  "Tento počítač";
  "nebo";
  "Pokračovat s";
  "Zvýšit";
  "Kurzor přiblížení";
  "Přijímat relace pomocí hesla";
  "Přijímat relace kliknutím";
  "Přijímat relace prostřednictvím obou";
  "Počkejte prosím, až vzdálená strana přijme váš požadavek na relaci...";
  "Jednorázové heslo";
  "Použít jednorázové heslo";
  "Délka jednorázového hesla";
  "Žádost o přístup k vašemu zařízení";
  "Skrýt okno správy připojení";
  "Povolit skrývání pouze v případě, že přijímáte relace pomocí hesla a používáte trvalé heslo.";
  "Podpora Waylandu je v experimentální fázi, pokud potřebujete bezobslužný přístup, použijte prosím X11.";
  "Výběr karet kliknutím pravým tlačítkem myši";
  "Vynecháno";
  "Přidat do adresáře";
  "Skupina";
  "Vyhledávání";
  "Uzavřeno ručně pomocí webové konzole";
  "Typ místní klávesnice";
  "Výběr typu místní klávesnice";
  "Pokud používáte grafickou kartu Nvidia v systému Linux a vzdálené okno se po připojení ihned zavře, může vám pomoci přepnutí na open-source ovladač Nouveau a volba softwarového vykreslování. Je nutný restart softwaru.";
  "Vždy použít softwarové vykreslování";
  with_quotes ["Chcete-li ovládat vzdálenou plochu pomocí klávesnice, musíte udělit oprávnění RustDesk "; "Sledování vstupu"; "."];
  with_quotes ["Abyste mohli mluvit na dálku, musíte udělit oprávnění RustDesk "; "Nahrávat zvuk"; "."];
  "Můžete také požádat o zvýšení, pokud je někdo na vzdálené straně.";
  "Počkejte";
  "Chyba navýšení";
  "Požádat vzdáleného uživatele o ověření";
  "Tuto možnost vyberte, pokud je vzdálený účet správce";
  "Přenos uživatelského jména a hesla správce";
  "Stále vyžaduje, aby vzdálený uživatel kliknul na OK v okně UAC spuštěného RustDesku.";
  "Žádost o navýšení";
  "Počkejte, až vzdálený uživatel přijme dialogové okno UAC.";
  "Úspěšné navýšení";
  "velká písmena";
  "malá písmena";
  "číslice";
  "speciální znak";
  "délka>=8";
  "Slabé";
  "Střední";
  "Silné";
  "Přepínání stran";
  "Potvrďte prosím, zda chcete sdílet svou plochu?";
  "Obrazovka";
  "Výchozí styl zobrazení";
  "Výchozí styl rolování";
  "Výchozí kvalita obrazu";
  "Výchozí kodek";
  "Datový tok";
  "FPS";
  "Auto";
  "Ostatní výchozí možnosti";
  "Hlasové volání";
  "Textový chat";
  "Zastavit hlasové volání";
  with_quotes ["Přímé připojení nemusí být možné, můžete se zkusit připojit přes předávací server. Pokud navíc chcete při prvním pokusu použít předávací server, můžete k ID přidat příponu "; "/r"; ", nebo v kartě posledních relací vybrat možnost "; "Vždy se připojovat přes bránu"; ", pokud existuje."];
  "Znovu připojit";
  "Kodek";
  "Rozlišení";
  "Žádné probíhající přenosy";
  "Nastavení délky jednorázového hesla";
  "Nastavení RDP";
  "Seřadit podle";
  "Nové připojení";
  "Obnovit";
  "Minimalizovat";
  "Maximalizovat";
  "Vaše zařízení";
  "Jejda, žádná nedávná relace!\nČas naplánovat novou.";
  "Ještě nemáte oblíbené protistrany?\nNajděte někoho, s kým se můžete spojit, a přidejte si ho do oblíbených!";
  "Ale ne, vypadá, že jsme ještě neobjevili žádné protistrany.";
  "Ach bože, zdá se, že ve vašem adresáři nejsou v současné době uvedeni žádní kolegové.";
  "např. admin";
  "Prázdné uživatelské jméno";
  "Prázdné heslo";
  "Já";
  "Tento soubor je totožný se souborem partnera.";
  "Zobrazit monitory na panelu nástrojů";
  "Režim zobrazení";
  "Chcete-li povolit relaci plochy X, musíte se přihlásit ke vzdálenému účtu systému Linux.";
  "Ověření hesla RustDesk";
  "Zapamatovat si tento účet";
  "Tento účet se používá k přihlášení do vzdáleného operačního systému a k povolení relace plochy v režimu headless.";
  "Účet operačního systému";
  "Další uživatel je již přihlášen";
  "Odpojit";
  "Xorg nebyl nalezen";
  "Prosím, nainstalujte Xorg";
  "Není k dispozici žádná plocha";
  "Nainstalujte si prosím prostředí GNOME";
  "Není třeba navýšení";
  "Systémový zvuk";
  "Výchozí";
  "Nové RDP";
  "Otisk";
  "Kopírovat otisk";
  "žádný otisk";
  "Výběr protistrany";
  "Vybrat protistrany";
  "Pluginy";
  "Odinstalovat";
  "Aktualizovat";
  "Povolit";
  "Zakázat";
  "Možnosti";
  "Původní rozlišení";
  "Přizpůsobit místní rozlišení";
  "Vlastní rozlišení";
  "Sbalit panel nástrojů";
  "Přijmout navýšení";
  "Přijměte připojení a zvyšte oprávnění UAC.";
  "Vypršel čas čekání odpovědi na kopii.";
  "Příchozí připojení";
  "Odchozí připojení";
  "Ukončit";
  "Otevřít";
  "Opravdu se chcete odhlásit?";
  "Služba";
  "Spustit";
  "Zastavit";
  "Dosáhli jste maximálního počtu spravovaných zařízení.";
  "Synchronizace s posledními relacemi";
  "Seřadit štítky";
  "Otevřít připojení na nové kartě";
  "Přesunout kartu do nového okna";
  "Nemůže být prázdné";
  "Již existuje";
  "Změnit heslo";
  "Obnovit heslo";
  "ID";
  "Mřížka";
  "Seznam";
  "Vybrat";
  "Přepnout štítky";
  "Nepodařilo se obnovit adresář";
  "Nepodařilo se synchronizovat adresář se serverem";
  "Zařízení, která byla přítomna v posledních relacích, budou synchronizována zpět do adresáře.";
  "Změna barvy";
  "Základní barva";
  "HSV barva";
  "Instalace úspěšná!";
  "Instalace se nezdařila!";
  "Reverzní kolečko myši";
  "{} sezení";
  "Možná vás někdo PODVEDL!";
  "Pokud telefonujete s někým, koho NEZNÁTE a komu NEDŮVĚŘUJETE a kdo vás požádal o použití služby RustDesk a její spuštění, nepokračujte v hovoru a okamžitě zavěste.";
  "Pravděpodobně se jedná o podvodníka, který se snaží ukrást vaše peníze nebo jiné soukromé informace.";
  "Znovu se neukázat";
  "Souhlasím";
  "Odmítnout";
  "Časový limit v minutách";
  "Automatické ukončení příchozích relací při nečinnosti uživatele";
  "Připojení se nezdařilo z důvodu nečinnosti";
  "Kontrola aktualizace softwaru při spuštění";
  "Aktualizujte prosím RustDesk Server Pro na verzi {} nebo novější!";
  "Nepodařilo se obnovit skupinu";
  "Filtrovat podle průsečíku";
  "Odstranit tapetu během příchozích relací";
  "Test";
  "Obrazovka je odpojena, přepněte na první obrazovku.";
  "Žádné obrazovky";
  "Otevřít v novém okně";
  "Zobrazit obrazovky jako jednotlivá okna";
  "Použít všechny mé obrazovky pro vzdálenou relaci";
  "Na vašem zařízení je povolen SELinux, což může bránit správnému běhu RustDesku jako řízené strany.";
  "Změnit pohled";
  "Velké dlaždice";
  "Malé dlaždice";
  "Seznam";
  "Virtuální obrazovka";
  "Odpojit všechny";
  "Skutečné barvy (4:4:4)";
  "Povolit blokování uživatelského vstupu";
  with_quotes ["Můžete zadat ID, přímou IP adresu nebo doménu s portem (<doména>:<port>).\nPokud chcete přistupovat k zařízení na jiném serveru, připojte adresu serveru (<id>@<adresa_serveru>?key=<hodnota_klíče>), například,\n9123456234@192.168.16.1:21117?key=5Qbwsde3unUcJBtrx9ZkvUmwFNoExHzpryHuPUdqlWM=.\nPokud chcete přistupovat k zařízení na veřejném serveru, zadejte "; "<id>@public"; ", klíč není pro veřejný server potřeba."];
  "Režim 1";
  "Režim 2";
  "Vstup do režimu soukromí";
  "Ukončit režim soukromí";
  "Ovladač nepřímého zobrazení není podporován. Je vyžadován systém Windows 10, verze 2004 nebo novější.";
  "Vstupní zdroj 1";
  "Vstupní zdroj 2";
  "Prohození klávesy control-command";
  "Prohodit levé a pravé tlačítko myši";
  "2FA kód";
  "Více";
  "Povolit dvoufaktorové ověřování";
  "Prosím, nastavte si svůj autentizátor. Na svém telefonu nebo počítači můžete použít ověřovací aplikaci, jako je Authy, Microsoft nebo Google Authenticator.\n\nNaskenujte pomocí aplikace QR kód a zadejte kód, který aplikace zobrazí, abyste aktivovali dvoufaktorové ověření.";
  "Kód nelze ověřit. Zkontrolujte správnost nastavení kódu a místního času";
  "Dvoufaktorová autentizace";
  "E-mailový ověřovací kód musí mít 6 znaků.";
  "Kód 2FA musí mít 6 číslic.";
  "Bylo nalezeno více relací Windows";
  "Vyberte relaci, ke které se chcete připojit";
  "Poháněno společností RustDesk";
  "Toto je přizpůsobená edice.\nMůžete se připojit k jiným zařízením, ale jiná zařízení se k vašemu zařízení připojit nemohou.";
  "Tato upravená edice je dodávána s přednastaveným heslem. Každý, kdo zná toto heslo, může získat plnou kontrolu nad vaším zařízením. Pokud jste to nečekali, okamžitě software odinstalujte.";
  "Bezpečnostní výstraha";
  "Můj adresář";
  "Osobní";
  "Majitel";
  "Nastavit sdílené heslo";
  "Existuje v";
  "Pouze ke čtení";
  "Režim čtení/zápisu";
  "Plná kontrola";
  "Výše uvedená pole jsou sdílená a viditelná pro ostatní.";
  "Každý";
  "Více na webové konzoli";
  "Povolit připojení pouze v případě, že je otevřené okno RustDesk";
  "Žádné fyzické displeje, není třeba používat režim soukromí.";
  "Sledovat dálkový kurzor";
  "Sledovat zaměření vzdáleného okna";
  "Výchozí protokol a port jsou Socks5 a 1080";
  "Nebylo nalezeno žádné vstupní zvukové zařízení.";
  "Příchozí";
  "Odchozí";
  "Vymazat výběr obrazovky Wayland";
  "Po vymazání výběru obrazovky můžete znovu vybrat obrazovku, kterou chcete sdílet.";
  "Opravdu chcete vymazat výběr obrazovky Wayland?";
  "Byl přijat nový požadavek na hlasové volání. Pokud hovor přijmete, přepne se zvuk na hlasovou komunikaci.";
  "Použít vykreslování textur, aby byly obrázky hladší.";
  "Použít vykreslování textur";
  "Plovoucí okno";
  "Pomáhá udržovat službu RustDesk na pozadí";
  "Ponechat obrazovku zapnutou";
  "Nikdy";
  "Během řízeného";
  "Během služby je v provozu";
  "Snímání obrazovky pomocí DirectX";
  "Zpět";
  "Aplikace";
  "Zvýšit hlasitost";
  "Snížit hlasitost";
  "Napájení";
  "Telegram bot";
  "Pokud tuto funkci povolíte, můžete od svého bota obdržet kód 2FA. Může také fungovat jako oznámení o připojení.";
  with_quotes ["1, Otevřete chat s @BotFather.\n2, Pošlete příkaz "; "/newbot"; ". Po dokončení tohoto kroku obdržíte token.\n3, Spusťte chat s nově vytvořeným botem. Pro jeho aktivaci odešlete zprávu začínající lomítkem vpřed ("; "/"; "), například "; "/hello"; ".\n"];
  "Jste si jisti, že chcete zrušit 2FA?";
  "Jste si jisti, že chcete zrušit bota Telegramu?";
  "O RustDesk";
  "Odesílat stisky kláves schránky";
  "Zkontrolujte prosím připojení k síti a klikněte na tlačítko Opakovat.";
  "Odemknout PINem";
  "Vyžadováno aspoň {} znaků";
  "Nesprávný PIN";
  "Nastavit PIN";
  "Povolit důvěryhodná zařízení";
  "Spravovat důvěryhodná zařízení";
  "Platforma";
  "Zbývajících dnů";
  "Přeskočte 2FA ověření na důvěryhodných zařízeních";
  "Rodičovský adresář";
  "Pokračovat";
  "Nesprávný název souboru";
  "";
  "";
  "";
  "";
  "";
  "";
  "";
  "";
  "";
  "";
  "";
  ""].
(** [LANGS.da] *)
Definition lang_da : jsmap string string := texts [
  "Status";
  "Dit skrivebord";
  "Du kan give adgang til dit skrivebord med dette ID og denne adgangskode.";
  "Adgangskode";
  "Klar";
  "Etableret";
  "Opretter forbindelse til RustDesk-netværket...";
  "Tænd forbindelsesserveren";
  "Start forbindelsesserveren";
  "Tjenesten kører";
  "Den tilknyttede tjeneste kører ikke";
  "Ikke klar. Tjek venligst din forbindelse";
  "Styr fjernskrivebord";
  "Overfør fil";
  "Forbind";
  "Seneste sessioner";
  "Adressebog";
  "Bekræftelse";
  "TCP tunneling";
  "Fjern";
  "Opdater tilfældig adgangskode";
  "Indstil din egen adgangskode";
  "Tænd for tastatur/mus";
  "Tænd for udklipsholderen";
  "Aktivér filoverførsel";
  "Slå TCP-tunneling til";
  "IP whitelisting";
  "ID/forbindelsesserver";
  "Importér serverkonfiguration";
  "Eksportér serverkonfiguration";
  "Importering af serverkonfigurationen lykkedes";
  "Eksportering af serverkonfigurationen lykkedes";
  "Ugyldig serverkonfiguration";
  "Udklipsholderen er tom";
  "Sluk for forbindelsesserveren";
  "Ændr ID";
  "Dit nye ID";
  "længde %min% til %max%";
  "starter med ét bogstav";
  "tilladte tegn";
  "Kun tegnene a-z, A-Z, 0-9, - (dash) og _ (understregning) er tilladt. Det første bogstav skal være a-z, A-Z. Antal tegn skal være mellem 6 og 16.";
  "Hjemmeside";
  "Om";
  "Lavet med kærlighed i denne kaotiske verden!";
  "Privatlivspolitik";
  "Sluk for mikrofonen";
  "Build dato";
  "Version";
  "Hjem";
  "Lydinput";
  "Forbedringer";
  "Hardware-codec";
  "Adaptiv bitrate";
  "ID Server";
  "Relay Server";
  "API Server";
  "Skal begynde med http:// eller https://";
  "Ugyldig IP-adresse";
  "Ugyldigt format";
  "Endnu ikke understøttet af serveren";
  "Ikke tilgængelig";
  "For ofte";
  "Annullér";
  "Spring over";
  "Luk";
  "Prøv igen";
  "OK";
  "Adgangskode påkrævet";
  "Indtast venligst dit kodeord";
  "Husk kodeord";
  "Forkert kodeord";
  "Vil du forbinde igen?";
  "Forbindelsesfejl";
  "Fejl";
  "Nulstillet ved modparten";
  "Opretter forbindelse...";
  "Forbindelsen er etableret. Vent venligst.";
  "Prøv igen om et minut";
  "Login fejl";
  "Vellykket";
  "Tilsluttet, venter på billede...";
  "Navn";
  "Type";
  "Ændret";
  "Størrelse";
  "Vis skjulte filer";
  "Modtag";
  "Send";
  "Genopfrisk fil";
  "Lokalt";
  "Remote";
  "Fjerncomputer";
  "Lokal computer";
  "Bekræft sletning";
  "Slet";
  "Egenskaber";
  "Flere valg";
  "Vælg alt";
  "Fravælg alt";
  "Tomt bibliotek";
  "Intet tomt bibliotek";
  "Er du sikker på, at du vil slette denne fil?";
  "Er du sikker på, at du vil slette dette tomme bibliotek?";
  "Er du sikker på, at du vil slette filen til dette bibliotek?";
  "Gør dette for alle konflikter";
  "Dette kan ikke gendannes!";
  "Sletter";
  "Filer";
  "Venter";
  "Færdig";
  "Hastighed";
  "Brugerdefineret billedkvalitet";
  "Privatlivstilstand";
  "Bloker brugerinput";
  "Fjern blokering af brugerinput";
  "Juster vinduet";
  "Original";
  "Krymp";
  "Stræk ud";
  "Scrollbar";
  "Auto-scroll";
  "God billedkvalitet";
  "Afbalanceret";
  "Optimeret responstid";
  "Tilpasset";
  "Vis fjernbetjeningskontrolleret markør";
  "Vis billedkvalitet";
  "Deaktiver udklipsholder";
  "Lås efter afslutningen af fjernstyring";
  "Indsæt Ctrl + Alt + Del";
  "Indsæt lås";
  "Genopfrisk";
  "ID findes ikke";
  "Forbindelse til forbindelsesserveren mislykkedes";
  "Prøv igen senere";
  "Fjernskrivebord er offline";
  "Nøgle uoverensstemmelse";
  "Timeout";
  "Forbindelse til relay-serveren mislykkedes";
  "Forbindelse via Rendezvous-server mislykkedes";
  "Forbindelse via relay-serveren mislykkedes";
  "Direkte forbindelse til fjernskrivebord kunne ikke etableres";
  "Indstil adgangskode";
  "Operativsystemadgangskode";
  "På grund af UAC kan RustDesk ikke fungere korrekt i nogle tilfælde på fjernskrivebordet. For at undgå UAC skal du klikke på knappen nedenfor for at installere RustDesk på systemet";
  "Klik for at opgradere";
  "Klik for at downloade";
  "Klik for at opdatere";
  "Konfigurer";
  with_quotes ["For at kontrollere dit skrivebord på afstand skal du give RustDesk "; "Access "; " Rettigheder."];
  with_quotes ["For at kunne få adgang til dit skrivebord langtfra, skal du give RustDesk "; "skærmstøtte "; " tilladelser."];
  "Installerer ...";
  "installere";
  "Installation";
  "Installationsti";
  "Opret start menu genveje";
  "Opret skrivebords-genvej";
  "Hvis du starter installationen, skal du acceptere licensaftalen";
  "Accepter og installer";
  "Licensaftale for slutbrugere";
  "Genererer kode ...";
  "Din installation er en ældre version.";
  "Luk ikke dette vindue, mens du bruger tunnelen.";
  "Lytter ...";
  "Fjern-Host";
  "Fjern-Port";
  "Handling";
  "Tilføj";
  "Lokal Port";
  "Lokal adresse";
  "Skift lokal port";
  "For en hurtigere forbindelse skal du indstille din egen forbindelsesserver";
  "For kort, brug mindst 6 tegn.";
  "Bekræftelsen er ikke identisk.";
  "Tilladelser";
  "Accepter";
  "Afvis";
  "Frakobl";
  "Tillad kopiering og indsæt af filer";
  "Forbundet";
  "Direkte og krypteret forbindelse";
  "Viderestillet og krypteret forbindelse";
  "Direkte og ukrypteret forbindelse";
  "Viderestillet og ukrypteret forbindelse";
  "Indtast Remote-ID";
  "Skriv dit kodeord";
  "Logger ind...";
  "Aktivér RDP sessiongodkendelse";
  with_quotes ["Automatisk login (kun gyldigt hvis du har konfigureret "; "Lås efter afslutningen af sessionen"; ")"];
  "Aktivér direkte IP-adgang";
  "Omdøb";
  "Plads";
  "Opret skrivebords-genvej";
  "Skift stien";
  "Opret mappe";
  "Indtast venligst mappens navn";
  "Kør reparation";
  "Advarsel";
  "Login skærm med Wayland understøttes ikke";
  "Genstart krævet";
  "Ikke-understøttet displayserver";
  "X11 Forventet";
  "Port";
  "Indstillinger";
  " Brugernavn";
  "Ugyldig port";
  "Manuelt lukket af peer";
  "Tillad fjernkonfigurering";
  "Kør uden installation";
  "Forbind via viderestilling";
  "Forbindelse via viderestillings-server";
  "Kun IP'er på whitelisten kan få adgang til mig";
  "Login";
  "Verificér";
  "Husk mig";
  "Husk denne enhed";
  "Verifikationskode";
  "En bekræftelseskode er blevet sendt til den registrerede e-mail adresse. Indtast bekræftelseskoden for at logge på.";
  "Logger af";
  "Nøgleord";
  "Søg efter ID";
  "Adskilt af komma, semikolon, mellemrum eller linjebrud";
  "Tilføj ID";
  "Tilføj nøgleord";
  "Fravælg alle nøgleord";
  "Netværksfejl";
  "Glemt brugernavn";
  "Glemt kodeord";
  "Forkerte registreringsdata";
  "Bekræftelsesnøglen er forkert eller er udløbet";
  "Rediger nøgleord";
  "Glem adgangskoden";
  "Favoritter";
  "Tilføj til favoritter";
  "Fjern favoritter";
  "Tom";
  "Ugyldigt mappenavn";
  "Socks5 Proxy";
  "Socks5/Http(s) Proxy";
  "Fundet";
  "For at starte efter PC'en er startet op, skal du installere systemtjenesten";
  "Fjern-ID";
  "Indsæt";
  "Indsæt her?";
  "Er du sikker på at du vil afslutte forbindelsen?";
  "Download ny version";
  "Touch-tilstand";
  "Muse-tilstand";
  "En-finger-tryk";
  "Venstre mus";
  "Tryk og hold med en finger";
  "Tryk med to fingre";
  "Højre mus";
  "En-finger bevægelse";
  "Dobbeltklik og flyt";
  "Træk med musen";
  "Tre fingre lodret";
  "Mussehjul";
  "To-fingre bevægelse";
  "Flyt lærred";
  "Knib for at zoome ind";
  "Lærred zoom";
  "Nulstil lærred";
  "Ingen tilladelse til at overføre filen";
  "Note";
  "Forbindelse";
  "Del skærmen";
  "Chat";
  "Total";
  "artikel";
  "Valgte";
  "Skærmoptagelse";
  "Inputkontrol";
  "Lydoptagelse";
  "Filforbindelse";
  "Færdiggørelse";
  "Accepterer du?";
  "Åbn systemindstillingen";
  "Hvordan får jeg en Android-input tilladelse?";
  with_quotes ["For at en ekstern enhed kan kontrollere din Android-enhed via mus eller berøring, skal du give RustDesk mulighed for at bruge tjenesten "; "tilgængelighed "; "."];
  "Gå til den næste systemindstillingsside, søg og indtast [installerede tjenester], tænd for [RustDesk Input] tjenesten.";
  "En ny anmodning blev modtaget, der gerne vil kontrollere din nuværende enhed.";
  "Ved at tænde for skærmoptagelsen startes tjenesten automatisk, så andre enheder kan anmode om en forbindelse fra denne enhed.";
  "Ved at lukke tjenesten lukkes alle fremstillede forbindelser automatisk.";
  "Den aktuelle Android-version understøtter ikke lydoptagelse. Android 10 eller højere er påkrævet.";
  "Tryk [Start tjeneste] eller aktivér [Skærmoptagelse] tilladelse for at dele skærmen.";
  "Rettigheder til oprettede forbindelser ændres ikke med det samme før der forbindelsen genoprettes.";
  "Konto";
  "Overskriv";
  "Denne fil findes allerede, vil du springe over eller overskrive denne fil?";
  "Afslut";
  "Hjælp";
  "Mislykkedet";
  "Vellykket";
  "Nogen aktiverede privatlivstilstand, afslut";
  "Ikke understøttet";
  "Modpart nægtet";
  "Installer venligst plugins";
  "Modpart-Afslut";
  "Mislykkedes i at lukke ned";
  "Slukket";
  "Sprog";
  "Behold RustDesk baggrundstjeneste";
  "Ignorér betteri optimeringer";
  "Hvis du ønsker at slukke for denne funktion, åbn RustDesk appens indstillinger, tryk på [Batteri], og fjern flueben ved [Uden begrænsninger]";
  "Start under opstart";
  "Start skærmdelingstjenesten under opstart, kræver specielle rettigheder";
  "Forbindelse ikke tilladt";
  "Bagudkompatibilitetstilstand";
  "Kortmodus";
  "Oversættelsesmodus";
  "Brug permanent adgangskode";
  "Brug begge typer adgangskoder";
  "Sæt permanent adgangskode";
  "Aktivér fjerngenstart";
  "Genstart fjernenhed";
  "Er du sikker på at du vil genstarte";
  "Genstarter fjernenhed";
  "Enheden genstarter - Lukker denne besked ned, og tilslutter igen om et øjeblik";
  "Kopieret";
  "Afslut fuldskærm";
  "Fuld skærm";
  "Mobile handlinger";
  "Vælg skærm";
  "Kontrolhandlinger";
  "Skærmindstillinger";
  "Forhold";
  "Billedkvalitet";
  "Rullestil";
  "Vis værktøjslinje";
  "Skjul værktøjslinje";
  "Direkte forbindelse";
  "Viderestillingsforbindelse";
  "Sikker forbindelse";
  "Usikker forbindelse";
  "Original skalering";
  "Adaptiv skalering";
  "Generelt";
  "Sikkerhed";
  "Thema";
  "Mørk Tema";
  "Lys Tema";
  "Mørk";
  "Lys";
  "Følg System";
  "Aktivér hardware-codec";
  "Lås op for sikkerhedsindstillinger";
  "Aktivér Lyd";
  "Lås op for Netværksindstillinger";
  "Server";
  "Direkte IP Adgang";
  "Proxy";
  "Anvend";
  "Afbryd alle enheder?";
  "Nulstil";
  "Lydindgangsenhed";
  "Brug IP Whitelisting";
  "Netværk";
  "Fastgør værktøjslinjen";
  "Frigiv værktøjslinjen";
  "Optager";
  "Mappe";
  "Optag automatisk indgående sessioner";
  "";
  "Ændr";
  "Start sessionsoptagelse";
  "Stop sessionsoptagelse";
  "Aktivér optagelsessession";
  "Aktivér opdagelse via det lokale netværk";
  "Afvis opdagelse via det lokale netværk";
  "Skriv en besked";
  "Prompt";
  "Vent venligst på UAC-bekræftelse...";
  "Det nuværende vindue på fjernskrivebordet kræver højere rettigheder for at køre, så det er midlertidigt ikke muligt at bruge musen og tastaturet. Du kan bede fjernbrugeren om at minimere vinduet, eller trykke på elevér knappen i forbindelsesvinduet. For at undgå dette problem, er det anbefalet at installere RustDesk på fjernenheden.";
  "Afbrudt";
  "Andre";
  "Bekræft nedlukning hvis der er flere faner";
  "Tastaturindstillinger";
  "Fuld adgang";
  "Skærmdeling";
  "Wayland kræver Ubuntu version 21.04 eller nyere.";
  "Wayland kræver en højere version af Linux distro. Prøv venligst X11 desktop eller skift dit OS.";
  "JumpLink";
  "Vælg venligst den skærm, der skal deles (Betjen på modtagersiden).";
  "Vis RustDesk";
  "Denne PC";
  "eller";
  "Fortsæt med";
  "Elevér";
  "Zoom markør";
  "Acceptér sessioner via adgangskode";
  "Acceptér sessioner via klik";
  "Acceptér sessioner via begge";
  "Vent venligst på at fjernklienten accepterer din sessionsforespørgsel...";
  "Engangskode";
  "Brug engangskode";
  "Engangskode længde";
  "Efterspørg adgang til din enhed";
  "Skjul forbindelseshåndteringsvindue";
  "Tillad at skjule, hvis der kun forbindes ved brug af midlertidige og permanente adgangskoder";
  "Wayland understøttelse er stadigvæk under udvikling. Hvis du har brug for ubemandet adgang, bedes du bruge X11.";
  "Højreklik for at vælge faner";
  "Sprunget over";
  "Tilføj til adressebog";
  "Gruppe";
  "Søg";
  "Lukket ned manuelt af webkonsollen";
  "Lokal tastatur type";
  "Vælg lokal tastatur type";
  "Hvis du bruger et Nvidia grafikkort på Linux, og fjernskrivebordsvinduet lukker ned med det samme efter forbindelsen er oprettet, kan det hjælpe at skifte til Nouveau open-source driveren, og aktivere software rendering. Et genstart af RustDesk er nødvendigt.";
  "Brug altid software rendering";
  "For at styre fjernskrivebordet med tastaturet, skal du give Rustdesk rettigheder til at optage tastetryk";
  "For at tale sammen over fjernstyring, skal du give RustDesk rettigheder til at optage lyd";
  "Du kan også spørge om elevationsrettigheder, hvis der er nogen i nærheden af fjernenheden.";
  "Vent";
  "Elevationsfejl";
  "Spørg fjernbrugeren for godkendelse";
  "Vælg dette hvis fjernbrugeren er en administrator";
  "Send brugernavnet og adgangskoden på administratoren";
  "Kræver stadigvæk at fjernbrugeren skal trykke OK på UAC vinduet ved kørsel af RustDesk.";
  "Efterspørger elevation";
  "Vent venligst på at fjernbrugeren accepterer UAC dialog forespørgslen.";
  "Elevation lykkedes";
  "store bogstaver";
  "små bogstaver";
  "ciffer";
  "specielt tegn";
  "længde>=8";
  "Svag";
  "Mellem";
  "Stærk";
  "Skift sider";
  "Bekræft venligst, om du vil dele dit skrivebord?";
  "Visning";
  "Standard visningsstil";
  "Standard scrollestil";
  "Standard billedkvalitet";
  "Standard codec";
  "Bitrate";
  "FPS";
  "Auto";
  "Andre standardindstillinger";
  "Stemmeopkald";
  "Tekstchat";
  "Stop stemmeopkald";
  with_quotes ["Det kan ske, at det ikke er muligt at forbinde direkte; du kan forsøge at forbinde via en relay-server. Derudover, hvis du ønsker at bruge en relay-server på dit første forsøg, kan du tilføje "; "/r"; " efter ID'et, eller bruge valgmuligheden "; "Forbind altid via relay-server"; " i fanen for seneste sessioner, hvis den findes."];
  "Genopret";
  "Codec";
  "Opløsning";
  "Ingen overførsler i gang";
  "Sæt engangsadgangskode længde";
  "RDP indstillinger";
  "Sortér efter";
  "Ny forbindelse";
  "Gendan";
  "Minimér";
  "Maksimér";
  "Din enhed";
  "Ups, ingen seneste sessioner!\nTid til at oprette en ny.";
  "Ingen yndlings modparter endnu?\nLad os finde én at forbinde til, og tilføje den til dine favoritter!";
  "Åh nej, det ser ud til, at vi ikke kunne finde nogen modparter endnu.";
  "Åh nej, det ser ud til at der ikke er nogle modparter der er tilføjet til din adressebog.";
  "fx: admin";
  "Tom brugernavn";
  "Tom adgangskode";
  "Mig";
  "Denne fil er identisk med modpartens.";
  "Vis skærme i værktøjsbjælken";
  "Visningstilstand";
  "Du skal logge på en fjernstyret Linux konto for at aktivere en X skrivebordssession";
  "Bekræft RustDesk adgangskode";
  "Husk denne konto";
  "Denne konto benyttes til at logge på fjernsystemet, og aktivere skrivebordssessionen i hovedløs tilstand";
  "Styresystem konto";
  "En anden bruger er allerede logget ind";
  "Frakobl";
  "Xorg ikke fundet";
  "Installér venlist Xorg";
  "Intet skrivebordsmiljø er tilgængeligt";
  "Installér venligst GNOME skrivebordet";
  "Ingen grund til at elevere";
  "Systemlyd";
  "Standard";
  "Ny RDP";
  "Fingeraftryk";
  "Kopiér fingeraftryk";
  "Ingen fingeraftryk";
  "Vælg en peer";
  "Vælg peers";
  "Plugins";
  "Afinstallér";
  "Opdatér";
  "Aktivér";
  "Deaktivér";
  "Valgmuligheder";
  "Original skærmopløsning";
  "Tilpas lokal skærmopløsning";
  "Bruger-tilpasset skærmopløsning";
  "Skjul værktøjsbjælke";
  "Acceptér og elevér";
  "Acceptér forbindelsen og elevér UAC tilladelser";
  "Tiden for at vente på en kopieringsforespørgsel udløb";
  "Indgående forbindelse";
  "Udgående forbindelse";
  "Afslut";
  "Åben";
  "Er du sikker på at du vil logge af?";
  "Tjeneste";
  "Start";
  "Stop";
  "Du har nået det maksimale antal håndtérbare enheder.";
  "Synkronisér med tidligere sessioner";
  "Sortér nøgleord";
  "Åbn forbindelse i en ny fane";
  "Flyt fane i et nyt vindue";
  "Kan ikke være tom";
  "Findes allerede";
  "Skift adgangskode";
  "Genopfrisk adgangskode";
  "ID";
  "Gittervisning";
  "Listevisning";
  "Vælg";
  "Slå nøgleord til/fra";
  "Opdatering af adressebog mislykkedes";
  "Synkronisering af adressebog til serveren mislykkedes";
  "Enhederne, som var til stede i de seneste sessioner, vil blive synkroniseret tilbage til adressebogen.";
  "Skift farve";
  "Primær farve";
  "HSV farve";
  "Installation fuldført!";
  "Installation mislykkedes!";
  "Invertér musehjul";
  "{} sessioner";
  "ADVARSEL: Du kan blive SVINDLET!";
  "Hvis du taler telefon med en person du IKKE kender, og IKKE stoler på, som har bedt dig om at bruge RustDesk til at forbinde til din PC, stop med det samme, og læg på omgående.";
  "Det er højest sandsynligvis en svinder som forsøger at stjæle dine penge eller andre personlige oplysninger.";
  "Vis ikke igen";
  "Jeg accepterer";
  "Afvis";
  "Udløbstid i minutter";
  "Luk automatisk indkommende sessioner ved inaktivitet";
  "Forbindelsen blev afbrudt grundet inaktivitet";
  "Søg efter opdateringer ved opstart";
  "Opgradér venligst RustDesk Server Pro til version {} eller nyere!";
  "Genindlæsning af gruppe mislykkedes";
  "Filtrér efter intersection";
  "Skjul baggrundsskærm ved indgående forbindelser";
  "Test";
  "Skærmen er slukket, skift til den første skærm.";
  "Ingen skærme";
  "Åbn i et nyt vindue";
  "Vis skærme som selvstændige vinduer";
  "Brug alle mine skærme til fjernforbindelsen";
  "SELinux er aktiveret på din enhed, som kan forhindre RustDesk i at køre normalt.";
  "Skift visning";
  "Store fliser";
  "Små fliser";
  "Liste";
  "Virtuel skærm";
  "Frakobl alt";
  "True color (4:4:4)";
  "Aktivér blokering af brugerstyring";
  with_quotes ["Du kan indtaste ét ID, en direkte IP adresse, eller et domæne med en port (<domæne>:<port>).\nHvis du ønsker at forbinde til en enhed på en anden server, tilføj da server adressen (<id>@<server_adresse>?key=<nøgle>), fx,\n9123456234@192.168.16.1:21117?key=5Qbwsde3unUcJBtrx9ZkvUmwFNoExHzpryHuPUdqlWM=.\nHvis du ønsker adgang til en enhed på en offentlig server, indtast venligst "; "<id>@offentlig server"; ", nøglen er ikke nødvendig for offentlige servere.\n\nHvis du gerne vil tvinge brugen af en relay-forbindelse på den første forbindelse, tilføj "; "/r"; " efter ID'et, fx, "; "9123456234/r"; "."];
  "Tilstand 1";
  "Tilstand 2";
  "Start privatlivstilstand";
  "Afslut privatlivstilstand";
  "Indirekte grafik drivere er ikke understøttet. Windows 10 version 2004 eller nyere er påkrævet.";
  "Input kilde 1";
  "Input kilde 2";
  "Byt rundt på Control & Command tasterne";
  "Byt rundt på venstre og højre musetaster";
  "To-faktor kode";
  "Mere";
  "Tænd for to-faktor godkendelse";
  "Åbn din godkendelsesapp nu. Du kan bruge en godkendelsesapp så som Authy, Microsoft eller Google Authenticator på din telefon eller din PC.\n\nScan QR koden med din app og indtast koden som din app fremviser, for at aktivere for to-faktor godkendelse.";
  "Kan ikke verificere koden. Forsikr at koden og tidsindstillingerne på enheden er korrekte";
  "To-faktor godkendelse";
  "E-mail bekræftelseskode skal være mindst 6 tegn";
  "To-faktor kode skal være mindst 6 cifre";
  "Flere Windows sessioner fundet";
  "Vælg venligst sessionen du ønsker at forbinde til";
  "Drives af RustDesk";
  "Dette er en brugertilpasset udgave.\nDu kan forbinde til andre enheder, men andre enheder kan ikke forbinde til din enhed.";
  "Denne brugertilpassede udgave har en forudbestemt adgangskode. Alle der kender til denne adgangskode, kan få fuld adgang til din enhed. Hvis du ikke forventede dette, bør du afinstallere denne udgave af RustDesk med det samme.";
  "Sikkerhedsalarm";
  "Min adressebog";
  "Personlig";
  "Ejer";
  "Sæt delt adgangskode";
  "Findes i";
  "Skrivebeskyttet";
  "Læse/Skrive";
  "Fuld kontrol";
  "Felterne for oven er delt og synlige for andre.";
  "Alle";
  "Mere på web konsollen";
  "Tillad kun fjernforbindelser hvis RustDesk vinduet er synligt";
  "Ingen fysiske skærme, ingen nødvendighed for at bruge privatlivstilstanden.";
  "Følg musemarkør på fjernforbindelse";
  "Følg vinduefokus på fjernforbindelse";
  "Protokollen og porten som anvendes som standard er Socks5 og 1080";
  "Ingen lydinput enhed fundet";
  "Indgående";
  "Udgående";
  "Ryd Wayland skærmvalg";
  "Efter at fravælge den valgte skærm, kan du genvælge skærmen som skal deles.";
  "Er du sikker på at du vil fjerne Wayland skærmvalget?";
  "Du har modtaget en ny stemmeopkaldsforespørgsel. Hvis du accepterer, vil lyden skifte til stemmekommunikation.";
  "Brug tekstur-rendering for at gøre billedkvaliteten blødere. Du kan også prøve at deaktivere denne funktion, hvis du oplever problemer.";
  "Anvend tekstur-rendering";
  "Svævende vindue";
  "Det hjælper på at RustDesk baggrundstjenesten kører";
  "Hold skærmen tændt";
  "Aldrig";
  "Imens under kontrol";
  "Imens tjenesten kører";
  "Optag skærm med DirectX";
  "Tilbage";
  "Apps";
  "Skru op for lyd";
  "Skru ned for lyd";
  "Tænd/Sluk";
  "Telegram bot";
  "Hvis du aktiverer denne funktion, kan du modtage to-faktor godkendelseskoden fra din robot. Den kan også fungere som en notifikation for forbindelsesanmodninger.";
  with_quotes ["1. Åbn en chat med @BotFather.\n2. Send kommandoen "; "/newbot"; ". Du vil modtage en nøgle efter at have gennemført dette trin.\n3. Start en chat med din nyoprettede bot. Send en besked som begynder med skråstreg "; "/"; ", som fx "; "/hello"; ", for at aktivere den.\n"];
  "Er du sikker på at du vil afbryde to-faktor godkendelse?";
  "Er du sikker på at du vil afbryde Telegram robotten?";
  "Om RustDesk";
  "Send udklipsholder tastetryk";
  "Tjek venligst din internetforbindelse, og forsøg igen.";
  "Lås op med PIN";
  "Kræver mindst {} tegn";
  "Forkert PIN";
  "Sæt PIN";
  "Aktivér troværdige enheder";
  "Administrér troværdige enheder";
  "Platform";
  "Dage tilbage";
  "Spring to-faktor godkendelse over på troværdige enheder";
  "mappe";
  "Fortsæt";
  "Ugyldigt filnavn";
  "";
  "";
  "";
  "";
  "";
  "";
  "";
  "";
  "";
  "";
  "";
  ""].
(** [LANGS.de] *)
Definition lang_de : jsmap string string := texts [
  "Status";
  "Ihr Desktop";
  "Mit dieser ID und diesem Passwort kann auf Ihren Desktop zugegriffen werden.";
  "Passwort";
  "Bereit";
  "Verbunden";
  "Verbinden mit dem RustDesk-Netzwerk …";
  "Vermittlungsdienst aktivieren";
  "Vermittlungsdienst starten";
  "Vermittlungsdienst aktiv";
  "Vermittlungsdienst deaktiviert";
  "Nicht bereit. Bitte überprüfen Sie Ihre Netzwerkverbindung.";
  "Entfernten Desktop steuern";
  "Datei übertragen";
  "Verbinden";
  "Letzte Sitzungen";
  "Adressbuch";
  "Bestätigung";
  "TCP-Tunnelung";
  "Entfernen";
  "Zufälliges Passwort erzeugen";
  "Eigenes Passwort festlegen";
  "Tastatur und Maus aktivieren";
  "Zwischenablage aktivieren";
  "Dateiübertragung aktivieren";
  "TCP-Tunnelung aktivieren";
  "IP-Whitelist";
  "ID/Relay-Server";
  "Serverkonfiguration importieren";
  "Serverkonfiguration exportieren";
  "Serverkonfiguration erfolgreich importiert";
  "Serverkonfiguration erfolgreich exportiert";
  "Ungültige Serverkonfiguration";
  "Zwischenablage ist leer";
  "Vermittlungsdienst stoppen";
  "ID ändern";
  "Ihre neue ID";
  "Länge %min% bis %max%";
  "Beginnt mit Buchstabe";
  "Erlaubte Zeichen";
  "Nur die Zeichen a-z, A-Z, 0-9, - (dash) und _ (Unterstrich) sind erlaubt. Der erste Buchstabe muss a-z, A-Z sein und die Länge zwischen 6 und 16 Zeichen betragen.";
  "Webseite";
  "Über";
  "Mit Herzblut programmiert - in einer Welt, die im Chaos versinkt!";
  "Datenschutz";
  "Stummschalten";
  "Erstelldatum";
  "Version";
  "Startseite";
  "Audioeingang";
  "Verbesserungen";
  "Hardware-Codec";
  "Bitrate automatisch anpassen";
  "ID-Server";
  "Relay-Server";
  "API-Server";
  "Muss mit http:// oder https:// beginnen";
  "Ungültige IP-Adresse";
  "Ungültiges Format";
  "Diese Funktion wird noch nicht vom Server unterstützt.";
  "Nicht verfügbar";
  "Zu häufig";
  "Abbrechen";
  "Überspringen";
  "Schließen";
  "Erneut versuchen";
  "OK";
  "Passwort erforderlich";
  "Bitte geben Sie Ihr Passwort ein";
  "Passwort merken";
  "Falsches Passwort";
  "Erneut verbinden?";
  "Verbindungsfehler";
  "Fehler";
  "Verbindung wurde von der Gegenstelle zurückgesetzt.";
  "Verbindung wird hergestellt …";
  "Die Verbindung wird hergestellt. Bitte warten …";
  "Bitte versuchen Sie es später erneut";
  "Anmeldefehler";
  "Erfolgreich";
  "Verbindung hergestellt. Warte auf anderen Bildschirm …";
  "Name";
  "Typ";
  "Geändert";
  "Größe";
  "Versteckte Dateien anzeigen";
  "Empfangen";
  "Senden";
  "Datei aktualisieren";
  "Lokal";
  "Entfernt";
  "Entfernter Computer";
  "Dieser Computer";
  "Löschen bestätigen";
  "Löschen";
  "Eigenschaften";
  "Mehrfachauswahl";
  "Alles auswählen";
  "Alles abwählen";
  "Leerer Ordner";
  "Ordner ist nicht leer.";
  "Sind Sie sicher, dass Sie diese Datei löschen wollen?";
  "Sind Sie sicher, dass Sie diesen leeren Ordner löschen möchten?";
  "Sind Sie sicher, dass Sie die Datei dieses Ordners löschen möchten?";
  "Für alle Konflikte merken";
  "Dies kann nicht rückgängig gemacht werden!";
  "Löschen";
  "Dateien";
  "Warten";
  "Fertiggestellt";
  "Geschwindigkeit";
  "Benutzerdefinierte Bildqualität";
  "Datenschutzmodus";
  "Benutzereingaben blockieren";
  "Benutzereingaben freigeben";
  "Fenster anpassen";
  "Original";
  "Verkleinern";
  "Strecken";
  "Scroll-Leiste";
  "Automatisch scrollen";
  "Hohe Bildqualität";
  "Ausgeglichene Bildqualität";
  "Reaktionszeit optimieren";
  "Benutzerdefiniert";
  "Entfernten Cursor anzeigen";
  "Qualitätsüberwachung anzeigen";
  "Zwischenablage deaktivieren";
  "Nach Sitzungsende sperren";
  "Strg + Alt + Entf senden";
  "Win+L (Sperren) senden";
  "Aktualisieren";
  "Diese ID existiert nicht.";
  "Verbindung zum Rendezvous-Server fehlgeschlagen";
  "Bitte versuchen Sie es später erneut.";
  "Entfernter Desktop ist offline.";
  "Schlüssel stimmen nicht überein.";
  "Zeitüberschreitung";
  "Verbindung zum Relay-Server ist fehlgeschlagen";
  "Verbindung über Rendezvous-Server ist fehlgeschlagen";
  "Verbindung über Relay-Server ist fehlgeschlagen";
  "Direkte Verbindung zum entfernten Desktop ist fehlgeschlagen";
  "Passwort festlegen";
  "Betriebssystem-Passwort";
  "Aufgrund der Benutzerkontensteuerung (UAC) kann RustDesk in manchen Fällen nicht ordnungsgemäß funktionieren. Um die Benutzerkontensteuerung zu umgehen, klicken Sie bitte auf die Schaltfläche unten und installieren RustDesk auf dem System.";
  "Zum Upgraden klicken";
  "Zum Herunterladen klicken";
  "Zum Aktualisieren klicken";
  "Konfigurieren";
  "Um Ihren PC aus der Ferne zu steuern, müssen Sie RustDesk Zugriffsrechte erteilen.";
  with_quotes ["Um aus der Ferne auf Ihren PC zugreifen zu können, müssen Sie RustDesk die Berechtigung "; "Bildschirmaufnahme"; " erteilen."];
  "Wird installiert …";
  "Installieren";
  "Installation";
  "Installationspfad";
  "Verknüpfung im Startmenü erstellen";
  "Desktop-Verknüpfung erstellen";
  "Durch die Installation akzeptieren Sie die Lizenzvereinbarung.";
  "Akzeptieren und Installieren";
  "Lizenzvereinbarung für Endbenutzer";
  "Wird generiert …";
  "Ihre Version ist veraltet.";
  "Schließen Sie dieses Fenster nicht, solange Sie den Tunnel benutzen.";
  "Lauschen …";
  "Entfernter PC";
  "Entfernter Port";
  "Aktion";
  "Hinzufügen";
  "Lokaler Port";
  "Lokale Adresse";
  "Lokalen Port ändern";
  "für eine schnellere Verbindung richten Sie bitte Ihren eigenen Server ein.";
  "Zu kurz, mindestens 6 Zeichen.";
  "Die Passwörter stimmen nicht überein.";
  "Berechtigungen";
  "Akzeptieren";
  "Ablehnen";
  "Verbindung trennen";
  "Kopieren und Einfügen von Dateien zulassen";
  "Verbunden";
  "Direkte und verschlüsselte Verbindung";
  "Vermittelte und verschlüsselte Verbindung";
  "Direkte und unverschlüsselte Verbindung";
  "Vermittelte und unverschlüsselte Verbindung";
  "Entfernte ID eingeben";
  "Geben Sie Ihr Passwort ein";
  "Anmelden …";
  "RDP-Sitzungsfreigabe aktivieren";
  with_quotes ["Automatisch anmelden (nur gültig, wenn Sie "; "Nach Sitzungsende sperren"; " aktiviert haben)"];
  "Direkten IP-Zugang aktivieren";
  "Umbenennen";
  "Speicherplatz";
  "Desktop-Verknüpfung erstellen";
  "Pfad ändern";
  "Ordner erstellen";
  "Bitte geben Sie den Ordnernamen ein";
  "Reparieren";
  "Warnung";
  "Anmeldebildschirm mit Wayland wird nicht unterstützt.";
  "Neustart erforderlich";
  "Nicht unterstützter Anzeigeserver";
  "X11 erwartet";
  "Port";
  "Einstellungen";
  "Benutzername";
  "Ungültiger Port";
  "Von der Gegenstelle manuell geschlossen.";
  "Änderung der Konfiguration aus der Ferne zulassen";
  "Ohne Installation ausführen";
  "Über Relay-Server verbinden";
  "Immer über Relay-Server verbinden";
  "Nur IPs auf der Whitelist können zugreifen.";
  "Anmelden";
  "Überprüfen";
  "Login merken";
  "Diesem Gerät vertrauen";
  "Verifizierungscode";
  "Ein Verifizierungscode wurde an die registrierte E-Mail-Adresse gesendet. Geben Sie den Verifizierungscode ein, um sich erneut anzumelden.";
  "Abmelden";
  "Tags";
  "ID suchen";
  "Getrennt durch Komma, Semikolon, Leerzeichen oder Zeilenumbruch";
  "ID hinzufügen";
  "Tag hinzufügen";
  "Alle Tags abwählen";
  "Netzwerkfehler";
  "Benutzername fehlt";
  "Passwort fehlt";
  "Falsche Anmeldedaten";
  "Der Verifizierungscode ist falsch oder abgelaufen";
  "Tag bearbeiten";
  "Gespeichertes Passwort löschen";
  "Favoriten";
  "Zu Favoriten hinzufügen";
  "Aus Favoriten entfernen";
  "Keine Einträge";
  "Ungültiger Ordnername";
  "SOCKS5-Proxy";
  "SOCKS5/HTTP(S)-Proxy";
  "Im LAN erkannt";
  "Um mit System zu starten, muss der Systemdienst installiert sein.";
  "Entfernte ID";
  "Einfügen";
  "Hier einfügen?";
  "Möchten Sie diese Verbindung wirklich schließen?";
  "Neue Version herunterladen";
  "Touch-Modus";
  "Mausmodus";
  "1-Finger-Tipp";
  "Linksklick";
  "1-Finger-Halten";
  "2-Finger-Tipp";
  "Rechtsklick";
  "Einen Finger bewegen";
  "Doppeltippen und bewegen";
  "Maus bewegen";
  "Drei Finger vertikal bewegen";
  "Mausrad";
  "Zwei Finger bewegen";
  "Sichtfeld bewegen";
  "2-Finger-Zoom";
  "Sichtfeld-Zoom";
  "Sichtfeld zurücksetzen";
  "Keine Berechtigung für die Dateiübertragung";
  "Hinweis";
  "Verbindung";
  "Bildschirm freigeben";
  "Chat";
  "Gesamt";
  "Einträge";
  "ausgewählt";
  "Bildschirmaufnahme";
  "Eingabesteuerung";
  "Audioaufnahme";
  "Dateiverbindung";
  "Bildschirmverbindung";
  "Verbindung zulassen?";
  "Systemeinstellung öffnen";
  "Wie erhalte ich eine Android-Eingabeberechtigung?";
  with_quotes ["Damit ein entferntes Gerät Ihr Android-Gerät steuern kann, müssen Sie RustDesk erlauben, den Dienst "; "Barrierefreiheit"; " zu verwenden."];
  with_quotes ["Bitte gehen Sie zur nächsten Systemeinstellungsseite, suchen Sie "; "Installierte Dienste"; " und schalten Sie den Dienst "; "RustDesk Input"; " ein."];
  "möchte Ihr Gerät steuern.";
  "Durch das Aktivieren der Bildschirmfreigabe wird der Dienst automatisch gestartet, sodass andere Geräte dieses Android-Gerät steuern können.";
  "Durch das Deaktivieren des Dienstes werden automatisch alle hergestellten Verbindungen getrennt.";
  "Ihre Android-Version unterstützt keine Audioaufnahme, bitte aktualisieren Sie auf Android 10 oder höher, falls möglich.";
  with_quotes ["Tippen Sie auf "; "Vermittlungsdienst starten"; " oder aktivieren Sie die Berechtigung "; "Bildschirmaufnahme"; ", um den Bildschirmfreigabedienst zu starten."];
  "Die Berechtigungen für bestehende Verbindungen werden erst nach einer erneuten Verbindung geändert.";
  "Konto";
  "Überschreiben";
  "Diese Datei existiert; überspringen oder überschreiben?";
  "Beenden";
  "Hilfe";
  "Fehlgeschlagen";
  "Erfolgreich";
  "Jemand hat den Datenschutzmodus aktiviert, wird beendet …";
  "Nicht unterstützt";
  "Die Gegenstelle hat die Verbindung abgelehnt.";
  "Bitte installieren Sie Plugins";
  "Die Gegenstelle hat die Verbindung getrennt.";
  "Ausschalten fehlgeschlagen";
  "Ausgeschaltet";
  "Sprache";
  "RustDesk im Hintergrund ausführen";
  "Akkuoptimierung ignorieren";
  "Möchten Sie die Einstellungen zur Akkuoptimierung öffnen?";
  "Beim Booten starten";
  "Bildschirmfreigabedienst beim Booten starten, erfordert zusätzliche Berechtigungen";
  "Verbindung abgelehnt";
  "Kompatibilitätsmodus";
  "Zuordnungsmodus";
  "Übersetzungsmodus";
  "Permanentes Passwort verwenden";
  "Beide Passwörter verwenden";
  "Permanentes Passwort festlegen";
  "Entfernten Neustart aktivieren";
  "Entferntes Gerät neu starten";
  "Möchten Sie das entfernte Gerät wirklich neu starten?";
  "Entferntes Gerät wird neu gestartet";
  "Entferntes Gerät startet neu, bitte schließen Sie diese Meldung und verbinden Sie sich mit dem permanenten Passwort erneut.";
  "Kopiert";
  "Vollbild beenden";
  "Vollbild";
  "Mobile Aktionen";
  "Bildschirm auswählen";
  "Aktionen";
  "Anzeigeeinstellungen";
  "Verhältnis";
  "Bildqualität";
  "Scroll-Stil";
  "Symbolleiste anzeigen";
  "Symbolleiste ausblenden";
  "Direkte Verbindung";
  "Relay-Verbindung";
  "Sichere Verbindung";
  "Unsichere Verbindung";
  "Keine Skalierung";
  "Anpassbare Skalierung";
  "Allgemein";
  "Sicherheit";
  "Farbgebung";
  "Dunkle Farbgebung";
  "Helle Farbgebung";
  "Dunkel";
  "Hell";
  "Systemstandard";
  "Hardware-Codec aktivieren";
  "Sicherheitseinstellungen entsperren";
  "Audio aktivieren";
  "Netzwerkeinstellungen entsperren";
  "Server";
  "Direkter IP-Zugang";
  "Proxy";
  "Anwenden";
  "Alle Geräte trennen?";
  "Zurücksetzen";
  "Audioeingabegerät";
  "IP-Whitelist verwenden";
  "Netzwerk";
  "Symbolleiste anpinnen";
  "Symbolleiste lösen";
  "Aufnahme";
  "Verzeichnis";
  "Eingehende Sitzungen automatisch aufzeichnen";
  "Ausgehende Sitzungen automatisch aufzeichnen";
  "Ändern";
  "Sitzungsaufzeichnung starten";
  "Sitzungsaufzeichnung beenden";
  "Sitzungsaufzeichnung aktivieren";
  "LAN-Erkennung aktivieren";
  "LAN-Erkennung verbieten";
  "Nachricht schreiben";
  "Meldung";
  "Bitte auf die Bestätigung des Nutzers warten …";
  "Das aktuell geöffnete Fenster des ferngesteuerten Computers erfordert höhere Rechte. Deshalb ist es derzeit nicht möglich, die Maus und die Tastatur zu verwenden. Bitten Sie den Nutzer, dessen Computer Sie fernsteuern, das Fenster zu minimieren oder die Rechte zu erhöhen. Um dieses Problem zukünftig zu vermeiden, wird empfohlen, die Software auf dem ferngesteuerten Computer zu installieren.";
  "Verbindung abgebrochen";
  "Weitere Einstellungen";
  "Nachfragen, wenn mehrere Tabs geschlossen werden";
  "Tastatureinstellungen";
  "Vollzugriff";
  "Bildschirmfreigabe";
  "Wayland erfordert Ubuntu 21.04 oder eine höhere Version.";
  "Wayland erfordert eine höhere Version der Linux-Distribution. Bitte versuchen Sie den X11-Desktop oder ändern Sie Ihr Betriebssystem.";
  "View";
  "Bitte wählen Sie den freizugebenden Bildschirm aus (Bedienung auf der Gegenseite).";
  "RustDesk anzeigen";
  "Dieser PC";
  "oder";
  "Fortfahren mit";
  "Zugriff gewähren";
  "Cursor vergrößern";
  "Sitzung mit Passwort bestätigen";
  "Sitzung mit einem Klick bestätigen";
  "Sitzung mit Klick und Passwort bestätigen";
  "Bitte warten Sie, bis die Gegenseite Ihre Sitzungsanfrage akzeptiert hat …";
  "Einmalpasswort";
  "Einmalpasswort verwenden";
  "Länge des Einmalpassworts";
  "Zugriff auf Ihr Gerät anfordern";
  "Fenster zur Verwaltung der Verbindung verstecken";
  "Dies ist nur möglich, wenn der Zugriff über ein permanentes Passwort erfolgt.";
  "Die Unterstützung von Wayland ist nur experimentell. Bitte nutzen Sie X11, wenn Sie einen unbeaufsichtigten Zugriff benötigen.";
  "Tabs mit rechtem Mausklick auswählen";
  "Übersprungen";
  "Zum Adressbuch hinzufügen";
  "Gruppe";
  "Suchen";
  "Manuell über die Webkonsole geschlossen";
  "Lokaler Tastaturtyp";
  "Lokalen Tastaturtyp auswählen";
  "Wenn Sie eine Nvidia-Grafikkarte unter Linux verwenden und sich das entfernte Fenster sofort nach dem Verbindungsaufbau schließt, kann ein Wechsel zum Open-Source-Treiber Nouveau und die Verwendung von Software-Rendering helfen. Ein Neustart der Software ist erforderlich.";
  "Software-Rendering immer verwenden";
  with_quotes ["Um den entfernten Desktop mit der Tastatur steuern zu können, müssen Sie RustDesk die Berechtigung "; "Eingabeüberwachung"; " erteilen."];
  with_quotes ["Um aus der Ferne sprechen zu können, müssen Sie RustDesk die Berechtigung "; "Audio aufzeichnen"; " erteilen."];
  "Sie können auch erhöhte Rechte anfordern, wenn sich jemand auf der Gegenseite befindet.";
  "Warten";
  "Berechtigungsfehler";
  "Den entfernten Benutzer zur Authentifizierung auffordern";
  "Wählen Sie dies, wenn das entfernte Konto Administrator ist.";
  "Benutzernamen und Passwort des Administrators übertragen";
  with_quotes ["Der entfernte Benutzer muss immer noch im UAC-Fenster von RustDesk auf "; "Ja"; " klicken."];
  "Erhöhte Rechte anfordern";
  "Bitte warten Sie, bis der entfernte Benutzer den UAC-Dialog akzeptiert hat.";
  "Erhöhung der Rechte erfolgreich";
  "Großbuchstaben";
  "Kleinbuchstaben";
  "Ziffern";
  "Sonderzeichen";
  "Länge ≥ 8";
  "Schwach";
  "Mittel";
  "Stark";
  "Seiten wechseln";
  "Bitte bestätigen Sie, wenn Sie Ihren Desktop freigeben möchten.";
  "Bildschirm";
  "Standard-Ansichtsstil";
  "Standard-Scroll-Stil";
  "Standard-Bildqualität";
  "Standard-Codec";
  "Bitrate";
  "fps";
  "Automatisch";
  "Weitere Standardeinstellungen";
  "Sprachanruf";
  "Text-Chat";
  "Sprachanruf beenden";
  with_quotes ["Wenn eine direkte Verbindung nicht möglich ist, können Sie versuchen, eine Verbindung über einen Relay-Server herzustellen.\nWenn Sie eine Relay-Verbindung beim ersten Versuch herstellen möchten, können Sie das Suffix "; "/r"; " an die ID anhängen oder die Option "; "Immer über Relay-Server verbinden"; " in der Liste der letzten Sitzungen auswählen, sofern diese vorhanden ist."];
  "Erneut verbinden";
  "Codec";
  "Auflösung";
  "Keine Übertragungen im Gange";
  "Länge des Einmalpassworts festlegen";
  "RDP-Einstellungen";
  "Sortieren nach";
  "Neue Verbindung";
  "Verkleinern";
  "Minimieren";
  "Maximieren";
  "Ihr Gerät";
  "Ups, keine aktuellen Sitzungen!\nZeit, eine neue zu planen.";
  "Noch keine favorisierte Gegenstelle?\nLassen Sie uns jemanden finden, mit dem wir uns verbinden können und fügen Sie ihn zu Ihren Favoriten hinzu!";
  "Oh nein, es sieht so aus, als hätten wir noch keine Gegenstelle entdeckt.";
  "Oh je, es scheint, dass in Ihrem Adressbuch derzeit keine Gegenstellen aufgeführt sind.";
  "z. B.: admin";
  "Leerer Benutzername";
  "Leeres Passwort";
  "Ich";
  "Diese Datei ist identisch mit der Datei der Gegenstelle.";
  "Bildschirme in der Symbolleiste anzeigen";
  "Ansichtsmodus";
  "Sie müssen sich an einem entfernten Linux-Konto anmelden, um eine X-Desktop-Sitzung zu eröffnen.";
  "RustDesk-Passwort bestätigen";
  "Dieses Konto merken";
  "Dieses Konto wird verwendet, um sich beim entfernten Betriebssystem anzumelden und die Desktop-Sitzung im Headless-Modus zu aktivieren.";
  "Betriebssystem-Konto";
  "Ein anderer Benutzer ist bereits angemeldet.";
  "Trennen";
  "Xorg nicht gefunden.";
  "Bitte installieren Sie Xorg.";
  "Es ist keine Desktopumgebung verfügbar.";
  "Bitte installieren Sie den GNOME-Desktop.";
  "Erhöhung der Rechte nicht erforderlich";
  "Systemsound";
  "Systemstandard";
  "Neue RDP-Verbindung";
  "Fingerabdruck";
  "Fingerabdruck kopieren";
  "Keine Fingerabdrücke";
  "Gegenstelle auswählen";
  "Gegenstellen auswählen";
  "Plugins";
  "Deinstallieren";
  "Update";
  "Aktivieren";
  "Deaktivieren";
  "Einstellungen";
  "Originale Auflösung";
  "Lokale Auflösung anpassen";
  "Benutzerdefinierte Auflösung";
  "Symbolleiste einklappen";
  "Akzeptieren und Rechte erhöhen";
  "Akzeptieren Sie die Verbindung und erhöhen Sie die UAC-Berechtigungen.";
  "Zeitüberschreitung beim Warten auf die Antwort der Kopie.";
  "Eingehende Verbindung";
  "Ausgehende Verbindung";
  "Beenden";
  "Öffnen";
  "Sind Sie sicher, dass Sie sich abmelden wollen?";
  "Vermittlungsdienst";
  "Starten";
  "Stopp";
  "Sie haben die maximale Anzahl der verwalteten Geräte erreicht.";
  "Synchronisierung mit den letzten Sitzungen";
  "Tags sortieren";
  "Verbindung in neuem Tab öffnen";
  "Tab in neues Fenster verschieben";
  "Darf nicht leer sein";
  "Existiert bereits";
  "Passwort ändern";
  "Passwort aktualisieren";
  "ID";
  "Rasteransicht";
  "Listenansicht";
  "Auswählen";
  "Tags umschalten";
  "Aktualisierung des Adressbuchs fehlgeschlagen";
  "Synchronisierung des Adressbuchs mit dem Server fehlgeschlagen";
  "Die Geräte, die in den letzten Sitzungen vorhanden waren, werden erneut zum Adressbuch hinzugefügt.";
  "Farbe ändern";
  "Primärfarbe";
  "HSV-Farbe";
  "Installation erfolgreich!";
  "Installation fehlgeschlagen!";
  "Mausrad rückwärtsdrehen";
  "{} Sitzungen";
  "Sie werden möglicherweise BETROGEN!";
  "Wenn Sie mit jemandem telefonieren, den Sie NICHT KENNEN, dem Sie NICHT VERTRAUEN und der Sie gebeten hat, RustDesk zu benutzen und den Dienst zu starten, fahren Sie nicht fort und legen Sie sofort auf.";
  "Es handelt sich wahrscheinlich um einen Betrüger, der versucht, Ihr Geld oder andere private Informationen zu stehlen.";
  "Nicht mehr anzeigen";
  "Ich bin einverstanden";
  "Ablehnen";
  "Zeitüberschreitung in Minuten";
  "Eingehende Sitzungen bei Benutzer-Inaktivität automatisch schließen";
  "Automatische Trennung der Verbindung aufgrund von Inaktivität";
  "Beim Start auf Softwareaktualisierung prüfen";
  "Bitte aktualisieren Sie RustDesk Server Pro auf die Version {} oder neuer!";
  "Aktualisierung der Gruppe fehlgeschlagen";
  "Nach Schnittmenge filtern";
  "Hintergrundbild bei eingehenden Sitzungen entfernen";
  "Testen";
  "Der Bildschirm ist nicht angeschlossen, schalten Sie auf den ersten Bildschirm um.";
  "Keine Bildschirme";
  "In einem neuen Fenster öffnen";
  "Jeden Bildschirm in einem eigenen Fenster anzeigen";
  "Alle meine Bildschirme für die Fernsitzung verwenden";
  "SELinux ist auf Ihrem Gerät aktiviert, was dazu führen kann, dass RustDesk als kontrollierte Seite nicht richtig läuft.";
  "Ansicht ändern";
  "Große Kacheln";
  "Kleine Kacheln";
  "Liste";
  "Virtueller Bildschirm";
  "Alle ausschalten";
  "True Color (4:4:4)";
  "Blockieren von Benutzereingaben aktivieren";
  with_quotes ["Sie können eine ID, eine direkte IP oder eine Domäne mit einem Port (<domain>:<port>) eingeben.\nWenn Sie auf ein Gerät auf einem anderen Server zugreifen wollen, fügen Sie bitte die Serveradresse (<id>@<server_address>?key=<key_value>) hinzu, zum Beispiel\n9123456234@192.168.16.1:21117?key=5Qbwsde3unUcJBtrx9ZkvUmwFNoExHzpryHuPUdqlWM=.\nWenn Sie auf ein Gerät auf einem öffentlichen Server zugreifen wollen, geben Sie bitte "; "<id>@public"; " ein. Der Schlüssel wird für öffentliche Server nicht benötigt.\n\nWenn Sie bei der ersten Verbindung die Verwendung einer Relay-Verbindung erzwingen wollen, fügen Sie "; "/r"; " am Ende der ID hinzu, zum Beispiel "; "9123456234/r"; "."];
  "Modus 1";
  "Modus 2";
  "Datenschutzmodus aktivieren";
  "Datenschutzmodus beenden";
  "Indirekter Grafiktreiber wird nicht unterstützt. Windows 10, Version 2004 oder neuer ist erforderlich.";
  "Eingangsquelle 1";
  "Eingangsquelle 2";
  "Steuerungs- und Befehlstasten tauschen";
  "Linke und rechte Maustaste tauschen";
  "2FA-Code";
  "Mehr";
  "Zwei-Faktor-Authentifizierung aktivieren";
  "Bitte richten Sie jetzt Ihren Authentifikator ein. Sie können eine Authentifizierungs-App wie Authy, Microsoft oder Google Authenticator auf Ihrem Telefon oder Desktop verwenden.\n\nScannen Sie den QR-Code mit Ihrer App und geben Sie den Code ein, den Ihre App anzeigt, um die Zwei-Faktor-Authentifizierung zu aktivieren.";
  "Der Code kann nicht verifiziert werden. Prüfen Sie, ob der Code und die lokalen Zeiteinstellungen korrekt sind.";
  "Zwei-Faktor-Authentifizierung";
  "Der E-Mail-Verifizierungscode muss aus 6 Zeichen bestehen.";
  "Der 2FA-Code muss 6 Ziffern haben.";
  "Mehrere Windows-Sitzungen gefunden";
  "Bitte wählen Sie die Sitzung, mit der Sie sich verbinden möchten";
  "Unterstützt von RustDesk";
  "Dies ist eine benutzerdefinierte Ausgabe von RustDesk.\nSie können eine Verbindung zu anderen Geräten herstellen, aber andere Geräte können keine Verbindung zu Ihrem Gerät herstellen.";
  "Dies ist eine benutzerdefinierte Ausgabe von RustDesk mit einem voreingestellten Passwort. Jeder, der dieses Passwort kennt, kann die volle Kontrolle über Ihr Gerät erlangen. Wenn Sie dies nicht beabsichtigen, deinstallieren Sie diese Software bitte umgehend.";
  "Sicherheitswarnung";
  "Mein Adressbuch";
  "Persönlich";
  "Eigentümer";
  "Geteiltes Passwort festlegen";
  "Existiert in …?";
  "Nur lesen";
  "Lesen/Schreiben";
  "Vollständige Kontrolle";
  "Die obigen Felder werden geteilt und sind für andere sichtbar.";
  "Jeder";
  "Mehr über Webkonsole";
  "Verbindung nur zulassen, wenn das RustDesk-Fenster geöffnet ist";
  "Keine physischen Bildschirme; keine Notwendigkeit, den Datenschutzmodus zu verwenden.";
  "Dem entfernten Cursor folgen";
  "Dem Fokus des entfernten Fensters folgen";
  "Standardprotokoll und -port sind SOCKS5 und 1080";
  "Kein Audio-Eingabegerät gefunden.";
  "Eingehend";
  "Ausgehend";
  "Wayland-Bildschirmauswahl löschen";
  "Nachdem Sie die Bildschirmauswahl gelöscht haben, können Sie den freizugebenden Bildschirm erneut auswählen.";
  "Sind Sie sicher, dass Sie die Auswahl des Wayland-Bildschirms löschen möchten?";
  "Eine neue Sprachanrufanfrage wurde empfangen. Wenn Sie die Anfrage annehmen, wird der Ton auf Sprachkommunikation umgeschaltet.";
  "Verwenden Sie Textur-Rendering, um die Bilder glatter zu machen. Sie können diese Option deaktivieren, wenn Sie Rendering-Probleme haben.";
  "Textur-Rendering verwenden";
  "Schwebendes Fenster";
  "Es hilft dabei, RustDesk im Hintergrund auszuführen.";
  "Bildschirm eingeschaltet lassen";
  "Niemals";
  "Wenn kontrolliert";
  "Wenn der Dienst läuft";
  "Bildschirm mit DirectX aufnehmen";
  "Zurück";
  "Apps";
  "Lauter";
  "Leiser";
  "Power";
  "Telegram-Bot";
  "Wenn Sie diese Funktion aktivieren, können Sie den 2FA-Code von Ihrem Bot erhalten. Er kann auch als Verbindungsbenachrichtigung dienen.";
  with_quotes ["1. Öffnen Sie einen Chat mit @BotFather.\n2. Senden Sie den Befehl "; "/newbot"; ". Sie erhalten ein Token, nachdem Sie diesen Schritt abgeschlossen haben.\n3. Starten Sie einen Chat mit Ihrem neu erstellten Bot. Senden Sie eine Nachricht, die mit einem Schrägstrich ("; "/"; ") beginnt, z. B. "; "/hello"; ", um ihn zu aktivieren.\n"];
  "Sind Sie sicher, dass Sie 2FA abbrechen möchten?";
  "Sind Sie sicher, dass Sie Telegram-Bot abbrechen möchten?";
  "Über RustDesk";
  "Tastenanschläge aus der Zwischenablage senden";
  "Bitte überprüfen Sie Ihre Netzwerkverbindung und versuchen Sie es dann erneut.";
  "Mit PIN entsperren";
  "Erfordert mindestens {} Zeichen";
  "Falsche PIN";
  "PIN festlegen";
  "Vertrauenswürdige Geräte aktivieren";
  "Vertrauenswürdige Geräte verwalten";
  "Plattform";
  "Verbleibende Tage";
  "2FA-Verifizierung auf vertrauenswürdigen Geräten überspringen";
  "Übergeordnetes Verzeichnis";
  "Fortsetzen";
  "Ungültiger Dateiname";
  "Die einseitige Dateiübertragung ist auf der kontrollierten Seite aktiviert.";
  "Authentifizierung erforderlich";
  "Authentifizieren";
  with_quotes ["Sie können eine ID auf demselben Server eingeben, direkter IP-Zugriff wird im Web-Client nicht unterstützt.\nWenn Sie auf ein Gerät auf einem anderen Server zugreifen wollen, fügen Sie bitte die Serveradresse (<id>@<server_address>?key=<key_value>) hinzu, zum Beispiel\n9123456234@192.168.16.1:21117?key=5Qbwsde3unUcJBtrx9ZkvUmwFNoExHzpryHuPUdqlWM=.\nWenn Sie auf ein Gerät auf einem öffentlichen Server zugreifen wollen, geben Sie bitte "; "<id>@public"; " ein. Der Schlüssel wird für öffentliche Server nicht benötigt."];
  "Herunterladen";
  "Ordner hochladen";
  "Dateien hochladen";
  "Zwischenablage ist synchronisiert";
  "Client-Zwischenablage aktualisieren";
  "Unmarkiert";
  "Es ist eine neue Version von {} verfügbar";
  ""].
(** [LANGS.el] *)
Definition lang_el : jsmap string string := texts [
  "Κατάσταση";
  "Ο σταθμός εργασίας σας";
  "Η πρόσβαση στον σταθμό εργασίας σας είναι δυνατή με αυτό το αναγνωριστικό και τον κωδικό πρόσβασης.";
  "Κωδικός πρόσβασης";
  "Έτοιμο";
  "Συνδέθηκε";
  "Σύνδεση στο δίκτυο RustDesk...";
  "Ενεργοποίηση υπηρεσίας";
  "Έναρξη υπηρεσίας";
  "Η υπηρεσία εκτελείται";
  "Η υπηρεσία δεν εκτελείται";
  "Δεν είναι έτοιμο. Ελέγξτε τη σύνδεσή σας στο δίκτυο";
  "Έλεγχος απομακρυσμένου σταθμού εργασίας";
  "Μεταφορά αρχείου";
  "Σύνδεση";
  "Πρόσφατες συνεδρίες";
  "Βιβλίο διευθύνσεων";
  "Επιβεβαίωση";
  "TCP tunneling";
  "Κατάργηση";
  "Νέος τυχαίος κωδικός πρόσβασης";
  "Ορίστε τον δικό σας κωδικό πρόσβασης";
  "Ενεργοποίηση πληκτρολογίου/ποντικιού";
  "Ενεργοποίηση προχείρου";
  "Ενεργοποίηση μεταφοράς αρχείων";
  "Ενεργοποίηση TCP tunneling";
  "Λίστα επιτρεπόμενων IP";
  "Διακομιστής ID/Αναμετάδοσης";
  "Εισαγωγή διαμόρφωσης διακομιστή";
  "Εξαγωγή διαμόρφωσης διακομιστή";
  "Επιτυχής εισαγωγή διαμόρφωσης διακομιστή";
  "Επιτυχής εξαγωγή διαμόρφωσης διακομιστή";
  "Μη έγκυρη διαμόρφωση διακομιστή";
  "Το πρόχειρο είναι κενό";
  "Διακοπή υπηρεσίας";
  "Αλλαγή αναγνωριστικού ID";
  "Το νέο σας ID";
  "μέγεθος από %min% έως %max%";
  "ξεκινά με γράμμα";
  "επιτρεπόμενοι χαρακτήρες";
  "Επιτρέπονται μόνο οι χαρακτήρες a-z, A-Z, 0-9, - (dash) και _ (υπογράμμιση). Το πρώτο γράμμα πρέπει να είναι a-z, A-Z και το μήκος πρέπει να είναι μεταξύ 6 και 16 χαρακτήρων.";
  "Ιστότοπος";
  "Πληροφορίες";
  "Φτιαγμένο με πάθος - σε έναν κόσμο που βυθίζεται στο χάος!";
  "Πολιτική απορρήτου";
  "Σίγαση";
  "Ημερομηνία δημιουργίας";
  "Έκδοση";
  "Αρχική";
  "Είσοδος ήχου";
  "Βελτιώσεις";
  "Κωδικοποιητής υλικού";
  "Adaptive bitrate";
  "Διακομιστής ID";
  "Διακομιστής αναμετάδοσης";
  "Διακομιστής API";
  "Πρέπει να ξεκινά με http:// ή https://";
  "Μη έγκυρη διεύθυνση IP";
  "Μη έγκυρη μορφή";
  "Αυτή η δυνατότητα δεν υποστηρίζεται από τον διακομιστή";
  "Μη διαθέσιμο";
  "Πολύ συχνά";
  "Ακύρωση";
  "Παράλειψη";
  "Κλείσιμο";
  "Δοκίμασε ξανά";
  "ΟΚ";
  "Απαιτείται κωδικός πρόσβασης";
  "Παρακαλώ εισάγετε τον κωδικό πρόσβασης";
  "Απομνημόνευση κωδικού πρόσβασης";
  "Λάθος κωδικός πρόσβασης";
  "Επανασύνδεση;";
  "Σφάλμα σύνδεσης";
  "Σφάλμα";
  "Η σύνδεση επαναφέρθηκε από τον απομακρυσμένο σταθμό";
  "Σύνδεση...";
  "Σύνδεση σε εξέλιξη. Παρακαλώ περιμένετε.";
  "Παρακαλώ ξαναδοκιμάστε σε 1 λεπτό";
  "Σφάλμα εισόδου";
  "Επιτυχής";
  "Συνδέθηκε, αναμονή για εικόνα...";
  "Όνομα";
  "Τύπος";
  "Τροποποιήθηκε";
  "Μέγεθος";
  "Εμφάνιση κρυφών αρχείων";
  "Λήψη";
  "Αποστολή";
  "Ανανέωση αρχείου";
  "Τοπικό";
  "Απομακρυσμένο";
  "Απομακρυσμένος υπολογιστής";
  "Τοπικός υπολογιστής";
  "Επιβεβαίωση διαγραφής";
  "Διαγραφή";
  "Ιδιότητες";
  "Πολλαπλή επιλογή";
  "Επιλογή όλων";
  "Κατάργηση επιλογής όλων";
  "Κενός φάκελος";
  "Ο φάκελος δεν είναι κενός";
  "Είστε βέβαιοι ότι θέλετε να διαγράψετε αυτό το αρχείο;";
  "Είστε βέβαιοι ότι θέλετε να διαγράψετε αυτόν τον κενό φάκελο;";
  "Είστε βέβαιοι ότι θέλετε να διαγράψετε το αρχείο αυτού του φακέλου;";
  "Κάνε αυτό για όλες τις διενέξεις";
  "Αυτό είναι μη αναστρέψιμο!";
  "Διαγραφή";
  "αρχείων";
  "Αναμονή";
  "Ολοκληρώθηκε";
  "Ταχύτητα";
  "Προσαρμοσμένη ποιότητα εικόνας";
  "Λειτουργία απορρήτου";
  "Αποκλεισμός χειρισμού από τον χρήστη";
  "Κατάργηση αποκλεισμού χειρισμού από τον χρήστη";
  "Προσαρμογή παραθύρου";
  "Πρωτότυπο";
  "Συρρίκνωση";
  "Προσαρμογή";
  "Μπάρα κύλισης";
  "Αυτόματη κύλιση";
  "Καλή ποιότητα εικόνας";
  "Ισορροπημένη";
  "Βελτιστοποίηση απόκρισης";
  "Προσαρμοσμένη ποιότητας εικόνας";
  "Εμφάνιση απομακρυσμένου κέρσορα";
  "Εμφάνιση παρακολούθησης ποιότητας σύνδεσης";
  "Απενεργοποίηση προχείρου";
  "Κλείδωμα μετά το τέλος της συνεδρίας";
  "Εισαγωγή Ctrl + Alt + Del";
  "Κλείδωμα απομακρυσμένου σταθμού";
  "Ανανέωση";
  "Το αναγνωριστικό ID δεν υπάρχει";
  "Αποτυχία σύνδεσης με διακομιστή";
  "Παρακαλώ δοκιμάστε αργότερα";
  "Ο απομακρυσμένος σταθμός εργασίας είναι εκτός σύνδεσης";
  "Μη έγκυρο κλειδί";
  "Τέλος χρόνου";
  "Αποτυχία σύνδεσης με τον διακομιστή αναμετάδοσης";
  "Απέτυχε η σύνδεση μέσω διακομιστή";
  "Απέτυχε η σύνδεση μέσω διακομιστή αναμετάδοσης";
  "Απέτυχε η απευθείας σύνδεση με τον απομακρυσμένο σταθμό εργασίας";
  "Ορίστε κωδικό πρόσβασης";
  "Κωδικός πρόσβασης λειτουργικού συστήματος";
  "Λόγω UAC, το RustDesk ενδέχεται να μην λειτουργεί σωστά σε ορισμένες περιπτώσεις. Για να αποφύγετε το UAC, κάντε κλικ στο κουμπί παρακάτω για να εγκαταστήσετε το RustDesk στο σύστημα";
  "Αναβάθμιση τώρα";
  "Λήψη τώρα";
  "Ενημέρωση τώρα";
  "Διαμόρφωση";
  "Για τον απομακρυσμένο έλεγχο του υπολογιστή σας, πρέπει να εκχωρήσετε δικαιώματα πρόσβασης στο RustDesk.";
  with_quotes ["Για να αποκτήσετε απομακρυσμένη πρόσβαση στον υπολογιστή σας, πρέπει να εκχωρήσετε το δικαίωμα RustDesk "; "Screen Capture"; "."];
  "Γίνεται εγκατάσταση ...";
  "Εγκατάσταση";
  "Η εγκατάσταση";
  "Διαδρομή εγκατάστασης";
  "Δημιουργία συντομεύσεων μενού έναρξης";
  "Δημιουργία εικονιδίου επιφάνειας εργασίας";
  "Με την εγκατάσταση αποδέχεστε την άδεια χρήσης";
  "Αποδοχή και εγκατάσταση";
  "Σύμβαση άδειας χρήσης τελικού χρήστη";
  "Δημιουργία ...";
  "Η έκδοση της εγκατάστασής σας είναι παλαιότερη.";
  "Μην κλείσετε αυτό το παράθυρο ενώ χρησιμοποιείτε το τούνελ.";
  "Αναμονή ...";
  "Απομακρυσμένος υπολογιστής";
  "Απομακρυσμένη θύρα";
  "Δράση";
  "Προσθήκη";
  "Τοπική θύρα";
  "Τοπική διεύθυνση";
  "Αλλαγή τοπικής θύρας";
  "Για πιο γρήγορη σύνδεση, ρυθμίστε τον δικό σας διακομιστή σύνδεσης";
  "Πολύ μικρό, τουλάχιστον 6 χαρακτήρες.";
  "Η επιβεβαίωση δεν είναι πανομοιότυπη.";
  "Άδειες";
  "Αποδοχή";
  "Απόρριψη";
  "Αποσύνδεση";
  "Να επιτρέπεται η αντιγραφή και επικόλληση αρχείων";
  "Συνδεδεμένο";
  "Άμεση και κρυπτογραφημένη σύνδεση";
  "Κρυπτογραφημένη σύνδεση με αναμετάδοση";
  "Άμεση και μη κρυπτογραφημένη σύνδεση";
  "Μη κρυπτογραφημένη σύνδεση με αναμετάδοση";
  "Εισαγωγή απομακρυσμένου ID";
  "Εισάγετε τον κωδικό σας";
  "Γίνεται σύνδεση...";
  "Ενεργοποίηση κοινής χρήσης RDP";
  "Αυτόματη είσοδος";
  "Ενεργοποίηση άμεσης πρόσβασης IP";
  "Μετονομασία";
  "Χώρος";
  "Δημιουργία συντόμευσης στην επιφάνεια εργασίας";
  "Αλλαγή διαδρομής δίσκου";
  "Δημιουργία φακέλου";
  "Παρακαλώ εισάγετε το όνομα του φακέλου";
  "Επιδιόρθωσε το";
  "Προειδοποίηση";
  "Η οθόνη εισόδου με χρήση του Wayland δεν υποστηρίζεται";
  "Απαιτείται επανεκκίνηση";
  "Μη υποστηριζόμενος διακομιστής εμφάνισης ";
  "απαιτείται X11";
  "Θύρα";
  "Ρυθμίσεις";
  "Όνομα χρήστη";
  "Μη έγκυρη θύρα";
  "Έκλεισε από τον απομακρυσμένο σταθμό";
  "Ενεργοποίηση απομακρυσμένης τροποποίησης ρυθμίσεων";
  "Εκτέλεση χωρίς εγκατάσταση";
  "Πραγματοποίηση σύνδεση μέσω αναμεταδότη";
  "Σύνδεση πάντα μέσω αναμεταδότη";
  "Μόνο οι IP της λίστας επιτρεπόμενων έχουν πρόσβαση";
  "Σύνδεση";
  "Επαλήθευση";
  "Να με θυμάσαι";
  "Εμπιστεύομαι αυτή την συσκευή";
  "Κωδικός επαλήθευσης";
  "Εντοπίστηκε νέα συσκευή και εστάλη ένας κωδικός επαλήθευσης στην καταχωρισμένη διεύθυνση email. Εισαγάγετε τον κωδικό επαλήθευσης για να συνδεθείτε ξανά.";
  "Αποσύνδεση";
  "Ετικέτες";
  "Αναζήτηση ID";
  "Διαχωρίζονται με κόμμα, ερωτηματικό, διάστημα ή νέα γραμμή";
  "Προσθήκη αναγνωριστικού ID";
  "Προσθήκη ετικέτας";
  "Κατάργηση επιλογής όλων των ετικετών";
  "Σφάλμα δικτύου";
  "Δεν συμπληρώσατε το όνομα χρήστη";
  "Δεν συμπληρώσατε τον κωδικό πρόσβασης";
  "Λάθος διαπιστευτήρια";
  "";
  "Επεξεργασία ετικέτας";
  "Διαγραφή απομνημονευμένου κωδικού";
  "Αγαπημένα";
  "Προσθήκη στα αγαπημένα";
  "Κατάργηση από τα Αγαπημένα";
  "Άδειο";
  "Μη έγκυρο όνομα φακέλου";
  "Διαμεσολαβητής Socks5";
  "Διαμεσολαβητής Socks5/Http(s)";
  "Ανακαλύφθηκαν";
  "Για να ξεκινά με την εκκίνηση του υπολογιστή, πρέπει να εγκαταστήσετε την υπηρεσία συστήματος";
  "Απομακρυσμένο ID";
  "Επικόλληση";
  "Επικόλληση εδώ;";
  "Είστε βέβαιοι ότι θέλετε να κλείσετε αυτήν τη σύνδεση;";
  "Λήψη νέας έκδοσης";
  "Λειτουργία αφής";
  "Λειτουργία ποντικιού";
  "Πάτημα με ένα δάχτυλο";
  "Αριστερό κλικ";
  "Παρατεταμένο πάτημα με ένα δάχτυλο";
  "Πάτημα με δύο δάχτυλα";
  "Δεξί κλικ";
  "Κίνηση με ένα δάχτυλο";
  "Διπλό πάτημα και μετακίνηση";
  "Σύρετε το ποντίκι";
  "Τρία δάχτυλα, κάθετα";
  "Τροχός ποντικιού";
  "Κίνηση με δύο δάχτυλα";
  "Κίνηση καμβά";
  "Τσίμπημα για ζουμ";
  "Ζουμ σε καμβά";
  "Επαναφορά καμβά";
  "Δεν υπάρχει άδεια για μεταφορά αρχείων";
  "Σημείωση";
  "Σύνδεση";
  "Κοινή χρήση οθόνης";
  "Κουβέντα";
  "Σύνολο";
  "στοιχεία";
  "Επιλεγμένο";
  "Αποτύπωση οθόνης";
  "Έλεγχος εισόδου";
  "Εγγραφή ήχου";
  "Σύνδεση αρχείου";
  "Σύνδεση οθόνης";
  "Δέχεσαι;";
  "Άνοιγμα ρυθμίσεων συστήματος";
  "Πώς να αποκτήσω άδεια εισαγωγής Android;";
  with_quotes ["Για να μπορεί μία απομακρυσμένη συσκευή να ελέγχει τη συσκευή σας Android, πρέπει να επιτρέψετε στο RustDesk να χρησιμοποιεί την υπηρεσία "; "Προσβασιμότητα"; "."];
  "Παρακαλώ μεταβείτε στην επόμενη σελίδα ρυθμίσεων συστήματος, βρείτε και πληκτρολογήστε [Εγκατεστημένες υπηρεσίες], ενεργοποιήστε την υπηρεσία [Είσοδος RustDesk].";
  "θέλω να ελέγξω τη συσκευή σου.";
  "Η ενεργοποίηση της κοινής χρήσης οθόνης θα ξεκινήσει αυτόματα την υπηρεσία, ώστε άλλες συσκευές να μπορούν να ελέγχουν αυτήν τη συσκευή Android.";
  "Η απενεργοποίηση της υπηρεσίας θα αποσυνδέσει αυτόματα όλες τις εγκατεστημένες συνδέσεις.";
  "Η έκδοση Android που διαθέτετε δεν υποστηρίζει εγγραφή ήχου, ενημερώστε το σε Android 10 ή νεότερη έκδοση, εάν είναι δυνατόν.";
  "";
  "";
  "Λογαριασμός";
  "Αντικατάσταση";
  "Αυτό το αρχείο υπάρχει, παράβλεψη ή αντικατάσταση αυτού του αρχείου;";
  "Έξοδος";
  "Βοήθεια";
  "Απέτυχε";
  "Επιτυχής";
  "Κάποιος ενεργοποιεί τη λειτουργία απορρήτου, έξοδος";
  "Δεν υποστηρίζεται";
  "Ο απομακρυσμένος σταθμός απέρριψε τη σύνδεση";
  "Παρακαλώ εγκαταστήστε τα πρόσθετα";
  "Ο απομακρυσμένος σταθμός έχει αποσυνδεθεί";
  "Αποτυχία απενεργοποίησης";
  "Απενεργοποιημένο";
  "Γλώσσα";
  "Εκτέλεση του RustDesk στο παρασκήνιο";
  "Παράβλεψη βελτιστοποιήσεων μπαταρίας";
  "Θέλετε να ανοίξετε τις ρυθμίσεις βελτιστοποίησης μπαταρίας;";
  "Έναρξη κατά την εκκίνηση";
  "Η έναρξη της υπηρεσίας κοινής χρήσης οθόνης κατά την εκκίνηση, απαιτεί ειδικά δικαιώματα";
  "Η σύνδεση δεν επιτρέπεται";
  "Λειτουργία συμβατότητας";
  "Λειτουργία χάρτη";
  "Λειτουργία μετάφρασης";
  "Χρήση μόνιμου κωδικού πρόσβασης";
  "Χρήση και των δύο κωδικών πρόσβασης";
  "Ορισμός μόνιμου κωδικού πρόσβασης";
  "Ενεργοποίηση απομακρυσμένης επανεκκίνησης";
  "Επανεκκίνηση απομακρυσμένης συσκευής";
  "Είστε βέβαιοι ότι θέλετε να κάνετε επανεκκίνηση";
  "Γίνεται επανεκκίνηση της απομακρυσμένης συσκευής";
  "Η απομακρυσμένη συσκευή επανεκκινείται, κλείστε αυτό το μήνυμα και επανασυνδεθείτε χρησιμοποιώντας τον μόνιμο κωδικό πρόσβασης.";
  "Αντιγράφηκε";
  "Έξοδος από πλήρη οθόνη";
  "Πλήρης οθόνη";
  "Mobile Actions";
  "Επιλογή οθόνης";
  "Ενέργειες ελέγχου";
  "Ρυθμίσεις οθόνης";
  "Αναλογία";
  "Ποιότητα εικόνας";
  "Στυλ κύλισης";
  "Εμφάνιση γραμμής εργαλείων";
  "Απόκρυψη γραμμής εργαλείων";
  "Απευθείας σύνδεση";
  "Αναμεταδιδόμενη σύνδεση";
  "Ασφαλής σύνδεση";
  "Μη ασφαλής σύνδεση";
  "Κλιμάκωση πρωτότυπου";
  "Προσαρμοσμένη κλίμακα";
  "Γενικά";
  "Ασφάλεια";
  "Θέμα";
  "Σκούρο θέμα";
  "Φωτεινό θέμα";
  "Σκούρο";
  "Φωτεινό";
  "Από το σύστημα";
  "Ενεργοποίηση κωδικοποιητή υλικού";
  "Ξεκλείδωμα ρυθμίσεων ασφαλείας";
  "Ενεργοποίηση ήχου";
  "Ξεκλείδωμα ρυθμίσεων δικτύου";
  "Διακομιστής";
  "Πρόσβαση με χρήση IP";
  "Διαμεσολαβητής";
  "Εφαρμογή";
  "Αποσύνδεση όλων των συσκευών;";
  "Καθαρισμός";
  "Συσκευή εισόδου ήχου";
  "Χρήση λίστας επιτρεπόμενων IP";
  "Δίκτυο";
  "Καρφίτσωμα γραμμής εργαλείων";
  "Ξεκαρφίτσωμα γραμμής εργαλείων";
  "Εγγραφή";
  "Φάκελος εγγραφών";
  "Αυτόματη εγγραφή εισερχόμενων συνεδριών";
  "";
  "Αλλαγή";
  "Έναρξη εγγραφής συνεδρίας";
  "Διακοπή εγγραφής συνεδρίας";
  "Ενεργοποίηση εγγραφής συνεδρίας";
  "Ενεργοποίηση εντοπισμού LAN";
  "Απαγόρευση εντοπισμού LAN";
  "Γράψτε ένα μήνυμα";
  "Υπενθυμίζω";
  "Παρακαλώ περιμένετε για επιβεβαίωση του UAC...";
  "Το τρέχον παράθυρο της απομακρυσμένης επιφάνειας εργασίας απαιτεί υψηλότερα δικαιώματα για να λειτουργήσει, επομένως δεν μπορεί να χρησιμοποιήσει προσωρινά το ποντίκι και το πληκτρολόγιο. Μπορείτε να ζητήσετε από τον απομακρυσμένο χρήστη να ελαχιστοποιήσει το τρέχον παράθυρο ή να κάνετε κλικ στο κουμπί ανύψωσης στο παράθυρο διαχείρισης σύνδεσης. Για να αποφύγετε αυτό το πρόβλημα, συνιστάται η εγκατάσταση του λογισμικού στην απομακρυσμένη συσκευή.";
  "Αποσυνδέθηκε";
  "Άλλα";
  "Επιβεβαίωση πριν κλείσετε πολλές καρτέλες";
  "Ρυθμίσεις πληκτρολογίου";
  "Πλήρης πρόσβαση";
  "Κοινή χρήση οθόνης";
  "Το Wayland απαιτεί Ubuntu 21.04 ή νεότερη έκδοση.";
  "Το Wayland απαιτεί υψηλότερη έκδοση του linux distro. Δοκιμάστε την επιφάνεια εργασίας X11 ή αλλάξτε το λειτουργικό σας σύστημα.";
  "Προβολή";
  "Επιλέξτε την οθόνη που θέλετε να μοιραστείτε (Λειτουργία στην πλευρά του απομακρυσμένου σταθμού).";
  "Εμφάνιση RustDesk";
  "Αυτός ο υπολογιστής";
  "ή";
  "Συνέχεια με";
  "Ανύψωση";
  "Kέρσορας μεγέθυνσης";
  "Αποδοχή συνεδριών με κωδικό πρόσβασης";
  "Αποδοχή συνεδριών με κλικ";
  "Αποδοχή συνεδριών και με τα δύο";
  "Παρακαλώ περιμένετε μέχρι η απομακρυσμένη πλευρά να αποδεχτεί το αίτημα συνεδρίας σας...";
  "Κωδικός μίας χρήσης";
  "Χρήση κωδικού πρόσβασης μίας χρήσης";
  "Μήκος κωδικού πρόσβασης μίας χρήσης";
  "Αίτημα πρόσβασης στη συσκευή σας";
  "Απόκρυψη παραθύρου διαχείρισης σύνδεσης";
  "Να επιτρέπεται η απόκρυψη, μόνο εάν αποδέχεστε συνδέσεις μέσω κωδικού πρόσβασης και χρησιμοποιείτε μόνιμο κωδικό πρόσβασης";
  "Η υποστήριξη Wayland βρίσκεται σε πειραματικό στάδιο, χρησιμοποιήστε το X11 εάν χρειάζεστε πρόσβαση χωρίς επίβλεψη.";
  "Κάντε δεξί κλικ για να επιλέξετε καρτέλες";
  "Παράλειψη";
  "Προσθήκη στο Βιβλίο Διευθύνσεων";
  "Ομάδα";
  "Αναζήτηση";
  "Κλειστό χειροκίνητα από την κονσόλα web";
  "Τύπος τοπικού πληκτρολογίου";
  "Επιλογή τύπου τοπικού πληκτρολογίου";
  "Εάν έχετε κάρτα γραφικών Nvidia και το παράθυρο σύνδεσης κλείνει αμέσως μετά τη σύνδεση, η εγκατάσταση του προγράμματος οδήγησης nouveau και η επιλογή χρήσης της επιτάχυνσης γραφικών μέσω λογισμικού μπορεί να βοηθήσει. Απαιτείται επανεκκίνηση.";
  "Επιτάχυνση γραφικών μέσω λογισμικού";
  "Για να ελέγξετε την απομακρυσμένη επιφάνεια εργασίας με πληκτρολόγιο, πρέπει να εκχωρήσετε δικαιώματα στο RustDesk";
  "Ρύθμιση μικροφώνου";
  "αίτημα ανύψωσης δικαιωμάτων χρήστη";
  "Περιμένετε";
  "Σφάλμα ανύψωσης δικαιωμάτων χρήστη";
  "Ζητήστε από τον απομακρυσμένο χρήστη έλεγχο ταυτότητας";
  "Επιλέξτε αυτό εάν ο απομακρυσμένος λογαριασμός είναι διαχειριστής";
  "Αποστολή του ονόματος χρήστη και του κωδικού πρόσβασης του διαχειριστή";
  "Εξακολουθεί να απαιτεί από τον απομακρυσμένο χρήστη να κάνει κλικ στο OK στο παράθυρο UAC όπου εκτελείται το RustDesk.";
  "Αίτημα ανύψωσης δικαιωμάτων χρήστη";
  "Περιμένετε να αποδεχτεί ο απομακρυσμένος χρήστης το παράθυρο διαλόγου UAC.";
  "Επιτυχής ανύψωση δικαιωμάτων χρήστη";
  "κεφαλαία γράμματα";
  "πεζά γράμματα";
  "αριθμός";
  "ειδικός χαρακτήρας";
  "μήκος>=8";
  "Αδύναμο";
  "Μέτριο";
  "Δυνατό";
  "Εναλλαγή πλευράς";
  "Παρακαλώ επιβεβαιώστε αν επιθυμείτε την κοινή χρήση της επιφάνειας εργασίας;";
  "Εμφάνιση";
  "Προκαθορισμένος τρόπος εμφάνισης";
  "Προκαθορισμένος τρόπος κύλισης";
  "Προκαθορισμένη ποιότητα εικόνας";
  "Προκαθορισμένη κωδικοποίηση";
  "Bitrate";
  "FPS";
  "Αυτόματο";
  "Άλλες προκαθορισμένες ρυθμίσεις";
  "Φωνητική κλήση";
  "Συνομιλία κειμένου";
  "Διακοπή φωνητικής κλήσης";
  "Εάν δεν είναι δυνατή η απευθείας σύνδεση, μπορείτε να δοκιμάσετε να συνδεθείτε μέσω διακομιστή αναμετάδοσης";
  "Επανασύνδεση";
  "Κωδικοποίηση";
  "Ανάλυση";
  "Δεν υπάρχει μεταφορά σε εξέλιξη";
  "Μέγεθος κωδικού μιας χρήσης";
  "Ρυθμίσεις RDP";
  "Ταξινόμηση κατά";
  "Νέα σύνδεση";
  "Επαναφορά";
  "Ελαχιστοποίηση";
  "Μεγιστοποίηση";
  "Η συσκευή σας";
  "Δεν υπάρχουν πρόσφατες συνεδρίες!\nΔοκιμάστε να ξεκινήσετε μια νέα.";
  "Δεν υπάρχουν ακόμη αγαπημένες συνδέσεις;\nΑφού πραγματοποιήσετε σύνδεση με κάποιο απομακρυσμένο σταθμό, μπορείτε να τον προσθέσετε στα αγαπημένα σας!";
  "Δεν έχουμε ανακαλυφθεί ακόμη απομακρυσμένοι σταθμοί.";
  "Φαίνεται ότι αυτή τη στιγμή δεν υπάρχουν αγαπημένες συνδέσεις στο βιβλίο διευθύνσεών σας.";
  "π.χ. admin";
  "Κενό όνομα χρήστη";
  "Κενός κωδικός πρόσβασης";
  "Εγώ";
  "Το αρχείο είναι πανομοιότυπο με αυτό του άλλου υπολογιστή.";
  "Εμφάνιση οθονών στη γραμμή εργαλείων";
  "Λειτουργία προβολής";
  "Απαιτείται είσοδος σε απομακρυσμένο λογαριασμό Linux για την ενεργοποίηση του περιβάλλον εργασίας Χ.";
  "Επιβεβαιώστε τον κωδικό του RustDesk";
  "Απομνημόνευση αυτού του λογαριασμού";
  "Αυτός ο λογαριασμός θα χρησιμοποιηθεί για την είσοδο και διαχείριση του απομακρυσμένου λειτουργικού συστήματος";
  "Λογαριασμός λειτουργικού συστήματος";
  "Υπάρχει ήδη άλλος συνδεδεμένος χρήστης";
  "Αποσύνδεση";
  "Δεν βρέθηκε το Xorg";
  "Παρακαλώ εγκαταστήστε το Xorg";
  "Δεν υπάρχει διαθέσιμη επιφάνεια εργασίας";
  "Παρακαλώ εγκαταστήστε το περιβάλλον GNOME";
  "Δεν χρειάζονται αυξημένα δικαιώματα";
  "Ήχος συστήματος";
  "Προκαθορισμένο";
  "Νέα απομακρυσμένη σύνδεση";
  "";
  "";
  "";
  "Επιλέξτε σταθμό";
  "Επιλέξτε σταθμούς";
  "Επεκτάσεις";
  "Κατάργηση εγκατάστασης";
  "Ενημέρωση";
  "Ενεργοποίηση";
  "Απενεργοποίηση";
  "Επιλογές";
  "Αρχική ανάλυση";
  "Προσαρμογή στην τοπική ανάλυση";
  "Προσαρμοσμένη ανάλυση";
  "Εμφάνιση γραμμής εργαλείων";
  "Αποδοχή με αυξημένα δικαιώματα";
  "Αποδοχή της σύνδεσης με αυξημένα δικαιώματα χρήστη";
  "Έληξε ο χρόνος αναμονής για την ανταπόκριση της αντιγραφής";
  "Εισερχόμενη σύνδεση";
  "Εξερχόμενη σύνδεση";
  "Έξοδος";
  "Άνοιγμα";
  "Είστε σίγουροι ότι θέλετε να αποσυνδεθείτε;";
  "Υπηρεσία";
  "Έναρξη";
  "Διακοπή";
  "Υπέρβαση μέγιστου ορίου αποθηκευμένων συνδέσεων";
  "Συγχρονισμός των πρόσφατων συνεδριών";
  "Ταξινόμηση ετικετών";
  "Άνοιγμα σύνδεσης σε νέα καρτέλα";
  "Μετακίνηση καρτέλας σε νέο παράθυρο";
  "Δεν μπορεί να είναι κενό";
  "Υπάρχει ήδη";
  "Αλλαγή κωδικού";
  "Ανανέωση κωδικού";
  "";
  "Προβολή σε πλακίδια";
  "Προβολή σε λίστα";
  "Επιλογή";
  "Εναλλαγή ετικετών";
  "Αποτυχία ανανέωσης βιβλίου διευθύνσεων";
  "Αποτυχία συγχρονισμού βιβλίου διευθύνσεων";
  "Οι συσκευές των τρεχουσών συνεδριών θα συγχρονιστούν με το βιβλίο διευθύνσεων";
  "Αλλαγή χρώματος";
  "Κυρίως χρώμα";
  "Χρώμα HSV";
  "Επιτυχής εγκατάσταση!";
  "Αποτυχία εγκατάστασης!";
  "Αντιστροφή τροχού ποντικιού";
  "{} συνεδρίες";
  "Ίσως είστε θύμα ΑΠΑΤΗΣ!";
  "Αν σας καλέσει κάποιος τον οποίο ΔΕΝ γνωρίζεται και ΔΕΝ ΕΜΠΙΣΤΕΥΕΣΤΕ, και σας ζητήσει να ανοίξετε το RustDesk, και να του πείτε τα στοιχεία που εμφανίζει, ΜΗΝ συνεχίσετε και κλείστε το τηλέφωνο ΑΜΕΣΩΣ.";
  "Πιθανόν είναι κάποιος απατεώνας ο οποίος προσπαθεί να αποσπάσει τα στοιχεία του τραπεζικού σας λογαριασμού, τα χρήματά σας και τις προσωπικές σας πληροφορίες.";
  "Να μην εμφανιστεί ξανά";
  "Συμφωνώ";
  "Διαφωνώ";
  "Τέλος χρόνου σε λεπτά";
  "Αυτόματη αποσύνδεση απομακρυσμένης συνεδρίας έπειτα από την πάροδο του χρονικού ορίου αδράνειας ";
  "Η σύνδεση τερματίστηκε έπειτα από την πάροδο του χρόνου αδράνειας";
  "Έλεγχος για ενημερώσεις κατα την εκκίνηση";
  "Παρακαλώ ενημερώστε τον RustDesk Server Pro στην έκδοση {} ή νεότερη!";
  "Αποτυχία ανανέωσης της ομάδας";
  "";
  "Αφαίρεση εικόνας φόντου στις εισερχόμενες συνδέσεις";
  "Δοκιμή";
  "Η οθόνη έχει αποσυνδεθεί, επιστρέψτε στην κύρια οθόνη προβολής";
  "Δεν υπάρχουν οθόνες";
  "Άνοιγμα σε νέο παράθυρο";
  "Εμφάνιση οθονών σε ξεχωριστά παράθυρα";
  "Χρήση όλων των οθονών της απομακρυσμένης σύνδεσης";
  "Έχετε ενεργοποιημένο το SELinux, το οποίο πιθανόν εμποδίζει την ορθή λειτουργία του RustDesk.";
  "Αλλαγή απεικόνισης";
  "Μεγάλα εικονίδια";
  "Μικρά εικονίδια";
  "Λίστα";
  "Εινονική οθόνη";
  "Αποσύνδεση όλων";
  "";
  "Ενεργοποίηση αποκλεισμού χειρισμού από τον χρήστη";
  with_quotes ["Μπορείτε να εισάγετε ενα ID, μια διεύθυνση IP, ή ένα όνομα τομέα με την αντίστοιχη πόρτα (<domain>:<port>).\nΑν θέλετε να συνδεθείτε σε μια συσκευή σε άλλο διακομιστή, παρακαλώ να προσθέσετε και την διεύθυνση του διακομιστή (<id>@<server_address>?key=<key_value>), για παράδειγμα,\n9123456234@192.168.16.1:21117?key=5Qbwsde3unUcJBtrx9ZkvUmwFNoExHzpryHuPUdqlWM=.\nΑν θέλετε να συνδεθείτε σε κάποιο δημόσιο διακομιστή, προσθέστε το όνομά του "; "<id>@public"; ", η παράμετρος key δεν απαιτείται για τους δημόσιους διακομιστές."];
  "Προφύλαξη Οθόνης";
  "Εικονική Οθόνη";
  "Ενεργοποίηση λειτουργίας απορρήτου";
  "Διακοπή λειτουργίας απορρήτου";
  "Το πρόγραμμα οδήγησης έμμεσης οθόνης δεν υποστηρίζεται. Απαιτείτε λειτουργικό σύστημα Windows 10 έκδοση 2004 ή νεότερο.";
  "Πηγή εισόδου 1";
  "Πηγή εισόδου 2";
  "Εναλλαγή κουμπιών control-command";
  "Εναλλαγή αριστερό-δεξί κουμπί του ποντικιού";
  "κωδικός 2FA";
  "Περισσότερα";
  "Ενεργοποίηση Πιστοποίησης Δύο Παραγόντων";
  "Ρυθμίστε τον έλεγχο ταυτότητας τώρα. Μπορείτε να χρησιμοποιήσετε μια εφαρμογή ελέγχου ταυτότητας όπως Authy, Microsoft ή Google Authenticator στο τηλέφωνο ή στην επιφάνεια εργασίας σας.Σαρώστε τον κωδικό QR με την εφαρμογή σας και εισαγάγετε τον κωδικό που εμφανίζει η εφαρμογή σας για να ενεργοποιήσετε τον έλεγχο ταυτότητας δύο παραγόντων.";
  "Δεν είναι δυνατή η επαλήθευση του κωδικού. Ελέγξτε ότι ο κωδικός και οι ρυθμίσεις τοπικής ώρας είναι σωστές";
  "Έλεγχος ταυτότητας δύο παραγόντων";
  "Ο κωδικός επαλήθευσης email πρέπει να είναι εως 6 χαρακτήρες";
  "Ο κωδικός 2FA πρέπει να είναι 6ψήφιος.";
  "";
  "Επιλέξτε τη συνεδρία στην οποία θέλετε να συνδεθείτε";
  "Με την υποστήριξη της RustDesk";
  "";
  "προειδοποίηση προκαθορισμένου κωδικού πρόσβασης";
  "Ειδοποίηση ασφαλείας";
  "Το βιβλίο διευθύνσεών μου";
  "Προσωπικό";
  "Ιδιοκτήτης";
  "Ορίστε κοινόχρηστο κωδικό πρόσβασης";
  "Υπάρχει στο";
  "Μόνο για ανάγνωση";
  "Ανάγνωση/Εγγραφή";
  "Πλήρης Έλεγχος";
  "Τα παραπάνω πεδία είναι κοινόχρηστα και ορατά σε άλλους.";
  "Όλοι";
  "Περισσότερα στην κονσόλα web";
  "Να επιτρέπεται η σύνδεση μόνο εάν το παράθυρο RustDesk είναι ανοιχτό";
  "Δεν υπάρχουν φυσικές οθόνες, δεν χρειάζεται να χρησιμοποιήσετε τη λειτουργία απορρήτου.";
  "Παρακολούθηση απομακρυσμένου κέρσορα";
  "Παρακολούθηση απομακρυσμένου ενεργού παραθύρου";
  "Προκαθορισμένο πρωτόκολλο Socks5 στην πόρτα 1080";
  "Δεν βρέθηκε συσκευή εισόδου ήχου.";
  "Εισερχόμενη";
  "Εξερχόμενη";
  "";
  "";
  "";
  "";
  "";
  "";
  "";
  "";
  "Διατήρηση οθόνης Ανοιχτή";
  "Ποτέ";
  "Κατα την διάρκεια απομακρυσμένου ελέγχου";
  "Κατα την εκκίνηση της υπηρεσίας Rustdesk";
  "Καταγραφή οθόνης με χρήση DirectX";
  "Πίσω";
  "Εφαρμογές";
  "Αύξηση έντασης";
  "Μείωση έντασης";
  "";
  "";
  "Εάν ενεργοποιήσετε αυτήν τη δυνατότητα, μπορείτε να λάβετε τον κωδικό 2FA από το bot σας. Μπορεί επίσης να λειτουργήσει ως ειδοποίηση σύνδεσης.";
  with_quotes ["1, Ανοίξτε μια συνομιλία με τον @BotFather., Στείλτε την εντολή "; "/newbot"; ". Θα λάβετε ένα διακριτικό αφού ολοκληρώσετε αυτό το βήμα.3, Ξεκινήστε μια συνομιλία με το bot που μόλις δημιουργήσατε. Στείλτε ένα μήνυμα που αρχίζει με κάθετο ("; "/"; ") όπως "; "/hello"; " για να το ενεργοποιήσετε."];
  "Είστε βέβαιοι ότι θέλετε να ακυρώσετε το 2FA;";
  "Είστε βέβαιοι ότι θέλετε να ακυρώσετε το Telegram bot;";
  "";
  "Αποστολή προχείρου με πλήκτρα συντόμευσης";
  "Ελέγξτε τη σύνδεσή σας στο δίκτυο και, στη συνέχεια, κάντε κλικ στην επανάληψη.";
  "Ξεκλείδωμα με PIN";
  "Απαιτούνται τουλάχιστον {} χαρακτήρες";
  "Λάθος PIN";
  "Ορισμός PIN";
  "Ενεργοποίηση αξιόπιστων συσκευών";
  "Διαχείριση αξιόπιστων συσκευών";
  "Πλατφόρμα";
  "Ημέρες που απομένουν";
  "Παράβλεψη επαλήθευσης 2FA σε αξιόπιστες συσκευές.";
  "Γονικός φάκελος";
  "Συνέχεια";
  "Μη έγκυρο όνομα αρχείου";
  "";
  "Απαιτείται έλεγχος ταυτότητας";
  "Πιστοποίηση";
  "";
  "";
  "Μεταφόρτωση φακέλου";
  "Μεταφόρτωση αρχείων";
  "Το πρόχειρο έχει συγχρονιστεί";
  "Ενημέρωση απομακρισμένου προχείρου";
  "Χωρίς ετικέτα";
  "Υπάρχει διαθέσιμη νέα έκδοση του {}";
  ""].
(** [LANGS.eo] *)
Definition lang_eo : jsmap string string := texts [
  "Stato";
  "Via aparato";
  "Via aparato povas esti alirita kun tiu identigilo kaj pasvorto";
  "Pasvorto";
  "Preta";
  "Establis";
  "Konektante al la reto RustDesk...";
  "Ebligi servon";
  "Starti servon";
  "La servo funkcias";
  "La servo ne funkcias";
  "Ne preta, bonvolu kontroli la retkonekto";
  "Kontroli foran aparaton";
  "Transigi dosieron";
  "Konekti al";
  "Lastaj sesioj";
  "Adresaro";
  "Konfirmacio";
  "Tunelado TCP";
  "Forigi";
  "Regeneri hazardan pasvorton";
  "Agordi vian propran pasvorton";
  "Ebligi klavaro/muso";
  "Sinkronigi poŝon";
  "Ebligi dosiertransigado";
  "Ebligi tunelado TCP";
  "Listo de IP akceptataj";
  "Identigila/Relajsa servilo";
  "Importi servilan agordon";
  "Eksporti servilan agordon";
  "Importi servilan agordon sukcese";
  "Eksporti servilan agordon sukcese";
  "Nevalida servila agordo";
  "La poŝo estas malplena";
  "Haltu servon";
  "Ŝanĝi identigilon";
  "Via nova identigilo";
  "longeco %min% al %max%";
  "komencas kun letero";
  "permesitaj signoj";
  "Nur la signoj a-z, A-Z, 0-9, - (dash), _ (substreko) povas esti uzataj. La unua litero povas esti inter a-z, A-Z. La longeco devas esti inter 6 kaj 16.";
  "Retejo";
  "Pri";
  "Farita kun koro en ĉi tiu ĥaosa mondo!";
  "Deklaro Pri Privateco";
  "Muta";
  "konstruada dato";
  "Versio";
  "Hejmo";
  "Aŭdia Enigo";
  "Plibonigoj";
  "Aparataro Kodeko";
  "Adapta bitrapido";
  "Servilo de identigiloj";
  "Relajsa Servilo";
  "Servilo de API";
  "Devas komenci kun http:// aŭ https://";
  "IP nevalida";
  "Formato nevalida";
  "Ankoraŭ ne subtenata de la servilo";
  "Nedisponebla";
  "Tro ofte ŝanĝita, bonvolu reprovi poste";
  "Nuligi";
  "Ignori";
  "Fermi";
  "Reprovi";
  "Konfermi";
  "Pasvorto deviga";
  "Bonvolu tajpi vian pasvorton";
  "Memori pasvorton";
  "Erara pasvorto";
  "Ĉu vi aliri denove?";
  "Eraro de konektado";
  "Eraro";
  "La konekto estas fermita de la samtavolano";
  "Konektante...";
  "Konektado farata. Bonvolu atendi.";
  "Reprovi post 1 minuto";
  "Eraro de konektado";
  "Sukceso";
  "Konektita, atendante bildon...";
  "Nomo";
  "Tipo";
  "Modifita";
  "Grandeco";
  "Montri kaŝitajn dosierojn";
  "Akcepti";
  "Sendi";
  "Aktualigu Dosieron";
  "Loka";
  "Fora";
  "Fora komputilo";
  "Loka komputilo";
  "Konfermi la forigo";
  "Forigi";
  "Propraĵoj";
  "Pluropa Elekto";
  "Elektu Ĉiujn";
  "Malelektu Ĉiujn";
  "Malplena Dosierujo";
  "Ne Malplena Dosierujo";
  "Ĉu vi certas, ke vi volas forigi ĉi tiun dosieron?";
  "Ĉu vi certas, ke vi volas forigi ĉi tiun malplenan dosierujon?";
  "Ĉu vi certa. ke vi volas forigi la dosieron de ĉi tiu dosierujo";
  "Same por ĉiuj konfliktoj";
  "Ĉi tio estas neinversigebla!";
  "Forigado";
  "dosiero";
  "Atendante...";
  "Finita";
  "Rapideco";
  "Agordi bildan kvaliton";
  "Modo privata";
  "Bloki uzanta enigo";
  "Malbloki uzanta enigo";
  "Adapti fenestro";
  "Originala rilatumo";
  "Ŝrumpi";
  "Streĉi";
  "Rulumbreto";
  "Rulumu Aŭtomate";
  "Bona bilda kvalito";
  "Normala bilda kvalito";
  "Optimigi reakcia tempo";
  "";
  "Montri foran kursoron";
  "Montri kvalito monitoron";
  "Malebligi poŝon";
  "Ŝlosi foran komputilon post malkonektado";
  "Enmeti Ctrl + Alt + Del";
  "Ŝlosi foran komputilon";
  "Refreŝigi ekranon";
  "La identigilo ne ekzistas";
  "Malsukcesis konekti al la servilo rendezvous";
  "Bonvolu provi poste";
  "La fora aparato estas senkonektita";
  "Miskongruo de klavoj";
  "Konekta posttempo";
  "Malsukcesis konekti al la relajsa servilo";
  "Malsukcesis konekti per servilo rendezvous";
  "Malsukcesis konekti per relajsa servilo";
  "Malsukcesis konekti direkte";
  "Agordi pasvorton";
  "Pasvorto de la operaciumo";
  "Vi ne uzas instalita versio. Pro limigoj pro UAC, kiel aparato kontrolata, en kelkaj kazoj, ne estos ebla kontroli la muson kaj klavaron aŭ registri la ekranon. Bonvolu alkliku la butonon malsupre por instali RustDesk sur la operaciumo por eviti la demando supre.";
  "Alklaki por plibonigi";
  "Alklaki por elŝuti";
  "Alklaki por ĝisdatigi";
  "Konfiguri";
  with_quotes ["Por uzi vian foran aparaton, bonvolu doni la permeson "; "alirebleco"; " al RustDesk."];
  with_quotes ["Por uzi vian foran aparaton, bonvolu doni la permeson "; "ekranregistrado"; " al RustDesk."];
  "Instalante...";
  "Instali";
  "Instalado";
  "Vojo de instalo";
  "Aldoni ligilojn sur la startmenuo";
  "Aldoni ligilojn sur la labortablo";
  "Starti la instaladon signifas akcepti la permesilon.";
  "Akcepti kaj instali";
  "Uzanta permesilon";
  "Generante...";
  "Via versio de instalaĵo estas pli malalta ol la lasta.";
  "Bonvolu ne fermu tiun fenestron dum la uzo de la tunelo";
  "Atendante konekton al la tunelo...";
  "Fora gastiganto";
  "Fora pordo";
  "Ago";
  "Aldoni";
  "Loka pordo";
  "Loka Adreso";
  "Ŝanĝi Loka Pordo";
  "Se vi bezonas pli rapida konekcio, vi povas krei vian propran servilon";
  "Tro mallonga, almenaŭ 6 signoj.";
  "Ambaŭ enigoj ne kongruas";
  "Permesoj";
  "Akcepti";
  "Malakcepti";
  "Malkonekti";
  "Permesu kopii kaj alglui dosierojn";
  "Konektata";
  "Konekcio direkta ĉifrata";
  "Konekcio relajsa ĉifrata";
  "Konekcio direkta neĉifrata";
  "Konekcio relajsa neĉifrata";
  "Tajpu foran identigilon";
  "Tajpu vian pasvorton";
  "Konektante...";
  "Ebligi la kundivido de sesio RDP";
  "Aŭtomata konektado (la ŝloso nur estos ebligita post la malebligado de la unua parametro)";
  "Permesi direkta eniro per IP";
  "Renomi";
  "Spaco";
  "Krei ligilon sur la labortablon";
  "Ŝanĝi vojon";
  "Krei dosierujon";
  "Bonvolu enigi la dosiernomon";
  "Riparu ĝin";
  "Averto";
  "Konektajn ekranojn uzantajn Wayland ne estas subtenitaj";
  "Restarto deviga";
  "La aktuala bilda servilo ne estas subtenita";
  "Bonvolu uzi x11";
  "Pordo";
  "Agordoj";
  " Uzanta nomo";
  "Pordo nevalida";
  "Manuale fermita de la samtavolano";
  "Permesi foran redaktadon de la konfiguracio";
  "Plenumi sen instali";
  "Konekti per relajso";
  "Ĉiam konekti per relajso";
  "Nur la IP en la blanka listo povas kontroli mian komputilon";
  "Ensaluti";
  "Kontrolis";
  "Memori min";
  "Fidu ĉi tiun aparaton";
  "Konfirmkodo";
  "Konfirmkodo estis sendita al la registrita retpoŝta adreso, enigu la konfirmkodon por daŭrigi ensaluti.";
  "Elsaluti";
  "Etikedi";
  "Serĉi ID";
  "Vi povas uzi komon, punktokomon, spacon aŭ linsalton kiel apartigilo";
  "Aldoni identigilo";
  "Aldoni etikedo";
  "Malselekti ĉiujn etikedojn";
  "Reta eraro";
  "Uzantnomo forgesita";
  "Pasvorto forgesita";
  "Identigilo aŭ pasvorto erara";
  "";
  "Redakti etikedo";
  "Forgesi pasvorton";
  "Favorataj";
  "Aldoni al la favorataj";
  "Forigi el la favorataj";
  "Malplena";
  "Dosiernomo nevalida";
  "Socks5 prokura servilo";
  "Socks5/Http(s) prokura servilo";
  "Malkovritaj";
  "Por komenci ĉe ekŝargo, oni devas instali sisteman servon.";
  "Fora identigilo";
  "Alglui";
  "Alglui ĉi tie?";
  "Ĉu vi vere volas fermi la konekton?";
  "Elŝuti la novan version";
  "Tuŝa modo";
  "musa modo";
  "Unufingra Frapeto";
  "Maldekstra Muso";
  "Unulonga Frapeto";
  "Dufingra Frapeto";
  "Deskra Muso";
  "Unufingra Movo";
  "Duobla Frapeto & Movo";
  "Muso Trenadi";
  "Tri Figroj Vertikale";
  "Musa Rado";
  "Dufingra Movo";
  "Kanvasa Movo";
  "Pinĉi al Zomo";
  "Kanvasa Zomo";
  "Restarigi kanvaso";
  "Neniu permeso de dosiertransigo";
  "Notu";
  "Konekto";
  "Kunhavigi Ekranon";
  "Babilo";
  "Sumo";
  "eroj";
  "Elektita";
  "Ekrankapto";
  "Eniga Kontrolo";
  "Sonkontrolo";
  "Dosiero Konekto";
  "Ekrono konekto";
  "Ĉu vi akceptas?";
  "Malfermi Sistemajn Agordojn";
  "Kiel akiri Android enigajn permesojn";
  with_quotes ["Por ke fora aparato regu vian Android-aparaton per muso aŭ tuŝo, vi devas permesi al RustDesk uzi la servon "; "Alirebleco"; "."];
  "Bonvolu iri al la sekva paĝo de sistemaj agordoj, trovi kaj eniri [Instatajn Servojn], ŝalti la servon [RustDesk Enigo].";
  "Nova kontrolpeto estis ricevita, kiu volas kontroli vian nunan aparaton.";
  with_quotes ["Ŝalti "; "Ekrankapto"; " aŭtomate startos la servon, permesante al aliaj aparatoj peti konekton al via aparato."];
  "Fermante la servon aŭtomate fermos ĉiujn establitajn konektojn.";
  "La nuna versio da Android ne subtenas sonkapton, bonvolu ĝisdatigi al Android 10 aŭ pli alta.";
  "Frapu [Komenci servo] aŭ ebligu la permeson de [Ekrankapto] por komenci la servon de kundivido de ekrano.";
  "Permesoj por establitaj konektoj neble estas ŝanĝitaj tuj ĝis rekonektitaj.";
  "Konto";
  "anstataŭigi";
  "Ĉi tiu dosiero ekzistas, ĉu preterlasi aŭ anstataŭi ĉi tiun dosieron?";
  "Forlasi";
  "Helpi";
  "Malsukcesa";
  "Sukcesa";
  "Iu ŝaltas modon privata, Eliro";
  "Nesubtenata";
  "Samulo rifuzita";
  "Bonvolu instali kromprogramojn";
  "Samulo eliras";
  "Malsukcesis malŝalti";
  "Malŝaltita";
  "Lingvo";
  "Tenu RustDesk fonan servon";
  "Ignoru Bateria Optimumigojn";
  "Se vi volas malŝalti ĉi tiun funkcion, bonvolu iri al la sekva paĝo de agordoj de la aplikaĵo de RustDesk, trovi kaj eniri [Baterio], Malmarku [Senrestrikta]";
  "Komencu ĉe ekfunkciigo";
  "Komencu la servon de kundivido de ekrano ĉe lanĉo, postulas specialajn permesojn";
  "Konekto ne rajtas";
  "";
  "Mapa modo";
  "Traduki modo";
  "Uzu permanenta pasvorto";
  "Uzu ambaŭ pasvorto";
  "Starigi permanenta pasvorto";
  "Permesi fora restartas";
  "Restartu fora aparato";
  "Ĉu vi certas, ke vi volas restarti";
  "Restartas fora aparato";
  "Fora aparato restartiĝas, bonvolu fermi ĉi tiun mesaĝkeston kaj rekonekti kun permanenta pasvorto post iom da tempo";
  "Kopiita";
  "Eliru Plenekranon";
  "Plenekrane";
  "Poŝtelefonaj Agoj";
  "Elektu Monitoron";
  "Kontrolaj Agoj";
  "Montraj Agordoj";
  "Proporcio";
  "Bilda Kvalito";
  "Ruluma Stilo";
  "Montri Ilobreton";
  "Kaŝi Ilobreton";
  "Rekta Konekto";
  "Relajsa Konekto";
  "Sekura Konekto";
  "Nesekura Konekto";
  "Skalo originalo";
  "Skalo adapta";
  "";
  "";
  "";
  "";
  "";
  "";
  "";
  "";
  "";
  "";
  "";
  "";
  "";
  "";
  "";
  "";
  "";
  "";
  "";
  "";
  "";
  "";
  "";
  "";
  "";
  "";
  "";
  "";
  "";
  "";
  "";
  "";
  "";
  "";
  "";
  "";
  "";
  "";
  "";
  "";
  "";
  "";
  "";
  "Wayland postulas Ubuntu 21.04 aŭ pli altan version.";
  "Wayland postulas pli altan version de linuksa distro. Bonvolu provi X11-labortablon aŭ ŝanĝi vian OS.";
  "View";
  "Bonvolu Elekti la ekranon por esti dividita (Funkciu ĉe la sama flanko).";
  "";
  "";
  "";
  "";
  "";
  "";
  "";
  "";
  "";
  "";
  "";
  "";
  "";
  "";
  "";
  "";
  "";
  "";
  "";
  "";
  "";
  "";
  "";
  "";
  "";
  "";
  "";
  "";
  "";
  "";
  "";
  "";
  "";
  "";
  "";
  "";
  "";
  "";
  "";
  "";
  "";
  "";
  "";
  "";
  "";
  "";
  "";
  "";
  "";
  "";
  "";
  "";
  "";
  "";
  "";
  "";
  "";
  "";
  "";
  "";
  "";
  "";
  "";
  "";
  "";
  "";
  "";
  "";
  "";
  "";
  "";
  "";
  "";
  "";
  "";
  "";
  "";
  "";
  "";
  "";
  "";
  "";
  "";
  "";
  "";
  "";
  "";
  "";
  "";
  "";
  "";
  "";
  "";
  "";
  "";
  "";
  "";
  "";
  "";
  "";
  "";
  "";
  "";
  "";
  "";
  "";
  "";
  "";
  "";
  "";
  "";
  "";
  "";
  "";
  "";
  "";
  "";
  "";
  "";
  "";
  "";
  "";
  "";
  "";
  "";
  "";
  "";
  "";
  "";
  "";
  "";
  "";
  "";
  "";
  "";
  "";
  "";
  "";
  "";
  "";
  "";
  "";
  "";
  "";
  "";
  "";
  "";
  "";
  "";
  "";
  "";
  "";
  "";
  "";
  "";
  "";
  "";
  "";
  "";
  "";
  "";
  "";
  "";
  "";
  "";
  "";
  "";
  "";
  "";
  "";
  "";
  "";
  "";
  "";
  "";
  "";
  "";
  "";
  "";
  "";
  "";
  "";
  "";
  "";
  "";
  "";
  "";
  "";
  "";
  "";
  "";
  "";
  "";
  "";
  "";
  "";
  "";
  "";
  "";
  "";
  "";
  "";
  "";
  "";
  "";
  "";
  "";
  "";
  "";
  "";
  "";
  "";
  "";
  "";
  "";
  "";
  "";
  "";
  "";
  "";
  "";
  "";
  "";
  "";
  "";
  "";
  "";
  "";
  "";
  "";
  "";
  "";
  "";
  "";
  "";
  "";
  "";
  "";
  "";
  "";
  "";
  "";
  "";
  "";
  "";
  "";
  "";
  "";
  "";
  "";
  "";
  "";
  "";
  "";
  "";
  "";
  "";
  "";
  "";
  "";
  "";
  "";
  "";
  "";
  "";
  "";
  "";
  "";
  "";
  "";
  "";
  ""].
(** [LANGS.es] *)
Definition lang_es : jsmap string string := texts [
  "Estado";
  "Tu escritorio";
  "Puedes acceder a tu escritorio con esta ID y contraseña.";
  "Contraseña";
  "Listo";
  "Establecido";
  "Conexión a la red RustDesk en progreso...";
  "Habilitar Servicio";
  "Iniciar Servicio";
  "El servicio se está ejecutando";
  "El servicio no se está ejecutando";
  "No está listo. Comprueba tu conexión";
  "Controlar escritorio remoto";
  "Transferir archivo";
  "Conectar";
  "Sesiones recientes";
  "Directorio";
  "Confirmación";
  "Túnel TCP";
  "Quitar";
  "Actualizar contraseña aleatoria";
  "Establece tu propia contraseña";
  "Habilitar teclado/ratón";
  "Habilitar portapapeles";
  "Habilitar transferencia de archivos";
  "Habilitar túnel TCP";
  "Direcciones IP admitidas";
  "Servidor ID/Relay";
  "Importar configuración de servidor";
  "Exportar configuración del servidor";
  "Configuración de servidor importada con éxito";
  "Configuración de servidor exportada con éxito";
  "Configuración de servidor incorrecta";
  "El portapapeles está vacío";
  "Detener servicio";
  "Cambiar ID";
  "Tu nueva ID";
  "de %min% a %max% de longitud";
  "comenzar con una letra";
  "Caracteres permitidos";
  "Solo puedes usar caracteres a-z, A-Z, 0-9, - (dash) e _ (guion bajo). El primer carácter debe ser a-z o A-Z. La longitud debe estar entre 6 y 16 caracteres.";
  "Sitio web";
  "Acerca de";
  "¡Hecho con corazón en este mundo caótico!";
  "Declaración de privacidad";
  "Silenciar";
  "Fecha de compilación";
  "Versión";
  "Inicio";
  "Entrada de audio";
  "Mejoras";
  "Códec de hardware";
  "Tasa de bits adaptativa";
  "Servidor de IDs";
  "Servidor Relay";
  "Servidor API";
  "debe comenzar con http:// o https://";
  "IP incorrecta";
  "Formato incorrecto";
  "Aún no es compatible con el servidor";
  "No disponible";
  "Demasiado frecuente";
  "Cancelar";
  "Omitir";
  "Cerrar";
  "Reintentar";
  "";
  "Se requiere contraseña";
  "Por favor, introduzca su contraseña";
  "Recordar contraseña";
  "Contraseña incorrecta";
  "¿Quieres volver a entrar?";
  "Error de conexión";
  "";
  "Restablecido por el par";
  "Conectando...";
  "Conexión en curso. Espere por favor.";
  "Intente 1 minuto más tarde";
  "Error de inicio de sesión";
  "Exitoso";
  "Conectado, esperando imagen...";
  "Nombre";
  "Tipo";
  "Modificado";
  "Tamaño";
  "Mostrar archivos ocultos";
  "Recibir";
  "Enviar";
  "Actualizar archivo";
  "";
  "Remoto";
  "Computadora remota";
  "Computadora local";
  "Confirmar eliminación";
  "Eliminar";
  "Propiedades";
  "Selección múltiple";
  "Seleccionar Todo";
  "Deseleccionar Todo";
  "Directorio vacío";
  "No es un directorio vacío";
  "¿Estás seguro de que quieres eliminar este archivo?";
  "¿Estás seguro de que deseas eliminar este directorio vacío?";
  "¿Estás seguro de que deseas eliminar el archivo de este directorio?";
  "Haga esto para todos los conflictos";
  "¡Esto es irreversible!";
  "Eliminando";
  "archivos";
  "Esperando";
  "Terminado";
  "Velocidad";
  "Calidad de imagen personalizada";
  "Modo privado";
  "Bloquear entrada de usuario";
  "Desbloquear entrada de usuario";
  "Ajustar ventana";
  "Original";
  "Encoger";
  "Estirar";
  "Barra de desplazamiento";
  "Desplazamiento automático";
  "Buena calidad de imagen";
  "Equilibrado";
  "Optimizar el tiempo de reacción";
  "Personalizado";
  "Mostrar cursor remoto";
  "Mostrar calidad del monitor";
  "Deshabilitar portapapeles";
  "Bloquear después del final de la sesión";
  "Insertar Ctrl + Alt + Del";
  "Insertar bloqueo";
  "Actualizar";
  "La ID no existe";
  "No se pudo conectar al servidor de encuentro";
  "Por favor intente mas tarde";
  "El escritorio remoto está desconectado";
  "La clave no coincide";
  "Tiempo agotado";
  "No se pudo conectar al servidor de retransmisión";
  "No se pudo conectar a través del servidor de encuentro";
  "No se pudo conectar a través del servidor de retransmisión";
  "No se pudo establecer la conexión directa con el escritorio remoto";
  "Configurar la contraseña";
  "Contraseña del sistema operativo";
  "Debido al Control de cuentas de usuario, es posible que RustDesk no funcione correctamente como escritorio remoto. Para evitar este problema, haga clic en el botón de abajo para instalar RustDesk a nivel de sistema.";
  "Clic para actualizar";
  "Clic para descargar";
  "Clic para refrescar";
  "Configurar";
  with_quotes ["Para controlar su escritorio desde el exterior, debe otorgar permiso a RustDesk de "; "Accesibilidad"; "."];
  with_quotes ["Para controlar su escritorio desde el exterior, debe otorgar permiso a RustDesk de "; "Grabación de pantalla"; "."];
  "Instalando ...";
  "Instalar";
  "Instalación";
  "Ruta de instalación";
  "Crear accesos directos en el menú de inicio";
  "Crear icono de escritorio";
  "Al iniciar la instalación, acepta los términos del acuerdo de licencia.";
  "Aceptar e instalar";
  "Acuerdo de licencia de usuario final";
  "Generando ...";
  "Su instalación es una versión inferior.";
  "No cierre esta ventana mientras esté usando el túnel";
  "Escuchando ...";
  "Anfitrión remoto";
  "Puerto remoto";
  "Acción";
  "Agregar";
  "Puerto local";
  "Dirección Local";
  "Cambiar Puerto Local";
  "Para una conexión más rápida, configure su propio servidor";
  "Demasiado corto, al menos 6 caracteres.";
  "La confirmación no coincide.";
  "Permisos";
  "Aceptar";
  "Cancelar";
  "Desconectar";
  "Permitir copiar y pegar archivos";
  "Conectado";
  "Conexión directa y cifrada";
  "Conexión retransmitida y cifrada";
  "Conexión directa y sin cifrar";
  "Conexión retransmitida y sin cifrar";
  "Introduzca el ID remoto";
  "Introduzca su contraseña";
  "Iniciando sesión...";
  "Habilitar el uso compartido de sesiones RDP";
  "Inicio de sesión automático";
  "Habilitar acceso IP directo";
  "Renombrar";
  "Espacio";
  "Crear acceso directo en el escritorio";
  "Cambiar ruta";
  "Crear carpeta";
  "Por favor introduzca el nombre de la carpeta";
  "Resolver";
  "Aviso";
  "La pantalla de inicio de sesión con Wayland no es compatible";
  "Reinicio requerido";
  "Servidor de visualización no compatible";
  "x11 necesario";
  "Puerto";
  "Ajustes";
  "Nombre de usuario";
  "Puerto incorrecto";
  "Cerrado manualmente por el par";
  "Habilitar modificación remota de configuración";
  "Ejecutar sin instalar";
  "";
  "Conéctese siempre a través de relay";
  "Solo las direcciones IP autorizadas pueden conectarse a este escritorio";
  "Iniciar sesión";
  "Verificar";
  "Recordarme";
  "Confiar en este dispositivo";
  "Código de verificación";
  "Se ha detectado un nuevo dispositivo y se ha enviado un código de verificación a la dirección de correo registrada. Introduzca el código de verificación para continuar con el inicio de sesión.";
  "Salir";
  "Tags";
  "Buscar ID";
  "Separados por coma, punto y coma, espacio o nueva línea";
  "Agregar ID";
  "Agregar tag";
  "Deseleccionar todos los tags";
  "Error de red";
  "Olvidó su nombre de usuario";
  "Olvidó su contraseña";
  "Credenciales incorrectas";
  "";
  "Editar tag";
  "Olvidar contraseña";
  "Favoritos";
  "Agregar a favoritos";
  "Quitar de favoritos";
  "Vacío";
  "Nombre de carpeta incorrecto";
  "Proxy Socks5";
  "Proxy Socks5/Http(s)";
  "Descubierto";
  "Para comenzar en el encendido, debe instalar el servicio del sistema.";
  "ID remoto";
  "Pegar";
  "¿Pegar aquí?";
  "¿Estás seguro de cerrar la conexión?";
  "Descargar nueva versión";
  "Modo táctil";
  "Modo ratón";
  "Toque con un dedo";
  "Botón izquierdo";
  "Un toque largo";
  "Toque con dos dedos";
  "Botón derecho";
  "Movimiento con un dedo";
  "Toca dos veces y mueve";
  "Arrastre de ratón";
  "Tres dedos verticalmente";
  "Rueda de ratón";
  "Movimiento con dos dedos";
  "Movimiento de lienzo";
  "Pellizcar para ampliar";
  "Ampliar lienzo";
  "Restablecer lienzo";
  "Sin permiso de transferencia de archivos";
  "Nota";
  "Conexión";
  "Compartir pantalla";
  "Chat";
  "Total";
  "items";
  "Seleccionado";
  "Captura de pantalla";
  "Control de entrada";
  "Captura de audio";
  "Conexión de archivos";
  "Conexión de pantalla";
  "¿Aceptas?";
  "Configuración del sistema abierto";
  "¿Cómo obtener el permiso de entrada de Android?";
  with_quotes ["Para que un dispositivo remoto controle su dispositivo Android a través del ratón o toque, debe permitir que RustDesk use el servicio de "; "Accesibilidad"; "."];
  "Vaya a la página de configuración del sistema que se abrirá a continuación, busque y acceda a [Servicios instalados], active el servicio [RustDesk Input].";
  "Se recibió una nueva solicitud de control para el dispositivo actual.";
  "Habilitar la captura de pantalla iniciará automáticamente el servicio, lo que permitirá que otros dispositivos soliciten una conexión desde este dispositivo.";
  "Cerrar el servicio cerrará automáticamente todas las conexiones establecidas.";
  "La versión actual de Android no admite la captura de audio, actualice a Android 10 o posterior.";
  "";
  "";
  "Cuenta";
  "Sobrescribir";
  "Este archivo existe, ¿omitir o sobrescribir este archivo?";
  "Salir";
  "Ayuda";
  "Fallido";
  "Logrado";
  "Alguien active el modo privacidad, salga";
  "No soportado";
  "Par denegado";
  "Instale complementos";
  "Par salio";
  "Error al apagar";
  "Apagado";
  "Idioma";
  "Dejar RustDesk como Servicio en 2do plano";
  "Ignorar optimizacioens de bateria";
  "Si deseas deshabilitar esta característica, por favor, ve a la página siguiente de ajustes, busca y entra en  [Batería] y desmarca [Sin restricción]";
  "";
  "";
  "Conexión no disponible";
  "Modo heredado";
  "Modo mapa";
  "Modo traducido";
  "Usar contraseña permamente";
  "Usar ambas contraseñas";
  "Establecer contraseña permamente";
  "Habilitar reinicio remoto";
  "Reiniciar dispositivo";
  "¿Estás seguro de que deseas reiniciar?";
  "Reiniciando dispositivo remoto";
  "El dispositivo remoto se está reiniciando. Por favor cierre este mensaje y vuelva a conectarse con la contraseña peremanente en unos momentos.";
  "Copiado";
  "Salir de pantalla completa";
  "Pantalla completa";
  "Acciones móviles";
  "Seleccionar monitor";
  "Acciones de control";
  "Configuración de pantalla";
  "Relación";
  "Calidad de imagen";
  "Estilo de desplazamiento";
  "";
  "";
  "Conexión directa";
  "Conexión Relay";
  "Conexión segura";
  "Conexión insegura";
  "Escala original";
  "Escala adaptativa";
  "";
  "Seguridad";
  "Tema";
  "Tema Oscuro";
  "";
  "Oscuro";
  "Claro";
  "Tema del sistema";
  "Habilitar códec por hardware";
  "Desbloquear ajustes de seguridad";
  "Habilitar Audio";
  "Desbloquear Ajustes de Red";
  "Servidor";
  "Acceso IP Directo";
  "";
  "Aplicar";
  "¿Desconectar todos los dispositivos?";
  "Borrar";
  "Dispositivo de entrada de audio";
  "Usar lista de IPs admitidas";
  "Red";
  "";
  "";
  "Grabando";
  "Directorio";
  "Grabación automática de sesiones entrantes";
  "";
  "Cambiar";
  "Comenzar grabación de sesión";
  "Detener grabación de sesión";
  "Habilitar grabación de sesión";
  "Habilitar descubrimiento de LAN";
  "Denegar descubrimiento de LAN";
  "Escribir un mensaje";
  "";
  "Por favor, espera confirmación de UAC";
  "La ventana actual del escritorio remoto necesita privilegios elevados para funcionar, así que no puedes usar ratón y teclado temporalmente. Puedes solicitar al usuario remoto que minimize la ventana actual o hacer clic en el botón de elevación de la ventana de gestión de conexión. Para evitar este problema, se recomienda instalar el programa en el dispositivo remto.";
  "Desconectado";
  "Otro";
  "Confirmar antes de cerrar múltiples pestañas";
  "Ajustes de teclado";
  "Acceso completo";
  "Compartir pantalla";
  "Wayland requiere Ubuntu 21.04 o una versión superior.";
  "Wayland requiere una versión superior de la distribución de Linux. Pruebe el escritorio X11 o cambie su sistema operativo.";
  "Ver";
  "Seleccione la pantalla que se compartirá (Operar en el lado del par).";
  "Mostrar RustDesk";
  "Este PC";
  "o";
  "Continuar con";
  "Elevar privilegios";
  "Ampliar cursor";
  "Aceptar sesiones a través de contraseña";
  "Aceptar sesiones a través de clic";
  "Aceptar sesiones a través de ambos";
  "Por favor, espere a que el lado remoto acepte su solicitud de sesión";
  "Contraseña de un solo uso";
  "Usar contraseña de un solo uso";
  "Longitud de la contraseña de un solo uso";
  "Solicitud de acceso a su dispositivo";
  "Ocultar ventana de gestión de conexión";
  "Permitir ocultar solo si se aceptan sesiones a través de contraseña y usando contraseña permanente";
  "El soporte para Wayland está en fase experimental, por favor, use X11 si necesita acceso desatendido.";
  "Clic derecho para seleccionar pestañas";
  "Omitido";
  "Añadir al directorio";
  "Grupo";
  "Búsqueda";
  "Cerrado manualmente por la consola web";
  "Tipo de teclado local";
  "Seleccionar tipo de teclado local";
  "Si tienes una gráfica Nvidia y la ventana remota se cierra inmediatamente, instalar el driver nouveau y elegir renderizado por software podría ayudar. Se requiere reiniciar la aplicación.";
  "Usar siempre renderizado por software";
  with_quotes ["Para controlar el escritorio remoto con el teclado necesitas dar a RustDesk permisos de "; "Monitorización de entrada"; "."];
  with_quotes ["Para poder hablar de forma remota necesitas darle a RustDesk permisos de "; "Grabar Audio"; "."];
  "También puedes solicitar elevación de privilegios si hay alguien en el lado remoto.";
  "Esperar";
  "Error de elevación de privilegios";
  "Pida autenticación al usuario remoto";
  "Elegir si la cuenta remota es de administrador";
  "Transmitir usuario y contraseña del administrador";
  "Aún se necesita que el usuario remoto haga click en OK en la ventana UAC del RusDesk en ejecución.";
  "Solicitar Elevación de privilegios";
  "Por favor espere a que el usuario remoto acepte el diálogo UAC.";
  "Elevación de privilegios exitosa";
  "mayúsculas";
  "minúsculas";
  "dígito";
  "carácter especial";
  "longitud>=8";
  "Débil";
  "Media";
  "Fuerte";
  "Intercambiar lados";
  "Por favor, confirma si quieres compartir tu escritorio";
  "Pantalla";
  "Estilo de vista predeterminado";
  "Estilo de desplazamiento predeterminado";
  "Calidad de imagen predeterminada";
  "Códec predeterminado";
  "Tasa de bits";
  "";
  "";
  "Otras opciones predeterminadas";
  "Llamada de voz";
  "Chat de texto";
  "Detener llamada de voz";
  with_quotes ["Puede que no sea posible conectar directamente. Puedes tratar de conectar a través de relay. \nAdicionalmente, si quieres usar relay en el primer intento, puedes añadir el sufijo "; "/r"; " a la ID o seleccionar la opción "; "Conectar siempre a través de relay"; " en la tarjeta del par."];
  "Reconectar";
  "Códec";
  "Resolución";
  "No hay transferencias en curso";
  "Establecer contraseña de un solo uso";
  "Ajustes RDP";
  "Ordenar por";
  "Nueva conexión";
  "Restaurar";
  "Minimizar";
  "Maximizar";
  "Tu dispositivo";
  "¡Vaya, no hay conexiones recientes!\nEs hora de planificar una nueva.";
  "¿Sin pares favoritos aún?\nEncontremos uno al que conectarte y ¡añádelo a tus favoritos!";
  "Oh no, parece que aún no has descubierto ningún par.";
  "Parece que actualmente no hay pares en tu directorio.";
  "ej.: admin";
  "Nombre de usuario vacío";
  "Contraseña vacía";
  "Yo";
  "Este archivo es idéntico al del par.";
  "Mostrar monitores en la barra de herramientas";
  "Modo Vista";
  "Necesitas iniciar sesión con la cueneta del Linux remoto para activar una sesión de escritorio X";
  "Verificar la contraseña de RustDesk";
  "Recordar esta cuenta";
  "Esta cueneta se usa para iniciar sesión en el sistema operativo remoto y habilitar la sesión de escritorio en headless.";
  "Cuenta del SO";
  "Otro usuario ya ha iniciado sesión";
  "Desconectar";
  "Xorg no hallado";
  "Por favor, instala Xorg";
  "No hay escritorio disponible";
  "Por favor, instala GNOME Desktop";
  "No es necesario elevar privilegios";
  "Sonido del Sistema";
  "Predeterminado";
  "Nuevo RDP";
  "Huella digital";
  "Copiar huella digital";
  "sin huellas digitales";
  "Seleccionar un par";
  "Seleccionar pares";
  "Complementos";
  "Desinstalar";
  "Actualizar";
  "Habilitar";
  "Inhabilitar";
  "Opciones";
  "Resolución original";
  "Ajustar resolución local";
  "Resolución personalizada";
  "Contraer barra de herramientas";
  "Aceptar y Elevar";
  "Aceptar la conexión y elevar permisos UAC.";
  "Tiempo de espera para copia agotado.";
  "Conexión entrante";
  "Conexión saliente";
  "Salir";
  "Abrir";
  "¿Seguro que deseas cerrar sesión?";
  "Servicio";
  "Iniciar";
  "Detener";
  "Has alcanzado el máximo número de dispositivos administrados.";
  "Sincronizar con sesiones recientes";
  "Ordenar etiquetas";
  "Abrir conexión en nueva pestaña";
  "Mover pestaña a nueva ventana";
  "No puede estar vacío";
  "Ya existe";
  "Cambiar contraseña";
  "Refrescar contraseña";
  "";
  "Vista Cuadrícula";
  "Vista Lista";
  "Seleccionar";
  "Alternar Etiquetas";
  "No se ha podido refrescar el directorio";
  "No se ha podido sincronizar el directorio con el servidor";
  "Los dispositivos presentes en sesiones recientes se sincronizarán con el directorio.";
  "Cambiar Color";
  "Color Primario";
  "Color HSV";
  "Instalación exitosa";
  "La instalación ha fallado";
  "Invertir rueda del ratón";
  "{} sesiones";
  "Podrías estar siendo ESTAFADO!";
  "Si estás al teléfono con alguien a quien NO conoces y en quien NO confías y te ha pedido que uses RustDesk e inicies el servicio, no lo hagas y cuelga inmediatamente.";
  "Probablemente son estafadores tratando de robar tu dinero o información privada.";
  "No mostrar de nuevo";
  "Estoy de acuerdo";
  "Rechazar";
  "Tiempo de espera en minutos";
  "Cerrar sesiones entrantes automáticamente por inactividad del usuario.";
  "Desconectar automáticamente por inactividad.";
  "Comprobar actualización al iniciar";
  "¡Por favor, actualiza RustDesk Server Pro a la versión {} o superior";
  "No se ha podido refrescar el grupo";
  "Filtrar por intersección";
  "Quitar el fondo de pantalla durante sesiones entrantes";
  "Probar";
  "La pantalla está desconectada, cambia a la principal.";
  "No hay pantallas";
  "Abrir en una nueva ventana";
  "Mostrar pantallas como ventanas individuales";
  "Usar todas mis pantallas para la sesión remota";
  "SELinux está activado en tu dispositivo, lo que puede hacer que RustDesk no se ejecute correctamente como lado controlado.";
  "Cambiar vista";
  "Mosaicos grandes";
  "Mosaicos pequeños";
  "Lista";
  "Pantalla virtual";
  "Desconectar todo";
  "Color real (4:4:4)";
  "Habilitar el bloqueo de la entrada del usuario";
  with_quotes ["Puedes introducir una ID, una IP directa o un dominio con un puerto (<dominio>:<puerto>).\nSi quieres acceder a un dispositivo en otro servidor, por favor añade la ip del servidor (<id>@<dirección_servidor>?key=<clave_valor>), por ejemplo,\n9123456234@192.168.16.1:21117?key=5Qbwsde3unUcJBtrx9ZkvUmwFNoExHzpryHuPUdqlWM=.\nSi quieres acceder a un dispositivo en un servidor público, por favor, introduce "; "<id>@public"; ", la clave no es necesaria para un servidor público."];
  "Modo 1";
  "Modo 2";
  "Entrar al modo privado";
  "Salir del modo privado";
  "El controlador de pantalla indirecto no está soportado. Se necesita Windows 10, versión 2004 o superior.";
  "Fuente de entrada 1";
  "Fuente de entrada 2";
  "Intercambiar teclas control-comando";
  "Intercambiar botones derecho-izquierdo del ratón";
  "Código 2FA";
  "Más";
  "Habilitar autenticación en dos pasos";
  "Por favor, configura tu autenticador ahora. Puedes usar una app de autenticación como Authy, Microsoft o Google Authenticator en tu teléfono u ordenador.\n\nEscanea el código QR con tu app e introduce el código mostrado para habilitar la autenticación en dos pasos.";
  "No se puede verificar el código. Comprueba que el código y los ajustes de hora local son correctos";
  "Autenticación en dos pasos";
  "El código de verificación por mail debe tener 6 caracteres";
  "El cóidigo 2FA debe tener 6 dígitos";
  "Encontradas sesiones de múltiples ventanas";
  "Por favor, seleccione la sesión a la que se desea conectar";
  "Con tecnología de RustDesk";
  "Esta es una edición personalizada.\nPuedes conectarte a otros dispositivos, pero ellos no pueden conectarse al tuyo.";
  "Esta edición personalizada viene con una contraseña preestablecida. Cualquiera que la conozca podrá tener control total de tu dispositivo.Si no es esto lo que esperabas, desinstala el software inmediatamente.";
  "Alerta de Seguridad";
  "Mi directorio";
  "Personal";
  "Propietario";
  "Establecer contraseña compartida";
  "Existe en";
  "Solo-lectura";
  "Lectura/Escritura";
  "Control Total";
  "Los campos mostrados arriba son compartidos y visibles por otros.";
  "Todos";
  "Más en consola web";
  "Permitir la conexión solo si la ventana RusDesk está abierta";
  "No hay pantallas físicas, no es necesario usar el modo privado.";
  "Seguir cursor remoto";
  "Seguir ventana remota activa";
  "El protocolo y puerto predeterminados es Socks5 y 1080";
  "No se ha encontrado ningún dispositivo de entrada de autio.";
  "Entrante";
  "Saliente";
  "Borrar la selección de pantalla Wayland";
  "Tras borrar la selección de pantalla, puedes volver a seleccionarla para compartir.";
  "¿Seguro que deseas borrar la selección de pantalla Wayland?";
  "Se ha recibido una nueva solicitud de llamada de voz. Si aceptas el audio cambiará a comunicación de voz.";
  "Usar renderizado de texturas para hacer las imágenes más suaves.";
  "Usar renderizado de texturas";
  "Ventana flotante";
  "Ayuda a mantener el servicio de RustDesk de fondo";
  "Mantener la pantalla encendida";
  "Nunca";
  "Mientras está siendo controlado";
  "Mientras el servicio está activo";
  "Capturar pantalla con DirectX";
  "Atrás";
  "";
  "Bajar volumen";
  "Subir volumen";
  "Encendido";
  "Bot de Telegram";
  "Si activas esta característica puedes recibir código 2FA de tu bot. También puede funcionar como notificación de conexión.";
  with_quotes ["1, Abre un chat con @BotFather.\n2, Envía el comando "; "/newbot"; ". Recibirás un token tras completar esta paso.\n3, Inicia un chat con tu bot recién creado. Envía un mensaje que comience con una barra ("; "/"; ") como "; "/hola"; " para activarlo.\n"];
  "¿Seguro que quieres cancelar 2FA?";
  "¿Seguro que quieres cancelar el bot de Telegram?";
  "Acerca de RustDesk";
  "Enviar pulsaciones de teclas";
  "Por fvor, comprueba tu conexión de red e inténtalo de nuevo.";
  "Desbloquear con PIN";
  "Se necesitan al menos {} caracteres";
  "PIN erróneo";
  "Establecer PIN";
  "Habilitar dispositivos de confianza";
  "Gestionar dispositivos de confianza";
  "Plataforma";
  "Días restantes";
  "Omitir la verificación en dos fases en dispositivos de confianza";
  "Directorio superior";
  "Continuar";
  "Nombre de archivo no válido";
  "La transferencia en un sentido está habilitada en el lado controlado.";
  "Se requiere autenticación";
  "Autenticar";
  with_quotes ["Puedes introducir una ID en el mismo servidor, el cliente web no soporta acceso vía IP.\nSi quieres acceder a un dispositivo en otro servidor, por favor, agrega la dirección del servidor (<id>@<direccion_servidor>?clave=<clave_valor>), por ejemplo,\n9123456234@192.168.16.1:21117?key=5Qbwsde3unUcJBtrx9ZkvUmwFNoExHzpryHuPUdqlWM=.\nSi quieres accedder a un dispositivo en un servidor público, por favor, introduce "; "<id>@public"; ", la clave no es necesaria para el servidor público."];
  "Descarga";
  "Subir carpeta";
  "Subir archivos";
  "Portapapeles sincronizado";
  "Actualizar portapapeles del cliente";
  "Sin itiquetar";
  "Hay una nueva versión de {} disponible";
  ""].
