(* ===== verification/TextsB.v ===== *)
(** * The texts in [et], [eu], [fa], [fr], [he], [hr], [hu], [id], [it], [ja] and [ko]

    Each table of [LANGS] in [proto/gen_js_from_hbb.ts] as its texts for [text_ids]; an empty text is one
    nobody has translated. *)
From S2P Require Import Prelude JsMap JsStr Json Common Langs.
Local Open Scope string_scope.

(** [LANGS.et] *)
Definition lang_et : jsmap string string := texts [
  "";
  "";
  "Sinu töölauale saab selle ID ja parooliga ligi pääseda.";
  "";
  "";
  "";
  "RustDeski võrguga ühendumine...";
  "";
  "";
  "";
  "";
  "Pole valmis. Palun kontrolli oma ühendust";
  "";
  "";
  "";
  "";
  "";
  "";
  "";
  "";
  "";
  "";
  "";
  "";
  "";
  "";
  "";
  "ID-/releeserver";
  "";
  "";
  "";
  "";
  "";
  "";
  "";
  "";
  "";
  "";
  "";
  "";
  "Lubatud on vaid a-z, A-Z, 0-9, - (dash) ja _ (alakriips) tähemärgid. Esimene täht peab olema a-z või A-Z. Pikkus vahemikus 6-16.";
  "";
  "";
  "Loodud südamega selles kaootilises maailmas!";
  "";
  "";
  "Ehituskuupäev";
  "";
  "";
  "Helisisend";
  "";
  "Riistvarakoodek";
  "";
  "ID-server";
  "Releeserver";
  "Rakendusliidese server";
  "peab algama: http:// või https://";
  "";
  "";
  "Pole veel serveri poolt toetatud";
  "";
  "";
  "";
  "";
  "";
  "";
  "";
  "Parool on nõutud";
  "";
  "";
  "Vale parool";
  "";
  "Ühenduse viga";
  "";
  "";
  "";
  "";
  "";
  "Sisselogimise viga";
  "";
  "";
  "";
  "";
  "";
  "";
  "Kuva peidetud faile";
  "";
  "";
  "Värskenda faili";
  "";
  "";
  "Kaugarvuti";
  "Kohalik arvuti";
  "Kinnita kustutamist";
  "";
  "";
  "Mitmikvalik";
  "Vali kõik";
  "Tühista kõigi valik";
  "Tühi kaust";
  "";
  "";
  "";
  "";
  "";
  "";
  "";
  "";
  "";
  "";
  "";
  "Kohandatud pildikvaliteet";
  "";
  "";
  "";
  "Kohanda akent";
  "";
  "";
  "";
  "";
  "";
  "";
  "";
  "";
  "";
  "";
  "";
  "";
  "";
  "";
  "Sisesta lukk";
  "";
  "";
  "";
  "";
  "";
  "";
  "";
  "";
  "";
  "";
  "";
  "Määra parool";
  "Opsüsteemi parool";
  "Kasutajakonto kontrolli (UAC) tõttu ei saa RustDesk mõnel juhul korralikult kaugjuhtimispoolena töötada. Kontrolli vältimiseks palun klõpsa alloleval nupul, et RustDesk oma süsteemi paigaldada.";
  "";
  "";
  "";
  "";
  with_quotes ["Töölaua kaugjuhtimiseks tuleb RustDeskile anda "; "juurdepääsetavuse"; " õigused."];
  with_quotes ["Töölaua kaugjuhtimiseks tuleb RustDeskile anda "; "ekraanisalvestuse"; " õigused."];
  "";
  "";
  "";
  "Paigaldustee";
  "";
  "";
  "Paigalduse alustamisel nõustud litsentsilepinguga.";
  "Nõustu ja paigalda";
  "";
  "";
  "";
  "Ara sulge seda akent, kuni kasutad tunnelit";
  "";
  "Kaughost";
  "Kaugport";
  "";
  "";
  "Kohalik port";
  "Kohalik aadress";
  "Muuda kohalikku porti";
  "Kiirema ühenduse jaoks palun seadista oma server";
  "";
  "";
  "";
  "";
  "";
  "";
  "";
  "";
  "";
  "";
  "";
  "";
  "Sisesta kaug-ID";
  "";
  "";
  "";
  with_quotes ["Logi automaatselt sisse (Kehtib vaid valiku "; "lukusta pärast seansi lõppu"; " lubamisel)"];
  "";
  "";
  "";
  "";
  "Muuda failiteed";
  "Loo kaust";
  "";
  "";
  "";
  "";
  "";
  "";
  "";
  "";
  "";
  "";
  "";
  "";
  "";
  "";
  "";
  "";
  "Ainult lubamisloendis IP saab mulle ligi";
  "";
  "";
  "";
  "";
  "";
  "Registreeritud e-posti aadressile on saadetud kinnituskood, sisselogimise jätkamiseks sisesta kinnituskood.";
  "";
  "";
  "";
  "Eraldatud koma, semikooloni, tühikute või uue reaga";
  "";
  "Lisa silt";
  "";
  "";
  "";
  "";
  "Vale kasutajanimi või parool";
  "";
  "Muuda silti";
  "Unusta parool";
  "";
  "Lisa lemmikutesse";
  "Eemalda lemmikutest";
  "";
  "";
  "Socks5 proksi";
  "Socks5/Http(s) proksi";
  "";
  "Süsteemikäivitusel käivitamiseks tuleb paigaldada süsteemiteenus.";
  "";
  "";
  "";
  "Kas soovid kindlasti ühenduse sulgeda?";
  "";
  "";
  "";
  "Ühe sõrme koputus";
  "Vasak hiireklahv";
  "Üks pikk koputus";
  "Kahe sõrme koputus";
  "Parem hiireklahv";
  "Üks sõrmeliigutus";
  "Topeltkoputus ja liigutus";
  "Hiirega sikutamine";
  "Kolm sõrme vertikaalselt";
  "Hiirerullik";
  "Kahe sõrme liigutus";
  "Lõuendi liigutus";
  "Näpistus-suum";
  "Lõuendi suum";
  "";
  "";
  "";
  "";
  "Jaga ekraani";
  "";
  "";
  "";
  "";
  "Ekraanisalvestus";
  "Sisendjuhtimine";
  "Helisalvestus";
  "Failiühendus";
  "Kuvaühendus";
  "";
  "Ava süsteemisätted";
  "";
  with_quotes ["Selleks, et kaugseade saaks sinu Androidi seadet juhtida hiire või puute abil, pead andma RustDeskile "; "juurdepääsetavuse"; " loa."];
  "Palun mine järgmisele süsteemiseadete lehele, leia ja sisesta [Paigaldatud teenused], lülita teenus [RustDesk Input] sisse.";
  "Saabunud on uus juhtimistaotlus, mis soovib sinu praegust seadet juhtida.";
  with_quotes [""; "Ekraanisalvestuse"; " lubamine käivitab teenuse automaatselt, lubades teistel seadetel sinu seadmesse ühendust taotleda."];
  "Teenuse sulgemine sulgeb automaatselt kõik loodud ühendused.";
  "Kasutatav Androidi versioon ei toeta helisalvestust, palun täienda Android 10 või uuemale versioonile.";
  "Koputa [Alusta teenust] või anna [Ekraanisalvestuse] luba, et ekraanijagamisteenust alustada.";
  "Loodud ühenduste õigused ei pruugi muutuda enne taasühendamist koheselt.";
  "";
  "";
  "";
  "";
  "";
  "";
  "";
  "";
  "";
  "";
  "";
  "";
  "";
  "";
  "";
  "";
  "Ignoreeri akuoptimeerimisi";
  "Kui soovid selle funktsiooni keelata, palun mine järgmisele RustDeski rakenduse seadete lehele, leia ja sisesta [Aku], eemalda linnuke valikult [Piiramata]";
  "";
  "";
  "";
  "";
  "";
  "";
  "";
  "";
  "";
  "";
  "";
  "";
  "";
  "Kaugseade taaskäivitub, palun sulge see sõnumikast ja ühendu mõne aja pärast uuesti püsiva parooliga.";
  "";
  "Lahku täisekraanist";
  "";
  "Mobiilitegevused";
  "Vali kuvar";
  "Juhtimistegevused";
  "Kuvasätted";
  "";
  "Pildikvaliteet";
  "Kerimisstiil";
  "Kuva tööriistariba";
  "Peida tööriistariba";
  "Otseühendus";
  "Releeühendus";
  "Turvaline ühendus";
  "Ebaturvaline ühendus";
  "";
  "";
  "";
  "";
  "";
  "Tume teema";
  "Hele teema";
  "";
  "";
  "Järgi süsteemi";
  "";
  "Lukusta lahti turvasätted";
  "";
  "Lukusta lahti võrgusätted";
  "";
  "Otsene IP-ligipääs";
  "";
  "";
  "";
  "";
  "Heli sisendseade";
  "Kasuta IP-lubamisloendit";
  "";
  "Kinnita tööriistariba";
  "Eemalda tööriistariba kinnitus";
  "";
  "";
  "";
  "";
  "";
  "";
  "";
  "";
  "";
  "";
  "";
  "";
  "";
  "Kaugtöölaua praegune aken nõuab töötamiseks kõrgemaid õigusi, mistõttu ei saa see ajutiselt hiirt ja klaviatuuri kasutada. Võid kaugkasutajal paluda minimeerida praegune aken või klõpsata ühenduse haldamise aknas kõrgendatud loa nuppu. Selle probleemi vältimiseks on soovitatav kaugseadmesse tarkvara paigaldada.";
  "";
  "";
  "";
  "Klaviatuurisätted";
  "Täielik ligipääs";
  "Ekraanijagamine";
  "";
  "";
  "Kuva";
  "Palun vali jagatav ekraan (tegutse partneri poolel).";
  "";
  "";
  "";
  "";
  "";
  "";
  "";
  "";
  "";
  "";
  "Ühekordne parool";
  "";
  "";
  "";
  "";
  "Luba varjamine ainult siis, kui parooliga seansse võetakse vastu ning kasutatakse püsivat parooli.";
  "Waylandi tugi on katsetusjärgus, järelvalveta juurdepääsu vajadusel palun kasuta X11.";
  "";
  "";
  "";
  "";
  "";
  "";
  "";
  "";
  "Kui kasutad Linuxis Nvidia graafikakaarti ja kaugaken sulgub kohe pärast ühendamist, võib aidata üleminek avatud lähtekoodiga Nouveau draiverile ja valida tarkvaraline renderdamise. Vajalik on tarkvara taaskäivitamine.";
  "";
  with_quotes ["Kaugtöölaua klaviatuuriga juhtimiseks pead andma RustDeskile "; "sisendi jälgimise"; " õigused."];
  with_quotes ["Kaugelt rääkimiseks pead andma RustDeskile "; "heli salvestamise"; " õigused."];
  "Sa võid kõrgendatud õigusi taotleda ka siis, kui keegi on kaugpoolel.";
  "";
  "Kõrgendatud õiguste viga";
  "";
  "";
  "";
  "Kaugkasutaja peab siiski ise vajutama käitatud RustDeski kasutajakonto kontrollis (UAC) OK-nuppu.";
  "Taotle kõrgendatud õigusi";
  "Palun oota, kuni kaugkasutaja nõustub UAC-dialoogiga (kasutajakonto kontroll).";
  "";
  "";
  "";
  "";
  "";
  "";
  "";
  "";
  "";
  "Vaheta pooli";
  "";
  "";
  "Vaikimisi kuvastiil";
  "Vaikimisi kerimisstiil";
  "Vaikimisi pildikvaliteet";
  "Vaikimisi koodek";
  "";
  "";
  "";
  "Teised vaikevalikud";
  "";
  "";
  "";
  with_quotes ["Otseühendust ei pruugi olla võimalik luua; võid proovida ühendust relee kaudu. Lisaks, kui soovid esimesel katsel kasutada releed, võid lisada ID-le järelliite "; "/r"; " või valida viimaste seansside kaardil - kui see on olemas - valiku "; "Ühenda alati relee kaudu"; "."];
  "";
  "";
  "";
  "";
  "";
  "RDP seaded";
  "";
  "Uus ühendus";
  "";
  "";
  "";
  "Sinu seade";
  "Ups, hiljutised seansid puuduvad!\nAeg uus planeerida.";
  "Ei ole veel ühtegi lemmikpartnerit?\nLeia keegi, kellega suhelda ja lisa ta oma lemmikute hulka!";
  "Oh ei, tundub, et me pole veel ühtegi partnerit avastanud.";
  "Oh ei, tundub et sinu aadressiraamatus ei ole hetkel ühtegi partnerit.";
  "";
  "Tühi kasutajanimi";
  "Tühi parool";
  "";
  "See fail on partneri omaga identne.";
  "Kuva kuvarid tööriistaribal";
  "Kuvarežiim";
  "X-töölaua seansi lubamiseks pead sisse logima Linuxi kaugkontosse.";
  "Kinnita RustDeski parooli";
  "Jäta see konto meelde";
  "Seda kontot kasutatakse kaug-opsüsteemi sisselogimiseks ja töölaua seansi lubamiseks headless-režiimis.";
  "Opsüsteemi konto";
  "Teine kasutaja on juba sisse logitud";
  "Ühenda lahti";
  "Xorg-i ei leitud";
  "Palun paigalda Xorg";
  "Töölaud pole saadaval";
  "Palun paigalda GNOME Desktop";
  "";
  "Süsteemiheli";
  "";
  "";
  "";
  "Kopeeri sõrmejälg";
  "Sõrmejäljed puuduvad";
  "";
  "";
  "";
  "";
  "";
  "";
  "";
  "";
  "Originaalne eraldusvõime";
  "Ühita kohaliku eraldusvõimega";
  "Kohandatud eraldusvõime";
  "";
  "Luba kõrgemate õigustega";
  "Võta ühendus vastu ja anna kõrgemad UAC-õigused (kasutajakonto kontroll).";
  "Koopia vastuse ootamisel tekkis ajalõpp.";
  "";
  "";
  "";
  "";
  "Kas soovid kindlasti välja logida?";
  "";
  "";
  "";
  "Oled saavutanud hallatavate seadmete maksimaalse arvu.";
  "";
  "";
  "";
  "";
  "";
  "";
  "Vaheta parooli";
  "Värskenda parool";
  "";
  "Ruudustikuvaade";
  "Loendivaade";
  "";
  "Lülita silte";
  "Aadressiraamatu värskendamine ebaõnnestus";
  "Aadressiraamatu sünkroonimine serveriga ebaõnnestus";
  "Hiljutistel seanssidel olnud seadmed sünkroonitakse tagasi aadressiraamatusse.";
  "Vaheta värvi";
  "Põhivärv";
  "HSV-värv";
  "Paigaldus oli edukas!";
  "";
  "";
  "";
  "Võid olla KELMUSE ohver!";
  "Kui räägid telefoniga kellegagi, keda EI TUNNE ja EI USALDA, kes on palunud sul RustDeski kasutada ja teenus käivitada, ära jätka ning lõpeta kõne koheselt.";
  "Tõenäoliselt on tegemist petturiga, kes üritab sinu raha või muid privaatseid andmeid varastada.";
  "";
  "";
  "";
  "";
  "Sissetulevate seansside automaatne sulgemine kasutaja mitteaktiivsuse korral";
  "Mitteaktiivsuse tõttu automaatselt lahti ühendatud";
  "";
  "Palun täienda RustDesk Server Pro versioonile {} või uuem!";
  "Grupi värskendamine ebaõnnestus";
  "";
  "";
  "";
  "See kuvar on välja lülitatud, lülita esmasele kuvarile.";
  "";
  "";
  "";
  "";
  "SELinux on su seadmes lubatud, mis võib RustDeskil takistada juhitud poolel toimimist.";
  "";
  "";
  "";
  "";
  "";
  "";
  "";
  "";
  with_quotes ["Võid sisestada ID, otsese IP või domeeni koos pordiga (<domeen>:<port>).\nKui soovid juurdepääsu seadmele mõnes teises serveris, lisa palun serveri aadress (<id>@<serveri_aadress>?key=<võtme_väärtus>), näiteks,\n9123456234@192.168.16.1:21117?key=5Qbwsde3unUcJBtrx9ZkvUmwFNoExHzpryHuPUdqlWM=.\nKui soovid juurdepääsu seadmele avalikus serveris, sisesta "; "<id>@public"; ", avaliku serveri puhul ei ole võtit vaja."];
  "Režiim 1";
  "Režiim 2";
  "";
  "";
  "Kaudse kuvari draiver ei ole toetatud. Vajalik on Windows 10, versioon 2004 või uuem.";
  "Sisendallikas 1";
  "Sisendallikas 2";
  "";
  "Vaheta vasak ja parem hiirenupp";
  "";
  "";
  "";
  "";
  "";
  "";
  "";
  "";
  "";
  "";
  "";
  "";
  "";
  "";
  "";
  "";
  "";
  "";
  "";
  "";
  "";
  "";
  "";
  "";
  "";
  "";
  "";
  "";
  "";
  "";
  "";
  "";
  "";
  "";
  "";
  "";
  "";
  "";
  "";
  "";
  "";
  "";
  "";
  "";
  "";
  "";
  "";
  "";
  "";
  "";
  "";
  "";
  "";
  "";
  "";
  "";
  "";
  "";
  "";
  "";
  "";
  "";
  "";
  "";
  "";
  "";
  "";
  "";
  "";
  "";
  "";
  "";
  "";
  "";
  "";
  "";
  "";
  "";
  "";
  "";
  "";
  "";
  ""].
(** [LANGS.eu] *)
Definition lang_eu : jsmap string string := texts [
  "Egoera";
  "Zure mahaigaina";
  "Mahaigainera zure ID eta pasahitzarekin sartu zaitezke";
  "Pasahitza";
  "Prest";
  "Ezarrita";
  "RustDesk sarera konektatzen...";
  "Gaitu zerbitzua";
  "Hasi zerbitzua";
  "Zerbitzua martxan dago";
  "Zerbitzua ez dago martxan";
  "Ez dago prest. Mesedez, egiaztatu zure konexioa";
  "Kontrolatu urruneko mahaigaina";
  "Transferitu fitxategia";
  "Konektatu";
  "Azken saioak";
  "Helbide-liburua";
  "Berrespena";
  "TCP tunela";
  "Kendu";
  "Freskatu ausazko pasahitza";
  "Ezarri zure pasahitza";
  "Gaitu teklatua/sagua";
  "Gaitu arbela";
  "Gaitu fitxategien transferentzia";
  "Gaitu TCP tunela";
  "Onartutako IP helbideak";
  "ID/Relay zerbitzaria";
  "Inportatu zerbitzariaren konfigurazioa";
  "Esportatu zerbitzariaren konfigurazioa";
  "Zerbitzariaren konfigurazioa ondo inportatu da";
  "Zerbitzariaren konfigurazioa ondo esportatu da";
  "Zerbitzariaren konfigurazioa baliogabea da";
  "Arbela hutsik dago";
  "Gelditu zerbitzua";
  "Aldatu IDa";
  "Zure ID berria";
  "%min%(e)tik %max% arteko luzera";
  "hizki batekin hasten da";
  "onartutako karaktereak";
  "Soilik a-z, A-Z, 0-9, - (dash) eta _ (barra baxua) karaktereak daude onartuta. Lehen hizkia a-z, A-Z izan behar da. Luzera 6 eta 16 artekoa izan behar da.";
  "Webgunea";
  "Honi buruz";
  "Bihotzez eginda mundu kaotiko honetan!";
  "Pribatutasun-politika";
  "Mututu";
  "Konpilazio-data";
  "Bertsioa";
  "Hasiera";
  "Audio sarrera";
  "Hobespenak";
  "Hardware kodeka";
  "Bit-emari moldagarria";
  "ID zerbitzaria";
  "Relay zerbitzaria";
  "API zerbitzaria";
  "http:// edo https://-rekin hasi behar da";
  "IP baliogabea";
  "Formatu baliogabea";
  "Oraindik ez dago zerbitzariarengatik onartuta";
  "Ez dago eskuragarri";
  "Sarriegia";
  "Utzi";
  "Saltatu";
  "Itxi";
  "Saiatu berriro";
  "Ondo";
  "Pasahitza beharrezkoa da";
  "Mesedez, sartu zure pasahitza";
  "Gogoratu pasahitza";
  "Pasahitz okerra";
  "Berriro sartu nahi zara?";
  "Konexio errorea";
  "Errorea";
  "Konexioa parekidearengatik berrezarrita";
  "Konektatzen...";
  "Konexioa abian da. Itxaron mesedez.";
  "Mesedez, saiatu berrito minutu bat pasata";
  "Saio-hasiera errorea";
  "Arrakastatsua";
  "Konektatuta, irudiaren zain...";
  "Izena";
  "Mota";
  "Aldatua";
  "Tamaina";
  "Erakutsi ezkutuko fitxategiak";
  "Jaso";
  "Bidali";
  "Freskatu fitxategia";
  "Lokala";
  "Urrunekoa";
  "Urruneko ordenagailua";
  "Ordenagailu lokala";
  "Berretsi ezabapena";
  "Ezabatu";
  "Ezaugarriak";
  "Multi-hautapena";
  "Hautatu guztiak";
  "Desautatu denak";
  "Karpeta hutsa";
  "Ez da karpeta huts bat";
  "Ziur zaude fitxategi hau ezabatu nahi duzula?";
  "Ziur zaude karpeta huts hau ezabatu nahi duzula?";
  "Ziur zaude karpeta honen fitxategia ezabatu nahi duzula?";
  "Egin hau gatazka guztietarako";
  "Hau ezin da atzera bueltatu!";
  "Ezabatzen";
  "fitxategiak";
  "Zain";
  "Bukatuta";
  "Abiadura";
  "Irudi kalitate pertsonalizatua";
  "Pribatutasun modua";
  "Blokeatu erabiltzailearen sarrera";
  "Desblokeatu erabiltzailearen sarrera";
  "Doitu leihoa";
  "Originala";
  "Txikitu";
  "Luzatu";
  "Korritze-barra";
  "Korritze automatikoa";
  "Irudi kalitate ona";
  "Orekatua";
  "Optimizatu erreakzio-denbiora";
  "Pertsonalizatua";
  "Erakutsi urruneko kurtsorea";
  "Erakutsi kalitate monitorea";
  "Desgaitu arbela";
  "Blokeatu sesioa amaitu ostean";
  "Sartu Ctrl + Alt + Del";
  "Sarrera-blokeoa";
  "Freskatu";
  "IDa ez da existitzen";
  "Topaketa zerbitzarira konektatzeak huts egin du";
  "Mesedez, saiatu berriro geroago";
  "Urruneko mahaigaina lineaz kanpo dago";
  "Gakoak ez datoz bat";
  "Denbora-muga";
  "Igorpen zerbitzarira konektatzeak huts egin du";
  "Topaketa zerbitzariaren bidez konektatzeak huts egin du";
  "Igorpen zerbitzariaren bidez konektatzeak huts egin du";
  "Urruneko mahaigainera zuzeneko konexio bat ezartzeak huts egin du";
  "Ezarri pasahitza";
  "Sistema eragilearen pasahitza";
  "Erabiltzaile Kontuen Kontrolarengatik, RustDesk ezin du ondo funtzionatu urruneko mahaigainean. EKK saihesteko, mesedez, egin klik azpiko botoian RustDesk sistema mailan instalatzeko.";
  "Egin klik bertsio-berritzeko";
  "Egin klik deskargatzeko";
  "Egin klik eguneratzeko";
  "Konfiguratu";
  with_quotes ["Zure mahaigaina urrunetik kontrolatzeko, RustDesk-i "; "Irisgarritasuna"; " baimenak eman behar dituzu."];
  with_quotes ["Zure mahaigaina kanpotik kontrolatzeko, RustDesk-i "; "Pantaila grabatu"; " baimena eman behar duzu."];
  "Instalantzen...";
  "Instalatu";
  "Instalazioa";
  "Instalazio bide-izena";
  "Sortu hasiera-menuko lasterbideak";
  "Sortu mahaigaineko ikonoa";
  "Instalazioa hastean, lizentzia-kontratua onartzen duzu.";
  "Onartu eta instalatu";
  "Azken erabiltzailearen lizentzia akordioa";
  "Sortzen...";
  "Zure instalazioak bertsio zaharragoa du.";
  "Ez itxi leiho hau tunela erabili bitartean";
  "Entzuten...";
  "Urruneko ostalaria";
  "Urruneko ataka";
  "Ekintza";
  "Gehitu";
  "Ataka lokala";
  "Helbide lokala";
  "Aldatu ataka lokala";
  "Konexio azkarragorako, konfiguratu zure zerbitzaria";
  "Laburregia, 6 karaktere gutxienez.";
  "Berrespena ez dator bat.";
  "Baimenak";
  "Onartu";
  "Ezeztatu";
  "Deskonektatu";
  "Gaitu fitxategien kopiatze eta itsastea";
  "Konektatuta";
  "Zifratutako konexio zuzena";
  "Zifratutako konexio igorria";
  "Zifratu gabeko konexio zuzena";
  "Zifratu gabeko konexio igorria";
  "Sartu urruneko IDa";
  "Sartu zure pasahitza";
  "Saioa hasten...";
  "Gaitu RDP saio-partekatzea";
  "Saio-haste automatikoa";
  "Gaitu IP sarbide zuzena";
  "Berrizendatu";
  "Zuriunea";
  "Sortu mahaigaineko lasterbidea";
  "Aldatu bide-izena";
  "Sortu karpeta";
  "Mesedez, sartu karpetaren izena";
  "Konpondu";
  "Oharra";
  "Saio-hasiera Wayland erabilita ez dago onartuta";
  "Berrabiaraztea beharrezkoa";
  "Bistaratze-zerbitzaria ez da bateragarria";
  "x11 espero zen";
  "Ataka";
  "Ezarpenak";
  "Erabiltzaile-izena";
  "Ataka baliogabea";
  "Parekideak konexioa eskuz itxi du";
  "Gaitu urruneko konfigurazio-aldaketak";
  "Exekutatu instalatu gabe";
  "Konektatu igorpen-zerbitzari batetik";
  "Konektatu beti igorpen-zerbitzari batetik";
  "Baimendutako IPak soilik konektatu daitezke mahaigain honetara";
  "Saio-hasiera";
  "Egiaztatu";
  "Gogoratu";
  "Gailu honetaz fidatu";
  "Egiaztapen-kodea";
  "Egiaztapen-kode bat bidali da erregistratutako helbide elektronikora. Sartu egiaztapen-kodea saio-hasiera jarraitzeko.";
  "Saioa bukatu";
  "Etiketak";
  "Bilatu IDa";
  "Koma, puntu koma, zuriune edo lerro berriengatik banatuta";
  "Gehitu IDa";
  "Gehitu etiketa";
  "Desautatu etiketa guztiak";
  "Sare-errorea";
  "Erabiltzaile-izena ahaztu duzu";
  "Pasahitza ahaztu duzu";
  "Kredentzial baliogabeak";
  "Egiaztapen-kodea baliogabe edo iraungitua da";
  "Editatu etiketa";
  "Ahaztu pasahitza";
  "Gogokoenak";
  "Gehitu gogokoenetara";
  "Kendu gpgokoenetatik";
  "Hutsik";
  "Karpeta-izen baliogabea";
  "Socks5 proxia";
  "Socks5/Http(s) proxia";
  "Aurkituta";
  "Ordenagailua pizterakoan hasteko, sistemaren zerbitzua instalatu behar duzu.";
  "Urruneko IDa";
  "Itsatsi";
  "Itsatsi hemen?";
  "Ziur zaude konexioa itxi nahi duzula?";
  "Deskargatu bertsio berria";
  "Ukipen modua";
  "Sagu modua";
  "Hatz bakarreko ukipena";
  "Ezkerreko botoia";
  "Ukipen luzea";
  "Bi hatzeko ukipena";
  "Eskuineko botoia";
  "Hatz bakarreko mugimendua";
  "Bi aldiz ukitu eta mugitu";
  "Saguarekin arrastatu";
  "Hiru hatz bertikalki";
  "Saguaren gurpila";
  "Bi hatzeko mugimendua";
  "Oihal-mugimendua";
  "Atximurkatu zoom egiteko";
  "Oihal-zooma";
  "Berrezarri oihala";
  "Ez duzu baimenik fitxategiak transferitzeko";
  "Nota";
  "Konexioa";
  "Partekatu pantaila";
  "Txata";
  "Guztira";
  "elementuak";
  "hautatuta";
  "Pantaila-grabazioa";
  "Sarrera-kontrola";
  "Audio-grabazioa";
  "Fitxategi-konexioa";
  "Pantaila-konexioa";
  "Onartzen al duzu?";
  "Ireki sistemaren ezarpenak";
  "Nola lortu dezaket Android sarrera-baimena?";
  with_quotes ["Urruneko gailu batek zure Android gailua saguaren edo ukipenaren bidez kontrolatzeko, RustDesk "; "Irisgarritasuna"; " zerbitzua erabiltzeko baimena eman behar diozu."];
  "Joan hurrengo irekiko den sistemaren konfigurazio orrira, bilatu eta sartu [Instalatutako zerbitzuak], aktibatu [RustDesk Input] zerbitzua.";
  "Kontrol-eskaera berri bat jaso da uneko gailuarentzat.";
  "Pantaila-argazkia gaitzen baduzu, zerbitzua automatikoki abiaraziko da, eta beste gailu batzuek gailu honetatik konexioa eskatzeko aukera izango dute.";
  "Zerbitzua ixteak ezarritako konexio guztiak automatikoki itxiko ditu.";
  "Uneko Android bertsioak ez du audioa grabatzea onartzen; mesedez, eguneratu Android 10 edo berrira.";
  "Sakatu [Hasi zerbitzua] edo gaitu [Pantaila-grabazioa] baimena pantaila-partekatzea hasteko.";
  "Ezarritako konexioen baimenak ez dira aldatuko berriro konektatu arte.";
  "Kontua";
  "Berridatzi";
  "Fitxategi hau existitzen da dagoeneko, saltatu edo berridatzi nahi duzu?";
  "Irten";
  "Laguntza";
  "Huts egin du";
  "Arrakastatsua izan da";
  "Norbaitek pribatutasun modua hasten du, irten";
  "Ez da onartzen";
  "Parekidea ukatuta";
  "Mesedez, instalatu plugin hauek";
  "Parekidea irten da";
  "Itzaltzeak huts egin du";
  "Itzalita";
  "Hizkuntza";
  "Mantendu RustDesk atzeko planoko zerbitzu bezala";
  "Ezikusi bateria optimizazioak";
  "Ezaugarri hau desgaitu nahi baduzu, joan zaitez RustDesk aplikazioaren ezarpen orrira, bilatu eta saltu [Bateria] orrira eta kendu [Mugarik gabe]";
  "Hasi abiaraztean";
  "Hasi pantaila-partekatze zerbitzua abiaraztean, baimen bereziak behar ditu";
  "Konexioa ez dago baimenduta";
  "Legatu-modua";
  "Mapa modua";
  "Itzultze modua";
  "Erabili betirako pasahitza";
  "Erabili bi pasahitzak";
  "Ezarri betirako pasahitza";
  "Gaitu urruneko berrabiaraztea";
  "Berrabiarazi urruneko gailua";
  "Ziur zaude berrabiarazi nahi duzula?";
  "Urruneko gailua berrabiarazten";
  "Urruneko gailua berrabiarazten dabil. Mesedez, itxi mezu hau eta konektatu betirako pasahitzarekin une bat pasa ostean.";
  "Kopiatuta";
  "Irten pantaila osotik";
  "Pantaila osoa";
  "Mugikor-ekintzak";
  "Hautatu monitorea";
  "Kontrol-ekintzak";
  "Pantailaren ezarpenak";
  "Erlazioa";
  "Irudiaren kalitatea";
  "Korritze estiloa";
  "Erakutsi tresna-barra";
  "Ezkutatu tresna-barra";
  "Konexio zuzena";
  "Konexio igorria";
  "Konexio segurua";
  "Konexio ez-segurua";
  "Jatorrizko eskala";
  "Eskala moldagarria";
  "Orokorra";
  "Segurtasuna";
  "Itxura";
  "Itxura iluna";
  "Itxura argia";
  "Iluna";
  "Argia";
  "Jarraitu sistemaren itxura";
  "Gaitu hardware kodeka";
  "Desblokeatu segurtasun ezarpenak";
  "Gaitu audioa";
  "Desblokeatu sare-ezarpenak";
  "Zerbitzaria";
  "IP sarbide zuzena";
  "Proxia";
  "Aplikatu";
  "Deskonektatu gailu guztiak?";
  "Garbitu";
  "Audio sarrera gailua";
  "Erabili IP onartuen zerrenda";
  "Sarea";
  "Ainguratu tresna-barra";
  "Aingura kendu tresna-barrari";
  "Grabatzen";
  "Direktorioa";
  "Automatikoki grabatu sarrerako saioak";
  "";
  "Aldatu";
  "Hasi saioaren grabaketa";
  "Gelditu saioaren grabaketa";
  "Gaitu saioen grabaketa";
  "Gaitu LAN ezagutza";
  "Ukatu LAN ezagutza";
  "Idatzi mezu bat";
  "Testu-gonbita";
  "Mesedez, itxaron UAC berrespenari";
  "Mahaigaineko uneko urruneko leihoak goi mailako baimenak behar ditu funtzionatzeko. Beraz, ezin duzu sagua eta teklatua erabili aldi baterako. Urruneko erabiltzaileari uneko leihoa minizatu edo kudeatze-leihoan maila igotzeko botoia erabili dezan eskatu diezaiokezu. Arazo hau saihesteko, programa instalatzea gomendatzen da urruneko gailuan.";
  "Deskonektatuta";
  "Besteak";
  "Berretsi fitxa ugari itxi baino lehen";
  "Teklatuaren ezarpenak";
  "Sarbide osoa";
  "Pantailaren partekatzea";
  "Wayland Ubuntu 21.04 edo bertsio berriagoa behar du.";
  "Wayland-ek linux banaketa berriago bat behar du. Saiatu X11 mahaigainarekin edo aldatu zure sistema eragilea.";
  "Ikusi";
  "Mesedez, hautatu partekatuko den pantaila (Kudeatu parekidearen aldean)";
  "Erakutsi RustDesk";
  "PC hau";
  "edo";
  "Jarraitu honekin";
  "Igo maila";
  "Handitu kurtsorea";
  "Onartu saioak pasahitzaren bidez";
  "Onartu saioak klikaren bidez";
  "Onatu saioak bientzako";
  "Mesedez, itxaron urruneko aldeak zure saio eskaera onartu dezan...";
  "Aldi bateko pasahitza";
  "Erabili aldi baterako pasahitza";
  "Aldi baterako pasahitzaren luzera";
  "Eskatu sarrera zure gailura";
  "Ezkutatu konexio kudeatze leihoa";
  "Utzi ezkutatzen saioak pasahitzarekin onartzen badira eta pasahitza betirakoa bada";
  "Wayland euskarria oraindik fase esperimentalean dago, mesedez, erabili X11 arretarik gabeko sarrera behar baduzu.";
  "Eskuineko klika fitxak hautatzeko";
  "Saltatuta";
  "Gehitu helbide-liburura";
  "Taldea";
  "Bilatu";
  "Web kontsolarengatik eskuz itxita";
  "Teklatu mota lokala";
  "Hautatu teklatu mota lokala";
  "Nvidia bideo-txartela baduzu eta urruneko leihoa berehala ixten bada, nouveau driver-a instalatzea eta software errenderizazioa hautatzea lagundu dezake. Aplikazioa berrabiarazi behar da.";
  "Erabili software bidezko errenderizazioa beti";
  with_quotes ["Urruneko mahaigaina teklatuaren bidez kontrolatzeko, RustDesk-i "; "Sarrera monitorizazioa"; " baimena eman behar diozu."];
  with_quotes ["Urrunetik hitz egin ahal izateko, RustDeski-i "; "Grabatu audioa"; " baimena eman behar diozu."];
  "Pribilegioen maila igotzea eskatu ahal duzu ere norbait badago urruneko aldean";
  "Itxaron";
  "Maila-igotze errorea";
  "Eskatu autentifikazioa urruneko erabiltzaileari";
  "Aukeratu urruneko kontua administratzailea bada";
  "Igorri administratzailearen erabiltzailea eta pasahitza";
  "Oraindik beharrezkoa da urruneko erabiltzaileak Ondo botoiari klik egitea exekutatzen ari den RustDesk UAC leihoan";
  "Eskatu pribilegioen maila igotzea";
  "Mesedez, itxaron urruneko erabiltzaileak UAC onartu arte.";
  "Maila igotzea ondo joan da";
  "maiuskula";
  "minuskula";
  "zenbakia";
  "karaktere berezia";
  "luzera>=8";
  "Ahula";
  "Ertaina";
  "Indartsua";
  "Aldatu aldeak";
  "Mesedez, berretsi zure mahaigaina partekatu nahi duzula";
  "Pantaila";
  "Ikuspen estilo lehenetsia";
  "Korritze estilo lehenetsia";
  "Irudi kalitate lehenetsia";
  "Kodek lehenetsia";
  "Bit-tasa";
  "FPS";
  "Auto";
  "Beste aukera lehenetsiak";
  "Ahots-deia";
  "Testu-txata";
  "Gelditu ahots-deia";
  with_quotes ["Posible da ezinezkoa izatea zuzen konektatzea. Igorpen zerbitzari baten bidez konektatzen saiatu zaitezke. Horrez gain, igorpena lehen aldiz erabili nahi baduzu, "; "/r"; " atzitu dezakezu IDari edo "; "Beti igorpen zerbitzari baten bidez konektatu"; " aukeratu azken saioen txartelan existitzen bada."];
  "Berriro konektatu";
  "Kodeka";
  "Bereizmena";
  "Ez dago transferentziarik abian";
  "Ezarri aldi baterako pasahitzaren luzera";
  "RDP ezarpenak";
  "Ordenatu honengatik";
  "Konexio berria";
  "Berrezarri";
  "Minimizatu";
  "Maximizatu";
  "Zure gailua";
  "Ups, ez dago azken saiorik!\nBerri bat planifikatzeko ordua da.";
  "Parekide gogokorik gabe oraindik?\nBilatu norbait konektatzeko eta gehitu zure gogokoetara!";
  "Ai ez, badirudi ez duzula parekiderik aurkitu oraindik.";
  "Badirudi ez dagoela parekiderik zure helbide-liburuan.";
  "adib. admin";
  "Erabiltzaile-izena hutsik";
  "Pasahitza hutsik";
  "Ni";
  "Fitxategi hau parekidearen berdina da.";
  "Erakutsi monitoreak tresna-barran";
  "Ikuspen modua";
  "Urruneko Linux kontu batera hasi behar duzu saioa X mahaigain saio bat gaitzeko";
  "Berretsi RustDesk pasahitza";
  "Gogoratu kontu hau";
  "Kontu hau bururik gabe urruneko SE hasi eta mahaigaineko saioa gaitzeko erabiltzen da";
  "SE kontua";
  "Beste erabiltzaile batek saioa hasi du dagoeneko";
  "Deskonektatu";
  "Ez da Xorg aurkitu";
  "Mesedez, instalatu ezazu Xorg";
  "Ez dago mahaigainik eskuragarri";
  "Mesedez, instalatu ezazu GNOME Desktop";
  "Ez da beharrezkoa pribilegioen maila igotzea";
  "Sistemaren soinua";
  "Lehenetsia";
  "RDP berria";
  "Hatz-marka";
  "Kopiatu hatz-marka";
  "hatz-markarik ez";
  "Hautatu parekidea";
  "Hautatu parekideak";
  "Pluginak";
  "Desinstalatu";
  "Eguneratu";
  "Gaitu";
  "Desgaitu";
  "Aukerak";
  "Jatorrizko bereizmena";
  "Bereizmen lokala egokitu";
  "Bereizmen pertsonalizatua";
  "Ezkutatu tresna-barra";
  "Onartu eta igo maila";
  "Konexioa onartu eta UAC baimenak mailaz igo.";
  "Kopiatzeko denbora-muga gainditu da.";
  "Sarrerako konexioa";
  "Irteerako konexioa";
  "Irten";
  "Ireki";
  "Saioa itxi nahi duzu?";
  "Zerbitzua";
  "Hasi";
  "Gelditu";
  "Kudeatutako gailuen mugara heldu zara.";
  "Sinkronizatu azken saioekin";
  "Ordenatu etiketak";
  "Ireki konexioa fitxa berri batean";
  "Mugitu fitxa leiho berri batera";
  "Ezin da hutsik egon";
  "Dagoeneko existitzen da";
  "Aldatu pasahitza";
  "Freskatu pasahitza";
  "ID";
  "Sareta-ikuspegia";
  "Zerrenda-ikuspegia";
  "Hautatu";
  "Aldatu etiketak";
  "Ezin izan da direktorio freskatu";
  "Ezin izan da zerbitzariko direktorioarekin sinkronizatu";
  "Azken saioetako gailuak direktorioarekin sinkronizatuko dira";
  "Aldatu kolorea";
  "Kolore nagusia";
  "HSV kolorea";
  "Instalazioa ondo joan da";
  "Instalazioak huts egin du";
  "Inbertitu saguaren gurpila";
  "{} saio";
  "IRUZURTUA izan zintezke!";
  "Ezagutzen eta fidatzen EZ duzun norbaitekin telefonoz bazaude eta RustDesk erabiltzeko eta zerbitzua abiarazteko eskatu badizute, ez ezazu egin eta eskegi berehala.";
  "Ziurrenik zure dirua edo informazio pribatua lapurtzen saiatzen ari diren iruzurgileak dira.";
  "Ez erakutsi berriro";
  "Onartzen dut";
  "Ukatu";
  "Denbora-muga minututan";
  "Itxi sarrerako konexioak automatikoki erabiltzailearen jarduera faltagatik.";
  "Konexioak huts egin du jarduera faltagatik";
  "Egiaztatu software eguneraketak abiatzerakoan";
  "Mesedez, bertsio-berritu RustDesk Server Pro {} bertsiora edo berriago batera!";
  "Ezin izan da taldea freskatu";
  "Iragazi bidegurutzez";
  "Kendu horma-papera sarrerako saioetan";
  "Probatu";
  "Pantaila deskonektatuta dago, aldatu nagusira.";
  "Ez dago pantailarik";
  "Ireki leiho berrian";
  "Erakutsi pantailak banakako leiho gisa";
  "Erabili nire pantaila guztiak urruneko saiorako";
  "SELinux zure gailuan gaituta dago. Honek RustDesk kontrolatutako alde gisa dagoenean behar bezala ez exekutatzea ekarri dezake.";
  "Aldatu ikuspegia";
  "Baldosa handiak";
  "Baldosa txikiak";
  "Zerrenda";
  "Pantaila birtuala";
  "Deskonektatu dena";
  "Kolore erreala (4:4:4)";
  "Gaitu erabiltzailearen sarreraren blokeoa";
  with_quotes ["ID bat, IP zuzena edo ataka duen domeinu bat sar dezakezu (<domeinua>:<portua>).\nBeste zerbitzari bateko gailu batera sartu nahi baduzu, erantsi zerbitzariaren helbidea (<id>@<zerbitzariaren_helbidea>?key=<gako_balioa>), adibidez,\n9123456234@192.168.16.1:21117?key=5Qbwsde3unUcJBtrx9ZkvUmwFNoExHzpryHuPUdqlWM=.\nZerbitzari publiko bateko gailuan sartu nahi baduzu, idatzi "; "<id>@public"; ", gakoa ez da zerbitzari publikorako beharrezkoa.\n\nLehen konexioan igorpen-zerbitzari bat erabiltzea behartu nahi baduzu, gehitu "; "/r"; " IDaren amaieran, adibidez, "; "9123456234/r"; "."];
  "1 modua";
  "2 modua";
  "Sartu modu pribatuan";
  "Irten modu pribatutik";
  "Zeharkako pantaila kudeatzailea ez dago onartuta. Windows 10, 2004 bertsioa edo berriagoa behar da.";
  "Sarrera-iturri 1";
  "Sarrera-iturri 2";
  "Aldatu kontrol-komando teklak";
  "Aldatu saguaren ezker-eskuin botoiak";
  "2FA kodea";
  "Gehiago";
  "Gaitu bi faktoreko autentifikazioa";
  "Konfiguratu orain zure autentifikatzailea. Authy, Microsoft edo Google Authenticator bezalako aplikazio autentifikatzaile bat erabil dezakezu telefonoan edo mahaigainean.\n\nEskaneatu QR kodea zure aplikazioarekin eta idatzi aplikazioak erakusten duen kodea bi faktoreko autentifikazioa gaitzeko.";
  "Ezin da kodea egiaztatu. Egiaztatu kodea eta tokiko orduaren ezarpenak zuzenak direla";
  "Bi faktoreko autentifikazioa";
  "Posta elektronikoa egiaztatzeko kodeak 6 karaktere izan behar ditu.";
  "2FA kodeak 6 digitu izan behar ditu.";
  "Windows saio anitz aurkitu dira";
  "Mesedez, aukeratu konektatu nahi duzun saioa";
  "RustDesk-ek egina";
  "Edizio pertsonalizatua da hau.\nBeste gailuetara konekta zaitezke, baina beste gailu batzuk ezin dira zure gailura konektatu.";
  "Edizio pertsonalizatu hau aurrez ezarritako pasahitz batekin dator. Pasahitz hau ezagutzen duenak zure gailuaren kontrol osoa lor dezake. Hau espero ez bazenuen, desinstalatu softwarea berehala.";
  "Segurtasun Alerta";
  "Nire helbide-liburua";
  "Pertsonala";
  "Jabea";
  "Ezarri pasahitz partekatua";
  "Bertan existitzen da";
  "Irakurtzeko soilik";
  "Irakurri/Idatzi";
  "Kontrol Osoa";
  "Goiko eremuak partekatuak eta besteengatik ikusgai daude.";
  "Denek";
  "Gehiago web kontsolan";
  "Baimendu konexioa RustDesk leihoa irekita badago";
  "Ez dago pantaila fisikorik, ez dago pribatutasun modua erabili beharrik.";
  "Jarraitu urruneko kurtsorea";
  "Jarraitu urruneko leiho fokua";
  "Lehenetsitako protokoloa eta ataka Socks5 eta 1080 dira";
  "Ez da aurkitu audio sarrerako gailurik.";
  "Sarrerakoa";
  "Irteerakoa";
  "Garbitu Wayland pantaila-hautapena";
  "Pantaila hautapena garbitu ondoren, partekatzeko pantaila hauta dezakezu.";
  "Ziur Wayland pantaila-hautapena garbituko duzula?";
  "Ahots-dei eskaera berri bat jaso da. Onartzen baduzu, audioa ahots bidezko komunikaziora aldatuko da.";
  "Erabili testura-errenderizazioa irudiak leunagoak egiteko.";
  "Erabili testura-errenderizazioa";
  "Leiho flotagarria";
  "RustDesk atzeko planoko zerbitzua mantentzen laguntzen du";
  "Mantendu pantaila piztuta";
  "Inoiz";
  "Kontrolatu bitartean";
  "Zerbitzua aktibo dagoen bitartean";
  "Harrapatu pantaila DirectX erabiliz";
  "Atzera";
  "Aplikazioak";
  "Igo bolumena";
  "Jaitsi bolumena";
  "Piztu/Itzali";
  "Telegrameko bot-a";
  "Ezaugarri hau gaitzen baduzu, zure bot-etik 2FA kodea jaso dezakezu. Konexio jakinarazpenetarako ere balio dezake.";
  with_quotes ["1, Ireki txat bat @BotFather bot-arekin.\n2, Bidali "; "/newbot"; " agindua. Token bat jasoko duzu urrats honen ostean.\n3, Hasi txat bat zure bot berriarekin. Bidali mezu bat aurreko barra batekin ("; "/"; ") "; "/kaixo"; " bezala gaitzeko.\n"];
  "";
  "";
  "";
  "";
  "";
  "";
  "";
  "";
  "";
  "";
  "";
  "";
  "";
  "";
  "";
  "";
  "";
  "";
  "";
  "";
  "";
  "";
  "";
  "";
  "";
  "";
  "";
  "";
  ""].
(** [LANGS.fa] *)
Definition lang_fa : jsmap string string := texts [
  "وضعیت";
  "دسکتاپ شما";
  "دسکتاپ شما با این شناسه و رمز عبور قابل دسترسی است";
  "رمز عبور";
  "آماده به کار";
  "اتصال برقرار شد";
  "...در حال برقراری ارتباط با سرور";
  "فعالسازی سرویس";
  "اجرای سرویس";
  "سرویس در حال اجرا است";
  "سرویس اجرا نشده";
  "ارتباط برقرار نشد. لطفا شبکه خود را بررسی کنید";
  "کنترل دسکتاپ میزبان";
  "انتقال فایل";
  "اتصال";
  "جلسات اخیر";
  "دفترچه آدرس";
  "تایید";
  "TCP تانل";
  "حذف";
  "بروزرسانی رمز عبور تصادفی";
  "!رمز عبور دلخواه بگذارید";
  " فعالسازی ماوس/صفحه کلید";
  "فعال سازی کلیپبورد";
  "انتقال فایل را فعال کنید";
  "را فعال کنید TCP تانل";
  "های مجاز IP لیست";
  "ID/Relay سرور";
  "تنظیم سرور با فایل";
  "ایجاد فایل تظیمات از سرور فعلی";
  "تنظیمات سرور با فایل کانفیگ با موفقیت انجام شد";
  "ایجاد فایل کانفیگ از تنظیمات فعلی با موفقیت انجام شد";
  "تنظیمات سرور نامعتبر است";
  "کلیپبورد خالی است";
  "توقف سرویس";
  "تعویض شناسه";
  "جدید ID";
  "%max% تا %min% طول از";
  "با حرف شروع می شود";
  "کارکترهای مجاز";
  "شناسه باید طبق این شرایط باشد : حروف کوچک و بزرگ انگلیسی و اعداد از 0 تا 9، _ و همچنین حرف اول آن فقط حروف بزرگ یا کوچک انگلیسی و طول آن بین 6 الی 16 کاراکتر باشد";
  "وب سایت";
  "درباره";
  "ساخته شده با قلب(عشق) در این دنیای پر هرج و مرج!";
  "بیانیه حریم خصوصی";
  "بستن صدا";
  "تاریخ ساخت";
  "نسخه";
  "صفحه اصلی";
  "ورودی صدا";
  "بهبودها";
  "کدک سخت افزاری";
  "سازگار Bitrate";
  "شناسه سرور";
  "Relay سرور";
  "API سرور";
  "شروع شود http:// یا https:// باید با";
  "نامعتبر است IP آدرس";
  "فرمت نادرست است";
  "هنوز توسط سرور مورد نظر پشتیبانی نمی شود";
  "در دسترسی نیست";
  "خیلی رایج";
  "لغو";
  "رد کردن";
  "بستن";
  "تلاش مجدد";
  "قبول";
  "رمز عبور لازم است";
  "رمز عبور خود را وارد کنید";
  "رمز عبور را به خاطر بسپار";
  "رمز عبور اشتباه است";
  "آیا میخواهید مجددا وارد شوید؟";
  "خطا در اتصال";
  "خطا";
  "توسط میزبان حذف شد";
  "...در حال اتصال";
  "در حال اتصال. لطفا متظر بمانید";
  "لطفا بعد از 1 دقیقه مجددا تلاش کنید";
  "ورود ناموفق بود";
  "با موفقیت انجام شد";
  "...ارتباط برقرار شد. انتظار برای دریافت تصاویر";
  "نام";
  "نوع فایل";
  "تاریخ تغییر";
  "سایز";
  "نمایش فایل های مخفی";
  "دریافت";
  "ارسال";
  "به روزرسانی فایل";
  "محلی";
  "از راه دور";
  "سیستم راه دور";
  "سیسستم محلی";
  "تایید حذف";
  "حذف";
  "مشخصات";
  "انتخاب دسته ای";
  "انتخاب همه";
  "لغو انتخاب همه";
  "پوشه خالی";
  "پوشه خالی نیست";
  "از حذف این فایل مطمئن هستید؟";
  "از حذف این پوشه خالی مطمئن هستید؟";
  "از حذف فایل موجود در این پوشه مطمئن هستید؟";
  "این عمل برای همه ی تضادها انجام شود";
  "این اقدام برگشت ناپذیر است!";
  "در حال حذف";
  "فایل ها";
  "انتظار";
  "تکمیل شد";
  "سرعت";
  "سفارشی سازی : کیفیت تصاویر";
  "حالت حریم خصوصی";
  "بستن ورودی کاربر";
  "بازکردن ورودی کاربر";
  "تنظیم پنجره";
  "اصل";
  "کوچک کردن";
  "کشیدن تصویر";
  "اسکرول بار";
  "پیمایش/اسکرول خودکار";
  "کیفیت خوب تصویر";
  "متعادل";
  "بهینه سازی : زمان واکنش";
  "سفارشی";
  "نمایش مکان نما موس میزبان";
  "نمایش کیفیت مانیتور";
  " غیرفعالسازی کلیپبورد";
  "قفل کردن حساب کاربری سیستم عامل پس از پایان جلسه";
  "Ctrl + Alt + Del افزودن";
  "قفل کردن سیستم";
  "تازه سازی";
  "شناسه وجود ندارد";
  "اتصال به سرور تولید شناسه انجام نشد";
  "لطفا بعدا تلاش کنید";
  "دسکتاپ راه دور آفلاین است";
  "عدم تطابق کلید";
  "زمان انتظار به پایان رسید";
  "سرور وصل نشد Relay به";
  "اتصال از طریق سرور تولید شناسه انجام نشد";
  "انجام نشد Relay اتصال از طریق سرور";
  "اتصال مستقیم به دسکتاپ راه دور انجام نشد";
  "تنظیم رمزعبور";
  "رمز عبور سیستم عامل";
  "لطفا برنامه را نصب کنید UAC و جلوگیری از خطای RustDesk برای راحتی در استفاده از نرم افزار";
  "برای ارتقا کلیک کنید";
  "برای دانلود کلیک کنید";
  "برای به روز رسانی کلیک کنید";
  "تنظیم";
  with_quotes ["بدهید "; "access"; " مجوز RustDesk برای کنترل از راه دور دسکتاپ باید به"];
  with_quotes ["بدهید "; "screenshot"; " مجوز RustDesk برای کنترل از راه دور دسکتاپ باید به"];
  "...در حال نصب";
  "نصب";
  "نصب و راه اندازی";
  "محل نصب";
  "Start ایجاد میانبرها در منوی";
  "ایجاد آیکن در دسکتاپ";
  "با شروع نصب، شرایط توافق نامه مجوز را می پذیرید";
  "قبول و شروع نصب";
  "قرارداد مجوز کاربر نهایی";
  "...در حال تولید";
  "نسخه قدیمی تری نصب شده است";
  "هنگام استفاده از تونل این پنجره را نبندید";
  "...انتظار";
  "هاست راه دور";
  "پورت راه دور";
  "عملیات";
  "افزودن";
  "پورت محلی";
  "آدرس محلی";
  "تغییر پورت محلی";
  "برای اتصال سریعتر، سرور اتصال شخصی خود را راه اندازی کنید";
  "بسیار کوتاه حداقل 6 کاراکتر مورد نیاز است";
  "تأیید ناموفق بود.";
  "دسترسی ها";
  "پذیرفتن";
  "رد کردن";
  "قطع اتصال";
  "مجاز بودن کپی و چسباندن فایل";
  "متصل شده";
  "اتصال مستقیم و رمزگذاری شده";
  "و رمزگذاری شده Relay اتصال از طریق";
  "اتصال مستقیم و بدون رمزگذاری";
  "و رمزگذاری نشده Relay اتصال از طریق";
  "شناسه از راه دور را وارد کنید";
  "زمر عبور خود را وارد کنید";
  "...در حال ورود";
  "را فعال کنید RDP اشتراک گذاری جلسه";
  "ورود خودکار";
  "را فعال کنید IP دسترسی مستقیم";
  "تغییر نام";
  "فضا";
  "ساخت میانبر روی دسکتاپ";
  "تغییر مسیر";
  "ایجاد پوشه";
  "نام پوشه را وارد کنید";
  "بازسازی";
  "هشدار";
  "پشتیبانی نمی شود Wayland ورود به سیستم با استفاده از ";
  "راه اندازی مجدد مورد نیاز است";
  "سرور تصویر پشتیبانی نشده است";
  "";
  "پورت";
  "تنظیمات";
  "نام کاربری";
  "پورت نامعتبر است";
  "به صورت دستی توسط میزبان بسته شد";
  "فعال بودن اعمال تغییرات پیکربندی از راه دور";
  "بدون نصب اجرا شود";
  "اتصال با رله";
  "برای اتصال استفاده شود Relay از";
  "های مجاز می توانند به این دسکتاپ متصل شوند IP فقط";
  "ورود";
  "تأیید کنید";
  "مرا به یاد داشته باش";
  "به این دستگاه اعتماد کنید";
  "کد تایید";
  "یک دستگاه جدید شناسایی شده است و یک کد تأیید به آدرس ایمیل ثبت شده ارسال شده است، برای ادامه ورود، کد تأیید را وارد کنید.";
  "خروج";
  "برچسب ها";
  "جستجوی شناسه";
  "با کاما، نقطه ویرگول، فاصله یا خط جدید از هم جدا می شوند";
  "افزودن شناسه";
  "افزودن برچسب";
  "همه برچسب ها را لغو انتخاب کنید";
  "خطای شبکه";
  "نام کاربری وجود ندارد";
  "رمزعبور وجود ندارد";
  "اعتبارنامه نادرست است";
  "کد تأیید نادرست است یا منقضی شده است";
  "ویرایش برچسب";
  "رمز عبور ذخیره نشود";
  "اتصالات دلخواه";
  "افزودن به علاقه مندی ها";
  "از علاقه مندی ها حذف شود";
  "موردی وجود ندارد";
  "نام پوشه نامعتبر است";
  "Socks5 پروکسی";
  "Socks5/Http(s) پروکسی";
  "پیدا شده";
  "برای شروع در هنگام راه اندازی، باید سرویس سیستم را نصب کنید";
  "شناسه راه دور";
  "درج";
  "اینجا درج شود؟";
  "آیا مطمئن هستید که می خواهید اتصال را پایان دهید؟";
  "دانلود نسخه جدید";
  "حالت لمسی";
  "حالت ماوس";
  "با یک انگشت لمس کنید";
  "دکمه سمت چپ ماوس";
  "لمس طولانی با یک انگشت";
  "لمس دو انگشتی";
  "دکمه سمت راست ماوس";
  "با یک انگشت حرکت کنید";
  "دو ضربه سریع بزنید و حرکت دهید";
  "کشیدن ماوس";
  "سه انگشت عمودی";
  "چرخ ماوس";
  "با دو انگشت حرکت کنید";
  "";
  "با دو انگشت بکشید تا زوم شود";
  "";
  "";
  "مجوز انتقال فایل داده نشده";
  "یادداشت";
  "ارتباط";
  "اشتراک گذاری صفحه";
  "چت";
  "مجموع";
  "آیتم ها";
  "انتخاب شده";
  "ضبط صفحه";
  "کنترل ورودی";
  "ضبط صدا";
  "ارتباط فایل";
  "ارتباط صفحه";
  "آیا می پذیرید؟";
  "باز کردن تنظیمات سیستم";
  "چگونه مجوز ورود به سیستم اندروید را دریافت کنیم؟";
  with_quotes ["استفاده کند "; "Accessibility"; " اجازه دهید از ویژگی RustDesk شما را از طریق ماوس یا صفحه ی لمسی کنترل کند، باید به Android برای اینکه یک دستگاه از راه دور بتواند دستگاه"];
  with_quotes ["را پیدا کنید و فعال نمایید "; "RustDesk Input"; " بشوید ، سپس گزینه "; "Installed Services"; " وارد قسمت "; "Accessibility"; " در صفحه تنظیمات "];
  "درخواست جدیدی برای مدیریت دستگاه فعلی شما دریافت شده است.";
  "فعال کردن ضبط صفحه به طور خودکار سرویس را راه اندازی می کند و به دستگاه های دیگر امکان می دهد درخواست اتصال به آن دستگاه را داشته باشند.";
  "با بستن سرویس، تمام اتصالات برقرار شده به طور خودکار بسته می شود";
  "نسخه فعلی اندروید از ضبط صدا پشتیبانی نمی" ++ zwnj ++ "کند، لطفاً به اندروید 10 یا بالاتر به" ++ zwnj ++ "روزرسانی کنید";
  "را فعال کنید [Screen Capture] ضربه بزنید یا مجوز [Start service] برای شروع سرویس اشتراک " ++ zwnj ++ "گذاری صفحه، روی";
  "مجوزهای ایجاد شده یا تغییر یافته برای اتصالات جاری تغییر نخواهد کرد، برای تغییر نیاز است مجددا اتصال برقرار گردد";
  "حساب کاربری";
  "بازنویسی";
  "این فایل وجود دارد، از فایل رد شود یا آن را بازنویسی کند؟";
  "خروج";
  "راهنما";
  "ناموفق";
  "موفقیت آمیز";
  "اگر شخصی حالت حریم خصوصی را روشن کرد، خارج شوید";
  "پشتیبانی نشده";
  "توسط میزبان راه دور رد شد";
  "لطفا افزونه ها را نصب کنید";
  "میزبان خارج شد";
  "خاموش کردن انجام نشد";
  "خاموش شد";
  "زبان";
  "را در پس زمینه نگه دارید RustDesk سرویس";
  "بهینه سازی باتری نادیده گرفته شود";
  "به صفحه تنظیمات بعدی بروید";
  "در هنگام بوت شروع شود";
  "سرویس اشتراک" ++ zwnj ++ "گذاری صفحه را در بوت راه" ++ zwnj ++ "اندازی کنید، به مجوزهای خاصی نیاز دارد";
  "اتصال مجاز نیست";
  "legacy حالت";
  "map حالت";
  "حالت ترجمه";
  "از رمز عبور دائمی استفاده شود";
  "از هر دو رمز عبور استفاده شود";
  "یک رمز عبور دائمی تنظیم شود";
  "فعال کردن قابلیت ریستارت از راه دور";
  "ریستارت کردن از راه دور";
  "ایا مطمئن هستید میخواهید راه اندازی مجدد انجام بدید؟";
  "در حال راه اندازی مجدد دستگاه راه دور";
  "دستگاه راه دور در حال راه اندازی مجدد است. این پیام را ببندید و پس از مدتی با استفاده از یک رمز عبور دائمی دوباره وصل شوید.";
  "کپی شده است";
  "از حالت تمام صفحه خارج شوید";
  "تمام صفحه";
  "اقدامات موبایل";
  "مانیتور را انتخاب کنید";
  "اقدامات مدیریتی";
  "تنظیمات نمایشگر";
  "نسبت";
  "کیفیت تصویر";
  "سبک اسکرول";
  "نمایش نوار ابزار";
  "پنهان کردن نوار ابزار";
  "ارتباط مستقیم";
  "Relay ارتباط";
  "ارتباط امن";
  "ارتباط غیر امن";
  "مقیاس اصلی";
  "مقیاس تطبیقی";
  "عمومی";
  "امنیت";
  "نمایه";
  "نمایه تیره";
  "نمایه روشن";
  "تیره";
  "روشن";
  "پیروی از سیستم";
  "فعال سازی کدک سخت افزاری";
  "دسترسی کامل به تنظیمات امنیتی";
  "فعال شدن صدا";
  "دسترسی کامل به تنظیمات شبکه";
  "سرور";
  "IP دسترسی مستقیم به";
  "پروکسی";
  "اعمال تغییرات";
  "همه دستگاه ها قطع شوند؟";
  "پاک کردن";
  "منبع صدا";
  "های مجاز IP استفاده از";
  "شبکه";
  "سجاق کردن نوار ابزار";
  "خروج از حالت سجاق نوار ابزار";
  "در حال ضبط";
  "مسیر";
  "ضبط خودکار جلسات ورودی";
  "";
  "تغییر";
  "شروع ضبط جلسه";
  "توقف ضبط جلسه";
  "فعالسازی ضبط جلسه";
  "فعالسازی جستجو در شبکه";
  "غیر فعالسازی جستجو در شبکه";
  "یک پیام بنویسید";
  "سریع";
  "باشید UAC لطفا منتظر تایید";
  "پنجره فعلی دسکتاپ راه دور برای کار کردن به دسترسی بالاتری نیاز دارد، بنابراین نمی" ++ zwnj ++ "تواند به طور موقت از ماوس و صفحه کلید استفاده کند. می توانید از کاربر راه دور درخواست کنید که پنجره فعلی را به پایین منتقل کند یا روی دکمه ارتقاء دسترسی در پنجره مدیریت اتصال کلیک کنید. برای جلوگیری از این مشکل، توصیه می شود نرم افزار را روی دستگاه از راه دور نصب کنید.";
  "قطع ارتباط";
  "سایر";
  "تایید بستن دسته ای برگه ها";
  "تنظیمات صفحه کلید";
  "دسترسی کامل";
  "اشتراک گذاری صفحه";
  "نیازمند اوبونتو نسخه 21.04 یا بالاتر است Wayland";
  "استفاده کنید و یا سیستم عامل خود را تغییر دهید X11 نیازمند نسخه بالاتری از توزیع لینوکس است. لطفا از دسکتاپ با سیستم";
  "چشم انداز";
  "لطفاً صفحه" ++ zwnj ++ "ای را برای اشتراک" ++ zwnj ++ "گذاری انتخاب کنید (در سمت همتا به همتا کار کنید).";
  "RustDesk نمایش";
  "This PC";
  "یا";
  "ادامه با";
  "ارتقاء";
  " بزرگنمایی نشانگر ماوس";
  "قبول درخواست با رمز عبور";
  "قبول درخواست با کلیک موس";
  "قبول درخواست با هر دو";
  "...لطفا صبر کنید تا میزبان درخواست شما را قبول کند";
  "رمز عبور یکبار مصرف";
  "استفاده از رمز عبور یکبار مصرف";
  "طول رمز عبور یکبار مصرف";
  "دسترسی به دستگاه خود را درخواست کنید";
  "پنهان کردن پنجره مدیریت اتصال";
  "فقط در صورت پذیرفتن جلسات از طریق رمز عبور و استفاده از رمز عبور دائمی، مخفی شدن مجاز است";
  "پشتیبانی Wayland در مرحله آزمایشی است، لطفاً در صورت نیاز به دسترسی بدون مراقبت از X11 استفاده کنید.";
  "برای انتخاب تب ها راست کلیک کنید";
  "رد شد";
  "افزودن به دفترچه آدرس";
  "گروه";
  "جستجو";
  "به صورت دستی توسط کنسول وب بسته شد";
  "نوع صفحه کلید محلی";
  "نوع صفحه کلید محلی را انتخاب کنید";
  "اگر کارت گرافیک Nvidia دارید و پنجره راه دور بلافاصله پس از اتصال بسته می شود، درایور nouveau را نصب نمایید و انتخاب گزینه استفاده از رندر نرم افزار می تواند کمک کننده باشد. راه اندازی مجدد نرم افزار مورد نیاز است.";
  "همیشه از رندر نرم افزاری استفاده کنید";
  with_quotes ["برای کنترل دسکتاپ از راه دور با صفحه کلید، باید مجوز RustDesk "; "Input Monitoring"; " را بدهید."];
  with_quotes ["را بدهید. RustDesk "; "Record Audio"; " برای صحبت از راه دور، باید مجوز"];
  "همچنین می توانید در صورت وجود شخصی در سمت راه دور درخواست ارتقاء دسترسی دهید.";
  "صبر کنید";
  "خطای ارتقاء دسترسی";
  "درخواست احراز هویت از یک کاربر راه دور";
  "اگر حساب راه دور یک مدیر است، این را انتخاب کنید";
  "نام کاربری و رمز عبور مدیر را منتقل کنید";
  "همچنان کاربر از راه دور نیاز دارد که روی OK در پنجره UAC اجرای RustDesk کلیک کند.";
  "درخواست ارتقاء دسترسی";
  "لطفاً منتظر بمانید تا کاربر راه دور درخواست پنجره UAC را بپذیرد.";
  "ارتقاء دسترسی با موفقیت انجام شد";
  "حروف بزرگ";
  "حروف کوچک";
  "عدد";
  "کاراکتر خاص";
  "حداقل طول 8 کاراکتر";
  "ضعیف";
  "متوسط";
  "قوی";
  "طرفین را عوض کنید";
  "لطفاً تأیید کنید که آیا می خواهید دسکتاپ خود را به اشتراک بگذارید؟";
  "نمایش دادن";
  "سبک نمایش پیش فرض";
  "سبک پیش" ++ zwnj ++ " فرض اسکرول";
  "کیفیت تصویر پیش فرض";
  "کدک پیش فرض";
  "میزان بیت صفحه نمایش";
  "FPS";
  "خودکار";
  "سایر گزینه های پیش فرض";
  "تماس صوتی";
  "گفتگو متنی (چت متنی)";
  "توقف تماس صوتی";
  " را به شناسه اضافه کنید یا گزینه " ++ escaped_quote ++ " همیشه از طریق رله متصل شوید" ++ escaped_quote ++ " را در کارت همتا انتخاب کنید. همچنین، اگر می" ++ zwnj ++ "خواهید فوراً از سرور رله استفاده کنید، می" ++ zwnj ++ "توانید پسوند " ++ escaped_quote ++ "/r" ++ escaped_quote ++ ".\n اتصال مستقیم ممکن است امکان پذیر نباشد. در این صورت می توانید سعی کنید از طریق سرور رله متصل شوید";
  "اتصال مجدد";
  "کدک";
  "وضوح";
  "هیچ انتقالی در حال انجام نیست";
  "طول رمز یکبار مصرف را تعیین کنید";
  "RDP تنظیمات";
  "مرتب سازی بر اساس";
  "اتصال جدید";
  "بازیابی";
  "کوچک کردن پنجره";
  "بزرک کردن پنجره";
  "دستگاه شما";
  "اوه، هیچ جلسه اخیری وجود ندارد!\nزمان برنامه ریزی جلسه جدید است";
  "هنوز همتای مورد علاقه" ++ zwnj ++ "ای ندارید؟\nبیایید فردی را برای ارتباط پیدا کنیم و آن را به موارد دلخواه خود اضافه کنیم!";
  "اوه نه، به نظر می رسد که ما هنوز همتای خود را پیدا نکرده ایم";
  "اوه ، به نظر می رسد که در حال حاضر هیچ همتایی در دفترچه آدرس شما وجود ندارد";
  "مثال : admin";
  "نام کاربری خالی است";
  "رمز عبور خالی است";
  "من";
  "این فایل با فایل همتا یکسان است.";
  "نمایش مانیتورها در نوار ابزار";
  "حالت مشاهده";
  "برای فعال کردن دسکتاپ X، باید به حساب لینوکس راه دور وارد شوید";
  "رمز عبور RustDesk را تأیید کنید";
  "این حساب را به خاطر بسپارید";
  "این حساب برای ورود به سیستم عامل راه دور و فعال کردن جلسه دسکتاپ در هدلس استفاده می شود";
  "حساب کاربری سیستم عامل";
  "کاربر دیگری قبلاً وارد شده است";
  "قطع شدن";
  "پیدا نشد Xorg";
  "لطفا Xorg را نصب کنید";
  "هیچ دسکتاپی در دسترس نیست";
  "لطفا دسکتاپ گنوم را نصب کنید";
  "نیازی به ارتقاء نیست";
  "صدای سیستم";
  "پیش فرض";
  "ریموت جدید";
  "\n اثر انگشت";
  "کپی کردن اثر انگشت";
  "بدون اثر انگشت";
  "یک همتا را انتخاب کنید";
  "همتایان را انتخاب کنید";
  "پلاگین ها";
  "حذف نصب";
  "به روز رسانی";
  "فعال کردن";
  "غیر فعال کردن";
  "گزینه ها";
  "وضوح اصلی";
  "متناسب با وضوح محلی";
  "وضوح سفارشی";
  "جمع کردن نوار ابزار";
  "بپذیرید و افزایش دهید";
  "را افزایش دهید UAC اتصال را بپذیرید و مجوزهای.";
  "زمان انتظار برای مشخص شدن وضعیت کپی تمام شد.";
  "اتصال ورودی";
  "اتصال خروجی";
  "خروج";
  "باز کردن";
  "آیا برای خارج شدن مطمئن هستید؟";
  "سرویس";
  "شروع";
  "توقف";
  "شما به حداکثر تعداد دستگاه های مدیریت شده رسیده اید.";
  "با جلسات اخیر همگام سازی کنید";
  "مرتب سازی برچسب ها";
  "اتصال را در تب جدید باز کنید";
  "تب را به پنجره جدید منتقل کنید";
  "نمیتواند خالی باشد";
  "درحال حاضر وجود دارد";
  "رمز عبور را تغییر دهید";
  "رمز عبور را تازه کنید";
  "شناسه";
  "نمای توری شکل";
  "نمایش به صورت لیست";
  "انتخاب کنید";
  "تگ ها را تغییر دهید";
  "دفترچه آدرس بازخوانی نشد";
  "دفترچه آدرس با سرور همگام سازی نشد";
  "دستگاه هایی که در جلسات اخیر حضور داشتند با دفترچه آدرس همگام سازی می شوند";
  "تغییر رنگ";
  "رنگ اولیه";
  "رنگ HDV";
  "نصب با موفقیت انجام شد!";
  "نصب انجام نشد!";
  "معکوس کردن چرخ موس";
  "{} جلسه";
  "ممکن است شما در حال کلاهبرداری باشید!";
  "استفاده کنید و سرویس را راه" ++ zwnj ++ "اندازی کنید، صحبت می" ++ zwnj ++ "کنید، ادامه ندهید و بلافاصله تلفن را قطع کنید RustDesk اگر با شخصی که نمی" ++ zwnj ++ "شناسید و به او اعتماد ندارید و از شما خواسته است از";
  "آنها احتمالا یک کلاهبردار هستند که سعی در سرقت پول یا سایر اطلاعات خصوصی شما دارند.";
  "دیگر نشان نده";
  "موافقم";
  "نمی پذیرم";
  "مدت زمان انتظار به دقیقه";
  "بسته شدن خودکار جلسات ورودی در صورت عدم فعالیت کاربر";
  "اتصال به دلیل عدم فعالیت بسته شد";
  "در هنگلم شروع برنامه بروزرسانی را بررسی کن";
  "را به نسخه {} یا جدیدتر ارتقا دهید RustDesk Server Pro لظفا";
  "گروه بازخوانی نشد";
  "";
  "را در جلسات ورودی حذف کنید Wallpaper";
  "تست";
  "صفحه نمایش قطع شده است، به صفحه نمایش اول بروید.";
  "بدون نمایشگر";
  "باز کردن در پنجره جدید";
  "نمایش نمایشگرها به عنوان پنجره های جداگانه";
  "از همه نمایشگرهای من برای جلسه راه دور استفاده کنید";
  "به عنوان کنترل شده جلوگیری کند RustDesk روی دستگاه شما فعال است ، که ممکن است از اجرای صحیح SELinux";
  "تغییر نمای";
  "کاشی های بزرگ";
  "کاشی های کوچک";
  "لیست";
  "نمایش مجازی";
  "همه را خارج کنید";
  "رنگ واقعی (4:4:4)";
  "مسدود کردن ورودی کاربر را فعال کنید";
  with_quotes [" "; "<id>@public"; " :برای دسترسی به سرورهای عمومی نیازی به کلید نیست ، مثل \n9123456234@192.168.16.1:21117?key=5Qbwsde3unUcJBtrx9ZkvUmwFNoExHzpryHuPUdqlWM=.\n برای مثال (<id>@<server_address>?key=<key_value>) :اگر می خواهید به دستگاه دیگری در سروری دسترسی پیدا کنید ، ادرس سرور را اضافه نمایید ماتتد \n (domain:port)یا یک دامنه با پورت را وارد کنید IP شما می توانید یک شناسه یا یک"];
  "حالت 1";
  "حالت 2";
  "ورود به حالت حریم خصوصی";
  "خروج از حالت حریم خصوصی";
  "درایور نمایش غیر مستقیم پشتیبانی نمی شود. ویندوز 10، نسخه 2004 یا جدیدتر مورد نیاز است";
  "منبع ورودی 1";
  "منبع ورودی 2";
  "گرفتن چندین نمایشگر در حالت کاربر زیاد پشتیبانی نمی شود. اگر می" ++ zwnj ++ "خواهید چند نمایشگر را کنترل کنید، لطفاً پس از نصب دوباره امتحان کنید.";
  "دکمه چپ و راست ماوس را عوض کنید";
  "کد ورود 2 مرحله ای";
  "بیشتر";
  "احراز هویت دو مرحله ای را فعال کنید";
  "بارکد سه بعدی را اسکن کنید و کد نمایش داده شده در برنامه را وارد کنید تا احراز هویت دو مرحله ای فعال گردد n\n برروی تلفن همراه خود استفاده کنید ، Authy, Microsoft یا Google Authenticator لطفاً هم اکنون برنامه تأیید کننده خود را تنظیم کنید. می توانید از یک برنامه احراز هویت مانند";
  "نمی توان کد را تأیید کرد. بررسی کنید که تنظیمات کد و زمان محلی درست باشد";
  "احراز هویت دو مرحله ای";
  "کد تأیید ایمیل باید 6 کاراکتر باشد";
  "کد احراز هویت دو مرحله ای باید 6 رقم باشد";
  "چندین جلسه پیدا شد";
  "لطفاً جلسه ای را که می خواهید به آن متصل شوید انتخاب کنید";
  "Powered by RustDesk";
  "این یک نسخه سفارشی شده است.\nشما می توانید به دستگاه های دیگر متصل شوید، اما دستگاه های دیگر نمی توانند به دستگاه شما متصل شوند";
  "این نسخه سفارشی شده با رمز عبور از پیش تعیین شده ارائه می شود. هر کسی که این رمز عبور را بداند می تواند کنترل کامل دستگاه شما را به دست آورد. اگر انتظار این را نداشتید، بلافاصله نرم افزار را حذف نصب کنید";
  "هشدار امنیتی";
  "دفترچه آدرس من";
  "شخصی";
  "مالک";
  "تنظیم رمز عبور مشترک";
  "وجود داشته باشد";
  "فقط خواندنی";
  "خواندن/نوشتن";
  "تسلط کامل";
  "فیلدهای بالا به اشتراک گذاشته شده و برای دیگران قابل مشاهده است";
  "هر کس";
  "اطلاعات بیشتر در کنسول وب";
  "باز است اتصال برقرار شود RustDesk زمانی که";
  "بدون نمایشگر فیزیکی نیازی به استفاده از حالت خصوصی نیست";
  "مکان نما ریموت را دنبال کنید";
  "";
  "و پورت 1080 می باشد Sock5 پرونکل پیش فرض";
  "دستگاه ورودی صوتی پیدا نشد";
  "ورودی";
  "خروجی";
  "";
  "پس از پاک کردن صفحه انتخابی، می توانید صفحه را برای اشتراک گذاری مجدد انتخاب کنید";
  "را پاک می کنید؟ Wayland آیا مطمئن هستید که انتخاب صفحه";
  "یک درخواست تماس صوتی جدید دریافت شد. اگر بپذیرید، صدا به ارتباط صوتی تغییر خواهد کرد.";
  "از رندر بافت برای صاف کردن تصاویر استفاده کنید. اگر با مشکل رندر مواجه شدید، می توانید این گزینه را غیرفعال کنید.";
  "از رندر بافت استفاده کنید";
  "پنجره شناور";
  "کمک می کند RustDesk این به حفظ سرویس پس زمینه";
  "صفحه نمایش را روشن نگه دارید";
  "هرگز";
  "";
  "";
  "DirectX تصویربرداری از صفحه نمایش با استفاده از";
  "برگشت";
  "برنامه ها";
  "افزایش صدا";
  "کاهش صدا";
  "";
  "ربات تلگرام";
  "اگر این ویژگی را فعال کنید، می توانید کد تائید دو مرحله ای را از ربات خود دریافت کنید. همچنین می تواند به عنوان یک اعلان اتصال عمل کند.";
  "";
  "آیا مطمئن هستید که می خواهید تائید دو مرحله ای را لغو کنید؟";
  "آیا مطمئن هستید که می خواهید ربات تلگرام را لغو کنید؟";
  "RustDesk درباره";
  "ارسال کلیدهای کلیپ بورد";
  "لطفاً اتصال شبکه خود را بررسی کنید، سپس روی امتحان مجدد کلیک کنید.";
  "باز کردن قفل با پین";
  "حداقل به {} کاراکترها نیاز دارد";
  "پین اشتباه است";
  "پین را تنظیم کنید";
  "";
  "";
  "";
  "";
  "";
  "";
  "";
  "";
  "";
  "";
  "";
  "";
  "";
  "";
  "";
  "";
  "";
  "";
  "";
  ""].
(** [LANGS.fr] *)
Definition lang_fr : jsmap string string := texts [
  "Statut";
  "Votre bureau";
  "Votre bureau est accessible via l'identifiant et le mot de passe ci-dessous.";
  "Mot de passe";
  "Prêt";
  "Établi";
  "Connexion au réseau RustDesk...";
  "Autoriser le service";
  "Démarrer le service";
  "Le service est en cours d'exécution";
  "Le service ne fonctionne pas";
  "Pas prêt, veuillez vérifier la connexion réseau";
  "Contrôler le bureau à distance";
  "Transfert de fichiers";
  "Se connecter";
  "Sessions récentes";
  "Carnet d'adresses";
  "Confirmation";
  "Tunnel TCP";
  "Supprimer";
  "Actualiser le mot de passe aléatoire";
  "Définir votre propre mot de passe";
  "Activer le contrôle clavier/souris";
  "Activer la synchronisation du presse-papier";
  "Activer le transfert de fichiers";
  "Activer le tunnel TCP";
  "Liste blanche IP";
  "ID/Serveur Relais";
  "Importer la configuration du serveur";
  "Exporter la configuration du serveur";
  "Configuration du serveur importée avec succès";
  "Configuration du serveur exportée avec succès";
  "Configuration du serveur non valide";
  "Presse-papier vide";
  "Arrêter le service";
  "Changer d'ID";
  "Votre nouvel ID";
  "longueur de %min% à %max%";
  "commence par une lettre";
  "caractères autorisés";
  "Seules les lettres a-z, A-Z, 0-9, - (dash), _ (trait de soulignement) peuvent être utilisées. La première lettre doit être a-z, A-Z. La longueur doit être comprise entre 6 et 16.";
  "Site Web";
  "À propos de";
  "Fait avec cœur dans ce monde chaotique !";
  "Déclaration de confidentialité";
  "Muet";
  "Date de compilation";
  "Version";
  "Accueil";
  "Entrée audio";
  "Améliorations";
  "Transcodage matériel";
  "Débit adaptatif";
  "Serveur ID";
  "Serveur relais";
  "Serveur API";
  "Doit commencer par http:// ou https://";
  "IP invalide";
  "Format invalide";
  "Pas encore supporté par le serveur";
  "Indisponible";
  "Modifié trop fréquemment, veuillez réessayer plus tard";
  "Annuler";
  "Ignorer";
  "Fermer";
  "Réessayer";
  "Valider";
  "Mot de passe requis";
  "Veuillez saisir votre mot de passe";
  "Mémoriser le mot de passe";
  "Mauvais mot de passe";
  "Voulez-vous participer à nouveau ?";
  "Erreur de connexion";
  "Erreur";
  "La connexion a été fermée par l'appareil distant";
  "Connexion...";
  "Connexion en cours. Veuillez patienter.";
  "Réessayez dans une minute";
  "Erreur de connexion";
  "Succès";
  "Connecté, en attente de transmission d'image...";
  "Nom";
  "Type";
  "Modifié le";
  "Taille";
  "Afficher les fichiers cachés";
  "Recevoir";
  "Envoyer";
  "Rafraîchir le contenu";
  "Local";
  "Distant";
  "Appareil distant";
  "Appareil local";
  "Confirmer la suppression";
  "Supprimer";
  "Propriétés";
  "Sélection multiple";
  "Tout sélectionner";
  "Tout déselectionner";
  "Répertoire vide";
  "Pas un répertoire vide";
  "Voulez-vous vraiment supprimer ce fichier ?";
  "Voulez-vous vraiment supprimer ce répertoire vide" ++ nbsp ++ "?";
  "Voulez-vous vraiment supprimer le fichier de ce répertoire" ++ nbsp ++ "?";
  "Appliquer à d'autres conflits";
  "C'est irréversible !";
  "Suppression";
  "fichier";
  "En attente...";
  "Terminé";
  "Vitesse";
  "Définir la qualité d'image";
  "Mode privé";
  "Bloquer la saisie de l'utilisateur";
  "Débloquer l'entrée de l'utilisateur";
  "Ajuster la fenêtre";
  "Ratio d'origine";
  "Rétrécir";
  "Étirer";
  "Barre de défilement";
  "Défilement automatique";
  "Bonne qualité d'image";
  "Qualité d'image normale";
  "Optimiser le temps de réaction";
  "Personnalisé";
  "Afficher le curseur distant";
  "Afficher le moniteur de qualité";
  "Désactiver le presse-papier";
  "Verrouiller l'appareil distant après la déconnexion";
  "Envoyer Ctrl + Alt + Del";
  "Verrouiller l'appareil distant";
  "Rafraîchir l'écran";
  "L'ID n'existe pas";
  "Échec de la connexion au serveur rendezvous";
  "Veuillez essayer plus tard";
  "Le bureau à distance est hors ligne";
  "Discordance de clés";
  "Connexion expirée";
  "Échec de la connexion au serveur relais";
  "Échec de l'établissement d'une connexion via le serveur rendezvous";
  "Impossible d'établir une connexion via le serveur relais";
  "Impossible d'établir une connexion directe";
  "Définir le mot de passe";
  "Mot de passe du système d'exploitation";
  "RustDesk n'est pas installé, ce qui peut limiter son utilisation à cause de l'UAC. Cliquez ci-dessous pour l'installer.";
  "Cliquer pour mettre à niveau";
  "Cliquer pour télécharger";
  "Cliquer pour mettre à jour";
  "Configurer";
  with_quotes ["Afin de pouvoir contrôler votre bureau à distance, veuillez donner l'autorisation "; "accessibilité"; " à RustDesk."];
  with_quotes ["Afin de pouvoir accéder à votre bureau à distance, veuillez donner à RustDesk l'autorisation "; "enregistrement d'écran"; "."];
  "Installation...";
  "Installer";
  "Installation";
  "Chemin d'installation";
  "Créer des raccourcis dans le menu démarrer";
  "Créer une icône sur le bureau";
  "Démarrer l'installation signifie accepter le contrat de licence.";
  "Accepter et installer";
  "Contrat d'utilisateur";
  "Génération...";
  "La version que vous avez installée est inférieure à la version en cours d'exécution.";
  "Veuillez ne pas fermer cette fenêtre lors de l'utilisation du tunnel";
  "En attente de connexion tunnel...";
  "Hôte distant";
  "Port distant";
  "Action";
  "Ajouter";
  "Port local";
  "Adresse locale";
  "Changer le port local";
  "Si vous avez besoin d'une vitesse de connexion plus rapide, vous pouvez choisir de créer votre propre serveur";
  "Trop court, au moins 6 caractères.";
  "Les deux entrées ne correspondent pas";
  "Autorisations";
  "Accepter";
  "Rejeter";
  "Déconnecter";
  "Autoriser le copier-coller de fichiers";
  "Connecté";
  "Connexion directe chiffrée";
  "Connexion relais chiffrée";
  "Connexion directe non chiffrée";
  "Connexion relais non chiffrée";
  "Entrer l'ID de l'appareil distant";
  "Entrer votre mot de passe";
  "En cours de connexion ...";
  "Activer le partage de session RDP";
  "Connexion automatique (le verrouillage ne sera effectif qu'après la désactivation du premier paramètre)";
  "Autoriser l'accès direct par IP";
  "Renommer";
  "Espace";
  "Créer un raccourci sur le bureau";
  "Changer de chemin";
  "Créer un dossier";
  "Veuillez saisir le nom du dossier";
  "Réparer";
  "Avertissement";
  "L'écran de connexion utilisant Wayland n'est pas pris en charge";
  "Redémarrage requis";
  "Le serveur d'affichage actuel n'est pas pris en charge";
  "x11 requis";
  "Port";
  "Paramètres";
  " Nom d'utilisateur";
  "Port invalide";
  "Fermé manuellement par l'appareil distant";
  "Autoriser la modification de la configuration à distance";
  "Exécuter sans installer";
  "Connexion via relais";
  "Forcer la connexion relais";
  "Seule une IP de la liste blanche peut accéder à mon appareil";
  "Connexion";
  "Vérifier";
  "Se souvenir de moi";
  "Faire confiance à cet appareil";
  "Code de vérification";
  "Un nouvel appareil a été détecté et un code de vérification a été envoyé à l'adresse e-mail enregistrée, entrez le code de vérification pour continuer la connexion.";
  "Déconnexion";
  "Étiquettes";
  "Rechercher un ID";
  "Vous pouvez utiliser une virgule, un point-virgule, un espace ou une nouvelle ligne comme séparateur";
  "Ajouter un ID";
  "Ajout étiquette(s)";
  "Désélectionner toutes les étiquettes";
  "Erreur réseau";
  "Nom d'utilisateur manquant";
  "Mot de passe manquant";
  "Identifiant ou mot de passe erroné";
  "Le code de vérification est incorrect ou a expiré";
  "Gestion étiquettes";
  "Oublier le Mot de passe";
  "Favoris";
  "Ajouter aux Favoris";
  "Retirer des favoris";
  "Vide";
  "Nom de dossier invalide";
  "Socks5 Agents";
  "Socks5/Http(s) Agents";
  "Découvert";
  "Pour une exécution au démarrage du système, vous devez installer le service système.";
  "ID de l'appareil distant";
  "Coller";
  "Coller ici ?";
  "Êtes-vous sûr de fermer la connexion ?";
  "Télécharger la nouvelle version";
  "Mode tactile";
  "Mode souris";
  "Tapez d'un doigt";
  "Bouton gauche de la souris";
  "Un touché long";
  "Tapez à deux doigts";
  "Bouton droit de la souris";
  "Mouvement à un doigt";
  "Appuyez deux fois et déplacez";
  "Glissement de la souris";
  "Trois doigts verticalement";
  "Roulette de la souris";
  "Mouvement à deux doigts";
  "Déplacer la vue";
  "Pincer pour zoomer";
  "Zoom sur la vue";
  "Réinitialiser la vue";
  "Aucune autorisation de transfert de fichiers";
  "Noter";
  "Connexion";
  "Partager l'écran";
  "Discuter";
  "Total";
  "éléments";
  "Sélectionné(s)";
  "Capture d'écran";
  "Contrôle de saisie";
  "Capture audio";
  "Connexion de fichier";
  "Connexion de l'écran";
  "Acceptez-vous ?";
  "Ouvrir les paramètres système";
  "Comment obtenir l'autorisation d'entrée Android" ++ nbsp ++ "?";
  with_quotes ["Pour qu'un appareil distant puisse contrôler votre appareil Android via la souris ou le toucher, vous devez autoriser RustDesk à utiliser le service "; "Accessibilité"; "."];
  "Veuillez accéder à la page suivante des paramètres système, recherchez et entrez [Services installés], activez le service [RustDesk Input].";
  "Une nouvelle demande de contrôle a été reçue, elle souhaite contrôler votre appareil actuel.";
  "L'activation de la capture d'écran démarrera automatiquement le service, permettant à d'autres appareils de demander une connexion à partir de cet appareil.";
  "La fermeture du service fermera automatiquement toutes les connexions établies.";
  "La version actuelle d'Android ne prend pas en charge la capture audio, veuillez passer à Android 10 ou supérieur.";
  "Appuyez sur [Démarrer le service] ou activez l'autorisation [Capture d'écran] pour démarrer le service de partage d'écran.";
  "Les autorisations pour les connexions établies peuvent ne pas être prisent en compte instantanément ou avant la reconnection.";
  "Compte";
  "Écraser";
  "Ce fichier existe, ignorer ou écraser ce fichier" ++ nbsp ++ "?";
  "Quitter";
  "Aider";
  "échouer";
  "Succès";
  "Quelqu'un active le mode de confidentialité, quittez";
  "Non pris en charge";
  "Appareil distant refusé";
  "Veuillez installer les plugins";
  "Appareil distant déconnecté";
  "Échec de la désactivation";
  "Désactivé";
  "Langue";
  "Gardez le service RustDesk en arrière plan";
  "Ignorer les optimisations batterie";
  "Conseil android d'optimisation de batterie";
  "Lancer au démarrage";
  "Lancer le service de partage d'écran au démarrage, nécessite des autorisations spéciales";
  "Connexion non autorisée";
  "Mode hérité";
  "Mode correspondance";
  "Mode traduction";
  "Utiliser un mot de passe permanent";
  "Utiliser les mots de passe unique et permanent";
  "Définir le mot de passe permanent";
  "Activer le redémarrage à distance";
  "Redémarrer l'appareil à distance";
  "Êtes-vous sûr de vouloir redémarrer l'appareil ?";
  "Redémarrage de l'appareil distant";
  "L'appareil distant redémarre, veuillez fermer cette boîte de message et vous reconnecter avec un mot de passe permanent après un certain temps";
  "Copié";
  "Quitter le mode plein écran";
  "Plein écran";
  "Actions mobiles";
  "Sélection du Moniteur";
  "Actions de contrôle";
  "Paramètres d'affichage";
  "Rapport";
  "Qualité d'image";
  "Style de défilement";
  "Afficher la barre d'outils";
  "Masquer la barre d'outils";
  "Connexion directe";
  "Connexion relais";
  "Connexion sécurisée";
  "Connexion non sécurisée";
  "Échelle 100%";
  "Mise à l'échelle Auto";
  "Général";
  "Sécurité";
  "Thème";
  "Thème sombre";
  "Thème clair";
  "Sombre";
  "Clair";
  "Suivi système";
  "Activer le transcodage matériel";
  "Déverrouiller les configurations de sécurité";
  "Activer l'audio";
  "Déverrouiller les configurations réseau";
  "Serveur";
  "Accès IP direct";
  "Proxy";
  "Appliquer";
  "Déconnecter tous les appareils ?";
  "Effacer";
  "Périphérique source audio";
  "Utiliser une liste blanche d'IP";
  "Réseau";
  "Épingler la barre d'outil";
  "Détacher la barre d'outil";
  "Enregistrement";
  "Répertoire";
  "Enregistrement automatique des sessions entrantes";
  "";
  "Modifier";
  "Commencer l'enregistrement";
  "Stopper l'enregistrement";
  "Activer l'enregistrement de session";
  "Activer la découverte sur réseau local";
  "Interdir la découverte sur réseau local";
  "Ecrire un message";
  "Annonce";
  "Veuillez attendre la confirmation de l'UAC...";
  "La fenêtre actuelle de l'appareil distant nécessite des privilèges plus élevés pour fonctionner, elle ne peut donc pas être atteinte par la souris et le clavier. Vous pouvez demander à l'utilisateur distant de réduire la fenêtre actuelle ou de cliquer sur le bouton d'élévation dans la fenêtre de gestion des connexions. Pour éviter ce problème, il est recommandé d'installer le logiciel sur l'appareil distant.";
  "Déconnecté";
  "Divers";
  "Confirmer avant de fermer plusieurs onglets";
  "Configuration clavier";
  "Accès total";
  "Partage d'écran";
  "Wayland nécessite Ubuntu 21.04 ou une version supérieure.";
  "Wayland nécessite une version supérieure de la distribution Linux. Veuillez essayer le bureau X11 ou changer votre système d'exploitation.";
  "Afficher";
  "Veuillez sélectionner l'écran à partager (côté appareil distant).";
  "Afficher RustDesk";
  "Ce PC";
  "ou";
  "Continuer avec";
  "Autoriser l'accès";
  "Augmenter la taille du curseur";
  "Accepter les sessions via mot de passe";
  "Accepter les sessions via clique de confirmation";
  "Accepter les sessions via mot de passe ou clique de confirmation";
  "Veuillez attendre que votre demande de session distante soit accepter ...";
  "Mot de passe unique";
  "Utiliser un mot de passe unique";
  "Longueur du mot de passe unique";
  "Demande d'accès à votre appareil";
  "Masquer la fenêtre de gestion des connexions";
  "Autoriser le masquage uniquement si vous acceptez des sessions via un mot de passe et utilisez un mot de passe permanent";
  "Le support Wayland est en phase expérimentale, veuillez utiliser X11 si vous avez besoin d'un accès sans surveillance.";
  "Clique droit pour selectionner les onglets";
  "Ignoré";
  "Ajouter au carnet d'adresses";
  "Groupe";
  "Rechercher";
  "Fermé manuellement par la console Web";
  "Disposition du clavier local";
  "Selectionner la disposition du clavier local";
  "Si vous avez une carte graphique NVIDIA et que la fenêtre distante se ferme immédiatement après la connexion, l'installation du pilote Nouveau et le choix d'utiliser le rendu du logiciel peuvent aider. Un redémarrage du logiciel est requis.";
  "Utiliser toujours le rendu logiciel";
  with_quotes ["Afin de contrôler le bureau à distance avec le clavier, vous devez accorder à RustDesk l'autorisation "; "Surveillance de l’entrée"; "."];
  "Pour discuter à distance, vous devez accorder à RustDesk les autorisations « Enregistrer l'audio ».";
  "Vous pouvez également demander une augmentation des privilèges s'il y a quelqu'un du côté distant.";
  "En cours";
  "Erreur d'augmentation des privilèges";
  "Demander à l'utilisateur distant de s'authentifier";
  "Choisissez ceci si le compte distant est le compte d'administrateur";
  "Transmettre le nom d'utilisateur et le mot de passe de l'administrateur";
  "Nécessite toujours que l'utilisateur distant confirme par la fenêtre UAC de RustDesk en cours d'éxécution.";
  "Demande d'augmentation des privilèges";
  "Veuillez attendre que l'utilisateur distant accepte la boîte de dialogue UAC.";
  "Augmentation des privilèges avec succès";
  "majuscule";
  "minuscule";
  "chiffre";
  "caractère spécial";
  "longueur>=8";
  "Faible";
  "Moyen";
  "Fort";
  "Inverser la prise de contrôle";
  "Veuillez confirmer le partager de votre bureau ?";
  "Affichage";
  "Style de vue par défaut";
  "Style de défilement par défaut";
  "Qualité d'image par défaut";
  "Codec par défaut";
  "Débit";
  "FPS";
  "Auto";
  "Autres options par défaut";
  "Appel voix";
  "Conversation textuelle";
  "Stopper l'appel voix";
  with_quotes ["Il se peut qu'il ne doit pas possible de se connecter directement, vous pouvez essayer de vous connecter via un relais. \nEn outre, si vous souhaitez utiliser directement le relais, vous pouvez ajouter le suffixe "; "/r"; " à l'ID ou sélectionner l'option "; "Toujours se connecter via le relais"; " dans la fiche appareils distants."];
  "Se reconnecter";
  "Codec";
  "Résolution";
  "Pas de transfert en cours";
  "Définir la longueur du mot de passe à usage unique";
  "Configuration RDP";
  "Trier par";
  "Nouvelle connexion";
  "Restaurer";
  "Minimiser";
  "Maximiser";
  "Votre appareil";
  "Oups, pas de sessions récentes !\nIl est temps d'en prévoir une nouvelle.";
  "Vous n'avez pas encore d'appareils distants favorits ?\nTrouvons quelqu'un avec qui vous connecter et ajoutez-les à vos favoris !";
  "Oh non, il semble que nous n'ayons pas encore d'appareils réseau local découverts.";
  "Ouh là là ! il semble qu'il n'y ait actuellement aucun appareil distant répertorié dans votre carnet d'adresses.";
  "ex: admin";
  "Nom d'utilisation non spécifié";
  "Mot de passe non spécifié";
  "Moi";
  "Ce fichier est identique à celui de l'appareil distant.";
  "Afficher les moniteurs dans la barre d'outils";
  "Mode vue";
  "Se connecter au compte Linux distant";
  "Vérifier le mot de passe RustDesk";
  "Se souvenir de ce compte";
  "Ce compte est utilisé pour se connecter au système d'exploitation distant et activer la session de bureau en mode sans affichage";
  "Compte système d'exploitation";
  "Un autre utilisateur est déjà connecté";
  "Déconnexion";
  "Xorg introuvable";
  "Veuillez installer Xorg";
  "Aucun gestionaire de bureau n'est disponible";
  "Veuillez installer le gestionaire de bureau GNOME";
  "Pas besoin de permissions administrateur";
  "Son système";
  "Défaut";
  "Nouvel RDP";
  "Empreinte digitale";
  "Copier empreinte digitale";
  "Pas d'empreintes digitales";
  "Sélectionnez l'appareil distant";
  "Sélectionnez des appareils distants";
  "Plugins";
  "Désinstaller";
  "Mise à jour";
  "Activé";
  "Desactivé";
  "Options";
  "Résolution d'origine";
  "Adapter la résolution local";
  "Résolution personnalisée";
  "Réduire la barre d'outils";
  "Accepter et autoriser l'augmentation des privilèges";
  "Accepter la connexion l'augmentation des privilèges UAC.";
  "Expiration du délai d'attente presse-papiers.";
  "Connexion entrante";
  "Connexion sortante";
  "Quitter";
  "Ouvrir";
  "Êtes-vous sûr de vouloir vous déconnecter ?";
  "Service";
  "Lancer";
  "Stopper";
  "Vous avez atteint le nombre maximal d'appareils gérés.";
  "Synchroniser avec les sessions récentes";
  "Trier les étiquettes";
  "Ouvrir la connexion dans un nouvel onglet";
  "Déplacer l'onglet vers une nouvelle fenêtre";
  "Ne peux pas être vide";
  "Existe déjà";
  "Changer le mot de passe";
  "Actualiser le mot de passe";
  "ID";
  "Vue Grille";
  "Vue Liste";
  "Sélectionner";
  "Basculer vers les étiquettes";
  "Impossible d'actualiser le carnet d'adresses";
  "Échec de la synchronisation du carnet d'adresses";
  "Les appareils qui étaient présents dans les sessions récentes seront synchronisés avec le carnet d'adresses.";
  "Modifier la couleur";
  "Couleur primaire";
  "Couleur TSL";
  "Installation réussie !";
  "Échec de l'installation !";
  "Inverser le sens de la molette de la souris";
  "{} sessions";
  "Vous êtes peut-être victime d'une ESCROQUERIE !";
  "Si vous êtes au téléphone avec quelqu'un QUE VOUS NE CONNAISSEZ PAS et en qui VOUS N'AVEZ PAS CONFIANCE et qui vous a demandé d'utiliser RustDesk et de démarrer le service, ne le faites pas et raccrochez immédiatement.";
  "Il s'agit probablement d'un escroc qui tente de vous voler de l'argent ou d'autres informations personnelles.";
  "Ne plus montrer";
  "J'accepte";
  "Refuser";
  "Délai d'expiration en minutes";
  "Fermer automatiquement les sessions entrantes en cas d'inactivité de l'utilisateur";
  "Déconnecté automatiquement pour cause d'inactivité";
  "Vérifier la disponibilité des mises à jour au démarrage";
  "Veuillez mettre à jour RustDesk Server Pro avec la version {} ou une version plus récente !";
  "Échec de l'actualisation du groupe";
  "Filtrer par intersection";
  "Supprimer le fond d'écran lors des sessions entrantes";
  "";
  "L'écran est débranché, passez au premier écran.";
  "Aucun affichage";
  "Ouvrir dans une nouvelle fenêtre";
  "Montrer les affichages sous forme de fenêtres individuelles";
  "Utiliser tous mes écrans pour la session à distance";
  "SELinux est activé sur votre appareil, ce qui peut empêcher RustDesk de fonctionner correctement en tant que machine contrôlé.";
  "Disposition d'affichage";
  "Grandes tuiles";
  "Petites tuiles";
  "Liste";
  "Affichage virtuel";
  "Déconnecter tout";
  "Couleur réelle (4:4:4)";
  "Activer le blocage des entrées utilisateur";
  with_quotes ["Vous pouvez saisir un ID, une adresse IP directe ou un nom de domaine avec un port (<domaine>:<port>).\nSi vous souhaitez accéder à un appareil sur un autre serveur, veuillez ajouter l'adresse du serveur (<id><adresse_serveur>?key=<valeur_key>), par exemple,\n9123456234@192.168.16.1:21117?key=5Qbwsde3unUcJBtrx9ZkvUmwFNoExHzpryHuPUdqlWM=.\nSi vous souhaitez accéder à un appareil sur un serveur public, veuillez saisir "; "<id>@public"; " , la clé n'est pas nécessaire pour le serveur public"];
  "Mode 1";
  "Mode 2";
  "Passer en mode confidentialité";
  "Quitter le mode confidentialité";
  "Le pilote d'affichage indirect n'est pas pris en charge. Windows 10, version 2004 ou plus récente est requise.";
  "Source entrée 1";
  "Source entrée 2";
  "Échanger la touche de controle-commande";
  "Intervertir le bouton gauche et droit de la souris";
  "code 2FA";
  "Plus";
  "Activer l'authentification à double facteur";
  "Veuillez configurer votre authentificateur maintenant. Vous pouvez utiliser une application d’authentification telle qu’Authy, Microsoft ou Google Authenticator sur votre téléphone ou votre ordinateur de bureau.nnScannez le code QR avec votre application et entrez le code affiché par votre application pour activer l’authentification à deux facteurs.";
  "Impossible de vérifier le code. Vérifiez que le code et les paramètres d’heure locale sont corrects";
  "Authentification à deux facteurs";
  "Le code de vérification email doit comporter 6 caractères";
  "le code 2FA doit comporter 6 chiffres";
  "Plusieurs sessions Windows trouvées";
  "Merci de sélectionner la session Windows à laquelle vous voulez vous connecter";
  "";
  "Il s’agit d’une édition personnalisée.\nVous pouvez vous connecter à d’autres appareils, mais les autres appareils ne peuvent pas se connecter à votre appareil.";
  "Cette édition personnalisée est livrée avec un mot de passe prédéfini. Toute personne connaissant ce mot de passe pourrait prendre le contrôle total de votre appareil. Si vous ne vous y attendiez pas, désinstallez immédiatement le logiciel.";
  "Alerte de sécurité";
  "Mon carnet d'adresse";
  "Personnel";
  "Propriétaire";
  "Définir le mot de passe partagé";
  "Existe dans";
  "Lecture-seule";
  "Lecture/Écriture";
  "Control Total";
  "Les champs ci-dessus sont partagés et visibles par les autres.";
  "Tout le monde";
  "Plus sur la console Web";
  "N’autoriser la connexion que si la fenêtre RustDesk est ouverte";
  "Pas d’affichage physique, pas besoin d’utiliser le mode confidentialité.";
  "Suivre le curseur distant";
  "";
  "Le protocole et le port par défaut sont Socks5 et 1080";
  "Aucun périphérique d’entrée audio trouvé.";
  "Entrant";
  "Sortant";
  "";
  "";
  "";
  "Une nouvelle demande d’appel vocal a été reçue. Si vous acceptez, l’audio passera à la communication vocale.";
  "Utilisez le rendu des textures pour rendre les images plus fluides.";
  "Utiliser le rendu de texture";
  "";
  "";
  "";
  "";
  "";
  "";
  "";
  "";
  "";
  "";
  "";
  "";
  "";
  "";
  "";
  "";
  "";
  "";
  "";
  "";
  "";
  "";
  "";
  "";
  "";
  "";
  "";
  "";
  "";
  "";
  "";
  "";
  "";
  "";
  "";
  "";
  "";
  "";
  "";
  "";
  "";
  "";
  "";
  ""].
(** [LANGS.he] *)
Definition lang_he : jsmap string string := texts [
  "מצב";
  "";
  "ניתן לגשת לשולחן העבודה שלך עם מזהה וסיסמה זו.";
  "סיסמא";
  "מוכן";
  "";
  "מתחבר לרשת RustDesk...";
  "";
  "התחל שירות";
  "השירות פעיל";
  "";
  "לא מוכן. בדוק את החיבור שלך";
  "";
  "";
  "";
  "";
  "";
  "";
  "";
  "הסר";
  "";
  "";
  "";
  "";
  "";
  "";
  "";
  "שרת מזהה/ריליי";
  "";
  "";
  "";
  "";
  "";
  "";
  "עצור שירות";
  "";
  "";
  "";
  "";
  "";
  "מותרים רק תווים a-z, A-Z, 0-9, - (dash) ו_ (קו תחתון). האות הראשונה חייבת להיות a-z, A-Z. אורך בין 6 ל-16.";
  "דף הבית";
  "אודות";
  "נוצר בלב בעולם הזה הכאוטי!";
  "";
  "השתק";
  "תאריך בנייה";
  "";
  "בית";
  "קלט שמע";
  "";
  "קודק חומרה";
  "";
  "שרת מזהה";
  "שרת ריליי";
  "שרת API";
  "חייב להתחיל עם http:// או https://";
  "";
  "";
  "עדיין לא נתמך על ידי השרת";
  "";
  "";
  "ביטול";
  "דלג";
  "סגור";
  "נזה שוב";
  "אישור";
  "נדרשת סיסמה";
  "";
  "";
  "סיסמה שגויה";
  "";
  "שגיאת חיבור";
  "שגיאה";
  "";
  "";
  "";
  "";
  "שגיאת התחברות";
  "";
  "";
  "שם";
  "סוג";
  "";
  "גודל";
  "הצג קבצים נסתרים";
  "";
  "שלח";
  "רענן קובץ";
  "מקומי";
  "";
  "מכשיר מרוחק";
  "מכשיר מקומי";
  "אשר מחיקה";
  "מחק";
  "";
  "בחירה מרובה";
  "בחר הכל";
  "בטל בחירת הכל";
  "תיקייה ריקה";
  "";
  "";
  "";
  "";
  "";
  "";
  "";
  "קבצים";
  "";
  "הסתיים";
  "מהירות";
  "איכות תמונה מותאמת אישית";
  "";
  "";
  "";
  "התאם חלון";
  "";
  "";
  "";
  "";
  "";
  "";
  "";
  "";
  "מותאם אישית";
  "";
  "";
  "";
  "";
  "";
  "הוסף נעילה";
  "רענן";
  "";
  "";
  "";
  "";
  "";
  "";
  "";
  "";
  "";
  "";
  "הגדר סיסמה";
  "סיסמת מערכת הפעלה";
  "בגלל UAC, RustDesk לא יכול לפעול כראוי כצד מרוחק בחלק מהמקרים. כדי להימנע מ-UAC, אנא לחץ על הכפתור למטה כדי להתקין את RustDesk במערכת.";
  "";
  "";
  "";
  "";
  with_quotes ["כדי לשלוט מרחוק בשולחן העבודה שלך, עליך להעניק ל-RustDesk הרשאות "; "נגישות"; "."];
  with_quotes ["כדי לגשת מרחוק לשולחן העבודה שלך, עליך להעניק ל-RustDesk הרשאות "; "הקלטת מסך"; "."];
  "";
  "התקן";
  "";
  "נתיב התקנה";
  "";
  "";
  "על ידי התחלת ההתקנה, אתה מקבל את הסכם הרישיון.";
  "קבל והתקן";
  "";
  "יוצר ...";
  "";
  "אל תסגור חלון זה בזמן שאתה משתמש במנהרה";
  "";
  "מארח מרוחק";
  "פורט מרוחק";
  "";
  "הוסף";
  "פורט מקומי";
  "כתובת מקומית";
  "שנה פורט מקומי";
  "לחיבור מהיר יותר, אנא הגדר שרת משלך";
  "";
  "";
  "";
  "";
  "";
  "";
  "";
  "";
  "";
  "";
  "";
  "";
  "הזן מזהה מרוחק";
  "";
  "";
  "";
  with_quotes ["התחברות אוטומטית (תקפה רק אם הגדרת "; "נעל לאחר סיום הסשן"; ")"];
  "";
  "שנה שם";
  "";
  "";
  "שנה נתיב";
  "צור תיקייה";
  "";
  "";
  "";
  "";
  "";
  "";
  "";
  "יציאה";
  "הגדרות";
  "שם משתמש";
  "";
  "";
  "";
  "";
  "";
  "";
  "רק IP ברשימה הלבנה יכול לגשת אלי";
  "";
  "";
  "";
  "";
  "";
  with_quotes ["קוד אימות נשלח לכתובת הדוא"; "ל הרשומה, הזן את קוד האימות כדי להמשיך בהתחברות."];
  "";
  "תגים";
  "חפש מזהה";
  "מופרד על ידי פסיק, נקודה פסיק, רווחים או שורה חדשה";
  "הוסף מזהה";
  "הוסף תג";
  "";
  "";
  "";
  "";
  "שם משתמש או סיסמה שגויים";
  "";
  "ערוך תג";
  "שכחת סיסמה";
  "";
  "הוסף למועדפים";
  "הסר מהמועדפים";
  "ריק";
  "";
  "פרוקסי Socks5";
  "פרוקסי Socks5/Http(s)";
  "";
  "לצורך הפעלה בעת הפעלת המחשב, עליך להתקין שירות מערכת.";
  "";
  "הדבק";
  "";
  "האם אתה בטוח שברצונך לסגור את החיבור?";
  "";
  "";
  "";
  "הקשה באצבע אחת";
  "עכבר שמאלי";
  "הקשה ארוכה באצבע אחת";
  "הקשה בשתי אצבעות";
  "עכבר ימני";
  "הזזה באצבע אחת";
  "הקשה כפולה והזזה";
  "גרירת עכבר";
  "שלוש אצבעות אנכית";
  "גלגלת עכבר";
  "הזזה בשתי אצבעות";
  "הזזת בד";
  "צביטה לזום";
  "זום בד";
  "";
  "";
  "הערה";
  "";
  "שיתוף מסך";
  "צ'אט";
  "הכל";
  "";
  "";
  "לכידת מסך";
  "בקרת קלט";
  "לכידת שמע";
  "חיבור קובץ";
  "חיבור מסך";
  "";
  "פתח הגדרת מערכת";
  "";
  with_quotes ["כדי שמכשיר מרוחק יוכל לשלוט במכשיר האנדרואיד שלך באמצעות עכבר או מגע, עליך לאפשר ל-RustDesk להשתמש בשירות "; "נגישות"; "."];
  "אנא עבור לדף ההגדרות של המערכת הבא, מצא והכנס ל[שירותים מותקנים], הפעל את שירות [RustDesk Input].";
  "בקשת שליטה חדשה התקבלה, שרוצה לשלוט במכשירך הנוכחי.";
  with_quotes ["הפעלת "; "לכידת מסך"; " תתחיל אוטומטית את השירות, מאפשרת למכשירים אחרים לבקש חיבור למכשיר שלך."];
  "סגירת השירות תסגור אוטומטית את כל החיבורים המוקמים.";
  "גרסת האנדרואיד הנוכחית אינה תומכת בלכידת שמע, אנא שדרג לאנדרואיד 10 או גבוה יותר.";
  "הקש על [התחל שירות] או אפשר הרשאת [לכידת מסך] כדי להתחיל את שירות שיתוף המסך.";
  "הרשאות עבור חיבורים שנוצרו עשויות לא להשתנות מייד עד להתחברות מחדש.";
  "";
  "";
  "";
  "צא";
  "עזרה";
  "נכשל";
  "הצליח";
  "";
  "";
  "";
  "";
  "";
  "";
  "";
  "";
  "";
  "התעלם מאופטימיזציות סוללה";
  "אם ברצונך לבטל תכונה זו, אנא עבור לדף ההגדרות של יישום RustDesk הבא, מצא והכנס ל[סוללה], הסר את הסימון מ-[לא מוגבל]";
  "";
  "";
  "";
  "";
  "";
  "";
  "";
  "";
  "";
  "";
  "";
  "";
  "";
  "המכשיר המרוחק מתחיל מחדש, אנא סגור את תיבת ההודעה הזו והתחבר מחדש עם סיסמה קבועה לאחר זמן מה";
  "";
  "יציאה ממסך מלא";
  "מסך מלא";
  "פעולות ניידות";
  "בחר מסך";
  "פעולות בקרה";
  "הגדרות תצוגה";
  "";
  "איכות תמונה";
  "סגנון גלילה";
  "הצג סרגל כלים";
  "הסתר סרגל כלים";
  "חיבור ישיר";
  "חיבור ריליי";
  "חיבור מאובטח";
  "חיבור לא מאובטח";
  "";
  "";
  "כללי";
  "אבטחה";
  "ערכת נושא";
  "ערכת נושא כהה";
  "ערכת נושא בהירה";
  "כהה";
  "בהיר";
  "עקוב אחר המערכת";
  "";
  "פתח הגדרות אבטחה";
  "";
  "פתח הגדרות רשת";
  "שרת";
  "גישה ישירה ל-IP";
  "פרוקסי";
  "החל";
  "";
  "נקה";
  "מכשיר קלט שמע";
  "השתמש ברשימת לבנה של IP";
  "";
  "נעץ סרגל כלים";
  "הסר נעיצת סרגל כלים";
  "";
  "";
  "";
  "";
  "שנה";
  "";
  "";
  "";
  "";
  "";
  "";
  "";
  "";
  "החלון הנוכחי של שולחן העבודה המרוחק דורש הרשאה גבוהה יותר לפעולה, לכן אי אפשר להשתמש בעכבר ובמקלדת באופן זמני. תוכל לבקש מהמשתמש המרוחק למזער את החלון הנוכחי, או ללחוץ על כפתור ההגבהה בחלון ניהול החיבור. כדי להימנע מבעיה זו, מומלץ להתקין את התוכנה במכשיר המרוחק.";
  "";
  "אחר";
  "";
  "הגדרות מקלדת";
  "גישה מלאה";
  "שיתוף מסך";
  "";
  "";
  "הצג";
  "אנא בחר את המסך לשיתוף (פעולה בצד העמית).";
  "";
  "מחשב זה";
  "או";
  "";
  "";
  "";
  "";
  "";
  "";
  "";
  "סיסמה חד-פעמית";
  "";
  "";
  "";
  "";
  "אפשר הסתרה רק אם מקבלים סשנים דרך סיסמה ומשתמשים בסיסמה קבועה";
  "תמיכה ב-Wayland נמצאת בשלב ניסיוני, אנא השתמש ב-X11 אם אתה זקוק לגישה לא מלווה.";
  "";
  "דולג";
  "";
  "קבוצה";
  "חפש";
  "";
  "";
  "";
  "אם אתה משתמש בכרטיס גרפיקה של Nvidia תחת Linux וחלון המרחוק נסגר מיד לאחר החיבור, החלפה למנהל ההתקן הפתוח Nouveau ובחירה בשימוש בעיבוד תוכנה עשויה לעזור. נדרשת הפעלה מחדש של התוכנה.";
  "";
  with_quotes ["כדי לשלוט בשולחן העבודה המרוחק באמצעות מקלדת, עליך להעניק ל-RustDesk הרשאות "; "מעקב אחרי קלט"; "."];
  with_quotes ["כדי לדבר מרחוק, עליך להעניק ל-RustDesk הרשאות "; "הקלטת שמע"; "."];
  "ניתן גם לבקש הגבהה אם יש מישהו בצד המרוחק.";
  "המתן";
  "שגיאת הגבהה";
  "";
  "";
  "";
  "עדיין דורש מהמשתמש המרוחק ללחוץ OK בחלון ה-UAC של הרצת RustDesk.";
  "בקש הגבהה";
  "אנא המתן למשתמש המרוחק לקבל את דיאלוג ה-UAC.";
  "";
  "";
  "";
  "";
  "";
  "";
  "";
  "";
  "";
  "החלף צדדים";
  "";
  "תצוגה";
  "סגנון תצוגה ברירת מחדל";
  "סגנון גלילה ברירת מחדל";
  "איכות תמונה ברירת מחדל";
  "קודק ברירת מחדל";
  "";
  "FPS";
  "אוטומטי";
  "אפשרויות ברירת מחדל אחרות";
  "שיחה קולית";
  "";
  "";
  with_quotes ["ייתכן שלא ניתן להתחבר ישירות; ניתן לנסות להתחבר דרך ריליי. בנוסף, אם ברצונך להשתמש בריליי בניסיון הראשון שלך, תוכל להוסיף את הסיומת "; "/r"; " למזהה או לבחור באפשרות "; "התחבר תמיד דרך ריליי"; " בכרטיס של הסשנים האחרונים אם קיים."];
  "";
  "קודק";
  "";
  "";
  "";
  "הגדרות RDP";
  "מיין לפי";
  "חיבור חדש";
  "";
  "הקטן";
  "הגדל";
  "המכשיר שלך";
  "אופס, אין סשנים אחרונים!\nהגיע הזמן לתכנן חדש.";
  "עדיין אין עמיתים מועדפים?\nבוא נמצא מישהו להתחבר אליו ונוסיף אותו למועדפים!";
  "אוי לא, נראה שעדיין לא גילינו עמיתים.";
  "אוי ואבוי, נראה שכרגע אין עמיתים בספר הכתובות שלך.";
  "";
  "שם משתמש ריק";
  "סיסמה ריקה";
  "";
  "קובץ זה זהה לקובץ של העמית.";
  "הצג מסכים בסרגל כלים";
  "מצב תצוגה";
  "עליך להתחבר לחשבון Linux מרוחק כדי לאפשר פעילות שולחן עבודה X";
  "אמת סיסמת RustDesk";
  "זכור חשבון זה";
  "חשבון זה משמש להתחברות למערכת ההפעלה המרוחקת ולאפשר פעילות שולחן עבודה במצב לא מקוון";
  "חשבון מערכת הפעלה";
  "משתמש אחר כבר התחבר";
  "נתק";
  "Xorg לא נמצא";
  "אנא התקן Xorg";
  "אין שולחן עבודה זמין";
  "אנא התקן שולחן עבודה GNOME";
  "";
  "צליל מערכת";
  "ברירת מחדל";
  "RDP חדש";
  "";
  "העתק טביעת אצבע";
  "אין טביעות אצבע";
  "";
  "";
  "תוספים";
  "הסר";
  "עדכן";
  "פועל";
  "כבוי";
  "אפשרויות";
  "רזולוציה מקורית";
  "התאם לרזולוציה מקומית";
  "רזולוציה מותאמת אישית";
  "";
  "קבל והגבה";
  "קבל את החיבור והגבה הרשאות UAC.";
  "המתנה לתגובת העתקה הסתיימה בזמן.";
  "";
  "";
  "צא";
  "פתח";
  "האם אתה בטוח שברצונך להתנתק?";
  "";
  "התחל";
  "עצור";
  "הגעת למספר המקסימלי של מכשירים שניתן לנהל.";
  "";
  "";
  "";
  "";
  "";
  "";
  "שנה סיסמה";
  "רענן סיסמה";
  "מזהה";
  "תצוגת רשת";
  "תצוגת רשימה";
  "בחר";
  "החלף תגיות";
  "נכשל ברענון ספר הכתובות";
  "נכשל בסנכרון ספר הכתובות לשרת";
  "המכשירים שהיו נוכחים בסשנים האחרונים יסונכרנו בחזרה לספר הכתובות.";
  "שנה צבע";
  "צבע עיקרי";
  "צבע HSV";
  "ההתקנה הצליחה!";
  "";
  "";
  "";
  "ייתכן שאתה נפלת להונאה!";
  "אם אתה בשיחת טלפון עם מישהו שאינך מכיר ואינך סומך עליו שביקש ממך להשתמש ב-RustDesk ולהתחיל את השירות, אל תמשיך ונתק מיד.";
  "סביר להניח שמדובר בהונאה שמנסה לגנוב ממך כסף או מידע פרטי אחר.";
  "";
  "אני מסכים";
  "דחה";
  "";
  "סגור באופן אוטומטי סשנים נכנסים במקרה של חוסר פעילות של המשתמש";
  "התנתקות אוטומטית בגלל חוסר פעילות";
  "";
  "אנא שדרג את RustDesk Server Pro לגרסה {} או חדשה יותר!";
  "נכשל ברענון קבוצה";
  "";
  "";
  "בדיקה";
  "המסך הופסק, החלף למסך הראשון.";
  "";
  "";
  "";
  "";
  "SELinux מופעל במכשיר שלך, מה שעלול למנוע מ-RustDesk לפעול כראוי כצד הנשלט.";
  "";
  "";
  "";
  "רשימה";
  "";
  "";
  "";
  "";
  with_quotes ["ניתן להזין מזהה, IP ישיר, או דומיין עם פורט (<domain>:<port>).\nאם ברצונך לגשת למכשיר בשרת אחר, אנא הוסף את כתובת השרת (<id>@<server_address>?key=<key_value>), לדוגמה,\n9123456234@192.168.16.1:21117?key=5Qbwsde3unUcJBtrx9ZkvUmwFNoExHzpryHuPUdqlWM=.\nאם ברצונך לגשת למכשיר בשרת ציבורי, אנא הזן "; "<id>@public"; ", המפתח אינו נדרש לשרת ציבורי"];
  "מצב 1";
  "מצב 2";
  "";
  "";
  "נהג התצוגה העקיף אינו נתמך. נדרשת גרסת Windows 10, גרסה 2004 או חדשה יותר.";
  "מקור קלט 1";
  "מקור קלט 2";
  "";
  "החלף בין כפתור העכבר השמאלי לימני";
  "קוד אימות דו-שלבי";
  "עוד";
  "הפעל אימות דו-שלבי";
  "אנא הגדר כעת את האפליקציה שלך לאימות. תוכל להשתמש באפליקציית אימות כגון Authy, Microsoft או Google Authenticator בטלפון או במחשב שלך.\n\nסרוק את קוד ה-QR עם האפליקציה שלך והזן את הקוד שהאפליקציה מציגה כדי להפעיל את אימות הדו-שלבי.";
  "לא ניתן לאמת את הקוד. בדוק שהקוד והגדרות הזמן המקומיות נכונות";
  "אימות דו-שלבי";
  "";
  "";
  "";
  "";
  "";
  "זוהי מהדורה מותאמת אישית.\nניתן להתחבר למכשירים אחרים, אך מכשירים אחרים לא יכולים להתחבר אליך.";
  "";
  "";
  "";
  "";
  "";
  "";
  "";
  "";
  "";
  "";
  "";
  "";
  "";
  "";
  "";
  "";
  "";
  "";
  "";
  "";
  "";
  "";
  "";
  "";
  "";
  "";
  "";
  "";
  "";
  "";
  "";
  "";
  "";
  "";
  "חזור";
  "אפליקציות";
  "";
  "";
  "";
  "";
  "";
  "";
  "";
  "";
  "אודות RustDesk";
  "";
  "";
  "";
  "";
  "";
  "הגדר PIN";
  "";
  "";
  "פלטורמה";
  "";
  "";
  "";
  "";
  "";
  "";
  "";
  "";
  "";
  "הורדה";
  "";
  "";
  "";
  "";
  "";
  "";
  ""].
(** [LANGS.hr] *)
Definition lang_hr : jsmap string string := texts [
  "Status";
  "Vaša radna površina";
  "Vašoj radnoj površini se može pristupiti ovim ID i lozinkom.";
  "Lozinka";
  "Spremno";
  "Uspostavljeno";
  "Spajanje na RustDesk mrežu...";
  "Dopusti servis";
  "Pokreni servis";
  "Servis je pokrenut";
  "Servis nije pokrenut";
  "Nije spremno. Provjerite vezu.";
  "Upravljanje udaljenom radnom površinom";
  "Prijenos datoteke";
  "Spajanje";
  "Nedavne sesije";
  "Adresar";
  "Potvrda";
  "TCP tunel";
  "Ukloni";
  "Osvježi slučajnu lozinku";
  "Postavi lozinku";
  "Dopusti tipkovnicu/miša";
  "Dopusti međuspremnik";
  "Dopusti prijenos datoteka";
  "Dopusti TCP tunel";
  "IP pouzdana lista";
  "ID/Posredni poslužitelj";
  "Uvoz konfiguracije poslužitelja";
  "Izvoz konfiguracije poslužitelja";
  "Uvoz konfiguracije poslužitelja uspješan";
  "Izvoz konfiguracije poslužitelja uspješan";
  "Pogrešna konfiguracija poslužitelja";
  "Međuspremnik je prazan";
  "Zaustavi servis";
  "Promijeni ID";
  "Vaš novi ID";
  "duljina %min% do %max%";
  "Počinje slovom";
  "Dopušteni znakovi";
  "Dopušteni su samo a-z, A-Z, 0-9, - (dash) i _ (donja crta) znakovi. Prvi znak mora biti slovo a-z, A-Z. Duljina je od 6 do 16.";
  "Web stranica";
  "O programu";
  "Stvoren srcem u ovom kaotičnom svijetu!";
  "Izjava o privatnosti";
  "Utišaj";
  "Datum izrade";
  "Verzija";
  "Početno";
  "Audio ulaz";
  "Proširenja";
  "Hardverski kodek";
  "Prilagodljiva gustoća podataka";
  "ID poslužitelja";
  "Posredni poslužitelj";
  "API poslužitelj";
  "Treba početi sa http:// ili https://";
  "Nevažeća IP";
  "Pogrešan format";
  "Poslužitelj još uvijek ne podržava";
  "Nije dostupno";
  "Previše često";
  "Otkaži";
  "Preskoči";
  "Zatvori";
  "Ponovi";
  "Ok";
  "Potrebna lozinka";
  "Molimo unesite svoju lozinku";
  "Zapamti lozinku";
  "Pogrešna lozinka";
  "Želite li ponovo unijeti lozinku?";
  "Greška u spajanju";
  "Greška";
  "Prekinuto sa druge strane";
  "Povezivanje...";
  "Povezivanje u tijeku. Molimo pričekajte.";
  "Pokušajte minutu kasnije";
  "Greška kod prijave";
  "Uspješno";
  "Spojeno, pričekajte sliku...";
  "Ime";
  "Vrsta";
  "Izmijenjeno";
  "Veličina";
  "Prikaži skrivene datoteke";
  "Prijem";
  "Slanje";
  "Osvježi datoteku";
  "Lokalno";
  "Udaljeno";
  "Udaljeno računalo";
  "Lokalno računalo";
  "Potvrdite brisanje";
  "Brisanje";
  "Svojstva";
  "Višestruki odabir";
  "Odaberi sve";
  "Poništi odabir";
  "Prazna mapa";
  "Nije prazna mapa";
  "Jeste sigurni da želite obrisati ovu datoteku?";
  "Jeste sigurni da želite obrisati ovu praznu mapu?";
  "Jeste sigurni da želite obrisati datoteku u ovoj mapi?";
  "Učinite to za sve sukobe";
  "Ovo je nepovratno";
  "Brisanje";
  "datoteke";
  "Čekanje";
  "Završeno";
  "Brzina";
  "Korisnička kvaliteta slike";
  "Način privatnosti";
  "Blokiraj korisnikov unos";
  "Odblokiraj korisnikov unos";
  "Podesi prozor";
  "Izvornik";
  "Skupi";
  "Raširi";
  "Linija pomaka";
  "Autom. pomak";
  "Dobra kvaliteta slike";
  "Balansirano";
  "Optimizirano vrijeme reakcije";
  "Korisničko";
  "Prikaži udaljeni kursor";
  "Prikaži kvalitetu monitora";
  "Zabrani međuspremnik";
  "Zaključaj po završetku sesije";
  "Ctrl + Alt + Del umetanje";
  "Zaključaj umetanje";
  "Osvježi";
  "ID ne postoji";
  "Greška u spajanju na poslužitelj za povezivanje";
  "Molimo pokušajte kasnije";
  "Udaljeni zaslon je isključen";
  "Pogrešan ključ";
  "Isteklo vrijeme";
  "Greška u spajanju na posredni poslužitelj";
  "Greška u spajanju preko poslužitelja za povezivanje";
  "Greška u spajanju preko posrednog poslužitelja";
  "Greška u direktnom spajanju na udaljenu radnu površinu";
  "Postavi lozinku";
  "Lozinka OS-a";
  "Zbog UAC-a RustDesk ne može u nekim slučajevima raditi pravilno. Da biste prevazišli UAC, kliknite na tipku ispod da instalirate RustDesk na sustav.";
  "Klik za nadogradnju";
  "Klik za preuzimanje";
  "Klik za ažuriranje";
  "Konfiguracija";
  with_quotes ["Da biste daljinski kontrolirali radnu površinu, RustDesk-u trebate dodijeliti prava za "; "Pristupačnost"; "."];
  with_quotes ["Da biste daljinski pristupili radnoj površini, RustDesk-u trebate dodijeliti prava za "; "Snimanje zaslona"; "."];
  "Instaliranje...";
  "Instaliraj";
  "Instalacija";
  "Putanja za instalaciju";
  "Stvori prečace u izborniku";
  "Stvori ikonu na radnoj površini";
  "Pokretanjem instalacije prihvaćate ugovor o licenciranju.";
  "Prihvati i instaliraj";
  "Ugovor sa krajnjim korisnikom";
  "Generiranje...";
  "Vaša instalacija je niže verzije";
  "Ne zatvarajte ovaj prozor dok koristite tunel";
  "Na slušanju...";
  "Adresa udaljenog uređaja";
  "Udaljeni port";
  "Postupak";
  "Dodaj";
  "Lokalni port";
  "Lokalna adresa";
  "Promijeni lokalni port";
  "Za brže spajanje, molimo da koristite vlastiti poslužitelj";
  "Prekratko, najmanje 6 znakova.";
  "Potvrda nije identična";
  "Dopuštenja";
  "Prihvati";
  "Odbaci";
  "Prekini vezu";
  "Dopusti kopiranje i lijepljenje datoteka";
  "Spojeno";
  "Izravna i kriptirana veza";
  "Posredna i kriptirana veza";
  "Izravna i nekriptirana veza";
  "Posredna i nekriptirana veza";
  "Unesite ID udaljenog uređaja";
  "Unesite svoju lozinku";
  "Prijava...";
  "Dopusti dijeljenje RDP sesije";
  with_quotes ["Autom. prijava (Vrijedi samo ako je postavljeno "; "Zaključavanje nakon završetka sesije"; ")"];
  "Dopusti izravan pristup preko IP adrese";
  "Preimenuj";
  "Prazno";
  "Stvori prečac na radnoj površini";
  "Promijeni putanju";
  "Svori mapu";
  "Unesite ime mape";
  "Popravi";
  "Upozorenje";
  "Zaslon za prijavu koji koristi Wayland nije podržan";
  "Potrebano je ponovno pokretanje";
  "Nepodržani poslužitelj za prikaz";
  "x11 očekivan";
  "Port";
  "Postavke";
  "Korisničko ime";
  "Pogrešan port";
  "Klijent ručno prekinuo vezu";
  "Dopusti izmjenu udaljene konfiguracije";
  "Pokreni bez instalacije";
  "Povezivanje preko relejnog poslužitelja";
  "Uvek se poveži preko relejnog poslužitelja";
  "Mogu mi pristupiti samo dozvoljene IP adrese";
  "Prijava";
  "Potvrdi";
  "Zapamti me";
  "Vjeruj ovom uređaju";
  "Kontrolni kôd";
  "Kontrolni kôd je poslan na registriranu adresu e-pošte, unesite ga i nastavite s prijavom.";
  "Odjava";
  "Oznake";
  "Traži ID";
  "Odvojeno zarezima, točka zarezima, praznim mjestima ili novim redovima";
  "Dodaj ID";
  "Dodaj oznaku";
  "Odznači sve oznake";
  "Greška na mreži";
  "Korisničko ime propušteno";
  "Lozinka propuštena";
  "Pogrešno korisničko ime ili lozinka";
  "Kôd za provjeru nije točan ili je istekao";
  "Izmjenite oznaku";
  "Zaboravi lozinku";
  "Favoriti";
  "Dodaj u favorite";
  "Ukloni iz favorita";
  "Prazno";
  "Nevažeći naziv mape";
  "Socks5 Proxy";
  "";
  "Otkriveno";
  "Servis sustava mora biti instaliran ako se želi pokrenuti pri pokretanju sustava.";
  "Udaljeni ID";
  "Zalijepi";
  "Zalijepi ovdje?";
  "Jeste li sigurni da želite zatvoriti vezu?";
  "Preuzmi novu verziju";
  "Način rada na dodir";
  "Način rada miša";
  "Dodir jednim prstom";
  "Lijeva tipka miša";
  "Jedan dugi dodir";
  "Dodir s dva prsta";
  "Desna tipka miša";
  "Pomak jednim prstom";
  "Dupli dodir i pomak";
  "Povlačenje mišem";
  "Sa tri prsta okomito";
  "Kotačić miša";
  "Pomak s dva prsta";
  "Pomak pozadine";
  "Stisnite prste za zumiranje";
  "Zumiranje pozadine";
  "Resetiraj pozadinu";
  "Nemate pravo prijenosa datoteka";
  "Bilješka";
  "Povezivanje";
  "Podijeli zaslon";
  "Dopisivanje";
  "Ukupno";
  "stavki";
  "Odabrano";
  "Snimanje zaslona";
  "Kontrola unosa";
  "Snimanje zvuka";
  "Spajanje preko datoteke";
  "Podijelite vezu";
  "Prihvaćate li?";
  "Postavke otvorenog sustava";
  "Kako dobiti pristup za unos na Androidu?";
  with_quotes ["Da bi ste daljinski uređaj kontrolirali vašim Android uređajem preko miša ili na dodir, trebate dopustiti RustDesk-u da koristi servis "; "Pristupačnost"; "."];
  "Molimo prijeđite na sljedeću stranicu podešavanja sustava, pronađite i unesite [Instalirani servisi], uključite servis [RustDesk Input].";
  "Primljen je novi zahtjev za upravljanje, koji želi upravljati vašim uređajem.";
  with_quotes ["Omogućavanje "; "Snimanje zaslona"; " automatski će pokrenuti servis, dopuštajući drugim uređajima da zahtjevaju spajanje na vaš uređaj."];
  "Zatvaranje servisa automatski će zatvoriti sve uspostavljene veze.";
  "Trenutna Android verzija ne podržava audio snimanje, molimo nadogradite na Android 10 ili veći.";
  "Pritisnite [Pokreni servis] ili omogućite dopuštenje [Snimanje zaslona] za pokretanje usluge dijeljenja zaslona.";
  "Dopuštenja za uspostavljene veze mogu se promijeniti tek nakon ponovnog povezivanja.";
  "Račun";
  "Prepiši";
  "Ova datoteka postoji, preskoči ju ili prepiši?";
  "Izlaz";
  "Pomoć";
  "Neuspješno";
  "Uspešno";
  "Netko je uključio način privatnosti, izlaz.";
  "Nepodržano";
  "Klijent zabranjen";
  "Molimo instalirajte dodatke";
  "Klijent je izašao";
  "Greška kod isključenja";
  "Isključeno";
  "Jezik";
  "Zadrži RustDesk kao pozadinski servis";
  "Zanemari optimizaciju baterije";
  "Ako želite onemogućiti ovu funkciju, molimo idite na sljedeću stranicu za podešavanje RustDesk aplikacije, pronađite i uđite u [Baterija], onemogućite [Neograničeno]";
  "Pokreni pri pokretanju sustava";
  "Za pokretanje usluge dijeljenja zaslona pri pokretanju sustava potrebna su posebna dopuštenja";
  "Veza nije dopuštena";
  "Naslijeđeni način";
  "Način mapiranja";
  "Način prevođenja";
  "Koristi trajnu lozinku";
  "Koristi obje lozinke";
  "Postavi trajnu lozinku";
  "Omogući daljinsko ponovno pokretanje";
  "Ponovno pokreni daljinski uređaj";
  "Jeste li sigurni da želite ponovno pokretanje";
  "Ponovno pokretanje daljinskog uređaja";
  "Udaljeni uređaj se ponovno pokreće, molimo zatvorite ovu poruku i ponovo se kasnije povežite trajnom lozinkom";
  "Kopirano";
  "Izlaz iz cijelog zaslona";
  "Cijeli zaslon";
  "Mobilne akcije";
  "Odabir monitora";
  "Kontrolni postupci";
  "Postavke prikaza";
  "Odnos";
  "Kvaliteta slike";
  "Način pomaka";
  "Prikaži alatnu traku";
  "Sakrij alatnu traku";
  "Izravna veza";
  "Posredna veza";
  "Sigurna veza";
  "Nesigurna veza";
  "Skaliraj izvornik";
  "Prilagođeno skaliranje";
  "Općenito";
  "Sigurnost";
  "Tema";
  "Tamna tema";
  "Svjetla tema";
  "Tamna";
  "Svjetla";
  "Tema sutava";
  "Omogući hardverski kodek";
  "Otključaj postavke sigurnosti";
  "Dopusti zvuk";
  "Otključaj postavke mreže";
  "Poslužitelj";
  "Izravan IP pristup";
  "Proxy";
  "Primijeni";
  "Odspojiti sve uređaje?";
  "Obriši";
  "Uređaj za ulaz zvuka";
  "Koristi popis pouzdanih IP adresa";
  "Mreža";
  "Prikači alatnu traku";
  "Otkvači alatnu traku";
  "Snimanje";
  "Mapa";
  "Automatski snimi dolazne sesije";
  "";
  "Promijeni";
  "Započni snimanje sesije";
  "Zaustavi snimanje sesije";
  "Omogući snimanje sesije";
  "Omogući LAN otkrivanje";
  "Onemogući LAN otkrivanje";
  "Napiši poruku";
  "Spremno";
  "Molimo pričekajte potvrdu UAC-a...";
  "Tekući prozor udaljene radne površine zahtijeva veće privilegije za rad, tako da trenutno nije moguće koristiti miša i tipkovnicu. Možete zatražiti od udaljenog korisnika da minimizira aktivni prozor, ili kliknuti gumb za povećanje privilegija u prozoru za upravljanje vezom. Kako biste izbjegli ovaj problem, preporučujemo da instalirate softver na udaljeni uređaj.";
  "Odspojeno";
  "Ostalo";
  "Potvrda prije zatvaranja više kartica";
  "Postavke tipkovnice";
  "Potpuni pristup";
  "Dijeljenje zaslona";
  "Wayland zahtijeva Ubuntu verziju 21.04 ili višu";
  "Wayland zahtijeva višu verziju Linux distribucije. Molimo isprobjate X11 ili promijenite OS.";
  "Vidi";
  "Molimo odaberite zaslon koji će biti podijeljen (Za rad na strani klijenta)";
  "Prikaži RustDesk";
  "Ovo računalo";
  "ili";
  "Nastavi sa";
  "Izdigni";
  "Zumiraj kursor";
  "Prihvati sesije preko lozinke";
  "Prihvati sesije preko klika";
  "Prihvati sesije preko oboje";
  "Molimo pričekajte da udaljena strana prihvati vaš zahtjev za sesijom...";
  "Jednokratna lozinka";
  "Koristi jednokratnu lozinku";
  "Duljina jednokratne lozinke";
  "Zahtjev za pristup vašem uređaju";
  "Sakrij prozor za uređivanje veze";
  "Skrivanje dozvoljeno samo prihvaćanjem sesije preko lozinke i korištenjem trajne lozinke";
  "Podrška za Wayland je eksperimentalna, ako trebate pristup bez nadzora, koristite X11.";
  "Desni klik za odabir kartica";
  "Preskočeno";
  "Dodaj u adresar";
  "Grupa";
  "Pretraga";
  "Zatvoreno ručno pomoću web konzole";
  "Vrsta lokalne tipkovnice";
  "Odabir lokalne vrste tipkovnice";
  "Ako koristite Nvidia grafičku karticu na Linuxu i udaljeni prozor se zatvori odmah nakon povezivanja, prebacivanje na Nouveau upravljački program otvorenog kôda i odabir softverskog renderiranja može pomoći. Potrebno je ponovno pokretanje.";
  "Uvijek koristite softversko renderiranje";
  with_quotes ["Za upravljanje udaljenom radnom površinom pomoću tipkovnice, morate dodijeliti RustDesku dopuštenje "; "Nadzor unosa"; "."];
  with_quotes ["Da biste razgovarali na daljinu, morate dopustiti RustDesku "; "Snimanje zvuka"; "."];
  "Također možete tražiti podizanje ako je netko na drugoj strani.";
  "Pričekaj";
  "Pogreška povećanja";
  "Pitajte udaljenog korisnika za autentifikaciju";
  "Odaberite ovu opciju ako je udaljeni račun administrator";
  "Prijenos administratorskog korisničkog imena i lozinke";
  "Još uvijek zahtijeva da udaljeni korisnik klikne OK u UAC prozoru pokrenutog RustDeska.";
  "Zahtjev za podizanje";
  "Pričekajte da udaljeni korisnik prihvati UAC dijaloški okvir.";
  "Uspješno podizanje";
  "velika slova";
  "mala slova";
  "brojka";
  "poseban znak";
  "duljina>=8";
  "Slabo";
  "Srednje";
  "Jako";
  "Promjena strane";
  "Potvrdite ako želite dijeliti svoju radnu površinu?";
  "Zaslon";
  "Zadani način prikaza";
  "Zadani način pomaka";
  "Zadana kvaliteta slike";
  "Izlazni kodek";
  "Tok podataka";
  "FPS";
  "Autom.";
  "Ostale zadane opcije";
  "Glasovni poziv";
  "Tekstni chat";
  "Zaustavi glasovni poziv";
  with_quotes ["Izravna veza možda neće biti moguća, možete se pokušati povezati preko relejnog poslužitelja. Osim toga, ako želite koristiti poslužitelj za prosljeđivanje u prvom pokušaju, možete dodati sufiks ID-u "; "/r"; ", ili u kartici nedavnih sesija odaberite opciju "; "Uvijek se poveži preko pristupnika"; ", ako postoji."];
  "Ponovno se spojite";
  "Kodek";
  "Razlika";
  "Nema prijenosa u tijeku";
  "Postavljanje duljine jednokratne lozinke";
  "Postavljanje RDP-a";
  "Poredaj po";
  "Nova veza";
  "Vratiti";
  "Smanjiti";
  "Povećati";
  "Vaš uređaj";
  "Nema nedavne sesije!\nVrijeme je da zakažete novu.";
  "Još nemate nijednog omiljenog partnera?\nPronađite nekoga s kim se možete povezati i dodajte ga u svoje favorite!";
  "Ali ne, izgleda da još nismo otkrili niti jednu drugu stranu.";
  "Izgleda da trenutno nemate nijednog kolege navedenog u svom imeniku.";
  "napr. admin";
  "Prazno korisničko ime";
  "Prazna lozinka";
  "Ja";
  "Ova je datoteka identična partnerskoj datoteci.";
  "Prikažite monitore na alatnoj traci";
  "Način prikaza";
  "Da biste omogućili sesiju X radne površine, morate se prijaviti na udaljeni Linux račun.";
  "Provjera lozinke za RustDesk";
  "Zapamti ovaj račun";
  "Ovaj se račun koristi za prijavu na udaljeni operativni sustav i za omogućavanje sesije radne površine u bezglavom načinu rada.";
  "Račun operativnog sustava";
  "Drugi korisnik je već prijavljen";
  "Prekini vezu";
  "Xorg nije pronađen";
  "Molimo instalirajte Xorg";
  "Nema dostupne radne površine";
  "Molimo instalirajte GNOME";
  "Nije potrebno povećanje";
  "Zvuk sustava";
  "Zadano";
  "Novi RDP";
  "Otisak";
  "Kopirat otisak";
  "nema otiska";
  "Izbor druge strane";
  "Odaberite druge strane";
  "Dodaci";
  "Deinstaliraj";
  "Ažuriraj";
  "Dopustiti";
  "Zabraniti";
  "Mogućnosti";
  "Izvorna rezolucija";
  "Podesite lokalnu rezoluciju";
  "Prilagođena rezolucija";
  "Sažmi alatnu traku";
  "Prihvati povećanje";
  "Prihvatite vezu i povećajte UAC dopuštenja.";
  "Isteklo je vrijeme čekanja na kopiju odgovora.";
  "Dolazna veza";
  "Odlazna veza";
  "Izlaz";
  "Otvori";
  "Jeste li sigurni da se želite odjaviti?";
  "Servis";
  "Pokreni";
  "Zaustavi";
  "Dosegli ste najveći broj upravljanih uređaja.";
  "Sinkronizacija s nedavnim sesijama";
  "Razvrstaj oznake";
  "Otvorite vezu u novoj kartici";
  "Premjesti karticu u novi prozor";
  "Ne može biti prazno";
  "Već postoji";
  "Promjena lozinke";
  "Poništavanje lozinke";
  "ID";
  "Mreža";
  "Imenik";
  "Odaberi";
  "Promijenite oznake";
  "Nije uspjelo vraćanje imenika";
  "Sinkronizacija imenika s poslužiteljem nije uspjela";
  "Uređaji koji su bili prisutni u posljednjim sesijama sinkronizirat će se natrag u imenik.";
  "Promjena boje";
  "Osnovna boja";
  "HSV boja";
  "Instalacija uspjela!";
  "Instalacija nije uspjela!";
  "Obrnuti kotačić miša";
  "{} sesija";
  "Možda vas je netko PREVARIO!";
  "Ako razgovarate telefonom s nekim koga NE POZNAJETE i NE VJERUJETE tko vas je zamolio da koristite i pokrenete RustDesk, nemojte nastavljati razgovor i odmah spustite slušalicu.";
  "Ovo je vjerojatno prevarant koji pokušava ukrasti vaš novac ili druge privatne podatke.";
  "Ne prikazuj opet";
  "Slažem se";
  "Ne slažem se";
  "Istek u minutama";
  "Automatsko prekidanje dolaznih veza kada je korisnik neaktivan";
  "Povezivanje nije uspjelo zbog neaktivnosti";
  "Provjera ažuriranja softvera pri pokretanju";
  "Ažurirajte RustDesk Server Pro na verziju {} ili noviju!";
  "Vraćanje grupe nije uspjelo";
  "Filtriraj po prosjeku";
  "Uklonite pozadinu tijekom dolaznih sesija";
  "Test";
  "Zaslon je isključen, prijeđite na prvi zaslon.";
  "Nema zaslona";
  "Otvori u novom prozoru";
  "Prikaži zaslone kao pojedinačne prozore";
  "Koristi sve moje zaslone za udaljenu sesiju";
  "Na vašem uređaju je omogućen SELinux, što može spriječiti RustDesk da pravilno radi kao upravljana strana.";
  "Promjena prikaza";
  "Velike pločice";
  "Male pločice";
  "Imenik";
  "Virtualni zaslon";
  "Odspojite sve";
  "Stvarne boje (4:4:4)";
  "Omogući blokiranje korisničkog unosa";
  with_quotes ["Možete unijeti ID, izravnu IP adresu ili domenu s portom (<domena>:<port>).\nAko želite pristupiti uređaju na drugom poslužitelju, povežite adresu poslužitelja (<id>@<adresa_poslužitelja>?kljuć=<vrijednost_ključa>), naprimjer,\n9123456234@192.168.16.1:21117?key=5Qbwsde3unUcJBtrx9ZkvUmwFNoExHzpryHuPUdqlWM=.\nAko želite pristupiti uređaju na javnom poslužitelju, unesite "; "<id>@public"; ", ključ nije potreban za javni poslužitelj."];
  "Način 1";
  "Način 2";
  "Uđite u način privatnosti";
  "Izađi iz načina privatnosti";
  "Neizravni upravljački program za zaslon nije podržan. Potreban je Windows 10 verzija 2004 ili novija.";
  "Ulazni izvor 1";
  "Ulazni izvor 2";
  "Zamjena tipki control-command";
  "Zamjena lijeve i desne tipke miša";
  "2FA kôd";
  "Više";
  "Omogući dvofaktorsku autentifikaciju";
  "Postavite svoj autentifikator. Na telefonu ili računalu možete koristiti aplikaciju za autentifikaciju kao što su Authy, Microsoft ili Google Authenticator.\n\nSkenirajte QR kôd pomoću aplikacije i unesite kôd koji aplikacija prikazuje za aktiviranje dvofaktorske autentifikacije.";
  "Kôd se ne može provjeriti. Provjerite jesu li kôd i postavke lokalnog vremena točni";
  "Dvofaktorska autentifikacija";
  "Kôd za provjeru e-pošte mora imati 6 znakova.";
  "2FA kôd mora imati 6 znamenki.";
  "Pronađeno je više Windows sesija";
  "Odaberite sesiju kojoj se želite pridružiti";
  "Pokreće RustDesk";
  "Ovo je prilagođeno izdanje.\nMožete se povezati s drugim uređajima, ali se drugi uređaji ne mogu povezati s vašim uređajem.";
  "Ovo modificirano izdanje dolazi s unaprijed postavljenom lozinkom. Svatko tko zna ovu lozinku može dobiti potpunu kontrolu nad vašim uređajem. Ako to niste očekivali, odmah deinstalirajte softver.";
  "Sigurnosno upozorenje";
  "Moj adresar";
  "Osobni";
  "Vlasnik";
  "Postavite zajedničku lozinku";
  "Postoji u";
  "Samo za čitanje";
  "Način čitanja/pisanja";
  "Potpuna kontrola";
  "Gornja polja su podijeljena i vidljiva drugima.";
  "Svatko";
  "Više na web konzoli";
  "";
  "";
  "";
  "";
  "";
  "";
  "";
  "";
  "";
  "";
  "";
  "";
  "";
  "";
  "";
  "";
  "";
  "";
  "";
  "";
  "";
  "";
  "";
  "";
  "";
  "";
  "";
  "";
  "";
  "";
  "";
  "";
  "";
  "";
  "";
  "";
  "";
  "";
  "";
  "";
  "";
  "";
  "";
  "";
  "";
  "";
  "";
  "";
  "";
  "";
  "";
  "";
  "";
  "";
  "";
  "";
  "";
  ""].
(** [LANGS.hu] *)
Definition lang_hu : jsmap string string := texts [
  "Állapot";
  "Saját asztal";
  "A számítógép ezzel a jelszóval és azonosítóval érhető el távolról.";
  "Jelszó";
  "Kész";
  "Létrejött";
  "Kapcsolódás folyamatban…";
  "Szolgáltatás engedélyezése";
  "Szolgáltatás indítása";
  "Szolgáltatás aktív";
  "Szolgáltatás inaktív";
  "Kapcsolódási hiba. Ellenőrizze a hálózati beállításokat.";
  "Távoli számítógép vezérlése";
  "Fájlátvitel";
  "Kapcsolódás";
  "Legutóbbi munkamenetek";
  "Címjegyzék";
  "Megerősítés";
  "TCP-tunneling";
  "Eltávolítás";
  "Új véletlenszerű jelszó";
  "Saját jelszó beállítása";
  "Billentyűzet/egér engedélyezése";
  "Megosztott vágólap engedélyezése";
  "Fájlátvitel engedélyezése";
  "TCP-tunneling engedélyezése";
  "IP engedélyezési lista";
  "ID/Továbbító-kiszolgáló";
  "Kiszolgáló-konfiguráció importálása";
  "Kiszolgáló-konfiguráció exportálása";
  "Kiszolgáló-konfiguráció sikeresen importálva";
  "Kiszolgáló-konfiguráció sikeresen exportálva";
  "Érvénytelen kiszolgáló-konfiguráció";
  "A vágólap üres";
  "Szolgáltatás leállítása";
  "Azonosító megváltoztatása";
  "Az új azonosítója";
  "hossz %min% és %max% között";
  "betűvel kezdődik";
  "engedélyezett karakterek";
  "Csak a-z, A-Z, 0-9, - (dash) csoportokba tartozó karakterek, illetve a _ karakter van engedélyezve. Az első karakternek mindenképpen a-z, A-Z csoportokba kell esnie. Az azonosító hosszúsága 6-tól, 16 karakter.";
  "Webhely";
  "Névjegy";
  "Szenvedéllyel programozva - egy káoszba süllyedő világban!";
  "Adatvédelmi nyilatkozat";
  "Némítás";
  "Összeállítás ideje";
  "Verzió";
  "Kezdőképernyő";
  "Hangátvitel";
  "Fejlesztések";
  "Hardveres kodek";
  "Adaptív bitráta";
  "ID kiszolgáló";
  "Továbbító-kiszolgáló";
  "API kiszolgáló";
  "A címnek mindenképpen http(s)://-el kell kezdődnie.";
  "A megadott IP-cím helytelen.";
  "Érvénytelen formátum";
  "A kiszolgáló nem támogatja";
  "Nem érhető el";
  "Túl gyakori";
  "Mégse";
  "Kihagyás";
  "Bezárás";
  "Újra";
  "OK";
  "A jelszó megadása kötelező";
  "Adja meg a jelszavát";
  "Jelszó megjegyzése";
  "Hibás jelszó";
  "Szeretne újra belépni?";
  "Kapcsolódási hiba";
  "Hiba";
  "A kapcsolatot alaphelyzetbe állt";
  "Kapcsolódás…";
  "A kapcsolódás folyamatban van. Kis türelmet.";
  "Próbálja meg 1 perc múlva";
  "Bejelentkezési hiba";
  "Sikeres";
  "Kapcsolódva, várakozás a képadatokra…";
  "Név";
  "Típus";
  "Módosított";
  "Méret";
  "Rejtett fájlok megjelenítése";
  "Fogadás";
  "Küldés";
  "Fájl frissítése";
  "Helyi";
  "Távoli";
  "Távoli számítógép";
  "Helyi számítógép";
  "Törlés megerősítése";
  "Törlés";
  "Tulajdonságok";
  "Többszörös kijelölés";
  "Összes kijelölése";
  "Kijelölések megszüntetése";
  "Üres könyvtár";
  "Nem egy üres könyvtár";
  "Biztosan törli ezt a fájlt?";
  "Biztosan törli ezt az üres könyvtárat?";
  "Biztosan törölni szeretné a könyvtár tartalmát?";
  "Tegye ezt minden ütközéskor";
  "Ez a művelet nem vonható vissza!";
  "Törlés folyamatban";
  "fájlok";
  "Várakozás";
  "Befejezve";
  "Sebesség";
  "Egyéni képminőség";
  "Inkognitó mód";
  "Felhasználói bevitel letiltása";
  "Felhasználói bevitel engedélyezése";
  "Ablakméret beállítása";
  "Eredeti méret";
  "Kicsinyítés";
  "Nyújtás";
  "Görgetősáv";
  "Automatikus görgetés";
  "Eredetihez hű";
  "Kiegyensúlyozott";
  "Gyorsan reagáló";
  "Egyéni";
  "Távoli kurzor megjelenítése";
  "Minőségi monitor megjelenítése";
  "Közös vágólap kikapcsolása";
  "Távoli fiók zárolása a munkamenet végén";
  "Illessze be a Ctrl + Alt + Del";
  "Távoli fiók zárolása";
  "Frissítés";
  "Az azonosító nem létezik";
  "Nem sikerült kapcsolódni a kiszolgálóhoz";
  "Próbálja meg később";
  "A távoli számítógép offline állapotban van";
  "Eltérés a kulcsokban";
  "Időtúllépés";
  "Nem sikerült kapcsolódni a továbbító-kiszolgálóhoz";
  "Nem sikerült kapcsolódni a kiszolgálón keresztül";
  "Nem sikerült kapcsolódni a továbbító-kiszolgálón keresztül";
  "Nem sikerült közvetlen kapcsolatot létesíteni a távoli számítógéppel";
  "Jelszó beállítása";
  "Operációs rendszer jelszavának beállítása";
  "Előfordul, hogy bizonyos esetekben hiba léphet fel a Portable verzió használata során. A megfelelő működés érdekében, telepítse a RustDesk alkalmazást a számítógépére.";
  "Kattintson ide a frissítés telepítéséhez";
  "Kattintson ide a letöltéshez";
  "Kattintson ide a frissítés letöltéséhez";
  "Beállítás";
  "A távoli vezérléshez a RustDesknek „Kisegítő lehetőségek” engedélyre van szüksége";
  "A távoli vezérléshez szükséges a „Képernyőfelvétel” engedély megadása";
  "Telepítés…";
  "Telepítés";
  "Telepítés";
  "Telepítési útvonal";
  "Start menü parancsikonok létrehozása";
  "Ikon létrehozása az asztalon";
  "A telepítés folytatásával automatikusan elfogadásra kerül a licenc szerződés.";
  "Elfogadás és telepítés";
  "Végfelhasználói licenc szerződés";
  "Előállítás…";
  "A telepített verzió alacsonyabb.";
  "Ne zárja be ezt az ablakot amíg TCP-tunnelinget használ";
  "Figyelés…";
  "Távoli kiszolgáló";
  "Távoli port";
  "Indítás";
  "Hozzáadás";
  "Helyi port";
  "Helyi cím";
  "Helyi port megváltoztatása";
  "Gyorsabb kapcsolat érdekében, hozzon létre saját kiszolgálót";
  "Túl rövid, legalább 6 karakter.";
  "A megerősítés nem volt azonos";
  "Engedélyek";
  "Elfogadás";
  "Elutasítás";
  "Kapcsolat bontása";
  "Fájlok másolásának és beillesztésének engedélyezése";
  "Kapcsolódva";
  "Közvetlen, és titkosított kapcsolat";
  "Továbbított, és titkosított kapcsolat";
  "Közvetlen, és nem titkosított kapcsolat";
  "Továbbított, és nem titkosított kapcsolat";
  "Távoli számítógép azonosítója";
  "Adja meg a jelszavát";
  "Belépés folyamatban…";
  "RDP-munkamenet-megosztás engedélyezése";
  "Automatikus bejelentkezés";
  "Közvetlen IP-elérés engedélyezése";
  "Átnevezés";
  "Szóköz";
  "Asztali parancsikon létrehozása";
  "Elérési út módosítása";
  "Mappa létrehozás";
  "Adja meg a mappa nevét";
  "Javítás";
  "Figyelmeztetés";
  "Bejelentkezéskori Wayland használata nem támogatott";
  "Újraindítás szükséges";
  "Nem támogatott megjelenítő kiszolgáló";
  "x11-re számítottt";
  "Port";
  "Beállítások";
  "Felhasználónév";
  "Érvénytelen port";
  "A kapcsolatot a másik fél kézileg bezárta";
  "Távoli konfiguráció-módosítás engedélyezése";
  "Futtatás telepítés nélkül";
  "Kapcsolódás továbbító-kiszolgálón keresztül";
  "Kapcsolódás mindig továbbító-kiszolgálón keresztül";
  "Csak az engedélyezési listán szereplő címek kapcsolódhatnak";
  "Belépés";
  "Ellenőrzés";
  "Emlékezzen rám";
  "Megbízom ebben az eszközben";
  "Ellenőrző kód";
  "A regisztrált e-mail-címre egy ellenőrző kód lesz elküldve. Adja meg az ellenőrző kódot az újbóli bejelentkezéshez.";
  "Kilépés";
  "Címkék";
  "Azonosító keresése…";
  "A címeket veszővel, pontosvesszővel, szóközzel, vagy új sorral válassza el";
  "Azonosító hozzáadása";
  "Címke hozzáadása";
  "A címkék kijelölésének megszüntetése";
  "Hálózati hiba";
  "Üres felhasználónév";
  "Üres jelszó";
  "Hibás felhasználónév vagy jelszó";
  "A hitelesítőkód érvénytelen vagy lejárt";
  "Címke szerkesztése";
  "A jelszó megjegyzésének megszüntetése";
  "Kedvencek";
  "Hozzáadás a kedvencekhez";
  "Eltávolítás a kedvencekből";
  "Üres";
  "Helytelen mappa név";
  "Socks5 Proxy";
  "Socks5/Http(s) Proxy";
  "Felfedezett";
  "Az automatikus indításhoz szükséges a szolgáltatás telepítése";
  "Távoli azonosító";
  "Beillesztés";
  "Beillesztés ide?";
  "Biztosan bezárja a kapcsolatot?";
  "Új verzió letöltése";
  "Érintési mód bekapcsolása";
  "Egérhasználati mód bekapcsolása";
  "Egyujjas érintés";
  "Bal egér gomb";
  "Hosszú érintés";
  "Kétujjas érintés";
  "Jobb egér gomb";
  "Egyujjas mozgatás";
  "Dupla érintés, és mozgatás";
  "Mozgatás egérrel";
  "Három ujj függőlegesen";
  "Egérgörgő";
  "Kétujjas mozgatás";
  "Nézet mozgatása";
  "Kétujjas nagyítás";
  "Nézet nagyítása";
  "Nézet visszaállítása";
  "Nincs engedély a fájlátvitelre";
  "Megjegyzés";
  "Kapcsolat";
  "Képernyőmegosztás";
  "Csevegés";
  "Összes";
  "elemek";
  "Kijelölve";
  "Képernyőrögzítés";
  "Távoli vezérlés";
  "Hangrögzítés";
  "Fájlátvitel";
  "Képátvitel";
  "Elfogadás?";
  "Rendszerbeállítások megnyitása";
  "Hogyan állítható be az Androidos beviteli engedély?";
  "A távoli vezérléshez engedélyezze a „Kisegítő lehetőségek” lehetőséget.";
  "A következő rendszerbeállítások oldalon a letöltött alkalmazások menüponton belül, kapcsolja be a [RustDesk Input] szolgáltatást.";
  "Új kérés érkezett, mely vezérelni szeretné az eszközét";
  "A „Képernyőrögzítés” bekapcsolásával automatikus elindul a szolgáltatás, lehetővé téve, hogy más eszközök kapcsolódási kérelmet küldhessenek";
  "A szolgáltatás leállítása automatikusan szétkapcsol minden létező kapcsolatot.";
  "A jelenlegi Android verzió nem támogatja a hangrögzítést, frissítsen legalább Android 10-re, vagy egy újabb verzióra.";
  "A képernyőmegosztó szolgáltatás elindításához koppintson a „továbbító-kiszolgáló-szolgáltatás indítása” gombra, vagy aktiválja a „Képernyőfelvétel” engedélyt.";
  "A meglévő kapcsolatok engedélyei csak új kapcsolódás után módosulnak.";
  "Fiók";
  "Felülírás";
  "Ez a fájl már létezik, kihagyja vagy felülírja ezt a fájlt?";
  "Kilépés";
  "Súgó";
  "Sikertelen";
  "Sikeres";
  "Valaki bekacsolta az inkognitó módot, lépjen ki";
  "Nem támogatott";
  "Elutasítva a távoli fél által";
  "Telepítse a bővítményeket";
  "A távoli fél kilépett";
  "Nem sikerült kikapcsolni";
  "Kikapcsolva";
  "Nyelv";
  "RustDesk futtatása a háttérben";
  "Akkumulátorkímélő figyelmen kívül hagyása";
  "Ha le szeretné tiltani ezt a funkciót, lépjen a RustDesk alkalmazás beállításaiba, keresse meg az [Akkumulátorkímélő] lehetőséget és válassza a nincs korlátozás lehetőséget.";
  "Indítás bekapcsoláskor";
  "Indítsa el a képernyőmegosztó szolgáltatást rendszerindításkor, speciális engedélyeket igényel";
  "A kapcsolódás nem engedélyezett";
  "Kompatibilitási mód";
  "Hozzárendelési mód";
  "Fordító mód";
  "Állandó jelszó használata";
  "Mindkét jelszó használata";
  "Állandó jelszó beállítása";
  "Távoli újraindítás engedélyezése";
  "Távoli eszköz újraindítása";
  "Biztosan újra szeretné indítani?";
  "Távoli eszköz újraindítása…";
  "A távoli eszköz újraindul, zárja be ezt az üzenetet, kapcsolódjon újra az állandó jelszavával";
  "Másolva";
  "Kilépés teljes képernyős módból";
  "Teljes képernyő";
  "Mobil műveletek";
  "Válasszon képernyőt";
  "Irányítási műveletek";
  "Megjelenítési beállítások";
  "Arány";
  "Képminőség";
  "Görgetési stílus";
  "Eszköztár megjelenítése";
  "Eszköztár elrejtése";
  "Kapcsolódás közvetlenül";
  "Kapcsolódás továbbító-kiszolgálón keresztül";
  "Biztonságos kapcsolódás";
  "Nem biztonságos kapcsolódás";
  "Eredeti méretarány";
  "Adaptív méretarány";
  "Általános";
  "Biztonság";
  "Téma";
  "Sötét téma";
  "Világos téma";
  "Sötét";
  "Világos";
  "Rendszer beállításainak követése";
  "Hardveres kodek engedélyezése";
  "Biztonsági beállítások feloldása";
  "Hang engedélyezése";
  "Hálózati beállítások feloldása";
  "Kiszolgáló";
  "Közvetlen IP-hozzáférés";
  "Proxy";
  "Alkalmaz";
  "Leválasztja az összes eszközt?";
  "Tisztítás";
  "Audio bemeneti eszköz";
  "Engedélyezési lista használata";
  "Hálózat";
  "Eszköztár kitűzése";
  "Eszköztár kitűzésének feloldása";
  "Felvétel";
  "Könyvtár";
  "A bejövő munkamenetek automatikus rögzítése";
  "A kimenő munkamenetek automatikus rögzítése";
  "Változtatás";
  "Munkamenet rögzítés indítása";
  "Munkamenet rögzítés leállítása";
  "Munkamenet rögzítés engedélyezése";
  "Felfedezés engedélyezése";
  "Felfedezés tiltása";
  "Üzenet írása";
  "Kérés";
  "Várjon az UAC megerősítésére…";
  "A távvezérelt számítógép jelenleg nyitott ablakához magasabb szintű jogok szükségesek. Ezért jelenleg nem lehetséges az egér és a billentyűzet használata. Kérje meg azt a felhasználót, akinek a számítógépét távolról vezérli, hogy minimalizálja az ablakot, vagy növelje a jogokat. A jövőbeni probléma elkerülése érdekében ajánlott a szoftvert a távvezérelt számítógépre telepíteni.";
  "Kapcsolat bontva";
  "Egyéb";
  "Biztosan bezárja az összes lapot?";
  "Billentyűzet beállítások";
  "Teljes hozzáférés";
  "Képernyőmegosztás";
  "A Waylandhez Ubuntu 21.04 vagy újabb verzió szükséges.";
  "A Wayland a Linux disztribúció magasabb verzióját igényli. Próbálja ki az X11 desktopot, vagy változtassa meg az operációs rendszert.";
  "Hiperhivatkozás";
  "Válassza ki a megosztani kívánt képernyőt.";
  "A RustDesk megjelenítése";
  "Ez a számítógép";
  "vagy";
  "Folytatás a következővel";
  "Hozzáférés engedélyezése";
  "Kurzor nagyítása";
  "Munkamenetek elfogadása jelszóval";
  "Munkamenetek elfogadása kattintással";
  "Munkamenetek fogadása mindkettőn keresztül";
  "Várjon, amíg a távoli oldal elfogadja a munkamenet-kérelmét…";
  "Egyszer használatos jelszó";
  "Használjon ideiglenes jelszót";
  "Egyszer használatos jelszó hossza";
  "Hozzáférés kérése az eszközéhez";
  "Kapcsolatkezelő ablak elrejtése";
  "Ez csak akkor lehetséges, ha a hozzáférés állandó jelszóval történik.";
  "A Wayland-támogatás csak kísérleti jellegű. Használja az X11-et, ha felügyelet nélküli hozzáférésre van szüksége.";
  "Jobb klikk a lapok kiválasztásához";
  "Kihagyott";
  "Hozzáadás a címjegyzékhez";
  "Csoport";
  "Keresés";
  "Kézzel bezárva a webkonzolon keresztül";
  "Helyi billentyűzet típusa";
  "Helyi billentyűzet típusának kiválasztása";
  "Ha Nvidia grafikus kártyát használ Linux alatt, és a távoli ablak a kapcsolat létrehozása után azonnal bezáródik, akkor a Nouveau nyílt forráskódú illesztőprogramra való váltás és a szoftveres renderelés használata segíthet. A szoftvert újra kell indítani.";
  "Mindig szoftveres renderelést használjon";
  "Ahhoz, hogy a távoli asztalt a billentyűzettel vezérelhesse, a RustDesknek meg kell adnia a „Bemenet figyelése” jogosultságot.";
  "Ahhoz, hogy távolról beszélhessen, meg kell adnia a RustDesknek a „Hangfelvétel” jogosultságot.";
  "Akkor is kérhet megnövelt jogokat, ha valaki a partneroldalon van.";
  "Várjon";
  "Emelt szintű hozzáférési hiba";
  "Hitelesítés kérése a távoli felhasználótól";
  "Akkor válassza ezt, ha a távoli fiók rendszergazda";
  "Küldje el a rendszergazda felhasználónevét és jelszavát";
  "A távoli felhasználónak továbbra is az „Igen” gombra kell kattintania a RustDesk UAC ablakában. Kattintson!";
  "Emelt szintű jogok igénylése";
  "Várjon, amíg a távoli felhasználó elfogadja az UAC párbeszédet.";
  "Emelt szintű jogok megadva";
  "NAGYBETŰS";
  "kisbetűs";
  "szám";
  "különleges karakter";
  "hossz>=8";
  "Gyenge";
  "Közepes";
  "Erős";
  "Oldalváltás";
  "Erősítse meg, hogy meg akarja-e osztani az asztalát?";
  "Képernyő";
  "Alapértelmezett megjelenítés";
  "Alapértelmezett görgetés";
  "Alapértelmezett képminőség";
  "Alapértelmezett kodek";
  "Bitsebesség";
  "FPS";
  "Automatikus";
  "Egyéb alapértelmezett beállítások";
  "Hanghívás";
  "Szöveges csevegés";
  "Hanghívás leállítása";
  "Ha a közvetlen kapcsolat nem lehetséges, megpróbálhat kapcsolatot létesíteni egy továbbító-kiszolgálón keresztül.\nHa az első próbálkozáskor továbbító-kiszolgálón keresztüli kapcsolatot szeretne létrehozni, használhatja az „/r” utótagot. az azonosítóhoz vagy a „Mindig továbbító-kiszolgálón keresztül kapcsolódom” opcióhoz a legutóbbi munkamenetek listájában, ha van ilyen.";
  "Újrakapcsolódás";
  "Kodek";
  "Felbontás";
  "Nincs folyamatban átvitel";
  "Állítsa be az egyszeri jelszó hosszát";
  "RDP beállítások";
  "Rendezés";
  "Új kapcsolat";
  "Visszaállítás";
  "Minimalizálás";
  "Maximalizálás";
  "Az Ön eszköze";
  "Nincsenek aktuális munkamenetek!\nIdeje ütemezni egy újat.";
  "Még nincs kedvenc távoli állomása?\nHagyja, hogy találjunk valakit, akivel kapcsolatba tud lépni, és add hozzá a kedvenceidhez!";
  "Úgy tűnik, még nem adott hozzá egyetlen távoli helyszínt sem.";
  "Úgy tűnik, hogy jelenleg nincsenek távoli állomások a címjegyzékében.";
  "pl: adminisztrátor";
  "Üres felhasználónév";
  "Üres jelszó";
  "Ön";
  "Ez a fájl megegyezik a távoli állomás fájljával.";
  "Képernyők megjelenítése az eszköztáron";
  "Nézet mód";
  "Az X-asztal munkamenet megnyitásához be kell jelentkeznie egy távoli Linux-fiókba.";
  "RustDesk jelszó megerősítése";
  "Emlékezzen erre a fiókra";
  "Ezzel a fiókkal bejelentkezhet a távoli operációs rendszerbe, és aktiválhatja az asztali munkamenetet fej nélküli módban.";
  "OS fiók";
  "Egy másik felhasználó már bejelentkezett.";
  "Különálló";
  "Xorg nem található.";
  "Telepítse az Xorgot.";
  "Nem áll rendelkezésre asztali környezet.";
  "Telepítse a GNOME asztali környezetet.";
  "Nem szükséges megemelni";
  "Rendszer hangok";
  "Alapértelmezett";
  "Új RDP";
  "Ujjlenyomat";
  "Ujjlenyomat másolása";
  "nincsenek ujjlenyomatok";
  "Egy távoli állomás kiválasztása";
  "Távoli állomások kiválasztása";
  "Beépülő modulok";
  "Eltávolítás";
  "Frissítés";
  "Engedélyezés";
  "Letiltás";
  "Beállítások";
  "Eredeti felbontás";
  "Helyi felbontás beállítása";
  "Testre szabható felbontás";
  "Eszköztár összecsukása";
  "Elfogadás és magasabb szintű jogosultságra emelés";
  "Fogadja el a kapcsolatot, és növelje az UAC-engedélyeket.";
  "Időtúllépés, amíg a másolat válaszára vár.";
  "Bejövő kapcsolat";
  "Kimenő kapcsolat";
  "Kilépés";
  "Megnyitás";
  "Biztosan ki szeretne lépni?";
  "Szolgáltatás";
  "Indítás";
  "Leállítás";
  "Elérte a felügyelt eszközök maximális számát.";
  "Szinkronizálás a legutóbbi munkamenetekkel";
  "Címkék rendezése";
  "Kapcsolat megnyitása új lapon";
  "Lap áthelyezése új ablakba";
  "Nem lehet üres";
  "Már létezik";
  "Jelszó módosítása";
  "Jelszó frissítése";
  "ID";
  "Mozaik nézet";
  "Lista nézet";
  "Kiválasztás";
  "Címkekapcsoló";
  "A címjegyzék frissítése nem sikerült";
  "A címjegyzék szinkronizálása a kiszolgálóval nem sikerült";
  "A legutóbbi munkamenetekben jelen lévő eszközök ismét felkerülnek a címjegyzékbe.";
  "Szín módosítása";
  "Elsődleges szín";
  "HSV szín";
  "Sikeres telepítés!";
  "A telepítés nem sikerült!";
  "Fordított egérgörgő";
  "{} munkamenet";
  "Lehet, hogy átverték!";
  "Ha olyan valakivel beszél telefonon, akit NEM ISMER, akiben NEM BÍZIK MEG, és aki arra kéri, hogy használja a RustDesket és indítsa el a szolgáltatást, ne folytassa, és azonnal tegye le a telefont.";
  "Valószínűleg egy csaló próbálja ellopni a pénzét vagy más személyes adatait.";
  "Ne jelenítse meg újra";
  "Elfogadás";
  "Elutasítás";
  "Időtúllépés percekben";
  "A bejövő munkamenetek automatikus bezárása, ha a felhasználó inaktív";
  "A kapcsolat inaktivitás miatt megszakadt";
  "Szoftverfrissítés keresése indításkor";
  "Frissítse a RustDesk Server Prot a(z) {} vagy újabb verzióra!";
  "A csoport frissítése nem sikerült";
  "Szűrés metszéspontok szerint";
  "Távolítsa el a háttérképet a bejövő munkamenetek során";
  "Teszt";
  "A képernyő nincs csatlakoztatva, váltson az első képernyőre.";
  "Nincsenek kijelzők";
  "Megnyitás új ablakban";
  "Kijelzők megjelenítése egyedi ablakokként";
  "Az összes kijelzőm használata a távoli munkamenethez";
  "A SELinux engedélyezve van az eszközén, ami azt okozhatja, hogy a RustDesk nem fut megfelelően, mint ellenőrzött webhely.";
  "Nézet módosítása";
  "Nagy csempék";
  "Kis csempék";
  "Lista";
  "Virtuális kijelző";
  "Kapcsolja ki az összeset";
  "Valódi szín (4:4:4)";
  "Engedélyezze a felhasználói bevitel blokkolását";
  "Megadhat egy azonosítót, egy közvetlen IP-címet vagy egy tartományt egy porttal (<domain>:<port>).\nHa egy másik kiszolgálón lévő eszközhöz szeretne hozzáférni, adja meg a kiszolgáló címét (<id>@<kiszolgáló_cím>?key=<key_value>), például\n9123456234@192.168.16.1:21117?key=5Qbwsde3unUcJBtrx9ZkvUmwFNoExHzpryHuPUdqlWM=.\nHa egy nyilvános kiszolgálón lévő eszközhöz szeretne hozzáférni, adja meg a „<id>@public” lehetőséget. in. A kulcsra nincs szükség nyilvános kiszolgálók esetén.\n\nHa az első kapcsolathoz továbbító-kiszolgálón keresztüli kapcsolatot akar kényszeríteni, adja hozzá az „/r” az azonosítót a végén, például „9123456234/r”.";
  "1. mód";
  "2. mód";
  "Lépjen be az adatvédelmi módba";
  "Lépjen ki az adatvédelmi módból";
  "A közvetett grafikus illesztőprogram nem támogatott. Windows 10, 2004-es vagy újabb verzió szükséges.";
  "1. bemeneti forrás";
  "2. bemeneti forrás";
  "Vezérlő- és parancsgombok cseréje";
  "Bal és jobb egérgomb felcserélése";
  "2FA kód";
  "Továbbiak";
  "Kétfaktoros hitelesítés aktiválása";
  "Állítsa be a hitelesítőt. Használhat egy hitelesítő alkalmazást, például az Aegis, Authy, a Microsoft- vagy a Google Authenticator alkalmazást a telefonján vagy az asztali számítógépén.\n\nOlvassa be a QR-kódot az alkalmazással, és adja meg az alkalmazás által megjelenített kódot a kétfaktoros hitelesítés aktiválásához.";
  "A kód nem ellenőrizhető. Ellenőrizze, hogy a kód és a helyi idő beállításai helyesek-e.";
  "Kétfaktoros hitelesítés";
  "Az e-mailben kapott ellenőrző-kódnak 6 karakterből kell állnia.";
  "A 2FA-kódnak 6 számjegyűnek kell lennie.";
  "Több Windows munkamenet található";
  "Válassza ki a munkamenetet, amelyhez kapcsolódni szeretne";
  "Üzemeltető: RustDesk";
  "Ez a RustDesk testre szabott kimenete.\nMás eszközökhöz kapcsolódhat, de más eszközök nem kapcsolódhatnak az Ön eszközéhez.";
  "Ez egy testre szabott kimenet a RustDeskből egy előre beállított jelszóval. Bárki, aki ismeri ezt a jelszót, teljes irányítást szerezhet a készülék felett. Ha nem kívánja ezt megtenni, azonnal távolítsa el ezt a szoftvert.";
  "Biztonsági riasztás";
  "Saját címjegyzék";
  "Személyes";
  "Tulajdonos";
  "Megosztott jelszó beállítása";
  "Létezik";
  "Csak olvasható";
  "Olvasás/Írás";
  "Teljes ellenőrzés";
  "A fenti mezők megosztottak és mások számára is láthatóak.";
  "Mindenki";
  "További információk a webes konzolról";
  "Csak akkor engedélyezze a kapcsolódást, ha a RustDesk ablak nyitva van.";
  "Nincsenek fizikai képernyők; Nincs szükség az adatvédelmi üzemmód használatára.";
  "Kövesse a távoli kurzort";
  "Kövesse a távoli ablak fókuszt";
  "A szabványos protokoll és port SOCKS5 és 1080";
  "Nem található hangbemeneti eszköz.";
  "Bejövő";
  "Kimenő";
  "Wayland képernyő kiválasztásának törlése";
  "A képernyőválasztás törlése után újra kiválaszthatja a megosztandó képernyőt.";
  "Biztos, hogy törölni szeretné a Wayland képernyő kiválasztását?";
  "Új hanghívás-kérés érkezett. Ha elfogadja a megkeresést, a hang átvált hangkommunikációra.";
  "Használja a textúra renderelést a képek simábbá tételéhez. Ezt az opciót kikapcsolhatja, ha renderelési problémái vannak.";
  "Textúra renderelés használata";
  "Lebegő ablak";
  "Segít, ha a RustDesk a háttérben fut.";
  "Tartsa a képernyőt bekapcsolva";
  "Soha";
  "Amikor ellenőrzött";
  "Amikor a szolgáltatás fut";
  "Képernyő rögzítése DirectX használatával";
  "Vissza";
  "Alkalmazások";
  "Hangerő fel";
  "Hangerő le";
  "Teljesítmény";
  "Telegram bot";
  "Ha aktiválja ezt a funkciót, akkor a 2FA-kódot a botjától kaphatja meg. Kapcsolati értesítésként is használható.";
  "1. Nyisson csevegést @BotFather.\n2. Küldje el a „/newbot” parancsot. Miután ezt a lépést elvégezte, kap egy tokent.\n3. Indítson csevegést az újonnan létrehozott botjával. Küldjön egy olyan üzenetet, amely egy perjelrel kezdődik („/”), pl. B. „/hello” az aktiváláshoz.\n";
  "Biztosan le akarja mondani a 2FA-t?";
  "Biztosan le akarja mondani a Telegram botot?";
  "RustDesk névjegye";
  "Billentyűleütések küldése a vágólapra";
  "Ellenőrizze a hálózati kapcsolatot, majd próbálja meg újra.";
  "Feloldás PIN-kóddal";
  "Legalább {} karakter szükséges";
  "Hibás PIN";
  "PIN-kód beállítása";
  "Megbízható eszközök engedélyezése";
  "Megbízható eszközök kezelése";
  "Platform";
  "Hátralévő napok";
  "A 2FA-ellenőrzés kihagyása megbízható eszközökön";
  "Szülőkönyvtár";
  "Folytatás";
  "Érvénytelen fájlnév";
  "Az egyirányú fájlátvitel engedélyezve van a vezérelt oldalon.";
  "Hitelesítés szükséges";
  "Hitelesítés";
  "Azonos kiszolgálón lévő azonosítót adhat meg, a közvetlen IP elérés nem támogatott a webkliensben.\nHa egy másik kiszolgálón lévő eszközhöz szeretne hozzáférni, adja meg a kiszolgáló címét (<id>@<kiszolgáló_cím>?key=<key_value>), például\n9123456234@192.168.16.1:21117?key=5Qbwsde3unUcJBtrx9ZkvUmwFNoExHzpryHuPUdqlWM=.\nHa egy nyilvános kiszolgálón lévő eszközhöz szeretne hozzáférni, adja meg a „<id>@public” betűt. in. A kulcsra nincs szükség a nyilvános kiszolgálók esetében.";
  "Letöltés";
  "Mappa feltöltése";
  "Fájlok feltöltése";
  "A vágólap szinkronizálva van";
  "A kliens vágólapjának frissítése";
  "Címkézetlen";
  "A(z) {} új verziója";
  ""].
(** [LANGS.id] *)
Definition lang_id : jsmap string string := texts [
  "Status";
  "Layar Utama";
  "Layar kamu dapat diakses dengan ID dan kata sandi ini.";
  "Kata sandi";
  "Sudah siap";
  "Didirikan";
  "Menghubungkan ke jaringan RustDesk...";
  "Aktifkan Layanan";
  "Mulai Layanan";
  "Layanan berjalan";
  "Layanan tidak berjalan";
  "Belum siap digunakan. Silakan periksa koneksi";
  "Kontrol PC dari jarak jauh";
  "Transfer File";
  "Sambungkan";
  "Sesi Terkini";
  "Buku Alamat";
  "Konfirmasi";
  "Tunneling TCP";
  "Hapus";
  "Perbarui kata sandi acak";
  "Tetapkan kata sandi";
  "Aktifkan Keyboard/Mouse";
  "Aktifkan Papan Klip";
  "Aktifkan Transfer file";
  "Aktifkan TCP tunneling";
  "Daftar IP yang diizinkan";
  "ID/Relay Server";
  "Impor Konfigurasi Server";
  "Ekspor Konfigurasi Server";
  "Impor konfigurasi server berhasil";
  "Ekspor konfigurasi server berhasil";
  "Konfigurasi server tidak valid";
  "Papan klip kosong";
  "Hentikan Layanan";
  "Ubah ID";
  "ID baru";
  "panjang %min% s/d %max%";
  "Dimulai dengan huruf";
  "Karakter yang dapat digunakan";
  "Hanya karakter a-z, A-Z, 0-9, - (dash) dan _ (underscore) yang diperbolehkan. Huruf pertama harus a-z, A-Z. Panjang antara 6 dan 16.";
  "Situs Web";
  "Tentang";
  "Dibuat dengan penuh kasih sayang dalam dunia yang penuh kekacauan ini";
  "Pernyataan Privasi";
  "Bisukan";
  "Tanggal Build";
  "Versi";
  "";
  "Input Audio";
  "Peningkatan";
  "Kodek Perangkat Keras";
  "Kecepatan Bitrate Adaptif";
  "Server ID";
  "Server Relay";
  "Server API";
  "harus dimulai dengan http:// atau https://";
  "IP tidak valid";
  "Format tidak valid";
  "Belum didukung oleh server";
  "Tidak tersedia";
  "Terlalu sering";
  "Batal";
  "Lanjutkan";
  "Tutup";
  "Coba lagi";
  "Oke";
  "Kata sandi tidak boleh kosong";
  "Silahkan masukkan kata sandi";
  "Ingat kata sandi";
  "Kata sandi Salah";
  "Apakah kamu ingin mencoba lagi?";
  "Kesalahan koneksi";
  "Kesalahan";
  "Direset oleh rekan";
  "Menghubungkan...";
  "Koneksi sedang berlangsung. Mohon tunggu.";
  "Silahkan coba 1 menit lagi";
  "Kesalahan Login";
  "Berhasil";
  "Terhubung, menunggu gambar...";
  "Nama";
  "Tipe";
  "Diperbarui";
  "Ukuran";
  "Tampilkan File Tersembunyi";
  "Menerima";
  "Kirim";
  "Segarkan File";
  "Lokal";
  "Remote";
  "Remote Komputer";
  "Lokal Komputer";
  "Konfirmasi Hapus";
  "Hapus";
  "Properti";
  "Pilih Beberapa";
  "Pilih Semua";
  "Batalkan Pilihan Semua";
  "Folder Kosong";
  "Folder tidak kosong";
  "Apakah kamu yakin untuk menghapus file ini?";
  "Apakah yakin yakin untuk menghapus folder ini?";
  "Apakah yakin yakin untuk menghapus file dan folder ini?";
  "Lakukan untuk semua konflik";
  "Ini tidak dapat diubah!";
  "Menghapus";
  "file";
  "Menunggu";
  "Selesai";
  "Kecepatan";
  "Sesuaikan Kualitas Gambar";
  "Mode Privasi";
  "Blokir input pengguna";
  "Jangan blokir input pengguna";
  "Sesuaikan Jendela";
  "Asli";
  "Susutkan";
  "Regangkan";
  "Scrollbar";
  "Scroll Otomatis";
  "Kualitas Gambar Baik";
  "Seimbang";
  "Optimalkan waktu reaksi";
  "Kustom";
  "Tampilkan kursor remote";
  "Tampilkan kualitas monitor";
  "Matikan papan klip";
  "Kunci setelah sesi berakhir";
  "Menyisipkan Ctrl + Alt + Del";
  "Masukkan Kunci";
  "Segarkan";
  "ID tidak ada";
  "Gagal menghubungkan ke rendezvous server";
  "Silahkan coba lagi nanti";
  "Remote desktop offline";
  "Ketidakcocokan kunci";
  "Waktu habis";
  "Gagal terkoneksi ke relay server";
  "Gagal terkoneksi via rendezvous server";
  "Gagal terkoneksi via relay server";
  "Gagal membuat koneksi langsung ke desktop jarak jauh";
  "Tetapkan kata sandi";
  "Kata Sandi OS";
  "Karena UAC, RustDesk tidak dapat bekerja dengan baik sebagai sisi remote dalam beberapa kasus. Untuk menghindari UAC, silakan klik tombol di bawah ini untuk menginstal RustDesk ke sistem.";
  "Klik untuk upgrade";
  "Klik untuk unduh";
  "Klik untuk memperbarui";
  "Konfigurasi";
  with_quotes ["Agar bisa mengontrol Desktopmu dari jarak jauh, Kamu harus memberikan izin "; "Aksesibilitas"; " untuk RustDesk."];
  with_quotes ["Agar bisa mengakses Desktopmu dari jarak jauh, kamu harus memberikan izin "; "Perekaman Layar"; " untuk RustDesk."];
  "Menginstall";
  "Instal";
  "Instalasi";
  "Direktori Instalasi";
  "Buat pintasan start menu";
  "Buat icon desktop";
  "Dengan memulai proses instalasi, Kamu menerima perjanjian lisensi.";
  "Terima dan Install";
  "Perjanjian lisensi pengguna";
  "Memproses...";
  "Kamu menggunakan versi instalasi yang lebih rendah.";
  "Pastikan jendela ini tetap terbuka saat menggunakan tunnel.";
  "Menghubungkan...";
  "Host Remote";
  "Port Remote";
  "Aksi";
  "Tambah";
  "Port Lokal";
  "Alamat lokal";
  "Ubah Port Lokal";
  "Untuk koneksi yang lebih baik, silakan konfigurasi di server pribadi";
  "Terlalu pendek, setidaknya 6 karekter.";
  "Konfirmasi tidak identik.";
  "Perizinan";
  "Terima";
  "Hentikan";
  "Terputus";
  "Izinkan copy dan paste";
  "Terhubung";
  "Koneksi langsung dan terenkripsi";
  "Koneksi relay dan terenkripsi";
  "Koneksi langsung dan tanpa enkripsi";
  "Koneksi relay dan tanpa enkripsi";
  "Masukkan ID Remote";
  "Masukkan kata sandi";
  "Masuk...";
  "Aktifkan berbagi sesi RDP";
  with_quotes ["Login Otomatis (Hanya berlaku jika sudah mengatur "; "Kunci setelah sesi berakhir"; ")"];
  "Aktifkan Akses IP Langsung";
  "Ubah nama";
  "Spasi";
  "Buat Pintasan Desktop";
  "Ubah Direktori";
  "Buat Folder";
  "Silahkan masukkan nama folder";
  "Perbaiki";
  "Peringatan";
  "Login screen dengan Wayland tidak didukung";
  "Diperlukan boot ulang";
  "Server tampilan tidak didukung ";
  "Diperlukan x11";
  "Port";
  "Pengaturan";
  "Nama pengguna";
  "Kesalahan port";
  "Ditutup secara manual oleh rekan";
  "Aktifkan modifikasi konfigurasi remotE";
  "Jalankan tanpa menginstal";
  "Sambungkan via relay";
  "Selalu terhubung melalui relay";
  "Hanya IP yang diizikan dapat mengakses";
  "Masuk";
  "Verifikasi";
  "Ingatkan saya";
  "Izinkan perangkat ini";
  "Kode verifikasi";
  "Kode verifikasi sudah dikirim ke email yang terdaftar, masukkan kode verifikasi untuk melanjutkan.";
  "Keluar";
  "Tag";
  "Cari ID";
  "Dipisahkan dengan koma, titik koma, spasi, atau baris baru";
  "Tambah ID";
  "Tambah Tag";
  "Batalkan pilihan semua tag";
  "Kesalahan Jaringan";
  "Nama pengguna tidak sesuai";
  "Kata sandi tidak sesuai";
  "Nama pengguna atau kata sandi salah";
  "Kode verifikasi salah atau sudah kadaluarsa";
  "Ubah Tag";
  "Lupakan Kata Sandi";
  "Favorit";
  "Tambah ke Favorit";
  "Hapus dari favorit";
  "Kosong";
  "Nama folder tidak valid";
  "Proksi Socks5";
  "Proksi Socks5/Http(s)";
  "Telah ditemukan";
  "Untuk dapat berjalan saat sistem menyala, kamu perlu menginstal layanan sistem (system service/daemon).";
  "ID Remote";
  "Tempel";
  "Tempel disini?";
  "Apakah kamu yakin akan menutup koneksi?";
  "Unduh versi baru";
  "Mode Layar Sentuh";
  "Mode Mouse";
  "Ketuk Satu Jari";
  "Mouse Kiri";
  "Ketuk Tahan";
  "Ketuk Dua Jari";
  "Mouse Kanan";
  "Gerakan Satu Jari";
  "Ketuk Dua Kali & Pindah";
  "Geser Mouse";
  "Tiga Jari secara vertikal";
  "Roda mouse";
  "Gerakan Dua Jari";
  "Gerakan Kanvas";
  "Cubit untuk Memperbesar";
  "Perbesar Canvas";
  "Setel Ulang Canvas";
  "Tidak ada izin untuk mengirim file";
  "Catatan";
  "Koneksi";
  "Bagikan Layar";
  "Obrolan";
  "Total";
  "item";
  "Dipilih";
  "Tangkapan Layar";
  "Kontrol input";
  "Rekam Suara";
  "Koneksi File";
  "Koneksi layar";
  "Apakah anda setuju?";
  "Buka Pengaturan Sistem";
  "Bagaimana cara mendapatkan izin input dari Android?";
  with_quotes ["Agar perangkat jarak jauh dapat mengontrol perangkat Android Anda melalui mouse atau sentuhan, Anda harus mengizinkan RustDesk untuk menggunakan layanan "; "Aksesibilitas"; "."];
  "Silakan buka halaman pengaturan sistem berikutnya, temukan dan masuk ke [Layanan Terinstal], aktifkan layanan [Input RustDesk].";
  "Permintaan akses remote telah diterima";
  with_quotes ["Mengaktifkan "; "Tangkapan Layar"; " akan memulai secara otomatis, memungkinkan perangkat lain untuk meminta koneksi ke perangkat Anda."];
  "Menutup layanan secara otomatis akan menutup semua koneksi yang dibuat.";
  "Versi Android saat ini tidak mendukung pengambilan audio, harap tingkatkan ke Android 10 atau lebih tinggi.";
  "Tap [Mulai Layanan] atau aktifkan izin [Tangkapan Layar] untuk memulai berbagi layar.";
  "Izin untuk koneksi yang sudah terhubung mungkin tidak dapat diubah secara instan hingga terhubung kembali";
  "Akun";
  "Ganti";
  "File ini sudah ada, lewati atau ganti file ini?";
  "Keluar";
  "Bantuan";
  "Gagal";
  "Berhasil";
  "Seseorang mengaktifkan mode privasi, keluar";
  "Tidak didukung";
  "Rekan menolak";
  "Silakan instal plugin";
  "Rekan keluar";
  "Gagal mematikan";
  "Dimatikan";
  "Bahasa";
  "Pertahankan RustDesk berjalan pada service background";
  "Abaikan Pengoptimalan Baterai";
  "Jika anda ingin menonaktifkan fitur ini, buka halam pengaturan, cari dan pilih [Baterai], Uncheck [Tidak dibatasi]";
  "Mulai saat dihidupkan";
  "Mulai layanan berbagi layar saat sistem dinyalakan, memerlukan izin khusus.";
  "Koneksi tidak dizinkan";
  "Mode lawas";
  "Mode peta";
  "Mode terjemahan";
  "Gunakan kata sandi permanaen";
  "Gunakan kedua kata sandi";
  "Setel kata sandi permanen";
  "Aktifkan Restart Secara Remote";
  "Restart Perangkat Secara Remote";
  "Apakah Anda yakin ingin merestart";
  "Merestart Perangkat Remote";
  "Perangkat remote sedang merestart, harap tutup pesan ini dan sambungkan kembali dengan kata sandi permanen setelah beberapa saat.";
  "Disalin";
  "Keluar dari Layar Penuh";
  "Layar penuh";
  "Tindakan Seluler";
  "Pilih Monitor";
  "Tindakan Kontrol";
  "Pengaturan tampilan";
  "Rasio";
  "Kualitas gambar";
  "Gaya Scroll";
  "Tampilkan Toolbar";
  "Sembunyikan Toolbar";
  "Koneksi langsung";
  "Koneksi Relay";
  "Koneksi aman";
  "Koneksi Tidak Aman";
  "Skala asli";
  "Skala adaptif";
  "Umum";
  "Keamanan";
  "Tema";
  "Tema Gelap";
  "Tema Terang";
  "Gelap";
  "Terang";
  "Ikuti Sistem";
  "Aktifkan kodek perangkat keras";
  "Buka Keamanan Pengaturan";
  "Aktifkan Audio";
  "Buka Keamanan Pengaturan Jaringan";
  "Server";
  "Akses IP Langsung";
  "Proksi";
  "Terapkan";
  "Putuskan sambungan semua perangkat?";
  "Bersihkan";
  "Input Perangkat Audio";
  "Gunakan daftar IP yang diizinkan";
  "Jaringan";
  "Sematkan Toolbar";
  "Batal sematkan Toolbar";
  "Perekaman";
  "Direktori";
  "Otomatis merekam sesi masuk";
  "";
  "Ubah";
  "Mulai sesi perekaman";
  "Hentikan sesi perekaman";
  "Aktifkan Sesi Perekaman";
  "Aktifkan Pencarian Jaringan Lokal (LAN)";
  "Tolak Pencarian Jaringan Lokal (LAN)";
  "Tulis pesan";
  "";
  "Harap tunggu konfirmasi UAC";
  "Jendela yang sedang aktif di remote desktop memerlukan hak istimewa yang lebih tinggi untuk beroperasi, sehingga mouse dan keyboard tidak dapat digunakan sementara waktu. Kamu bisa meminta pengguna jarak jauh untuk meminimalkan jendela saat ini, atau klik tombol elevasi di jendela manajemen koneksi. Untuk menghindari masalah ini, disarankan untuk menginstal software di perangkat remote secara permanen.";
  "Terputus";
  "Lainnya";
  "Konfirmasi sebelum menutup banyak tab";
  "Pengaturan Papan Ketik";
  "Akses penuh";
  "Berbagi Layar";
  "Wayland membutuhkan Ubuntu 21.04 atau versi yang lebih tinggi.";
  "Wayland membutuhkan versi distro linux yang lebih tinggi. Silakan coba desktop X11 atau ubah OS Anda.";
  "Tautan Cepat";
  "Silakan Pilih layar yang akan dibagikan kepada rekan anda.";
  "Tampilkan RustDesk";
  "PC ini";
  "atau";
  "Lanjutkan dengan";
  "Elevasi";
  "Perbersar Kursor";
  "Izinkan sesi dengan kata sandi";
  "Izinkan sesi dengan klik";
  "Izinkan sesi dengan keduanya";
  "Harap tunggu pihak pengguna remote untuk menerima permintaan sesi...";
  "Kata sandi sementara";
  "Gunakan kata sandi sementara";
  "Panjang kata sandi sementara";
  "Permintaan akses ke perangkat ini";
  "Sembunyikan jendela pengaturan koneksi";
  "Izinkan untuk menyembunyikan hanya jika menerima sesi melalui kata sandi dan menggunakan kata sandi permanen";
  "Dukungan Wayland masih dalam tahap percobaan, harap gunakan X11 jika Anda memerlukan akses tanpa pengawasan";
  "Klik kanan untuk memilih tab";
  "Dilewati";
  "Tambahkan ke Buku Alamat";
  "Grup";
  "Pencarian";
  "Ditutup secara manual dari konsol web.";
  "Tipe papan ketik";
  "Pilih tipe papan ketik";
  "Jika anda menggunakan kartu grafis Nvidia pada sistem linux dan jendela windows ditutup secara instan setelah terhung, silahkan ubah ke driver open-source Nouveau, dibutukan untuk merestart aplikasi";
  "Selalu gunakan software rendering";
  with_quotes ["Untuk menggunakan input keyboard remote, anda perlu memberikan izin "; "Pemantauan Input"; " pada RustDesk"];
  with_quotes ["Untuk berbicara secara remote, anda perlu memberikan izin "; "Rekam Audio"; " pada RustDesk"];
  "Anda juga bisa meminta izin elevasi jika ada pihak pengguna remote";
  "Tunggu";
  "Kesalahan Elevasi";
  "Minta pihak pengguna remote untuk otentikasi";
  with_quotes ["Pilih ini jika akun adalah "; "administrator"; ""];
  "Transmisikan nama pengguna dan kata sandi administrator";
  "Masih memerlukan persetujuan pihak pengguna remote untuk mengklik OK pada jendela UAC RustDesk yang sedang berjalan";
  "Permintaan Elevasi";
  "Harap tunggu pihak pengguna remote menerima jendela UAC.";
  "Elevasi berhasil";
  "Huruf besar";
  "Huruf kecil";
  "angka";
  "Karakter spesial";
  "panjang>=8";
  "Lemah";
  "Sedang";
  "Kuat";
  "Ganti Posisi";
  "Harap konfirmasi apakah Anda ingin berbagi layar?";
  "Tampilan";
  "Gaya Tampilan Default";
  "Gaya Scroll Default";
  "Kualitas Gambar Default";
  "Kodek default";
  "Bitrate";
  "FPS";
  "Otomatis";
  "Opsi Default Lainnya";
  "Panggilan suara";
  "Obrolan Teks";
  "Hentikan panggilan suara";
  with_quotes ["Tidak memungkinkan untuk terhubung secara langsung; anda bisa mencoba terhubung via relay. Selain itu, jika ingin menggunakan relay pada percobaan pertama, silahkan tambah akhiran "; "/r"; " pada ID atau pilih "; "Selalu terhubung via relay"; " di pilihan sesi terbaru."];
  "Sambungkan ulang";
  "Kodek";
  "Resolusi";
  "Tidak ada proses transfer data";
  "Atur panjang kata sandi sekali pakai";
  "Pengaturan RDP";
  "Urutkan berdasarkan";
  "Koneksi baru";
  "Mengembalikan";
  "Meminimalkan";
  "Memaksimalkan";
  "Perangkat anda";
  "Tidak ada sesi terbaru!";
  "Belum ada rekan favorit?\nTemukan seseorang untuk terhubung dan tambahkan ke favorit!";
  "Sepertinya kami belum memiliki rekan";
  "Tampaknya saat ini tidak ada rekan yang terdaftar dalam buku alamat Anda";
  "contoh: admin";
  "Nama pengguna kosong";
  "Kata sandi kosong";
  "Saya";
  "Data ini identik dengan milik rekan";
  "Tampilkan monitor di toolbar";
  "Mode Tampilan";
  "Anda harus masuk ke akun remote linux untuk mengaktifkan sesi X desktop";
  "Verifikasi Kata Sandi RustDesk";
  "Ingat akun ini";
  "Akun ini digunakan untuk masuk ke sistem operasi remote dan mengaktifkan sesi desktop dalam mode tanpa tampilan (headless)";
  "Akun OS";
  "Akun ini sedang digunakan";
  "Putuskan koneksi diperangkat lain";
  "Xorg tidak ditemukan";
  "Silahkan install Xorg";
  "Desktop tidak tersedia";
  "Silahkan install GNOME Desktop";
  "Tidak perlu elevasi";
  "Suara Sistem";
  "Default";
  "RDP Baru";
  "";
  "";
  "";
  "Pilih rekan";
  "Pilih rekan-rekan";
  "Plugin";
  "Hapus instalasi";
  "Perbarui";
  "Aktifkan";
  "Nonaktifkan";
  "Opsi";
  "Resolusi original";
  "Sesuaikan resolusi lokal";
  "Resolusi kustom";
  "";
  "Terima dan Elevasi";
  "Terima koneksi dan elevasi izin UAC";
  "Batas waktu habis saat menunggu respons salinan";
  "Koneksi akan masuk";
  "Koneksi akan keluar";
  "Keluar";
  "Buka";
  "Apakah Anda yakin ingin keluar?";
  "Service";
  "Jalankan";
  "Hentikan";
  "Anda telah mencapai jumlah maksimal perangkat yang dikelola";
  "Sinkronkan dengan sesi terbaru";
  "Urutkan tag";
  "Buka koneksi di tab baru";
  "Pindahkan tab ke jendela baru";
  "Tidak boleh kosong";
  "Sudah ada";
  "Ganti kata sandi";
  "Perbarui Kata Sandi";
  "ID";
  "Tampilan Kotak";
  "Tampilan Daftar";
  "Pilih";
  "Toggle Tag";
  "Gagal memuat ulang buku alamat";
  "Gagal menyinkronkan buku alamat ke server";
  "Perangkat yang terdaftar dalam sesi terbaru akan di-sinkronkan kembali ke buku alamat.";
  "Ganti warna";
  "Warna utama";
  "Warna HSV";
  "Instalasi berhasil!";
  "Instalasi gagal!";
  "Balikkan arah scroll mouse";
  "sesi {}";
  "Kemungkinan anda Sedang DITIPU!";
  "Jika anda sedang berbicara di telepon dengan seseorang yang TIDAK dikenal dan mereka meminta anda untuk menggunakan RustDesk, jangan lanjutkan dan segera tutup panggilan.";
  "Kemungkinan besar mereka adalah komplotan penipu yang berusaha mencuri uang atau informasi pribadi anda.";
  "Jangan tampilkan lagi";
  "Saya setuju";
  "Tolak";
  "Batasan Waktu dalam Menit";
  "Secara otomatis akan menutup sesi ketika tidak ada aktivitas";
  "Secara otomatis akan terputus ketik tidak ada aktivitas.";
  "Periksa pembaruan aplikasi saat sistem dinyalakan.";
  "Silahkan perbarui RustDesk Server Pro ke versi {} atau yang lebih baru!";
  "Gagal memperbarui grup";
  "Filter berdasarkan persilangan";
  "Hilangkan latar dinding ketika ada sesi yang masuk";
  "Tes";
  "Layar terputus, pindah ke layar pertama";
  "Tidak ada tampilan";
  "Buka di jendela baru";
  "Tampilkan dengan jendela terpisah";
  "Gunakan semua layar untuk sesi remote";
  "pada perangkat anda, SELinux sedang aktif, yang mana itu dapat mencegah RustDesk berfungsi dengan baik sebagai sisi yang dikontrol.";
  "Sesuaikan tampilan";
  "Kotak besar";
  "Kotak kecil";
  "Daftar";
  "Tampilan virtual";
  "Lepaskan semua";
  "";
  "Aktifkan pemblokiran input pengguna";
  with_quotes ["Anda bisa memasukkan ID, IP langsung, atau domain dengan port kostum yang sudah ditentukan (<domain>:<port>).\nJika anda ingin mengakses perangkat lain yang berbeda server, tambahkan alamat server setelah penulisan ID(<id>@<server_address>?key=<key_value>), sebagai contoh,\n9123456234@192.168.16.1:21117?key=5Qbwsde3unUcJBtrx9ZkvUmwFNoExHzpryHuPUdqlWM=.\nJika anda ingin mengakses perangkat yang menggunakan server publik, masukkan "; "<id>@public"; ", server public tidak memerlukan key khusus"];
  "Mode 1";
  "Mode 2";
  "Masuk mode privasi";
  "Keluar mode privasi";
  "Driver grafis yang Anda gunakan tidak kompatibel dengan versi Windows Anda dan memerlukan Windows 10 versi 2004 atau yang lebih baru";
  "Sumber input 1";
  "Sumber input 2";
  "Menukar tombol control-command";
  "Tukar fungsi tombol kiri dan kanan pada mouse";
  "Kode 2FA";
  "Lainnya";
  "Aktifkan autentikasi 2FA";
  "Silakan atur autentikator Anda sekarang. Anda dapat menggunakan aplikasi autentikator seperti Authy, Microsoft Authenticator, atau Google Authenticator di ponsel atau desktop Anda\n\nPindai kode QR dengan aplikasi Anda dan masukkan kode yang ditampilkan oleh aplikasi untuk mengaktifkan autentikasi 2FA.";
  "Tidak dapat memverifikasi kode. Pastikan bahwa kode dan pengaturan waktu lokal sudah sesuai";
  "Autentikasi dua faktor";
  "Kode verifikasi email harus terdiri dari 6 karakter.";
  "Kode 2FA harus terdiri dari 6 digit.";
  "Terdapat beberapa sesi Windows";
  "Silakan pilih sesi yang ingin Anda sambungkan.";
  "Didukung oleh RustDesk";
  "Ini adalah edisi yang sudah kustomisasi.\nAnda dapat terhubung ke perangkat lain, tetapi perangkat lain tidak dapat terhubung ke perangkat Anda.";
  "Edisi yang dikustomisasi ini dilengkapi dengan kata sandi bawaan. Siapa pun yang mengetahui kata sandi ini dapat memperoleh kontrol penuh atas perangkat Anda. Jika Anda tidak mengharapkan ini, segera hapus pemasangan aplikasi tersebut.";
  "Peringatan Keamanan";
  "Daftar Kontak";
  "Personal";
  "Pemilik";
  "Atus kata sandi kolaboratif";
  "Ada di";
  "";
  "";
  "";
  "Informasi di atas bersifat publik dan dapat dilihat oleh orang lain.";
  "";
  "Detail Lain di Konsol Web";
  "Koneksi hanya diperbolehkan jika jendela RustDesk sedang terbuka.";
  "Karena tidak ada layar fisik, mode privasi tidak perlu diaktifkan.";
  "Ikuti kursor yang terhubung";
  "Ikuti jendela remote yang sedang aktif";
  "Pengaturan standar untuk protokol dan port adalah Socks5 dan 1080.";
  "Perangkat input audio tidak terdeteksi.";
  "";
  "";
  "Kosongkan pilihan layar Wayland";
  "Setelah mengosongkan pilihan layar, Kamu bisa memilih kembali layar untuk dibagi";
  "Kamu yakin ingin membersihkan pemilihan layar Wayland?";
  "Kamu mendapatkan permintaan panggilan suara baru. Jika diterima, audio akan berubah menjadi komunikasi suara.";
  "Aktifkan rendering tekstur untuk membuat tampilan gambar lebih mulus. Kamu dapat menonaktifkan opsi ini jika terjadi masalah saat merender.";
  "Aktifkan rendering tekstur";
  "";
  "Untuk menjaga layanan/service RustDesk agar tetap aktif";
  "Biarkan layar tetap menyala";
  "Tidak pernah";
  "Dalam proses pengendalian";
  "";
  "Rekam layar dengan DirectX";
  "Kembali";
  "App";
  "Naikkan volume";
  "Turunkan volume";
  "";
  "";
  "Jika fitur ini diaktifkan, Kamu dapat menerima kode 2FA dari bot, serta mendapatkan notifikasi tentang koneksi.";
  with_quotes ["1. Buka chat dengan @BotFather.\n2. Kirim perintah "; "/newbot"; ". Setelah menyelesaikan langkah ini, Kamu akan mendapatkan token\n3. Mulai percakapan dengan bot yang baru dibuat. Kirim pesan yang dimulai dengan garis miring ("; "/"; ") seperti "; "/hello"; " untuk mengaktifkannya."];
  "Apakah Kamu yakin ingin membatalkan 2FA?";
  "Apakah Kamu yakin ingin membatalkan bot Telegram?";
  "Tentang RustDesk";
  "Kirim keystrokes clipboard";
  with_quotes ["Periksa koneksi internet, lalu klik "; "Coba lagi"; "."];
  "Buka menggunakan PIN";
  "Memerlukan setidaknya {} karakter.";
  "PIN salah";
  "Atur PIN";
  "Izinkan perangkat tepercaya";
  "Kelola perangkat tepercaya";
  "Platform";
  "Sisa hari";
  "Tidak memerlukan verifikasi 2FA pada perangkat tepercaya.";
  "Direktori utama";
  "Lanjutkan";
  "Nama file tidak valid";
  "Transfer file satu arah (One-way) telah diaktifkan pada sisi yang dikendalikan.";
  "Diperlukan autentikasi";
  "Autentikasi";
  with_quotes ["Kamu bisa memasukkan ID pada server yang sama, akses IP langsung tidak didukung di klien web.\nJika Anda ingin mengakses perangkat di server lain, silakan tambahkan alamat server (<id>@<server_address>?key=<key_value>), contohnya:\n9123456234@192.168.16.1:21117?key=5Qbwsde3unUcJBtrx9ZkvUmwFNoExHzpryHuPUdqlWM=.\nUntuk mengakses perangkat di server publik, cukup masukkan "; "<id>@public"; ", tanpa kunci/key."];
  "";
  "";
  "";
  "";
  "";
  "";
  "";
  ""].
(** [LANGS.it] *)
Definition lang_it : jsmap string string := texts [
  "Stato";
  "Questo desktop";
  "Puoi accedere a questo desktop usando l'ID e la password indicati qui sotto.";
  "Password";
  "Pronto";
  "Stabilita";
  "Connessione alla rete RustDesk...";
  "Abilita servizio";
  "Avvia servizio";
  "Il servizio è in esecuzione";
  "Il servizio non è in esecuzione";
  "Non pronto. Verifica la connessione";
  "Controlla desktop remoto";
  "Trasferisci file";
  "Connetti";
  "Sessioni recenti";
  "Rubrica";
  "Conferma";
  "Tunnel TCP";
  "Rimuovi";
  "Nuova password casuale";
  "Imposta la password";
  "Abilita tastiera/mouse";
  "Abilita appunti";
  "Abilita trasferimento file";
  "Abilita tunnel TCP";
  "IP autorizzati";
  "Server ID/Relay";
  "Importa configurazione server dagli appunti";
  "Esporta configurazione server negli appunti";
  "Configurazione server importata con successo";
  "Configurazione Server esportata con successo";
  "Configurazione server non valida";
  "Gli appunti sono vuoti";
  "Arresta servizio";
  "Cambia ID";
  "Il nuovo ID";
  "lunghezza da %min% a %max%";
  "inizia con una lettera";
  "caratteri consentiti";
  "Puoi usare solo i caratteri a-z, A-Z, 0-9, - (dash) e _ (sottolineato).\nIl primo carattere deve essere a-z o A-Z.\nLa lunghezza deve essere fra 6 e 16 caratteri.";
  "Sito web programma";
  "Info programma";
  "Realizzato con il cuore in questo mondo caotico!";
  "Informativa sulla privacy";
  "Audio disabilitato";
  "Data build";
  "Versione";
  "Home";
  "Ingresso audio";
  "Miglioramenti";
  "Codec hardware";
  "Bitrate adattivo";
  "ID server";
  "Server relay";
  "Server API";
  "deve iniziare con http:// o https://";
  "Indirizzo IP non valido";
  "Formato non valido";
  "Non ancora supportato dal server";
  "Non disponibile";
  "Troppo frequente";
  "Annulla";
  "Ignora";
  "Chiudi";
  "Riprova";
  "OK";
  "Richiesta password";
  "Inserisci la password";
  "Ricorda password";
  "Password errata";
  "Vuoi riprovare?";
  "Errore connessione";
  "Errore";
  "Reimpostata dal dispositivo remoto";
  "Connessione...";
  "Connessione...";
  "Riprova fra 1 minuto";
  "Errore accesso";
  "Completato";
  "Connesso, in attesa dell'immagine...";
  "Nome";
  "Tipo";
  "Modificato";
  "Dimensione";
  "Visualizza file nascosti";
  "Ricevi";
  "Invia";
  "Aggiorna file";
  "Locale";
  "Remoto";
  "Computer remoto";
  "Computer locale";
  "Conferma eliminazione";
  "Elimina";
  "Proprietà";
  "Selezione multipla";
  "Seleziona tutto";
  "Deseleziona tutto";
  "Cartella vuota";
  "Non è una cartella vuota";
  "Sei sicuro di voler eliminare questo file?";
  "Sei sicuro di voler eliminare questa cartella vuota?";
  "Sei sicuro di voler eliminare il file di questa cartella?";
  "Ricorda questa scelta per tutti i conflitti";
  "Questo è irreversibile!";
  "Eliminazione di";
  "file";
  "In attesa";
  "Completato";
  "Velocità";
  "Qualità immagine personalizzata";
  "Modalità privacy";
  "Blocca input utente";
  "Sblocca input utente";
  "Adatta finestra";
  "Originale";
  "Restringi";
  "Allarga";
  "Barra scorrimento";
  "Scorri automaticamente";
  "Qualità immagine buona";
  "Bilanciata qualità/velocità";
  "Ottimizza tempo reazione";
  "Profilo personalizzato";
  "Visualizza cursore remoto";
  "Visualizza qualità video";
  "Disabilita appunti";
  "Blocca al termine della sessione";
  "Inserisci Ctrl + Alt + Del";
  "Blocco inserimento";
  "Aggiorna";
  "L'ID non esiste";
  "Errore connessione al server rendezvous";
  "Riprova più tardi";
  "Il desktop remoto è offline";
  "La chiave non corrisponde";
  "Timeout";
  "Errore connessione al server relay";
  "Errore connessione tramite il server rendezvous";
  "Errore connessione tramite il server relay";
  "Impossibile connettersi direttamente al desktop remoto";
  "Imposta password";
  "Password sistema operativo";
  "A causa del Controllo Account Utente (UAC), RustDesk potrebbe non funzionare correttamente come desktop remoto.\nPer evitare questo problema, fai clic sul tasto qui sotto per installare RustDesk a livello di sistema.";
  "Aggiorna";
  "Download";
  "Aggiorna";
  "Configura";
  "Per controllare il desktop dall'esterno, devi fornire a RustDesk il permesso 'Accessibilità'.";
  "Per controllare il desktop dall'esterno, devi fornire a RustDesk il permesso 'Registrazione schermo'.";
  "Installazione ...";
  "Installa";
  "Installazione";
  "Percorso installazione";
  "Crea i collegamenti nel menu Start";
  "Crea un'icona sul desktop";
  "Avviando l'installazione, accetti i termini del contratto di licenza.";
  "Accetta e installa";
  "Contratto di licenza utente finale";
  "Generazione ...";
  "Questa installazione non è aggiornata.";
  "Non chiudere questa finestra mentre stai usando il tunnel";
  "In ascolto ...";
  "Host remoto";
  "Porta remota";
  "Azione";
  "Aggiungi";
  "Porta locale";
  "Indirizzo locale";
  "Cambia porta locale";
  "Per una connessione più veloce, configura uno specifico server";
  "Troppo corta, almeno 6 caratteri";
  "La password di conferma non corrisponde";
  "Permessi";
  "Accetta";
  "Rifiuta";
  "Disconnetti";
  "Consenti copia e incolla di file";
  "Connesso";
  "Connessione diretta e cifrata";
  "Connessione tramite relay e cifrata";
  "Connessione diretta e non cifrata";
  "Connessione tramite relay e non cifrata";
  "Inserisci ID remoto";
  "Inserisci la password";
  "Autenticazione...";
  "Abilita condivisione sessione RDP";
  "Accesso automatico";
  "Abilita accesso diretto tramite IP";
  "Rinomina";
  "Spazio";
  "Crea collegamento sul desktop";
  "Modifica percorso";
  "Crea cartella";
  "Inserisci il nome della cartella";
  "Risolvi";
  "Avviso";
  "La schermata di accesso non è supportata usando Wayland";
  "Riavvio necessario";
  "Display server non supportato";
  "necessario xll";
  "Porta";
  "Impostazioni";
  "Nome utente";
  "Numero porta non valido";
  "Chiuso manualmente dal dispositivo remoto";
  "Abilita modifica remota configurazione";
  "Esegui senza installare";
  "Collegati tramite relay";
  "Collegati sempre tramite relay";
  "Possono connettersi a questo desktop solo gli indirizzi IP autorizzati";
  "Accedi";
  "Verifica";
  "Ricordami";
  "Registra questo dispositivo come attendibile";
  "Codice di verifica";
  "È stato inviato un codice di verifica all'indirizzo email registrato, per accedere inserisci il codice di verifica.";
  "Esci";
  "Etichette";
  "Cerca ID";
  "Separati da virgola, punto e virgola, spazio o a capo";
  "Aggiungi ID";
  "Aggiungi etichetta";
  "Deseleziona tutte le etichette";
  "Errore di rete";
  "Nome utente mancante";
  "Password mancante";
  "Credenziali errate";
  "Il codice di verifica non è corretto o è scaduto";
  "Modifica etichetta";
  "Dimentica password";
  "Preferiti";
  "Aggiungi ai preferiti";
  "Rimuovi dai preferiti";
  "Vuoto";
  "Nome della cartella non valido";
  "Proxy Socks5";
  "Proxy Socks5/Http(s)";
  "Rilevate";
  "Per avviare il programma all'accensione, è necessario installarlo come servizio di sistema.";
  "ID remoto";
  "Incolla";
  "Incollare qui?";
  "Sei sicuro di voler chiudere la connessione?";
  "Scarica nuova versione";
  "Modalità tocco";
  "Modalità mouse";
  "Tocca con un dito";
  "Mouse sinistro";
  "Tocco lungo con un dito";
  "Tocca con due dita";
  "Mouse destro";
  "Movimento con un dito";
  "Tocca due volte e sposta";
  "Trascina il mouse";
  "Tre dita in verticale";
  "Rotellina del mouse";
  "Movimento con due dita";
  "Sposta tela";
  "Pizzica per zoomare";
  "Zoom tela";
  "Ripristina tela";
  "Nessun permesso per il trasferimento file";
  "Nota";
  "Connessione";
  "Condividi schermo";
  "Chat";
  "Totale";
  "Oggetti";
  "Selezionato";
  "Cattura schermo";
  "Controllo input";
  "Acquisizione audio";
  "Connessione file";
  "Connessione schermo";
  "Accetti?";
  "Apri impostazioni di sistema";
  "Come ottenere l'autorizzazione input in Android?";
  "Affinché un dispositivo remoto possa controllare un dispositivo Android tramite mouse o tocco, devi consentire a RustDesk di usare il servizio 'Accessibilità'.";
  "Vai nella pagina delle impostazioni di sistema che si aprirà di seguito, trova e accedi a [Servizi installati], attiva il servizio [RustDesk Input].";
  "È stata ricevuta una nuova richiesta di controllo per il dispositivo attuale.";
  "L'attivazione di Cattura schermo avvierà automaticamente il servizio, consentendo ad altri dispositivi di richiedere una connessione da questo dispositivo.";
  "La chiusura del servizio chiuderà automaticamente tutte le connessioni stabilite.";
  "L'attuale versione di Android non supporta l'acquisizione audio, esegui l'aggiornamento ad Android 10 o versioni successive.";
  "Per avviare il servizio di condivisione dello schermo seleziona [Avvia servizio] o abilita l'autorizzazione [Cattura schermo].";
  "Le autorizzazioni per le connessioni stabilite non possono essere modificate istantaneamente fino alla riconnessione.";
  "Account";
  "Sovrascrivi";
  "Questo file esiste, vuoi ignorarlo o sovrascrivere questo file?";
  "Esci";
  "Aiuto";
  "Fallito";
  "Completato";
  "Qualcuno ha attivato la modalità privacy, uscita";
  "Non supportato";
  "Accesso negato al dispositivo remoto";
  "Installa i plugin";
  "Uscita dal dispostivo remoto";
  "Impossibile spegnere";
  "Spegni";
  "Lingua";
  "Mantieni il servizio di RustDesk in background";
  "Ignora le ottimizzazioni della batteria";
  "Se vuoi disabilitare questa funzione, vai nelle impostazioni dell'applicazione RustDesk, apri la sezione 'Batteria' e deseleziona 'Senza restrizioni'.";
  "Avvia all'accensione";
  "L'avvio del servizio di condivisione dello schermo all'accensione richiede autorizzazioni speciali";
  "Connessione non consentita";
  "Modalità legacy";
  "Modalità mappa";
  "Modalità traduzione";
  "Usa password permanente";
  "Usa password monouso e permanente";
  "Imposta password permanente";
  "Abilita riavvio da remoto";
  "Riavvia dispositivo remoto";
  "Sei sicuro di voler riavviare?";
  "Il dispositivo remoto si sta riavviando";
  "Riavvia il dispositivo remoto";
  "Copiato";
  "Esci dalla modalità schermo intero";
  "A schermo intero";
  "Azioni mobili";
  "Seleziona schermo";
  "Azioni controllo";
  "Impostazioni visualizzazione";
  "Rapporto";
  "Qualità immagine";
  "Stile scorrimento";
  "Visualizza barra strumenti";
  "Nascondi barra strumenti";
  "Connessione diretta";
  "Connessione relay";
  "Connessione sicura";
  "Connessione non sicura";
  "Scala originale";
  "Scala adattiva";
  "Generale";
  "Sicurezza";
  "Tema";
  "Tema scuro";
  "Tema chiaro";
  "Scuro";
  "Chiaro";
  "Sistema";
  "Abilita codec hardware";
  "Sblocca impostazioni sicurezza";
  "Abilita audio";
  "Sblocca impostazioni di rete";
  "Server";
  "Accesso IP diretto";
  "Proxy";
  "Applica";
  "Vuoi disconnettere tutti i dispositivi?";
  "Azzera";
  "Dispositivo ingresso audio";
  "Usa elenco IP autorizzati";
  "Rete";
  "Blocca barra strumenti";
  "Sblocca barra strumenti";
  "Registrazione";
  "Cartella";
  "Registra automaticamente sessioni in entrata";
  "Registra automaticamente sessioni in uscita";
  "Modifica";
  "Inizia registrazione sessione";
  "Ferma registrazione sessione";
  "Abilita registrazione sessione";
  "Abilita rilevamento LAN";
  "Non effettuare rilevamento LAN";
  "Scrivi un messaggio";
  "Richiedi";
  "Attendi la conferma dell'UAC...";
  "La finestra attuale del desktop remoto richiede per funzionare privilegi più elevati, quindi non è possibile usare temporaneamente il mouse e la tastiera.\nÈ possibile chiedere all'utente remoto di ridurre a icona la finestra attuale o di selezionare il pulsante di elevazione nella finestra di gestione della connessione.\nPer evitare questo problema, ti consigliamo di installare il software nel dispositivo remoto.";
  "Disconnesso";
  "Altro";
  "Conferma prima di chiudere più schede";
  "Impostazioni tastiera";
  "Accesso completo";
  "Condivisione schermo";
  "Wayland richiede Ubuntu 21.04 o versione successiva.";
  "Wayland richiede una versione superiore della distribuzione Linux.\nProva X11 desktop o cambia il sistema operativo.";
  "Vai a";
  "Seleziona lo schermo da condividere (opera sul lato dispositivo remoto).";
  "Visualizza RustDesk";
  "Questo PC";
  "O";
  "Continua con";
  "Eleva";
  "Cursore zoom";
  "Accetta sessioni via password";
  "Accetta sessioni via clic";
  "Accetta sessioni con entrambe le password";
  "Attendi che il dispositivo remoto accetti la richiesta di sessione...";
  "Password monouso";
  "Usa password monouso";
  "Lunghezza password monouso";
  "Richiedi accesso al dispositivo";
  "Nascondi la finestra di gestione delle connessioni";
  "Permetti di nascondere solo se si accettano sessioni con password permanente";
  "Il supporto Wayland è in fase sperimentale, se vuoi un accesso stabile usa X11.";
  "Clic con il tasto destro per selezionare le schede";
  "Saltato";
  "Aggiungi alla rubrica";
  "Gruppo";
  "Cerca";
  "Chiudi manualmente dalla console web";
  "Tipo tastiera locale";
  "Seleziona il tipo di tastiera locale";
  "Se nel computer con Linux è presente una scheda grafica Nvidia e la finestra remota si chiude immediatamente dopo la connessione, installa il nuovo driver open source e usa il rendering software.\nPotrebbe essere necessario un riavvio del programma.";
  "Usa sempre rendering software";
  "Per controllare il desktop remoto con la tastiera, è necessario concedere le autorizzazioni a RustDesk 'Monitoraggio input'.";
  "Per poter chiamare, è necessario concedere l'autorizzazione 'Registra audio' a RustDesk.";
  "Se c'è qualcuno nel lato remoto è possibile richiedere l'elevazione.";
  "Attendi";
  "Errore durante elevazione dei diritti";
  "Chiedi autenticazione all'utente remoto";
  "Scegli questa opzione se l'account remoto è amministratore";
  "Trasmetti il nome utente e la password dell'amministratore";
  "Richiedi ancora che l'utente remoto selezioni 'OK' nella finestra UAC dell'esecuzione di RustDesk.";
  "Richiedi elevazione dei diritti";
  "Attendi che l'utente remoto accetti la finestra di dialogo UAC.";
  "Elevazione dei diritti effettuata correttamente";
  "Maiuscola";
  "Minuscola";
  "Numero";
  "Carattere speciale";
  "Lunghezza >= 8";
  "Debole";
  "Media";
  "Forte";
  "Cambia lato";
  "Vuoi condividere il desktop?";
  "Visualizzazione";
  "Stile visualizzazione predefinito";
  "Stile scorrimento predefinito";
  "Qualità immagine predefinita";
  "Codec predefinito";
  "Bitrate";
  "FPS";
  "Automatico";
  "Altre opzioni predefinite";
  "Chiamata vocale";
  "Chat testuale";
  "Interrompi chiamata vocale";
  "Se non è possibile connettersi direttamente, puoi provare a farlo tramite relay.\nInoltre, se si vuoi usare il relay al primo tentativo, è possibile aggiungere all'ID il suffisso '/r\' o selezionare nella scheda se esiste l'opzione 'Collegati sempre tramite relay'.";
  "Riconnetti";
  "Codec";
  "Risoluzione";
  "Nessun trasferimento in corso";
  "Imposta lunghezza password monouso";
  "Impostazioni RDP";
  "Ordina per";
  "Nuova connessione";
  "Ripristina";
  "Minimizza";
  "Massimizza";
  "Questo dispositivo";
  "Non c'è nessuna sessione recente!\nPianificane una.";
  "Ancora nessuna connessione?\nTrova qualcuno con cui connetterti e aggiungilo ai preferiti!";
  "Sembra proprio che non sia stata rilevata nessuna connessione.";
  "Sembra che per ora nella rubrica non ci siano connessioni.";
  "es: admin";
  "Nome utente vuoto";
  "Password vuota";
  "Io";
  "Questo file è identico a quello nel dispositivo remoto.";
  "Visualizza schermi nella barra strumenti";
  "Modalità visualizzazione";
  "Accedi all'account Linux remoto";
  "Conferma password RustDesk";
  "Ricorda questo account";
  "Questo account viene usato per accedere al sistema operativo remoto e attivare la sessione desktop in modalità non presidiata.";
  "Account sistema operativo";
  "È già loggato un altro utente.";
  "Separato";
  "Xorg non trovato.";
  "Installa Xorg.";
  "Non è presente alcun ambiente desktop disponibile.";
  "Installa il desktop GNOME.";
  "Elevazione dei privilegi non richiesta";
  "Dispositivo audio sistema";
  "Predefinita";
  "Nuovo RDP";
  "Firma digitale";
  "Copia firma digitale";
  "Nessuna firma digitale";
  "Seleziona dispositivo remoto";
  "Seleziona dispositivi remoti";
  "Plugin";
  "Disinstalla";
  "Aggiorna";
  "Abilita";
  "Disabilita";
  "Opzioni";
  "Risoluzione originale";
  "Adatta risoluzione locale";
  "Risoluzione personalizzata";
  "Comprimi barra strumenti";
  "Accetta ed eleva";
  "Accetta la connessione ed eleva le autorizzazioni UAC.";
  "Timeout attesa risposta della copia.";
  "Connessioni in entrata";
  "Connessioni in uscita";
  "Esci da RustDesk";
  "Apri RustDesk";
  "Sei sicuro di voler uscire?";
  "Servizio";
  "Avvia";
  "Ferma";
  "Hai raggiunto il numero massimo di dispositivi gestibili.";
  "Sincronizza con le sessioni recenti";
  "Ordina etichette";
  "Apri connessione in una nuova scheda";
  "Sposta scheda nella finestra successiva";
  "Non può essere vuoto";
  "Esiste già";
  "Modifica password";
  "Aggiorna password";
  "ID";
  "Vista griglia";
  "Vista elenco";
  "Seleziona";
  "Attiva/disattiva tag";
  "Impossibile aggiornare la rubrica";
  "Impossibile sincronizzare la rubrica con il server";
  "I dispositivi presenti nelle sessioni recenti saranno sincronizzati di nuovo nella rubrica.";
  "Modifica colore";
  "Colore primario";
  "Colore HSV";
  "Installazione completata";
  "Installazione fallita";
  "Funzione rotellina mouse inversa";
  "{} sessioni";
  "Potresti essere stato TRUFFATO!";
  "Se sei al telefono con qualcuno che NON conosci NON DI TUA FIDUCIA che ti ha chiesto di usare RustDesk e di avviare il servizio, non procedere e riattacca subito.";
  "Probabilmente è un truffatore che cerca di rubare i tuoi soldi o altre informazioni private.";
  "Non visualizzare più";
  "Accetto";
  "Non accetto";
  "Timeout in minuti";
  "Chiudi automaticamente sessioni in entrata per inattività utente";
  "Connessione non riuscita a causa di inattività";
  "All'avvio verifica presenza aggiornamenti programma";
  "Aggiorna RustDesk Server Pro alla versione {} o successiva!";
  "Impossibile aggiornare il gruppo";
  "Filtra per incrocio";
  "Rimuovi sfondo durante sessioni in entrata";
  "Test";
  "Lo schermo è scollegato, passo al primo schermo.";
  "Nessuno schermo";
  "Apri in una nuova finestra";
  "Visualizza schermi come finestre individuali";
  "Nella sessione remota usa tutti gli schermi";
  "In questo dispositivo è abilitato SELinux, che potrebbe impedire il corretto funzionamento di RustDesk come lato controllato.";
  "Modifica vista";
  "Icone grandi";
  "Icone piccole";
  "Elenco";
  "Schermo virtuale";
  "Scollega tutto";
  "Colore reale (4:4:4)";
  "Abilita blocco input utente";
  with_quotes ["Puoi inserire un ID, un IP diretto o un dominio con una porta (<dominio>:<porta>).\nSe vuoi accedere as un dispositivo in un altro server, aggiungi l'indirizzo del server (<id>@<indirizzo_server >?key=<valore_chiave>), ad esempio\n9123456234@192.168.16.1:21117?key=5Qbwsde3unUcJBtrx9ZkvUmwFNoExHzpryHuPUdqlWM=.\nSe vuoi accedere as un dispositivo in un server pubblico, inserisci "; "<id>@public"; ", per il server pubblico la chiave non è necessaria\n\nSe vuoi forzare l'uso di una connessione di inoltro alla prima connessione, aggiungi "; "/r"; " alla fine dell'ID, ad esempio "; "9123456234/r"; "."];
  "Modo 1";
  "Modo 2";
  "Entra in modalità privacy";
  "Esci dalla modalità privacy";
  "Il driver video indiretto non è supportato. È richiesto Windows 10, versione 2004 o successiva.";
  "Sorgente ingresso (1)";
  "Sorgente ingresso (2)";
  "Scambia tasto controllo-comando";
  "Scambia pulsante sinistro-destro mouse";
  "Codice 2FA";
  "Altro";
  "Abilita autenticazione a due fattori";
  "Configura l'autenticatore.\nPuoi usare un'app di autenticazione come Authy, Microsoft o Google Authenticator sul telefono o desktop.\n\nPer abilitare l'autenticazione a due fattori scansiona il codice QR con l'app e inserisci il codice visualizzato dall'app.";
  "Impossibile verificare il codice.\nVerifica che le impostazioni del codice e dell'ora locale siano corrette";
  "Autenticazione a due fattori";
  "Il codice di verifica email deve contenere 6 caratteri.";
  "Il codice 2FA deve essere composto da 6 cifre.";
  "Rilevate sessioni Windows multiple";
  "Seleziona la sessione a cui connetterti";
  "Alimentato da RustDesk";
  "Questa è un'edizione personalizzata.\nPuoi connetterti ad altri dispositivi, ma gli altri dispositivi non possono connettersi a questo dispositivo.";
  "Questa è un'edizione personalizzata e viene fornita con una password preimpostata.\nChiunque conosca questa password potrebbe ottenere il pieno controllo del dispositivo.\nSe non te lo aspettavi, disinstalla immediatamente il software.";
  "Avviso sicurezza";
  "Rubrica";
  "Personale";
  "Proprietario";
  "Imposta password condivisa";
  "Esiste in";
  "Sola lettura";
  "Lettura/scrittura";
  "Controllo completo";
  "I campi sopra indicati sono condivisi e visibili ad altri.";
  "Everyone";
  "Altre info sulla console web";
  "Consenti connessione solo se la finestra RustDesk è aperta";
  "Nessun display fisico, nessuna necessità di usare la modalità privacy.";
  "Segui cursore remoto";
  "Segui focus finestra remota";
  "Protocollo e porta predefiniti sono Socks5 e 1080";
  "Nessun dispositivo input audio trovato.";
  "In entrata";
  "In uscita";
  "Annulla selezione schermata Wayland";
  "Dopo aver annullato la selezione schermo, è possibile selezionare nuovamente lo schermo da condividere.";
  "Sei sicuro di voler annullare la selezione schermo Wayland?";
  "È stata ricevuta una nuova richiesta di chiamata vocale. Se accetti, l'audio passerà alla comunicazione vocale.";
  "Usa il rendering texture per rendere le immagini più fluide. Se riscontri problemi di rendering prova a disabilitare questa opzione.";
  "Usa rendering texture";
  "Finestra galleggiante";
  "It helps to keep RustDesk background service";
  "Mantieni schermo acceso";
  "Mai";
  "Durante il controllo";
  "Quando il servizio è attivo";
  "Cattura schermo usando DirectX";
  "Indietro";
  "App";
  "Volume +";
  "Volume -";
  "Alimentazione";
  "Bot Telegram";
  "Se abiliti questa funzione, puoi ricevere il codice 2FA dal tuo bot.\nPuò anche funzionare come notifica di connessione.";
  with_quotes ["1. apri una chat con @BotFather.\n2. Invia il comando "; "/newbot"; ", dopo aver completato questo passaggio riceverai un token.\n3. Avvia una chat con il tuo bot appena creato. Per attivarlo Invia un messaggio che inizia con una barra ("; "/"; ") tipo "; "/hello"; ".\n"];
  "Sei sicuro di voler annullare 2FA?";
  "Sei sicuro di voler annullare Telegram?";
  "Info su RustDesk";
  "Invia sequenze tasti appunti";
  "Controlla la connessione di rete, quindi seleziona 'Riprova'.";
  "Abilita sblocco con PIN";
  "Richiede almeno {} caratteri";
  "PIN errato";
  "Imposta PIN";
  "Abilita dispositivi attendibili";
  "Gestisci dispositivi attendibili";
  "Piattaforma";
  "Giorni rimanenti";
  "Salta verifica 2FA nei dispositivi attendibili";
  "Cartella principale";
  "Riprendi";
  "Nome file non valido";
  "Sul lato controllato  è abilitato il trasferimento file unidirezionale.";
  "Richiesta autenticazione";
  "Autentica";
  with_quotes ["È possibile inserire un ID nello stesso server, nel client web non è supportato l'accesso con IP diretto.\nSe vuoi accedere ad un dispositivo in un altro server, aggiungi l'indirizzo del server (<id>@<indirizzo_server>?key=<valore_chiave >), ad esempio,\n9123456234@192.168.16.1:21117?key=5Qbwsde3unUcJBtrx9ZkvUmwFNoExHzpryHuPUdqlWM=.\nSe vuoi accedere ad un dispositivo in un server pubblico, inserisci "; "<id>@public"; ", la chiave non è necessaria per il server pubblico."];
  "Download";
  "Cartella upload";
  "File upload";
  "Gli appunti sono sincronizzati";
  "Aggiorna appunti client";
  "Senza tag";
  "È disponibile una nuova versione di {}";
  ""].
(** [LANGS.ja] *)
Definition lang_ja : jsmap string string := texts [
  "状態";
  "あなたのコンピューター";
  "下記のIDとパスワードであなたのコンピューターにアクセスできます。";
  "パスワード";
  "準備完了";
  "接続完了";
  "RuskDeskネットワークに接続中...";
  "サービスを有効化";
  "サービスを開始";
  "サービスが実行されています";
  "サービスは停止しています";
  "接続できません。ネットワーク接続を確認してください";
  "リモートコンピューターを操作";
  "ファイル転送";
  "接続";
  "最近のセッション";
  "アドレス帳";
  "確認";
  "TCPトンネリング";
  "削除";
  "ランダムパスワードを再生成";
  "パスワードを設定";
  "キーボード/マウスを有効化";
  "クリップボードを有効化";
  "ファイル転送を有効化";
  "TCPトンネリングを有効化";
  "IPホワイトリスト";
  "認証/中継サーバー";
  "サーバー設定をインポート";
  "サーバー設定をエクスポート";
  "サーバー設定のインポートに成功しました";
  "サーバー設定のエクスポートに成功しました";
  "無効なサーバー設定です";
  "クリップボードは空です";
  "サービスを停止";
  "IDを変更";
  "新しいID";
  "長さが%min%～%max%文字";
  "始まりがアルファベット";
  "使用可能な文字のみ";
  "使用できるのは大文字・小文字のアルファベット、数字、アンダースコア（_）のみです。先頭の文字はアルファベット、長さは6文字から16文字である必要があります。";
  "公式サイト";
  "RustDeskについて";
  "この混沌とした世界から、愛をこめて！";
  "プライバシーポリシー";
  "ミュート";
  "ビルド日時";
  "バージョン";
  "ホーム";
  "音声入力";
  "拡張機能";
  "ハードウェアコーデック";
  "可変ビットレート";
  "認証サーバー";
  "中継サーバー";
  "APIサーバー";
  "http://またはhttps://から始まる必要があります。";
  "無効なIP";
  "無効なフォーマット";
  "このサーバーには現在対応していません。";
  "利用不可";
  "接続の頻度が高すぎます！";
  "キャンセル";
  "スキップ";
  "閉じる";
  "再試行";
  "OK";
  "パスワードが必要です";
  "パスワードを入力してください";
  "パスワードを記憶する";
  "パスワードが間違っています";
  "もう一度入力しますか？";
  "接続エラー";
  "エラー";
  "リモートホストによって接続がリセットされました";
  "接続中...";
  "接続中です。しばらくお待ちください。";
  "1分後にもう一度お試しください";
  "ログインエラー";
  "成功";
  "接続完了、映像を待機しています...";
  "名前";
  "種類";
  "最終更新日";
  "サイズ";
  "隠しファイルを表示";
  "受信";
  "送信";
  "ファイルを更新";
  "ローカル";
  "リモート";
  "リモートコンピューター";
  "ローカルコンピューター";
  "削除の確認";
  "削除";
  "プロパティ";
  "複数選択";
  "すべて選択";
  "選択をすべて解除";
  "空のディレクトリ";
  "空ではないディレクトリ";
  "本当にファイルを削除しますか？";
  "本当に空のディレクトリを削除しますか？";
  "本当にディレクトリ内のファイルを削除しますか？";
  "すべてに適用する";
  "この操作は元に戻せません！";
  "削除中";
  "ファイル";
  "待機中";
  "完了";
  "速度";
  "画質をカスタムする";
  "プライバシーモード";
  "ユーザーの入力をブロック";
  "ユーザーの入力を許可";
  "ウィンドウを調整";
  "オリジナル";
  "縮小";
  "伸縮";
  "スクロールバー";
  "自動スクロール";
  "画質優先";
  "バランス";
  "速度優先";
  "カスタム";
  "リモートコンピューターのカーソルを表示";
  "品質モニターを表示";
  "クリップボードを無効化";
  "セッション終了後にロックする";
  "Ctrl + Alt + Del 送信";
  "ロック命令を送信";
  "更新";
  "IDが存在しません";
  "ランデブーサーバーに接続できませんでした";
  "後でもう一度お試しください";
  "リモートコンピューターがオフラインです";
  "キーが一致しません";
  "タイムアウト";
  "中継サーバーに接続できませんでした";
  "ランデブーサーバー経由で接続できませんでした";
  "中継サーバー経由で接続できませんでした";
  "リモートコンピューターと直接接続できませんでした";
  "パスワードを設定";
  "OSのパスワード";
  "UACの影響により、RustDeskがリモートコンピューター上で正常に動作しない場合があります。UACを回避するには、下のボタンをクリックしてシステムにRustDeskをインストールしてください。";
  "アップグレード";
  "ダウンロード";
  "アップデート";
  "設定";
  "リモートからあなたのコンピューターを操作するには、RustDeskに「アクセシビリティ」権限を与える必要があります。";
  "リモートからあなたのコンピューターにアクセスするには、RustDeskに「画面録画」の権限を与える必要があります。";
  "インストール中...";
  "インストール";
  "インストール";
  "インストール先のパス";
  "スタートメニューにショートカットを作成する";
  "デスクトップにアイコンを作成する";
  "インストールを開始することで、ライセンス条項に同意したとみなされます。";
  "同意してインストール";
  "エンドユーザー ライセンス条項";
  "生成中...";
  "インストールされているバージョンが古くなっています。";
  "トンネルの使用中はこのウィンドウを閉じないでください";
  "リッスン中 ...";
  "リモートホスト";
  "リモートポート";
  "操作";
  "追加";
  "ローカルのポート";
  "ローカルポート";
  "ローカルポートを変更";
  "より高速に接続したい場合は、自分のサーバーをセットアップすることをおすすめします";
  "文字数が短すぎます。最低文字数は6文字です。";
  "確認欄と入力が一致しません。";
  "権限";
  "承諾";
  "無視";
  "切断";
  "ファイルのコピーと貼り付けを許可";
  "接続済み";
  "直接接続 接続は暗号化されています";
  "中継接続 接続は暗号化されています";
  "直接接続 接続が暗号化されていません";
  "中継接続 接続が暗号化されていません";
  "リモートIDを入力";
  "パスワードを入力";
  "ログイン中...";
  "RDPセッション共有を有効化";
  "自動ログイン";
  "直接IPアクセスを有効化";
  "名前の変更";
  "スペース";
  "デスクトップにショートカットを作成する";
  "パスを変更";
  "フォルダを作成";
  "フォルダ名を入力してください";
  "修復する";
  "警告";
  "Waylandを使用したログインスクリーンはサポートされていません";
  "再起動が必要です";
  "サポートされていないディスプレイサーバー";
  "X11 が必要です";
  "ポート";
  "設定";
  "ユーザー名";
  "無効なポート";
  "リモートホストによって切断されました";
  "リモート設定の変更を有効化";
  "インストールせずに実行";
  "中継サーバー経由で接続";
  "常に中継サーバー経由で接続";
  "ホワイトリストに登録されたIPからのみ接続を許可します";
  "ログイン";
  "認証";
  "入力内容を記憶する";
  "このデバイスを信頼する";
  "認証コード";
  "登録されたメールアドレスに認証コードが送信されました。認証コードを入力して、ログインを続行してください。";
  "ログアウト";
  "タグ";
  "IDを検索";
  "カンマやセミコロン、空白、改行で区切ってください";
  "IDを追加";
  "タグを追加";
  "全てのタグを選択解除";
  "ネットワークエラー";
  "ユーザー名がありません";
  "パスワードがありません";
  "資格情報が間違っています";
  "認証コードが間違っているか、有効期限が切れています";
  "タグを編集";
  "パスワードを忘れる";
  "お気に入り";
  "お気に入りに追加";
  "お気に入りから削除";
  "空";
  "無効なフォルダ名";
  "SOCKS5プロキシ";
  "Socks5/Http(s)プロキシ";
  "発見済み";
  "起動時にRustDeskを開始するには、システムサービスをインストールする必要があります。";
  "リモートID";
  "貼り付け";
  "ここに貼り付けますか？";
  "本当に切断しますか？";
  "新しいバージョンをダウンロード";
  "タッチモード";
  "マウスモード";
  "1本指でタップ";
  "マウス左クリック";
  "1本指でロングタップ";
  "2本指でタップ";
  "マウス右クリック";
  "1本指でドラッグ";
  "2本指でタップ&ドラッグ";
  "マウスドラッグ";
  "3本指で縦方向";
  "マウスホイール";
  "2本指でドラッグ";
  "キャンバスの移動";
  "ピンチしてズーム";
  "キャンバスのズーム";
  "キャンバスのリセット";
  "ファイル転送の権限がありません";
  "ノート";
  "接続";
  "画面を共有";
  "チャット";
  "計";
  "個のアイテム";
  "選択済み";
  "画面キャプチャ";
  "入力操作";
  "音声キャプチャ";
  "ファイルの接続";
  "画面の接続";
  "許可しますか？";
  "システム設定を開く";
  "Androidの入力権限を取得するには？";
  "このAndroid端末をリモートコンピューターからマウスやタッチで操作するには、RustDeskに「アクセシビリティ」サービスの使用を許可する必要があります。";
  "次の端末設定ページに進み、「インストール済みアプリ」から「RustDesk Input」を有効にしてください。";
  "新しい操作リクエストが届きました。この端末を操作しようとしています。";
  "「画面キャプチャ」を有効にするとサービスが自動的に開始され、他の端末がこの端末への接続をリクエストできるようになります。";
  "サービスを停止すると、自動的に現在のセッションがすべて閉じられます。";
  "現在のAndroidバージョンでは音声キャプチャはサポートされていません。Android 10以降に更新してください。";
  "「サービスを開始」をタップするか、「画面キャプチャ」の許可を有効にすると、画面共有サービスが開始されます。";
  "権限の変更は現在のセッションには適用されません。再接続後に適用されます。";
  "アカウント";
  "上書き";
  "このファイルは既に存在しています。スキップするか上書きしますか？";
  "終了";
  "ヘルプ";
  "失敗";
  "成功";
  "プライバシーモードがオンになりました。終了します。";
  "サポートされていません";
  "リモートホストに拒否されました";
  "プラグインをインストールしてください";
  "リモートホストが退出しました";
  "オフにできませんでした";
  "オフになりました";
  "言語";
  "RustDesk バックグラウンドサービスを維持";
  "バッテリーの最適化を無効にする";
  "この機能を使わない場合は、RestDeskアプリの設定ページから「バッテリー」に進み、「制限なし」のチェックを外してください";
  "起動時に自動実行する";
  "起動時に画面共有サービスを開始します。これには特別な権限が必要です。";
  "接続が許可されていません";
  "レガシーモード";
  "マップモード";
  "変換モード";
  "固定パスワードを使用";
  "どちらのパスワードも使用";
  "固定パスワードを設定";
  "リモートからの再起動を有効化";
  "リモートの端末を再起動";
  "本当に再起動しますか";
  "リモートコンピューターを再起動中";
  "リモートコンピューターは再起動中です。このメッセージボックスを閉じて、しばらくした後にパスワードを使用して再接続してください。";
  "コピーしました";
  "全画面表示を終了";
  "全画面表示";
  "モバイル アクション";
  "モニターを選択";
  "コントロール アクション";
  "ディスプレイの設定";
  "比率";
  "画質";
  "スクロール スタイル";
  "ツールバーを表示";
  "ツールバーを隠す";
  "直接接続";
  "中継接続";
  "安全な接続";
  "安全でない接続";
  "オリジナルサイズ";
  "フィットウィンドウ";
  "一般";
  "セキュリティ";
  "テーマ";
  "ダークテーマ";
  "ライトテーマ";
  "ダーク";
  "ライト";
  "システム設定に従う";
  "ハードウェアコーデックを有効化";
  "セキュリティ設定のロックを解除";
  "オーディオを有効化";
  "ネットワーク設定のロックを解除";
  "サーバー";
  "直接IP接続";
  "プロキシ";
  "適用";
  "すべてのデバイスから切断しますか？";
  "クリア";
  "音声入力デバイス";
  "IPホワイトリストを使用する";
  "ネットワーク";
  "ツールバーをピン止め";
  "ツールバーのピン止めを解除";
  "録画";
  "ディレクトリ";
  "受信したセッションを自動で記録する";
  "";
  "変更";
  "セッションの録画を開始";
  "セッションの録画を停止";
  "セッションの録画を有効化";
  "LAN探索を有効化";
  "LAN探索を拒否";
  "メッセージを書き込む";
  "必須";
  "UACの承認を待機しています...";
  "リモートデスクトップでフォーカスされているウィンドウの操作にはより高い権限が必要なため、マウスとキーボードが一時的に使用できなくなっています。リモートユーザーにウィンドウを最小化、または接続管理画面から権限を昇格するよう要求してください。この問題を回避するには、リモートコンピューターにRustDeskをインストールしてください。";
  "切断しました";
  "その他";
  "複数のタブを閉じる前に確認する";
  "キーボード設定";
  "フルアクセス";
  "画面共有";
  "Waylandを使用するには、Ubuntu 21.04 以降のバージョンが必要です。";
  "Waylandを使用するには、より新しいLinuxディストリビューションが必要です。 X11デスクトップを試すか、OSを変更してください。";
  "View";
  "共有する画面を選択してください(リモートコンピューターが操作します)";
  "RustDeskを表示";
  "このPC";
  "または";
  "で続行";
  "昇格";
  "拡大カーソル";
  "パスワードによるセッションの許可";
  "クリックによるセッションの承認";
  "両方の方法でセッションを許可する";
  "リモートコンピューターがあなたのセッション要求を受け入れるまでお待ちください...";
  "ワンタイムパスワード";
  "ワンタイムパスワードを使用する";
  "ワンタイムパスワードの長さ";
  "デバイスへのアクセス要求";
  "接続管理画面を隠す";
  "パスワードによるセッションを許可し、固定パスワードを使用する場合にのみ、管理画面の非表示を許可する。";
  "Waylandのサポートは試験的なものです。無人アクセスを使用する場合はX11デスクトップをご利用ください。";
  "右クリックでタフを選択";
  "スキップ";
  "アドレス帳に追加";
  "グループ";
  "検索";
  "Webコンソールによって閉じられました";
  "キーボードのタイプ";
  "キーボードのタイプを選択";
  "LinuxでNvidia製のグラフィックカードを使用していると、接続後すぐにリモートウィンドウが閉じてしまう場合があります。オープンソースのNouveauドライバに切り替え、ソフトウェアレンダリングを使用するよう設定すると解決するかもしれません。(RustDeskの再起動が必要です)";
  "常にソフトウェアレンダリングを使用する";
  "リモートコンピューターをキーボードで操作するには、RustDeskに「入力監視」権限を与える必要があります。";
  "リモートコンピューターと通話するには、RustDeskに「音声録音」権限を与える必要があります。";
  "リモートユーザーがいる場合は、権限の昇格をリクエストできます。";
  "待機";
  "昇格エラー";
  "リモートユーザーに認証をリクエストする";
  "使用中のリモートコンピューター アカウントが管理者の場合はこちらを選択してください";
  "管理者のユーザー名とパスワードを送信";
  "リモートデスクトップ ユーザーがRustDeskを実行する際に、UACを許可する必要があります。";
  "権限の昇格をリクエストする";
  "リモートデスクトップ ユーザーがUACダイアログを許可するまでしばらくお待ちください。";
  "権限の昇格に成功しました";
  "大文字";
  "小文字";
  "桁数";
  "特殊文字";
  "8文字以上";
  "脆弱";
  "普通";
  "強力";
  "接続方向の切り替え";
  "デスクトップの共有を許可しますか？";
  "ディスプレイ";
  "デフォルトの表示スタイル";
  "デフォルトのスクロールスタイル";
  "デフォルトの画質";
  "デフォルトのコーデック";
  "ビットレート";
  "FPS";
  "自動";
  "その他のデフォルト設定";
  "音声通話";
  "テキストチャット";
  "音声通話を終了";
  "直接接続が行えない場合は、リレー経由での接続をお試しください。初回接続で中継接続を行いたい場合は末尾に「/r」を付けるか、最近のセッション履歴に「常に中継サーバー経由で接続」という設定がある場合はそちらを選択してください。";
  "再接続";
  "コーデック";
  "解像度";
  "進行中の転送はありません";
  "ワンタイムパスワードの長さを設定する";
  "RDP設定";
  "並べ替え";
  "新規接続";
  "復元";
  "最小";
  "最大";
  "あなたのデバイス";
  "おっと、最近のセッションは見つかりませんでした。新しい計画を練る時間です！";
  "お気に入りのリモートコンピュータがないようですね？あなたの接続先を登録しましょう！";
  "あらら、まだ近くのコンピューターは発見できていないようです。";
  "驚くべきことに、あなたのアドレス帳には現在コンピューターが登録されていません。";
  "例: 管理者";
  "空のユーザー名";
  "空のパスワード";
  "あなた";
  "このファイルはリモートコンピューターと同一です。";
  "ツールバーにモニターを表示します";
  "表示モード";
  "Xデスクトップのセッションにログインするには、リモートコンピューターのLinuxアカウントにログインする必要があります。";
  "RustDeskのパスワードを確認する";
  "このアカウントを記憶する";
  "このアカウントは、リモートコンピューターのOSにログインし、ヘッドレスでセッションを有効化するために使用されます。";
  "OSのアカウント";
  "他のユーザーがすでにログインしています";
  "切断しました";
  "Xorgサーバーが見つかりませんでした。";
  "Xorgをインストールしてください";
  "デスクトップ環境が見つかりませんでした。";
  "GNOMEデスクトップ環境をインストールしてください";
  "権限昇格の必要はありません";
  "システム音声";
  "デフォルト";
  "新しいRDP";
  "フィンガープリント";
  "フィンガープリントをコピー";
  "フィンガープリントがありません";
  "リモートコンピューターを選択";
  "複数のリモートコンピューターを選択";
  "プラグイン";
  "アンインストール";
  "更新";
  "有効";
  "無効";
  "設定";
  "オリジナルの解像度";
  "ローカル解像度に合わせる";
  "カスタム解像度";
  "ツールバーを折りたたむ";
  "承認して権限を昇格する";
  "接続を受け入れた上で、UAC権限を昇格します。";
  "クリップボードのコピーがタイムアウトしました。";
  "接続の受信";
  "接続の送信";
  "終了";
  "開く";
  "本当にログアウトしますか？";
  "サービス";
  "開始";
  "停止";
  "管理対象のデバイスが最大数に達しました。";
  "最近のセッションと同期";
  "タグで並べ替え";
  "新しいタブで接続を開く";
  "新しいウィンドウにタブを移動する";
  "空にすることはできません";
  "すでに存在します";
  "パスワードを変更";
  "パスワードをリフレッシュ";
  "ID";
  "グリッドビュー";
  "リストビュー";
  "選択";
  "タグの切り替え";
  "アドレス帳の更新に失敗しました";
  "サーバーへのアドレス帳の同期に失敗しました";
  "最近セッションを行ったデバイスはアドレス帳に同期されます。";
  "色の変更";
  "プライマリ カラー";
  "HSVカラー";
  "インストールに成功しました！";
  "インストールに失敗しました。";
  "マウスホイールを反転する";
  "{}件のセッション";
  "あなたは詐欺にあっているかもしれません！";
  "もし、知らない相手から電話でRustDeskのインストールやサービスの開始を依頼された場合、作業を進めずに、すぐに電話を切ってください。";
  "相手はあなたからお金や個人情報を盗もうとする詐欺師である可能性があります。";
  "今後表示しない";
  "同意する";
  "同意しない";
  "タイムアウトまでの時間(分)";
  "ユーザーが非アクティブの場合、自動的に受信したセッションを閉じる";
  "リモートデスクトップ ユーザーが非アクティブなため、接続に失敗しました";
  "起動時にソフトウェアの更新をチェック";
  "RustDesk Server Proをバージョン{}以上にアップグレードしてください！";
  "グループの更新に失敗しました";
  "交差位置でフィルター";
  "セッションの受信中、デスクトップ背景を削除する";
  "テスト";
  "モニターが接続されていません。最初のモニターを選択してください。";
  "モニターがありません";
  "新しいウィンドウで開く";
  "モニターを別々のウィンドウとして表示";
  "すべてのディスプレイをセッションで使用する";
  "SELinuxが有効になっているため、RustDeskが正常に動作しない可能性があります。";
  "表示変更";
  "大きなタイル";
  "小さなタイル";
  "リスト";
  "仮想モニター";
  "すべて切断する";
  "True color (4:4:4)";
  "ユーザー入力のブロックを有効化";
  "ID、IPアドレス、またはドメインとポート番号(<ドメイン>:<ポート>)を使用できます。\n他のサーバーのデバイスにアクセスしたい場合は、サーバーアドレス(<id>@<サーバーアドレス>?key=<キーの値>)を追加してください。 \n(例:9123456234@192.168.16.1:21117?key=5Qbwsde3unUcJBtrx9ZkvUmwFNoExHzpryHuPUdqlWM=)\nパブリックサーバーのデバイスに接続したい場合は、「<id>@public」のように入力してください。パブリックサーバーの場合、キーは不要です。\n\n初回接続で中継接続を行いたい場合は、「9123456234/r」のように末尾に「/r」を付けてください。";
  "モード 1";
  "モード 2";
  "プライバシーモードを起動";
  "プライバシーモードを終了";
  "Indirect display driverには対応していません。Windows 10 バージョン2004以降が必要です。";
  "入力ソース 1";
  "入力ソース 2";
  "ctrlとcommandキーを入れ替える";
  "マウスのクリックを入れ替える";
  "二要素認証コード";
  "詳細";
  "二要素認証を有効化";
  "認証アプリをセットアップします。Authy、MicrosoftまたはGoogle AuthenticatorなどがPCまたはスマートフォンで利用できます。\n\nQRコードをスキャンし、アプリが表示するコードを入力することで二要素認証が有効になります。";
  "コードが違います。コードと端末の時刻設定が正しいかをご確認ください。";
  "二要素認証";
  "電子メール認証コードは6文字である必要があります。";
  "二要素認証コードは6文字である必要があります。";
  "複数のWindowsセッションが見つかりました";
  "接続したいセッションを選択してください";
  "Powered by RustDesk";
  "カスタマイズされたエディションを使用しています。\n他のコンピューターに接続できますが、他のコンピューターからのリクエストは受信できません。";
  "このエディションには、デフォルトで固定パスワードが設定されています。このパスワードを知っているユーザーはあなたのデバイスを完全にコントロールできるため、そのような危険がある場合は直ちにRustDeskをアンインストールして下さい！";
  "セキュリティ警告";
  "あなたのアドレス帳";
  "個人";
  "所有者";
  "共有パスワードの設定";
  "既に存在します";
  "読み取り専用";
  "読み取り/書き込み";
  "フルアクセス";
  "フィールドは共有され、他の人からも閲覧できます。";
  "全員";
  "webコンソールの詳細";
  "RustDeskのウィンドウが開いている場合のみ接続を許可する";
  "物理モニターが存在しないため、プライバシーモードは不要です。";
  "リモートカーソルに追従";
  "リモートウィンドウのフォーカスに追従";
  "デフォルトのプロトコルとポートはSocks5と1080です。";
  "オーディオ入力デバイスが見つかりません。";
  "受信";
  "発信";
  "Waylandの画面選択をクリア";
  "画面選択をクリア後、共有画面を再び選択できます。";
  "本当にWaylandの画面選択をクリアしますか？";
  "新しい音声通話リクエストを受信しました。承認すると音声通話に切り替わります。";
  "テクスチャレンダリングを使用し、画像をより滑らかに描画します。レンダリングの問題が発生した場合は無効にしてみてください。";
  "テクスチャレンダリングを使用";
  "フローティングウィンドウ";
  "RustDeskのバックグラウンドサービスを維持するために使用されます。";
  "常に画面をオン";
  "画面をオンにしない";
  "操作中";
  "サービスの動作中";
  "DirectXを使用した画面キャプチャ";
  "戻る";
  "アプリ";
  "音量アップ";
  "音量ダウン";
  "電源";
  "Telegram Bot";
  "この機能を有効にすると、ボットから二要素認証コードを受け取ることができます。また、接続時の通知としても機能します。";
  "1. @BotFatherのチャットを開きます。\n2. 「/newbot」コマンドを送信します。送信後、トークンを取得できます。\n3. 新しく作成したbotとチャットを開始します。「/hello」のようにスラッシュで始まるメッセージを送信して起動します。\n";
  "本当に二要素認証をキャンセルしますか？";
  "本当にTelegram Botをキャンセルしますか？";
  "RustDeskについて";
  "クリップボードの内容をキー入力として送信する";
  "ネットワーク接続を確認し、再度お試しください。";
  "PINでロック解除";
  "最低でも{}文字必要です";
  "PINが間違っています";
  "PINを設定";
  "承認済デバイスを有効化";
  "承認済デバイスの管理";
  "プラットフォーム";
  "残り日数";
  "承認済デバイスで2FAチェックをスキップします。";
  "親ディレクトリ";
  "再開";
  "無効なファイル名";
  "";
  "";
  "";
  "";
  "";
  "";
  "";
  "";
  "";
  "";
  "";
  ""].
(** [LANGS.ko] *)
Definition lang_ko : jsmap string string := texts [
  "상태";
  "내 데스크탑";
  "아래의 ID와 비밀번호로 연결할수 있습니다";
  "비밀번호";
  "준비";
  "연결됨";
  "RustDesk 네트워크로 연결중입니다...";
  "서비스 활성화";
  "서비스 시작";
  "서비스가 실행되었습니다";
  "서비스가 실행되지 않았습니다";
  "준비되지 않았습니다. 연결을 확인해주세요.";
  "원격 데스크탑 제어";
  "파일 전송";
  "연결하기";
  "최근 세션";
  "세션 주소록";
  "확인";
  "TCP 터널링";
  "삭제";
  "랜덤 비밀번호 변경";
  "개인 비밀번호 설정";
  "키보드/마우스 활성화";
  "클립보드 활성화";
  "파일 전송 활성화";
  "TCP 터널링 활성화";
  "IP 화이트리스트";
  "ID/릴레이 서버";
  "서버 설정 가져오기";
  "서버 설정 내보내기";
  "서버 설정 가져오기 성공";
  "서버 설정 내보내기 성공";
  "잘못된 서버 설정";
  "클립보드가 비어있습니다";
  "서비스 중지";
  "ID 변경";
  "당신의 새로운 ID";
  "길이 %min% ~ %max%";
  "문자로 시작해야 합니다";
  "허용되는 문자";
  "a-z, A-Z, 0-9, - (dash), _(언더바)만 입력 가능합니다. 첫 문자는 a-z 혹은 A-Z로 시작해야 합니다. 길이는 6~16글자가 요구됩니다.";
  "웹사이트";
  "정보";
  "이 혼란스러운 세상에서 마음을 담아 만들었습니다!";
  "개인 정보 보호 정책";
  "음소거";
  "빌드 날짜";
  "버전";
  "홈";
  "오디오 입력";
  "향상된 기능";
  "하드웨어 코덱";
  "가변 비트레이트";
  "ID 서버";
  "릴레이 서버";
  "API 서버";
  "http:// 또는 https:// 로 시작해야합니다";
  "유효하지 않은 IP";
  "유효하지 않은 형식";
  "아직 서버에서 지원되지 않습니다";
  "불가능";
  "수정이 너무 자주 발생합니다. 나중에 재시도해 주세요.";
  "취소";
  "넘기기";
  "닫기";
  "재시도";
  "확인";
  "비밀번호 입력";
  "비밀번호를 입력해주세요";
  "비밀번호 기억하기";
  "비밀번호가 다릅니다";
  "다시 연결하시겠습니까?";
  "연결 오류";
  "오류";
  "다른 접속자에 의해 초기화됨";
  "연결중...";
  "연결중입니다. 잠시만 기다려주세요";
  "1분 후에 재시도하세요";
  "로그인 오류";
  "성공";
  "연결됨. 화면 전송 대기 중...";
  "이름";
  "유형";
  "수정됨";
  "크기";
  "숨겨진 파일 표시";
  "받기";
  "보내기";
  "파일 새로고침";
  "로컬";
  "원격";
  "원격 컴퓨터";
  "로컬 컴퓨터";
  "삭제 확인";
  "삭제";
  "속성";
  "다중 선택";
  "전체 선택";
  "전체 선택 해제";
  "폴더가 비어있습니다";
  "폴더가 비어있지 않습니다";
  "이 파일을 삭제하시겠습니까?";
  "이 빈 폴더를 삭제하시겠습니까?";
  "이 폴더의 파일을 삭제하시겠습니까?";
  "모든 충돌에 대해 이 작업을 수행합니다";
  "이 작업은 되돌릴 수 없습니다.!";
  "삭제중";
  "파일";
  "대기중";
  "완료됨";
  "속도";
  "화질 설정";
  "개인정보 보호 모드";
  "사용자 입력 차단";
  "사용자 입력 차단 해제";
  "화면 조정";
  "원본";
  "축소";
  "확대";
  "스크롤바";
  "자동스크롤";
  "이미지 품질 최적화";
  "균형";
  "반응 시간 최적화";
  "사용자 정의";
  "원격 커서 보이기";
  "품질 모니터 보기";
  "클립보드 비활성화";
  "세션 종료 후 화면 잠금";
  "Ctrl + Alt + Del 입력";
  "원격 입력 잠금";
  "새로고침";
  "ID가 존재하지 않습니다";
  "등록 서버에 연결하지 못했습니다.";
  "재시도해주세요";
  "원격 데스크탑이 연결되어 있지 않습니다";
  "키가 일치하지 않습니다.";
  "시간 초과";
  "릴레이 서버 연결에 실패하였습니다";
  "등록 서버를 통한 연결에 실패하였습니다";
  "릴레이 서버를 통한 연결에 실패하였습니다";
  "원격 데스크탑으로의 직접 연결 생성에 실패하였습니다";
  "비밀번호 설정";
  "OS 비밀번호";
  "UAC로 인해, RustDesk가 원격지일 때 일부 기능이 동작하지 않을 수 있습니다. UAC 문제를 방지하려면, 아래 버튼을 클릭하여 RustDesk를 시스템에 설치해주세요.";
  "업그레이드";
  "다운로드";
  "업데이트";
  "구성";
  with_quotes ["내 데스크탑을 원격제어하기 전에, RustDesk에게 "; "Accessibility (접근성)"; " 권한을 부여해야 합니다."];
  with_quotes ["내 데스크탑을 원격제어하기 전에, RustDesk에게 "; "Screen Recording (화면 녹화)"; " 권한을 부여해야 합니다."];
  "설치중 ...";
  "설치하기";
  "설치";
  "설치 경로";
  "시작 메뉴에 바로가기 생성";
  "데스크탑 아이콘 생성";
  "설치를 시작하기 전에, 라이선스 약관에 동의를 해야합니다.";
  "동의 및 설치";
  "최종 사용자 라이선스 약관 동의";
  "생성중 ...";
  "설치한 버전이 현재 실행 중인 버전보다 낮습니다.";
  "연결중에는 이 창을 끄지 마세요";
  "연결 대기중 ...";
  "원격 호스트";
  "원격 포트";
  "액션";
  "추가";
  "로컬 포트";
  "현재 주소";
  "로컬 포트 변경";
  "자체 서버를 구축하면 더 빠른 속도로 사용할수 있습니다";
  "너무 짧습니다, 최소 6글자 이상 입력해주세요.";
  "두 입력이 일치하지 않습니다.";
  "권한";
  "수락";
  "거부";
  "연결 종료";
  "파일 복사 및 붙여넣기 허용";
  "연결됨";
  "암호화된 다이렉트 연결";
  "암호화된 릴레이 연결";
  "암호화되지 않은 다이렉트 연결";
  "암호화되지 않은 릴레이 연결";
  "원격 ID를 입력하세요";
  "비밀번호를 입력하세요";
  "로그인 중...";
  "RDP 세션 공유 활성화";
  "자동 로그인";
  "다이렉트 IP 연결 활성화";
  "이름 변경";
  "공간";
  "데스크탑 바로가기 생성";
  "경로 변경";
  "폴더 생성";
  "폴더명을 입력해주세요";
  "문제 해결";
  "경고";
  "Wayland를 사용한 로그인 화면이 지원되지 않습니다";
  "재부팅이 필요합니다";
  "지원하지 않는 디스플레이 서버";
  "x11로 전환해주세요";
  "포트";
  "설정";
  "사용자명";
  "포트가 유효하지않습니다";
  "다른 사용자에 의해 종료됨";
  "원격 구성 변경 활성화";
  "설치 없이 실행";
  "릴레이를 통해 연결";
  "항상 릴레이를 통해 연결";
  "화이트리스트에 있는 IP만 나에게 연결할수 있습니다";
  "로그인";
  "확인";
  "기억하기";
  "이 장치 신뢰";
  "확인 코드";
  "등록된 이메일 주소로 인증번호가 발송되었습니다. 인증번호를 입력하시면 계속 로그인하실 수 있습니다";
  "로그아웃";
  "태그";
  "ID 검색";
  "다음 글자로 구분합니다. ',(콤마) ;(세미콜론) 띄어쓰기 혹은 줄바꿈'";
  "ID 추가";
  "태그 추가";
  "모든 태그 선택 해제";
  "네트워크 오류";
  "사용자명이 입력되지않았습니다";
  "비밀번호가 입력되지않았습니다";
  "로그인 정보가 다릅니다";
  "인증 코드가 잘못되었거나 시간이 초과되었습니다.";
  "태그 수정";
  "패스워드 기억하지 않기";
  "즐겨찾기";
  "즐겨찾기에 추가";
  "즐겨찾기에서 삭제";
  "비어 있음";
  "유효하지 않은 폴더명";
  "Socks5 프록시";
  "Socks5/Http(s) 프록시";
  "찾음";
  "부팅된 이후 시스템 서비스에 설치해야 합니다.";
  "원격 ID";
  "붙여넣기";
  "여기에 붙여넣기를 실핼할까요?";
  "연결을 종료하시겠습니까?";
  "최신 버전 다운로드";
  "터치 모드";
  "마우스 모드";
  "한 손가락 탭";
  "왼쪽 마우스";
  "길게 누르기";
  "두 손가락 탭";
  "오른쪽 마우스";
  "한 손가락 이동";
  "두 번 탭 하고 이동";
  "마우스 드래그";
  "세 손가락 세로로";
  "마우스 휠";
  "두 손가락 이동";
  "캔버스 이동";
  "확대/축소";
  "캔버스 확대";
  "캔버스 초기화";
  "파일 전송 권한이 없습니다";
  "노트";
  "연결";
  "화면 공유";
  "채팅";
  "총합";
  "개체";
  "선택됨";
  "화면 캡처";
  "입력 제어";
  "오디오 캡처";
  "파일 전송";
  "화면 전송";
  "동의하십니까?";
  "시스템 설정 열기";
  "안드로이드 입력 권한에 어떻게 접근합니까?";
  with_quotes ["원격지로서 마우스나 터치를 통해 Android 장치를 제어하려면 RustDesk에서 "; "Accessibility (접근성)"; " 서비스 사용을 허용해야 합니다."];
  "시스템 설정 페이지로 이동하여 [설치된 서비스]에서 [RustDesk Input] 서비스를 켜십시오.";
  "현재 장치의 새로운 제어 요청이 수신되었습니다.";
  with_quotes [""; "화면 캡처"; "를 켜면 서비스가 자동으로 시작되어 다른 장치에서 사용자 장치에 대한 연결을 요청할 수 있습니다."];
  "서비스를 종료하면 모든 연결이 자동으로 닫힙니다.";
  "현재 Android 버전은 오디오 캡처를 지원하지 않습니다. Android 10 이상으로 업그레이드하십시오.";
  "서비스 시작을 클릭하거나 화면 캡처 권한을 활성화하여 화면 공유 서비스를 시작하세요.";
  "설정된 연결의 경우 연결이 재설정되지 않는 한 권한이 즉시 변경되지 않을 수 있습니다.";
  "계정";
  "덮어쓰기";
  "해당 파일이 이미 존재합니다, 건너뛰거나 덮어쓰시겠습니까?";
  "종료";
  "지원";
  "실패";
  "성공";
  "개인정보 보호 모드가 활성화되어 종료됩니다";
  "지원되지 않음";
  "연결 거부됨";
  "플러그인을 설치해주세요";
  "다른 사용자가 종료함";
  "종료 실패";
  "종료됨";
  "언어";
  "RustDesk 백그라운드 서비스로 유지하기";
  "배터리 최적화 무시하기";
  "해당 기능을 비활성화하려면 RustDesk 응용 프로그램 설정 페이지로 이동하여 [배터리]에서 [제한 없음] 선택을 해제하십시오.";
  "부팅시 시작";
  "부팅 시 화면 공유 서비스를 시작하려면 특별한 권한이 필요합니다.";
  "연결이 허용되지 않았습니다";
  "레거시 모드";
  "맵 모드";
  "번역 모드";
  "영구 비밀번호 사용";
  "(임시/영구) 비밀번호 모두 사용";
  "영구 비밀번호 설정";
  "원격 재시작 활성화";
  "원격 장치 재시작";
  "정말로 재시작 하시겠습니까";
  "원격 장치를 재시작하는중";
  "원격 장치를 재시작하는 중입니다. 이 메시지 상자를 닫고 잠시 후 영구 비밀번호로 다시 연결하십시오.";
  "복사됨";
  "전체 화면 종료";
  "전체 화면";
  "모바일 액션";
  "모니터 선택";
  "제어 작업";
  "화면 설정";
  "비율";
  "이미지 품질";
  "스크롤 스타일";
  "툴바 보기";
  "툴바 숨기기";
  "다이렉트 연결";
  "릴레이 연결";
  "보안 연결";
  "보안되지 않은 연결";
  "원래 크기";
  "창에 맞게";
  "일반";
  "보안";
  "테마";
  "어두운 테마";
  "밝은 테마";
  "어둡게";
  "밝게";
  "시스템 기본값";
  "하드웨어 코덱 활성화";
  "보안 설정 잠금 해제";
  "오디오 활성화";
  "네트워크 설정 잠금 해제";
  "서버";
  "다이렉트 IP 연결";
  "프록시";
  "적용";
  "모든 기기의 연결을 해제하시겠습니까?";
  "지우기";
  "오디오 입력 장치";
  "IP 화이트리스트 사용";
  "네트워크";
  "툴바 고정";
  "툴바 고정 해제";
  "녹화";
  "경로";
  "들어오는 세션을 자동으로 녹화";
  "나가는 세션을 자동으로 녹화";
  "변경";
  "세션 녹화 시작";
  "세션 녹화 중지";
  "세션 녹화 활성화";
  "LAN 검색 활성화";
  "LAN 검색 거부";
  "메시지 쓰기";
  "프롬프트";
  "상대방이 UAC를 확인할 때까지 기다려주세요...";
  "원격 데스크톱의 현재 창을 작동하려면 더 높은 권한이 필요하며 마우스와 키보드를 일시적으로 사용할 수 없는 경우 상대방에게 현재 창을 최소화하도록 요청하거나 연결 관리 창에서 권한 상승을 클릭할 수 있습니다. 이 문제를 방지하려면 원격 장치에 이 소프트웨어를 설치하는 것이 좋습니다";
  "연결이 끊김";
  "기타";
  "여러 탭을 닫기 전에 확인";
  "키보드 설정";
  "전체 권한";
  "화면 공유";
  "Wayland는 Ubuntu 21.04 이상 버전이 필요합니다.";
  "Wayland에는 더 높은 버전의 Linux 배포판이 필요합니다. X11 데스크탑을 시도하거나 OS를 변경하십시오.";
  "링크연결";
  "공유할 화면을 선택하십시오(피어 측에서 작동).";
  "RustDesk 표시";
  "이 PC";
  "또는";
  "계속";
  "권한 상승";
  "커서 줌";
  "비밀번호를 통해 세션 수락";
  "클릭을 통해 세션 수락";
  "두 가지 모두를 통해 세션을 수락합니다";
  "원격 측에서 세션 요청을 수락할 때까지 기다리십시오...";
  "일회용 비밀번호";
  "일회용 비밀번호 사용";
  "일회용 비밀번호 길이";
  "접근권한의 허용여부를 요청합니다";
  "연결 관리 창 숨기기";
  "숨기기는 비밀번호 연결만 허용되고 고정 비밀번호만 사용되는 경우에만 허용됩니다";
  "Wayland 지원은 실험적입니다. 무인 접근이 필요한 경우 X11을 사용하십시오";
  "마우스 오른쪽 버튼을 클릭하고 탭을 선택하세요";
  "건너뛰기";
  "주소록에 추가";
  "그룹";
  "검색";
  "웹 콘솔에 의해 수동으로 닫힘";
  "로컬 키보드 유형";
  "로컬 키보드 유형 선택";
  "Nvidia 그래픽 카드를 사용하고 세션이 설정된 후 원격 창이 즉시 닫히는 경우 nouveau 드라이버를 설치하고 소프트웨어 렌더링을 사용하도록 선택하는 것이 도움이 될 수 있습니다. 소프트웨어를 재시작하면 적용됩니다.";
  "항상 소프트웨어 렌더링 사용";
  with_quotes ["키보드를 통해 원격 데스크톱을 제어할 수 있으려면 RustDesk의 "; "입력 모니터링"; " 권한을 부여해 주세요"];
  with_quotes ["마이크를 통한 오디오 전송을 지원하려면 RustDesk에 "; "녹음"; " 권한을 부여해 주세요"];
  "상대방이 권한 상승을 요청할 수도 있습니다";
  "대기";
  "권한 상승 오류";
  "원격 사용자에게 인증 요청";
  "원격 계정이 관리자인 경우 선택하세요";
  "관리자의 사용자 이름과 비밀번호를 전송합니다";
  "통제된 사용자는 여전히 RustDesk를 실행하는 UAC 창에서 확인을 클릭해야 합니다";
  "권한 상승 요청";
  "원격 사용자가 UAC 대화 상자를 확인할 때까지 기다리십시오";
  "권한 상승이 완료되었습니다";
  "대문자";
  "소문자";
  "숫자";
  "특수문자";
  "8자 이상";
  "약함";
  "보통";
  "강력";
  "제어 방향 반전";
  "데스크탑을 공유하시겠습니까?";
  "디스플레이";
  "기본 보기 스타일";
  "기본 스크롤 스타일";
  "기본 이미지 품질";
  "기본 코덱";
  "비트레이트";
  "FPS";
  "자동";
  "기타 기본 옵션";
  "음성통화";
  "채팅";
  "음성통화 종료";
  "다이렉트 연결이 안될 수도 있으니 릴레이 연결을 시도해보세요. \n또한 릴레이 연결을 바로 사용하고 싶다면 ID 뒤에 /r을 추가하면 되고, 최근 방문에 해당 카드가 존재한다면 카드 옵션에서 릴레이 연결을 강제하도록 선택할 수도 있습니다.";
  "다시 연결";
  "코덱";
  "해상도";
  "진행 중인 전송이 없습니다";
  "일회용 비밀번호 길이 설정";
  "RDP 설정";
  "정렬 기준";
  "새로운 연결";
  "복원";
  "최소화";
  "최대화";
  "내 장치";
  "최근 세션이 없습니다. 새 세션을 시작해보세요";
  "장치 즐겨찾기가 없습니다. 새 즐겨찾기를 추가해보세요";
  "제어되는 장치가 발견되지 않았습니다.";
  "현재 주소록에 제어되는 클라이언트가 없습니다";
  "예: 관리자";
  "사용자명이 비어있습니다";
  "비밀번호가 비어있습니다";
  "나";
  "이 파일은 상대방의 파일과 일치합니다.";
  "도구 모음에 모니터 표시";
  "보기 모드";
  "X 데스크탑을 활성화하려면 제어되는 터미널의 Linux 계정에 로그인하세요";
  "RustDesk 비밀번호 확인";
  "이 계정을 기억하세요";
  "모니터가 없는 환경에서 이 계정은 제어되는 시스템에 로그인하고 데스크탑을 활성화하는 데 사용됩니다";
  "OS 계정";
  "다른 사용자가 로그인되어 있습니다";
  "연결 종료";
  "Xorg가 설치되지 않았습니다";
  "Xorg를 설치해주세요";
  "데스크탑이 설치되지 않았습니다";
  "데스크탑을 설치해주세요";
  "권한 상승이 필요하지 않습니다.";
  "시스템 사운드";
  "기본";
  "새로운 RDP";
  "지문";
  "지문 복사";
  "지문이 없습니다";
  "동료를 선택하세요";
  "동료 선택";
  "플러그인";
  "제거";
  "업데이트";
  "활성화";
  "비활성화";
  "옵션";
  "기본 해상도";
  "로컬 해상도로 변경";
  "맞춤 해상도";
  "툴바 접기";
  "권한 상승 승인";
  "UAC 권한 상승 및 연결 승인";
  "복사 응답 시간이 초과되었습니다.";
  "연결이 요청되었습니다";
  "나가는 연결";
  "나가기";
  "열기";
  "정말 로그아웃하시겠습니까?";
  "서비스";
  "시작";
  "중지";
  "관리되는 장치가 최대치에 도달했습니다.";
  "최근 세션과 동기화";
  "태그 정렬";
  "새 탭에서 연결 열기";
  "탭을 새 창으로 이동";
  "비워둘 수 없습니다";
  "이미 존재 합니다";
  "비밀번호 변경";
  "비밀번호 새로고침";
  "ID";
  "그리드 보기";
  "리스트 보기";
  "선택";
  "태그 전환";
  "주소록을 가져오지 못했습니다.";
  "주소록 업로드 실패";
  "최근 세션에 있는 장치는 주소록에 다시 동기화됩니다.";
  "색상 변경";
  "기본 색상";
  "HSV 색상";
  "설치 성공!";
  "설치 실패!";
  "마우스 휠 반전";
  "{} 세션";
  "당신은 사기를 당했을 수도 있습니다";
  "모르는 사람과 통화 중이고 그들이 RustDesk를 사용하여 서비스를 시작하라고 요청하는 경우, 계속하지 말고 즉시 전화를 끊으세요";
  "그들은 귀하의 돈이나 기타 개인 정보를 훔치려는 사기꾼일 가능성이 높습니다";
  "다시 표시하지 않음";
  "동의";
  "거절";
  "시간 초과(분)";
  "비활성 세션 자동 종료";
  "장시간 활동이 없어 연결이 자동으로 종료되었습니다";
  "시작 시 소프트웨어 업데이트 확인";
  "RustDesk Server Pro를 {} 버전 이상으로 업그레이드하십시오!";
  "그룹 정보를 가져오지 못했습니다";
  "교차로로 필터링";
  "세션 수락시 배경화면 제거";
  "테스트";
  "디스플레이가 연결되어 있지 않습니다. 첫 번째 디스플레이로 전환하세요.";
  "디스플레이 없음";
  "새 창에서 열기";
  "디스플레이를 개별 창으로 표시";
  "원격 세션에 내 디스플레이를 모두 사용";
  "SELinux를 활성화하면 RustDesk가 호스트로 제대로 실행되지 않을 수 있습니다";
  "보기 변경";
  "큰 타일";
  "작은 타일";
  "리스트";
  "가상 디스플레이";
  "전원 모두 끄기";
  "트루컬러 (4:4:4)";
  "사용자 입력 차단 허용";
  "입력된 ID, IP, 도메인과 포트(<domain>:<port>)를 입력할 수 있습니다.\n다른 서버에 있는 장치에 연결하려면 서버 주소(<id>@<server_address>?key=<key_value>)를 추가하세요";
  "모드 1";
  "모드 2";
  "개인정보 보호 모드 사용";
  "개인정보 보호 모드 종료";
  "간접 디스플레이 드라이버는 지원되지 않습니다. Windows 10 버전 2004 이상이 필요합니다.";
  "입력소스 1";
  "입력소스 2";
  "Control 및 Command 키 교체";
  "마우스 왼쪽 버튼과 오른쪽 버튼 바꾸기";
  "2단계 인증 코드";
  "더보기";
  "2단계 인증 활성화";
  "지금 인증자를 설정하세요. 휴대폰이나 데스크톱 컴퓨터에서 Authy, Microsoft 또는 Google Authenticator와 같은 인증기를 사용할 수 있습니다. 인증기로 QR 코드를 스캔하고 표시된 코드를 입력하면 2단계 인증이 활성화됩니다. ";
  "이 코드는 확인할 수 없습니다. 인증 코드와 현지 시간 설정이 올바른지 확인하세요.";
  "2단계 인증";
  "이메일 인증 코드는 6자여야 합니다.";
  "2단계 인증 코드는 6자리여야 합니다.";
  "여러 Windows 세션이 발견되었습니다.";
  "연결하려는 세션을 선택하세요.";
  "RustDesk 제공";
  "이것은 맞춤형 버전입니다.\n다른 장치에 연결할 수 있지만 다른 장치는 귀하의 장치에 연결할 수 없습니다.";
  "이 맞춤형 에디션은 미리 설정된 비밀번호가 포함되어 있습니다. 이 비밀번호를 아는 사람은 누구나 귀하의 장치를 완전히 제어할 수 있습니다. 이 상황을 예상하지 못했다면, 즉시 소프트웨어를 삭제하시기 바랍니다.";
  "보안 경고";
  "내 주소록";
  "개인";
  "소유자";
  "공유 암호 설정";
  "존재함";
  "읽기전용";
  "읽기/쓰기";
  "전체 제어";
  "위의 항목들은 다른 사람들과 공유되며, 다른 사람들이 볼 수 있습니다.";
  "모두";
  "웹 콘솔에 대해 더 알아보기";
  "RustDesk 창이 열려 있는 경우에만 연결 허용";
  "물리적 디스플레이가 없으므로 프라이버시 모드를 사용할 필요가 없습니다.";
  "원격 커서 따르기";
  "원격 창 포커스 따르기";
  "기본 프로토콜과 포트는 Socks5와 1080입니다.";
  "오디오 입력 장치를 찾을 수 없습니다.";
  "수신중";
  "발신중";
  "Wayland 화면 선택 취소";
  "화면 선택을 취소한 후 다시 공유할 화면을 선택할 수 있습니다.";
  "Wayland 화면 선택을 정말 취소하시겠습니까?";
  "새로운 음성 통화 요청이 있습니다. 수락하면 오디오가 음성 통신으로 전환됩니다.";
  "텍스처 렌더링을 사용하면 이미지가 더 부드러워집니다. 렌더링 문제가 발생하면 이 옵션을 비활성화해 보세요.";
  "텍스처 렌더링 사용";
  "플로팅 윈도우";
  "RustDesk 백그라운드 서비스를 유지하는 것이 좋습니다.";
  "화면 켜짐 유지";
  "없음";
  "제어되는 동안";
  "서비스가 켜져 있는 동안";
  "다이렉트X를 사용한 화면 캡처";
  "뒤로";
  "앱";
  "볼륨 증가";
  "볼륨 감소";
  "파워";
  "텔레그램 봇";
  "이 기능을 활성화하면 봇으로부터 2FA 코드를 받을 수 있습니다. 또한 연결 알림으로도 작동할 수 있습니다.";
  with_quotes ["1. @BotFather와 채팅을 시작하세요.\n2. "; "/newbot"; " 명령어를 보내세요. 토큰을 받게 됩니다.\n3. 새로 생성된 봇과 채팅을 시작하고 "; "/hello"; " 등의 명령어를 보내 봇을 활성화하세요."];
  "2FA를 정말 취소하시겠습니까?";
  "텔레그램 봇을 정말 삭제하시겠습니까?";
  "RustDesk 대하여";
  "클립보드 키 입력 전송";
  "네트워크 연결을 확인한 후 다시 시도하세요.";
  "핀으로 잠금 해제";
  "최소 {}자 이상 필요합니다.";
  "잘못된 핀";
  "핀 설정";
  "신뢰할 수 있는 장치 활성화";
  "신뢰할 수 있는 장치 관리";
  "플랫폼";
  "일 남음";
  "신뢰할 수 있는 기기에서 2FA 검증 건너뛰기";
  "상위 디렉토리";
  "재개";
  "잘못된 파일 이름";
  "단방향 파일 전송은 제어되는 쪽에서 활성화됩니다.";
  "인증 필요함";
  "인증";
  with_quotes ["동일한 서버에 있는 ID를 입력할 수 있습니다. 웹 클라이언트에서는 직접 IP 접속이 지원되지 않습니다.\n 다른 서버에 있는 장치에 접속하려면 서버 주소(<id>@<server_address>?key=<key_value>)를 추가하세요. 예:\n9123456234@192.168.16.1:21117?key=5Qbwsde3unUcJBtrx9ZkvUmwFNoExHzpryHuPUdqlWM=.\n 공용 서버에 있는 장치에 접속하려면 "; "<id>@public"; "을 입력하세요. 공용 서버에서는 키가 필요하지 않습니다."];
  "다운로드";
  "폴더 업로드";
  "파일 업로드";
  "클립보드가 동기화됨";
  "클라이언트 클립보드 업데이트";
  "태그 없음";
  "{} 의 새로운 버전이 출시되었습니다.";
  ""].
