(* ===== verification/TextsC.v ===== *)
(** * The texts in [kz], [lt], [lv], [nb], [nl], [pl], [ptbr], [pt_PT], [ro] and [ru]

    Each table of [LANGS] in [proto/gen_js_from_hbb.ts] as its texts for [text_ids]; an empty text is one
    nobody has translated. *)
From S2P Require Import Prelude JsMap JsStr Json Common Langs.
Local Open Scope string_scope.

(** [LANGS.kz] *)
Definition lang_kz : jsmap string string := texts [
  "Күй";
  "Сіздің Жұмыс үстеліңіз";
  "Сіздің Жұмыс үстеліңіз осы ID мен құпия сөз арқылы қолжетімді";
  "Құпия сөз";
  "Дайын";
  "Қосылды";
  "RustDesk желісіне қосылуда...";
  "Сербесті қосу";
  "Сербесті іске қосу";
  "Сербес істеуде";
  "Сербес істемеуде";
  "Дайын емес. Қосылымды тексеруді өтінеміз";
  "Қашықтағы Жұмыс үстелін Басқару";
  "Файыл Тасымалдау";
  "Қосылу";
  "Соңғы Сештер";
  "Мекенжай Кітабы";
  "Мақұлдау";
  "TCP тунелдеу";
  "Жою";
  "Кездейсоқ құпия сөзді жаңарту";
  "Өз құпия сөзіңізді орнатыңыз";
  "Пернетақта/Тінтуірді қосу";
  "Көшіру-тақтасын қосу";
  "Файыл Тасымалдауды қосу";
  "TCP тунелдеуді қосу";
  "IP Ақ-тізімі";
  "ID/Relay сербері";
  "Серверді импорттау";
  "";
  "Сервердің конфигурациясы сәтті импортталды";
  "";
  "Жарамсыз сервердің конфигурациясы";
  "Көшіру-тақта бос";
  "Сербесті тоқтату";
  "ID ауыстыру";
  "";
  "";
  "";
  "";
  "Тек a-z, A-Z, 0-9, - (dash) және _ (астынғы-сызық) таңбалары рұқсат етілген. Бірінші таңба a-z, A-Z болуы қажет. Ұзындығы 6 мен 16 арасы.";
  "Web-сайт";
  "Туралы";
  "";
  "";
  "Дыбыссыздандыру";
  "";
  "";
  "";
  "Аудио Еңгізу";
  "Жақсартулар";
  "Hardware Codec";
  "Adaptive bitrate";
  "ID Сербері";
  "Relay Сербері";
  "API Сербері";
  "http:// немесе https://'пен басталуы қажет";
  "Бұрыс IP-Мекенжай";
  "Бұрыс формат";
  "Сербер әзірше қолдамайды";
  "Қолжетімсіз";
  "Тым жиі";
  "Болдырмау";
  "Өткізіп жіберу";
  "Жабу";
  "Қайтадан көру";
  "OK";
  "Құпия сөз Қажет";
  "Құпия сөзіңізді еңгізуді өтінеміз";
  "Құпия сөзді есте сақтау";
  "Бұрыс Құпия сөз";
  "Қайтадан кіргіңіз келеді ме?";
  "Қосылым Қатесі";
  "Қате";
  "Пир қалпына келтірді";
  "Қосылуда...";
  "Қосылым барысында. Күтуді өтінеміз";
  "1 минуттан соң қайта көріңіз";
  "Кіру Қатесі";
  "Сәтті";
  "Қосылды, сурет күтілуде...";
  "Ат";
  "Түр";
  "Өзгертілді";
  "Өлшем";
  "Жасырын Файылдарды Көрсету";
  "Қабылдау";
  "Жіберу";
  "Файылды жаңарту";
  "Лақал";
  "Қашықтағы";
  "Қашықтағы Қампұтыр";
  "Лақал Қампұтыр";
  "Жоюды Растау";
  "Жою";
  "Қасиеттер";
  "Көптік таңдау";
  "";
  "";
  "Бос Бума";
  "Бос бума емес";
  "Бұл файылды жоюға сенімдісіз бе?";
  "Бұл бос буманы жоюға сенімдісіз бе?";
  "Бұл буманың файылын жоюға сенімдісіз бе?";
  "Мұны барлық қанпілектер үшін жасау";
  "Бұл қайтымсыз!";
  "Жойылу";
  "файылдар";
  "Күту";
  "Аяқталды";
  "Жылдамдық";
  "Теңшеулі Сурет Сапасы";
  "Құпиялылық Модасы";
  "Қолданушы еңгізуін бұғаттау";
  "Қолданушы еңгізуін бұғаттан шығару";
  "Терезені Реттеу";
  "Түпнұсқа";
  "Қысу";
  "Созу";
  "Scrollbar";
  "ScrollAuto";
  "Жақсы сурет сапасы";
  "Теңдестірілген";
  "Реакция уақытын оңтайландыру";
  "";
  "Қашықтағы курсорды көрсету";
  "Сапа мониторын көрсету";
  "Көшіру-тақтасын өшіру";
  "Сеш аяқталған соң құлыптау";
  "Кірістіру Ctrl + Alt + Del";
  "Кірістіруді Құлыптау";
  "Жаңарту";
  "ID табылмады";
  "Rendezvous серберіне қосылу сәтсіз";
  "Кейінірек қайта көруді өтінеміз";
  "Қашықтағы жұмыс үстелі офлайн күйінде";
  "Кілт сәйкессіздігі";
  "Үзіліс";
  "Relay серберіне қосылу сәтсіз";
  "Rendezvous сербері арқылы қосылу сәтсіз";
  "Relay сербері арқылы қосылу сәтсіз";
  "Қашықтағы жұмыс үстеліне тікелей қосылым жасау сәтсіз";
  "Құпия сөзді Орнату";
  "OS Құпия сөзі";
  "UAC кесірінен, RustDesk кейбірде қашықтағы жақ ретінде дұрыс жұмыс істей алмайды. UAC'пен қиындықты болдырмау үшін, төмендегі батырманы басып RustDesk'ті жүйеге орнатыңыз.";
  "Жаңғырту үшін басыңыз";
  "Жүктеу үшін басыңыз";
  "Жаңарту үшін басыңыз";
  "Қалыптау";
  with_quotes ["Сіздің Жұмыс үстеліңізді қашықтан басқару үшін, RustDesk'ке "; "Қолжетімділік"; " рұқсаттарын беруіңіз керек."];
  with_quotes ["Сіздің Жұмыс үстеліңізге қашықтан қол жеткізу үшін, RustDesk'ке "; "Екіренді Жазу"; " рұқсаттарын беруіңіз керек."];
  "Орнатылу...";
  "Орнату";
  "Орнатылу";
  "Орнатылу Жолы";
  "Бастау мәзірі белгішесің жасау";
  "Жұмыс үстелі белгішесің жасау";
  "Орнатуды бастасаңыз, сіз лисензе келісімін қабылдайсыз.";
  "Қабылдау және Орнату";
  "Түпкі қолданушының лисензе келісімі";
  "Генератталуда...";
  "Сіздің орнатуыныз төменгі нұсқа.";
  "Тунел қолдану кезінде бұл терезені жаппаңыз";
  "Тыңдау ...";
  "Қашықтағы Хост";
  "Қашықтағы Порт";
  "Әрекет";
  "Қосу";
  "Лақал Порт";
  "";
  "";
  "Тез қосылым үшін өз серберіңізді орнатуды өтінеміз";
  "Тым қысқа, кемінде 6 таңба.";
  "Растау сәйкес келмейді.";
  "Рұқсаттар";
  "Қабылдау";
  "Босату";
  "Ажырату";
  "Файылды көшіру мен қоюды рұқсат ету";
  "Қосылды";
  "Тікелей және кіриптелген қосылым";
  "Релайданған және кіриптелген қосылым";
  "Тікелей және кіриптелмеген қосылым";
  "Релайданған және кіриптелмеген қосылым";
  "Қашықтағы ID еңгізіңіз";
  "Құпия сөзіңізді енгізіңіз";
  "Кіруде...";
  "RDP сешті бөлісуді іске қосу";
  with_quotes ["Ауты Кіру ("; "Сеш аяқталған соң құлыптау"; "'ды орнатқанда ғана жарамды)"];
  "Тікелей IP Қолжетімді іске қосу";
  "Атын өзгерту";
  "Орын";
  "Жұмыс үстелі Таңбашасын Жасау";
  "Жолды өзгерту";
  "Бума жасау";
  "Буманың атауын еңгізуді өтінеміз";
  "Түзету";
  "Ескерту";
  "Wayland қолданған Кіру екіреніне қолдау көрсетілмейді";
  "Қайта-қосу қажет";
  "Қолдаусыз дисплей сербері";
  "x11 күтілген";
  "Порт";
  "Орнатпалар";
  "Қолданушы аты";
  "Бұрыс порт";
  "Пир қолымен жабылған";
  "Қашықтан қалыптарды өзгертуді іске қосу";
  "Орнатпай-ақ Іске қосу";
  "";
  "Әрқашан да релай сербері арқылы қосылу";
  "Маған тек ақ-тізімделген IP қол жеткізе алады";
  "Кіру";
  "";
  "";
  "";
  "";
  "";
  "Шығу";
  "Тақтар";
  "ID Іздеу";
  "Үтір, нүктелі үтір, бос орын және жаңа жолал арқылы бөлінеді";
  "ID Қосу";
  "Тақ Қосу";
  "Барлық тақтардың таңдауын алып тастау";
  "Желі қатесі";
  "Қолданушы аты бос";
  "Құпия сөз бос";
  "Бұрыс тіркелгі деректер";
  "";
  "Тақты Өндеу";
  "Құпия сөзді Ұмыту";
  "Таңдаулылар";
  "Таңдаулыларға Қосу";
  "Таңдаулылардан алып тастау";
  "Бос";
  "Бұрыс бума атауы";
  "Socks5 Proxy";
  "Socks5/Http(s) Proxy";
  "Табылды";
  "Бут кезінде қосылу үшін жүйелік сербесті орнатуыныз керек.";
  "Қашықтағы ID";
  "Қою";
  "Осында қою керек пе?";
  "Қосылымды жабуға сенімдісіз бе?";
  "Жаңа нұсқаны жүктеу";
  "Жанасатын мода";
  "Тінтуірлі мода";
  "Бір-Саусақпен Түрту";
  "Солақ Тінтуір";
  "Бір-Ұзақ Түрту";
  "Екі-Саусақпен Түрту";
  "Оңақ Тінтуір";
  "Бір-Саусақпен Жылжыту";
  "Екі-рет Түртіп Жылжыту";
  "Тінтуір Тартуы";
  "Үш-Саусақпен тік-бағытты";
  "Тінтуір Дөңгелегі";
  "Екі-Саусақпен Жылжыту";
  "Кенеп Жылжуы";
  "Зумдау үшін Шымшыңыз";
  "Кенеп Зумы";
  "Кенепті қалпына келтіру";
  "Файыл алмасуға рұқсат берілмеген";
  "Нота";
  "Қосылым";
  "Екіренді Бөлісу";
  "Чат";
  "Барлығы";
  "зат";
  "Таңдалған";
  "Екіренді Түсіру";
  "Еңгізуді Басқару/Қадағалау";
  "Аудио Түсіру";
  "Файыл Қосылымы";
  "Екірен Қосылымы";
  "Қабылдайсыз ба?";
  "Жүйе Орнатпаларын Ашу";
  "Android еңгізу рұқсатын қалай алуға болады?";
  with_quotes ["Қашықтағы құрылғы сіздің Android құрылғыңызды тінтуір немесе түрту арқылы басқару үшін, RustDesk'ке "; "Қолжетімділік"; " сербесін қолдануға рұқсат беруініз керек."];
  "Келесі Жүйе Орнатпалары бетіне барып, [Орнатылған Сербестер]'ді тауып кіріңіз, сосын [RustDesk Еңгізу] сербесін іске қосыңыз.";
  "Сіздің ағымдағы құрылғыңызды басқаруды қалайтын жаңа басқару сұранысы түсті.";
  with_quotes [""; "Екіренді Тұсіру"; " қосылған кезде сербес аутыматты іске қосылып, басқа құрылғыларға сіздің құрылғыға қосылым сұраныстауға мүмкіндің береді."];
  "Сербесті жабу аутыматты түрде барлық орнатылған қосылымдарды жабады.";
  "Ағымдағы Android нұсқасы аудионы түсіруді қолдамайды, Android 10 не жоғарғысына жаңғыртуды өтінеміз.";
  "";
  "";
  "Есепкі";
  "Үстінен қайта жазу";
  "Бұл файыл бар, өткізіп жіберу әлде үстінен қайта жазу керек пе?";
  "Шығу";
  "Көмек";
  "Сәтсіз";
  "Сәтті";
  "Біреу құпиялылық модасын қосты, шығу";
  "Қолдаусыз";
  "Пир қабылдамады";
  "Плагиндерді орнатуды өтінеміз";
  "Пирдің шығуы";
  "Сөндіру сәтсіз болды";
  "Өшірілген";
  "Тіл";
  "Артжақтағы RustDesk сербесін сақтап тұру";
  "Бәтері Оңтайландыруларын Елемеу";
  "Егер де бұл ерекшелікті өшіруді қаласаңыз, келесі RustDesk апылқат орнатпалары бетіне барып, [Бәтері]'ні тауып кіріңіз де [Шектеусіз]'ден құсбелгіні алып тастауды өтінеміз";
  "";
  "";
  "Қосылу рұқсат етілмеген";
  "";
  "";
  "";
  "Тұрақты құпия сөзді қолдану";
  "Қос құпия сөзді қолдану";
  "Тұрақты құпия сөзді орнату";
  "Қашықтан қайта-қосуды іске қосу";
  "Қашықтағы құрылғыны қайта-қосу";
  "Қайта-қосуға сенімдісіз бе?";
  "Қашықтағы Құрылғыны қайта-қосуда";
  "Қашықтағы құрылғы қайта-қосылуда, бұл хабар терезесін жабып, біраздан соң тұрақты құпия сөзбен қайта қосылуды өтінеміз";
  "Көшірілді";
  "Толық екіреннен Шығу";
  "Толық екірен";
  "Мабыл Әрекеттері";
  "Мониторды Таңдау";
  "Басқару Әрекеттері";
  "Дисплей Орнатпалары";
  "Арақатынас";
  "Сурет Сапасы";
  "Scroll Теңшетұрі";
  "";
  "";
  "Тікелей Қосылым";
  "Релай Қосылым";
  "Қауіпсіз Қосылым";
  "Қатерлі Қосылым";
  "Scale original";
  "Scale adaptive";
  "";
  "";
  "";
  "";
  "";
  "";
  "";
  "";
  "";
  "";
  "";
  "";
  "";
  "";
  "";
  "";
  "";
  "";
  "";
  "";
  "";
  "";
  "";
  "";
  "";
  "";
  "";
  "";
  "";
  "";
  "";
  "";
  "";
  "";
  "";
  "";
  "";
  "";
  "";
  "";
  "";
  "";
  "";
  "Wayland Ubuntu 21.04 немесе одан жоғары нұсқасын қажет етеді.";
  "Wayland linux дистрибутивінің жоғарырақ нұсқасын қажет етеді. X11 жұмыс үстелін қолданып көріңіз немесе операциялық жүйеңізді өзгертіңіз.";
  "View";
  "Бөлісетін экранды таңдаңыз (бірдей жағынан жұмыс жасаңыз).";
  "";
  "";
  "";
  "";
  "";
  "";
  "";
  "";
  "";
  "";
  "";
  "";
  "";
  "";
  "";
  "";
  "";
  "";
  "";
  "";
  "";
  "";
  "";
  "";
  "";
  "";
  "";
  "";
  "";
  "";
  "";
  "";
  "";
  "";
  "";
  "";
  "";
  "";
  "";
  "";
  "";
  "";
  "";
  "";
  "";
  "";
  "";
  "";
  "";
  "";
  "";
  "";
  "";
  "";
  "";
  "";
  "";
  "";
  "";
  "";
  "";
  "";
  "";
  "";
  "";
  "";
  "";
  "";
  "";
  "";
  "";
  "";
  "";
  "";
  "";
  "";
  "";
  "";
  "";
  "";
  "";
  "";
  "";
  "";
  "";
  "";
  "";
  "";
  "";
  "";
  "";
  "";
  "";
  "";
  "";
  "";
  "";
  "";
  "";
  "";
  "";
  "";
  "";
  "";
  "";
  "";
  "";
  "";
  "";
  "";
  "";
  "";
  "";
  "";
  "";
  "";
  "";
  "";
  "";
  "";
  "";
  "";
  "";
  "";
  "";
  "";
  "";
  "";
  "";
  "";
  "";
  "";
  "";
  "";
  "";
  "";
  "";
  "";
  "";
  "";
  "";
  "";
  "";
  "";
  "";
  "";
  "";
  "";
  "";
  "";
  "";
  "";
  "";
  "";
  "";
  "";
  "";
  "";
  "";
  "";
  "";
  "";
  "";
  "";
  "";
  "";
  "";
  "";
  "";
  "";
  "";
  "";
  "";
  "";
  "";
  "";
  "";
  "";
  "";
  "";
  "";
  "";
  "";
  "";
  "";
  "";
  "";
  "";
  "";
  "";
  "";
  "";
  "";
  "";
  "";
  "";
  "";
  "";
  "";
  "";
  "";
  "";
  "";
  "";
  "";
  "";
  "";
  "";
  "";
  "";
  "";
  "";
  "";
  "";
  "";
  "";
  "";
  "";
  "";
  "";
  "";
  "";
  "";
  "";
  "";
  "";
  "";
  "";
  "";
  "";
  "";
  "";
  "";
  "";
  "";
  "";
  "";
  "";
  "";
  "";
  "";
  "";
  "";
  "";
  "";
  "";
  "";
  "";
  "";
  "";
  "";
  "";
  "";
  "";
  "";
  "";
  "";
  "";
  "";
  "";
  "";
  "";
  "";
  "";
  "";
  "";
  "";
  "";
  "";
  "";
  "";
  ""].
(** [LANGS.lt] *)
Definition lang_lt : jsmap string string := texts [
  "Būsena";
  "Jūsų darbalaukis";
  "Jūsų darbalaukis pasiekiamas naudojant šį ID ir slaptažodį";
  "Slaptažodis";
  "Pasiruošęs";
  "Įsteigta";
  "Prisijungiama prie RustDesk tinklo...";
  "Įgalinti paslaugą";
  "Pradėti paslaugą";
  "Paslauga veikia";
  "Paslauga neveikia";
  "Neprisijungęs. Patikrinkite ryšį.";
  "Nuotolinio darbalaukio valdymas";
  "Perkelti failą";
  "Prisijungti";
  "Seansų istorija";
  "Adresų knyga";
  "Patvirtinimas";
  "TCP tuneliavimas";
  "Pašalinti";
  "Atnaujinti atsitiktinį slaptažodį";
  "Nustatykite savo slaptažodį";
  "Įgalinti klaviatūrą/pelę";
  "Įgalinti iškarpinę";
  "Įgalinti failų perdavimą";
  "Įgalinti TCP tuneliavimą";
  "IP baltasis sąrašas";
  "ID / perdavimo serveris";
  "Importuoti serverio konfigūraciją";
  "Eksportuoti serverio konfigūraciją";
  "Sėkmingai importuoti serverio konfigūraciją";
  "Sėkmingai eksportuoti serverio konfigūraciją";
  "Netinkama serverio konfigūracija";
  "Iškarpinė tuščia";
  "Sustabdyti paslaugą";
  "Keisti ID";
  "Jūsų naujasis ID";
  "ilgis %min% iki %max%";
  "prasideda raide";
  "leistini simboliai";
  "Leidžiami tik simboliai a–z, A–Z, 0–9 ir _ (pabraukimas). Pirmoji raidė turi būti a-z, A-Z. Ilgis nuo 6 iki 16.";
  "Interneto svetainė";
  "Apie";
  "Sukurta su siela šiame beprotiškame pasaulyje!";
  "Privatumo pareiškimas";
  "Nutildyti";
  "Sukūrimo data";
  "Versija";
  "Namai";
  "Garso įvestis";
  "Patobulinimai";
  "Aparatinės įrangos paspartinimas";
  "Adaptyvusis pralaidumas";
  "ID serveris";
  "Perdavimo serveris";
  "API serveris";
  "Turi prasidėti http:// arba https://";
  "Netinkamas IP";
  "Neteisingas formatas";
  "Serveris dar nepalaikomas";
  "Nepasiekiamas";
  "Per dažnai";
  "Atšaukti";
  "Praleisti";
  "Uždaryti";
  "Bandykite dar kartą";
  "GERAI";
  "Reikalingas slaptažodis";
  "Prašome įvesti savo slaptažodį";
  "Prisiminti slaptažodį";
  "Neteisingas slaptažodis";
  "Ar norite įeiti dar kartą?";
  "Ryšio klaida";
  "Klaida";
  "Atmetė nuotolinis kompiuteris";
  "Jungiamasi...";
  "Jungiamasi. Palaukite.";
  "Prašome pabandyti po 1 minutės";
  "Prisijungimo klaida";
  "Sėkmingai";
  "Prisijungta, laukiama vaizdo...";
  "Vardas";
  "Tipas";
  "Pakeista";
  "Dydis";
  "Rodyti paslėptus failus";
  "Gauti";
  "Siųsti";
  "Atnaujinti failą";
  "Vietinis";
  "Nuotolinis";
  "Nuotolinis kompiuteris";
  "Šis kompiuteris";
  "Patvirtinti ištrynimą";
  "Ištrinti";
  "Ypatybės";
  "Keli pasirinkimas";
  "Pasirinkti viską";
  "Atšaukti visų pasirinkimą";
  "Tuščias katalogas";
  "Ne tuščias katalogas";
  "Ar tikrai norite ištrinti šį failą?";
  "Ar tikrai norite ištrinti šį tuščią katalogą?";
  "Ar tikrai norite ištrinti šio katalogo failą?";
  "Taikyti visiems konfliktams";
  "Tai negrįžtama!";
  "Ištrinama";
  "failai";
  "Laukiu";
  "Baigta";
  "Greitis";
  "Tinkinta vaizdo kokybė";
  "Privatumo režimas";
  "Blokuoti naudotojo įvestį";
  "Atblokuoti naudotojo įvestį";
  "Koreguoti langą";
  "Originalas";
  "Susitraukti";
  "Ištempti";
  "Slinkties juosta";
  "Automatinis slinkimas";
  "Gera vaizdo kokybė";
  "Subalansuotas";
  "Optimizuoti reakcijos laiką";
  "Tinkintas";
  "Rodyti nuotolinį žymeklį";
  "Rodyti kokybės monitorių";
  "Išjungti mainų sritį";
  "Užrakinti pasibaigus seansui";
  "Įdėti Ctrl + Alt + Del";
  "Įterpti užraktą";
  "Atnaujinti";
  "ID neegzistuoja";
  "Nepavyko prisijungti prie susitikimo serverio";
  "Prašome pabandyti vėliau";
  "Nuotolinis darbalaukis neprisijungęs";
  "Raktų neatitikimas";
  "Laikas baigėsi";
  "Nepavyko prisijungti prie perdavimo serverio";
  "Nepavyko prisijungti per susitikimo serverį";
  "Nepavyko prisijungti per perdavimo serverį";
  "Nepavyko tiesiogiai prisijungti prie nuotolinio darbalaukio";
  "Nustatyti slaptažodį";
  "OS slaptažodis";
  "Kai kuriais atvejais UAC gali priversti RustDesk netinkamai veikti nuotoliniame pagrindiniame kompiuteryje. Norėdami apeiti UAC, spustelėkite toliau esantį mygtuką, kad įdiegtumėte RustDesk į savo kompiuterį.";
  "Spustelėkite, jei norite atnaujinti";
  "Spustelėkite norėdami atsisiųsti";
  "Spustelėkite norėdami atnaujinti";
  "Konfigūruoti";
  with_quotes ["Norėdami nuotoliniu būdu valdyti darbalaukį, turite suteikti RustDesk "; "prieigos"; " leidimus"];
  with_quotes ["Norėdami nuotoliniu būdu pasiekti darbalaukį, turite suteikti RustDesk leidimus "; "ekrano kopija"; ""];
  "Diegiama ...";
  "Diegti";
  "Įdiegimas";
  "Įdiegimo kelias";
  "Sukurti pradžios meniu sparčiuosius klavišus";
  "Sukurti darbalaukio piktogramą";
  "Pradėdami diegimą sutinkate su licencijos sutarties sąlygomis";
  "Priimti ir įdiegti";
  "Galutinio vartotojo licencijos sutartis";
  "Generuojamas...";
  "Jūsų įdiegta versija senesnė.";
  "Naudodami tunelį neuždarykite šio lango";
  "Laukimas...";
  "Nuotolinis pagrindinis kompiuteris";
  "Nuotolinis prievadas";
  "Veiksmas";
  "Papildyti";
  "Vietinis prievadas";
  "Vietinis adresas";
  "Keisti vietinį prievadą";
  "Kad ryšys būtų greitesnis, nustatykite savo serverį";
  "Per trumpas, mažiausiai 6 simboliai.";
  "Patvirtinimas nėra tapatus.";
  "Leidimai";
  "Priimti";
  "Atmesti";
  "Atjungti";
  "Leisti kopijuoti ir įklijuoti failus";
  "Prisijungta";
  "Tiesioginis ir šifruotas ryšys";
  "Perduotas ir šifruotas ryšys";
  "Tiesioginis ir nešifruotas ryšys";
  "Perduotas ir nešifruotas ryšys";
  "Įveskite nuotolinio ID";
  "Įveskite savo slaptažodį";
  "Prisijungiama...";
  "Įgalinti RDP seansų bendrinimą";
  "Automatinis prisijungimas";
  "Įgalinti tiesioginę IP prieigą";
  "Pervardyti";
  "Erdvė";
  "Sukurti nuorodą darbalaukyje";
  "Keisti kelią";
  "Sukurti aplanką";
  "Įveskite aplanko pavadinimą";
  "Pataisyk tai";
  "Įspėjimas";
  "Prisijungimo ekranas naudojant Wayland nepalaikomas";
  "Reikia paleisti iš naujo";
  "Nepalaikomas rodymo serveris";
  "reikalingas x11";
  "Prievadas";
  "Nustatymai";
  "Vartotojo vardas";
  "Netinkamas prievadas";
  "Partneris atmetė prašymą prisijungti";
  "Įgalinti nuotolinį konfigūracijos modifikavimą";
  "Vykdyti be diegimo";
  "Prisijungti per relę";
  "Visada prisijunkite per relę";
  "Mane gali pasiekti tik baltajame sąraše esantys IP adresai";
  "Prisijungti";
  "Patvirtinti";
  "Prisimink mane";
  "Pasitikėk šiuo įrenginiu";
  "Patvirtinimo kodas";
  "Aptiktas naujas įrenginys ir registruotu el. pašto adresu išsiųstas patvirtinimo kodas. Įveskite jį norėdami tęsti prisijungimą.";
  "Atsijungti";
  "Žymos";
  "Paieškos ID";
  "Atskirti kableliu, kabliataškiu, tarpu arba nauja eilute";
  "Pridėti ID";
  "Pridėti žymą";
  "Atšaukti visų žymų pasirinkimą";
  "Tinklo klaida";
  "Prarastas vartotojo vardas";
  "Slaptažodis praleistas";
  "Klaidingi kredencialai";
  "";
  "Redaguoti žymą";
  "Nebeprisiminti slaptažodžio";
  "Parankiniai";
  "Įtraukti į parankinius";
  "Pašalinti iš parankinių";
  "Tuščia";
  "Neteisingas aplanko pavadinimas";
  "Socks5 Proxy";
  "Socks5/Http(s) Proxy";
  "Aptikta tinkle";
  "Norėdami, kad RustDesk startuotų automatiškai, turite ją įdiegti";
  "Nuotolinis ID";
  "Įklijuoti";
  "Įklijuoti čia?";
  "Ar tikrai norite atsijungti?";
  "Atsisiųsti naują versiją";
  "Palietimo režimas";
  "Pelės režimas";
  "Palietimas vienu pirštu";
  "Kairysis pelės kl.";
  "Vienas palietimas";
  "Palietimas dviem pirštais";
  "Dešinysis pelės kl.";
  "Vieno piršto judesys";
  "Dukart palieskite ir perkelkite";
  "Pelės vilkimas";
  "Trys pirštai vertikaliai";
  "Pelės ratukas";
  "Dviejų pirštų judesys";
  "Drobės perkėlimas";
  "Suimkite, kad padidintumėte";
  "Drobės mastelis";
  "Atstatyti drobę";
  "Nėra leidimo perkelti failus";
  "Pastaba";
  "Ryšys";
  "Bendrinti ekraną";
  "Pokalbis";
  "Iš viso";
  "elementai";
  "Pasirinkta";
  "Ekrano nuotrauka";
  "Įvesties valdymas";
  "Garso fiksavimas";
  "Failo ryšys";
  "Ekrano jungtis";
  "Ar sutinki?";
  "Atviros sistemos nustatymas";
  "Kaip gauti Android įvesties leidimą?";
  with_quotes ["Kad nuotolinis įrenginys galėtų valdyti Android įrenginį pele arba liesti, turite leisti RustDesk naudoti "; "Prieinamumo"; " paslaugą."];
  with_quotes ["Eikite į kitą sistemos nustatymų puslapį, suraskite "; "Įdiegtos paslaugos"; " ir įgalinkite "; "RustDesk įvestis"; " paslaugą."];
  "Gauta nauja užklausa tvarkyti dabartinį įrenginį.";
  "Įgalinus ekrano fiksavimo paslaugą, kiti įrenginiai gali pateikti užklausą prisijungti prie to įrenginio.";
  "Uždarius paslaugą automatiškai bus uždaryti visi užmegzti ryšiai.";
  "Dabartinė Android versija nepalaiko garso įrašymo, atnaujinkite į Android 10 ar naujesnę versiją.";
  "Spustelėkite [Paleisti paslaugą] arba įjunkite [Fiksuoti ekraną], kad paleistumėte ekrano bendrinimo paslaugą.";
  "Užmegztų ryšių leidimų keisti negalima, reikia prisijungti iš naujo.";
  "Paskyra";
  "Perrašyti";
  "Šis failas egzistuoja, praleisti arba perrašyti šį failą?";
  "Išeiti";
  "Pagalba";
  "Nepavyko";
  "Pavyko";
  "Kažkas įjungė privatumo režimą, išeiti";
  "Nepalaikomas";
  "Atšaukė";
  "Įdiekite papildinius";
  "Nuotolinis mazgas neveikia";
  "Nepavyko išjungti";
  "Išjungti";
  "Kalba";
  "Palikti RustDesk fonine paslauga";
  "Ignoruoti akumuliatoriaus optimizavimą";
  "Eikite į kitą nustatymų puslapį";
  "Pradėti paleidžiant";
  "Paleiskite ekrano bendrinimo paslaugą įkrovos metu, reikia specialių leidimų";
  "Ryšys neleidžiamas";
  "Senasis režimas";
  "Žemėlapio režimas";
  "Vertimo režimas";
  "Naudoti nuolatinį slaptažodį";
  "Naudoti abu slaptažodžius";
  "Nustatyti nuolatinį slaptažodį";
  "Įgalinti nuotolinį paleidimą iš naujo";
  "Paleisti nuotolinį kompiuterį iš naujo";
  "Ar tikrai norite paleisti iš naujo?";
  "Nuotolinio įrenginio paleidimas iš naujo";
  "Nuotolinis įrenginys paleidžiamas iš naujo. Uždarykite šį pranešimą ir po kurio laiko vėl prisijunkite naudodami nuolatinį slaptažodį.";
  "Nukopijuota";
  "Išeiti iš pilno ekrano";
  "Per visą ekraną";
  "Veiksmai mobiliesiems";
  "Pasirinkite monitorių";
  "Valdymo veiksmai";
  "Ekrano nustatymai";
  "Santykis";
  "Vaizdo kokybė";
  "Slinkimo stilius";
  "";
  "";
  "Tiesioginis ryšys";
  "Tarpinė jungtis";
  "Saugus ryšys";
  "Nesaugus ryšys";
  "Pakeisti originalų mastelį";
  "Pritaikomas mastelis";
  "Bendra";
  "Sauga";
  "Tema";
  "Tamsioji tema";
  "Šviesi tema";
  "Tamsi";
  "Šviesi";
  "Kaip sistemos";
  "Įgalinti";
  "Atrakinti saugos nustatymus";
  "Įgalinti garsą";
  "Atrakinti tinklo nustatymus";
  "Serveris";
  "Tiesioginė IP prieiga";
  "Tarpinis serveris";
  "Taikyti";
  "Atjungti visus įrenginius?";
  "Išvalyti";
  "Garso įvestis";
  "Naudoti patikimą IP sąrašą";
  "Tinklas";
  "";
  "";
  "Įrašymas";
  "Katalogas";
  "Automatiškai įrašyti įeinančius seansus";
  "";
  "Keisti";
  "Pradėti seanso įrašinėjimą";
  "Sustabdyti seanso įrašinėjimą";
  "Įgalinti seanso įrašinėjimą";
  "Įgalinti LAN aptikimą";
  "Neleisti LAN aptikimo";
  "Rašyti žinutę";
  "Užuomina";
  "Palaukite UAC patvirtinimo...";
  "Dabartinis nuotolinio darbalaukio langas reikalauja didesnių privilegijų, todėl laikinai neįmanoma naudoti pelės ir klaviatūros. Galite paprašyti nuotolinio vartotojo sumažinti dabartinį langą arba spustelėti aukščio mygtuką ryšio valdymo lange. Norint išvengti šios problemos ateityje, rekomenduojama programinę įrangą įdiegti nuotoliniame įrenginyje.";
  "Atsijungęs";
  "Kita";
  "Patvirtinti prieš uždarant kelis skirtukus";
  "Klaviatūros nustatymai";
  "Pilna prieiga";
  "Ekrano bendrinimas";
  "Wayland reikalauja Ubuntu 21.04 arba naujesnės versijos.";
  "Wayland reikalinga naujesnės Linux Distro versijos. Išbandykite X11 darbalaukį arba pakeiskite OS.";
  "Peržiūra";
  "Prašome pasirinkti ekraną, kurį norite bendrinti (veikiantį kitoje pusėje).";
  "Rodyti RustDesk";
  "Šis kompiuteris";
  "arba";
  "Tęsti su";
  "Pakelti";
  "Mastelio keitimo žymeklis";
  "Priimti seansus naudojant slaptažodį";
  "Priimti seansus spustelėjus";
  "Priimti seansus abiem variantais";
  "Palaukite, kol nuotolinė pusė priims jūsų seanso užklausą...";
  "Vienkartinis slaptažodis";
  "Naudoti vienkartinį slaptažodį";
  "Vienkartinio slaptažodžio ilgis";
  "Prašo leidimo valdyti jūsų įrenginį";
  "Slėpti ryšio valdymo langą";
  "Leisti paslėpti didžiąją ir mažąją raidę, jei priimamos slaptažodžio sesijos arba naudojamas nuolatinis slaptažodis";
  "Wayland palaikymas yra eksperimentinis, naudokite X11, jei jums reikalingas automatinis prisijungimas.";
  "Dešiniuoju pelės mygtuku spustelėkite, kad pasirinktumėte skirtukus";
  "Praleisti";
  "Pridėti prie adresų knygos";
  "Grupė";
  "Paieška";
  "Uždaryta rankiniu būdu naudojant žiniatinklio konsolę";
  "Vietinės klaviatūros tipas";
  "Pasirinkite vietinės klaviatūros tipą";
  "Jei turite Nvidia vaizdo plokštę ir nuotolinis langas iškart užsidaro prisijungus, gali padėti „Nouveau“ tvarkyklės įdiegimas ir programinės įrangos atvaizdavimo pasirinkimas. Būtina paleisti iš naujo.";
  "Visada naudoti programinį spartintuvą";
  with_quotes ["Norėdami valdyti nuotolinį darbalaukį naudodami klaviatūrą, turite suteikti RustDesk leidimus "; "Įvesties monitoringas"; "."];
  with_quotes ["Norėdami kalbėtis su nuotoline puse, turite suteikti RustDesk leidimą "; "Įrašyti garsą"; "."];
  "Taip pat galite prašyti tesių suteikimo, jeigu kas nors yra nuotolinėje pusėje.";
  "Laukti";
  "Teisių suteikimo klaida";
  "Klauskite nuotolinio vartotojo autentifikavimo";
  "Pasirinkite tai, jei nuotolinė paskyra yra administratorius";
  "Persiųsti administratoriaus vartotojo vardą ir slaptažodį";
  with_quotes ["Vis tiek reikia, kad nuotolinis vartotojas paleidžiant RustDesk UAC lange paspaustų "; "OK"; "."];
  "Prašyti teisių";
  "Palaukite, kol nuotolinis vartotojas patvirtins UAC užklausą.";
  "Teisės suteiktos";
  "didžiosios raidės";
  "mažosios raidės";
  "skaitmuo";
  "specialusis simbolis";
  "ilgis>=8";
  "Silpnas";
  "Vidutinis";
  "Stiprus";
  "Perjungti puses";
  "Prašome patvirtinti, jeigu norite bendrinti darbalaukį?";
  "Ekranas";
  "Numatytasis peržiūros stilius";
  "Numatytasis slinkties stilius";
  "Numatytoji vaizdo kokybė";
  "Numatytasis kodekas";
  "Sparta";
  "FPS";
  "Automatinis";
  "Kitos numatytosios parinktys";
  "Balso skambutis";
  "Tekstinis pokalbis";
  "Sustabdyti balso skambutį";
  with_quotes ["Tiesioginis ryšys gali būti neįmanomas. Tokiu atveju galite pabandyti prisijungti per perdavimo serverį. \nArba, jei norite iš karto naudoti perdavimo serverį, prie ID galite pridėti priesagą "; "/r"; " arba nuotolinio pagrindinio kompiuterio nustatymuose įgalinti "; "Visada prisijungti per relę"; "."];
  "Prisijungti iš naujo";
  "Kodekas";
  "Rezoliucija";
  "Nevyksta jokių perdavimų";
  "Nustatyti vienkartinio slaptažodžio ilgį";
  "RDP nustatymai";
  "Rūšiuoti pagal";
  "Naujas ryšys";
  "Atkurti";
  "Sumažinti";
  "Padidinti";
  "Jūsų įrenginys";
  "Nėra paskutinių seansų!\nLaikas suplanuoti naują.";
  "Dar neturite parankinių nuotolinių seansų.";
  "Nuotolinių mazgų nerasta.";
  "Adresų knygelėje nėra nuotolinių kompiuterių.";
  "pvz.: administratorius";
  "Tuščias naudotojo vardas";
  "Tuščias slaptažodis";
  "Aš";
  "Failas yra identiškas nuotoliniame kompiuteryje esančiam failui.";
  "Rodyti monitorius įrankių juostoje";
  "Peržiūros režimas";
  "Norėdami įjungti X darbalaukio seansą, turite būti prisijungę prie nuotolinės Linux paskyros.";
  "Įveskite kliento RustDesk slaptažodį";
  "Prisiminti šią paskyrą";
  "Ši paskyra naudojama norint prisijungti prie nuotolinės OS ir įgalinti darbalaukio seansą režimu headless";
  "OS paskyra";
  "Kitas vartotojas jau yra prisijungęs";
  "Atjungti";
  "Xorg nerastas";
  "Prašom įdiegti Xorg";
  "Nėra pasiekiamų nuotolinių darbalaukių";
  "Prašom įdiegti GNOME Desktop";
  "";
  "";
  "";
  "";
  "";
  "";
  "";
  "";
  "";
  "";
  "";
  "";
  "";
  "";
  "";
  "";
  "";
  "";
  "";
  "";
  "";
  "";
  "";
  "";
  "";
  "";
  "";
  "";
  "";
  "";
  "";
  "";
  "";
  "";
  "";
  "";
  "";
  "";
  "";
  "";
  "";
  "";
  "";
  "";
  "";
  "";
  "";
  "";
  "";
  "";
  "";
  "";
  "";
  "";
  "";
  "";
  "";
  "";
  "";
  "";
  "";
  "";
  "";
  "";
  "";
  "";
  "";
  "";
  "";
  "";
  "";
  "";
  "";
  "";
  "";
  "";
  "";
  "";
  "";
  "";
  "";
  "";
  "";
  "";
  "";
  "";
  "";
  "";
  "";
  "";
  "";
  "";
  "";
  "";
  "";
  "";
  "";
  "";
  "";
  "";
  "";
  "";
  "";
  "";
  "";
  "";
  "";
  "";
  "";
  "";
  "";
  "";
  "";
  "";
  "";
  "";
  "";
  "";
  "";
  "";
  "";
  "";
  "";
  "";
  "";
  "";
  "";
  "";
  "";
  "";
  "";
  "";
  "";
  "";
  "";
  "";
  "";
  "";
  "";
  "";
  "";
  "";
  "";
  "";
  "";
  "";
  "";
  "";
  "";
  "";
  "";
  "";
  "";
  "";
  "";
  "";
  "";
  "";
  "";
  "";
  "";
  "";
  "";
  "";
  "";
  "";
  "";
  "";
  "";
  "";
  "";
  "";
  "";
  "";
  "";
  ""].
(** [LANGS.lv] *)
Definition lang_lv : jsmap string string := texts [
  "Statuss";
  "Jūsu darbvirsma";
  "Jūsu darbvirsmai var piekļūt ar šo ID un paroli.";
  "Parole";
  "Gatavs";
  "Izveidots";
  "Notiek savienojuma izveide ar RustDesk tīklu...";
  "Iespējot servisu";
  "Sākt servisu";
  "Pakalpojums darbojas";
  "Pakalpojums nedarbojas";
  "Nav gatavs. Lūdzu, pārbaudiet savienojumu";
  "Vadīt attālo darbvirsmu";
  "Pārsūtīt failu";
  "Savienoties";
  "Pēdējās sesijas";
  "Adrešu grāmata";
  "Apstiprinājums";
  "TCP tunelēšana";
  "Noņemt";
  "Atsvaidzināt nejaušo paroli";
  "Iestatiet savu paroli";
  "Iespējot tastatūru/peli";
  "Iespējot starpliktuvi";
  "Iespējot failu pārsūtīšanu";
  "Iespējot TCP tunelēšanu";
  "IP baltais saraksts";
  "ID/releja serveris";
  "Importēt servera konfigurāciju";
  "Eksportēt servera konfigurāciju";
  "Servera konfigurācija veiksmīgi importēta";
  "Servera konfigurācija veiksmīgi eksportēta";
  "Nederīga servera konfigurācija";
  "Starpliktuve ir tukša";
  "Apturēt servisu";
  "Mainīt ID";
  "Jūsu jaunais ID";
  "garums %min% līdz %max%";
  "sākas ar burtu";
  "atļautās rakstzīmes";
  "Atļautas tikai rakstzīmes a-z, A-Z, 0-9, - (dash) un _ (pasvītrojums). Pirmajam burtam ir jābūt a-z, A-Z. Garums no 6 līdz 16.";
  "Tīmekļa vietne";
  "Par";
  "Radīts ar sirdi šajā haotiskajā pasaulē!";
  "Paziņojums par konfidencialitāti";
  "Izslēgt skaņu";
  "Būvēšanas datums";
  "Versija";
  "Sākums";
  "Audio ievade";
  "Uzlabojumi";
  "Aparatūras kodeks";
  "Adaptīvais bitu pārraides ātrums";
  "ID serveris";
  "Releja serveris";
  "API serveris";
  "jāsākas ar http:// vai https://";
  "Nederīga IP";
  "Nederīgs formāts";
  "Serveris vēl neatbalsta";
  "Nav pieejams";
  "Pārāk bieži";
  "Atcelt";
  "Izlaist";
  "Aizvērt";
  "Mēģināt vēlreiz";
  "Labi";
  "Nepieciešama parole";
  "Lūdzu, ievadiet paroli";
  "Atcerēties paroli";
  "Nepareiza parole";
  "Vai vēlaties ievadīt vēlreiz?";
  "Savienojuma kļūda";
  "Kļūda";
  "Atiestatīts ar sesiju";
  "Notiek savienojuma izveide...";
  "Notiek savienošanās. Lūdzu, uzgaidiet.";
  "Lūdzu, mēģiniet 1 minūti vēlāk";
  "Pieteikšanās kļūda";
  "Veiksmīgi";
  "Savienots, gaida attēlu...";
  "Nosaukums";
  "Tips";
  "Modificēšanas dat.";
  "Lielums";
  "Rādīt slēptos failus";
  "Saņemt";
  "Sūtīt";
  "Atsvaidzināt failu";
  "Vietējais";
  "Attālais";
  "Attālais dators";
  "Vietējais dators";
  "Apstiprināt dzēšanu";
  "Dzēst";
  "Rekvizīti";
  "Vairākatlase";
  "Atlasīt visu";
  "Noņemt atlasi visiem";
  "Tukša direktorija";
  "Nav tukša direktorija";
  "Vai tiešām vēlaties dzēst šo failu?";
  "Vai tiešām vēlaties dzēst šo tukšo direktoriju?";
  "Vai tiešām vēlaties dzēst šī direktorija failu?";
  "Pielietot visiem konfliktiem";
  "Tas ir neatgriezeniski!";
  "Dzēšana";
  "faili";
  "Gaida";
  "Pabeigts";
  "Ātrums";
  "Pielāgota attēla kvalitāte";
  "Privātuma režīms";
  "Bloķēt lietotāja ievadi";
  "Atbloķēt lietotāja ievadi";
  "Pielāgot logu";
  "Oriģināls";
  "Saraut";
  "Izstiept";
  "Ritjosla";
  "Ritināt automātiski";
  "Laba attēla kvalitāte";
  "Sabalansēts";
  "Optimizēt reakcijas laiku";
  "Pielāgots";
  "Rādīt attālo kursoru";
  "Rādīt kvalitātes monitoru";
  "Atspējot starpliktuvi";
  "Bloķēt pēc sesijas beigām";
  "Ievietot Ctrl + Alt + Del";
  "Ievietot Bloķēt";
  "Atsvaidzināt";
  "ID neeksistē";
  "Neizdevās izveidot savienojumu ar starpposma serveri";
  "Lūdzu, mēģiniet vēlāk";
  "Attālā darbvirsma ir bezsaistē";
  "Atslēgu neatbilstība";
  "Noildze";
  "Neizdevās izveidot savienojumu ar releja serveri";
  "Neizdevās izveidot savienojumu, izmantojot starpposma serveri";
  "Neizdevās izveidot savienojumu, izmantojot releja serveri";
  "Neizdevās izveidot tiešu savienojumu ar attālo darbvirsmu";
  "Uzstādīt paroli";
  "OS parole";
  "UAC dēļ RustDesk dažos gadījumos nevar pareizi darboties kā attālā puse. Lai izvairītos no UAC, lūdzu, noklikšķiniet uz tālāk esošās pogas, lai instalētu RustDesk sistēmā.";
  "Jaunināt";
  "Lejupielādēt";
  "Atjaunināt";
  "Konfigurēt";
  with_quotes ["Lai attālināti vadītu savu darbvirsmu, jums ir jāpiešķir RustDesk "; "Pieejamība"; " atļaujas."];
  with_quotes ["Lai attālināti piekļūtu darbvirsmai, jums ir jāpiešķir RustDesk "; "Ekrāna tveršana"; " atļaujas."];
  "Notiek instalēšana...";
  "Uzstādīt";
  "Instalēšana";
  "Instalācijas ceļš";
  "Izveidot sākuma izvēlnes īsceļus";
  "Izveidot darbvirsmas ikonu";
  "Sākot instalēšanu, jūs piekrītat licences līgumam.";
  "Pieņemt un instalēt";
  "Gala lietotāja licences līgums";
  "Ģenerēšana...";
  "Jūsu instalācijai ir zemāka versija.";
  "Neaizveriet šo logu, kamēr izmantojat tuneli";
  "Klausās...";
  "Attālais resursdators";
  "Attālais ports";
  "Darbība";
  "Pievienot";
  "Vietējais ports";
  "Vietējā adrese";
  "Mainīt vietējo portu";
  "Lai iegūtu ātrāku savienojumu, lūdzu, iestatiet savu serveri";
  "Pārāk īss, vismaz 6 rakstzīmes.";
  "Apstiprinājums nav identisks.";
  "Atļaujas";
  "Pieņemt";
  "Noraidīt";
  "Atvienot";
  "Atļaut failu kopēšanu un ielīmēšanu";
  "Savienots";
  "Tiešs un šifrēts savienojums";
  "Pārslēgts un šifrēts savienojums";
  "Tiešs un nešifrēts savienojums";
  "Pārslēgts un nešifrēts savienojums";
  "Ievadiet attālo ID";
  "Ievadiet savu paroli";
  "Ielogoties...";
  "Iespējot RDP sesiju koplietošanu";
  with_quotes ["Automātiskā pieteikšanās (derīga tikai tad, ja esat iestatījis "; "Bloķēt pēc sesijas beigām"; ")"];
  "Iespējot tiešo IP piekļuvi";
  "Pārdēvēt";
  "Vieta";
  "Izveidot saīsni uz darbvirsmas";
  "Mainīt ceļu";
  "Izveidot mapi";
  "Lūdzu, ievadiet mapes nosaukumu";
  "Salabot to";
  "Brīdinājums";
  "Pieteikšanās ekrāns, izmantojot Wayland netiek atbalstīts";
  "Nepieciešama restartēšana";
  "Neatbalstīts displeja serveris";
  "x11 paredzams";
  "Ports";
  "Iestatījumi";
  "Lietotājvārds";
  "Nederīgs ports";
  "Sesija aizvērta manuāli";
  "Iespējot attālās konfigurācijas modifikāciju";
  "Palaist bez instalēšanas";
  "Savienot, izmantojot releju";
  "Vienmēr izveidot savienojumu, izmantojot releju";
  "Man var piekļūt tikai baltajā sarakstā iekļautās IP adreses";
  "Pieslēgties";
  "Pārbaudīt";
  "Atcerēties mani";
  "Uzticēties šai ierīcei";
  "Verifikācijas kods";
  "Verifikācijas kods ir nosūtīts uz reģistrēto e-pasta adresi, ievadiet verifikācijas kodu, lai turpinātu pieslēgšanos.";
  "Izlogoties";
  "Tagi";
  "Meklēt ID";
  "Atdalīts ar komatu, semikolu, atstarpēm vai jaunu rindiņu";
  "Pievienot ID";
  "Pievienot tagu";
  "Noņemt visu tagu atlasi";
  "Tīkla kļūda";
  "Lietotājvārds ir izlaists";
  "Parole nav ievadīta";
  "Nepareizs lietotājvārds vai parole";
  "Verifikācijas kods ir nepareizs vai tam ir beidzies derīguma termiņš";
  "Rediģēt tagu";
  "Neatcerēties paroli";
  "Izlase";
  "Pievienot pie izlases";
  "Noņemt no izlases";
  "Tukšs";
  "Nederīgs mapes nosaukums";
  "Socks5 starpniekserveris";
  "Socks5/Http(s) starpniekserveris";
  "Atklāts";
  "Lai palaistu pie startēšanas, ir jāinstalē sistēmas serviss.";
  "Attālais ID";
  "Ielīmēt";
  "Ielīmēt šeit?";
  "Vai tiešām vēlaties aizvērt savienojumu?";
  "Lejupielādēt jauno versiju";
  "Skārienrežīms";
  "Peles režīms";
  "Pieskāriens ar vienu pirkstu";
  "Kreisā pele";
  "Viens garš pieskāriens";
  "Pieskāriens ar diviem pirkstiem";
  "Labā pele";
  "Viena pirksta pārvietošana";
  "Dubultskāriens & pārvietošana";
  "Peles vilkšana";
  "Trīs pirksti vertikāli";
  "Peles ritenis";
  "Divu pirkstu pārvietošana";
  "Audekla pārvietošana";
  "Saspiediet, lai tuvinātu";
  "Audekla tālummaiņa";
  "Atiestatīt audeklu";
  "Nav atļaujas failu pārsūtīšanai";
  "Piezīme";
  "Savienojums";
  "Koplietot ekrānu";
  "Tērzēšana";
  "Kopā";
  "vienumi";
  "Atlasīts";
  "Ekrāna tveršana";
  "Ievades vadība";
  "Audio tveršana";
  "Failu savienojums";
  "Ekrāna savienojums";
  "Vai Jūs pieņemat?";
  "Atvērt sistēmas iestatījumus";
  "Kā iegūt Android ievades atļauju?";
  with_quotes ["Lai attālā ierīce varētu vadīt jūsu Android ierīci, izmantojot peli vai pieskārienu, jums ir jāatļauj RustDesk izmantot servisu "; "Pieejamība"; "."];
  "Lūdzu, dodieties uz nākamo sistēmas iestatījumu lapu, atrodiet un atveriet [Instalētie pakalpojumi], ieslēdziet servisu [RustDesk Input].";
  "Ir saņemts jauns vadības pieprasījums, kas vēlas kontrolēt jūsu pašreizējo ierīci.";
  with_quotes ["Ieslēdzot "; "Ekrāna tveršana"; ", serviss tiks automātiski startēts, ļaujot citām ierīcēm pieprasīt savienojumu ar jūsu ierīci."];
  "Pakalpojuma aizvēršana automātiski aizvērs visus izveidotos savienojumus.";
  "Pašreizējā Android versija neatbalsta audio uztveršanu, lūdzu, jauniniet uz Android" ++ nbsp ++ "10 vai jaunāku versiju.";
  "Pieskarieties [Sākt servisu] vai iespējojiet [Ekrāna tveršana] atļauju, lai sāktu ekrāna koplietošanas servisu.";
  "Izveidoto savienojumu atļaujas nevar mainīt uzreiz, kamēr nav atkārtoti izveidots savienojums.";
  "Konts";
  "Pārrakstīt";
  "Šis fails pastāv, izlaist vai pārrakstīt šo failu?";
  "Iziet";
  "Palīdzība";
  "Neizdevās";
  "Izdevās";
  "Kāds ieslēdza privātuma režīmu, iziet";
  "Neatbalstīts";
  "Sesija noraidīta";
  "Lūdzu, instalējiet spraudņus";
  "Iziet no attālās ierīces";
  "Neizdevās izslēgt";
  "Izslēgts";
  "Valoda";
  "Saglabāt RustDesk fona servisu";
  "Ignorēt akumulatora optimizāciju";
  "Ja vēlaties atspējot šo funkciju, lūdzu, dodieties uz nākamo RustDesk lietojumprogrammas iestatījumu lapu, atrodiet un atveriet [Akumulators], noņemiet atzīmi no [Neierobežots]";
  "Palaist pie ieslēgšanas";
  "Startējiet ekrāna koplietošanas pakalpojumu ieslēgšanas laikā, nepieciešamas īpašas atļaujas";
  "Savienojums nav atļauts";
  "Novecojis režīms";
  "Kartēšanas režīms";
  "Tulkošanas režīms";
  "Izmantot pastāvīgo paroli";
  "Izmantot abas paroles";
  "Iestatīt pastāvīgo paroli";
  "Iespējot attālo restartēšanu";
  "Restartēt attālo ierīci";
  "Vai tiešām vēlaties restartēt";
  "Attālās ierīces restartēšana";
  "Attālā ierīce tiek restartēta, lūdzu, aizveriet šo ziņojuma lodziņu un pēc kāda laika izveidojiet savienojumu ar pastāvīgo paroli";
  "Kopēts";
  "Iziet no pilnekrāna";
  "Pilnekrāna režīms";
  "Mobilās darbības";
  "Atlasīt monitoru";
  "Kontroles darbības";
  "Displeja iestatījumi";
  "Attiecība";
  "Attēla kvalitāte";
  "Ritināšanas stils";
  "Rādīt rīkjoslu";
  "Slēpt rīkjoslu";
  "Tiešais savienojums";
  "Releja savienojums";
  "Drošs savienojums";
  "Nedrošs savienojums";
  "Mērogs oriģināls";
  "Mērogs adaptīvs";
  "Vispārīgi";
  "Drošība";
  "Motīvs";
  "Tumšais motīvs";
  "Gaišais motīvs";
  "Tumšs";
  "Gaišs";
  "Sekot sistēmai";
  "Iespējot aparatūras kodeku";
  "Atbloķēt drošības iestatījumus";
  "Iespējot audio";
  "Atbloķēt tīkla iestatījumus";
  "Serveris";
  "Tiešā IP piekļuve";
  "Starpniekserveris";
  "Lietot";
  "Atvienot visas ierīces?";
  "Notīrīt";
  "Audio ievades ierīce";
  "Izmantot balto IP sarakstu";
  "Tīkls";
  "Piespraust rīkjoslu";
  "Atspraust rīkjoslu";
  "Ierakstīšana";
  "Direktorija";
  "Automātiski ierakstīt ienākošās sesijas";
  "Automātiski ierakstīt izejošās sesijas";
  "Mainīt";
  "Sākt sesijas ierakstīšanu";
  "Apturēt sesijas ierakstīšanu";
  "Iespējot sesijas ierakstīšanu";
  "Iespējot LAN atklāšanu";
  "Liegt LAN atklāšanu";
  "Rakstīt ziņojumu";
  "Uzvedne";
  "Lūdzu, uzgaidiet UAC apstiprinājumu...";
  "Pašreizējā attālās darbvirsmas loga darbībai ir nepieciešamas lielākas tiesības, tāpēc tas īslaicīgi nevar izmantot peli un tastatūru. Varat pieprasīt attālajam lietotājam samazināt pašreizējo logu vai noklikšķināt uz pacēluma pogas savienojuma pārvaldības logā. Lai izvairītos no šīs problēmas, ieteicams instalēt programmatūru attālajā ierīcē.";
  "Atvienots";
  "Cits";
  "Apstiprināt pirms vairāku cilņu aizvēršanas";
  "Tastatūras iestatījumi";
  "Pilna piekļuve";
  "Ekrāna kopīgošana";
  "Wayland nepieciešama Ubuntu 21.04 vai jaunāka versija.";
  "Wayland nepieciešama augstāka Linux distro versija. Lūdzu, izmēģiniet X11 desktop vai mainiet savu OS.";
  "Skatīt";
  "Lūdzu, atlasiet kopīgojamo ekrānu (darbojieties sesijas pusē).";
  "Rādīt RustDesk";
  "Šis dators";
  "vai";
  "Turpināt ar";
  "Pacelt";
  "Tālummaiņas kursors";
  "Pieņemt sesijas, izmantojot paroli";
  "Pieņemt sesijas, noklikšķinot";
  "Pieņemt sesijas, izmantojot abus";
  "Lūdzu, uzgaidiet, kamēr attālā puse pieņems jūsu sesijas pieprasījumu...";
  "Vienreizējā parole";
  "Izmantot vienreizējo paroli";
  "Vienreizējās paroles garums";
  "Pieprasīt piekļuvi savai ierīcei";
  "Slēpt savienojuma pārvaldības logu";
  "Atļaut paslēpšanu tikai tad, ja akceptējat sesijas, izmantojot paroli un pastāvīgo paroli";
  "Wayland atbalsts ir eksperimentālā stadijā. Ja nepieciešama neuzraudzīta piekļuve, lūdzu, izmantojiet X11.";
  "Ar peles labo pogu noklikšķiniet, lai atlasītu cilnes";
  "Izlaists";
  "Pievienot adrešu grāmatai";
  "Grupa";
  "Meklēt";
  "Manuāli aizvērta tīmekļa konsole";
  "Vietējais tastatūras veids";
  "Izvēlēties vietējās tastatūras veidu";
  "Ja izmantojat Nvidia grafikas karti operētājsistēmā Linux un attālais logs tiek aizvērts uzreiz pēc savienojuma izveides, var palīdzēt pārslēgšanās uz atvērtā koda Nouveau draiveri un izvēle izmantot programmatūras renderēšanu. Nepieciešama programmatūras restartēšana.";
  "Vienmēr izmantot programmatūras renderēšanu";
  with_quotes ["Lai vadītu attālo darbvirsmu ar tastatūru, jums ir jāpiešķir RustDesk "; "Ievades uzraudzība"; " atļaujas."];
  with_quotes ["Lai runātu attālināti, jums ir jāpiešķir RustDesk "; "Ierakstīt audio"; " atļaujas."];
  "Paaugstinājumu var pieprasīt arī tad, ja attālajā pusē ir kāds cilvēks.";
  "Pagaidiet";
  "Paaugstinājuma kļūda";
  "Lūdziet attālajam lietotājam autentifikāciju";
  "Izvēlieties šo, ja attālais konts ir administrators";
  "Pārsūtīt administratora lietotājvārdu un paroli";
  "Joprojām attālajam lietotājam ir jānoklikšķina uz Labi UAC logā, kurā darbojas RustDesk.";
  "Pieprasīt paaugstinājumu";
  "Lūdzu, uzgaidiet, līdz attālais lietotājs pieņems UAC dialoglodziņu.";
  "Paaugstināšana veiksmīga";
  "lielie burti";
  "mazie burti";
  "cipars";
  "speciāla rakstzīme";
  "garums>=8";
  "Vāji";
  "Vidējs";
  "Spēcīgs";
  "Pārslēgt puses";
  "Lūdzu, apstipriniet, vai vēlaties koplietot savu darbvirsmu?";
  "Displejs";
  "Noklusējuma skata stils";
  "Noklusējuma ritināšanas stils";
  "Noklusējuma attēla kvalitāte";
  "Noklusējuma kodeks";
  "Bitu pārraides ātrums";
  "FPS";
  "Auto";
  "Citas noklusējuma opcijas";
  "Balss zvans";
  "Teksta tērzēšana";
  "Apturēt balss zvanu";
  with_quotes ["Iespējams, nav iespējams izveidot savienojumu tieši; varat mēģināt izveidot savienojumu, izmantojot releju. Turklāt, ja vēlaties izmantot releju pirmajā mēģinājumā, ID varat pievienot sufiksu "; "/r"; ". vai pēdējo sesiju kartē atlasiet opciju "; "Vienmēr izveidot savienojumu, izmantojot releju"; ", ja tāda pastāv."];
  "Atkārtoti savienot";
  "Kodeks";
  "Izšķirtspēja";
  "Notiek pārsūtīšana";
  "Iestatīt vienreizējās paroles garumu";
  "RDP iestatījumi";
  "Kārtot pēc";
  "Jauns savienojums";
  "Atjaun. uz leju";
  "Minimizēt";
  "Maksimizēt";
  "Jūsu ierīce";
  "Hmm, pēdējo sesiju nav!\nLaiks plānot jaunu.";
  "Vēl nav iecienītākās sesijas?\nAtradīsim kādu, ar ko sazināties, un pievienosim to jūsu izlasei!";
  "Ak nē! Šķiet, ka mēs vēl neesam atklājuši nevienu sesiju.";
  "Ak vai, izskatās, ka jūsu adrešu grāmatā šobrīd nav neviena sesija.";
  "piemēram: admin";
  "Tukšs lietotājvārds";
  "Tukša parole";
  "Es";
  "Šis fails ir identisks sesijas failam.";
  "Rādīt monitorus rīkjoslā";
  "Skatīšanas režīms";
  "Jums ir jāpiesakās attālajā Linux kontā, lai iespējotu X darbvirsmas sesiju";
  "Pārbaudīt RustDesk paroli";
  "Atcerēties šo kontu";
  "Šis konts tiek izmantots, lai pieteiktos attālajā operētājsistēmā un iespējotu darbvirsmas sesiju fonā";
  "OS konts";
  "Cits lietotājs jau ir pieteicies";
  "Atvienot";
  "Xorg nav atrasts";
  "Lūdzu, instalējiet Xorg";
  "Nav pieejama darbvirsma";
  "Lūdzu, instalējiet GNOME darbvirsmu";
  "Nav nepieciešams paaugstināt";
  "Sistēmas skaņa";
  "Noklusējums";
  "Jauns RDP";
  "Pirkstu nospiedums";
  "Kopēt pirkstu nospiedumu";
  "nav pirkstu nospiedumu";
  "Atlasīt līdzīgu";
  "Atlasīt līdzīgus";
  "Spraudņi";
  "Atinstalēt";
  "Atjaunināt";
  "Iespējot";
  "Atspējot";
  "Opcijas";
  "Sākotnējā izšķirtspēja";
  "Atbilst vietējai izšķirtspējai";
  "Pielāgota izšķirtspēja";
  "Sakļaut rīkjoslu";
  "Pieņemt un paaugstināt";
  "Pieņemt savienojumu un paaugstināt UAC atļaujas.";
  "Noildze gaidot atbildi uz kopiju.";
  "Ienākošais savienojums";
  "Izejošais savienojums";
  "Iziet";
  "Atvērt";
  "Vai tiešām vēlaties iziet?";
  "Serviss";
  "Sākt";
  "Apturēt";
  "Esat sasniedzis maksimālo pārvaldāmo ierīču skaitu.";
  "Sinhronizācija ar pēdējām sesijām";
  "Kārtot tagus";
  "Atvērt savienojumu jaunā cilnē";
  "Pārvietot cilni uz jaunu logu";
  "Nevar būt tukšs";
  "Jau eksistē";
  "Mainīt paroli";
  "Atsvaidzināt paroli";
  "ID";
  "Režģa skats";
  "Saraksta skats";
  "Atlasīt";
  "Pārslēgt tagus";
  "Neizdevās atsvaidzināt adrešu grāmatu";
  "Neizdevās sinhronizēt adrešu grāmatu ar serveri";
  "Ierīces, kas bija pēdējās sesijās, tiks sinhronizētas atpakaļ ar adrešu grāmatu.";
  "Mainīt krāsu";
  "Primārā krāsa";
  "HSV krāsa";
  "Instalēšana veiksmīga!";
  "Instalēšana neizdevās!";
  "Reversīvs peles ritenis";
  "{} sesijas";
  "Tevi var APKRĀPT!";
  "Ja sarunājaties ar kādu, kuru nepazīstat un kurš ir lūdzis izmantot RustDesk, lai sāktu pakalpojumu, neturpiniet un nekavējoties nolieciet klausuli.";
  "Viņi, visticamāk, ir krāpnieki, kas mēģina nozagt tavu naudu vai citu privātu informāciju.";
  "Vairs nerādīt";
  "Es piekrītu";
  "Noraidīt";
  "Noildze minūtēs";
  "Automātiski aizvērt ienākošās sesijas lietotāja neaktivitātes gadījumā";
  "Automātiski atvienots neaktivitātes dēļ";
  "Startējot pārbaudīt, vai nav programmatūras atjauninājumu";
  "Lūdzu, jauniniet RustDesk Server Pro uz versiju {} vai jaunāku!";
  "Neizdevās atsvaidzināt grupu";
  "Filtrēt pēc krustpunkta";
  "Noņemt fona tapeti ienākošo sesiju laikā";
  "Pārbaudīt";
  "Displejs ir atvienots, pārslēdzieties uz pirmo displeju.";
  "Nav displeju";
  "Atvērt jaunā logā";
  "Rādīt displejus kā atsevišķus logus";
  "Izmantot visus manus displejus attālajai sesijai";
  "Jūsu ierīcē ir iespējots SELinux, kas var neļaut RustDesk pareizi darboties kā kontrolētajai pusei.";
  "Mainīt skatu";
  "Lielas flīzes";
  "Mazas flīzes";
  "Saraksts";
  "Virtuālais displejs";
  "Atvienot visu";
  "Īstā krāsa (4:4:4)";
  "Iespējot lietotāja ievades bloķēšanu";
  with_quotes ["Varat ievadīt ID, tiešo IP vai domēnu ar portu (<domēns>:<ports>).\nJa vēlaties piekļūt ierīcei citā serverī, lūdzu, pievienojiet servera adresi (<id>@<servera_adrese>?key=<atslēgas_vērtība>), piemēram,\n9123456234@192.168.16.1:21117?key=5Qbwsde3unUcJBtrx9ZkvUmwFNoExHzpryHuPUdqlWM=.\nJa vēlaties piekļūt ierīcei publiskajā serverī, lūdzu, ievadiet "; "<id>@public"; ", publiskajam serverim atslēga nav nepieciešama"];
  "1." ++ nbsp ++ "režīms";
  "2. režīms";
  "Ieiet privātuma režīmā";
  "Iziet no privātuma režīma";
  "Netiešā displeja draiveris netiek atbalstīts. Nepieciešama operētājsistēma Windows 10, versija 2004 vai jaunāka.";
  "Ievades avots 1";
  "Ievades avots 2";
  "Apmainīt vadības un komandas taustiņu";
  "Apmainīt kreiso un labo peles pogu";
  "2FA kods";
  "Vairāk";
  "Iespējot divu faktoru autentifikāciju";
  "Lūdzu, iestatiet savu autentifikatoru tūlīt. Tālrunī vai darbvirsmā varat izmantot autentifikācijas lietotni, piemēram, Authy, Microsoft vai Google Authenticator.\n\nIzmantojot lietotni, skenējiet QR kodu un ievadiet lietotnē parādīto kodu, lai iespējotu divu faktoru autentifikāciju.";
  "Nevar pārbaudīt kodu. Pārbaudiet, vai kods un vietējā laika iestatījumi ir pareizi";
  "Divu faktoru autentifikācija";
  "E-pasta verifikācijas kodam jābūt ar 6" ++ nbsp ++ "rakstzīmēm.";
  "2FA kodam ir jābūt ar 6" ++ nbsp ++ "cipariem.";
  "Atrastas vairākas Windows sesijas";
  "Lūdzu, atlasiet sesiju, ar kuru vēlaties izveidot savienojumu";
  "Darbojas ar RustDesk";
  "Šis ir pielāgots izdevums.\nVarat izveidot savienojumu ar citām ierīcēm, taču citas ierīces nevar izveidot savienojumu ar jūsu ierīci.";
  "Šim pielāgotajam izdevumam ir iepriekš iestatīta parole. Ikviens, kurš zina šo paroli, var pilnībā kontrolēt jūsu ierīci. Ja jūs to negaidījāt, nekavējoties atinstalējiet programmatūru.";
  "Drošības brīdinājums";
  "Mana adrešu grāmata";
  "Personīga";
  "Īpašnieks";
  "Iestatīt koplietojamo paroli";
  "Pastāv iekš";
  "Tikai lasīt";
  "Lasīt/Rakstīt";
  "Pilnīga kontrole";
  "Iepriekš minētie lauki ir koplietoti un redzami citiem.";
  "Visi";
  "Vairāk par tīmekļa konsoli";
  "Atļaut savienojumu tikai tad, ja ir atvērts RustDesk logs";
  "Nav fizisku displeju, nav jāizmanto privātuma režīms.";
  "Sekot attālajam kursoram";
  "Sekot attālā loga fokusam";
  "Noklusējuma protokols un ports ir Socks5 un 1080";
  "Nav atrasta neviena audio ievades ierīce.";
  "Ienākošie";
  "Izejošie";
  "Notīrīt Wayland ekrāna atlasi";
  "Pēc ekrāna atlases notīrīšanas varat atkārtoti atlasīt ekrānu, ko kopīgot.";
  "Vai tiešām notīrīt Wayland ekrāna atlasi?";
  "Tika saņemts jauns balss zvana pieprasījums. Ja piekrītat, audio pārslēgsies uz balss saziņu.";
  "Izmantojiet tekstūras renderēšanu, lai attēli būtu vienmērīgāki. Varat mēģināt atspējot šo opciju, ja rodas renderēšanas problēmas.";
  "Izmantot tekstūras renderēšanu";
  "Peldošs logs";
  "Tas palīdz uzturēt RustDesk fona servisu";
  "Turēt ekrānu ieslēgtu";
  "Nekad";
  "Lietošanas laikā";
  "Kamēr pakalpojums ir ieslēgts";
  "Tvert ekrānu, izmantojot DirectX";
  "Atpakaļ";
  "Lietotnes";
  "Skaļāk";
  "Klusāk";
  "Ieslēgšana";
  "Telegram robots";
  "Ja iespējojat šo funkciju, varat saņemt 2FA kodu no sava robota. Tas var darboties arī kā savienojuma paziņojums.";
  "1." ++ nbsp ++ "Atveriet tērzēšanu ar @BotFather.\n2." ++ nbsp ++ "Nosūtiet komandu " ++ escaped_quote ++ "/newbot" ++ escaped_quote ++ ". Pēc šīs darbības pabeigšanas jūs saņemsit pilnvaru.\n3." ++ nbsp ++ "Sāciet tērzēšanu ar jaunizveidoto robotprogrammatūru. Lai to aktivizētu, nosūtiet ziņojumu, kas sākas ar slīpsvītru (" ++ escaped_quote ++ "/" ++ escaped_quote ++ "), piemēram, " ++ escaped_quote ++ "/hello" ++ escaped_quote ++ ".\n";
  "Vai tiešām vēlaties atcelt 2FA?";
  "Vai tiešām vēlaties atcelt Telegram robotu?";
  "Par RustDesk";
  "Nosūtīt starpliktuves taustiņsitienus";
  "Lūdzu, pārbaudiet tīkla savienojumu un pēc tam noklikšķiniet uz Mēģināt vēlreiz.";
  "Atbloķēt ar PIN";
  "Nepieciešamas vismaz {}" ++ nbsp ++ "rakstzīmes";
  "Nepareizs PIN";
  "Iestatīt PIN";
  "Iespējot uzticamas ierīces";
  "Pārvaldīt uzticamas ierīces";
  "Platforma";
  "Atlikušas dienas";
  "Izlaist 2FA verifikāciju uzticamās ierīcēs";
  "Vecākdirektorijs";
  "Atsākt";
  "Nederīgs faila nosaukums";
  "Kontrolējamajā pusē ir iespējota vienvirziena failu pārsūtīšana.";
  "Nepieciešama autentifikācija";
  "Autentificēt";
  with_quotes ["Varat ievadīt ID tajā pašā serverī, tīmekļa klientā tiešā IP piekļuve netiek atbalstīta.\nJa vēlaties piekļūt ierīcei citā serverī, lūdzu, pievienojiet servera adresi (<id>@<server_address>?key=<key_value>), piemēram,\n9123456234@192.168.16.1:21117?key=5Qbwsde3unUcJBtrx9ZkvUmwFNoExHzpryHuPUdqlWM=.\nJa vēlaties piekļūt ierīcei publiskajā serverī, lūdzu, ievadiet "; "<id>@public"; ", publiskajam serverim atslēga nav nepieciešama."];
  "Lejupielādēt";
  "Augšupielādēt mapi";
  "Augšupielādēt failus";
  "Starpliktuve ir sinhronizēta";
  "Atjaunināt klienta starpliktuvi";
  "Neatzīmēts";
  "Ir pieejama jauna {} versija";
  ""].
(** [LANGS.nb] *)
Definition lang_nb : jsmap string string := texts [
  "Status";
  "Ditt skrivebord";
  "Du kan få adgang til ditt skrivebord med denne ID og passord.";
  "Passord";
  "Klar";
  "Etablert";
  "Opretter tilkobling til RustDesk-nettverket...";
  "Aktiver tjenesten";
  "Start tjenesten";
  "Tjenesten kjører";
  " tilknyttede tjenesten kjører ikke";
  "Ikke klar. Vennligst sjekk din tilkobling";
  "Kontroller fjernskrivebord";
  "Overfør fil";
  "Koble til";
  "Siste sesjoner";
  "Adressebok";
  "Bekreftelse";
  "TCP tunnelering";
  "Fjern";
  "Oppdater tilfeldig passord";
  "Sett ditt eget passord";
  "Aktiver tastatur/mus";
  "Aktiver utklipstavle";
  "Aktiver filoverførsel";
  "Aktiver TCP-tunnelering";
  "IP Hvitelisting";
  "ID/Tilkoblingsserver";
  "Importer serverkonfigurasjon";
  "Eksporter serverkonfigurasjon";
  "Import av serverkonfigurasjonen var vellykket";
  "Eksport av serverkonfigurasjonen var vellykket";
  "Ugyldig serverkonfigurasjon";
  "Utklipstavlen er tom";
  "Stopp tilkoblingsserveren";
  "Endre ID";
  "Din nye ID";
  "";
  "";
  "";
  "Kun tegnene a-z, A-Z, 0-9, - (dash) og _ (understrek) er tillat. Den første bokstaven skal være a-z, A-Z. Lengde mellom 6 og 16.";
  "Hjemmeside";
  "Om";
  "";
  "";
  "Deaktiver mikrofonen";
  "";
  "Versjon";
  "Hjem";
  "Lydinput";
  "Forbedringer";
  "Hardware-codec";
  "Adaptiv bitrate";
  "ID Server";
  "Relay Server";
  "API Server";
  "Skal starte med http:// eller https://";
  "Ugyldig IP-adresse";
  "Ugyldig format";
  "Enda ikke støttet av serveren";
  "Ikke tilgengelig";
  "For hyppig";
  "Avbryt";
  "Hopp over";
  "Lukk";
  "Prøv igjen";
  "OK";
  "passord påkrevd";
  "Tast inn ditt passord";
  "Husk passord";
  "Feil passord";
  "Ønsker du å forsøke igen?";
  "Tilkoblingsfeil";
  "Feil";
  "Nulstilt av motparten";
  "Opretter tilkobling...";
  "Tilkobler. Vennligst vent.";
  "Prøv igen om et minutt";
  "Login feil";
  "Vellykket";
  "Tilkoblet, venter på bilde...";
  "Navn";
  "Type";
  "Endret";
  "Størrelse";
  "Vis skjulte filer";
  "Motta";
  "Send";
  "Oppdater fil";
  "Lokalt";
  "Remote";
  "fjerntilkoblet maskin";
  "Lokal maskin";
  "Bekreft sletting";
  "Slett";
  "Egenskaper";
  "Flere valg";
  "Velg alle";
  "Fravelg alle";
  "Tomt bibliotek";
  "Ikke et tomt bibliotek";
  "Er du sikker på, at du vil slette denne filen?";
  "Er du sikker på, at du vil slette dette tomme biblioteket?";
  "Er du sikker på, at du vil slette filen til dette biblioteket?";
  "Gjør dette for alle konflikter";
  "Dette kan ikke reverseres!";
  "Sletter";
  "Filer";
  "Venter";
  "Ferdig";
  "Hastighet";
  "Brukerdefinert bildekvalitet";
  "Privatlivsmodus";
  "Blokker brukerinput";
  "Fjern blokkering av brukerinput";
  "Juster vinduet";
  "Original";
  "Krymp";
  "Strekk ut";
  "Rullebar";
  "Auto-rull";
  "God bildekvalitet";
  "Balansert";
  "Optimert responstid";
  "Tilpasset";
  "Vis fjernstyrt musepeker";
  "Vis bildekvalitet";
  "Deaktiver utklipstavle";
  "Lås etter avsluttet fjernstyring";
  "Sett inn Ctrl + Alt + Del";
  "Sett inn lås";
  "Oppdater";
  "ID finnes ikke";
  "tilkobling til serveren mislykktes";
  "Prøv igjen senere";
  "Fjernskrivebord er offline";
  "Nøkkel mismatch";
  "Timeout";
  "tilkobling til rele-serveren mislykktes";
  "tilkobling via Rendezvous-server mislykktes";
  "tilkobling via rele-serveren mislykktes";
  "Direkte tilkobling til fjernskrivebord kunne ikke etableres";
  "Sett passord";
  "Operativsystempassord";
  "På grunn av UAC kan RustDesk ikke fungere korrekt i enkelte tillfeller på fjernskrivebordet. For å unngå UAC klikker du på knappen nedenfor for å installere RustDesk på systemet";
  "Klikk for å oppgradere";
  "Klikk for å laste ned";
  "Klikk for å oppdatere";
  "Konfigurer";
  with_quotes ["For å kontrollere ditt skrivebord med fjernstyring må du gi RustDesk "; "Access "; " Rettigheter."];
  with_quotes ["For å kunne få adgang til ditt skrivebord med fjernstyring, må du gi RustDesk "; "skjerstøtte "; " tillatelser."];
  "Installerer ...";
  "installer";
  "Installasjon";
  "Installasjonssti";
  "Oppret start meny snarvei";
  "Oppret skrivebords-snarvei";
  "Hvis du starter installasjonen, må du akseptere lisensavtalen";
  "Aksepter og installer";
  "Lisensavtale for sluttbrukere";
  "Genererer kode ...";
  "Din installasjon er en eldre versjon.";
  "Ikke lukk dette vinduet, mens du bruker tunnelen.";
  "Lytter ...";
  "Fjern-Host";
  "Fjern-Port";
  "Handling";
  "Tilføy";
  "Lokal Port";
  "Lokal adresse";
  "Skift lokal port";
  "For en hurtigere tilkobling må du bruke din egen tilkoblingsserver";
  "For kort, bruk minst 6 tegn.";
  "bekreftelsen er ikke identisk.";
  "Tillatelser";
  "Aksepter";
  "Avvis";
  "Koble fra";
  "Tillat kopiering og innliming av filer";
  "Tilkoblet";
  "Direkte og kryptert tilkobling";
  "Viderekoblet og kryptert tilkobling";
  "Direkte og ukryptert tilkobling";
  "Viderekoblet og ukryptert tilkobling";
  "Tast inn Remote-ID";
  "Skriv ditt passord";
  "Logger inn...";
  "Aktiver RDP sesjonsgodkjennelse";
  with_quotes ["Automatisk login (kun gyldig hvis du har konfigurert "; "Lås etter avslutting av sesjonen"; ")"];
  "Aktiver direkte IP-adgang";
  "Gi nytt navn";
  "Plass";
  "Opprett skrivebords-snarvei";
  "Skift sti";
  "Opprett mappe";
  "Tast inn mappens navn";
  "Kjør reparasjon";
  "Advarsel";
  "Login skjerm med Wayland støttes ikke";
  "Omstart kreves";
  "Ikke-understøttet displayserver";
  "X11 Forventet";
  "Port";
  "Innstillinger";
  " Brukernavn";
  "Ugyldig port";
  "Manuelt lukket av peer";
  "Tillat fjernkonfigurering";
  "Kjør uten installasjon";
  "Koble til via viderekobling";
  "tilkobling via viderekoblings-server";
  "Kun IP'er på hvitelisten kan få adgang til meg";
  "Logg inn";
  "Verifiser";
  "Husk meg";
  "Husk denne enheten";
  "Verifikasjonskode";
  "";
  "Logger av";
  "Tagger";
  "Søk etter ID";
  "Adskilt etter komma, semikolon, mellemrom eller linjeskift";
  "Legg til ID";
  "Legg til tagg";
  "Fravelg alle passord";
  "Nettverksfeil";
  "Glemt brukernavn";
  "Glemt passord";
  "Feil brukernavn og/eller passord";
  "";
  "Rediger tagg";
  "Glem passord";
  "Favoritter";
  "Legg til favoritter";
  "Fjern favoritter";
  "Tom";
  "Ugyldig mappenavn";
  "Socks5 Proxy";
  "Socks5/Http(s) Proxy";
  "Oppdaget";
  "For å starte når PC'en har startet opp, må du installere systemtjenesten";
  "Fjern-ID";
  "Sett inn";
  "Sett inn her?";
  "Er du sikker på at du vil lukke tilkoblingn?";
  "Last ned ny versjon";
  "Touch-modus";
  "Muse-modus";
  "En-finger-trykk";
  "Venstre mus";
  "Trykk og hold med en finger";
  "Trykk med to fingre";
  "Høyre mus";
  "En-finger bevegelse";
  "Dobbeltklikk og flytt";
  "Dra med musen";
  "Tre fingre lodrett";
  "Musehjul";
  "To-finger bevegelse";
  "Flytt lerret";
  "Knip for å zoome inn";
  "Lerret zoom";
  "Nullstill lerret";
  "Ingen tillatelse til å overføre filen";
  "Notat";
  "Tilkobling";
  "Del skjermen";
  "Chat";
  "Total";
  "Objekter";
  "Valgte";
  "Skjermopptak";
  "Input kontroll";
  "Lydopptak";
  "Filtilkobling";
  "Skjermtilkobing";
  "Akepterer du?";
  "Åpne systeminnstillinger";
  "Hvordan får jeg en Android-input tillatelse?";
  with_quotes ["For at en ekstern enhet kan kontrollere din Android-enhet via mus eller berøring, må du gi RustDesk mulighet til å bruke tjenesten "; "tilgjengelighet "; "."];
  "Gå til den neste systeminnstillingssiden, søk og tast inn [installerte tjenester], aktiver [RustDesk Input] tjenesten.";
  "En ny forespørsel ble mottatt, som ønsker å kontrollere din nåværende enhet.";
  "Ved å aktivere skjermopptak startes tjenesten automatisk, så andre enheter kan forespørre en tilkobling fra denne enheten.";
  "Ved å lukke tjenesten lukkes alle tilkoblinger automatisk.";
  "Den aktuelle Android-versjonen støtter ikke lydopptak. Android 10 eller nyere kreves.";
  "";
  "";
  "Konto";
  "Overskriv";
  "Denne filen finnes allerede, vil du hoppe over eller overskrive denne filen?";
  "Avslutt";
  "Hjelp";
  "Mislykket";
  "Vellykket";
  "Noen aktiverte privatlivsmodus, avslutt";
  "Ikke støttet";
  "Motpart nektet";
  "Installer plugins";
  "Motpart-Avslutt";
  "Klarte ikke å skru av";
  "Avslått";
  "Språk";
  "Behold RustDesk baggrundstjeneste";
  "Ignorer batteri optimalisering";
  "";
  "Start under oppstart";
  "Start skjermdelingstjenesten under oppstart, krever spesielle tillatelser";
  "tilkobling ikke tillat";
  "Tilbakekompatibilitetstilstand";
  "Kartmodus";
  "Oversettelsesmodus";
  "Bruk permanent passord";
  "Bruk begge passord";
  "Sett permanent passord";
  "Aktiver fjerngomstart";
  "Restart fjernenhed";
  "Er du sikker på at du vil restarte";
  "Restarter fjernenhet";
  "Enheten starter på nytt - Lukker denne beskjeden og kobler til igjen om et øyeblikk";
  "Kopiert";
  "Avslutt fullskjerm";
  "Fullskjerm";
  "Mobile handlinger";
  "velg skjerm";
  "Kontrollhandlinger";
  "Skjerminnstillinger";
  "Forhold";
  "Bildekvalitet";
  "Rullestil";
  "Vis Verktøylinje";
  "Skjul Verktøylinje";
  "Direkte tilkobling";
  "Viderekoblet tilkobling";
  "Sikker tilkobling";
  "Usikker tilkobling";
  "Original skalering";
  "Adaptiv skalering";
  "Generelt";
  "Sikkerhet";
  "Tema";
  "Mørkt Tema";
  "Lyst Tema";
  "Mørk";
  "Lys";
  "Følg System";
  "Aktiver hardware-codec";
  "Lås opp Sikkerhetsinnstillinger";
  "Aktiver Lyd";
  "Lås opp Nettverksinnstillinger";
  "Server";
  "Direkte IP Adgang";
  "Proxy";
  "Bruk";
  "Koble fra alle enheter?";
  "Nullstill";
  "Lydinngangsenhet";
  "Bruk IP hvitelisting";
  "Nettverk";
  "Fest Hurtiglinje";
  "Avfest Hurtiglinje";
  "Opptak";
  "Mappe";
  "Ta opp innkommende sesjoner automatisk";
  "";
  "Rediger";
  "Start sesjonsopptak";
  "Stopp sesjonsopptak";
  "Aktiver opptakssesjon";
  "Aktiver LAN Discovery";
  "Avvis LAN Discovery";
  "Skriv en beskjed";
  "Prompt";
  "Vennligst vent på UAC-bekreftelse...";
  "";
  "Frakoblet";
  "Andre";
  "Bekreft før du lukker flere faner";
  "Tastaturinnstillinger";
  "Full tilgang";
  "Skjermdeling";
  "Wayland krever Ubuntu version 21.04 eller nyere.";
  "Wayland krever en nyere versjon av Linux. Prøv X11 desktop eller skift OS.";
  "JumpLink";
  "vennligst velg den skjermen, som skal deles (fjernstyres).";
  "Vis RustDesk";
  "Denne PC";
  "eller";
  "Fortsett med";
  "Elever";
  "Zoom markør";
  "Aksepter sesjoner via passord";
  "Aksepter sesjoner via klikk";
  "Aksepter sesjoner via begge";
  "Vennligst vent på at fjernklienten aksepterer din sesjonsforespørsel...";
  "Engangskode";
  "Bruk engangskode";
  "Engangskode lengde";
  "Etterspør adgang til din enhet";
  "Skjul tilkoblingshåndteringsvinduet";
  "";
  "";
  "Høyreklikk for å velge faner";
  "Hoppet over";
  "Legg til adresseboken";
  "Gruppe";
  "Søk";
  "Lukket ned manuelt av webkonsollet";
  "Lokal tastatur type";
  "velg lokal tastatur type";
  "";
  "Bruk alltid programvare rendering";
  "";
  "";
  "";
  "Vent";
  "Eleveringsfeil";
  "Spør fjernbrukeren om godkjennelse";
  "velg dette hvis fjernbrukeren er en administrator";
  "Send brukernavnet og passordet for administrator";
  "";
  "Etterspørr elevering";
  "";
  "Elevering vellykket";
  "store bokstaver";
  "små bokstaver";
  "siffer";
  "spesialtegn";
  "lengde>=8";
  "Svak";
  "Medium";
  "Sterk";
  "Skift sider";
  "Bekreft at du ønsker å dele skrivebordet ditt?";
  "Visning";
  "Standard visningsstil";
  "Standard rulle stil";
  "Standard bildekvalitet";
  "Standard codec";
  "Bitrate";
  "FPS";
  "Auto";
  "Andre standardinnstillinger";
  "Stemmeoppkald";
  "Tekstchat";
  "Stopp stemmeoppkald";
  "";
  "Gjenopprett";
  "Codec";
  "Oppløsning";
  "Ingen aktive overførsler";
  "Sett engangspassord lengde";
  "RDP innstillinger";
  "Sorter etter";
  "Ny tilkobling";
  "gjenopprett";
  "Minimer";
  "Maksimer";
  "Din enhet";
  "";
  "";
  "";
  "";
  "f.eks.: admin";
  "Tøm brukernavn";
  "Tøm passord";
  "Meg";
  "";
  "";
  "";
  "";
  "";
  "";
  "";
  "";
  "";
  "";
  "";
  "";
  "";
  "";
  "";
  "";
  "";
  "";
  "";
  "";
  "";
  "";
  "";
  "";
  "";
  "";
  "";
  "";
  "";
  "";
  "";
  "";
  "";
  "";
  "";
  "";
  "";
  "";
  "";
  "";
  "";
  "";
  "";
  "";
  "";
  "";
  "";
  "";
  "";
  "";
  "";
  "";
  "";
  "";
  "";
  "";
  "";
  "";
  "";
  "";
  "";
  "";
  "";
  "";
  "";
  "";
  "";
  "";
  "";
  "";
  "";
  "";
  "";
  "";
  "";
  "";
  "";
  "";
  "";
  "";
  "";
  "";
  "";
  "";
  "";
  "";
  "";
  "";
  "";
  "";
  "";
  "";
  "";
  "";
  "";
  "";
  "";
  "";
  "";
  "";
  "";
  "";
  "";
  "";
  "";
  "";
  "";
  "";
  "";
  "";
  "";
  "";
  "";
  "";
  "";
  "";
  "";
  "";
  "";
  "";
  "";
  "";
  "";
  "";
  "";
  "";
  "";
  "";
  "";
  "";
  "";
  "";
  "";
  "";
  "";
  "";
  "";
  "";
  "";
  "";
  "";
  "";
  "";
  "";
  "";
  "";
  "";
  "";
  "";
  "";
  "";
  "";
  "";
  "";
  "";
  "";
  "";
  "";
  "";
  "";
  "";
  "";
  "";
  "";
  "";
  "";
  "";
  "";
  "";
  "";
  "";
  "";
  "";
  "";
  "";
  "";
  "";
  "";
  "";
  "";
  "";
  "";
  "";
  "";
  "";
  "";
  "";
  "";
  "";
  ""].
(** [LANGS.nl] *)
Definition lang_nl : jsmap string string := texts [
  "Status";
  "Uw Bureaublad";
  "Uw bureaublad is toegankelijk met dit ID en wachtwoord.";
  "Wachtwoord";
  "Klaar";
  "Opgezet";
  "Verbinding maken met het RustDesk netwerk...";
  "Service inschakelen";
  "Start service";
  "De service loopt.";
  "De service loopt niet";
  "Niet verbonden met de server, controleer de netwerkverbinding";
  "Beheer Extern Bureaublad";
  "Bestand overzetten";
  "Verbinden";
  "Recente sessies";
  "Adresboek";
  "Bevestiging";
  "TCP-tunneling";
  "Verwijder";
  "Vernieuw willekeurig wachtwoord";
  "Stel uw eigen wachtwoord in";
  "Toetsenbord/muis inschakelen";
  "Klembord inschakelen";
  "Bestandsoverdracht inschakelen";
  "TCP-tunneling inschakelen";
  "IP Witte Lijst";
  "ID-/Relayserver";
  "Importeer serverconfiguratie";
  "Exporteer serverconfiguratie";
  "Importeren serverconfiguratie is geslaagd";
  "Exporteren serverconfiguratie is geslaagd";
  "Ongeldige serverconfiguratie";
  "Klembord is leeg";
  "Stop service";
  "Wijzig ID";
  "Uw nieuwe ID";
  "lengte %min% tot %max%";
  "begint met een letter";
  "toegestane tekens";
  "Alleen de letters a-z, A-Z, 0-9, - (dash), _ (underscore) kunnen worden gebruikt. De eerste letter moet a-z, A-Z zijn. De lengte moet tussen 6 en 16 liggen.";
  "Website";
  "Over";
  "Met hart gemaakt in deze chaotische wereld!";
  "Privacyverklaring";
  "Geluid uit";
  "Datum";
  "Versie";
  "Startpagina";
  "Audioingang";
  "Verbeteringen";
  "Hardwarecodec";
  "Bitrate automatisch aanpassen";
  "ID-server";
  "Relay-server";
  "API-server";
  "Moet beginnen met http:// of https://";
  "Ongeldig IP";
  "Ongeldig formaat";
  "Nog niet ondersteund door de server";
  "Niet beschikbaar";
  "Te vaak";
  "Annuleer";
  "Overslaan";
  "Sluit";
  "Probeer opnieuw";
  "OK";
  "Wachtwoord Vereist";
  "Geef uw wachtwoord in";
  "Wachtwoord onthouden";
  "Verkeerd Wachtwoord";
  "Wilt u het opnieuw invoeren?";
  "Fout bij verbinding";
  "Fout";
  "Door de peer gereset";
  "Verbinding maken...";
  "Verbinding wordt gemaakt. Even geduld a.u.b.";
  "Probeer 1 minuut later";
  "Loginfout";
  "Geslaagd";
  "Verbonden, wacht op beeld...";
  "Naam";
  "Type";
  "Gewijzigd";
  "Grootte";
  "Toon Verborgen Bestanden";
  "Ontvang";
  "Verzend";
  "Bestand Verversen";
  "Lokaal";
  "Op Afstand";
  "Externe Computer";
  "Lokale Computer";
  "Bevestig Verwijderen";
  "Verwijder";
  "Eigenschappen";
  "Meervoudig Selecteren";
  "Selecteer Alle";
  "De-selecteer Alle";
  "Lege Map";
  "Geen lege map";
  "Weet u zeker dat u dit bestand wilt verwijderen?";
  "Weet u zeker dat u deze lege map wilt verwijderen?";
  "Weet u zeker dat u de bestanden uit deze map wilt verwijderen?";
  "Doe dit voor alle conflicten";
  "Dit is onomkeerbaar!";
  "Verwijderen";
  "bestanden";
  "Wachten";
  "Voltooid";
  "Snelheid";
  "Aangepaste Beeldkwaliteit";
  "Privacymodus";
  "Gebruikersinvoer blokkeren";
  "Gebruikersinvoer deblokkeren";
  "Venster Aanpassen";
  "Origineel";
  "Verkleinen";
  "Uitrekken";
  "Schuifbalk";
  "Automatisch schuiven";
  "Goede beeldkwaliteit";
  "Gebalanceerd";
  "Optimaliseer reactietijd";
  "Aangepast";
  "Toon cursor van extern bureaublad";
  "Kwaliteitsmonitor tonen";
  "Klembord uitschakelen";
  "Vergrendelen na einde sessie";
  "Ctrl + Alt + Del Invoeren";
  "Vergrendelen";
  "Vernieuwen";
  "ID bestaat niet";
  "Verbinding met rendez-vous-server mislukt";
  "Probeer later opnieuw";
  "Extern bureaublad is offline";
  "Code onjuist";
  "Time-out";
  "Verbinden met relayserver mislukt";
  "Verbinden via rendez-vous-server mislukt";
  "Verbinden via relaisserver mislukt";
  "Direct verbinden met extern bureaublad is mislukt";
  "Wachtwoord Instellen";
  "OS Wachtwoord";
  "Door UAC-beperkingen lukt het niet altijd om uw bureaublad op afstand te bedienen. Installeer RustDesk op het systeem om dit probleem te voorkomen.";
  "Klik voor upgrade";
  "Klik om te downloaden";
  "Klik om bij te werken";
  "Configureren";
  with_quotes ["Om uw bureaublad op afstand te kunnen bedienen, moet u RustDesk toestemming voor "; "toegankelijkheid"; " geven."];
  with_quotes ["Om toegang te krijgen tot het externe bureaublad, moet u RustDesk toestemming voor "; "schermregistratie"; " geven."];
  "Installeren ...";
  "Installeer";
  "Installatie";
  "Locatie";
  "Startmenu-snelkoppelingen maken";
  "Bureaubladpictogram maken";
  "Het starten van de installatie betekent het accepteren van de licentieovereenkomst.";
  "Accepteren en installeren";
  "Licentieovereenkomst eindgebruiker";
  "Genereert ...";
  "Uw installatie is een lagere versie.";
  "Sluit dit venster niet zolang u de tunnel gebruikt";
  "Luistert ...";
  "Externe Host";
  "Externe Poort";
  "Actie";
  "Toevoegen";
  "Lokale Poort";
  "Lokaal Adres";
  "Wijzig Lokale Poort";
  "Als u een hogere verbindingssnelheid nodig heeft, kunt u ervoor kiezen om uw eigen server aan te maken";
  "Te kort, minstens 6 tekens.";
  "De bevestiging is niet identiek.";
  "Machtigingen";
  "Accepteren";
  "Afwijzen";
  "Verbinding verbreken";
  "Kopiëren en plakken van bestanden toestaan";
  "Verbonden";
  "Directe en versleutelde verbinding";
  "Doorgeschakelde en versleutelde verbinding";
  "Directe en niet-versleutelde verbinding";
  "Doorgeschakelde en niet-versleutelde verbinding";
  "Voer Extern ID in";
  "Voer uw wachtwoord in";
  "Aanmelden...";
  "Delen van RDP-sessie inschakelen";
  "Automatisch Aanmelden";
  "Directe IP-toegang inschakelen";
  "Naam wijzigen";
  "Spatie";
  "Snelkoppeling op bureaublad maken";
  "Pad Wijzigen";
  "Map Maken";
  "Geef de mapnaam op";
  "Repareer";
  "Waarschuwing";
  "Aanmeldingsscherm via Wayland wordt niet ondersteund";
  "Opnieuw opstarten vereist";
  "Niet-ondersteunde weergaveserver";
  "x11 verwacht";
  "Poort";
  "Instellingen";
  "Gebruiker";
  "Ongeldige poort";
  "Handmatig gesloten door de peer";
  "Configuratiewijziging op afstand inschakelen";
  "Uitvoeren zonder installatie";
  "Verbinden via relay";
  "Altijd verbinden via relay";
  "Alleen IP-adressen op de witte lijst krijgen toegang tot mijn toestel";
  "Log In";
  "Controleer";
  "Herinner mij";
  "Vertrouw dit apparaat";
  "Verificatiecode";
  "Er is een verificatiecode naar het geregistreerde e-mailadres gestuurd, voer de verificatiecode in om de verbinding voort te zetten.";
  "Log Uit";
  "Labels";
  "Zoek ID";
  "Gescheiden door komma, puntkomma, spatie of nieuwe regel";
  "ID Toevoegen";
  "Label Toevoegen";
  "Alle labels verwijderen";
  "Netwerkfout";
  "Gebruikersnaam gemist";
  "Wachtwoord vergeten";
  "Verkeerde inloggegevens";
  "De verificatiecode is onjuist of verlopen";
  "Label Bewerken";
  "Wachtwoord vergeten";
  "Favorieten";
  "Toevoegen aan Favorieten";
  "Verwijderen uit Favorieten";
  "Leeg";
  "Ongeldige mapnaam";
  "SOCKS5 Proxy";
  "SOCKS5/HTTP(S) Proxy";
  "Ontdekt";
  "Om te starten bij het opstarten van de computer, moet u de systeemservice installeren.";
  "Extern ID";
  "Plakken";
  "Hier plakken?";
  "Weet u zeker dat u de verbinding wilt sluiten?";
  "Download nieuwe versie";
  "Aanraakmodus";
  "Muismodus";
  "Een-Vinger Tik";
  "Linkermuis";
  "Een-Vinger-Lange-Tik";
  "Twee-Vingers-Tik";
  "Rechtermuis";
  "Een-Vinger-Verplaatsing";
  "Dubbel-Tik en Verplaatsen";
  "Muis Slepen";
  "Drie-Vinger verticaal";
  "Muiswiel";
  "Twee-Vingers Verplaatsen";
  "Canvas Verplaatsen";
  "Knijp om te Zoomen";
  "Canvas Zoom";
  "Reset canvas";
  "Geen toestemming voor bestandsoverdracht";
  "Opmerking";
  "Verbinding";
  "Scherm Delen";
  "Chat";
  "Totaal";
  "items";
  "Geselecteerd";
  "Schermopname";
  "Invoercontrole";
  "Audio Opnemen";
  "Bestandsverbinding";
  "Schermverbinding";
  "Geeft u toestemming?";
  "Systeeminstelling Openen";
  "Hoe krijg ik Android invoer toestemming?";
  with_quotes ["Om ervoor te zorgen dat een extern apparaat uw Android-apparaat kan besturen via muis of aanraking, moet u RustDesk toestaan om de "; "Toegankelijkheid"; " service te gebruiken."];
  "Ga naar de volgende pagina met systeeminstellingen, zoek en ga naar [Geïnstalleerde Services], schakel de service [RustDesk Input] in.";
  "Er is een nieuw controleverzoek binnengekomen, dat uw huidige apparaat wil controleren.";
  with_quotes ["Als u "; "Schermopname"; " inschakelt, wordt de service automatisch gestart, zodat andere apparaten een verbinding met uw apparaat kunnen aanvragen."];
  "Het sluiten van de service zal automatisch alle gemaakte verbindingen sluiten.";
  "De huidige versie van Android ondersteunt geen audio-opname, upgrade naar Android 10 of hoger.";
  "Druk op [Start service] of activeer de autorisatie [Scherm opnemen] om de schermdelingsservice te starten.";
  "Toestemmingen voor tot stand gebrachte verbindingen kunnen niet onmiddellijk worden gewijzigd totdat er opnieuw verbinding wordt gemaakt.";
  "Account";
  "Overschrijven";
  "Dit bestand bestaat reeds, overslaan of overschrijven?";
  "Afsluiten";
  "Help";
  "Mislukt";
  "Geslaagd";
  "Iemand schakelt privacymodus in, afsluiten";
  "Niet Ondersteund";
  "Peer geweigerd";
  "Installeer plugins";
  "Peer afgesloten";
  "Uitschakelen mislukt";
  "Uitgeschakeld";
  "Taal";
  "RustDesk achtergronddienst behouden";
  "Negeer Batterij-optimalisaties";
  "Ga naar de volgende pagina met instellingen";
  "Starten bij Opstarten";
  "Start de schermdelingsservice bij het opstarten, vereist speciale rechten";
  "Verbinding niet toegestaan";
  "Legacymodus";
  "Mapmodus";
  "Vertaalmodus";
  "Gebruik permanent wachtwoord";
  "Gebruik beide wachtwoorden";
  "Stel permanent wachtwoord in";
  "Herstart op afstand inschakelen";
  "Apparaat op afstand herstarten";
  "Weet u zeker dat u wilt herstarten";
  "Apparaat op afstand herstarten";
  "Apparaat op afstand wordt opnieuw opgestart, sluit dit bericht en maak na een ogenblik opnieuw verbinding met het permanente wachtwoord.";
  "Gekopieerd";
  "Volledig Scherm sluiten";
  "Volledig Scherm";
  "Mobiele Acties";
  "Selecteer Monitor";
  "Controleacties";
  "Beeldscherminstellingen";
  "Verhouding";
  "Beeldkwaliteit";
  "Scroll Stijl";
  "Werkbalk Weergeven";
  "Verberg Werkbalk";
  "Directe Verbinding";
  "Relaisverbinding";
  "Beveiligde Verbinding";
  "Onveilige Verbinding";
  "Oorspronkelijk formaat";
  "Automatisch schalen";
  "Algemeen";
  "Beveiliging";
  "Thema";
  "Donker Thema";
  "Licht Thema";
  "Donker";
  "Licht";
  "Volg systeem";
  "Hardwarecodec inschakelen";
  "Beveiligingsinstellingen vrijgeven";
  "Audio inschakelen";
  "Netwerkinstellingen Vrijgeven";
  "Server";
  "Directe IP toegang";
  "Proxy";
  "Toepassen";
  "Alle apparaten uitschakelen?";
  "Wis";
  "Audio-invoerapparaat";
  "Gebruik een witte lijst van IP-adressen";
  "Netwerk";
  "Werkbalk Vastzetten";
  "Werkbalk Losmaken";
  "Opnemen";
  "Map";
  "Inkomende sessies automatisch opnemen";
  "Uitgaande sessies automatisch opnemen";
  "Aanpassen";
  "Start de sessieopname";
  "Stop de sessieopname";
  "Sessieopname activeren";
  "LAN-detectie inschakelen";
  "LAN-detectie weigeren";
  "Schrijf een bericht";
  "Melding";
  "Wacht op bevestiging van UAC...";
  "Het momenteel geopende venster van de op afstand bediende computer vereist hogere rechten. Daarom is het momenteel niet mogelijk de muis en het toetsenbord te gebruiken. Vraag de gebruiker wiens computer u op afstand bedient om het venster te minimaliseren of de rechten te verhogen. Om dit probleem in de toekomst te voorkomen, wordt aanbevolen de software te installeren op de op afstand bediende computer.";
  "Afgesloten";
  "Andere";
  "Bevestig voordat u meerdere tabbladen sluit";
  "Toetsenbordinstellingen";
  "Volledige Toegang";
  "Scherm Delen";
  "Wayland vereist Ubuntu 21.04 of hoger.";
  "Wayland vereist een hogere versie van Linux distro. Probeer X11 desktop of verander van OS.";
  "JumpLink";
  "Selecteer het scherm dat moet worden gedeeld (Bediening aan de kant van de peer).";
  "Toon RustDesk";
  "Deze PC";
  "of";
  "Ga verder met";
  "Verhoog";
  "Zoom cursor";
  "Sessies accepteren via wachtwoord";
  "Sessies accepteren via klik";
  "Accepteer sessies via klik of wachtwoord";
  "Wacht tot de andere kant uw sessieverzoek accepteert...";
  "Eenmalig Wachtwoord";
  "Gebruik een eenmalig wachtwoord";
  "Lengte eenmalig wachtwoord";
  "Toegang tot uw toestel aanvragen";
  "Verberg het venster voor verbindingsbeheer";
  "Dit kan alleen als de toegang via een permanent wachtwoord verloopt.";
  "Wayland ondersteuning is slechts experimenteel. Gebruik alstublieft X11 als u onbeheerde toegang nodig heeft.";
  "Rechts klikken om tabbladen te selecteren";
  "Overgeslagen";
  "Toevoegen aan Adresboek";
  "Groep";
  "Zoek";
  "Handmatig gesloten door webconsole";
  "Lokaal toetsenbord";
  "Selecteer lokaal toetsenbord";
  "Als u een NVIDIA grafische kaart hebt en het externe venster sluit onmiddellijk na verbinding, kan het helpen om het nieuwe stuurprogramma te installeren en te kiezen voor software rendering. Een software herstart is vereist.";
  "Gebruik altijd software rendering";
  with_quotes ["Om het externe bureaublad vanaf het toetsenbord te kunnen bedienen, moet u RustDesk de rechten "; "Invoer vastleggen"; " geven."];
  "Om op afstand te kunnen chatten, moet u RustDesk 'Audio opnemen' rechten geven.";
  "U kunt ook meer rechten vragen als iemand aan de andere kant aanwezig is.";
  "Wacht";
  "Verhogingsfout";
  "Vraag de gebruiker op afstand om bevestiging";
  "Kies dit als het externe account de beheerder is";
  "Verzend de gebruikersnaam en het wachtwoord van de beheerder";
  "De gebruiker op afstand moet altijd bevestigen via het UAC-venster van de werkende RustDesk.";
  "Verzoek om meer rechten";
  "Wacht tot de gebruiker op afstand het UAC-dialoogvenster accepteert.";
  "Succesvolle verhoging van privileges";
  "Hoofdletter";
  "kleine letter";
  "cijfer";
  "speciaal teken";
  "lengte>=8";
  "Zwak";
  "Middelmatig";
  "Sterk";
  "Wissel van kant";
  "Bevestig dat u uw bureaublad wilt delen?";
  "Weergave";
  "Standaard Weergavestijl";
  "Standaard Scrollstijl";
  "Standaard Beeldkwaliteit";
  "Standaard Codec";
  "Bitrate";
  "FPS";
  "Auto";
  "Overige Standaardinstellingen";
  "Spraakoproep";
  "Tekstchat";
  "Stop spraakoproep";
  with_quotes ["Indien een directe verbinding niet mogelijk is, kunt u proberen verbinding te maken via een Relay Server.\nAls u bij de eerste poging een relaisverbinding tot stand wilt brengen, kunt u het achtervoegsel "; "/r"; " toevoegen aan het ID of de optie "; "Altijd verbinden via relaisserver"; " selecteren op de externe terminal."];
  "Opnieuw verbinden";
  "Codec";
  "Resolutie";
  "Geen overdrachten in uitvoering";
  "Stel de lengte van het eenmalige wachtwoord in";
  "RDP Instellingen";
  "Sorteren op";
  "Nieuwe Verbinding";
  "Herstel";
  "Minimaliseren";
  "Maximaliseren";
  "Uw Apparaat";
  "Oeps, geen recente sessies!\nTijd om een nieuwe te plannen.";
  "Nog geen favoriete stations op afstand? Laat ons iemand vinden om mee te verbinden en voeg hem toe aan uw favorieten!";
  "Oh nee, het lijkt erop dat we nog geen extern station hebben ontdekt.";
  "Oh jee, het lijkt erop dat er momenteel geen externe stations in uw adresboek staan.";
  "bijvoorbeeld: admin";
  "Gebruikersnaam Leeg";
  "Wachtwoord Leeg";
  "Ik";
  "Dit bestand is identiek aan het bestand van het externe station.";
  "Monitoren weergeven in de werkbalk";
  "Toeschouwermodus";
  "Toegang tot het externe Linux-account";
  "Bevestiging wachtwoord RustDesk";
  "Herinner dit account";
  "Dit account wordt gebruikt om toegang te krijgen tot het externe besturingssysteem en de bureaubladsessie in onbeheerde modus te activeren.";
  "Besturingssysteem account";
  "Een andere gebruiker is al ingelogd.";
  "Afzonderlijk";
  "Xorg niet gevonden.";
  "Installeer Xorg.";
  "Er is geen desktop beschikbaar.";
  "Installeer de GNOME desktop.";
  "Niet nodig om te verhogen";
  "Systeemgeluid";
  "Standaard";
  "Nieuwe RDP";
  "Vingerafdruk";
  "Kopieer Vingerafdruk";
  "geen vingerafdrukken";
  "Selecteer een peer";
  "Selecteer peers";
  "Plugins";
  "Verwijder";
  "Bijwerken";
  "Activeer";
  "Deactiveer";
  "Opties";
  "Oorspronkelijke resolutie";
  "Lokale resolutie aanpassen";
  "Aangepaste resolutie";
  "Werkbalk samenvouwen";
  "Accepteren en Verheffen";
  "Accepteer de verbinding en verhoog de UAC-machtigingen.";
  "Time-out in afwachting van kopieer-antwoord.";
  "Inkomende verbinding";
  "Uitgaande verbinding";
  "Afsluiten";
  "Open";
  "Weet u zeker dat u zich wilt afmelden?";
  "Windows-service";
  "Start";
  "Stop";
  "Het maximum aantal gecontroleerde apparaten is bereikt.";
  "Recente sessies synchroniseren";
  "Labels sorteren";
  "Verbinding openen in een nieuw tabblad";
  "Tabblad verplaatsen naar nieuw venster";
  "Mag niet leeg zijn";
  "Bestaat al";
  "Wijzig Wachtwoord";
  "Wachtwoord Vernieuwen";
  "ID";
  "Rasterweergave";
  "Lijstweergave";
  "Selecteer";
  "Schakel Tags";
  "Adresboek kan niet worden bijgewerkt";
  "Synchronisatie van adresboek mislukt";
  "Apparaten die aanwezig waren in recente sessies worden gesynchroniseerd met het adresboek.";
  "Kleur Aanpassen";
  "Hoofdkleur";
  "HSV Kleur";
  "Installatie geslaagd!";
  "Installatie mislukt!";
  "Muiswiel omkeren";
  "{} sessies";
  "U wordt misschien opgelicht!";
  "Als u aan de telefoon bent met iemand die u NIET kent EN VERTROUWT en die u heeft gevraagd om RustDesk te gebruiken en de service te starten, ga dan niet verder en hang onmiddellijk op.";
  "Het is waarschijnlijk een oplichter die probeert uw geld of andere privégegevens te stelen.";
  "Niet opnieuw tonen";
  "Ik ga akkoord";
  "Afwijzen";
  "Time-out in minuten";
  "Inkomende sessies automatisch sluiten bij inactiviteit van de gebruiker";
  "Automatisch verbinding verbroken wegens inactiviteit";
  "Controleer op updates bij opstarten";
  "Upgrade RustDesk Server Pro naar versie {} of nieuwer!";
  "Vernieuwen van groep mislukt";
  "Filter op kruising";
  "Achtergrond verwijderen tijdens inkomende sessies";
  "Test";
  "Beeldscherm is uitgeschakeld, schakel over naar het primaire beeldscherm.";
  "Geen beeldschermen";
  "Open in een nieuw venster";
  "Beeldschermen weergeven als afzonderlijke vensters";
  "Gebruik al mijn beeldschermen voor de externe sessie";
  "SELinux is ingeschakeld op dit apparaat, waardoor RustDesk mogelijk niet goed functioneert als een gecontroleerde kant.";
  "Weergave wijzigen";
  "Grote tegels";
  "Kleine tegels";
  "Overzicht";
  "Virtuele weergave";
  "Sluit alle";
  "Ware kleur (4:4:4)";
  "Blokkeren van gebruikersinvoer inschakelen";
  with_quotes ["U kunt een ID, een direct IP of een domein met poort (<domein>:<poort>) invoeren. Als u toegang wilt tot een apparaat op een andere server, voeg dan een serveradres en public key toe (<id>@<server_adres>?key=<key_value>), bijvoorbeeld \n9123456234@192.168.16.1:21117?key=5Qbwsde3unUcJBtrx9ZkvUmwFNoExHzpryHuPUdqlWM=.Als je toegang wilt als apparaat op een openbare server, voer dan "; "<id>@public"; " in, voor de openbare server is de sleutel niet nodig."];
  "Modus 1";
  "Modus 2";
  "Privacymodus openen";
  "Privacymodus afsluiten";
  "Het indirecte displaystuurprogramma wordt niet ondersteund. Windows 10 versie 2004 of later is vereist.";
  "Invoerbron 1";
  "Invoerbron 2";
  "Wissel controle-commando toets";
  "Wissel linker- en rechtermuisknop";
  "2FA-code";
  "Meer";
  "Tweefactorauthenticatie inschakelen";
  "Stel nu uw authenticator in. U kunt een authenticator-app zoals Authy, Microsoft of Google Authenticator op uw telefoon of desktop gebruiken.\n\nScan de QR-code met uw app en voer de code in die uw app toont om tweefactorauthenticatie in te schakelen.";
  "Kan de code niet verifiëren. Controleer of de code en lokale tijdinstellingen correct zijn.";
  "Tweefactorauthenticatie (2FA)";
  "E-mailverificatiecode moet 6 tekens lang zijn.";
  "2FA-code moet 6 cijfers lang zijn.";
  "Meerdere Windows-sessies gevonden";
  "Selecteer de sessie waarmee u verbinding wilt maken";
  "Werkt met Rustdesk";
  "U kan verbinding maken met andere apparaten, maar andere apparaten kunnen geen verbinding maken met u.";
  "Dit is een aangepaste editie en wordt geleverd met een vooraf ingesteld wachtwoord. Iedereen die dit wachtwoord kent, kan de volledige controle over het apparaat krijgen.";
  "Beveiligingswaarschuwing";
  "Mijn adresboek";
  "Persoonijk";
  "Eigenaar";
  "Gedeeld wachtwoord instellen";
  "Bestaat in";
  "Alleen-lezen";
  "Lezen/Schrijven";
  "Volledige Controle";
  "De bovenstaande velden worden gedeeld en zijn zichtbaar voor anderen.";
  "Iedereen";
  "Meer over de webconsole";
  "Alleen verbindingen toestaan als het RustDesk-venster geopend is";
  "Geen fysieke schermen, geen privémodus nodig.";
  "Volg de cursor op afstand";
  "Volg de focus van het venster op afstand";
  "Standaard protocol en poort: Socks5 en 1080";
  "Er is geen invoerapparaat gevonden.";
  "Inkomend";
  "Uitgaand";
  "Wayland-scherm wissen";
  "Nadat u de schermselectie heeft gewist, kunt u het scherm dat u wilt delen opnieuw selecteren.";
  "Weet u zeker dat u de Wayland-schermselectie wilt wissen?";
  "Er is een nieuwe spraakoproep ontvangen. Als u het aanvaardt, schakelt de audio over naar spraakcommunicatie.";
  "Pas textuurrendering toe om afbeeldingen vloeiender te maken.";
  "Textuurweergave gebruiken";
  "Zwevend venster";
  "Helpt RustDesk op de achtergrond actief te houden";
  "Scherm ingeschakeld laten";
  "Nooit";
  "Tijdens gecontroleerde";
  "Tijdens actieve service";
  "Scherm opnemen via DirectX";
  "Terug";
  "Apps";
  "Volume verhogen";
  "Volume verlagen";
  "Stroom";
  "Telegram bot";
  "Als u deze functie inschakelt, kunt u een 2FA-code ontvangen van uw bot. Het kan ook fungeren als een verbindingsmelding.";
  with_quotes ["1, Open een chat met @BotFather.\n2, Verzend het commando "; "/newbot"; ". Als deze stap voltooid is, ontvangt u een token.\n3, Start een chat met de nieuw aangemaakte bot. Om hem te activeren stuurt u een bericht dat begint met een schuine streep ("; "/"; "), bijvoorbeeld "; "/hello"; ".\n"];
  "Weet u zeker dat u 2FA wilt annuleren?";
  "Weet u zeker dat u de Telegram-bot wilt annuleren?";
  "Over RustDesk";
  "Klembord toetsaanslagen verzenden";
  "Controleer de netwerkverbinding en selecteer 'Opnieuw proberen'.";
  "Ontgrendelen met PIN";
  "Vereist minstens {} tekens";
  "Verkeerde PIN-code";
  "PIN-code instellen";
  "Vertrouwde apparaten inschakelen";
  "Vertrouwde apparaten beheren";
  "Platform";
  "Resterende dagen";
  "2FA-verificatie overslaan op vertrouwde apparaten";
  "Hoofdmap";
  "Hervatten";
  "Ongeldige bestandsnaam";
  "Eenzijdige bestandsoverdracht is ingeschakeld aan de gecontroleerde kant.";
  "Verificatie vereist";
  "Verificatie";
  with_quotes ["Je kunt een ID invoeren op dezelfde server, directe IP-toegang wordt niet ondersteund in de webclient.\nAls u toegang wilt tot een apparaat op een andere server, voegt u het serveradres toe (<id>@<server_adres>?key=<key_value>), bijvoorbeeld,\n9123456234@192.168.16.1:21117?key=5Qbwsde3unUcJBtrx9ZkvUmwFNoExHzpryHuPUdqlWM=.\nAls u toegang wilt krijgen tot een apparaat op een publieke server, voer dan "; "<id>@public"; " in, sleutel is niet nodig voor de publieke server."];
  "Downloaden";
  "Map uploaden";
  "Bestanden uploaden";
  "Klembord is gesynchroniseerd";
  "Klembord van client bijwerken";
  "Ongemarkeerd";
  "Er is een nieuwe versie van {} beschikbaar";
  ""].
(** [LANGS.pl] *)
Definition lang_pl : jsmap string string := texts [
  "Status";
  "Twój pulpit";
  "Aby połączyć się z tym urządzeniem, użyj poniższego ID i hasła";
  "Hasło";
  "Gotowe";
  "Nawiązano";
  "Łączenie";
  "Włącz usługę";
  "Uruchom usługę";
  "Usługa uruchomiona";
  "Usługa nie jest uruchomiona";
  "Brak gotowości";
  "Połącz się z";
  "Transfer plików";
  "Połącz";
  "Ostatnie sesje";
  "Książka adresowa";
  "Potwierdzenie";
  "Tunelowanie TCP";
  "Usuń";
  "Odśwież losowe hasło";
  "Ustaw własne hasło";
  "Włącz klawiaturę/mysz";
  "Włącz schowek";
  "Włącz transfer pliku";
  "Włącz tunelowanie TCP";
  "Biała lista IP";
  "Serwer ID/Pośredniczący";
  "Importuj konfigurację serwera";
  "Eksportuj konfigurację serwera";
  "Import konfiguracji serwera zakończono pomyślnie";
  "Eksport konfiguracji serwera zakończono pomyślnie";
  "Nieprawidłowa konfiguracja serwera";
  "Schowek jest pusty";
  "Zatrzymaj usługę";
  "Zmień ID";
  "Twój nowy ID";
  "o długości od %min% do %max%";
  "rozpoczyna się literą";
  "dozwolone znaki";
  "Nowy ID może być złożony z małych i dużych liter a-zA-z, cyfry 0-9, - (dash) oraz _ (podkreślenie). Pierwszym znakiem powinna być litera a-zA-Z, a całe ID powinno składać się z 6 do 16 znaków.";
  "Strona internetowa";
  "O aplikacji";
  "Tworzone z miłością w tym pełnym chaosu świecie!";
  "Oświadczenie o ochronie prywatności";
  "Wycisz";
  "Zbudowano";
  "Wersja";
  "Pulpit";
  "Wejście audio";
  "Ulepszenia";
  "Kodek sprzętowy";
  "Adaptacyjny bitrate";
  "Serwer ID";
  "Serwer pośredniczący";
  "Serwer API";
  "Nieprawidłowe żądanie http";
  "Nieprawidłowe IP";
  "Nieprawidłowy format";
  "Serwer nie obsługuje tej funkcji";
  "Niedostępne";
  "Zbyt często";
  "Anuluj";
  "Pomiń";
  "Zamknij";
  "Ponów";
  "OK";
  "Wymagane jest hasło";
  "Wpisz proszę Twoje hasło";
  "Zapamiętaj hasło";
  "Błędne hasło";
  "Czy chcesz wprowadzić ponownie?";
  "Błąd połączenia";
  "Błąd";
  "Połączenie zresetowanie przez zdalne urządzenie";
  "Łączenie...";
  "Trwa łączenie. Proszę czekać.";
  "Spróbuj za minutę";
  "Błąd logowania";
  "Sukces";
  "Połączono, oczekiwanie na obraz...";
  "Nazwa";
  "Typ";
  "Zmodyfikowany";
  "Rozmiar";
  "Pokaż ukryte pliki";
  "Pobierz";
  "Wyślij";
  "Odśwież plik";
  "Lokalny";
  "Zdalny";
  "Komputer zdalny";
  "Komputer lokalny";
  "Potwierdź usunięcie";
  "Usuń";
  "Właściwości";
  "Wielokrotny wybór";
  "Zaznacz wszystko";
  "Odznacz wszystko";
  "Pusty katalog";
  "Katalog nie jest pusty";
  "Czy na pewno chcesz usunąć ten plik?";
  "Czy na pewno chcesz usunąć ten pusty katalog?";
  "Czy na pewno chcesz usunąć pliki z tego katalogu?";
  "Wykonaj dla wszystkich konfliktów";
  "To jest nieodwracalne!";
  "Usuwanie";
  "pliki";
  "Oczekiwanie";
  "Zakończono";
  "Prędkość";
  "Niestandardowa jakość obrazu";
  "Tryb prywatny";
  "Blokuj peryferia użytkownika";
  "Odblokuj peryferia użytkownika";
  "Dostosuj okno";
  "Oryginalny";
  "Zmniejsz";
  "Rozciągnij";
  "Przewijanie ręczne";
  "Przewijanie automatyczne";
  "Wysoka jakość obrazu";
  "Tryb zbalansowany";
  "Wysoka wydajność";
  "Tryb niestandardowy";
  "Pokazuj zdalny kursor";
  "Parametry połączenia";
  "Wyłącz schowek";
  "Zablokuj po zakończeniu sesji";
  "Wyślij Ctrl + Alt + Del";
  "Zablokuj zdalne urządzenie";
  "Odśwież";
  "ID nie istnieje";
  "Nie udało się połączyć z serwerem połączeń";
  "Spróbuj później";
  "Zdalny pulpit jest offline";
  "Niezgodność klucza";
  "Przekroczono czas oczekiwania";
  "Nie udało się połączyć z serwerem pośredniczącym";
  "Nie udało się połączyć przez serwer połączeń";
  "Nie udało się połączyć przez serwer pośredniczący";
  "Nie udało się nawiązać bezpośredniego połączenia z pulpitem zdalnym";
  "Ustaw hasło";
  "Hasło systemu operacyjnego";
  "RustDesk może nie działać poprawnie na maszynie zdalnej z przyczyn związanych z UAC. W celu uniknięcia problemów z UAC, kliknij poniższy przycisk by zainstalować RustDesk w swoim systemie.";
  "Zaktualizuj";
  "Pobierz";
  "Uaktualnij";
  "Konfiguruj";
  "Konfiguracja konta";
  "Konfiguracja ekranu";
  "Instalowanie...";
  "Zainstaluj";
  "Instalacja";
  "Ścieżka instalacji";
  "Utwórz skrót w menu";
  "Utwórz skrót na pulpicie";
  "Wskazówki do umowy/zgody";
  "Akceptuj i zainstaluj";
  "Umowa licencyjna użytkownika końcowego";
  "Trwa generowanie...";
  "Twoja instalacja jest w niższej wersji";
  "Podczas korzystanie z tunelowania, nie zamykaj tego okna.";
  "Nasłuchiwanie...";
  "Host zdalny";
  "Port zdalny";
  "Akcja";
  "Dodaj";
  "Lokalny port";
  "Lokalny adres";
  "Zmień lokalny port";
  "W celu uzyskania szybszego połączenia, skorzystaj z własnego serwera połączeń.";
  "Za krótkie, min. 6 znaków";
  "Potwierdzenie nie jest identyczne.";
  "Uprawnienia";
  "Akceptuj";
  "Odrzuć";
  "Rozłącz";
  "Zezwalaj na kopiowanie i wklejanie plików";
  "Połączony";
  "Połączenie bezpośrednie i szyfrowane";
  "Połączenie pośrednie i szyfrowane";
  "Połączenie bezpośrednie i nieszyfrowane";
  "Połączenie pośrednie i nieszyfrowane";
  "Wprowadź zdalne ID";
  "Wprowadź hasło";
  "Trwa logowanie...";
  "Włącz udostępnianie sesji RDP";
  "Automatyczne logowanie";
  "Włącz bezpośredni dostęp IP";
  "Zmień nazwę";
  "Przestrzeń";
  "Utwórz skrót na pulpicie";
  "Zmień ścieżkę";
  "Utwórz folder";
  "Wpisz nazwę folderu";
  "Napraw to";
  "Ostrzeżenie";
  "Ekran logowania korzystający z Wayland nie jest obsługiwany";
  "Wymagany ponowne uruchomienie";
  "Nieobsługiwany serwer wyświetlania";
  "Wymagany jest X11";
  "Port";
  "Ustawienia";
  "Nazwa użytkownika";
  "Nieprawidłowy port";
  "Połączenie zakończone ręcznie przez zdalne urządzenie";
  "Włącz zdalną modyfikację konfiguracji";
  "Uruchom bez instalacji";
  "Połącz bezpośrednio";
  "Zawsze łącz pośrednio";
  "Zezwalaj na łączenie z tym komputerem tylko z adresów IP znajdujących się na białej liście";
  "Zaloguj";
  "Zweryfikuj";
  "Zapamiętaj mnie";
  "Dodaj to urządzenie do zaufanych";
  "Kod weryfikacyjny";
  "Nastąpiło logowanie z nowego urządzenia, kod weryfikacyjny został wysłany na podany adres email, wprowadź kod by kontynuować proces logowania";
  "Wyloguj";
  "Tagi";
  "Szukaj ID";
  "Oddzielone przecinkiem, średnikiem, spacją lub w nowej linii";
  "Dodaj ID";
  "Dodaj Tag";
  "Odznacz wszystkie tagi";
  "Błąd sieci";
  "Nieprawidłowe nazwa użytkownika";
  "Nieprawidłowe hasło";
  "Błędne dane uwierzytelniające";
  "Kod weryfikacyjny jest niepoprawny lub wygasł";
  "Edytuj tag";
  "Zapomnij hasło";
  "Ulubione";
  "Dodaj do ulubionych";
  "Usuń z ulubionych";
  "Pusto";
  "Nieprawidłowa nazwa folderu";
  "Proxy Socks5";
  "Proxy Socks5/Http(s)";
  "Wykryte";
  "By uruchomić RustDesk przy starcie systemu, musisz zainstalować usługę systemową.";
  "Zdalne ID";
  "Wklej";
  "Wkleić tutaj?";
  "Czy na pewno chcesz zakończyć połączenie?";
  "Pobierz nową wersję";
  "Tryb dotykowy";
  "Tryb myszy";
  "Dotknij jednym palcem";
  "Lewy klik myszy";
  "Przytrzymaj jednym palcem";
  "Dotknij dwoma palcami";
  "Prawy przycisk myszy";
  "Przesuń jednym palcem";
  "Dotknij dwukrotnie i przesuń";
  "Przeciągnij myszą";
  "Trzy palce pionowo";
  "Kółko myszy";
  "Ruch dwoma palcami";
  "Ruch ekranu";
  "Uszczypnij, aby powiększyć";
  "Powiększanie ekranu";
  "Reset ekranu";
  "Brak uprawnień na przesyłanie plików";
  "Notatka";
  "Połączenie";
  "Udostępnij ekran";
  "Czat";
  "Łącznie";
  "elementów";
  "zaznaczonych";
  "Przechwytywanie ekranu";
  "Kontrola wejścia";
  "Przechwytywanie dźwięku";
  "Przekazywanie plików";
  "Przekazywanie ekranu";
  "Akceptujesz?";
  "Otwórz ustawienia systemowe";
  "Jak uzyskać uprawnienia do wprowadzania danych w systemie Android?";
  with_quotes ["Aby można było sterować Twoim urządzeniem za pomocą myszy lub dotyku, musisz zezwolić RustDesk na korzystanie z usługi "; "Ułatwienia dostępu"; "."];
  "Przejdź do następnej strony ustawień systemowych, znajdź i wejdź w [Zainstalowane usługi], włącz usługę [RustDesk Input].";
  "Otrzymano nowe żądanie zdalnego dostępu, które chce przejąć kontrolę nad Twoim urządzeniem.";
  "Włączenie opcji „Przechwytywanie ekranu” spowoduje automatyczne uruchomienie usługi, umożliwiając innym urządzeniom żądanie połączenia z Twoim urządzeniem.";
  "Zamknięcie usługi spowoduje automatyczne zamknięcie wszystkich nawiązanych połączeń.";
  "Bieżąca wersja systemu Android nie obsługuje przechwytywania dźwięku, zaktualizuj system do wersji Android 10 lub nowszej.";
  "Kliknij [Uruchom serwis] lub włącz uprawnienia [Zrzuty ekranu], aby uruchomić usługę udostępniania ekranu.";
  "Uprawnienia do nawiązanych połączeń nie mogą być zmieniane automatycznie, dopiero po ponownym połączeniu.";
  "Konto";
  "Nadpisz";
  "Ten plik istnieje, pominąć czy nadpisać ten plik?";
  "Zrezygnuj";
  "Pomoc";
  "Niepowodzenie";
  "Udało się";
  "Ktoś włącza tryb prywatności, wyjdź";
  "Niewspierane";
  "Odmowa dostępu";
  "Zainstaluj wtyczkę";
  "Wyjście ze zdalnego urządzenia";
  "Nie udało się wyłączyć";
  "Wyłączony";
  "Język";
  "Zachowaj usługę RustDesk w tle";
  "Ignoruj optymalizację baterii";
  "Jeśli chcesz wyłączyć tę funkcję, przejdź do następnej strony ustawień aplikacji RustDesk, znajdź i wprowadź [Bateria], odznacz [Bez ograniczeń]";
  "Autostart";
  "Uruchom usługę udostępniania ekranu podczas startu, wymaga specjalnych uprawnień";
  "Połączenie niedozwolone";
  "Tryb kompatybilności wstecznej (legacy)";
  "Tryb mapowania";
  "Tryb translacji";
  "Użyj hasła permanentnego";
  "Użyj obu haseł";
  "Ustaw hasło permanentne";
  "Włącz zdalne restartowanie";
  "Zrestartuj zdalne urządzenie";
  "Czy na pewno uruchomić ponownie";
  "Trwa restartowanie Zdalnego Urządzenia";
  "Trwa ponownie uruchomienie zdalnego urządzenia, zamknij ten komunikat i ponownie nawiąż za chwilę połączenie używając hasła permanentnego";
  "Skopiowano";
  "Wyłączyć tryb pełnoekranowy";
  "Tryb pełnoekranowy";
  "Dostępne mobilne polecenia";
  "Wybierz ekran";
  "Dostępne polecenia";
  "Ustawienia wyświetlania";
  "Proporcje";
  "Jakość obrazu";
  "Styl przewijania";
  "Pokaż pasek narzędzi";
  "Ukryj pasek narzędzi";
  "Połączenie bezpośrednie";
  "Połączenie przez bramkę";
  "Połączenie szyfrowane";
  "Połączenie nieszyfrowane";
  "Skalowanie oryginalne";
  "Dopasuj do wyświetlacza";
  "Ogólne";
  "Zabezpieczenia";
  "Motyw";
  "Ciemny motyw";
  "Jasny motyw";
  "Ciemny";
  "Jasny";
  "Zgodny z systemem";
  "Włącz akcelerację sprzętową kodeków";
  "Odblokuj ustawienia zabezpieczeń";
  "Włącz dźwięk";
  "Odblokuj ustawienia sieciowe";
  "Serwer";
  "Bezpośredni adres IP";
  "Proxy";
  "Zastosuj";
  "Czy rozłączyć wszystkie urządzenia?";
  "Wyczyść";
  "Urządzenie wejściowe Audio";
  "Użyj białej listy IP";
  "Sieć";
  "Przypnij pasek narzędzi";
  "Odepnij pasek narzędzi";
  "Nagrywanie";
  "Folder";
  "Automatycznie nagrywaj sesje przychodzące";
  "Automatycznie nagrywaj sesje wychodzące";
  "Zmień";
  "Zacznij nagrywać sesję";
  "Zatrzymaj nagrywanie sesji";
  "Włącz nagrywanie sesji";
  "Włącz wykrywanie urządzenia w sieci LAN";
  "Zablokuj wykrywanie urządzenia w sieci LAN";
  "Napisz wiadomość";
  "Monit";
  "Poczekaj na potwierdzenie uprawnień UAC";
  "Aktualne okno zdalnego urządzenia wymaga wyższych uprawnień by poprawnie działać, chwilowo niemożliwym jest korzystanie z myszy i klawiatury. Możesz poprosić zdalnego użytkownika o minimalizację okna, lub nacisnąć przycisk podniesienia uprawnień w oknie zarządzania połączeniami. By uniknąć tego problemu, rekomendujemy instalację oprogramowania na urządzeniu zdalnym.";
  "Rozłączone";
  "Inne";
  "Potwierdź przed zamknięciem wielu kart";
  "Ustawienia klawiatury";
  "Pełny dostęp";
  "Udostępnianie ekranu";
  "Wayland wymaga Ubuntu 21.04 lub nowszego.";
  "Wayland wymaga nowszej dystrybucji Linuksa. Wypróbuj pulpit X11 lub zmień system operacyjny.";
  "View";
  "Wybierz ekran do udostępnienia (działaj po zdalnego urządzenia).";
  "Pokaż RustDesk";
  "Ten komputer";
  "lub";
  "Kontynuuj z";
  "Uzyskaj uprawnienia";
  "Powiększenie kursora";
  "Uwierzytelnij sesję używając hasła";
  "Uwierzytelnij sesję poprzez kliknięcie";
  "Uwierzytelnij sesję za pomocą obu sposobów";
  "Oczekiwanie, na zatwierdzenie sesji przez host zdalny...";
  "Hasło jednorazowe";
  "Użyj hasła jednorazowego";
  "Długość hasła jednorazowego";
  "Żądanie dostępu do Twojego urządzenia";
  "Ukryj okno zarządzania połączeniem";
  "Pozwalaj na ukrycie tylko, gdy akceptujesz sesje za pośrednictwem hasła i używasz hasła permanentnego";
  "Wsparcie dla Wayland jest niekompletne, użyj X11 jeżeli chcesz korzystać z dostępu nienadzorowanego";
  "Kliknij prawym przyciskiem myszy, aby wybrać zakładkę";
  "Pominięte";
  "Dodaj do Książki Adresowej";
  "Grupy";
  "Szukaj";
  "Zakończone manualnie z konsoli Web";
  "Lokalny typ klawiatury";
  "Wybierz lokalny typ klawiatury";
  "Jeżeli posiadasz kartę graficzną Nvidia i okno zamyka się natychmiast po nawiązaniu połączenia, instalacja sterownika nouveau i wybór renderowania programowego mogą pomóc. Restart aplikacji jest wymagany.";
  "Zawsze używaj renderowania programowego";
  with_quotes ["By kontrolować zdalne urządzenie przy pomocy klawiatury, musisz udzielić aplikacji RustDesk uprawnień do "; "Urządzeń Wejściowych"; "."];
  with_quotes ["Aby umożliwić zdalne rozmowy należy przyznać RuskDesk uprawnienia do "; "Nagrań audio"; "."];
  "Możesz poprosić o podniesienie uprawnień jeżeli ktoś posiada dostęp do zdalnego urządzenia.";
  "Czekaj";
  "Błąd przy podnoszeniu uprawnień";
  "Poproś użytkownika zdalnego o uwierzytelnienie";
  "Wybierz to jeżeli zdalne konto jest administratorem";
  "Prześlij nazwę użytkownika i hasło administratora";
  "Nadal wymaga od zdalnego użytkownika potwierdzenia uprawnień UAC.";
  "Poproś o podniesienie uprawnień";
  "Prosimy czekać aż zdalny użytkownik potwierdzi uprawnienia UAC.";
  "Pomyślnie podniesiono uprawnienia";
  "wielkie litery";
  "małe litery";
  "cyfry";
  "znaki specjalne";
  "długość>=8";
  "Słabe";
  "Średnie";
  "Mocne";
  "Zamień Strony";
  "Czy na pewno chcesz udostępnić swój ekran?";
  "Wyświetlanie";
  "Domyślny styl wyświetlania";
  "Domyślny styl przewijania";
  "Domyślna jakość obrazu";
  "Domyślny kodek";
  "Bitrate";
  "FPS";
  "Auto";
  "Inne opcje domyślne";
  "Rozmowa głosowa";
  "Chat tekstowy";
  "Rozłącz";
  with_quotes ["Bezpośrednie połączenie może nie być możliwe, możesz spróbować połączyć się przez serwer przekazujący. \nDodatkowo, jeśli chcesz użyć serwera przekazującego przy pierwszej próbie, możesz dodać sufiks "; "/r"; " do identyfikatora lub wybrać opcję "; "Zawsze łącz przez serwer przekazujący"; " na karcie peer-ów."];
  "Połącz ponownie";
  "Kodek";
  "Rozdzielczość";
  "Brak transferów w toku";
  "Ustaw długość jednorazowego hasła";
  "Ustawienia RDP";
  "Sortuj wg";
  "Nowe połączenie";
  "Przywróć";
  "Minimalizuj";
  "Maksymalizuj";
  "Twoje urządzenie";
  "Ups, żadnych nowych sesji!\nCzas zaplanować nową.";
  "Brak ulubionych?\nZnajdźmy kogoś, z kim możesz się połączyć i dodaj Go do ulubionych!";
  "Ojej, wygląda na to, że nie odkryliśmy żadnych urządzeń z RustDesk w Twojej sieci.";
  "Ojej, wygląda na to, że nie ma żadnych wpisów w Twojej książce adresowej.";
  "np. admin";
  "Pusty użytkownik";
  "Puste hasło";
  "Ja";
  "Ten plik jest identyczny z plikiem na drugim komputerze.";
  "Pokaż monitory w zasobniku";
  "Tylko podgląd (wyłącza możliwość interakcji)";
  "Musisz zalogować się na zdalne konto, by zezwolić na sesję pulpitu X";
  "Weryfikuj hasło RustDesk";
  "Zapamiętaj to konto";
  "To konto jest używane do logowania do zdalnych systemów i włącza bezobsługowe sesje pulpitu";
  "Konto systemowe";
  "Inny użytkownik jest już zalogowany";
  "Rozłącz";
  "Nie znaleziono Xorg";
  "Proszę zainstalować Xorg";
  "Żaden pulpit nie jest dostępny";
  "Proszę zainstalować pulpit GNOME";
  "Podniesienie uprawnień nie jest wymagane";
  "Dźwięk systemowy";
  "Domyślne";
  "Nowe RDP";
  "Sygnatura";
  "Skopiuj sygnaturę";
  "brak sygnatur";
  "Wybierz zdalne urządzenie";
  "Wybierz zdalne urządzenia";
  "Wtyczki";
  "Odinstaluj";
  "Aktualizuj";
  "Włącz";
  "Wyłącz";
  "Opcje";
  "Oryginalna rozdzielczość";
  "Dostosuj rozdzielczość lokalną";
  "Rozdzielczość niestandardowa";
  "Zwiń pasek narzędzi";
  "Akceptuj i Podnieś uprawnienia";
  "Zaakceptuj połączenie i podnieś uprawnienia UAC";
  "Upłynął limit czasu oczekiwania na schowek.";
  "Połączenie przychodzące";
  "Połączenie wychodzące";
  "Wyjście";
  "Otwórz";
  "Na pewno chcesz się wylogować?";
  "Usługa";
  "Uruchom";
  "Zatrzymaj";
  "Przekroczona maks. liczba urządzeń";
  "Synchronizacja z ostatnimi sesjami";
  "Znaczniki sortowania";
  "Otwórz połączenie w nowej zakładce";
  "Przenieś zakładkę do nowego okna";
  "Nie może być puste";
  "Już istnieje";
  "Zmień hasło";
  "Odśwież hasło";
  "ID";
  "Widok siatki";
  "Widok listy";
  "Wybierz";
  "Przełącz tagi";
  "Aktualizacja książki adresowej nie powiodła się";
  "Nie udało się zsynchronizować książki adresowej z serwerem";
  "Urządzenia, które były obecne w ostatnich sesjach, zostaną ponownie dodane do książki adresowej";
  "Zmień kolor";
  "Kolor podstawowy";
  "Kolor HSV";
  "Instalacja zakończona!";
  "Instalacja nie powiodła się";
  "Odwróć rolkę myszki";
  "{} sesji";
  "Możesz być ofiarą OSZUSTWA!";
  "Jeżeli rozmawiasz przez telefon z osobą której NIE ZNASZ i NIE UFASZ, która prosi Cię o uruchomienie programu RustDesk - nie rób tego i natychmiast się rozłącz.";
  "Jest to prawdopodobnie oszust, który próbuje ukraść Twoje pieniądze lub inne prywatne informacje.";
  "Nie pokazuj więcej";
  "Zgadzam się";
  "Odmawiam";
  "Czas bezczynności w minutach";
  "Automatycznie rozłącz sesje przychodzące przy braku aktywności użytkownika";
  "Automatycznie rozłącz przy bezczynności";
  "Sprawdź aktualizacje przy starcie programu";
  "Proszę zaktualizować RustDesk Server Pro do wersji {} lub nowszej!";
  "Błąd odświeżania grup";
  "Filtruj wg przecięcia";
  "Usuń tapetę podczas sesji przychodzących";
  "Test";
  "Ekran został odłączony, przełącz się na pierwszy ekran.";
  "Brak ekranów";
  "Otwórz w nowym oknie";
  "Pokaż ekrany w osobnych oknach";
  "Użyj wszystkich moich ekranów do zdalnej sesji";
  "SELinux jest włączony na Twoim urządzeniu, co może przeszkodzić w uruchomieniu RustDesk po stronie kontrolowanej.";
  "Zmień widok";
  "Duże kafelki";
  "Małe kafelki";
  "Lista";
  "Wirtualne ekrany";
  "Odłącz wszystko";
  "True color (4:4:4)";
  "Zablokuj wprowadzanie danych przez użytkownika";
  with_quotes ["Możesz wprowadzić identyfikator, bezpośredni adres IP lub domenę z portem (<adres_domenowy>:<port>).\nJeżeli chcesz uzyskać dostęp do urządzenia na innym serwerze, dołącz adres serwera (<id>@<adres_serwera>?key=<wartość_klucza>, np. \n9123456234@192.168.16.1:21117?key=5Qbwsde3unUcJBtrx9ZkvUmwFNoExHzpryHuPUdqlWM=.\nJeżeli chcesz uzyskać dostęp do urządzenia na serwerze publicznym, wpisz "; "<id>@public"; ", klucz nie jest potrzebny dla serwera publicznego."];
  "Tryb 1";
  "Tryb 2";
  "Wejdź w tryb prywatności";
  "Wyjdź z trybu prywatności";
  "Pośredni sterownik ekranu nie jest obsługiwany. Wymagany jest system Windows 10 w wersji 2004 lub nowszej.";
  "Wejście źródła 1";
  "Wejście źródła 2";
  "Zamiana przycisków sterujących myszki";
  "Zamień przyciski myszki (LPM - RPM)";
  "Kod 2FA";
  "Więcej";
  "Włącz autoryzację dwuskładnikową (2FA)";
  "Skonfiguruj teraz swój moduł uwierzytelniający. Na telefonie lub komputerze możesz używać aplikacji autoryzującej, takiej jak Authy, Microsoft lub Google Authenticator.\n\nZeskanuj kod QR za pomocą aplikacji i wprowadź kod wyświetlany przez aplikację, aby włączyć uwierzytelnianie dwuskładnikowe.";
  "Nie można zweryfikować kodu. Sprawdź, czy kod oraz ustawienia lokalnego czasu są prawidłowe.";
  "Autoryzacja dwuskładnikowa";
  "Kod weryfikacyjny wysłany e-mailem musi mieć 6 znaków.";
  "Kod 2FA musi zawierać 6 cyfr.";
  "Znaleziono wiele sesji Windows";
  "Wybierz sesję, do której chcesz się podłączyć";
  "Obsługiwane przez RustDesk";
  "To jest spersonalizowana edycja. Możesz łączyć się z innymi urządzeniami, ale inne urządzenia nie mogą połączyć się z urządzeniem.";
  "Ta spersonalizowana edycja jest wyposażona w wstępnie ustawione hasło. Każdy, kto zna to hasło, może uzyskać pełną kontrolę nad Twoim urządzeniem. Jeśli się tego nie spodziewałeś, natychmiast odinstaluj oprogramowanie.";
  "Alert bezpieczeństwa";
  "Moja książka adresowa";
  "Osobiste";
  "Właściciel";
  "Ustaw hasło udostępniania";
  "Istnieje w";
  "Tylko do odczytu";
  "Odczyt/Zapis";
  "Pełna kontrola";
  "Powyższe pola są udostępniane i widoczne dla innych.";
  "Wszyscy";
  "Więcej w konsoli web";
  "Zezwalaj na połączenie tylko wtedy, gdy okno RustDesk jest otwarte";
  "Brak fizycznych wyświetlaczy, tryb prywatny nie jest potrzebny.";
  "Podążaj za zdalnym kursorem";
  "Podążaj za aktywnością zdalnych okien";
  "Domyślny protokół i port to Socks5 i 1080";
  "Nie znaleziono urządzenia audio.";
  "Przychodzące";
  "Wychodzące";
  "Wyczyść wybór ekranu Wayland";
  "Po wyczyszczeniu wyboru ekranu, możesz wybrać, który ekran chcesz udostępnić.";
  "Na pewno wyczyścić wybór ekranu Wayland?";
  "Otrzymano nowe żądanie połączenia głosowego. Jeżeli je zaakceptujesz, dźwięk przełączy się na komunikację głosową.";
  "Użyj renderowania tekstur, aby wygładzić zdjęcia. Możesz spróbować wyłączyć tę opcję, jeżeli napotkasz problemy z renderowaniem.";
  "Użyj renderowania tekstur";
  "Okno pływające";
  "Pozwala zachować usługę RustDesk w tle";
  "Pozostaw ekran włączony";
  "Nigdy";
  "Podczas sterowania";
  "Gdy usługa jest uruchomiona";
  "Przechwytuj ekran używając DirectX";
  "Wstecz";
  "Aplikacje";
  "Głośniej";
  "Ciszej";
  "Zasilanie";
  "Bot Telegram";
  "Jeżeli włączysz tę funkcję, możesz otrzymać kod 2FA od swojego bota. Może on również działać jako powiadomienie o połączeniu.";
  with_quotes ["1. Otwórz czat z @BotFather.\n2. Wyślij polecenie "; "/newbot"; ". Otrzymasz token do po wykonaniu tego kroku.\n3. Rozpocznij czat z nowo utworzonym botem. Wyślij wiadomość zaczynającą się od ukośnika ("; "/"; "),np. "; "/hello"; ", aby go aktywować.\n"];
  "Na pewno chcesz anulować 2FA?";
  "Na pewno chcesz anulować bot Telegram?";
  "O programie";
  "Wysyła naciśnięcia klawiszy ze schowka";
  "Sprawdź swoje połączenie sieciowe, następnie kliknij Ponów.";
  "Odblokuj za pomocą PIN";
  "Wymaga co najmniej {} znaków";
  "Niewłaściwy PIN";
  "Ustaw PIN";
  "Włącz zaufane urządzenia";
  "Zarządzaj zaufanymi urządzeniami";
  "Platforma";
  "Pozostało dni";
  "Omiń weryfikację 2FA dla zaufanych urządzeń";
  "Folder nadrzędny";
  "Wznów";
  "Nieprawidłowa nazwa pliku";
  "Jednokierunkowy transfer plików jest włączony po stronie kontrolowanej.";
  "Wymagana autoryzacja";
  "Uwierzytelnienie";
  with_quotes ["Jeśli chcesz uzyskać dostęp do urządzenia na innym serwerze, dodaj adres serwera (<id>@<adres_serwera>?key=<wartosc_klucza>) na przykład, \n9123456234@192.168.16.1:21117?key=5Qbwsde3unUcJBtrx9ZkvUmwFNoExHzpryHuPUdqlWM=.\nJeśli chcesz uzyskać dostęp do urządzenia na serwerze publicznym, wprowadź "; "<id>@public"; ", klucz nie jest wymagany dla serwera publicznego."];
  "Pobierz";
  "Wyślij folder";
  "Wyślij pliki";
  "Schowek jest zsynchronizowany";
  "Uaktualnij schowek klienta";
  "";
  "";
  ""].
(** [LANGS.ptbr] *)
Definition lang_ptbr : jsmap string string := texts [
  "Status";
  "Seu Computador";
  "Seu computador pode ser acessado com este ID e senha.";
  "Senha";
  "Pronto";
  "Estabelecido";
  "Conectando à rede do RustDesk...";
  "Habilitar Serviço";
  "Iniciar Serviço";
  "Serviço está em execução";
  "Serviço não está em execução";
  "Não está pronto. Por favor verifique sua conexão";
  "Controle um Computador Remoto";
  "Transferir Arquivos";
  "Conectar";
  "Sessões Recentes";
  "Lista de Endereços";
  "Confirmação";
  "Tunelamento TCP";
  "Remover";
  "Atualizar senha aleatória";
  "Configure sua própria senha";
  "Habilitar teclado/mouse";
  "Habilitar Área de Transferência";
  "Habilitar Transferência de Arquivos";
  "Habilitar Tunelamento TCP";
  "Lista de IPs Confiáveis";
  "Servidor ID/Relay";
  "Importar Configuração do Servidor";
  "Exportar Configuração do Servidor";
  "Configuração do servidor importada com sucesso";
  "Configuração do servidor exportada com sucesso";
  "Configuração do servidor inválida";
  "A área de transferência está vazia";
  "Parar serviço";
  "Alterar ID";
  "Seu novo ID";
  "tamanho %min% para %max%";
  "começa com uma letra";
  "caracteres permitidos";
  "Somente os caracteres a-z, A-Z, 0-9, - (dash) e _ (sublinhado) são permitidos. A primeira letra deve ser a-z, A-Z. Comprimento entre 6 e 16.";
  "Website";
  "Sobre";
  "Feito de coração neste mundo caótico!";
  "Declaração de Privacidade";
  "Desativar som";
  "Data da Build";
  "Versão";
  "Início";
  "Entrada de Áudio";
  "Melhorias";
  "Codec de hardware";
  "Taxa de bits adaptável";
  "Servidor de ID";
  "Servidor de Relay";
  "Servidor da API";
  "deve iniciar com http:// ou https://";
  "IP inválido";
  "Formato inválido";
  "Ainda não suportado pelo servidor";
  "Indisponível";
  "Muito frequente";
  "Cancelar";
  "Pular";
  "Fechar";
  "Tentar novamente";
  "OK";
  "Senha necessária";
  "Por favor informe sua senha";
  "Lembrar senha";
  "Senha incorreta";
  "Você deseja conectar novamente?";
  "Erro de conexão";
  "Erro";
  "Reiniciado pelo parceiro";
  "Conectando...";
  "Conexão em progresso. Aguarde por favor.";
  "Por favor tente após 1 minuto";
  "Erro de login";
  "Sucesso";
  "Conectado. Aguardando pela imagem...";
  "Nome";
  "Tipo";
  "Modificado";
  "Tamanho";
  "Mostrar Arquivos Ocultos";
  "Receber";
  "Enviar";
  "Atualizar Arquivo";
  "Local";
  "Remoto";
  "Computador Remoto";
  "Computador Local";
  "Confirmar Apagar";
  "Apagar";
  "Propriedades";
  "Seleção múltipla";
  "Selecionar tudo";
  "Desmarcar tudo";
  "Diretório vazio";
  "Diretório não está vazio";
  "Tem certeza que deseja apagar este arquivo?";
  "Tem certeza que deseja apagar este diretório vazio?";
  "Tem certeza que deseja apagar este arquivo deste diretório?";
  "Fazer isto para todos os conflitos";
  "Isso é irreversível!";
  "Apagando";
  "arquivos";
  "Aguardando";
  "Completo";
  "Velocidade";
  "Qualidade Visual Personalizada";
  "Modo privado";
  "Bloquear entrada de usuário";
  "Desbloquear entrada de usuário";
  "Ajustar Janela";
  "Original";
  "Reduzir";
  "Aumentar";
  "Barra de rolagem";
  "Rolagem automática";
  "Qualidade visual boa";
  "Balanceada";
  "Otimizar tempo de resposta";
  "Personalizado";
  "Mostrar cursor remoto";
  "Exibir monitor de qualidade";
  "Desabilitar área de transferência";
  "Bloquear após o fim da sessão";
  "Ctrl + Alt + Del Inserir";
  "Bloquear computador";
  "Atualizar";
  "ID não existe";
  "Falha ao conectar ao servidor de rendezvous";
  "Por favor tente mais tarde";
  "O computador remoto está offline";
  "Chaves incompatíveis";
  "Tempo esgotado";
  "Falha ao conectar ao servidor de relay";
  "Falha ao conectar ao servidor de rendezvous";
  "Falha ao conectar através do servidor de relay";
  "Falha ao fazer conexão direta ao desktop remoto";
  "Definir Senha";
  "Senha do SO";
  "Devido ao UAC, o RustDesk não funciona corretamente como o lado remoto em alguns casos. Para evitar o UAC, por favor clique no botão abaixo para instalar o RustDesk no sistema.";
  "Clique para fazer o upgrade";
  "Clique para baixar";
  "Clique para fazer o update";
  "Configurar";
  with_quotes ["Para controlar seu computador remotamente, você precisa conceder ao RustDesk permissões de "; "Acessibilidade"; "."];
  with_quotes ["Para acessar seu computador remotamente, você precisa conceder ao RustDesk permissões de "; "Gravar a Tela"; "/"];
  "Instalando ...";
  "Instalar";
  "Instalação";
  "Caminho da Instalação";
  "Criar atalhos no Menu Iniciar";
  "Criar ícone na Área de Trabalho";
  "Ao iniciar a instalação, você concorda com o acordo de licença.";
  "Aceitar e Instalar";
  "Acordo de licença do usuário final";
  "Gerando ...";
  "Sua instalação é de uma versão menor.";
  "Não feche esta janela enquanto estiver utilizando o túnel";
  "Escutando ...";
  "Host Remoto";
  "Porta Remota";
  "Ação";
  "Adicionar";
  "Porta Local";
  "Endereço Local";
  "Alterar Porta Local";
  "Para uma conexão mais rápida, por favor configure seu próprio servidor";
  "Muito curto, pelo menos 6 caracteres.";
  "A confirmação não é idêntica.";
  "Permissões";
  "Aceitar";
  "Dispensar";
  "Desconectar";
  "Permitir copiar e colar arquivos";
  "Conectado";
  "Conexão direta e criptografada";
  "Conexão via relay e criptografada";
  "Conexão direta e não criptografada";
  "Conexão via relay e não criptografada";
  "Informe o ID Remoto";
  "Informe sua senha";
  "Fazendo Login...";
  "Habilitar compartilhamento de sessão RDP";
  with_quotes ["Login Automático (Somente válido se você habilitou "; "Bloquear após o fim da sessão"; ")"];
  "Habilitar Acesso IP Direto";
  "Renomear";
  "Espaço";
  "Criar Atalho na Área de Trabalho";
  "Alterar Caminho";
  "Criar Diretório";
  "Por favor informe o nome do diretório";
  "Corrigir";
  "Aviso";
  "Tela de Login utilizando Wayland não é suportada";
  "Reinicialização necessária";
  "Servidor de display não suportado";
  "x11 esperado";
  "Porta";
  "Configurações";
  "Nome de usuário";
  "Porta inválida";
  "Fechada manualmente pelo parceiro";
  "Habilitar modificações de configuração remotas";
  "Executar sem instalar";
  "Conectar via relay";
  "Sempre conectar via relay";
  "Somente IPs confiáveis podem me acessar";
  "Login";
  "Verificar";
  "Lembrar de mim";
  "Confiar neste dispositivo";
  "Código de verificação";
  "Um novo dispositivo foi detectado e um código de verificação foi enviado para o endereço de e-mail registrado, insira o código de verificação para continuar o login.";
  "Sair";
  "Tags";
  "Pesquisar ID";
  "Separado por vírcula, ponto-e-vírgula, espaços ou nova linha";
  "Adicionar ID";
  "Adicionar Tag";
  "Desmarcar todas as tags";
  "Erro de rede";
  "Nome de usuário requerido";
  "Senha requerida";
  "Nome de usuário ou senha incorretos";
  "";
  "Editar Tag";
  "Esquecer Senha";
  "Favoritos";
  "Adicionar aos Favoritos";
  "Remover dos Favoritos";
  "Vazio";
  "Nome de diretório inválido";
  "Proxy Socks5";
  "Proxy Socks5/Http(s)";
  "Descoberto";
  "Para inicialização junto ao sistema, você deve instalar o serviço de sistema.";
  "ID Remoto";
  "Colar";
  "Colar aqui?";
  "Tem certeza que deseja fechar a conexão?";
  "Baixar nova versão";
  "Modo toque";
  "Modo mouse";
  "Toque com um dedo";
  "Botão esquerdo do mouse";
  "Um toque longo";
  "Toque com dois dedos";
  "Botão direito do mouse";
  "Mover com um dedo";
  "Toque duplo & mover";
  "Arrastar com o mouse";
  "Três dedos verticalmente";
  "Roda do Mouse";
  "Mover com dois dedos";
  "Mover Tela";
  "Pinçar para Zoom";
  "Zoom na tela";
  "Reiniciar tela";
  "Sem permissão para transferência de arquivo";
  "Nota";
  "Conexão";
  "Compartilhar Tela";
  "Chat";
  "Total";
  "itens";
  "Selecionado";
  "Captura de Tela";
  "Controle de Entrada";
  "Captura de Áudio";
  "Conexão de Arquivo";
  "Conexão de Tela";
  "Você aceita?";
  "Abrir Configurações do Sistema";
  "Como habilitar a permissão de entrada do Android?";
  with_quotes ["Para que um dispositivo remoto controle seu dispositivo Android via mouse ou toque, você precisa permitir que o RustDesk use o serviço "; "Acessibilidade"; "."];
  "Por favor vá para a próxima página de configuração do sistema, encontre e entre [Serviços Instalados], HABILITE o serviço [RustDesk Input].";
  "Nova requisição de controle recebida, solicita o controle de seu dispositivo atual.";
  "Habilitar a Captura de Tela irá automaticamente inicalizar o serviço, permitindo que outros dispositivos solicitem uma conexão deste dispositivo.";
  "Fechar o serviço irá automaticamente fechar todas as conexões estabelecidas.";
  "A versão atual do Android não suporta captura de áudio, por favor atualize para o Android 10 ou superior.";
  "Toque em [Iniciar serviço] ou habilite a permissão [Captura de tela] para iniciar o serviço de compartilhamento de tela.";
  "As permissões para conexões estabelecidas podem não ser alteradas instantaneamente até que seja reconectado.";
  "Conta";
  "Substituir";
  "Este arquivo existe, pular ou substituir este arquivo?";
  "Sair";
  "Ajuda";
  "Falhou";
  "Sucesso";
  "Alguém habilitou o modo de privacidade, sair";
  "Não suportado";
  "Parceiro negou";
  "Por favor instale plugins";
  "Parceiro saiu";
  "Falha ao desligar";
  "Desligado";
  "Idioma";
  "Manter o serviço do RustDesk executando em segundo plano";
  "Ignorar otimizações de bateria";
  "Abrir otimizações de bateria";
  "Iniciar na Inicialização";
  "Inicie o serviço de compartilhamento de tela na inicialização, requer permissões especiais";
  "Conexão não permitida";
  "Modo legado";
  "Modo mapa";
  "Modo traduzido";
  "Utilizar senha permanente";
  "Utilizar ambas as senhas";
  "Configurar senha permanente";
  "Habilitar Reinicialização Remota";
  "Reiniciar Dispositivo Remoto";
  "Você tem certeza que deseja reiniciar?";
  "Reiniciando dispositivo remoto";
  "O dispositivo remoto está reiniciando, feche esta caixa de mensagem e reconecte com a senha permanente depois de um tempo";
  "Copiado";
  "Sair da Tela Cheia";
  "Tela Cheia";
  "Ações móveis";
  "Selecionar monitor";
  "Controlar ações";
  "Configurações de exibição";
  "Proporção";
  "Qualidade de Imagem";
  "Estilo de Rolagem";
  "";
  "";
  "Conexão Direta";
  "Conexão via Relay";
  "Conexão Segura";
  "Conexão Insegura";
  "Escala original";
  "Escala adaptada";
  "Geral";
  "Segurança";
  "Tema";
  "Tema Escuro";
  "Tema Claro";
  "Escuro";
  "Claro";
  "Seguir sistema";
  "Habilitar codec de hardware";
  "Desbloquear configurações de segurança";
  "Habilitar áudio";
  "Desbloquear configurações de rede";
  "Servidor";
  "Acesso direto por IP";
  "Proxy";
  "Aplicar";
  "Desconectar todos os dispositivos?";
  "Limpar";
  "Dispositivo de entrada de áudio";
  "Utilizar lista de IPs confiáveis";
  "Rede";
  "";
  "";
  "Gravando";
  "Diretório";
  "Gravar automaticamente sessões de entrada";
  "";
  "Alterar";
  "Iniciar gravação da sessão";
  "Parar gravação da sessão";
  "Habilitar gravação da sessão";
  "Habilitar descoberta da LAN";
  "Negar descoberta da LAN";
  "Escrever uma mensagem";
  "Prompt de comando";
  "Favor aguardar a confirmação do UAC...";
  "A janela atual da área de trabalho remota requer privilégios mais altos para operar, portanto, não é possível usar o mouse e o teclado temporariamente. Você pode solicitar ao usuário remoto para minimizar a janela atual ou clicar no botão de elevação na janela de gerenciamento de conexão. Para evitar esse problema, é recomendável instalar o software no dispositivo remoto.";
  "Desconectado";
  "Outro";
  "Confirmar antes de fechar múltiplas abas";
  "Configurações de teclado";
  "Acesso completo";
  "Compartilhamento de tela";
  "Wayland requer Ubuntu 21.04 ou versão superior.";
  "Wayland requer uma versão superior da distribuição linux. Por favor, tente o desktop X11 ou mude seu sistema operacional.";
  "JumpLink";
  "Por favor, selecione a tela a ser compartilhada (operar no lado do parceiro).";
  "Exibir RustDesk";
  "Este Computador";
  "ou";
  "Continuar com";
  "Elevar";
  "Aumentar cursor";
  "Aceitar sessões via senha";
  "Aceitar sessões via clique";
  "Aceitar sessões de ambos os modos";
  "Por favor aguarde enquanto o cliente remoto aceita seu pedido de sessão...";
  "Senha de uso único";
  "Usar senha de uso único";
  "Comprimento da senha de uso único";
  "Solicitar acesso ao seu dispositivo";
  "Ocultar janela de gerenciamento de conexão";
  "Permitir ocultação somente se aceitar sessões via senha e usar senha permanente";
  "O suporte ao Wayland está em estágio experimental, use o X11 se precisar de acesso autônomo.";
  "Clique com o botão direito para selecionar as guias";
  "Ignorado";
  "Adicionar ao livro de endereços";
  "Grupo";
  "Buscar";
  "Fechado manualmente pelo console da web";
  "Tipo de teclado local";
  "Selecione o tipo de teclado local";
  "Se você tiver uma placa gráfica Nvidia e a janela remota fechar imediatamente após a conexão, instalar o driver nouveau e optar por usar a renderização de software pode ajudar. É necessário reiniciar o software.";
  "Sempre utilizar renderização de software";
  with_quotes ["Para controlar a área de trabalho remota com teclado, você precisa conceder a permissão "; "Monitoramento de entrada"; " do RustDesk."];
  with_quotes ["Para falar remotamente, você precisa conceder a permissão "; "Gravar áudio"; " do RustDesk."];
  "Você também pode solicitar elevação se houver alguém do lado remoto.";
  "Espera";
  "Erro de Elevação";
  "Peça autenticação ao usuário remoto";
  "Escolha isto se a conta remota for administrador";
  "Transmita o nome de usuário e a senha do administrador";
  "Ainda requer que o usuário remoto clique em OK na janela UAC da execução do RustDesk.";
  "Pedir Elevação";
  "Aguarde até que o usuário remoto aceite a caixa de diálogo do UAC.";
  "Elevado com sucesso";
  "maiúsculo";
  "minúsculo";
  "dígito";
  "caractere especial";
  "tamanho>=8";
  "Fraco";
  "Médio";
  "Forte";
  "Trocar de Lado";
  "Por favor, confirme se você deseja compartilhar sua área de trabalho?";
  "Display";
  "Estilo de Visualização Padrão";
  "Estilo de Rolagem Padrão";
  "Qualidade de Imagem Padrão";
  "Codec Padrão";
  "Bitrate";
  "FPS";
  "Automático";
  "Outras Opções Padrão";
  "Chamada de voz";
  "Chat de texto";
  "Parar chamada de voz";
  with_quotes ["Pode não ser possível conectar diretamente, você pode tentar conectar via relay. \nAlém disso, se você quiser usar o relay em sua primeira tentativa, pode adicionar o sufixo "; "/r"; " ao ID ou selecionar a opção "; "Sempre conectar via relay"; " no cartão do parceiro."];
  "Reconectar";
  "Codec";
  "Resolução";
  "Nenhuma transferência em andamento";
  "Definir comprimento de senha descartável";
  "Configurações RDP";
  "Ordenar por";
  "Nova Conexão";
  "Restaurar";
  "Minimizar";
  "Maximizar";
  "Seu Dispositivo";
  "Ops, não há sessões recentes!\nHora de planejar uma nova.";
  "Ainda não há parceiros favoritos?\nVamos encontrar alguém para se conectar e adicioná-lo aos seus favoritos!";
  "Ah não, parece que ainda não descobrimos nenhum parceiro.";
  "Oh céus, parece que atualmente não há parceiros listados em seu catálogo de endereços.";
  "ex. admin";
  "Nome de Usuário vazio";
  "Senha Vazia";
  "Eu";
  "Este arquivo é idêntico ao do parceiro.";
  "Mostrar monitores na barra de ferramentas";
  "Modo de Visualização";
  "Você precisa fazer login na conta Linux remota para habilitar uma sessão de desktop X";
  "Verifique a senha do RustDesk";
  "Lembrar desta conta";
  "Esta conta é usada para fazer login no Sistema Operacional remoto e habilitar a sessão da área de trabalho em headless";
  "Conta do Sistema Operacional";
  "Outro usuário já está logado";
  "Desconectar";
  "Xorg não encontrado";
  "Por favor, instale o Xorg";
  "Nenhuma área de trabalho está disponível";
  "Por favor, instale a área de trabalho do GNOME";
  "Não há necessidade de elevar";
  "Som do Sistema";
  "Padrão";
  "Novo RDP";
  "Impressão Digital";
  "Copiar Impressão Digital";
  "sem Impressões Digitais";
  "Selecione um parceiro";
  "Selecione parceiros";
  "Plugins";
  "Desinstalar";
  "Atualizar";
  "Habilitar";
  "Desabilitar";
  "Opções";
  "Resolução original";
  "Adequar a resolução local";
  "Customizar resolução";
  "Ocultar barra de ferramentas";
  "Aceitar e elevar";
  "Aceitar a conexão e elevar os privilégios do UAC.";
  "Tempo de espera para a resposta da área de transferência expirado.";
  "Conexão de entrada";
  "Conexão de saída";
  "Sair";
  "Abrir";
  "Tem certeza que deseja sair?";
  "Serviço";
  "Iniciar";
  "Parar";
  "Você atingiu o número máximo de dispositivos gerenciados.";
  "Sincronizar com sessões recentes";
  "Classificar tags";
  "Abrir conexão em uma nova aba";
  "Mover aba para uma nova janela";
  "Não pode estar vazio";
  "Já existe";
  "Alterar senha";
  "Atualizar senha";
  "ID";
  "Visualização em grade";
  "Visualização em lista";
  "Selecionar";
  "Alternar etiquetas";
  "Não foi possível atualizar o diretório";
  "Não foi possível sincronizar o diretório com o servidor";
  "Os dispositivos presentes em sessões recentes serão sincronizados com o diretório.";
  "Alterar cor";
  "Cor principal";
  "Cor HSV";
  "Instalação bem-sucedida!";
  "A instalação falhou!";
  "Inverter rolagem do mouse";
  "";
  "Você pode estar sendo ENGANADO!";
  "Se você estiver ao telefone com alguém que NÃO conhece e em quem NÃO confia e essa pessoa pedir para você usar o RustDesk e iniciar o serviço, NÃO faça isso !! e desligue imediatamente.";
  "Provavelmente são golpistas tentando roubar seu dinheiro ou informações privadas.";
  "Não mostrar novamente";
  "Eu concordo";
  "Recusar";
  "Tempo limite em minutos";
  "Encerrar sessões entrantes automaticamente por inatividade do usuário.";
  "Conexão encerrada automaticamente por inatividade.";
  "Verificar atualizações do software ao iniciar";
  "Atualize o RustDesk Server Pro para a versão {} ou superior.";
  "Não foi possível atualizar o grupo.";
  "";
  "Remover papel de parede durante sessão remota";
  "Teste";
  "A tela está desconectada. Mudando para a principal.";
  "Nenhum display encontrado";
  "Abrir em uma nova janela";
  "Mostrar as telas como janelas individuais";
  "Usar todas as minhas telas para a sessão remota";
  "O SELinux está ativado em seu dispositivo, o que pode impedir que o RustDesk funcione corretamente como dispositivo controlado.";
  "Alterar visualização";
  "Ícones grandes";
  "Ícones pequenos";
  "Lista";
  "Display Virtual";
  "Desconectar tudo";
  "Cor verdadeira (4:4:4)";
  "Habilitar bloqueio da entrada do usuário";
  with_quotes ["Você pode inserir um ID, um IP direto ou um domínio com uma porta (<domínio>:<porta>).\nPara acessar um dispositivo em outro servidor, adicione o IP do servidor (<id>@<endereço_servidor>?key=<chave_valor>), por exemplo,\n9123456234@192.168.16.1:21117?key=5Qbwsde3unUcJBtrx9ZkvUmwFNoExHzpryHuPUdqlWM=.\nPara acessar um dispositivo em um servidor público, insira "; "<id>@public"; ", a chave não é necessária para um servidor público."];
  "";
  "";
  "Entrar no modo privado";
  "Sair do modo privado";
  "O driver de tela indireto não é suportado. É necessário o Windows 10, versão 2004 ou superior.";
  "Fonte de entrada 1";
  "Fonte de entrada 2";
  "Trocar teclas Control e Comando";
  "Trocar botões esquerdo e direito do mouse";
  "Código 2FA";
  "Mais";
  "Habilitar autenticação em duas etapas";
  "Configure seu autenticador agora. Você pode usar um aplicativo de autenticação como Authy, Microsoft ou Google Authenticator em seu telefone ou computador. Escaneie o código QR com seu aplicativo e insira o código mostrado para habilitar a autenticação em duas etapas.";
  "Código inválido. Verifique se o código e as configurações de horário estão corretas.";
  "Autenticação em duas etapas";
  "O código de verificação por e-mail deve ter 6 caracteres.";
  "O código 2FA deve ter 6 dígitos.";
  "Múltiplas sessões de janela encontradas";
  "Por favor, selecione a sessão que você deseja se conectar";
  "Desenvolvido por RustDesk";
  "Esta é uma edição personalizada.\nVocê pode se conectar a outros dispositivos, mas eles não podem se conectar ao seu.";
  "Atenção: esta edição personalizada vem com uma senha predefinida. Qualquer pessoa que a conhecer poderá controlar totalmente seu dispositivo. Se isso não for o que você deseja, desinstale o software imediatamente.";
  "Alerta de Segurança";
  "Minha lista de contatos";
  "";
  "Proprietário";
  "Definir senha compartilhada";
  "";
  "Apenas leitura";
  "Leitura/escrita";
  "Controle total";
  "Os campos mostrados acima são compartilhados e visíveis por outras pessoas.";
  "Todos";
  "Mais opções no console web";
  "Permitir conexões apenas quando a janela do RustDesk estiver aberta";
  "Sem telas físicas, o modo privado não é necessário";
  "Seguir cursor remoto";
  "Seguir janela remota ativa";
  "";
  "Nenhum dispositivo de entrada de áudio encontrado";
  "";
  "";
  "Limpar seleção de tela do Wayland";
  "Depois de limpar a seleção de tela, você pode selecioná-la novamente para compartilhar.";
  "Tem certeza que deseja limpar a seleção da tela do Wayland?";
  "";
  "Use renderização de textura para tornar as imagens mais suaves";
  "Usar renderização de textura";
  "Janela flutuante";
  "Ajuda a manter o serviço RustDesk em segundo plano";
  "Manter tela ligada";
  "Nunca";
  "Durante controle";
  "Enquanto o serviço estiver ativo";
  "Capturar tela usando DirectX";
  "Voltar";
  "Apps";
  "Aumentar volume";
  "Diminuir volume";
  "";
  "Bot Telegram";
  "Se você ativar este recurso, poderá receber o código 2FA do seu bot. Ele também pode funcionar como uma notificação de conexão.";
  with_quotes ["1. Abra um chat com @BotFather.\n2. Envie o comando "; "/newbot"; ". Você receberá um token após completar esta etapa.\n3. Inicie um chat com o seu bot recém-criado. Envie uma mensagem começando com uma barra invertida ("; "/"; "), como "; "/hello"; ", para ativá-lo.\n"];
  "Tem certeza de que deseja cancelar a 2FA?";
  "Tem certeza de que deseja cancelar o bot do Telegram?";
  "Sobre RustDesk";
  "Colar área de transferência";
  "Por favor, verifique sua conexão de rede e clique em tentar novamente.";
  "Desbloquear com PIN";
  "São necessários pelo menos {} caracteres";
  "PIN Errado";
  "Definir PIN";
  "Habilitar dispositivos confiáveis";
  "Gerenciar dispositivos confiáveis";
  "Plataforma";
  "Dias restantes";
  "Ignore a verificação de dois fatores em dispositivos confiáveis";
  "Diretório pai";
  "Continuar";
  "Nome de arquivo inválido";
  "";
  "";
  "";
  "";
  "";
  "";
  "";
  "";
  "";
  "";
  "";
  ""].
(** [LANGS.pt_PT] *)
Definition lang_pt_PT : jsmap string string := texts [
  "Estado";
  "Ambiente de Trabalho";
  "O seu Ambiente de Trabalho pode ser acedido com este ID e palavra-passe.";
  "Senha";
  "Pronto";
  "Estabelecido";
  "A ligar à rede do RustDesk...";
  "Activar Serviço";
  "Iniciar Serviço";
  "Serviço está activo";
  "Serviço não está activo";
  "Indisponível. Por favor verifique a sua ligação";
  "Controle o Ambiente de Trabalho à distância";
  "Transferir Ficheiro";
  "Ligar";
  "Sessões recentes";
  "Lista de Endereços";
  "Confirmação";
  "Túnel TCP";
  "Remover";
  "Actualizar palavra-chave";
  "Configure a sua palavra-passe";
  "Activar Teclado/Rato";
  "Activar Área de Transferência";
  "Activar Transferência de Ficheiros";
  "Activar Túnel TCP";
  "Whitelist de IP";
  "Servidor ID/Relay";
  "Importar Configuração do Servidor";
  "Exportar Configuração do Servidor";
  "Configuração do servidor importada com sucesso";
  "";
  "Configuração do servidor inválida";
  "A área de transferência está vazia";
  "Parar serviço";
  "Alterar ID";
  "";
  "";
  "";
  "";
  "Somente os caracteres a-z, A-Z, 0-9, - (dash) e _ (sublinhado) são permitidos. A primeira letra deve ser a-z, A-Z. Comprimento entre 6 e 16.";
  "Website";
  "Sobre";
  "";
  "";
  "Silenciar";
  "";
  "";
  "";
  "Entrada de Áudio";
  "Melhorias";
  "";
  "";
  "Servidor de ID";
  "Servidor de Relay";
  "Servidor da API";
  "deve iniciar com http:// ou https://";
  "IP inválido";
  "Formato inválido";
  "Ainda não suportado pelo servidor";
  "Indisponível";
  "Muito frequente";
  "Cancelar";
  "Passar";
  "Fechar";
  "Tentar novamente";
  "Confirmar";
  "Palavra-chave Necessária";
  "Por favor introduza a sua palavra-chave";
  "Memorizar palavra-chave";
  "Palavra-chave inválida";
  "Deseja tentar novamente??";
  "Erro de Ligação";
  "Erro";
  "Reiniciado pelo destino";
  "A Ligar...";
  "Ligação em progresso. Aguarde por favor.";
  "Por favor tente após 1 minuto";
  "Erro de Login";
  "Sucesso";
  "Ligado. A aguardar pela imagem...";
  "Nome";
  "Tipo";
  "Modificado";
  "Tamanho";
  "Mostrar Ficheiros Ocultos";
  "Receber";
  "Enviar";
  "Actualizar Ficheiro";
  "Local";
  "Remoto";
  "Computador Remoto";
  "Computador Local";
  "Confirmar Apagar";
  "Apagar";
  "Propriedades";
  "Selecção Múltipla";
  "Selecionar tudo";
  "Desmarcar todos";
  "Directório Vazio";
  "Directório não está vazio";
  "Tem certeza que deseja apagar este ficheiro?";
  "Tem certeza que deseja apagar este directório vazio?";
  "Tem certeza que deseja apagar este ficheiro deste directório?";
  "Fazer isto para todos os conflictos";
  "Isto é irreversível!";
  "A apagar";
  "ficheiros";
  "A aguardar";
  "Completo";
  "Velocidade";
  "Qualidade Visual Personalizada";
  "Modo privado";
  "Bloquear entrada de utilizador";
  "Desbloquear entrada de utilizador";
  "Ajustar Janela";
  "Original";
  "Reduzir";
  "Aumentar";
  "";
  "";
  "Qualidade visual boa";
  "Equilibrada";
  "Optimizar tempo de reacção";
  "";
  "Mostrar cursor remoto";
  "";
  "Desabilitar área de transferência";
  "Bloquear após o fim da sessão";
  "Ctrl + Alt + Del Inserir";
  "Bloquear Inserir";
  "Actualizar";
  "ID não existente";
  "Falha ao ligar ao servidor de rendezvous";
  "Por favor tente mais tarde";
  "Ambiente de trabalho remoto está desligado";
  "Chaves incompatíveis";
  "Tempo esgotado";
  "Falha ao ligar ao servidor de relay";
  "Falha ao ligar ao servidor de rendezvous";
  "Falha ao ligar através do servidor de relay";
  "Falha ao fazer ligação directa ao desktop remoto";
  "Definir palavra-chave";
  "Senha do SO";
  "Devido ao UAC, o RustDesk não funciona correctamente em alguns casos. Para evitar o UAC, por favor clique no botão abaixo para instalar o RustDesk no sistema.";
  "Clique para atualizar";
  "Clique para carregar";
  "Clique para fazer a actualização";
  "Configurar";
  with_quotes ["Para controlar o seu Ambiente de Trabalho remotamente, é preciso conceder ao RustDesk permissões de "; "Acessibilidade"; "."];
  with_quotes ["Para aceder ao seu Ambiente de Trabalho remotamente, é preciso conceder ao RustDesk permissões de "; "Gravar a Tela"; "/"];
  "A Instalar ...";
  "Instalar";
  "Instalação";
  "Caminho da Instalação";
  "Criar atalhos no menu iniciar";
  "Criar ícone no ambiente de trabalho";
  "Ao iniciar a instalação, você concorda com o acordo de licença.";
  "Aceitar e Instalar";
  "Acordo de licença do utilizador final";
  "A Gerar ...";
  "A sua instalação é de uma versão anterior.";
  "Não feche esta janela enquanto estiver a utilizar o túnel";
  "A escuta ...";
  "Host Remoto";
  "Porta Remota";
  "Acção";
  "Adicionar";
  "Porta Local";
  "Endereço local";
  "Alterar porta local";
  "Para uma ligação mais rápida, por favor configure seu próprio servidor";
  "Muito curto, pelo menos 6 caracteres.";
  "A confirmação não é idêntica.";
  "Permissões";
  "Aceitar";
  "Dispensar";
  "Desconectar";
  "Permitir copiar e mover ficheiros";
  "Ligado";
  "Ligação directa e encriptada";
  "Ligação via relay e encriptada";
  "Ligação direta e não encriptada";
  "Ligação via relay e não encriptada";
  "Introduza o ID Remoto";
  "Introduza a sua palavra-chave";
  "A efectuar Login...";
  "Activar partilha de sessão RDP";
  with_quotes ["Login Automático (Somente válido se você activou "; "Bloquear após o fim da sessão"; ")"];
  "Activar Acesso IP Directo";
  "Renomear";
  "Espaço";
  "Criar Atalho no Ambiente de Trabalho";
  "Alterar Caminho";
  "Criar Diretório";
  "Por favor introduza o nome do diretório";
  "Reparar";
  "Aviso";
  "Tela de Login com Wayland não é suportada";
  "Reinicialização necessária";
  "Servidor de display não suportado";
  "x11 em falha";
  "";
  "Configurações";
  "Nome de utilizador";
  "Porta inválida";
  "Fechada manualmente pelo destino";
  "Habilitar modificações de configuração remotas";
  "Executar sem instalar";
  "";
  "Sempre conectar via relay";
  "Somente IPs na whitelist podem me acessar";
  "Login";
  "";
  "";
  "";
  "";
  "";
  "Sair";
  "Tags";
  "Procurar ID";
  "Separado por vírcula, ponto-e-vírgula, espaços ou nova linha";
  "Adicionar ID";
  "Adicionar Tag";
  "Desselecionar todas as tags";
  "Erro de rede";
  "Nome de utilizador em falta";
  "Palavra-chave em falta";
  "Nome de utilizador ou palavra-chave incorrectos";
  "";
  "Editar Tag";
  "Esquecer Palavra-chave";
  "Favoritos";
  "Adicionar aos Favoritos";
  "Remover dos Favoritos";
  "Vazio";
  "Nome de diretório inválido";
  "Proxy Socks5";
  "Proxy Socks5/Http(s)";
  "Descoberto";
  "Para inicialização junto do sistema, deve instalar o serviço de sistema.";
  "ID Remoto";
  "Colar";
  "Colar aqui?";
  "Tem certeza que deseja fechar a ligação?";
  "Transferir nova versão";
  "Modo toque";
  "Modo rato";
  "Toque com um dedo";
  "Botão esquerdo do rato";
  "Um toque longo";
  "Toque com dois dedos";
  "Botão direito do rato";
  "Mover com um dedo";
  "Toque duplo & mover";
  "Arrastar com o rato";
  "Três dedos verticalmente";
  "Roda do rato";
  "Mover com dois dedos";
  "Mover Tela";
  "Clique para ampliar";
  "Zoom na Tela";
  "Reiniciar tela";
  "Sem permissões de transferência de ficheiro";
  "Nota";
  "Ligação";
  "Partilhar ecrã";
  "Conversar";
  "Total";
  "itens";
  "Seleccionado";
  "Captura de Ecran";
  "Controle de Entrada";
  "Captura de Áudio";
  "Ligação de Arquivo";
  "Ligação de Ecran";
  "Aceita?";
  "Abrir Configurações do Sistema";
  "Como activar a permissão de entrada do Android?";
  with_quotes ["Para que um dispositivo remoto controle o seu dispositivo Android via rato ou toque, você precisa permitir que o RustDesk use o serviço "; "Acessibilidade"; "."];
  "Por favor vá para a próxima página de configuração do sistema, encontre e entre [Serviços Instalados], ACTIVE o serviço [RustDesk Input].";
  "Nova requisição de controle recebida, solicita o controle do seu dispositivo atual.";
  "Activar a Captura de Ecran irá automaticamente inicializar o serviço, permitindo que outros dispositivos solicitem uma ligação deste dispositivo.";
  "Fechar o serviço irá automaticamente fechar todas as ligações estabelecidas.";
  "A versão atual do Android não suporta captura de áudio, por favor actualize para o Android 10 ou maior.";
  "";
  "";
  "";
  "Substituir";
  "Este ficheiro já existe, ignorar ou substituir este ficheiro?";
  "Saída";
  "Ajuda";
  "Falhou";
  "Conseguiu";
  "Alguém activou o modo de privacidade, desligue";
  "Sem suporte";
  "Remoto negado";
  "Por favor instale plugins";
  "Saída do Remoto";
  "Falha ao desligar";
  "Desligado";
  "Linguagem";
  "Manter o serviço RustDesk em funcionamento";
  "Ignorar optimizações de Bateria";
  "";
  "";
  "";
  "Ligação não autorizada";
  "";
  "";
  "";
  "Utilizar palavra-chave permanente";
  "Utilizar ambas as palavras-chave";
  "Definir palavra-chave permanente";
  "Activar reiniciar remoto";
  "Reiniciar Dispositivo Remoto";
  "Tem a certeza que pretende reiniciar";
  "A reiniciar sistema remoto";
  "";
  "";
  "Sair da tela cheia";
  "Tela cheia";
  "Ações para celular";
  "Selecionar monitor";
  "Ações de controle";
  "Configurações do visor";
  "Razão";
  "Qualidade da imagem";
  "Estilo de rolagem";
  "";
  "";
  "Conexão direta";
  "Conexão de relé";
  "Conexão segura";
  "Conexão insegura";
  "Escala original";
  "Escala adaptável";
  "";
  "";
  "";
  "";
  "";
  "";
  "";
  "";
  "";
  "";
  "";
  "";
  "";
  "";
  "";
  "";
  "";
  "";
  "";
  "";
  "";
  "";
  "";
  "";
  "";
  "";
  "";
  "";
  "";
  "";
  "";
  "";
  "";
  "";
  "";
  "";
  "";
  "Desconectado";
  "Outro";
  "Confirme antes de fechar vários separadores";
  "Configurações do teclado";
  "Controlo total";
  "";
  "Wayland requer Ubuntu 21.04 ou versão superior.";
  "Wayland requer uma versão superior da distribuição linux. Por favor, tente o desktop X11 ou mude seu sistema operacional.";
  "View";
  "Por favor, selecione a tela a ser compartilhada (operar no lado do peer).";
  "";
  "";
  "";
  "";
  "";
  "";
  "";
  "";
  "";
  "";
  "";
  "";
  "";
  "";
  "";
  "";
  "";
  "";
  "";
  "";
  "";
  "";
  "";
  "";
  "";
  "";
  "";
  "";
  "";
  "";
  "";
  "";
  "";
  "";
  "";
  "";
  "";
  "";
  "";
  "";
  "";
  "";
  "";
  "";
  "";
  "";
  "";
  "";
  "";
  "";
  "";
  "";
  "";
  "";
  "";
  "";
  "";
  "";
  "";
  "";
  "";
  "";
  "";
  "";
  "";
  "";
  "";
  "";
  "";
  "";
  "";
  "";
  "";
  "";
  "";
  "";
  "";
  "";
  "";
  "";
  "";
  "";
  "";
  "";
  "";
  "";
  "";
  "";
  "";
  "";
  "";
  "";
  "";
  "";
  "";
  "";
  "";
  "";
  "";
  "";
  "";
  "";
  "";
  "";
  "";
  "";
  "";
  "";
  "";
  "";
  "";
  "";
  "";
  "";
  "";
  "";
  "";
  "";
  "";
  "";
  "";
  "";
  "";
  "";
  "";
  "";
  "";
  "";
  "";
  "";
  "";
  "";
  "";
  "";
  "";
  "";
  "";
  "";
  "";
  "";
  "";
  "";
  "";
  "";
  "";
  "";
  "";
  "";
  "";
  "";
  "";
  "";
  "";
  "";
  "";
  "";
  "";
  "";
  "";
  "";
  "";
  "";
  "";
  "";
  "";
  "";
  "";
  "";
  "";
  "";
  "";
  "";
  "";
  "";
  "";
  "";
  "";
  "";
  "";
  "";
  "";
  "";
  "";
  "";
  "";
  "";
  "";
  "";
  "";
  "";
  "";
  "";
  "";
  "";
  "";
  "";
  "";
  "";
  "";
  "";
  "";
  "";
  "";
  "";
  "";
  "";
  "";
  "";
  "";
  "";
  "";
  "";
  "";
  "";
  "";
  "";
  "";
  "";
  "";
  "";
  "";
  "";
  "";
  "";
  "";
  "";
  "";
  "";
  "";
  "";
  "";
  "";
  "";
  "";
  "";
  "";
  "";
  "";
  "";
  "";
  "";
  "";
  "";
  "";
  "";
  "";
  "";
  "";
  "";
  "";
  "";
  "";
  "";
  "";
  "";
  "";
  "";
  "";
  "";
  "";
  "";
  "";
  "";
  "";
  "";
  "";
  "";
  "";
  "";
  "";
  "";
  ""].
(** [LANGS.ro] *)
Definition lang_ro : jsmap string string := texts [
  "Stare";
  "Desktopul tău";
  "Desktopul tău poate fi accesat folosind ID-ul și parola de mai jos.";
  "Parolă";
  "Pregătit";
  "Stabilit";
  "În curs de conectare la rețeaua RustDesk...";
  "Activează serviciul";
  "Pornește serviciul";
  "Serviciul rulează...";
  "Serviciul nu funcționează";
  "Nepregătit. Verifică conexiunea la rețea.";
  "Controlează desktopul la distanță";
  "Transferă fișiere";
  "Conectează-te";
  "Sesiuni recente";
  "Agendă";
  "Confirmare";
  "Tunel TCP";
  "Elimină";
  "Actualizează parola aleatorie";
  "Setează propria parolă";
  "Activează control tastatură/mouse";
  "Activează clipboard";
  "Activează transferul de fișiere";
  "Activează tunelul TCP";
  "Listă de IP-uri autorizate";
  "Server de ID/retransmisie";
  "Importă configurație server";
  "Exportă configurație server";
  "Configurație server importată cu succes";
  "Configurație server exportată cu succes";
  "Configurație server nevalidă";
  "Clipboard gol";
  "Oprește serviciul";
  "Schimbă ID";
  "Noul tău ID";
  "lungime între %min% și %max%";
  "începe cu o literă";
  "caractere permise";
  "Pot fi utilizate doar caractere a-z, A-Z, 0-9, - (dash), _ (bară jos). Primul caracter trebuie să fie a-z, A-Z. Lungimea trebuie să fie între 6 și 16 caractere.";
  "Site web";
  "Despre";
  "Făcut din inimă în lumea aceasta haotică!";
  "Politică de confidențialitate";
  "Dezactivează sunet";
  "Dată build";
  "Versiune";
  "Acasă";
  "Intrări audio";
  "Îmbunătățiri";
  "Codec hardware";
  "Rată de biți adaptabilă";
  "Server de ID";
  "Server de retransmisie";
  "Server API";
  "Trebuie să înceapă cu http:// sau https://";
  "IP nevalid";
  "Format nevalid";
  "Încă nu este compatibil cu serverul";
  "Indisponibil";
  "Modificat prea frecvent";
  "Anulează";
  "Omite";
  "Închide";
  "Reîncearcă";
  "OK";
  "Parolă necesară";
  "Introdu parola";
  "Memorează parola";
  "Parolă incorectă";
  "Vrei să intri din nou?";
  "Eroare de conexiune";
  "Eroare";
  "Conexiunea a fost închisă de dispozitivul pereche";
  "Se conectează...";
  "Conectare în curs. Te rugăm așteaptă.";
  "Reîncearcă într-un minut";
  "Eroare de autentificare";
  "Succes";
  "Conectat, se așteaptă transmiterea imaginii...";
  "Denumire";
  "Tip";
  "Modificat";
  "Dimensiune";
  "Afișează fișiere ascunse";
  "Acceptă";
  "Trimite";
  "Actualizează fișier";
  "Local";
  "La distanță";
  "Computer la distanță";
  "Computer local";
  "Confirmă ștergerea";
  "Șterge";
  "Caracteristici";
  "Alegere multiplă";
  "Selectează tot";
  "Deselectează tot";
  "Director gol";
  "Directorul nu este gol";
  "Sigur vrei să ștergi acest fișier?";
  "Sigur vrei să ștergi acest director gol?";
  "Sigur vrei să ștergi fișierul din acest director?";
  "Aplică la toate conflictele";
  "Această acțiune este ireversibilă!";
  "În curs de ștergere...";
  "fișier";
  "În așteptare...";
  "Finalizat";
  "Viteză";
  "Setează calitatea imaginii";
  "Mod privat";
  "Blochează intervenție utilizator";
  "Deblochează intervenție utilizator";
  "Ajustează fereastra";
  "Dimensiune originală";
  "Micșorează";
  "Extinde";
  "Bară de derulare";
  "Derulare automată";
  "Calitate bună a imaginii";
  "Calitate normală a imaginii";
  "Timp de reacție optimizat";
  "Personalizat";
  "Afișează cursor la distanță";
  "Afișează detalii despre conexiune";
  "Dezactivează clipboard";
  "Blochează după deconectare";
  "Introdu Ctrl + Alt + Del";
  "Blochează computer";
  "Reîmprospătează";
  "ID neexistent";
  "Conectare la server rendezvous eșuată";
  "Încearcă mai târziu";
  "Desktopul la distanță este offline";
  "Nepotrivire cheie";
  "Conexiune expirată";
  "Conectare la server de retransmisie eșuată";
  "Conectare prin intermediul serverului rendezvous eșuată";
  "Conectare prin intermediul serverului de retransmisie eșuată";
  "Imposibil de stabilit o conexiune directă cu desktopul la distanță";
  "Setează parola";
  "Parolă sistem";
  "Din cauza restricțiilor CCU, este posibil ca RustDesk să nu funcționeze corespunzător. Pentru a evita acest lucru, dă clic pe butonul de mai jos pentru a instala RustDesk.";
  "Dă clic pentru a face upgrade";
  "Dă clic pentru a descărca";
  "Dă clic pentru a actualiza";
  "Configurează";
  "Pentru a controla desktopul la distanță, trebuie să permiți RustDesk acces la setările de Accesibilitate.";
  "Pentru a controla desktopul la distanță, trebuie să permiți RustDesk acces la setările de Înregistrare ecran.";
  "Se instalează...";
  "Instalează";
  "Instalare";
  "Cale de instalare";
  "Creează comenzi rapide în meniul Start";
  "Creează pictogramă pe desktop";
  "Începerea procesului de instalare înseamnă acceptarea acordului de licență.";
  "Acceptă și instalează";
  "Acord de licență pentru utilizatorul final";
  "Se generează...";
  "Versiunea instalată este una inferioară.";
  "Nu închide această fereastră în timp ce folosești tunelul";
  "În așteptarea conexiunii tunel...";
  "Gazdă la distanță";
  "Port la distanță";
  "Acțiune";
  "Adaugă";
  "Port local";
  "Adresă locală";
  "Modifică port local";
  "Pentru o conexiune mai rapidă, îți poți configura propriul server.";
  "Prea scurtă; trebuie cel puțin 6 caractere.";
  "Cele două intrări nu corespund.";
  "Permisiuni";
  "Acceptă";
  "Respinge";
  "Deconectează-te";
  "Permite copierea și lipirea fișierelor";
  "Conectat";
  "Conexiune directă criptată";
  "Conexiune retransmisă criptată";
  "Conexiune directă necriptată";
  "Conexiune retransmisă necriptată";
  "Introdu ID-ul dispozitivului la distanță";
  "Introdu parola";
  "Se conectează...";
  "Activează partajarea sesiunii RDP";
  "Conectare automată (validă doar dacă opțiunea Blocare după deconectare este selectată)";
  "Activează accesul direct cu IP";
  "Redenumește";
  "Spațiu";
  "Creează comandă rapidă de desktop";
  "Schimbă calea";
  "Creează folder";
  "Introdu numele folderului";
  "Repară";
  "Avertisment";
  "Ecranele de conectare care folosesc Wayland nu sunt acceptate";
  "Repornire necesară";
  "Tipul de server de afișaj nu este acceptat";
  "Este necesar X11";
  "Port";
  "Setări";
  " Nume utilizator";
  "Port nevalid";
  "Conexiune închisă manual de dispozitivul pereche";
  "Activează modificarea configurației de la distanță";
  "Rulează fără a instala";
  "Conectează-te prin retransmisie";
  "Conectează-te mereu prin retransmisie";
  "Doar adresele IP autorizate pot accesa acest dispozitiv";
  "Conectează-te";
  "Verificare";
  "Reține-mă";
  "Acest dispozitiv este de încredere";
  "Cod de verificare";
  "";
  "Deconectează-te";
  "Etichete";
  "Caută după ID";
  "Poți folosi ca separator virgula, punctul și virgula, spațiul sau linia nouă";
  "Adaugă ID";
  "Adaugă etichetă";
  "Deselectează toate etichetele";
  "Eroare de rețea";
  "Lipsește numele de utilizator";
  "Lipsește parola";
  "Nume sau parolă greșită";
  "";
  "Modifică etichetă";
  "Uită parola";
  "Favorite";
  "Adaugă la Favorite";
  "Șterge din Favorite";
  "Gol";
  "Denumire folder nevalidă";
  "Proxy Socks5";
  "Proxy Socks5/Http(s)";
  "Descoperite";
  "Pentru executare la pornirea sistemului, instalează serviciul de sistem.";
  "ID dispozitiv la distanță";
  "Lipește";
  "Lipește aici?";
  "Sigur vrei să închizi conexiunea?";
  "Descarcă noua versiune";
  "Mod tactil";
  "Mod mouse";
  "Apasă cu un deget";
  "Clic stânga";
  "Apasă lung";
  "Apasă cu două degete";
  "Clic dreapta";
  "Mișcă cu un deget";
  "Apasă dublu și mișcă";
  "Tragere mouse";
  "Trei degete vertical";
  "Rotiță mouse";
  "Mișcă cu două degete";
  "Mută ecran";
  "Apropie degetele pentru a mări";
  "Mărire ecran";
  "Reinițializează ecranul";
  "Nicio permisiune pentru transferul de fișiere";
  "Reține";
  "Conexiune";
  "Partajează ecran";
  "Mesaje";
  "Total";
  "elemente";
  "Selectat";
  "Capturare ecran";
  "Control intrări";
  "Capturare audio";
  "Conexiune fișier";
  "Conexiune ecran";
  "Accepți?";
  "Deschide setări sistem";
  "Cum autorizez dispozitive de intrare pe Android?";
  "Pentru ca un dispozitiv la distanță să poată controla un dispozitiv Android folosind mouse-ul sau suportul tactil, trebuie să permiți RustDesk să utilize serviciul „Accesibilitate”.";
  "Accesează următoarea pagină din Setări, deschide [Aplicații instalate] și pornește serviciul [RustDesk Input].";
  "Ai primit o nouă solicitare de controlare a dispozitivului actual.";
  "Activarea setării de capturare a ecranului va porni automat serviciul, permițând altor dispozitive să solicite conectarea la dispozitivul tău.";
  "Închiderea serviciului va închide automat toate conexiunile stabilite.";
  "Versiunea actuală de Android nu suportă captura audio. Fă upgrade la Android 10 sau la o versiune superioară.";
  "Apasă [Pornește serviciu] sau DESCHIDE [Capturare ecran] pentru a porni serviciul de partajare a ecranului.";
  "";
  "Cont";
  "Suprascrie";
  "Fișier deja existent. Omite sau suprascrie?";
  "Ieși";
  "Ajutor";
  "Nereușit";
  "Reușit";
  "Cineva activează modul privat, ieși din";
  "Neacceptat";
  "Dispozitiv pereche refuzat";
  "Instalează pluginuri";
  "Ieșire dispozitiv pereche";
  "Dezactivare nereușită";
  "Închis";
  "Limbă";
  "Rulează serviciul RustDesk în fundal";
  "Ignoră optimizările de baterie";
  "Pentru dezactivarea acestei funcții, accesează setările aplicației RustDesk, deschide secțiunea [Baterie] și deselectează [Fără restricții].";
  "Pornește la boot";
  "Pornește serviciul de partajare a ecranului la boot; necesită permisiuni speciale";
  "Conexiune neautoriztă";
  "Mod legacy";
  "Mod hartă";
  "Mod traducere";
  "Folosește parola permanentă";
  "Folosește ambele programe";
  "Setează parola permanentă";
  "Activează repornirea la distanță";
  "Repornește dispozivul la distanță";
  "Sigur vrei să repornești dispozitivul?";
  "Se repornește dispozitivul la distanță";
  "Dispozitivul este în curs de repornire. Închide acest mesaj și reconectează-te cu parola permanentă după un timp.";
  "Copiat";
  "Ieși din modul ecran complet";
  "Ecran complet";
  "Bară de navigare";
  "Selectează monitor";
  "Acțiuni de control";
  "Setări afișaj";
  "Raport";
  "Calitate imagine";
  "Stil de derulare";
  "Arată bară de instrumente";
  "Ascunde bară de instrumente";
  "Conexiune directă";
  "Conexiune prin retransmisie";
  "Conexiune securizată";
  "Conexiune nesecurizată";
  "Dimensiune originală";
  "Scalare automată";
  "General";
  "Securitate";
  "Temă";
  "Temă întunecată";
  "Temă luminoasă";
  "Întunecată";
  "Luminoasă";
  "Temă sistem";
  "Activează codec hardware";
  "Deblochează setările de securitate";
  "Activează audio";
  "Deblochează setările de rețea";
  "Server";
  "Acces direct IP";
  "Proxy";
  "Aplică";
  "Vrei să deconectezi toate dispozitivele?";
  "Golește";
  "Dispozitiv de intrare audio";
  "Folosește lista de IP-uri autorizate";
  "Rețea";
  "Fixează bara de instrumente";
  "Detașează bara de instrumente";
  "Înregistrare";
  "Director";
  "Înregistrează automat sesiunile viitoare";
  "";
  "Modifică";
  "Începe înregistrarea";
  "Oprește înregistrarea";
  "Activează înregistrarea sesiunii";
  "Activează descoperirea LAN";
  "Interzice descoperirea LAN";
  "Scrie un mesaj";
  "Prompt";
  "Așteaptă confirmarea CCU...";
  "Fereastra actuală a dispozitivului la distanță necesită privilegii sporite pentru a funcționa, astfel că mouse-ul și tastatura nu pot fi folosite. Poți cere utilizatorului la distanță să minimizeze fereastra actuală sau să facă clic pe butonul de sporire a privilegiilor din fereastra de gestionare a conexiunilor. Pentru a evita această problemă, recomandăm instalarea software-ului pe dispozitivul la distanță.";
  "Deconectat";
  "Altele";
  "Confirmă înainte de a închide mai multe file";
  "Setări tastatură";
  "Acces total";
  "Partajare ecran";
  "Wayland necesită Ubuntu 21.04 sau o versiune superioară.";
  "Wayland necesită o versiune superioară a distribuției Linux. Încearcă desktopul X11 sau schimbă sistemul de operare.";
  "Afișează";
  "Partajează ecranul care urmează să fie partajat (operează din partea dispozitivului pereche).";
  "Afișează RustDesk";
  "Acest PC";
  "sau";
  "Continuă cu";
  "Sporește privilegii";
  "Cursor lupă";
  "Acceptă începerea sesiunii folosind parola";
  "Acceptă începerea sesiunii dând clic";
  "Acceptă începerea sesiunii folosind ambele moduri";
  "Așteaptă ca solicitarea ta de conectare la distanță să fie acceptată...";
  "Parolă unică";
  "Folosește parola unică";
  "Lungimea parolei unice";
  "Solicitare de acces la dispozitivul tău";
  "Ascunde fereastra de gestionare a conexiunilor";
  "Permite ascunderea ferestrei de gestionare doar dacă accepți începerea sesiunilor folosind parola permanentă";
  "Wayland este acceptat doar într-o formă experimentală. Folosește X11 dacă nu ai nevoie de acces supravegheat.";
  "Dă clic dreapta pentru a selecta file";
  "Ignorat";
  "Adaugă la agendă";
  "Grup";
  "Caută";
  "Conexiune închisă manual de consola web";
  "Tastatură locală";
  "Selectează tastatura locală";
  "Dacă ai o placă video Nvidia și folosești Linux, iar fereastra cu conexiunea la distanță se închide imediat după conectare, îți sugerăm să instalezi driverul gratuit Nouveau și să folosești randarea de software. Este necesară repornirea.";
  "Utilizează mereu randarea de software";
  "Pentru a controla desktopul la distanță folosind tastatura, trebuie să acorzi RustDesk permisiunea Monitorizare intrare";
  "Pentru a desfășura un apel vocal, este nevoie să acorzi RustDesk permisiunea Înregistrare audio.";
  "Poți solicita sporirea privilegiilor și dacă este cineva la desktopul la distanță.";
  "În curs...";
  "Eroare la sporirea privilegiilor";
  "Solicită utilizatorului de la distanță să se autentifice";
  "Alege asta dacă contul la distanță este un cont de administrator";
  "Transmite numele de utilizator și parola administratorului";
  "Este necesar ca utilizatorul la distanță să confirme în fereastra CCU din RustDesk care rulează.";
  "Solicită sporirea privilegiilor";
  "Așteaptă ca utilizatorul la distanță să accepte dialogul CCU.";
  "Sporirea privilegiilor realizată cu succes";
  "majuscule";
  "minuscule";
  "cifre";
  "caractere speciale";
  "lungime>=8";
  "Slabă";
  "Medie";
  "Puternică";
  "Inversează controlul";
  "Confirmi că dorești să îți partajezi desktopul?";
  "Afișare";
  "Stilul implicit de vizualizare";
  "Stilul implicit de derulare";
  "Calitatea implicită a imaginii";
  "Codec implicit";
  "Rată de biți";
  "CPS";
  "Auto";
  "Alte opțiuni implicite";
  "Apel vocal";
  "Conversație text";
  "Încheie apel vocal";
  "Este posibil să nu te poți conecta direct; poți încerca să te conectezi prin retransmisie. De asemenea, dacă dorești să te conectezi direct prin retransmisie, poți adăuga sufixul „/r” la ID sau să bifezi opțiunea Conectează-te mereu prin retransmisie.";
  "Reconectează-te";
  "Codec";
  "Rezoluție";
  "Niciun transfer nu este în desfășurare";
  "Definește lungimea parolei unice";
  "Setări RDP";
  "Sortează după";
  "Conexiune nouă";
  "Restaurează";
  "Minimizează";
  "Maximizează";
  "Dispozitivul tău";
  "Hopa! Nu există nicio sesiune recentă.\nPoate ar trebui să plănuiești una chiar acum!";
  "Încă nu ai niciun dispozitiv pereche favorit?\nHai să-ți găsim pe cineva cu care să te conectezi, iar apoi poți adăuga dispozitivul la Favorite!";
  "Of! S-ar părea că încă nu am descoperit niciun dispozitiv.";
  "Măi să fie! Se pare că deocamdată nu figurează niciun dispozitiv în agenda ta.";
  "ex: admin";
  "Nume utilizator nespecificat";
  "Parolă nespecificată";
  "Eu";
  "Acest fișier este identic cu cel al dispozitivului pereche.";
  "Afișează monitoare în bara de instrumente";
  "Mod vizualizare";
  "Este necesar să te conectezi la contul de Linux de la distanță pentru a începe o sesiune cu un desktop care folosește X11";
  "Verifică parola RustDesk";
  "Reține contul";
  "Acest cont este utilizat pentru conectarea la sistemul de operare la distanță și începerea sesiunii cu desktopul în modul fără afișaj.";
  "Cont OS";
  "Un alt utilizator este deja conectat";
  "Deconectare";
  "Xorg nu a fost găsit";
  "Instalează Xorg";
  "Nu este disponibil niciun mediu desktop";
  "Instalează mediul desktop GNOME";
  "Nu sunt necesare permisiuni de administrator";
  "Sunet sistem";
  "Implicit";
  "RDP nou";
  "Amprentă digitală";
  "Copiază amprenta digitală";
  "Nicio amprentă digitală";
  "Selectează un dispozitiv pereche";
  "Selectează dispozitive pereche";
  "Pluginuri";
  "Dezinstalează";
  "Actualizează";
  "Activează";
  "Dezactivează";
  "Opțiuni";
  "Rezoluție originală";
  "Adaptează la rezoluția locală";
  "Rezoluție personalizată";
  "Restrânge bara de instrumente";
  "Acceptă și sporește privilegii";
  "Acceptă conectarea și sporește privilegiile CCU";
  "Procesul a expirat așteptând un răspuns la copiere";
  "Conexiune de intrare";
  "Conexiune de ieșire";
  "Ieși";
  "Deschide";
  "Sigur vrei să te deconectezi?";
  "";
  "";
  "";
  "";
  "";
  "";
  "";
  "";
  "";
  "";
  "";
  "";
  "";
  "";
  "";
  "";
  "";
  "";
  "";
  "";
  "";
  "";
  "";
  "";
  "";
  "";
  "";
  "";
  "";
  "";
  "";
  "";
  "";
  "";
  "";
  "";
  "";
  "";
  "";
  "";
  "";
  "";
  "";
  "";
  "";
  "";
  "";
  "";
  "";
  "";
  "";
  "";
  "";
  "";
  "";
  "";
  "";
  "";
  "";
  "";
  "";
  "";
  "";
  "";
  "";
  "";
  "";
  "";
  "";
  "";
  "";
  "";
  "";
  "";
  "";
  "";
  "";
  "";
  "";
  "";
  "";
  "";
  "";
  "";
  "";
  "";
  "";
  "";
  "";
  "";
  "";
  "";
  "";
  "";
  "";
  "";
  "";
  "";
  "";
  "";
  "";
  "";
  "";
  "";
  "";
  "";
  "";
  "";
  "";
  "";
  "";
  "";
  "";
  "";
  "";
  "";
  "";
  "";
  "";
  "";
  "";
  "";
  "";
  "";
  "";
  "";
  "";
  "";
  "";
  "";
  "";
  "";
  "";
  "";
  "";
  "";
  "";
  "";
  "";
  "";
  "";
  "";
  "";
  "";
  "";
  "";
  "";
  "";
  ""].
(** [LANGS.ru] *)
Definition lang_ru : jsmap string string := texts [
  "Статус";
  "Ваш рабочий стол";
  "Ваш рабочий стол доступен с этим ID и паролем.";
  "Пароль";
  "Готов";
  "Установлено";
  "Подключение к сети RustDesk...";
  "Включить службу";
  "Запустить службу";
  "Служба запущена";
  "Служба не запущена";
  "Не подключено. Проверьте соединение.";
  "Управление удалённым рабочим столом";
  "Передать файлы";
  "Подключиться";
  "Последние сеансы";
  "Адресная книга";
  "Подтверждение";
  "TCP-туннелирование";
  "Удалить";
  "Обновить случайный пароль";
  "Установить свой пароль";
  "Использовать клавиатуру/мышь";
  "Использовать буфер обмена";
  "Использовать передачу файлов";
  "Использовать туннелирование TCP";
  "Список разрешённых IP-адресов";
  "ID/Ретранслятор";
  "Импортировать конфигурацию сервера";
  "Экспортировать конфигурацию сервера";
  "Конфигурация сервера успешно импортирована";
  "Конфигурация сервера успешно экспортирована";
  "Неправильная конфигурация сервера";
  "Буфер обмена пуст";
  "Остановить службу";
  "Изменить ID";
  "Новый ID";
  "длина %min%...%max%";
  "начинается с буквы";
  "допустимые символы";
  "Допускаются только символы a-z, A-Z, 0-9, - (dash) и _ (подчёркивание). Первой должна быть буква a-z, A-Z. Длина от 6 до 16.";
  "Сайт";
  "О приложении";
  "Сделано с душой в этом безумном мире!";
  "Заявление о конфиденциальности";
  "Отключить звук";
  "Дата сборки";
  "Версия";
  "Главная";
  "Аудиовход";
  "Улучшения";
  "Аппаратный кодек";
  "Адаптивный битрейт";
  "Сервер ID";
  "Ретранслятор";
  "Сервер API";
  "Адрес должен начинаться с http:// или https://";
  "Неправильный IP-адрес";
  "Неправильный формат";
  "Пока не поддерживается сервером";
  "Недоступно";
  "Слишком часто";
  "Отмена";
  "Пропустить";
  "Закрыть";
  "Повтор";
  "ОК";
  "Требуется пароль";
  "Введите пароль";
  "Запомнить пароль";
  "Неправильный пароль";
  "Повторить вход?";
  "Ошибка подключения";
  "Ошибка";
  "Сброшено удалённым узлом";
  "Подключение...";
  "Выполняется подключение. Подождите.";
  "Попробуйте через минуту";
  "Ошибка входа";
  "Успешно";
  "Подключено, ожидание изображения...";
  "Имя";
  "Тип";
  "Изменено";
  "Размер";
  "Показать скрытые файлы";
  "Получить";
  "Отправить";
  "Обновить файл";
  "Локальный";
  "Удалённый";
  "Удалённый компьютер";
  "Локальный компьютер";
  "Подтвердить удаление";
  "Удалить";
  "Свойства";
  "Множественный выбор";
  "Выбрать все";
  "Снять все";
  "Пустая папка";
  "Папка не пуста";
  "Удалить этот файл?";
  "Удалить пустую папку?";
  "Удалить файл из этой папки?";
  "Применить ко всем конфликтам";
  "Это необратимо!";
  "Удаление";
  "файлы";
  "Ожидание";
  "Завершено";
  "Скорость";
  "Заданное пользователем качество изображения";
  "Режим конфиденциальности";
  "Заблокировать ввод на удалённом устройстве";
  "Разблокировать ввод на удалённом устройстве";
  "Настроить окно";
  "Оригинал";
  "Уменьшить";
  "Растянуть";
  "Полоса прокрутки";
  "Автопрокрутка";
  "Лучшее качество изображения";
  "Баланс между качеством и откликом";
  "Лучшее время отклика";
  "Заданное пользователем";
  "Показывать удалённый курсор";
  "Показывать монитор качества";
  "Отключить буфер обмена";
  "Заблокировать учётную запись после сеанса";
  "Вставить Ctrl + Alt + Del";
  "Заблокировать учётную запись";
  "Обновить";
  "ID не существует";
  "Невозможно подключиться к промежуточному серверу";
  "Попробуйте позже";
  "Удалённое устройство не в сети";
  "Несоответствие ключей";
  "Истекло время ожидания";
  "Невозможно подключиться к ретранслятору";
  "Невозможно подключиться через промежуточный сервер";
  "Невозможно подключиться через ретранслятор";
  "Невозможно установить прямое подключение к удалённому устройству";
  "Установить пароль";
  "Пароль входа в ОС";
  "В некоторых случаях из-за UAC RustDesk может работать неправильно на удалённом узле. Чтобы избежать возможных проблем с UAC, нажмите кнопку ниже для установки RustDesk в системе.";
  "Нажмите, чтобы обновить";
  "Нажмите, чтобы скачать";
  "Нажмите, чтобы обновить";
  "Настроить";
  with_quotes ["Чтобы удалённо управлять своим рабочим столом, вы должны предоставить RustDesk права "; "доступа"; ""];
  with_quotes ["Для удалённого доступа к рабочему столу вы должны предоставить RustDesk права "; "снимок экрана"; ""];
  "Установка...";
  "Установить";
  "Установка";
  "Путь установки";
  with_quotes ["Создать ярлыки в меню "; "Пуск"; ""];
  "Создать значок на рабочем столе";
  "Начиная установку, вы принимаете условия лицензионного соглашения.";
  "Принять и установить";
  "Лицензионное соглашение с конечным пользователем";
  "Генерация...";
  "Установлена более ранняя версия";
  "Не закрывать это окно при использовании туннеля.";
  "Ожидание...";
  "Удалённый узел";
  "Удалённый порт";
  "Действие";
  "Добавить";
  "Локальный порт";
  "Локальный адрес";
  "Изменить локальный порт";
  "Для более быстрого подключения настройте собственный сервер.";
  "Слишком короткий, минимум 6 символов.";
  "Подтверждение не совпадает";
  "Разрешения";
  "Принять";
  "Отклонить";
  "Отключить";
  "Разрешить копирование и вставку файлов";
  "Подключено";
  "Прямое и зашифрованное подключение";
  "Ретранслируемое и зашифрованное подключение";
  "Прямое и незашифрованное подключение";
  "Ретранслируемое и незашифрованное подключение";
  "Введите удалённый ID";
  "Введите пароль";
  "Вход...";
  "Использовать общий доступ к сеансу RDP";
  "Автоматический вход в учётную запись";
  "Использовать прямой IP-доступ";
  "Переименовать";
  "Место";
  "Создать ярлык на рабочем столе";
  "Изменить путь";
  "Создать папку";
  "Введите имя папки";
  "Исправить";
  "Предупреждение";
  "Вход в систему с использованием Wayland не поддерживается";
  "Требуется перезагрузка";
  "Неподдерживаемый сервер отображения";
  "Ожидается X11";
  "Порт";
  "Настройки";
  "Имя пользователя";
  "Неправильный порт";
  "Закрыто удалённым узлом вручную";
  "Разрешить удалённое изменение конфигурации";
  "Запустить без установки";
  "Подключится через ретранслятор";
  "Всегда подключаться через ретранслятор";
  "Только IP-адреса из белого списка могут получить доступ к моему устройству.";
  "Войти";
  "Проверить";
  "Запомнить";
  "Доверенное устройство";
  "Проверочный код";
  "Обнаружено новое устройство, на зарегистрированный адрес электронной почты отправлен проверочный код. Введите его, чтобы продолжить вход в систему.";
  "Выйти";
  "Метки";
  "Поиск по ID";
  "Разделение запятой, точкой с запятой, пробелом или новой строкой.";
  "Добавить ID";
  "Добавить ключевое слово";
  "Отменить выбор всех меток";
  "Ошибка сети";
  "Имя пользователя отсутствует";
  "Забыли пароль";
  "Неправильные учётные данные";
  "Проверочный код неправильный или устарел";
  "Изменить метку";
  "Не сохранять пароль";
  "Избранное";
  "Добавить в избранное";
  "Удалить из избранного";
  "Пусто";
  "Недопустимое имя папки";
  "SOCKS5-прокси";
  "SOCKS5/HTTP(S)-прокси";
  "Найдено";
  "Для запуска при загрузке необходимо установить системную службу";
  "Удалённый ID";
  "Вставить";
  "Вставить сюда?";
  "Завершить подключение?";
  "Скачать новую версию";
  "Сенсорный режим";
  "Режим мыши/тачпада";
  "Нажатие одним пальцем";
  "Левая кнопка мыши";
  "Долгое нажатие одним пальцем";
  "Нажатие двумя пальцами";
  "Правая кнопка мыши";
  "Перемещение одним пальцем";
  "Двойное нажатие и перемещение";
  "Перетаскивание мышью";
  "Тремя пальцами по вертикали";
  "Колесо мыши";
  "Перемещение двумя пальцами";
  "Перемещение холста";
  "Масштабирование щипком";
  "Масштаб холста";
  "Сбросить масштаб холста";
  "Нет разрешения на передачу файлов";
  "Заметка";
  "Подключение";
  "Демонстрация экрана";
  "Чат";
  "Всего";
  "элементы";
  "Выбрано";
  "Захват экрана";
  "Управление вводом";
  "Захват аудио";
  "Подключение передачи файлов";
  "Подключение просмотра/управления экраном";
  "Вы согласны?";
  "Открыть настройки системы";
  "Как получить разрешение на ввод Android?";
  with_quotes ["Чтобы удалённое устройство могло управлять вашим Android-устройством с помощью мыши или нажатий, необходимо разрешить RustDesk использовать службу "; "Специальные возможности"; "."];
  with_quotes ["Перейдите на соответствующую страницу системных настроек, найдите и войдите в "; "Установленные службы"; ", включите службу "; "RustDesk Input"; "."];
  "Получен новый запрос на управление вашим текущим устройством.";
  "Включение захвата экрана автоматически запускает службу, позволяя другим устройствам запрашивать подключение к этому устройству.";
  "Закрытие службы автоматически закроет все установленные подключения.";
  "Текущая версия Android не поддерживает захват звука, обновите её до Android 10 или выше.";
  "Нажмите [Запустить службу] или разрешите [Захват экрана], чтобы запустить службу демонстрации экрана.";
  "Разрешения для установленных подключений не могут быть изменены, необходимо переподключение.";
  "Аккаунт";
  "Перезаписать";
  "Файл существует, пропустить или перезаписать его?";
  "Выйти";
  "Помощь";
  "Не выполнено";
  "Выполнено";
  "Кто-то включил режим конфиденциальности, выход";
  "Не поддерживается";
  "Отклонено удалённым узлом";
  "Установите плагины";
  "Удалённый узел отключён";
  "Невозможно отключить";
  "Отключён";
  "Язык";
  "Держать в фоне службу RustDesk";
  "Игнорировать оптимизацию потребления батареи";
  "Перейдите на следующую страницу настроек";
  "Запускать при загрузке";
  "Запускать службу демонстрации экрана при загрузке (требуются специальные разрешения)";
  "Подключение не разрешено";
  "Устаревший режим";
  "Режим сопоставления";
  "Режим перевода";
  "Использовать постоянный пароль";
  "Использовать оба пароля";
  "Установить постоянный пароль";
  "Разрешить удалённую перезагрузку";
  "Перезапустить удалённое устройство";
  "Вы уверены, что хотите выполнить перезагрузку?";
  "Перезагрузка удалённого устройства";
  "Удалённое устройство перезапускается. Закройте это сообщение и через некоторое время переподключитесь, используя постоянный пароль.";
  "Скопировано";
  "Выйти из полноэкранного режима";
  "Полноэкранный режим";
  "Мобильные действия";
  "Выберите монитор";
  "Действия по управлению";
  "Настройки отображения";
  "Соотношение";
  "Качество изображения";
  "Стиль прокрутки";
  "Показать панель инструментов";
  "Скрыть панель инструментов";
  "Прямая связь";
  "Ретранслируемое подключение";
  "Безопасное подключение";
  "Небезопасное подключение";
  "Оригинальный масштаб";
  "Адаптивный масштаб";
  "Общие";
  "Безопасность";
  "Тема";
  "Тёмная тема";
  "Светлая тема";
  "Тёмная";
  "Светлая";
  "Системная";
  "Использовать аппаратный кодек";
  "Разблокировать настройки безопасности";
  "Включить передачу звука";
  "Разблокировать сетевые настройки";
  "Сервер";
  "Прямой IP-доступ";
  "Прокси";
  "Применить";
  "Отключить все устройства?";
  "Очистить";
  "Источник звука";
  "Использовать белый список IP";
  "Сеть";
  "Закрепить панель инструментов";
  "Открепить панель инструментов";
  "Запись";
  "Папка";
  "Автоматически записывать входящие сеансы";
  "Автоматически записывать исходящие сеансы";
  "Изменить";
  "Начать запись сеанса";
  "Остановить запись сеанса";
  "Включить запись сеанса";
  "Включить обнаружение в локальной сети";
  "Запретить обнаружение в локальной сети";
  "Написать сообщение";
  "Подсказка";
  "Дождитесь подтверждения UAC...";
  "Текущее окно удалённого рабочего стола требует более высоких привилегий для работы, поэтому временно невозможно использовать мышь и клавиатуру. Можно попросить удалённого пользователя свернуть текущее окно или нажать кнопку повышения прав в окне управления подключением. Чтобы избежать этой проблемы в дальнейшем, рекомендуется выполнить установку программного обеспечения на удалённом устройстве.";
  "Отключено";
  "Другое";
  "Подтверждать закрытие нескольких вкладок";
  "Настройки клавиатуры";
  "Полный доступ";
  "Демонстрация экрана";
  "Wayland требуется Ubuntu версии 21.04 или новее.";
  "Для Wayland требуется более поздняя версия дистрибутива Linux. Используйте рабочий стол X11 или смените ОС.";
  "Просмотр";
  "Выберите экран для демонстрации (работайте на одноранговой стороне).";
  "Показать RustDesk";
  "Этот компьютер";
  "или";
  "Продолжить с";
  "Повысить";
  "Масштабировать курсор";
  "Принимать сеансы по паролю";
  "Принимать сеансы нажатием кнопки";
  "Принимать сеансы по паролю и нажатию кнопки";
  "Подождите, пока удалённая сторона примет ваш запрос на сеанс...";
  "Одноразовый пароль";
  "Использовать одноразовый пароль";
  "Длина одноразового пароля";
  "Запрос доступа к вашему устройству";
  "Скрывать окно управления подключениями";
  "Разрешать скрытие в случае, если принимаются сеансы по паролю или используется постоянный пароль";
  "Поддержка Wayland находится на экспериментальной стадии, используйте X11, если вам требуется автоматический доступ.";
  "Выбор вкладок щелчком правой кнопки мыши";
  "Пропущено";
  "Добавить в адресную книгу";
  "Группа";
  "Поиск";
  "Закрыто вручную через веб-консоль";
  "Тип локальной клавиатуры";
  "Выберите тип локальной клавиатуры";
  "Если у вас видеокарта Nvidia и удалённое окно закрывается сразу после подключения, может помочь установка драйвера Nouveau и выбор использования программной визуализации. Потребуется перезапуск.";
  "Использовать программную визуализацию";
  with_quotes ["Чтобы управлять удалённым рабочим столом с помощью клавиатуры, необходимо предоставить RustDesk разрешения "; "Мониторинг ввода"; "."];
  with_quotes ["Чтобы разговаривать с удалённой стороной, необходимо предоставить RustDesk разрешение "; "Запись аудио"; "."];
  "Также можно запросить повышение прав, если кто-то есть на удалённой стороне.";
  "Ждите";
  "Ошибка повышения прав";
  "Запросить аутентификацию у удалённого пользователя";
  "Выберите это, если удалённый аккаунт является администратором";
  "Передать имя пользователя и пароль администратора";
  with_quotes ["По-прежнему требуется, чтобы удалённый пользователь нажал "; "OK"; " в окне UAC при запуске RustDesk."];
  "Запросить повышение";
  "Подождите, пока удалённый пользователь подтвердит запрос UAC.";
  "Права повышены";
  "заглавные";
  "строчные";
  "цифры";
  "спецсимволы";
  "8+ символов";
  "Слабый";
  "Средний";
  "Стойкий";
  "Переключить стороны";
  "Подтверждаете, что разрешаете демонстрацию рабочего стола?";
  "Отображение";
  "Стиль отображения по умолчанию";
  "Стиль прокрутки по умолчанию";
  "Качество изображения по умолчанию";
  "Кодек по умолчанию";
  "Битрейт";
  "Частота кадров";
  "Авто";
  "Другие параметры по умолчанию";
  "Голосовой вызов";
  "Текстовый чат";
  "Завершить голосовой вызов";
  with_quotes ["Прямое подключение может оказаться невозможным. В этом случае можно попытаться подключиться через ретранслятор.\nКроме того, если вы хотите сразу использовать ретранслятор, можно добавить к ID суффикс "; "/r"; " или включить "; "Всегда подключаться через ретранслятор"; " в настройках удалённого узла."];
  "Переподключить";
  "Кодек";
  "Разрешение";
  "Передача не осуществляется";
  "Установить длину одноразового пароля";
  "Настройки RDP";
  "Сортировка";
  "Новое подключение";
  "Восстановить";
  "Свернуть";
  "Развернуть";
  "Ваше устройство";
  "Нет последних сеансов!\nПора спланировать новый.";
  "Ещё нет избранных удалённых узлов?\nДавайте найдём, кого можно добавить в избранное!";
  "Не найдено удалённых узлов.";
  "В адресной книге нет удалённых узлов.";
  "например: admin";
  "Пустое имя пользователя";
  "Пустой пароль";
  "Я";
  "Файл идентичен файлу на удалённом узле";
  "Показывать мониторы на панели инструментов";
  "Режим просмотра";
  "Чтобы включить сеанс рабочего стола X, необходимо войти в удалённый аккаунт Linux.";
  "Подтвердить пароль RustDesk";
  "Запомнить этот аккаунт";
  "Этот аккаунт используется для входа в удалённую ОС и включения сеанса рабочего стола в режиме headless.";
  "Аккаунт ОС";
  "Другой пользователь уже вошёл в систему";
  "Отключить";
  "Xorg не найден";
  "Установите Xorg";
  "Нет доступных рабочих столов";
  "Установите GNOME Desktop";
  "Повышение прав не требуется";
  "Системный звук";
  "По умолчанию";
  "Новый RDP";
  "Отпечаток";
  "Копировать отпечаток";
  "отпечатки отсутствуют";
  "Выберите удалённый узел";
  "Выберите удалённые узлы";
  "Плагины";
  "Удалить";
  "Обновить";
  "Включить";
  "Отключить";
  "Настройки";
  "Исходное разрешение";
  "Соответствие локальному разрешению";
  "Произвольное разрешение";
  "Свернуть панель инструментов";
  "Принять и повысить";
  "Разрешить подключение и повысить права UAC.";
  "Время ожидания копирования буфера обмена истекло";
  "Входящее подключение";
  "Исходящее подключение";
  "Выход";
  "Открыть";
  "Вы действительно хотите выйти?";
  "Служба";
  "Запустить";
  "Остановить";
  "Достигнуто максимальное количество управляемых устройств.";
  "Синхронизация последних сеансов";
  "Сортировка меток";
  "Открыть подключение в новой вкладке";
  "Переместить вкладку в отдельное окно";
  "Не может быть пустым";
  "Уже существует";
  "Изменить пароль";
  "Обновить пароль";
  "ID";
  "Сетка";
  "Список";
  "Выбор";
  "Переключить метки";
  "Невозможно обновить адресную книгу";
  "Невозможно синхронизировать адресную книгу с сервером";
  "Устройства, присутствовавшие в последних сеансах, будут синхронизированы с адресной книгой.";
  "Изменить цвет";
  "Основной цвет";
  "Цвет HSV";
  "Установка выполнена успешно!";
  "Установка не выполнена!";
  "Реверсировать колесо мыши";
  "{} сеансов";
  "Вы можете быть ОБМАНУТЫ!";
  "Если вы разговариваете по телефону с кем-то, кого вы НЕ ЗНАЕТЕ и НЕ ДОВЕРЯЕТЕ, и он просит вас использовать RustDesk и запустить его службу, не продолжайте и немедленно прервите разговор.";
  "Скорее всего, это мошенник, пытающийся украсть ваши деньги или другую личную информацию.";
  "Больше не показывать";
  "Принимаю";
  "Отказ";
  "Время ожидания (минут)";
  "Автоматически закрывать входящие сеансы при неактивности пользователя";
  "Подключение не выполнено из-за неактивности";
  "Проверять обновления программы при запуске";
  "Обновите RustDesk Server Pro до версии {} или новее!";
  "Невозможно обновить группу";
  "Фильтровать по пересечению";
  "Скрывать обои рабочего стола при входящем сеансе";
  "Тест";
  "Дисплей отключён, переключитесь на первый дисплей.";
  "Нет дисплеев";
  "Открыть в новом окне";
  "Показывать дисплеи в отдельных окнах";
  "Использовать все мои дисплеи для удалённого сеанса";
  "На вашем устройстве включён SELinux, что может помешать правильной работе RustDesk на управляемой стороне.";
  "Вид";
  "Большие значки";
  "Маленькие значки";
  "Список";
  "Виртуальный дисплей";
  "Отключить все";
  "True color (4:4:4)";
  "Разрешить блокировать ввод на устройстве";
  with_quotes ["Можно ввести идентификатор, прямой IP-адрес или домен с портом (<домен>:<порт>).\nЕсли необходимо получить доступ к устройству на другом сервере, добавьте адрес сервера (<id>@<адрес_сервера>?key=<ключ_значение>), например:\n9123456234@192.168.16.1:21117?key=5Qbwsde3unUcJBtrx9ZkvUmwFNoExHzpryHuPUdqlWM=.\nЕсли необходимо получить доступ к устройству на общедоступном сервере, введите "; "<id>@public"; ", ключ для публичного сервера не требуется."];
  "Режим 1";
  "Режим 2";
  "Включить режим конфиденциальности";
  "Отключить режим конфиденциальности";
  "Драйвер непрямого отображения не поддерживается. Требуется Windows 10 версии 2004 или новее.";
  "Источник ввода 1";
  "Источник ввода 2";
  "Поменять местами значения кнопок Ctrl и Command";
  "Поменять местами значения левой и правой кнопок мыши";
  "Код двухфакторной аутентификации";
  "Ещё";
  "Использовать двухфакторную аутентификацию";
  "Настройте приложение аутентификации. Используйте, например, Authy, Microsoft или Google Authenticator, на телефоне или компьютере.\n\nОтсканируйте QR-код с помощью приложения аутентификации и введите код, который отобразит это приложение, чтобы включить двухфакторную аутентификацию.";
  "Невозможно подтвердить код. Проверьте код и настройки местного времени.";
  "Двухфакторная аутентификация";
  "Код подтверждения электронной почты должен состоять из 6 символов.";
  "Код двухфакторной аутентификации должен состоять из 6 цифр.";
  "Обнаружено несколько сеансов Windows";
  "Выберите сеанс, к которому хотите подключиться";
  "Основано на RustDesk";
  "Это специализированная версия.\nВы можете подключаться к другим устройствам, но другие устройства не могут подключиться к вашему.";
  "Это специализированная версия с предустановленным паролем. Любой, кто знает этот пароль, может получить полный контроль над вашим устройством. Если это для вас неожиданно, немедленно удалите данное программное обеспечение.";
  "Предупреждение о безопасности";
  "Моя адресная книга";
  "Личная";
  "Владелец";
  "Установить общий пароль";
  "Существует в";
  "Только чтение";
  "Чтение и запись";
  "Полный доступ";
  "Поля выше являются общими и видны другим.";
  "Все";
  "Больше в веб-консоли";
  "Разрешать подключение только при открытом окне RustDesk";
  "Физические дисплеи отсутствуют, нет необходимости использовать режим конфиденциальности.";
  "Следовать за удалённым курсором";
  "Следовать за фокусом удалённого окна";
  "Протокол и порт по умолчанию: Socks5 и 1080";
  "Устройство аудиовхода не найдено.";
  "Входящие";
  "Исходящие";
  "Отменить выбор экрана Wayland";
  "После отмены можно заново выбрать экран для демонстрации.";
  "Отменить выбор экрана Wayland?";
  "Получен новый запрос на голосовой вызов. Если вы его примите, звук переключится на голосовую связь.";
  "Использовать визуализацию текстур, чтобы сделать изображения более плавными.";
  "Визуализация текстур";
  "Плавающее окно";
  "Помогает поддерживать фоновую службу RustDesk";
  "Держать экран включённым";
  "Нет";
  "При управлении";
  "При запущенной службе";
  "Захват экрана с помощью DirectX";
  "Назад";
  "Приложения";
  "Громкость+";
  "Громкость-";
  "Питание";
  "Telegram-бот";
  "Если включено, можно получать код двухфакторной аутентификации от бота. Он также может выполнять функцию уведомления о подключении.";
  with_quotes ["1) Откройте чат с @BotFather.\n2) Отправьте команду "; "/newbot"; ". После выполнения этого шага вы получите токен.\n3) Начните чат с вашим только что созданным ботом. Отправьте сообщение, начинающееся с прямой косой черты ("; "/"; "), например, "; "/hello"; ", чтобы его активировать.\n"];
  "Отключить двухфакторную аутентификацию?";
  "Отключить Telegram-бота?";
  "О RustDesk";
  "Отправлять нажатия клавиш из буфера обмена";
  with_quotes ["Проверьте подключение к сети, затем нажмите "; "Повтор"; "."];
  "Разблокировать PIN-кодом";
  "Требуется не менее {} символов";
  "Неправильный PIN-код";
  "Установить PIN-код";
  "Включение доверенных устройств";
  "Управление доверенными устройствами";
  "Платформа";
  "Дней осталось";
  "Разрешить доверенным устройствам пропускать проверку подлинности 2FA";
  "Родительская папка";
  "Продолжить";
  "Неправильное имя файла";
  "На управляемой стороне включена односторонняя передача файлов.";
  "Требуется аутентификация";
  "Аутентификация";
  with_quotes ["Можно ввести ID на том же сервере, прямой доступ по IP в веб-клиенте не поддерживается.\nЕсли вы хотите получить доступ к устройству на другом сервере, добавьте адрес сервера (<id>@<адрес_сервера>?key=<ключ>), например,\n9123456234@192.168.16.1:21117?key=5Qbwsde3unUcJBtrx9ZkvUmwFNoExHzpryHuPUdqlWM=.\nЕсли вы хотите получить доступ к устройству на публичном сервере, введите "; "<id>@public"; ", для публичного сервера ключ не нужен."];
  "Скачать";
  "Загрузить папку";
  "Загрузить файлы";
  "Буфер обмена синхронизирован";
  "Обновить буфер обмена клиента";
  "Без метки";
  "Доступна новая версия {}";
  ""].
