(* ===== verification/TextsD.v ===== *)
(** * The texts in [sk], [sl], [sq], [sr], [sv], [th], [tr], [tw], [uk] and [vn]

    Each table of [LANGS] in [proto/gen_js_from_hbb.ts] as its texts for [text_ids]; an empty text is one
    nobody has translated. *)
From S2P Require Import Prelude JsMap JsStr Json Common Langs.
Local Open Scope string_scope.

(** [LANGS.sk] *)
Definition lang_sk : jsmap string string := texts [
  "Stav";
  "Vaša plocha";
  "K svojej ploche sa môžete pripojiť pomocou zobrazeného ID a hesla.";
  "Heslo";
  "Pripravené";
  "Nadviazané";
  "Pripájam sa na RustDesk server...";
  "Povoliť službu";
  "Spustiť službu";
  "Služba je aktívna";
  "Služba je vypnutá";
  "Nepripravené. Skontrolujte svoje sieťové pripojenie.";
  "Ovládať vzdialenú plochu";
  "Prenos súborov";
  "Pripojiť";
  "Nedávne pripojenie";
  "Adresár kontaktov";
  "Potvrdenie";
  "TCP tunelovanie";
  "Odstrániť";
  "Aktualizovať náhodné heslo";
  "Nastavte si svoje vlastné heslo";
  "Povoliť klávesnicu/myš";
  "Povoliť schránku";
  "Povoliť prenos súborov";
  "Povoliť TCP tunelovanie";
  "Zoznam povolených IP adries";
  "ID/Prepojovací server";
  "Importovať konfiguráciu servera";
  "Exportovať konfiguráciu servera";
  "Konfigurácia servera bola úspešne importovaná";
  "Konfigurácia servera bola úspešne exportovaná";
  "Neplatná konfigurácia servera";
  "Schránka je prázdna";
  "Zastaviť službu";
  "Zmeniť ID";
  "Vaše nové ID";
  "dĺžka medzi %min% a %max%";
  "začína písmenom";
  "povolené znaky";
  "Povolené sú len znaky a-z, A-Z, 0-9, - (dash) a _ (podčiarkovník). Prvý znak musí byť a-z, A-Z. Dĺžka musí byť medzi 6 a 16 znakmi.";
  "Webová stránka";
  "O RustDesk";
  "Stvorené srdcom v tomto chaotickom svete!";
  "Vyhlásenie o ochrane osobných údajov";
  "Stíšiť";
  "Dátum zostavenia";
  "Verzia";
  "Domov";
  "Zvukový vstup";
  "Vylepšenia";
  "Hardvérový kodek";
  "Adaptívny dátový tok";
  "ID server";
  "Prepojovací server";
  "API server";
  "Musí začínať http:// alebo https://";
  "Neplatná IP adresa";
  "Neplatný formát";
  "Zatiaľ serverom nepodporované";
  "Nie je k dispozícii";
  "Príliš často";
  "Zrušiť";
  "Preskočiť";
  "Zatvoriť";
  "Zopakovať";
  "OK";
  "Vyžaduje sa heslo";
  "Zadajte vaše heslo";
  "Zapamätať heslo";
  "Chybné heslo";
  "Chcete ho znova zadať?";
  "Chyba spojenia";
  "Chyba";
  "Odmietnuté druhou stranou spojenia";
  "Pripájanie sa...";
  "Pokúšam sa pripojiť. Počkajte chvíľu.";
  "Skúte znova za minútu, alebo ešte neskôr";
  "Chyba prihlásenia";
  "Úspech";
  "Pripojené, čakám na obraz...";
  "Názov";
  "Typ";
  "Zmenené";
  "Veľkosť";
  "Zobraziť skryté súbory";
  "Prijať";
  "Odoslať";
  "Aktualizovať súbor";
  "Miestne";
  "Vzdialené";
  "Vzdialený počítač";
  "Miestny počítač";
  "Potvrdenie zmazania";
  "Zmazať";
  "Vlastnosti";
  "Viacnásobný výber";
  "Vybrať všetko";
  "Zrušiť výber všetkého";
  "Prázdny adresár";
  "Nie prázdny adresár";
  "Ste si istý, že chcete zmazať tento súbor?";
  "Ste si istý, že chcete zmazať tento adresár?";
  "Ste si istý, že chcete zmazať tento súbor alebo adresár?";
  "Všetky konflikty riešiť týmto spôsobom";
  "Toto je nezvratná operácia!";
  "Mazanie";
  "súbory";
  "Čaká sa";
  "Ukončené";
  "Rýchlosť";
  "Vlastná kvalita obrazu";
  "Režim súkromia";
  "Blokovať vstupné zariadenia užívateľa";
  "Odblokovať vstupné zariadenia užívateľa";
  "Prispôsobiť okno";
  "Pôvodný";
  "Zmenšené";
  "Roztiahnuté";
  "Posuvník";
  "Rolovať Auto";
  "Dobrá kvalita obrazu";
  "Vyvážené";
  "Optimalizované pre čas odozvy";
  "Vlastné";
  "Zobrazovať vzdialený ukazovateľ myši";
  "Zobraziť monitor kvality";
  "Vypnúť schránku";
  "Po skončení uzamknúť plochu";
  "Vložiť Ctrl + Alt + Del";
  "Uzamknúť";
  "Aktualizovať";
  "ID neexistuje";
  "Nepodarilo sa pripojiť k zoznamovaciemu serveru";
  "Vyskúšajte neskôr";
  "Vzdialená plocha nie je pripojená";
  "Kľúče sa nezhodujú";
  "Čas pre nadviazanie pripojenia vypršal";
  "Nepodarilo sa pripojiť k prepojovaciemu serveru";
  "Nepodarilo sa pripojiť cez zoznamovací server";
  "Nepodarilo sa pripojiť cez prepojovací server";
  "Nepodarilo sa nadviazať priamu komunikáciu so vzdialenou plochou";
  "Nastaviť heslo";
  "Heslo do operačného systému";
  "V niektorých prípadoch RustDesk nefunguje správne z dôvodu riadenia užívateľských oprávnení (UAC). Vyhnete sa tomu kliknutím na nižšie zobrazene tlačítko a nainštalovaním RuskDesk do systému.";
  "Kliknutím nainštalujete aktualizáciu";
  "Kliknutím potvrďte stiahnutie";
  "Kliknutím aktualizovať";
  "Nastaviť";
  with_quotes ["Aby bolo možné na diaľku ovládať vašu plochu, je potrebné aplikácii RustDesk udeliť práva "; "Dostupnosť"; "."];
  with_quotes ["Aby bolo možné na diaľku sledovať vašu obrazovku, je potrebné aplikácii RustDesk udeliť práva "; "Zachytávanie obsahu obrazovky"; "."];
  "Inštaluje sa";
  "Inštalovať";
  "Inštalácia";
  "Inštalačný adresár";
  "Vytvoriť zástupcu do ponuky Štart";
  "Vytvoriť ikonu na ploche";
  "Spustením inštalácie prijímate licenčné podmienky.";
  "Prijať a inštalovať";
  "Licenčné podmienky dohodnuté s koncovým užívateľom";
  "Generujem ...";
  "Vaša inštalácia je staršia";
  "Nezatvárajte toto okno po celý čas, kedy používate TCP tunel";
  "Čakám na pripojenie ...";
  "Vzdialený počítač";
  "Vzdialený port";
  "Akcia";
  "Pridať";
  "Lokálny port";
  "Lokálna adresa";
  "Zmena lokálneho portu";
  "Pre zrýchlenie pripojenia si nainštalujte svoj vlastný server";
  "Príliš krátke, vyžaduje sa aspoň 6 znakov.";
  "Potvrdenie nie je zhodné.";
  "Práva";
  "Prijať";
  "Odmietnuť";
  "Odpojiť";
  "Povoliť kopírovanie a vkladanie súborov";
  "Pripojené";
  "Priame a šifrované spojenie";
  "Sprostredkované a šifrované spojenie";
  "Priame a nešifrované spojenie";
  "Sprostredkované a nešifrované spojenie";
  "Zadajte ID vzdialenej plochy";
  "Zadajte svoje heslo";
  "Prihlasovanie sa....";
  "Povoliť zdieľanie RDP relácie";
  "Automatické prihlásenie";
  "Povoliť priame pripojenie cez IP";
  "Premenovať";
  "Medzera";
  "Vytvoriť zástupcu na ploche";
  "Zmeniť adresár";
  "Vytvoriť adresár";
  "Zadajte názov adresára";
  "Opraviť to";
  "Upozornenie";
  "Prihlasovacia obrazovka prostredníctvom Wayland nie je podporovaná";
  "Vyžaduje sa reštart";
  "Nepodporovaný zobrazovací (display) server";
  "očakáva sa x11";
  "Port";
  "Nastavenia";
  "Uživateľské meno";
  "Neplatný port";
  "Manuálne ukončené opačnou stranou pripojenia";
  "Povoliť zmeny konfigurácie zo vzdialeného PC";
  "Spustiť bez inštalácie";
  "Pripojenie prostredníctvom relay servera";
  "Vždy pripájať cez prepájací server";
  "Len vymenované IP adresy majú oprávnenie sa pripojiť k vzdialenej správe";
  "Prihlásenie";
  "Overiť";
  "Zapamätať si";
  "Dôverovať tomuto zariadeniu";
  "Overovací kód";
  "Na vašu registrovanú e-mailovú adresu bol odoslaný overovací kód, zadajte ho a pokračujte v prihlasovaní.";
  "Odhlásenie";
  "Štítky";
  "Hľadať ID";
  "Oddelené čiarkou, bodkočiarkou, medzerou alebo koncom riadku";
  "Pridať ID";
  "Pridať štítok";
  "Zrušiť výber všetkých štítkov";
  "Chyba siete";
  "Chýba užívateľské meno";
  "Chýba heslo";
  "Nesprávne prihlasovacie údaje";
  "Overovací kód je nesprávny alebo jeho platnosť vypršala";
  "Upraviť štítok";
  "Zabudnúť heslo";
  "Obľúbené";
  "Pridať medzi obľúbené";
  "Odstrániť z obľúbených";
  "Prázdne";
  "Neplatný názov adresára";
  "Socks5 Proxy";
  "Socks5/Http(s) Proxy";
  "Objavené";
  "Ak chcete, aby sa spúšťal pri štarte systému, musíte nainštalovať systémovú službu.";
  "Vzdialené ID";
  "Vložiť";
  "Vložiť sem?";
  "Ste si istý, že chcete ukončiť spojenie?";
  "Stiahnuť novú verziu";
  "Dotykový režim";
  "Režim ovládania myšou";
  "Klepnutie jedným prstom";
  "Ľavé tlačidlo myši";
  "Jedno dlhé klepnutie";
  "Klepnutie dvoma prstami";
  "Pravé tlačidlo myši";
  "Presúvanie jedným prstom";
  "Dvojité klepnutie a presun";
  "Presun myšou";
  "Pohyb tromi prstami zvisle";
  "Koliesko myši";
  "Pohyb dvoma prstami";
  "Pohyb zobrazenia";
  "Roztiahnutím prstov priblížiť";
  "Priblíženie zobrazenia";
  "Obnoviť zobrazenie";
  "Prenos súborov nie je povolený";
  "Poznámka";
  "Pripojenie";
  "Zdielať obrazovku";
  "Chat";
  "Celkom";
  "položiek";
  "Vybrané";
  "Snímanie obrazovky";
  "Ovládanie vstupných zariadení";
  "Snímanie zvuku";
  "Pripojenie súborov";
  "Pripojenie obrazu";
  "Súhlasíte?";
  "Otvorenie nastavení systému";
  "Ako v systéme Android povoliť oprávnenie písať zo vstupného zariadenia?";
  with_quotes ["Aby bolo možné na diaľku ovládať vašu plochu pomocou myši alebo dotykov, je potrebné aplikácii RustDesk udeliť práva "; "Dostupnosť"; "."];
  "Prejdite na stránku nastavení systému, nájdite a vstúpte do [Stiahnuté služby], zapnite [RustDesk Input] službu.";
  "Bola prijatá nová požiadavka na ovládanie vášho zariadenia.";
  with_quotes ["Zapnutie "; "Zachytávanie obsahu obrazovky"; " automaticky spistí službu, čo iným zariadeniam umožní požiadať o pripojenie k tomuto zariadeniu."];
  "Zastavenie služby automaticky ukončí všetky naviazané spojenia.";
  "Vaša verzia Androidu neumožňuje zaznamenávanie zvuku. Prejdite na verziu Android 10 alebo vyššiu.";
  "Ťuknutím na položku [Spustiť službu] alebo povolením povolenia [Snímanie obrazovky] spustite službu zdieľania obrazovky.";
  "Oprávnenia pre vytvorené pripojenia možno zmeniť až po opätovnom pripojení.";
  "Účet";
  "Prepísať";
  "Preskočiť alebo prepísať existujúci súbor?";
  "Ukončiť";
  "Nápoveda";
  "Nepodarilo sa";
  "Podarilo sa";
  "Niekto zapne režim súkromia, ukončite ho";
  "Nepodporované";
  "Peer poprel";
  "Nainštalujte si prosím pluginy";
  "Peer exit";
  "Nepodarilo sa vypnúť";
  "Vypnutý";
  "Jazyk";
  "Ponechať službu RustDesk na pozadí";
  "Ignorovať optimalizácie batérie";
  "Ak chcete túto funkciu vypnúť, prejdite na ďalšiu stránku nastavení RustDesku, vyhľadajte a zadajte položku [Batéria], zrušte začiarknutie položky [Neobmedzené].";
  "Spustenie po štarte";
  "Spustenie služby zdieľania obrazovky pri štarte systému, vyžaduje špeciálne oprávnenia";
  "Spojenie nie je povolené";
  "Režim Legacy";
  "Režim mapovania";
  "Režim prekladania";
  "Použitie trvalého hesla";
  "Používanie oboch hesiel";
  "Nastaviť trvalé heslo";
  "Povoliť vzdialený reštart";
  "Reštartovať vzdialené zariadenie";
  "Ste si istý, že chcete reštartovať";
  "Reštartovanie vzdialeného zariadenia";
  "Vzdialené zariadenie sa reštartuje, zatvorte toto okno a po chvíli sa znovu pripojte pomocou trvalého hesla.";
  "Skopírované";
  "Ukončiť celú obrazovku";
  "Celá obrazovka";
  "Mobilné akcie";
  "Vyberte možnosť Monitor";
  "Kontrolné akcie";
  "Nastavenia displeja";
  "Pomer";
  "Kvalita obrazu";
  "Štýl posúvania";
  "Zobrazenie panela nástrojov";
  "Skrytie panela nástrojov";
  "Priame pripojenie";
  "Reléové pripojenie";
  "Zabezpečené pripojenie";
  "Nezabezpečené pripojenie";
  "Pôvodná mierka";
  "Prispôsobivá mierka";
  "Všeobecné";
  "Zabezpečenie";
  "Motív";
  "Tmavý motív";
  "Svetlý motív";
  "Tmavý";
  "Svetlý";
  "Podľa systému";
  "Povoliť hardwarový kodek";
  "Odomknúť nastavenie zabezpečenia";
  "Povoliť zvuk";
  "Odomknúť nastavenie siete";
  "Server";
  "Priamy IP prístup";
  "Proxy";
  "Použiť";
  "Odpojiť všetky zariadenia?";
  "Zmazať";
  "Vstupné zvukové zariadenie";
  "Použiť IP whitelisting";
  "Sieť";
  "Pripnúť panel nástrojov";
  "Odpojiť panel nástrojov";
  "Nahrávanie";
  "Adresár";
  "Automaticky nahrávať prichádzajúce relácie";
  "";
  "Zmeniť";
  "Spustiť záznam relácie";
  "Zastaviť záznam relácie";
  "Povoliť nahrávanie relácie";
  "Povolenie zisťovania siete LAN";
  "Zakázať zisťovania siete LAN";
  "Napísať správu";
  "Výzva";
  "Počkajte, prosím, na potvrdenie UAC...";
  "Aktuálne okno vzdialenej plochy vyžaduje vyššie oprávnenia, takže dočasne nemôže používať myš a klávesnicu. Môžete požiadať vzdialeného používateľa, aby minimalizoval aktuálne okno, alebo kliknúť na tlačidlo povýšiť v okne správy pripojenia. Ak sa chcete vyhnúť tomuto problému, odporúčame nainštalovať softvér na vzdialené zariadenie.";
  "Odpojené";
  "Iné";
  "Potvrdiť pred zatvorením viacerých kariet";
  "Nastavenia klávesnice";
  "Úplný prístup";
  "Zdielanie obrazovky";
  "Wayland vyžaduje Ubuntu 21.04 alebo vyššiu verziu.";
  "Wayland vyžaduje vyššiu verziu linuxovej distribúcie. Skúste X11 desktop alebo zmeňte OS.";
  "View";
  "Vyberte obrazovku, ktorú chcete zdieľať (Ovládajte na strane partnera).";
  "Zobraziť RustDesk";
  "Tento počítač";
  "alebo";
  "Pokračovať s";
  "Zvýšiť";
  "Kurzor priblíženia";
  "Prijímanie relácií pomocou hesla";
  "Prijímanie relácií kliknutím";
  "Prijímanie relácií prostredníctvom oboch";
  "Počkajte, kým vzdialená strana prijme vašu žiadosť o reláciu...";
  "Jednorázové heslo";
  "Použiť jednorázové heslo";
  "Dĺžka jednorázového hesla";
  "Žiadosť o prístup k vášmu zariadeniu";
  "Skryť okno správy pripojenia";
  "Skrývanie povoľte len vtedy, ak relácie prijímate pomocou hesla a používate trvalé heslo.";
  "Podpora Waylandu je v experimentálnej fáze, ak potrebujete bezobslužný prístup, použite X11.";
  "Výber karty kliknutím pravým tlačidlom myši";
  "Vynechané";
  "Pridať do adresára";
  "Skupina";
  "Vyhľadávanie";
  "Zatvorené ručne pomocou webovej konzoly";
  "Typ lokálnej klávesnice";
  "Výber typu lokálnej klávesnice";
  "Ak používate grafickú kartu Nvidia v systéme Linux a vzdialené okno sa po pripojení okamžite zatvorí, môže vám pomôcť prepnutie na ovládač Nouveau s otvoreným zdrojovým kódom a výber softvérového vykresľovania. Vyžaduje sa softvérový reštart.";
  "Vždy použiť softvérové vykresľovanie";
  with_quotes ["Ak chcete ovládať vzdialenú plochu pomocou klávesnice, musíte udeliť oprávnenie RustDesk "; "Sledovanie vstupu"; "."];
  with_quotes ["Ak chcete hovoriť na diaľku, musíte RustDesku udeliť povolenie "; "Nahrávať zvuk"; "."];
  "Môžete tiež požiadať o zvýšenie, ak je niekto na vzdialenej strane.";
  "Počkajte";
  "Chyba navýšenia";
  "Požiadať vzdialeného používateľa o overenie";
  "Túto možnosť vyberte, ak je účet vzdialeného správcu";
  "Prenos používateľského mena a hesla správcu";
  "Stále sa vyžaduje, aby vzdialený používateľ klikol na tlačidlo OK v okne UAC spusteného programu RustDesk.";
  "Žiadosť o navýšenie";
  "Počkajte, kým vzdialený používateľ prijme dialógové okno UAC.";
  "Úspešné navýšenie";
  "velké písmená";
  "malé písmená";
  "číslice";
  "špeciálny znak";
  "dĺžka>=8";
  "Slabé";
  "Stredné";
  "Silné";
  "Prepínanie strán";
  "Potvrďte, prosím, či chcete zdieľať svoju plochu?";
  "Obrazovka";
  "Predvolený štýl zobrazenia";
  "Predvolený štýl posúvania";
  "Predvolená kvalita obrazu";
  "Predvolený kodek";
  "Dátový tok";
  "FPS";
  "Auto";
  "Ďalšie predvolené možnosti";
  "Hlasový hovor";
  "Textový chat";
  "Zastaviť hlasový hovor";
  with_quotes ["Priame pripojenie nemusí byť možné, môžete sa pokúsiť pripojiť prostredníctvom presmerovacieho servera. Okrem toho, ak chcete pri prvom pokuse použiť presmerovací server, môžete k ID pridať príponu "; "/r"; " alebo vybrať možnosť "; "Vždy sa pripájať cez bránu"; " na karte posledných relácií, ak existuje."];
  "Znovu pripojiť";
  "Kodek";
  "Rozlíšenie";
  "Žiadne prebiehajúce presuny";
  "Nastaviť dĺžku jednorazového hesla";
  "Nastavenia RDP";
  "Usporiadať podľa";
  "Nové pripojenie";
  "Obnoviť";
  "Minimalizovať";
  "Maximalizovať";
  "Vaše zariadenie";
  "Ups, žiadna nedávna relácia!\nČas naplánovať novú.";
  "Ešte nemáte obľúbeného partnera?\nNájdite niekoho, s kým sa môžete spojiť, a pridajte si ho do obľúbených!";
  "Ale nie, zdá sa, že sme zatiaľ neobjavili žiadnu protistranu.";
  "Ach bože, zdá sa, že vo vašom adresári momentálne nie sú uvedení žiadni kolegovia.";
  "napr. admin";
  "Prázdne používateľské meno";
  "Prázdne heslo";
  "Ja";
  "Tento súbor je identický so súborom partnera.";
  "Zobraziť monitory na paneli nástrojov";
  "Režim zobrazenia";
  "Ak chcete povoliť reláciu Desktop X, musíte sa prihlásiť do vzdialeného konta Linuxu.";
  "Overenie hesla RustDesk";
  "Zapamätať si tento účet";
  "Toto konto sa používa na prihlásenie do vzdialeného operačného systému a na povolenie relácie pracovnej plochy v režime headless.";
  "Účet operačného systému";
  "Ďalší používateľ je už prihlásený";
  "Odpojiť";
  "Xorg nebol nájdený";
  "Prosím, nainštalujte Xorg";
  "Nie je k dispozícii žiadna plocha";
  "Nainštalujte si prostredie GNOME";
  "Navýšenie nie je potrebné";
  "Systémový zvuk";
  "Predvolené";
  "Nové RDP";
  "Odtlačok prsta";
  "Kopírovať odtlačok prsta";
  "žiadne odtlačky prstov";
  "Výber partnera";
  "Výber partnerov";
  "Pluginy";
  "Odinštalovať";
  "Aktualizovať";
  "Povoliť";
  "Zakázať";
  "Možnosti";
  "Pôvodné rozlíšenie";
  "Prispôsobiť miestne rozlíšenie";
  "Vlastné rozlíšenie";
  "Zbaliť panel nástrojov";
  "Prijať navýšenie";
  "Prijmite pripojenie a zvýšte oprávnenia UAC.";
  "Čas na čakanie na kópiu odpovede uplynul.";
  "Prichádzajúce pripojenie";
  "Odchádzajúce pripojenie";
  "Ukončiť";
  "Otvoriť";
  "Naozaj sa chcete odhlásiť?";
  "Služba";
  "Spustiť";
  "Zastaviť";
  "Dosiahli ste maximálny počet spravovaných zariadení.";
  "Synchronizovať s poslednými reláciami";
  "Zoradiť štítky";
  "Otvoriť pripojenie v novej karte";
  "Presunúť kartu do nového okna";
  "Nemôže byť prázdne";
  "Už existuje";
  "Zmeniť heslo";
  "Obnoviť heslo";
  "ID";
  "Mriežka";
  "Zoznam";
  "Vybrať";
  "Prepnúť štítky";
  "Nepodarilo sa obnoviť adresár";
  "Nepodarilo sa synchronizovať adresár so serverom";
  "Zariadenia, ktoré boli prítomné v posledných reláciách, budú synchronizované späť do adresára.";
  "Zmeniť farbu";
  "Hlavná farba";
  "HSV farba";
  "Inštalácia úspešná!";
  "Inštalácia zlyhala!";
  "Reverzné koliesko myši";
  "{} relácií";
  "Možno ste boli oklamaní!";
  "Ak telefonujete s niekým, koho nepoznáte a komu nedôverujete a kto vás požiadal o použitie a spustenie aplikácie RustDesk, nepokračujte v hovore a okamžite zaveste.";
  "Pravdepodobne ide o podvodníka, ktorý sa snaží ukradnúť vaše peniaze alebo iné súkromné informácie.";
  "Nezobrazovať znova";
  "Súhlasím";
  "Odmietnuť";
  "Časový limit v minútach";
  "Automatické ukončenie prichádzajúcich relácií, keď je používateľ nečinný";
  "Pripojenie zlyhalo z dôvodu nečinnosti";
  "Kontrola aktualizácií softvéru pri spustení";
  "Aktualizujte RustDesk Server Pro na verziu {} alebo novšiu!";
  "Nepodarilo sa obnoviť skupinu";
  "Filtrovať podľa križovatky";
  "Odstrániť tapetu počas prichádzajúcich relácií";
  "Test";
  "Obrazovka je odpojená, prepnite na prvú obrazovku.";
  "Žiadne obrazovky";
  "Otvoriť v novom okne";
  "Zobraziť obrazovky ako jednotlivé okná";
  "Použiť všetky moje obrazovky pre vzdialenú reláciu";
  "Na vašom zariadení je povolený SELinux, čo môže brániť správnemu spusteniu RustDesku ako spravovanej strany.";
  "Zmeniť pohľad";
  "Veľké dlaždice";
  "Malé dlaždice";
  "Zoznam";
  "Virtuálny displej";
  "Odpojiť všetky";
  "Skutočná farba (4:4:4)";
  "Povoliť blokovanie vstupu od používateľa";
  with_quotes ["Môžete zadať ID, priamu IP adresu alebo doménu s portom (<doména>:<port>).\nAk chcete získať prístup k zariadeniu na inom serveri, doplňte adresu servera (<id>@<adresa_servera>?key=<hodnota_kľúča>), napríklad,\n9123456234@192.168.16.1:21117?key=5Qbwsde3unUcJBtrx9ZkvUmwFNoExHzpryHuPUdqlWM=.\nAk chcete získať prístup k zariadeniu na verejnom serveri, zadajte "; "<id>@public"; ", kľúč nie je potrebný pre verejný server."];
  "Režim 1";
  "Režim 2";
  "Vstup do režimu súkromia";
  "Ukončiť režim súkromia";
  "Ovládač nepriameho zobrazenia nie je podporovaný. Vyžaduje sa systém Windows 10, verzia 2004 alebo novšia.";
  "Vstupný zdroj 1";
  "Vstupný zdroj 2";
  "Vymeniť kláves ovládania a príkazu";
  "Prehodiť ľavé a pravé tlačidlo myši";
  "2FA kód";
  "Viac";
  "Povoliť dvojfaktorové overenie";
  "Prosím, nastavte si svoj autentifikátor. Na svojom telefóne alebo počítači môžete použiť autentifikačnú aplikáciu, ako je Authy, Microsoft alebo Google Authenticator.\n\nNaskenujte QR kód pomocou svojej aplikácie a zadajte kód, ktorý aplikácia zobrazí, aby ste povolili dvojfaktorové overenie.";
  "Kód sa nepodarilo overiť. Skontrolujte, či sú nastavenia kódu a miestneho času správne";
  "Dvojfaktorové overenie";
  "Overovací kód e-mailu musí mať 6 znakov.";
  "Kód 2FA musí obsahovať 6 číslic.";
  "Našlo sa viacero relácií systému Windows";
  "Vyberte reláciu, ku ktorej sa chcete pripojiť";
  "Poháňané aplikáciou RustDesk";
  "Toto je prispôsobené vydanie.\nMôžete sa pripojiť k iným zariadeniam, ale iné zariadenia sa k vášmu zariadeniu pripojiť nemôžu.";
  "Toto prispôsobené vydanie sa dodáva s prednastaveným heslom. Každý, kto pozná toto heslo, môže získať plnú kontrolu nad vaším zariadením. Ak ste to neočakávali, okamžite softvér odinštalujte.";
  "Bezpečnostné upozornenie";
  "Môj adresár";
  "Osobné";
  "Vlastník";
  "Nastaviť zdieľané heslo";
  "Existovať v";
  "len na čítanie";
  "Režim čítania/zápisu";
  "Úplná kontrola";
  "Vyššie uvedené polia sú zdieľané a viditeľné pre ostatných.";
  "Každý";
  "Viac na webovej konzole";
  "Povoliť pripojenie iba vtedy, ak je otvorené okno aplikácie RustDesk";
  "Žiadne fyzické displeje, nie je potrebné používať režim ochrany osobných údajov.";
  "Nasledovať vzdialený kurzor";
  "Nasledovať vzdialené zameranie okna";
  "Predvolený protokol a port sú Socks5 a 1080";
  "Nenašlo sa žiadne vstupné zvukové zariadenie.";
  "Prichádzajúci";
  "Odchádzajúci";
  "Vyčistiť výber obrazovky Wayland";
  "Po vymazaní výberu obrazovky môžete znova vybrať obrazovku, ktorú chcete zdieľať.";
  "Určite ste si istý, že chcete vyčistiť výber obrazovky Wayland?";
  "Bola prijatá nová žiadosť o hlasový hovor. Ak ho prijmete, zvuk sa prepne na hlasovú komunikáciu.";
  "Použiť vykresľovanie textúr, aby boli obrázky hladšie.";
  "Použiť vykresľovanie textúr";
  "Plávajúce okno";
  "Pomáha udržiavať službu RustDesk na pozadí";
  "Ponechať obrazovku zapnutú";
  "Nikdy";
  "Počas kontrolovaného";
  "Počas služby je v prevádzke";
  "Snímanie obrazovky pomocou DirectX";
  "Naspäť";
  "Aplikácie";
  "Zvýšiť hlasitosť";
  "Znížiť hlasitosť";
  "Napájanie";
  "Telegram bot";
  "Ak túto funkciu povolíte, kód 2FA môžete dostať od svojho bota. Môže fungovať aj ako upozornenie na pripojenie.";
  with_quotes ["1, Otvorte chat s @BotFather.\n2, Odošlite príkaz "; "/newbot"; ". Po dokončení tohto kroku dostanete token.\n3, Spustite chat s novo vytvoreným botom. Odošlite správu začínajúcu lomítkom vpred ("; "/"; "), napríklad "; "/hello"; ", aby ste ho aktivovali.\n"];
  "Ste si istí, že chcete zrušiť službu 2FA?";
  "Ste si istí, že chcete zrušiť bota Telegramu?";
  "O RustDesk";
  "Odoslať stlačenia klávesov zo schránky";
  "Skontrolujte svoje sieťové pripojenie a potom kliknite na tlačidlo Opakovať.";
  "Odomknutie pomocou PIN kódu";
  "Vyžaduje aspoň {} znakov";
  "Nesprávny PIN kód";
  "Nastavenie PIN kódu";
  "Povolenie dôveryhodných zariadení";
  "Správa dôveryhodných zariadení";
  "Platforma";
  "Zostávajúce dni";
  "Vynechanie overovania 2FA na dôveryhodných zariadeniach";
  "Rodičovský adresár";
  "Obnoviť";
  "Nesprávny názov súboru";
  "";
  "";
  "";
  "";
  "";
  "";
  "";
  "";
  "";
  "";
  "";
  ""].
(** [LANGS.sl] *)
Definition lang_sl : jsmap string string := texts [
  "Stanje";
  "Vaše namizje";
  "S spodnjim IDjem in geslom omogočite oddaljeni nadzor vašega računalnika";
  "Geslo";
  "Pripravljen";
  "Povezava vzpostavljena";
  "Vzpostavljanje povezave z omrežjem RustDesk...";
  "Omogoči storitev";
  "Zaženi storitev";
  "Storitev se izvaja";
  "Storitev se ne izvaja";
  "Ni pripravljeno, preverite vašo mrežno povezavo";
  "Nadzoruj oddaljeno namizje";
  "Prenos datotek";
  "Poveži";
  "Nedavne seje";
  "Adresar";
  "Potrditev";
  "TCP tuneliranje";
  "Odstrani";
  "Osveži naključno geslo";
  "Nastavi lastno geslo";
  "Omogoči tipkovnico in miško";
  "Omogoči odložišče";
  "Omogoči prenos datotek";
  "Omogoči TCP tuneliranje";
  "Omogoči seznam dovoljenih IPjev";
  "Strežnik za ID/posredovanje";
  "Uvozi nastavitve strežnika";
  "Izvozi nastavitve strežnika";
  "Nastavitve strežnika uspešno uvožene";
  "Nastavitve strežnika uspešno izvožene";
  "Neveljavne nastavitve strežnika";
  "Odložišče je prazno";
  "Ustavi storitev";
  "Spremeni ID";
  "Vaš nov ID";
  "dolžina od %min% do %max%";
  "začne se s črko";
  "dovoljeni znaki";
  "Dovoljeni znaki so a-z, A-Z (brez šumnikov), 0-9, - (dash) in _. Prvi znak mora biti črka, dolžina od 6 do 16 znakov.";
  "Spletna stran";
  "O programu";
  "";
  "Izjava o zasebnosti";
  "Izklopi zvok";
  "Datum graditve";
  "Različica";
  "Začetek";
  "Avdio vhod";
  "Izboljšave";
  "Strojni kodek";
  "Prilagodljiva bitna hitrost";
  "ID strežnik";
  "Posredniški strežnik";
  "API strežnik";
  "mora se začeti s http:// ali https://";
  "Neveljaven IP";
  "Neveljavna oblika";
  "Strežnik še ne podpira";
  "Ni na voljo";
  "Prepogosto";
  "Prekliči";
  "Izpusti";
  "Zapri";
  "Ponovi";
  "V redu";
  "Potrebno je geslo";
  "Vnesite vaše geslo";
  "Zapomni si geslo";
  "Napačno geslo";
  "Želite znova vnesti?";
  "Napaka pri povezavi";
  "Napaka";
  "Povezava prekinjena";
  "Povezovanje...";
  "Vzpostavljanje povezave, prosim počakajte.";
  "Poizkusite čez 1 minuto";
  "Napaka pri prijavi";
  "Uspešno";
  "Povezava vzpostavljena, čakam na sliko...";
  "Ime";
  "Vrsta";
  "Čas spremembe";
  "Velikost";
  "Prikaži skrite datoteke";
  "Prejmi";
  "Pošlji";
  "Osveži datoteko";
  "Lokalno";
  "Oddaljeno";
  "Oddaljeni računalnik";
  "Lokalni računalnik";
  "Potrdi izbris";
  "Izbriši";
  "Lastnosti";
  "Večkratna izbira";
  "Izberi vse";
  "Počisti vse";
  "Prazen imenik";
  "Imenik ni prazen";
  "Ali res želite izbrisati to datoteko?";
  "Ali res želite izbrisati to prazno mapo?";
  "Ali res želite datoteko iz mape?";
  "Naredi to za vse";
  "Tega dejanja ni mogoče razveljaviti!";
  "Brisanje";
  "datoteke";
  "Čakanje";
  "Opravljeno";
  "Hitrost";
  "Kakovost slike po meri";
  "Zasebni način";
  "Onemogoči uporabnikov vnos";
  "Omogoči uporabnikov vnos";
  "Prilagodi okno";
  "Originalno";
  "Skrči";
  "Raztegni";
  "Drsenje z drsniki";
  "Samodejno drsenje";
  "Visoka kakovost slike";
  "Uravnoteženo";
  "Optimiraj odzivni čas";
  "Po meri";
  "Prikaži oddaljeni kazalec miške";
  "Prikaži nadzornik kakovosti";
  "Onemogoči odložišče";
  "Zakleni ob koncu seje";
  "Vstavi Ctrl + Alt + Del";
  "Zakleni oddaljeni računalnik";
  "Osveži";
  "ID ne obstaja";
  "Ni se bilo mogoče povezati na povezovalni strežnik";
  "Poizkusite znova kasneje";
  "Oddaljeno namizje ni dosegljivo";
  "Ključ ni ustrezen";
  "Časovna omejitev";
  "Ni se bilo mogoče povezati na posredniški strežnik";
  "Ni se bilo mogoče povezati preko povezovalnega strežnika";
  "Ni se bilo mogoče povezati preko posredniškega strežnika";
  "Ni bilo mogoče vzpostaviti neposredne povezave z oddaljenim namizjem";
  "Nastavi geslo";
  "Geslo operacijskega sistema";
  "Zaradi nadzora uporabniškega računa, RustDesk v nekaterih primerih na oddaljeni strani ne deluje pravilno. Temu se lahko izognete z namestitvijo.";
  "Klikni za nadgradnjo";
  "Klikni za prenos";
  "Klikni za posodobitev";
  "Nastavi";
  "Za oddaljeni nadzor namizja morate RustDesku dodeliti pravico za dostopnost";
  "Za oddaljeni dostop do namizja morate RustDesku dodeliti pravico snemanje zaslona";
  "Nameščanje...";
  "Namesti";
  "Namestitev";
  "Pot za namestitev";
  "Ustvari bližnjice v meniju Začetek";
  "Ustvari ikono na namizju";
  "Z namestitvijo se strinjate z licenčno pogodbo";
  "Sprejmi in namesti";
  "Licenčna pogodba za končnega uporabnika";
  "Ustvarjanje ...";
  "Vaša namestitev je starejša";
  "Med uporabo tunela ne zaprite tega okna";
  "Poslušam ...";
  "Oddaljeni gostitelj";
  "Oddaljena vrata";
  "Dejanje";
  "Dodaj";
  "Lokalna vrata";
  "Lokalni naslov";
  "Spremeni lokalna vrata";
  "Za hitrejšo povezavo uporabite lasten strežnik";
  "Prekratek, mora biti najmanj 6 znakov.";
  "Potrditev ni enaka.";
  "Dovoljenja";
  "Sprejmi";
  "Opusti";
  "Prekini povezavo";
  "Dovoli kopiranje in lepljenje datotek";
  "Povezan";
  "Neposredna šifrirana povezava";
  "Posredovana šifrirana povezava";
  "Neposredna nešifrirana povezava";
  "Posredovana šifrirana povezava";
  "Vnesi oddaljeni ID";
  "Vnesi geslo";
  "Prijavljanje...";
  "Omogoči deljenje RDP seje";
  "Samodejna prijava";
  "Omogoči neposredni dostop preko IP naslova";
  "Preimenuj";
  "Prazno";
  "Ustvari bližnjico na namizju";
  "Spremeni pot";
  "Ustvari mapo";
  "Vnesite ime mape";
  "Popravi";
  "Opozorilo";
  "Prijava z Waylandom ni podprta";
  "Potreben je ponovni zagon";
  "Nepodprt zaslonski strežnik";
  "Pričakovan X11";
  "Vrata";
  "Nastavitve";
  "Uporabniško ime";
  "Neveljavno geslo";
  "Povezavo ročno prekinil odjemalec";
  "Omogoči oddaljeno spreminjanje nastavitev";
  "Zaženi brez namestitve";
  "Poveži preko posrednika";
  "Vedno poveži preko posrednika";
  "Dostop je možen samo iz dovoljenih IPjev";
  "Prijavi";
  "Preveri";
  "Zapomni si me";
  "Zaupaj tej napravi";
  "Koda za preverjanje";
  "Kodo za preverjanje prejmete na registrirani e-poštni naslov";
  "Odjavi";
  "Oznake";
  "Išči ID";
  "Naslovi ločeni z vejico, podpičjem, presledkom ali novo vrstico";
  "Dodaj ID";
  "Dodaj oznako";
  "Odznači vse oznake";
  "Omrežna napaka";
  "Up. ime izpuščeno";
  "Geslo izpuščeno";
  "Napačne poverilnice";
  "Koda za preverjanje je napačna, ali pa je potekla";
  "Uredi oznako";
  "Pozabi geslo";
  "Priljubljene";
  "Dodaj med priljubljene";
  "Odstrani iz priljubljenih";
  "Prazno";
  "Napačno ime mape";
  "Socks5 posredniški strežnik";
  "Socks5/Http(s) posredniški strežnik";
  "Odkriti";
  "Za samodejni zagon ob vklopu računalnika je potrebno dodati sistemsko storitev";
  "Oddaljeni ID";
  "Prilepi";
  "Prilepi tu?";
  "Ali želite prekiniti povezavo?";
  "Prenesi novo različico";
  "Način dotika";
  "Način miške";
  "Tap z enim prstom";
  "Leva tipka miške";
  "Dolg tap z enim prstom";
  "Tap z dvema prstoma";
  "Desna tipka miške";
  "Premik z enim prstom";
  "Dvojni tap in premik";
  "Vlečenje z miško";
  "Triprstno navpično";
  "Miškino kolesce";
  "Premik z dvema prstoma";
  "Premik platna";
  "Povečava s približevanjem prstov";
  "Povečava platna";
  "Ponastavi platno";
  "Ni pravic za prenos datotek";
  "Opomba";
  "Povezava";
  "Deli zaslon";
  "Pogovor";
  "Skupaj";
  "elementi";
  "Izbrano";
  "Zajem zaslona";
  "Nadzor vnosa";
  "Zajem zvoka";
  "Datotečna povezava";
  "Zaslonska povezava";
  "Ali sprejmete?";
  "Odpri sistemske nastavitve";
  "Kako pridobiti dovoljenje za vnos na Androidu?";
  "Za oddaljeni nadzor vaše naprave Android, je potrebno RustDesku dodeliti pravico za dostopnost.";
  "Pojdite v sistemske nastavitve, poiščite »Nameščene storitve« in vklopite storitev »RustDesk Input«.";
  "Prejeta je bila zahteva za oddaljeni nadzor vaše naprave.";
  "Z vklopom zajema zaslona se bo samodejno zagnala storitev, ki omogoča da oddaljene naprave pošljejo zahtevo za povezavo na vašo napravo.";
  "Z zaustavitvijo storitve bodo samodejno prekinjene vse oddaljene povezave.";
  "Trenutna različica Androida ne omogoča zajema zvoka. Za zajem zvoka nadgradite na Android 10 ali novejši.";
  "Tapnite [Zaženi storitev] ali pa omogočite pravico [Zajemanje zaslona] za zagon storitve deljenja zaslona.";
  "Pravic za že vzpostavljene povezave ne morete spremeniti brez ponovne vzpostavitve povezave.";
  "Račun";
  "Prepiši";
  "Datoteka obstaja, izpusti ali prepiši?";
  "Izhod";
  "Pomoč";
  "Ni uspelo";
  "Uspelo";
  "Vklopljen je zasebni način, izhod";
  "Ni podprto";
  "Odjemalec zavrnil";
  "Namestite vključke";
  "Odjemalec se je zaprl";
  "Ni bilo mogoče izklopiti";
  "Izklopljeno";
  "Jezik";
  "Ohrani RustDeskovo storitev v ozadju";
  "Prezri optimizacije baterije";
  "Če želite izklopiti to možnost, pojdite v nastavitve aplikacije RustDesk, poiščite »Baterija« in izklopite »Neomejeno«";
  "Zaženi ob vklopu";
  "Zaženi storitev deljenja zaslona ob vklopu, zahteva posebna dovoljenja";
  "Povezava ni dovoljena";
  "Stari način";
  "Način preslikave";
  "Način prevajanja";
  "Uporabi stalno geslo";
  "Uporabi obe gesli";
  "Nastavi stalno geslo";
  "Omogoči oddaljeni ponovni zagon";
  "Znova zaženi oddaljeno napravo";
  "Ali ste prepričani, da želite znova zagnati";
  "Ponovni zagon oddaljene naprave";
  "Oddaljena naprava se znova zaganja, prosim zaprite to sporočilo in se čez nekaj časa povežite s stalnim geslom.";
  "Kopirano";
  "Izhod iz celozaslonskega načina";
  "Celozaslonski način";
  "Dejanja za prenosne naprave";
  "Izberite zaslon";
  "Dejanja za nadzor";
  "Nastavitve zaslona";
  "Razmerje";
  "Kakovost slike";
  "Način drsenja";
  "Prikaži orodno vrstico";
  "Skrij orodno vrstico";
  "Neposredna povezava";
  "Posredovana povezava";
  "Zavarovana povezava";
  "Nezavarovana povezava";
  "Originalna velikost";
  "Prilagojena velikost";
  "Splošno";
  "Varnost";
  "Tema";
  "Temna tema";
  "Svetla tema";
  "Temna";
  "Svetla";
  "Sistemska";
  "Omogoči strojno pospeševanje";
  "Odkleni varnostne nastavitve";
  "Omogoči zvok";
  "Odkleni mrežne nastavitve";
  "Strežnik";
  "Neposredni dostop preko IPja";
  "Posredniški strežnik";
  "Uveljavi";
  "Odklopi vse naprave?";
  "Počisti";
  "Vhodna naprava za zvok";
  "Omogoči seznam dovoljenih IP naslovov";
  "Mreža";
  "Pripni orodno vrstico";
  "Odpni orodno vrstico";
  "Snemanje";
  "Imenik";
  "Samodejno snemaj vhodne seje";
  "Samodejno snemaj odhodne seje";
  "Spremeni";
  "Začni snemanje seje";
  "Ustavi snemanje seje";
  "Omogoči snemanje seje";
  "Omogoči odkrivanje lokalnega omrežja";
  "Onemogoči odkrivanje lokalnega omrežja";
  "Napiši spoorčilo";
  "Poziv";
  "Počakajte za potrditev nadzora uporabniškega računa";
  "Trenutno aktivno okno na oddaljenem računalniku zahteva višje pravice za upravljanje. Oddaljenega uporabnika lahko prosite, da okno minimizira, ali pa kliknite gumb za povzdig pravic v oknu za upravljanje povezave. Če se želite izogniti temu problemu, na oddaljenem računalniku RustDesk namestite.";
  "Brez povezave";
  "Drugo";
  "Zahtevajte potrditev pred zapiranjem večih zavihkov";
  "Nastavitve tipkovnice";
  "Poln dostop";
  "Deljenje zaslona";
  "Wayland zahteva Ubuntu 21.04 ali novejši";
  "Zahtevana je novejša različica Waylanda. Posodobite vašo distribucijo ali pa uporabite X11.";
  "Pogled";
  "Izberite zaslon za delitev (na oddaljeni strani).";
  "Prikaži RustDesk";
  "Ta računalnik";
  "ali";
  "Nadaljuj z";
  "Povzdig pravic";
  "Prilagodi velikost miškinega kazalca";
  "Sprejmi seje z geslom";
  "Sprejmi seje s potrditvijo";
  "Sprejmi seje z geslom ali potrditvijo";
  "Počakajte, da oddaljeni računalnik sprejme povezavo...";
  "Enkratno geslo";
  "Uporabi enkratno geslo";
  "Dolžina enkratnega gesla";
  "Zahtevaj dostop do svoje naprave";
  "Skrij okno za upravljanje povezave";
  "Dovoli skrivanje samo pri sprejemanju sej z geslom";
  "Podpora za Wayland je v preizkusni fazi. Uporabite X11, če rabite nespremljan dostop.";
  "Desno-kliknite za izbiro zavihkov";
  "Izpuščeno";
  "Dodaj v adresar";
  "Skupina";
  "Iskanje";
  "Ročno zaprto iz spletne konzole";
  "Lokalna vrsta tipkovnice";
  "Izberite lokalno vrsto tipkovnice";
  "Če na Linuxu uporabljate Nvidino grafično kartico in se oddaljeno okno zapre takoj po vzpostavitvi povezave, lahko pomaga preklop na odprtokodni gonilnik Nouveau in uporaba programskega upodabljanja. Potreben je ponovni zagon programa.";
  "Vedno uporabi programsko upodabljanje";
  "RustDesk potrebuje pravico »Nadzor vnosa« za nadzor oddaljenega namizja s tipkovnico.";
  "RustDesk potrebuje pravico »Snemanje zvoka« za zajemanje zvoka.";
  "Lahko tudi zaprosite za dvig pravic, če je kdo na oddaljeni strani.";
  "Čakaj";
  "Napaka pri povzdigovanju";
  "Vprašaj oddaljenega uporabnika za prijavo";
  "Izberite to, če ima oddaljeni uporabnik skrbniške pravice";
  "Vnesite poverilnice za skrbnika";
  "Oddaljeni uporabnik mora klikniti »Da« v oknu za nadzor uporabniškega računa.";
  "Zahtevaj povzdig pravic";
  "Počakajte na potrditev oddaljenega uporabnika v oknu za nadzor uporabniškega računa.";
  "Povzdig pravic uspešen";
  "velike črke";
  "male črke";
  "številke";
  "posebni znaki";
  "dolžina>=8";
  "Šibko";
  "Srednje";
  "Močno";
  "Zamenjaj strani";
  "Potrdite, če želite deliti vaše namizje";
  "Zaslon";
  "Privzeti način prikaza";
  "Privzeti način drsenja";
  "Privzeta kakovost slike";
  "Privzeti kodek";
  "Bitna hitrost";
  "Sličice/sekundo";
  "Samodejno";
  "Ostale privzete možnosti";
  "Glasovni klic";
  "Besedilni klepet";
  "Prekini glasovni klic";
  "Morda neposredna povezava ni možna; lahko se poizkusite povezati preko posrednika. Če želite uporabiti posrednika ob prvem poizkusu vzpotavljanja povezave, lahko na konec IDja dodate »/r«, ali pa izberete možnost »Vedno poveži preko posrednika« v kartici nedavnih sej, če le-ta obstja.";
  "Ponovna povezava";
  "Kodek";
  "Ločljivost";
  "Trenutno ni prenosov";
  "Nastavi dolžino enkratnega gesla";
  "Nastavitve za RDP";
  "Razvrsti po";
  "Nova povezava";
  "Obnovi";
  "Minimiziraj";
  "Maksimiziraj";
  "Vaša naprava";
  "Oops, ni nedavnih sej.\nPripravite novo.";
  "Nimate še priljubljenih partnerjev?\nVzpostavite povezavo, in jo dodajte med priljubljene.";
  "Nismo našli še nobenih partnerjev.";
  "Vaš adresar je prazen.";
  "npr. admin";
  "Prazno uporabniško ime";
  "Prazno geslo";
  "Jaz";
  "Datoteka je enaka partnerjevi";
  "Prikaži monitorje v orodni vrstici";
  "Način prikazovanja";
  "Prijaviti se morate v oddaljeni Linux račun in omogočiti namizno sejo X.";
  "Preveri geslo za RustDesk";
  "Zapomni si ta račun";
  "Ta račun se uporabi za prijavo v oddaljeni sistem in omogči namizno sejo v napravi brez monitorja.";
  "Račun operacijskega sistema";
  "Prijavljen je že drug uporabnik";
  "Prekini";
  "Xorg ni najden";
  "Namestite Xorg";
  "Namizno okolje ni na voljo";
  "Namestite GNOME";
  "Povzdig pravic ni potreben";
  "Sistemski zvok";
  "Privzeto";
  "Nova RDP povezava";
  "Prstni odtis";
  "Kopiraj prstni odtis";
  "ni prstnega odtisa";
  "Izberite partnerja";
  "Izberite partnerje";
  "Vključki";
  "Odstrani";
  "Posodobi";
  "Omogoči";
  "Onemogoči";
  "Možnosti";
  "Izvirna ločljivost";
  "Prilagodi lokalni ločljivosti";
  "Ločljivost po meri";
  "Strni orodno vrstico";
  "Sprejmi in povzdigni pravice";
  "Sprejmi povezavo in preko nadzora uporabniškera računa povišaj pravice";
  "Časovna omejitev pri kopiranju je potekla";
  "Dohodna povezava";
  "Odhodna povezava";
  "Izhod";
  "Odpri";
  "Ali ste prepričani, da se želite odjaviti?";
  "Storitev";
  "Zaženi";
  "Ustavi";
  "Dosegli ste največje dovoljeno število upravljanih naprav.";
  "Sinhroniziraj z nedavnimi sejami";
  "Uredi oznake";
  "Odpri povezavo na novem zavihku";
  "Premakni zavihek v novo okno";
  "Ne more biti prazno";
  "Že obstaja";
  "Spremeni geslo";
  "Osveži geslo";
  "ID";
  "Mrežni pogled";
  "Pogled seznama";
  "Izberi";
  "Preklopi oznake";
  "Adresarja ni bilo mogoče osvežiti";
  "Adresarja ni bilo mogoče poslati na strežnik";
  "Naprave, ki so bile prisotne v nedavnih sejah bodo sinhronizirane z adresarjem.";
  "Spremeni barvo";
  "Osnovne barve";
  "Barve HSV";
  "Namestitev uspešna";
  "Namestitev ni uspela";
  "Obrni smer drsenja miškinega kolesca";
  "{} sej";
  "Lahko gre za prevaro!";
  "V primeru, da vas je nekdo, ki ga ne poznate in mu zaupate prosil, da uporabite RustDesk, prekinite klic in program zaprite.";
  "RustDesk omogoča popoln nadzor nad vašim računalnikom in telefonom, in se lahko uporabi za krajo vašega denarja ali pa zasebnih podatkov.";
  "Ne prikaži znova";
  "Strinjam se";
  "Zavrni";
  "Časovna omejitev v minutah";
  "Samodejno prekini neaktivne seje";
  "Povezava je bila prekinjena zaradi neaktivnosti";
  "Preveri za posodobitve ob zagonu";
  "Prosimo, nadgradite RustDesk Server Pro na različico {} ali novejšo.";
  "Osveževanje skupine ni uspelo";
  "Filtriraj po preseku";
  "Odstrani sliko ozadja ob dohodnih povezavah";
  "Test";
  "Zaslon je bil odklopljen, preklop na primarni zaslon.";
  "Ni zaslonov";
  "Odpri v novem oknu";
  "Prikaži zaslone kot ločena okna";
  "Uporabi vse zaslone za oddaljeno sejo";
  "Na vaši napravi je omogčen SELinux, kar lahko povzroča težave pri oddaljenem nadzoru";
  "Spremeni pogled";
  "Velike ploščice";
  "Majhne ploščice";
  "Seznam";
  "Navidezni zaslon";
  "Odklopi vse";
  "Popolne barve (4:4:4)";
  "Omogoči blokiranje vnosa";
  "Vnesete lahko ID, neposredni IP naslov, ali pa domeno in vrata (<domena>:<vrata>)\nČe želite dostopati do naprave na drugem strežniku, pripnite naslov strežnika (<id>@<naslov_strežnika>?key=<ključ>), npr. 9123456234@192.168.16.1:21117?key=5Qbwsde3unUcJBtrx9ZkvUmwFNoExHzpryHuPUdqlWM=.\nČe želite dostopati do naprave na javnem strežniku, vnesite »<id>@public«; ključ za javni strežnik ni potreben.\nČe želite vsiliti povezavo preko posrednika, pripnite »/r« na konec IDja, npr. »9123456234/r«.";
  "Način 1";
  "Način 2";
  "Vstopi v zasebni način";
  "Izstopi iz zasebnega načina";
  "Posredni gonilnik ni podprt. Za uporabo rabite Windows 10 2004 ali novejšo različico.";
  "Vir vnosa 1";
  "Vir vnosa 2";
  "Zamenjaj tipki Ctrl-Command";
  "Zamenjaj levo in desno tipko miške";
  "Koda za dvostopenjsko preverjanje";
  "Več";
  "Omogoči dvostopenjsko preverjanje";
  "Pripravite vaš TOTP avtentikator. Uporabite lahko programe kot so Authy, Microsoft ali Google Authenticator, na vašem telefonu ali računalniku.\n\nZa omogočanje dvostopenjskega preverjanja, skenirajte QR kodo in vnesite kodo, ki jo prikaže aplikacija.";
  "Kode ni bilo mogoče preveriti. Preverite, da je koda pravilna, in da je nastavitev ure točna.";
  "Dvostopenjsko preverjanje";
  "E-poštna koda za preverjanje mora imeti 6 znakov.";
  "Koda za dvostopenjsko preverjanje mora imeti 6 znakov.";
  "Najdenih je bilo več Windows sej";
  "Izberite sejo, v katero se želite povezati";
  "Uporablja tehnologijo RustDesk";
  "To je prilagojena različica.\nLahko se povežete na druge naprave, druge naprave pa se k vam ne morejo povezati.";
  "Ta prilagojena različica ima prednastavljeno geslo. Kdorkoli, ki pozna to geslo, lahko prevzame popoln nadzor nad vašim računalnikom. Če tega niste pričakovali, takoj odstranite program.";
  "Varnostno opozorilo";
  "Moj adresar";
  "Osebni";
  "Lastnik";
  "Nastavi deljeno geslo";
  "Obstaja v";
  "Samo za branje";
  "Branje/pisanje";
  "Popoln nadzor";
  "Zgornja polja so deljena, in vidna vsem";
  "Vsi";
  "Več na spletni konzoli";
  "Dovoli povezavo samo če je okno RustDeska odprto";
  "Ni fizičnih zaslonov, zasebni način ni potreben";
  "Sledi oddaljenemu kazalcu";
  "Sledi oddaljenemu fokusu";
  "Privzeti protokol je Socks5 na vratih 1080";
  "Ni bilo možno najti vhodne zvočne naprave";
  "Dohodno";
  "Odhodno";
  "Počisti izbiro Wayland zaslona";
  "Po čiščenju izbire Wayland zaslona lahko ponovno izberete zaslon za delitev";
  "Ali res želite počistiti izbiro Wayland zaslona?";
  "Prejeli ste prošnjo za nov glasovni klic. Če sprejmete, bo zvok preklopljen na glasovno komunikacijo.";
  "Uporabi upodabljanje tekstur, za gladkejše slike. Izklopite, če imate težave pri upodabljanju.";
  "Uporabi upodabljanje tekstur";
  "Plavajoče okno";
  "Pomaga pri RustDesk storitvi v ozadju";
  "Ohranite zaslon prižgan";
  "Nikoli";
  "Med nadzorom";
  "Med vklopljeno storitvijo";
  "Uporabi DirectX za zajem zaslona";
  "Nazaj";
  "Aplikacije";
  "Glasneje";
  "Tišje";
  "Vklop/izklop";
  "Telegram bot";
  "Če vklopite to možnost, lahko dobite kodo za dvostopenjsko preverjanje od bota. Lahko se uporabi tudi za obveščanje o povezavi.";
  "1. Odprite pogovor z @BotFather.\n2. Pošljite ukaz »/newbot« in prejeli boste žeton.\n3. Začnite pogovor z na novo narejenim botom. Pošljite sporočilo z desno poševnico (/) kot npr. »/hello« za aktivacijo.";
  "Ali ste prepričani, da želite ukiniti dvostopenjsko preverjanje?";
  "Ali ste prepričani, da želite ukiniti Telegram bota?";
  "O RustDesku";
  "Vtipkaj vsebino odložišča";
  "Preverite vašo mrežno povezavo, nato kliknite Ponovi.";
  "Odkleni s PINom";
  "Potrebuje vsaj {} znakov.";
  "Napačen PIN";
  "Nastavi PIN";
  "Omogoči zaupanja vredne naprave";
  "Upravljaj zaupanja vredne naprave";
  "Platforma";
  "Preostane dni";
  "Na zaupanja vrednih napravah ni potrebno dvostopenjsko preverjanje";
  "Nadrejena mapa";
  "Nadaljuj";
  "Neveljavno ime datoteke";
  "Enosmerni prenos datotek je omogočen na nadzorovani strani";
  "Potrebno je preverjanje pristnosti";
  "Preverjanje pristnosti";
  "Vnesete lahko ID iz istega strežnika, neposredni dostop preko IP naslova v spletnem odjemalcu ni podprt.\nČe želite dostopati do naprave na drugem strežniku, pripnite naslov strežnika (<id>@<naslov_strežnika>?key=<ključ>), npr. 9123456234@192.168.16.1:21117?key=5Qbwsde3unUcJBtrx9ZkvUmwFNoExHzpryHuPUdqlWM=.\nČe želite dostopati do naprave na javnem strežniku, vnesite »<id>@public«; ključ za javni strežnik ni potreben.";
  "Prenos";
  "Naloži mapo";
  "Naloži datoteke";
  "Odložišče je usklajeno";
  "Osveži odjemalčevo odložišče";
  "Neoznačeno";
  "Na voljo je nova različica {}";
  ""].
(** [LANGS.sq] *)
Definition lang_sq : jsmap string string := texts [
  "Statusi";
  "Desktopi juaj";
  "Desktopi juaj mund të aksesohet me këtë ID dhe fjalëkalim.";
  "fjalëkalimi";
  "Gati";
  "I themeluar";
  "statusi_i_lidhjes";
  "Aktivizo Shërbimin";
  "Nis Shërbimin";
  "Shërbimi është duke funksionuar";
  "Shërbimi nuk është duke funksionuar";
  "Jo gati.Ju lutem kontolloni lidhjen tuaj.";
  "Kontrolli i desktopit në distancë";
  "Transfero dosje";
  "Lidh";
  "Sessioni i fundit";
  "Libër adresash";
  "Konfirmimi";
  "TCP tunel";
  "Hiqni";
  "Rifreskoni fjalëkalimin e rastësishëm";
  "Vendosni fjalëkalimin tuaj";
  "Aktivizoni Tastierën/Mousin";
  "Aktivizo";
  "Aktivizoni transferimin e skedarëve";
  "Aktivizoni TCP tunneling";
  "";
  "ID/server rele";
  "Konfigurimi i severit të importit";
  "Konfigurimi i severit të eksportit";
  "Konfigurimi i severit të importit i suksesshëm";
  "Konfigurimi i severit të eksprotit i suksesshëm";
  "Konfigurim i pavlefshëm i serverit";
  "Clipboard është bosh";
  "Ndaloni shërbimin";
  "Ndryshoni ID";
  "";
  "";
  "";
  "";
  "Lejohen Vetëm karkteret a-z,A-Z,0-9, - (dash) dhe _(nënvizimet).Shkronja e parë duhet të jetë a-z, A-Z. Gjatesia midis 6 dhe 16.";
  "Faqe ëebi";
  "Rreth";
  "";
  "";
  "Pa zë";
  "";
  "";
  "";
  "Inputi zërit";
  "Përmirësimet";
  "Kodeku Harduerik";
  "Shpejtësia adaptive e biteve";
  "ID e serverit";
  "Serveri rele";
  "Serveri API";
  "Duhet të fillojë me http:// ose https://";
  "IP e pavlefshme";
  "Format i pavlefshëm";
  "Nuk suportohet akoma nga severi";
  "I padisponueshëm";
  "Shumë i përdorur";
  "Anullo";
  "Kalo";
  "Mbyll";
  "Riprovo";
  "OK";
  "Fjalëkalimi i detyrueshëm";
  "Ju lutem vendosni fjalëkalimin tuaj";
  "Mbani mend fjalëkalimin";
  "Fjalëkalim i gabuar";
  "Dëshironi të vendosni përsëri";
  "Gabim në lidhje";
  "Gabim";
  "Riseto nga peer";
  "Duke u lidhur";
  "Lidhja në progres. Ju lutem prisni";
  "Ju lutemi provoni 1 minut më vonë";
  "Gabim në login";
  "E suksesshme";
  "E lidhur , prisni për imazhin...";
  "Emri";
  "Shkruaj";
  "E modifikuar";
  "Madhesia";
  "Shfaq skedarët e fshehur";
  "Merr";
  "Dërgo";
  "Rifreskoni skedarët";
  "Lokal";
  "Në distancë";
  "Kompjuter në distancë";
  "Kompjuter Lokal";
  "Konfirmoni fshirjen";
  "Fshij";
  "Karakteristikat";
  "Shumë përzgjedhje";
  "Selektoni të gjitha";
  "Ç'selektoni të gjitha";
  "Direktori boshe";
  "Jo një direktori boshe";
  "Jeni të sigurtë që doni të fshini këtë skedarë";
  "Jeni të sigurtë që dëshironi të fshini këtë direktori boshe";
  "Jeni të sigurtë që dëshironi te fshini skedarin e kësaj direktorie";
  "Bëjeni këtë për të gjitha konfliktet";
  "Kjo është e pakthyeshme";
  "Duke i fshirë";
  "Skedarë";
  "Në pritje";
  "Përfunduar";
  "Shpejtësia";
  "Cilësi e personalizuar imazhi";
  "Modaliteti i Privatësisë";
  "Blloko inputin e përdorusesit";
  "Zhblloko inputin e përdorusesit";
  "Rregulloni dritaren";
  "Origjinal";
  "Shkurtim";
  "Shtrirje";
  "Shiriti i lëvizjes";
  "Levizje automatikisht";
  "Cilësi e mirë imazhi";
  "E balancuar";
  "Optimizo kohën e reagimit";
  "Personalizuar";
  "Shfaq kursorin në distancë";
  "Shaq cilësinë e monitorit";
  "Ç'aktivizo clipboard";
  "Kyç pasi sesioni të përfundoj";
  "Fut Ctrl + Alt + Del";
  "Fut bllokimin";
  "Rifresko";
  "ID nuk ekziston";
  "Dështoj të lidhet me serverin e takimit";
  "Ju lutemi provoni më vonë";
  "Desktopi në distancë nuk është në linjë";
  "Mospërputhje kryesore";
  "Koha mbaroi";
  "Lidhja me serverin transmetues dështoi";
  "Lidhja nëpërmjet serverit të takimit dështoi";
  "Lidhja nëpërmjet serverit të transmetimit dështoi";
  "Lidhja direkte me desktopin në distancë dështoi";
  "Vendosni fjalëkalimin";
  "OS fjalëkalim";
  "Për shkak të UAC, RustDesk nuk mund të punoj sic duhet si nje remote në distancë në disa raste. Për të shamngur UAC, ju lutem klikoni butonin më poshtë për të instaluar RustDesk në sistem.";
  "Klikoni për përmirësim";
  "Klikoni për tu shkarkuar";
  "Klikoni për përditësim";
  "Koniguro";
  with_quotes ["Për të kontrolluar Desktopin tuaj nga distanca, duhet të jepni leje RustDesk "; "Aksesueshmëri"; "."];
  with_quotes ["Për të aksesuar Desktopin tuaj nga distanca, duhet ti jepni lejet RustDesk "; "Regjistrimin e ekranit"; "."];
  "Duke u instaluar";
  "Instalo";
  "Instalimi";
  "Rruga instalimit";
  "Krijoni shortcuts për menunë e fillimit";
  "Krijoni ikonën e desktopit";
  "Duke filluar instalimin, ju pranoni marrëveshjen e licencës";
  "Pranoni dhe instaloni";
  "Marrëeveshja e licencës së perdoruesit fundor";
  "Duke gjeneruar";
  "Instalimi juaj është version i ulët";
  "Mos e mbyll këtë dritare ndërsa jeni duke  përdorur tunelin";
  "Duke dëgjuar";
  "Host në distancë";
  "Port në distancë";
  "Veprim";
  "Shto";
  "Portë Lokale";
  "Adresë Lokale";
  "Ndryshoni portën lokale";
  "Për lidhje më të shpejtë, ju lutemi konfiguroni serverin tuaj";
  "Shumë e shkurtër , nevojiten të paktën 6 karaktere";
  "Konfirmimi nuk është identik";
  "Leje";
  "Prano";
  "Hiq";
  "Shkëput";
  "Lejoni kopjimin dhe pastimin e skedarëve";
  "I lidhur";
  "Lidhje direkte dhe enkriptuar";
  "Lidhje transmetuese dhe e enkriptuar";
  "Lidhje direkte dhe jo e enkriptuar";
  "Lidhje transmetuese dhe jo e enkriptuar";
  "Vendosni ID në distancë";
  "Vendosni fjalëkalimin tuaj";
  "Duke u loguar";
  "Aktivizoni shpërndarjen e sesionit RDP";
  "Hyrje automatike";
  "Aktivizoni aksesimin e IP direkte";
  "Riemërto";
  "Hapërsirë";
  "Krijoni shortcut desktop";
  "Ndrysho rrugëzimin";
  "Krijoni një folder";
  "Ju lutem vendosni emrin e folderit";
  "Rregulloni ate";
  "Dicka po shkon keq";
  "Hyrja në ekran duke përdorur Wayland muk suportohet";
  "Kërkohet rinisja";
  "Nuk supurtohet severi ekranit";
  "Pritet x11";
  "Port";
  "Cilësimet";
  "Emri i përdoruesit";
  "Port e pavlefshme";
  "E mbyllur manualisht nga peer";
  "Aktivizoni modifikimin e konfigurimit në distancë";
  "Ekzekuto pa instaluar";
  "";
  "Gjithmonë lidheni me transmetues";
  "Vetëm IP e listës së bardhë mund të më aksesoj.";
  "Hyrje";
  "";
  "";
  "";
  "";
  "";
  "Dalje";
  "Tage";
  "Kerko ID";
  "Të ndara me presje, pikëpresje, hapësira ose rresht të ri";
  "Shto ID";
  "Shto Tag";
  "Hiq selektimin e te gjithë tageve";
  "Gabim në rrjet";
  "Mungon përdorusesi";
  "Mungon fjalëkalimi";
  "Kredinciale të gabuara";
  "";
  "Edito tagun";
  "Fjalëkalim jo i kujtueshëm";
  "Te preferuarat";
  "Shto te të preferuarat";
  "Hiq nga të preferuarat";
  "Bosh";
  "Emri i dosjes i pavlefshëm";
  "Socks5 Proxy";
  "Socks5/Http(s) Proxy";
  "I pambuluar";
  "Për të nisur në boot, duhet të instaloni shërbimin e sistemit";
  "ID në distancë";
  "Ngjit";
  "Ngjit këtu";
  "Jeni të sigurtë të mbyllni lidhjen";
  "Shkarko versionin e ri";
  "Metoda me prekje";
  "Modaliteti mausit";
  "Prekja Një gisht";
  "Mausi majt";
  "Prekja nje-gjate";
  "Prekja dy-gishta";
  "Mausi i djathtë";
  "Lëvizja një-gisht";
  "Prekja dhe lëvizja e dyfishtë";
  "Zhvendosja e mausit";
  "Tre-Gishta vertikalisht";
  "Rrota mausit";
  "Lëvizja Dy-Gishta";
  "Lëvizja Canvas";
  "Prekni për të zmadhuar";
  "Zmadhimi Canavas";
  "Riseto canvas";
  "Nuk ka leje për transferimin e dosjesve";
  "Shënime";
  "Lidhja";
  "Ndaj ekranin";
  "Biseda";
  "Total";
  "artikuj";
  "E zgjedhur";
  "Kapja e ekranit";
  "Kontrollo inputin";
  "Kapja e zërit";
  "Lidhja e skedarëve";
  "Lidhja e ekranit";
  "E pranoni";
  "Hapni cilësimet e sistemit";
  "Si të merrni leje e inputit të Android";
  "Në mënyrë që një pajisje në distancë të kontrollojë pajisjen tuaj Android nëpërmjet mausit ose prekjes, duhet të lejoni RustDesk të përdorë shërbimin.";
  "Ju lutemi shkoni në faqen tjetër të cilësimeve të sistemit, gjeni dhe shtypni [Shërbimet e Instaluara], aktivizoni shërbimin [RustDesk Input]";
  "Është marrë një kërkesë e re kontrolli, e cila dëshiron të kontrollojë pajisjen tuaj aktuale.";
  with_quotes ["Aktivizimi i "; "Regjistrimi i ekranit"; " do të nisë automatikisht shërbimin, duke lejuar pajisjet e tjera të kërkojnë një lidhje me pajisjen tuaj."];
  "Mbyllja e shërbimit do të mbyllë automatikisht të gjitha lidhjet e vendosura.";
  "Versioni aktual i Android nuk mbështet regjistrimin e audios, ju lutemi përmirësoni në Android 10 ose më të lartë.";
  "";
  "";
  "Llogaria";
  "Përshkruaj";
  "Ky skedar ekziston , tejkalo ose përshkruaj këtë skedarë";
  "Hiq";
  "Ndihmë";
  "Deshtoi";
  "Sukses";
  "Dikush ka ndezur menyrën e privatësisë , largohu";
  "Nuk mbështetet";
  "Peer mohohet";
  "Ju lutemi instaloni shtojcat";
  "Dalje peer";
  "Dështoi të fiket";
  "I fikur";
  "Gjuha";
  "Mbaje shërbimin e sfondit të RustDesk";
  "Injoro optimizimet e baterisë";
  "Nëse dëshironi ta çaktivizoni këtë veçori, ju lutemi shkoni te faqja tjetër e cilësimeve të aplikacionit RustDesk, gjeni dhe shtypni [Batteri], hiqni zgjedhjen [Te pakufizuara]";
  "";
  "";
  "Lidhja nuk lejohet";
  "Modaliteti i trashëgimisë";
  "Modaliteti i hartës";
  "Modaliteti i përkthimit";
  "Përdor fjalëkalim të përhershëm";
  "Përdor të dy fjalëkalimet";
  "Vendos fjalëkalimin e përhershëm";
  "Aktivizo rinisjen në distancë";
  "Rinisni pajisjen në distancë";
  "A jeni i sigurt që dëshironi të rinisni";
  "Rinisja e pajisjes në distancë";
  "Pajisja në distancë po riniset, ju lutemi mbyllni këtë kuti mesazhi dhe lidheni përsëri me fjalëkalim të përhershëm pas një kohe";
  "Kopjuar";
  "Dil nga ekrani i plotë";
  "Ekran i plotë";
  "Veprimet celulare";
  "Zgjidh Monitor";
  "Veprimet e kontrollit";
  "Cilësimet e ekranit";
  "Raport";
  "Cilësia e imazhit";
  "Stili i lëvizjes";
  "";
  "";
  "Lidhja e drejtpërdrejtë";
  "Lidhja rele";
  "Lidhje e sigurt";
  "Lidhje e pasigurt";
  "Shkalla origjinale";
  " E përsjhtatshme në shkallë";
  "Gjeneral";
  "Siguria";
  "Theme";
  "Theme e errët";
  "";
  "E errët";
  "Drita";
  "Ndiq sistemin";
  "Aktivizo kodekun e harduerit";
  "Zhbllokoni cilësimet e sigurisë";
  "Aktivizo audio";
  "Zhbllokoni cilësimet e rrjetit";
  "Server";
  "Qasje e drejtpërdrejtë IP";
  "Proxy";
  "Apliko";
  "Shkyç të gjitha pajisjet?";
  "Pastro";
  "Pajisja e hyrjes audio";
  "Përdor listën e bardhë IP";
  "Rrjeti";
  "";
  "";
  "Regjistrimi";
  "Direktoria";
  "Regjistro automatikisht seancat hyrëse";
  "";
  "Ndrysho";
  "Fillo regjistrimin e sesionit";
  "Ndalo regjistrimin e sesionit";
  "Aktivizo seancën e regjistrimit";
  "Aktivizo zbulimin e LAN";
  "Mohoni zbulimin e LAN";
  "Shkruani një mesazh";
  "Prompt";
  "Ju lutemi prisni për konfirmimin e UAC...";
  "Përkohësisht është e pamundur për të përdorur mausin dhe tastierën, për shkak se dritarja aktuale e desktopit në distancë kërkon privilegj më të lartë për të vepruar,ju mund t'i kërkoni përdoruesit në distancë të minimizojë dritaren aktuale. Për të shmangur këtë problem, rekomandohet të instaloni softuerin në pajisjen në distancë ose ekzekutoni atë me privilegje administratori.";
  "Shkyçur";
  "Tjetër";
  "Konfirmo përpara se të mbyllësh shumë skeda";
  "Cilësimet e tastierës";
  "Qasje e plotë";
  "Ndarja e ekranit";
  "Wayland kërkon Ubuntu 21.04 ose version më të lartë";
  "Wayland kërkon një version më të lartë të shpërndarjes linux. Ju lutemi provoni desktopin X11 ose ndryshoni OS.";
  "JumpLink";
  "Ju lutemi zgjidhni ekranin që do të ndahet (Vepro në anën e kolegëve";
  "Shfaq RustDesk";
  "Ky PC";
  "ose";
  "Vazhdo me";
  "Ngritja";
  "Zmadho kursorin";
  "Prano sesionin nëpërmjet fjalëkalimit";
  "Prano sesionet nëpërmjet klikimit";
  "Prano sesionet nëpërmjet të dyjave";
  "Ju lutem prisni që ana në distancë të pranoj kërkësen tuaj";
  "Fjalëkalim Një-herë";
  "Përdorni fjalëkalim Një-herë";
  "Gjatësia e fjalëkalimit një herë";
  "Kërko akses në pajisjejn tuaj";
  "Fshih dritaren e menaxhimit të lidhjes";
  "Kjo është e mundur vetëm nëse aksesi bëhet nëpërmjet një fjalëkalimi të përhershëm";
  "";
  "";
  "";
  "";
  "";
  "";
  "";
  "";
  "";
  "";
  "";
  "";
  "";
  "";
  "";
  "";
  "";
  "";
  "";
  "";
  "";
  "";
  "";
  "";
  "";
  "";
  "";
  "";
  "";
  "";
  "";
  "";
  "";
  "";
  "";
  "";
  "";
  "";
  "";
  "";
  "";
  "";
  "";
  "";
  "";
  "";
  "";
  "";
  "";
  "";
  "";
  "";
  "";
  "";
  "";
  "";
  "";
  "";
  "";
  "";
  "";
  "";
  "";
  "";
  "";
  "";
  "";
  "";
  "";
  "";
  "";
  "";
  "";
  "";
  "";
  "";
  "";
  "";
  "";
  "";
  "";
  "";
  "";
  "";
  "";
  "";
  "";
  "";
  "";
  "";
  "";
  "";
  "";
  "";
  "";
  "";
  "";
  "";
  "";
  "";
  "";
  "";
  "";
  "";
  "";
  "";
  "";
  "";
  "";
  "";
  "";
  "";
  "";
  "";
  "";
  "";
  "";
  "";
  "";
  "";
  "";
  "";
  "";
  "";
  "";
  "";
  "";
  "";
  "";
  "";
  "";
  "";
  "";
  "";
  "";
  "";
  "";
  "";
  "";
  "";
  "";
  "";
  "";
  "";
  "";
  "";
  "";
  "";
  "";
  "";
  "";
  "";
  "";
  "";
  "";
  "";
  "";
  "";
  "";
  "";
  "";
  "";
  "";
  "";
  "";
  "";
  "";
  "";
  "";
  "";
  "";
  "";
  "";
  "";
  "";
  "";
  "";
  "";
  "";
  "";
  "";
  "";
  "";
  "";
  "";
  "";
  "";
  "";
  "";
  "";
  "";
  "";
  "";
  "";
  "";
  "";
  "";
  "";
  "";
  "";
  "";
  "";
  "";
  "";
  "";
  "";
  "";
  "";
  "";
  "";
  "";
  "";
  "";
  "";
  "";
  "";
  "";
  "";
  "";
  "";
  "";
  "";
  "";
  "";
  "";
  "";
  "";
  "";
  "";
  "";
  "";
  "";
  "";
  "";
  "";
  "";
  "";
  "";
  "";
  "";
  "";
  "";
  "";
  "";
  "";
  "";
  "";
  "";
  "";
  "";
  "";
  "";
  "";
  "";
  "";
  ""].
(** [LANGS.sr] *)
Definition lang_sr : jsmap string string := texts [
  "Status";
  "Vaša radna površina";
  "Vašoj radnoj površini se može pristupiti ovim ID i lozinkom.";
  "Lozinka";
  "Spremno";
  "Uspostavljeno";
  "Spajanje na RustDesk mrežu...";
  "Dozvoli servis";
  "Pokreni servis";
  "Servis je pokrenut";
  "Servis nije pokrenut";
  "Nije spremno. Proverite konekciju.";
  "Upravljanje udaljenom radnom površinom";
  "Prenos fajla";
  "Spajanje";
  "Poslednje sesije";
  "Adresar";
  "Potvrda";
  "TCP tunel";
  "Ukloni";
  "Osveži slučajnu lozinku";
  "Postavi lozinku";
  "Dozvoli tastaturu/miša";
  "Dozvoli clipboard";
  "Dozvoli prenos fajlova";
  "Dozvoli TCP tunel";
  "IP pouzdana lista";
  "ID/Posredni server";
  "Import server konfiguracije";
  "Eksport server konfiguracije";
  "Import server konfiguracije uspešan";
  "Eksport server konfiguracije uspešan";
  "Pogrešna konfiguracija servera";
  "Clipboard je prazan";
  "Stopiraj servis";
  "Promeni ID";
  "";
  "";
  "";
  "";
  "Dozvoljeni su samo a-z, A-Z, 0-9, - (dash) i _ (donja crta) znakovi. Prvi znak mora biti slovo a-z, A-Z. Dužina je od 6 do 16.";
  "Web sajt";
  "O programu";
  "";
  "";
  "Utišaj";
  "";
  "";
  "";
  "Audio ulaz";
  "Proširenja";
  "Hardverski kodek";
  "Prilagodljiva gustina podataka";
  "ID server";
  "Posredni server";
  "API server";
  "mora početi sa http:// ili https://";
  "Nevažeća IP";
  "Pogrešan format";
  "Server još uvek ne podržava";
  "Nije dostupno";
  "Previše često";
  "Otkaži";
  "Preskoči";
  "Zatvori";
  "Ponovi";
  "Ok";
  "Potrebna lozinka";
  "Molimo unesite svoju lozinku";
  "Zapamti lozinku";
  "Pogrešna lozinka";
  "Želite li da unesete ponovo?";
  "Greška u konekciji";
  "Greška";
  "Prekinuto sa druge strane";
  "Povezivanje...";
  "Povezivanje u toku. Molimo sačekajte.";
  "Pokušajte minut kasnije";
  "Greška u prijavljivanju";
  "Uspešno";
  "Spojeno, sačekajte sliku...";
  "Ime";
  "Tip";
  "Izmenjeno";
  "Veličina";
  "Prikaži skrivene datoteke";
  "Prijem";
  "Slanje";
  "Osveži datoteku";
  "Lokalno";
  "Udaljeno";
  "Udaljeni računar";
  "Lokalni računar";
  "Potvrdite brisanje";
  "Brisanje";
  "Osobine";
  "Višestruko selektovanje";
  "Selektuj sve";
  "Deselektuj sve";
  "Prazan direktorijum";
  "Nije prazan direktorijum";
  "Da li ste sigurni da želite da obrišete ovu datoteku?";
  "Da li ste sigurni da želite da obrišete ovaj prazan direktorijum?";
  "Da li ste sigurni da želite da obrišete datoteku ovog direktorijuma?";
  "Uradi ovo za sve konflikte";
  "Ovo je nepovratno";
  "Brisanje";
  "datoteke";
  "Čekanje";
  "Završeno";
  "Brzina";
  "Korisnički kvalitet slike";
  "Mod privatnosti";
  "Blokiraj korisnikov unos";
  "Odblokiraj korisnikov unos";
  "Podesi prozor";
  "Original";
  "Skupi";
  "Raširi";
  "Skrol linija";
  "Auto skrol";
  "Dobar kvalitet slike";
  "Balansirano";
  "Optimizuj vreme reakcije";
  "Korisnički";
  "Prikaži udaljeni kursor";
  "Prikaži monitor kvaliteta";
  "Zabrani clipboard";
  "Zaključaj po završetku sesije";
  "Ctrl + Alt + Del umetanje";
  "Zaključaj umetanje";
  "Osveži";
  "ID ne postoji";
  "Greška u spajanju na server za povezivanje";
  "Molimo pokušajte kasnije";
  "Udaljeni ekran je isključen";
  "Pogrešan ključ";
  "Isteklo vreme";
  "Greška u spajanju na posredni server";
  "Greška u spajanju preko servera za povezivanje";
  "Greška u spajanju preko posrednog servera";
  "Greška u direktnom spajanju na udaljenu radnu površinu";
  "Postavi lozinku";
  "OS lozinka";
  "Zbog UAC RustDesk ne može raditi pravilno u nekim slučajevima. Da biste prevazišli UAC, kliknite taster ispod da instalirate RustDesk na sistem.";
  "Klik za nadogradnju";
  "Klik za preuzimanje";
  "Klik za ažuriranje";
  "Konfigurisanje";
  with_quotes ["Da biste daljinski kontrolisali radnu površinu, RustDesk-u treba da dodelite "; "Accessibility"; " prava."];
  with_quotes ["Da biste daljinski pristupili radnoj površini, RustDesk-u treba da dodelite "; "Screen Recording"; " prava."];
  "Instaliranje...";
  "Instaliraj";
  "Instalacija";
  "Putanja za instalaciju";
  "Kreiraj prečice u meniju";
  "Kreiraj ikonicu na radnoj površini";
  "Pokretanjem instalacije prihvatate ugovor o licenciranju.";
  "Prihvati i instaliraj";
  "Ugovor sa krajnjim korisnikom";
  "Generisanje...";
  "Vaša instalacija je niže verzije";
  "Ne zatvarajte ovaj prozor dok koristite tunel";
  "Na slušanju...";
  "Adresa udaljenog uređaja";
  "Udaljeni port";
  "Akcija";
  "Dodaj";
  "Lokalni port";
  "Lokalna adresa";
  "Promeni lokalni port";
  "Za brže spajanje, molimo da koristite svoj server";
  "Prekratko, najmanje 6 znakova.";
  "Potvrda nije identična";
  "Dozvole";
  "Prihvati";
  "Odbaci";
  "Raskini konekciju";
  "Dozvoli kopiranje i lepljenje fajlova";
  "Spojeno";
  "Direktna i kriptovana konekcija";
  "Posredna i kriptovana konekcija";
  "Direktna i nekriptovana konekcija";
  "Posredna i nekriptovana konekcija";
  "Unesite ID udaljenog uređaja";
  "Unesite svoju lozinku";
  "Prijava...";
  "Dozvoli deljenje RDP sesije";
  with_quotes ["Auto prijavljivanje (Važeće samo ako ste postavili "; "Lock after session end"; ")"];
  "Dozvoli direktan pristup preko IP";
  "Preimenuj";
  "Prazno";
  "Kreiraj prečicu na radnoj površini";
  "Promeni putanju";
  "Kreiraj direktorijum";
  "Unesite ime direktorijuma";
  "Popravi ga";
  "Upozorenje";
  "Ekran za prijavu koji koristi Wayland nije podržan";
  "Potreban je restart";
  "Nepodržan server za prikaz";
  "x11 očekivan";
  "Port";
  "Postavke";
  "Korisničko ime";
  "Pogrešan port";
  "Klijent ručno raskinuo konekciju";
  "Dozvoli modifikaciju udaljene konfiguracije";
  "Pokreni bez instalacije";
  "";
  "Uvek se spoj preko posrednika";
  "Samo dozvoljene IP mi mogu pristupiti";
  "Prijava";
  "";
  "";
  "";
  "";
  "";
  "Odjava";
  "Oznake";
  "Traži ID";
  "Odvojeno zarezima, tačka zarezima, praznim mestima ili novim redovima";
  "Dodaj ID";
  "Dodaj oznaku";
  "Odselektuj sve oznake";
  "Greška na mreži";
  "Korisničko ime promašeno";
  "Lozinka promašena";
  "Pogrešno korisničko ime ili lozinka";
  "";
  "Izmeni oznaku";
  "Zaboravi lozinku";
  "Favoriti";
  "Dodaj u favorite";
  "Izbaci iz favorita";
  "Prazno";
  "Pogrešno ime direktorijuma";
  "Socks5 proksi";
  "Socks5/Http(s) proksi";
  "Otkriveno";
  "Za pokretanje pri startu sistema, treba da instalirate sistemski servis.";
  "Udaljeni ID";
  "Nalepi";
  "Nalepi ovde?";
  "Da li ste sigurni da želite da zatvorite konekciju?";
  "Preuzmi novu verziju";
  "Mod na dodir";
  "Miš mod";
  "Pritisak jednim prstom";
  "Levi miš";
  "Dugi pritisak";
  "Pritisak sa dva prsta";
  "Desni miš";
  "Pomeranje jednim prstom";
  "Dupli pritisak i pomeranje";
  "Prevlačenje mišem";
  "Sa tri prsta vertikalno";
  "Točkić miša";
  "Pomeranje sa dva prsta";
  "Pomeranje pozadine";
  "Stisnite za zumiranje";
  "Zumiranje pozadine";
  "Resetuj pozadinu";
  "Nemate pravo prenosa datoteka";
  "Primedba";
  "Konekcija";
  "Podeli ekran";
  "Dopisivanje";
  "Ukupno";
  "stavki";
  "Izabrano";
  "Snimanje ekrana";
  "Kontrola unosa";
  "Snimanje zvuka";
  "Spajanje preko datoteke";
  "Podeli konekciju";
  "Prihvatate?";
  "Postavke otvorenog sistema";
  "Kako dobiti pristup za Android unos?";
  with_quotes ["Da bi daljinski uređaj kontrolisao vaš Android uređaj preko miša ili na dodir, treba da dozvolite RustDesk-u da koristi "; "Accessibility"; " servis."];
  "Molimo pređite na sledeću stranicu sistemskih podešavanja, pronađite i unesite [Installed Services], uključite [RustDesk Input] servis.";
  "Primljen je novi zahtev za upravljanje, koji želi da upravlja ovim vašim uređajem.";
  with_quotes ["Uključenje "; "Screen Capture"; " automatski će pokrenuti servis, dozvoljavajući drugim uređajima da zahtevaju spajanje na vaš uređaj."];
  "Zatvaranje servisa automatski će zatvoriti sve uspostavljene konekcije.";
  "Tekuća Android verzija ne podržava audio snimanje, molimo nadogradite na Android 10 ili veći.";
  "";
  "";
  "Nalog";
  "Prepiši preko";
  "Ova datoteka postoji, preskoči ili prepiši preko?";
  "Izlaz";
  "Pomoć";
  "Greška";
  "Uspešno";
  "Neko je uključio mod privatnosti, izlaz.";
  "Nepodržano";
  "Klijent zabranjen";
  "Molimo instalirajte dodatke";
  "Klijent izašao";
  "Greška kod isključenja";
  "Isključeno";
  "Jezik";
  "Zadrži RustDesk kao pozadinski servis";
  "Zanemari optimizacije baterije";
  "Ako želite da onemogućite ovu funkciju, molimo idite na sledeću stranicu za podešavanje RustDesk aplikacije, pronađite i uđite u [Battery], isključite [Unrestricted]";
  "";
  "";
  "Konekcija nije dozvoljena";
  "Zastareli mod";
  "Mod mapiranja";
  "Mod prevođenja";
  "Koristi trajnu lozinku";
  "Koristi obe lozinke";
  "Postavi trajnu lozinku";
  "Omogući daljinsko restartovanje";
  "Restartuj daljinski uređaj";
  "Da li ste sigurni da želite restart";
  "Restartovanje daljinskog uređaja";
  "Udaljeni uređaj se restartuje, molimo zatvorite ovu poruku i ponovo se kasnije povežite trajnom šifrom";
  "Kopirano";
  "Napusti mod celog ekrana";
  "Mod celog ekrana";
  "Mobilne akcije";
  "Izbor monitora";
  "Upravljačke akcije";
  "Postavke prikaza";
  "Odnos";
  "Kvalitet slike";
  "Stil skrolovanja";
  "";
  "";
  "Direktna konekcija";
  "Posredna konekcija";
  "Bezbedna konekcija";
  "Nebezbedna konekcija";
  "Skaliraj original";
  "Adaptivno skaliranje";
  "Uopšteno";
  "Bezbednost";
  "Tema";
  "Tamna tema";
  "";
  "Tamno";
  "Svetlo";
  "Prema sistemu";
  "Omogući hardverski kodek";
  "Otključaj postavke bezbednosti";
  "Dozvoli zvuk";
  "Otključaj postavke mreže";
  "Server";
  "Direktan IP pristup";
  "Proksi";
  "Primeni";
  "Otkači sve uređaju?";
  "Obriši";
  "Uređaj za ulaz zvuka";
  "Koristi listu pouzdanih IP";
  "Mreža";
  "";
  "";
  "Snimanje";
  "Direktorijum";
  "Automatski snimaj dolazne sesije";
  "";
  "Promeni";
  "Započni snimanje sesije";
  "Zaustavi snimanje sesije";
  "Omogući snimanje sesije";
  "Omogući LAN otkrivanje";
  "Zabrani LAN otkrivanje";
  "Napiši poruku";
  "Prompt";
  "Molimo sačekajte UAC potvrdu...";
  "Tekući prozor udaljene radne površine zahteva veću privilegiju za rad, tako da trenutno nije moguće koristiti miša i tastaturu. Možete zahtevati od udaljenog korisnika da minimizira aktivni prozor, ili kliknuti na taster za podizanje privilegija u prozoru za rad sa konekcijom. Da biste prevazišli ovaj problem, preporučljivo je da instalirate softver na udaljeni uređaj.";
  "Odspojeno";
  "Ostalo";
  "Potvrda pre zatvaranja više kartica";
  "Postavke tastature";
  "Pun pristup";
  "Deljenje ekrana";
  "Wayland zahteva Ubuntu 21.04 ili veću verziju";
  "Wayland zahteva veću verziju Linux distribucije. Molimo pokušajte X11 ili promenite OS.";
  "Vidi";
  "Molimo izaberite ekran koji će biti podeljen (Za rad na klijent strani)";
  "Prikazi RustDesk";
  "Ovaj PC";
  "ili";
  "Nastavi sa";
  "Izdigni";
  "Zumiraj kursor";
  "Prihvati sesije preko lozinke";
  "Prihvati sesije preko klika";
  "Prihvati sesije preko oboje";
  "Molimo sačekajte da udaljena strana prihvati vaš zahtev za sesijom...";
  "Jednokratna lozinka";
  "Koristi jednokratnu lozinku";
  "Dužina jednokratne lozinke";
  "Zahtev za pristup vašem uređaju";
  "Sakrij prozor za uređivanje konekcije";
  "Skrivanje dozvoljeno samo prihvatanjem sesije preko lozinke i korišćenjem trajne lozinke";
  "Wayland eksperiment savet";
  "Desni klik za izbor kartica";
  "";
  "Dodaj u adresar";
  "Grupa";
  "Pretraga";
  "";
  "";
  "";
  "";
  "";
  "";
  "";
  "";
  "";
  "";
  "";
  "";
  "";
  "";
  "";
  "";
  "";
  "";
  "";
  "";
  "";
  "";
  "";
  "";
  "";
  "";
  "";
  "";
  "";
  "";
  "";
  "";
  "";
  "";
  "";
  "";
  "";
  "";
  "";
  "";
  "";
  "";
  "";
  "";
  "";
  "";
  "";
  "";
  "";
  "";
  "";
  "";
  "";
  "";
  "";
  "";
  "";
  "";
  "";
  "";
  "";
  "";
  "";
  "";
  "";
  "";
  "";
  "";
  "";
  "";
  "";
  "";
  "";
  "";
  "";
  "";
  "";
  "";
  "";
  "";
  "";
  "";
  "";
  "";
  "";
  "";
  "";
  "";
  "";
  "";
  "";
  "";
  "";
  "";
  "";
  "";
  "";
  "";
  "";
  "";
  "";
  "";
  "";
  "";
  "";
  "";
  "";
  "";
  "";
  "";
  "";
  "";
  "";
  "";
  "";
  "";
  "";
  "";
  "";
  "";
  "";
  "";
  "";
  "";
  "";
  "";
  "";
  "";
  "";
  "";
  "";
  "";
  "";
  "";
  "";
  "";
  "";
  "";
  "";
  "";
  "";
  "";
  "";
  "";
  "";
  "";
  "";
  "";
  "";
  "";
  "";
  "";
  "";
  "";
  "";
  "";
  "";
  "";
  "";
  "";
  "";
  "";
  "";
  "";
  "";
  "";
  "";
  "";
  "";
  "";
  "";
  "";
  "";
  "";
  "";
  "";
  "";
  "";
  "";
  "";
  "";
  "";
  "";
  "";
  "";
  "";
  "";
  "";
  "";
  "";
  "";
  "";
  "";
  "";
  "";
  "";
  "";
  "";
  "";
  "";
  "";
  "";
  "";
  "";
  "";
  "";
  "";
  "";
  "";
  "";
  "";
  "";
  "";
  "";
  "";
  "";
  "";
  "";
  "";
  "";
  "";
  "";
  "";
  "";
  "";
  "";
  "";
  "";
  "";
  "";
  "";
  "";
  "";
  "";
  "";
  "";
  "";
  "";
  "";
  "";
  "";
  "";
  "";
  "";
  "";
  "";
  "";
  "";
  "";
  ""].
(** [LANGS.sv] *)
Definition lang_sv : jsmap string string := texts [
  "Status";
  "Ditt skrivbord";
  "Ditt skrivbord kan delas med hjälp av detta ID och lösenord";
  "Lösenord";
  "Redo";
  "Uppkopplad";
  "Ansluter till RustDesk...";
  "Sätt på tjänsten";
  "Starta tjänsten";
  "Tjänsten är startad";
  "Tjänsten är ej startad";
  "Ej redo. Kontrollera din nätverksanslutning";
  "Kontrollera fjärrskrivbord";
  "Överför fil";
  "Anslut";
  "Dina senaste sessioner";
  "Addressbok";
  "Bekräftelse";
  "TCP Tunnel";
  "Ta bort";
  "Skapa nytt slumpmässigt lösenord";
  "Skapa ditt eget lösenord";
  "Tillåt tangentbord/mus";
  "Tillåt urklipp";
  "Tillåt filöverföring";
  "Tillåt TCP tunnel";
  "IP Vitlisting";
  "ID/Relay Server";
  "Importera Server config";
  "Exportera Server config";
  "Importering lyckades";
  "Exportering lyckades";
  "Ogiltig server config";
  "Urklippet är tomt";
  "Avsluta tjänsten";
  "Byt ID";
  "Ditt nya ID";
  "";
  "";
  "";
  "Bara a-z, A-Z, 0-9, - (dash) och _ (understräck) tecken är tillåtna. Den första bokstaven måste vara a-z, A-Z. Längd mellan 6 och 16.";
  "Hemsida";
  "Om";
  "";
  "";
  "Tyst";
  "";
  "";
  "";
  "Ljud input";
  "Förbättringar";
  "Hårdvarucodec";
  "Adaptiv Bitrate";
  "ID server";
  "Relay Server";
  "API Server";
  "måste börja med http:// eller https://";
  "Ogiltig IP";
  "Ogiltigt format";
  "Stöds ännu inte av servern";
  "Ej tillgänglig";
  "För ofta";
  "Avbryt";
  "Hoppa över";
  "Stäng";
  "Försök igen";
  "OK";
  "Lösenord krävs";
  "Skriv in ditt lösenord";
  "Kom ihåg lösenord";
  "Fel lösenord";
  "Vill du skriva in igen?";
  "Anslutningsfel";
  "Ett fel uppstod";
  "Återställt av klienten";
  "Ansluter...";
  "Anslutning pågår. Var god vänta.";
  "Försök igen om en minut";
  "Inloggningsfel";
  "Lyckat";
  "Ansluten, väntar på bild...";
  "Namn";
  "Typ";
  "Modifierad";
  "Storlek";
  "Visa gömda filer";
  "Ta emot";
  "Skicka";
  "Uppdatera fil";
  "Lokalt";
  "Fjärr";
  "Fjärrdator";
  "Lokal dator";
  "Bekräfta borttagning";
  "Ta bort";
  "Egenskaper";
  "Välj flera";
  "Markera alla ";
  "Avmärkera alla";
  "Tom mapp";
  "Inte en tom mapp";
  "Är du säker att du vill ta bort filen?";
  "Är du säker att du vill ta bort den tomma mappen?";
  "Är du säker att du vill ta bort filen ur mappen?";
  "Gör för alla konflikter";
  "Detta går ej att ångra!";
  "Tar bort";
  "filer";
  "Väntnar";
  "Klar";
  "Hastighet";
  "Anpassad bildkvalitet";
  "Säkerhetsläge";
  "Blokera användarinput";
  "Tillåt användarinput";
  "Ändra fönster";
  "Orginal";
  "Krymp";
  "Sträck ut";
  "Scrollbar";
  "ScrollAuto";
  "Bra bildkvalitet";
  "Balanserad";
  "Optimera reaktionstid";
  "Anpassat";
  "Visa fjärrmus";
  "Visa bildkvalitet";
  "Stäng av urklipp";
  "Lås efter sessionens slut";
  "Insert Ctrl + Alt + Del";
  "Insert lås";
  "Uppdatera";
  "Detta ID existerar inte";
  "Lyckades inte ansluta till randezvous servern";
  "Försök igen senare";
  "Fjärrskrivbordet är offline";
  "Nyckeln stämmer inte";
  "Timeout";
  "Lyckades inte ansluta till relay servern";
  "Lyckades inte ansluta via randezvous servern";
  "Lyckades inte ansluta via relay servern";
  "Lyckades inte ansluta direkt till fjärrskrivbordet";
  "Välj lösenord";
  "OS lösenord";
  "På grund av UAC, kan inte RustDesk fungera ordentligt på klientsidan. För att undvika problem med UAC, tryck på knappen nedan för att installera RustDesk på systemet.";
  "Klicka för att nedgradera";
  "Klicka för att ladda ner";
  "Klicka för att uppdatera";
  "Konfigurera";
  with_quotes ["För att kontrollera din dator på distans måste du ge RustDesk "; "Tillgänglighets"; " rättigheter."];
  with_quotes ["För att kontrollera din dator på distans måste du ge RustDesk "; "Skärminspelnings"; " rättigheter."];
  "Installerar...";
  "Installera";
  "Installation";
  "Installationsplats";
  "Skapa startmeny genväg";
  "Skapa ikon på skrivbordet";
  "Genom att starta installationen accepterar du licensavtalet.";
  "Acceptera och installera";
  "End-user license agreement";
  "Genererar...";
  "Ditt skrivbord har en lägre version";
  "Stäng inde detta fönster när du använder tunneln";
  "Lyssnar...";
  "Fjärrhost";
  "Fjärrport";
  "Handling";
  "Lägg till";
  "Lokal port";
  "Lokal adress";
  "Ändra lokal port";
  "Sätt upp din egen server för en snabbare anslutning";
  "För kort, minst 6 tecken.";
  "Bekräftelsen stämmer inte.";
  "Rättigheter";
  "Acceptera";
  "Tillåt inte";
  "Koppla ifrån";
  "Tillåt kopiering av filer";
  "Ansluten";
  "Direkt och krypterad anslutning";
  "Vidarebefodrad och krypterad anslutning";
  "Direkt och okrypterad anslutning";
  "Vidarebefodrad och okrypterad anslutning";
  "Skriv in fjärr-ID";
  "Skriv in ditt lösenord";
  "Loggar in...";
  "Tillåt RDP sessionsdelning";
  with_quotes ["Auto Login (Bara giltigt om du sätter "; "Lås efter sessionens slut"; ")"];
  "Tillåt direkt IP anslutningar";
  "Byt namn";
  "Mellanslag";
  "Skapa skrivbordsgenväg";
  "Ändra plats";
  "Skapa mapp";
  "Skriv in namnet på mappen";
  "Fixa det";
  "Varning";
  "Login med Wayland stöds inte";
  "Omstart krävs";
  "Displayserver stöds inte ";
  "x11 förväntades";
  "Port";
  "Inställningar";
  "Användarnamn";
  "Ogiltig port";
  "Stängd manuellt av klienten";
  "Tillåt fjärrkonfigurering";
  "Kör utan installation";
  "Anslut via relay";
  "Anslut alltid via relay";
  "Bara vitlistade IPs kan koppla upp till mig";
  "Logga in";
  "Verifiera";
  "Kom ihåg mig";
  "Lita på denna enhet";
  "Verifikationskod";
  "";
  "Logga ut";
  "Taggar";
  "Sök ID";
  "Separerat av ett comma, semikolon, mellanslag eller ny linje";
  "Lägg till ID";
  "Lägg till Tagg";
  "Avmarkera alla taggar";
  "Nätverksfel";
  "Användarnamn saknas";
  "Lösenord saknas";
  "Fel användarnamn eller lösenord";
  "";
  "Ändra Tagg";
  "Glöm lösenord";
  "Favoriter";
  "Lägg till favorit";
  "Ta bort från favoriter";
  "Tom";
  "Ogiltigt mappnamn";
  "Socks5 Proxy";
  "Socks5/Http(s) Proxy";
  "Upptäckt";
  "För att starta efter boot måste du installera systemtjänsten.";
  "Fjärr ID";
  "Klistra in";
  "Klistra in här?";
  "Är du säker att du vill avsluta anslutningen?";
  "Ladda ner ny version";
  "Touchläge";
  "Musläge";
  "En fingers tryck";
  "Vänster mus";
  "Långt tryck";
  "Långt tryck med två fingrar";
  "Höger mus";
  "En fingers drag";
  "Dubbeltryck och flytta";
  "Dra med musen";
  "Tre fingrar vertikalt";
  "Scrollhjul";
  "Två fingers flytt";
  "Flytta canvas";
  "Nyp för zoom";
  "Canvas zoom";
  "Återställ canvas";
  "Rättigheter saknas";
  "Notering";
  "Anslutning";
  "Dela skärm";
  "Chatt";
  "Totalt";
  "föremål";
  "Valda";
  "Skärminspelning";
  "Inputkontroll";
  "Ljudinspelning";
  "Fil anslutning";
  "Skärm anslutning";
  "Accepterar du?";
  "Öppna systeminställnig";
  "Hur får man Android rättigheter?";
  "Android rättigheter saknas";
  "Gå till systeminställningarna, hitta [Installed Services], sätt på [RustDesk Input] tjänsten.";
  "Ny kontrollförfrågan mottagen, denna vill kontrollera din enhet.";
  with_quotes ["Sätter du på "; "skärminspelning"; " kommer tjänsten automatiskt att starta. Detta tillåter andra enheter att kontrollera din enhet."];
  "Genom att stänga av tjänsten kommer alla enheter att kopplas ifrån.";
  "Din version av Android stödjer inte ljudinspelning, Android 10 eller nyare krävs";
  "";
  "";
  "Konto";
  "Skriv över";
  "Filen finns redan, hoppa över eller skriv över filen?";
  "Avsluta";
  "Hjälp";
  "Misslyckades";
  "Lyckades";
  "Någon sätter på säkerhetesläge, avsluta";
  "Stöds inte";
  "Klienten nekade";
  "Var god installera plugins";
  "Avsluta klient";
  "Misslyckades med avstängning";
  "Avstängd";
  "Språk";
  "Behåll RustDesk i bakgrunden";
  "Ignorera batterioptimering";
  "Om du vill stänga av denna funktion, gå till nästa RustDesk programs inställningar, hitta [Batteri], Checka ur [Obegränsad]";
  "";
  "";
  "Anslutning ej tillåten";
  "Legacy mode";
  "Kartläge";
  "Översättningsläge";
  "Använd permanent lösenord";
  "Använd båda lösenorden";
  "Ställ in permanent lösenord";
  "Sätt på fjärromstart";
  "Starta om fjärrenheten";
  "Är du säker att du vill starta om?";
  "Startar om fjärrenheten";
  "Enheten startar om, stäng detta meddelande och anslut igen om en liten stund";
  "Kopierad";
  "Gå ur fullskärmsläge";
  "Fullskärm";
  "Mobila återgärder";
  "Välj skärm";
  "Kontroller";
  "Skärminställningar";
  "Ratio";
  "Bildkvalitet";
  "Scrollstil";
  "";
  "";
  "Direktanslutning";
  "Relayanslutning";
  "Säker anslutning";
  "Osäker anslutning";
  "Skala orginal";
  "Skala adaptivt";
  "Generellt";
  "Säkerhet";
  "Tema";
  "Mörkt tema";
  "";
  "Mörk";
  "Ljus";
  "Följ system";
  "Aktivera hårdvarucodec";
  "Lås upp säkerhetsinställningar";
  "Sätt på ljud";
  "Lås upp nätverksinställningar";
  "Server";
  "Direkt IP åtkomst";
  "Proxy";
  "Tillämpa";
  "Koppla ifrån alla enheter?";
  "Töm";
  "Inmatningsenhet för ljud";
  "Använd IP-Vitlistning";
  "Nätverk";
  "";
  "";
  "Spelar in";
  "Katalog";
  "Spela in inkommande sessioner automatiskt";
  "";
  "Byt";
  "Starta inspelning";
  "Avsluta inspelning";
  "Sätt på sessionsinspelning";
  "Sätt på LAN upptäckt";
  "Neka LAN upptäckt";
  "Skriv ett meddelande";
  "Prompt";
  "Var god vänta för UAC bekräftelse...";
  "Detta fönster hos klienten kräver en högre behörighet. Du kan be användaren att minimera fönstret, eller att ge högre behörigheter i fönstret för anslutningsinställningar. För att undvika detta problem i framtiden, installera programmet på klientens sida.";
  "Frånkopplad";
  "Övrigt";
  "Bekräfta innan du stänger flera flikar";
  "Tangentbordsinställningar";
  "Full tillgång";
  "Skärmdelning";
  "Wayland kräver Ubuntu 21.04 eller högre.";
  "Wayland kräver en högre version av linux. Försök igen eller byt OS.";
  "JumpLink";
  "Välj skärm att dela";
  "Visa RustDesk";
  "Denna dator";
  "eller";
  "Fortsätt med";
  "Höj upp";
  "Zoom";
  "Acceptera sessioner via lösenord";
  "Acceptera sessioner via klick";
  "Acceptera sessioner via båda";
  "Var god vänta på att klienten accepterar din förfrågan...";
  "En-gångs lösenord";
  "Använd en-gångs lösenord";
  "Längd på en-gångs lösenord";
  "Begär åtkomst till din enhet";
  "Göm hanteringsfönster";
  "Tillåt att gömma endast om accepterande sessioner med lösenord och permanenta lösenord";
  "";
  "";
  "";
  "";
  "";
  "";
  "";
  "";
  "";
  "";
  "";
  "";
  "";
  "";
  "";
  "";
  "";
  "";
  "";
  "";
  "";
  "";
  "";
  "";
  "";
  "";
  "";
  "";
  "";
  "";
  "";
  "";
  "";
  "";
  "";
  "";
  "";
  "";
  "";
  "";
  "";
  "";
  "";
  "";
  "";
  "";
  "";
  "";
  "";
  "";
  "";
  "";
  "";
  "";
  "";
  "";
  "";
  "";
  "";
  "";
  "";
  "";
  "";
  "";
  "";
  "";
  "";
  "";
  "";
  "";
  "";
  "";
  "";
  "";
  "";
  "";
  "";
  "";
  "";
  "";
  "";
  "";
  "";
  "";
  "";
  "";
  "";
  "";
  "";
  "";
  "";
  "";
  "";
  "";
  "";
  "";
  "";
  "";
  "";
  "";
  "";
  "";
  "";
  "";
  "";
  "";
  "";
  "";
  "";
  "";
  "";
  "";
  "";
  "";
  "";
  "";
  "";
  "";
  "";
  "";
  "";
  "";
  "";
  "";
  "";
  "";
  "";
  "";
  "";
  "";
  "";
  "";
  "";
  "";
  "";
  "";
  "";
  "";
  "";
  "";
  "";
  "";
  "";
  "";
  "";
  "";
  "";
  "";
  "";
  "";
  "";
  "";
  "";
  "";
  "";
  "";
  "";
  "";
  "";
  "";
  "";
  "";
  "";
  "";
  "";
  "";
  "";
  "";
  "";
  "";
  "";
  "";
  "";
  "";
  "";
  "";
  "";
  "";
  "";
  "";
  "";
  "";
  "";
  "";
  "";
  "";
  "";
  "";
  "";
  "";
  "";
  "";
  "";
  "";
  "";
  "";
  "";
  "";
  "";
  "";
  "";
  "";
  "";
  "";
  "";
  "";
  "";
  "";
  "";
  "";
  "";
  "";
  "";
  "";
  "";
  "";
  "";
  "";
  "";
  "";
  "";
  "";
  "";
  "";
  "";
  "";
  "";
  "";
  "";
  "";
  "";
  "";
  "";
  "";
  "";
  "";
  "";
  "";
  "";
  "";
  "";
  "";
  "";
  "";
  "";
  "";
  "";
  "";
  "";
  "";
  "";
  "";
  "";
  "";
  "";
  ""].
(** [LANGS.th] *)
Definition lang_th : jsmap string string := texts [
  "สถานะ";
  "หน้าจอของคุณ";
  "คุณสามารถเข้าถึงเดสก์ท็อปของคุณได้ด้วย ID และรหัสผ่านต่อไปนี้";
  "รหัสผ่าน";
  "พร้อม";
  "เชื่อมต่อแล้ว";
  "กำลังเชื่อมต่อไปยังเครือข่าย RustDesk...";
  "เปิดใช้การงานเซอร์วิส";
  "เริ่มต้นใช้งานเซอร์วิส";
  "เซอร์วิสกำลังทำงาน";
  "เซอร์วิสไม่ทำงาน";
  "ไม่พร้อมใช้งาน กรุณาตรวจสอบการเชื่อมต่ออินเทอร์เน็ตของคุณ";
  "การควบคุมเดสก์ท็อปปลายทาง";
  "การถ่ายโอนไฟล์";
  "เชื่อมต่อ";
  "เซสชันล่าสุด";
  "สมุดรายชื่อ";
  "การยืนยัน";
  "อุโมงค์การเชื่อมต่อ TCP";
  "ลบ";
  "รีเฟรชรหัสผ่านใหม่แบบสุ่ม";
  "ตั้งรหัสผ่านของคุณเอง";
  "เปิดการใช้งาน คีย์บอร์ด/เมาส์";
  "เปิดการใช้งาน คลิปบอร์ด";
  "เปิดการใช้งาน การถ่ายโอนไฟล์";
  "เปิดการใช้งาน อุโมงค์การเชื่อมต่อ TCP";
  "IP ไวท์ลิสต์";
  "เซิร์ฟเวอร์ ID/Relay";
  "นำเข้าการตั้งค่าเซิร์ฟเวอร์";
  "ส่งออกการตั้งค่าเซิร์ฟเวอร์";
  "นำเข้าการตั้งค่าเซิร์ฟเวอร์เสร็จสมบูรณ์";
  "ส่งออกการตั้งค่าเซิร์ฟเวอร์เสร็จสมบูรณ์";
  "การตั้งค่าของเซิร์ฟเวอร์ไม่ถูกต้อง";
  "คลิปบอร์ดว่างเปล่า";
  "หยุดการใช้งานเซอร์วิส";
  "เปลี่ยน ID";
  "ID ใหม่ของคุณ";
  "ความยาวตั้งแต่ %min% ถึง %max%";
  "เริ่มต้นด้วยตัวอักษร";
  "ตัวอักขระที่อนุญาต";
  "อนุญาตเฉพาะตัวอักษร a-z A-Z 0-9, - (dash) และ _ (ขีดล่าง) เท่านั้น โดยตัวอักษรขึ้นต้นจะต้องเป็น a-z หรือไม่ก็ A-Z และมีความยาวระหว่าง 6 ถึง 16 ตัวอักษร";
  "เว็บไซต์";
  "เกี่ยวกับ";
  "ทำด้วยใจ ในโลกที่วุ่นวาย!";
  "คำแถลงเกี่ยวกับความเป็นส่วนตัว";
  "ปิดเสียง";
  "วันที่ Build";
  "เวอร์ชัน";
  "หน้าหลัก";
  "ออดิโออินพุท";
  "การปรับปรุง";
  "ฮาร์ดแวร์ Codec";
  "Bitrate ผันแปร";
  "เซิร์ฟเวอร์ ID";
  "เซิร์ฟเวอร์ Relay";
  "เซิร์ฟเวอร์ API";
  "ต้องขึ้นต้นด้วย http:// หรือ https:// เท่านั้น";
  "IP ไม่ถูกต้อง";
  "รูปแบบไม่ถูกต้อง";
  "ยังไม่รองรับโดยเซิร์ฟเวอร์";
  "ไม่พร้อมใช้งาน";
  "ดำเนินการถี่เกินไป";
  "ยกเลิก";
  "ข้าม";
  "ปิด";
  "ลองใหม่อีกครั้ง";
  "ตกลง";
  "ต้องใช้รหัสผ่าน";
  "กรุณาใส่รหัสผ่านของคุณ";
  "จดจำรหัสผ่าน";
  "รหัสผ่านไม่ถูกต้อง";
  "ต้องการใส่ข้อมูลอีกครั้งหรือไม่?";
  "การเชื่อมต่อผิดพลาด";
  "ข้อผิดพลาด";
  "รีเซ็ตโดยอีกฝั่ง";
  "กำลังเชื่อมต่อ...";
  "กำลังดำเนินการเชื่อมต่อ กรุณารอซักครู่";
  "กรุณาลองใหม่อีกครั้งใน 1 นาที";
  "การเข้าสู่ระบบผิดพลาด";
  "สำเร็จ";
  "เชื่อมต่อสำเร็จ กำลังรับข้อมูลภาพ...";
  "ชื่อ";
  "ประเภท";
  "แก้ไขล่าสุด";
  "ขนาด";
  "แสดงไฟล์ที่ถูกซ่อน";
  "รับ";
  "ส่ง";
  "รีเฟรชไฟล์";
  "ต้นทาง";
  "ปลายทาง";
  "คอมพิวเตอร์ปลายทาง";
  "คอมพิวเตอร์ต้นทาง";
  "ยืนยันการลบ";
  "ลบ";
  "ข้อมูล";
  "เลือกหลายรายการ";
  "เลือกทั้งหมด";
  "ยกเลิกการเลือกทั้งหมด";
  "ไดเรกทอรีว่างเปล่า";
  "ไม่ใช่ไดเรกทอรีว่างเปล่า";
  "คุณแน่ใจหรือไม่ที่จะลบไฟล์นี้?";
  "คุณแน่ใจหรือไม่ที่จะลบไดเรอทอรีว่างเปล่านี้?";
  "คุณแน่ใจหรือไม่ที่จะลบไฟล์ของไดเรกทอรีนี้?";
  "ดำเนินการแบบเดียวกันสำหรับรายการทั้งหมด";
  "การดำเนินการนี้ไม่สามารถย้อนกลับได้!";
  "กำลังลบ";
  "ไฟล์";
  "กำลังรอ";
  "เสร็จแล้ว";
  "ความเร็ว";
  "คุณภาพของภาพแบบกำหนดเอง";
  "โหมดความเป็นส่วนตัว";
  "บล็อคอินพุทจากผู้ใช้งาน";
  "ยกเลิกการบล็อคอินพุทจากผู้ใช้งาน";
  "ปรับขนาดหน้าต่าง";
  "ต้นฉบับ";
  "ย่อ";
  "ยืด";
  "แถบเลื่อน";
  "เลื่อนอัตโนมัติ";
  "ภาพคุณภาพดี";
  "สมดุล";
  "เน้นการตอบสนอง";
  "กำหนดเอง";
  "แสดงเคอร์เซอร์ปลายทาง";
  "แสดงคุณภาพหน้าจอ";
  "ปิดการใช้งานคลิปบอร์ด";
  "ล็อคหลังจากจบเซสชัน";
  "แทรก Ctrl + Alt + Del";
  "แทรกล็อค";
  "รีเฟรช";
  "ไม่พอข้อมูล ID";
  "การเชื่อมต่อไปยังเซิร์ฟเวอร์นัดพบล้มเหลว";
  "กรุณาลองใหม่ในภายหลัง";
  "เดสก์ท็อปปลายทางออฟไลน์";
  "คีย์ไม่ถูกต้อง";
  "หมดเวลา";
  "การเชื่อมต่อไปยังเซิร์ฟเวอร์ Relay ล้มเหลว";
  "การเชื่อมต่อผ่านเซิร์ฟเวอร์นัดพบล้มเหลว";
  "การเชื่อมต่อผ่านเซิร์ฟเวอร์ Relay ล้มเหลว";
  "การเชื่อมต่อตรงไปยังเดสก์ท็อปปลายทางล้มเหลว";
  "ตั้งรหัสผ่าน";
  "รหัสผ่านระบบปฏิบัติการ";
  "เนื่องด้วยข้อจำกัดของการใช้งาน UAC ทำให้ RustDesk ไม่สามารถทำงานได้ปกติในฝั่งปลายทางในบางครั้ง เพื่อหลีกเลี่ยงข้อจำกัดของ UAC กรุณากดปุ่มด้านล่างเพื่อติดตั้ง RustDesk ไปยังระบบของคุณ";
  "คลิกเพื่ออัปเกรด";
  "คลิกเพื่อดาวน์โหลด";
  "คลิกเพื่ออัปเดต";
  "ปรับแต่งค่า";
  with_quotes ["เพื่อที่จะควบคุมเดสก์ท็อปปลายทางของคุณ คุณจำเป็นจะต้องอนุญาตสิทธิ์ "; "การเข้าถึง"; " ให้แก่ RustDesk"];
  with_quotes ["เพื่อที่จะควบคุมเดสก์ท็อปปลายทางของคุณ คุณจำเป็นจะต้องอนุญาตสิทธิ์ "; "การบันทึกภาพหน้าจอ"; " ให้แก่ RustDesk"];
  "กำลังติดตั้ง ...";
  "ติดตั้ง";
  "การติดตั้ง";
  "ตำแหน่งที่ติดตั้ง";
  "สร้างทางลัดไปยัง Start Menu";
  "สร้างไอคอนบนเดสก์ท็อป";
  "ในการเริ่มต้นการติดตั้ง ถือว่าคุณได้ยอมรับข้อตกลงใบอนุญาตแล้ว";
  "ยอมรับและติดตั้ง";
  "ข้อตกลงใบอนุญาตผู้ใช้งาน";
  "กำลังสร้าง ...";
  "การติดตั้งของคุณเป็นเวอร์ชันที่ต่ำกว่า";
  "อย่าปิดหน้าต่างนี้ในขณะที่คุณกำลังใช้งานอุโมงค์การเชื่อมต่อ";
  "กำลังรอรับข้อมูล ...";
  "โฮสต์ปลายทาง";
  "พอร์ทปลายทาง";
  "การดำเนินการ";
  "เพิ่ม";
  "พอร์ทต้นทาง";
  "ที่อยู่ต้นทาง";
  "เปลี่ยนพอร์ทต้นทาง";
  "เพื่อการเชื่อมต่อที่เร็วขึ้น กรุณาเซ็ตอัปเซิร์ฟเวอร์ของคุณเอง";
  "สั้นเกินไป ต้องไม่ต่ำกว่า 6 ตัวอักษร";
  "การยืนยันข้อมูลไม่ถูกต้อง";
  "สิทธิ์การใช้งาน";
  "ยอมรับ";
  "ปิด";
  "ยกเลิกการเชื่อมต่อ";
  "อนุญาตให้มีการคัดลอกและวางไฟล์";
  "เชื่อมต่อแล้ว";
  "การเชื่อมต่อตรงที่มีการเข้ารหัส";
  "การเชื่อมต่อแบบ Relay ที่มีการเข้ารหัส";
  "การเชื่อมต่อตรงที่ไม่มีการเข้ารหัส";
  "การเชื่อมต่อแบบ Relay ที่ไม่มีการเข้ารหัส";
  "กรอก ID ปลายทาง";
  "กรอกรหัสผ่าน";
  "กำลังเข้าสู่ระบบ...";
  "เปิดการใช้งานการแชร์เซสชัน RDP";
  "เข้าสู่ระบอัตโนมัติ";
  "เปิดการใช้งาน IP ตรง";
  "ปลายทาง";
  "พื้นที่ว่าง";
  "สร้างทางลัดบนเดสก์ท็อป";
  "เปลี่ยนตำแหน่ง";
  "สร้างโฟลเดอร์";
  "กรุณาใส่ชื่อโฟลเดอร์";
  "แก้ไข";
  "คำเตือน";
  "หน้าจอการเข้าสู่ระบบโดยใช้ Wayland ยังไม่ถูกรองรับ";
  "จำเป็นต้องเริ่มต้นระบบใหม่";
  "เซิร์ฟเวอร์การแสดงผลที่ไม่รองรับ";
  "ต้องใช้งาน x11";
  "พอร์ท";
  "ตั้งค่า";
  "ชื่อผู้ใช้งาน";
  "พอร์ทไม่ถูกต้อง";
  "ถูกปิดโดยอีกฝั่งของการเชื่อมต่อ";
  "เปิดการใช้งานการแก้ไขการตั้งค่าปลายทาง";
  "ใช้งานโดยไม่ต้องติดตั้ง";
  "เชื่อมต่อผ่าน Relay";
  "เชื่อมต่อผ่าน Relay เสมอ";
  "อนุญาตเฉพาะการเชื่อมต่อจาก IP ที่ไวท์ลิสต์";
  "เข้าสู่ระบบ";
  "ยืนยันความถูกต้อง";
  "จดจำฉัน";
  "เชื่อถืออุปกรณ์นี้";
  "รหัสยืนยันความถูกต้อง";
  "รหัสยืนยันความถูกต้องได้ถูกส่งไปยังอีเมล์ที่ลงทะเบียนแล้ว กรุณากรอกรหัสยืนยันความถูกต้องเพื่อดำเนินการเข้าสู่ระบบต่อ";
  "ออกจากระบบ";
  "แท็ก";
  "ค้นหา ID";
  "คั่นโดยเครื่องหมาย comma semicolon เว้นวรรค หรือ ขึ้นบรรทัดใหม่";
  "เพิ่ม ID";
  "เพิ่มแท็ก";
  "ยกเลิกการเลือกแท็กทั้งหมด";
  "ข้อผิดพลาดของเครือข่าย";
  "ไม่พบข้อมูลผู้ใช้งาน";
  "ไม่พบรหัสผ่าน";
  "ข้อมูลสำหรับเข้าสู่ระบบไม่ถูกต้อง";
  "รหัสยืนยันไม่ถูกต้องหรือหมดอายุแล้ว";
  "แก้ไขแท็ก";
  "ยกเลิกการจดจำรหัสผ่าน";
  "รายการโปรด";
  "เพิ่มไปยังรายการโปรด";
  "ลบออกจากรายการโปรด";
  "ว่างเปล่า";
  "ชื่อโฟลเดอร์ไม่ถูกต้อง";
  "พรอกซี Socks5";
  "พรอกซี Socks5/Http(s)";
  "ค้นพบ";
  "หากต้องการใช้งานขณะระบบเริ่มต้น คุณจำเป็นจะต้องติดตั้งเซอร์วิส";
  "ID ปลายทาง";
  "วาง";
  "วางที่นี่หรือไม่?";
  "คุณแน่ใจหรือไม่ที่จะปิดการเชื่อมต่อ?";
  "ดาวน์โหลดเวอร์ชันใหม่";
  "โหมดการสัมผัส";
  "โหมดการใช้เมาส์";
  "แตะนิ้วเดียว";
  "เมาส์ซ้าย";
  "แตะยาวหนึ่งครั้ง";
  "แตะสองนิ้ว";
  "เมาส์ขวา";
  "ลากนิ้วเดียว";
  "แตะเบิ้ลและลาก";
  "ลากเมาส์";
  "สามนิ้วแนวตั้ง";
  "ลูกลิ้งเมาส์";
  "ลากสองนิ้ว";
  "ลากแคนวาส";
  "ถ่างเพื่อขยาย";
  "ขยายแคนวาส";
  "รีเซ็ตแคนวาส";
  "ไม่มีสิทธิ์ในการถ่ายโอนไฟล์";
  "บันทึกข้อความ";
  "การเชื่อมต่อ";
  "แชร์หน้าจอ";
  "แชท";
  "รวม";
  "รายการ";
  "ถูกเลือก";
  "บันทึกหน้าจอ";
  "ควบคุมอินพุท";
  "บันทึกเสียง";
  "การเชื่อมต่อไฟล์";
  "การเชื่อมต่อหน้าจอ";
  "ยอมรับหรือไม่?";
  "เปิดการตั้งค่าระบบ";
  "เปิดสิทธิ์การใช้งานอินพุทของแอนดรอยด์ได้อย่างไร?";
  with_quotes ["ในการที่จะอนุญาตให้เครื่องปลายทางควบคุมอุปกรณ์แอนดรอยด์ของคุณโดยใช้เมาส์หรือการสัมผัส คุณจำเป็นจะต้องอนุญาตสิทธิ์ "; "การเข้าถึง"; " ให้แก่เซอร์วิสของ RustDesk"];
  "กรุณาไปยังหน้าตั้งค่าถัดไป ค้นหาและเข้าไปยัง [เซอร์วิสที่ถูกติดตั้ง] และเปิดการใช้งานเซอร์วิส [อินพุท RustDesk]";
  "ได้รับคำขอควบคุมใหม่ที่ต้องการควบคุมอุปกรณ์ของคุณ";
  with_quotes ["การเปิดการใช้งาน "; "การบันทึกหน้าจอ"; " จะเป็นการเริ่มต้นการทำงานของเซอร์วิสโดยอัตโนมัติ ที่จะอนุญาตให้อุปกรณ์อื่นๆ ส่งคำขอเข้าถึงมายังอุปกรณ์ของคุณได้"];
  "การปิดการใช้งานเซอร์วิสจะปิดการเชื่อมต่อทั้งหมดโดยอัตโนมัติ";
  "เวอร์ชันแอนดรอยด์ปัจจุบันของคุณไม่รองรับการบันทึกข้อมูลเสียง กรุณาอัปเกรดเป็นแอนดรอยด์เวอร์ชัน 10 หรือสูงกว่า";
  "แตะ [เริ่มต้นใช้งานเซอร์วิส] หรือเปิดสิทธิ์การใช้งาน [บันทึกหน้าจอ] เพื่อเริ่มต้นใช้งานเซอร์วิสสำหรับการแบ่งปันหน้าจอ";
  "สิทธิ์การใช้งานสำหรับการเชื่อมต่อที่กำลังเปิดใช้งานอยู่อาจจะไม่ได้เปลี่ยนแปลงในทันทีจนกว่าจะเริ่มต้นการเชื่อมต่อใหม่อีกครั้ง";
  "บัญชี";
  "เขียนทับ";
  "พบไฟล์ที่มีอยู่แล้ว ต้องการเขียนทับหรือไม่?";
  "ออก";
  "ช่วยเหลือ";
  "ล้มเหลว";
  "สำเร็จ";
  "มีใครบางคนเปิดใช้งานโหมดความเป็นส่วนตัว กำลังออก";
  "ไม่รองรับ";
  "ถูกปฏิเสธโดยอีกฝั่ง";
  "กรุณาติดตั้งปลั๊กอิน";
  "อีกฝั่งออก";
  "การปิดล้มเหลว";
  "ปิด";
  "ภาษา";
  "คงสถานะการทำงานเบื้องหลังของเซอร์วิส RustDesk";
  "เพิกเฉยการตั้งค่าการใช้งาน Battery Optimization";
  "หากคุณต้องการปิดการใช้งานฟีเจอร์นี้ กรุณาไปยังหน้าตั้งค่าในแอปพลิเคชัน RustDesk ค้นหาหัวข้อ [Battery] และยกเลิกการเลือกรายการ [Unrestricted]";
  "เริ่มต้นเมื่อเปิดเครื่อง";
  "เริ่มต้นใช้งานเซอร์วิสสำหรับการแบ่งปันหน้าจอเมื่อเปิดเครื่อง (ต้องมีการให้สิทธิ์การใช้งานพิเศษเพิ่มเติม)";
  "การเชื่อมต่อไม่อนุญาต";
  "โหมดดั้งเดิม";
  "โหมดการจับคู่";
  "โหมดแปลงค่า";
  "ใช้รหัสผ่านถาวร";
  "ใช้รหัสผ่านทั้งสองแบบ";
  "ตั้งค่ารหัสผ่านถาวร";
  "เปิดการใช้งานการรีสตาร์ทระบบทางไกล";
  "รีสตาร์ทอุปกรณ์ปลายทาง";
  "คุณแน่ใจหรือไม่ที่จะรีสตาร์ท";
  "กำลังรีสตาร์ทระบบปลายทาง";
  "ระบบปลายทางกำลังรีสตาร์ท กรุณาปิดกล่องข้อความนี้และดำเนินการเขื่อมต่อใหม่อีกครั้งด้วยรหัสผ่านถาวรหลังจากผ่านไปซักครู่";
  "คัดลอกแล้ว";
  "ออกจากเต็มหน้าจอ";
  "เต็มหน้าจอ";
  "การดำเนินการบนมือถือ";
  "เลือกหน้าจอ";
  "การดำเนินการควบคุม";
  "การตั้งค่าแสดงผล";
  "อัตราส่วน";
  "คุณภาพภาพ";
  "ลักษณะการเลื่อน";
  "แสดงแถบเครื่องมือ";
  "ซ่อนแถบเครื่องมือ";
  "การเชื่อมต่อตรง";
  "การเชื่อมต่อแบบ Relay ";
  "การเชื่อมต่อที่ปลอดภัย";
  "การเชื่อมต่อที่ไม่ปลอดภัย";
  "ขนาดเดิม";
  "ขนาดยืดหยุ่น";
  "ทั่วไป";
  "ความปลอดภัย";
  "ธีม";
  "ธีมมืด";
  "ธีมสว่าง";
  "มืด";
  "สว่าง";
  "ตามระบบ";
  "เปิดการใช้งานฮาร์ดแวร์ codec";
  "ปลดล็อคการตั้งค่าความปลอดภัย";
  "เปิดการใช้งานเสียง";
  "ปลดล็อคการตั้งค่าเครือข่าย";
  "เซิร์ฟเวอร์";
  "การเข้าถึง IP ตรง";
  "พรอกซี";
  "นำไปใช้";
  "ยกเลิกการเชื่อมต่ออุปกรณ์ทั้งหมด?";
  "ล้างข้อมูล";
  "อุปกรณ์รับอินพุทข้อมูลเสียง";
  "ใช้งาน IP ไวท์ลิสต์";
  "เครือข่าย";
  "ปักหมุดแถบเครื่องมือ";
  "ยกเลิกการปักหมุดแถบเครื่องมือ";
  "การบันทึก";
  "ไดเรกทอรี่";
  "บันทึกเซสชันขาเข้าโดยอัตโนมัติ";
  "";
  "เปลี่ยน";
  "เริ่มต้นการบันทึกเซสชัน";
  "หยุดการบันทึกเซสซัน";
  "เปิดใช้งานการบันทึกเซสชัน";
  "เปิดการใช้งานการค้นหาในวง LAN";
  "ปฏิเสธการใช้งานการค้นหาในวง LAN";
  "เขียนข้อความ";
  "";
  "กรุณารอการยืนยันจาก UAC...";
  "หน้าต่างปัจจุบันของเครื่องปลายทางต้องการสิทธิ์การใช้งานที่สูงขึ้นสำหรับการทำงาน ดังนั้นเมาส์และคีย์บอร์ดจะไม่สามารถใช้งานได้ชั่วคราว คุณสามารถขอผู้ใช้งานปลายทางให้ย่อหน้าต่าง หรือคลิกปุ่มให้สิทธิ์การใช้งานในหน้าต่างการจัดการการเชื่อมต่อ เพื่อหลีกเลี่ยงปัญหานี้เราแนะนำให้ดำเนินการติดตั้งซอฟท์แวร์ในเครื่องปลายทาง";
  "ยกเลิกการเชื่อมต่อ";
  "อื่นๆ";
  "ยืนยันการปิดหลายแท็บ";
  "การตั้งค่าคีย์บอร์ด";
  "การเข้าถึงทั้งหมด";
  "การแชร์จอ";
  "Wayland ต้องการ Ubuntu เวอร์ชัน 21.04 หรือสูงกว่า";
  "Wayland ต้องการลินุกซ์เวอร์ชันที่สูงกว่านี้ กรุณาเปลี่ยนไปใช้เดสก์ท็อป X11 หรือเปลี่ยนระบบปฏิบัติการของคุณ";
  "View";
  "กรุณาเลือกหน้าจอที่ต้องการแชร์ (ใช้งานในอีกฝั่งของการเชื่อมต่อ)";
  "แสดง RustDesk";
  "พีซีเครื่องนี้";
  "หรือ";
  "ทำต่อด้วย";
  "ยกระดับ";
  "ขยายเคอร์เซอร์";
  "ยอมรับการเชื่อมต่อด้วยรหัสผ่าน";
  "ยอมรับการเชื่อมต่อด้วยการคลิก";
  "ยอมรับการเชื่อมต่อด้วยทั้งสองวิธิ";
  "กรุณารอให้อีกฝั่งยอมรับการเชื่อมต่อของคุณ...";
  "รหัสผ่านครั้งเดียว";
  "ใช้รหัสผ่านครั้งเดียว";
  "ความยาวรหัสผ่านครั้งเดียว";
  "คำขอการเข้าถึงอุปกรณ์ของคุณ";
  "ซ่อนหน้าต่างการจัดการการเชื่อมต่อ";
  "อนุญาตการซ่อนก็ต่อเมื่อยอมรับการเชื่อมต่อด้วยรหัสผ่าน และต้องเป็นรหัสผ่านถาวรเท่านั้น";
  "การสนับสนุน Wayland ยังอยู่ในขั้นตอนการทดลอง กรุณาใช้ X11 หากคุณต้องการใช้งานการเข้าถึงแบบไม่มีผู้ดูแล";
  "คลิกขวาเพื่อเลือกแท็บ";
  "ข้าม";
  "เพิ่มไปยังสมุดรายชื่อ";
  "กลุ่ม";
  "ค้นหา";
  "ถูกปิดโดยเว็บคอนโซล";
  "ประเภทคีย์บอร์ด";
  "เลือกประเภทคีย์บอร์ด";
  "ถ้าคุณใช้กราฟิกการ์ดกับระบบ Linux และหน้าต่างของเครื่องปลายทางปิดในทันทีหลังจากการเชื่อมต่อ การเปลี่ยนไปใช้ไดรเวอร์ Nouveau และเลือกใช้โหมดการเรนเดอร์แบบซอฟท์แวร์อาจช่วยได้ (ต้องรีสตาร์ทโปรแกรม)";
  "ใช้การเรนเดอร์แบบซอฟท์แวร์เสมอ";
  with_quotes ["เพื่อที่จะควบคุมเครื่องเดสก์ท็อปปลายทางด้วยคีย์บอร์ด คุณจำเป็นจะต้องอนุญาตสิทธิ์ "; "การตรวจสอบ Input"; " ให้แก่ RustDesk"];
  with_quotes ["เพื่อที่จะส่งเสียงพูดไปยังปลายทาง คุณจำเป็นจะต้องอนุญาตสิทธิ์ "; "การบันทึกเสียง"; " ให้แก่ RustDesk"];
  "คุณสามารถขอยกระดับสิทธิ์การใช้งานได้ หากมีผู้ใช้งานอยู่ในฝั่งเครื่องปลายทาง";
  "รอ";
  "การยกระดับสิทธิ์การใช้งานผิดพลาด";
  "ขอความช่วยเหลือผู้ใช้งานปลายทางเพื่อพิสูจน์ตัวตน";
  "เลือกข้อนี้ถ้าบัญชีผู้ใช้งานปลายทางเป็นผู้ดูแลระบบ";
  "ส่งข้อมูลผู้ใช้งานและรหัสผ่านของผู้ดูแลระบบ";
  "ผู้ใช้งานปลายทางยังจำเป็นที่จะต้องกดปุ่ม ตกลง บนหน้าต่าง UAC ของ RustDesk";
  "ขอยกระดับสิทธิ์การใช้งาน";
  "กรุณารอผู้ใช้งานปลายทางกดยินยอมหน้าต่าง UAC";
  "การยกระดับสิทธิ์การใช้งานสำเร็จ";
  "พิมพ์ใหญ่";
  "พิมพ์เล็ก";
  "หลัก";
  "อักขระพิเศษ";
  "ความยาวมากกว่า 8";
  "ไม่ปลอดภัย";
  "กลาง";
  "ปลอดภัย";
  "สลับฝั่ง";
  "กรุณายืนยันว่าคุณต้องการแบ่งปันหน้าเดสก์ท็อปของคุณ";
  "จอแสดงผล";
  "แสดงผลแบบเริ่มต้น";
  "การเลื่อนแบบเริ่มต้น";
  "คุณภาพของภาพแบบเริ่มต้น";
  "Codec เริ่มต้น";
  "";
  "";
  "อัตโนมัติ";
  "ตัวเลือกเริ่มต้นอื่นๆ";
  "การโทรด้วยเสียง";
  "การสนทนาด้วยข้อความ";
  "หยุดการโทรด้วยเสียง";
  with_quotes ["การเชื่อมต่อโดยตรงอาจเป็นไปไม่ได้ ดังนั้นคุณสามารถลองเชื่อมต่อผ่าน Relay หรือตั้งค่าให้เชื่อมต่อผ่าน Relay  เป็นค่าเริ่มต้น คุณสามารถเพิ่ม "; "/r"; " ต่อท้ายไปยัง ID หรือเลือกตัวเลือก "; "เชื่อมต่อผ่าน Relay เสมอ"; " ในการ์ดของการเชื่อมต่อล่าสุด (ถ้ามี)"];
  "เชื่อมต่ออีกครั้ง";
  "";
  "ความละเอียด";
  "ไม่มีการถ่ายโอนในขณะนี้";
  "ตั้งค่าความยาวรหัสผ่านครั้งเดียว";
  "การตั้งค่า RDP";
  "เรียงลำดับโดย";
  "การเชื่อมต่อใหม่";
  "คืนค่า";
  "ย่อ";
  "ขยาย";
  "อุปกรณ์ของคุณ";
  "คุณยังไม่มีการเชื่อมต่อล่าสุด ได้เวลาวางแผนเพื่อเริ่มต้นแล้ว";
  "ยังไม่มีการเชื่อมต่อรายการโปรดเหรอ? มาเริ่มต้นหาใครซักคนเพื่อเชื่อมต่อด้วย และเพิ่มเข้าไปยังรายการโปรดของคุณกัน";
  "ไม่นะ ดูเหมือนว่าเราจะยังไม่พบใครตรงนี้";
  "ดูเหมือนว่าคุณยังไม่มีใครถูกบันทึกในสมุดรายชื่อของคุณ";
  "เช่น ผู้ดูแลระบบ";
  "ชื่อผู้ใช้งานว่างเปล่า";
  "รหัสผ่านว่างเปล่า";
  "ฉัน";
  "ไฟล์นี้เหมือนกับไฟล์ของอีกฝั่ง";
  "แสดงหน้าจอในแถบเครื่องมือ";
  "โหมดการดู";
  "คุณจำเป็นจะต้องเข้าสู่ระบบไปยังบัญชีลินุกซ์ปลายทางเพื่อใช้งานเดสก์ท็อปเซสชัน X";
  "ยืนยันความถูกต้องรหัสผ่านของ RustDesk";
  "จดจำบัญชีนี้";
  "บัญชีนี้จะถูกใช้ในการเข้าสู่ระบบเครื่องปลายทางและเริ่มใช้งานเดสก์ท็อปเซสชันแบบ headless";
  "บัญชีระบบปฏิบัติการ";
  "ผู้ใช้งานอื่นเข้าสู่ระบบอยู่แล้ว";
  "ยกเลิกการเชื่อมต่อ";
  "ไม่พบ Xorg";
  "กรุณาติดตั้ง Xorg";
  "ไม่มีหน้าเดสก์ท็อปที่ใช้งานได้";
  "กรุณาติดตั้ง GNOME เดสกท็อป";
  "ไม่จำเป็นต้องยกระดับสิทธิ์การใช้งาน";
  "เสียงของระบบ";
  "ค่าเริ่มต้น";
  "RDP ใหม่";
  "ลายนิ้วมือ";
  "คัดลอกลายนิ้วมือ";
  "ไม่มีลายนิ้วมือ";
  "เลือกผู้ใช้งาน";
  "เลือกผู้ใช้งาน";
  "ปลั๊กอิน";
  "ถอนการติดตั้ง";
  "อัปเดต";
  "เปิดใช้งาน";
  "ปิดใช้งาน";
  "ตัวเลือก";
  "ความละเอียดดั้งเดิม";
  "ความละเอียดตามต้นทาง";
  "ความละเอียดแบบกำหนดเอง";
  "พับแถบเครื่องมือ";
  "ยอมรับ และยกระดับสิทธิ์การใช้งาน";
  "ยอมรับการเชื่อมต่อ และยกระดับสิทธิ์ UAC";
  "หมดเวลารอการตอบสนองของการคัดลอก";
  "การเชื่อมต่อขาเข้า";
  "การเชื่อมต่อขาออก";
  "ออก";
  "เปิด";
  "คุณแน่ใจที่จะออกจากระบบหรือไม่?";
  "เซอร์วิส";
  "เริ่ม";
  "หยุด";
  "จำนวนอุปกรณ์ที่จัดการของคุณเต็มจำนวนแล้ว";
  "Sync กับเซสชันล่าสุด";
  "เรียงแท็ก";
  "เริ่มการเชื่อมต่อในแท็บใหม่";
  "ย้ายแท็บไปหน้าต่างใหม่";
  "ไม่สามารถเว้นว่างได้";
  "มีอยู่แล้ว";
  "เปลี่ยนรหัสผ่าน";
  "รีเฟรชรหัสผ่าน";
  "";
  "มุมมองแบบช่อง";
  "มุมมองแบบรายการ";
  "เลือก";
  "สลับแท็ก";
  "การรีเฟรชสมุดรายชื่อล้มเหลว";
  "การ Sync สมุดรายชื่อไปยังเซิร์ฟเวอร์ล้มเหลว";
  "อุปกรณ์ที่อยู่ในรายการล่าสุดจะถูก sync กลับไปยังสมุดรายชื่อ";
  "เปลี่ยนสี";
  "สีหลัก";
  "สี HSV";
  "การติดตั้งเสร็จสมบูรณ์";
  "การติดตั้งล้มเหลว";
  "เลื่อมลูกกลิ้งเมาส์แบบกลับด้าน";
  "{} เซสชัน";
  "คุณอาจกำลังถูกหลอกลวง!";
  "ถ้าคุณกำลังคุยโทรศัพท์กับคนที่คุณไม่รู้จักและไม่ไว้ใจ และคนๆนั้นกำลังขอให้คุณเปิดใช้งาน RustDesk อย่าทำตามและรีบวางสายในทันที";
  "เขาเหล่านั้นอาจเป็นมิจฉาชีพที่กำลังพยายามจะขโมยเงินและข้อมูลส่วนตัวของคุณ";
  "อย่าแสดงอีก";
  "ยอมรับ";
  "ปฏิเสธ";
  "หมดเวลาในอีกซักครู่";
  "ยกเลิกการเชื่อมต่ออัตโนมัติในกรณีที่ผู้ใช้งานไม่มีการเคลื่อนไหว";
  "การเชื่อมต่อล้มเหลวเนื่องจากไม่มีการเคลื่อนไหว";
  "ตรวจสอบการอัปเดตโปรแกรมเมื่อเริ่มต้นใช้งาน";
  "กรุณาอัปเดต RustDesk Server Pro ไปยังเวอร์ชัน {} หรือใหม่กว่า!";
  "การเรียกใช้งานกลุ่มล้มเหลว";
  "";
  "";
  "";
  "";
  "";
  "";
  "";
  "";
  "";
  "";
  "";
  "";
  "";
  "";
  "";
  "";
  "";
  "";
  "";
  "";
  "";
  "";
  "";
  "";
  "";
  "";
  "";
  "";
  "";
  "";
  "";
  "";
  "";
  "";
  "";
  "";
  "";
  "";
  "";
  "";
  "";
  "";
  "";
  "";
  "";
  "";
  "";
  "";
  "";
  "";
  "";
  "";
  "";
  "";
  "";
  "";
  "";
  "";
  "";
  "";
  "";
  "";
  "";
  "";
  "";
  "";
  "";
  "";
  "";
  "";
  "";
  "";
  "";
  "";
  "";
  "";
  "";
  "";
  "";
  "";
  "";
  "";
  "";
  "";
  "";
  "";
  "";
  "";
  "";
  "";
  "";
  "";
  "";
  "";
  "";
  "";
  "";
  "";
  "";
  "";
  "";
  "";
  "";
  "";
  "";
  "";
  "";
  "";
  "";
  ""].
(** [LANGS.tr] *)
Definition lang_tr : jsmap string string := texts [
  "Durum";
  "Sizin Masaüstünüz";
  "Masaüstünüze bu ID ve şifre ile erişilebilir";
  "Şifre";
  "Hazır";
  "Bağlantı sağlandı";
  "Bağlanılıyor ";
  "Servisi aktif et";
  "Servisi başlat";
  "Servis çalışıyor";
  "Servis çalışmıyor";
  "Hazır değil. Bağlantınızı kontrol edin";
  "Bağlanılacak Uzak Bağlantı ID";
  "Dosya transferi";
  "Bağlan";
  "Son Bağlanılanlar";
  "Adres Defteri";
  "Onayla";
  "TCP Tünelleri";
  "Kaldır";
  "Yeni rastgele şifre oluştur";
  "Kendi şifreni oluştur";
  "Klavye ve Fareye izin ver";
  "Kopyalanan geçici veriye izin ver";
  "Dosya Transferine izin ver";
  "TCP Tüneline izin ver";
  "İzinli IP listesi";
  "ID/Relay Sunucusu";
  "Sunucu ayarlarını içe aktar";
  "Sunucu Yapılandırmasını Dışa Aktar";
  "Sunucu ayarları başarıyla içe aktarıldı";
  "Sunucu yapılandırmasını başarıyla dışa aktar";
  "Geçersiz sunucu ayarı";
  "Kopyalanan geçici veri boş";
  "Servisi Durdur";
  "ID Değiştir";
  "";
  "";
  "";
  "";
  "Yalnızca a-z, A-Z, 0-9, - (dash) ve _ (alt çizgi) karakterlerini kullanabilirsiniz. İlk karakter a-z veya A-Z olmalıdır. Uzunluk 6 ile 16 karakter arasında olmalıdır.";
  "Website";
  "Hakkında";
  "";
  "";
  "Sustur";
  "";
  "";
  "";
  "Ses Girişi";
  "Geliştirmeler";
  "Donanımsal Codec";
  "Uyarlanabilir Bit Hızı";
  "ID Sunucu";
  "Relay Sunucu";
  "API Sunucu";
  "http:// veya https:// ile başlamalıdır";
  "Geçersiz IP adresi";
  "Hatalı Format";
  "Henüz sunucu tarafından desteklenmiyor";
  "Erişilebilir değil";
  "Çok sık";
  "İptal";
  "Geç";
  "Kapat";
  "Tekrar Dene";
  "Tamam";
  "Şifre Gerekli";
  "Lütfen şifrenizi giriniz";
  "Şifreyi hatırla";
  "Hatalı şifre";
  "Tekrar giriş yapmak ister misiniz?";
  "Bağlantı Hatası";
  "Hata";
  "Eş tarafında sıfırla";
  "Bağlanılıyor...";
  "Bağlantı sağlanıyor. Lütfen bekleyiniz.";
  "Lütfen 1 dakika sonra tekrar deneyiniz";
  "Giriş Hatalı";
  "Başarılı";
  "Bağlandı. Görüntü bekleniyor...";
  "Ad";
  "Tip";
  "Değiştirildi";
  "Boyut";
  "Gizli Dosyaları Göster";
  "Al";
  "Gönder";
  "Dosyayı yenile";
  "Yerel";
  "Uzak";
  "Uzak Bilgisayar";
  "Yerel Bilgisayar";
  "Silmeyi Onayla";
  "Sil";
  "Özellikler";
  "Çoklu Seçim";
  "Tümünü Seç";
  "Tüm Seçimi Kaldır";
  "Boş Klasör";
  "Klasör boş değil";
  "Bu dosyayı silmek istediğinize emin misiniz?";
  "Bu boş klasörü silmek istediğinize emin misiniz?";
  "Bu klasördeki dosyayı silmek istediğinize emin misiniz?";
  "Bunu tüm çakışmalar için yap";
  "Bu işlem geri döndürülemez!";
  "Siliniyor";
  "dosyalar";
  "Bekleniyor";
  "Tamamlandı";
  "Hız";
  "Özel Görüntü Kalitesi";
  "Gizlilik modu";
  "Kullanıcı girişini engelle";
  "Kullanı girişine izin ver";
  "Pencereyi Ayarla";
  "Orjinal";
  "Küçült";
  "Uzat";
  "Kaydırma çubuğu";
  "Otomatik Kaydır";
  "İyi görüntü kalitesi";
  "Dengelenmiş";
  "Tepki süresini optimize et";
  "Özel";
  "Uzaktaki fare imlecini göster";
  "Kalite monitörünü göster";
  "Hafızadaki kopyalanmışları engelle";
  "Bağlantıdan sonra kilitle";
  "Ctrl + Alt + Del Ekle";
  "Kilit Ekle";
  "Yenile";
  "ID bulunamadı";
  "ID oluşturma sunucusuna bağlanılamadı";
  "Dağa sonra tekrar deneyiniz";
  "Uzak masaüstü kapalı";
  "Anahtar uyumlu değil";
  "Zaman aşımı";
  "Relay sunucusuna bağlanılamadı";
  "ID oluşturma sunucusuna bağlanılamadı";
  "Relay oluşturma sunucusuna bağlanılamadı";
  "Uzak masaüstüne doğrudan bağlantı kurulamadı";
  "Şifre ayarla";
  "İşletim Sistemi Şifresi";
  "Kullanıcı Hesabı Denetimi nedeniyle, RustDesk bir uzak masaüstü olarak düzgün çalışmayabilir. Bu sorunu önlemek için, RustDesk'i sistem seviyesinde kurmak için aşağıdaki butona tıklayın.";
  "Yükseltmek için tıklayınız";
  "İndirmek için tıklayınız";
  "Güncellemek için tıklayınız";
  "Ayarla";
  with_quotes ["Masaüstünüzü dışarıdan kontrol etmek için RustDesk'e "; "Erişilebilirlik"; ""];
  with_quotes ["Masaüstünüzü dışarıdan kontrol etmek için RustDesk'e "; "Ekran Kaydı"; " iznini vermeniz gerekir."];
  "Yükleniyor ...";
  "Yükle";
  "Kurulum";
  "Kurulacak olan konum";
  "Başlangıca kısayol oluştur";
  "Masaüstüne kısayol oluştur";
  "Kurulumu başlatarak, lisans sözleşmesinin şartlarını kabul etmiş olursunuz.";
  "Kabul Et ve Yükle";
  "Son kullanıcı lisans anlaşması";
  "Oluşturuluyor...";
  "Kurulumunuz alt sürümdür.";
  "Tüneli kullanırken bu pencereyi kapatmayın";
  "Dinleniyor...";
  "Uzak Sunucu";
  "Uzak Port";
  "Eylem";
  "Ekle";
  "Yerel Port";
  "Yerel Adres";
  "Yerel Port'u Değiştir";
  "Daha hızlı bağlantı için kendi sunucunuzu kurun";
  "Çok kısa en az 6 karakter gerekli.";
  "Doğrulama yapılamadı.";
  "İzinler";
  "Kabul Et";
  "Reddet";
  "Bağlanıyı kes";
  "Dosya kopyalamaya ve yapıştırmaya izin ver";
  "Bağlandı";
  "Doğrudan ve şifreli bağlantı";
  "Aktarmalı ve şifreli bağlantı";
  "Doğrudan ve şifrelenmemiş bağlantı";
  "Aktarmalı ve şifrelenmemiş bağlantı";
  "Uzak ID'yi Girin";
  "Şifrenizi girin";
  "Giriş yapılıyor...";
  "RDP oturum paylaşımını etkinleştir";
  "Otomatik giriş";
  "Doğrudan IP Erişimini Etkinleştir";
  "Yeniden adlandır";
  "Boşluk";
  "Masaüstü kısayolu oluşturun";
  "Yolu değiştir";
  "Klasör oluşturun";
  "Lütfen klasör adını girin";
  "Düzenle";
  "Uyarı";
  "Wayland kullanan giriş ekranı desteklenmiyor";
  "Yeniden başlatma gerekli";
  "Desteklenmeyen görüntü sunucusu";
  "x11 bekleniyor";
  "Port";
  "Ayarlar";
  "Kullanıcı Adı";
  "Geçersiz port";
  "Eş tarafından manuel olarak kapatıldı";
  "Uzaktan yapılandırma değişikliğini etkinleştir";
  "Yüklemeden çalıştır";
  "";
  "Always connect via relay";
  "Bu masaüstüne yalnızca yetkili IP adresleri bağlanabilir";
  "Giriş yap";
  "";
  "";
  "";
  "";
  "";
  "Çıkış yap";
  "Etiketler";
  "ID Arama";
  "Virgül, noktalı virgül, boşluk veya yeni satır ile ayrılmış";
  "ID Ekle";
  "Etiket Ekle";
  "Tüm etiketlerin seçimini kaldır";
  "Bağlantı hatası";
  "Kullanıcı adı boş";
  "Şifre boş";
  "Yanlış kimlik bilgileri";
  "";
  "Etiketi düzenle";
  "Şifreyi Unut";
  "Favoriler";
  "Favorilere ekle";
  "Favorilerden çıkar";
  "Boş";
  "Geçersiz klasör adı";
  "Socks5 Proxy";
  "Socks5/Http(s) Proxy";
  "Keşfedilenler";
  "Başlangıçta başlamak için sistem hizmetini yüklemeniz gerekir.";
  "Uzak ID";
  "Yapıştır";
  "Buraya yapıştır?";
  "Bağlantıyı kapatmak istediğinize emin misiniz?";
  "Yeni sürümü indir";
  "Dokunmatik mod";
  "Fare modu";
  "Tek Parmakla Dokunma";
  "Sol Fare";
  "Tek-Uzun Dokunma";
  "İki-Parmak Dokunma";
  "Sağ Fare";
  "Tek Parmakla Hareket";
  "Çift Dokun ve Taşı";
  "Fare Sürükleme";
  "Dikey olarak üç parmak";
  "Fare Tekerliği";
  "İki Parmakla Hareket";
  "Tuval Hareketi";
  "İki parmakla yakınlaştır";
  "Tuval Yakınlaştırma";
  "Tuvali sıfırla";
  "Dosya aktarımı izni yok";
  "Not";
  "Bağlantı";
  "Ekranı Paylaş";
  "Mesajlaş";
  "Toplam";
  "öğeler";
  "Seçildi";
  "Ekran görüntüsü";
  "Giriş Kontrolü";
  "Ses Yakalama";
  "Dosya Bağlantısı";
  "Ekran Bağlantısı";
  "Kabul ediyor musun?";
  "Sistem Ayarını Aç";
  "Android giriş izni nasıl alınır?";
  with_quotes ["Uzak bir cihazın Android cihazınızı fare veya dokunma yoluyla kontrol edebilmesi için, RustDesk'in "; "Erişilebilirlik"; " özelliğini kullanmasına izin vermelisiniz."];
  "Sonraki sistem ayarları sayfasına gidin, [Yüklü Hizmetler]'i bulun ve erişin, [RustDesk Girişi] hizmetini etkinleştirin.";
  "Yeni bir kontrol talebi alındı, cihazınızı kontrol etmesine izin verilsin mi.";
  "Ekran Yakalamanın etkinleştirilmesi, hizmeti otomatik olarak başlatacak ve diğer cihazların bu cihazdan bağlantı talep etmesine izin verecektir.";
  "Hizmetin kapatılması, kurulan tüm bağlantıları otomatik olarak kapatacaktır.";
  "Mevcut Android sürümü ses yakalamayı desteklemiyor, lütfen Android 10 veya sonraki bir sürüme yükseltin.";
  "";
  "";
  "Hesap";
  "üzerine yaz";
  "Bu dosya var, bu dosya atlansın veya üzerine yazılsın mı?";
  "Çıkış";
  "Yardım";
  "Arızalı";
  "başarılı";
  "Birisi gizlilik modunu açarsa, çık";
  "desteklenmiyor";
  "eş reddedildi";
  "Lütfen eklentileri yükleyin";
  "eş çıkışı";
  "kapatılamadı";
  "Kapatıldı";
  "Dil";
  "RustDesk arka plan hizmetini sürdürün";
  "Pil Optimizasyonlarını Yoksay";
  "";
  "";
  "";
  "bağlantıya izin verilmedi";
  "Eski mod";
  "Haritalama modu";
  "Çeviri modu";
  "Kalıcı şifre kullan";
  "İki şifreyide kullan";
  "Kalıcı şifre oluştur";
  "Uzaktan yeniden başlatmayı aktif et";
  "Uzaktaki cihazı yeniden başlat";
  "Yeniden başlatmak istediğinize emin misin?";
  "Uzaktan yeniden başlatılıyor";
  "remote_restarting_tip";
  "Kopyalandı";
  "Tam ekrandan çık";
  "Tam ekran";
  "Mobil İşlemler";
  "Monitörü Seç";
  "Kontrol Eylemleri";
  "Görüntü ayarları";
  "Oran";
  "Görüntü kalitesi";
  "Kaydırma Stili";
  "";
  "";
  "Doğrudan Bağlantı";
  "Röle Bağlantısı";
  "Güvenli bağlantı";
  "Güvenli Bağlantı";
  "Orijinali ölçeklendir";
  "Ölçek uyarlanabilir";
  "Genel";
  "Güvenlik";
  "Tema";
  "Koyu Tema";
  "";
  "Koyu";
  "Açık";
  "Sisteme Uy";
  "Donanımsal codec aktif et";
  "Güvenlik Ayarlarını Aç";
  "Sesi Aktif Et";
  "Ağ Ayarlarını Aç";
  "Sunucu";
  "Direk IP Erişimi";
  "Vekil";
  "Uygula";
  "Tüm cihazların bağlantısını kes?";
  "Temizle";
  "Ses Giriş Aygıtı";
  "IP Beyaz Listeyi Kullan";
  "Ağ";
  "";
  "";
  "Kayıt Ediliyor";
  "Klasör";
  "Gelen oturumları otomatik olarak kayıt et";
  "";
  "Değiştir";
  "Oturum kaydını başlat";
  "Oturum kaydını sonlandır";
  "Kayıt Oturumunu Aktif Et";
  "Yerel Ağ Keşfine İzin Ver";
  "Yerl Ağ Keşfine İzin Verme";
  "Bir mesaj yazın";
  "İstem";
  "UAC onayı için lütfen bekleyiniz...";
  "elevated_foreground_window_tip";
  "Bağlantı Kesildi";
  "Diğer";
  "Çoklu sekmeleri kapatmadan önce onayla";
  "Klavye Ayarları";
  "Tam Erişim";
  "Ekran Paylaşımı";
  "Wayland, Ubuntu 21.04 veya daha yüksek bir sürüm gerektirir.";
  "Wayland, linux dağıtımının daha yüksek bir sürümünü gerektirir. Lütfen X11 masaüstünü deneyin veya işletim sisteminizi değiştirin.";
  "View";
  "Lütfen paylaşılacak ekranı seçiniz (Ekran tarafında çalıştırın).";
  "RustDesk'i Göster";
  "Bu PC";
  "veya";
  "bununla devam et";
  "Yükseltme";
  "Yakınlaştırma imleci";
  "Oturumları parola ile kabul etme";
  "Tıklama yoluyla oturumları kabul edin";
  "Her ikisi aracılığıyla oturumları kabul edin";
  "Lütfen uzak tarafın oturum isteğinizi kabul etmesini bekleyin...";
  "Tek Kullanımlık Şifre";
  "Tek seferlik parola kullanın";
  "Tek seferlik şifre uzunluğu";
  "Cihazınıza erişim talep edin";
  "Bağlantı yönetimi penceresini gizle";
  "Oturumları yalnızca parola ile kabul edebilir ve kalıcı parola kullanıyorsanız gizlemeye izin verin";
  "Wayland desteği deneysel aşamada olduğundan, gerektiğinde X11'i kullanmanız önerilir";
  "Sekmeleri seçmek için sağ tıklayın";
  "Atlandı";
  "Adres Defterine Ekle";
  "Grup";
  "Ara";
  "Web konsoluyla manuel olarak kapatıldı";
  "Yerel klavye türü";
  "Yerel klavye türünü seçin";
  "Linux altında Nvidia grafik kartı kullanıyorsanız ve uzak pencere bağlandıktan hemen sonra kapanıyorsa, açık kaynaklı Nouveau sürücüsüne geçmeyi ve yazılım renderleme seçeneğini seçmeyi deneyin. Yazılımı yeniden başlatmanız gerekebilir.";
  "Her zaman yazılım renderleme kullan";
  with_quotes ["Uzaktaki masaüstünü klavye ile kontrol etmek için RustDesk'e "; "Giriş İzleme"; " izinleri vermelisiniz."];
  with_quotes ["Uzaktan konuşmak için RustDesk'e "; "Ses Kaydı"; " izinleri vermelisiniz."];
  "Ayrıca, uzak tarafta biri varsa yükseltme isteğinde bulunabilirsiniz.";
  "Bekle";
  "Yükseltme Hatası";
  "Uzaktaki kullanıcıdan kimlik doğrulamasını isteyin";
  "Uzak hesap yönetici ise bunu seçin";
  "Yönetici kullanıcı adı ve parolasını iletim yapın";
  "Uzaktaki kullanıcının çalışan RustDesk'in UAC penceresinde hala Tamam'ı tıklaması gerekmektedir.";
  "Yükseltme İsteği";
  "Lütfen uzaktaki kullanıcının UAC iletişim kutusunu kabul etmesini bekleyin.";
  "Başarıyla yükseltildi";
  "büyük harf";
  "küçük harf";
  "rakam";
  "özel karakter";
  "uzunluk>=8";
  "Zayıf";
  "Orta";
  "Güçlü";
  "Tarafları Değiştir";
  "Masaüstünüzü paylaşmak isteyip istemediğinizi onaylayın?";
  "Görüntüle";
  "Varsayılan Görünüm Stili";
  "Varsayılan Kaydırma Stili";
  "Varsayılan Görüntü Kalitesi";
  "Varsayılan Kodlayıcı";
  "Bit Hızı";
  "FPS";
  "Otomatik";
  "Diğer Varsayılan Seçenekler";
  "Sesli görüşme";
  "Metin sohbeti";
  "Sesli görüşmeyi durdur";
  with_quotes ["Doğrudan bağlanmak mümkün olmayabilir; röle aracılığıyla bağlanmayı deneyebilirsiniz. Ayrıca, ilk denemenizde bir röle kullanmak istiyorsanız, ID'nin sonuna "; "/r"; " ekleyebilir veya son oturum kartındaki "; "Her Zaman Röle Üzerinden Bağlan"; " seçeneğini seçebilirsiniz."];
  "Yeniden Bağlan";
  "Kodlayıcı";
  "Çözünürlük";
  "Devam eden aktarımlar yok";
  "Bir seferlik parola uzunluğunu ayarla";
  "RDP Ayarları";
  "Sırala";
  "Yeni Bağlantı";
  "Geri Yükle";
  "Simge Durumuna Küçült";
  "Büyüt";
  "Cihazınız";
  "Üzgünüz, henüz son oturum yok!\nYeni bir plan yapma zamanı.";
  "Henüz favori cihazınız yok mu?\nBağlanacak ve favorilere eklemek için birini bulalım!";
  "Hayır, henüz hiçbir cihaz bulamadık gibi görünüyor.";
  "Üzgünüm, şu anda adres defterinizde kayıtlı cihaz yok gibi görünüyor.";
  "örn: admin";
  "Boş Kullanıcı Adı";
  "Boş Parola";
  "Ben";
  "Bu dosya, cihazın dosyası ile aynıdır.";
  "Monitörleri araç çubuğunda göster";
  "Görünüm Modu";
  "X masaüstü oturumu başlatmak için uzaktaki Linux hesabına giriş yapmanız gerekiyor";
  "RustDesk parolasını doğrulayın";
  "Bu hesabı hatırla";
  "Bu hesap, uzaktaki işletim sistemine giriş yapmak ve başsız masaüstü oturumunu etkinleştirmek için kullanılır.";
  "İşletim Sistemi Hesabı";
  "Başka bir kullanıcı zaten oturum açtı";
  "Bağlantıyı Kapat";
  "Xorg bulunamadı";
  "Lütfen Xorg'u yükleyin";
  "Masaüstü mevcut değil";
  "Lütfen GNOME masaüstünü yükleyin";
  "Yükseltmeye gerek yok";
  "Sistem Ses";
  "Varsayılan";
  "Yeni RDP";
  "Parmak İzi";
  "Parmak İzini Kopyala";
  "parmak izi yok";
  "Bir cihaz seçin";
  "Cihazları seçin";
  "Eklentiler";
  "Kaldır";
  "Güncelle";
  "Etkinleştir";
  "Devre Dışı Bırak";
  "Seçenekler";
  "Orijinal çözünürlük";
  "Yerel çözünürlüğe sığdır";
  "Özel çözünürlük";
  "Araç çubuğunu daralt";
  "Kabul et ve yükselt";
  "Bağlantıyı kabul et ve UAC izinlerini yükselt.";
  "Kopyalama yanıtı için zaman aşımına uğradı.";
  "Gelen bağlantı";
  "Giden bağlantı";
  "Çıkış";
  "Aç";
  "Çıkış yapmak istediğinizden emin misiniz?";
  "Hizmet";
  "Başlat";
  "Durdur";
  "Yönetilen cihazların maksimum sayısına ulaştınız.";
  "Son oturumlarla senkronize et";
  "Etiketleri sırala";
  "Bağlantıyı yeni sekmede aç";
  "Sekmeyi yeni pencereye taşı";
  "Boş olamaz";
  "Zaten var";
  "Parolayı Değiştir";
  "Parolayı Yenile";
  "Kimlik";
  "Izgara Görünümü";
  "Liste Görünümü";
  "Seç";
  "Etiketleri Değiştir";
  "Adres defterini yenileyemedi";
  "Adres defterini sunucuya senkronize edemedi";
  "Son oturumlar listesinde bulunan cihazlar adres defterine geri senkronize edilecektir.";
  "Rengi Değiştir";
  "Birincil Renk";
  "HSV Rengi";
  "";
  "";
  "";
  "";
  "";
  "";
  "";
  "";
  "";
  "";
  "";
  "";
  "";
  "";
  "";
  "";
  "";
  "";
  "";
  "";
  "";
  "";
  "";
  "";
  "";
  "";
  "";
  "";
  "";
  "";
  "";
  "";
  "";
  "";
  "";
  "";
  "";
  "";
  "";
  "";
  "";
  "";
  "";
  "";
  "";
  "";
  "";
  "";
  "";
  "";
  "";
  "";
  "";
  "";
  "";
  "";
  "";
  "";
  "";
  "";
  "";
  "";
  "";
  "";
  "";
  "";
  "";
  "";
  "";
  "";
  "";
  "";
  "";
  "";
  "";
  "";
  "";
  "";
  "";
  "";
  "";
  "";
  "";
  "";
  "";
  "";
  "";
  "";
  "";
  "";
  "";
  "";
  "";
  "";
  "";
  "";
  "";
  "";
  "";
  "";
  "";
  "";
  "";
  "";
  "";
  "";
  "";
  "";
  "";
  "";
  "";
  "";
  "";
  "";
  "";
  "";
  "";
  "";
  "";
  "";
  "";
  "";
  "";
  "";
  "";
  ""].
(** [LANGS.tw] *)
Definition lang_tw : jsmap string string := texts [
  "狀態";
  "您的桌面";
  "您可以透過此 ID 及密碼存取您的桌面";
  "密碼";
  "就緒";
  "已建立";
  "正在連線到 RustDesk 網路...";
  "啟用服務";
  "啟動服務";
  "服務正在執行";
  "服務尚未執行";
  "尚未就緒，請檢查您的網路連線。";
  "控制遠端桌面";
  "傳輸檔案";
  "連線";
  "近期的工作階段";
  "通訊錄";
  "確認";
  "TCP 通道";
  "移除";
  "重新產生隨機密碼";
  "自行設定密碼";
  "啟用鍵盤和滑鼠";
  "啟用剪貼簿";
  "啟用檔案傳輸";
  "啟用 TCP 通道";
  "IP 白名單";
  "ID / 中繼伺服器";
  "匯入伺服器設定";
  "匯出伺服器設定";
  "匯入伺服器設定成功";
  "匯出伺服器設定成功";
  "無效的伺服器設定";
  "剪貼簿是空的";
  "停止服務";
  "更改 ID";
  "您的新 ID";
  "長度在 %min% 與 %max% 之間";
  "以字母開頭";
  "允許的字元";
  "僅能使用以下字元：a-z、A-Z、0-9, - (dash)、_ (底線)。第一個字元必須為 a-z 或 A-Z。長度介於 6 到 16 之間。";
  "網站";
  "關於";
  "在這個混沌的世界中用心製作！";
  "隱私權宣告";
  "靜音";
  "建構日期";
  "版本";
  "首頁";
  "音訊輸入";
  "增強功能";
  "硬體編解碼器";
  "自適應位元速率";
  "ID 伺服器";
  "中繼伺服器";
  "API 伺服器";
  "開頭必須為 http:// 或 https://";
  "IP 無效";
  "格式無效";
  "伺服器尚未支援";
  "無法使用";
  "修改過於頻繁，請稍後再試。";
  "取消";
  "跳過";
  "關閉";
  "重試";
  "確定";
  "需要密碼";
  "請輸入您的密碼";
  "記住密碼";
  "密碼錯誤";
  "您要重新輸入嗎？";
  "連線錯誤";
  "錯誤";
  "對方重設了連線";
  "正在連線...";
  "正在連線，請稍候。";
  "請於 1 分鐘後再試";
  "登入錯誤";
  "成功";
  "已連線，等待畫面傳輸...";
  "名稱";
  "類型";
  "修改時間";
  "大小";
  "顯示隱藏檔案";
  "接收";
  "傳送";
  "重新整理檔案";
  "本機";
  "遠端";
  "遠端電腦";
  "本機電腦";
  "確認刪除";
  "刪除";
  "屬性";
  "多選";
  "全選";
  "取消全選";
  "空資料夾";
  "不是一個空資料夾";
  "您確定要刪除此檔案嗎？";
  "您確定要刪除此空資料夾嗎？";
  "您確定要刪除此資料夾中的檔案嗎？";
  "套用到其他衝突";
  "此操作不可逆！";
  "正在刪除...";
  "檔案";
  "正在等候...";
  "已完成";
  "速度";
  "自訂畫面品質";
  "隱私模式";
  "封鎖使用者輸入";
  "取消封鎖使用者輸入";
  "調整視窗";
  "原始";
  "縮減";
  "延展";
  "捲動條";
  "自動捲動";
  "最佳化畫面品質";
  "平衡";
  "最佳化反應時間";
  "自訂";
  "顯示遠端游標";
  "顯示品質監測";
  "停用剪貼簿";
  "工作階段結束後鎖定電腦";
  "插入 Ctrl + Alt + Del";
  "鎖定遠端電腦";
  "重新載入";
  "ID 不存在";
  "無法連線到 ID 伺服器";
  "請稍候再試";
  "遠端桌面已離線";
  "金鑰不符";
  "逾時";
  "無法連線到中繼伺服器";
  "無法透過 ID 伺服器連線";
  "無法透過中繼伺服器連線";
  "無法直接連線到遠端桌面";
  "設定密碼";
  "作業系統密碼";
  "UAC 會導致 RustDesk 在某些情況下無法正常作為遠端端點運作。若要避開 UAC，請點選下方按鈕將 RustDesk 安裝到系統中。";
  "點選以升級";
  "點選以下載";
  "點選以更新";
  "設定";
  "為了遠端控制您的桌面，您需要授予 RustDesk「無障礙功能」權限。";
  "為了遠端存取您的桌面，您需要授予 RustDesk「螢幕錄製」權限。";
  "正在安裝...";
  "安裝";
  "安裝";
  "安裝路徑";
  "新增開始功能表捷徑";
  "新增桌面捷徑";
  "開始安裝即表示您接受授權條款。";
  "接受並安裝";
  "終端使用者授權合約";
  "正在產生...";
  "您安裝的版本過舊。";
  "在使用通道時請不要關閉此視窗";
  "正在等待通道連線...";
  "遠端主機";
  "遠端連接埠";
  "操作";
  "新增";
  "本機連接埠";
  "本機位址";
  "修改本機連接埠";
  "若您需要更快的連線速度，您可以選擇自行建立伺服器";
  "過短，至少需要 6 個字元。";
  "兩次輸入不相符";
  "權限";
  "接受";
  "關閉";
  "中斷連線";
  "允許檔案複製和貼上";
  "已連線";
  "加密直接連線";
  "加密中繼連線";
  "直接且未加密的連線";
  "中繼且未加密的連線";
  "輸入遠端 ID";
  "輸入您的密碼";
  "正在登入...";
  "啟用 RDP 工作階段分享";
  "自動登入 (只在您設定「工作階段結束後鎖定」時有效)";
  "啟用 IP 直接存取";
  "重新命名";
  "空白";
  "新增桌面捷徑";
  "更改路徑";
  "新增資料夾";
  "請輸入資料夾名稱";
  "修復";
  "警告";
  "不支援使用 Wayland 的登入畫面";
  "需要重新啟動";
  "不支援的顯示伺服器";
  "預期為 x11";
  "連接埠";
  "設定";
  "使用者名稱";
  "連接埠無效";
  "對方關閉了工作階段";
  "允許遠端使用者更改設定";
  "跳過安裝直接執行";
  "中繼連線";
  "一律透過中繼連線";
  "只有白名單上的 IP 可以存取";
  "登入";
  "驗證";
  "記住我";
  "信任這部裝置";
  "驗證碼";
  "驗證碼已傳送到註冊的電子郵件地址，請輸入驗證碼以繼續登入。";
  "登出";
  "標籤";
  "搜尋 ID";
  "使用逗號、分號、空格，或是換行來分隔";
  "新增 ID";
  "新增標籤";
  "取消選取所有標籤";
  "網路錯誤";
  "缺少使用者名稱";
  "缺少密碼";
  "登入資訊錯誤";
  "驗證碼錯誤或已過期";
  "編輯標籤";
  "忘記密碼";
  "我的最愛";
  "加入我的最愛";
  "從我的最愛中移除";
  "空空如也";
  "資料夾名稱無效";
  "Socks5 代理伺服器";
  "Socks5/Http(s) 代理伺服器";
  "已探索";
  "若要在開機時啟動，您需要安裝系統服務。";
  "遠端 ID";
  "貼上";
  "在此貼上？";
  "您確定要關閉連線嗎？";
  "下載新版本";
  "觸控模式";
  "滑鼠模式";
  "單指輕觸";
  "滑鼠左鍵";
  "單指長按";
  "雙指輕觸";
  "滑鼠右鍵";
  "單指移動";
  "點兩下並移動";
  "滑鼠拖曳";
  "三指垂直滑動";
  "滑鼠滾輪";
  "雙指移動";
  "移動畫布";
  "雙指縮放";
  "縮放畫布";
  "重設畫布";
  "沒有檔案傳輸權限";
  "備註";
  "連線";
  "螢幕分享";
  "聊天";
  "總計";
  "個項目";
  "已選擇";
  "畫面錄製";
  "輸入控制";
  "音訊錄製";
  "檔案連線";
  "畫面連線";
  "是否接受？";
  "開啟系統設定";
  "如何取得 Android 的輸入權限？";
  "為了讓遠端裝置能夠透過滑鼠或觸控控制您的 Android 裝置，您需要允許 RustDesk 使用「輔助功能」服務。";
  "請前往下一個系統設定頁面，找到並進入「已安裝的服務」，開啟「RustDesk Input」服務。";
  "收到新的控制請求，對方想要控制您目前的裝置。";
  "開啟「畫面錄製」將自動啟動服務，允許其他裝置向您的裝置請求連線。";
  "關閉服務將自動關閉所有已建立的連線。";
  "目前的 Android 版本不支援音訊錄製，請升級至 Android 10 或更新的版本。";
  "點選「啟動服務」或啟用「畫面錄製」權限以啟動螢幕分享服務。";
  "已建立連線的權限可能不會立即改變，除非重新連線。";
  "帳號";
  "取代";
  "此檔案/資料夾已存在，要略過或是取代此檔案嗎？";
  "退出";
  "說明";
  "失敗";
  "成功";
  "有人開啟了隱私模式，退出";
  "不支援";
  "對方拒絕";
  "請安裝外掛程式";
  "對方退出";
  "關閉失敗";
  "已關閉";
  "語言";
  "保持 RustDesk 後台服務";
  "忽略電池最佳化";
  "如果您想要停用此功能，請前往下一個 RustDesk 應用程式設定頁面，找到並進入「電池」，取消勾選「不受限制」";
  "開機時啟動";
  "開機時啟動螢幕分享服務，需要特殊權限。";
  "不允許連線";
  "傳統模式";
  "1:1 傳輸模式";
  "翻譯模式";
  "使用固定密碼";
  "同時使用兩種密碼";
  "設定固定密碼";
  "啟用遠端重新啟動";
  "重新啟動遠端裝置";
  "您確定要重新啟動嗎？";
  "正在重新啟動遠端裝置";
  "遠端裝置正在重新啟動，請關閉此對話框，並在一段時間後使用永久密碼重新連線";
  "已複製";
  "退出全螢幕";
  "全螢幕";
  "手機操作";
  "選擇顯示器";
  "控制操作";
  "顯示設定";
  "比例";
  "畫質";
  "捲動樣式";
  "顯示工具列";
  "隱藏工具列";
  "直接連線";
  "中繼連線";
  "安全連線";
  "非安全連線";
  "原始尺寸";
  "適應視窗";
  "一般";
  "安全";
  "主題";
  "黑暗主題";
  "明亮主題";
  "黑暗";
  "明亮";
  "跟隨系統";
  "啟用硬體編解碼器";
  "解鎖安全設定";
  "啟用音訊";
  "解鎖網路設定";
  "伺服器";
  "IP 直接連線";
  "代理伺服器";
  "套用";
  "是否中斷所有遠端連線？";
  "清空";
  "音訊輸入裝置";
  "只允許白名單上的 IP 進行連線";
  "網路";
  "釘選工具列";
  "取消釘選工具列";
  "錄製";
  "路徑";
  "自動錄製連入的工作階段";
  "自動錄製連出的工作階段";
  "變更";
  "開始錄影";
  "停止錄影";
  "啟用錄製工作階段";
  "允許區域網路探索";
  "拒絕區域網路探索";
  "輸入聊天訊息";
  "提示";
  "請等待對方確認 UAC...";
  "目前遠端桌面的視窗需要更高的權限才能繼續操作，您暫時無法使用滑鼠和鍵盤，您可以請求對方最小化目前視窗，或者在連線管理視窗點選提升權限。為了避免這個問題，建議在遠端裝置上安裝本軟體。";
  "斷開連線";
  "其他";
  "關閉多個分頁前詢問我";
  "鍵盤設定";
  "完全存取";
  "僅分享螢幕畫面";
  "Wayland 需要 Ubuntu 21.04 或更新的版本。";
  "Wayland 需要更新版的 Linux 發行版。請嘗試使用 X11 桌面或更改您的作業系統。";
  "查看";
  "請選擇要分享的螢幕畫面（在對方的裝置上操作）。";
  "顯示 RustDesk";
  "此電腦";
  "或";
  "繼續";
  "提升權限";
  "縮放游標";
  "只允許透過輸入密碼進行連線";
  "只允許透過點選接受進行連線";
  "允許輸入密碼或點選接受進行連線";
  "請等待對方接受您的連線請求...";
  "一次性密碼";
  "使用一次性密碼";
  "一次性密碼長度";
  "請求存取您的裝置";
  "隱藏連線管理視窗";
  "只在允許密碼連線且使用固定密碼的情況下才隱藏";
  "目前對於 Wayland 的支援處於實驗階段，如果您需要使用無人值守存取，請使用 X11。";
  "右鍵選擇分頁";
  "已跳過";
  "新增到通訊錄";
  "群組";
  "搜尋";
  "被 Web 控制台手動關閉";
  "本機鍵盤類型";
  "請選擇本機鍵盤類型";
  "如果您使用 Nvidia 顯示卡，並且遠端視窗在建立連線後會立刻關閉，那麼請安裝 nouveau 顯示卡驅動程式並且選擇使用軟體繪製可能會有幫助。重新啟動軟體後生效。";
  "使用軟體繪製";
  "為了能夠透過鍵盤控制遠端桌面，請給予 RustDesk「輸入監控」權限。";
  "為了支援透過麥克風進行音訊傳輸，請給予 RustDesk「錄音」權限。";
  "如果遠端使用者可以操作電腦，您可以請求提升權限。";
  "等待";
  "權限提升失敗";
  "請求遠端使用者進行驗證驗證";
  "當遠端使用者帳戶是管理員時，請選擇此選項";
  "傳送管理員的使用者名稱和密碼";
  "依然需要遠端使用者在執行 RustDesk 時於 UAC 視窗點選「是」。";
  "請求權限提升";
  "請等待遠端使用者確認 UAC 對話框。";
  "權限提升成功";
  "大寫字母";
  "小寫字母";
  "數字";
  "特殊字元";
  "長度大於或等於 8";
  "弱";
  "中";
  "強";
  "反轉存取方向";
  "請確認是否要讓對方存取您的桌面？";
  "顯示";
  "預設顯示方式";
  "預設捲動方式";
  "預設影像品質";
  "預設編解碼器";
  "位元速率";
  "FPS";
  "自動";
  "其他預設選項";
  "語音通話";
  "文字聊天";
  "停止語音通話";
  "可能無法使用直接連線，您可以嘗試中繼連線。\n另外，如果想要直接使用中繼連線，您可以在 ID 後面新增「/r」，或是如果近期的工作階段裡存在該裝置，您也可以在裝置選項裡選擇「一律透過中繼連線」。";
  "重新連線";
  "編解碼器";
  "解析度";
  "沒有正在進行的傳輸";
  "設定一次性密碼的長度";
  "RDP 設定";
  "排序方式";
  "新連線";
  "還原";
  "最小化";
  "最大化";
  "您的裝置";
  "哎呀，沒有近期的工作階段！\n是時候安排點新工作了。";
  "空空如也";
  "喔不，看來我們目前找不到任何夥伴。";
  "老天，看來您的通訊錄中沒有任何夥伴。";
  "例如：admin";
  "空使用者帳號";
  "空密碼";
  "我";
  "此檔案與對方的檔案一致。";
  "在工具列中顯示顯示器";
  "瀏覽模式";
  "需要登入到遠端 Linux 使用者帳戶才能啟用 X 桌面環境";
  "驗證 RustDesk 密碼";
  "記住此使用者帳戶";
  "此使用者帳戶將用於登入遠端作業系統並啟用無頭模式 (headless mode) 的桌面連線";
  "作業系統使用者帳戶";
  "另一個使用者已經登入";
  "斷開連線";
  "找不到 Xorg";
  "請安裝 Xorg";
  "沒有可用的桌面環境";
  "請安裝 GNOME 桌面";
  "不需要提升權限";
  "系統音效";
  "預設";
  "新的 RDP";
  "指紋";
  "複製指紋";
  "沒有指紋";
  "選擇夥伴";
  "選擇夥伴";
  "外掛程式";
  "解除安裝";
  "更新";
  "啟用";
  "停用";
  "選項";
  "原始解析度";
  "調整成本機解析度";
  "自動解析度";
  "收回工具列";
  "接受並提升權限";
  "接受連線並提升 UAC 權限。";
  "等待複製回應逾時。";
  "傳入的連線";
  "發起的連線";
  "退出";
  "開啟";
  "您確定要登出嗎？";
  "服務";
  "啟動";
  "停止";
  "您的已管理裝置已超過最大數量。";
  "與近期工作階段同步";
  "排序標籤";
  "在新分頁開啟連線";
  "移動標籤到新視窗";
  "不能為空";
  "已經存在";
  "更改密碼";
  "重新整理密碼";
  "ID";
  "網格檢視";
  "清單檢視";
  "選擇";
  "切換標籤";
  "通訊錄更新失敗";
  "成功同步通訊錄至伺服器";
  "最近工作階段中存在的裝置將會被重新同步到通訊錄。";
  "更改顏色";
  "基本色";
  "HSV 色";
  "安裝成功！";
  "安裝失敗！";
  "滑鼠滾輪反向";
  "{} 個工作階段";
  "您可能遭遇詐騙！";
  "如果您正在和素不相識的人通話，而對方要求您使用 RustDesk 啟用服務，請勿繼續操作並立即掛斷電話。";
  "他們很可能是詐騙，試圖竊取您的金錢或其他個人資料。";
  "下次不再顯示";
  "同意";
  "拒絕";
  "超時（分鐘）";
  "自動在連入的使用者不活躍時關閉工作階段";
  "由於長時間沒有操作，已自動關閉工作階段";
  "啟動時檢查更新";
  "請升級專業版伺服器到{}或更高版本！";
  "獲取群組訊息失敗";
  "按照交集篩選";
  "在接受連入連線時移除桌布";
  "測試";
  "螢幕已被拔除，切換到第一個螢幕。";
  "沒有已連結的螢幕";
  "在新視窗中開啟";
  "在各別的視窗開啟螢幕畫面";
  "使用所有的螢幕用於遠端連線";
  "SELinux 處於啟用狀態，RustDesk 可能無法作為被控端正常運作。";
  "更改檢視方式";
  "大磁磚";
  "小磁磚";
  "清單";
  "虛擬螢幕";
  "拔出所有";
  "全彩模式（4:4:4）";
  "允許封鎖使用者輸入";
  "您可以輸入 ID、IP、或網域名稱+連接埠（<網域名稱>:<連接埠>）。\n如果您要存取位於其他伺服器上的裝置，請在 ID 之後新增伺服器位址（<ID>@<伺服器位址>?key=<金鑰>）\n例如：9123456234@192.168.16.1:21117?key=5Qbwsde3unUcJBtrx9ZkvUmwFNoExHzpryHuPUdqlWM=\n要存取公共伺服器上的裝置，請輸入「<id>@public」，不需輸入金鑰。\n\n如果您想要在第一次連線時，強制使用中繼連線，請在 ID 的結尾新增「/r」，例如，「9123456234/r」。";
  "模式 1";
  "模式 2";
  "進入隱私模式";
  "退出隱私模式";
  "不支援 Indirect display driver。需要 Windows 10 版本 2004 以上版本。";
  "輸入源 1";
  "輸入源 2";
  "交換 Control 和 Command 按鍵";
  "交換滑鼠左右鍵";
  "二步驟驗證碼";
  "更多";
  "啟用二步驟驗證";
  "現在請您設定您的二步驟驗證程式。您可以在手機或電腦使用 Authy、Microsoft 或 Google Authenticator 等驗證器程式。\n\n用它掃描QR Code或輸入下方金鑰至您的驗證器，然後輸入顯示的驗證碼以啟用二步驟驗證。";
  "無法驗證此驗證碼。請確認您的驗證碼和您的本機時間設定是正確的";
  "二步驟驗證";
  "電子郵件驗證碼必須是 6 個字元。";
  "二步驟驗證碼必須是 6 位數字。";
  "發現多個 Windows 工作階段";
  "請選擇您想要連結的工作階段";
  "由 RustDesk 提供支援";
  "目前版本的軟體是自訂版本。\n您可以連線至其他裝置，但是其他裝置無法連線至您的裝置。";
  "此客製化版本附有預設密碼。任何知曉此密碼的人都能完全控制您的裝置。如果這不是您所預期的，請立即移除此軟體。";
  "安全警告";
  "我的通訊錄";
  "個人的";
  "擁有者";
  "設定共用密碼";
  "存在於";
  "唯讀";
  "讀寫";
  "完全控制";
  "上述的欄位為共用且對其他人可見。";
  "所有人";
  "開啟 Web 控制台以進行更多操作";
  "只在 RustDesk 視窗開啟時允許連接";
  "沒有物理螢幕，沒必要使用隱私模式。";
  "跟隨遠端游標";
  "跟隨遠端視窗焦點";
  "預設代理協定及通訊埠為 Socks5 和 1080";
  "未找到音訊輸入裝置";
  "連入";
  "連出";
  "清除 Wayland 的螢幕選擇";
  "清除 Wayland 的螢幕選擇後，您可以重新選擇分享的螢幕。";
  "是否確認清除 Wayland 的分享螢幕選擇？";
  "收到新的語音通話請求。如果您接受，音訊將切換為語音通訊。";
  "使用紋理繪製，讓圖片更加順暢。如果您遭遇繪製問題，可嘗試關閉此選項。";
  "使用紋理繪製";
  "懸浮視窗";
  "有助於保持 RustDesk 後台服務";
  "保持螢幕開啟";
  "從不";
  "被控期間";
  "服務開啟期間";
  "使用 DirectX 擷取螢幕";
  "返回";
  "應用程式";
  "提高音量";
  "降低音量";
  "電源";
  "Telegram 機器人";
  "如果您啟用此功能，您可以從您的機器人接收二步驟驗證碼，亦可作為連線通知之用。";
  "1. 開啟與 @BotFather 的對話。\n2. 傳送指令「/newbot」。您將會在完成此步驟後收到權杖 (Token)。\n3. 開始與您剛創立的機器人的對話。傳送一則以正斜線 (「/」) 開頭的訊息來啟用它，例如「/hello」。";
  "確定要取消二步驟驗證嗎？";
  "確定要取消 Telegram 機器人嗎？";
  "關於 RustDesk";
  "傳送剪貼簿按鍵";
  "請檢查網路連結，然後點選重試";
  "使用 PIN 碼解鎖設定";
  "不少於 {} 個字元";
  "PIN 碼錯誤";
  "設定 PIN 碼";
  "啟用信任裝置";
  "管理信任裝置";
  "平台";
  "剩餘天數";
  "允許受信任的裝置跳過 2FA 驗證";
  "父目錄";
  "繼續";
  "無效檔名";
  "被控端啟用了單向檔案傳輸";
  "需要驗證驗證";
  "認證";
  "您可以輸入同一個伺服器內的 ID，Web 用戶端不支援直接 IP 存取。\n如果您要存取位於其他伺服器上的裝置，請在 ID 之後新增伺服器位址（<ID>@<伺服器位址>?key=<金鑰>）\n例如：9123456234@192.168.16.1:21117?key=5Qbwsde3unUcJBtrx9ZkvUmwFNoExHzpryHuPUdqlWM=\n要存取公共伺服器上的裝置，請輸入「<id>@public」，不需輸入金鑰。";
  "下載";
  "上傳資料夾";
  "上傳檔案";
  "剪貼簿已同步";
  "更新客戶端的剪貼簿";
  "無標籤";
  "有新版本的 {} 可用";
  ""].
(** [LANGS.uk] *)
Definition lang_uk : jsmap string string := texts [
  "Статус";
  "Ваша стільниця";
  "Доступ до вашої стільниці можливий з цим ID та паролем.";
  "Пароль";
  "Готово";
  "Встановлено";
  "Підключення до мережі RustDesk...";
  "Увімкнути службу";
  "Запустити службу";
  "Служба працює";
  "Служба не запущена";
  "Не готово. Будь ласка, перевірте ваше підключення";
  "Керування віддаленою стільницею";
  "Надіслати файл";
  "Підключитися";
  "Нещодавні сеанси";
  "Адресна книга";
  "Підтвердження";
  "TCP-тунелювання";
  "Видалити";
  "Оновити випадковий пароль";
  "Встановити свій пароль";
  "Увімкнути клавіатуру/мишу";
  "Увімкнути буфер обміну";
  "Увімкнути передачу файлів";
  "Увімкнути тунелювання TCP";
  "Список дозволених IP-адрес";
  "ID/Сервер ретрансляції";
  "Імпортувати конфігурацію сервера";
  "Експортувати конфігурацію сервера";
  "Конфігурацію сервера успішно імпортовано";
  "Конфігурацію сервера успішно експортовано";
  "Неправильна конфігурація сервера";
  "Буфер обміну порожній";
  "Зупинити службу";
  "Змінити ID";
  "Ваш новий ID";
  "від %min% до %max% символів";
  "починається з літери";
  "дозволені символи";
  "Допускаються лише символи a-z, A-Z, 0-9, - (dash) і _ (підкреслення). Першою повинна бути літера a-z, A-Z. Довжина — від 6 до 16 символів";
  "Веб-сайт";
  "Про застосунок";
  "Створено з душею в цьому хаотичному світі!";
  "Декларація про конфіденційність";
  "Вимкнути звук";
  "Дата збірки";
  "Версія";
  "Домівка";
  "Аудіовхід";
  "Покращення";
  "Апаратний кодек";
  "Адаптивна швидкість потоку";
  "ID-сервер";
  "Сервер ретрансляції";
  "API-сервер";
  "Повинна починатися з http:// або https://";
  "Неправильна IP-адреса";
  "Неправильний формат";
  "Наразі не підтримується сервером";
  "Недоступно";
  "Занадто часто";
  "Скасувати";
  "Пропустити";
  "Закрити";
  "Повторити";
  "OK";
  "Потрібен пароль";
  "Будь ласка, введіть ваш пароль";
  "Запамʼятати пароль";
  "Неправильний пароль";
  "Бажаєте увійти знову?";
  "Помилка підключення";
  "Помилка";
  "Віддалений пристрій скинув підключення";
  "Підключення...";
  "Виконується підключення. Будь ласка, зачекайте.";
  "Спробуйте через 1 хвилину";
  "Помилка входу";
  "Операція успішна";
  "Підключено, очікування зображення...";
  "Імʼя";
  "Тип";
  "Змінено";
  "Розмір";
  "Показати приховані файли";
  "Отримати";
  "Надіслати";
  "Оновити файл";
  "Локальний";
  "Віддалений";
  "Віддалений компʼютер";
  "Локальний компʼютер";
  "Підтвердити видалення";
  "Видалити";
  "Властивості";
  "Багатоелементний вибір";
  "Вибрати все";
  "Скасувати вибір";
  "Порожня тека";
  "Тека не порожня";
  "Ви впевнені, що хочете видалити цей файл?";
  "Ви впевнені, що хочете видалити порожню теку?";
  "Ви впевнені, що хочете видалити файл із цієї теки?";
  "Це стосується всіх конфліктів";
  "Це незворотна дія!";
  "Видалення";
  "файли";
  "Очікування";
  "Завершено";
  "Швидкість";
  "Користувацька якість зображення";
  "Режим конфіденційності";
  "Блокувати користувацьке введення";
  "Розблокувати користувацьке введення";
  "Налаштувати вікно";
  "Оригінал";
  "Зменшити";
  "Розтягнути";
  "Смужка гортання";
  "Автоматичне гортання";
  "Гарна якість зображення";
  "Збалансована";
  "Оптимізувати час реакції";
  "Користувацька";
  "Показати віддалений вказівник";
  "Показати якість";
  "Вимкнути буфер обміну";
  "Блокування після завершення сеансу";
  "Вставити Ctrl + Alt + Del";
  "Встановити замок";
  "Оновити";
  "ID не існує";
  "Не вдалося підключитися до сервера рандеву";
  "Будь ласка, спробуйте пізніше";
  "Віддалена стільниця не в мережі";
  "Невідповідність ключів";
  "Час очікування";
  "Не вдалося підключитися до сервера ретрансляції";
  "Не вдалося підключитися через сервер рандеву";
  "Не вдалося підключитися через сервер ретрансляції";
  "Не вдалося встановити пряме підключення до віддаленої стільниці";
  "Встановити пароль";
  "Пароль ОС";
  "Через UAC, в деяких випадках RustDesk може працювати некоректно на віддаленому вузлі. Щоб уникнути UAC, натисніть кнопку нижче для встановлення RustDesk в системі";
  "Натисніть, щоб перевірити наявність оновлень";
  "Натисніть, щоб отримати";
  "Натисніть, щоб оновити";
  "Налаштувати";
  with_quotes ["Для віддаленого керування вашою стільницею, вам необхідно надати RustDesk дозволи "; "Спеціальні можливості"; ""];
  with_quotes ["Для віддаленого доступу до вашої стільниці, вам необхідно надати RustDesk дозволи на "; "Запис екрана"; ""];
  "Встановлюється...";
  "Встановити";
  "Встановлення";
  "Шлях встановлення";
  with_quotes ["Створити ярлики меню "; "Пуск"; ""];
  "Створити піктограму на стільниці";
  "Починаючи встановлення, ви приймаєте умови ліцензійної угоди";
  "Прийняти та встановити";
  "Ліцензійна угода з кінцевим користувачем";
  "Генерування...";
  "У вас встановлена більш рання версія";
  "Не закривайте це вікно під час використання тунелю";
  "Очікуємо ...";
  "Віддалена машина";
  "Віддалений порт";
  "Дія";
  "Додати";
  "Локальний порт";
  "Локальна адреса";
  "Змінити локальний порт";
  "Для пришвидшення зʼєднання, будь ласка, налаштуйте власний сервер";
  "Має бути щонайменше 6 символів";
  "Підтвердження не збігається";
  "Дозволи";
  "Прийняти";
  "Відхилити";
  "Відʼєднати";
  "Дозволити копіювання та вставку файлів";
  "Підключено";
  "Пряме та зашифроване підключення";
  "Ретрансльоване та зашифроване підключення";
  "Пряме та незашифроване підключення";
  "Ретрансльоване та незашифроване підключення";
  "Введіть віддалений ID";
  "Введіть пароль";
  "Вхід...";
  "Увімкнути загальний доступ до сеансу RDP";
  with_quotes ["Автоматичний вхід (дійсний лише якщо ви встановили "; "Блокування після завершення сеансу"; ")"];
  "Увімкнути прямий IP-доступ";
  "Перейменувати";
  "Місце";
  "Створити ярлик на стільниці";
  "Змінити шлях";
  "Створити теку";
  "Будь ласка, введіть назву для теки";
  "Виправити";
  "Попередження";
  "Екран входу, який використовує Wayland, не підтримується";
  "Потрібне перезавантаження";
  "Графічний сервер не підтримується";
  "Потрібен X11";
  "Порт";
  "Налаштування";
  "Імʼя користувача";
  "Неправильний порт";
  "Завершено вручну з боку віддаленого пристрою";
  "Дозволити віддалену зміну конфігурації";
  "Запустити без встановлення";
  "Підключитися через ретранслятор";
  "Завжди підключатися через ретранслятор";
  "Лише IP-адреси з білого списку можуть отримати доступ до мене";
  "Увійти";
  "Підтвердити";
  "Запамʼятати мене";
  "Довірений пристрій";
  "Код підтвердження";
  "Код підтвердження надіслано на зареєстровану email-адресу, введіть код підтвердження для продовження авторизації.";
  "Вийти";
  "Мітки";
  "Пошук за ID";
  "Відокремлення комою, крапкою з комою, пропуском або новим рядком";
  "Додати ID";
  "Додати мітку";
  "Скасувати вибір усіх міток";
  "Помилка мережі";
  "Імʼя користувача відсутнє";
  "Пароль відсутній";
  "Неправильні дані";
  "Код підтвердження некоректний або протермінований";
  "Редагувати мітку";
  "Не зберігати пароль";
  "Вибране";
  "Додати до обраного";
  "Видалити з обраного";
  "Пусто";
  "Неприпустима назва теки";
  "Проксі-сервер Socks5";
  "Проксі-сервер Socks5/Http(s)";
  "Знайдено";
  "Для запуску під час завантаження, вам необхідно встановити системну службу";
  "Віддалений ідентифікатор";
  "Вставити";
  "Вставити сюди?";
  "Ви впевнені, що хочете завершити підключення?";
  "Завантажити нову версію";
  "Сенсорний режим";
  "Режим миші";
  "Дотик одним пальцем";
  "Ліва кнопка миші";
  "Одне довге натискання пальцем";
  "Дотик двома пальцями";
  "Права кнопка миші";
  "Рух одним пальцем";
  "Подвійне натискання та переміщення";
  "Перетягування мишею";
  "Трьома пальцями по вертикалі";
  "Коліщатко миші";
  "Рух двома пальцями";
  "Переміщення полотна";
  "Стисніть, щоб збільшити";
  "Масштаб полотна";
  "Відновлення полотна";
  "Немає дозволу на передачу файлів";
  "Примітка";
  "Підключення";
  "Поділитися екраном";
  "Чат";
  "Всього";
  "елементи";
  "Обрано";
  "Захоплення екрана";
  "Керування введенням";
  "Захоплення аудіо";
  "Файлове підключення";
  "Підключення екрана";
  "Ви згодні?";
  "Відкрити налаштування системи";
  "Як отримати дозвіл на введення в Android?";
  with_quotes ["Для того, щоб віддалений пристрій міг керувати вашим Android-пристроєм за допомогою миші або дотику, вам необхідно дозволити RustDesk використовувати службу "; "Спеціальні можливості"; "."];
  "Будь ласка, перейдіть на наступну сторінку системних налаштувань, знайдіть та увійдіть у [Встановлені служби], увімкніть службу [RustDesk Input].";
  "Отримано новий запит на керування вашим поточним пристроєм.";
  with_quotes ["Увімкнення "; "Захоплення екрана"; " автоматично запускає службу, дозволяючи іншим пристроям запитувати підключення до вашого пристрою."];
  "Зупинка служби автоматично завершить всі встановлені зʼєднання.";
  "Поточна версія Android не підтримує захоплення звуку, будь ласка, оновіться до Android 10 або вище.";
  "Натисніть [Запустити службу] або увімкніть дозвіл на [Захоплення екрана], щоб запустити службу спільного доступу до екрана.";
  "Дозволи для встановлених зʼєднань можуть не застосуватися аж до перепідключення.";
  "Обліковий запис";
  "Перезаписати";
  "Цей файл існує, пропустити чи перезаписати файл?";
  "Вийти";
  "Допомога";
  "Не вдалося";
  "Успішно";
  "Хтось вмикає режим конфіденційності, вихід";
  "Не підтримується";
  "Відхилено віддаленим пристроєм";
  "Будь ласка, встановіть плагіни";
  "Вийти з віддаленого пристрою";
  "Не вдалося вимкнути";
  "Вимкнений";
  "Мова";
  "Зберегти фонову службу RustDesk";
  "Ігнорувати оптимізації батареї";
  "Перейдіть на наступну сторінку налаштувань";
  "Автозапуск";
  "Запускати службу спільного доступу до екрана під час завантаження, потребує спеціальних дозволів";
  "Підключення не дозволено";
  "Застарілий режим";
  "Режим карти";
  "Режим перекладу";
  "Використовувати постійний пароль";
  "Використовувати обидва паролі";
  "Встановити постійний пароль";
  "Увімкнути віддалений перезапуск";
  "Перезапустити віддалений пристрій";
  "Ви впевнені, що хочете виконати перезапуск?";
  "Перезапуск віддаленого пристрою";
  "Віддалений пристрій перезапускається. Будь ласка, закрийте це повідомлення та через деякий час перепідключіться, використовуючи постійний пароль.";
  "Скопійовано";
  "Вийти з повноекранного режиму";
  "Повноекранний";
  "Мобільні дії";
  "Виберіть монітор";
  "Дії для керування";
  "Налаштування дисплею";
  "Співвідношення";
  "Якість зображення";
  "Стиль гортання";
  "Показати панель інструментів";
  "Приховати панель інструментів";
  "Пряме підключення";
  "Ретрансльоване підключення";
  "Безпечне підключення";
  "Небезпечне підключення";
  "Оригінальний масштаб";
  "Адаптивний масштаб";
  "Загальні";
  "Безпека";
  "Тема";
  "Темна тема";
  "Світла тема";
  "Темна";
  "Світла";
  "Як в системі";
  "Увімкнути апаратний кодек";
  "Розблокувати налаштування безпеки";
  "Увімкнути аудіо";
  "Розблокувати мережеві налаштування";
  "Сервер";
  "Прямий IP-доступ";
  "Проксі";
  "Застосувати";
  "Відʼєднати всі прилади?";
  "Очистити";
  "Пристрій введення звуку";
  "Використовувати білий список IP";
  "Мережа";
  "Закріпити панель інструментів";
  "Відкріпити панель інструментів";
  "Запис";
  "Директорія";
  "Автоматично записувати вхідні сеанси";
  "Автоматично записувати вихідні сеанси";
  "Змінити";
  "Розпочати запис сеансу";
  "Закінчити запис сеансу";
  "Увімкнути запис сеансу";
  "Увімкнути пошук локальної мережі";
  "Заборонити виявлення локальної мережі";
  "Написати повідомлення";
  "Підказка";
  "Будь ласка, зачекайте підтвердження UAC...";
  "Поточне вікно віддаленої стільниці потребує розширених прав для роботи, тому наразі неможливо використовувати мишу та клавіатуру. Ви можете запропонувати віддаленому користувачеві згорнути поточне вікно чи натиснути кнопку розширення прав у вікні керування підключеннями. Для уникнення цієї проблеми, рекомендується встановити програму на віддаленому пристрої.";
  "Відʼєднано";
  "Інше";
  "Підтверджувати перед закриттям кількох вкладок";
  "Налаштування клавіатури";
  "Повний доступ";
  "Демонстрація екрана";
  "Wayland потребує Ubuntu 21.04 або новішої версії.";
  "Для Wayland потрібна новіша версія дистрибутива Linux. Будь ласка, спробуйте стільницю на X11 або змініть свою ОС.";
  "Перегляд";
  "Будь ласка, виберіть екран, до якого потрібно надати доступ (на віддаленому пристрої).";
  "Показати RustDesk";
  "Цей ПК";
  "чи";
  "Продовжити з";
  "Розширення прав";
  "Збільшити вказівник";
  "Підтверджувати сеанси паролем";
  "Підтверджувати сеанси натисканням";
  "Підтверджувати сеанси обома способами";
  "Буль ласка, зачекайте, поки віддалена сторона підтвердить запит на сеанс...";
  "Одноразовий пароль";
  "Використати одноразовий пароль";
  "Довжина одноразового пароля";
  "Дати запит щодо доступ до свого пристрою";
  "Приховати вікно керування підключеннями";
  "Дозволено приховати лише якщо сеанс підтверджується постійним паролем";
  "Підтримка Wayland на експериментальній стадії, будь ласка, використовуйте X11, якщо необхідний автоматичний доступ.";
  "Вибір вкладок клацанням правою";
  "Пропущено";
  "Додати IP до Адресної книги";
  "Група";
  "Пошук";
  "Закрито вручну з веб-консолі";
  "Тип локальної клавіатури";
  "Оберіть тип локальної клавіатури";
  "Якщо ви використовуєте відеокарту Nvidia на Linux, і віддалене вікно закривається відразу після підключення, то перехід на вільний драйвер Nouveau та увімкнення програмної візуалізації може допомогти. Для застосування змін необхідно перезапустити програму.";
  "Завжди використовувати програмну візуалізацію";
  with_quotes ["Для віддаленого керування віддаленою стільницею з клавіатури, вам необхідно надати RustDesk дозволи на "; "Відстеження введення"; ""];
  with_quotes ["Для можливості віддаленої розмови, вам необхідно надати RustDesk дозвіл на "; "Запис аудіо"; ""];
  "Ви можете також надіслати запит на розширення прав, в разі присутності особи з віддаленого боку.";
  "Зачекайте";
  "Невдала спроба розширення прав";
  "Попросіть віддаленого користувача пройти автентифікацію";
  "Виберіть це, якщо віддалений обліковий запис є адміністративним";
  "Передайте імʼя користувача та пароль адміністратора";
  "Досі необхідне підтвердження UAC з боку віддаленого користувача";
  "Запит на розширення прав";
  "Будь ласка, очікуйте підтвердження діалогу UAC з боку віддаленого користувача.";
  "Успішне розширення прав";
  "верхній регістр";
  "нижній регістр";
  "цифра";
  "спецсимвол";
  "довжина>=8";
  "Слабкий";
  "Середній";
  "Сильний";
  "Поміняти місцями";
  "Будь ласка, підтвердіть дозвіл на спільне використання стільниці";
  "Екран";
  "Типовий стиль перегляду";
  "Типовий стиль гортання";
  "Типова якість зображення";
  "Типовий кодек";
  "Бітрейт";
  "FPS";
  "Авто";
  "Інші типові параметри";
  "Голосовий виклик";
  "Текстовий чат";
  "Завершити голосовий виклик";
  with_quotes ["Якщо відсутня можливості підключитись напряму, ви можете спробувати підключення через ретранслятор. \nТакож, якщо ви хочете відразу використовувати ретранслятор, можна додати суфікс "; "/r"; " до ID, або ж вибрати опцію "; "Завжди підключатися через ретранслятор"; " в картці нещодавніх сеансів."];
  "Перепідключитися";
  "Кодек";
  "Роздільна здатність";
  "Наразі нічого не пересилається";
  "Вказати довжину одноразового пароля";
  "Налаштування RDP";
  "Сортувати за";
  "Нове підключення";
  "Відновити";
  "Згорнути";
  "Розгорнути";
  "Вам пристрій";
  "Овва, відсутні нещодавні сеанси!\nСаме час запланувати нове підключення.";
  "Досі немає улюблених вузлів?\nДавайте організуємо нове підключення та додамо його до улюблених!";
  "О ні, схоже ми ще не виявили жодного віддаленого пристрою.";
  "Ой лишенько, схоже у вашій адресній книзі немає жодного віддаленого пристрою.";
  "напр., admin";
  "Незаповнене імʼя";
  "Незаповнений пароль";
  "Я";
  "Цей файл ідентичний з тим, що на вузлі";
  "Показувати монітори на панелі інструментів";
  "Режим перегляду";
  "Вам необхідно увійти у віддалений обліковий запис Linux, щоб увімкнути стільничний сеанс X";
  "Перевірте пароль RustDesk";
  "Запамʼятати цей обліковий запис";
  "Цей обліковий запис використовується для входу до віддаленої ОС та вмикання сеансу стільниці в режимі без графічного інтерфейсу";
  "Користувач ОС";
  "Інший користувач вже в системі";
  "Відʼєднатися";
  "Xorg не знайдено";
  "Будь ласка, встановіть Xorg";
  "Жодне стільничне середовище не доступне";
  "Будь ласка, встановіть стільничне середовище GNOME";
  "Немає потреби в розширенні прав";
  "Системний звук";
  "Типово";
  "Нове RDP";
  "Відбитки пальців";
  "Копіювати відбитки пальців";
  "немає відбитків пальців";
  "Оберіть віддалений пристрій";
  "Оберіть віддалені пристрої";
  "Плагіни";
  "Видалити";
  "Оновити";
  "Увімкнути";
  "Вимкнути";
  "Опції";
  "Початкова роздільна здатність";
  "Припасувати поточну роздільну здатність";
  "Користувацька роздільна здатність";
  "Згорнути панель інструментів";
  "Погодитись та розширити права";
  "Погодити підключення та розширити дозволи UAC.";
  "Вийшов час очікування копіювання.";
  "Вхідне підключення";
  "Вихідне підключення";
  "Вийти";
  "Відкрити";
  "Ви впевнені, що хочете вийти з системи?";
  "Служба";
  "Запустити";
  "Зупинити";
  "У вас максимальна кількість керованих пристроїв.";
  "Синхронізація з нещодавніми сеансами";
  "Сортувати мітки";
  "Відкрити підключення в новій вкладці";
  "Перемістити вкладку до нового вікна";
  "Не може бути порожнім";
  "Вже існує";
  "Змінити пароль";
  "Оновити пароль";
  "ID";
  "Перегляд ґраткою";
  "Перегляд списком";
  "Вибрати";
  "Видимість міток";
  "Не вдалося оновити адресну книгу";
  "Не вдалося синхронізувати адресну книгу";
  "Пристрої з нещодавніх сеансів будуть синхронізовані з адресною книгою.";
  "Змінити колір";
  "Основний колір";
  "Колір HSV";
  "Успішне встановлення!";
  "Невдале встановлення!";
  "Зворотній напрям гортання";
  "{} сеансів";
  "Вас можуть ОБМАНУТИ!";
  "Якщо ви розмовляєте по телефону з кимось, кого НЕ ЗНАЄТЕ чи кому НЕ ДОВІРЯЄТЕ, і ця особа хоче, щоб ви використали RustDesk та запустили службу, не робіть цього та негайно завершіть дзвінок.";
  "Ймовірно, ви маєте справу з шахраєм, що намагається викрасти ваші гроші чи особисті дані.";
  "Не показувати знову";
  "Я погоджуюсь";
  "Я не погоджуюсь";
  "Час очікування в хвилинах";
  "Автоматично завершувати вхідні сеанси в разі неактивності користувача";
  "Зʼєднання розірвано через неактивність";
  "Перевіряти оновлення під час запуску";
  "Будь ласка, оновіть RustDesk Server Pro до версії {} чи новіше!";
  "Не вдалося оновити групу";
  "Фільтр за збігом";
  "Прибирати шпалеру під час вхідних сеансів";
  "Тест";
  "Дисплей відключено, перемкніться на перший дисплей";
  "Відсутні дисплеї";
  "Відкрити в новому вікні";
  "Показувати дисплеї в окремих вікнах";
  "Використовувати всі мої дисплеї для віддаленого сеансу";
  "SELinux увімкнено на вашому пристрої, що може ускладнити для іншої сторони віддалене керування за допомогою RustDesk.";
  "Режим перегляду";
  "Великі плитки";
  "Маленькі плитки";
  "Список";
  "Віртуальний дисплей";
  "Відключити все";
  "Справжній колір (4:4:4)";
  "Блокувати введення для користувача";
  with_quotes ["Ви можете ввести ID, безпосередню IP, або ж домен з портом (<домен>:<порт>).\nЯкщо ви хочете отримати доступ до пристрою на іншому сервері, будь ласка, додайте адресу сервера (<id>@<адреса_сервера>?key=<значення_ключа>), наприклад,\n9123456234@192.168.16.1:21117?key=5Qbwsde3unUcJBtrx9ZkvUmwFNoExHzpryHuPUdqlWM=.\nЯкщо ви хочете отримати доступ до пристрою на публічному сервері, будь ласка, введіть "; "<id>@public"; ", для публічного сервера ключ не потрібен."];
  "Режим 1";
  "Режим 2";
  "Увійти в режим конфіденційності";
  "Вийти з режиму конфіденційності";
  "Драйвер непрямого відображення не підтримується. Потрібна Windows 10 версії 2004 або новіше.";
  "Джерело введення 1";
  "Джерело введення 2";
  "Поміняти місцями клавіші Control та Command";
  "Поміняти місцями ліву та праву кнопки миші";
  "Код двофакторної автентифікації";
  "Більше";
  "Увімкнути двофакторну автентифікацію";
  "Будь ласка, налаштуйте ваш автентифікатор зараз. Ви можете використати програму-автентифікатор, таку як Authy, Microsoft Authenticator або Google Authenticator на телефоні чи компʼютері.\n\nПроскануйте QR-код за допомогою програми та введіть код, який показує програма, щоб увімкнути двофакторну автентифікацію.";
  "Не вдається підтвердити код. Перевірте код та налаштування місцевого часу";
  "Двофакторна автентифікація";
  "Код підтвердження з email повинен складатися з 6 символів.";
  "Код двофакторної автентифікації повинен складатися з 6 символів.";
  "Виявлено декілька сеансів Windows";
  "Будь ласка, оберіть сеанс, до якого ви хочете підключитися";
  "На основі Rustdesk";
  "Це персоналізована версія.\nВи можете підключатися до інших пристроїв, але інші пристрої не можуть підключатися до вашого.";
  "Ця персоналізована версія містить попередньо встановлений пароль. Будь-хто з цим паролем може отримати повний доступ до вашого пристрою. Якщо це неочікувано для вас, негайно видаліть цю програму.";
  "Попередження щодо безпеки";
  "Моя адресна книга";
  "Особиста";
  "Власник";
  "Встановити спільний пароль";
  "Існує у";
  "Лише читання";
  "Читання/запис";
  "Повний доступ";
  "Поля вище є спільними та видимі для інших.";
  "Всі";
  "Детальніше про веб-консоль";
  "Дозволяти підключення лише коли відкрите вікно RustDesk";
  "Відсутні фізичні дисплеї, немає потреби використовувати режим приватності.";
  "Прямувати за віддаленим курсором";
  "Прямувати за фокусом у віддаленому вікні";
  "Типовий протокол та порт — Socks5 та 1080";
  "Не знайдено жодного пристрою введення.";
  "Вхідні";
  "Вихідні";
  "Очистити вибір екрана Wayland";
  "Після очищення вибору екрана ви можете повторно вибрати екран для поширення.";
  "Ви впевнені, що хочете очистити вибір екрана Wayland?";
  "Отримано новий запит на голосовий дзвінок. Якщо ви приймете його, аудіо перемкнеться на голосовий звʼязок.";
  "Використовувати візуалізацію текстур для покращення плавності зображень.";
  "Використовувати візуалізацію текстур";
  "Рухоме вікно";
  "Допомагає зберегти фонову службу Rustdesk";
  "Тримати екран увімкненим";
  "Ніколи";
  "Коли керується";
  "Коли запущена служба";
  "Захоплення екрана з використанням DirectX";
  "Назад";
  "Застосунки";
  "Збільшити гучність";
  "Зменшити гучність";
  "Живлення";
  "Бот Telegram";
  "Надає можливість отримувати код двофакторної автентифікації від вашого бота. Також може сповіщати про підключення";
  with_quotes ["1. Відкрийте чат з @BotFather.\n2. Надішліть команду "; "/newbot"; ". Ви отримаєте токен.\n3. Почніть чат з вашим щойно створеним ботом. Щоб активувати його, надішліть повідомлення, що починається зі скісної риски ("; "/"; "), наприклад "; "/hello"; ".\n"];
  "Ви впевнені, що хочете скасувати код двофакторної автентифікації?";
  "Ви впевнені, що хочете скасувати Telegram бота?";
  "Про Rustdesk";
  "Надіслати вміст буфера обміну";
  with_quotes ["Будь ласка, перевірте ваше підключення до мережі та натисніть "; "Повторити"; ""];
  "Розблокування PIN-кодом";
  "Потрібно щонайменше {} символів";
  "Неправильний PIN-код";
  "Встановити PIN-код";
  "Увімкнути довірені пристрої";
  "Керувати довіреними пристроями";
  "Платформа";
  "Залишилося днів";
  "Пропускати двофакторну автентифікацію на довірених пристроях";
  "Батьківський каталог";
  "Продовжити";
  "Неправильна назва файлу";
  "На стороні, що керується, увімкнено односторонню передачу файлів.";
  "Потрібна автентифікація";
  "Автентифікувати";
  with_quotes ["Ви можете ввести ID на тому самому серверу, прямий IP-доступ у веб-клієнті не підтримується.\nЯкщо ви хочете отримати доступ до пристрою на іншому сервері, будь ласка, додайте адресу сервера (<id>@<адреса_сервера>?key=<значення_ключа>). Наприклад,\n9123456234@192.168.16.1:21117?key=5Qbwsde3unUcJBtrx9ZkvUmwFNoExHzpryHuPUdqlWM=.\nЯкщо ви хочете отримати доступ до пристрою на публічному сервері, будь ласка, введіть "; "<id>@public"; ". Для публічного сервера ключ не потрібен."];
  "Отримати";
  "Надіслати теку";
  "Надіслати файли";
  "Буфер обміну синхронізовано";
  "Оновити буфер обміну клієнта";
  "Без міток";
  "Доступна нова версія {}";
  ""].
(** [LANGS.vn] *)
Definition lang_vn : jsmap string string := texts [
  "Trạng thái hiện tại";
  "Desktop của bạn";
  "Desktop của bạn có thể đuợc truy cập bằng ID và mật khẩu này.";
  "Mật khẩu";
  "Sẵn sàng";
  "Đã đuợc thiết lập";
  "Đang kết nối đến mạng lưới RustDesk...";
  "Bật dịch vụ";
  "Bắt đầu dịch vụ";
  "Dịch vụ hiện đang chạy";
  "Dịch vụ hiện đang dừng";
  "Hiện chưa sẵn sàng. Hãy kiểm tra kết nối của bạn";
  "Điều khiển Desktop Từ Xa";
  "Truyền Tệp Tin";
  "Kết nối";
  "Các session gần đây";
  "Quyển địa chỉ";
  "Xác nhận";
  "TCP tunneling";
  "Loại bỏ";
  "Làm mới mật khẩu ngẫu nhiên";
  "Đặt mật khẩu riêng";
  "Cho phép sử dụng bàn phím/chuột";
  "Cho phép sử dụng clipboard";
  "Cho phép truyền tệp tin";
  "Cho phép TCP tunneling";
  "Cho phép IP";
  "Máy chủ ID/chuyển tiếp";
  "Nhập cấu hình máy chủ";
  "Xuất cấu hình máy chủ";
  "Nhập cấu hình máy chủ thành công";
  "Xuất cấu hình máy chủ thành công";
  "Cấu hình máy chủ không hợp lệ";
  "Khay nhớ tạm trống";
  "Dừng dịch vụ";
  "Thay đổi ID";
  "ID mới của bạn";
  "độ dài %min% đến %max%";
  "bắt đầu bằng một chữ";
  "các ký tự cho phép";
  "Các kí tự đuợc phép là: từ a-z, A-Z, 0-9, - (dash) và _ (dấu gạch dưới). Kí tự đầu tiên phải bắt đầu từ a-z, A-Z. Độ dài kí tự từ 6 đến 16";
  "Trang web";
  "Giới thiệu";
  "";
  "Bảo Mật Thông tin";
  "Tắt tiếng";
  "Ngày xuất bản";
  "Phiên bản";
  "Trang chủ";
  "Đầu vào âm thanh";
  "Các tiện ích";
  "Codec phần cứng";
  "Bitrate thích ứng";
  "Máy chủ ID";
  "Máy chủ Chuyển tiếp";
  "Máy chủ API";
  "phải bắt đầu bằng http:// hoặc https://";
  "IP không hợp lệ";
  "Định dạng không hợp lệnh";
  "Chưa đuợc hỗ trợ bởi máy chủ";
  "Chưa có mặt";
  "Quá thường xuyên";
  "Hủy";
  "Bỏ qua";
  "Đóng";
  "Thử lại";
  "OK";
  "Yêu cầu mật khẩu";
  "Mời nhập mật khẩu";
  "Nhớ mật khẩu";
  "Sai mật khẩu";
  "Bạn có muốn nhập lại không?";
  "Kết nối bị lỗi";
  "Lỗi";
  "Đựoc cài đặt lại bởi người dùng từ xa";
  "Đang kết nối...";
  "Đang kết nối. Vui lòng chờ.";
  "Hãy thử lại sau 1 phút";
  "Đăng nhập bị lỗi";
  "Thành công";
  "Đã kết nối, đang đợi hình ảnh...";
  "Tên";
  "Loại";
  "Chỉnh sửa";
  "Kích cỡ";
  "Hiển thị tệp tin bị ẩn";
  "Nhận";
  "Gửi";
  "Làm mới tệp tin";
  "Cục bộ";
  "Từ xa";
  "Máy tính từ xa";
  "Máy tính cục bộ";
  "Xác nhận xóa";
  "Xóa";
  "Thuộc tính";
  "Chọn nhiều";
  "Chọn tất cả";
  "Bỏ chọn tất cả";
  "Thư mục rỗng";
  "Không phải thư mục rỗng";
  "Bạn chắc bạn có muốn xóa tệp tin này không?";
  "Bạn chắc bạn có muốn xóa thư mục rỗng này không?";
  "Bạn chắc bạn có muốn xóa những tệp tin trong thư mục này không?";
  "Xác nhận đối với tất cả các trùng lặp";
  "Không thể hoàn tác!";
  "Đang xóa";
  "các tệp tin";
  "Đang chờ";
  "Hoàn thành";
  "Tốc độ";
  "Chất lượng hình ảnh";
  "Chế độ riêng tư";
  "Chặn các tương tác từ người dùng";
  "Hủy chặn các tương tác từ người dùng";
  "Điều chỉnh cửa sổ";
  "Gốc";
  "Thu nhỏ";
  "Kéo giãn";
  "Thanh cuộn";
  "Tự động cuộn";
  "Chất lượng hình ảnh tốt";
  "Cân bằng";
  "Tối ưu thời gian phản ứng";
  "Tùy chỉnh";
  "Hiển thị con trỏ từ máy từ xa";
  "Hiện thị chất lượng của màn hình";
  "Tắt clipboard";
  "Khóa sau khi kết thúc phiên kết nối";
  "Cài Ctrl + Alt + Del";
  "Cài khóa";
  "Làm mới";
  "ID không tồn tại";
  "Không thể kết nối đến máy chủ rendezvous";
  "Thử lại sau";
  "Máy tính từ xa hiện đang offline";
  "Chìa không khớp";
  "Quá thời gian";
  "Không thể kết nối tới máy chủ chuyển tiếp";
  "Không thể kết nối qua máy chủ rendezvous";
  "Không thể kết nối qua máy chủ chuyển tiếp";
  "Không thể kết nối thẳng tới máy tính từ xa";
  "Cài đặt mật khẩu";
  "Mật khẩu hệ điều hành";
  "Do UAC, RustDesk sẽ không thể hoạt động đúng cách là bên từ xa trong vài trường hợp. Để tránh UAC, hãy nhấn cái nút dưới đây để cài RustDesk vào hệ thống.";
  "Nhấn để nâng cấp";
  "Nhấn để tải xuống";
  "Nhấn để cập nhật";
  "Cài đặt";
  with_quotes ["Để có thể điều khiển máy tính từ xa, bạn cần phải cung cấp quyền "; "Trợ năng"; " cho RustDesk"];
  with_quotes ["Để có thể truy cập máy tính từ xa, bạn cần phải cung cấp quyền "; "Ghi Màn Hình"; " cho RustDesk."];
  "Đang cài ...";
  "Cài";
  "Cài";
  "Địa điểm cài";
  "Tạo shortcut tại start menu";
  "Tạo biểu tượng trên desktop";
  "Bằng cách bắt đầu cài đặt, bạn chấp nhận thỏa thuận cấp phép.";
  "Chấp nhận và Cài";
  "Thỏa thuận cấp phép dành cho người dùng";
  "Đang tạo ...";
  "Phiên bản của bạn là phiên bản cũ";
  "Đừng đóng cửa sổ này khi bạn đang sử dụng tunnel";
  "Đang nghe ...";
  "Máy từ xa";
  "Cổng từ xa";
  "Hành động";
  "Thêm";
  "Cổng nội bộ";
  "Địa chỉ nội bộ";
  "Thay đổi cổng nội bộ";
  "Để kết nối nhanh hơn, hãy tự tạo máy chủ riêng";
  "Quá ngắn, độ dài phải ít nhất là 6.";
  "Xác minh không khớp";
  "Quyền";
  "Chấp nhận";
  "Bỏ qua";
  "Ngắt kết nối";
  "Cho phép sao chép và dán tệp tin";
  "Đã kết nối";
  "Kết nối trực tiếp và đuợc mã hóa";
  "Kết nối chuyển tiếp và mã hóa";
  "Kết nối trực tiếp và không đuợc mã hóa";
  "Kết nối chuyển tiếp và không đuợc mã hóa";
  "Nhập ID từ xa";
  "Nhập mật khẩu";
  "Đang đăng nhập";
  "Cho phép chia sẻ phiên kết nối RDP";
  "Tự động đăng nhập";
  "Cho phép truy cập trực tiếp qua IP";
  "Đổi tên";
  "Dấu cách";
  "Tạo shortcut trên desktop";
  "Đổi địa điểm";
  "Tạo thư mục";
  "Hãy nhập tên thư mục";
  "Sửa nó";
  "Cảnh báo";
  "Màn hình đăng nhập sử dụng Wayland không được hỗ trợ";
  "Yêu cầu khởi động lại";
  "Máy chủ hiển thị không đuợc hỗ trọ";
  "Cần x11";
  "Cổng";
  "Cài đặt";
  "Tên người dùng";
  "Cổng không hợp lệ";
  "Đã đóng thủ công bởi người dùng từ xa";
  "Cho phép thay đổi cấu hình bên từ xa";
  "Chạy mà không cần cài đặt";
  "Kết nối qua máy chủ chuyển tiếp";
  "Luôn kết nối qua máy chủ chuyển tiếp";
  "Chỉ có những IP đựoc cho phép mới có thể truy cập";
  "Đăng nhập";
  "Xác thực";
  "Nhớ tài khoản";
  "Tin thiết bị này";
  "Mã xác thực";
  "Bạn đang đăng nhập trên một thiết bị mới, một mã xác thực đã được gửi tới email đăng ký của bạn, hãy nhập mã xác thực để tiếp tục đăng nhập.";
  "Đăng xuất";
  "Tags";
  "Tìm ID";
  "Đuợc cách nhau bởi dấu phẩy, dấu chấm phẩy, dấu cách hay dòng mới";
  "Thêm ID";
  "Thêm Tag";
  "Hủy chọn tất cả các tag";
  "Lỗi mạng";
  "Mất tên người dùng";
  "Mất mật khẩu";
  "Chứng danh bị sai";
  "";
  "Chỉnh sửa Tag";
  "Quên mật khẩu";
  "Ưa thích";
  "Thêm vào mục Ưa thích";
  "Xóa khỏi mục Ưa thích";
  "Trống";
  "Tên thư mục không hợp lệ";
  "Proxy Socks5";
  "Proxy Socks5/Http(s)";
  "Đuợc phát hiện";
  "Để chạy lúc khởi động máy, bạn cần phải cài dịch vụ hệ thống.";
  "ID từ xa";
  "Dán";
  "Dán ở đây?";
  "Bạn có chắc muốn đóng kết nối không";
  "Tải về phiên bản mới";
  "Chế độ chạm";
  "Chế độ dùng chuột";
  "Chạm bằng một ngón tay";
  "Chuột trái";
  "Chạm lâu bằng một ngón tay";
  "Chạm bằng hai ngón tay";
  "Chuột phải";
  "Di chuyển bằng một ngón tay";
  "Chạm hai lần và di chuyển";
  "Di chuyển bằng chuột";
  "Ba ngón tay theo chiều dọc";
  "Bánh xe lăn trê con chuột";
  "Di chuyển bằng hai ngón tay";
  "Di chuyển canvas";
  "Véo để phóng to/nhỏ";
  "Phóng to/nhỏ canvas";
  "Cài đặt lại canvas";
  "Không có quyền truyền tệp tin";
  "Ghi nhớ";
  "Kết nối";
  "Chia sẻ màn hình";
  "Chat";
  "Tổng";
  "items";
  "Đã đuợc chọn";
  "Ghi màn hình";
  "Điều khiển đầu vào";
  "Ghi âm thanh";
  "Kết nối tệp tin";
  "Kết nối màn hình";
  "Bạn có chấp nhận không?";
  "Mở cài đặt hệ thống";
  "Cách để có quyền nhập trên Android?";
  with_quotes ["Để thiết bị từ xa điều khiển thiết bị Android của bạn bằng chuột hoặc chạm, bạn cần cho phép RustDesk sử dụng dịch vụ "; "Trợ năng"; "."];
  "Vui lòng chuyển đến trang cài đặt hệ thống tiếp theo, tìm và nhập [Dịch vụ đã cài đặt], bật dịch vụ [RustDesk Input].";
  "Yêu cầu kiểm soát mới đã được nhận, yêu cầu này muốn kiểm soát thiết bị hiện tại của bạn.";
  with_quotes ["Bật "; "Ghi màn hình"; " sẽ tự động khởi động dịch vụ, cho phép các thiết bị khác yêu cầu kết nối với thiết bị của bạn."];
  "Đóng dịch vụ sẽ tự động đóng tất cả các kết nối đã thiết lập.";
  "Phiên bản Android hiện tại không hỗ trợ ghi âm, vui lòng nâng cấp lên Android 10 trở lên.";
  "Nhấn [Bắt đầu dịch vụ] hoặc bật quyền [Ghi màn hình] để bắt đầu dịch vụ chia sẻ màn hình";
  "Quyền cho các kết nối đã được thiếp lập có thể không được thay đổi ngay cho tới khi kết nối lại";
  "Tài khoản";
  "Ghi đè";
  "Tệp tin này đã tồn tại, bạn có muốn bỏ qua hay ghi đè lên tệp tin này?";
  "Thoát";
  "Trợ giúp";
  "Thất bại";
  "Thành công";
  "Ai đó đã bật chế độ riêng tư, thoát";
  "Không hỗ trợ";
  "Người dùng từ xa đã từ chối";
  "Hãy cài plugins";
  "Người dùng từ xa đã thoát";
  "Không thể tắt";
  "Đã tắt";
  "Ngôn ngữ";
  "Giữ dịch vụ nền RustDesk";
  "Bỏ qua các tối ưu pin";
  "Nếu bạn muốn tắt tính năng này, vui lòng chuyển đến trang cài đặt ứng dụng RustDesk tiếp theo, tìm và nhập [Pin], Bỏ chọn [Không hạn chế]";
  "Chạy khi khởi động";
  "Chạy dịch vụ chia sẻ màn hình khi khởi động, yêu cầu quyền đặc biệt";
  "Kết nối không đuợc phép";
  "Chế độ cũ";
  "Chế độ map";
  "Chế độ phiên dịch";
  "Sử dụng mật khẩu vĩnh viễn";
  "Sử dụng cả hai mật khẩu";
  "Đặt mật khẩu vĩnh viễn";
  "Bật khởi động lại từ xa";
  "Khởi động lại thiết bị từ xa";
  "Bạn có chắc bạn muốn khởi động lại không";
  "Đang khởi động lại thiết bị từ xa";
  "Thiết bị từ xa đang khởi động lại, hãy đóng cửa sổ tin nhắn này và kết nối lại với mật khẩu vĩnh viễn sau một khoảng thời gian";
  "Đã sao chép";
  "Thoát toàn màn hình";
  "Toàn màn hình";
  "Hành động trên thiết bị di động";
  "Chọn màn hình";
  "Kiểm soát hành động";
  "Thiết lập hiển thị";
  "Tỉ lệ";
  "Chất lượng hình ảnh";
  "Kiểu cuộn";
  "Hiện thanh công cụ";
  "Ẩn thanh công cụ";
  "Kết nối trực tiếp";
  "Kết nối chuyển tiếp";
  "Kết nối an toàn";
  "Kết nối không an toàn";
  "Quy mô gốc";
  "Quy mô thích ứng";
  "Chung";
  "Bảo mật";
  "Chủ đề";
  "Chủ đề Tối";
  "Chủ đề Sáng";
  "Tối";
  "Sáng";
  "Theo hệ thống";
  "Bật codec phần cứng";
  "Mở khóa cài đặt bảo mật";
  "Bật âm thanh";
  "Mở khóa cài đặt mạng";
  "Máy chủ";
  "Truy cập trực tiếp qua IP";
  "";
  "Áp dụng";
  "Ngắt kết nối tất cả thiết bị";
  "Làm trống";
  "Thiết bị âm thanh đầu vào";
  "Dùng danh sách các IP cho phép";
  "Mạng";
  "Ghim thanh công cụ";
  "Bỏ ghim thanh công cụ";
  "Đang ghi hình";
  "Thư mục";
  "Tự động ghi những phiên kết nối vào";
  "";
  "Thay đổi";
  "Bắt đầu ghi hình phiên kết nối";
  "Dừng ghi hình phiên kết nối";
  "Bật ghi hình phiên kết nối";
  "Bật phát hiện mạng nội bộ (LAN)";
  "Từ chối phát hiện mạng nội bộ (LAN)";
  "Viết một tin nhắn";
  "";
  "Vui lòng chờ cho phép UAC";
  "Cửa sổ hiện tại của máy tính từ xa yêu cầu quyền cao hơn để vận hành, nên bạn không thể sử dụng chuột và bàn phím tạm thời. Bạn có thể yêu cầu người dùng từ xa thu nhỏ cửa sổ hiện tại, hoặc nhấn vào nút Cấp Quyền trong cửa sổ quản lý kết nối. Để tránh tính trạng này, chúng tôi gợi ý nên cài đặt phần mềm ở phía thiết bị từ xa.";
  "Đã ngắt kết nối";
  "Khác";
  "Xác nhận trước khi đóng nhiều cửa sổ";
  "Cài đặt bàn phím";
  "Truy cập không giới hạng";
  "Chia sẻ màn hình";
  "Wayland yêu cầu phiên bản Ubuntu 21.04 trở lên.";
  "Wayland yêu cầu phiên bản distro linux cao hơn. Vui lòng thử máy tính để bàn X11 hoặc thay đổi hệ điều hành của bạn.";
  "View";
  "Vui lòng Chọn màn hình để chia sẻ (Vận hành ở phía người dùng từ xa).";
  "Hiện RustDesk";
  "";
  "hoặc";
  "Tiếp tục với";
  "Cấp Quyền";
  "Phóng to chuột";
  "Chấp nhận phiên kết nối bằng mật khẩu";
  "Chấp nhận phiên kết nối bằng chuột";
  "Chấp nhận phiên kết nối bằng cả hai";
  "Vui lòng chờ phía người dùng từ xa chấp nhận kết nối của bạn...";
  "Mật khẩu một lần";
  "Dùng mật khẩu một lần";
  "Độ dài mật khẩu một lần";
  "Yêu cầu quyền truy cập vào thiết bị của bạn";
  "Ẩn cửa sổ quản lý kết nối";
  "Cho phép ẩn chỉ khi chấp nhận phiên kết nối bằng mật khẩu vĩnh viễn";
  "Hỗ trợ cho Wayland đang trong giai đoạn thử nghiệm, vui lòng dùng DX11 nếu bạn muốn sử dụng kết nối không giám sát.";
  "Chuột phải để chọn cửa sổ";
  "Đã bỏ qua";
  "Thêm vào Quyển địa chỉ";
  "Nhóm";
  "Tìm";
  "Đã đóng thủ công bằng bảng điều khiển web";
  "Loại bàn phím cục bộ";
  "Chọn kiểu bàn phím cục bộ";
  "Nếu bạn đang dùng card đồ họa Nvidia trên Linux và cửa sổ từ xa bị tắt ngay lập tức sau khi kết nối, chuyển sang driver mã nguồn mở Nouveau và chọn sử dụng render bằng phần mềm có thể khắc phục được. Yêu cầu khởi động lại phần mềm.";
  "Cho phép render bằng phần mềm";
  with_quotes ["Để điều khiển được máy tính từ xa với bàn phím, bạn cần cho phép RustDesk quyền "; "Theo dõi đầu vào"; " (Input Monitoring)"];
  with_quotes ["Để nói chuyện từ xa, bạn phải cho phép RustDesk quyền "; "Ghi âm thanh"; " (Record Audio)"];
  "Bạn cũng có thể yêu cầu được cấp quyền nếu có người nào đó ở bên phía kết nối.";
  "Chờ";
  "Cấp Quyền Lỗi";
  "Yêu cầu người dùng từ xa xác thực";
  "Chọn cái này nếu tài khoản từ xa là quản trị viên";
  "Truyền tên tài khoản và mật khẩu của quản trị viên";
  "Vẫn cần người dùng từ xa nhấn OK trên cửa sổ UAC của RustDesk đang chạy.";
  "Yêu cầu Cấp Quyền";
  "Vui lòng chờ cho người dùng từ xa chấp nhận cửa sổ UAC";
  "Cấp quyền thành công";
  "chữ hoa";
  "chữ thường";
  "chữ số";
  "ký tự đặc biệt";
  "độ dài>=8";
  "Yếu";
  "Trung bình";
  "Mạng";
  "Đổi bên";
  "Vui lòng xác nhận nếu bạn muốn chia sẻ máy tính?";
  "Hiển thị";
  "Kiểu xem mặc định";
  "Kiểu cuộn mặc định";
  "Chất lượng hình ảnh mặc định";
  "Codec mặc định";
  "T";
  "";
  "Tự động";
  "Các tùy chọn mặc định khác";
  "Gọi âm thanh";
  "Tin nhắn";
  "Dừng cuộc gọi";
  with_quotes ["Việc kết nối trực tiếp có thể không khả thi, bạn có thể thử kết nối qua máy chủ chuyển tiếp. \nThêm vào đó, nếu bạn muốn sử dụng máy chủ chuyển tiếp trong lần thử đầu tiên, bạn có thể thêm hậu tố "; "/r"; " vào sau ID, hoặc chọn tùy chọn "; "Luôn kết nối qua máy chủ chuyển tiếp"; ""];
  "Kết nối lại";
  "";
  "Độ phân giải";
  "Không có tệp tin nào đang được truyền";
  "Thiết lập độ dài mật khẩu một lần";
  "Cài đặt RDP";
  "Sắp xếp theo";
  "Kết nối mới";
  "Khôi phục";
  "Thu nhỏ";
  "Phóng to";
  "Thiết bị của bạn";
  "Oops, không có kết nối nào gần đây!\nĐã đến lúc kết nối rồi.";
  "Chưa có người dùng yêu thích nào cả?\nHãy tìm ai đó để kết nối cùng và thêm họ vào danh sách yêu thích!";
  "Ôi không, có vẻ như chúng ta chưa phát hiện ra bất cứ người dùng nào cả.";
  "Ôi bạn ơi, có vẻ như bạn chưa thêm ai vào quyển địa chỉ cả.";
  "ví dụ: admin";
  "Tên tài khoản trống";
  "Mật khẩu trống";
  "Tôi";
  "Tệp tin này giống hệt với tệp tin của người dùng từ xa";
  "Hiện các màn hình trong thanh công cụ";
  "Chế độ xem";
  "Bạn cần đăng nhập vào tài khoản Linux từ xa để bật X phiên kết nối";
  "Xác thực mật khẩu RustDesk";
  "Nhớ tài khoản này";
  "Tài khoản này đã được dùng để đăng nhập tới hệ điều hành từ xa và kích hoạt phiên kết nối ở chế độ headless";
  "Tài khoản hệ điều hành";
  "Có người dùng khác đã đăng nhập";
  "Ngắt kết nối";
  "Không tìm thấy Xorg";
  "Vui lòng cài đặt Xorg";
  "Không có desktop khả dụng";
  "Vui lòng cài đặt desktop GNOME";
  "Không cần phải cấp quyền";
  "Âm thanh hệ thống";
  "Mặc định";
  "RDP mới";
  "";
  "Sao chép fingerprint";
  "không có fingerprints";
  "Chọn một người dùng";
  "Chọn nhiều người dùng";
  "Tiện ích";
  "Gỡ cài đặt";
  "Cập nhật";
  "Bật";
  "Tắt";
  "Tùy chọn";
  "Độ phân giải gốc";
  "Vừa với độ phân giải cục bộ";
  "Độ phân giải tùy chỉnh";
  "Thu nhỏ thanh công cụ";
  "Chấp nhận và Cấp Quyền";
  "Chấp nhận kết nối và cấp các quyền UAC.";
  "";
  "";
  "";
  "";
  "";
  "";
  "";
  "";
  "";
  "";
  "";
  "";
  "";
  "";
  "";
  "";
  "";
  "";
  "";
  "";
  "";
  "";
  "";
  "";
  "";
  "";
  "";
  "";
  "";
  "";
  "";
  "";
  "";
  "";
  "";
  "";
  "";
  "";
  "";
  "";
  "";
  "";
  "";
  "";
  "";
  "";
  "";
  "";
  "";
  "";
  "";
  "";
  "";
  "";
  "";
  "";
  "";
  "";
  "";
  "";
  "";
  "";
  "";
  "";
  "";
  "";
  "";
  "";
  "";
  "";
  "";
  "";
  "";
  "";
  "";
  "";
  "";
  "";
  "";
  "";
  "";
  "";
  "";
  "";
  "";
  "";
  "";
  "";
  "";
  "";
  "";
  "";
  "";
  "";
  "";
  "";
  "";
  "";
  "";
  "";
  "";
  "";
  "";
  "";
  "";
  "";
  "";
  "";
  "";
  "";
  "";
  "";
  "";
  "";
  "";
  "";
  "";
  "";
  "";
  "";
  "";
  "";
  "";
  "";
  "";
  "";
  "";
  "";
  "";
  "";
  "";
  "";
  "";
  "";
  "";
  "";
  "";
  "";
  "";
  "";
  "";
  "";
  "";
  "";
  "";
  "";
  "";
  "";
  "";
  "";
  "";
  "";
  "";
  "";
  ""].
