(* ===== verification/Translate.v ===== *)
(** * What is shown: [translate] with the tables of the program

    [LANGS] as a whole, and what [translate] answers with it: whatever the language, a text has the
    placeholders of the English one, which the application fills. *)
From Stdlib Require Import Strings.Ascii.
From S2P Require Import Prelude JsMap JsStr Json Common Langs TextsA TextsB TextsC TextsD.
Local Open Scope string_scope.

Definition LANGS : jsmap string (jsmap string string) := [
  ("ar", lang_ar); ("be", lang_be); ("bg", lang_bg); ("ca", lang_ca); ("cn", lang_cn); ("cs", lang_cs);
  ("da", lang_da); ("de", lang_de); ("el", lang_el); ("en", en); ("eo", lang_eo); ("es", lang_es); ("et",
  lang_et); ("eu", lang_eu); ("fa", lang_fa); ("fr", lang_fr); ("he", lang_he); ("hr", lang_hr); ("hu",
  lang_hu); ("id", lang_id); ("it", lang_it); ("ja", lang_ja); ("ko", lang_ko); ("kz", lang_kz); ("lt",
  lang_lt); ("lv", lang_lv); ("nb", lang_nb); ("nl", lang_nl); ("pl", lang_pl); ("ptbr", lang_ptbr);
  ("pt_PT", lang_pt_PT); ("README", [("ENG-KEY", "translation")]); ("ro", lang_ro); ("ru", lang_ru); ("sk",
  lang_sk); ("sl", lang_sl); ("sq", lang_sq); ("sr", lang_sr); ("sv", lang_sv); ("th", lang_th); ("tr",
  lang_tr); ("tw", lang_tw); ("uk", lang_uk); ("vn", lang_vn)].

(** ** Placeholders *)
(** How often a text has [{}]. *)
Fixpoint placeholders (s : string) : nat :=
  match s with
  | String "{" (String "}" _ as r) => S (placeholders r)
  | String _ r => placeholders r
  | EmptyString => 0%nat
  end.
(** What an id stands for. *)
Definition english (id : string) : string := or_empty (default "" (map_get en id)) id.
Definition row_ok (row : string * string) : Prop := row.2 = "" \/ placeholders row.2 = placeholders (english row.1).

(** *** Checking a table *)
Fixpoint rows_ok (ids : list (string * nat)) (t : jsmap string string) : bool :=
  match ids, t with
  | (k, n) :: ids, (k', v) :: t => (k =? k') && ((v =? "") || (placeholders v =? n)%nat) && rows_ok ids t
  | [], [] => true
  | _, _ => false
  end.
Definition counted (ids : list string) : list (string * nat) := map (fun k => (k, placeholders (english k))) ids.
Lemma rows_ok_spec ids t : rows_ok (counted ids) t = true -> Forall row_ok t /\ map_keys t = ids.
Proof.
  revert t. induction ids as [|k ids IH]; intros [|[k' v] t]; cbn [counted map rows_ok]; try done.
  intros [[Hk%String.eqb_eq Hv]%andb_true_iff Ht]%andb_true_iff. destruct (IH t Ht) as [Hrows Hkeys]. subst k'.
  split; [|unfold map_keys in *; cbn; by rewrite Hkeys]. constructor; [|done].
  apply orb_true_iff in Hv as [Hv%String.eqb_eq|Hv%Nat.eqb_eq]; [by left|by right].
Qed.
Definition text_counts : list (string * nat) := Eval vm_compute in counted text_ids.
Lemma text_counts_ok : counted text_ids = text_counts.
Proof. by vm_compute. Qed.

(** Every table but two has a row for each of the ids. *)
Definition special (name : string) : bool := (name =? "en") || (name =? "README").
Lemma tables_checked : forallb (fun l => special l.1 || rows_ok text_counts l.2) LANGS = true.
Proof. by vm_compute. Qed.
Lemma special_checked : forallb (fun l => negb (special l.1) || rows_ok (counted (map_keys l.2)) l.2) LANGS = true.
Proof. by vm_compute. Qed.
Lemma table_rows name t : (name, t) ∈ LANGS -> Forall row_ok t /\ (special name = false -> map_keys t = text_ids).
Proof.
  intros Hin. pose proof tables_checked as Hc. pose proof special_checked as Hs.
  rewrite forallb_forall in Hc, Hs. apply list_elem_of_In in Hin. specialize (Hc _ Hin). specialize (Hs _ Hin).
  cbn [fst snd] in Hc, Hs. destruct (special name).
  - apply rows_ok_spec in Hs as [Hs _]. by split.
  - cbn [orb] in Hc. rewrite <- text_counts_ok in Hc. by apply rows_ok_spec in Hc as [Hc Hk].
Qed.
Lemma row_kept name t text : (name, t) ∈ LANGS -> translated t text = true ->
  placeholders (default "" (map_get t text)) = placeholders (english text).
Proof.
  intros Hin Ht. destruct (table_rows name t Hin) as [Hrows _]. pose proof (translated_lookup t text Ht) as E.
  unfold translated, truthy, truthy_string in Ht. apply bool_decide_eq_true in Ht.
  rewrite Forall_forall in Hrows. destruct (Hrows _ (map_get_Some_elem _ _ _ E)) as [Hv|Hv]; [|exact Hv].
  by cbn in Hv.
Qed.
Lemma english_spec locale text : translate LANGS "en" locale text = english text.
Proof. unfold translate, english. by destruct (truthy _). Qed.

(** C40.  Whatever language the application is shown in, no text is lost and none loses or gains a place
    to be filled: what [translate] answers for a text is not empty and has exactly as many [{}] as
    the English text has, for every language, locale and text.  Every language but English
    and the entry made of a README has a row for the same 656 texts. *)
Theorem translate_keeps_placeholders LANG locale text : text <> "" ->
  let shown := translate LANGS LANG locale text in
  shown <> "" /\ placeholders shown = placeholders (translate LANGS "en" locale text) /\
  forall name t, map_get LANGS name = Some t -> special name = false -> map_keys t = text_ids.
Proof.
  intros Hne. cbv zeta. rewrite english_spec.
  destruct (translate_never_empty LANGS LANG locale text eq_refl Hne) as [(Hs & Hown & Hen & Hraw) _].
  assert (Hin : forall name t, map_get LANGS name = Some t -> (name, t) ∈ LANGS) by (intros; by apply map_get_Some_elem).
  split; [done|]. split; [|intros name t E; by apply (table_rows name), Hin].
  set (shown := translate LANGS LANG locale text) in *. clearbody shown.
  assert (Htab : exists name, (name, table LANGS LANG locale) ∈ LANGS).
  { unfold table. destruct (map_get LANGS (or_empty LANG (locale_lang locale))) as [t|] eqn:E; [by eexists; apply Hin|].
    exists "en". by apply Hin. }
  destruct Htab as [name Htab]. destruct (translated (table LANGS LANG locale) text) eqn:Et.
  - specialize (Hown eq_refl). pose proof (row_kept name _ text Htab Et) as E. by rewrite Hown in E.
  - destruct (translated en text) eqn:Ee.
    + specialize (Hen eq_refl eq_refl). unfold english. rewrite Hen. cbn. unfold or_empty.
      destruct (decide (shown = "")); [done|]. by rewrite bool_decide_false by done.
    + rewrite (Hraw eq_refl eq_refl). unfold english. by rewrite (not_translated _ _ Ee).
Qed.
Lemma translate_keeps_placeholders_witness :
  placeholders (translate LANGS "" "de-DE" "{} sessions") = 1%nat /\ translate LANGS "" "de-DE" "{} sessions" = "{} Sitzungen".
Proof.
  split; [|by vm_compute]. destruct (translate_keeps_placeholders "" "de-DE" "{} sessions") as (_ & E & _); [done|].
  rewrite E. by vm_compute.
Defined.

(** A text whose placeholder is filled before it is looked up, as the application asks for, is in no
    table: the id is shown instead of the text. *)
Lemma filled_placeholder_not_found LANG locale :
  translate LANGS LANG locale "upgrade_rustdesk_server_pro_to_{1.1.10}_tip" = "upgrade_rustdesk_server_pro_to_{1.1.10}_tip" /\
  translated en "upgrade_rustdesk_server_pro_to_{}_tip" = true.
Proof.
  split; [|by vm_compute]. set (text := "upgrade_rustdesk_server_pro_to_{1.1.10}_tip").
  destruct (translate_never_empty LANGS LANG locale text eq_refl) as [(_ & _ & _ & Hraw) _]; [done|].
  apply Hraw; [|by vm_compute].
  assert (Hall : forallb (fun l => negb (translated l.2 text)) LANGS = true) by (by vm_compute).
  rewrite forallb_forall in Hall. unfold table.
  destruct (map_get LANGS (or_empty LANG (locale_lang locale))) as [t|] eqn:E; [|by vm_compute].
  apply negb_true_iff, (Hall (or_empty LANG (locale_lang locale), t)), list_elem_of_In. by apply map_get_Some_elem.
Qed.

(** The language is taken from the end of the locale, where a locale has its region: Spanish of
    Argentina is shown in Arabic, English and French of Canada in Catalan, Dutch of Belgium in
    Belarusian, and the languages named otherwise than a region are never found. *)
Example region_taken_for_language :
  map locale_lang ["es-AR"; "en-CA"; "fr-CA"; "nl-BE"; "en-ID"; "ja-JP"; "pt-BR"; "cs-CZ"] =
    ["ar"; "ca"; "ca"; "be"; "id"; "jp"; "br"; "cz"] /\
  forallb (fun l => bool_decide (l ∈ map_keys LANGS)) ["ar"; "ca"; "be"; "id"; "ja"; "ptbr"; "cs"] = true /\
  forallb (fun l => bool_decide (l ∉ map_keys LANGS)) ["jp"; "br"; "cz"] = true.
Proof. by vm_compute. Qed.
