(* ===== verification/RdOptions.v ===== *)
(** * Remote-desktop options: [connections/rd_options.ts]

    Options are read from and stored in the session's [_options]; toggling one tells the peer. *)
From S2P Require Import Prelude JsMap JsStr Json ProtoWire ProtoEnums ProtoSession ProtoMessage Crypto Config.
From S2P Require Import PushEvent Websock FtBrowserIo Page SessionBase.
Local Open Scope string_scope.

Definition yes : Z := OptionMessage_BoolOption.Yes.
Definition no : Z := OptionMessage_BoolOption.No.

Definition getImageQualityEnum (value : option json) (ignoreDefault : bool) : option Z :=
  match value with
  | Some (JStr v) =>
      if v =? "low" then Some ImageQuality.Low
      else if v =? "best" then Some ImageQuality.Best
      else if v =? "balanced" then (if ignoreDefault then None else Some ImageQuality.Balanced)
      else None
  | _ => None
  end.
Definition getImageQuality (c : base) : option json := getOption "image-quality" c.

(** The options that are on are counted; none is [undefined]. *)
Definition getOptionMessage (c : base) : option OptionMessage.t :=
  let on name := option_truthy (getOption name c) in
  let q := getImageQualityEnum (getImageQuality c) true in
  let msg := OptionMessage.createBase in
  let '(msg, n) := match q with Some q => (msg <| OptionMessage.image_quality := q |>, 1%Z) | None => (msg, 0%Z) end in
  let '(msg, n) := if on "show-remote-cursor" then (msg <| OptionMessage.show_remote_cursor := yes |>, n + 1)%Z else (msg, n) in
  let '(msg, n) := if on "lock-after-session-end" then (msg <| OptionMessage.lock_after_session_end := yes |>, n + 1)%Z else (msg, n) in
  let '(msg, n) := if on "privacy-mode" then (msg <| OptionMessage.privacy_mode := yes |>, n + 1)%Z else (msg, n) in
  let '(msg, n) := if on "disable-audio" then (msg <| OptionMessage.disable_audio := yes |>, n + 1)%Z else (msg, n) in
  let '(msg, n) := if on "disable-clipboard" then (msg <| OptionMessage.disable_clipboard := yes |>, n + 1)%Z else (msg, n) in
  if (0 <? n)%Z then Some msg else None.

Definition misc_message (misc : Misc.t) : Message.t := Message.createBase <| Message.misc := Some misc |>.
Definition option_message (o : OptionMessage.t) : Message.t :=
  misc_message (Misc.createBase <| Misc.option := Some o |>).

(** The message [toggleOption] builds for [name] when the option becomes [v]; [None]: unknown name. *)
Definition toggle_message (name : string) (v : bool) : option OptionMessage.t :=
  let option := OptionMessage.createBase in
  let v2 := if v then yes else no in
  if name =? "show-remote-cursor" then Some (option <| OptionMessage.show_remote_cursor := v2 |>)
  else if name =? "disable-audio" then Some (option <| OptionMessage.disable_audio := v2 |>)
  else if name =? "disable-clipboard" then Some (option <| OptionMessage.disable_clipboard := v2 |>)
  else if name =? "lock-after-session-end" then Some (option <| OptionMessage.lock_after_session_end := v2 |>)
  else if name =? "privacy-mode" then Some (option <| OptionMessage.privacy_mode := v2 |>)
  else if name =? "block-input" then Some (option <| OptionMessage.block_input := yes |>)
  else if name =? "unblock-input" then Some (option <| OptionMessage.block_input := no |>)
  else if name =? "view-only" then
    Some (option
      <| OptionMessage.disable_keyboard := if v then v2 else no |>
      <| OptionMessage.disable_clipboard := if v then v2 else no |>
      <| OptionMessage.show_remote_cursor := if v then v2 else no |>
      <| OptionMessage.enable_file_transfer := if v then v2 else yes |>
      <| OptionMessage.lock_after_session_end := if v then v2 else yes |>)
  else None.

Section RdOptions.
Context `{ProtobufRuntime} `{Sodium}.
Abbreviation conn A := (js (base * page) A).

Definition setImageQuality (value : string) : conn unit :=
  setOption "image-quality" (Some (JStr value));;
  match getImageQualityEnum (Some (JStr value)) false with
  | None => skip
  | Some q => sendMessage (option_message (OptionMessage.createBase <| OptionMessage.image_quality := q |>))
  end.

Definition toggleOption (name : string) : conn unit :=
  v ← self (fun c => negb (option_truthy (getOption name c)));
  match toggle_message name v with
  | None => skip
  | Some option =>
      (if (indexOf name "block-input" <? 0)%Z then setOption name (Some (JBool v)) else skip);;
      sendMessage (option_message option)
  end.

Definition togglePrivacyMode (value : string) : conn unit :=
  sendMessage (option_message (OptionMessage.createBase
    <| OptionMessage.privacy_mode := if value =? "true" then yes else no |>)).

(** [conn._options["codec-preference"] || "auto"], looked up in the literal [map] *)
Definition prefer_codec (c : base) : Z :=
  let pref := match getOption "codec-preference" c with
              | Some j => if truthy j then json_String j else "auto"
              | None => "auto" end in
  let codecs := [("auto", SupportedDecoding_PreferCodec.Auto); ("vp8", SupportedDecoding_PreferCodec.VP8);
                 ("vp9", SupportedDecoding_PreferCodec.VP9); ("av1", SupportedDecoding_PreferCodec.AV1);
                 ("h264", SupportedDecoding_PreferCodec.H264); ("h265", SupportedDecoding_PreferCodec.H265)] in
  default SupportedDecoding_PreferCodec.Auto (map_get codecs pref).
Definition changePreferCodec : conn unit :=
  p ← self prefer_codec;
  sendMessage (option_message (OptionMessage.createBase
    <| OptionMessage.supported_decoding := Some (SupportedDecoding.createBase <| SupportedDecoding.prefer := p |>) |>)).

(** [conn._options[name] || false] *)
Definition getToggleOption (name : string) (c : base) : json :=
  match getOption name c with Some j => if truthy j then j else JBool false | None => JBool false end.
End RdOptions.

(** ** What the peer is told *)
Section Facts.
Context `{ProtobufRuntime} `{Sodium}.

(** The options [toggleOption] stores. *)
Definition toggles : list string :=
  ["show-remote-cursor"; "disable-audio"; "disable-clipboard"; "lock-after-session-end"; "privacy-mode"; "view-only"].

(** Toggling an option flips what is stored for it, leaves every other option alone (but for the
    time stamp), and tells the peer in one message: the message that announces the new value. *)
Theorem toggleOption_flips name c pg ws :
  name ∈ toggles -> map_ok (_options c) -> _ws c = Some ws -> readyState ws <> CONNECTING ->
  let v := negb (option_truthy (getOption name c)) in
  exists o c' pg', toggle_message name v = Some o /\ toggleOption name (c, pg) = (Ret tt, (c', pg')) /\
    getOption name c' = Some (JBool v) /\
    (forall other, other <> name -> other <> "tm" -> getOption other c' = getOption other c) /\
    _ws c' = Some (exec (Websock.sendMessage (option_message o)) ws).
Proof.
  intros Hin Hok Hws Hc v.
  assert (Hn : (indexOf name "block-input" <? 0)%Z = true /\ name <> "tm" /\ exists o, toggle_message name v = Some o).
  { generalize v. clear -Hin. intros v. unfold toggles in Hin.
    repeat (apply elem_of_cons in Hin as [->|Hin]; [by repeat split; [..|eexists; reflexivity]|]).
    by apply not_elem_of_nil in Hin. }
  destruct Hn as (Hn & Htm & o & Ho).
  unfold toggleOption. page_steps. fold v. rewrite Ho, Hn.
  destruct (setOption_run name (Some (JBool v)) (c, pg)) as (opts & E & Eo).
  destruct (sendMessage_sends (option_message o) ws Hc) as (ws' & Es & _). cbn [fst snd] in *.
  exists o. eexists _, _. split; [done|]. erewrite bind_eq by exact E. unfold sendMessage, on_ws. cbn [fst snd].
  assert (Hws' : forall x, _ws (c <| _options := x |>) = Some ws) by (intros; by destruct c).
  rewrite Hws', Es. split; [done|].
  assert (Hopt : forall x, _options (c <| _options := x |> <| _ws := Some ws' |>) = x) by (intros; by destruct c).
  unfold getOption. rewrite !Hopt. split; [|split].
  - rewrite map_get_set_ne by done. subst opts. apply map_get_set_eq.
  - intros other Hne Hne'. rewrite !map_get_set_ne by done. subst opts. by rewrite map_get_set_ne.
  - unfold exec. rewrite Es. by destruct c.
Qed.

(** Turning "view-only" on or off allows file transfer and locks the remote screen in both cases:
    the two fields do not depend on the new value. *)
Lemma view_only_fixed_fields v o : toggle_message "view-only" v = Some o ->
  OptionMessage.enable_file_transfer o = yes /\ OptionMessage.lock_after_session_end o = yes.
Proof. by destruct v; intros [= <-]. Qed.
End Facts.
