(* ===== verification/RdConnection.v ===== *)
(** * The remote-desktop session: [connections/rd_connection.ts], [connections/rd_video.ts]

    Input, options and video of a remote desktop.  The VP9 decoder and the canvas are outside:
    what the decoder does with each frame it is given is an argument ([submission]), and its later
    callbacks are operations ([frame_callback]).  Handlers that show message boxes are written
    against [on_rd] and [msgbox], which [Sessions] provides. *)
From S2P Require Import Prelude JsMap JsStr Json Bytes ProtoWire ProtoEnums ProtoSession ProtoMedia ProtoMessage.
From S2P Require Import Crypto Config PushEvent Websock SessionConnect FtBrowserIo Page SessionBase FtConnection.
From S2P Require Import Common RdOptions.
From Stdlib Require Import Floats.SpecFloat.
Local Open Scope string_scope.

(** One call of [handleVideoFrame]: the variables its callbacks share. *)
Record batch := { b_i : Z; b_n : Z; b_display : Z; b_tm : Z }.

Record rd := {
  rsuper : base;
  _firstFrame : bool;
  (** which decoder is installed, the ones that were closed, and for each decoder that is still
      loading the one it will replace *)
  _videoDecoder : option nat;
  closed_decoders : list nat;
  loading : list (option nat);
  _videoTestSpeed : Z * Z;
  _lastKeyDownEvent : option Z;
  batches : list batch;
  (** the displays drawn to, in order *)
  drawn : list Z;
  (** text put on the clipboard *)
  clipboard : list bytes;
  (** the runs of [inputOsPassword] under way: the stage their timer leads to, and the password *)
  typing : list (nat * string);
}.
Definition newRdConnection : rd := {|
  rsuper := newBase; _firstFrame := false; _videoDecoder := None; closed_decoders := []; loading := []; _videoTestSpeed := (0, 0)%Z;
  _lastKeyDownEvent := None; batches := []; drawn := []; clipboard := [];
  typing := [] |}.

(** What [processFrame] did with a frame: kept it for later, called back at once, or threw. *)
Inductive submission := Kept | CalledBack (ok has_buffer : bool) | Threw.

Section RdConnection.
Context `{ProtobufRuntime} `{Sodium} `{Zstd}.
Abbreviation conn A := (js (rd * page) A).

Definition in_super {A} : js (base * page) A -> conn A := zoom rsuper (fun b c => c <| rsuper := b |>).
Definition rd_send (m : Message.t) : conn unit := in_super (sendMessage m).
Definition send_misc (misc : Misc.t) : conn unit := rd_send (misc_message misc).

Definition buildRdLoginRequest (password : option bytes) : conn LoginRequest.t :=
  c ← self rsuper;
  r ← of_page rand;
  let sid := ensureLoginSessionId r (_loginSessionId c) in
  in_super (update (fun b => b <| _loginSessionId := Some sid |>));;
  mret (LoginRequest.createBase
    <| LoginRequest.username := _id c |> <| LoginRequest.my_id := "web" |> <| LoginRequest.my_name := "web" |>
    <| LoginRequest.password := default [] password |> <| LoginRequest.session_id := sid |>
    <| LoginRequest.option := getOptionMessage c |> <| LoginRequest.video_ack_required := true |>).

(** ** Video *)
(** Loading takes a while; [vp9_loaded k decoder] is the callback of load [k]. *)
Definition loadVideoDecoder : conn unit := update (fun c => c <| loading := (loading c ++ [_videoDecoder c])%list |>).
Definition vp9_loaded (k decoder : nat) : conn unit :=
  update (fun c => c <| _videoDecoder := Some decoder |> <| closed_decoders ::= fun l =>
    match loading c !! k with Some (Some old) => (l ++ [old])%list | _ => l end |>).

Definition sendVideoReceived : conn unit := send_misc (Misc.createBase <| Misc.video_received := Some true |>).

Definition get_batch (k : nat) (c : rd) : batch := nth k (batches c) {| b_i := 0; b_n := 0; b_display := 0; b_tm := 0 |}.
(** [i++] *)
Definition count_frame (k : nat) : conn unit :=
  update (fun c => c <| batches ::= alter (fun b => b <| b_i := (b_i b + 1)%Z |>) k |>).
Definition acknowledge (k : nat) : conn unit :=
  b ← self (get_batch k);
  when (b_i b =? b_n b)%Z sendVideoReceived.

(** The callback given to [processFrame] for a frame of batch [k]. *)
Definition frame_callback (k : nat) (ok has_buffer : bool) : conn unit :=
  count_frame k;;
  acknowledge k;;
  b ← self (get_batch k);
  if ok && has_buffer && (b_n b =? b_i b)%Z then
    tnow ← of_page now;
    update (fun c =>
      let '(n, t) := _videoTestSpeed c in
      let speed := ((n + 1)%Z, (t + (tnow - b_tm b))%Z) in
      c <| drawn := (drawn c ++ [b_display b])%list |>
        <| _videoTestSpeed := if (30 <=? speed.1)%Z then (0, 0)%Z else speed |>)
  else skip.

Definition submit (k : nat) (s : submission) : conn unit :=
  match s with
  | Kept => skip
  | CalledBack ok has_buffer => frame_callback k ok has_buffer
  | Threw => count_frame k;; acknowledge k
  end.

(** [decoder k f] is what the decoder does with frame [f] of batch [k].  The message box of the
    first frame has no type and shows nothing. *)
Definition handleVideoFrame (decoder : nat -> EncodedVideoFrame.t -> submission) (vf : VideoFrame.t) : conn unit :=
  update (fun c => c <| _firstFrame := true |>);;
  match VideoFrame.vp9s vf with
  | None => skip
  | Some vp9s =>
      dec ← self _videoDecoder;
      match dec with
      | None => skip
      | Some _ =>
          tnow ← of_page now;
          k ← self (fun c => length (batches c));
          let frames := EncodedVideoFrames.frames vp9s in
          update (fun c => c <| batches := (batches c ++
            [{| b_i := 0; b_n := len frames; b_display := VideoFrame.display vf; b_tm := tnow |}])%list |>);;
          for_of frames (fun f => submit k (decoder k f))
      end
  end.

(** ** Input *)
Definition getMod (alt ctrl shift command : bool) : list Z :=
  ((if alt then [ControlKey.Alt] else []) ++ (if ctrl then [ControlKey.Control] else []) ++
   (if shift then [ControlKey.Shift] else []) ++ (if command then [ControlKey.Meta] else []))%list.

Definition key_message (k : KeyEvent.t) : Message.t := Message.createBase <| Message.key_event := Some k |>.

(** [!x] for an optional number *)
Definition falsy_num (x : option Z) : bool := match x with Some n => (n =? 0)%Z | None => true end.

Definition inputKey (isDesktop : bool) (name : string) (down press alt ctrl shift command : bool) : conn unit :=
  let key_event := mapKey name isDesktop in
  (if down then update (fun c => c <| _lastKeyDownEvent := KeyEvent.chr key_event |>) else skip);;
  last ← self _lastKeyDownEvent;
  let restore := negb down && falsy_num (KeyEvent.chr key_event) in
  (if restore then update (fun c => c <| _lastKeyDownEvent := None |>) else skip);;
  let key_event := if restore then key_event <| KeyEvent.chr := last |> else key_event in
  rd_send (key_message (key_event <| KeyEvent.down := down |> <| KeyEvent.press := press |>
    <| KeyEvent.modifiers := getMod alt ctrl shift command |>)).

Definition ctrlAltDel : conn unit :=
  pi ← self (fun c => _peerInfo (rsuper c));
  let key_event := KeyEvent.createBase <| KeyEvent.down := true |> in
  rd_send (key_message
    (if match pi with Some pi => PeerInfo.platform pi =? "Windows" | None => false end then
       key_event <| KeyEvent.control_key := Some ControlKey.CtrlAltDel |>
     else key_event <| KeyEvent.control_key := Some ControlKey.Delete |>
            <| KeyEvent.modifiers := getMod true true false false |>)).

Definition inputString (seq : string) : conn unit :=
  rd_send (key_message (KeyEvent.createBase <| KeyEvent.seq := Some seq |>)).
Definition lockScreen : conn unit :=
  rd_send (key_message (KeyEvent.createBase <| KeyEvent.down := true |>
    <| KeyEvent.control_key := Some ControlKey.LockScreen |>)).
Definition inputMouse (mask x y : Z) (alt ctrl shift command : bool) : conn unit :=
  rd_send (Message.createBase <| Message.mouse_event := Some (MouseEvent.createBase
    <| MouseEvent.mask := mask |> <| MouseEvent.x := x |> <| MouseEvent.y := y |>
    <| MouseEvent.modifiers := getMod alt ctrl shift command |>) |>).
Definition move_mouse (mask x y : Z) : conn unit := inputMouse mask x y false false false false.

(** The login screen is woken by a move and a click, then the password is typed: one stage at
    once, the others as the timers of [sleep] fire. *)
Definition os_password_stage (stage : nat) (seq : string) : conn unit :=
  match stage with
  | 0%nat => move_mouse 0 0 0
  | 1%nat => move_mouse 0 3 3
  | 2%nat => move_mouse (Z.lor 1 (Z.shiftl 1 3)) 0 0;; move_mouse (Z.lor 2 (Z.shiftl 1 3)) 0 0
  | _ => rd_send (key_message (KeyEvent.createBase <| KeyEvent.press := true |> <| KeyEvent.seq := Some seq |>))
  end.
Definition inputOsPassword (seq : string) : conn unit :=
  os_password_stage 0 seq;;
  update (fun c => c <| typing := (typing c ++ [(1%nat, seq)])%list |>).
(** The timer of run [k] fires; the run ends with stage 3. *)
Definition os_password_timer (k : nat) : conn unit :=
  run ← self (fun c => typing c !! k);
  match run with
  | Some (stage, seq) =>
      os_password_stage stage seq;;
      update (fun c => c <| typing := if (stage <? 3)%nat then <[k := (S stage, seq)]> (typing c)
                                      else delete k (typing c) |>)
  | None => skip
  end.

Definition refresh : conn unit := send_misc (Misc.createBase <| Misc.refresh_video := Some true |>).
Definition switchDisplay (display : Z) : conn unit :=
  send_misc (Misc.createBase <| Misc.switch_display := Some (SwitchDisplay.createBase
    <| SwitchDisplay.display := display |>) |>).
Definition send2fa (value : string) : conn unit :=
  send_misc (Misc.createBase <| Misc.chat_message := Some (ChatMessage.createBase <| ChatMessage.text := value |>) |>).

Definition json_field (j : json) (f : string) : option json :=
  match j with JObj o => map_get o f | _ => None end.
(** [object.f ?? ""] *)
Definition string_or_empty (j : option json) : string := match j with Some (JStr s) => s | _ => "" end.
Definition elevateWithLogon (value : string) : conn unit :=
  match parse value with
  | None => skip
  | Some obj =>
      try_catch (send_misc (Misc.createBase <| Misc.elevation_request := Some (ElevationRequest.createBase
          <| ElevationRequest.logon := match obj with
             | JNull => None
             | _ => Some (ElevationRequestWithLogon.createBase
                 <| ElevationRequestWithLogon.username := string_or_empty (json_field obj "username") |>
                 <| ElevationRequestWithLogon.password := string_or_empty (json_field obj "password") |>)
             end |>) |>))
        (fun _ => skip)
  end.

(** ** Options *)
Definition getRemember (c : rd) : bool := option_truthy (getOption "remember" (rsuper c)).
Definition setRemember (v : bool) : conn unit := in_super (setOption "remember" (Some (JBool v))).

Definition shouldAutoLogin (c : base) : string :=
  let l := getOption "lock-after-session-end" c in
  let a := option_truthy (getOption "auto-login" c) in
  match getOption "os-password" c with
  | Some p => if truthy p && option_truthy l && a then json_String p else ""
  | None => ""
  end.

Definition rd_close : conn unit :=
  in_super baseClose;;
  update (fun c => c <| closed_decoders ::= fun l =>
    match _videoDecoder c with Some d => (l ++ [d])%list | None => l end |>).
End RdConnection.

(** ** Video acknowledgement *)
Section Video.
Context `{ProtobufRuntime} `{Sodium} `{Zstd}.

(** The acknowledgement message, and how often it was sent since the socket was [ws]. *)
Definition ack : Message.t := misc_message (Misc.createBase <| Misc.video_received := Some true |>).

Lemma acknowledge_run k c pg ws :
  _ws (rsuper c) = Some ws -> readyState ws <> CONNECTING ->
  exists c', acknowledge k (c, pg) = (Ret tt, (c', pg)) /\ batches c' = batches c /\
    _ws (rsuper c') = Some (if (b_i (get_batch k c) =? b_n (get_batch k c))%Z
                            then exec (Websock.sendMessage ack) ws else ws).
Proof.
  intros Hws Hc. unfold acknowledge. page_steps.
  destruct (_ =? _)%Z; cbn [when]; [|by exists c].
  destruct (sendMessage_sends ack ws Hc) as (ws' & E & _).
  unfold sendVideoReceived, send_misc, rd_send, in_super, zoom, sendMessage, on_ws. cbn [fst snd]. rewrite Hws.
  change (misc_message _) with ack. rewrite E. eexists. split; [done|]. unfold exec. rewrite E. by destruct c as [[] ? ? ? ? ? ? ? ? ? ?].
Qed.

Lemma submit_run k s c pg ws :
  _ws (rsuper c) = Some ws -> readyState ws <> CONNECTING -> s <> Kept -> (k < length (batches c))%nat ->
  exists c' pg', submit k s (c, pg) = (Ret tt, (c', pg')) /\
    batches c' = alter (fun b => b <| b_i := (b_i b + 1)%Z |>) k (batches c) /\
    _ws (rsuper c') = Some (if (b_i (get_batch k c) + 1 =? b_n (get_batch k c))%Z
                            then exec (Websock.sendMessage ack) ws else ws).
Proof.
  intros Hws Hc Hs Hk. set (c1 := c <| batches ::= alter (fun b => b <| b_i := (b_i b + 1)%Z |>) k |>).
  assert (Hb : get_batch k c1 = (get_batch k c) <| b_i := (b_i (get_batch k c) + 1)%Z |>).
  { unfold get_batch. subst c1. destruct c; cbn in *. rewrite !nth_lookup.
    rewrite list_lookup_alter_eq. destruct (lookup_lt_is_Some_2 _ _ Hk) as [x Ex]. by rewrite Ex. }
  assert (Hws1 : _ws (rsuper c1) = Some ws) by (by destruct c).
  assert (Hb1 : batches c1 = alter (fun b => b <| b_i := (b_i b + 1)%Z |>) k (batches c)) by (by destruct c).
  assert (E1 : count_frame k (c, pg) = (Ret tt, (c1, pg))) by done.
  destruct (acknowledge_run k c1 pg ws Hws1 Hc) as (c2 & E2 & Hbt & Hw2).
  rewrite Hb in Hw2. change (b_i ((get_batch k c) <| b_i := (b_i (get_batch k c) + 1)%Z |>)) with (b_i (get_batch k c) + 1)%Z in Hw2.
  change (b_n ((get_batch k c) <| b_i := (b_i (get_batch k c) + 1)%Z |>)) with (b_n (get_batch k c)) in Hw2.
  destruct s as [|ok hb|]; [done| |].
  - cbn [submit]. unfold frame_callback. erewrite bind_eq by exact E1. erewrite bind_eq by exact E2.
    page_steps. destruct (ok && hb && _).
    + page_steps. eexists _, _. split; [done|]. rewrite <- Hb1, <- Hbt.
      destruct c2; cbn in *. destruct _videoTestSpeed0. done.
    + eexists _, _. split; [done|]. by rewrite <- Hb1, <- Hbt.
  - cbn [submit]. erewrite bind_eq by exact E1. rewrite E2. eexists _, _. split; [done|]. by rewrite <- Hb1, <- Hbt.
Qed.

(** C32.  Frames are acknowledged once.  Of a batch of [n] frames, each of which is at some point called
    back or rejected by the decoder, exactly one acknowledgement is sent, and only when the last
    frame completes -- also if every frame failed to decode. *)
Theorem batch_acknowledged_once k ss c pg ws :
  _ws (rsuper c) = Some ws -> readyState ws = OPEN -> Forall (fun s => s <> Kept) ss ->
  (k < length (batches c))%nat -> b_i (get_batch k c) = 0%Z ->
  (len ss <= b_n (get_batch k c))%Z -> ss <> [] ->
  exists c' pg', for_of ss (submit k) (c, pg) = (Ret tt, (c', pg')) /\
    _ws (rsuper c') = Some (if (len ss =? b_n (get_batch k c))%Z then exec (Websock.sendMessage ack) ws else ws).
Proof.
  intros Hws Ho Hss Hk Hi Hn Hne.
  enough (G : forall ss c pg i, _ws (rsuper c) = Some ws -> Forall (fun s => s <> Kept) ss ->
    (k < length (batches c))%nat -> b_i (get_batch k c) = i -> (i + len ss <= b_n (get_batch k c))%Z -> ss <> [] ->
    exists c' pg', for_of ss (submit k) (c, pg) = (Ret tt, (c', pg')) /\
      _ws (rsuper c') = Some (if (i + len ss =? b_n (get_batch k c))%Z then exec (Websock.sendMessage ack) ws else ws))
    by (by apply (G ss c pg 0%Z)).
  clear -Ho. induction ss as [|s ss IH]; intros c pg i Hws Hss Hk Hi Hn Hne; [done|].
  apply Forall_cons in Hss as [Hs Hss]. rewrite len_cons in Hn |- *.
  destruct (submit_run k s c pg ws Hws ltac:(by rewrite Ho) Hs Hk) as (c1 & pg1 & E & Hb & Hw).
  cbn [for_of]. erewrite bind_eq by exact E. rewrite Hi in Hw.
  destruct ss as [|s' ss].
  - eexists _, _. split; [done|]. rewrite len_nil. by rewrite Z.add_0_r.
  - pose proof (len_nonneg ss) as Hl. rewrite len_cons in Hn |- *.
    assert (Hnlast : (i + 1 =? b_n (get_batch k c))%Z = false) by (apply Z.eqb_neq; lia).
    rewrite Hnlast in Hw.
    assert (Hg : get_batch k c1 = (get_batch k c) <| b_i := (b_i (get_batch k c) + 1)%Z |>).
    { unfold get_batch. rewrite Hb, !nth_lookup, list_lookup_alter_eq.
      destruct (lookup_lt_is_Some_2 _ _ Hk) as [x Ex]. by rewrite Ex. }
    assert (Hbn : b_n (get_batch k c1) = b_n (get_batch k c)) by (by rewrite Hg).
    destruct (IH c1 pg1 (i + 1)%Z Hw Hss) as (c2 & pg2 & E2 & Hw2); [by rewrite Hb, length_alter| | |done|].
    + rewrite Hg. cbn. by rewrite Hi.
    + rewrite Hbn, len_cons. lia.
    + exists c2, pg2. split; [done|]. rewrite Hw2, Hbn, len_cons.
      by replace (i + (1 + (1 + len ss)))%Z with (i + 1 + (1 + len ss))%Z by lia.
Qed.
End Video.
