(* ===== verification/Keeps.v ===== *)
(** * What the handlers of a session leave alone

    No handler of a connection assigns its session id, only closing and ending a transfer session
    change [_closing] and [_ftSessionEnded], and every handler keeps the session's jobs
    ([jobs_step]); one about a transfer leaves the entries of the others ([ft_spares]).  The registry's invariant rests on the first and the last fact, the end of a
    session on the second.  [solve_preserves] goes through a handler's control
    structure; what is left are its updates, decided by computation. *)
From S2P Require Import Prelude JsMap JsStr Json Bytes ProtoWire ProtoFile ProtoSession ProtoMessage Crypto Config.
From S2P Require Import PushEvent Websock SessionConnect FtProtocol FtBrowserIo FtZip Page FtJobs SessionBase.
From S2P Require Import FtJobsFacts FtConnection Common RdOptions RdConnection.
Local Open Scope string_scope.

Definition same_id_base (s s' : base * page) : Prop := _sessionId s'.1 = _sessionId s.1.
Definition same_id_ft (s s' : ft * page) : Prop :=
  _sessionId (super s'.1) = _sessionId (super s.1) /\ jobs_step (_jobs s.1) (_jobs s'.1).
Definition same_id_rd (s s' : rd * page) : Prop := _sessionId (rsuper s'.1) = _sessionId (rsuper s.1).
(** A transfer session keeps its id and its jobs and stays as open, closed or ended as it was. *)
Definition same_stage (s s' : ft * page) : Prop :=
  _sessionId (super s'.1) = _sessionId (super s.1) /\ _closing s'.1 = _closing s.1 /\
  _ftSessionEnded s'.1 = _ftSessionEnded s.1 /\ jobs_step (_jobs s.1) (_jobs s'.1).
#[export] Instance same_id_base_pre : PreOrder same_id_base.
Proof. split; [by intros ?|]. intros x y z. unfold same_id_base. congruence. Qed.
#[export] Instance same_id_ft_pre : PreOrder same_id_ft.
Proof.
  split; [intros ?; split; reflexivity|]. intros x y z [I1 J1] [I2 J2]. split; [congruence|].
  exact (transitivity J1 J2).
Qed.
#[export] Instance same_id_rd_pre : PreOrder same_id_rd.
Proof. split; [by intros ?|]. intros x y z. unfold same_id_rd. congruence. Qed.
#[export] Instance same_stage_pre : PreOrder same_stage.
Proof.
  split; [intros ?; split_and!; reflexivity|]. intros x y z (I1 & C1 & E1 & J1) (I2 & C2 & E2 & J2).
  split; [congruence|]. split; [congruence|]. split; [congruence|]. exact (transitivity J1 J2).
Qed.

Lemma same_stage_id {A} (m : js (ft * page) A) : preserves same_stage m -> preserves same_id_ft m.
Proof. intros Hm s. by destruct (Hm s) as (I & _ & _ & J). Qed.

(** An asynchronous computation keeps [R], if the rest of the page keeps the finer [M]. *)
Definition meanwhile_keeps {S} (M : relation S) (fs : list (S -> S)) : Prop := Forall (fun f => forall s, M s (f s)) fs.
Definition async_keeps_under {S} (M R : relation S) (s s' : S * list (S -> S)) : Prop :=
  meanwhile_keeps M s.2 -> R s.1 s'.1 /\ meanwhile_keeps M s'.2.
Abbreviation async_keeps R := (async_keeps_under R R).
Section Async.
Context {S : Type} (M R : relation S) `{!PreOrder R} `{!subrelation M R}.
#[export] Instance async_keeps_pre : PreOrder (async_keeps_under M R).
Proof.
  split; [by intros ? ?|]. intros x y z Hxy Hyz Hx. destruct (Hxy Hx) as [H1 Hy].
  destruct (Hyz Hy) as [H2 Hz]. split; [by etrans|done].
Qed.
Lemma preserves_sync {A} (m : js S A) : preserves R m -> preserves (async_keeps_under M R) (sync m).
Proof.
  intros Hm s Hs. unfold sync. specialize (Hm s.1). destruct (m s.1) as [r s']. by split.
Qed.
Lemma preserves_pause : preserves (async_keeps_under M R) pause.
Proof.
  intros [s [|f fs]] Hs; unfold pause; cbn; [by split|]. inversion_clear Hs. split; [by apply subrelation0|done].
Qed.
End Async.

Ltac solve_preserves_with tac :=
  repeat match goal with
  | |- forall _, _ => intros ?
  | |- preserves _ (match ?x with _ => _ end) => destruct x
  | |- preserves _ (_ ≫= _) => apply preserves_bind; [apply _| |]
  | |- preserves _ (when _ _) => apply preserves_when; [apply _|]
  | |- preserves _ (for_of _ _) => apply preserves_for_of; [apply _|]
  | |- preserves _ (try_catch _ _) => apply preserves_try_catch; [apply _| |]
  | |- preserves _ (try_finally _ _) => apply preserves_try_finally; [apply _| |]
  | |- preserves _ (mret _) => apply preserves_ret; apply _
  | |- preserves _ skip => apply preserves_skip; apply _
  | |- preserves _ (throw _) => apply preserves_throw; apply _
  | |- preserves _ (gets _) => apply preserves_gets; apply _
  | |- preserves _ (lift_outcome _) => apply preserves_lift; apply _
  | |- preserves _ (self _) => apply preserves_self; apply _
  | |- preserves _ (of_page _) => apply preserves_of_page; apply _
  | |- preserves _ pause => apply preserves_pause; apply _
  | |- preserves _ (sync _) => apply preserves_sync
  | |- preserves _ _ => progress (auto with preserves nocore)
  | |- preserves _ _ => tac
  end.
(** An update of fields the relation does not mention. *)
Ltac by_update := intros [?c ?pg]; solve [by destruct c | by destruct c as [[] ? ? ? ? ? ? ? ? ? ?]].
Ltac solve_preserves := solve_preserves_with by_update.

(** ** The shared base *)
Section Base.
Context `{ProtobufRuntime} `{Sodium}.
Lemma on_ws_keeps m : preserves same_id_base (on_ws m).
Proof.
  intros [c pg]. unfold on_ws, same_id_base. cbn [fst]. destruct (_ws c) as [ws|]; [|done].
  destruct (m ws) as [r ws']. by destruct c.
Qed.
Lemma sendMessage_keeps m : preserves same_id_base (sendMessage m).
Proof. apply on_ws_keeps. Qed.
Lemma baseClose_keeps : preserves same_id_base baseClose.
Proof. intros [c pg]. by destruct c. Qed.
Lemma ev_keeps n p : preserves same_id_base (ev n p).
Proof. by intros [c pg]. Qed.
Lemma setOption_keeps n v : preserves same_id_base (setOption n v).
Proof. intros [c pg]. by destruct c. Qed.
Lemma update_page_keeps_base f : preserves same_id_base (update_page f).
Proof. by intros [c pg]. Qed.
#[local] Hint Resolve on_ws_keeps sendMessage_keeps baseClose_keeps ev_keeps setOption_keeps
  update_page_keeps_base : preserves.
Lemma pump_keeps : preserves same_id_base pump.
Proof.
  unfold pump. apply preserves_bind; [apply _|apply preserves_self, _|]. intros msgs.
  induction msgs as [|m msgs IH]; cbn [pump_loop]; [apply preserves_skip, _|]. solve_preserves.
Qed.
Lemma persist_keeps r : preserves same_id_base (persistPasswordIfRemembered r).
Proof. unfold persistPasswordIfRemembered. solve_preserves. Qed.
Lemma prepareConnect_keeps id : preserves same_id_base (prepareConnect id).
Proof. unfold prepareConnect, startMessagePump. solve_preserves. Qed.
End Base.
#[export] Hint Resolve on_ws_keeps sendMessage_keeps baseClose_keeps ev_keeps setOption_keeps
  update_page_keeps_base pump_keeps persist_keeps prepareConnect_keeps : preserves.

(** ** Transfer sessions *)
Section Ft.
Context `{ProtobufRuntime} `{Sodium} `{Zstd} `{Fflate}.
Context (speed_text : Z * Z -> string) (localeCompare : string -> string -> Z).

Lemma in_base_keeps {A} (m : js (base * page) A) : preserves same_id_base m -> preserves same_stage (in_base m).
Proof.
  intros Hm [c pg]. unfold in_base, zoom. cbn [fst snd]. specialize (Hm (super c, pg)).
  destruct (m (super c, pg)) as [r [b pg']]. by destruct c.
Qed.
Lemma in_jobs_keeps {A} (m : js (FileJobManager * page) A) : preserves on_jobs m -> preserves same_stage (in_jobs m).
Proof.
  intros Hm [c pg]. unfold in_jobs, zoom. cbn [fst snd]. specialize (Hm (_jobs c, pg)).
  destruct (m (_jobs c, pg)) as [r [j pg']]. by destruct c.
Qed.
(** An update of the tables alone. *)
Lemma update_jobs_keeps f : (forall m, jobs_step m (f m)) -> preserves same_stage (update (fun c => c <| _jobs ::= f |>)).
Proof. intros Hf [c pg]. destruct c; unfold same_stage; split_and!; [reflexivity..|apply Hf]. Qed.
Lemma with_io_keeps {A} (m : js io A) : preserves same_stage (with_io m).
Proof. intros [c pg]. unfold with_io. by destruct (m _) as [r i]. Qed.
Lemma update_page_keeps f : preserves same_stage (update_page f).
Proof. by intros [c pg]. Qed.
Lemma evt_keeps n p : preserves same_stage (evt n p).
Proof. apply in_base_keeps, ev_keeps. Qed.
Lemma send_keeps m : preserves same_stage (send m).
Proof. apply in_base_keeps, sendMessage_keeps. Qed.
Lemma queueMsg_keeps m : preserves same_stage (queueMsg m).
Proof. apply in_base_keeps. by intros []. Qed.
Lemma on_readJob_keeps l f : (forall j, read_step j (f j)) -> preserves same_stage (on_readJob l f).
Proof. intros Hf. apply update_jobs_keeps. intros m. by apply set_read_step. Qed.
End Ft.
#[export] Hint Resolve with_io_keeps update_page_keeps evt_keeps send_keeps queueMsg_keeps : preserves.
#[export] Hint Extern 2 (preserves same_stage (in_jobs _)) => (apply in_jobs_keeps; solve [auto with preserves nocore]) : preserves.
#[export] Hint Extern 2 (preserves same_stage (on_readJob _ _)) => (apply on_readJob_keeps; solve [by_read | apply skip_file_step | apply next_file_step]) : preserves.
#[export] Hint Extern 2 (preserves same_stage (update _)) =>
  (apply update_jobs_keeps; intros ?m; 
   first [apply clear_step | apply add_pending_step | apply set_write_step; intros ? _; apply target_step]) : preserves.
#[export] Hint Extern 2 (preserves same_stage (in_base _)) => (apply in_base_keeps; solve [auto with preserves nocore]) : preserves.

Section FtHandlers.
Context `{ProtobufRuntime} `{Sodium} `{Zstd} `{Fflate}.
Context (speed_text : Z * Z -> string) (localeCompare : string -> string -> Z).

Lemma buildFtLoginRequest_keeps p : preserves same_stage (buildFtLoginRequest p).
Proof. unfold buildFtLoginRequest. solve_preserves. Qed.
Lemma job_done_keeps id n : preserves same_stage (job_done id n).
Proof. apply evt_keeps. Qed.
Lemma pushJobError_keeps id n e : preserves same_stage (pushJobError id n e).
Proof. apply evt_keeps. Qed.
#[local] Hint Resolve job_done_keeps pushJobError_keeps : preserves.
Lemma failActiveJobs_keeps e : preserves same_stage (failActiveJobs e).
Proof. unfold failActiveJobs, clear_jobs. solve_preserves. Qed.
Lemma emitJobProgress_keeps : preserves same_stage (emitJobProgress speed_text).
Proof. unfold emitJobProgress. solve_preserves. Qed.
Lemma sendConfirm_keeps id n s o : preserves same_stage (sendConfirm id n s o).
Proof. unfold sendConfirm. solve_preserves. Qed.
Lemma confirmOverrideFile_keeps id n a b u : preserves same_stage (confirmOverrideFile id n a b u).
Proof. unfold confirmOverrideFile. pose proof sendConfirm_keeps. solve_preserves. Qed.
Lemma queueDigestForCurrentFile_keeps l : preserves same_stage (queueDigestForCurrentFile l).
Proof. unfold queueDigestForCurrentFile. solve_preserves. Qed.
#[local] Hint Resolve sendConfirm_keeps queueDigestForCurrentFile_keeps failActiveJobs_keeps : preserves.
Lemma advanceUploadAfterFile_keeps id l n : preserves same_stage (advanceUploadAfterFile id l n).
Proof. unfold advanceUploadAfterFile. solve_preserves. Qed.
#[local] Hint Resolve advanceUploadAfterFile_keeps : preserves.

(** What the peer sends. *)
Lemma handleDigest_keeps d : preserves same_stage (handleDigest d).
Proof. unfold handleDigest. solve_preserves. Qed.
Lemma handleBlock_keeps b : preserves same_stage (handleBlock b).
Proof. unfold handleBlock. solve_preserves. Qed.
Lemma handleDone_keeps d : preserves same_stage (handleDone d).
Proof. unfold handleDone, try_finalize. solve_preserves. Qed.
Lemma handleError_keeps e : preserves same_stage (handleError e).
Proof. unfold handleError. solve_preserves. Qed.
#[local] Hint Resolve handleDigest_keeps handleBlock_keeps handleDone_keeps handleError_keeps : preserves.
Lemma handleFileResponse_keeps fr : preserves same_stage (handleFileResponse fr).
Proof. unfold handleFileResponse. solve_preserves. Qed.

(** Closing keeps the id, whatever it does to the rest. *)
Lemma cancelAllJobs_keeps : preserves same_stage cancelAllJobs.
Proof. unfold cancelAllJobs, clear_jobs. solve_preserves. Qed.
Lemma ft_close_keeps : preserves same_id_ft ft_close.
Proof.
  unfold ft_close. apply preserves_bind; [apply _|apply preserves_self, _|]. intros [|]; [apply preserves_skip, _|].
  apply preserves_bind; [apply _|by_update|]. intros _.
  apply same_stage_id, preserves_bind; [apply _|apply cancelAllJobs_keeps|]. intros _. apply in_base_keeps, baseClose_keeps.
Qed.
End FtHandlers.
#[export] Hint Resolve buildFtLoginRequest_keeps job_done_keeps pushJobError_keeps failActiveJobs_keeps
  sendConfirm_keeps queueDigestForCurrentFile_keeps advanceUploadAfterFile_keeps
  handleFileResponse_keeps cancelAllJobs_keeps : preserves.

(** The asynchronous handlers, wherever they run. *)
Section FtAsync.
Context `{ProtobufRuntime} `{Sodium} `{Zstd} `{Fflate} {St : Type} `{!Host St}.
Context (M R : relation St) `{!PreOrder R} `{!subrelation M R}.
Hypothesis here_keeps : forall A (m : js (ft * page) A), preserves same_stage m -> preserves R (here A m).
Lemma on_self_keeps {A} (m : js (ft * page) A) : preserves same_stage m -> preserves (async_keeps_under M R) (on_self m).
Proof. intros Hm. apply (preserves_sync M R), here_keeps, Hm. Qed.
Ltac by_self := apply on_self_keeps; solve_preserves.
Lemma pump_turns_keeps fuel id : preserves (async_keeps_under M R) (pump_turns fuel id).
Proof.
  induction fuel as [|fuel IH]; cbn [pump_turns]; [solve_preserves|]. unfold pump_turn, end_of_file.
  solve_preserves_with by_self.
Qed.
#[local] Hint Resolve pump_turns_keeps : preserves.
Lemma pumpUploadBlocks_keeps id : preserves (async_keeps_under M R) (pumpUploadBlocks id).
Proof. unfold pumpUploadBlocks. solve_preserves_with by_self. Qed.
#[local] Hint Resolve pumpUploadBlocks_keeps : preserves.
Lemma handleFileAction_keeps fa : preserves (async_keeps_under M R) (handleFileAction fa).
Proof. unfold handleFileAction. solve_preserves_with by_self. Qed.
End FtAsync.

(** ** Other transfers of the session *)
Section Spares.
Context `{ProtobufRuntime} `{Sodium} `{Zstd} `{Fflate}.
Context (id0 : Z).
Definition ft_spares (s s' : ft * page) : Prop := spares id0 (_jobs s.1) (_jobs s'.1).
#[export] Instance ft_spares_pre : PreOrder ft_spares.
Proof. split; [done|]. intros x y z. unfold ft_spares, spares. congruence. Qed.
Lemma in_base_spares {A} (m : js (base * page) A) : preserves ft_spares (in_base m).
Proof. intros [c pg]. unfold in_base, zoom. cbn [fst snd]. destruct (m _) as [r [b pg']]. by destruct c. Qed.
Lemma in_jobs_spares {A} (m : js (FileJobManager * page) A) :
  preserves (jobs_spare id0) m -> preserves ft_spares (in_jobs m).
Proof.
  intros Hm [c pg]. unfold in_jobs, zoom. cbn [fst snd]. specialize (Hm (_jobs c, pg)).
  destruct (m (_jobs c, pg)) as [r [j pg']]. by destruct c.
Qed.
Lemma with_io_spares {A} (m : js io A) : preserves ft_spares (with_io m).
Proof. intros [c pg]. unfold with_io. by destruct (m _) as [r i]. Qed.
Lemma update_page_spares f : preserves ft_spares (update_page f).
Proof. by intros [c pg]. Qed.
Lemma on_readJob_spares l f : preserves ft_spares (on_readJob l f).
Proof. intros [c pg]. exact (set_read_spares id0 l f (_jobs c)). Qed.
Lemma target_spares l f : preserves ft_spares (update (fun c => c <| _jobs ::= set_write l f |>)).
Proof. intros [c pg]. exact (set_write_spares id0 l f (_jobs c)). Qed.
Lemma evt_spares n p : preserves ft_spares (evt n p).
Proof. apply in_base_spares. Qed.
Lemma send_spares m : preserves ft_spares (send m).
Proof. apply in_base_spares. Qed.
Lemma queueMsg_spares m : preserves ft_spares (queueMsg m).
Proof. apply in_base_spares. Qed.
Lemma job_done_spares id n : preserves ft_spares (job_done id n).
Proof. apply evt_spares. Qed.
Lemma pushJobError_spares id n e : preserves ft_spares (pushJobError id n e).
Proof. apply evt_spares. Qed.
#[local] Hint Resolve with_io_spares update_page_spares on_readJob_spares target_spares evt_spares send_spares
  queueMsg_spares job_done_spares pushJobError_spares in_jobs_spares in_base_spares : preserves.

Lemma queueDigestForCurrentFile_spares l : preserves ft_spares (queueDigestForCurrentFile l).
Proof. unfold queueDigestForCurrentFile. solve_preserves. Qed.
#[local] Hint Resolve queueDigestForCurrentFile_spares : preserves.
Lemma sendConfirm_spares id n s o : preserves ft_spares (sendConfirm id n s o).
Proof. unfold sendConfirm. solve_preserves. Qed.
#[local] Hint Resolve sendConfirm_spares : preserves.
Lemma confirmOverrideFile_spares id n a b u : preserves ft_spares (confirmOverrideFile id n a b u).
Proof. unfold confirmOverrideFile. solve_preserves. Qed.
Lemma handleBlock_spares b : preserves ft_spares (handleBlock b).
Proof. unfold handleBlock. solve_preserves. Qed.
Lemma handleDigest_spares d : preserves ft_spares (handleDigest d).
Proof. unfold handleDigest. solve_preserves. Qed.

(** What is about the transfer [id]. *)
Context (id : Z).
Hypothesis other : id <> id0.
Lemma advanceUploadAfterFile_spares l n : preserves ft_spares (advanceUploadAfterFile id l n).
Proof. unfold advanceUploadAfterFile. solve_preserves. Qed.
Lemma cancelJob_spares : preserves ft_spares (cancelJob id).
Proof. unfold cancelJob. solve_preserves. Qed.
Lemma createUploadJob_spares p t n f h : preserves ft_spares (in_jobs (createUploadJob id p t n f h)).
Proof. unfold createUploadJob. apply in_jobs_spares. auto with preserves. Qed.
#[local] Hint Resolve createUploadJob_spares : preserves.
Lemma addJob_spares p t n h r : preserves ft_spares (addJob id p t n h r).
Proof. unfold addJob. solve_preserves. Qed.
Lemma sendFolderUpload_spares t h : preserves ft_spares (sendFolderUpload id t h).
Proof. unfold sendFolderUpload. solve_preserves. Qed.
Lemma handleDone_spares d : FileTransferDone.id d = id -> preserves ft_spares (handleDone d).
Proof. intros <-. unfold handleDone, try_finalize. solve_preserves. Qed.
Lemma handleError_spares e : FileTransferError.id e = id -> preserves ft_spares (handleError e).
Proof. intros <-. unfold handleError. solve_preserves. Qed.
#[local] Hint Resolve advanceUploadAfterFile_spares handleDigest_spares handleBlock_spares handleDone_spares
  handleError_spares : preserves.
Lemma handleFileResponse_spares fr :
  (forall d, FileResponse.done fr = Some d -> FileTransferDone.id d = id) ->
  (forall e, FileResponse.error fr = Some e -> FileTransferError.id e = id) -> preserves ft_spares (handleFileResponse fr).
Proof.
  intros Hd He. unfold handleFileResponse.
  destruct (FileResponse.done fr) as [d|]; [specialize (Hd d eq_refl)|];
    (destruct (FileResponse.error fr) as [e|]; [specialize (He e eq_refl)|]); solve_preserves_with
      ltac:(first [by apply handleDone_spares | by apply handleError_spares]).
Qed.

(** And what waits. *)
Abbreviation spared := (async_keeps ft_spares).
Lemma on_self_spares {A} (m : js (ft * page) A) : preserves ft_spares m -> preserves spared (on_self m).
Proof. intros Hm. by apply (preserves_sync ft_spares ft_spares). Qed.
Ltac by_self := apply on_self_spares; first [ by intros [] | solve_preserves ].
Lemma pump_turns_spares fuel : preserves spared (pump_turns fuel id).
Proof.
  induction fuel as [|fuel IH]; cbn [pump_turns]; [solve_preserves|]. unfold pump_turn, end_of_file.
  solve_preserves_with by_self.
Qed.
#[local] Hint Resolve pump_turns_spares : preserves.
Lemma pumpUploadBlocks_spares : preserves spared (pumpUploadBlocks id).
Proof. unfold pumpUploadBlocks. solve_preserves_with by_self. Qed.
#[local] Hint Resolve pumpUploadBlocks_spares : preserves.
Lemma handleFileAction_spares fa :
  (forall r, FileAction.send_confirm fa = Some r -> FileTransferSendConfirmRequest.id r = id) ->
  preserves spared (handleFileAction fa).
Proof.
  intros Hid. unfold handleFileAction. destruct (FileAction.send_confirm fa) as [r|]; [|solve_preserves].
  cbv zeta. rewrite (Hid r eq_refl). solve_preserves_with by_self.
Qed.
Lemma ensureDownloadSaveTarget_spares l : preserves spared (ensureDownloadSaveTarget l).
Proof. unfold ensureDownloadSaveTarget. solve_preserves_with by_self. Qed.
#[local] Hint Resolve ensureDownloadSaveTarget_spares : preserves.
Lemma resumeJob_spares r : preserves spared (resumeJob id r).
Proof. unfold resumeJob, resumeRemoteDownload, floating. solve_preserves_with by_self. Qed.
Lemma sendFiles_spares p t n h d : preserves spared (sendFiles id p t n h false d).
Proof. unfold sendFiles. solve_preserves_with by_self. Qed.
End Spares.

(** ** Remote-desktop sessions *)
Section Rd.
Context `{ProtobufRuntime} `{Sodium} `{Zstd}.
Lemma in_super_keeps {A} (m : js (base * page) A) : preserves same_id_base m -> preserves same_id_rd (in_super m).
Proof. intros Hm. apply (preserves_zoom _ _ _ _ same_id_base); [done|]. intros [c pg] [b pg'] E. by destruct c. Qed.
Lemma rd_close_keeps : preserves same_id_rd rd_close.
Proof.
  unfold rd_close. apply preserves_bind; [apply _|apply in_super_keeps, baseClose_keeps|].
  intros _ [c pg]. by destruct c.
Qed.
End Rd.
