(* ===== verification/Sessions.v ===== *)
(** * The session registry: [connections/sessions.ts], [bridge/errors.js], [bridge/conn_registry.js]

    The page's connections live in a heap ([conns]); the registry maps session ids to them in the
    order they were added, and [curConn] is the one requests without an id go to.  Message boxes
    that the parent page handles end here too, because they close sessions. *)
From S2P Require Import Prelude JsMap JsStr Json Bytes ProtoWire ProtoFile ProtoSession ProtoMessage Crypto.
From S2P Require Import Config PushEvent Websock SessionConnect FtProtocol FtBrowserIo FtZip Page FtJobs.
From S2P Require Import SessionBase FtConnection Common RdOptions RdConnection.
Local Open Scope string_scope.

Inductive subclass := FtConn (c : ft) | RdConn (c : rd).
Record conn := {
  instance : subclass;
  (** set on a connection that was given a token, whatever its kind *)
  _passwordSource : option string;
}.
Abbreviation connref := nat.

Record world := {
  conns : list conn;
  sessions : jsmap string connref;
  curConn : option connref;
  wpage : page;
  (** whether there is a parent window to report to, and what was reported: title, text, type *)
  has_parent : bool;
  parent_errors : list (string * string * string);
}.

Definition FT_SESSION_ENDED : string := "ft-session-ended".

Definition base_of (c : conn) : base :=
  match instance c with FtConn c => super c | RdConn c => rsuper c end.
Definition on_base_of (f : base -> base) (c : conn) : conn :=
  c <| instance := match instance c with
                   | FtConn c => FtConn (c <| super ::= f |>)
                   | RdConn c => RdConn (c <| rsuper ::= f |>)
                   end |>.
Definition isRemoteDesktop (c : conn) : bool := match instance c with RdConn _ => true | FtConn _ => false end.
Definition isFileTransfer (c : conn) : bool := match instance c with FtConn _ => true | RdConn _ => false end.
Definition conn_at (l : connref) (w : world) : option conn := conns w !! l.
Definition put_conn (l : connref) (c : conn) (w : world) : world := w <| conns := <[l := c]> (conns w) |>.

(** Running a computation of the connection [l], as the kind it is. *)
Definition on_ft {A} (l : connref) (m : js (ft * page) A) : js world A := fun w =>
  match conn_at l w with
  | Some c =>
      match instance c with
      | FtConn f => let '(r, (f', pg)) := m (f, wpage w) in
          (r, put_conn l (c <| instance := FtConn f' |>) w <| wpage := pg |>)
      | RdConn _ => (Throw VUndefined, w)
      end
  | None => (Throw VUndefined, w)
  end.
Definition on_rd {A} (l : connref) (m : js (rd * page) A) : js world A := fun w =>
  match conn_at l w with
  | Some c =>
      match instance c with
      | RdConn f => let '(r, (f', pg)) := m (f, wpage w) in
          (r, put_conn l (c <| instance := RdConn f' |>) w <| wpage := pg |>)
      | FtConn _ => (Throw VUndefined, w)
      end
  | None => (Throw VUndefined, w)
  end.

Definition push_world (name : string) (p : payload) (sid : option string) : js world unit :=
  modify (fun w => w <| wpage ::= fun pg => pg <| events := (events pg ++ [makeEvent name p sid])%list |> |>).

(** ** The registry *)
Section Sessions.
Context `{ProtobufRuntime} `{Sodium} `{Zstd} `{Fflate}.

Definition advanceCurConn (closedConn : option connref) : js world unit :=
  modify (fun w => if bool_decide (curConn w <> closedConn) then w
                   else w <| curConn := head (map_values (sessions w)) |>).

Definition addSession (sessionId : string) (l : connref) : js world unit :=
  modify (fun w => w <| conns ::= alter (on_base_of (fun b => b <| _sessionId := Some sessionId |>)) l |>
    <| sessions := map_set (sessions w) sessionId l |> <| curConn := Some l |>).

Definition getSession (sessionId : option string) (w : world) : option connref :=
  match sessionId with
  | Some s => if truthy s && map_has (sessions w) s then map_get (sessions w) s else curConn w
  | None => curConn w
  end.
Definition require (kind : conn -> bool) (sessionId : option string) (w : world) : option connref :=
  l ← getSession sessionId w; c ← conn_at l w; if kind c then Some l else None.
Definition requireRemoteDesktop : option string -> world -> option connref := require isRemoteDesktop.
Definition requireFileTransfer : option string -> world -> option connref := require isFileTransfer.

(** [conn.close()] *)
Definition close_conn (l : connref) : js world unit :=
  c ← gets (conn_at l);
  match c with
  | Some c => if isFileTransfer c then on_ft l ft_close else on_rd l rd_close
  | None => throw VUndefined
  end.

Definition delete_session (sessionId : string) : js world unit :=
  modify (fun w => w <| sessions := map_delete (sessions w) sessionId |>).

Definition removeSession (sessionId : string) : js world unit :=
  l ← gets (fun w => map_get (sessions w) sessionId);
  match l with
  | Some l => close_conn l;; delete_session sessionId
  | None => skip
  end;;
  advanceCurConn l.

Definition ws_is_open (b : base) : bool := match _ws b with Some ws => is_open (_status ws) | None => false end.
Definition hasOpenRemoteDesktopSession (w : world) : bool :=
  existsb (fun l => match conn_at l w with
                    | Some c => isRemoteDesktop c && ws_is_open (base_of c)
                    | None => false end) (map_values (sessions w)).

Definition ended_box (title text : string) : payload :=
  strs [("type", FT_SESSION_ENDED); ("title", title); ("text", text); ("link", ""); ("hasRetry", "")].

Definition endFileTransferSession (sessionId : option string) (title text : string) : js world unit :=
  match sessionId with
  | None => skip
  | Some sid =>
      if negb (truthy sid) then skip
      else
        l ← gets (fun w => map_get (sessions w) sid);
        match l with
        | None => skip
        | Some l =>
            c ← gets (conn_at l);
            match option_map instance c with
            | Some (FtConn f) =>
                if _ftSessionEnded f then skip
                else
                  on_ft l (update (fun f => f <| _ftSessionEnded := true |>));;
                  on_ft l (failActiveJobs "Connection lost");;
                  close_conn l;;
                  delete_session sid;;
                  advanceCurConn (Some l);;
                  push_world "msgbox" (ended_box title text) (Some sid)
            | _ => skip
            end
        end
  end.

Definition allSessionIds (w : world) : list string := map_keys (sessions w).

(** ** Reconnection tokens *)
Definition token_json (c : conn) (pw : bytes) : json :=
  JObj [("password", JArr (map (fun b => JNum (Z_of_byte b)) pw));
        ("password_source", JStr (default "" (_passwordSource c)));
        ("session_id", JNum (default 0%Z (_loginSessionId (base_of c))))].
Definition connTokenFor (sessionId : string) (w : world) : option string :=
  l ← map_get (sessions w) sessionId;
  c ← conn_at l w;
  pw ← _password (base_of c);
  if (len pw =? 0)%Z then None
  else Some (stringify (token_json c pw)).

Definition member (j : json) (name : string) : option json :=
  match j with JObj o => map_get o name | _ => None end.
(** The assignments of [applyConnToken]. *)
Definition apply_token (token : json) (c : conn) : conn :=
  let c := match member token "password" with
           | Some (JArr l) => on_base_of (fun b => b <| _password := Some (map json_byte l) |>) c
           | _ => c end in
  let c := match member token "password_source" with
           | Some j => if truthy j then c <| _passwordSource := Some (json_String j) |> else c
           | None => c end in
  match member token "session_id" with
  | Some (JNum n) => if truthy n then on_base_of (fun b => b <| _loginSessionId := Some n |>) c else c
  | _ => c
  end.
(** A token that does not parse changes nothing; so does [null], whose members cannot be read. *)
Definition applyConnToken (tokenJson : option string) (c : conn) : conn :=
  match tokenJson with
  | None => c
  | Some text =>
      if negb (truthy text) then c
      else match parse text with
           | None | Some JNull => c
           | Some token => apply_token token c
           end
  end.

(** ** Closing and message boxes *)
(** [close()] of the connection registry *)
Definition close_current : js world unit :=
  cur ← gets curConn;
  match cur with
  | None => skip
  | Some l =>
      c ← gets (conn_at l);
      match c with
      | None => throw VUndefined
      | Some c =>
          if match _sessionId (base_of c) with Some sid => truthy sid | None => false end then
            removeSession (default "" (_sessionId (base_of c)))
          else
            close_conn l;;
            modify (fun w => w <| curConn := None |>)
      end
  end.

Definition notifyParentError (title text msgboxType : string) : js world unit :=
  has ← gets has_parent;
  if (has : bool) then
    let cleanTitle := formatErrorMessage (VStr title) "Error" in
    let cleanMessage := formatErrorMessage (VStr text) cleanTitle in
    modify (fun w => w <| parent_errors := (parent_errors w ++ [(cleanTitle, cleanMessage, msgboxType)])%list |>)
  else skip.

Definition raw_event (e : event) : js world unit :=
  modify (fun w => w <| wpage ::= fun pg => pg <| events := (events pg ++ [e])%list |> |>).

Definition showFatalError (title text msgboxType : string) : js world unit :=
  cur ← gets (fun w => l ← curConn w; c ← conn_at l w; mret (isFileTransfer c, _sessionId (base_of c)));
  open ← gets hasOpenRemoteDesktopSession;
  match cur, open with
  | Some (true, sid), true => endFileTransferSession sid title (or_empty text title)
  | _, _ =>
      close_current;;
      notifyParentError title (or_empty text title) msgboxType;;
      raw_event [("name", "viewer_fatal")]
  end.

Definition isParentHandledMsgbox (type title : string) (retry : bool) : bool :=
  if (type =? "") || (type =? "connecting") || (type =? "success") then false
  else
    (type =? "error")
    || existsb (String.eqb type) ["re-input-password"; "input-password"; "input-2fa"]
    || startsWith type "session-login"
    || existsb (String.eqb type) ["relay-hint"; "relay-hint2"; "elevation-error"; "wait-remote-accept-nook";
         "on-uac"; "on-foreground-elevated"; "wait-uac"; "restarting"]
    || (title =? "Privacy mode") || includes type "error" || retry.

Definition bridge_msgbox (type title text : string) : js world unit :=
  if (type =? "") || ((type =? "error") && (text =? "")) then skip
  else
    let retry := checkIfRetry type title text false in
    if isParentHandledMsgbox type title retry then showFatalError title (or_empty text title) type
    else raw_event [("name", "msgbox"); ("type", type); ("title", title); ("text", text); ("link", "");
                    ("hasRetry", if retry then "true" else "")].
End Sessions.
