(* ===== verification/Viewer.v ===== *)
(** * Starting the session the opener asks for: [bridge/init.js]

    The page that opened the viewer posts one REMOTE_SESSION_READY message; its handler is
    asynchronous, so what it does between two [await]s is one transition ([vstep]) and anything
    else -- further messages, Flutter registering [window.connect], the rest of the page -- may
    happen in between.  [window.connect] is Flutter's; its answer is an event. *)
From S2P Require Import Prelude JsMap JsStr Json Bytes ProtoWire ProtoFile ProtoSession ProtoMessage Crypto.
From S2P Require Import Config ViewerCrypto PushEvent Websock SessionConnect FtProtocol FtBrowserIo FtZip Page.
From S2P Require Import FtJobs SessionBase FtConnection Common RdOptions RdConnection Sessions.
Local Open Scope string_scope.

(** A window that can post messages. *)
Abbreviation window := nat.
Record message_event := { data : json; origin : string; source : option window }.
(** [{ type: "ACK", result, error }] posted to a window at an origin. *)
Record ack := { target : option window; target_origin : string; result : bool; error : option string }.

(** What the handler holds on to across its [await]s. *)
Record request := {
  clientId : json; remoteSessionId : json; encryptedToken : json;
  reply_to : option window; reply_origin : string;
}.

Section Viewer.
Context `{WebCrypto} `{ProtobufRuntime} `{Sodium} `{Zstd} `{Fflate}.

Inductive progress :=
  | Decrypting (r : request) (k : private_key) | Decrypted (r : request) (token : string) | Connecting (r : request).

Record viewer := {
  page_world : world;
  parentOrigin : option string;
  opener : option window;
  viewerPrivateKey : option private_key;
  sessionStarted : bool;
  (** whether Flutter has set [window.connect]: [_connectReadyPromise] *)
  connect_ready : bool;
  running : option progress;
  (** the calls of [window.connect] and the acknowledgements posted, oldest first *)
  calls : list (json * string * json);
  acks : list ack;
}.

Definition in_world (m : js world unit) : js viewer unit := fun v =>
  let '(r, w) := m (page_world v) in (r, v <| page_world := w |>).
Definition post (a : ack) : js viewer unit := modify (fun v => v <| acks := (acks v ++ [a])%list |>).
Definition storeItem (key : string) (value : json) : js viewer unit :=
  in_world (modify (fun w => w <| wpage ::= fun pg => pg <| localStorage ::= <[key := json_String value]> |> |>)).

(** The text of an error: [err.message], and [err.message || String(err)]. *)
Definition err_message (e : jsval) : outcome (option string) :=
  match e with
  | VUndefined | VNull => Throw (VError "TypeError" "Cannot read properties of undefined (reading 'message')")
  | VError _ m => Ret (Some m)
  | VObj fields => Ret (string_field fields "message")
  | _ => Ret None
  end.
Definition err_text (e : jsval) : outcome string :=
  m ← err_message e; mret (match m with Some m => or_empty m (js_String e) | None => js_String e end).

(** ** The handler up to its first [await] *)
Definition field_set (e : message_event) (f : string) : option json :=
  match member (data e) f with Some j => if truthy j then Some j else None | None => None end.
Definition is_session_ready (e : message_event) : bool :=
  match member (data e) "type" with Some (JStr t) => t =? "REMOTE_SESSION_READY" | _ => false end.
Definition from_opener (e : message_event) (v : viewer) : bool :=
  bool_decide (Some (origin e) = parentOrigin v) && bool_decide (source e = opener v).

Definition on_session_ready (e : message_event) : js viewer unit :=
  if negb (is_session_ready e) then skip
  else
    match field_set e "remoteSessionId", field_set e "clientId", field_set e "encryptedToken",
          field_set e "server", field_set e "key" with
    | Some remoteSessionId, Some clientId, Some encryptedToken, Some server, Some key =>
        started ← gets sessionStarted;
        if (started : bool) then skip
        else
          trusted ← gets (from_opener e);
          if negb trusted then skip
          else
            k ← gets viewerPrivateKey;
            match k with
            | None =>
                in_world (showFatalError "Error" "viewer not initialized" "error");;
                post {| target := source e; target_origin := origin e; result := false;
                        error := Some "viewer not initialized" |}
            | Some k =>
                modify (fun v => v <| sessionStarted := true |>);;
                storeItem "override:custom-rendezvous-server" server;;
                storeItem "override:key" key;;
                modify (fun v => v <| running := Some (Decrypting
                  {| clientId := clientId; remoteSessionId := remoteSessionId;
                     encryptedToken := encryptedToken; reply_to := source e; reply_origin := origin e |} k) |>)
            end
    | _, _, _, _, _ => skip
    end.

(** ** After the [await]s *)
(** The [catch] clause. *)
Definition session_failed (r : request) (e : jsval) : js viewer unit :=
  modify (fun v => v <| running := None |>);;
  text ← lift_outcome (err_text e);
  in_world (showFatalError "Error" text "error");;
  m ← lift_outcome (err_message e);
  post {| target := reply_to r; target_origin := reply_origin r; result := false; error := m |}.

(** [await decryptToken(...)] settles. *)
Definition after_decrypt (r : request) (k : private_key) : js viewer unit :=
  match decryptToken k (json_String (encryptedToken r)) with
  | Ret token => modify (fun v => v <| running := Some (Decrypted r token) |>)
  | Throw e => session_failed r e
  | OutOfFuel => lift_outcome OutOfFuel
  end.

(** [await _connectReadyPromise] resolves and [_connectImpl] is called. *)
Definition call_connect (r : request) (token : string) : js viewer unit :=
  modify (fun v => v <| calls := (calls v ++ [(clientId r, token, remoteSessionId r)])%list |>
                     <| running := Some (Connecting r) |>).

(** [await _connectImpl(...)] settles with [answer]. *)
Definition after_connect (r : request) (answer : outcome bool) : js viewer unit :=
  match answer with
  | Ret ok =>
      modify (fun v => v <| running := None |>);;
      post {| target := reply_to r; target_origin := reply_origin r; result := ok; error := None |}
  | Throw e => session_failed r e
  | OutOfFuel => lift_outcome OutOfFuel
  end.

(** ** The page around it *)
Inductive viewer_event :=
  | OnMessage (e : message_event) | OnDecrypted | OnConnectSet | OnCall
  | OnAnswer (answer : outcome bool) | OnPage (w : world).

(** Whatever the handler does not hold may change at any time ([OnPage]); the private key and the
    opener are fixed when the page has loaded. *)
Inductive vstep : viewer -> viewer_event -> viewer -> Prop :=
  | v_message v e : vstep v (OnMessage e) (exec (on_session_ready e) v)
  | v_decrypted v r k : running v = Some (Decrypting r k) -> vstep v OnDecrypted (exec (after_decrypt r k) v)
  | v_connect_set v : vstep v OnConnectSet (v <| connect_ready := true |>)
  | v_call v r token : running v = Some (Decrypted r token) -> connect_ready v = true ->
      vstep v OnCall (exec (call_connect r token) v)
  | v_answer v r answer : running v = Some (Connecting r) ->
      vstep v (OnAnswer answer) (exec (after_connect r answer) v)
  | v_page v w : vstep v (OnPage w) (v <| page_world := w |>).
Inductive vrun : viewer -> list viewer_event -> viewer -> Prop :=
  | vrun_nil v : vrun v [] v
  | vrun_snoc v es v1 e v2 : vrun v es v1 -> vstep v1 e v2 -> vrun v (es ++ [e]) v2.

(** ** What the handler touches *)
Definition same_handler (v v' : viewer) : Prop := v' = v <| page_world := page_world v' |>.
Lemma in_world_same m v : same_handler v (exec (in_world m) v).
Proof. unfold exec, in_world, same_handler. destruct (m (page_world v)) as [r w]. by destruct v. Qed.
#[local] Instance same_handler_preorder : PreOrder same_handler.
Proof.
  split; [intros []; done|]. unfold same_handler. intros v1 v2 v3 E E'. rewrite E in E'. rewrite E'. by destruct v1.
Qed.

(** [e] is an acceptable REMOTE_SESSION_READY of the opener, and [r] what the handler keeps of it. *)
Definition accepts (v : viewer) (e : message_event) (r : request) : Prop :=
  is_session_ready e = true /\ from_opener e v = true /\
  field_set e "clientId" = Some (clientId r) /\ field_set e "remoteSessionId" = Some (remoteSessionId r) /\
  field_set e "encryptedToken" = Some (encryptedToken r) /\
  is_Some (field_set e "server") /\ is_Some (field_set e "key") /\
  reply_to r = source e /\ reply_origin r = origin e.
(** An acknowledgement to the opener. *)
Definition to_opener (v : viewer) (a : ack) : Prop :=
  Some (target_origin a) = parentOrigin v /\ target a = opener v.

(** Where a message leaves the handler: as it was, with a refusal posted to the opener, or started. *)
Lemma on_session_ready_spec e v :
  let v' := exec (on_session_ready e) v in
  same_handler v v' \/
  (exists w a, v' = v <| page_world := w |> <| acks := acks v ++ [a] |>%list /\ to_opener v a /\ result a = false) \/
  (exists w r k, v' = v <| page_world := w |> <| sessionStarted := true |> <| running := Some (Decrypting r k) |> /\
    sessionStarted v = false /\ viewerPrivateKey v = Some k /\ accepts v e r).
Proof.
  cbv zeta. unfold exec, on_session_ready. destruct (is_session_ready e) eqn:Er; [|by left].
  cbn [negb].
  destruct (field_set e "remoteSessionId") as [sid|] eqn:E1, (field_set e "clientId") as [cid|] eqn:E2,
    (field_set e "encryptedToken") as [tok|] eqn:E3, (field_set e "server") as [srv|] eqn:E4,
    (field_set e "key") as [key|] eqn:E5; try by left.
  js_steps. destruct (sessionStarted v) eqn:Es; [by left|]. js_steps.
  destruct (from_opener e v) eqn:Eo; [|by left]. js_steps.
  assert (Hto : Some (origin e) = parentOrigin v /\ source e = opener v).
  { unfold from_opener in Eo. apply andb_true_iff in Eo as [?%bool_decide_eq_true ?%bool_decide_eq_true]. done. }
  destruct (viewerPrivateKey v) as [k|] eqn:Ek.
  - cbn [negb]. js_steps. rewrite Ek. right. right. destruct v as [w ? ? ? ? ? ? ? ?]. cbn in *. subst. eexists _, {| clientId := cid; remoteSessionId := sid;
      encryptedToken := tok; reply_to := source e; reply_origin := origin e |}, k.
    split; [reflexivity|]. unfold accepts. cbn. by rewrite Eo, E4, E5.
  - cbn [negb]. js_steps. rewrite Ek. pose proof (in_world_same (showFatalError "Error" "viewer not initialized" "error") v) as Hw.
    unfold exec in Hw. unfold mbind, js_bind.
    destruct (in_world _ v) as [[[]|err|] v1]; cbn [snd] in *; [|left; exact Hw..].
    right. left. rewrite Hw. exists (page_world v1). eexists. split; [by destruct v|]. done.
Qed.

Lemma session_failed_spec r e v : exists w refused,
  exec (session_failed r e) v = v <| page_world := w |> <| running := None |> <| acks := (acks v ++ refused)%list |> /\
  Forall (fun a => target a = reply_to r /\ target_origin a = reply_origin r /\ result a = false) refused.
Proof.
  unfold exec, session_failed. js_steps. set (v1 := v <| running := None |>).
  assert (Hquit : forall v2, same_handler v1 v2 ->
    v2 = v <| page_world := page_world v2 |> <| running := None |> <| acks := (acks v ++ [])%list |>).
  { intros v2 ->. subst v1. destruct v; cbn. by rewrite app_nil_r. }
  unfold mbind, js_bind, lift_outcome. 
  destruct (err_text e) as [text|e'|]; [|by exists (page_world v1), []; split; [apply Hquit|]..].
  pose proof (in_world_same (showFatalError "Error" text "error") v1) as Hw. unfold exec in Hw.
  destruct (in_world _ v1) as [[[]|e'|] v2]; cbn [snd] in *;
    [|by exists (page_world v2), []; split; [apply Hquit|]..].
  destruct (err_message e) as [m|e'|]; [|by exists (page_world v2), []; split; [apply Hquit|]..].
  exists (page_world v2). eexists. split; [rewrite Hw; subst v1; by destruct v|]. by repeat constructor.
Qed.

(** ** The opener's authority *)
Definition held (p : progress) : request :=
  match p with Decrypting r _ | Decrypted r _ | Connecting r => r end.
(** The call still to come. *)
Definition owed (v : viewer) : nat :=
  match running v with Some (Decrypting _ _) | Some (Decrypted _ _) => 1 | _ => 0 end.
Definition answering (v : viewer) : nat := match running v with Some (Connecting _) => 1 | _ => 0 end.

Definition decrypts (v : viewer) (r : request) (token : string) : Prop :=
  exists k, viewerPrivateKey v = Some k /\ decryptToken k (json_String (encryptedToken r)) = Ret token.
Definition asked (v0 : viewer) (es : list viewer_event) (r : request) : Prop :=
  exists e, OnMessage e ∈ es /\ accepts v0 e r.
Definition call_ok (v0 : viewer) (es : list viewer_event) (c : json * string * json) : Prop :=
  exists r, asked v0 es r /\ c.1.1 = clientId r /\ c.2 = remoteSessionId r /\ decrypts v0 r c.1.2.

Record viewer_inv (v0 : viewer) (es : list viewer_event) (v : viewer) : Prop := {
  inv_origin : parentOrigin v = parentOrigin v0;
  inv_opener : opener v = opener v0;
  inv_key : viewerPrivateKey v = viewerPrivateKey v0;
  inv_idle : sessionStarted v = false -> running v = None /\ calls v = [];
  inv_once : (length (calls v) + owed v <= 1)%nat;
  inv_asked : forall p, running v = Some p -> asked v0 es (held p);
  inv_decrypting : forall r k, running v = Some (Decrypting r k) -> viewerPrivateKey v0 = Some k;
  inv_decrypted : forall r token, running v = Some (Decrypted r token) -> decrypts v0 r token;
  inv_calls : Forall (call_ok v0 es) (calls v);
  inv_acks : Forall (to_opener v0) (acks v);
  inv_yes : (length (filter (fun a => result a = true) (acks v)) + answering v <= length (calls v))%nat;
}.

Lemma asked_more v0 es e r : asked v0 es r -> asked v0 (es ++ [e]) r.
Proof. intros (m & Hm & Ha). exists m. split; [|done]. apply elem_of_app. by left. Qed.
Lemma call_ok_more v0 es e c : call_ok v0 es c -> call_ok v0 (es ++ [e]) c.
Proof. intros (r & Ha & Hr). exists r. split; [by apply asked_more|done]. Qed.

(** The invariant only looks at the handler's own state. *)
Lemma viewer_inv_same v0 es e v v' : viewer_inv v0 es v -> same_handler v v' -> viewer_inv v0 (es ++ [e]) v'.
Proof.
  intros [] ->. split; destruct v; cbn in *; try done.
  - intros p Hp. by apply asked_more; auto.
  - eapply Forall_impl; [done|]. intros. by apply call_ok_more.
Qed.

Lemma accepts_same v v0 e r :
  parentOrigin v = parentOrigin v0 -> opener v = opener v0 -> accepts v e r -> accepts v0 e r.
Proof. unfold accepts, from_opener. by intros -> ->. Qed.
Lemma asked_reply v0 es r : asked v0 es r -> Some (reply_origin r) = parentOrigin v0 /\ reply_to r = opener v0.
Proof.
  intros (e & _ & _ & Ho & _ & _ & _ & _ & _ & -> & ->). unfold from_opener in Ho.
  apply andb_true_iff in Ho as [?%bool_decide_eq_true ?%bool_decide_eq_true]. done.
Qed.

(** Failing ends the request and refuses it to the opener. *)
Lemma viewer_inv_failed v0 es ev v r e :
  viewer_inv v0 es v -> sessionStarted v = true -> asked v0 es r ->
  viewer_inv v0 (es ++ [ev]) (exec (session_failed r e) v).
Proof.
  intros [] Hs Ha. destruct (session_failed_spec r e v) as (w & refused & -> & Hr).
  destruct (asked_reply _ _ _ Ha) as [Hro Hrt].
  assert (Hno : filter (fun a => result a = true) refused = []).
  { clear -Hr. induction Hr as [|a l (_ & _ & Hf) _ IH]; [done|]. by rewrite filter_cons_False by (by rewrite Hf). }
  split; destruct v; unfold owed, answering in *; cbn in *; try congruence; try done; try lia.
  - eapply Forall_impl; [done|]. intros. by apply call_ok_more.
  - apply Forall_app. split; [done|]. eapply Forall_impl; [exact Hr|]. intros a (Ht & Hao & _).
    unfold to_opener. by rewrite Hao, Ht.
  - rewrite filter_app, Hno, app_nil_r. lia.
Qed.

Lemma running_started v0 es v p : viewer_inv v0 es v -> running v = Some p -> sessionStarted v = true.
Proof. intros [] Hp. destruct (sessionStarted v); [done|]. destruct inv_idle0 as [Hn _]; [done|]. congruence. Qed.

Lemma viewer_inv_message v0 es v e :
  viewer_inv v0 es v -> viewer_inv v0 (es ++ [OnMessage e]) (exec (on_session_ready e) v).
Proof.
  intros Hi. destruct (on_session_ready_spec e v) as [Hs|[(w & a & -> & [Hao Hat] & Hf)|(w & r & k & -> & Hs & Hk & Ha)]].
  - by eapply viewer_inv_same.
  - pose proof (viewer_inv_same v0 es (OnMessage e) v (v <| page_world := w |>) Hi ltac:(by destruct v)) as [].
    destruct Hi. split; destruct v; unfold owed, answering in *; cbn in *; try done.
    + apply Forall_app. split; [done|]. constructor; [|done]. unfold to_opener. by rewrite Hao, Hat.
    + rewrite filter_app, filter_cons_False by (by rewrite Hf). cbn. rewrite app_nil_r. lia.
  - pose proof (viewer_inv_same v0 es (OnMessage e) v (v <| page_world := w |>) Hi ltac:(by destruct v)) as [].
    destruct Hi. destruct inv_idle1 as [Hn Hc]; [done|].
    assert (Hasked : asked v0 (es ++ [OnMessage e]) r).
    { exists e. split; [apply elem_of_app; right; by constructor|]. by eapply accepts_same. }
    split; destruct v; unfold owed, answering in *; cbn in *; subst; try done.
    + intros p [= <-]. exact Hasked.
    + intros r' k' [= <- <-]. congruence.
Qed.

Lemma vstep_inv v0 es v e v' : viewer_inv v0 es v -> vstep v e v' -> viewer_inv v0 (es ++ [e]) v'.
Proof.
  intros Hi Hstep. destruct Hstep as [v e|v r k Hr|v|v r token Hr Hc|v r answer Hr|v w].
  - by apply viewer_inv_message.
  - pose proof (running_started _ _ _ _ Hi Hr) as Hs. pose proof (inv_asked _ _ _ Hi _ Hr) as Ha. cbn in Ha.
    unfold after_decrypt. destruct (decryptToken k _) as [token|e|] eqn:Ed.
    + pose proof (inv_decrypting _ _ _ Hi _ _ Hr) as Hk.
      pose proof (viewer_inv_same v0 es OnDecrypted v v Hi ltac:(by destruct v)) as []. destruct Hi.
      split; destruct v; unfold owed, answering in *; cbn in *; subst; try done.
      * by intros p [= <-]; apply asked_more.
      * intros r' t [= <- <-]. by exists k.
    + by apply viewer_inv_failed.
    + eapply viewer_inv_same; [exact Hi|]. by destruct v.
  - pose proof (viewer_inv_same v0 es OnConnectSet v v Hi ltac:(by destruct v)) as [].
    split; destruct v; unfold owed, answering in *; cbn in *; done.
  - pose proof (inv_asked _ _ _ Hi _ Hr) as Ha. pose proof (inv_decrypted _ _ _ Hi _ _ Hr) as Hd. cbn in Ha.
    pose proof (viewer_inv_same v0 es OnCall v v Hi ltac:(by destruct v)) as [].
    assert (Hs : sessionStarted v = true) by (by eapply running_started).
    split; destruct v; unfold owed, answering in *; cbn in *; subst; rewrite ?length_app; cbn; try done; try lia.
    + by intros p [= <-]; apply asked_more.
    + apply Forall_app. split; [done|]. constructor; [|done]. exists r. by split; [apply asked_more|].
  - pose proof (running_started _ _ _ _ Hi Hr) as Hs. pose proof (inv_asked _ _ _ Hi _ Hr) as Ha. cbn in Ha.
    unfold after_connect. destruct answer as [ok|e|].
    + pose proof (asked_reply _ _ _ Ha) as [Hro Hrt].
      set (yes := {| target := reply_to r; target_origin := reply_origin r; result := ok; error := None |}).
      change (exec _ v) with (v <| running := None |> <| acks := (acks v ++ [yes])%list |>).
      pose proof (viewer_inv_same v0 es (OnAnswer (Ret ok)) v v Hi ltac:(by destruct v)) as [].
      split; destruct v; unfold owed, answering in *; cbn in *; subst; try done; try lia.
      * apply Forall_app. split; [done|]. by constructor.
      * rewrite filter_app, length_app.
        pose proof (length_filter (fun a => result a = true) [yes]) as Hy. cbn [length] in Hy. lia.
    + by apply viewer_inv_failed.
    + eapply viewer_inv_same; [exact Hi|]. by destruct v.
  - eapply viewer_inv_same; [exact Hi|]. by destruct v.
Qed.

(** A page that has loaded and has not yet been asked for a session. *)
Definition fresh (v : viewer) : Prop :=
  sessionStarted v = false /\ running v = None /\ calls v = [] /\ acks v = [].

(** C20.  Only the opener starts a session, and once.  However messages from any window, Flutter and the
    rest of the page interleave with the handler's awaits: [window.connect] is called at most once,
    and then with the client and session ids of a message that came from the opener at the expected
    origin and with the token that message's envelope decrypts to under the viewer's key; every
    acknowledgement is posted to the opener at that origin, and at most one of them reports
    success, after the call. *)
Theorem only_opener_starts_session v0 es v :
  fresh v0 -> vrun v0 es v ->
  (length (calls v) <= 1)%nat /\ Forall (call_ok v0 es) (calls v) /\ Forall (to_opener v0) (acks v) /\
  (length (filter (fun a => result a = true) (acks v)) <= length (calls v))%nat.
Proof.
  intros (Hs & Hr & Hc & Ha) Hrun.
  assert (Hinv : viewer_inv v0 es v).
  { induction Hrun as [v|v es v1 e v2 _ IH Hstep]; [|by eapply vstep_inv; [apply IH|]].
    split; unfold owed, answering; rewrite ?Hr, ?Hc, ?Ha; try done; cbn; lia. }
  destruct Hinv. split_and!; [lia|done|done|lia].
Qed.
End Viewer.
