(* ===== verification/SessionsFacts.v ===== *)
(** * The registry stays consistent

    [registry_ok] relates the registry, [curConn] and the connections' own ids; every way the page
    touches the registry preserves it, including a close that throws half way.  Reconnection
    tokens, and the end of a file-transfer session. *)
From S2P Require Import Prelude JsMap JsStr Json Bytes ProtoWire ProtoFile ProtoSession ProtoMessage Crypto.
From S2P Require Import Config PushEvent Websock SessionConnect FtProtocol FtBrowserIo FtZip Page FtJobs.
From S2P Require Import FtJobsFacts SessionBase FtConnection Common RdOptions RdConnection Keeps Sessions.
Local Open Scope string_scope.

Section Registry.
Context `{ProtobufRuntime} `{Sodium} `{Zstd} `{Fflate}.

(** ** Changes inside connections *)
(** The transfer jobs of a connection. *)
Definition jobs_of (c : conn) : FileJobManager :=
  match instance c with FtConn f => _jobs f | RdConn _ => newFileJobManager end.
(** A connection keeps its id, its kind and its jobs. *)
Definition conn_kept (c c' : conn) : Prop :=
  _sessionId (base_of c') = _sessionId (base_of c) /\ isFileTransfer c' = isFileTransfer c /\
  jobs_step (jobs_of c) (jobs_of c').
#[export] Instance conn_kept_pre : PreOrder conn_kept.
Proof.
  split; [intros c; unfold conn_kept; split_and!; reflexivity|]. intros a b c (I1 & K1 & J1) (I2 & K2 & J2).
  unfold conn_kept. split_and!; [congruence..|exact (transitivity J1 J2)].
Qed.
(** Nothing the registry depends on changed. *)
Definition internal (w w' : world) : Prop :=
  sessions w' = sessions w /\ curConn w' = curConn w /\ length (conns w') = length (conns w) /\
  forall l c, conn_at l w = Some c -> exists c', conn_at l w' = Some c' /\ conn_kept c c'.
#[export] Instance internal_pre : PreOrder internal.
Proof.
  split; [intros w; split_and!; [done..|]; intros l c Hc; by exists c|].
  intros x y z (S1 & C1 & N1 & L1) (S2 & C2 & N2 & L2). split_and!; [congruence..|].
  intros l c E. destruct (L1 l c E) as (c1 & E1 & K1). destruct (L2 l c1 E1) as (c2 & E2 & K2).
  exists c2. split; [done|exact (transitivity K1 K2)].
Qed.

(** A connection changed in place. *)
Lemma put_internal l c c' w pg : conn_at l w = Some c -> conn_kept c c' ->
  internal w (put_conn l c' w <| wpage := pg |>).
Proof.
  intros Hc Hk. unfold internal, put_conn, conn_at in *. destruct w as [cs ss cur p hp pe]; cbn in *. unfold constant.
  split_and!; [done..|by rewrite length_insert|]. intros l' c0 E. destruct (decide (l' = l)) as [->|Hl].
  - rewrite list_lookup_insert_eq by (by eapply lookup_lt_Some). exists c'. split; [done|]. by simplify_eq.
  - rewrite list_lookup_insert_ne by done. by exists c0.
Qed.
Lemma on_ft_internal {A} l (m : js (ft * page) A) : preserves same_id_ft m -> preserves internal (on_ft l m).
Proof.
  intros Hm w. unfold on_ft. destruct (conn_at l w) as [[[f|r] src]|] eqn:E; cbn [instance]; try reflexivity.
  specialize (Hm (f, wpage w)). destruct (m (f, wpage w)) as [r [f' pg]]. destruct Hm as [Hid Hj].
  by eapply put_internal.
Qed.
Lemma on_rd_internal {A} l (m : js (rd * page) A) : preserves same_id_rd m -> preserves internal (on_rd l m).
Proof.
  intros Hm w. unfold on_rd. destruct (conn_at l w) as [[[f|r] src]|] eqn:E; cbn [instance]; try reflexivity.
  specialize (Hm (r, wpage w)). destruct (m (r, wpage w)) as [x [r' pg]].
  eapply put_internal; [done|]. unfold conn_kept. split_and!; [exact Hm|done|reflexivity].
Qed.

Lemma close_conn_internal l : preserves internal (close_conn l).
Proof.
  unfold close_conn. apply preserves_bind; [apply _|apply preserves_gets, _|].
  intros [c|]; [|apply preserves_throw, _].
  destruct (isFileTransfer c); [apply on_ft_internal, ft_close_keeps|apply on_rd_internal, rd_close_keeps].
Qed.
(** Changes outside the registry and the connections. *)
Lemma outside_internal w w' : conns w' = conns w -> sessions w' = sessions w -> curConn w' = curConn w -> internal w w'.
Proof.
  intros Ec Es El. unfold internal, conn_at. rewrite Ec. split_and!; [done..|]. intros l c Hc. exists c. by split.
Qed.
Lemma push_world_internal n p sid : preserves internal (push_world n p sid).
Proof. intros w. by apply outside_internal; destruct w. Qed.

(** ** The invariant *)
Definition registered (w : world) (sid : string) (l : connref) : Prop := map_get (sessions w) sid = Some l.
Record registry_ok (w : world) : Prop := {
  (** each id once *)
  ids_once : map_ok (sessions w);
  (** a registered connection exists and carries the id it is registered under *)
  carries_id : forall sid l, registered w sid l ->
    sid <> "" /\ exists c, conn_at l w = Some c /\ _sessionId (base_of c) = Some sid;
  (** the current connection is registered *)
  current_registered : forall l, curConn w = Some l -> exists sid, registered w sid l;
  (** and there is one as long as there is a session *)
  current_exists : curConn w = None -> sessions w = [];
  (** the job tables of every connection are consistent *)
  jobs_consistent : forall l c, conn_at l w = Some c -> jobs_ok (jobs_of c);
}.

Lemma registry_internal w w' : internal w w' -> registry_ok w -> registry_ok w'.
Proof.
  intros (Es & Ec & En & El) [H1' H2' H3' H4' H5']. unfold registered in *. split; unfold registered; rewrite ?Es, ?Ec; try done.
  - intros sid l E. destruct (H2' sid l E) as (Hs & c & Hc & Hid). split; [done|].
    destruct (El l c Hc) as (c' & Hc' & Hid' & _). exists c'. split; [done|congruence].
  - intros l c' E. assert (Hl : is_Some (conn_at l w)).
    { apply lookup_lt_is_Some. rewrite <- En. by eapply lookup_lt_Some. }
    destruct Hl as [c Hc]. destruct (El l c Hc) as (c1 & Hc1 & _ & _ & Hj). simplify_eq. by apply Hj, (H5' l).
Qed.

Lemma registered_inj w s1 s2 l : registry_ok w -> registered w s1 l -> registered w s2 l -> s1 = s2.
Proof.
  intros Hok E1 E2. destruct (carries_id w Hok _ _ E1) as (_ & c & Hc & I1).
  destruct (carries_id w Hok _ _ E2) as (_ & c' & Hc' & I2). congruence.
Qed.

Lemma head_values_registered (m : jsmap string connref) l :
  map_ok m -> head (map_values m) = Some l -> exists sid, map_get m sid = Some l.
Proof.
  destruct m as [|[k v] m]; [done|]. cbn. intros _ [= ->]. exists k. by rewrite decide_True.
Qed.

Lemma conn_at_sessions x l w : conn_at l (w <| sessions := x |>) = conn_at l w.
Proof. by destruct w. Qed.

(** Deleting a registered session and moving on. *)
Lemma forget_ok sid l w : registry_ok w -> registered w sid l ->
  registry_ok (exec (delete_session sid;; advanceCurConn (Some l)) w).
Proof.
  intros Hok Hreg. unfold exec, delete_session, advanceCurConn. rewrite bind_modify. rewrite modify_run.
  cbn [snd]. pose proof (ids_once w Hok) as Hids.
  assert (Hsub : forall s l', map_get (map_delete (sessions w) sid) s = Some l' -> s <> sid /\ registered w s l').
  { intros s l' E. assert (s <> sid) by (intros ->; by rewrite map_get_delete_eq in E).
    split; [done|]. unfold registered. by rewrite map_get_delete_ne in E. }
  case_bool_decide as Hcur; destruct w as [cs ss cur pg hp pe]; cbn in *; unfold constant in *.
  - split; unfold registered in *; cbn in *.
    + by apply map_delete_ok.
    + intros s l' E. apply Hsub in E as [_ E]. exact (carries_id _ Hok s l' E).
    + intros l' E. subst cur. destruct (current_registered _ Hok l' eq_refl) as [s Hs]. cbn in *.
      exists s. rewrite map_get_delete_ne; [done|]. intros <-. unfold registered in *. cbn in *. congruence.
    + intros ->. pose proof (current_exists _ Hok eq_refl) as E. cbn in E. by subst.
    + exact (jobs_consistent _ Hok).
  - split; unfold registered in *; cbn in *.
    + by apply map_delete_ok.
    + intros s l' E. apply Hsub in E as [_ E]. exact (carries_id _ Hok s l' E).
    + intros l' E. apply head_values_registered; [by apply map_delete_ok|done].
    + destruct (map_delete ss sid) as [|[]]; [done|]. done.
    + exact (jobs_consistent _ Hok).
Qed.

Lemma exec_bind {S A B} (m : js S A) (k : A -> js S B) s a s' :
  m s = (Ret a, s') -> exec (m ≫= k) s = exec (k a) s'.
Proof. intros E. unfold exec. by rewrite (bind_eq _ _ _ _ _ E). Qed.

(** Closing a registered session and forgetting it. *)
Lemma close_and_forget {B} sid l (k : unit -> js world B) w :
  registry_ok w -> registered w sid l -> (forall w', registry_ok w' -> registry_ok (exec (k tt) w')) ->
  registry_ok (exec (close_conn l;; delete_session sid;; advanceCurConn (Some l);; k tt) w).
Proof.
  intros Hok Hreg Hk. pose proof (close_conn_internal l w) as Hi. unfold exec, mbind at 1, js_bind at 1.
  destruct (close_conn l w) as [[[]|e|] w1]; cbn in *; [|by eapply registry_internal..].
  assert (Hok1 : registry_ok w1) by (by eapply registry_internal).
  assert (Hreg1 : registered w1 sid l) by (destruct Hi as (Es & _); unfold registered; by rewrite Es).
  pose proof (forget_ok sid l w1 Hok1 Hreg1) as Hf. unfold exec in Hf.
  change (registry_ok (exec (k tt) (((delete_session sid;; advanceCurConn (Some l)) w1).2))). by apply Hk.
Qed.

Lemma advance_none_ok w : registry_ok w -> registry_ok (exec (advanceCurConn None) w).
Proof.
  intros Hok. unfold exec, advanceCurConn. rewrite modify_run. cbn [snd].
  case_bool_decide as Hc; [done|]. pose proof (current_exists w Hok Hc) as Hs.
  destruct w; cbn in *. by subst.
Qed.

Lemma removeSession_ok sid w : registry_ok w -> registry_ok (exec (removeSession sid) w).
Proof.
  intros Hok. unfold removeSession. rewrite (exec_bind _ _ w (map_get (sessions w) sid) w) by done.
  destruct (map_get (sessions w) sid) as [l|] eqn:E; [|by apply advance_none_ok].
  pose proof (close_and_forget sid l (fun _ => skip) w Hok E (fun w' Hw => Hw)) as Hg.
  revert Hg. unfold exec, mbind, js_bind, skip, delete_session, advanceCurConn, modify.
  by destruct (close_conn l w) as [[[]|e|] w1].
Qed.

Lemma endFileTransferSession_ok sid title text w :
  registry_ok w -> registry_ok (exec (endFileTransferSession sid title text) w).
Proof.
  intros Hok. unfold endFileTransferSession. destruct sid as [sid|]; [|done].
  destruct (negb (truthy sid)); [done|]. rewrite (exec_bind _ _ w (map_get (sessions w) sid) w) by done.
  destruct (map_get (sessions w) sid) as [l|] eqn:E; [|done].
  rewrite (exec_bind _ _ w (conn_at l w) w) by done.
  destruct (option_map instance (conn_at l w)) as [[f|r]|]; [|done..]. destruct (_ftSessionEnded f); [done|].
  assert (Hp1 : preserves internal (on_ft l (update (fun f => f <| _ftSessionEnded := true |>))))
    by (apply on_ft_internal; intros [c pg]; by destruct c).
  specialize (Hp1 w). unfold exec, mbind at 1, js_bind at 1.
  destruct (on_ft l (update _) w) as [[[]|e|] w1]; cbn in *; [|by eapply registry_internal..].
  pose proof (on_ft_internal l _ (same_stage_id _ (failActiveJobs_keeps "Connection lost")) w1) as Hp2.
  unfold mbind at 1, js_bind at 1.
  destruct (on_ft l (failActiveJobs _) w1) as [[[]|e|] w2]; cbn in *;
    [|eapply registry_internal; [|done]; by etrans..].
  assert (Hi : internal w w2) by (by etrans).
  apply (close_and_forget sid l (fun _ => push_world "msgbox" (ended_box title text) (Some sid))).
  - by eapply registry_internal.
  - destruct Hi as (Es & _). unfold registered. by rewrite Es.
  - intros w' Hw'. eapply registry_internal; [apply push_world_internal|done].
Qed.

Lemma close_current_ok w : registry_ok w -> registry_ok (exec close_current w).
Proof.
  intros Hok. unfold close_current. rewrite (exec_bind _ _ w (curConn w) w) by done.
  destruct (curConn w) as [l|] eqn:Ec; [|done].
  destruct (current_registered w Hok l Ec) as [sid Hreg].
  destruct (carries_id w Hok sid l Hreg) as (Hs & c & Hc & Hid).
  rewrite (exec_bind _ _ w (conn_at l w) w) by done. rewrite Hc, Hid. unfold truthy, truthy_string.
  rewrite bool_decide_true by done. by apply removeSession_ok.
Qed.

(** A computation that keeps the invariant. *)
Definition keeps_registry (w w' : world) : Prop := registry_ok w -> registry_ok w'.
#[export] Instance keeps_registry_pre : PreOrder keeps_registry.
Proof. split; unfold keeps_registry; [by intros w|]. intros x y z. tauto. Qed.
Lemma preserves_internal_registry {A} (m : js world A) : preserves internal m -> preserves keeps_registry m.
Proof. intros Hm w Hok. exact (registry_internal _ _ (Hm w) Hok). Qed.

Lemma showFatalError_ok title text ty : preserves keeps_registry (showFatalError title text ty).
Proof.
  unfold showFatalError.
  do 2 (apply preserves_bind; [apply _|apply preserves_gets, _|]; intros ?).
  assert (Hrest : preserves keeps_registry (close_current;; notifyParentError title (or_empty text title) ty;;
      raw_event [("name", "viewer_fatal")])).
  { apply preserves_bind; [apply _|intros w Hw; by apply close_current_ok|]. intros _.
    apply preserves_internal_registry. apply preserves_bind; [apply _| |].
    - unfold notifyParentError. apply preserves_bind; [apply _|apply preserves_gets, _|].
      intros [|]; [|apply preserves_skip, _]. intros w. by apply outside_internal; destruct w.
    - intros _ w. by apply outside_internal; destruct w. }
  repeat case_match; try exact Hrest. intros w Hw. by apply endFileTransferSession_ok.
Qed.

Lemma bridge_msgbox_ok ty title text : preserves keeps_registry (bridge_msgbox ty title text).
Proof.
  unfold bridge_msgbox. destruct (_ || _); [apply preserves_skip, _|].
  destruct (isParentHandledMsgbox _ _ _); [apply showFatalError_ok|].
  intros w Hok. eapply registry_internal; [|done]. by apply outside_internal; destruct w.
Qed.

(** ** Everything that happens to the registry *)
Inductive registry_step : world -> world -> Prop :=
  (** a connection is constructed, with no job yet *)
  | step_new c w : jobs_of c = newFileJobManager -> registry_step w (w <| conns := (conns w ++ [c])%list |>)
  (** [addSession] of a constructed connection that is not registered yet *)
  | step_add sid l w : sid <> "" -> is_Some (conn_at l w) -> (forall s, ~ registered w s l) ->
      registry_step w (exec (addSession sid l) w)
  | step_remove sid w : registry_step w (exec (removeSession sid) w)
  | step_end sid title text w : registry_step w (exec (endFileTransferSession sid title text) w)
  | step_close w : registry_step w (exec close_current w)
  | step_msgbox ty title text w : registry_step w (exec (bridge_msgbox ty title text) w)
  (** a handler of a connection, which does not assign [_sessionId] *)
  | step_ft {A} l (m : js (ft * page) A) w : preserves same_id_ft m -> registry_step w (exec (on_ft l m) w)
  | step_rd {A} l (m : js (rd * page) A) w : preserves same_id_rd m -> registry_step w (exec (on_rd l m) w).
Inductive registry_reachable (pg : page) (hp : bool) : world -> Prop :=
  | reach_start : registry_reachable pg hp
      {| conns := []; sessions := []; curConn := None; wpage := pg; has_parent := hp; parent_errors := [] |}
  | reach_step w w' : registry_reachable pg hp w -> registry_step w w' -> registry_reachable pg hp w'.

Lemma base_of_on_base f c : base_of (on_base_of f c) = f (base_of c).
Proof. by destruct c as [[[]|[]] ?]. Qed.
Lemma jobs_of_on_base f c : jobs_of (on_base_of f c) = jobs_of c.
Proof. by destruct c as [[[]|[]] ?]. Qed.
Lemma map_set_get {V} (m : jsmap string V) k v k' v' :
  map_get (map_set m k v) k' = Some v' -> (k' = k /\ v' = v) \/ (k' <> k /\ map_get m k' = Some v').
Proof.
  destruct (decide (k' = k)) as [->|Hk]; [rewrite map_get_set_eq; intros [= <-]; by left|].
  rewrite map_get_set_ne by done. auto.
Qed.

Lemma addSession_ok sid l w : registry_ok w -> sid <> "" -> is_Some (conn_at l w) ->
  (forall s, ~ registered w s l) -> registry_ok (exec (addSession sid l) w).
Proof.
  intros Hok Hs [c Hc] Hfresh. unfold exec, addSession. rewrite modify_run. cbn [snd].
  destruct w as [cs ss cur pg hp pe]. unfold conn_at, registered in *. cbn in *. unfold constant.
  split; unfold registered, conn_at; cbn.
  - apply map_set_ok, (ids_once _ Hok).
  - intros s l' E. apply map_set_get in E as [[-> ->]|[Hk E]].
    + split; [done|]. rewrite list_lookup_alter_eq, Hc. eexists. split; [done|]. by rewrite base_of_on_base; destruct (base_of c).
    + destruct (carries_id _ Hok s l' E) as (Hs' & c' & Hc' & Hid). split; [done|]. exists c'.
      rewrite list_lookup_alter_ne; [done|]. intros <-. by apply (Hfresh s).
  - intros l' [= <-]. exists sid. apply map_get_set_eq.
  - done.
  - intros l' c' E. apply lookup_alter_inv in E as (c0 & E & Hc'). pose proof (jobs_consistent _ Hok l' c0 E) as Hj.
    destruct Hc' as [->|[_ ->]]; [done|by rewrite jobs_of_on_base].
Qed.

(** A connection constructed but not registered yet. *)
Lemma new_conn_ok c w : jobs_of c = newFileJobManager -> registry_ok w ->
  registry_ok (w <| conns := (conns w ++ [c])%list |>).
Proof.
  intros Hc [H1' H2' H3' H4' H5']. destruct w. split; unfold registered, conn_at in *; cbn in *; unfold constant; try done.
  - intros s l Hr. destruct (H2' s l Hr) as (? & c' & Hc' & ?). split; [done|]. exists c'.
    split; [by apply lookup_app_l_Some|done].
  - intros l c' E. apply lookup_app_Some in E as [E|[_ E]]; [by apply (H5' l)|].
    apply list_lookup_singleton_Some in E as [_ <-]. rewrite Hc. apply newFileJobManager_ok.
Qed.

(** C17.  The registry is always consistent.  Whatever sequence of constructions, registrations,
    removals, ended transfers, message boxes and connection handlers the page goes through
    (including closes that throw half way): ids are registered once, each registered connection
    exists and carries its id, requests without an id go to a registered connection as long as
    there is one, and the job tables of every transfer session are consistent ([jobs_ok]). *)
Theorem registry_consistent pg hp w : registry_reachable pg hp w -> registry_ok w.
Proof.
  induction 1 as [|w w' _ Hok Hs]; [split; unfold registered; cbn; try done; constructor|].
  destruct Hs as [c w Hc|sid l w Hs Hc Hf|sid w|sid title text w|w|ty title text w|A l m w Hm|A l m w Hm].
  - by apply new_conn_ok.
  - by apply addSession_ok.
  - by apply removeSession_ok.
  - by apply endFileTransferSession_ok.
  - by apply close_current_ok.
  - by apply bridge_msgbox_ok.
  - eapply registry_internal; [by apply on_ft_internal|done].
  - eapply registry_internal; [by apply on_rd_internal|done].
Qed.

(** A request for an id that is not registered goes to whatever connection is current. *)
Lemma getSession_falls_back sid w : map_has (sessions w) sid = false -> getSession (Some sid) w = curConn w.
Proof. intros E. unfold getSession. by rewrite E, andb_false_r. Qed.

(** ** Tokens *)
(** A reconnection token restores the login: applied to any connection, the token made for a
    session gives it the session's password hash, and its password source and login id where the
    session has them. *)
Theorem conn_token_roundtrip sid w l c pw text c0 :
  registered w sid l -> conn_at l w = Some c -> _password (base_of c) = Some pw -> pw <> [] ->
  connTokenFor sid w = Some text ->
  let c' := applyConnToken (Some text) c0 in
  _password (base_of c') = Some pw /\
  (forall src, _passwordSource c = Some src -> src <> "" -> _passwordSource c' = Some src) /\
  (forall n, _loginSessionId (base_of c) = Some n -> n <> 0%Z -> _loginSessionId (base_of c') = Some n).
Proof.
  intros Hreg Hc Hpw Hne Htext. unfold registered in Hreg. unfold connTokenFor in Htext.
  rewrite Hreg in Htext. cbn [mbind option_bind] in Htext. rewrite Hc in Htext. cbn [mbind option_bind] in Htext.
  rewrite Hpw in Htext. cbn [mbind option_bind] in Htext.
  destruct (Z.eqb_spec (len pw) 0) as [Hl|_]; [apply len_zero_nil in Hl; by subst|].
  assert (Etext : text = stringify (token_json c pw)) by congruence. clear Htext.
  assert (Hok : json_ok (token_json c pw)).
  { apply json_ok_obj. split; [by apply (bool_decide_unpack _)|]. repeat constructor.
    apply json_ok_arr, Forall_fmap, Forall_true. by intros b. }
  assert (Ht : truthy text = true).
  { unfold truthy, truthy_string. apply bool_decide_true. intros E. pose proof (parse_stringify _ Hok) as P.
    rewrite <- Etext, E in P. vm_compute in P. congruence. }
  assert (Hp : applyConnToken (Some text) c0 = apply_token (token_json c pw) c0).
  { unfold applyConnToken. rewrite Ht. cbn [negb]. by rewrite Etext, parse_stringify. }
  assert (Hbytes : map json_byte (map (fun b => JNum (Z_of_byte b)) pw) = pw).
  { rewrite map_map. rewrite <- (map_id pw) at 2. apply map_ext. intros b. cbn. apply byte_of_Z_of_byte. }
  cbv zeta. rewrite Hp. clear -Hbytes. unfold apply_token.
  change (member (token_json c pw) "password") with (Some (JArr (map (fun b => JNum (Z_of_byte b)) pw))).
  change (member (token_json c pw) "password_source") with (Some (JStr (default "" (_passwordSource c)))).
  change (member (token_json c pw) "session_id") with (Some (JNum (default 0%Z (_loginSessionId (base_of c))))).
  cbv iota zeta. rewrite Hbytes. set (c1 := on_base_of _ c0).
  assert (Hp1 : _password (base_of c1) = Some pw) by (subst c1; rewrite base_of_on_base; by destruct (base_of c0)).
  clearbody c1. set (c2 := if truthy (JStr _) then _ else c1).
  assert (Hp2 : _password (base_of c2) = Some pw) by (subst c2; destruct (truthy _); [by destruct c1|done]).
  assert (Hs2 : forall src, _passwordSource c = Some src -> src <> "" -> _passwordSource c2 = Some src).
  { intros src Es Hsrc. subst c2. rewrite Es. cbn [default]. unfold truthy, truthy_json, truthy, truthy_string.
    rewrite bool_decide_true by done. by destruct c1. }
  clearbody c2. split; [|split].
  - destruct (truthy _); [|done]. rewrite base_of_on_base. by destruct (base_of c2).
  - intros src Es Hsrc. destruct (truthy _); [destruct c2; cbn|]; by apply Hs2.
  - intros n En Hn. rewrite En. cbn [default]. assert (Hn' : truthy n = true) by (by apply negb_true_iff, Z.eqb_neq).
    cbv [id]. rewrite Hn', base_of_on_base. by destruct (base_of c2).
Qed.
End Registry.

(** ** The end of a file-transfer session *)
Section Ending.
Context `{ProtobufRuntime} `{Sodium} `{Zstd} `{Fflate}.

Definition job_error_event (sid : option string) (id fileNum : Z) (err : string) : event :=
  makeEvent "job_error" (strs [("id", string_of_Z id); ("file_num", string_of_Z fileNum); ("err", err)]) sid.
(** One error per active job: uploads, then downloads. *)
Definition job_errors (c : ft) (err : string) : list event :=
  (map (fun j => job_error_event (_sessionId (super c)) (r_id j) (r_fileNum j) err) (live_reads c) ++
   map (fun j => job_error_event (_sessionId (super c)) (w_id j) (w_fileNum j) err) (live_writes c))%list.
Definition without_jobs (c : ft) : ft :=
  c <| _jobs ::= fun m => m <| readJobs := [] |> <| writeJobs := [] |> <| pendingUploads := [] |> |>.

Lemma pushJobError_run id n err c pg : pushJobError id n err (c, pg) =
  (Ret tt, (c, pg <| events := (events pg ++ [job_error_event (_sessionId (super c)) id n err])%list |>)).
Proof. by destruct c. Qed.

Lemma push_errors {A} (jobs : list A) (id num : A -> Z) err c pg :
  for_of jobs (fun j => pushJobError (id j) (num j) err) (c, pg) =
    (Ret tt, (c, pg <| events := (events pg ++
      map (fun j => job_error_event (_sessionId (super c)) (id j) (num j) err) jobs)%list |>)).
Proof.
  revert pg. induction jobs as [|j jobs IH]; intros pg; cbn [for_of map].
  - rewrite app_nil_r. by destruct pg.
  - erewrite bind_eq by apply pushJobError_run. rewrite IH. destruct pg; cbn. by rewrite <- app_assoc.
Qed.

Lemma failActiveJobs_run err c pg : failActiveJobs err (c, pg) =
  (Ret tt, (without_jobs c, pg <| events := (events pg ++ job_errors c err)%list |>)).
Proof.
  unfold failActiveJobs. page_steps. erewrite bind_eq by apply push_errors. page_steps.
  erewrite bind_eq by apply push_errors. unfold clear_jobs. page_steps. unfold job_errors.
  destruct pg; cbn. by rewrite <- app_assoc.
Qed.

Definition ended (c : ft) : ft := without_jobs (c <| _ftSessionEnded := true |>)
  <| _closing := true |> <| _progressInterval := false |>
  <| super ::= fun b => b <| _msgs := [] |> <| _interval := false |>
       <| _ws ::= option_map (fun ws => close (Websock.setIngressHandler false ws)) |> |>.

Lemma ft_close_run c pg : _closing c = false ->
  ft_close (without_jobs (c <| _ftSessionEnded := true |>), pg) = (Ret tt, (ended c, pg)).
Proof.
  intros Hc. destruct c as [[? ? ws ? ? ? ? ? ? ? ?] ? ? [] ? ? ? ? ? ? ?]; cbn in Hc. subst.
  by destruct ws.
Qed.

Lemma endFileTransferSession_run sid title text w l f src :
  registry_ok w -> registered w sid l -> conn_at l w = Some {| instance := FtConn f; _passwordSource := src |} ->
  _ftSessionEnded f = false -> _closing f = false ->
  exists w', endFileTransferSession (Some sid) title text w = (Ret tt, w') /\
    events (wpage w') = (events (wpage w) ++ job_errors f "Connection lost" ++
      [makeEvent "msgbox" (ended_box title text) (Some sid)])%list /\
    map_get (sessions w') sid = None /\
    conn_at l w' = Some {| instance := FtConn (ended f); _passwordSource := src |}.
Proof.
  intros Hok Hreg Hc Hend Hcl. destruct (carries_id w Hok sid l Hreg) as (Hs & _).
  pose proof (ids_once w Hok) as Hids. unfold registered in Hreg.
  assert (Ht : truthy sid = true) by (unfold truthy, truthy_string; by rewrite bool_decide_true).
  assert (Hlt : (l < length (conns w))%nat) by (by eapply lookup_lt_Some).
  assert (Hrun : forall A (m : js (ft * page) A) w0 f0 r f' pg', conn_at l w0 = Some {| instance := FtConn f0; _passwordSource := src |} ->
    m (f0, wpage w0) = (r, (f', pg')) -> on_ft l m w0 =
      (r, put_conn l {| instance := FtConn f'; _passwordSource := src |} w0 <| wpage := pg' |>)).
  { intros A m w0 f0 r f' pg' E0 E. unfold on_ft. rewrite E0. cbn [instance]. by rewrite E. }
  unfold endFileTransferSession at 1. rewrite Ht. cbn [negb]. rewrite bind_gets, Hreg, bind_gets, Hc.
  cbn [option_map instance]. rewrite Hend.
  destruct w as [cs ss cur pg hp pe]. cbn [conns sessions wpage] in *.
  unfold conn_at in Hc. cbn [conns] in Hc.
  set (c1 := FtConn (f <| _ftSessionEnded := true |>)).
  assert (Hput : forall a, (<[l:=a]> cs) !! l = Some a) by (intros; by apply list_lookup_insert_eq).
  erewrite bind_eq; [|by eapply Hrun].
  erewrite bind_eq; [|eapply Hrun; [unfold conn_at; cbn; apply Hput|apply failActiveJobs_run]].
  unfold close_conn. rewrite js_bind_assoc. rewrite bind_gets. unfold conn_at at 1. cbn [put_conn conns apply_update constant].
  assert (Hput2 : forall a b, (<[l:=a]> (<[l:=b]> cs)) !! l = Some a)
    by (intros; apply list_lookup_insert_eq; by rewrite length_insert).
  unfold constant. cbn. rewrite Hput2. cbn [isFileTransfer instance].
  erewrite bind_eq; [|eapply Hrun; [unfold conn_at; cbn; apply Hput2|cbn; by apply ft_close_run]].
  unfold delete_session, advanceCurConn, push_world. rewrite !bind_modify, modify_run.
  assert (Hput3 : forall a b c, (<[l:=a]> (<[l:=b]> (<[l:=c]> cs))) !! l = Some a)
    by (intros; apply list_lookup_insert_eq; by rewrite !length_insert).
  eexists. split; [done|]. cbn. unfold constant.
  assert (Hd : map_get (map_delete ss sid) sid = None) by (by apply map_get_delete_eq).
  case_bool_decide; cbn; unfold constant; rewrite ?Hput3, <- ?app_assoc;
    (split; [by destruct pg|]; split; [exact Hd|]; unfold conn_at; cbn; apply Hput3).
Qed.

Lemma endFileTransferSession_gone sid title text w :
  map_get (sessions w) sid = None -> endFileTransferSession (Some sid) title text w = (Ret tt, w).
Proof.
  intros E. unfold endFileTransferSession. destruct (truthy sid); [|done]. cbn [negb].
  by rewrite bind_gets, E.
Qed.

(** C22.  Ending a transfer session tells Flutter everything once.  Whatever jobs are active, ending the
    session pushes exactly one error event per active job (uploads in order, then downloads), then
    one message box of the type Flutter closes the file manager on; the session is out of the
    registry, its socket closed, its jobs gone; and ending it again does nothing. *)
Theorem endFileTransferSession_spec sid title text w l f src :
  registry_ok w -> registered w sid l -> conn_at l w = Some {| instance := FtConn f; _passwordSource := src |} ->
  _ftSessionEnded f = false -> _closing f = false ->
  exists w', endFileTransferSession (Some sid) title text w = (Ret tt, w') /\
    events (wpage w') = (events (wpage w) ++ job_errors f "Connection lost" ++
      [makeEvent "msgbox" (ended_box title text) (Some sid)])%list /\
    map_get (sessions w') sid = None /\
    conn_at l w' = Some {| instance := FtConn (ended f); _passwordSource := src |} /\
    forall title' text', endFileTransferSession (Some sid) title' text' w' = (Ret tt, w').
Proof.
  intros Hok Hreg Hc Hend Hcl.
  destruct (endFileTransferSession_run sid title text w l f src) as (w' & E & Hev & Hgone & Hl); try done.
  exists w'. do 4 (split; [done|]). intros. by apply endFileTransferSession_gone.
Qed.

(** The jobs are failed and forgotten before the session closes, so closing has no job left to
    cancel: the peer is not told, whatever was in progress. *)
Lemma ended_session_sends_no_cancel c pg ws ws' :
  _closing c = false -> _ws (super c) = Some ws ->
  _ws (super (exec ft_close (without_jobs (c <| _ftSessionEnded := true |>), pg)).1) = Some ws' ->
  wire ws' = wire ws.
Proof.
  intros Hc Hws. unfold exec. rewrite ft_close_run by done. cbn [snd fst].
  destruct c as [[? ? w ? ? ? ? ? ? ? ?] ? ? [] ? ? ? ? ? ? ?]; cbn in *. subst. intros [= <-].
  by destruct ws as [? ? ? ? ? ? [] ? ? ?].
Qed.
End Ending.
