(* ===== verification/SessionsEnd.v ===== *)
(** * How sessions leave the registry

    A session leaves the registry only after its connection was closed or ended: [settles] relates
    two states of the page between which that was respected, whatever happened, and every
    operation of the registry and every handler respects it. *)
From S2P Require Import Prelude JsMap JsStr Json Bytes ProtoWire ProtoFile ProtoSession ProtoMessage Crypto.
From S2P Require Import Config PushEvent Websock SessionConnect FtProtocol FtBrowserIo FtZip Page FtJobs.
From S2P Require Import SessionBase FtConnection Common RdOptions RdConnection Keeps Sessions SessionsFacts FtJobsFacts.
Local Open Scope string_scope.

Section SessionsEnd.
Context `{ProtobufRuntime} `{Sodium} `{Zstd} `{Fflate}.

(** A connection that will not go on: for a transfer session, closed or ended. *)
Definition shut (c : conn) : Prop :=
  match instance c with FtConn f => _closing f = true \/ _ftSessionEnded f = true | RdConn _ => True end.
(** A connection keeps its id and kind, stays shut, and keeps its jobs. *)
Definition grows (c c' : conn) : Prop :=
  _sessionId (base_of c') = _sessionId (base_of c) /\ isFileTransfer c' = isFileTransfer c /\ (shut c -> shut c') /\
  jobs_step (jobs_of c) (jobs_of c').
Definition settles (w w' : world) : Prop :=
  (forall l c, conn_at l w = Some c -> exists c', conn_at l w' = Some c' /\ grows c c') /\
  (forall s l c, registered w s l -> conn_at l w = Some c -> registered w' s l \/
    exists c', conn_at l w' = Some c' /\ shut c').

#[export] Instance grows_pre : PreOrder grows.
Proof.
  split; [intros c; unfold grows; split_and!; auto; reflexivity|]. intros a b c (I1 & K1 & S1 & J1) (I2 & K2 & S2 & J2).
  unfold grows. split_and!; [congruence..|auto|exact (transitivity J1 J2)].
Qed.
#[export] Instance settles_pre : PreOrder settles.
Proof.
  split.
  - intros w. split; [intros l0 c0 Hc0; exists c0; split; [done|reflexivity]|]. intros s l c Hr Hc. by left.
  - intros w1 w2 w3 [C1 R1] [C2 R2]. split.
    + intros l c Hc. destruct (C1 l c Hc) as (c2 & Hc2 & G1). destruct (C2 l c2 Hc2) as (c3 & Hc3 & G2).
      exists c3. split; [done|by etrans].
    + intros s l c Hr Hc. destruct (C1 l c Hc) as (c2 & Hc2 & G1).
      destruct (R1 s l c Hr Hc) as [Hr2|(c2' & Hc2' & Hs)].
      * by apply (R2 s l c2).
      * right. destruct (C2 l c2' Hc2') as (c3 & Hc3 & _ & _ & G & _). exists c3. split; [done|by apply G].
Qed.

(** Changing connections in place. *)
Lemma settles_put l c c' w pg : conn_at l w = Some c -> grows c c' ->
  settles w (put_conn l c' w <| wpage := pg |>).
Proof.
  intros Hc Hg. unfold settles, put_conn, conn_at, registered in *. destruct w as [cs ss cur p hp pe].
  cbn in *. unfold constant. split; [|by left]. intros l' c0 E. destruct (decide (l' = l)) as [->|Hl].
  - rewrite list_lookup_insert_eq by (by eapply lookup_lt_Some). exists c'. split; [done|]. by simplify_eq.
  - rewrite list_lookup_insert_ne by done. by exists c0.
Qed.

(** What a handler of a transfer session may do to its stage. *)
Definition stage_grows (s s' : ft * page) : Prop :=
  _sessionId (super s'.1) = _sessionId (super s.1) /\
  (_closing s.1 = true \/ _ftSessionEnded s.1 = true -> _closing s'.1 = true \/ _ftSessionEnded s'.1 = true) /\
  jobs_step (_jobs s.1) (_jobs s'.1).
Lemma same_stage_grows {A} (m : js (ft * page) A) : preserves same_stage m -> preserves stage_grows m.
Proof. intros Hm s. destruct (Hm s) as (I & C & E & J). unfold stage_grows. by rewrite C, E. Qed.
Lemma on_ft_settles {A} l (m : js (ft * page) A) : preserves stage_grows m -> preserves settles (on_ft l m).
Proof.
  intros Hm w. unfold on_ft. destruct (conn_at l w) as [c|] eqn:E; [|reflexivity].
  destruct c as [[f|r] src]; [|reflexivity]. cbn [instance]. specialize (Hm (f, wpage w)).
  destruct (m (f, wpage w)) as [r [f' pg]]. apply settles_put with (c := {| instance := FtConn f; _passwordSource := src |});
    [done|]. destruct Hm as (Hid & Hsh & Hj). unfold grows. by split_and!.
Qed.
Lemma on_rd_settles {A} l (m : js (rd * page) A) : preserves same_id_rd m -> preserves settles (on_rd l m).
Proof.
  intros Hm w. unfold on_rd. destruct (conn_at l w) as [c|] eqn:E; [|reflexivity].
  destruct c as [[f|f] src]; [reflexivity|]. cbn [instance]. specialize (Hm (f, wpage w)).
  destruct (m (f, wpage w)) as [r [f' pg]]. apply settles_put with (c := {| instance := RdConn f; _passwordSource := src |}); [done|].
  unfold grows. split_and!; done || reflexivity.
Qed.

Lemma ft_close_closes s : _closing (exec ft_close s).1 = true.
Proof.
  unfold exec, ft_close. rewrite bind_self. destruct (_closing s.1) eqn:E; [done|]. rewrite bind_update.
  assert (Hk : preserves same_stage (cancelAllJobs;; in_base baseClose)).
  { apply preserves_bind; [apply _|apply cancelAllJobs_keeps|]. intros _. apply in_base_keeps, baseClose_keeps. }
  match goal with |- _closing ((_ ?s1).2.1) = true => destruct (Hk s1) as (_ & C & _) end.
  rewrite C. by destruct s as [[] ?].
Qed.
Lemma ft_close_grows : preserves stage_grows ft_close.
Proof.
  intros s. destruct (ft_close_keeps s) as [Hid Hj]. split; [exact Hid|]. split; [|exact Hj].
  intros _. left. apply ft_close_closes.
Qed.

Lemma close_conn_shuts l w c : conn_at l w = Some c ->
  settles w (exec (close_conn l) w) /\ exists c', conn_at l (exec (close_conn l) w) = Some c' /\ shut c'.
Proof.
  intros Hc. unfold close_conn. rewrite (exec_bind _ _ w (conn_at l w) w) by done. rewrite Hc.
  destruct c as [[f|r] src]; cbn [isFileTransfer instance].
  - assert (Hs : settles w (exec (on_ft l ft_close) w)) by apply on_ft_settles, ft_close_grows.
    split; [done|]. unfold exec, on_ft. rewrite Hc. cbn [instance].
    pose proof (ft_close_closes (f, wpage w)) as Hcl. unfold exec in Hcl.
    destruct (ft_close (f, wpage w)) as [x [f' pg]]. cbn in *. eexists.
    unfold put_conn, conn_at in *. destruct w; cbn in *. unfold constant.
    split; [apply list_lookup_insert_eq; by eapply lookup_lt_Some|]. by left.
  - assert (Hs : settles w (exec (on_rd l rd_close) w)) by apply on_rd_settles, rd_close_keeps.
    split; [done|]. destruct (proj1 Hs l _ Hc) as (c' & Hc' & _ & Hk & _). exists c'. split; [done|].
    unfold shut, isFileTransfer in *. by destruct (instance c').
Qed.

(** Only a shut connection is forgotten. *)
Lemma forget_settles sid l w c : registered w sid l -> conn_at l w = Some c -> shut c ->
  settles w (exec (delete_session sid) w).
Proof.
  intros Hr Hc Hs. unfold exec, delete_session, settles, registered, conn_at in *. rewrite modify_run. cbn [snd].
  destruct w as [cs ss cur pg hp pe]. cbn in *. unfold constant. split; [intros l0 c0 Hc0; exists c0; split; [done|reflexivity]|].
  intros s l' c' E Hc'. destruct (decide (s = sid)) as [->|Hn].
  - right. assert (l' = l) as -> by congruence. by exists c.
  - left. by rewrite map_get_delete_ne.
Qed.
Lemma advance_settles l : preserves settles (advanceCurConn l).
Proof.
  intros w. unfold advanceCurConn. rewrite modify_run. cbn [snd]. case_bool_decide; [reflexivity|].
  destruct w. split; [intros l0 c0 Hc0; exists c0; split; [done|reflexivity]|]. by left.
Qed.
Lemma same_registry_settles f : (forall w, conns (f w) = conns w /\ sessions (f w) = sessions w) ->
  preserves settles (modify f).
Proof.
  intros Hf w. rewrite modify_run. cbn [snd]. destruct (Hf w) as [Ec Es]. unfold settles, conn_at, registered.
  rewrite Ec, Es. split; [intros l0 c0 Hc0; exists c0; split; [done|reflexivity]|]. by left.
Qed.
Lemma push_world_settles n p sid : preserves settles (push_world n p sid).
Proof. apply same_registry_settles. by intros []. Qed.

(** Closing and forgetting the connection an id is registered to. *)
Lemma close_delete_settles {B} sid l (k : unit -> js world B) w :
  registered w sid l -> is_Some (conn_at l w) -> preserves settles (k tt) ->
  settles w (exec (close_conn l;; delete_session sid;; k tt) w).
Proof.
  intros Hr [c Hc] Hk. destruct (close_conn_shuts l w c Hc) as (Hs & c' & Hc' & Hsh).
  assert (Hreg : registered (exec (close_conn l) w) sid l)
    by (unfold registered; pose proof (close_conn_internal l w) as (Es & _); unfold exec; by rewrite Es).
  unfold exec in *. unfold mbind at 1, js_bind at 1. destruct (close_conn l w) as [[[]|e|] w1]; [|done..].
  cbn [snd] in *. pose proof (forget_settles sid l w1 c' Hreg Hc' Hsh) as Hf. unfold exec in Hf.
  etrans; [exact Hs|]. etrans; [exact Hf|]. apply Hk.
Qed.
Lemma removeSession_settles sid w : registry_ok w -> settles w (exec (removeSession sid) w).
Proof.
  intros Hok. unfold removeSession. rewrite (exec_bind _ _ w (map_get (sessions w) sid) w) by done.
  destruct (map_get (sessions w) sid) as [l|] eqn:E; [|apply advance_settles].
  destruct (carries_id w Hok sid l E) as (_ & c & Hc & _).
  pose proof (close_delete_settles sid l (fun _ => advanceCurConn (Some l)) w E (mk_is_Some _ _ Hc)
    (advance_settles _)) as Hg.
  revert Hg. unfold exec, mbind, js_bind, delete_session, advanceCurConn, modify.
  by destruct (close_conn l w) as [[[]|e|] w1].
Qed.
Lemma endFileTransferSession_settles sid title text w :
  registry_ok w -> settles w (exec (endFileTransferSession sid title text) w).
Proof.
  intros Hok. unfold endFileTransferSession. destruct sid as [sid|]; [|reflexivity].
  destruct (negb (truthy sid)); [reflexivity|]. rewrite (exec_bind _ _ w (map_get (sessions w) sid) w) by done.
  destruct (map_get (sessions w) sid) as [l|] eqn:E; [|reflexivity].
  rewrite (exec_bind _ _ w (conn_at l w) w) by done.
  destruct (carries_id w Hok sid l E) as (_ & c & Hc & _). rewrite Hc.
  destruct c as [[f|r] src]; cbn [option_map instance]; [|reflexivity]. destruct (_ftSessionEnded f); [reflexivity|].
  set (m := (on_ft l (update (fun f => f <| _ftSessionEnded := true |>));; on_ft l (failActiveJobs "Connection lost"))).
  assert (Hm : preserves settles m /\ preserves internal m).
  { split; (apply preserves_bind; [apply _| |intros _]).
    - apply on_ft_settles. intros [c pg]. destruct c. unfold stage_grows. split_and!; [done|by right|reflexivity].
    - apply on_ft_settles, same_stage_grows, failActiveJobs_keeps.
    - apply on_ft_internal. intros [c pg]. by destruct c.
    - apply on_ft_internal, same_stage_id, failActiveJobs_keeps. }
  destruct Hm as [Hm Hi]. specialize (Hm w). specialize (Hi w).
  match goal with |- settles w (exec (?a;; ?b;; ?k) w) => 
    assert (Eq : exec (a;; b;; k) w = exec (m;; k) w) by (unfold exec, m; by rewrite js_bind_assoc) end.
  rewrite Eq. unfold exec. unfold mbind at 1, js_bind at 1. destruct (m w) as [[[]|e|] w1]; [|done..]. cbn [snd] in *.
  etrans; [exact Hm|]. destruct Hi as (Es & _ & _ & Ec). destruct (Ec l _ Hc) as (c1 & Hc1 & _).
  apply (close_delete_settles sid l (fun _ => advanceCurConn (Some l);; push_world "msgbox" (ended_box title text) (Some sid))).
  - unfold registered. by rewrite Es.
  - by eexists.
  - apply preserves_bind; [apply _|apply advance_settles|]. intros _. apply push_world_settles.
Qed.

(** ** Orderly computations: from a consistent registry to a consistent one, by [settles] *)
Definition orderly (w w' : world) : Prop := registry_ok w -> registry_ok w' /\ settles w w'.
#[export] Instance orderly_pre : PreOrder orderly.
Proof.
  split; [by intros w|]. intros a b c Hab Hbc Ha. destruct (Hab Ha) as [Hb S1].
  destruct (Hbc Hb) as [Hc S2]. split; [done|by etrans].
Qed.
Lemma on_ft_orderly {A} l (m : js (ft * page) A) : preserves same_stage m -> preserves orderly (on_ft l m).
Proof.
  intros Hm w Hok. split; [|by apply on_ft_settles, same_stage_grows].
  eapply registry_internal; [by apply on_ft_internal, same_stage_id|done].
Qed.
Lemma on_rd_orderly {A} l (m : js (rd * page) A) : preserves same_id_rd m -> preserves orderly (on_rd l m).
Proof.
  intros Hm w Hok. split; [|by apply on_rd_settles].
  eapply registry_internal; [by apply on_rd_internal|done].
Qed.
Lemma removeSession_orderly sid : preserves orderly (removeSession sid).
Proof. intros w Hok. split; [by apply removeSession_ok|by apply removeSession_settles]. Qed.
Lemma endFileTransferSession_orderly sid title text : preserves orderly (endFileTransferSession sid title text).
Proof. intros w Hok. split; [by apply endFileTransferSession_ok|by apply endFileTransferSession_settles]. Qed.
Lemma close_current_orderly : preserves orderly close_current.
Proof.
  intros w Hok. split; [by apply close_current_ok|]. unfold close_current.
  rewrite bind_gets. destruct (curConn w) as [l|] eqn:Ec; [|reflexivity].
  destruct (current_registered w Hok l Ec) as [sid Hreg].
  destruct (carries_id w Hok sid l Hreg) as (Hs & c & Hc & Hid). rewrite bind_gets, Hc, Hid.
  unfold truthy, truthy_string. rewrite bool_decide_true by done. by apply removeSession_settles.
Qed.
Lemma internal_orderly f : (forall w, conns (f w) = conns w /\ sessions (f w) = sessions w /\ curConn (f w) = curConn w) ->
  preserves orderly (modify f).
Proof.
  intros Hf w Hok. split; [|apply same_registry_settles; intros w0; destruct (Hf w0) as (? & ? & _); by split].
  destruct (Hf w) as (Ec & Es & El). rewrite modify_run. cbn [snd]. destruct Hok.
  split; unfold registered, conn_at in *; rewrite ?Ec, ?Es, ?El; done.
Qed.
Lemma raw_event_orderly e : preserves orderly (raw_event e).
Proof. apply internal_orderly. by intros []. Qed.
Lemma notifyParentError_orderly title text ty : preserves orderly (notifyParentError title text ty).
Proof.
  unfold notifyParentError. apply preserves_bind; [apply _|apply preserves_gets, _|].
  intros [|]; [|apply preserves_skip, _]. apply internal_orderly. by intros [].
Qed.
#[local] Hint Resolve removeSession_orderly endFileTransferSession_orderly close_current_orderly raw_event_orderly
  notifyParentError_orderly : preserves.
Lemma showFatalError_orderly title text ty : preserves orderly (showFatalError title text ty).
Proof. unfold showFatalError. solve_preserves. Qed.
#[local] Hint Resolve showFatalError_orderly : preserves.
Lemma bridge_msgbox_orderly ty title text : preserves orderly (bridge_msgbox ty title text).
Proof. unfold bridge_msgbox. solve_preserves. Qed.
End SessionsEnd.
#[export] Hint Resolve removeSession_orderly endFileTransferSession_orderly close_current_orderly raw_event_orderly
  notifyParentError_orderly showFatalError_orderly bridge_msgbox_orderly : preserves.
#[export] Hint Extern 2 (preserves orderly (on_ft _ _)) =>
  (apply on_ft_orderly; solve [solve_preserves]) : preserves.
#[export] Hint Extern 2 (preserves orderly (on_rd _ _)) =>
  (apply on_rd_orderly; solve [solve_preserves]) : preserves.
