(* ===== verification/Connect.v ===== *)
(** * Connecting a session: [establishConnection] and [connectRelay] of [connections/session_base.ts]

    For every kind of session: ask the rendezvous server, open the relay socket, run the
    handshake, then install the socket and run the message loop.  What the network and the user's
    browser do is a [dial]; what the rest of the page does while the session waits is the
    interference of an asynchronous computation.  The options both requests read are those stored
    when connecting starts. *)
From S2P Require Import Prelude JsMap JsStr Json Bytes ProtoWire ProtoSession ProtoMessage ProtoRendezvous Crypto.
From S2P Require Import Config PushEvent Websock SessionConnect FtBrowserIo Page SessionBase Keeps.
From Stdlib Require Import Sorting.Sorted.
Local Open Scope string_scope.

(** The rendezvous socket: when it is opened and what happens to it; the same for the relay
    socket, with the keys drawn for it. *)
Record dial := {
  punch_time : Z;
  punch_events : schedule;
  relay_time : Z;
  relay_events : schedule;
  relay_keys : keys;
}.

Section Connect.
Context `{ProtobufRuntime} `{Sodium} {W : Type} `{!Session W}.
Abbreviation async A := (js (W * list (W -> W)) A).
Context (reportConnectError : string -> string -> js W unit) (msgLoop : async unit).

Definition on_base_async {A} (m : js (base * page) A) : async A := sync (on_base m).

(** Up to the call of [onReady]: the relay socket and the events pushed. *)
Definition relay_handshake (d : dial) (st : storage) (rr : RelayResponse.t) (id : string) (sid : option string) :
    outcome unit * relay_env :=
  connectRelay st (relay_keys d) (relay_time d) rr id sid (fun _ => skip)
    {| relay := {| socket := newWebsock false (relay_time d); future := relay_events d |}; pushed := [] |}.

(** The callback [onReady]. *)
Definition run_session (ws : Websock) : async unit :=
  on_base_async (update (fun c => c <| _ws := Some ws |>));;
  on_base_async (SessionBase.setIngressHandler true);;
  try_finally msgLoop (on_base_async (SessionBase.setIngressHandler false)).

Definition connectRelay (d : dial) (rr : RelayResponse.t) : async unit :=
  st ← on_base_async (of_page localStorage);
  id ← on_base_async (self _id);
  sid ← on_base_async (self _sessionId);
  pause;;
  let '(r, e) := relay_handshake d st rr id sid in
  on_base_async (update_page (fun pg => pg <| events := (events pg ++ pushed e)%list |>));;
  lift_outcome r;;
  run_session (socket (relay e)).

Definition establishConnection (d : dial) (connType : Z) : async bool :=
  st ← on_base_async (of_page localStorage);
  id ← on_base_async (self _id);
  pause;;
  startPunchHole st id connType (punch_time d) (punch_events d) (connectRelay d)
    (fun title text => sync (reportConnectError title text)).

(** ** What connecting preserves *)
Context (R : W -> W -> Prop) `{!PreOrder R}.
Hypothesis base_keeps : forall A (m : js (base * page) A), preserves same_id_base m -> preserves R (on_base m).
Hypothesis report_keeps : forall title text, preserves R (reportConnectError title text).
Hypothesis loop_keeps : preserves (async_keeps R) msgLoop.

Lemma on_base_async_keeps {A} (m : js (base * page) A) :
  preserves same_id_base m -> preserves (async_keeps R) (on_base_async m).
Proof. intros Hm. apply preserves_sync, base_keeps, Hm. Qed.

Ltac by_base := apply on_base_async_keeps;
  first [ solve [solve_preserves] | intros [c pg]; solve [done | by destruct c] ].

Lemma run_session_keeps ws : preserves (async_keeps R) (run_session ws).
Proof. unfold run_session. solve_preserves_with ltac:(first [by_base | by apply loop_keeps]). Qed.
Lemma connectRelay_keeps d rr : preserves (async_keeps R) (connectRelay d rr).
Proof.
  unfold connectRelay. solve_preserves_with ltac:(first [by_base | apply run_session_keeps]).
Qed.
Lemma establishConnection_keeps d connType : preserves (async_keeps R) (establishConnection d connType).
Proof.
  unfold establishConnection, startPunchHole.
  solve_preserves_with ltac:(first [by_base | apply connectRelay_keeps | apply report_keeps]).
Qed.
End Connect.

(** ** Polling the socket
    One look of [await this._ws?.next(0)]: there is no socket, nothing has arrived yet, or the
    oldest message that is queued; a socket that is no longer open throws its status. *)
Definition poll_socket `{ProtobufRuntime} `{Sodium} : js (base * page) (option (option incoming)) := fun s =>
  match _ws s.1 with
  | None => (Ret None, s)
  | Some ws =>
      let '(r, ws') := next_poll 0 0 0 ws in
      (o ← r; mret (Some o), (s.1 <| _ws := Some ws' |>, s.2))
  end.
Lemma poll_socket_keeps `{ProtobufRuntime} `{Sodium} : preserves same_id_base poll_socket.
Proof.
  intros [c pg]. unfold poll_socket. cbn [fst snd]. destruct (_ws c) as [ws|]; [|done].
  destruct (next_poll 0 0 0 ws). by destruct c.
Qed.
#[export] Hint Resolve poll_socket_keeps : preserves.

(** ** What logging in preserves *)
Section Login.
Context `{ProtobufRuntime} `{Sodium} {W : Type} `{!Session W} (R : W -> W -> Prop) `{!PreOrder R}.
Hypothesis base_keeps : forall A (m : js (base * page) A), preserves same_id_base m -> preserves R (on_base m).
Hypothesis build_keeps : forall p, preserves R (buildLoginRequest p).
Hypothesis msgbox_keeps : forall type title text, preserves R (msgbox type title text).
Hypothesis ask_keeps : preserves R onPasswordRequired.

Ltac by_base := apply base_keeps; first [ solve [solve_preserves] | intros [c pg]; solve [done | by destruct c] ].
#[local] Hint Resolve build_keeps msgbox_keeps ask_keeps : preserves.
Lemma login_keeps pw : preserves R (login pw).
Proof. unfold login, _sendLoginMessage. solve_preserves_with ltac:(by_base). Qed.
#[local] Hint Resolve login_keeps : preserves.
Lemma handleHashMessage_keeps : preserves R handleHashMessage.
Proof. unfold handleHashMessage. solve_preserves_with ltac:(by_base). Qed.
End Login.

(** ** Connecting settles
    Every wait while connecting has a time limit: a schedule on which the timer of [open] fires
    and which then goes on past the limit of [next] brings both sockets to an answer. *)
Section Settles.
Context `{ProtobufLaws} `{Sodium}.

Definition patient (f : schedule) : Prop :=
  exists f1 t evs f2 t', f = (f1 ++ (t, evs) :: f2)%list /\ BTimeout ∈ evs /\ StronglySorted Z.le f.*1 /\
    t' ∈ f2.*1 /\ (hd 0 f2.*1 + 12000 < t')%Z.

(** A socket that has a status has settled [open]. *)
Definition answered (ws : Websock) : Prop := status_falsy (_status ws) = false -> opening ws <> Pending.

Lemma deliver_settled ev ws : opening ws <> Pending -> opening (deliver ev ws) <> Pending.
Proof.
  destruct ev as [now|e|e| |d]; cbn [deliver].
  - destruct ws as [? ? ? ? ? ? ? ? ? []]; cbn; congruence.
  - destruct ws as [? ? ? ? ? ? ? ? ? []]; cbn; congruence.
  - unfold on_error. destruct (status_falsy _); destruct ws as [? ? ? ? ? ? ? ? ? []]; cbn; congruence.
  - unfold on_open_timeout. destruct (is_open _); destruct ws as [? ? ? ? ? ? ? ? ? []]; cbn; congruence.
  - by destruct (on_message_life d ws) as (_ & -> & _).
Qed.
Lemma deliver_answered ev ws : answered ws -> answered (deliver ev ws).
Proof.
  unfold answered. destruct ev as [now|e|e| |d]; cbn [deliver].
  - intros _ _. by destruct ws as [? ? ? ? ? ? ? ? ? []].
  - intros _ _. by destruct ws as [? ? ? ? ? ? ? ? ? []].
  - intros Ha. unfold on_error. destruct (status_falsy (_status ws)) eqn:E.
    + intros _. by destruct ws as [? ? ? ? ? ? ? ? ? []].
    + intros _. specialize (Ha eq_refl). by destruct ws.
  - intros Ha. unfold on_open_timeout. destruct (is_open _); [done|]. intros _.
    by destruct ws as [? ? ? ? ? ? ? ? ? []].
  - by destruct (on_message_life d ws) as (_ & -> & -> & _).
Qed.
Lemma timeout_settles ws : answered ws -> opening (on_open_timeout ws) <> Pending.
Proof.
  unfold answered, on_open_timeout. intros Ha. destruct (is_open (_status ws)) eqn:E.
  - apply Ha. destruct (_status ws); try done. cbn in *. by apply String.eqb_eq in E as ->.
  - by destruct ws as [? ? ? ? ? ? ? ? ? []].
Qed.
Lemma deliver_all_settled evs ws : opening ws <> Pending -> opening (deliver_all evs ws) <> Pending.
Proof. revert ws. induction evs as [|ev evs IH]; intros ws Hs; [done|]. by apply IH, deliver_settled. Qed.
Lemma deliver_all_answered evs ws : answered ws -> answered (deliver_all evs ws).
Proof. revert ws. induction evs as [|ev evs IH]; intros ws Hs; [done|]. by apply IH, deliver_answered. Qed.
Lemma deliver_all_timeout evs ws : answered ws -> BTimeout ∈ evs -> opening (deliver_all evs ws) <> Pending.
Proof.
  revert ws. induction evs as [|ev evs IH]; intros ws Ha; [by intros []%not_elem_of_nil|].
  intros [<-|Hin]%elem_of_cons; [by apply (deliver_all_settled evs (on_open_timeout ws)), timeout_settles|].
  by apply IH; [apply deliver_answered|].
Qed.

(** [open] settles when its timer fires at the latest, and leaves the rest of the schedule. *)
Lemma await_open_settles f1 t evs f2 ws : answered ws -> BTimeout ∈ evs ->
  exists r g h ws', await_open_loop (f1 ++ (t, evs) :: f2) ws = (r, {| socket := ws'; future := g ++ f2 |}) /\
    r <> OutOfFuel /\ (f1 ++ (t, evs) :: f2 = h ++ g ++ f2)%list.
Proof.
  intros Ha Hin. revert ws Ha. induction f1 as [|[t1 evs1] f1 IH]; intros ws Ha; cbn [app await_open_loop].
  - destruct (opening ws) eqn:E.
    + pose proof (deliver_all_timeout evs ws Ha Hin) as Hs. exists
        (match opening (deliver_all evs ws) with Rejected e => Throw e | _ => Ret tt end), [], [(t, evs)], (deliver_all evs ws).
      destruct f2; cbn [await_open_loop]; by destruct (opening (deliver_all evs ws)).
    + by exists (Ret tt), [(t, evs)], [], ws.
    + by exists (Throw e), [(t, evs)], [], ws.
  - destruct (opening ws) eqn:E.
    + destruct (IH _ (deliver_all_answered evs1 ws Ha)) as (r & g & h & ws' & E1 & Hr & Eh).
      exists r, g, ((t1, evs1) :: h), ws'. split; [exact E1|]. split; [done|]. cbn. by rewrite Eh.
    + exists (Ret tt), ((t1, evs1) :: f1 ++ [(t, evs)])%list, [], ws. cbn. by rewrite <- app_assoc.
    + exists (Throw e), ((t1, evs1) :: f1 ++ [(t, evs)])%list, [], ws. cbn. by rewrite <- app_assoc.
Qed.

(** What is left after [open] is long enough for a [next]. *)
Definition long_enough (f : schedule) : Prop := exists t', t' ∈ f.*1 /\ (hd 0 f.*1 + 12000 < t')%Z.
Lemma open_then_next f ws : patient f -> answered ws -> 
  exists r ws' f', await_open_loop f ws = (r, {| socket := ws'; future := f' |}) /\ r <> OutOfFuel /\ long_enough f'.
Proof.
  intros (f1 & t & evs & f2 & t' & -> & Hin & Hs & Ht & Hlt) Ha.
  destruct (await_open_settles f1 t evs f2 ws Ha Hin) as (r & g & h & ws' & E & Hr & Eh).
  exists r, ws', (g ++ f2)%list. split; [done|]. split; [done|]. exists t'.
  split; [rewrite fmap_app; set_solver|]. rewrite Eh, fmap_app in Hs. clear Eh E.
  assert (Hg : StronglySorted Z.le (g ++ f2)%list.*1).
  { induction (h.*1) as [|x k IH]; [done|]. apply IH. by inversion Hs. }
  clear Hs. destruct g as [|[t0 e0] g]; [done|]. cbn [app fmap list_fmap fst] in *.
  apply StronglySorted_inv in Hg as [_ Hall]. rewrite fmap_app in Hall. cbn [hd]. rewrite Forall_forall in Hall.
  destruct f2 as [|[t2 e2] f2]; [by apply not_elem_of_nil in Ht|]. cbn in *.
  assert (t0 <= t2)%Z by (apply Hall; set_solver). lia.
Qed.
Lemma next_settles f ws : long_enough f -> (await_next 12000 {| socket := ws; future := f |}).1 <> OutOfFuel.
Proof. intros (t' & Ht & Hlt). unfold await_next. cbn. by eapply await_next_loop_settles. Qed.

Lemma ends_bind {T A B} (m : js T A) (k : A -> js T B) t :
  terminates (m t).1 -> (forall a, (m t).1 = Ret a -> terminates (k a (m t).2).1) -> terminates ((m ≫= k) t).1.
Proof. intros Hm Hk. unfold mbind, js_bind. destruct (m t) as [[a|e|] t']; [by apply Hk|done|done]. Qed.
Lemma ends_bind_open {B} (k : unit -> js net B) n : patient (future n) -> 
  (forall ws f, long_enough f -> terminates (k tt {| socket := ws; future := f |}).1) ->
  status_falsy (_status (socket n)) = true -> terminates ((await_open ≫= k) n).1.
Proof.
  intros Hp Hk Ha. unfold await_open, mbind, js_bind.
  destruct (open_then_next (future n) (openSocket (socket n)) Hp) as (r & ws & f & -> & Hn & Hl).
  { intros Hs. change (status_falsy (_status (socket n)) = false) in Hs. congruence. }
  destruct r as [[]|e|]; [by apply Hk|done|done].
Qed.
Lemma on_socket_ends {A} (m : js Websock A) n : (forall ws, terminates (m ws).1) ->
  terminates (on_socket m n).1 /\ future (on_socket m n).2 = future n.
Proof. intros Hm. unfold on_socket. specialize (Hm (socket n)). by destruct (m (socket n)). Qed.
Lemma browser_send_ends b ws : terminates (browser_send b ws).1.
Proof. unfold browser_send. by destruct (readyState ws). Qed.
Lemma sendMessage_ends m ws : terminates (Websock.sendMessage m ws).1.
Proof.
  unfold Websock.sendMessage. js_steps. destruct (_secretKey ws) as [[[key n] k]|]; js_steps; apply browser_send_ends.
Qed.
Lemma refuse_ends n : terminates (refuse n).1.
Proof. apply ends_bind; [by apply on_socket_ends, sendMessage_ends|done]. Qed.

Lemma handshake_ends st k peerId pk n :
  (forall s k, terminates (sign_open s k)) -> long_enough (future n) -> terminates (secureHandshake st k peerId pk n).1.
Proof.
  intros Hsign Hl. unfold secureHandshake. destruct (trusted_pk st peerId pk) as [key|]; [|apply refuse_ends].
  apply ends_bind; [destruct n; by apply next_settles|]. intros msg _.
  destruct (signed_id msg) as [sid|]; [|apply refuse_ends].
  destruct (verify (SignedId.id sid) (PkBytes key)) as [body|e|] eqn:Ev; [|apply refuse_ends|].
  - apply ends_bind.
    + pose proof (decode_with_shrinks _ IdPk_shrinks IdPk.createBase 0 body) as [Ht _].
      unfold lift_outcome. exact Ht.
    + intros [idpk rest] _. destruct (negb _); [apply refuse_ends|]. destruct (negb _); [apply refuse_ends|].
      apply ends_bind; [apply on_socket_ends, sendMessage_ends|]. intros _ _. by apply ends_bind.
  - by destruct (Hsign (SignedId.id sid) key).
Qed.

(** C16.  Connecting always comes to an end.  If each socket is watched for long enough -- its [open]
    timer fires, and the time goes past the limit of the one message awaited afterwards -- then
    asking the rendezvous server, and opening the relay with the handshake, each end with an
    answer or an exception, whatever the servers and the peer send or do not send. *)
Theorem connecting_settles d st rr id sid connType :
  (forall s k, terminates (sign_open s k)) -> patient (punch_events d) -> patient (relay_events d) ->
  terminates (punch st id connType (punch_time d) (punch_events d)).1 /\
  terminates (relay_handshake d st rr id sid).1.
Proof.
  intros Hsign Hp Hr. split.
  - apply ends_bind_open; [exact Hp| |done]. intros ws f Hl. apply ends_bind.
    { apply on_socket_ends, browser_send_ends. }
    intros _ _. pose proof (proj2 (on_socket_ends (sendRendezvous (punch_request st id connType))
      {| socket := ws; future := f |} (browser_send_ends _))) as Hf.
    destruct (on_socket _ _) as [r n]. cbn [snd future] in *. subst f. apply ends_bind; [destruct n; by apply next_settles|].
    intros msg _. by apply ends_bind.
  - unfold relay_handshake, SessionConnect.connectRelay.
    match goal with |- terminates ((_ ≫= ?k) ?e).1 =>
      change (terminates (k tt {| relay := {| socket := newWebsock false (relay_time d); future := relay_events d |}; pushed := pushed e |}).1)
    end. cbv beta. cbn [pushed].
    destruct (open_then_next (relay_events d) (openSocket (newWebsock false (relay_time d))) Hr) as (r & ws & f & E & Hn & Hl);
      [done|].
    assert (Eo : on_relay await_open {| relay := {| socket := newWebsock false (relay_time d); future := relay_events d |};
        pushed := [] |} = (r, {| relay := {| socket := ws; future := f |}; pushed := [] |}))
      by (unfold on_relay, await_open; cbn [relay pushed socket future]; by rewrite E).
    apply ends_bind; rewrite Eo; [exact Hn|]. intros [] _. cbn [snd]. clear Eo E.
    pose proof (on_socket_ends (sendRendezvous (relay_request st rr)) {| socket := ws; future := f |} (browser_send_ends _)) as [Ho Hf].
    apply ends_bind; [by unfold on_relay; cbn [relay]; destruct (on_socket _ _)|]. intros _ _.
    unfold on_relay at 2. cbn [relay]. destruct (on_socket _ _) as [r0 n]. cbn [fst snd future] in *. subst f.
    apply ends_bind; [|by intros; apply ends_bind].
    unfold on_relay. cbn [relay]. pose proof (handshake_ends st (relay_keys d) id (RelayResponse.pk rr) n Hsign Hl) as Hh.
    by destruct (secureHandshake _ _ _ _ n).
Qed.
End Settles.
