(* ===== verification/FtSession.v ===== *)
(** * The file-transfer session in the page

    The part of [connections/ft_connection.ts] that can end the session: message boxes, the login
    answer, the dispatch of incoming messages and the message loop.  The connection [l] is [this];
    [ft_session] makes it an instance of the session interface, so that logging in is the shared
    code of [SessionBase]. *)
From S2P Require Import Prelude JsMap JsStr Json Bytes ProtoWire ProtoFile ProtoSession ProtoMessage Crypto.
From S2P Require Import Config PushEvent Websock SessionConnect FtProtocol FtBrowserIo FtZip Page FtJobs.
From S2P Require Import SessionBase FtConnection Common RdOptions RdConnection FtJobsFacts Keeps Sessions SessionsFacts.
From S2P Require Import Connect.
From Stdlib Require Import Floats.SpecFloat.
Local Open Scope string_scope.

Definition FT_DISCONNECT_FALLBACK : string := "File transfer session ended".

Section FtSession.
Context `{ProtobufRuntime} `{Sodium} `{Zstd} `{Fflate}.
Variable float_json : spec_float -> json.
(** [this] *)
Variable l : connref.

Definition the_ft (w : world) : option ft :=
  c ← conn_at l w; match instance c with FtConn f => Some f | RdConn _ => None end.
Definition ft_sid : js world (option string) :=
  gets (fun w => c ← the_ft w; _sessionId (super c)).
Definition on_ft_base {A} (m : js (base * page) A) : js world A := on_ft l (in_base m).

Definition ft_msgbox (type title text : string) : js world unit :=
  if (type =? "") || (type =? "connecting") || (type =? "success") then bridge_msgbox type title text
  else
    sid ← ft_sid;
    endFileTransferSession sid (or_empty title "File transfer")
      (or_empty text (or_empty title "File transfer session ended")).

#[export] Instance ft_session : Session world := {|
  alive w := is_Some (the_ft w);
  project w := (match the_ft w with Some f => super f | None => newBase end, wpage w);
  on_base A m := on_ft_base m;
  onPasswordRequired := ft_msgbox "input-password" "Password Required" "";
  buildLoginRequest p := on_ft l (buildFtLoginRequest p);
  msgbox := ft_msgbox;
|}.

Definition reportConnectError (title text : string) : js world unit :=
  sid ← ft_sid; endFileTransferSession sid title text.

Definition handlePeerInfo (pi : PeerInfo.t) : js world unit :=
  on_ft l (update (fun c => c <| super ::= fun b => b <| _peerInfo := Some pi |> |>
    <| _peerPlatform := PeerInfo.platform pi |> <| _peerHostname := PeerInfo.hostname pi |>));;
  ft_msgbox "success" "Successful" "Connected";;
  on_ft l (evt "peer_info" (strs (peerInfoEvent pi)));;
  remember ← on_ft l (self _remember);
  (if (remember : bool) then on_ft_base (persistPasswordIfRemembered remember) else skip);;
  on_ft_base (setOption "info" (Some (peer_info_json float_json pi))).

Definition handleLoginResponse (r : LoginResponse.t) : js world unit :=
  if match LoginResponse.error r with Some e => truthy e | None => false end then
    sid ← ft_sid; endFileTransferSession sid "Login Error" (default "" (LoginResponse.error r))
  else
    match LoginResponse.peer_info r with
    | Some pi => handlePeerInfo pi
    | None => skip
    end.

(** ** The message loop
    The handlers that wait do so inside the whole page. *)
Abbreviation async A := (js (world * list (world -> world)) A).
#[local] Instance world_host : Host world := fun A m => on_ft l m.

(** The body of the loop for one message. *)
Definition dispatch (msg : Message.t) : async unit :=
  match Message.hash msg, Message.login_response msg, Message.file_response msg, Message.file_action msg with
  | Some h, _, _, _ => sync (on_ft_base (update (fun b => b <| _hash := Some h |>));; handleHashMessage)
  | None, Some r, _, _ => sync (handleLoginResponse r)
  | None, None, Some fr, _ => sync (on_ft l (handleFileResponse fr))
  | None, None, None, Some fa => handleFileAction fa
  | None, None, None, None =>
      match (m ← Message.misc msg; Misc.permission_info m) with
      | Some p => sync (on_ft l (evt "permission" (strs
          [("permission", string_of_Z (PermissionInfo.permission p));
           ("enabled", string_of_bool (PermissionInfo.enabled p))])))
      | None => skip
      end
  end.
Fixpoint ft_loop (fuel : nat) : async unit :=
  match fuel with
  | O => lift_outcome OutOfFuel
  | S fuel =>
      msg ← sync (on_ft_base poll_socket);
      match msg with
      | None => skip
      | Some None => pause;; ft_loop fuel
      | Some (Some (Websock.Rendezvous _)) => ft_loop fuel
      | Some (Some (Websock.Session m)) => dispatch m;; ft_loop fuel
      end
  end.

(** [!this._closing && !this._ftSessionEnded] *)
Definition still_open : js world bool :=
  gets (fun w => match the_ft w with Some f => negb (_closing f) && negb (_ftSessionEnded f) | None => false end).

(** The [catch] clause: the message to end with, if the failure is news. *)
Definition loop_failed (error : jsval) : js world (option string) :=
  open ← still_open;
  if (open : bool) then
    on_ft l (failActiveJobs "Connection lost");;
    mret (Some (formatErrorMessage error FT_DISCONNECT_FALLBACK))
  else mret None.
Definition loop_over (disconnectMessage : option string) : js world unit :=
  open ← still_open;
  if (open : bool) then
    sid ← ft_sid;
    endFileTransferSession sid
      (if match disconnectMessage with Some m => truthy m | None => false end then "Connection Error"
       else "File transfer")
      (default "File transfer session ended" disconnectMessage)
  else skip.
Definition msgLoop (fuel : nat) : async unit :=
  disconnectMessage ← try_catch (ft_loop fuel;; mret None) (fun error => sync (loop_failed error));
  sync (loop_over disconnectMessage).

(** ** The session interface *)
Lemma the_ft_put f c w : conn_at l w = Some c ->
  the_ft (put_conn l (c <| instance := FtConn f |>) w) = Some f.
Proof.
  unfold the_ft, put_conn, conn_at. destruct w as [cs ? ? ? ? ?]. cbn. intros E. unfold constant.
  rewrite list_lookup_insert_eq by (by eapply lookup_lt_Some). by destruct c.
Qed.
Lemma the_ft_conn f w : the_ft w = Some f -> exists c, conn_at l w = Some c /\ instance c = FtConn f.
Proof.
  unfold the_ft. destruct (conn_at l w) as [c|] eqn:E; [|done]. cbn [mbind option_bind].
  destruct (instance c) as [f'|r] eqn:Ei; [|done]. intros [= ->]. by exists c.
Qed.
Lemma on_ft_run {A} (m : js (ft * page) A) f w :
  the_ft w = Some f -> exists w', on_ft l m w = ((m (f, wpage w)).1, w') /\
    the_ft w' = Some (m (f, wpage w)).2.1 /\ wpage w' = (m (f, wpage w)).2.2 /\
    sessions w' = sessions w /\ curConn w' = curConn w.
Proof.
  intros Hf. destruct (the_ft_conn f w Hf) as (c & Hc & Hi). unfold on_ft. rewrite Hc, Hi.
  destruct (m (f, wpage w)) as [r [f' pg]]. eexists. split; [done|]. cbn [fst snd].
  split; [|by destruct w]. apply the_ft_put. by destruct w.
Qed.

Lemma bridge_progress type title text w :
  type = "connecting" \/ type = "success" ->
  exists e, bridge_msgbox type title text w =
    (Ret tt, w <| wpage ::= fun pg => pg <| events := (events pg ++ [e])%list |> |>).
Proof.
  intros [->| ->]; unfold bridge_msgbox; cbn [String.eqb Ascii.eqb orb andb isParentHandledMsgbox];
    eexists; unfold isParentHandledMsgbox; cbn; reflexivity.
Qed.

#[export] Instance ft_session_laws : SessionLaws world.
Proof.
  split; cbn [alive project on_base buildLoginRequest msgbox ft_session].
  - intros A m w [f Hf]. unfold on_ft_base.
    destruct (on_ft_run (in_base m) f w Hf) as (w' & E & Hf' & Hp & _). rewrite E, Hf. cbn [fst snd].
    rewrite Hf', Hp. unfold in_base, zoom. cbn [fst snd].
    destruct (m (super f, wpage w)) as [r [b pg]]. cbn. split; [done|]. split; [by destruct f|]. by eexists.
  - intros p w [f Hf]. destruct (on_ft_run (buildFtLoginRequest p) f w Hf) as (w' & E & Hf' & Hp & _).
    rewrite Hf. eexists _, w'. split; [exact E|]. rewrite Hf'. cbn.
    split; [done|]. split; [done|]. split; [by destruct f|]. by eexists.
  - intros t x w [f Hf]. change (ft_msgbox "connecting" t x) with (bridge_msgbox "connecting" t x).
    destruct (bridge_progress "connecting" t x w (or_introl eq_refl)) as [e ->].
    eexists. split; [done|]. assert (E : forall g, the_ft (w <| wpage ::= g |>) = the_ft w) by (intros; by destruct w).
    rewrite !E, Hf. split; [done|]. split; [done|]. by eexists.
Qed.

(** ** When the connection breaks *)
Lemma on_ft_exact {A} (m : js (ft * page) A) f f' src pg' r w :
  conn_at l w = Some {| instance := FtConn f; _passwordSource := src |} ->
  m (f, wpage w) = (r, (f', pg')) ->
  on_ft l m w = (r, put_conn l {| instance := FtConn f'; _passwordSource := src |} (w <| wpage := pg' |>)).
Proof. intros E Em. unfold on_ft. rewrite E. cbn [instance]. by rewrite Em. Qed.

Lemma conn_at_put c w : is_Some (conn_at l w) -> conn_at l (put_conn l c w) = Some c.
Proof.
  unfold conn_at, put_conn. intros [c0 E]. destruct w as [cs ? ? ? ? ?]. cbn in *.
  apply list_lookup_insert_eq. by eapply lookup_lt_Some.
Qed.

Lemma put_keeps_registry sid f f' src pg w :
  registry_ok w -> registered w sid l -> conn_at l w = Some {| instance := FtConn f; _passwordSource := src |} ->
  _sessionId (super f') = _sessionId (super f) -> jobs_step (_jobs f) (_jobs f') ->
  registry_ok (put_conn l {| instance := FtConn f'; _passwordSource := src |} (w <| wpage := pg |>)).
Proof.
  intros Hok Hreg Hc Hid Hj. eapply registry_internal; [|exact Hok].
  assert (Hi : internal w (put_conn l {| instance := FtConn f'; _passwordSource := src |} w <| wpage := pg |>))
    by (by eapply put_internal). by destruct w.
Qed.

(** C23.  A transfer session whose message loop fails -- the peer resets the connection, a frame does
    not decode, a local file can no longer be read -- ends once and says everything once: one
    error event for each job that was active, one message box with the reason, and the session is
    out of the registry, its socket closed.  The loop itself does not throw. *)
Theorem broken_connection_ends_session fuel w fs error w1 fs1 sid f src :
  ft_loop fuel (w, fs) = (Throw error, (w1, fs1)) ->
  registry_ok w1 -> registered w1 sid l ->
  conn_at l w1 = Some {| instance := FtConn f; _passwordSource := src |} ->
  _closing f = false -> _ftSessionEnded f = false ->
  exists w2, msgLoop fuel (w, fs) = (Ret tt, (w2, fs1)) /\
    events (wpage w2) = (events (wpage w1) ++ job_errors f "Connection lost" ++
      [makeEvent "msgbox" (ended_box "Connection Error" (formatErrorMessage error FT_DISCONNECT_FALLBACK))
         (Some sid)])%list /\
    map_get (sessions w2) sid = None /\
    conn_at l w2 = Some {| instance := FtConn (ended (without_jobs f)); _passwordSource := src |}.
Proof.
  intros E Hok Hreg Hc Hcl Hen. destruct (carries_id w1 Hok sid l Hreg) as (Hs & c' & Hc' & Hid).
  assert (Hid' : _sessionId (super f) = Some sid) by (rewrite Hc in Hc'; injection Hc' as <-; done).
  assert (Hopen : forall w0 f0, conn_at l w0 = Some {| instance := FtConn f0; _passwordSource := src |} ->
    _closing f0 = false -> _ftSessionEnded f0 = false -> still_open w0 = (Ret true, w0)).
  { intros w0 f0 E0 H1' H2'. unfold still_open, gets, the_ft. rewrite E0. cbn. by rewrite H1', H2'. }
  set (w1' := put_conn l {| instance := FtConn (without_jobs f); _passwordSource := src |}
    (w1 <| wpage := (wpage w1) <| events := (events (wpage w1) ++ job_errors f "Connection lost")%list |> |>)).
  assert (Hc1 : conn_at l w1' = Some {| instance := FtConn (without_jobs f); _passwordSource := src |})
    by (apply conn_at_put; destruct w1; cbn in *; by eexists).
  assert (Ef : formatErrorMessage error FT_DISCONNECT_FALLBACK <> "") by (by apply formatErrorMessage_nonempty).
  unfold msgLoop.
  erewrite bind_eq; cycle 1.
  { unfold try_catch. erewrite bind_eq_throw by exact E. unfold sync. cbn [fst snd]. unfold loop_failed.
    erewrite bind_eq by (by eapply Hopen). cbv iota.
    erewrite bind_eq; [reflexivity|]. eapply on_ft_exact; [exact Hc|]. apply failActiveJobs_run. }
  fold w1'. unfold sync. cbn [fst snd]. unfold loop_over.
  erewrite bind_eq by (eapply Hopen; [exact Hc1|by destruct f..]). cbv iota.
  unfold ft_sid. rewrite bind_gets. unfold the_ft at 1. rewrite Hc1. cbn [mbind option_bind instance].
  assert (Hid1 : _sessionId (super (without_jobs f)) = Some sid) by (by destruct f). rewrite Hid1.
  assert (truthy (formatErrorMessage error FT_DISCONNECT_FALLBACK) = true) as ->
    by (unfold truthy, truthy_string; by apply bool_decide_eq_true_2).
  cbn [default].
  destruct (endFileTransferSession_run sid "Connection Error" (formatErrorMessage error FT_DISCONNECT_FALLBACK)
    w1' l (without_jobs f) src) as (w2 & E2 & Hev & Hgone & Hconn); try done.
  - apply (put_keeps_registry sid f); [done..|apply clear_step].
  - exists w2. split; [unfold id; by rewrite E2|]. split; [|done]. rewrite Hev.
    assert (Hno : job_errors (without_jobs f) "Connection lost" = []) by (by destruct f as [? ? ? [] ? ? ? ? ? ? ?]).
    rewrite Hno. cbn [app]. destruct w1 as [? ? ? [] ? ?]. by rewrite app_assoc.
Qed.
End FtSession.
