(* ===== verification/Wire.v ===== *)
(** * Messages through the encrypted socket to a message loop

    Shared by the two kinds of session: what a live socket queues for its session when the frames of
    a run of messages reach it, and how a message loop that polls it works through them, however
    they are split among its turns. *)
From S2P Require Import Prelude Bytes ProtoWire ProtoSession ProtoMessage Crypto Websock Link SessionConnect FtProtocol.
Local Open Scope list_scope.

(** What a session is to handle: all but the pings, which the socket answers. *)
Definition for_session : list Message.t -> list Message.t := List.filter (fun m => negb (is_server_ping m)).

Section Socket.
Context `{ProtobufLaws} `{SodiumLaws}.

(** ** The socket of a session after the handshake, [k] frames received *)
Record live (ws : Websock) (key : bytes) (k : Z) : Prop := {
  live_key : exists n, _secretKey ws = Some (key, n, k);
  live_open : readyState ws = OPEN;
  live_listening : listening ws = true;
  live_relay : _isRendezvous ws = false;
  live_handler : _ingressHandler ws = true;
  live_status : is_open (_status ws) = true;
}.
(** What the socket itself sends: an echo for each ping. *)
Definition echoes (ms : list Message.t) : list Message.t := map ping_echo (List.filter is_server_ping ms).
(** Between two states of a socket, [ms] were sent under its key. *)
Definition sends (ms : list Message.t) (ws ws' : Websock) : Prop := forall key n k, _secretKey ws = Some (key, n, k) ->
  (exists k', _secretKey ws' = Some (key, n + len ms, k')) /\ wire ws' = wire ws ++ sealed_frames key n ms.
Lemma sends_nil ws ws' : (forall key n k, _secretKey ws = Some (key, n, k) -> exists k', _secretKey ws' = Some (key, n, k')) ->
  wire ws' = wire ws -> sends [] ws ws'.
Proof.
  intros Hk Hw key n k E. rewrite len_nil, Z.add_0_r, app_nil_r. split; [by eapply Hk|done].
Qed.
Lemma sends_trans ms ms' ws ws' ws'' : sends ms ws ws' -> sends ms' ws' ws'' -> sends (ms ++ ms') ws ws''.
Proof.
  intros S1 S2 key n k E. destruct (S1 key n k E) as [[k1 E1] W1]. destruct (S2 _ _ _ E1) as [[k2 E2] W2].
  rewrite len_app, Z.add_assoc, sealed_frames_app, app_assoc, <- W1. split; [by eexists|done].
Qed.
Lemma sends_one m ws key n k k' ws' : _secretKey ws = Some (key, n, k) -> _secretKey ws' = Some (key, n + 1, k') ->
  wire ws' = wire ws ++ [encrypt (Message.encode m) (n + 1) key] -> sends [m] ws ws'.
Proof.
  intros Hk Hk' Hw key0 n0 k0 E. rewrite Hk in E. injection E as <- <- <-. rewrite Hk'. split; [by eexists|done].
Qed.

(** Sending on a live socket leaves it live. *)
Lemma send_live m ws key k : live ws key k -> exists ws', sendMessage m ws = (Ret tt, ws') /\ live ws' key k /\
  _buf ws' = _buf ws /\ sends [m] ws ws'.
Proof.
  intros Hl. destruct (live_key _ _ _ Hl) as [n Hk]. eexists.
  split; [exact (sendMessage_open m ws key n k (live_open _ _ _ Hl) Hk)|].
  destruct Hl, ws; cbn in *. split; [by split; [eexists|..]|]. split; [done|]. by apply (sends_one m _ key n k k).
Qed.

(** [sent] are [own], which [p] tells apart, among [answers]. *)
Definition consists (p : Message.t -> bool) (sent own answers : list Message.t) : Prop :=
  List.filter p sent = own /\ List.filter (fun m => negb (p m)) sent = answers.
Lemma consists_app p s1 a1 e1 s2 a2 e2 :
  consists p s1 a1 e1 -> consists p s2 a2 e2 -> consists p (s1 ++ s2) (a1 ++ a2) (e1 ++ e2).
Proof. intros [A1 E1] [A2 E2]. unfold consists. by rewrite !List.filter_app, A1, A2, E1, E2. Qed.
Lemma consists_echoes p ms : (forall m, p (ping_echo m) = false) -> consists p (echoes ms) [] (echoes ms).
Proof.
  intros Hp. unfold echoes. induction (List.filter is_server_ping ms) as [|m l [IH1 IH2]]; [done|].
  unfold consists. cbn [map List.filter]. rewrite Hp. cbn [negb]. by rewrite IH1, IH2.
Qed.

Lemma recv_live m ws key k : Message.ok m -> live ws key k -> exists ws',
  _recv_message (encrypt (Message.encode m) (k + 1) key) ws = (Ret tt, ws') /\ live ws' key (k + 1) /\
  _buf ws' = _buf ws ++ map Websock.Session (for_session [m]) /\ sends (echoes [m]) ws ws'.
Proof.
  intros Hm [[n Hk] Ho Hl Hr Hi Hs]. destruct ws; cbn in *; subst. unfold _recv_message. js_steps.
  cbn [_secretKey]. js_steps. rewrite decrypt_encrypt. js_steps.
  match goal with |- context [if ?b then _ else _] => change b with false end. cbv iota.
  rewrite parseMessage_encode by done. js_steps.
  match goal with |- context [if ?b then handleIngressMessage _ else _] => change b with true end. cbv iota.
  unfold handleIngressMessage, for_session, echoes. cbn [List.filter map]. unfold is_server_ping.
  destruct (Message.test_delay m) as [td|] eqn:Etd.
  2: { js_steps. eexists. split; [reflexivity|]. split; [split; try done; by eexists|]. split; [done|].
       apply sends_nil; [|done]. intros ? ? ? [= <- <- <-]. by eexists. }
  destruct (negb _) eqn:Ef; cbn [negb map]; cbv iota.
  2: { js_steps. eexists. split; [reflexivity|]. split; [split; try done; by eexists|]. split; [done|].
       apply sends_nil; [|done]. intros ? ? ? [= <- <- <-]. by eexists. }
  rewrite js_bind_assoc. erewrite bind_eq by (by apply (sendMessage_open _ _ key n (k + 1))).
  js_steps. eexists. split; [reflexivity|]. split; [split; try done; by eexists|]. cbn. rewrite app_nil_r. split; [done|].
  eapply (sends_one _ _ key n k); try done. unfold ping_echo. cbn. by rewrite Etd.
Qed.
Lemma receive_one m ws key k : Message.ok m -> live ws key k ->
  let ws' := on_message (encrypt (Message.encode m) (k + 1) key) ws in
  live ws' key (k + 1) /\ _buf ws' = _buf ws ++ map Websock.Session (for_session [m]) /\ sends (echoes [m]) ws ws'.
Proof.
  intros Hm Hl. destruct (recv_live m ws key k Hm Hl) as (ws' & E & R). unfold on_message, exec.
  by rewrite (live_listening _ _ _ Hl), E.
Qed.
Lemma for_session_cons m ms : for_session (m :: ms) = for_session [m] ++ for_session ms.
Proof. unfold for_session. cbn [List.filter]. by destruct (negb (is_server_ping m)). Qed.
Lemma echoes_app ms ms' : echoes (ms ++ ms') = echoes ms ++ echoes ms'.
Proof. unfold echoes. by rewrite List.filter_app, map_app. Qed.
Lemma receive_run ms : forall ws key k, Forall Message.ok ms -> live ws key k ->
  let ws' := receive_all (sealed_frames key k ms) ws in
  live ws' key (k + len ms) /\ _buf ws' = _buf ws ++ map Websock.Session (for_session ms) /\ sends (echoes ms) ws ws'.
Proof.
  induction ms as [|m ms IH]; intros ws key k Hms Hl; cbn [sealed_frames receive_all foldl].
  { rewrite len_nil, Z.add_0_r. cbn. rewrite app_nil_r. do 2 (split; [done|]). apply sends_nil; [|done]. by eexists. }
  apply Forall_cons in Hms as [Hm Hms]. destruct (receive_one m ws key k Hm Hl) as (Hl1 & Hb1 & Hs1).
  destruct (IH _ key (k + 1) Hms Hl1) as (Hl2 & Hb2 & Hs2). unfold receive_all in *. rewrite len_cons, Z.add_assoc.
  split; [exact Hl2|]. rewrite Hb2, Hb1, <- app_assoc, <- map_app, <- for_session_cons. split; [done|].
  change (m :: ms) with ([m] ++ ms). rewrite echoes_app. by eapply sends_trans.
Qed.

(** C28.  A corrupted frame costs its message only.  Of a run of messages sent to an open socket under
    its key, one frame arrives damaged (it does not open under its sequence number).  Then the
    messages before and after it are delivered, all of them and in order: to the queue or, when the
    session answers pings while its message loop runs, the pings among them to the echo; nothing is
    delivered or sent for the damaged frame, and it is counted, so both ends stay in step. *)
Theorem corrupt_frame_costs_one_message before lost after bad ws key n k e :
  Forall Message.ok before -> Forall Message.ok after ->
  _secretKey ws = Some (key, n, k) -> _isRendezvous ws = false -> listening ws = true ->
  readyState ws = OPEN -> is_open (_status ws) = true ->
  decrypt bad (k + len before + 1) key = Throw e ->
  let ms := before ++ after in
  let answers := if _ingressHandler ws then echoes ms else [] in
  let ws' := receive_all (<[length before := bad]> (sealed_frames key k (before ++ [lost] ++ after))) ws in
  _buf ws' = _buf ws ++ map Websock.Session (if _ingressHandler ws then for_session ms else ms) /\
  wire ws' = wire ws ++ sealed_frames key n answers /\
  exists sent, _secretKey ws' = Some (key, sent, k + len before + 1 + len after).
Proof.
  intros Hb Ha Hk Hr Hl Ho Hs Hbad ms answers ws'. subst ws'. rewrite sealed_frames_replace. unfold receive_all.
  rewrite foldl_app. fold (receive_all (sealed_frames key k before) ws). cbn [foldl].
  match goal with |- context [foldl _ ?w ?fs] => fold (receive_all fs w) end.
  subst answers ms. destruct (_ingressHandler ws) eqn:Hi.
  - assert (Hlive : live ws key k) by (split; try done; by eexists).
    destruct (receive_run before ws key k Hb Hlive) as (Hl1 & Hb1 & Hs1). set (ws1 := receive_all _ ws) in *.
    destruct (live_key _ _ _ Hl1) as [n1 Hk1].
    rewrite (on_message_forged bad ws1 key n1 _ e Hk1 (live_listening _ _ _ Hl1) Hbad).
    set (ws2 := ws1 <| _secretKey := _ |>).
    assert (Hl2 : live ws2 key (k + len before + 1)) by (destruct Hl1, ws1; split; try done; by eexists).
    destruct (receive_run after ws2 key _ Ha Hl2) as (Hl3 & Hb3 & Hs3). set (ws3 := receive_all _ ws2) in *.
    destruct (live_key _ _ _ Hl3) as [n3 Hk3].
    assert (Hs2 : sends [] ws1 ws2).
    { apply sends_nil; [|by destruct ws1]. intros key' n' k' E'. assert ((key', n', k') = (key, n1, k + len before)) as [= -> -> ->]
        by congruence. exists (k + len before + 1). by destruct ws1. }
    pose proof (sends_trans _ _ _ _ _ (sends_trans _ _ _ _ _ Hs1 Hs2) Hs3) as Hsent. rewrite app_nil_r, <- echoes_app in Hsent.
    split; [|split; [by apply (Hsent key n k)|by exists n3]].
    rewrite Hb3. assert (_buf ws2 = _buf ws1) as -> by (by destruct ws1). rewrite Hb1, <- app_assoc, <- map_app.
    unfold for_session. by rewrite List.filter_app.
  - rewrite (receive_all_sealed before ws key n k) by done. set (ws1 := ws <| _secretKey := _ |> <| _buf := _ |>).
    rewrite (on_message_forged bad ws1 key n (k + len before) e) by (done || by destruct ws).
    rewrite (receive_all_sealed after _ key n (k + len before + 1)) by (done || by destruct ws).
    subst ws1. destruct ws; cbn in *. rewrite map_app, app_assoc, app_nil_r. split; [done|]. split; [done|]. by exists n.
Qed.

(** Frames that arrive in chunks carry their messages in chunks. *)
Fixpoint chunk_frames (key : bytes) (k : Z) (chunks : list (list Message.t)) : list (list bytes) :=
  match chunks with
  | [] => []
  | ms :: chunks => sealed_frames key k ms :: chunk_frames key (k + len ms) chunks
  end.
Lemma sealed_split key fs : forall k ms rest, fs ++ rest = sealed_frames key k ms ->
  exists ms1 ms2, ms = ms1 ++ ms2 /\ fs = sealed_frames key k ms1 /\ rest = sealed_frames key (k + len ms1) ms2.
Proof.
  induction fs as [|f fs IH]; intros k ms rest E.
  { exists [], ms. by rewrite len_nil, Z.add_0_r. }
  destruct ms as [|m ms]; [done|]. cbn [sealed_frames app] in E. injection E as -> E.
  destruct (IH (k + 1) ms rest E) as (ms1 & ms2 & -> & -> & ->). exists (m :: ms1), ms2.
  by rewrite len_cons, Z.add_assoc.
Qed.
Lemma chunks_of_frames key fss : forall k ms, concat fss = sealed_frames key k ms ->
  exists chunks, concat chunks = ms /\ fss = chunk_frames key k chunks.
Proof.
  induction fss as [|fs fss IH]; intros k ms E; cbn [concat] in E.
  { destruct ms; [|done]. by exists []. }
  destruct (sealed_split key fs k ms _ E) as (ms1 & ms2 & -> & -> & E2).
  destruct (IH _ _ E2) as (chunks & <- & ->). by exists (ms1 :: chunks).
Qed.
End Socket.


(** ** A message loop *)
Section Loop.
Context `{ProtobufLaws} `{SodiumLaws} {W : Type}.
(** [loop]: the loop with this many turns to go; [at_socket]: the socket it polls; [arrive]: frames
    reach that socket; [P got ms]: it has received [got], and the session is still to handle [ms]. *)
Context (loop : nat -> js (W * list (W -> W)) unit) (at_socket : W -> Websock -> Prop) (arrive : list bytes -> W -> W)
  (P : list Message.t -> list Message.t -> W -> Prop).
Hypothesis turn_message : forall got m ms w ws buf key k, at_socket w ws -> live ws key k ->
  _buf ws = Websock.Session m :: buf -> P got (m :: ms) w ->
  exists w' ws', at_socket w' ws' /\ live ws' key k /\ _buf ws' = buf /\ P got ms w' /\
    forall fuel sched, loop (S fuel) (w, sched) = loop fuel (w', sched).
Hypothesis turn_wait : forall got ms w ws key k, at_socket w ws -> live ws key k -> _buf ws = [] -> P got ms w ->
  exists w', at_socket w' ws /\ P got ms w' /\
    forall fuel i sched, loop (S fuel) (w, i :: sched) = loop fuel (i w', sched).
Hypothesis arriving : forall got ms w ws key k new, at_socket w ws -> live ws key k -> Forall Message.ok new ->
  P got ms w -> let frames := sealed_frames key k new in
  at_socket (arrive frames w) (receive_all frames ws) /\ P (got ++ new) ms (arrive frames w).

Lemma turns_buffered buffered : forall got todo w ws key k, at_socket w ws -> live ws key k ->
  _buf ws = map Websock.Session buffered -> P got (buffered ++ todo) w ->
  exists w' ws', at_socket w' ws' /\ live ws' key k /\ _buf ws' = [] /\ P got todo w' /\
    forall fuel sched, loop (length buffered + fuel) (w, sched) = loop fuel (w', sched).
Proof.
  induction buffered as [|m buffered IH]; intros got todo w ws key k Ha Hl Hb HP; [by exists w, ws|].
  destruct (turn_message got m (buffered ++ todo) w ws _ key k Ha Hl Hb HP) as (w1 & ws1 & Ha1 & Hl1 & Hb1 & HP1 & E1).
  destruct (IH got todo w1 ws1 key k Ha1 Hl1 Hb1 HP1) as (w2 & ws2 & R1 & R2 & R3 & R4 & E2).
  exists w2, ws2. do 4 (split; [done|]). intros fuel sched. cbn [length Nat.add]. by rewrite E1, E2.
Qed.

Lemma turns_arriving chunks : forall got buffered w ws key k rest, at_socket w ws -> live ws key k ->
  Forall (Forall Message.ok) chunks ->
  _buf ws = map Websock.Session buffered -> P got (buffered ++ for_session (concat chunks)) w ->
  exists w' ws' turns, at_socket w' ws' /\ live ws' key (k + len (concat chunks)) /\ _buf ws' = [] /\
    P (got ++ concat chunks) [] w' /\
    forall fuel, loop (turns + fuel) (w, map arrive (chunk_frames key k chunks) ++ rest) = loop fuel (w', rest).
Proof.
  induction chunks as [|ms chunks IH]; intros got buffered w ws key k rest Ha Hl Hok Hb HP;
    destruct (turns_buffered buffered got _ w ws key k Ha Hl Hb HP) as (w1 & ws1 & R1 & R2 & R3 & R4 & E1).
  - exists w1, ws1, (length buffered). cbn [concat]. rewrite (len_nil (A:=Message.t)), Z.add_0_r, app_nil_r.
    do 4 (split; [done|]). intros fuel. apply E1.
  - destruct (turn_wait got _ w1 ws1 key k R1 R2 R3 R4) as (w2 & R5 & R6 & E2).
    apply Forall_cons in Hok as [Hms Hok]. destruct (arriving got _ w2 ws1 key k ms R5 R2 Hms R6) as [R7 R8].
    destruct (receive_run ms ws1 key k Hms R2) as (R9 & Hb9 & _).
    rewrite R3 in Hb9. cbn [app] in Hb9. cbn [concat] in R8. unfold for_session in R8. rewrite List.filter_app in R8.
    destruct (IH (got ++ ms) (for_session ms) _ _ key (k + len ms) rest R7 R9 Hok Hb9 R8)
      as (w3 & ws3 & turns & Q1 & Q2 & Q3 & Q4 & E3).
    exists w3, ws3, (length buffered + S turns)%nat. cbn [concat chunk_frames map app]. rewrite len_app, Z.add_assoc, app_assoc.
    do 4 (split; [done|]). intros fuel. by rewrite <- Nat.add_assoc, E1, Nat.add_succ_l, E2, E3.
Qed.
End Loop.
