(* ===== verification/FtWire.v ===== *)
(** * A file over the encrypted link

    From the frames on the wire to the saved file: the socket queues the messages, the message loop
    takes them one by one and hands them to the handlers, the job collects the blocks.  Composed with
    an upload at the other end. *)
From S2P Require Import Prelude JsMap JsStr Json Bytes ProtoWire ProtoFile ProtoSession ProtoMessage Crypto.
From S2P Require Import Config PushEvent Websock SessionConnect FtProtocol FtBrowserIo FtZip Page FtJobs.
From S2P Require Import SessionBase FtConnection FtTransfer Common RdOptions RdConnection FtJobsFacts Keeps Sessions.
From S2P Require Import Wire SessionsFacts Connect FtSession.
From Stdlib Require Import Floats.SpecFloat.
Local Open Scope list_scope.

Section Loop.
Context `{ProtobufLaws} `{SodiumLaws} `{Zstd} `{Fflate}.
Variable float_json : spec_float -> json.
Variable l : connref.
Abbreviation ft_loop := (FtSession.ft_loop float_json l).
Abbreviation the_ft := (FtSession.the_ft l).

(** Frames arrive at the session's socket. *)
Definition set_ws (ws : Websock) (c : ft) : ft := c <| super ::= fun b => b <| _ws := Some ws |> |>.
Definition arrive (frames : list bytes) (w : world) : world :=
  exec (on_ft l (update (fun c => c <| super ::= fun b => b <| _ws ::= option_map (receive_all frames) |> |>))) w.

(** A session with this socket. *)
Definition has (w : world) (c : ft) (ws : Websock) : Prop := the_ft w = Some c /\ _ws (super c) = Some ws.
Lemma arrive_has frames w c ws : has w c ws ->
  has (arrive frames w) (set_ws (receive_all frames ws) c) (receive_all frames ws) /\
  wpage (arrive frames w) = wpage w.
Proof.
  intros [Hc Hw]. unfold arrive, exec.
  destruct (on_ft_run l (update (fun c => c <| super ::= fun b => b <| _ws ::= option_map (receive_all frames) |> |>)) c w Hc)
    as (w' & E & Hf & Hp & _). rewrite E. cbn [snd]. rewrite Hp. split; [|done]. split; [|by destruct c as [[]]].
  rewrite Hf. f_equal. destruct c as [[] ? ? ? ? ? ? ? ? ? ?]. cbn in *. subst. done.
Qed.

(** ** One turn of the loop *)
Lemma poll_message c ws m buf pg : _ws (super c) = Some ws -> _buf ws = m :: buf ->
  in_base poll_socket (c, pg) = (Ret (Some (Some m)), (set_ws (ws <| _buf := buf |>) c, pg)).
Proof.
  intros Hw Hb. unfold in_base, zoom, poll_socket. cbn [fst snd]. rewrite Hw. unfold next_poll. rewrite Hb.
  by destruct c as [[] ? ? ? ? ? ? ? ? ? ?].
Qed.
Lemma poll_empty c ws pg : _ws (super c) = Some ws -> _buf ws = [] -> is_open (_status ws) = true ->
  in_base poll_socket (c, pg) = (Ret (Some None), (set_ws ws c, pg)).
Proof.
  intros Hw Hb Hs. unfold in_base, zoom, poll_socket. cbn [fst snd]. rewrite Hw. unfold next_poll. rewrite Hb, Hs.
  by destruct c as [[] ? ? ? ? ? ? ? ? ? ?].
Qed.
(** A file response is handled by [handleFileResponse]. *)
Definition is_file_response (m : Message.t) : Prop :=
  Message.hash m = None /\ Message.login_response m = None /\ is_Some (Message.file_response m).
Lemma turn_message w c ws m buf c' pg' : has w c ws -> _buf ws = Websock.Session m :: buf -> is_file_response m ->
  receive_message m (set_ws (ws <| _buf := buf |>) c, wpage w) = (Ret tt, (c', pg')) ->
  exists w', the_ft w' = Some c' /\ wpage w' = pg' /\ forall fuel sched, ft_loop (S fuel) (w, sched) = ft_loop fuel (w', sched).
Proof.
  intros [Hc Hw] Hb (H1' & H2' & fr & Hfr) Hrec.
  destruct (on_ft_run l (in_base poll_socket) c w Hc) as (w1 & E1 & Hc1 & Hp1 & _).
  rewrite (poll_message c ws _ buf _ Hw Hb) in E1, Hc1, Hp1. cbn [fst snd] in *.
  destruct (on_ft_run l (receive_message m) _ w1 Hc1) as (w2 & E2 & Hc2 & Hp2 & _).
  rewrite Hp1, Hrec in E2, Hc2, Hp2. cbn [fst snd] in *.
  exists w2. split; [done|]. split; [done|]. intros fuel sched. cbn [FtSession.ft_loop].
  rewrite sync_bind. cbn [fst snd]. unfold on_ft_base. rewrite E1. unfold dispatch. rewrite H1', H2', Hfr.
  unfold receive_message in E2. rewrite Hfr in E2. rewrite sync_bind. cbn [fst snd]. by rewrite E2.
Qed.
Lemma turn_wait w c ws : has w c ws -> _buf ws = [] -> is_open (_status ws) = true ->
  exists w', has w' (set_ws ws c) ws /\ wpage w' = wpage w /\
    forall fuel i sched, ft_loop (S fuel) (w, i :: sched) = ft_loop fuel (i w', sched).
Proof.
  intros [Hc Hw] Hb Hs.
  destruct (on_ft_run l (in_base poll_socket) c w Hc) as (w1 & E1 & Hc1 & Hp1 & _).
  rewrite (poll_empty c ws _ Hw Hb Hs) in E1, Hc1, Hp1. cbn [fst snd] in *.
  exists w1. split; [split; [done|by destruct c as [[]]]|]. split; [done|]. intros fuel i sched. cbn [FtSession.ft_loop].
  rewrite sync_bind. cbn [fst snd]. unfold on_ft_base. by rewrite E1, pause_bind.
Qed.

(** ** Handlers that only work on the session's jobs *)
Section Handled.
(** [P ms c pg]: the session is to handle [ms]. *)
Context (P : list Message.t -> ft -> page -> Prop).
Hypothesis P_step : forall m ms c pg, P (m :: ms) c pg -> is_file_response m /\
  exists c' pg', receive_message m (c, pg) = (Ret tt, (c', pg')) /\ P ms c' pg' /\ super c' = super c.
Hypothesis P_socket : forall ms c pg ws, P ms c pg -> P ms (set_ws ws c) pg.
Definition polls (w : world) (ws : Websock) : Prop := exists c, has w c ws.
Definition pending (got ms : list Message.t) (w : world) : Prop := exists c, the_ft w = Some c /\ P ms c (wpage w).

Lemma handled_message got m ms w ws buf key k : polls w ws -> live ws key k -> _buf ws = Websock.Session m :: buf ->
  pending got (m :: ms) w -> exists w' ws', polls w' ws' /\ live ws' key k /\ _buf ws' = buf /\ pending got ms w' /\
    forall fuel sched, ft_loop (S fuel) (w, sched) = ft_loop fuel (w', sched).
Proof.
  intros (c & Hh) Hl Hb (c0 & Hc0 & HP). assert (c0 = c) as -> by (destruct Hh; congruence).
  destruct (P_step _ _ _ _ (P_socket _ _ _ (ws <| _buf := buf |>) HP)) as (Hm & c1 & pg1 & E1 & HP1 & Hs1).
  destruct (turn_message w c ws m buf c1 pg1 Hh Hb Hm E1) as (w1 & Hc1 & Hp1 & E).
  exists w1, (ws <| _buf := buf |>). split; [exists c1; split; [done|]; rewrite Hs1; by destruct c as [[]]|].
  split; [destruct Hl; by split; destruct ws|]. split; [by destruct ws|]. split; [|done]. exists c1. by rewrite Hp1.
Qed.
Lemma handled_wait got ms w ws key k : polls w ws -> live ws key k -> _buf ws = [] -> pending got ms w ->
  exists w', polls w' ws /\ pending got ms w' /\
    forall fuel i sched, ft_loop (S fuel) (w, i :: sched) = ft_loop fuel (i w', sched).
Proof.
  intros (c & Hh) Hl Hb (c0 & Hc0 & HP). assert (c0 = c) as -> by (destruct Hh; congruence).
  destruct (turn_wait w c ws Hh Hb (live_status _ _ _ Hl)) as (w' & Hh' & Hp & E).
  exists w'. split; [by eexists|]. split; [|done]. exists (set_ws ws c). split; [apply Hh'|]. rewrite Hp. by apply P_socket.
Qed.
Lemma handled_arriving got ms w ws key k new : polls w ws -> live ws key k -> Forall Message.ok new -> pending got ms w ->
  let frames := sealed_frames key k new in
  polls (arrive frames w) (receive_all frames ws) /\ pending (got ++ new) ms (arrive frames w).
Proof.
  intros (c & Hh) _ _ (c0 & Hc0 & HP). assert (c0 = c) as -> by (destruct Hh; congruence).
  set (frames := sealed_frames _ _ _). destruct (arrive_has frames w c ws Hh) as [Hh' Hp]. split; [by eexists|].
  exists (set_ws (receive_all frames ws) c). split; [apply Hh'|]. rewrite Hp. by apply P_socket.
Qed.
End Handled.

(** ** A download *)
Section Download.
Context (id : Z) (j : jobref) (n : Z) (fs : list FileEntry.t) (name : string) (all : list bytes) (dlg : list dialog)
  (saved : list (string * bytes)) (evs : list event) (sid : option string).
Definition file_saved (c : ft) (pg : page) : Prop :=
  map_get (writeJobs (_jobs c)) id = None /\
  clicked (page_io pg) = saved ++ [(or_empty name "download"%string, concat all)] /\
  events pg = evs ++ [makeEvent "job_done" (strs [("id"%string, string_of_Z id); ("file_num"%string, string_of_Z n)]) sid].
(** The blocks still to come, or the end. *)
Definition file_coming (ms : list Message.t) (c : ft) (pg : page) : Prop :=
  match ms with
  | [] => file_saved c pg
  | _ => exists ds todo b, ms = block_messages id n b todo ++ [doneResponse id n] /\ ds ++ todo = all /\
      downloading c pg id j n fs name ds /\ dialogs (page_io pg) = NoPicker :: dlg /\
      clicked (page_io pg) = saved /\ events pg = evs /\ _sessionId (super c) = sid
  end.
Lemma file_coming_step m ms c pg : file_coming (m :: ms) c pg -> is_file_response m /\
  exists c' pg', receive_message m (c, pg) = (Ret tt, (c', pg')) /\ file_coming ms c' pg' /\ super c' = super c.
Proof.
  intros (ds & todo & b & E & Hall & Hd & Hdlg & Hcl & Hev & Hs). destruct todo as [|d todo].
  - injection E as -> ->. split; [by repeat split|]. rewrite app_nil_r in Hall. subst ds.
    destruct (receive_done c pg id j n fs name all dlg Hd Hdlg) as (c' & pg' & E' & Hm & Hc & He & Hsup).
    exists c', pg'. split; [exact E'|]. split; [|exact Hsup]. cbn. unfold file_saved. by rewrite Hc, He, Hcl, Hev, Hs.
  - rewrite block_messages_cons in E. injection E as -> ->. split; [by repeat split|].
    destruct (receive_block c pg id j n fs name ds d (b + 1) Hd) as (c' & pg' & E' & Hd' & Hio & He & Hsup).
    exists c', pg'. split; [exact E'|]. split; [|exact Hsup].
    assert (Hne : exists m ms, block_messages id n (b + 1) todo ++ [doneResponse id n] = m :: ms)
      by (destruct (block_messages id n (b + 1) todo); by eexists _, _).
    destruct Hne as (m & ms & Em). rewrite Em. cbn. exists (ds ++ [d]), todo, (b + 1). rewrite <- Em, <- app_assoc, Hio, He, Hsup.
    by split_and!.
Qed.
Lemma file_coming_socket ms c pg ws : file_coming ms c pg -> file_coming ms (set_ws ws c) pg.
Proof. by destruct ms, c as [[] ? ? ? ? ? ? ? ? ? ?]. Qed.
End Download.

(** ** From one end to the other *)
Lemma blocks_for_session id n b ds : for_session (block_messages id n b ds) = block_messages id n b ds.
Proof.
  revert b. induction ds as [|d ds IH]; intros b; [done|]. rewrite block_messages_cons.
  unfold for_session in *. cbn [List.filter]. by rewrite IH.
Qed.
(** What the next firing of the message pump leaves on the wire. *)
Lemma flushed_wire w0 key k k' ms c pg : readyState w0 = OPEN -> _secretKey w0 = Some (key, k, k') ->
  tracked w0 [] ms c -> exists ws,
  _ws (super (exec (in_base pump) (c, pg)).1) = Some ws /\ wire ws = wire w0 ++ sealed_frames key k ms.
Proof.
  intros Ho Hk (sent & Hws & Eq). cbn [app] in Eq. subst ms.
  assert (Hc : readyState (send_all sent w0) <> CONNECTING) by (apply send_all_ready; congruence).
  unfold exec, in_base, zoom. cbn [fst snd]. rewrite (pump_flushes (super c) pg (send_all sent w0)) by done.
  exists (send_all (_msgs (super c)) (send_all sent w0)). split; [by destruct c as [[] ? ? ? ? ? ? ? ? ? ?]|].
  rewrite <- send_all_app, (send_all_sealed _ w0 key k k') by done. by destruct w0.
Qed.

(** C1.  A file from one end to the other, over the encrypted link.  One session uploads a file; the frames
    its socket put on the wire reach another session, which asked for the file, unchanged and in
    order, but split among the turns of its message loop in any way whatever.  Then that loop has
    handed the browser exactly the bytes of the file, under the name asked for, has removed the job
    and told the application, and goes on waiting for what comes next. *)
Theorem file_over_the_wire ca wa pga key k ka id la f n sched w cb wb jb fs name rest :
  (* the sender *)
  _ws (super ca) = Some wa -> readyState wa = OPEN -> _secretKey wa = Some (key, k, ka) -> _msgs (super ca) = [] ->
  broken_at f = None -> upload_at ca id la f n 0 0 -> _uploadTick ca = false -> Forall benign sched ->
  (2 * length (blocks_of (content f)) < length sched)%nat ->
  (* the receiver *)
  has w cb wb -> live wb key k -> _buf wb = [] ->
  downloading cb (wpage w) id jb n fs name [] -> dialogs (page_io (wpage w)) = NoPicker :: rest ->
  (* numbers fit their fields *)
  Forall Message.ok (block_messages id n 0 (blocks_of (content f)) ++ [doneResponse id n]) ->
  exists ca' pga' sched' wa' frames, pumpUploadBlocks id (ca, pga, sched) = (Ret tt, (ca', pga', sched')) /\
    _ws (super (exec (in_base pump) (ca', pga')).1) = Some wa' /\ wire wa' = wire wa ++ frames /\
    forall chunks later, concat chunks = frames -> exists w' cb' wb' turns,
      (forall fuel, ft_loop (turns + fuel) (w, map arrive chunks ++ later) = ft_loop fuel (w', later)) /\
      has w' cb' wb' /\ _buf wb' = [] /\ map_get (writeJobs (_jobs cb')) id = None /\
      clicked (page_io (wpage w')) = clicked (page_io (wpage w)) ++ [(or_empty name "download"%string, content f)] /\
      events (wpage w') = events (wpage w) ++ [makeEvent "job_done" (strs [("id"%string, string_of_Z id);
        ("file_num"%string, string_of_Z n)]) (_sessionId (super cb))].
Proof.
  intros Hwa Ho Hk Hq Hbr Hup Htick Hben Hlen Hb Hl Hbuf Hd Hdlg Hok.
  set (ms := block_messages id n 0 (blocks_of (content f)) ++ [doneResponse id n]) in *.
  destruct (pump_sends_file (fun plan => len plan.2 <= n + 1) wa [] id la f n (_sessionId (super ca))
    [doneResponse id n] (job_over id n (_sessionId (super ca)))) with (c := ca) (pg := pga) (o := 0) (b := 0)
    (sched := sched) (extra := [] : list Message.t) as (ca' & pga' & sched' & E & Ht & _); try done.
  { congruence. }
  { apply last_file_ends. }
  { unfold size. pose proof (len_nonneg (content f)). lia. }
  { exists []. by rewrite Hq, app_nil_r. }
  cbn [app] in Ht. destruct (flushed_wire wa key k ka ms ca' pga' Ho Hk Ht) as (wa' & Ewa & Hwire).
  exists ca', pga', sched', wa', (sealed_frames key k ms). do 3 (split; [done|]). intros chunks later Hch.
  destruct (chunks_of_frames key chunks k ms Hch) as (mss & Hmss & ->).
  assert (Hnp : for_session ms = ms).
  { subst ms. unfold for_session. rewrite List.filter_app. f_equal. apply blocks_for_session. }
  set (P := file_coming id jb n fs name (blocks_of (content f)) rest (clicked (page_io (wpage w)))
    (events (wpage w)) (_sessionId (super cb))).
  destruct (turns_arriving ft_loop polls arrive (pending P) (handled_message P ltac:(apply file_coming_step)
    ltac:(apply file_coming_socket)) (handled_wait P ltac:(apply file_coming_socket))
    (handled_arriving P ltac:(apply file_coming_socket)) mss [] [] w wb key k later)
    as (w' & wb' & turns & (cb' & R1) & R2 & R3 & (c0 & Hc0 & R4 & R5 & R6) & R7); try done.
  - by exists cb.
  - apply List.Forall_concat. by rewrite Hmss.
  - exists cb. split; [apply Hb|]. cbn [app]. rewrite Hmss, Hnp.
    assert (Hne : exists m0 ms0, ms = m0 :: ms0) by (subst ms; destruct (block_messages _ _ _ _); by eexists _, _).
    destruct Hne as (m0 & ms0 & Em). rewrite Em. cbn. rewrite <- Em. exists [], (blocks_of (content f)), 0. by split_and!.
  - assert (c0 = cb') as -> by (destruct R1; congruence).
    exists w', cb', wb', turns. rewrite blocks_of_concat in R5. by split_and!.
Qed.
End Loop.
