(* ===== verification/FtHost.v ===== *)
(** * A download served by a host, over the encrypted link

    A host asks about the files it was asked for and sends their blocks, packed or not, in whatever
    order and pieces.  What the session answers, and that a download which collects what it is sent
    ([Download]) collects all of it, however the frames reach the message loop. *)
From S2P Require Import Prelude JsMap JsStr Json Bytes ProtoWire ProtoFile ProtoSession ProtoMessage Crypto.
From S2P Require Import Config PushEvent Websock SessionConnect FtProtocol FtBrowserIo FtZip Page FtJobs.
From S2P Require Import SessionBase FtConnection FtTransfer Common RdOptions RdConnection FtJobsFacts.
From S2P Require Import Keeps Sessions Wire SessionsFacts Connect FtSession FtWire.
From Stdlib Require Import Floats.SpecFloat.
Local Open Scope list_scope.

(** ** What a host sends *)
Inductive host_item :=
  | Asked (n fileSize lastModified : Z) (identical : bool)
  | Part (n : Z) (data : bytes) (packed : bool) (blk : Z).
Definition host_message (id : Z) (x : host_item) : Message.t :=
  match x with
  | Asked n fileSize lastModified identical =>
      makeFileResponse (FileResponse.createBase <| FileResponse.digest := Some (FileTransferDigest.createBase
        <| FileTransferDigest.id := id |> <| FileTransferDigest.file_num := n |>
        <| FileTransferDigest.file_size := fileSize |> <| FileTransferDigest.last_modified := lastModified |>
        <| FileTransferDigest.is_identical := identical |>) |>)
  | Part n data packed blk => blockResponse id n data packed blk
  end.
(** A question is answered: the whole file is wanted. *)
Definition wanted (id : Z) (x : host_item) : option Message.t :=
  match x with Asked n _ _ _ => Some (sendConfirmAction id n false 0) | Part _ _ _ _ => None end.

Section Packed.
Context `{Zstd}.
(** The bytes of a block. *)
Definition content_of (data : bytes) (packed : bool) : option bytes := if packed then unpacked data else Some data.
Definition well_packed (x : host_item) : Prop :=
  match x with Part _ data packed _ => is_Some (content_of data packed) | _ => True end.
Lemma content_unpacks n data packed d : zstd_init = Ret tt -> content_of data packed = Some d -> unpacks (n, data, packed) d.
Proof.
  intros Hz. unfold content_of, unpacks. destruct packed; [|by intros [= <-]]. unfold unpacked. intros Hd. cbn.
  split; [done|]. by destruct (zstd_decode _ _); simplify_eq.
Qed.
End Packed.

Definition is_confirm (m : Message.t) : bool := match Message.file_action m with Some _ => true | None => false end.
Lemma consists_wanted id x : consists is_confirm (option_list (wanted id x)) (option_list (wanted id x)) [].
Proof. by destruct x. Qed.

(** ** A download
    [collecting shown]: the session was sent [shown] so far; [finished]: it was also told that this was
    all.  What a kind of download promises for the items [all]: *)
Class Download `{ProtobufRuntime} `{Sodium} `{Zstd} `{Fflate} (id n : Z) (all : list host_item)
    (collecting : list host_item -> ft -> page -> Prop) (finished : ft -> page -> Prop) : Prop := {
  download_job shown c pg : collecting shown c pg -> is_Some (write_job id c) /\ read_job id c = None;
  collecting_socket ws shown c pg : collecting shown c pg -> collecting shown (set_ws ws c) pg;
  finished_socket ws c pg : finished c pg -> finished (set_ws ws c) pg;
  collect_asked n fileSize lastModified identical shown c pg :
    collecting shown c pg -> collecting (shown ++ [Asked n fileSize lastModified identical]) c pg;
  collect_part n data packed blk shown todo c pg : all = shown ++ Part n data packed blk :: todo ->
    collecting shown c pg -> exists c' pg', receive_message (blockResponse id n data packed blk) (c, pg) = (Ret tt, (c', pg')) /\
      collecting (shown ++ [Part n data packed blk]) c' pg' /\ super c' = super c;
  collect_done c pg : collecting all c pg -> exists c' pg',
    receive_message (doneResponse id n) (c, pg) = (Ret tt, (c', pg')) /\ finished c' pg' /\ super c' = super c;
}.

Section Host.
Context `{ProtobufLaws} `{SodiumLaws} `{Zstd} `{Fflate}.
Variable float_json : spec_float -> json.
Variable l : connref.
Abbreviation ft_loop := (FtSession.ft_loop float_json l).
Abbreviation the_ft := (FtSession.the_ft l).

(** ** One message *)
Lemma ft_send_run m c pg ws key k : _ws (super c) = Some ws -> live ws key k -> exists ws',
  send m (c, pg) = (Ret tt, (set_ws ws' c, pg)) /\ live ws' key k /\ _buf ws' = _buf ws /\ sends [m] ws ws'.
Proof.
  intros Hw Hl. destruct (send_live m ws key k Hl) as (ws' & E & R). exists ws'. split; [|exact R].
  unfold send, in_base, zoom, sendMessage, on_ws. cbn [fst snd]. rewrite Hw, E. by destruct c as [[]].
Qed.
Lemma asked_run c pg ws key k id n fileSize lastModified identical :
  is_Some (write_job id c) -> read_job id c = None -> _ws (super c) = Some ws -> live ws key k -> exists ws',
  receive_message (host_message id (Asked n fileSize lastModified identical)) (c, pg) = (Ret tt, (set_ws ws' c, pg)) /\
  live ws' key k /\ _buf ws' = _buf ws /\ sends [sendConfirmAction id n false 0] ws ws'.
Proof.
  intros [[j jb] Ew] Er Hw Hl.
  destruct (ft_send_run (sendConfirmAction id n false 0) c pg ws key k Hw Hl) as (ws' & E & R). exists ws'. split; [|exact R].
  assert (Er' : forall ws, read_job id (set_ws ws c) = None) by (intros; exact Er).
  unfold host_message. set (d := _ <| FileTransferDigest.is_identical := identical |>).
  assert (Ed : FileTransferDigest.id d = id /\ FileTransferDigest.file_num d = n /\
    FileTransferDigest.is_upload d = false) by done.
  clearbody d. destruct Ed as (Ei & En & Eu).
  change (receive_message _) with (handleDigest d). unfold handleDigest, sendConfirm. rewrite Ei, En, Eu. page_steps.
  rewrite Ew. cbv beta iota zeta. erewrite bind_eq by exact E. rewrite bind_self. cbn [fst]. by rewrite Er'.
Qed.

(** ** The stream *)
Section Stream.
Context (id n : Z) (all : list host_item) (collecting : list host_item -> ft -> page -> Prop)
  (finished : ft -> page -> Prop) `{!Download id n all collecting finished} (ws0 : Websock).
Definition collecting_on (shown todo : list host_item) (ms : list Message.t) (c : ft) (pg : page) : Prop :=
  ms = map (host_message id) todo ++ [doneResponse id n] /\ collecting shown c pg.
(** How far it is: items to come, or the end. *)
Definition stage (shown todo : list host_item) (ms : list Message.t) (c : ft) (pg : page) : Prop :=
  collecting_on shown todo ms c pg \/ (ms = [] /\ todo = [] /\ finished c pg).
(** What was answered and collected, when [got] had arrived, and what is to come. *)
Definition serving_on (got ms : list Message.t) (w : world) : Prop := exists c ws sent shown todo,
  has l w c ws /\ (sends sent ws0 ws /\ consists is_confirm sent (omap (wanted id) shown) (echoes got)) /\
  all = shown ++ todo /\ stage shown todo ms c (wpage w).
Lemma stage_socket ws shown todo ms c pg : stage shown todo ms c pg -> stage shown todo ms (set_ws ws c) pg.
Proof.
  intros [[E Hg]|(? & ? & Hs)]; [left; split; [done|]; by apply collecting_socket|right].
  do 2 (split; [done|]). by apply finished_socket.
Qed.

(** One message handled: the next item, or the end. *)
Lemma item_step m ms shown todo c pg ws key k : collecting_on shown todo (m :: ms) c pg -> _ws (super c) = Some ws ->
  live ws key k -> all = shown ++ todo -> exists c' pg' ws' x shown' todo',
  receive_message m (c, pg) = (Ret tt, (c', pg')) /\ _ws (super c') = Some ws' /\ live ws' key k /\ _buf ws' = _buf ws /\
  sends x ws ws' /\ omap (wanted id) shown' = omap (wanted id) shown ++ x /\ consists is_confirm x x [] /\
  all = shown' ++ todo' /\ stage shown' todo' ms c' pg'.
Proof.
  intros (Ems & Hg) Hw Hl Hall.
  assert (Hstill : sends [] ws ws) by (apply sends_nil; [by eexists|done]). destruct todo as [|x todo].
  - injection Ems as -> ->. rewrite app_nil_r in Hall. subst shown. destruct (collect_done c pg Hg) as (c' & pg' & E & Hf & Hs).
    exists c', pg', ws, [], all, []. rewrite Hs, !app_nil_r. do 8 (split; [done|]). by right.
  - injection Ems as -> ->. set (x' := x). destruct x as [k0 size time same|k0 data packed blk].
    + destruct (download_job _ _ _ Hg) as [Hj Hr].
      destruct (asked_run c pg ws key k id k0 size time same Hj Hr Hw Hl) as (ws' & E & Hl' & Hb' & Hse).
      exists (set_ws ws' c), pg, ws', (option_list (wanted id x')), (shown ++ [x']), todo.
      split; [exact E|]. split; [by destruct c as [[]]|]. do 3 (split; [done|]).
      split; [by rewrite omap_app|]. split; [apply consists_wanted|]. split; [by rewrite <- app_assoc|].
      apply stage_socket. left. split; [done|]. by apply collect_asked.
    + destruct (collect_part _ _ _ _ _ _ _ _ Hall Hg) as (c' & pg' & E & Hg' & Hs).
      exists c', pg', ws, [], (shown ++ [x']), todo. rewrite Hs. do 5 (split; [done|]).
      split; [by rewrite omap_app|]. split; [done|]. split; [by rewrite <- app_assoc|]. by left.
Qed.
Lemma host_file_response x : is_file_response (host_message id x).
Proof. destruct x; (split; [done|]); (split; [done|]); by eexists. Qed.

Lemma serving_turn got m ms w ws buf key k : polls l w ws -> live ws key k -> _buf ws = Websock.Session m :: buf ->
  serving_on got (m :: ms) w -> exists w' ws', polls l w' ws' /\ live ws' key k /\ _buf ws' = buf /\ serving_on got ms w' /\
    forall fuel sched, ft_loop (S fuel) (w, sched) = ft_loop fuel (w', sched).
Proof.
  intros (c & Hc & Hw) Hl Hb (c1 & ws1 & sent & shown & todo & (Hc1 & Hw1) & (Hse & Hco) & Hall & Hst).
  assert (c1 = c) as -> by congruence. assert (ws1 = ws) as -> by congruence. destruct Hst as [Hg|[? _]]; [|done].
  set (ws1 := ws <| _buf := buf |>). assert (Hl1 : live ws1 key k) by (destruct Hl; by split; destruct ws).
  assert (Hwc : _ws (super (set_ws ws1 c)) = Some ws1) by (by destruct c as [[]]).
  assert (Hm : is_file_response m).
  { destruct Hg as (E & _). destruct todo as [|x todo]; injection E as -> _; [|apply host_file_response].
    split; [done|]. split; [done|]. by eexists. }
  assert (Hg1 : collecting_on shown todo (m :: ms) (set_ws ws1 c) (wpage w)).
  { destruct Hg as [E Hg]. split; [done|]. by apply collecting_socket. }
  destruct (item_step m ms shown todo (set_ws ws1 c) (wpage w) ws1 key k) as
    (c2 & pg2 & ws2 & x & shown' & todo' & E & Hw2 & Hl2 & Hb2 & Hs2 & Ho & Hx & Hall2 & Hst2); try done.
  destruct (turn_message float_json l w c ws m buf c2 pg2 (conj Hc Hw) Hb Hm E) as (w2 & Hc2 & Hp2 & Eloop).
  exists w2, ws2. split; [by exists c2|]. split; [done|]. split; [by destruct ws|]. split; [|done].
  exists c2, ws2, (sent ++ x), shown', todo'. split; [done|]. split; [|by rewrite Hp2].
  split; [eapply sends_trans; [exact Hse|]; by destruct ws|]. rewrite Ho, <- (app_nil_r (echoes got)). by apply consists_app.
Qed.
Lemma serving_wait got ms w ws key k : polls l w ws -> live ws key k -> _buf ws = [] -> serving_on got ms w ->
  exists w', polls l w' ws /\ serving_on got ms w' /\
    forall fuel i sched, ft_loop (S fuel) (w, i :: sched) = ft_loop fuel (i w', sched).
Proof.
  intros (c & Hc & Hw) Hl Hb (c1 & ws1 & sent & shown & todo & (Hc1 & Hw1) & Hse & Hall & Hst).
  assert (c1 = c) as -> by congruence. assert (ws1 = ws) as -> by congruence.
  destruct (turn_wait float_json l w c ws (conj Hc Hw) Hb (live_status _ _ _ Hl)) as (w' & Hh' & Hp & E).
  exists w'. split; [by eexists|]. split; [|done]. exists (set_ws ws c), ws, sent, shown, todo.
  do 3 (split; [done|]). rewrite Hp. by apply stage_socket.
Qed.
Lemma serving_arriving got ms w ws key k new : polls l w ws -> live ws key k -> Forall Message.ok new ->
  serving_on got ms w -> let frames := sealed_frames key k new in
  polls l (arrive l frames w) (receive_all frames ws) /\ serving_on (got ++ new) ms (arrive l frames w).
Proof.
  intros (c & Hc & Hw) Hl Hok (c1 & ws1 & sent & shown & todo & (Hc1 & Hw1) & (Hse & Hco) & Hall & Hst) frames.
  assert (c1 = c) as -> by congruence. assert (ws1 = ws) as -> by congruence.
  destruct (receive_run new ws key k Hok Hl) as (_ & _ & Hse2).
  destruct (arrive_has l frames w c ws (conj Hc Hw)) as [Hh' Hp]. split; [by eexists|].
  exists (set_ws (receive_all frames ws) c), (receive_all frames ws), (sent ++ echoes new), shown, todo.
  split; [done|]. split; [|split; [done|rewrite Hp; by apply stage_socket]].
  split; [by eapply sends_trans|]. rewrite echoes_app, <- (app_nil_r (omap _ shown)).
  by apply consists_app, consists_echoes.
Qed.

(** All of it arrives. *)
Lemma host_served c w ws key sn k ms chunks later : has l w c ws -> live ws key k -> _buf ws = [] ->
  _secretKey ws = Some (key, sn, k) -> ws0 = ws -> collecting [] c (wpage w) ->
  for_session ms = map (host_message id) all ++ [doneResponse id n] -> Forall Message.ok ms ->
  concat chunks = sealed_frames key k ms -> exists w' c' ws' turns sent,
    (forall fuel, ft_loop (turns + fuel) (w, map (arrive l) chunks ++ later) = ft_loop fuel (w', later)) /\
    has l w' c' ws' /\ live ws' key (k + len ms) /\ _buf ws' = [] /\ finished c' (wpage w') /\
    wire ws' = wire ws ++ sealed_frames key sn sent /\
    List.filter is_confirm sent = omap (wanted id) all /\
    List.filter (fun m => negb (is_confirm m)) sent = echoes ms.
Proof.
  intros Hh Hl Hb Hk Hws Hg Hms Hok Hch.
  destruct (chunks_of_frames key chunks k ms Hch) as (mss & Hmss & ->).
  destruct (turns_arriving ft_loop (polls l) (arrive l) serving_on
    ltac:(intros; by eapply serving_turn) ltac:(intros; by eapply serving_wait) ltac:(intros; by apply serving_arriving)
    mss [] [] w ws key k later) as (w' & ws' & turns & (c1 & Hc1 & Hw1) & R2 & R3 & R4 & R5); try done.
  - by exists c.
  - apply List.Forall_concat. by rewrite Hmss.
  - exists c, ws, [], [], all. split; [done|]. subst ws0. split; [split; [|done]; apply sends_nil; [by eexists|done]|].
    split; [done|]. left. split; [|done]. cbn [app]. by rewrite Hmss.
  - destruct R4 as (c' & ws1 & sent & shown & todo & (Hc' & Hw') & (Hse & Ha & He) & Hall & Hst).
    assert (c1 = c') as -> by congruence. assert (ws1 = ws') as -> by congruence.
    destruct Hst as [(E & _)|(_ & -> & Hf)]; [by destruct todo|]. rewrite app_nil_r in Hall. subst shown ws0.
    cbn [app] in He. rewrite Hmss in R2, He. exists w', c', ws', turns, sent. do 5 (split; [done|]).
    split; [by apply (Hse key sn k)|done].
Qed.
End Stream.
End Host.
