(* ===== verification/FtDiskWire.v ===== *)
(** * A file saved where the user chose, over the encrypted link

    Flutter asks for a remote file, the user chooses a place for it, a host serves it: every block is
    written to that place as it comes, and at the end exactly the file is there. *)
From S2P Require Import Prelude JsMap JsStr Json Bytes ProtoWire ProtoFile ProtoSession ProtoMessage Crypto.
From S2P Require Import Config PushEvent Websock SessionConnect FtProtocol FtBrowserIo FtZip Page FtJobs.
From S2P Require Import SessionBase FtConnection FtTransfer Common RdOptions RdConnection FtJobsFacts.
From S2P Require Import Keeps Sessions Wire SessionsFacts Connect FtSession FtWire FtHost FtQueue.
From Stdlib Require Import Floats.SpecFloat.
Local Open Scope list_scope.

Section Contents.
Context `{Zstd}.
Definition bytes_of (x : host_item) : option bytes :=
  match x with Part _ data packed _ => content_of data packed | Asked _ _ _ _ => None end.
(** The bytes a host served. *)
Definition served_bytes (items : list host_item) : bytes := concat (omap bytes_of items).
End Contents.

Section Disk.
Context `{ProtobufLaws} `{SodiumLaws} `{Zstd} `{Fflate}.

(** ** The download *)
Section Saving.
Context (id : Z) (j : jobref) (t : target) (all : list host_item) (n : Z) (evs : list event) (sid : option string).
Hypothesis zstd_loads : zstd_init = Ret tt.
Hypothesis packed_well : Forall well_packed all.
Definition saving_to (ds : list bytes) (c : ft) (pg : page) : Prop :=
  map_get (writeJobs (_jobs c)) id = Some j /\ map_ok (writeJobs (_jobs c)) /\ map_get (readJobs (_jobs c)) id = None /\
  disk_job j (_jobs c, pg) t ds /\ events pg = evs /\ _sessionId (super c) = sid.
Definition saving (shown : list host_item) : ft -> page -> Prop := saving_to (omap bytes_of shown).
Definition on_disk (c : ft) (pg : page) : Prop :=
  map_get (writeJobs (_jobs c)) id = None /\
  (exists d, disk (page_io pg) !! t = Some d /\ written d = served_bytes all /\ closed d = true) /\
  events pg = evs ++ [makeEvent "job_done" (strs [("id"%string, string_of_Z id); ("file_num"%string, string_of_Z n)]) sid].

Lemma save_block c pg k data packed d blk ds : saving_to ds c pg -> unpacks (k, data, packed) d ->
  exists c' pg', receive_message (blockResponse id k data packed blk) (c, pg) = (Ret tt, (c', pg')) /\
    saving_to (ds ++ [d]) c' pg' /\ super c' = super c.
Proof.
  intros (Hm & Hok & Hr & Hd & Hev & Hs) Hu. destruct Hd as (jb & R). pose proof R as (dt & Hj & _).
  assert (Ej : write_job id c = Some (j, jb)) by (unfold write_job, getWriteJob; rewrite Hm; cbn in *; by rewrite Hj).
  destruct (appendBlock_disk j (_jobs c, pg) t _ (k, data, packed) d (ex_intro _ jb R) Hu)
    as ([m' pg'] & E & Hd' & Er & Ew & Ee). cbn [fst snd] in *.
  change (receive_message (blockResponse id k data packed blk)) with (handleBlock (FileTransferBlock.mk id k data packed blk)).
  unfold handleBlock. cbn [FileTransferBlock.id FileTransferBlock.file_num FileTransferBlock.data
    FileTransferBlock.compressed]. page_steps. rewrite Ej. cbv iota. unfold try_catch, in_jobs.
  erewrite zoom_ret by exact E. cbn [fst snd]. exists (c <| _jobs := m' |>), pg'.
  split; [reflexivity|]. split; [|by destruct c]. unfold saving_to. change (_jobs (c <| _jobs := m' |>)) with m'. rewrite Ew, Er, Ee. by destruct c.
Qed.

Lemma disk_download : Download id n all saving on_disk.
Proof.
  split.
  - intros shown c pg (Hm & _ & Hr & (jb & dt & Hj & _) & _). unfold write_job, getWriteJob, read_job, getReadJob.
    rewrite Hm, Hr. cbn in *. rewrite Hj. split; [by eexists|done].
  - by intros ws shown [[]] pg.
  - by intros ws [] pg.
  - intros k size time same shown c pg Hg. unfold saving. rewrite omap_app. cbn. by rewrite app_nil_r.
  - intros k data packed blk shown todo c pg Hall Hg.
    assert (Hw : well_packed (Part k data packed blk)).
    { rewrite Forall_forall in packed_well. apply packed_well. rewrite Hall. set_solver. }
    destruct Hw as [d Hd].
    destruct (save_block c pg k data packed d blk _ Hg (content_unpacks k _ _ _ zstd_loads Hd)) as (c' & pg' & E & Hg' & Hs).
    exists c', pg'. split; [exact E|]. split; [|exact Hs]. unfold saving. rewrite omap_app. cbn. by rewrite Hd.
  - intros c pg (Hm & Hok & Hr & Hd & Hev & Hs). pose proof Hd as (jb & dt & Hj & _ & Hfd & _).
    destruct (finalize_disk _ _ _ _ Hd) as (i & d & E & R).
    destruct (receive_finalizes c pg id j jb n i Hm Hok Hr Hj E) as (c' & pg' & E' & Hm' & Hio & Hev' & Hsup).
    rewrite Hfd in Hev'. exists c', pg'. split; [exact E'|]. split; [|done]. split; [done|].
    split; [exists d; by rewrite Hio|]. by rewrite Hev', Hev, Hs.
Qed.
End Saving.

(** ** Asking for it *)
Lemma dialog_chosen l job cap cf ds f c pg fs : writeJob l c = Some job -> saveTarget job = None ->
  dialogs (page_io (f (c, pg)).2) = Chosen cap cf :: ds -> let s := f (c, pg) in
  ensureDownloadSaveTarget l (c, pg, f :: fs) = (Ret true,
    (s.1 <| _jobs ::= set_write l (fun j => j <| saveTarget := Some (length (disk (page_io s.2))) |>) |>,
     s.2 <| page_io ::= fun i => i <| dialogs := ds |> <| disk := disk i ++ [newTarget cap cf] |> |>, fs)).
Proof.
  intros Hj Ht Hd s. unfold ensureDownloadSaveTarget. rewrite on_self_bind. cbn [fst snd].
  rewrite self_run, Hj, Ht. change (truthy None) with false. cbn match. rewrite pause_run, on_self_bind. fold s in Hd |- *.
  clearbody s. destruct s as [c1 pg1]. cbn [fst snd] in *.
  unfold with_io, pickDownloadSaveTarget, openSaveFilePicker. cbn [fst snd]. rewrite Hd. by destruct pg1.
Qed.

(** The job of a new download. *)
Lemma download_job_created item c pg : exists job m, let l := length (writeHeap (_jobs c)) in
  in_jobs (createDownloadJob (d_id item) (d_path item) (d_to item) (d_fileNum item) (d_isDir item)) (c, pg) =
    (Ret l, (c <| _jobs := m |>, pg)) /\ writeHeap m = writeHeap (_jobs c) ++ [job] /\
  writeJobs m = map_set (writeJobs (_jobs c)) (d_id item) l /\ readJobs m = readJobs (_jobs c) /\
  saveTarget job = None /\ isFolderDownload job = d_isDir item /\ chunks job = [] /\ fileChunks job = [] /\
  streamingToDisk job = false.
Proof. unfold in_jobs, zoom, createDownloadJob. page_steps. eexists _, _. split; [reflexivity|]. done. Qed.

(** The dialog is answered with a place: the peer is asked for the file, and the job waits for it. *)
Lemma start_chosen item c pg ws key k g rest fs : _ws (super c) = Some ws -> live ws key k -> d_isDir item = false ->
  map_ok (writeJobs (_jobs c)) -> map_get (readJobs (_jobs c)) (d_id item) = None ->
  (forall pg, events (g pg) = events pg /\ page_io (g pg) = page_io pg) ->
  dialogs (page_io pg) = Chosen None false :: rest -> exists c' pg' ws' j,
  startRemoteDownload item (c, pg, (fun s => (s.1, g s.2)) :: fs) = (Ret tt, (c', pg', fs)) /\
  _downloadQueue c' = _downloadQueue c /\ _ws (super c') = Some ws' /\ live ws' key k /\ _buf ws' = _buf ws /\
  sends [sendAction (d_id item) (d_path item) (d_fileNum item) (d_includeHidden item)] ws ws' /\
  saving_to (d_id item) j (length (disk (page_io pg))) (events pg) (_sessionId (super c)) [] c' pg'.
Proof.
  intros Hws Hl Hdir Hok Hr Hg Hd. destruct (Hg pg) as [Ge Gi].
  destruct (download_job_created item c pg) as (job & m & E & Hh & Hm & Hrd & Ht & Hfd & Hc & Hfc & Hst).
  set (l := length _) in *. set (t := length (disk _)). set (f := fun s : ft * page => _).
  assert (Hj : writeHeap m !! l = Some job) by (rewrite Hh; subst l; by rewrite list_lookup_middle).
  unfold startRemoteDownload. rewrite on_self_bind. cbn [fst snd]. rewrite E.
  erewrite bind_eq. 2: { apply (dialog_chosen l job None false rest f); [by destruct c|done|]. subst f. cbn. by rewrite Gi. }
  cbn [negb]. subst f. cbn [fst snd]. rewrite Gi. fold t.
  set (put := fun j : WriteJob => j <| saveTarget := Some t |>).
  set (io2 := fun i => i <| dialogs := rest |> <| disk := disk i ++ [newTarget None false] |>).
  destruct (ft_send_run (sendAction (d_id item) (d_path item) (d_fileNum item) (d_includeHidden item))
    (c <| _jobs := m |> <| _jobs ::= set_write l put |>) ((g pg) <| page_io ::= io2 |>) ws key k) as (ws' & E2 & R);
    [by destruct c|done|].
  eexists _, _, ws', l. split; [apply (on_self_run _ (_, _, fs)); exact E2|].
  split; [by destruct c|]. split; [by destruct c as [[]]|]. destruct R as (Hl' & Hb & Hse). do 3 (split; [done|]).
  unfold saving_to. replace (_jobs (set_ws _ _)) with (set_write l put m) by (by destruct c as [[]]).
  change (writeJobs (set_write l put m)) with (writeJobs m). change (readJobs (set_write l put m)) with (readJobs m).
  rewrite Hm, Hrd, map_get_set_eq. split; [done|]. split; [by apply map_set_ok|]. split; [done|].
  split; [|by destruct c as [[]], (g pg)].
  exists (put job), (newTarget None false). cbn [fst snd]. split; [by apply alter_lookup|].
  clear - Gi Hdir Hfd Hc Hfc Hst. split; [by destruct job|]. split; [rewrite <- Hdir, <- Hfd; by destruct job|].
  split; [done|]. split; [by destruct job|]. split; [|done].
  replace (page_io ((g pg) <| page_io ::= io2 |>)) with (io2 (page_io pg)) by (rewrite <- Gi; by destruct (g pg)).
  change (disk (io2 _)) with (disk (page_io pg) ++ [newTarget None false]). subst t. by rewrite list_lookup_middle.
Qed.

(** Nothing else is queued, the dialog is answered with a place: the job waits for the file, which the
    peer was asked for. *)
Lemma file_asked item c pg ws key k g rest : _ws (super c) = Some ws -> live ws key k -> d_isDir item = false ->
  _downloadQueue c = [] -> _downloadQueueRunning c = false -> map_ok (writeJobs (_jobs c)) ->
  map_get (readJobs (_jobs c)) (d_id item) = None ->
  (forall pg, events (g pg) = events pg /\ page_io (g pg) = page_io pg) ->
  dialogs (page_io pg) = Chosen None false :: rest -> exists c' pg' ws' j,
  sendFiles (d_id item) (d_path item) (d_to item) (d_fileNum item) (d_includeHidden item) true (d_isDir item)
    (c, pg, [fun s => (s.1, g s.2)]) = (Ret tt, (c', pg', [])) /\
  _ws (super c') = Some ws' /\ live ws' key k /\ _buf ws' = _buf ws /\
  sends [sendAction (d_id item) (d_path item) (d_fileNum item) (d_includeHidden item)] ws ws' /\
  saving_to (d_id item) j (length (disk (page_io pg))) (events pg) (_sessionId (super c)) [] c' pg'.
Proof.
  intros Hws Hl Hdir Hq Hrun Hok Hr Hg Hd.
  set (c1 := c <| _downloadQueue := [] |> <| _downloadQueueRunning := true |>).
  destruct (start_chosen item c1 pg ws key k g rest []) as (c2 & pg2 & ws' & j & E & Hq2 & Hw2 & Hl2 & Hb2 & Hse & Hsav);
    try done; try (by destruct c).
  exists (c2 <| _downloadQueueRunning := false |>), pg2, ws', j. split.
  2: { destruct c, c2; cbn in *. do 4 (split; [done|]). exact Hsav. }
  unfold sendFiles. rewrite on_self_bind, update_run. cbn [fst snd]. unfold floating, try_catch, processDownloadQueue.
  rewrite on_self_bind. cbn [fst snd]. rewrite self_run.
  replace (_downloadQueueRunning _) with false by (by destruct c). rewrite on_self_bind, update_run, bind_gets.
  cbn [fst snd]. unfold try_finally. cbn [download_turns length]. rewrite on_self_bind. cbn [fst snd]. rewrite self_run.
  replace (_downloadQueue _) with [item] by (destruct c, item; cbn in *; by subst). cbv iota.
  rewrite on_self_bind, update_run. cbn [fst snd].
  replace (_ <| _downloadQueue := [] |>) with c1 by (by destruct c).
  erewrite bind_eq by exact E. rewrite on_self_bind. cbn [fst snd]. rewrite self_run, Hq2.
  replace (_downloadQueue c1) with ([] : list download_item) by (by destruct c). reflexivity.
Qed.

(** ** From the request to the disk *)
Variable float_json : spec_float -> json.
Variable l : connref.
Abbreviation ft_loop := (FtSession.ft_loop float_json l).
Abbreviation the_ft := (FtSession.the_ft l).

(** C25.  A remote file from the request to the disk.  Flutter asks for it while nothing else is queued,
    and the user chooses a place.  Then the peer is asked for exactly that file; and when it serves it
    (questions first or in between, blocks packed or not, pings at any time, the frames split among the
    turns of the message loop in any way) and is done, the chosen file holds exactly the bytes served,
    in their order, and is closed, an empty file included; every question and ping was answered and
    nothing else sent; the job is gone and reported as done, and the loop goes on waiting. *)
Theorem file_to_disk_over_the_wire item c pg ws key sn k g rest items n :
  _ws (super c) = Some ws -> live ws key k -> _buf ws = [] -> _secretKey ws = Some (key, sn, k) ->
  d_isDir item = false -> _downloadQueue c = [] -> _downloadQueueRunning c = false ->
  map_ok (writeJobs (_jobs c)) -> map_get (readJobs (_jobs c)) (d_id item) = None ->
  (forall pg, events (g pg) = events pg /\ page_io (g pg) = page_io pg) ->
  dialogs (page_io pg) = Chosen None false :: rest -> zstd_init = Ret tt -> Forall well_packed items ->
  exists c' pg',
    sendFiles (d_id item) (d_path item) (d_to item) (d_fileNum item) (d_includeHidden item) true (d_isDir item)
      (c, pg, [fun s => (s.1, g s.2)]) = (Ret tt, (c', pg', [])) /\
    forall w ms chunks later, the_ft w = Some c' -> wpage w = pg' ->
      for_session ms = map (host_message (d_id item)) items ++ [doneResponse (d_id item) n] -> Forall Message.ok ms ->
      concat chunks = sealed_frames key k ms -> exists w' c1 ws' turns sent d,
      (forall fuel, ft_loop (turns + fuel) (w, map (arrive l) chunks ++ later) = ft_loop fuel (w', later)) /\
      has l w' c1 ws' /\ live ws' key (k + len ms) /\ _buf ws' = [] /\ map_get (writeJobs (_jobs c1)) (d_id item) = None /\
      disk (page_io (wpage w')) !! length (disk (page_io pg)) = Some d /\ written d = served_bytes items /\
      closed d = true /\
      events (wpage w') = events pg ++ [makeEvent "job_done" (strs [("id"%string, string_of_Z (d_id item));
        ("file_num"%string, string_of_Z n)]) (_sessionId (super c))] /\
      wire ws' = wire ws ++ sealed_frames key sn
        (sendAction (d_id item) (d_path item) (d_fileNum item) (d_includeHidden item) :: sent) /\
      List.filter is_confirm sent = omap (wanted (d_id item)) items /\
      List.filter (fun m => negb (is_confirm m)) sent = echoes ms.
Proof.
  intros Hws Hl Hb Hk Hdir Hq Hrun Hok Hr Hg Hd Hz Hpk.
  destruct (file_asked item c pg ws key k g rest) as (c' & pg' & ws1 & j & E & Hw1 & Hl1 & Hb1 & Hse & Hsav); try done.
  exists c', pg'. split; [exact E|]. intros w ms chunks later Hc <- Hms Hmok Hch.
  destruct (Hse key sn k Hk) as [[k' Hk1] Hwire].
  assert (k' = k) as -> by (destruct (live_key _ _ _ Hl1); by congruence).
  pose proof (disk_download (d_id item) j (length (disk (page_io pg))) items n (events pg) (_sessionId (super c)) Hz Hpk).
  destruct (host_served float_json l (d_id item) n items _ _ ws1 c' w ws1 key (sn + len [sendAction (d_id item) (d_path item)
    (d_fileNum item) (d_includeHidden item)]) k ms chunks later)
    as (w' & c1 & ws' & turns & sent & R1 & R2 & R3 & R4 & (S1 & (d & D1 & D2 & D3) & S3) & R5 & R6); try done; [congruence|].
  exists w', c1, ws', turns, sent, d. do 9 (split; [done|]). split; [|done].
  by rewrite R5, Hwire, <- app_assoc.
Qed.
End Disk.
