(* ===== verification/FtFolderWire.v ===== *)
(** * A folder over the encrypted link

    A host serves a folder download: what the session saves in the end. *)
From S2P Require Import Prelude JsMap JsStr Json Bytes ProtoWire ProtoFile ProtoSession ProtoMessage Crypto.
From S2P Require Import Config PushEvent Websock SessionConnect FtProtocol FtBrowserIo FtZip Page FtJobs.
From S2P Require Import SessionBase FtConnection FtTransfer FtFolder FtArchive Common RdOptions RdConnection FtJobsFacts.
From S2P Require Import Keeps Sessions Wire SessionsFacts Connect FtSession FtWire FtHost.
From Stdlib Require Import Floats.SpecFloat.
Local Open Scope list_scope.

Section Contents.
Context `{Zstd}.
Definition part_of (i : Z) (x : host_item) : option bytes :=
  match x with
  | Part n data packed _ => if (i =? n)%Z then content_of data packed else None
  | Asked _ _ _ _ => None
  end.
(** The files a host served. *)
Definition contents_of (fs : list FileEntry.t) (items : list host_item) : list bytes :=
  imap (fun i _ => concat (omap (part_of (Z.of_nat i)) items)) fs.
Lemma contents_gathered fs items : gathered (contents_of fs items) (fun i => omap (part_of i) items).
Proof.
  intros i d. unfold contents_of. rewrite list_lookup_imap. destruct (fs !! i); [|done]. by intros [= <-].
Qed.
End Contents.

Section Folder.
Context `{ProtobufLaws} `{SodiumLaws} `{Zstd} `{Fflate}.
Section Archive.
Context (c0 : ft) (pg0 : page) (id : Z) (j : jobref) (name : string) (fs : list FileEntry.t)
  (all : list host_item) (n : Z) (zipped : bytes) (rest : list dialog).
Hypothesis zstd_loads : zstd_init = Ret tt.
Hypothesis packed_well : Forall well_packed all.
Hypothesis some_file : fs <> [].
Hypothesis named : Forall (fun e => FileEntry.name e <> ""%string) fs.
Hypothesis distinct : NoDup (map (entry_path (archive_root name)) fs).
Hypothesis zips : zipSync (archive (archive_root name) fs (contents_of fs all)) = Ret zipped.
Definition saved (c : ft) (pg : page) : Prop :=
  map_get (writeJobs (_jobs c)) id = None /\
  clicked (page_io pg) = clicked (page_io pg0) ++ [(folderDownloadFilename name, zipped)] /\
  events pg = events pg0 ++ [makeEvent "job_done" (strs [("id"%string, string_of_Z id);
    ("file_num"%string, string_of_Z (len fs - 1))]) (_sessionId (super c0))].
Definition gathering_all (shown : list host_item) (c : ft) (pg : page) : Prop :=
  gathering c id j name fs (fun i => omap (part_of i) shown) /\
  page_io pg = page_io pg0 /\ events pg = events pg0 /\ _sessionId (super c) = _sessionId (super c0) /\
  dialogs (page_io pg0) = NoPicker :: rest.

(** A folder download without a save dialog is one that collects. *)
Lemma folder_download : Download id n all gathering_all saved.
Proof.
  split.
  - intros shown c pg ((Hm & _ & Hr & jb & Hj & _) & _). unfold write_job, getWriteJob, read_job, getReadJob.
    rewrite Hm, Hr. cbn. rewrite Hj. split; [by eexists|done].
  - by intros ws shown [[]] pg.
  - by intros ws [] pg.
  - intros k0 size time same shown c pg (Hg & R). split; [|done]. eapply gathering_ext, Hg. intros i.
    by rewrite omap_app, app_nil_r.
  - intros k0 data packed blk shown todo c pg Hall (Hg & Hio & Hev & Hsid & Hdlg).
    assert (Hw : well_packed (Part k0 data packed blk)).
    { rewrite Forall_forall in packed_well. apply packed_well. rewrite Hall. set_solver. }
    destruct Hw as [d Hd].
    destruct (gather_block c pg id j name fs _ k0 data packed d blk Hg (content_unpacks k0 _ _ _ zstd_loads Hd))
      as (c' & pg' & E & Hg' & _ & Hs & Hio' & Hev'). cbn [fst snd] in *.
    exists c', pg'. split; [exact E|]. split; [|exact Hs]. unfold gathering_all. rewrite Hio', Hev', Hs. split; [|done].
    eapply gathering_ext, Hg'. intros i. rewrite omap_app. unfold more. cbn [omap list_omap part_of].
    destruct (Z.eqb_spec i k0) as [->|Hne]; [by rewrite Hd|by rewrite app_nil_r].
  - intros c pg (Hg & Hio & Hev & Hsid & Hdlg).
    destruct (archive_done c pg id j name fs _ (contents_of fs all) zipped rest n Hg)
      as (c' & pg' & E & Hm & Hc & He & Hs); try done.
    { unfold contents_of. by rewrite length_imap. }
    { apply contents_gathered. }
    { by rewrite Hio. }
    exists c', pg'. split; [exact E|]. split; [|exact Hs]. split; [done|]. by rewrite Hc, He, Hio, Hev, Hsid.
Qed.
End Archive.

Variable float_json : spec_float -> json.
Variable l : connref.
Abbreviation ft_loop := (FtSession.ft_loop float_json l).

(** C2.  A folder over the encrypted link.  The host serves a folder download: it asks about files and sends
    their blocks, packed or not, in any order and pieces, with pings in between, and then is done; the
    frames reach the socket in order, split among the turns of the message loop in any way whatever.
    Then every question was answered (the whole file is wanted) and every ping echoed, each in
    order, and nothing else went back; the browser was handed one archive, named after the folder, whose
    entries are the files with all the bytes served for them; the job is gone and reported as done,
    and the loop goes on waiting. *)
Theorem folder_download_over_the_wire items ms w c ws key sn k id j name fs n zipped rest chunks later :
  has l w c ws -> live ws key k -> _buf ws = [] -> _secretKey ws = Some (key, sn, k) ->
  gathering c id j name fs (fun _ => []) -> fs <> [] -> Forall (fun e => FileEntry.name e <> ""%string) fs ->
  NoDup (map (entry_path (archive_root name)) fs) -> zstd_init = Ret tt -> Forall well_packed items ->
  zipSync (archive (archive_root name) fs (contents_of fs items)) = Ret zipped ->
  dialogs (page_io (wpage w)) = NoPicker :: rest ->
  for_session ms = map (host_message id) items ++ [doneResponse id n] -> Forall Message.ok ms ->
  concat chunks = sealed_frames key k ms ->
  exists w' c' ws' turns sent,
    (forall fuel, ft_loop (turns + fuel) (w, map (arrive l) chunks ++ later) = ft_loop fuel (w', later)) /\
    has l w' c' ws' /\ live ws' key (k + len ms) /\ _buf ws' = [] /\ map_get (writeJobs (_jobs c')) id = None /\
    clicked (page_io (wpage w')) = clicked (page_io (wpage w)) ++ [(folderDownloadFilename name, zipped)] /\
    events (wpage w') = events (wpage w) ++ [makeEvent "job_done" (strs [("id"%string, string_of_Z id);
      ("file_num"%string, string_of_Z (len fs - 1))]) (_sessionId (super c))] /\
    wire ws' = wire ws ++ sealed_frames key sn sent /\
    List.filter is_confirm sent = omap (wanted id) items /\
    List.filter (fun m => negb (is_confirm m)) sent = echoes ms.
Proof.
  intros Hh Hl Hb Hk Hg Hne Hnm Hd Hz Hpk Hzip Hdlg Hms Hok Hch.
  pose proof (folder_download c (wpage w) id j name fs items n zipped rest Hz Hpk Hne Hnm Hd Hzip).
  destruct (host_served float_json l id n items _ _ ws c w ws key sn k ms chunks later)
    as (w' & c' & ws' & turns & sent & R1 & R2 & R3 & R4 & (S1 & S2 & S3) & R5); try done.
  exists w', c', ws', turns, sent. do 7 (split; [done|]). exact R5.
Qed.
End Folder.
