(* ===== verification/FtStart.v ===== *)
(** * Starting a file-transfer session

    [start] and [selectFiles] of [connections/ft_connection.ts], and what becomes of a session that
    was started: when [start] settles, the session has been closed or ended, whatever the network,
    the peer, the user and the rest of the page did meanwhile. *)
From S2P Require Import Prelude JsMap JsStr Json Bytes ProtoWire ProtoFile ProtoEnums ProtoSession ProtoMessage ProtoRendezvous.
From S2P Require Import Crypto Config PushEvent Websock SessionConnect FtProtocol FtBrowserIo FtZip Page FtJobs.
From S2P Require Import SessionBase FtConnection Common RdOptions RdConnection Keeps Sessions SessionsFacts.
From S2P Require Import FtJobsFacts SessionsEnd Connect FtSession.
From Stdlib Require Import Floats.SpecFloat.
Local Open Scope string_scope.

(** [e?.type == "close"] *)
Definition is_close_event (e : jsval) : bool :=
  match e with
  | VObj fields => match map_get fields "type" with Some (VStr t) => t =? "close" | _ => false end
  | _ => false
  end.

Section FtStart.
Context `{ProtobufRuntime} `{Sodium} `{Zstd} `{Fflate}.
Context (float_json : spec_float -> json) (localeCompare : string -> string -> Z) (l : connref).
#[local] Instance this_session : Session world := ft_session l.
Abbreviation async A := (js (world * list (world -> world)) A).

Definition has_ws (w : world) : bool := match the_ft l w with Some f => truthy (_ws (super f)) | None => false end.
Definition end_this (title text : string) : js world unit :=
  sid ← ft_sid l; endFileTransferSession sid title text.

Definition _start (d : dial) (fuel : nat) (id : string) : async unit :=
  sync (on_ft_base l (prepareConnect id));;
  sync (on_ft l (update (fun c => c <| _progressInterval := true |>)));;
  ok ← establishConnection (reportConnectError l) (msgLoop float_json l fuel) d ConnType.FILE_TRANSFER;
  ws ← sync (gets has_ws);
  open ← sync (still_open l);
  if negb ok && negb ws && open then
    sync (end_this "Connection Error" "Failed to connect file transfer session")
  else skip.

Definition start (d : dial) (fuel : nat) (id password : option string) : async unit :=
  (if match id with Some id => truthy id | None => false end then
     sync (on_ft_base l (setPeerId (default "" id))) else skip);;
  (if match password with Some pw => truthy pw | None => false end then
     sync (on_ft_base l (setPlaintextPassword (default "" password))) else skip);;
  id ← sync (on_ft_base l (self _id));
  try_catch (_start d fuel id)
    (fun e =>
       open ← sync (still_open l);
       if (open : bool) then
         sync (end_this "Connection Error"
           (if is_close_event e then "Reset by the peer" else formatErrorMessage e FT_DISCONNECT_FALLBACK))
       else skip).

(** The file dialog is open while [selectFiles] waits; [chosen] is what the user picks. *)
Definition selectFiles (isFolder : bool) (chosen : list File) : async unit :=
  pause;;
  files ← sync (on_ft l (with_io (pickFiles chosen)));
  match files with
  | [] => skip
  | _ =>
      if isFolder then
        includeHidden ← sync (on_ft_base l (self (fun c => option_truthy (getOption "remote_show_hidden" c))));
        match buildFolderUploadPlan localeCompare files includeHidden with
        | None => sync (ft_msgbox l "error" "Error" "No files found in selected folder")
        | Some plan =>
            sid ← sync (ft_sid l);
            e ← sync (on_ft l (with_io (notifySelectedFolder plan sid)));
            sync (raw_event e)
        end
      else
        sid ← sync (ft_sid l);
        for_of (imap (fun i f => (Z.of_nat i, f)) files)
          (fun f => sync (raw_event (notifySelectedFile f.1 f.2 sid)))
  end.

(** ** Every step is orderly *)
Lemma in_base_orderly {A} (m : js (base * page) A) : preserves same_id_base m -> preserves orderly (on_ft_base l m).
Proof. intros Hm. apply on_ft_orderly, in_base_keeps, Hm. Qed.
Lemma ft_sid_orderly : preserves orderly (ft_sid l).
Proof. apply preserves_gets, _. Qed.
Lemma still_open_orderly : preserves orderly (still_open l).
Proof. apply preserves_gets, _. Qed.
#[local] Hint Resolve ft_sid_orderly still_open_orderly : preserves.
Lemma end_this_orderly title text : preserves orderly (end_this title text).
Proof. unfold end_this. solve_preserves. Qed.
Lemma ft_msgbox_orderly ty title text : preserves orderly (ft_msgbox l ty title text).
Proof. unfold ft_msgbox. solve_preserves. Qed.
#[local] Hint Resolve end_this_orderly ft_msgbox_orderly : preserves.
Lemma report_orderly title text : preserves orderly (reportConnectError l title text).
Proof. unfold reportConnectError. solve_preserves. Qed.

Ltac by_base := apply in_base_orderly; first [ solve [solve_preserves] | intros [?c ?pg]; solve [done | by destruct c] ].
Ltac by_ft := apply on_ft_orderly; first [ solve [solve_preserves] | by_update ].
Lemma handlePeerInfo_orderly pi : preserves orderly (handlePeerInfo float_json l pi).
Proof. unfold handlePeerInfo. solve_preserves_with ltac:(first [by_base | by_ft]). Qed.
Lemma handleHash_orderly : preserves orderly (handleHashMessage (W := world)).
Proof.
  apply handleHashMessage_keeps; [apply _|intros; by apply in_base_orderly|..].
  - intros p. apply on_ft_orderly, buildFtLoginRequest_keeps.
  - intros ty title text. apply (ft_msgbox_orderly ty title text).
  - apply (ft_msgbox_orderly "input-password" "Password Required" "").
Qed.
#[local] Hint Resolve handlePeerInfo_orderly handleHash_orderly : preserves.
Lemma handleLoginResponse_orderly r : preserves orderly (handleLoginResponse float_json l r).
Proof. unfold handleLoginResponse. solve_preserves. Qed.
#[local] Hint Resolve handleLoginResponse_orderly : preserves.

Section Loop.
Context (M : relation world) `{!subrelation M orderly}.
#[local] Instance the_host : Host world := world_host l.
Ltac by_sync := apply (preserves_sync M orderly); solve_preserves_with ltac:(first [by_base | by_ft]).
Lemma dispatch_orderly msg : preserves (async_keeps_under M orderly) (dispatch float_json l msg).
Proof.
  unfold dispatch. solve_preserves_with ltac:(first [by_base | by_ft | idtac]).
  apply handleFileAction_keeps; [apply _..|]. intros A m Hm. by apply on_ft_orderly.
Qed.
#[local] Hint Resolve dispatch_orderly : preserves.
Lemma ft_loop_orderly fuel : preserves (async_keeps_under M orderly) (ft_loop float_json l fuel).
Proof. induction fuel as [|fuel IH]; cbn [ft_loop]; [solve_preserves|]. solve_preserves_with by_base. Qed.
#[local] Hint Resolve ft_loop_orderly : preserves.
Lemma msgLoop_orderly fuel : preserves (async_keeps_under M orderly) (msgLoop float_json l fuel).
Proof. unfold msgLoop, loop_failed, loop_over. solve_preserves_with by_ft. Qed.
End Loop.

(** ** What becomes of a started session *)
(** The session is registered as [sid] as long as it is open. *)
Definition known (sid : string) (w : world) : Prop :=
  registry_ok w /\ exists f src, conn_at l w = Some {| instance := FtConn f; _passwordSource := src |} /\
    _sessionId (super f) = Some sid /\
    (registered w sid l \/ _closing f = true \/ _ftSessionEnded f = true).
Definition is_shut (w : world) : Prop :=
  exists f src, conn_at l w = Some {| instance := FtConn f; _passwordSource := src |} /\
    (_closing f = true \/ _ftSessionEnded f = true).
(** The page neither disturbs the registry nor installs a socket in this session. *)
Definition quiet (w w' : world) : Prop := orderly w w' /\ (has_ws w = false -> has_ws w' = false).

Lemma orderly_grows w w' f src : registry_ok w -> orderly w w' ->
  conn_at l w = Some {| instance := FtConn f; _passwordSource := src |} ->
  exists f' src', conn_at l w' = Some {| instance := FtConn f'; _passwordSource := src' |} /\
    grows {| instance := FtConn f; _passwordSource := src |} {| instance := FtConn f'; _passwordSource := src' |}.
Proof.
  intros Hok Ho Hc. destruct (Ho Hok) as [_ [Hs _]]. destruct (Hs l _ Hc) as (c' & Hc' & Hg).
  destruct c' as [[f'|r] src']; [by exists f', src'|]. by destruct Hg as (_ & Hk & _).
Qed.
Lemma known_orderly sid w w' : known sid w -> orderly w w' -> known sid w'.
Proof.
  intros (Hok & f & src & Hc & Hid & Hr) Ho. destruct (orderly_grows w w' f src Hok Ho Hc) as (f' & src' & Hc' & Hg).
  destruct (Ho Hok) as [Hok' [_ Hs]]. split; [done|]. exists f', src'. split; [done|].
  destruct Hg as (Hi & _ & Hsh). split; [cbn in Hi; congruence|]. destruct Hr as [Hr|Hr]; [|right; by apply Hsh].
  destruct (Hs sid l _ Hr Hc) as [Hr'|(c'' & Hc'' & Hsh'')]; [by left|]. right. by simplify_eq.
Qed.
Lemma shut_orderly w w' : registry_ok w -> is_shut w -> orderly w w' -> is_shut w'.
Proof.
  intros Hok (f & src & Hc & Hs) Ho. destruct (orderly_grows w w' f src Hok Ho Hc) as (f' & src' & Hc' & _ & _ & Hg).
  exists f', src'. split; [done|by apply Hg].
Qed.

Lemma open_run sid w : known sid w -> still_open l w = (Ret true, w) \/ (still_open l w = (Ret false, w) /\ is_shut w).
Proof.
  intros (_ & f & src & Hc & _). unfold still_open, gets, the_ft. rewrite Hc. cbn.
  destruct (_closing f) eqn:E1, (_ftSessionEnded f) eqn:E2; cbn; [right; split; [done|]; exists f, src..|by left]; auto.
Qed.
Lemma end_open sid w title text : known sid w -> still_open l w = (Ret true, w) ->
  exists w', end_this title text w = (Ret tt, w') /\ is_shut w'.
Proof.
  intros (Hok & f & src & Hc & Hid & Hr) Ho. unfold still_open, gets, the_ft in Ho. rewrite Hc in Ho. cbn in Ho.
  destruct (_closing f) eqn:E1; [done|]. destruct (_ftSessionEnded f) eqn:E2; [done|].
  destruct Hr as [Hr|[Hr|Hr]]; [|congruence..].
  destruct (endFileTransferSession_run sid title text w l f src) as (w' & E & _ & _ & Hc'); try done.
  exists w'. split; [|exists (ended f), src; split; [done|]; left; by destruct f].
  unfold end_this, ft_sid. rewrite bind_gets. unfold the_ft. rewrite Hc. cbn. by rewrite Hid.
Qed.
(** Ending an open session shuts it; a shut one stays shut. *)
Lemma end_if_open sid w title text : known sid w -> exists w',
  (open ← still_open l; if (open : bool) then end_this title text else skip) w = (Ret tt, w') /\ is_shut w'.
Proof.
  intros Hk. destruct (open_run sid w Hk) as [E|[E Hs]]; erewrite bind_eq by exact E; cbv iota.
  - by apply (end_open sid).
  - by exists w.
Qed.
Lemma end_this_shuts sid w title text : known sid w -> is_shut (exec (end_this title text) w).
Proof.
  intros Hk. destruct (open_run sid w Hk) as [E|[E Hs]].
  - destruct (end_open sid w title text Hk E) as (w' & E' & Hs). unfold exec. by rewrite E'.
  - apply (shut_orderly w); [apply Hk|done|apply end_this_orderly].
Qed.

(** Sockets come only from [run_session]. *)
Definition no_socket (s s' : base * page) : Prop := _ws s.1 = None -> _ws s'.1 = None.
#[local] Instance no_socket_pre : PreOrder no_socket.
Proof. split; unfold no_socket; [by intros ?|]. intros x y z. auto. Qed.
Lemma on_base_quiet {A} (m : js (base * page) A) : preserves same_id_base m -> preserves no_socket m ->
  preserves quiet (on_ft_base l m).
Proof.
  intros Hi Hn w. split; [by apply in_base_orderly|]. unfold has_ws, the_ft, on_ft_base, on_ft.
  destruct (conn_at l w) as [[[f|r] src]|] eqn:E; cbn [instance snd]; [|by rewrite E..].
  unfold in_base, zoom. cbn [fst snd]. specialize (Hn (super f, wpage w)).
  destruct (m (super f, wpage w)) as [x [b pg]]. cbn [mbind option_bind instance fst snd] in *. intros Hf.
  assert (Hw : _ws (super f) = None) by (by destruct (_ws (super f))). specialize (Hn Hw). cbn in Hn.
  unfold conn_at, put_conn in *. destruct w; cbn in *. unfold constant.
  rewrite list_lookup_insert_eq by (by eapply lookup_lt_Some). cbn. destruct f; cbn. by rewrite Hn.
Qed.
(** What the browser reports on the session's socket while the session waits is quiet. *)
Definition socket_event (ev : browser_event) : world -> world := exec (on_ft_base l (on_ws (modify (deliver ev)))).
Lemma socket_event_quiet ev w : quiet w (socket_event ev w).
Proof.
  apply on_base_quiet; [apply on_ws_keeps|]. intros [c pg] Hn. unfold on_ws. cbn in *. by rewrite Hn.
Qed.
Lemma prepareConnect_quiet id : preserves quiet (on_ft_base l (prepareConnect id)).
Proof.
  apply on_base_quiet; [apply prepareConnect_keeps|]. unfold prepareConnect, startMessagePump.
  solve_preserves_with ltac:(intros [c pg] Hc; destruct c; exact Hc).
Qed.
Lemma progress_quiet : preserves quiet (on_ft l (update (fun c => c <| _progressInterval := true |>))).
Proof.
  intros w. split; [apply on_ft_orderly; by_update|]. unfold has_ws, the_ft, on_ft.
  destruct (conn_at l w) as [[[f|r] src]|] eqn:E; cbn [instance snd]; [|by rewrite E..].
  unfold conn_at, put_conn in *. destruct w; cbn in *. unfold constant.
  rewrite list_lookup_insert_eq by (by eapply lookup_lt_Some). by destruct f.
Qed.

#[local] Instance quiet_pre : PreOrder quiet.
Proof.
  split; [intros w; split; [reflexivity|done]|]. intros a b c [O1 W1] [O2 W2].
  split; [by etrans|auto].
Qed.
#[local] Instance quiet_orderly : subrelation quiet orderly.
Proof. by intros w w' []. Qed.

(** *** A session id, from one wait to the next
    [triple P m Q]: from a state in [P], while the page stays quiet, [m] returns in [Q] or throws
    with the session still known. *)
Context (sid : string).
Definition triple {A} (P : world -> Prop) (m : async A) (Q : A -> world -> Prop) : Prop :=
  forall w fs, P w -> meanwhile_keeps quiet fs ->
    let '(r, (w', fs')) := m (w, fs) in
    meanwhile_keeps quiet fs' /\
    match r with Ret a => Q a w' | Throw _ => known sid w' | OutOfFuel => True end.
(** Known and not connected yet; known and shut. *)
Definition fresh (w : world) : Prop := known sid w /\ has_ws w = false.
Definition over (w : world) : Prop := known sid w /\ is_shut w.

Lemma triple_bind {A B} P (m : async A) Q (k : A -> async B) R :
  triple P m Q -> (forall a, triple (Q a) (k a) R) -> triple P (m ≫= k) R.
Proof.
  intros Hm Hk w fs Hp Hf. specialize (Hm w fs Hp Hf). unfold mbind, js_bind.
  destruct (m (w, fs)) as [[a|e|] [w' fs']]; destruct Hm as [Hf' Hm]; [by apply Hk|done|done].
Qed.
Lemma triple_ret {A} (P : world -> Prop) (a : A) (Q : A -> world -> Prop) :
  (forall w, P w -> Q a w) -> triple P (mret a) Q.
Proof. intros HPQ w fs Hp Hf. split; [done|by apply HPQ]. Qed.
Lemma triple_pre {A} (P P' : world -> Prop) (m : async A) Q : (forall w, P w -> P' w) -> triple P' m Q -> triple P m Q.
Proof. intros HP Hm w fs Hp Hf. apply Hm; auto. Qed.
Lemma triple_post {A} P (m : async A) (Q Q' : A -> world -> Prop) :
  triple P m Q -> (forall a w, Q a w -> Q' a w) -> triple P m Q'.
Proof.
  intros Hm HQ w fs Hp Hf. specialize (Hm w fs Hp Hf). destruct (m (w, fs)) as [[a|e|] [w' fs']]; destruct Hm; auto.
Qed.
Lemma triple_lift {A} (o : outcome A) P : (forall w, P w -> known sid w) -> triple P (lift_outcome o) (fun _ => P).
Proof. intros HP w fs Hp Hf. split; [done|]. destruct o; auto. Qed.

Lemma fresh_quiet w w' : fresh w -> quiet w w' -> fresh w'.
Proof. intros [Hk Hn] [Ho Hw]. split; [by apply (known_orderly sid w)|auto]. Qed.
Lemma over_orderly w w' : over w -> orderly w w' -> over w'.
Proof. intros [Hk Hs] Ho. split; [by apply (known_orderly sid w)|]. apply (shut_orderly w); [apply Hk|done..]. Qed.
Lemma triple_fresh {A} (m : async A) : preserves (async_keeps quiet) m -> triple fresh m (fun _ => fresh).
Proof.
  intros Hm w fs Hw Hf. specialize (Hm (w, fs) Hf). destruct (m (w, fs)) as [r [w' fs']]. destruct Hm as [Hq Hf'].
  split; [done|]. pose proof (fresh_quiet w w' Hw Hq) as Hw'. destruct r; [done|apply Hw'|done].
Qed.
Lemma triple_known {A} (m : async A) :
  preserves (async_keeps_under quiet orderly) m -> triple (known sid) m (fun _ => known sid).
Proof.
  intros Hm w fs Hw Hf. specialize (Hm (w, fs) Hf). destruct (m (w, fs)) as [r [w' fs']]. destruct Hm as [Ho Hf'].
  split; [done|]. pose proof (known_orderly sid w w' Hw Ho). by destruct r.
Qed.
Lemma triple_sync_known {A} (m : js world A) : preserves orderly m -> triple (known sid) (sync m) (fun _ => known sid).
Proof. intros Hm. by apply triple_known, (preserves_sync quiet orderly). Qed.
Lemma triple_end title text : triple (known sid) (sync (end_this title text)) (fun _ => over).
Proof.
  intros w fs Hw Hf. unfold sync. cbn [fst snd]. pose proof (end_this_shuts sid w title text Hw) as Hs.
  pose proof (known_orderly sid w _ Hw (end_this_orderly title text w)) as Hk. unfold exec in Hs.
  destruct (end_this title text w) as [r w']. split; [done|]. by destruct r.
Qed.

(** As [triple], and nothing is thrown. *)
Definition settled {A} (P : world -> Prop) (m : async A) (Q : A -> world -> Prop) : Prop :=
  forall w fs, P w -> meanwhile_keeps quiet fs ->
    let '(r, (w', fs')) := m (w, fs) in
    meanwhile_keeps quiet fs' /\
    match r with Ret a => Q a w' | Throw _ => False | OutOfFuel => True end.
Lemma settled_bind {A B} P (m : async A) Q (k : A -> async B) R :
  settled P m Q -> (forall a, settled (Q a) (k a) R) -> settled P (m ≫= k) R.
Proof.
  intros Hm Hk w fs Hp Hf. specialize (Hm w fs Hp Hf). unfold mbind, js_bind.
  destruct (m (w, fs)) as [[a|e|] [w' fs']]; destruct Hm as [Hf' Hm]; [by apply Hk|done|done].
Qed.
Lemma settled_base {A} (f : base * page -> A * (base * page)) :
  preserves same_id_base (fun s => (Ret (f s).1, (f s).2)) -> preserves no_socket (fun s => (Ret (f s).1, (f s).2)) ->
  settled fresh (sync (on_ft_base l (fun s => (Ret (f s).1, (f s).2)))) (fun _ => fresh).
Proof.
  intros Hi Hn w fs Hw Hf. unfold sync. cbn [fst snd].
  pose proof (fresh_quiet w _ Hw (on_base_quiet _ Hi Hn w)) as Hw'.
  destruct Hw as [(_ & fx & src & Hc & _) _]. revert Hw'. unfold on_ft_base, on_ft. rewrite Hc. cbn [instance].
  unfold in_base, zoom. by destruct (f _) as [a [b pg]].
Qed.
Lemma settled_catch {A} P (m : async A) (h : jsval -> async A) Q :
  triple P m Q -> (forall e, settled (known sid) (h e) Q) -> settled P (try_catch m h) Q.
Proof.
  intros Hm Hh w fs Hp Hf. specialize (Hm w fs Hp Hf). unfold try_catch.
  destruct (m (w, fs)) as [[a|e|] [w' fs']]; destruct Hm as [Hf' Hm]; [done| |done]. by apply Hh.
Qed.

Lemma settled_triple {A} P (m : async A) Q : settled P m Q -> triple P m Q.
Proof.
  intros Hm w fs Hp Hf. specialize (Hm w fs Hp Hf). destruct (m (w, fs)) as [[a|e|] [w' fs']]; by destruct Hm.
Qed.
Lemma settled_sync {A} (P : world -> Prop) (m : js world A) (Q : A -> world -> Prop) :
  (forall w, P w -> exists a w', m w = (Ret a, w') /\ Q a w') -> settled P (sync m) Q.
Proof. intros Hm w fs Hp Hf. unfold sync. cbn [fst snd]. by destruct (Hm w Hp) as (a & w' & -> & Hq). Qed.

(** The message loop does not throw, and it leaves the session shut. *)
Lemma msgLoop_over fuel : settled (known sid) (msgLoop float_json l fuel) (fun _ => over).
Proof.
  unfold msgLoop. apply (settled_bind _ _ (fun _ => known sid)).
  - apply settled_catch.
    + apply (triple_bind _ _ (fun _ => known sid)); [apply triple_known, ft_loop_orderly, _|].
      intros _. by apply triple_ret.
    + intros e. apply settled_sync. intros w Hk. pose proof Hk as (_ & f & src & Hc & _). unfold loop_failed.
      destruct (open_run sid w Hk) as [Eo|[Eo _]]; erewrite bind_eq by exact Eo; cbv iota; [|by eexists _, w].
      assert (Ef : on_ft l (failActiveJobs "Connection lost") w = (Ret tt, exec (on_ft l (failActiveJobs "Connection lost")) w)).
      { unfold exec. erewrite on_ft_exact; [|exact Hc|apply failActiveJobs_run]. done. }
      erewrite bind_eq by exact Ef. eexists _, _. split; [done|]. apply (known_orderly sid w); [done|].
      apply on_ft_orderly, failActiveJobs_keeps.
  - intros msg. apply settled_sync. intros w Hk. exists tt.
    destruct (end_if_open sid w
      (if match msg with Some m => truthy m | None => false end then "Connection Error" else "File transfer")
      (default "File transfer session ended" msg) Hk) as (w2 & E2 & Hs). exists w2. split; [exact E2|].
    split; [|done]. apply (known_orderly sid w); [done|].
    assert (Hp : preserves orderly (loop_over l msg)) by (unfold loop_over; solve_preserves).
    specialize (Hp w). unfold loop_over in Hp. unfold end_this in E2. by rewrite E2 in Hp.
Qed.

Lemma run_session_over fuel ws :
  triple (known sid) (run_session (msgLoop float_json l fuel) ws) (fun _ => over).
Proof.
  unfold run_session, on_base_async.
  apply (triple_bind _ _ (fun _ => known sid)); [apply triple_sync_known; by_base|]. intros _.
  apply (triple_bind _ _ (fun _ => known sid)); [apply triple_sync_known; by_base|]. intros _.
  intros w fs Hw Hf. unfold try_finally. pose proof (msgLoop_over fuel w fs Hw Hf) as Hm.
  destruct (msgLoop float_json l fuel (w, fs)) as [r [w' fs']]. destruct Hm as [Hf' Hm].
  assert (Hlast : preserves orderly (on_base (SessionBase.setIngressHandler false))) by by_base.
  destruct r as [[]|e|]; [|done|done].
  unfold mbind, js_bind, sync. cbn [fst snd]. specialize (Hlast w').
  destruct (on_base _ w') as [r w2]. pose proof (over_orderly w' w2 Hm Hlast) as Ho2.
  destruct r; (split; [done|]); [done|apply Ho2|done].
Qed.

Ltac quiet_step := apply triple_fresh, preserves_sync, on_base_quiet;
  [ first [ solve [solve_preserves] | by intros [c pg] ]
  | first [ solve [solve_preserves] | intros [c pg] Hn; exact Hn ] ].
Lemma connectRelay_over fuel d rr :
  triple fresh (Connect.connectRelay (msgLoop float_json l fuel) d rr) (fun _ => over).
Proof.
  unfold Connect.connectRelay, on_base_async.
  do 3 (apply (triple_bind _ _ (fun _ => fresh)); [quiet_step|]; intros ?).
  apply (triple_bind _ _ (fun _ => fresh)); [apply triple_fresh, preserves_pause; apply _|]. intros _.
  destruct (relay_handshake _ _ _ _ _) as [r e].
  apply (triple_bind _ _ (fun _ => fresh)); [quiet_step|]. intros _.
  apply (triple_bind _ _ (fun _ => fresh)); [apply triple_lift; by intros w []|]. intros _.
  apply (triple_pre _ (known sid)); [by intros w []|apply run_session_over].
Qed.

(** Connecting either ran the session to its end, or reported a failure and ended it, or left it as
    it was, without a socket. *)
Lemma establish_over fuel d :
  triple fresh (establishConnection (reportConnectError l) (msgLoop float_json l fuel) d ConnType.FILE_TRANSFER)
    (fun ok w => over w \/ (ok = false /\ fresh w)).
Proof.
  unfold establishConnection, on_base_async.
  do 2 (apply (triple_bind _ _ (fun _ => fresh)); [quiet_step|]; intros ?).
  apply (triple_bind _ _ (fun _ => fresh)); [apply triple_fresh, preserves_pause; apply _|]. intros _.
  unfold startPunchHole. apply (triple_bind _ _ (fun _ => fresh)); [apply triple_lift; by intros w []|]. intros msg.
  assert (Hno : triple fresh (mret false) (fun ok w => over w \/ (ok = false /\ fresh w)))
    by (apply triple_ret; by right).
  assert (Hrep : forall title text, triple fresh (sync (reportConnectError l title text);; mret false)
      (fun ok w => over w \/ (ok = false /\ fresh w))).
  { intros title text. apply (triple_bind _ _ (fun _ => over)).
    - apply (triple_pre _ (known sid)); [by intros w []|apply triple_end].
    - intros _. apply triple_ret. by left. }
  destruct msg as [msg|msg]; [|done].
  destruct (RendezvousMessage.punch_hole_response msg) as [phr|].
  - destruct (truthy _); [apply Hrep|]. by destruct (negb _).
  - destruct (RendezvousMessage.relay_response msg) as [rr|]; [|done].
    destruct (negb _); [apply Hrep|]. apply (triple_bind _ _ (fun _ => over)); [apply connectRelay_over|].
    intros _. apply triple_ret. by left.
Qed.

Lemma _start_over fuel d id : triple fresh (_start d fuel id) (fun _ => over).
Proof.
  unfold _start.
  apply (triple_bind _ _ (fun _ => fresh)); [apply triple_fresh, preserves_sync, prepareConnect_quiet|]. intros _.
  apply (triple_bind _ _ (fun _ => fresh)); [apply triple_fresh, preserves_sync, progress_quiet|]. intros _.
  apply (triple_bind _ _ _ _ _ (establish_over fuel d)). intros ok w fs Hw Hf.
  rewrite sync_bind. cbn [fst snd gets]. rewrite sync_bind. cbn [fst snd].
  assert (Hk : known sid w) by (destruct Hw as [[]|[_ []]]; done).
  destruct (open_run sid w Hk) as [Eo|[Eo Hs]]; rewrite Eo.
  - destruct Hw as [[_ Hs]|[-> [_ Hn]]].
    + destruct Hs as (f & src & Hc & Hs). unfold still_open, gets, the_ft in Eo. rewrite Hc in Eo. cbn in Eo.
      by destruct Hs as [Hs|Hs]; rewrite Hs in Eo; [|rewrite andb_false_r in Eo].
    + rewrite Hn. cbn [negb andb]. by apply (triple_end "Connection Error" "Failed to connect file transfer session" w fs).
  - rewrite andb_false_r. split; [done|]. by split.
Qed.

Lemma start_over fuel d id pw :
  settled fresh (start d fuel id pw) (fun _ => over).
Proof.
  unfold start.
  assert (Hset : forall (b : bool) (f : base -> base), (forall c, _sessionId (f c) = _sessionId c /\ _ws (f c) = _ws c) ->
    settled fresh (if b then sync (on_ft_base l (update f)) else skip) (fun _ => fresh)).
  { intros [|] f Hc; [|by intros w fs].
    apply (settled_base (fun s => (tt, (f s.1, s.2)))); intros [c pg]; [apply Hc|].
    unfold no_socket. cbn. by rewrite (proj2 (Hc c)). }
  apply (settled_bind _ _ (fun _ => fresh)); [apply Hset; by intros []|]. intros _.
  apply (settled_bind _ _ (fun _ => fresh)); [apply Hset; by intros []|]. intros _.
  apply (settled_bind _ _ (fun _ => fresh)).
  { apply (settled_base (fun s => (_id s.1, s))); intros s; [done|]. by unfold no_socket. }
  intros id'. apply settled_catch; [apply _start_over|]. intros e w fs Hk Hf.
  rewrite sync_bind. cbn [fst snd].
  destruct (open_run sid w Hk) as [Eo|[Eo Hs]]; rewrite Eo; [|by split].
  set (text := if is_close_event e then _ else _).
  destruct (end_open sid w "Connection Error" text Hk Eo) as (w' & E & Hs).
  pose proof (known_orderly sid w _ Hk (end_this_orderly "Connection Error" text w)) as Hk'.
  unfold sync. cbn [fst snd]. rewrite E in Hk' |- *. by split.
Qed.


(** Picking a folder in which nothing can be uploaded shows an error box, and an error box of a
    transfer session ends it. *)
Lemma empty_folder_ends_session w f src chosen :
  registry_ok w -> registered w sid l ->
  conn_at l w = Some {| instance := FtConn f; _passwordSource := src |} ->
  _closing f = false -> _ftSessionEnded f = false -> chosen <> [] ->
  (forall hid, buildFolderUploadPlan localeCompare chosen hid = None) ->
  exists w', selectFiles true chosen (w, [fun w => w]) = (Ret tt, (w', [])) /\ map_get (sessions w') sid = None.
Proof.
  intros Hok Hreg Hc Hcl Hen Hne Hplan. unfold selectFiles. rewrite pause_bind, sync_bind. cbn [fst snd].
  set (w1 := put_conn l {| instance := FtConn f; _passwordSource := src |} w
    <| wpage := (wpage w) <| page_io := (page_io (wpage w)) <| lastPickedFiles := chosen |> |> |>).
  assert (E1 : on_ft l (with_io (pickFiles chosen)) w = (Ret chosen, w1)) by (by apply (on_ft_exact l _ f f src)).
  rewrite E1. destruct chosen as [|f0 chosen]; [done|]. rewrite sync_bind. cbn [fst snd].
  assert (Hc1 : conn_at l w1 = Some {| instance := FtConn f; _passwordSource := src |})
    by (apply conn_at_put; destruct w; cbn in *; by eexists).
  assert (E2 : on_ft_base l (self (fun c => option_truthy (getOption "remote_show_hidden" c))) w1 =
    (Ret (option_truthy (getOption "remote_show_hidden" (super f))),
     put_conn l {| instance := FtConn f; _passwordSource := src |} (w1 <| wpage := wpage w1 |>))).
  { apply (on_ft_exact l _ f f src); [done|]. by destruct f. }
  rewrite E2, Hplan. set (w2 := put_conn l _ _).
  assert (Hc2 : conn_at l w2 = Some {| instance := FtConn f; _passwordSource := src |})
    by (apply conn_at_put; destruct w1; cbn in *; by eexists).
  assert (Hok2 : registry_ok w2).
  { assert (Hreg1 : registered w1 sid l) by (unfold registered in *; subst w1; clear -Hreg; by destruct w).
    assert (Hput : forall w0 pg, registry_ok w0 -> registered w0 sid l ->
      conn_at l w0 = Some {| instance := FtConn f; _passwordSource := src |} ->
      registry_ok (put_conn l {| instance := FtConn f; _passwordSource := src |} (w0 <| wpage := pg |>))).
    { intros. by apply (put_keeps_registry l sid f). }
    apply Hput; [|done..]. by apply Hput. }
  destruct (endFileTransferSession_run sid "Error" "No files found in selected folder" w2 l f src)
    as (w3 & E3 & _ & Hg & _); try done.
  exists w3. split; [|done]. unfold sync. cbn [fst snd]. unfold ft_msgbox. cbn [String.eqb Ascii.eqb Bool.eqb orb].
  unfold ft_sid. rewrite bind_gets. unfold the_ft. rewrite Hc2. cbn [mbind option_bind instance].
  destruct (carries_id w Hok sid l Hreg) as (_ & c & Hc' & Hid). simplify_eq. cbn in Hid. rewrite Hid.
  change (or_empty "Error" "File transfer") with "Error".
  change (or_empty "No files found in selected folder" _) with "No files found in selected folder". by rewrite E3.
Qed.
End FtStart.
