(* ===== verification/RdSession.v ===== *)
(** * The remote-desktop session in the page

    The part of [connections/rd_connection.ts] that shows message boxes, which can close sessions:
    the message loop and its handlers, and [start].  The connection [l] is [this]; [rd_session]
    makes it an instance of the session interface.  What the decoder does with each frame, and what
    the rest of the page does at each wait, are arguments. *)
From S2P Require Import Prelude JsMap JsStr Json Bytes ProtoWire ProtoEnums ProtoSession ProtoMedia ProtoMessage.
From S2P Require Import ProtoRendezvous Crypto Config PushEvent Websock SessionConnect FtProtocol FtBrowserIo FtZip.
From S2P Require Import Audio Page FtJobs SessionBase FtConnection Common RdOptions RdConnection Keeps Sessions.
From S2P Require Import FtJobsFacts SessionsFacts SessionsEnd Connect FtSession FtStart.
From Stdlib Require Import Floats.SpecFloat.
Local Open Scope string_scope.

Section RdSession.
Context `{ProtobufRuntime} `{Sodium} `{Zstd} `{Fflate}.
Context (float_json : spec_float -> json) (decoder : nat -> EncodedVideoFrame.t -> submission) (l : connref).

Definition the_rd (w : world) : option rd :=
  c ← conn_at l w; match instance c with RdConn f => Some f | FtConn _ => None end.
Definition on_rd_base {A} (m : js (base * page) A) : js world A := on_rd l (in_super m).
Definition rd_ev (name : string) (p : payload) : js world unit := on_rd_base (ev name p).

#[export] Instance rd_session : Session world := {|
  alive w := is_Some (the_rd w);
  project w := (match the_rd w with Some f => rsuper f | None => newBase end, wpage w);
  on_base A m := on_rd_base m;
  onPasswordRequired := bridge_msgbox "input-password" "Password Required" "";
  buildLoginRequest p := on_rd l (buildRdLoginRequest p);
  msgbox := bridge_msgbox;
|}.

Definition rd_reportConnectError (title text : string) : js world unit := bridge_msgbox "error" title text.

(** The members of a message object, as the payload of an event. *)
Definition json_payload (j : json) : payload :=
  match j with
  | JObj o => map (fun kv => (kv.1, match kv.2 with JStr s => EvStr s | v => EvJson v end)) o
  | _ => []
  end.

(** [this.getOption("info")?.username] *)
Definition stored_username (b : base) : option string :=
  match getOption "info" b with
  | Some info => match json_field info "username" with Some (JStr u) => Some u | _ => None end
  | None => None
  end.

Definition rd_handlePeerInfo (pi : PeerInfo.t) : js world unit :=
  on_rd_base (update (fun c => c <| _peerInfo := Some pi |>));;
  if (len (PeerInfo.displays pi) =? 0)%Z then bridge_msgbox "error" "Remote Error" "No Display"
  else
    bridge_msgbox "success" "Successful" "Connected, waiting for image...";;
    rd_ev "peer_info" (json_payload (peer_info_json float_json pi));;
    p ← on_rd_base (self shouldAutoLogin);
    (if truthy p then on_rd l (inputOsPassword p) else skip);;
    stored ← on_rd_base (self stored_username);
    let pi := match stored with
              | Some u => if truthy u && negb (truthy (PeerInfo.username pi)) then pi <| PeerInfo.username := u |> else pi
              | None => pi
              end in
    on_rd_base (update (fun c => c <| _peerInfo := Some pi |>));;
    on_rd_base (setOption "info" (Some (peer_info_json float_json pi)));;
    remember ← on_rd l (self getRemember);
    if (remember : bool) then on_rd_base (persistPasswordIfRemembered true)
    else on_rd_base (setOption "password" None).

Definition permission_name (p : Z) : option string :=
  if (p =? PermissionInfo_Permission.Keyboard)%Z then Some "keyboard"
  else if (p =? PermissionInfo_Permission.Clipboard)%Z then Some "clipboard"
  else if (p =? PermissionInfo_Permission.Audio)%Z then Some "audio"
  else None.

Definition switch_display_json (sd : SwitchDisplay.t) : json :=
  JObj ([("display", JNum (SwitchDisplay.display sd)); ("x", JNum (SwitchDisplay.x sd)); ("y", JNum (SwitchDisplay.y sd));
         ("width", JNum (SwitchDisplay.width sd)); ("height", JNum (SwitchDisplay.height sd));
         ("cursor_embedded", JBool (SwitchDisplay.cursor_embedded sd))]
        ++ match SwitchDisplay.resolutions sd with
           | Some r => [("resolutions", JObj [("resolutions",
                          JArr (map resolution_json (SupportedResolutions.resolutions r)))])] | None => [] end
        ++ match SwitchDisplay.original_resolution sd with
           | Some r => [("original_resolution", resolution_json r)] | None => [] end)%list.
(** The size of a display the peer listed. *)
Definition resize_display (sd : SwitchDisplay.t) (pi : PeerInfo.t) : PeerInfo.t :=
  let idx := SwitchDisplay.display sd in
  if (idx <? 0)%Z then pi
  else pi <| PeerInfo.displays ::= alter (fun d => d <| DisplayInfo.width := SwitchDisplay.width sd |>
                                                     <| DisplayInfo.height := SwitchDisplay.height sd |>) (Z.to_nat idx) |>.

(** Whether the message loop goes on. *)
Definition handleMisc (misc : Misc.t) : js world bool :=
  match Misc.audio_format misc, Misc.chat_message misc, Misc.permission_info misc, Misc.switch_display misc,
        Misc.close_reason misc with
  | Some af, _, _, _, _ =>
      on_rd l (update_page (fun pg => pg <| sound ::= initAudio (AudioFormat.channels af) (AudioFormat.sample_rate af) |>));;
      mret true
  | None, Some cm, _, _, _ => rd_ev "chat" (strs [("text", ChatMessage.text cm)]);; mret true
  | None, None, Some p, _, _ =>
      match permission_name (PermissionInfo.permission p) with
      | Some name => rd_ev "permission" [(name, EvJson (JBool (PermissionInfo.enabled p)))];; mret true
      | None => mret true
      end
  | None, None, None, Some sd, _ =>
      rd_ev "switch_display" (json_payload (switch_display_json sd));;
      on_rd_base (update (fun c => c <| _peerInfo := option_map (resize_display sd) (_peerInfo c) |>));;
      pi ← on_rd_base (self _peerInfo);
      on_rd_base (setOption "info" (option_map (peer_info_json float_json) pi));;
      mret true
  | None, None, None, None, Some reason =>
      if truthy reason then
        bridge_msgbox "error" "Connection Error" reason;;
        on_rd l rd_close;;
        mret false
      else mret true
  | None, None, None, None, None => mret true
  end.

Definition rd_handleLoginResponse (r : LoginResponse.t) : js world unit :=
  match LoginResponse.error r, LoginResponse.peer_info r with
  | Some e, pi =>
      if truthy e then
        if e =? "Wrong Password" then
          on_rd_base (update (fun c => c <| _password := None |>));;
          bridge_msgbox "re-input-password" e "Do you want to enter again?"
        else bridge_msgbox "error" "Login Error" e
      else match pi with Some pi => rd_handlePeerInfo pi | None => skip end
  | None, Some pi => rd_handlePeerInfo pi
  | None, None => skip
  end.

Definition unpack (data : bytes) : js world (option bytes) :=
  on_rd l (fun s => let '(d, ready) := decompress (zstd_ready s.2) data in
                    (Ret d, (s.1, s.2 <| zstd_ready := ready |>))).

(** The last three cases of the loop's body. *)
Definition rest_of_dispatch (pos : option CursorPosition.t) (misc : option Misc.t) (audio : option AudioFrame.t) :
    js world bool :=
  match pos, misc, audio with
  | Some p, _, _ =>
      rd_ev "cursor_position" [("x", EvJson (JNum (CursorPosition.x p))); ("y", EvJson (JNum (CursorPosition.y p)))];;
      mret true
  | None, Some m, _ => handleMisc m
  | None, None, Some a => on_rd l (update_page (fun pg => pg <| sound ::= playAudio (AudioFrame.data a) |>));; mret true
  | None, None, None => mret true
  end.
(** The body of the loop for one message: whether the loop goes on. *)
Definition rd_dispatch (msg : Message.t) : js world bool :=
  match Message.hash msg, Message.login_response msg, Message.video_frame msg, Message.clipboard msg,
        Message.cursor_data msg, Message.cursor_id msg, Message.cursor_position msg, Message.misc msg,
        Message.audio_frame msg with
  | Some h, _, _, _, _, _, _, _, _ => on_rd_base (update (fun b => b <| _hash := Some h |>));; handleHashMessage;; mret true
  | None, Some r, _, _, _, _, _, _, _ => rd_handleLoginResponse r;; mret true
  | None, None, Some vf, _, _, _, _, _, _ => on_rd l (handleVideoFrame decoder vf);; mret true
  | None, None, None, Some cb, _, _, _, _, _ =>
      content ← (if Clipboard.compress cb then unpack (Clipboard.content cb) else mret (Some (Clipboard.content cb)));
      match content with
      | Some b => on_rd l (update (fun c => c <| clipboard := (clipboard c ++ [b])%list |>));; mret true
      | None => mret true
      end
  | None, None, None, None, Some cd, _, _, _, _ =>
      colors ← unpack (CursorData.colors cd);
      match colors with
      | Some b =>
          rd_ev "cursor_data" [("id", EvJson (JNum (CursorData.id cd))); ("hotx", EvJson (JNum (CursorData.hotx cd)));
            ("hoty", EvJson (JNum (CursorData.hoty cd))); ("width", EvJson (JNum (CursorData.width cd)));
            ("height", EvJson (JNum (CursorData.height cd))); ("colors", EvBytes b)];;
          mret true
      | None => mret true
      end
  | None, None, None, None, None, cid, pos, misc, audio =>
      match cid with
      | Some id => if truthy id then rd_ev "cursor_id" [("id", EvJson (JNum id))];; mret true
                   else rest_of_dispatch pos misc audio
      | None => rest_of_dispatch pos misc audio
      end
  end.

(** ** The message loop
    Between two polls of the session's socket the page goes on. *)
Abbreviation async A := (js (world * list (world -> world)) A).
Fixpoint rd_loop (fuel : nat) : async unit :=
  match fuel with
  | O => lift_outcome OutOfFuel
  | S fuel =>
      msg ← sync (on_rd_base poll_socket);
      match msg with
      | None => skip
      | Some None => pause;; rd_loop fuel
      | Some (Some (Websock.Rendezvous _)) => rd_loop fuel
      | Some (Some (Websock.Session m)) =>
          go ← sync (rd_dispatch m);
          if (go : bool) then rd_loop fuel else skip
      end
  end.
Definition rd_msgLoop (fuel : nat) : async unit :=
  try_catch (rd_loop fuel) (fun error => sync (bridge_msgbox "error" "Connection Error" (js_String error))).

(** ** Starting *)
Definition rd__start (d : dial) (fuel : nat) (id : string) : async unit :=
  sync (on_rd_base (prepareConnect id));;
  sync (on_rd l loadVideoDecoder);;
  establishConnection rd_reportConnectError (rd_msgLoop fuel) d ConnType.DEFAULT_CONN;;
  skip.
Definition rd_start (d : dial) (fuel : nat) (id password : option string) : async unit :=
  (if match id with Some id => truthy id | None => false end then
     sync (on_rd_base (setPeerId (default "" id))) else skip);;
  (if match password with Some pw => truthy pw | None => false end then
     sync (on_rd_base (setPlaintextPassword (default "" password))) else skip);;
  id ← sync (on_rd_base (self _id));
  try_catch (rd__start d fuel id)
    (fun e => sync (bridge_msgbox "error" "Connection Error"
       (if is_close_event e then "Reset by the peer" else js_String e))).
(** [start] is not awaited: it is run in place. *)
Definition restart (d : dial) (fuel : nat) : async unit :=
  sync (on_rd l rd_close);;
  id ← sync (on_rd_base (self _id));
  rd_start d fuel (Some id) None.

(** ** The session interface *)
Lemma the_rd_conn f w : the_rd w = Some f -> exists src, conn_at l w = Some {| instance := RdConn f; _passwordSource := src |}.
Proof.
  unfold the_rd. destruct (conn_at l w) as [[[f'|f'] src]|] eqn:E; try done. cbn. intros [= ->]. by exists src.
Qed.
Lemma on_rd_exact {A} (m : js (rd * page) A) f f' src pg' r w :
  conn_at l w = Some {| instance := RdConn f; _passwordSource := src |} ->
  m (f, wpage w) = (r, (f', pg')) ->
  on_rd l m w = (r, put_conn l {| instance := RdConn f'; _passwordSource := src |} (w <| wpage := pg' |>)).
Proof. intros E Em. unfold on_rd. rewrite E. cbn [instance]. by rewrite Em. Qed.
Lemma the_rd_put f src w pg : is_Some (conn_at l w) ->
  the_rd (put_conn l {| instance := RdConn f; _passwordSource := src |} (w <| wpage := pg |>)) = Some f.
Proof. intros Hs. unfold the_rd. rewrite conn_at_put; [done|]. by destruct w. Qed.
Lemma on_rd_run {A} (m : js (rd * page) A) f w : the_rd w = Some f ->
  exists w', on_rd l m w = ((m (f, wpage w)).1, w') /\
    the_rd w' = Some (m (f, wpage w)).2.1 /\ wpage w' = (m (f, wpage w)).2.2.
Proof.
  intros Hf. destruct (the_rd_conn f w Hf) as [src Hc]. destruct (m (f, wpage w)) as [r [f' pg]] eqn:E.
  eexists. split; [by eapply on_rd_exact|]. split; [by apply the_rd_put|by destruct w].
Qed.

#[export] Instance rd_session_laws : SessionLaws world.
Proof.
  split; cbn [alive project on_base buildLoginRequest msgbox rd_session].
  - intros A m w [f Hf]. unfold on_rd_base.
    destruct (on_rd_run (in_super m) f w Hf) as (w' & E & Hf' & Hp). rewrite E, Hf. cbn [fst snd].
    rewrite Hf', Hp. unfold in_super, zoom. cbn [fst snd].
    destruct (m (rsuper f, wpage w)) as [r [b pg]]. cbn. split; [done|]. split; [by destruct f|]. by eexists.
  - intros p w [f Hf]. destruct (on_rd_run (buildRdLoginRequest p) f w Hf) as (w' & E & Hf' & Hp).
    rewrite Hf. eexists _, w'. split; [exact E|]. rewrite Hf'. cbn.
    split; [done|]. split; [done|]. split; [by destruct f|]. by eexists.
  - intros t x w [f Hf]. destruct (bridge_progress "connecting" t x w (or_introl eq_refl)) as [e ->].
    eexists. split; [done|]. assert (E : forall g, the_rd (w <| wpage ::= g |>) = the_rd w) by (intros; by destruct w).
    rewrite !E, Hf. split; [done|]. split; [done|]. by eexists.
Qed.

(** ** Everything a remote-desktop session does is orderly *)
Lemma rd_base_orderly {A} (m : js (base * page) A) : preserves same_id_base m -> preserves orderly (on_rd_base m).
Proof. intros Hm. apply on_rd_orderly, in_super_keeps, Hm. Qed.
Ltac by_base := apply rd_base_orderly; first [ solve [solve_preserves] | intros [?c ?pg]; solve [done | by destruct c] ].
Ltac by_rd := apply on_rd_orderly; first [ solve [solve_preserves] | intros [?c ?pg]; solve [done | by destruct c] ].
Lemma rd_send_keeps m : preserves same_id_rd (rd_send m).
Proof. apply in_super_keeps, sendMessage_keeps. Qed.
#[local] Hint Resolve rd_send_keeps : preserves.
Lemma handleVideoFrame_keeps vf : preserves same_id_rd (handleVideoFrame decoder vf).
Proof.
  unfold handleVideoFrame, submit, frame_callback, acknowledge, count_frame, sendVideoReceived, send_misc.
  solve_preserves_with ltac:(intros [?c ?pg]; solve [done | by destruct c | destruct c; cbn; by repeat case_match]).
Qed.
Lemma inputOsPassword_keeps p : preserves same_id_rd (inputOsPassword p).
Proof.
  unfold inputOsPassword, os_password_stage, move_mouse, inputMouse.
  solve_preserves_with ltac:(intros [?c ?pg]; by destruct c).
Qed.
Lemma buildRdLoginRequest_keeps p : preserves same_id_rd (buildRdLoginRequest p).
Proof.
  unfold buildRdLoginRequest.
  solve_preserves_with ltac:(apply in_super_keeps; intros [?c ?pg]; by destruct c).
Qed.
#[local] Hint Resolve handleVideoFrame_keeps inputOsPassword_keeps buildRdLoginRequest_keeps rd_close_keeps : preserves.
Lemma rd_ev_orderly n p : preserves orderly (rd_ev n p).
Proof. by_base. Qed.
Lemma unpack_orderly d : preserves orderly (unpack d).
Proof. apply on_rd_orderly. intros [c pg]. cbn. by destruct (decompress _ _). Qed.
#[local] Hint Resolve rd_ev_orderly unpack_orderly : preserves.
Lemma rd_handlePeerInfo_orderly pi : preserves orderly (rd_handlePeerInfo pi).
Proof. unfold rd_handlePeerInfo. solve_preserves_with ltac:(first [by_base | by_rd]). Qed.
Lemma handleMisc_orderly m : preserves orderly (handleMisc m).
Proof. unfold handleMisc. solve_preserves_with ltac:(first [by_base | by_rd]). Qed.
Lemma rd_handleHash_orderly : preserves orderly (handleHashMessage (W := world)).
Proof.
  apply handleHashMessage_keeps; [apply _|intros; by apply rd_base_orderly|..].
  - intros p. apply on_rd_orderly, buildRdLoginRequest_keeps.
  - intros ty title text. apply (bridge_msgbox_orderly ty title text).
  - apply (bridge_msgbox_orderly "input-password" "Password Required" "").
Qed.
#[local] Hint Resolve rd_handlePeerInfo_orderly handleMisc_orderly rd_handleHash_orderly : preserves.
Lemma rd_dispatch_orderly m : preserves orderly (rd_dispatch m).
Proof.
  unfold rd_dispatch, rest_of_dispatch, rd_handleLoginResponse.
  solve_preserves_with ltac:(first [by_base | by_rd]).
Qed.
#[local] Hint Resolve rd_dispatch_orderly : preserves.
Lemma rd_loop_orderly fuel : preserves (async_keeps orderly) (rd_loop fuel).
Proof. induction fuel as [|fuel IH]; cbn [rd_loop]; [solve_preserves|]. solve_preserves_with ltac:(by_base). Qed.
#[local] Hint Resolve rd_loop_orderly : preserves.
Lemma rd_msgLoop_orderly fuel : preserves (async_keeps orderly) (rd_msgLoop fuel).
Proof. unfold rd_msgLoop. solve_preserves. Qed.
Lemma rd_establish_orderly d fuel :
  preserves (async_keeps orderly) (establishConnection rd_reportConnectError (rd_msgLoop fuel) d ConnType.DEFAULT_CONN).
Proof.
  apply establishConnection_keeps; [apply _|intros; by apply rd_base_orderly| |apply rd_msgLoop_orderly].
  intros title text. apply bridge_msgbox_orderly.
Qed.
#[local] Hint Resolve rd_establish_orderly : preserves.
Lemma rd_start_orderly d fuel id pw : preserves (async_keeps orderly) (rd_start d fuel id pw).
Proof. unfold rd_start, rd__start, loadVideoDecoder. solve_preserves_with ltac:(first [by_base | by_rd]). Qed.

(** C38.  A remote-desktop session leaves the registry in order.  From a consistent registry, starting
    (or restarting) a session -- connecting, logging in, every message the peer sends, every
    message box that closes sessions, every exception -- and whatever orderly things the page does
    meanwhile lead to a consistent registry.  No connection of either kind vanishes or changes its
    kind or id, and a transfer session is missing from the registry only if it was closed or ended. *)
Theorem rd_session_is_orderly d fuel id pw w fs w' fs' r :
  registry_ok w -> meanwhile_keeps orderly fs -> restart d fuel (w, fs) = (r, (w', fs')) \/
    rd_start d fuel id pw (w, fs) = (r, (w', fs')) ->
  registry_ok w' /\
  (forall t c, conn_at t w = Some c -> exists c', conn_at t w' = Some c' /\
     isFileTransfer c' = isFileTransfer c /\ _sessionId (base_of c') = _sessionId (base_of c)) /\
  forall sid t f src, registered w sid t -> conn_at t w = Some {| instance := FtConn f; _passwordSource := src |} ->
    registered w' sid t \/
    exists f' src', conn_at t w' = Some {| instance := FtConn f'; _passwordSource := src' |} /\
      (_closing f' = true \/ _ftSessionEnded f' = true).
Proof.
  intros Hok Hf E.
  assert (Ho : orderly w w').
  { assert (Hr : preserves (async_keeps orderly) (restart d fuel)).
    { pose proof rd_start_orderly. unfold restart. solve_preserves_with ltac:(first [by_base | by_rd]). }
    pose proof (rd_start_orderly d fuel id pw (w, fs) Hf) as H1'. pose proof (Hr (w, fs) Hf) as H2'.
    destruct E as [E|E]; [rewrite E in H2'; apply H2'|rewrite E in H1'; apply H1']. }
  destruct (Ho Hok) as [Hok' [Hc Hs]]. split; [done|].
  split; [intros t c Et; destruct (Hc t c Et) as (c' & Ec' & Ei & Ek & _); by exists c'|]. intros sid t f src Hreg Hconn.
  destruct (Hs sid t _ Hreg Hconn) as [Hr'|(c' & Hc' & Hsh)]; [by left|right].
  destruct (Hc t _ Hconn) as (c2 & Hc2 & _ & Hk & _). assert (c2 = c') as -> by congruence.
  destruct c' as [[f'|r'] src']; [|done]. by exists f', src'.
Qed.

(** ** The password of a session that is not remembered *)
Ltac json_members :=
  apply json_ok_obj; cbn [app]; split;
  [ apply (bool_decide_unpack _); vm_compute; exact I
  | repeat (apply Forall_cons; split); try apply Forall_nil; cbn [snd]; try exact I ].
Lemma resolution_json_ok r : json_ok (resolution_json r).
Proof. unfold resolution_json. json_members. Qed.
Lemma peer_info_json_ok pi : (forall x, json_ok (float_json x)) -> json_ok (peer_info_json float_json pi).
Proof.
  intros Hfl. unfold peer_info_json.
  assert (Hd : json_ok (JArr (map (display_json float_json) (PeerInfo.displays pi)))).
  { apply json_ok_arr, Forall_fmap, Forall_true. intros d. cbn. unfold display_json.
    destruct (DisplayInfo.original_resolution d); json_members; auto using resolution_json_ok. }
  assert (He : forall e, json_ok (encoding_json e)).
  { intros e. unfold encoding_json. destruct (SupportedEncoding.i444 e); json_members.
    unfold ability_json. json_members. }
  assert (Hr : forall rs, json_ok (JObj [("resolutions", JArr (map resolution_json rs))])).
  { intros rs. json_members. apply json_ok_arr, Forall_fmap, Forall_true. intros r. apply resolution_json_ok. }
  assert (Hw : forall ws, json_ok (windows_sessions_json ws)).
  { intros ws. unfold windows_sessions_json. json_members. apply json_ok_arr, Forall_fmap, Forall_true.
    intros x. cbn. json_members. }
  destruct (PeerInfo.features pi), (PeerInfo.encoding pi), (PeerInfo.resolutions pi), (PeerInfo.windows_sessions pi);
    json_members; try apply Hd; try apply He; try apply Hr; try apply Hw; json_members.
Qed.

Lemma rd_step {A} (m : js (rd * page) A) f src w a f' pg' :
  conn_at l w = Some {| instance := RdConn f; _passwordSource := src |} -> m (f, wpage w) = (Ret a, (f', pg')) ->
  exists w', on_rd l m w = (Ret a, w') /\
    conn_at l w' = Some {| instance := RdConn f'; _passwordSource := src |} /\ wpage w' = pg'.
Proof.
  intros Hc E. eexists. split; [by eapply on_rd_exact|]. split; [|by destruct w].
  apply conn_at_put. destruct w. by eexists.
Qed.
Lemma rd_base_step {A} (m : js (base * page) A) f src w a b pg' :
  conn_at l w = Some {| instance := RdConn f; _passwordSource := src |} -> m (rsuper f, wpage w) = (Ret a, (b, pg')) ->
  exists w', on_rd_base m w = (Ret a, w') /\
    conn_at l w' = Some {| instance := RdConn (f <| rsuper := b |>); _passwordSource := src |} /\ wpage w' = pg'.
Proof. intros Hc E. eapply rd_step; [done|]. unfold in_super, zoom. cbn [fst snd]. by rewrite E. Qed.

(** A connected session with the given options for its peer. *)
Definition online (o : options) (id : string) (f : rd) : Prop :=
  _options (rsuper f) = o /\ _id (rsuper f) = id /\ exists ws, _ws (rsuper f) = Some ws /\ readyState ws <> CONNECTING.
Lemma rd_send_online o id m f pg : online o id f -> exists f', rd_send m (f, pg) = (Ret tt, (f', pg)) /\ online o id f'.
Proof.
  intros (Ho & Hi & ws & Hws & Hc). destruct (sendMessage_sends m ws Hc) as (ws' & E & Hr).
  unfold rd_send, in_super, zoom, sendMessage, on_ws. cbn [fst snd]. rewrite Hws, E.
  eexists. split; [done|]. destruct f as [[] ? ? ? ? ? ? ? ? ? ? ? ?]; cbn in *. split; [done|]. split; [done|].
  exists ws'. split; [done|]. by rewrite Hr.
Qed.
Lemma inputOsPassword_online o id p f pg : online o id f ->
  exists f', inputOsPassword p (f, pg) = (Ret tt, (f', pg)) /\ online o id f'.
Proof.
  intros Hf. unfold inputOsPassword, os_password_stage, move_mouse, inputMouse.
  edestruct (rd_send_online o id) as (f1 & E & Hf1); [exact Hf|]. erewrite bind_eq by exact E. rewrite update_run.
  eexists. split; [done|]. by destruct f1.
Qed.

(** [l] is such a session. *)
Definition at_online (o : options) (id : string) (src : option string) (w : world) : Prop :=
  exists f, conn_at l w = Some {| instance := RdConn f; _passwordSource := src |} /\ online o id f.
Lemma online_base {A} (m : js (base * page) A) o id src w :
  at_online o id src w ->
  (forall s, exists a b pg', m s = (Ret a, (b, pg')) /\
     _options b = _options s.1 /\ _id b = _id s.1 /\ _ws b = _ws s.1) ->
  exists a w', on_rd_base m w = (Ret a, w') /\ at_online o id src w'.
Proof.
  intros (f & Hc & Ho & Hi & ws & Hws & Hr) Hm. destruct (Hm (rsuper f, wpage w)) as (a & b & pg' & E & Eo & Ei & Ew).
  destruct (rd_base_step m f src w a b pg' Hc E) as (w' & E' & Hc' & _). exists a, w'. split; [done|].
  eexists. split; [exact Hc'|]. unfold online. destruct f; cbn in *; unfold constant. split; [congruence|]. split; [congruence|].
  exists ws. split; [congruence|done].
Qed.
(** Only the options change. *)
Lemma online_setOption n v o id src w : at_online o id src w ->
  let o' := map_set (match v with None | Some JNull => map_delete o n | Some v => map_set o n v end) "tm" (JNum (now (wpage w))) in
  exists w', on_rd_base (setOption n v) w = (Ret tt, w') /\ at_online o' id src w' /\
    localStorage (wpage w') = savePeerOptions (now (wpage w)) id o' (localStorage (wpage w)).
Proof.
  intros (f & Hc & Ho & Hi & ws & Hws & Hr) o'. destruct (setOption_run n v (rsuper f, wpage w)) as (opts & E & Eo).
  cbn [fst snd] in *. subst o id opts.
  destruct (rd_base_step (setOption n v) f src w _ _ _ Hc E) as (w' & E' & Hc' & Ep). exists w'. split; [done|]. split.
  - eexists. split; [exact Hc'|]. destruct f as [[] ? ? ? ? ? ? ? ? ? ? ? ?]; cbn in *. split; [done|]. split; [done|]. by exists ws.
  - rewrite Ep. by destruct (wpage w).
Qed.
Lemma online_progress o id src w e : at_online o id src w ->
  at_online o id src (w <| wpage ::= fun pg => pg <| events := (events pg ++ [e])%list |> |>).
Proof. intros (f & Hc & Ho). exists f. by destruct w. Qed.
Lemma online_os_password p o id src w : at_online o id src w ->
  exists w', on_rd l (inputOsPassword p) w = (Ret tt, w') /\ at_online o id src w'.
Proof.
  intros (f & Hc & Ho). destruct (inputOsPassword_online o id p f (wpage w) Ho) as (f' & E & Ho').
  destruct (rd_step _ f src w tt f' (wpage w) Hc E) as (w' & E' & Hc' & _). exists w'. split; [done|]. by exists f'.
Qed.
Ltac online_step H :=
  let a := fresh "a" in let w := fresh "w" in let E := fresh "E" in let H' := fresh "H" in
  match goal with |- context [(on_rd_base ?m ≫= _) _] =>
    destruct (online_base m _ _ _ _ H) as (a & w & E & H') end;
  [ by intros [[] ?]; eexists _, _, _ | erewrite bind_eq by exact E; clear H E; rename H' into H ].

(** C37.  Not remembered means forgotten.  When the peer accepts the login of a session whose password is
    not to be remembered, and lists a display, no password remains among the session's options, nor
    among those stored for the peer -- one stored earlier is removed -- so the next session asks for
    it.  (A peer without a display is refused before that, and what was stored stays.) *)
Theorem unremembered_password_is_forgotten pi w f src :
  (forall x, json_ok (float_json x)) ->
  conn_at l w = Some {| instance := RdConn f; _passwordSource := src |} ->
  online (_options (rsuper f)) (_id (rsuper f)) f -> PeerInfo.displays pi <> [] ->
  _id (rsuper f) <> "" -> json_ok (JObj (_options (rsuper f))) -> getRemember f = false ->
  exists w' f', rd_handlePeerInfo pi w = (Ret tt, w') /\ the_rd w' = Some f' /\
    getOption "password" (rsuper f') = None /\
    map_get (loadPeerOptions (localStorage (wpage w')) (_id (rsuper f))) "password" = None.
Proof.
  intros Hfl Hc Hon Hd Hid Hok Hrem. unfold rd_handlePeerInfo, rd_ev.
  unfold getRemember, getOption in Hrem. remember (_options (rsuper f)) as o eqn:Eo. remember (_id (rsuper f)) as id eqn:Ei.
  assert (Hw : at_online o id src w) by (by exists f). clear Hc Hon Eo Ei f.
  online_step Hw. destruct (len (PeerInfo.displays pi) =? 0)%Z eqn:El; [by apply Z.eqb_eq, len_zero_nil in El|].
  destruct (bridge_progress "success" "Successful" "Connected, waiting for image..." w0 (or_intror eq_refl)) as [e E2].
  erewrite bind_eq by exact E2. apply (online_progress _ _ _ _ e) in Hw. set (w1 := w0 <| wpage ::= _ |>) in *. clearbody w1.
  online_step Hw. online_step Hw. rename a1 into p.
  assert (Htype : exists w', (if truthy p then on_rd l (inputOsPassword p) else skip) w3 = (Ret tt, w') /\ at_online o id src w').
  { destruct (truthy p); [by apply online_os_password|by exists w3]. }
  destruct Htype as (w4 & E4 & Hw4). erewrite bind_eq by exact E4. clear Hw. online_step Hw4. cbv zeta.
  set (pi' := match a1 with Some _ => _ | None => _ end). clearbody pi'. online_step Hw4.
  destruct (online_setOption "info" (Some (peer_info_json float_json pi')) o id src w6 Hw4) as (w7 & E7 & Hw7 & _).
  erewrite bind_eq by exact E7. pose proof (peer_info_json_ok pi' Hfl) as Hj.
  assert (exists m, peer_info_json float_json pi' = JObj m) as [m Em] by (by eexists). rewrite Em in Hw7, Hj. clear E7 Em.
  set (o1 := map_set _ "tm" _) in Hw7.
  assert (Hok1 : json_ok (JObj o1)).
  { apply json_ok_set; [|done]. by apply json_ok_set. }
  assert (Hrem1 : option_truthy (map_get o1 "remember") = false)
    by (subst o1; by rewrite !map_get_set_ne).
  clearbody o1. destruct Hw7 as (f7 & Hc7 & Hon7).
  assert (E8 : on_rd l (self getRemember) w7 = (Ret false, put_conn l {| instance := RdConn f7; _passwordSource := src |}
      (w7 <| wpage := wpage w7 |>))).
  { eapply on_rd_exact; [exact Hc7|]. unfold self, gets, getRemember, getOption. cbn [fst].
    by rewrite (proj1 Hon7), Hrem1. }
  erewrite bind_eq by exact E8. set (w8 := put_conn _ _ _).
  assert (Hw8 : at_online o1 id src w8).
  { exists f7. split; [|done]. apply conn_at_put. clear -Hc7. destruct w7. by eexists. }
  clearbody w8. destruct (online_setOption "password" None o1 id src w8 Hw8) as (w9 & E9 & (f9 & Hc9 & Hon9) & Hst).
  exists w9, f9. split; [exact E9|]. split; [unfold the_rd; by rewrite Hc9|].
  assert (Hgone : map_get (map_set (map_delete o1 "password") "tm" (JNum (now (wpage w8)))) "password" = None).
  { rewrite map_get_set_ne by done. apply map_get_delete_eq. by apply json_ok_obj in Hok1 as [? _]. }
  split; [unfold getOption; by rewrite (proj1 Hon9)|]. rewrite Hst.
  rewrite (proj1 (save_load _ _ _ _ Hid (json_ok_set _ "tm" (JNum (now (wpage w8))) (json_ok_delete _ "password" Hok1) I))).
  by rewrite map_set_same.
Qed.
End RdSession.
