(* ===== verification/RdWire.v ===== *)
(** * A desktop over the encrypted link

    What a remote-desktop session shows, plays and copies, from the frames on the wire: the sound
    handed to the worker, the texts put on the clipboard and the events pushed to the application
    are those of the peer's messages, in their order.  And what it answers: the echoes of the pings
    and the acknowledgements of the video, the peer's leave to send more of it. *)
From S2P Require Import Prelude JsMap JsStr Json Bytes ProtoWire ProtoEnums ProtoSession ProtoMedia ProtoMessage.
From S2P Require Import ProtoRendezvous Crypto Config PushEvent Websock Link SessionConnect FtProtocol FtBrowserIo FtZip.
From S2P Require Import Audio Page FtJobs SessionBase FtConnection Common RdOptions RdConnection Keeps Sessions.
From S2P Require Import FtJobsFacts SessionsFacts SessionsEnd Connect FtSession Wire FtStart RdSession.
From Stdlib Require Import Floats.SpecFloat.
Local Open Scope string_scope.
Local Open Scope list_scope.

(** ** What a peer sends of its desktop *)
Inductive media :=
  | Video (vf : VideoFrame.t)
  | Copied (cb : Clipboard.t)
  | PointerShape (cd : CursorData.t)
  | PointerId (id : Z)
  | PointerAt (p : CursorPosition.t)
  | SoundFormat (f : AudioFormat.t)
  | SoundFrame (a : AudioFrame.t)
  | Chat (cm : ChatMessage.t)
  | Permission (p : PermissionInfo.t).
Definition media_message (x : media) : Message.t :=
  match x with
  | Video vf => Message.createBase <| Message.video_frame := Some vf |>
  | Copied cb => Message.createBase <| Message.clipboard := Some cb |>
  | PointerShape cd => Message.createBase <| Message.cursor_data := Some cd |>
  | PointerId id => Message.createBase <| Message.cursor_id := Some id |>
  | PointerAt p => Message.createBase <| Message.cursor_position := Some p |>
  | SoundFormat f => misc_message (Misc.createBase <| Misc.audio_format := Some f |>)
  | SoundFrame a => Message.createBase <| Message.audio_frame := Some a |>
  | Chat cm => misc_message (Misc.createBase <| Misc.chat_message := Some cm |>)
  | Permission p => misc_message (Misc.createBase <| Misc.permission_info := Some p |>)
  end.

(** ** What the user is to see and hear of it *)
Section Shown.
Context `{Zstd}.
Definition heard (x : media) : option worker_message :=
  match x with
  | SoundFormat f => Some (Format (AudioFormat.channels f) (AudioFormat.sample_rate f))
  | SoundFrame a => Some (Packet (AudioFrame.data a))
  | _ => None
  end.
Definition copied (x : media) : option bytes :=
  match x with
  | Copied cb => if Clipboard.compress cb then unpacked (Clipboard.content cb) else Some (Clipboard.content cb)
  | _ => None
  end.
Definition pointer_event (cd : CursorData.t) (colors : bytes) : payload :=
  [("id", EvJson (JNum (CursorData.id cd))); ("hotx", EvJson (JNum (CursorData.hotx cd)));
   ("hoty", EvJson (JNum (CursorData.hoty cd))); ("width", EvJson (JNum (CursorData.width cd)));
   ("height", EvJson (JNum (CursorData.height cd))); ("colors", EvBytes colors)]%string.
Definition told (sid : option string) (x : media) : option event :=
  match x with
  | PointerShape cd => option_map (fun b => makeEvent "cursor_data" (pointer_event cd b) sid) (unpacked (CursorData.colors cd))
  | PointerId id => if truthy id then Some (makeEvent "cursor_id" [("id"%string, EvJson (JNum id))] sid) else None
  | PointerAt p => Some (makeEvent "cursor_position"
      [("x", EvJson (JNum (CursorPosition.x p))); ("y", EvJson (JNum (CursorPosition.y p)))]%string sid)
  | Chat cm => Some (makeEvent "chat" (strs [("text"%string, ChatMessage.text cm)]) sid)
  | Permission p => option_map (fun name => makeEvent "permission" [(name, EvJson (JBool (PermissionInfo.enabled p)))] sid)
      (permission_name (PermissionInfo.permission p))
  | _ => None
  end.

(** [xs] were shown between two states of a session and the page. *)
Definition shows (xs : list media) (s s' : rd * page) : Prop :=
  posted (sound s'.2) = posted (sound s.2) ++ omap heard xs /\
  clipboard s'.1 = clipboard s.1 ++ omap copied xs /\
  events s'.2 = events s.2 ++ omap (told (_sessionId (rsuper s.1))) xs /\
  _sessionId (rsuper s'.1) = _sessionId (rsuper s.1).
Lemma shows_trans xs ys s s' s'' : shows xs s s' -> shows ys s' s'' -> shows (xs ++ ys) s s''.
Proof.
  intros (A1 & B1 & C1 & D1) (A2 & B2 & C2 & D2). unfold shows. rewrite !omap_app, A2, A1, B2, B1, C2, C1, D2, D1.
  by rewrite !app_assoc.
Qed.
Lemma shows_nil s : shows [] s s.
Proof. unfold shows. cbn. by rewrite !app_nil_r. Qed.
End Shown.

Section Desktop.
Context `{ProtobufLaws} `{SodiumLaws} `{Zstd} `{Fflate}.
Context (float_json : spec_float -> json) (decoder : nat -> EncodedVideoFrame.t -> submission) (l : connref).
Abbreviation rd_loop := (RdSession.rd_loop float_json decoder l).
Abbreviation rd_dispatch := (RdSession.rd_dispatch float_json decoder l).
Abbreviation the_rd := (RdSession.the_rd l).

(** ** Frames of video *)
Definition serves (f : rd) : Prop := exists ws key k, _ws (rsuper f) = Some ws /\ live ws key k.
(** Between two states [ms] were sent and [n] batches begun; the socket serves on as it did. *)
Definition served (ms : list Message.t) (n : nat) (f f' : rd) : Prop :=
  (forall ws key k, _ws (rsuper f) = Some ws -> live ws key k ->
    exists ws', _ws (rsuper f') = Some ws' /\ live ws' key k /\ _buf ws' = _buf ws /\ sends ms ws ws') /\
  _videoDecoder f' = _videoDecoder f /\ length (batches f') = (length (batches f) + n)%nat.
(** The same, with nothing to see. *)
Definition calm (ms : list Message.t) (n : nat) (f f' : rd) : Prop :=
  served ms n f f' /\ clipboard f' = clipboard f /\ _sessionId (rsuper f') = _sessionId (rsuper f).
Lemma served_serves ms n f f' : serves f -> served ms n f f' -> serves f'.
Proof. intros (ws & key & k & Hw & Hl) (S & _). destruct (S ws key k Hw Hl) as (ws' & Hw' & Hl' & _). by exists ws', key, k. Qed.
Lemma served_trans ms n ms' n' f f' f'' : served ms n f f' -> served ms' n' f' f'' -> served (ms ++ ms') (n + n') f f''.
Proof.
  intros (S1 & D1 & B1) (S2 & D2 & B2). split; [|split; [congruence|lia]]. intros ws key k Hw Hl.
  destruct (S1 ws key k Hw Hl) as (ws1 & Hw1 & Hl1 & Hb1 & Hs1).
  destruct (S2 ws1 key k Hw1 Hl1) as (ws2 & Hw2 & Hl2 & Hb2 & Hs2).
  exists ws2. do 2 (split; [done|]). split; [congruence|]. by eapply sends_trans.
Qed.
Lemma calm_trans ms n ms' n' f f' f'' : calm ms n f f' -> calm ms' n' f' f'' -> calm (ms ++ ms') (n + n') f f''.
Proof. intros (S1 & C1 & I1) (S2 & C2 & I2). split; [by eapply served_trans|]. split; congruence. Qed.
Lemma served_same n f f' : rsuper f' = rsuper f -> _videoDecoder f' = _videoDecoder f ->
  length (batches f') = (length (batches f) + n)%nat -> served [] n f f'.
Proof.
  intros Er Ed Eb. split; [|done]. rewrite Er. intros ws key k Hw Hl. exists ws. do 3 (split; [done|]).
  apply sends_nil; [|done]. by eexists.
Qed.
Lemma calm_same n f f' : rsuper f' = rsuper f -> _videoDecoder f' = _videoDecoder f -> clipboard f' = clipboard f ->
  length (batches f') = (length (batches f) + n)%nat -> calm [] n f f'.
Proof. intros Er Ed Ec Eb. split; [by apply served_same|]. by rewrite Er. Qed.
Lemma calm_send m f pg : serves f -> exists f',
  rd_send m (f, pg) = (Ret tt, (f', pg)) /\ calm [m] 0 f f' /\ batches f' = batches f.
Proof.
  intros (ws & key & k & Hw & Hl). destruct (send_live m ws key k Hl) as (ws1 & E & _).
  exists (f <| rsuper ::= fun b => b <| _ws := Some ws1 |> |>). split.
  - unfold rd_send, in_super, zoom, sendMessage, on_ws. cbn [fst snd]. rewrite Hw, E. by destruct f.
  - split; [|by destruct f]. split; [|by destruct f]. split; [|split; destruct f; [done|cbn; lia]].
    intros ws' key' k' Hw' Hl'. assert (ws' = ws) as -> by congruence.
    destruct (send_live m ws key' k' Hl') as (ws2 & E2 & R). assert (ws2 = ws1) as -> by congruence.
    exists ws1. split; [by destruct f|exact R].
Qed.

(** A frame of batch [k] was called back or rejected. *)
Definition finishes (s : submission) : bool := match s with Kept => false | _ => true end.
Lemma count_ack k f pg : serves f -> (k < length (batches f))%nat -> exists f',
  (count_frame k;; acknowledge k) (f, pg) = (Ret tt, (f', pg)) /\
  calm (if b_i (get_batch k f) + 1 =? b_n (get_batch k f) then [ack] else [])%Z 0 f f' /\
  batches f' = alter (fun b => b <| b_i := (b_i b + 1)%Z |>) k (batches f).
Proof.
  intros Hs Hk. set (f1 := f <| batches ::= alter (fun b => b <| b_i := (b_i b + 1)%Z |>) k |>).
  assert (C1 : calm [] 0 f f1) by (destruct f; apply calm_same; cbn; rewrite ?length_alter; try done; lia).
  assert (Hb : get_batch k f1 = (get_batch k f) <| b_i := (b_i (get_batch k f) + 1)%Z |>).
  { unfold get_batch. subst f1. destruct f; cbn in *. rewrite !nth_lookup, list_lookup_alter_eq.
    destruct (lookup_lt_is_Some_2 _ _ Hk) as [x Ex]. by rewrite Ex. }
  assert (Hb1 : batches f1 = alter (fun b => b <| b_i := (b_i b + 1)%Z |>) k (batches f)) by (by destruct f).
  unfold count_frame, acknowledge. rewrite bind_update, bind_self. cbn [fst snd]. fold f1. rewrite Hb.
  change (b_i ((get_batch k f) <| b_i := (b_i (get_batch k f) + 1)%Z |>)) with (b_i (get_batch k f) + 1)%Z.
  change (b_n ((get_batch k f) <| b_i := (b_i (get_batch k f) + 1)%Z |>)) with (b_n (get_batch k f)).
  destruct (_ =? _)%Z; cbn [when]; [|by exists f1].
  destruct (calm_send ack f1 pg) as (f2 & E2 & C2 & B2); [by eapply served_serves, C1|].
  exists f2. split; [exact E2|]. split; [exact (calm_trans [] 0 [ack] 0 _ _ _ C1 C2)|congruence].
Qed.
Lemma count_alter k k' f f' : (k < length (batches f))%nat -> k' = k ->
  batches f' = alter (fun b => b <| b_i := (b_i b + 1)%Z |>) k (batches f) ->
  b_i (get_batch k' f') = (b_i (get_batch k f) + 1)%Z /\ b_n (get_batch k' f') = b_n (get_batch k f).
Proof.
  intros Hk -> Hb. unfold get_batch. rewrite Hb, !nth_lookup, list_lookup_alter_eq.
  destruct (lookup_lt_is_Some_2 _ _ Hk) as [x Ex]. by rewrite Ex.
Qed.
Lemma calm_submit k s f pg : serves f -> (k < length (batches f))%nat -> exists f',
  submit k s (f, pg) = (Ret tt, (f', pg)) /\
  calm (if finishes s && (b_i (get_batch k f) + 1 =? b_n (get_batch k f))%Z then [ack] else []) 0 f f' /\
  b_i (get_batch k f') = (b_i (get_batch k f) + (if finishes s then 1 else 0))%Z /\
  b_n (get_batch k f') = b_n (get_batch k f).
Proof.
  intros Hs Hk. destruct s as [|ok hb|]; cbn [submit finishes andb].
  { exists f. split; [done|]. split; [by apply calm_same|]. by rewrite Z.add_0_r. }
  all: destruct (count_ack k f pg Hs Hk) as (f1 & E1 & C1 & B1); destruct (count_alter k k f f1 Hk eq_refl B1) as [Hi Hn].
  2: { by exists f1. }
  unfold frame_callback. rewrite <- js_bind_assoc. erewrite bind_eq by exact E1. rewrite bind_self. cbn [fst snd].
  destruct (_ && _); [|by exists f1]. rewrite bind_of_page, update_run. cbn [fst snd].
  eexists. split; [reflexivity|]. split; [|rewrite <- Hi, <- Hn; by destruct f1 as [? ? ? ? ? []]].
  match type of C1 with calm ?a _ _ _ => rewrite <- (app_nil_r a) end.
  apply (calm_trans _ 0 [] 0 _ f1); [exact C1|]. apply calm_same; destruct f1 as [? ? ? ? ? []]; cbn; done || lia.
Qed.
Lemma last_frame {A} (y : A) (fs : list EncodedVideoFrame.t) (x : EncodedVideoFrame.t) (ok all : bool) (i n : Z) :
  (i + (1 + len fs) <= n)%Z ->
  (if ok && (i + 1 =? n)%Z then [y] else []) ++
  (if bool_decide (fs <> []) && (i + (if ok then 1 else 0) + len fs =? n)%Z && all then [y] else []) =
  if bool_decide (x :: fs <> []) && (i + (1 + len fs) =? n)%Z && (ok && (if fs then true else all)) then [y] else [].
Proof.
  intros Hle. rewrite (bool_decide_true (x :: fs <> [])) by done. destruct fs as [|x' fs].
  { change (len []) with 0%Z. cbn [bool_decide andb]. change (1 + 0)%Z with 1%Z. by destruct ok, (i + 1 =? n)%Z. }
  rewrite (bool_decide_true (x' :: fs <> [])) by done. rewrite len_cons in *. pose proof (len_nonneg fs).
  destruct ok; cbn [andb].
  - rewrite (proj2 (Z.eqb_neq (i + 1) n)) by lia. by replace (i + 1 + (1 + len fs))%Z with (i + (1 + (1 + len fs)))%Z by lia.
  - rewrite (proj2 (Z.eqb_neq (i + 0 + (1 + len fs)) n)) by lia. by destruct (_ =? n)%Z.
Qed.
(** The frames of batch [k]: acknowledged when the last of them is finished. *)
Lemma calm_frames k n fs : forall f i pg, serves f -> (k < length (batches f))%nat ->
  b_i (get_batch k f) = i -> b_n (get_batch k f) = n -> (i + len fs <= n)%Z -> exists f',
  for_of fs (fun x => submit k (decoder k x)) (f, pg) = (Ret tt, (f', pg)) /\
  calm (if bool_decide (fs <> []) && (i + len fs =? n)%Z && forallb (fun x => finishes (decoder k x)) fs then [ack] else [])
    0 f f'.
Proof.
  induction fs as [|x fs IH]; intros f i pg Hs Hk Hi Hn Hle; cbn [for_of].
  { exists f. split; [done|]. by apply calm_same. }
  destruct (calm_submit k (decoder k x) f pg Hs Hk) as (f1 & E1 & C1 & Hi1 & Hn1).
  erewrite bind_eq by exact E1. rewrite len_cons in Hle |- *. rewrite Hi, Hn in *.
  destruct (IH f1 (i + (if finishes (decoder k x) then 1 else 0))%Z pg) as (f2 & E2 & C2);
    [by eapply served_serves, C1| |exact Hi1|exact Hn1|destruct (finishes _); lia|].
  { destruct C1 as [(_ & _ & E) _]. lia. }
  exists f2. split; [exact E2|]. pose proof (calm_trans _ _ _ _ _ _ _ C1 C2) as C. rewrite (last_frame ack fs x) in C by done.
  cbn [forallb]. by destruct fs.
Qed.
(** What a run of frames is to the peer: an acknowledgement, if the decoder finishes them all. *)
Definition finished (k : nat) (fs : list EncodedVideoFrame.t) : bool :=
  bool_decide (fs <> []) && forallb (fun x => finishes (decoder k x)) fs.
Lemma calm_video vf f pg : serves f -> exists f', handleVideoFrame decoder vf (f, pg) = (Ret tt, (f', pg)) /\
  match _videoDecoder f, VideoFrame.vp9s vf with
  | Some _, Some vp9s => calm (if finished (length (batches f)) (EncodedVideoFrames.frames vp9s) then [ack] else []) 1 f f'
  | _, _ => calm [] 0 f f'
  end.
Proof.
  intros Hs. unfold handleVideoFrame. rewrite bind_update. cbn [fst snd]. set (f1 := f <| _firstFrame := true |>).
  assert (C1 : calm [] 0 f f1) by (destruct f; apply calm_same; cbn; done || lia).
  destruct (VideoFrame.vp9s vf) as [vp9s|]; [|exists f1; split; [done|by destruct (_videoDecoder f)]].
  rewrite bind_self. cbn [fst snd]. replace (_videoDecoder f1) with (_videoDecoder f) by (by destruct f).
  destruct (_videoDecoder f); [|by exists f1]. rewrite bind_of_page, bind_self, bind_update. cbn [fst snd].
  replace (length (batches f1)) with (length (batches f)) by (by destruct f). set (fs := EncodedVideoFrames.frames vp9s).
  set (f2 := f1 <| batches := _ |>). assert (C2 : calm [] 1 f1 f2).
  { destruct f; apply calm_same; cbn; try done. rewrite length_app. cbn. lia. }
  assert (Hg : get_batch (length (batches f)) f2 =
    {| b_i := 0; b_n := len fs; b_display := VideoFrame.display vf; b_tm := now pg |}).
  { unfold get_batch. destruct f. cbn. rewrite nth_lookup, list_lookup_middle; done. }
  destruct (calm_frames (length (batches f)) (len fs) fs f2 0%Z pg) as (f3 & E3 & C3); try done.
  - destruct C1 as [(_ & _ & E1) _], C2 as [(_ & _ & E2) _]. lia.
  - by rewrite Hg.
  - by rewrite Hg.
  - exists f3. split; [exact E3|]. pose proof (calm_trans _ _ _ _ _ _ _ (calm_trans _ _ _ _ _ _ _ C1 C2) C3) as C.
    rewrite Z.add_0_l, Z.eqb_refl, andb_true_r in C. exact C.
Qed.
(** ** One message *)
(** What is left to do once [on_rd] ran a computation of the session. *)
Lemma on_rd_step {A B} (m : js (rd * page) A) (k : A -> js world B) w f a f' pg' :
  the_rd w = Some f -> m (f, wpage w) = (Ret a, (f', pg')) ->
  exists w', (on_rd l m ≫= k) w = k a w' /\ the_rd w' = Some f' /\ wpage w' = pg'.
Proof.
  intros Hf E. destruct (on_rd_run l m f w Hf) as (w' & E' & Hf' & Hp). rewrite E in E', Hf', Hp.
  exists w'. by erewrite bind_eq by exact E'.
Qed.
Lemma rd_ev_step {B} n p (k : unit -> js world B) w f : the_rd w = Some f ->
  exists w', (rd_ev l n p ≫= k) w = k tt w' /\ the_rd w' = Some f /\
    wpage w' = (wpage w) <| events := events (wpage w) ++ [makeEvent n p (_sessionId (rsuper f))] |>.
Proof. intros Hf. by apply on_rd_step with (f := f); [|destruct f]. Qed.
Lemma unpack_step {B} data (k : option bytes -> js world B) w f : zstd_init = Ret tt -> the_rd w = Some f ->
  exists w', (unpack l data ≫= k) w = k (unpacked data) w' /\ the_rd w' = Some f /\
    events (wpage w') = events (wpage w) /\ sound (wpage w') = sound (wpage w).
Proof.
  intros Hz Hf.
  destruct (on_rd_step (fun s => let '(d, ready) := decompress (zstd_ready s.2) data in
    (Ret d, (s.1, s.2 <| zstd_ready := ready |>))) k w f (unpacked data) f ((wpage w) <| zstd_ready := true |>) Hf)
    as (w' & E' & Hf' & Hp).
  { cbn [fst snd]. by rewrite decompress_unpacked. }
  exists w'. split; [exact E'|]. split; [done|]. rewrite Hp. by destruct (wpage w).
Qed.

(** What the peer is sent for it, when [k] batches were begun before, and how many more are then. *)
Definition frames_of (dec : option nat) (x : media) : option (list EncodedVideoFrame.t) :=
  match dec, x with
  | Some _, Video vf => option_map EncodedVideoFrames.frames (VideoFrame.vp9s vf)
  | _, _ => None
  end.
Definition acked (dec : option nat) (k : nat) (x : media) : list Message.t :=
  match frames_of dec x with Some fs => if finished k fs then [ack] else [] | None => [] end.
Definition begun (dec : option nat) (x : media) : nat := match frames_of dec x with Some _ => 1 | None => 0 end.
(** [m] shows [x], acknowledges it and lets the loop go on. *)
Definition does (x : media) (m : js world bool) : Prop := forall w f, the_rd w = Some f -> serves f ->
  exists w' f', m w = (Ret true, w') /\ the_rd w' = Some f' /\
    served (acked (_videoDecoder f) (length (batches f)) x) (begun (_videoDecoder f) x) f f' /\
    shows [x] (f, wpage w) (f', wpage w').
Definition no_video (x : media) : Prop := forall dec, frames_of dec x = None.
Lemma served_still x f f' : no_video x -> rsuper f' = rsuper f -> _videoDecoder f' = _videoDecoder f ->
  batches f' = batches f -> served (acked (_videoDecoder f) (length (batches f)) x) (begun (_videoDecoder f) x) f f'.
Proof. intros Hx Er Ed Eb. unfold acked, begun. rewrite Hx. apply served_same; [done..|]. rewrite Eb. lia. Qed.
Lemma shows_one x s s' : posted (sound s'.2) = posted (sound s.2) ++ option_list (heard x) ->
  clipboard s'.1 = clipboard s.1 ++ option_list (copied x) ->
  events s'.2 = events s.2 ++ option_list (told (_sessionId (rsuper s.1)) x) ->
  _sessionId (rsuper s'.1) = _sessionId (rsuper s.1) -> shows [x] s s'.
Proof.
  intros A B C D. unfold shows. rewrite A, B, C, D. cbn. by destruct (heard x), (copied x), (told _ x).
Qed.
Lemma does_nothing x : no_video x -> heard x = None -> copied x = None -> (forall sid, told sid x = None) -> does x (mret true).
Proof.
  intros Hx Ha Hc Ht w f Hf Hs. exists w, f. do 2 (split; [done|]). split; [by apply served_still|].
  apply shows_one; [..|done]; cbn [fst snd].
  all: by rewrite ?Ha, ?Hc, ?Ht; cbn; rewrite app_nil_r.
Qed.
Lemma does_event x n p : no_video x -> heard x = None -> copied x = None ->
  (forall sid, told sid x = Some (makeEvent n p sid)) ->
  does x (rd_ev l n p;; mret true).
Proof.
  intros Hx Ha Hc Ht w f Hf Hs. destruct (rd_ev_step n p (fun _ => mret true) w f Hf) as (w' & E & Hf' & Hp).
  exists w', f. do 2 (split; [done|]). split; [by apply served_still|]. rewrite Hp.
  apply shows_one; cbn [fst snd]; rewrite ?Ha, ?Hc, ?Ht; cbn; try done.
  all: rewrite app_nil_r; by destruct (wpage w).
Qed.
Lemma does_sound x g : no_video x -> copied x = None -> (forall sid, told sid x = None) ->
  (forall a, posted (g a) = posted a ++ option_list (heard x)) ->
  does x (on_rd l (update_page (fun pg => pg <| sound ::= g |>));; mret true).
Proof.
  intros Hx Hc Ht Hg w f Hf Hs.
  destruct (on_rd_step (update_page (fun pg => pg <| sound ::= g |>)) (fun _ => mret true) w f tt f _ Hf eq_refl)
    as (w' & E & Hf' & Hp). cbn [snd] in Hp.
  exists w', f. do 2 (split; [done|]). split; [by apply served_still|]. rewrite Hp.
  apply shows_one; cbn [fst snd]; rewrite ?Hc, ?Ht; try done; cbn [option_list].
  - rewrite <- Hg. by destruct (wpage w).
  - by rewrite app_nil_r.
  - rewrite app_nil_r. by destruct (wpage w).
Qed.
Lemma does_unpack x data m : zstd_init = Ret tt -> (forall d, unpacked data = d -> does x (m d)) ->
  does x (unpack l data ≫= m).
Proof.
  intros Hz Hm w f Hf Hs. destruct (unpack_step data m w f Hz Hf) as (w1 & E & Hf1 & He & Ha).
  destruct (Hm (unpacked data) eq_refl w1 f Hf1 Hs) as (w2 & f2 & E2 & Hf2 & Hs2 & Sh).
  exists w2, f2. rewrite E. do 3 (split; [done|]). unfold shows in *. cbn [fst snd] in *. by rewrite He, Ha in Sh.
Qed.
Lemma does_copy cb d : copied (Copied cb) = Some d ->
  does (Copied cb) (on_rd l (update (fun c => c <| clipboard := (clipboard c ++ [d]) |>));; mret true).
Proof.
  intros Hc w f Hf Hs.
  destruct (on_rd_step (update (fun c => c <| clipboard := (clipboard c ++ [d]) |>)) (fun _ => mret true) w f tt _ _ Hf eq_refl)
    as (w' & E & Hf' & Hp). cbn [fst snd] in *.
  eexists w', _. do 2 (split; [done|]). split; [by apply served_still; [intros []|destruct f..]|]. rewrite Hp.
  apply shows_one; cbn [fst snd]; rewrite ?Hc; cbn.
  - by rewrite app_nil_r.
  - by destruct f.
  - by rewrite app_nil_r.
  - by destruct f.
Qed.
Lemma does_video vf : does (Video vf) (on_rd l (handleVideoFrame decoder vf);; mret true).
Proof.
  intros w f Hf Hs. destruct (calm_video vf f (wpage w) Hs) as (f' & E & C).
  assert (C' : calm (acked (_videoDecoder f) (length (batches f)) (Video vf)) (begun (_videoDecoder f) (Video vf)) f f').
  { unfold acked, begun, frames_of. by destruct (_videoDecoder f), (VideoFrame.vp9s vf). }
  destruct C' as (Hs' & Hc & Hi).
  destruct (on_rd_step (handleVideoFrame decoder vf) (fun _ => mret true) w f tt f' (wpage w) Hf E) as (w' & E' & Hf' & Hp).
  exists w', f'. do 3 (split; [done|]). rewrite Hp. apply shows_one; cbn; by rewrite ?app_nil_r.
Qed.

Lemma dispatch_media x : zstd_init = Ret tt -> does x (rd_dispatch (media_message x)).
Proof.
  intros Hz. assert (Hv : match x with Video _ => True | _ => no_video x end) by (destruct x; try done; by intros []).
  destruct x; cbn [media_message].
  - apply does_video.
  - unfold RdSession.rd_dispatch. cbn -[unpack]. destruct (Clipboard.compress cb) eqn:Ec.
    + apply does_unpack; [done|]. intros [d|] Ed; [apply does_copy|apply does_nothing]; cbn; by rewrite ?Ec.
    + apply does_copy. cbn. by rewrite Ec.
  - apply does_unpack; [done|]. intros [d|] Ed; [apply does_event|apply does_nothing]; cbn; by rewrite ?Ed.
  - unfold RdSession.rd_dispatch. cbn -[truthy]. destruct (truthy id) eqn:Et;
      [apply does_event|apply does_nothing]; cbn -[truthy]; by rewrite ?Et.
  - by apply does_event.
  - by apply does_sound.
  - by apply does_sound.
  - by apply does_event.
  - unfold RdSession.rd_dispatch. cbn -[permission_name]. destruct (permission_name _) as [name|] eqn:En;
      [apply does_event|apply does_nothing]; cbn -[permission_name]; by rewrite ?En.
Qed.

(** ** The loop *)
(** Frames arrive at the session's socket. *)
Definition set_socket (ws : Websock) (f : rd) : rd := f <| rsuper ::= fun b => b <| _ws := Some ws |> |>.
Definition arrive (frames : list bytes) (w : world) : world :=
  exec (on_rd l (update (fun f => f <| rsuper ::= fun b => b <| _ws ::= option_map (receive_all frames) |> |>))) w.
Definition polls (w : world) (ws : Websock) : Prop := exists f, the_rd w = Some f /\ _ws (rsuper f) = Some ws.
(** The socket is no part of what is shown. *)
Lemma shows_socket xs s f ws pg : shows xs s (f, pg) -> shows xs s (set_socket ws f, pg).
Proof. by destruct f. Qed.
Lemma poll_run f pg ws buf o : _ws (rsuper f) = Some ws ->
  next_poll 0 0 0 ws = (Ret o, ws <| _buf := buf |>) ->
  in_super poll_socket (f, pg) = (Ret (Some o), (set_socket (ws <| _buf := buf |>) f, pg)).
Proof.
  intros Hw Hn. unfold in_super, zoom, poll_socket. cbn [fst snd]. rewrite Hw, Hn. by destruct f.
Qed.

(** What the peer is sent for a run of media, and how many batches are begun. *)
Fixpoint acks (dec : option nat) (k : nat) (xs : list media) : list Message.t :=
  match xs with [] => [] | x :: xs => acked dec k x ++ acks dec (k + begun dec x) xs end.
Fixpoint total (dec : option nat) (xs : list media) : nat :=
  match xs with [] => 0 | x :: xs => begun dec x + total dec xs end.
Lemma acks_snoc dec k xs x : acks dec k (xs ++ [x]) = acks dec k xs ++ acked dec (k + total dec xs) x.
Proof.
  revert k. induction xs as [|y xs IH]; intros k; cbn [app acks total]; [by rewrite app_nil_r, Nat.add_0_r|].
  by rewrite IH, <- app_assoc, Nat.add_assoc.
Qed.
Lemma total_snoc dec xs x : total dec (xs ++ [x]) = (total dec xs + begun dec x)%nat.
Proof. induction xs as [|y xs IH]; cbn [app total]; lia. Qed.
Definition is_ack (m : Message.t) : bool :=
  match Message.misc m with
  | Some mi => match Misc.video_received mi with Some _ => true | None => false end
  | None => false
  end.
Lemma consists_acked dec k x : consists is_ack (acked dec k x) (acked dec k x) [].
Proof. unfold acked. destruct (frames_of dec x); [|done]. by destruct (finished _ _). Qed.

Section Stream.
Context (s0 : rd * page) (ws0 : Websock) (all : list media).
Hypothesis zstd_loads : zstd_init = Ret tt.
Abbreviation dec := (_videoDecoder s0.1).
(** What was shown and sent since [s0], when [got] had arrived, and what is to come. *)
Definition coming (got ms : list Message.t) (w : world) : Prop := exists f ws sent shown xs,
  (the_rd w = Some f /\ _ws (rsuper f) = Some ws) /\
  (sends sent ws0 ws /\ consists is_ack sent (acks dec (length (batches s0.1)) shown) (echoes got)) /\
  (_videoDecoder f = dec /\ length (batches f) = (length (batches s0.1) + total dec shown)%nat) /\
  all = shown ++ xs /\ ms = map media_message xs /\ shows shown s0 (f, wpage w).

Lemma media_turn got m ms w ws buf key k : polls w ws -> live ws key k -> _buf ws = Websock.Session m :: buf ->
  coming got (m :: ms) w -> exists w' ws', polls w' ws' /\ live ws' key k /\ _buf ws' = buf /\ coming got ms w' /\
    forall fuel sched, rd_loop (S fuel) (w, sched) = rd_loop fuel (w', sched).
Proof.
  intros (f & Hf & Hw) Hl Hb (f0 & ws1 & sent & shown & xs & (Hf0 & Hw0) & (Hse & Hco) & (Hd & Hba) & Hall & Hms & Hsh).
  assert (f0 = f) as -> by congruence. assert (ws1 = ws) as -> by congruence.
  destruct xs as [|x xs]; [done|]. injection Hms as -> ->.
  destruct (on_rd_run l (in_super poll_socket) f w Hf) as (w1 & E1 & Hf1 & Hp1).
  rewrite (poll_run f (wpage w) ws buf (Some (Websock.Session (media_message x))) Hw) in E1, Hf1, Hp1
    by (unfold next_poll; by rewrite Hb). cbn [fst snd] in *.
  set (f1 := set_socket (ws <| _buf := buf |>) f) in *.
  assert (Hw1 : _ws (rsuper f1) = Some (ws <| _buf := buf |>)) by (by destruct f as [[]]).
  assert (Hl1 : live (ws <| _buf := buf |>) key k) by (destruct Hl; by split; destruct ws).
  destruct (dispatch_media x zstd_loads w1 f1 Hf1) as (w2 & f2 & E2 & Hf2 & (Ss & Sd & Sb) & Sh); [by eexists _, _, _|].
  destruct (Ss _ _ _ Hw1 Hl1) as (ws2 & Hw2 & Hl2 & Hb2 & Hse2).
  assert (Ed : _videoDecoder f1 = dec) by (by destruct f).
  assert (Eb : length (batches f1) = (length (batches s0.1) + total dec shown)%nat) by (by destruct f).
  rewrite Ed, Eb in *.
  exists w2, ws2. split; [by exists f2|]. split; [done|]. split; [by destruct ws|]. split.
  - exists f2, ws2, (sent ++ acked dec (length (batches s0.1) + total dec shown) x), (shown ++ [x]), xs.
    split; [done|]. split.
    { split; [eapply sends_trans; [exact Hse|]; by destruct ws|]. rewrite acks_snoc, <- (app_nil_r (echoes got)).
      apply consists_app; [done|apply consists_acked]. }
    split; [split; [congruence|by rewrite Sb, total_snoc, Nat.add_assoc]|]. split; [by rewrite <- app_assoc|]. split; [done|].
    eapply shows_trans; [|exact Sh]. rewrite Hp1. by apply shows_socket.
  - intros fuel sched. cbn [RdSession.rd_loop]. rewrite sync_bind. cbn [fst snd]. unfold on_rd_base. rewrite E1.
    rewrite sync_bind. cbn [fst snd]. by rewrite E2.
Qed.
Lemma idle_turn got ms w ws key k : polls w ws -> live ws key k -> _buf ws = [] -> coming got ms w ->
  exists w', polls w' ws /\ coming got ms w' /\
    forall fuel i sched, rd_loop (S fuel) (w, i :: sched) = rd_loop fuel (i w', sched).
Proof.
  intros (f & Hf & Hw) Hl Hb (f0 & ws1 & sent & shown & xs & (Hf0 & Hw0) & Hse & Hd & Hall & Hms & Hsh).
  assert (f0 = f) as -> by congruence. assert (ws1 = ws) as -> by congruence.
  destruct (on_rd_run l (in_super poll_socket) f w Hf) as (w1 & E1 & Hf1 & Hp1).
  assert (Ews : ws <| _buf := [] |> = ws) by (destruct ws; cbn in *; by subst).
  assert (En : next_poll 0 0 0 ws = (Ret None, ws <| _buf := [] |>))
    by (unfold next_poll; by rewrite Hb, (live_status _ _ _ Hl), Ews).
  rewrite (poll_run f (wpage w) ws [] None Hw En), Ews in E1, Hf1, Hp1. cbn [fst snd] in *.
  exists w1. split; [eexists; split; [done|by destruct f as [[]]]|]. split.
  - exists (set_socket ws f), ws, sent, shown, xs. split; [split; [done|by destruct f as [[]]]|]. split; [done|].
    split; [by destruct f|]. do 2 (split; [done|]). rewrite Hp1. by apply shows_socket.
  - intros fuel i sched. cbn [RdSession.rd_loop]. rewrite sync_bind. cbn [fst snd]. unfold on_rd_base.
    by rewrite E1, pause_bind.
Qed.
Lemma media_arriving got ms w ws key k new : polls w ws -> live ws key k -> Forall Message.ok new -> coming got ms w ->
  let frames := sealed_frames key k new in
  polls (arrive frames w) (receive_all frames ws) /\ coming (got ++ new) ms (arrive frames w).
Proof.
  intros (f & Hf & Hw) Hl Hok (f0 & ws1 & sent & shown & xs & (Hf0 & Hw0) & (Hse & Hco) & Hd & Hall & Hms & Hsh) frames.
  assert (f0 = f) as -> by congruence. assert (ws1 = ws) as -> by congruence.
  destruct (receive_run new ws key k Hok Hl) as (_ & _ & Hse2).
  destruct (on_rd_run l (update (fun f => f <| rsuper ::= fun b => b <| _ws ::= option_map (receive_all frames) |> |>)) f w Hf)
    as (w1 & E1 & Hf1 & Hp1). unfold arrive, exec. rewrite E1. cbn [fst snd] in *.
  assert (Ef : (f <| rsuper ::= fun b => b <| _ws ::= option_map (receive_all frames) |> |>) =
    set_socket (receive_all frames ws) f).
  { destruct f as [[]]; cbn in *; subst. done. }
  change (the_rd w1 = Some (f <| rsuper ::= fun b => b <| _ws ::= option_map (receive_all frames) |> |>)) in Hf1.
  rewrite Ef in Hf1. assert (Hw1 : _ws (rsuper (set_socket (receive_all frames ws) f)) = Some (receive_all frames ws))
    by (by destruct f as [[]]).
  split; [by eexists|]. exists (set_socket (receive_all frames ws) f), (receive_all frames ws), (sent ++ echoes new), shown, xs.
  split; [done|]. split.
  { split; [by eapply sends_trans|]. rewrite echoes_app, <- (app_nil_r (acks _ _ _)).
    by apply consists_app, consists_echoes. }
  split; [by destruct f|]. do 2 (split; [done|]). rewrite Hp1. by apply shows_socket.
Qed.
End Stream.

(** C6.  The desktop over the encrypted link.  The peer streams its desktop -- sound, pointer, clipboard,
    chat, permissions, video -- with pings in between; the frames reach the socket in order, split
    among the turns of the message loop in any way whatever.  Then every sound format and packet was
    handed to the sound worker, every text copied there was put on the clipboard here and every
    pointer and chat message told to the application, each exactly once and in the order sent.  What
    went back to the peer are an echo of every ping and an acknowledgement of every batch of video whose
    frames the decoder has all finished, and nothing else; and the loop goes on waiting. *)
Theorem desktop_over_the_wire xs ms w f ws key n k chunks later :
  zstd_init = Ret tt -> the_rd w = Some f -> _ws (rsuper f) = Some ws -> live ws key k -> _buf ws = [] ->
  _secretKey ws = Some (key, n, k) ->
  for_session ms = map media_message xs -> Forall Message.ok ms -> concat chunks = sealed_frames key k ms ->
  exists w' f' ws' turns sent,
    (forall fuel, rd_loop (turns + fuel) (w, map arrive chunks ++ later) = rd_loop fuel (w', later)) /\
    the_rd w' = Some f' /\ _ws (rsuper f') = Some ws' /\ live ws' key (k + len ms) /\ _buf ws' = [] /\
    posted (sound (wpage w')) = posted (sound (wpage w)) ++ omap heard xs /\
    clipboard f' = clipboard f ++ omap copied xs /\
    events (wpage w') = events (wpage w) ++ omap (told (_sessionId (rsuper f))) xs /\
    wire ws' = wire ws ++ sealed_frames key n sent /\
    List.filter is_ack sent = acks (_videoDecoder f) (length (batches f)) xs /\
    List.filter (fun m => negb (is_ack m)) sent = echoes ms.
Proof.
  intros Hz Hf Hw Hl Hb Hk Hms Hok Hch. destruct (chunks_of_frames key chunks k ms Hch) as (mss & Hmss & ->).
  destruct (turns_arriving rd_loop polls arrive (coming (f, wpage w) ws xs) (media_turn _ _ _ Hz) (idle_turn _ _ _)
    (media_arriving _ _ _) mss [] [] w ws key k later) as (w' & ws' & turns & (f1 & Hf1 & Hw1) & R2 & R3 & R4 & R5); try done.
  - by exists f.
  - apply List.Forall_concat. by rewrite Hmss.
  - exists f, ws, [], [], xs. cbn [app total]. rewrite Hmss, Nat.add_0_r. split; [done|].
    split; [split; [|done]|]; [apply sends_nil; [by eexists|done]|]. do 3 (split; [done|]). apply shows_nil.
  - destruct R4 as (f' & ws1 & sent & shown & xs' & (Hf' & Hw') & (Hse & Ha & He) & _ & Hall & Hnil & (A & B & C & _)).
    assert (f1 = f') as -> by congruence. assert (ws1 = ws') as -> by congruence.
    destruct xs'; [|done]. rewrite app_nil_r in Hall. subst shown. cbn [app] in He. rewrite Hmss in R2, He.
    exists w', f', ws', turns, sent. split; [done|]. do 7 (split; [done|]). split; [by apply (Hse key n k)|done].
Qed.
End Desktop.
