(* ===== verification/Bridge.v ===== *)
(** * The bridge Flutter calls: [bridge/handlers], [session_handlers.js], [connection_lifecycle.js]

    Flutter calls [setByName(name, value, sessionId)] and [getByName(name, arg, sessionId)]; a table
    of handlers decides which connection is meant and what it does.  The values are texts, most of
    them JSON.  A field of another type than the Dart side sends is outside the model
    ([unmodelled]); so is the cursor style of the page.  What the handlers start and nobody awaits
    runs in place as an asynchronous computation whose failure is nobody's ([floating]). *)
From Stdlib Require Import Floats.SpecFloat.
From S2P Require Import Prelude JsMap JsStr Json Bytes ProtoWire ProtoFile ProtoMedia ProtoSession ProtoMessage Crypto.
From S2P Require Import Config PushEvent Websock SessionConnect FtProtocol FtBrowserIo FtZip Mobile Page FtJobs SessionBase LocalStore.
From S2P Require Import FtConnection Common RdOptions RdConnection Keeps Sessions SessionsFacts SessionsEnd Connect FtSession.
From S2P Require Import FtStart RdSession.
Local Open Scope string_scope.

(** ** Arguments *)
Definition text_of (data : json) (f : string) : option string :=
  match member data f with Some (JStr s) => Some s | _ => None end.
Definition int_of (data : json) (f : string) : option Z :=
  match member data f with Some (JNum n) => Some n | _ => None end.
Definition flag_of (data : json) (f : string) : option bool :=
  match member data f with Some (JBool b) => Some b | _ => None end.
(** [v.f == "true"] *)
Definition loosely_true (data : json) (f : string) : bool :=
  match member data f with
  | Some (JStr s) => s =? "true"
  | Some (JArr l) => json_String (JArr l) =? "true"
  | _ => false
  end.
(** [parseInt(data.f || "0")], a [NaN] being sent as 0 *)
Definition coordinate (data : json) (f : string) : Z :=
  match member data f with
  | Some j => if truthy j then parseInt_or_0 (json_String j) else 0%Z
  | None => 0%Z
  end.

Definition physicalButtonsMap (hid : option Z) : string :=
  match hid with
  | Some 102%Z => "Power" | Some 128%Z => "VolumeUp" | Some 129%Z => "VolumeDown" | _ => "unknown"
  end.
(** The mask of a mouse event: what happened in the low three bits, the button above them. *)
Definition mouse_mask (data : json) : Z :=
  let mask := match member data "type" with
              | Some (JStr t) => if t =? "down" then 1%Z else if t =? "up" then 2%Z
                                 else if t =? "wheel" then 3%Z else 0%Z
              | _ => 0%Z
              end in
  match member data "buttons" with
  | Some (JStr b) =>
      if b =? "left" then Z.lor mask (Z.shiftl 1 3)
      else if b =? "right" then Z.lor mask (Z.shiftl 2 3)
      else if b =? "wheel" then Z.lor mask (Z.shiftl 4 3)
      else mask
  | _ => mask
  end.

(** What the browser and the peer do with the connections a call starts, the files the user picks,
    and the user agent. *)
Record surroundings := { dialing : dial; loop_fuel : nat; chosen : list File; userAgent : string }.

Section Bridge.
Context `{ProtobufRuntime} `{Sodium} `{Zstd} `{Fflate}.
Context (float_json : spec_float -> json) (decoder : nat -> EncodedVideoFrame.t -> submission).
Context (localeCompare : string -> string -> Z) (env : surroundings).
Abbreviation async A := (js (world * list (world -> world)) A).

Definition unmodelled {A} : async A := lift_outcome OutOfFuel.
Definition modelled (m : option (async unit)) : async unit := default unmodelled m.
Definition parse_json (value : string) : async json := lift_outcome (parse_or_throw value).
Definition in_storage (f : storage -> storage) : async unit :=
  sync (modify (fun w : world => w <| wpage ::= fun pg => pg <| localStorage ::= f |> |>)).

(** ** The connection a call is about: [bridgeContext], [connFor] *)
Definition connFor (sessionId : option string) (w : world) : option connref :=
  match getSession sessionId w with Some l => Some l | None => curConn w end.
Definition ctx_curConn (sessionId : option string) : async (option connref) := gets (fun s => connFor sessionId s.1).
Definition ctx_rd (sessionId : option string) : async (option connref) := gets (fun s => requireRemoteDesktop sessionId s.1).
Definition ctx_ft (sessionId : option string) : async (option connref) := gets (fun s => requireFileTransfer sessionId s.1).
Definition ctx_connToken (sessionId : option string) (w : world) : string :=
  match sessionId with
  | Some sid => if truthy sid then default "" (connTokenFor sid w) else ""
  | None => ""
  end.

(** A method that both kinds of connection inherit, on [l]. *)
Definition on_any (l : connref) (m : js (base * page) unit) : js world unit :=
  c ← gets (conn_at l);
  match c with
  | Some c => if isFileTransfer c then on_ft_base l m else on_rd_base l m
  | None => throw VUndefined
  end.
(** [conn.setRemember(v)]: a transfer session only notes it. *)
Definition any_setRemember (l : connref) (v : bool) : js world unit :=
  c ← gets (conn_at l);
  match c with
  | Some c => if isFileTransfer c then on_ft l (update (fun f => f <| _remember := v |>)) else on_rd l (setRemember v)
  | None => throw VUndefined
  end.
Definition any_login (l : connref) (password : option string) : js world unit :=
  c ← gets (conn_at l);
  match c with
  | Some c => if isFileTransfer c then @login _ _ world (ft_session l) password else @login _ _ world (rd_session l) password
  | None => throw VUndefined
  end.

(** ** [session_handlers.js] *)
(** [new FtConnection()] or [new RdConnection()] *)
Definition new_conn (isFileTransfer : bool) : js world connref :=
  l ← gets (fun w => length (conns w));
  modify (fun w => w <| conns := (conns w ++ [{|
    instance := if isFileTransfer then FtConn newFtConnection else RdConn newRdConnection;
    _passwordSource := None |}])%list |>);;
  mret l.

(** [data.session_id] when it is a text that is not empty, and whether it is something else. *)
Definition session_id_of (data : json) : option string :=
  match member data "session_id" with Some (JStr s) => if truthy s then Some s else None | _ => None end.
Definition odd_session_id (data : json) : bool :=
  match member data "session_id" with Some (JStr _) | None => false | Some j => truthy j end.
Definition truthy_member (data : json) (f : string) : option json :=
  match member data f with Some j => if truthy j then Some j else None | None => None end.

Definition add_session (data : json) : js world string :=
  match data with
  | JNull => mret "Cannot read properties of null"
  | _ =>
      if odd_session_id data then lift_outcome OutOfFuel else
      match session_id_of data with
      | None => mret "missing session_id"
      | Some sessionId =>
          l ← new_conn (match truthy_member data "isFileTransfer" with Some _ => true | None => false end);
          addSession sessionId l;;
          match truthy_member data "conn_token", truthy_member data "password" with
          | Some token, _ => modify (fun w => w <| conns ::= alter (applyConnToken (Some (json_String token))) l |>)
          | None, Some pw => on_any l (setPlaintextPassword (json_String pw))
          | None, None => skip
          end;;
          mret ""
      end
  end.
Definition sessionAdd (value : string) : async string :=
  match parse value with
  | None => mret "Unexpected token"
  | Some data => sync (add_session data)
  end.

(** [startConn]: [start] of the connection, which nobody awaits *)
Definition start_of (l : connref) (id password : option string) : async unit :=
  c ← gets (fun s => conn_at l s.1);
  match c with
  | Some c => if isFileTransfer c then FtStart.start float_json l (dialing env) (loop_fuel env) id password
              else rd_start float_json decoder l (dialing env) (loop_fuel env) id password
  | None => skip
  end.
Definition startConn (id : string) (password sessionId : option string) : async unit :=
  in_storage (fun st => <["remote-id" := id]> st);;
  conn ← ctx_curConn sessionId;
  match conn with
  | Some l => floating (start_of l (Some id) password)
  | None => skip
  end.

Definition start_session (value : string) (data : json) : async unit :=
  if odd_session_id data then unmodelled else
  conn ← gets (fun s : world * _ => getSession (session_id_of data) s.1);
  match conn with
  | None => skip
  | Some l =>
      sync (modify (fun w : world => w <| curConn := Some l |>));;
      match truthy_member data "id" with
      | Some id => startConn (json_String id) (json_String <$> truthy_member data "password") (session_id_of data)
      | None => sync (bridge_msgbox "error" "Error" ("No id found in session data " ++ value))
      end
  end.
Definition sessionStart (value : string) : async unit :=
  match parse value with
  | None => sync (bridge_msgbox "error" "Error" "Unexpected token")
  | Some JNull => sync (bridge_msgbox "error" "Error" "Cannot read properties of null")
  | Some data => start_session value data
  end.

Definition sessionClose (value : string) : async unit :=
  if truthy value then sync (removeSession value) else sync close_current.

(** ** [set_common.js] *)
Abbreviation handler := (option string -> string -> async (option string)).
(** A handler that returns nothing. *)
Definition void (m : async unit) : async (option string) := m;; mret None.

Definition set_remote_id : handler := fun _ value => void (in_storage (fun st => <["remote-id" := value]> st)).
Definition set_login : handler := fun sid value => void (
  conn ← ctx_curConn sid;
  match conn with
  | None => skip
  | Some l =>
      data ← parse_json value;
      modelled (
        remember ← flag_of data "remember";
        password ← match member data "password" with
                   | Some (JStr p) => Some (Some p)
                   | Some JNull | None => Some None
                   | _ => None
                   end;
        Some (
          sync (any_setRemember l remember);;
          match truthy_member data "os_username" with
          | Some _ => skip
          | None => sync (any_login l password)
          end))
  end).
Definition set_close : handler := fun _ _ => void (sync close_current).
Definition set_option : handler := fun _ value => void (
  data ← parse_json value;
  name ← lift_outcome (prop data "name");
  v ← lift_outcome (prop data "value");
  in_storage (fun st => <[opt_String name := opt_String v]> st)).
Definition set_options : handler := fun _ value => void (
  data ← parse_json value;
  match data with
  | JObj o => for_of o (fun kv => in_storage (fun st => <[kv.1 := json_String kv.2]> st))
  | _ => unmodelled
  end).
Definition setNamespacedLocalOption (name value : string) : async unit :=
  data ← parse_json value;
  n ← lift_outcome (prop data "name");
  v ← lift_outcome (prop data "value");
  in_storage (fun st => <[name ++ ":" ++ opt_String n := opt_String v]> st).
Definition set_option_local : handler := fun _ value => void (setNamespacedLocalOption "option:local" value).
Definition set_option_flutter_local : handler := fun _ value => void (setNamespacedLocalOption "option:flutter:local" value).
Definition set_option_flutter_peer : handler := fun _ value => void (setNamespacedLocalOption "option:flutter:peer" value).
Definition set_option_user_default : handler := fun _ value => void (in_storage (setUserDefaultOption value)).
Definition set_option_session : handler := fun sid value => void (
  data ← parse_json value;
  conn ← ctx_curConn sid;
  match conn with
  | None => skip
  | Some l =>
      name ← lift_outcome (prop data "name");
      v ← lift_outcome (prop data "value");
      sync (on_any l (setOption (opt_String name) v))
  end).
Definition set_option_peer : handler := fun _ value => void (
  tnow ← gets (fun s : world * _ => now (wpage s.1));
  in_storage (setPeerOption tnow value)).
Definition set_remove : handler := fun _ value => void (in_storage (removePeer value)).
Definition set_forget : handler := fun sid _ => void (
  conn ← ctx_curConn sid;
  match conn with Some l => sync (any_setRemember l false) | None => skip end).
Definition set_fav : handler := fun _ value => void (in_storage (fun st => <["fav" := value]> st)).
Definition set_query_onlines : handler := fun _ _ => void skip.
Definition set_session_add_sync : handler := fun _ value => r ← sessionAdd value; mret (Some r).
Definition set_session_start : handler := fun _ value => void (sessionStart value).
Definition set_session_close : handler := fun _ value => void (sessionClose value).

(** ** [set_rd.js] *)
(** [ctx.rd()?.m()] *)
Definition on_ctx_rd (sid : option string) (m : js (rd * page) unit) : async unit :=
  conn ← ctx_rd sid;
  match conn with Some l => sync (on_rd l m) | None => skip end.
Definition withRd (sid : option string) (fn : json -> js (rd * page) unit) (value : string) : async unit :=
  conn ← ctx_rd sid;
  match conn with
  | None => skip
  | Some l => data ← parse_json value; sync (on_rd l (fn data))
  end.
Definition dispatchRdInputKey (sid : option string) (value : string) (mapFlutterKey : bool) : async unit :=
  conn ← ctx_rd sid;
  match conn with
  | None => skip
  | Some l =>
      data ← parse_json value;
      modelled (
        name ← text_of data "name";
        let name := if mapFlutterKey && (name =? "flutter_key")
                    then physicalButtonsMap (int_of data "usb_hid") else name in
        Some (sync (on_rd l (inputKey (isDesktop (userAgent env)) name (loosely_true data "down") (loosely_true data "press")
          (loosely_true data "alt") (loosely_true data "ctrl") (loosely_true data "shift")
          (loosely_true data "command")))))
  end.
Definition set_flutter_key_event : handler := fun sid value => void (dispatchRdInputKey sid value true).
Definition set_input_key : handler := fun sid value => void (dispatchRdInputKey sid value false).
Definition set_refresh : handler := fun sid _ => void (on_ctx_rd sid refresh).
Definition set_toggle_option : handler := fun sid value => void (on_ctx_rd sid (in_super (toggleOption value))).
Definition set_toggle_privacy_mode : handler := fun sid value => void (on_ctx_rd sid (in_super (togglePrivacyMode value))).
Definition set_image_quality : handler := fun sid value => void (on_ctx_rd sid (in_super (setImageQuality value))).
Definition set_lock_screen : handler := fun sid _ => void (on_ctx_rd sid lockScreen).
Definition set_ctrl_alt_del : handler := fun sid _ => void (on_ctx_rd sid ctrlAltDel).
(** The text reaches the wire as a number: an integer numeral as itself, other JSON text as 0, which
    is then written where the encoder would leave a 0 out and reads back the same. *)
Definition text_int32 (value : string) : option Z :=
  match parse value with Some (JNum n) => Some (to_int32 n) | Some _ => Some 0%Z | None => None end.
Definition set_switch_display : handler := fun sid value => void (modelled (
  n ← text_int32 value; Some (on_ctx_rd sid (switchDisplay n)))).
Definition set_input_string : handler := fun sid value => void (on_ctx_rd sid (inputString value)).
Definition set_send_mouse : handler := fun sid value => void (withRd sid (fun data =>
  inputMouse (mouse_mask data) (coordinate data "x") (coordinate data "y") (loosely_true data "alt")
    (loosely_true data "ctrl") (loosely_true data "shift") (loosely_true data "command")) value).
Definition set_send_2fa : handler := fun sid value => void (on_ctx_rd sid (send2fa value)).
Definition set_input_os_password : handler := fun sid value => void (on_ctx_rd sid (inputOsPassword value)).
Definition set_elevate_with_logon : handler := fun sid value => void (on_ctx_rd sid (elevateWithLogon value)).
Definition set_restart : handler := fun sid _ => void (
  conn ← ctx_rd sid;
  match conn with
  | Some l => floating (restart float_json decoder l (dialing env) (loop_fuel env))
  | None => skip
  end).
Definition set_change_prefer_codec : handler := fun sid _ => void (on_ctx_rd sid (in_super changePreferCodec)).

(** ** [set_ft.js] *)
Definition withFt (sid : option string) (fn : connref -> json -> option (async unit)) (value : string) : async unit :=
  conn ← ctx_ft sid;
  match conn with
  | None => skip
  | Some l => data ← parse_json value; modelled (fn l data)
  end.
(** A handler of the connection that runs in one go, and one that waits. *)
Definition at_once (l : connref) (m : js (ft * page) unit) : option (async unit) := Some (sync (on_ft l m)).

Definition set_read_remote_dir : handler := fun sid value => void (withFt sid (fun l data =>
  path ← text_of data "path"; hidden ← flag_of data "include_hidden";
  at_once l (readRemoteDir path hidden)) value).
Definition set_send_files : handler := fun sid value => void (withFt sid (fun l data =>
  id ← int_of data "id"; path ← text_of data "path"; to ← text_of data "to"; n ← int_of data "file_num";
  hidden ← flag_of data "include_hidden"; remote ← flag_of data "is_remote"; dir ← flag_of data "is_dir";
  Some (sendFiles (Host0 := world_host l) id path to n hidden remote dir)) value).
Definition set_confirm_override_file : handler := fun sid value => void (withFt sid (fun l data =>
  id ← int_of data "id"; n ← int_of data "file_num"; need ← flag_of data "need_override";
  remember ← flag_of data "remember"; upload ← flag_of data "is_upload";
  at_once l (confirmOverrideFile id n need remember upload)) value).
Definition set_remove_file : handler := fun sid value => void (withFt sid (fun l data =>
  id ← int_of data "id"; path ← text_of data "path"; n ← int_of data "file_num"; remote ← flag_of data "is_remote";
  at_once l (removeFile id path n remote)) value).
Definition set_read_dir_to_remove_recursive : handler := fun sid value => void (withFt sid (fun l data =>
  id ← int_of data "id"; path ← text_of data "path"; remote ← flag_of data "is_remote"; hidden ← flag_of data "show_hidden";
  at_once l (readDirToRemoveRecursive id path remote hidden)) value).
Definition set_remove_all_empty_dirs : handler := fun sid value => void (withFt sid (fun l data =>
  id ← int_of data "id"; path ← text_of data "path"; remote ← flag_of data "is_remote";
  at_once l (removeAllEmptyDirs id path remote)) value).
Definition set_cancel_job : handler := fun sid value => void (
  conn ← ctx_ft sid;
  match conn with
  | None => skip
  | Some l => modelled (id ← parseInt value; at_once l (cancelJob id))
  end).
Definition set_create_dir : handler := fun sid value => void (withFt sid (fun l data =>
  id ← int_of data "id"; path ← text_of data "path"; remote ← flag_of data "is_remote";
  at_once l (createDir id path remote)) value).
Definition set_rename_file : handler := fun sid value => void (withFt sid (fun l data =>
  id ← int_of data "id"; path ← text_of data "path"; name ← text_of data "new_name"; remote ← flag_of data "is_remote";
  at_once l (renameFile id path name remote)) value).
Definition set_select_files : handler := fun sid value => void (
  conn ← ctx_ft sid;
  match conn with
  | None => skip
  | Some l => floating (selectFiles localeCompare l (value =? "true") (chosen env))
  end).
Definition set_send_local_files : handler := fun sid value => void (withFt sid (fun l data =>
  id ← int_of data "id"; handle ← int_of data "handle_index"; path ← text_of data "path"; to ← text_of data "to";
  n ← int_of data "file_num"; hidden ← flag_of data "include_hidden"; remote ← flag_of data "is_remote";
  Some (sendLocalFiles (Host0 := world_host l) id handle path to n hidden remote)) value).
Definition set_send_folder_upload : handler := fun sid value => void (withFt sid (fun l data =>
  id ← int_of data "id"; to ← text_of data "to"; hidden ← flag_of data "include_hidden";
  at_once l (sendFolderUpload id to hidden)) value).
Definition set_add_job : handler := fun sid value => void (withFt sid (fun l data =>
  id ← int_of data "id"; path ← text_of data "path"; to ← text_of data "to"; n ← int_of data "file_num";
  hidden ← flag_of data "include_hidden"; remote ← flag_of data "is_remote";
  at_once l (addJob id path to n hidden remote)) value).
Definition set_resume_job : handler := fun sid value => void (withFt sid (fun l data =>
  id ← int_of data "id"; remote ← flag_of data "is_remote";
  Some (resumeJob (Host0 := world_host l) id remote)) value).
Definition set_read_remote_empty_dirs : handler := fun sid value => void (withFt sid (fun l data =>
  path ← text_of data "path"; hidden ← flag_of data "include_hidden";
  at_once l (readEmptyDirs path hidden)) value).

(** ** [stubs.js], [dispatch.js] *)
Definition set_nothing : handler := fun _ _ => void skip.
Definition setCommonHandlers : list (string * handler) :=
  [("remote_id", set_remote_id); ("login", set_login); ("close", set_close); ("option", set_option);
   ("options", set_options); ("option:local", set_option_local); ("option:flutter:local", set_option_flutter_local);
   ("option:flutter:peer", set_option_flutter_peer); ("option:user:default", set_option_user_default);
   ("option:session", set_option_session); ("option:peer", set_option_peer); ("remove", set_remove);
   ("forget", set_forget); ("fav", set_fav); ("query_onlines", set_query_onlines); ("cursor", set_nothing);
   ("session_add_sync", set_session_add_sync); ("session_start", set_session_start);
   ("session_close", set_session_close); ("flutter_key_event", set_flutter_key_event)].
Definition setRdHandlers : list (string * handler) :=
  [("refresh", set_refresh); ("toggle_option", set_toggle_option); ("toggle_privacy_mode", set_toggle_privacy_mode);
   ("image_quality", set_image_quality); ("lock_screen", set_lock_screen); ("ctrl_alt_del", set_ctrl_alt_del);
   ("switch_display", set_switch_display); ("input_key", set_input_key); ("input_string", set_input_string);
   ("send_mouse", set_send_mouse); ("send_2fa", set_send_2fa); ("input_os_password", set_input_os_password);
   ("elevate_with_logon", set_elevate_with_logon); ("restart", set_restart);
   ("change_prefer_codec", set_change_prefer_codec); ("option:toggle", set_toggle_option)].
Definition setFtHandlers : list (string * handler) :=
  [("read_remote_dir", set_read_remote_dir); ("send_files", set_send_files);
   ("confirm_override_file", set_confirm_override_file); ("remove_file", set_remove_file);
   ("read_dir_to_remove_recursive", set_read_dir_to_remove_recursive);
   ("remove_all_empty_dirs", set_remove_all_empty_dirs); ("cancel_job", set_cancel_job); ("create_dir", set_create_dir);
   ("rename_file", set_rename_file); ("select_files", set_select_files); ("send_local_files", set_send_local_files);
   ("send_folder_upload", set_send_folder_upload); ("add_job", set_add_job); ("resume_job", set_resume_job);
   ("read_remote_empty_dirs", set_read_remote_empty_dirs)].
Definition setStubHandlers : list (string * handler) :=
  [("connect", set_nothing); ("remove_peer", set_remove); ("reconnect", set_nothing); ("save_ab", set_nothing);
   ("clear_ab", set_nothing); ("load_ab", set_nothing); ("save_group", set_nothing); ("clear_group", set_nothing);
   ("load_group", set_nothing)].
Definition setByNameHandlers : list (string * handler) :=
  setCommonHandlers ++ setRdHandlers ++ setFtHandlers ++ setStubHandlers.

Definition dispatchSetByName (name value : string) (sessionId : option string) : async (option string) :=
  match map_get setByNameHandlers name with
  | Some h => h sessionId value
  | None => mret None
  end.
(** [window.setByName] *)
Definition setByName : string -> string -> option string -> async (option string) := dispatchSetByName.

(** ** Reading: [get_rd.js], [get_storage.js]

    A query changes nothing; [announced] are the texts it hands to [onRegisteredEvent].  The
    constants are the translation table, the language of the page's address, the version text, the
    codecs and the windows' measures the browser reports. *)
Record constants := {
  LANGS : jsmap string (jsmap string string); LANG : string; app_version : string;
  codecs : option (list string); screen_info : json; main_display : json;
}.
Context (k : constants).
Record answer := { returned : outcome (option json); announced : list string }.
Definition reply (v : outcome (option json)) : answer := {| returned := v; announced := [] |}.
Definition reply_json (j : json) : answer := reply (Ret (Some j)).
Definition reply_text (s : string) : answer := reply_json (JStr s).
Definition reply_item (o : option string) : answer := reply_json (match o with Some s => JStr s | None => JNull end).

Definition store (w : world) : storage := localStorage (wpage w).
Definition cur_conn (sid : option string) (w : world) : option conn := l ← connFor sid w; conn_at l w.
Definition rd_of (sid : option string) (w : world) : option rd :=
  l ← requireRemoteDesktop sid w; c ← conn_at l w;
  match instance c with RdConn r => Some r | FtConn _ => None end.
Definition any_getRemember (c : conn) : bool :=
  match instance c with FtConn f => _remember f | RdConn r => getRemember r end.
Definition any_getPlatform (c : conn) : string :=
  match instance c with
  | FtConn f => _peerPlatform f
  | RdConn r => match _peerInfo (rsuper r) with Some pi => PeerInfo.platform pi | None => "" end
  end.

(** One turn of the loop over the sessions. *)
Definition conn_status (acc : Z * json) (sid : string) (w : world) : Z * json :=
  match (l ← getSession (Some sid) w; c ← conn_at l w; parse (getStatus (base_of c))) with
  | Some s =>
      match member s "status_num" with
      | Some (JNum n) => if (acc.1 <? n)%Z then (n, match member s "video_conn_count" with
                                                     | Some JNull | None => JNum 0 | Some j => j end) else acc
      | _ => acc
      end
  | None => acc
  end.
Definition get_conn_status (w : world) : string :=
  let '(n, v) := foldl (fun acc sid => conn_status acc sid w) (0%Z, JNum 0) (allSessionIds w) in
  stringify (JObj [("status_num", JNum n); ("video_conn_count", v)]).
(** [a?.hostname || b?.hostname || ""] *)
Definition get_hostname (c : option conn) : json :=
  let stored := (c ← c; i ← getOption "info" (base_of c); member i "hostname") in
  match stored with
  | Some j => if truthy j then j else JStr (match (c ← c; _peerInfo (base_of c)) with
                                            | Some pi => PeerInfo.hostname pi | None => "" end)
  | None => JStr (match (c ← c; _peerInfo (base_of c)) with Some pi => PeerInfo.hostname pi | None => "" end)
  end.
Definition get_options (st : storage) : string :=
  stringify (JObj (omap (fun key => let v := getEffectiveOption st key in
      if truthy v then Some (key, JStr v) else None)
    ["custom-rendezvous-server"; "relay-server"; "api-server"; "key"])).
Definition get_translate (arg : string) : outcome (option json) :=
  data ← parse_or_throw arg;
  match text_of data "locale", text_of data "text" with
  | Some locale, Some text => Ret (Some (JStr (translate (LANGS k) (LANG k) locale text)))
  | _, _ => OutOfFuel
  end.
(** [ctx.curConn?.getOption(arg) ?? getUserDefaultOption(arg)] *)
Definition get_session_option (st : storage) (c : option conn) (arg : string) : json :=
  match (c ← c; getOption arg (base_of c)) with
  | Some JNull | None => getUserDefaultOption st arg
  | Some j => j
  end.
Definition recent_sync (st : storage) : outcome (option json) :=
  peers ← getRecentPeers st;
  mret (Some (JStr (stringify (JObj [("peers", JStr (stringify (JArr (map card_json peers))))])))).

Definition getStorageHandlers (name arg : string) (sid : option string) (w : world) : option answer :=
  let st := store w in
  let c := cur_conn sid w in
  map_get [("app-name", reply_text (default "" (st !! "app-name")));
    ("remote_id", reply_item (st !! "remote-id"));
    ("remember", reply_json (JBool (match c with Some c => any_getRemember c | None => false end)));
    ("toggle_option", reply_json (match (c ← c; getOption arg (base_of c)) with
                                  | Some j => if truthy j then j else JBool false | None => JBool false end));
    ("option", reply_item (st !! arg));
    ("options", reply_text (get_options st));
    ("option:local", reply_item (st !! ("option:local:" ++ arg)));
    ("option:flutter:local", reply_item (st !! ("option:flutter:local:" ++ arg)));
    ("option:flutter:peer", reply_item (st !! ("option:flutter:peer:" ++ arg)));
    ("translate", reply (get_translate arg));
    ("option:user:default", reply_json (getUserDefaultOption st arg));
    ("option:session", reply_json (get_session_option st c arg));
    ("platform", reply_text (match c with Some c => any_getPlatform c | None => "" end));
    ("hostname", reply_json (get_hostname c));
    ("conn_token", reply_text (ctx_connToken sid w));
    ("option:peer", reply (Ret (getPeerOption st arg)));
    ("version", reply_text (app_version k));
    ("load_recent_peers", match loadRecentPeers st with
                          | Ret t => {| returned := Ret None; announced := [t] |}
                          | Throw e => reply (Throw e) | OutOfFuel => reply OutOfFuel end);
    ("load_fav_peers", {| returned := Ret None; announced := option_list (loadFavPeers st) |});
    ("fav", reply_text (default "[]" (st !! "fav")));
    ("load_recent_peers_sync", reply (recent_sync st));
    ("api_server", reply_text (getApiServer st));
    ("is_using_public_server", reply_json (JBool (negb (truthy (getEffectiveOption st "custom-rendezvous-server")))));
    ("get_version_number", reply_json (JNum (getVersionNumber arg)));
    ("audit_server", reply_text (getAuditServer st arg));
    ("alternative_codecs", reply_text (getAlternativeCodecs (codecs k)));
    ("peer_has_password", reply_json (JBool (peerHasPassword st arg)));
    ("peer_exists", reply_json (JBool (peerExists st arg)));
    ("screen_info", reply_text (stringify (screen_info k)));
    ("main_display", reply_text (stringify (main_display k)))] name.
Definition getRdHandlers (name arg : string) (sid : option string) (w : world) : option answer :=
  map_get [("image_quality", reply_json (match (r ← rd_of sid w; getImageQuality (rsuper r)) with
                                         | Some JNull | None => JStr "" | Some j => j end));
    ("option:toggle", reply_json (match rd_of sid w with Some r => getToggleOption arg (rsuper r) | None => JBool false end));
    ("get_conn_status", reply_text (get_conn_status w))] name.
Definition getStubHandlers (name : string) : option answer :=
  map_get [("my_name", reply_text ""); ("my_id", reply_text ""); ("uuid", reply_text "");
    ("langs", reply_text (stringify (JArr (map JStr (map_keys (LANGS k))))));
    ("build_date", reply_text ""); ("enable_trusted_devices", reply_text ""); ("local_os", reply_text "");
    ("test_if_valid_server", reply_text "")] name.
Definition dispatchGetByName (name arg : string) (sid : option string) (w : world) : answer :=
  match getStorageHandlers name arg sid w with
  | Some a => a
  | None => match getRdHandlers name arg sid w with
            | Some a => a
            | None => match getStubHandlers name with Some a => a | None => reply (Ret None) end
            end
  end.
(** [window.getByName]: texts as they are, nothing as the empty text, the rest as JSON. *)
Definition getByName (name arg : string) (sid : option string) (w : world) : outcome string * list string :=
  let a := dispatchGetByName name arg sid w in
  (v ← returned a; mret (match v with
                      | Some (JStr s) => s
                      | Some JNull | None => ""
                      | Some j => stringify j
                      end), announced a).
End Bridge.
