(* ===== verification/BridgeFacts.v ===== *)
(** * What calls over the bridge do to the sessions

    Every handler is [orderly]: from a consistent registry it leads to a consistent one, and a
    transfer session leaves the registry only closed or ended.  The one exception is adding a
    session under an id that is taken. *)
From Stdlib Require Import Floats.SpecFloat.
From S2P Require Import Prelude JsMap JsStr Json Bytes ProtoWire ProtoFile ProtoMedia ProtoSession ProtoMessage ProtoEnums Crypto.
From S2P Require Import Config PushEvent Websock SessionConnect FtProtocol FtBrowserIo FtZip Page FtJobs SessionBase LocalStore.
From S2P Require Import FtConnection Common RdOptions RdConnection Keeps Sessions SessionsFacts SessionsEnd Connect FtSession.
From S2P Require Import FtJobsFacts FtStart RdSession Bridge.
Local Open Scope string_scope.

(** ** What the handlers leave alone *)
Section Ft.
Context `{ProtobufRuntime} `{Sodium} `{Zstd} `{Fflate}.
Lemma removeFile_keeps id p n r : preserves same_stage (removeFile id p n r).
Proof. unfold removeFile. solve_preserves. Qed.
Lemma createDir_keeps id p r : preserves same_stage (createDir id p r).
Proof. unfold createDir. solve_preserves. Qed.
Lemma renameFile_keeps id p n r : preserves same_stage (renameFile id p n r).
Proof. unfold renameFile. solve_preserves. Qed.
Lemma readDirToRemoveRecursive_keeps id p r h : preserves same_stage (readDirToRemoveRecursive id p r h).
Proof. unfold readDirToRemoveRecursive. solve_preserves. Qed.
Lemma removeAllEmptyDirs_keeps id p r : preserves same_stage (removeAllEmptyDirs id p r).
Proof. unfold removeAllEmptyDirs. solve_preserves. Qed.
Lemma readRemoteDir_keeps p h : preserves same_stage (readRemoteDir p h).
Proof. unfold readRemoteDir. solve_preserves. Qed.
Lemma readEmptyDirs_keeps p h : preserves same_stage (readEmptyDirs p h).
Proof. unfold readEmptyDirs. solve_preserves. Qed.
Lemma cancelJob_keeps id : preserves same_stage (cancelJob id).
Proof. unfold cancelJob. solve_preserves. Qed.
Lemma addJob_keeps id p t n h r : preserves same_stage (addJob id p t n h r).
Proof. unfold addJob. solve_preserves. Qed.
Lemma sendFolderUpload_keeps id t h : preserves same_stage (sendFolderUpload id t h).
Proof.
  unfold sendFolderUpload.
  solve_preserves_with ltac:(apply in_jobs_keeps, createMultiFileUploadJob_keeps; unfold plan_entries; by rewrite length_imap).
Qed.
End Ft.
#[export] Hint Resolve removeFile_keeps createDir_keeps renameFile_keeps readDirToRemoveRecursive_keeps
  removeAllEmptyDirs_keeps readRemoteDir_keeps readEmptyDirs_keeps cancelJob_keeps addJob_keeps
  sendFolderUpload_keeps confirmOverrideFile_keeps : preserves.

Section FtAsync.
Context `{ProtobufRuntime} `{Sodium} `{Zstd} `{Fflate} {St : Type} `{!Host St} (R : relation St) `{!PreOrder R}.
Hypothesis here_keeps : forall A (m : js (ft * page) A), preserves same_stage m -> preserves R (here A m).
Ltac by_self := apply (on_self_keeps R R here_keeps); solve_preserves_with by_update.
Lemma floating_keeps (m : js (St * list (St -> St)) unit) :
  preserves (async_keeps R) m -> preserves (async_keeps R) (floating m).
Proof. intros Hm. unfold floating. solve_preserves_with ltac:(apply Hm). Qed.
Lemma ensureDownloadSaveTarget_keeps l : preserves (async_keeps R) (ensureDownloadSaveTarget l).
Proof. unfold ensureDownloadSaveTarget. solve_preserves_with by_self. Qed.
#[local] Hint Resolve ensureDownloadSaveTarget_keeps : preserves.
Lemma startRemoteDownload_keeps item : preserves (async_keeps R) (startRemoteDownload item).
Proof. unfold startRemoteDownload. solve_preserves_with by_self. Qed.
#[local] Hint Resolve startRemoteDownload_keeps : preserves.
Lemma download_turns_keeps fuel : preserves (async_keeps R) (download_turns fuel).
Proof. induction fuel as [|fuel IH]; cbn [download_turns]; solve_preserves_with by_self. Qed.
#[local] Hint Resolve download_turns_keeps : preserves.
Lemma processDownloadQueue_keeps : preserves (async_keeps R) processDownloadQueue.
Proof. unfold processDownloadQueue. solve_preserves_with by_self. Qed.
#[local] Hint Resolve processDownloadQueue_keeps : preserves.
Lemma sendFiles_keeps id p t n h r d : preserves (async_keeps R) (sendFiles id p t n h r d).
Proof. unfold sendFiles. pose proof floating_keeps. solve_preserves_with by_self. Qed.
#[local] Hint Resolve sendFiles_keeps : preserves.
Lemma sendLocalFiles_keeps id i p t n h r : preserves (async_keeps R) (sendLocalFiles id i p t n h r).
Proof. unfold sendLocalFiles. solve_preserves_with by_self. Qed.
Lemma resumeJob_keeps id r : preserves (async_keeps R) (resumeJob id r).
Proof.
  unfold resumeJob, resumeRemoteDownload. pose proof (pumpUploadBlocks_keeps R R here_keeps) as Hpump.
  solve_preserves_with ltac:(first [by_self | apply floating_keeps]). 
Qed.
End FtAsync.

Section Rd.
Context `{ProtobufRuntime} `{Sodium} `{Zstd} `{Fflate}.
Lemma any_send_keeps m : preserves same_id_rd (rd_send m).
Proof. apply in_super_keeps, sendMessage_keeps. Qed.
#[local] Hint Resolve any_send_keeps : preserves.
Ltac by_rd := first [by_update | intros [?c ?pg]; by destruct c].
Lemma inputKey_keeps d n a b c e f g : preserves same_id_rd (inputKey d n a b c e f g).
Proof. unfold inputKey. solve_preserves_with by_rd. Qed.
Lemma ctrlAltDel_keeps : preserves same_id_rd ctrlAltDel.
Proof. unfold ctrlAltDel. solve_preserves_with by_rd. Qed.
Lemma inputMouse_keeps m x y a b c d : preserves same_id_rd (inputMouse m x y a b c d).
Proof. apply any_send_keeps. Qed.
Lemma refresh_keeps : preserves same_id_rd refresh.
Proof. apply any_send_keeps. Qed.
Lemma lockScreen_keeps : preserves same_id_rd lockScreen.
Proof. apply any_send_keeps. Qed.
Lemma switchDisplay_keeps n : preserves same_id_rd (switchDisplay n).
Proof. apply any_send_keeps. Qed.
Lemma inputString_keeps v : preserves same_id_rd (inputString v).
Proof. apply any_send_keeps. Qed.
Lemma send2fa_keeps v : preserves same_id_rd (send2fa v).
Proof. apply any_send_keeps. Qed.
Lemma elevateWithLogon_keeps v : preserves same_id_rd (elevateWithLogon v).
Proof. unfold elevateWithLogon, send_misc. solve_preserves_with by_rd. Qed.
Lemma setRemember_keeps v : preserves same_id_rd (setRemember v).
Proof. apply in_super_keeps, setOption_keeps. Qed.
Lemma toggleOption_keeps v : preserves same_id_base (toggleOption v).
Proof. unfold toggleOption. solve_preserves. Qed.
Lemma setImageQuality_keeps v : preserves same_id_base (setImageQuality v).
Proof. unfold setImageQuality. solve_preserves. Qed.
Lemma changePreferCodec_keeps : preserves same_id_base changePreferCodec.
Proof. unfold changePreferCodec. solve_preserves. Qed.
Lemma togglePrivacyMode_keeps v : preserves same_id_base (togglePrivacyMode v).
Proof. apply sendMessage_keeps. Qed.
End Rd.
#[export] Hint Resolve any_send_keeps inputKey_keeps ctrlAltDel_keeps inputMouse_keeps elevateWithLogon_keeps
  refresh_keeps lockScreen_keeps switchDisplay_keeps inputString_keeps send2fa_keeps inputOsPassword_keeps
  setRemember_keeps toggleOption_keeps setImageQuality_keeps changePreferCodec_keeps togglePrivacyMode_keeps : preserves.
#[export] Hint Extern 2 (preserves same_id_rd (in_super _)) =>
  (apply in_super_keeps; solve [auto with preserves nocore]) : preserves.

(** ** The registry *)
Section Registry.
Context `{ProtobufRuntime} `{Sodium} `{Zstd} `{Fflate}.

(** A connection may change in place as long as it grows. *)
Lemma alter_orderly l f : (forall c, grows c (f c)) ->
  preserves orderly (modify (fun w => w <| conns ::= alter f l |>)).
Proof.
  intros Hf w Hok. rewrite modify_run. cbn [snd]. set (w' := w <| conns ::= alter f l |>).
  assert (Hat : forall l' c, conn_at l' w = Some c -> exists c', conn_at l' w' = Some c' /\ grows c c').
  { intros l' c Hc. subst w'. unfold conn_at in *. destruct w; cbn in *.
    destruct (decide (l' = l)) as [->|Hl]; [rewrite list_lookup_alter_eq, Hc; cbn; eauto|].
    rewrite list_lookup_alter_ne by done. exists c. by split. }
  assert (Hs : sessions w' = sessions w /\ curConn w' = curConn w) by (subst w'; by destruct w).
  destruct Hs as [Es Ec]. split.
  - destruct Hok. split; unfold registered in *; rewrite ?Es, ?Ec; try done.
    + intros s l' Hr. destruct (carries_id s l' Hr) as (Hn & c & Hc & Hid). split; [done|].
      destruct (Hat l' c Hc) as (c' & Hc' & Hg & _). exists c'. split; [done|]. by rewrite Hg.
    + intros l' c' Hc'. assert (E : alter f l (conns w) !! l' = Some c') by (by destruct w).
      apply lookup_alter_inv in E as (c & Hc & [->|[_ ->]]); [by apply (jobs_consistent l')|].
      destruct (Hf c) as (_ & _ & _ & _ & Hj). by apply Hj, (jobs_consistent l').
  - split; [exact Hat|]. intros s l' c Hr Hc. left. unfold registered in *. by destruct w.
Qed.

Lemma new_conn_run ft w : exists c, jobs_of c = newFileJobManager /\
  new_conn ft w = (Ret (length (conns w)), w <| conns := (conns w ++ [c])%list |>).
Proof. eexists. split; [|reflexivity]. by destruct ft. Qed.

(** A new connection added under an id that is not taken. *)
Lemma add_new_orderly c sid w : jobs_of c = newFileJobManager -> sid <> "" -> (forall l, ~ registered w sid l) ->
  orderly w (exec (addSession sid (length (conns w))) (w <| conns := (conns w ++ [c])%list |>)).
Proof.
  intros Hj Hn Hfree Hok. set (l := length (conns w)). set (w1 := w <| conns := (conns w ++ [c])%list |>).
  assert (Hat : forall l' c', conn_at l' w = Some c' -> conn_at l' w1 = Some c' /\ l' <> l).
  { intros l' c' Hc. subst w1 l. unfold conn_at in *. destruct w; cbn in *. split; [by apply lookup_app_l_Some|].
    apply lookup_lt_Some in Hc. lia. }
  assert (Hok1 : registry_ok w1) by (by apply new_conn_ok).
  assert (Hunreg : forall s, ~ registered w1 s l).
  { intros s Hr. assert (Hr' : registered w s l) by (subst w1; by destruct w).
    destruct (SessionsFacts.carries_id w Hok s l Hr') as (_ & c' & Hc & _). by destruct (Hat l c' Hc). }
  split.
  - apply addSession_ok; [done|done| |done]. exists c. subst w1 l. unfold conn_at. destruct w; cbn.
    by rewrite lookup_app_r, Nat.sub_diag by lia.
  - unfold exec, addSession. rewrite modify_run. cbn [snd]. split.
    + intros l' c' Hc. destruct (Hat l' c' Hc) as [Hc1 Hl]. exists c'. split; [|reflexivity].
      unfold conn_at in *. destruct w; cbn in *. by rewrite list_lookup_alter_ne by done.
    + intros s l' c' Hr Hc. left. unfold registered in *. destruct w; cbn in *.
      rewrite map_get_set_ne; [done|]. intros ->. by apply (Hfree l').
Qed.

Lemma apply_token_grows t c : grows c (applyConnToken t c).
Proof.
  unfold applyConnToken. destruct t as [text|]; [|reflexivity]. destruct (negb _); [reflexivity|].
  destruct (parse text) as [[]|]; try reflexivity; unfold apply_token;
    repeat case_match; destruct c as [[[[]]|[[]]] ?]; unfold grows; split_and!; first [done | reflexivity].
Qed.
End Registry.

(** ** The mask of a mouse event *)
Definition mouse_kinds : list string := ["move"; "down"; "up"; "wheel"].
Definition mouse_buttons : list (string * Z) := [("none", 0); ("left", 1); ("right", 2); ("wheel", 4)]%Z.
Definition mouse_event (kind button : string) : json := JObj [("type", JStr kind); ("buttons", JStr button)].
(** What the peer reads off the mask: what happened, and the button's bit. *)
Definition read_mask (mask : Z) : option string * Z := (mouse_kinds !! Z.to_nat (Z.land mask 7), Z.shiftr mask 3).

(** Whatever the mouse data, its mask fits six bits, names one of the four kinds in its low three
    bits and at most one button above them; and the mask of any kind with any button reads back as
    that kind and that button, so the two never run into each other. *)
Theorem mouse_mask_bounds :
  (forall data, let m := mouse_mask data in
     (0 <= m < 64)%Z /\ (Z.land m 7 < 4)%Z /\ Z.shiftr m 3 ∈ [0; 1; 2; 4]%Z) /\
  forallb (fun kind => forallb (fun b =>
    bool_decide (read_mask (mouse_mask (mouse_event kind b.1)) = (Some kind, b.2))) mouse_buttons) mouse_kinds = true.
Proof.
  split; [|by vm_compute]. intros data. cbv zeta. unfold mouse_mask.
  set (kind := match member data "type" with Some (JStr t) => _ | _ => 0%Z end).
  assert (Hk : kind ∈ [0; 1; 2; 3]%Z) by (subst kind; repeat case_match; by apply (bool_decide_unpack _)).
  clearbody kind. repeat (apply elem_of_cons in Hk as [->|Hk]); [..|by apply elem_of_nil in Hk].
  all: repeat case_match; (split; [by vm_compute|split; [by vm_compute|by apply (bool_decide_unpack _)]]).
Qed.
(** Any text but [true] turns the privacy mode off, the JSON the application sends included. *)
Lemma togglePrivacyMode_other `{ProtobufRuntime} `{Sodium} v : v <> "true" -> togglePrivacyMode v = togglePrivacyMode "false".
Proof. intros Hv. unfold togglePrivacyMode. by rewrite (proj2 (String.eqb_neq _ _) Hv). Qed.
(** The JSON object the application sends asks for the first display. *)
Lemma switch_display_object v l : parse v = Some (JObj l) -> text_int32 v = Some 0%Z.
Proof. unfold text_int32. by intros ->. Qed.

(** ** The handlers *)
Section Handlers.
Context `{ProtobufRuntime} `{Sodium} `{Zstd} `{Fflate}.
Context (float_json : spec_float -> json) (decoder : nat -> EncodedVideoFrame.t -> submission).
Context (localeCompare : string -> string -> Z) (env : surroundings).
Abbreviation async A := (js (world * list (world -> world)) A).
Abbreviation keeps := (preserves (async_keeps orderly)).

Lemma sync_orderly {A} (m : js world A) : preserves orderly m -> keeps (sync m).
Proof. apply (preserves_sync orderly orderly). Qed.
Lemma in_storage_orderly f : keeps (in_storage f).
Proof. apply sync_orderly, internal_orderly. by intros []. Qed.
Lemma void_orderly m : keeps m -> keeps (void m).
Proof. intros Hm. unfold void. apply preserves_bind; [apply _|done|]. intros _. apply preserves_ret, _. Qed.
Lemma modelled_orderly o : (forall m, o = Some m -> keeps m) -> keeps (modelled o).
Proof. intros Ho. destruct o as [m|]; [by apply Ho|]. apply preserves_lift, _. Qed.
Lemma parse_json_orderly v : keeps (parse_json v).
Proof. apply preserves_lift, _. Qed.
Lemma on_any_orderly l m : preserves same_id_base m -> preserves orderly (on_any l m).
Proof.
  intros Hm. unfold on_any. solve_preserves_with ltac:(first [by apply in_base_orderly | by apply rd_base_orderly]).
Qed.
Lemma any_setRemember_orderly l v : preserves orderly (any_setRemember l v).
Proof. unfold any_setRemember. solve_preserves. Qed.
Lemma any_login_orderly l p : preserves orderly (any_login l p).
Proof.
  unfold any_login. apply preserves_bind; [apply _|apply preserves_gets, _|].
  intros [c|]; [|apply preserves_throw, _]. destruct (isFileTransfer c).
  - apply (@login_keeps _ _ world (ft_session l)); [apply _|intros; by apply in_base_orderly|..].
    + intros q. apply on_ft_orderly, buildFtLoginRequest_keeps.
    + intros ty title text. apply (ft_msgbox_orderly l ty title text).
  - apply (@login_keeps _ _ world (rd_session l)); [apply _|intros; by apply rd_base_orderly|..].
    + intros q. apply on_rd_orderly, buildRdLoginRequest_keeps.
    + intros ty title text. apply bridge_msgbox_orderly.
Qed.
Ltac ft_base := apply in_base_orderly; first [ solve [solve_preserves] | intros [?c ?pg]; solve [done | by destruct c] ].
Ltac ft_own := apply on_ft_orderly; first [ solve [solve_preserves] | by_update ].
Lemma start_orderly l d fuel id pw : keeps (FtStart.start float_json l d fuel id pw).
Proof.
  unfold FtStart.start, _start. pose proof (msgLoop_orderly float_json l orderly) as Hloop.
  assert (Hest : keeps (@establishConnection _ _ world (ft_session l) (reportConnectError l) (msgLoop float_json l fuel) d ConnType.FILE_TRANSFER)).
  { apply (@establishConnection_keeps _ _ world (ft_session l)); [apply _|intros; by apply in_base_orderly| |apply Hloop].
    intros. apply report_orderly. }
  pose proof (end_this_orderly l) as Hend.
  solve_preserves_with ltac:(first [ft_base | ft_own | exact Hest | apply Hend | apply still_open_orderly]).
Qed.
Lemma restart_orderly l d fuel : keeps (restart float_json decoder l d fuel).
Proof.
  unfold restart. pose proof (rd_start_orderly float_json decoder l d fuel) as Hstart.
  solve_preserves_with ltac:(first [apply rd_base_orderly; by_update | apply on_rd_orderly, rd_close_keeps | apply Hstart]).
Qed.
Lemma selectFiles_orderly l isFolder fs : keeps (selectFiles localeCompare l isFolder fs).
Proof.
  unfold selectFiles. pose proof (ft_msgbox_orderly l) as Hbox.
  solve_preserves_with ltac:(first [ft_base | ft_own | apply Hbox | apply ft_sid_orderly]).
Qed.
Lemma start_of_orderly l id pw : keeps (start_of float_json decoder env l id pw).
Proof.
  unfold start_of. pose proof start_orderly as Hft. pose proof (rd_start_orderly float_json decoder l) as Hrd.
  solve_preserves_with ltac:(first [apply Hft | apply Hrd]).
Qed.
Lemma float_orderly (m : async unit) : keeps m -> keeps (floating m).
Proof. apply floating_keeps. apply _. Qed.
#[local] Hint Resolve sync_orderly in_storage_orderly void_orderly parse_json_orderly on_any_orderly
  any_setRemember_orderly any_login_orderly restart_orderly selectFiles_orderly start_of_orderly float_orderly : preserves.
Lemma startConn_orderly id pw sid : keeps (startConn float_json decoder env id pw sid).
Proof. unfold startConn, ctx_curConn. solve_preserves. Qed.
#[local] Hint Resolve startConn_orderly : preserves.

(** Making a connection that the registry knows the current one. *)
Lemma choose_orderly sid l w : getSession sid w = Some l -> orderly w (w <| curConn := Some l |>).
Proof.
  intros Hl Hok. assert (Hreg : exists s, registered w s l).
  { unfold getSession in Hl. destruct sid as [s|]; [|by apply current_registered].
    destruct (truthy s && map_has (sessions w) s); [by exists s|by apply current_registered]. }
  split; [|destruct w; split; [intros l0 c Hc; exists c; by split|by left]].
  destruct Hok. split; unfold registered, conn_at in *; destruct w; cbn in *; try done. by intros ? [= <-].
Qed.

(** [session_add_sync] of an id that is not taken. *)
Definition adds_free_id (value : string) (w : world) : Prop :=
  forall data sid l, parse value = Some data -> session_id_of data = Some sid -> ~ registered w sid l.
Lemma session_id_nonempty data sid : session_id_of data = Some sid -> sid <> "".
Proof.
  unfold session_id_of. destruct (member data "session_id") as [[]|]; try done.
  unfold truthy, truthy_string. case_bool; [|done]. by intros [= <-].
Qed.
Lemma add_session_orderly data w :
  (forall sid l, session_id_of data = Some sid -> ~ registered w sid l) -> orderly w (exec (add_session data) w).
Proof.
  intros Hfree. unfold add_session. destruct data; try reflexivity;
    (destruct (odd_session_id _); [reflexivity|]);
    destruct (session_id_of _) as [sid|] eqn:Es; try reflexivity.
  match goal with |- context [new_conn ?ft] => destruct (new_conn_run ft w) as (c & Hnew & Ec) end.
  rewrite (exec_bind _ _ w _ _ Ec).
  pose proof (add_new_orderly c sid w Hnew (session_id_nonempty _ _ Es) (fun l => Hfree sid l eq_refl)) as Ho.
  set (w1 := w <| conns := (conns w ++ [c])%list |>) in *.
  rewrite (exec_bind (addSession sid (length (conns w))) _ w1 tt (exec (addSession sid (length (conns w))) w1)) by done.
  etrans; [exact Ho|]. generalize (exec (addSession sid (length (conns w))) w1).
  match goal with |- forall w, orderly w (exec ?m w) => change (preserves orderly m) end.
  pose proof apply_token_grows.
  solve_preserves_with ltac:(first [by apply alter_orderly | apply on_any_orderly; by_update]).
Qed.

Lemma sync_modify_bind {R} (f : world -> world) (m : js (world * list (world -> world)) R) w fs :
  (sync (modify f);; m) (w, fs) = m (f w, fs).
Proof. reflexivity. Qed.
Lemma start_session_orderly value data : keeps (start_session float_json decoder env value data).
Proof.
  unfold start_session. destruct (odd_session_id data); [apply preserves_lift, _|].
  intros [w fs] Hfs. rewrite bind_gets. cbn [fst snd].
  destruct (getSession (session_id_of data) w) as [l|] eqn:El; [|by split].
  match goal with |- context [sync _ ≫= ?k] => assert (Hk : keeps (k tt)) by solve_preserves end.
  pose proof (choose_orderly (session_id_of data) l w El) as Ho. rewrite sync_modify_bind.
  set (w1 := w <| curConn := Some l |>) in *. destruct (Hk (w1, fs) Hfs) as [Ho' Hfs'].
  split; [exact (transitivity Ho Ho')|exact Hfs'].
Qed.
Lemma sessionStart_orderly value : keeps (sessionStart float_json decoder env value).
Proof.
  unfold sessionStart. pose proof bridge_msgbox_orderly as Hbox.
  destruct (parse value) as [[]|]; first [apply start_session_orderly | apply sync_orderly, Hbox].
Qed.
Lemma sessionClose_orderly value : keeps (sessionClose value).
Proof. unfold sessionClose. solve_preserves. Qed.
#[local] Hint Resolve sessionStart_orderly sessionClose_orderly : preserves.

Ltac by_handler := first
  [ apply (preserves_gets (async_keeps orderly)); apply _
  | apply modelled_orderly; intros ? ?; repeat (simplify_option_eq; try done); solve_preserves ].
Lemma on_ctx_rd_orderly sid m : preserves same_id_rd m -> keeps (on_ctx_rd sid m).
Proof. intros Hm. unfold on_ctx_rd, ctx_rd. solve_preserves_with ltac:(by apply on_rd_orderly). Qed.
Lemma withRd_orderly sid fn value : (forall data, preserves same_id_rd (fn data)) -> keeps (withRd sid fn value).
Proof. intros Hm. unfold withRd, ctx_rd. solve_preserves_with ltac:(by apply on_rd_orderly). Qed.
Lemma withFt_orderly sid fn value : (forall l data m, fn l data = Some m -> keeps m) -> keeps (withFt sid fn value).
Proof. intros Hm. unfold withFt, ctx_ft. solve_preserves_with ltac:(apply modelled_orderly; eauto). Qed.
Lemma at_once_orderly l m m' : preserves same_stage m -> at_once l m = Some m' -> keeps m'.
Proof. intros Hm [= <-]. apply sync_orderly, on_ft_orderly, Hm. Qed.
Lemma dispatchRdInputKey_orderly sid value b : keeps (dispatchRdInputKey env sid value b).
Proof.
  unfold dispatchRdInputKey, ctx_rd.
  solve_preserves_with ltac:(apply modelled_orderly; intros ? ?; simplify_option_eq).
Qed.
#[local] Hint Resolve dispatchRdInputKey_orderly : preserves.

Definition entry_keeps (p : string * (option string -> string -> async (option string))) : Prop :=
  forall sid value, keeps (p.2 sid value).
Lemma setNothing_orderly name : entry_keeps (name, set_nothing).
Proof. intros sid value. apply void_orderly, preserves_ret, _. Qed.
Ltac every_entry tac := repeat (apply Forall_cons_2; [solve [tac]|]); apply Forall_nil_2.
Lemma stubs_orderly : Forall entry_keeps setStubHandlers.
Proof.
  unfold setStubHandlers.
  every_entry ltac:(first [apply setNothing_orderly | intros sid value; apply void_orderly, in_storage_orderly]).
Qed.
Ltac by_fields := let Hm := fresh in intros ? Hm; cbv beta in Hm; simplify_option_eq; first
  [ eapply at_once_orderly; [|eassumption]; auto with preserves
  | first [ apply sendFiles_keeps | apply sendLocalFiles_keeps | apply resumeJob_keeps ]; [apply _|];
    intros ? ?; apply on_ft_orderly ].
Ltac ft_entry := intros sid value; apply void_orderly; first
  [ apply withFt_orderly; intros l data; by_fields
  | unfold ctx_ft; solve_preserves_with ltac:(apply modelled_orderly; by_fields) ].
Lemma ftHandlers_orderly : Forall entry_keeps (setFtHandlers localeCompare env).
Proof. unfold setFtHandlers. every_entry ltac:(ft_entry). Qed.

Ltac rd_entry := intros sid value; apply void_orderly; first
  [ apply on_ctx_rd_orderly; solve [auto with preserves]
  | apply modelled_orderly; intros ? ?; simplify_option_eq; apply on_ctx_rd_orderly, switchDisplay_keeps
  | apply withRd_orderly; intros data; apply inputMouse_keeps
  | solve [auto with preserves]
  | unfold ctx_rd; solve_preserves ].
Lemma rdHandlers_orderly : Forall entry_keeps (setRdHandlers float_json decoder env).
Proof. unfold setRdHandlers. every_entry ltac:(rd_entry). Qed.

Lemma options_orderly (l : list (string * json)) :
  keeps (for_of l (fun kv => in_storage (fun st => <[kv.1 := json_String kv.2]> st))).
Proof. solve_preserves. Qed.
Lemma namespaced_orderly name value : keeps (setNamespacedLocalOption name value).
Proof. unfold setNamespacedLocalOption. solve_preserves. Qed.
Lemma set_login_orderly sid value : keeps (set_login sid value).
Proof.
  unfold set_login, ctx_curConn. apply void_orderly.
  solve_preserves_with ltac:(apply modelled_orderly; intros ? ?; simplify_option_eq).
Qed.
#[local] Hint Resolve options_orderly namespaced_orderly set_login_orderly : preserves.
Ltac common_entry := first
  [ exact set_login_orderly
  | intros sid value; apply void_orderly; unfold ctx_curConn; solve [auto with preserves | solve_preserves] ].
Lemma commonHandlers_orderly :
  Forall (fun p => p.1 = "session_add_sync" \/ entry_keeps p) (setCommonHandlers float_json decoder env).
Proof. unfold setCommonHandlers. every_entry ltac:(first [left; reflexivity | right; common_entry]). Qed.
Lemma setHandlers_orderly :
  Forall (fun p => p.1 = "session_add_sync" \/ entry_keeps p) (setByNameHandlers float_json decoder localeCompare env).
Proof.
  assert (Hw : forall l, Forall entry_keeps l -> Forall (fun p => p.1 = "session_add_sync" \/ entry_keeps p) l)
    by (intros l Hl; eapply Forall_impl; [exact Hl|by right]).
  pose proof commonHandlers_orderly. pose proof rdHandlers_orderly. pose proof ftHandlers_orderly. pose proof stubs_orderly.
  unfold setByNameHandlers. rewrite !Forall_app. repeat split; first [assumption | apply Hw; assumption].
Qed.
(** No name is handled twice, so that spreading the four tables overwrites nothing. *)
Lemma handler_names_distinct : NoDup (map_keys (setByNameHandlers float_json decoder localeCompare env)).
Proof. apply (bool_decide_unpack _). by vm_compute. Qed.

Lemma sessionAdd_orderly value w fs : meanwhile_keeps orderly fs -> adds_free_id value w ->
  orderly w (sessionAdd value (w, fs)).2.1 /\ meanwhile_keeps orderly (sessionAdd value (w, fs)).2.2.
Proof.
  intros Hfs Hfree. unfold sessionAdd. destruct (parse value) as [data|] eqn:Ep; [|by split].
  pose proof (add_session_orderly data w (fun sid l => Hfree data sid l Ep)) as Ho. unfold sync, exec in *. cbn [fst snd].
  by destruct (add_session data w).
Qed.
Lemma setByName_orderly name value sid w fs : meanwhile_keeps orderly fs ->
  (name = "session_add_sync" -> adds_free_id value w) ->
  orderly w (setByName float_json decoder localeCompare env name value sid (w, fs)).2.1.
Proof.
  intros Hfs Hadd. unfold setByName, dispatchSetByName.
  destruct (decide (name = "session_add_sync")) as [->|Hn].
  - destruct (sessionAdd_orderly value w fs Hfs (Hadd eq_refl)) as [Ho _].
    match goal with |- context [map_get ?t ?n] => change (map_get t n) with (Some (A:=option string -> string -> async (option string)) set_session_add_sync) end.
    cbv beta iota. unfold set_session_add_sync. unfold mbind, js_bind in *.
    by destruct (sessionAdd value (w, fs)) as [[r|e|] [w' fs']].
  - destruct (map_get _ name) as [h|] eqn:Eh; [|reflexivity].
    apply map_get_Some_elem in Eh. pose proof setHandlers_orderly as Hall. rewrite Forall_forall in Hall.
    destruct (Hall _ Eh) as [Hc|Hk]; [by destruct Hn|]. by destruct (Hk sid value (w, fs) Hfs).
Qed.

(** Calls one after another, the rest of the page changing it while one waits. *)
Inductive bridge_run (w : world) : world -> Prop :=
| run_nothing : bridge_run w w
| run_call w1 name value sid fs : bridge_run w w1 -> meanwhile_keeps orderly fs ->
    (name = "session_add_sync" -> adds_free_id value w1) ->
    bridge_run w (setByName float_json decoder localeCompare env name value sid (w1, fs)).2.1.

Lemma bridge_run_orderly w w' : bridge_run w w' -> orderly w w'.
Proof.
  induction 1 as [|w1 name value sid fs Hrun IH Hfs Hadd]; [reflexivity|].
  etrans; [exact IH|]. by apply setByName_orderly.
Qed.

(** C18.  Whatever Flutter asks for, in whatever order, the registry stays consistent: every id in it names
    a connection that carries it, the current connection is registered, no connection vanishes, and
    one that transfers files leaves the registry only closed or ended - as long as no call adds a
    session under an id that is taken, and what happens on the page while a call waits keeps to the
    same. *)
Theorem bridge_calls_orderly w w' : registry_ok w -> bridge_run w w' -> registry_ok w' /\ settles w w'.
Proof. intros Hok Hrun. by apply bridge_run_orderly. Qed.

(** What a session does about the transfer [id]: the application's calls for it, and the peer's messages
    whose answer, end or error carries that id. *)
Inductive about_transfer (id : Z) : js ((ft * page) * list (ft * page -> ft * page)) unit -> Prop :=
| about_add p t n h r : about_transfer id (on_self (addJob id p t n h r))
| about_upload p t n h d : about_transfer id (sendFiles id p t n h false d)
| about_folder t h : about_transfer id (on_self (sendFolderUpload id t h))
| about_override n a b u : about_transfer id (on_self (confirmOverrideFile id n a b u))
| about_resume r : about_transfer id (resumeJob id r)
| about_cancel : about_transfer id (on_self (cancelJob id))
| about_action fa : (forall r, FileAction.send_confirm fa = Some r -> FileTransferSendConfirmRequest.id r = id) ->
    about_transfer id (handleFileAction fa)
| about_response fr : (forall d, FileResponse.done fr = Some d -> FileTransferDone.id d = id) ->
    (forall e, FileResponse.error fr = Some e -> FileTransferError.id e = id) ->
    about_transfer id (on_self (handleFileResponse fr)).
Lemma about_transfer_spares id id0 m : about_transfer id m -> id <> id0 -> preserves (async_keeps (ft_spares id0)) m.
Proof.
  intros Hm Hid. destruct Hm; first
    [ apply on_self_spares; first [ by apply addJob_spares | by apply sendFolderUpload_spares
        | apply confirmOverrideFile_spares | by apply cancelJob_spares | by apply (handleFileResponse_spares id0 id) ]
    | by apply sendFiles_spares | by apply resumeJob_spares | by apply (handleFileAction_spares id0 id) ].
Qed.

(** C19.  Transfer jobs stay themselves.  Whatever Flutter asks for and whatever orderly things happen meanwhile
    (as long as no call adds a session under an id that is taken, see [bridge_calls_orderly]), for every transfer
    session: every id is listed once; a job listed under an id carries that id; no job ever becomes
    another one (its id, its paths, the files picked for it stay, the bytes it received only grow);
    an upload reads only from files that were picked for it; and a download without a chosen place
    reports as received exactly the bytes it holds.  And what the session does about one transfer,
    even across its waits, leaves every other id listed or unlisted as it was, with the same job. *)
Theorem transfer_jobs_stay_themselves :
  (forall w w' l c, registry_ok w -> bridge_run w w' -> conn_at l w = Some c ->
    exists c', conn_at l w' = Some c' /\ isFileTransfer c' = isFileTransfer c /\ jobs_kept (jobs_of c) (jobs_of c') /\
      map_ok (writeJobs (jobs_of c')) /\ map_ok (readJobs (jobs_of c')) /\
      (forall id r j, getReadJob id (jobs_of c') = Some (r, j) ->
         r_id j = id /\ forall f, current_file j = Some f -> f ∈ uploadFiles j) /\
      (forall id r j, getWriteJob id (jobs_of c') = Some (r, j) ->
         w_id j = id /\ (saveTarget j = None -> w_finishedSize j = memory_bytes j))) /\
  (forall id id0 m s fs, about_transfer id m -> id <> id0 -> meanwhile_keeps (ft_spares id0) fs ->
     let m0 := _jobs s.1 in let m' := _jobs (m (s, fs)).2.1.1 in
     map_get (writeJobs m') id0 = map_get (writeJobs m0) id0 /\ map_get (readJobs m') id0 = map_get (readJobs m0) id0 /\
     map_get (pendingUploads m') id0 = map_get (pendingUploads m0) id0).
Proof.
  split.
  - intros w w' l c Hok Hrun Hc. destruct (bridge_run_orderly w w' Hrun Hok) as [Hok' [Hs _]].
    destruct (Hs l c Hc) as (c' & Hc' & _ & Hk & _ & Hj & _). exists c'. do 3 (split; [done|]).
    pose proof (jobs_consistent w' Hok' l c' Hc') as Hm. do 2 (split; [by destruct Hm|]). split; intros id r j E.
    + apply getReadJob_live in E as [Hid Hr]; [|done]. split; [done|]. intros f. by apply current_file_given.
    + apply getWriteJob_live in E as [Hid Hw]; [|done]. split; [done|]. intros Ht. by apply (counts_held j Hw).
  - intros id id0 m s fs Hm Hid Hfs. cbv zeta.
    destruct (about_transfer_spares id id0 m Hm Hid (s, fs) Hfs) as [E _]. by injection E.
Qed.

(** Adding a session under an id that is taken leaves the connection it replaces open and unreachable. *)
Lemma replaced_session_stays_open sid l l' w : registered w sid l -> l <> l' ->
  let w' := exec (addSession sid l') w in ~ registered w' sid l /\ (base_of <$> conn_at l w') = (base_of <$> conn_at l w).
Proof.
  intros Hr Hl. unfold exec, addSession. rewrite modify_run. cbn [snd]. split.
  - unfold registered. destruct w; cbn. rewrite map_get_set_eq. congruence.
  - unfold conn_at. destruct w; cbn. by rewrite list_lookup_alter_ne.
Qed.
End Handlers.
