(* ===== verification/Instances.v ===== *)
(** * Concrete packages for the examples

    The packages the program calls are parameters of the model ([Sodium], [Zstd], [Fflate]); here
    each has one small instance that behaves as the laws ask, so that [Examples] can run the
    program.  None of them is used in a theorem about the program itself. *)
From Stdlib Require Import Strings.Byte Floats.SpecFloat.
From S2P Require Import Prelude JsMap JsStr Json Bytes ProtoWire ProtoRuntime ProtoTypes ProtoJson Crypto ViewerCrypto FtZip.

(** Sealing tags the plaintext with a digest of key and nonce; a signature is the key followed by
    the text. *)
Definition tag (nonce key : bytes) : bytes :=
  [byte_of_Z (foldr (fun b s => Z_of_byte b + s) 0 (nonce ++ key))].
Definition forged : jsval := VError "Error" "wrong secret key for the given ciphertext".
Definition strip_prefix (p bs : bytes) : outcome bytes :=
  if bool_decide (take (length p) bs = p) then Ret (drop (length p) bs) else Throw forged.

#[export] Instance toy_sodium : Sodium := {
  secretbox_easy m nonce key := tag nonce key ++ m;
  secretbox_open_easy c nonce key := strip_prefix (tag nonce key) c;
  sign_open signed pk := strip_prefix pk signed;
  box_easy m nonce theirPk ourSk := theirPk ++ m;
  from_base64 s := Ret (list_byte_of_string s);
  sha256 bs := tag [] bs;
}.

Lemma strip_prefix_app p bs : strip_prefix p (p ++ bs) = Ret bs.
Proof. unfold strip_prefix. rewrite take_app_length, drop_app_length. by rewrite bool_decide_true. Qed.

#[export] Instance toy_sodium_laws : SodiumLaws.
Proof. split. intros. apply strip_prefix_app. Qed.

#[export] Instance toy_box_laws : BoxLaws.
Proof.
  refine {| box_public sk := sk; box_open_easy c _ _ sk := strip_prefix sk c |}.
  intros. apply strip_prefix_app.
Defined.

(** A frame is stored, not packed: one magic byte, then the data. *)
#[export] Instance toy_zstd : Zstd := {
  zstd_init := Ret tt;
  zstd_decode c room := strip_prefix [x5a] c;
}.

(** The archive is the entries' data; each push emits one chunk, the end the final one. *)
#[export] Instance toy_fflate : Fflate := {
  zip_emit before op := match op with
                        | ZAdd _ => []
                        | ZPush d _ => [ZChunk d false]
                        | ZEnd => [ZChunk [] true]
                        end;
  zipSync m := Ret (concat m.*2);
}.

(** Keys are byte strings and agree on their sums; an AES text is tagged with nonce and key. *)
Definition key_sum (k : bytes) : Z := foldr (fun b s => Z_of_byte b + s) 0 k.
#[export] Instance toy_webcrypto : WebCrypto := {
  public_key := bytes;
  private_key := bytes;
  import_spki spki := strip_prefix [x30] spki;
  ecdh pk sk := Ret [byte_of_Z (key_sum pk + key_sum sk)];
  hkdf shared salt info := tag salt shared;
  aes_gcm_decrypt iv k c := strip_prefix (tag iv k) c;
}.
#[export] Instance toy_webcrypto_laws : WebCryptoLaws.
Proof.
  refine {| public_of (sk : @private_key toy_webcrypto) := sk : @public_key toy_webcrypto;
            export_spki (pk : @public_key toy_webcrypto) := x30 :: pk;
            aes_gcm_encrypt iv k m := tag iv k ++ m |}.
  - intros pk. exact (strip_prefix_app [x30] pk).
  - done.
  - intros a b. eexists. split; [reflexivity|]. cbn. by rewrite Z.add_comm.
  - done.
  - intros. apply strip_prefix_app.
Defined.

(** A double is the array of its parts. *)
#[export] Instance toy_float_json : FloatJson := {
  json_of_float x := match x with
                     | S754_zero s => JArr [JNum 0; JBool s]
                     | S754_infinity s => JArr [JNum 1; JBool s]
                     | S754_nan => JArr []
                     | S754_finite s m e => JArr [JNum 3; JBool s; JNum (Z.pos m); JNum e]
                     end;
  float_of_json j := match j with
                     | JArr [JNum 0; JBool s] => S754_zero s
                     | JArr [JNum 1; JBool s] => S754_infinity s
                     | JArr [JNum 3; JBool s; JNum (Z.pos m); JNum e] => S754_finite s m e
                     | _ => S754_nan
                     end;
}.
#[export] Instance toy_float_json_laws : FloatJsonLaws.
Proof. split; intros []; cbn; tauto || done. Qed.

(** ** What the wire runtime reads is within its types *)
Lemma varint_kind_typed enc dec P : (forall v, P (dec v)) -> scalar_typed (varint_kind enc dec) P.
Proof.
  intros HP r v r'. unfold varint_kind. cbn [rd]. destruct (read_varint 10 r) as [[n r1]|e|]; js_simpl; [|done..].
  by intros [= <- _].
Qed.
#[export] Instance wire_runtime_types : ProtobufTypes.
Proof.
  split; apply varint_kind_typed; intros v.
  - unfold in_uint32, to_uint32. by apply mod_lift.
  - unfold in_int32, to_int32. pose proof (mod_lift v (2 ^ 32)). case_match; lia.
  - unfold in_int32, unzigzag. pose proof (mod_lift v (2 ^ 32)). case_match; Z.to_euclidean_division_equations; lia.
  - unfold in_uint64. by apply mod_lift.
  - unfold in_int64, to_int64. pose proof (mod_lift v (2 ^ 64)). case_match; lia.
Qed.

