(* ===== verification/ChannelExamples.v ===== *)
(** * The theorems about the channel at concrete inputs

    One closed example per theorem that has hypotheses: the hypotheses are evaluated at a concrete
    state and the theorem is applied there.  The packages are those of [Instances] and the
    protobuf runtime is the one of [ProtoRuntime]. *)
From Stdlib Require Import Strings.Byte.
From S2P Require Import Prelude JsMap JsStr Json Bytes ProtoWire ProtoRuntime ProtoFile ProtoMedia ProtoSession.
From S2P Require Import ProtoMessage ProtoRendezvous ProtoEnums ProtoTypes ProtoFacts Crypto Config PushEvent Websock Link SessionConnect.
From S2P Require Import ProtoJson ProtoMessageValues Wire Instances.
#[local] Open Scope Z_scope.

(** Well-formedness of a concrete message is a conjunction of evaluated bounds. *)
Ltac by_value := vm_compute; repeat split; try discriminate.

(** ** The channel *)
Definition ping : Message.t :=
  Message.createBase <| Message.test_delay := Some (TestDelay.createBase <| TestDelay.time := 7 |>) |>.
Definition chat : Message.t := Message.createBase <| Message.cursor_id := Some 3 |>.
Definition messages : list Message.t := [ping; chat].
Lemma messages_ok : Forall Message.ok messages.
Proof. repeat constructor; by_value. Defined.

Lemma codecs_roundtrip_witness :
  Message.decode 0 (Message.encode ping) = Ret (ping, []) /\
  RendezvousMessage.decode 0 (RendezvousMessage.encode RendezvousMessage.createBase) =
    Ret (RendezvousMessage.createBase, []).
Proof.
  destruct codecs_roundtrip as (Hm & Hr & _). split.
  - apply Hm. by_value.
  - apply Hr. by_value.
Defined.

Lemma decoded_is_typed_witness : exists m r, Message.decode 0 (Message.encode ping ++ [x00]) = Ret (m, r) /\ Message_typed m.
Proof.
  eexists _, _. split; [vm_compute; reflexivity|].
  eapply (proj1 (decoded_is_typed 0 (Message.encode ping ++ [x00]) _)). vm_compute. reflexivity.
Defined.

Lemma values_roundtrip_witness :
  of_json MessageValue.conv (to_json MessageValue.conv ping) = Ret ping /\
  survives MessageValue.conv ping.
Proof. split; [reflexivity|]. apply values_roundtrip. by_value. Defined.

Lemma decoding_ends_witness :
  terminates (Message.decode 0 [xff; xff; x0a; x05; x00]) /\ terminates (Message.decode 0 []).
Proof. exact (conj (proj1 (proj1 (decoding_ends 0 _))) (proj1 (proj1 (decoding_ends 0 _)))). Defined.

Lemma enums_roundtrip_witness :
  enum_toJSON ControlKey.names 1 = "Alt"%string /\ enum_fromJSON ControlKey.names (VStr "Alt") = 1.
Proof.
  split; [reflexivity|].
  apply (enums_roundtrip ControlKey.names 1); apply (bool_decide_unpack _); vm_compute; exact I.
Defined.

Definition key1 : bytes := [x01; x02].
Definition connected : Websock := on_open 5 (newWebsock false 0).
Definition keyed : Websock := setSecretKey key1 connected.

Lemma channel_delivers_witness :
  let b' := receive_all (wire (send_all messages keyed)) keyed in
  _buf b' = map Session messages /\ _secretKey b' = Some (key1, 0, 2).
Proof.
  destruct (channel_delivers messages keyed keyed key1 0 0 0 messages_ok eq_refl eq_refl eq_refl
    eq_refl eq_refl eq_refl) as (E & _ & K). split; [exact E|exact K].
Defined.

(** A session with its loop running, which answers pings, and one before that. *)
Lemma corrupt_frame_costs_one_message_witness :
  _buf (receive_all (<[1%nat := [x00]]> (sealed_frames key1 0 [ping; chat; ping; chat])) (setIngressHandler true keyed)) =
    map Session [chat] /\
  _buf (receive_all (<[1%nat := [x00]]> (sealed_frames key1 0 [ping; chat; ping])) keyed) = map Session [ping; ping].
Proof.
  split.
  - apply (corrupt_frame_costs_one_message [ping] chat [ping; chat] [x00] (setIngressHandler true keyed) key1 0 0 forged);
      [repeat constructor; by_value..|reflexivity|reflexivity|reflexivity|reflexivity|reflexivity|reflexivity].
  - apply (corrupt_frame_costs_one_message [ping] chat [ping] [x00] keyed key1 0 0 forged);
      [repeat constructor; by_value..|reflexivity|reflexivity|reflexivity|reflexivity|reflexivity|reflexivity].
Defined.

Lemma frame_nonces_distinct_witness :
  exists ni nj,
    wire (send_all messages keyed) !! 0%nat = Some (secretbox_easy (Message.encode ping) ni key1) /\
    wire (send_all messages keyed) !! 1%nat = Some (secretbox_easy (Message.encode chat) nj key1) /\
    length ni = 24%nat /\ ni <> nj.
Proof.
  by apply (frame_nonces_distinct messages keyed key1 0 0 0%nat 1%nat ping chat).
Defined.

Lemma ingress_answers_pings_witness :
  let ws' := receive_all (map Message.encode messages) (setIngressHandler true connected) in
  _buf ws' = [Session chat] /\ wire ws' = [Message.encode (ping_echo ping)].
Proof.
  apply (ingress_answers_pings messages (setIngressHandler true connected) messages_ok); reflexivity.
Defined.

Lemma open_settles_once_witness :
  opening (close connected) = Resolved /\ opening (deliver BTimeout connected) = Resolved.
Proof.
  split.
  - apply (open_settles_once connected [EvDispose]); [|done].
    eapply run_cons; [constructor|constructor].
  - apply (open_settles_once connected [EvBrowser BTimeout]); [|done].
    eapply run_cons; [by constructor|constructor].
Defined.

Lemma closed_is_silent_witness : wire (exec (sendMessage chat) (close connected)) = [].
Proof.
  apply (closed_is_silent connected [EvSend chat]). eapply run_cons; constructor.
Defined.

(** A session ([Near], answering pings) and its peer share [key1]; the peer sends a ping and a chat. *)
Definition linked : link :=
  {| ends s := match s with Near => setIngressHandler true keyed | Far => keyed end; arrived _ := 0%nat |}.
Lemma linked_keyed : keyed_link key1 linked.
Proof. intros []; repeat split. Defined.
Definition linked1 : link :=
  {| ends := upd Far (exec (sendMessage ping) (ends linked Far)) (ends linked); arrived := arrived linked |}.
Definition linked2 : link :=
  {| ends := upd Far (exec (sendMessage chat) (ends linked1 Far)) (ends linked1); arrived := arrived linked1 |}.
Lemma linked_runs : run link_step linked [Sent Far ping; Sent Far chat] linked2.
Proof.
  eapply run_next; [by constructor; by_value|]. eapply run_next; [by constructor; by_value|]. apply run_here.
Defined.

Lemma link_refines_witness :
  exists q, run (spec_step (handlers linked)) spec_init [Sent Far ping; Sent Far chat] q /\
    forall s, _buf (ends linked2 s) = map Session (inbox q s).
Proof. exact (link_refines key1 linked _ _ linked_keyed linked_runs). Defined.

Lemma link_drains_witness :
  exists most, forall ls' c2, run link_step linked2 ls' c2 -> Forall (fun l => is_send l = false) ls' ->
    (length ls' <= most)%nat /\ (at_rest c2 -> takes Near ([Sent Far ping; Sent Far chat] ++ ls') = [Session chat]).
Proof.
  destruct (link_drains key1 linked _ _ linked_keyed I linked_runs) as (most & Hm).
  exists most. intros ls' c2 Hr Hq. destruct (Hm ls' c2 Hr Hq) as [Hl Ht].
  split; [exact Hl|]. intros Hrest. exact (Ht Hrest Near eq_refl).
Defined.

(** ** The handshake

    The server's key [K] signs the peer's key, which signs the peer's box key. *)
Definition server : storage := {[ "key"%string := "K"%string ]}.
Definition signPk : bytes := replicate 32 x07.
Definition boxPk : bytes := replicate 32 x09.
Definition id_pk (pk : bytes) : bytes := IdPk.encode {| IdPk.id := "peer"%string; IdPk.pk := pk |}.
Definition from_server : bytes := list_byte_of_string (server_key server) ++ id_pk signPk.
Definition from_peer : SignedId.t := {| SignedId.id := signPk ++ id_pk boxPk |}.
Definition hello : Message.t := Message.createBase <| Message.signed_id := Some from_peer |>.
Definition my_keys : keys := {| mySk := [x01]; asymmetric_value := [x01]; secret_key := key1 |}.
Definition honest : net := {| socket := connected; future := [(10, [BMessage (Message.encode hello)])] |}.
Definition silent : net := {| socket := connected; future := [(10, [BClose VNull])] |}.

Lemma handshake_accepts_honest_peer_witness :
  exists w' frame m key, secureHandshake server my_keys "peer" (Some from_server) honest =
      (Ret (Some true), {| socket := w'; future := [] |}) /\
    _secretKey w' = Some (key1, 0, 0) /\ wire w' = [frame] /\
    Message.decode 0 frame = Ret (m, []) /\ Message.public_key m = Some key /\
    box_open_easy (PublicKey.symmetric_value key) (replicate 24 x00) (PublicKey.asymmetric_value key) boxPk =
      Ret key1.
Proof.
  refine (handshake_accepts_honest_peer server my_keys "peer" from_server signPk from_peer boxPk honest
    10 [BMessage (Message.encode hello)] [] hello [] _ _ _ _ _ _ _ _ _ _ _ _ _);
    first [vm_compute; reflexivity|by_value].
Defined.

Lemma handshake_authenticates_witness :
  exists pk signed body theirPk,
    server_vouches server "peer" from_server pk /\ len pk = 32 /\
    sign_open signed pk = Ret body /\ identity body "peer" theirPk /\ len theirPk = 32.
Proof.
  destruct (handshake_authenticates server my_keys "peer" (Some from_server) honest
    (exec (secureHandshake server my_keys "peer" (Some from_server)) honest))
    as (blob & pk & signed & body & theirPk & H1 & H2 & H3 & H4 & H5 & H6 & _).
  - reflexivity.
  - reflexivity.
  - vm_compute. reflexivity.
  - injection H1 as <-. exists pk, signed, body, theirPk. split; [exact H2|]. split; [exact H3|]. split; [exact H4|].
    split; [exact H5|exact H6].
Defined.

Lemma handshake_refusal_is_harmless_witness :
  _secretKey (socket (exec (secureHandshake server my_keys "peer" (Some from_server)) silent)) = None.
Proof.
  apply (handshake_refusal_is_harmless server my_keys "peer" (Some from_server) silent
    (secureHandshake server my_keys "peer" (Some from_server) silent).1);
    [reflexivity|reflexivity|exact (surjective_pairing _)|vm_compute; discriminate].
Defined.

Definition low_version : RendezvousMessage.t := RendezvousMessage.createBase
  <| RendezvousMessage.relay_response := Some RelayResponse.createBase |>.
Lemma startPunchHole_verdict_witness :
  let f := [(1, [BOpen 1]); (2, [BMessage (RendezvousMessage.encode low_version)])] in
  (exists rr, RelayResponse.version rr <> ""%string /\
     RendezvousMessage.relay_response low_version = Some rr) \/
  exists (e : list string), startPunchHole server "peer" 0 0 f (fun _ => throw VNull)
    (fun _ text => modify (fun e => text :: e)) [] = (Ret false, e).
Proof.
  intros f. right.
  destruct (startPunchHole_verdict server (fun _ => throw VNull) (fun _ text => modify (fun e => text :: e))
    "peer" 0 0 f low_version []) as [(rr & _ & Hr & Hv & _)|[_ [->|(text & _ & ->)]]].
  - vm_compute. reflexivity.
  - injection Hr as <-. by destruct Hv.
  - by eexists.
  - by eexists.
Defined.

