(* ===== verification/FileExamples.v ===== *)
(** * The theorems about files and transfers at concrete inputs *)
From Stdlib Require Import Strings.Byte.
From S2P Require Import Prelude JsMap JsStr Json Bytes ProtoWire ProtoRuntime ProtoFile ProtoSession.
From S2P Require Import ProtoMessage Crypto PushEvent Websock SessionConnect FtProtocol FtBrowserIo FtZip Audio Page.
From S2P Require Import FtJobs SessionBase FtConnection FtTransfer FtQueue FtCancel FtFolder FtArchive Instances.
#[local] Open Scope Z_scope.

(** ** Files *)
Definition page0 : page := {| localStorage := ∅; now := 0; rand := 5; events := [];
  page_io := {| lastPickedFiles := []; lastFolderPlan := None; dialogs := [NoPicker]; disk := []; clicked := [] |};
  zstd_ready := false; sound := newAudio |}.
Definition on_disk : page := page0 <| page_io ::= fun i => i <| disk :=
  [{| written := []; capacity := None; close_fails := false; errored := false; closed := false |}] |> |>.

Definition download0 : WriteJob := {| w_id := 1; w_remotePath := "/r"%string; w_localPath := ""%string;
  w_fileNum := 0; w_fileName := "r"%string; chunks := []; fileChunks := []; w_files := [];
  isFolderDownload := false; w_finishedSize := 0; w_totalSize := 0; w_lastTick := 0; w_speed := None;
  w_waitingConfirm := false; skipConfirm := false; saveTarget := None; streamingToDisk := false;
  folderZipStream := None |}.
Definition jobs0 (j : WriteJob) : FileJobManager := {| writeJobs := [(1, 0%nat)]; readJobs := [];
  pendingUploads := []; writeHeap := [j]; readHeap := [] |}.
Definition receiving : ft := newFtConnection <| _jobs := jobs0 download0 |>.

(** Two blocks, the second one compressed. *)
Definition two_blocks : list (Z * bytes * bool) := [(0, [x01; x02], false); (0, [x5a; x03], true)].
Definition two_parts : list bytes := [[x01; x02]; [x03]].
Lemma two_blocks_unpack : Forall2 unpacks two_blocks two_parts.
Proof. repeat constructor. Defined.

Lemma memory_job0 : memory_job 0 (jobs0 download0, page0) 0 [] "r" [].
Proof. exists download0. by vm_compute. Defined.

Lemma download_saves_all_bytes_witness :
  exists s', (receive_blocks 0 two_blocks;; finalizeDownload 0) (jobs0 download0, page0) = (Ret tt, s') /\
    clicked (page_io s'.2) = [("r"%string, [x01; x02; x03])].
Proof.
  apply (download_saves_all_bytes 0 (jobs0 download0, page0) 0 [] "r" two_blocks two_parts []
    memory_job0 two_blocks_unpack); [by repeat constructor|reflexivity].
Defined.

Lemma streamed_download_on_disk_witness :
  let s := (jobs0 (download0 <| saveTarget := Some 0%nat |>), on_disk) in
  exists s' d, (receive_blocks 0 two_blocks;; finalizeDownload 0) s = (Ret tt, s') /\
    disk (page_io s'.2) !! 0%nat = Some d /\ written d = [x01; x02; x03] /\ closed d = true.
Proof.
  intros s. apply (streamed_download_on_disk 0 s 0 two_blocks two_parts); [|exact two_blocks_unpack].
  eexists _, _. repeat split; by intros [].
Defined.

Definition file1 : File := {| name := "f"%string; webkitRelativePath := None; lastModified := 0;
  content := [x01; x02; x03]; broken_at := None |}.

Lemma transfer_roundtrip_witness :
  exists c' pg',
    for_of (block_messages 1 0 0 (blocks_of [x01; x02; x03]) ++ [doneResponse 1 0])
      receive_message (receiving, page0) = (Ret tt, (c', pg')) /\
    clicked (page_io pg') = [("r"%string, [x01; x02; x03])].
Proof.
  destruct (transfer_roundtrip file1 receiving page0 1 0 0 [] "r" []) as (c' & pg' & E & _ & Hc & _).
  - split; [reflexivity|]. split; [apply NoDup_singleton|]. split; [reflexivity|]. exact memory_job0.
  - reflexivity.
  - exists c', pg'. split; [exact E|exact Hc].
Defined.

Definition upload0 : ReadJob := {| r_id := 1; r_remotePath := "/r"%string; r_localPath := ""%string;
  r_fileNum := 0; file := Some file1; uploadFiles := []; r_files := []; offset := 0; r_finishedSize := 0;
  finishedBase := 0; r_totalSize := 3; r_includeHidden := false; blkId := 0; r_lastTick := 0; r_speed := None;
  active := true; r_waitingConfirm := false |}.
Definition open_socket : Websock := on_open 5 (newWebsock false 0).
Definition sending : ft := newFtConnection <| super ::= fun b => b <| _ws := Some open_socket |> |>
  <| _jobs := {| writeJobs := []; readJobs := [(1, 0%nat)]; pendingUploads := []; writeHeap := [];
                 readHeap := [upload0] |} |>.
(** The message pump fires at every wait. *)
Definition busy : list (ft * page -> ft * page) := replicate 3 (exec (in_base pump)).

Lemma upload_sends_file_witness :
  exists c' pg' sched', pumpUploadBlocks 1 (sending, page0, busy) = (Ret tt, (c', pg', sched')) /\
    tracked open_socket [] (block_messages 1 0 0 (blocks_of [x01; x02; x03]) ++ [doneResponse 1 0]) c'.
Proof.
  destruct (upload_sends_file open_socket sending page0 1 0 file1 0 0 0 busy) as (c' & pg' & sched' & E & Ht & _).
  - reflexivity.
  - discriminate.
  - reflexivity.
  - by split.
  - split; [reflexivity|]. split; [apply NoDup_singleton|]. exists upload0. by repeat split.
  - reflexivity.
  - apply Forall_replicate, benign_pump.
  - vm_compute. lia.
  - exists c', pg', sched'. split; [exact E|exact Ht].
Defined.

(** Two files, the second queued (and the pump firing) while the first one's dialog is open, and refused. *)
Definition wanted (id : Z) : download_item := {| d_id := id; d_path := "/r"%string; d_to := ""%string; d_fileNum := 0;
  d_includeHidden := false; d_isDir := false |}.
Definition asks (item : download_item) : ft * page -> ft * page := fun s =>
  (exec (sendFiles (d_id item) (d_path item) (d_to item) (d_fileNum item) (d_includeHidden item) true (d_isDir item))
     (s, [])).1.
Definition asking : ft := newFtConnection <| super ::= fun b => b <| _ws := Some open_socket |> |>.
Definition refused_second : page := page0 <| page_io ::= fun i => i <| dialogs := [NoPicker; Failed "AbortError"] |> |>.

Definition listed : list FileEntry.t :=
  map (fun n => FileEntry.createBase <| FileEntry.name := n |>) ["a"%string; "b"%string].
(** The second file's blocks come between those of the first one. *)
Lemma streamed_entries_witness : exists z i',
  (append_blocks listed [(0, [x01]); (0, [x02]); (1, [x03]); (0, [x04])];; finish) (newFolderZipStreamer 0 "root", page_io on_disk) =
    (Ret tt, (z, i')) /\
  zip_contents (zip z) = Some [("root/a"%string, [x01; x02]); ("root/b"%string, [x03]); ("root/a"%string, [x04])] /\
  omap (fun d => if closed d then Some (written d) else None) (disk i') = [[x01; x02; x03; x04]].
Proof.
  pose proof (streamed_entries listed 0 "root" [(0, [x01]); (0, [x02]); (1, [x03]); (0, [x04])] (page_io on_disk)
    ltac:(repeat constructor; discriminate)) as T.
  set (m := (_;; finish)) in T |- *. destruct (m (newFolderZipStreamer 0 "root", page_io on_disk)) as [r [z i']] eqn:E.
  destruct T as [T1 T2].
  destruct (T2 (newTarget None false) [[x01]; [x02]; []; [x03]; []; [x04]; []] []) as [-> _]; [reflexivity|by repeat split| |].
  - vm_compute in E. injection E as _ <- _. reflexivity.
  - exists z, i'. split; [reflexivity|]. split; [exact T1|]. vm_compute in E. injection E as _ <-. reflexivity.
Defined.

Definition picked (rel : string) : File := file1 <| webkitRelativePath := Some rel |>.
Definition by_length (a b : string) : Z := str_len a - str_len b.
Lemma buildFolderUploadPlan_spec_witness :
  exists plan, buildFolderUploadPlan by_length [picked "d/xx"; picked "d/y"; picked "d/.h"] false = Some plan /\
    totalSize plan = 6 /\ folderName plan = "d"%string /\ first_folder [picked "d/xx"; picked "d/y"; picked "d/.h"] "d".
Proof.
  eexists. split; [vm_compute; reflexivity|]. split; [reflexivity|]. split; [reflexivity|].
  apply (buildFolderUploadPlan_spec by_length [picked "d/xx"; picked "d/y"; picked "d/.h"] false).
  unfold by_length. intros. lia.
Defined.

(** ** Cancelling *)
(** A file of two blocks whose upload is cancelled while its first block is read. *)
Definition file2 : File := {| name := "g"%string; webkitRelativePath := None; lastModified := 0;
  content := replicate (Z.to_nat (2 * BLOCK_SIZE)) x00; broken_at := None |}.
Definition upload2 : ReadJob := upload0 <| file := Some file2 |>.
Definition sending2 : ft := sending <| _jobs ::= fun m => m <| readHeap := [upload2] |> |>.
Lemma file2_size : size file2 = 2 * BLOCK_SIZE.
Proof. unfold size. cbn [content file2]. rewrite len_replicate. unfold BLOCK_SIZE. lia. Qed.
Lemma removed_upload_stops_witness : exists d c2 pg2,
  pump_turns 2 1 ((sending2, page0), [exec (cancelJob 1); fun s => s]) = (Ret tt, ((c2, pg2), [])) /\
  _msgs (super c2) = [blockResponse 1 0 d false 1] /\ len d = BLOCK_SIZE.
Proof.
  pose proof file2_size as Hs. assert (Hb : 0 < BLOCK_SIZE) by done.
  destruct (read_block file2 0 eq_refl) as (d & Er & _ & Hd); [lia|].
  assert (Hl : len d = BLOCK_SIZE) by lia.
  assert (Hread : startBlockRead upload2 = Reading file2 (Ret d)).
  { unfold startBlockRead. change (current_file upload2) with (Some file2). change (offset upload2) with 0.
    cbv iota. rewrite (proj2 (Z.leb_gt _ _)) by lia. by rewrite Er. }
  destruct (file_goes_on 1 file2 d upload2) as [He Hf]; [change (offset upload2) with 0; lia|].
  destruct (removed_upload_stops 1 sending2 page0 0%nat upload2 file2 d eq_refl eq_refl Hread ltac:(lia)
    (exec (cancelJob 1)) upload2 eq_refl eq_refl (fun s => s) 0 [] ltac:(auto)) as (c2 & pg2 & E & Hsup & _).
  rewrite He in E. rewrite Hf in Hsup. exists d, c2, pg2. split; [exact E|]. split; [|exact Hl].
  rewrite Hsup, enqueued_msgs. reflexivity.
Defined.

(** ** A folder of two files *)
Definition folder0 : FolderUploadPlan := {| folderName := "d"%string; files := [file1; file1 <| content := [x04] |>];
  relativeNames := ["d/f"%string; "d/g"%string]; totalSize := 4 |}.
Definition picked_folder : page := page0 <| page_io ::= fun i => i <| lastFolderPlan := Some folder0 |> |>.
(** The peer takes the first file and skips the second one. *)
Definition two_answers : list round :=
  [{| between := exec (in_base pump); answered := From 0; during := busy |};
   {| between := fun s => (s.1, s.2 <| now := 5 |>); answered := Skip; during := [] |}].
Lemma folder_upload_sends_files_witness : exists c' pg',
  (sendFolderUpload 1 "/up" false;; answers 1 0 two_answers)
    (newFtConnection <| super ::= fun b => b <| _ws := Some open_socket |> |>, picked_folder) = (Ret tt, (c', pg')) /\
  tracked open_socket [] [receiveAction 1 "/up" (plan_entries folder0) 0 4; digestResponse 1 0 3 0;
    blockResponse 1 0 [x01; x02; x03] false 1; digestResponse 1 1 1 0] c'.
Proof.
  destruct (folder_upload_sends_files open_socket (newFtConnection <| super ::= fun b => b <| _ws := Some open_socket |> |>)
    picked_folder folder0 1 "/up" false two_answers) as (c' & pg' & E & Ht & _).
  - reflexivity.
  - discriminate.
  - apply NoDup_nil_2.
  - reflexivity.
  - reflexivity.
  - discriminate.
  - constructor; [|constructor; [|constructor]].
    + split; [reflexivity|]. split; [apply benign_pump|]. split; [apply Forall_replicate, benign_pump|].
      split; [reflexivity|]. vm_compute. split; [discriminate|]. lia.
    + split; [reflexivity|]. split; [apply (benign_page (fun p => p <| now := 5 |>))|]. split; [constructor|exact I].
  - exists c', pg'. split; [exact E|exact Ht].
Defined.

(** Two files, the second one empty. *)
Definition folder_download : WriteJob := download0 <| w_files := listed |> <| isFolderDownload := true |>
  <| w_fileName := "d"%string |>.
Lemma folder_roundtrip_witness : exists c' pg',
  archive "d" listed [[x01; x02; x03]; []] = [("d/a"%string, [x01; x02; x03]); ("d/b"%string, [])] /\
  for_of (folder_messages 1 0 [file1; file1 <| content := [] |>] [From 0; From 0]) receive_message
    (newFtConnection <| _jobs := jobs0 folder_download |>, page0) = (Ret tt, (c', pg')) /\
  clicked (page_io pg') = [("d.zip"%string, [x01; x02; x03])] /\ len (events pg') = 3.
Proof.
  destruct (folder_roundtrip [file1; file1 <| content := [] |>] [From 0; From 0]
    (newFtConnection <| _jobs := jobs0 folder_download |>) page0 1 0 "d" listed [x01; x02; x03] [])
    as (c' & pg' & E & _ & _ & Hc & He).
  - split; [reflexivity|]. split; [apply NoDup_singleton|]. split; [reflexivity|]. exists folder_download.
    split_and!; reflexivity.
  - discriminate.
  - reflexivity.
  - reflexivity.
  - repeat constructor; discriminate.
  - by apply (bool_decide_unpack _); vm_compute.
  - reflexivity.
  - reflexivity.
  - exists c', pg'. split; [reflexivity|]. split; [exact E|]. split; [exact Hc|]. rewrite He. reflexivity.
Defined.
