(* ===== verification/SessionExamples.v ===== *)
(** * The theorems about sessions at concrete inputs *)
From Stdlib Require Import Strings.Byte.
From Stdlib Require Import Floats.SpecFloat.
From S2P Require Import Prelude JsMap JsStr Json Bytes ProtoWire ProtoRuntime ProtoFile ProtoSession.
From S2P Require Import ProtoMessage ProtoRendezvous Crypto Config PushEvent Websock SessionConnect FtProtocol FtBrowserIo FtZip Audio.
From S2P Require Import Page FtJobs FtJobsFacts SessionBase FtConnection FtTransfer Common RdOptions RdConnection Keeps Sessions.
From S2P Require Import SessionsFacts SessionsEnd Connect FtSession FtStart RdSession Instances.
#[local] Open Scope string_scope.

Definition open_socket : Websock := on_open 5 (newWebsock false 0).
Definition page0 : page := {| localStorage := ∅; now := 0; rand := 5; events := [];
  page_io := {| lastPickedFiles := []; lastFolderPlan := None; dialogs := [NoPicker]; disk := []; clicked := [] |};
  zstd_ready := false; sound := newAudio |}.
Definition hash1 : Hash.t := {| Hash.salt := "s"; Hash.challenge := "c" |}.
Definition base0 : base := newBase <| _id := "peer" |> <| _ws := Some open_socket |> <| _hash := Some hash1 |>.

(** ** Options and passwords *)
Lemma options_survive_restart_witness :
  let '(r, (c', pg')) := setOption "codec" (Some (JStr "vp9")) (base0, page0) in
  exists c1, prepareConnect "peer" (newBase, pg') = (Ret tt, (c1, pg')) /\ _options c1 = _options c'.
Proof.
  pose proof (options_survive_restart "codec" (Some (JStr "vp9")) base0 page0 newBase) as P.
  destruct (setOption _ _ _) as [r [c' pg']].
  apply P; [done|apply json_ok_obj; by repeat constructor|done].
Defined.

(** A password that replaces the one stored before. *)
Definition old_password : options := [("password", JStr "9,9")].
Definition stored_before : page := page0 <| localStorage := writePeers [("peer", JObj old_password)] ∅ |>.
Definition changed : base := base0 <| _options := old_password |> <| _password := Some [x01; x02] |>.
Lemma password_survives_restart_witness :
  let '(_, (_, pg')) := persistPasswordIfRemembered true (changed, stored_before) in
  exists c1, prepareConnect "peer" (newBase, pg') = (Ret tt, (c1, pg')) /\ _password c1 = Some [x01; x02].
Proof.
  pose proof (password_survives_restart [x01; x02] changed stored_before newBase) as P.
  destruct (persistPasswordIfRemembered _ _) as [r [c' pg']].
  apply P; [done|apply json_ok_obj; split; [apply NoDup_singleton|by repeat constructor]|done|done| |done].
  intros j [= <-]. vm_compute. reflexivity.
Defined.

Lemma toggleOption_flips_witness :
  exists c' pg', toggleOption "disable-audio" (base0, page0) = (Ret tt, (c', pg')) /\
    getOption "disable-audio" c' = Some (JBool true).
Proof.
  destruct (toggleOption_flips "disable-audio" base0 page0 open_socket) as (o & c' & pg' & _ & E & Hv & _).
  - unfold toggles. set_solver.
  - apply NoDup_nil_2.
  - done.
  - done.
  - by exists c', pg'.
Defined.

(** ** Sessions of the page *)
Definition ft0 : ft := newFtConnection <| super := base0 <| _sessionId := Some "s1" |> <| _password := Some [x01] |> |>.
Definition conn0 : conn := {| instance := FtConn ft0; _passwordSource := None |}.
Definition world0 : world := {| conns := [conn0]; sessions := [("s1", 0%nat)]; curConn := Some 0%nat;
  wpage := page0; has_parent := false; parent_errors := [] |}.
Definition no_float (f : spec_float) : json := JNum 0.

(** A page with this one session. *)
Lemma one_session_ok f src : _sessionId (super f) = Some "s1" -> _jobs f = newFileJobManager ->
  registry_ok (world0 <| conns := [{| instance := FtConn f; _passwordSource := src |}] |>).
Proof.
  intros Hid Hj. split; unfold registered; cbn.
  - apply NoDup_singleton.
  - intros sid l. case_decide; [|done]. intros [= <-]. subst. split; [done|]. by eexists.
  - intros l [= <-]. by exists "s1".
  - done.
  - intros l c [_ <-]%list_lookup_singleton_Some. cbn. rewrite Hj. apply newFileJobManager_ok.
Qed.
Lemma world0_ok : registry_ok world0.
Proof. by apply (one_session_ok ft0 None). Defined.

Lemma login_answers_challenge_witness :
  exists r w', login (W := world) (Session0 := ft_session 0%nat) (Some "pw") world0 = (Ret tt, w') /\
    LoginRequest.username r = "peer" /\
    LoginRequest.password r = response (password_hash "pw" "s") "c".
Proof.
  destruct (login_answers_challenge (W := world) (Session0 := ft_session 0%nat) "pw" hash1 world0 open_socket)
    as (r & w' & E & Hu & Hp & _); [by eexists|done..|].
  exists r, w'. split; [exact E|]. split; [exact Hu|exact Hp].
Defined.

Lemma stored_password_answers_challenge_witness :
  exists r w', login (W := world) (Session0 := ft_session 0%nat) None world0 = (Ret tt, w') /\
    LoginRequest.password r = response [x01] "c".
Proof.
  destruct (stored_password_answers_challenge (W := world) (Session0 := ft_session 0%nat)
    [x01] hash1 world0 open_socket) as (r & w' & E & _ & Hp & _); [by eexists|done..|].
  exists r, w'. split; [exact E|exact Hp].
Defined.

Lemma registry_consistent_witness :
  registry_ok (exec (addSession "a" 0%nat) (world0 <| conns := [conn0] |> <| sessions := [] |> <| curConn := None |>)).
Proof.
  apply (registry_consistent page0 false).
  eapply reach_step; [eapply reach_step; [apply reach_start|]|].
  - exact (step_new conn0 _ eq_refl).
  - apply step_add; [done|by eexists|]. unfold registered. done.
Defined.

Lemma conn_token_roundtrip_witness :
  _password (base_of (applyConnToken (connTokenFor "s1" world0) conn0)) = Some [x01].
Proof.
  apply (conn_token_roundtrip "s1" world0 0%nat conn0 [x01] (default "" (connTokenFor "s1" world0)) conn0);
    [reflexivity..|discriminate|reflexivity].
Defined.

Lemma endFileTransferSession_spec_witness :
  exists w', endFileTransferSession (Some "s1") "t" "x" world0 = (Ret tt, w') /\ map_get (sessions w') "s1" = None.
Proof.
  destruct (endFileTransferSession_spec "s1" "t" "x" world0 0%nat ft0 None world0_ok) as (w' & E & _ & Hg & _);
    [reflexivity..|]. by exists w'.
Defined.

(** The session of [world0] after the relay closed its socket. *)
Definition reset0 : ft := ft0 <| super ::= fun b => b <| _ws := Some (on_close (VStr "reset") open_socket) |> |>.
Definition reset_world : world := world0 <| conns := [{| instance := FtConn reset0; _passwordSource := None |}] |>.
Lemma reset_world_ok : registry_ok reset_world.
Proof. by apply one_session_ok. Defined.
Lemma broken_connection_ends_session_witness :
  exists w', msgLoop no_float 0%nat 1 (reset_world, []) = (Ret tt, (w', [])) /\
    map_get (sessions w') "s1" = None.
Proof.
  destruct (broken_connection_ends_session no_float 0%nat 1 reset_world [] (VStr "reset") reset_world [] "s1" reset0
    None eq_refl reset_world_ok) as (w' & E & _ & Hg & _);
    [reflexivity..|]. exists w'. split; [exact E|exact Hg].
Defined.

(** ** Starting *)
Definition offline : world := world0 <| conns := [{| instance := FtConn (ft0 <| super ::= fun b => b <| _ws := None |> |>);
  _passwordSource := None |}] |>.
Lemma offline_ok : registry_ok offline.
Proof. by apply one_session_ok. Defined.
Definition no_keys : keys := {| mySk := []; asymmetric_value := []; secret_key := [] |}.
Definition relayed : RendezvousMessage.t := RendezvousMessage.createBase
  <| RendezvousMessage.relay_response := Some (RelayResponse.createBase <| RelayResponse.version := "1.2" |>) |>.
Definition dial0 : dial := {| punch_time := 0; punch_events := [(1, [BOpen 1]); (2, [BMessage (RendezvousMessage.encode relayed)])];
  relay_time := 3; relay_events := [(4, [BOpen 4])]; relay_keys := no_keys |}.
(** The peer asks for the password, then the relay closes the socket. *)
Definition asks : world -> world :=
  socket_event 0%nat (BMessage (Message.encode (Message.createBase <| Message.hash := Some hash1 |>))).
Definition goes : world -> world := socket_event 0%nat (BClose (VStr "gone")).
Definition run0 (meanwhile : list (world -> world)) : outcome unit * (world * list (world -> world)) :=
  start no_float 0%nat dial0 5 None None (offline, meanwhile).
Definition peaceful : list (world -> world) := [fun w => w; fun w => w; asks; goes].


(** Nobody answers: the rendezvous socket never opens, the relay socket opens and stays silent. *)
Definition nobody : schedule := [(12001, [BTimeout]); (12001, []); (24002, [])]%Z.
Definition dial1 : dial := {| punch_time := 0; punch_events := nobody; relay_time := 0;
  relay_events := (1%Z, [BOpen 1]) :: nobody; relay_keys := no_keys |}.
Lemma nobody_patient evs : patient ([(1%Z, evs)] ++ nobody) /\ patient nobody.
Proof.
  split; [exists [(1%Z, evs)]|exists []]; exists 12001%Z, [BTimeout], [(12001, []); (24002, [])]%Z, 24002%Z;
    (split; [reflexivity|]); (split; [set_solver|]); (split; [cbn; repeat constructor; lia|]);
    (split; [set_solver|]); cbn; lia.
Defined.
Lemma connecting_settles_witness :
  (punch page0.(localStorage) "peer" 0 (punch_time dial1) (punch_events dial1)).1 = Throw (VStr "Timeout") /\
  terminates (relay_handshake dial1 page0.(localStorage) RelayResponse.createBase "peer" None).1.
Proof.
  split; [vm_compute; reflexivity|].
  apply (connecting_settles dial1 page0.(localStorage) RelayResponse.createBase "peer" None 0).
  - intros s k. unfold sign_open, toy_sodium, strip_prefix. by case_bool_decide.
  - apply (nobody_patient []).
  - apply (nobody_patient [BOpen 1]).
Defined.

(** Closing a session while it connects does not stop it: the connection made afterwards is kept,
    and it logs in. *)
Lemma closed_while_connecting_logs_in :
  let w := (run0 [fun w => w; exec (removeSession "s1"); asks]).2.1 in
  map_get (sessions w) "s1" = None /\
  exists f ws, the_ft 0%nat w = Some f /\ _closing f = true /\ _ws (super f) = Some ws /\
    readyState ws = OPEN /\ length (wire ws) = 3%nat.
Proof. vm_compute. split; [reflexivity|]. by eexists _, _. Qed.

(** ** Remote desktop *)
Definition desk : rd := newRdConnection <| rsuper := base0 <| _options := [("password", JStr "1,2")] |> |>.
Definition desk_world : world := offline <| conns := [{| instance := RdConn desk; _passwordSource := None |}] |> <| sessions := [] |>
  <| curConn := None |>.
Definition one_display : PeerInfo.t := PeerInfo.createBase <| PeerInfo.displays := [DisplayInfo.createBase] |>.
Lemma unremembered_password_is_forgotten_witness :
  exists w' f', rd_handlePeerInfo no_float 0%nat one_display desk_world = (Ret tt, w') /\ the_rd 0%nat w' = Some f' /\
    getOption "password" (rsuper f') = None.
Proof.
  destruct (unremembered_password_is_forgotten no_float 0%nat one_display desk_world desk None)
    as (w' & f' & E & Hf & Hg & _).
  - done.
  - reflexivity.
  - split; [reflexivity|]. split; [reflexivity|]. by exists open_socket.
  - discriminate.
  - discriminate.
  - apply json_ok_obj. split; [apply NoDup_singleton|]. by repeat constructor.
  - reflexivity.
  - exists w', f'. exact (conj E (conj Hf Hg)).
Defined.

Lemma rd_session_is_orderly_witness :
  let s := rd_start no_float (fun _ _ => Threw) 0%nat dial0 5 None None (offline, replicate 2 (fun w => w)) in
  registry_ok s.2.1.
Proof.
  intros s.
  apply (rd_session_is_orderly no_float (fun _ _ => Threw) 0%nat dial0 5 None None offline (replicate 2 (fun w => w))
    s.2.1 s.2.2 s.1 offline_ok).
  - apply Forall_replicate. intros w. reflexivity.
  - right. subst s. by destruct (rd_start _ _ _ _ _ _ _) as [r [w fs]].
Defined.

(** ** Video *)
Definition rd0 : rd := newRdConnection <| rsuper := base0 |> <| batches := [{| b_i := 0; b_n := 2; b_display := 0; b_tm := 0 |}] |>.
Lemma batch_acknowledged_once_witness :
  exists c' pg', for_of [Threw; Threw] (submit 0) (rd0, page0) = (Ret tt, (c', pg')) /\
    _ws (rsuper c') = Some (exec (Websock.sendMessage ack) open_socket).
Proof.
  apply (batch_acknowledged_once 0 [Threw; Threw] rd0 page0 open_socket);
    [done|done|by repeat constructor|cbn; lia|done|done|done].
Defined.
