(* ===== verification/WireExample.v ===== *)
(** * The theorems about a file, a folder and a desktop on the wire at concrete inputs *)
From Stdlib Require Import Strings.Byte.
From S2P Require Import Prelude JsMap JsStr Json Bytes ProtoWire ProtoRuntime ProtoFile ProtoMedia ProtoSession.
From S2P Require Import ProtoMessage Crypto PushEvent Websock SessionConnect FtProtocol FtBrowserIo FtZip Audio Page.
From S2P Require Import FtJobs SessionBase FtConnection FtTransfer FtArchive RdConnection Sessions FtSession Wire FtWire.
From S2P Require Import FtHost FtFolderWire FtDiskWire.
From S2P Require Import RdSession RdWire Instances FileExamples SessionExamples.
#[local] Open Scope Z_scope.

(** A socket after the handshake; the receiving end answers pings. *)
Definition keyed : Websock := setSecretKey [x01; x02] FileExamples.open_socket.
Definition uploader : ft := sending <| super ::= fun b => b <| _ws := Some keyed |> |>.
Definition downloader : ft := receiving <| super ::= fun b => b <| _ws := Some (Websock.setIngressHandler true keyed) |> |>.
Definition download_world : world := world0 <| conns := [{| instance := FtConn downloader; _passwordSource := None |}] |>.

Lemma file_over_the_wire_witness : exists wa' frames w' turns,
  wire wa' = frames /\
  (forall fuel, FtSession.ft_loop no_float 0%nat (turns + fuel) (download_world, [FtWire.arrive 0%nat frames]) =
     FtSession.ft_loop no_float 0%nat fuel (w', [])) /\
  clicked (page_io (wpage w')) = [("r"%string, [x01; x02; x03])].
Proof.
  destruct (file_over_the_wire no_float 0%nat uploader keyed FileExamples.page0 [x01; x02] 0 0 1 0%nat file1 0 busy
    download_world downloader (Websock.setIngressHandler true keyed) 0%nat [] "r" []) as (ca' & pga' & sched' & wa' & frames & E & Ews & Hw & Hrun).
  - reflexivity.
  - reflexivity.
  - reflexivity.
  - reflexivity.
  - reflexivity.
  - split; [reflexivity|]. split; [apply NoDup_singleton|]. exists upload0. by repeat split.
  - reflexivity.
  - apply Forall_replicate, benign_pump.
  - vm_compute. lia.
  - split; reflexivity.
  - split; [by exists 0|reflexivity..].
  - reflexivity.
  - split; [reflexivity|]. split; [apply NoDup_singleton|]. split; [reflexivity|]. exists download0. by vm_compute.
  - reflexivity.
  - repeat constructor; vm_compute; repeat split; try discriminate.
  - destruct (Hrun [frames] []) as (w' & cb' & wb' & turns & Hloop & _ & _ & _ & Hc & _); [apply app_nil_r|].
    exists wa', frames, w', turns. split; [exact Hw|]. split; [exact Hloop|exact Hc].
Defined.

(** Two files, the first in two parts, one of them packed; a question, a ping, and all frames at once. *)
Definition served_items : list host_item :=
  [Asked 0 3 0 false; Part 0 [x01; x02] false 1; Part 1 [x04] false 1; Part 0 [x5a; x03] true 2].
Definition ping : Message.t := Message.createBase <| Message.test_delay := Some TestDelay.createBase |>.
Definition folder_stream : list Message.t := ping :: map (host_message 1) served_items ++ [doneResponse 1 1].
Definition folder_downloader : ft := newFtConnection <| _jobs := jobs0 folder_download |>
  <| super ::= fun b => b <| _ws := Some (Websock.setIngressHandler true keyed) |> |>.
Definition folder_world : world := world0 <| conns := [{| instance := FtConn folder_downloader; _passwordSource := None |}] |>.
Lemma folder_download_over_the_wire_witness : exists w' turns sent,
  contents_of listed served_items = [[x01; x02; x03]; [x04]] /\
  (forall fuel, FtSession.ft_loop no_float 0%nat (turns + fuel)
     (folder_world, map (FtWire.arrive 0%nat) [sealed_frames [x01; x02] 0 folder_stream] ++ []) =
     FtSession.ft_loop no_float 0%nat fuel (w', [])) /\
  clicked (page_io (wpage w')) = [("d.zip"%string, [x01; x02; x03; x04])] /\
  List.filter is_confirm sent = [sendConfirmAction 1 0 false 0].
Proof.
  destruct (folder_download_over_the_wire no_float 0%nat served_items folder_stream folder_world folder_downloader
    (Websock.setIngressHandler true keyed) [x01; x02] 0 0 1 0%nat "d" listed 1 [x01; x02; x03; x04] []
    [sealed_frames [x01; x02] 0 folder_stream] []) as (w' & c' & ws' & turns & sent & E & _ & _ & _ & _ & Hc & _ & _ & Hk & _).
  - split; reflexivity.
  - split; [by exists 0|reflexivity..].
  - reflexivity.
  - reflexivity.
  - split; [reflexivity|]. split; [apply NoDup_singleton|]. split; [reflexivity|]. exists folder_download.
    split_and!; reflexivity.
  - discriminate.
  - repeat constructor; discriminate.
  - by apply (bool_decide_unpack _); vm_compute.
  - reflexivity.
  - repeat (constructor; [first [exact I | by eexists]|]). constructor.
  - reflexivity.
  - reflexivity.
  - reflexivity.
  - repeat constructor; vm_compute; repeat split; try discriminate.
  - apply app_nil_r.
  - exists w', turns, sent. split; [reflexivity|]. split; [exact E|]. split; [exact Hc|exact Hk].
Defined.

(** A file to a chosen place: a question, its first part packed, a ping, and its second part. *)
Definition asked_item : download_item := {| d_id := 1; d_path := "/r/f"%string; d_to := ""%string; d_fileNum := 0;
  d_includeHidden := false; d_isDir := false |}.
Definition file_items : list host_item := [Asked 0 3 0 false; Part 0 [x5a; x03] true 1; Part 0 [x01; x02] false 2].
Definition file_stream : list Message.t :=
  map (host_message 1) (take 2 file_items) ++ ping :: map (host_message 1) (drop 2 file_items) ++ [doneResponse 1 0].
Definition file_frames : list bytes := sealed_frames [x01; x02] 0 file_stream.
Definition asking : ft := newFtConnection
  <| super ::= fun b => b <| _ws := Some (Websock.setIngressHandler true keyed) |> |>.
Definition choosing : page := FileExamples.page0 <| page_io ::= fun i => i <| dialogs := [Chosen None false] |> |>.
Lemma file_to_disk_over_the_wire_witness : exists c' pg' w' turns sent d,
  sendFiles 1 "/r/f" "" 0 false true false (asking, choosing, [fun s => (s.1, s.2)]) = (Ret tt, (c', pg', [])) /\
  (forall fuel, FtSession.ft_loop no_float 0%nat (turns + fuel)
     (world0 <| conns := [{| instance := FtConn c'; _passwordSource := None |}] |> <| wpage := pg' |>,
      map (FtWire.arrive 0%nat) [take 1 file_frames; drop 1 file_frames] ++ []) =
     FtSession.ft_loop no_float 0%nat fuel (w', [])) /\
  disk (page_io (wpage w')) !! 0%nat = Some d /\ written d = [x03; x01; x02] /\ closed d = true /\
  List.filter is_confirm sent = [sendConfirmAction 1 0 false 0].
Proof.
  destruct (file_to_disk_over_the_wire no_float 0%nat asked_item asking choosing (Websock.setIngressHandler true keyed)
    [x01; x02] 0 0 (fun pg => pg) [] file_items 0) as (c' & pg' & E & Hrun).
  - reflexivity.
  - split; [by exists 0|reflexivity..].
  - reflexivity.
  - reflexivity.
  - reflexivity.
  - reflexivity.
  - reflexivity.
  - constructor.
  - reflexivity.
  - done.
  - reflexivity.
  - reflexivity.
  - repeat (constructor; [first [exact I | by eexists]|]). constructor.
  - destruct (Hrun (world0 <| conns := [{| instance := FtConn c'; _passwordSource := None |}] |> <| wpage := pg' |>)
      file_stream [take 1 file_frames; drop 1 file_frames] []) as
      (w' & c1 & ws' & turns & sent & d & L & _ & _ & _ & _ & D1 & D2 & D3 & _ & _ & Hk & _).
    + reflexivity.
    + reflexivity.
    + reflexivity.
    + repeat constructor; vm_compute; repeat split; try discriminate.
    + reflexivity.
    + exists c', pg', w', turns, sent, d. split; [exact E|]. split; [exact L|]. split; [exact D1|].
      split; [exact D2|]. split; [exact D3|exact Hk].
Defined.

(** A format, two packets, a ping, a text of the clipboard, a video frame and a word of chat, in two chunks. *)
Definition stream : list media :=
  [SoundFormat (AudioFormat.createBase <| AudioFormat.sample_rate := 48000 |> <| AudioFormat.channels := 2 |>);
   SoundFrame (AudioFrame.createBase <| AudioFrame.data := [x01] |>);
   Copied (Clipboard.createBase <| Clipboard.compress := true |> <| Clipboard.content := [x5a; x03] |>);
   Video (VideoFrame.createBase <| VideoFrame.vp9s := Some {| EncodedVideoFrames.frames := [EncodedVideoFrame.createBase] |} |>);
   Chat (ChatMessage.createBase <| ChatMessage.text := "hi"%string |>);
   SoundFrame (AudioFrame.createBase <| AudioFrame.data := [x02] |>)].
Definition streamed : list Message.t := map media_message (take 2 stream) ++ [ping] ++ map media_message (drop 2 stream).
Definition stream_frames : list bytes := sealed_frames [x01; x02] 0 streamed.
Definition viewer_desk : rd := newRdConnection <| rsuper ::= fun b => b <| _ws := Some (Websock.setIngressHandler true keyed) |> |>
  <| _videoDecoder := Some 0%nat |>.
Definition viewing : world := world0 <| conns := [{| instance := RdConn viewer_desk; _passwordSource := None |}] |>.
Definition rejects (k : nat) (f : EncodedVideoFrame.t) : submission := Threw.

Lemma desktop_over_the_wire_witness : exists w' f' turns sent,
  (forall fuel, RdSession.rd_loop no_float rejects 0%nat (turns + fuel)
     (viewing, map (RdWire.arrive 0%nat) [take 3 stream_frames; drop 3 stream_frames] ++ []) =
     RdSession.rd_loop no_float rejects 0%nat fuel (w', [])) /\
  posted (sound (wpage w')) = [Format 2 48000; Packet [x01]; Packet [x02]] /\ clipboard f' = [[x03]] /\
  List.filter is_ack sent = [ack] /\ List.filter (fun m => negb (is_ack m)) sent = [ping].
Proof.
  destruct (desktop_over_the_wire no_float rejects 0%nat stream streamed viewing viewer_desk
    (Websock.setIngressHandler true keyed) [x01; x02] 0 0 [take 3 stream_frames; drop 3 stream_frames] [])
    as (w' & f' & ws' & turns & sent & E & _ & _ & _ & _ & Ha & Hc & _ & _ & Hk & Hp).
  - reflexivity.
  - reflexivity.
  - reflexivity.
  - split; [by exists 0|reflexivity..].
  - reflexivity.
  - reflexivity.
  - reflexivity.
  - repeat constructor; vm_compute; repeat split; try discriminate.
  - unfold concat. by rewrite app_nil_r, take_drop.
  - exists w', f', turns, sent. split; [exact E|]. split; [exact Ha|]. split; [exact Hc|]. split; [exact Hk|exact Hp].
Defined.
