(* ===== verification/ViewerExamples.v ===== *)
(** * The theorems about the opener and the bridge at concrete inputs *)
From Stdlib Require Import Strings.Byte.
From S2P Require Import Prelude JsMap JsStr Json Base64 Bytes ProtoWire ProtoRuntime ProtoFile ProtoMedia ProtoSession.
From S2P Require Import ProtoMessage Crypto Config ViewerCrypto YCbCr VideoDraw PushEvent Websock SessionConnect FtProtocol FtBrowserIo FtZip.
From S2P Require Import Page FtJobs SessionBase FtConnection Common RdOptions RdConnection Sessions Viewer Instances.
From S2P Require Import LocalStore Keeps SessionsFacts SessionsEnd Connect Bridge BridgeFacts SessionExamples.
#[local] Open Scope string_scope.

(** ** The token *)
Definition viewer_key : private_key := [x01; x02].
Definition opener_key : private_key := [x05].
Definition sealed_token : string :=
  envelope "e30" "" (envelope_payload opener_key [byte_of_Z 8] [x09] "secret").

Lemma token_roundtrip_witness : decryptToken viewer_key sealed_token = Ret "secret".
Proof.
  apply (token_roundtrip viewer_key opener_key [byte_of_Z 8] [x09] "secret" "e30" "");
    [reflexivity|discriminate|by apply ascii_utf8|reflexivity|reflexivity].
Defined.

(** ** The session request *)
Definition viewer0 : viewer := {| page_world := offline; parentOrigin := Some "https://fort"; opener := Some 1%nat;
  viewerPrivateKey := Some viewer_key; sessionStarted := false; connect_ready := false; running := None;
  calls := []; acks := [] |}.
Definition ready : message_event := {| origin := "https://fort"; source := Some 1%nat;
  data := JObj [("type", JStr "REMOTE_SESSION_READY"); ("remoteSessionId", JStr "s9"); ("clientId", JStr "peer");
                ("encryptedToken", JStr sealed_token); ("server", JStr "rdv"); ("key", JStr "K")] |}.
Definition started : request := {| clientId := JStr "peer"; remoteSessionId := JStr "s9";
  encryptedToken := JStr sealed_token; reply_to := Some 1%nat; reply_origin := "https://fort" |}.

Definition viewer1 : viewer := exec (on_session_ready ready) viewer0.
Definition viewer2 : viewer := exec (after_decrypt started viewer_key) viewer1.
Definition viewer3 : viewer := viewer2 <| connect_ready := true |>.
Definition viewer4 : viewer := exec (call_connect started "secret") viewer3.
Definition viewer5 : viewer := exec (after_connect started (Ret true)) viewer4.
Definition session_events : list viewer_event :=
  [OnMessage ready; OnDecrypted; OnConnectSet; OnCall; OnAnswer (Ret true)].
Lemma viewer_runs : vrun viewer0 session_events viewer5.
Proof.
  refine (vrun_snoc _ [_; _; _; _] viewer4 _ _ (vrun_snoc _ [_; _; _] viewer3 _ _ (vrun_snoc _ [_; _] viewer2 _ _
    (vrun_snoc _ [_] viewer1 _ _ (vrun_snoc _ [] viewer0 _ _ (vrun_nil _) _) _) _) _) _).
  - apply v_message.
  - apply (v_decrypted viewer1 started viewer_key). reflexivity.
  - apply v_connect_set.
  - apply (v_call viewer3 started "secret"); vm_compute; reflexivity.
  - apply (v_answer viewer4 started). reflexivity.
Defined.

Lemma only_opener_starts_session_witness :
  calls viewer5 = [(JStr "peer", "secret", JStr "s9")] /\
  (length (calls viewer5) <= 1)%nat /\ Forall (call_ok viewer0 session_events) (calls viewer5).
Proof.
  split; [vm_compute; reflexivity|].
  destruct (only_opener_starts_session viewer0 session_events viewer5) as (H1 & H2 & _);
    [repeat split|exact viewer_runs|split; [exact H1|exact H2]].
Defined.

(** ** Versions *)
Lemma version_order_witness :
  Z.compare (getVersionNumber "1.10.0") (getVersionNumber "1.9.99-3") = Gt.
Proof.
  change "1.10.0" with (written (1, 10, 0, None)%Z). change "1.9.99-3" with (written (1, 9, 99, Some 3)%Z).
  rewrite version_order; [reflexivity|cbn; lia|cbn; lia].
Defined.

(** ** Calls over the bridge: a session is added, started and closed again *)
Definition bridge_env : surroundings := {| dialing := dial0; loop_fuel := 5; chosen := []; userAgent := "" |}.
Definition no_decoder (l : connref) (f : ProtoMedia.EncodedVideoFrame.t) : submission := Kept.
Definition by_name (name value : string) (w : world) : world :=
  (setByName no_float no_decoder (fun _ _ => 0%Z) bridge_env name value None (w, [])).2.1.
Definition added : world :=
  by_name "session_add_sync" (stringify (JObj [("session_id", JStr "t"); ("isFileTransfer", JBool true)])) world0.
Definition began : world :=
  by_name "session_start" (stringify (JObj [("session_id", JStr "t"); ("id", JStr "peer")])) added.
Definition ended : world := by_name "session_close" "t" began.
Lemma bridge_calls_orderly_witness :
  (map_keys (sessions added) = ["s1"; "t"] /\ map_keys (sessions ended) = ["s1"]) /\
  registry_ok ended /\ settles world0 ended.
Proof.
  split; [split; vm_compute; reflexivity|].
  apply (bridge_calls_orderly no_float no_decoder (fun _ _ => 0%Z) bridge_env); [exact world0_ok|].
  refine (run_call _ _ _ _ _ began _ _ None [] (run_call _ _ _ _ _ added _ _ None []
    (run_call _ _ _ _ _ world0 _ _ None [] (run_nothing _ _ _ _ _) _ _) _ _) _ _);
    try constructor; try (intros E; discriminate E).
  intros _ data sid l Hp Hs. vm_compute in Hp. injection Hp as <-. vm_compute in Hs. injection Hs as <-.
  unfold registered. vm_compute. discriminate.
Defined.

(** A download is added and another one cancelled. *)
Definition job_added : world := by_name "add_job" (stringify (JObj [("id", JNum 7); ("path", JStr "/r/a.txt"); ("to", JStr "a.txt");
  ("file_num", JNum 0); ("include_hidden", JBool false); ("is_remote", JBool true)])) world0.
Definition other_cancelled : world := by_name "cancel_job" (stringify (JObj [("id", JNum 8)])) job_added.
Lemma transfer_jobs_stay_themselves_witness : exists c r j, conn_at 0%nat other_cancelled = Some c /\
  getWriteJob 7 (jobs_of c) = Some (r, j) /\ w_id j = 7%Z /\
  map_get (writeJobs (_jobs (exec (cancelJob 8) (newFtConnection <| _jobs := jobs_of c |>, page0)).1)) 7%Z = Some r.
Proof.
  destruct (transfer_jobs_stay_themselves no_float no_decoder (fun _ _ => 0%Z) bridge_env) as [T1 T2].
  destruct (T1 world0 other_cancelled 0%nat conn0 world0_ok) as (c & Hc & _ & _ & _ & _ & _ & Hw); [|reflexivity|].
  - refine (run_call _ _ _ _ _ job_added _ _ None [] (run_call _ _ _ _ _ world0 _ _ None [] (run_nothing _ _ _ _ _) _ _) _ _);
      try constructor; intros E; discriminate E.
  - assert (E : exists r j, getWriteJob 7 (jobs_of c) = Some (r, j)).
    { vm_compute in Hc. injection Hc as <-. vm_compute. by eexists _, _. }
    destruct E as (r & j & E). exists c, r, j. split; [exact Hc|]. split; [exact E|]. split; [exact (proj1 (Hw _ _ _ E))|].
    destruct (T2 8%Z 7%Z (on_self (cancelJob 8)) (newFtConnection <| _jobs := jobs_of c |>, page0) [] (about_cancel 8) ltac:(discriminate) (Forall_nil_2 _)) as [E1 _].
    etrans; [exact E1|]. vm_compute in Hc. injection Hc as <-. vm_compute in E. injection E as <- _. reflexivity.
Defined.

(** ** Painting *)
(** Two rows of four pixels, grey but for a red one, with a quarter of the chroma samples. *)
Definition frame_format : format :=
  {| displayWidth := 2; displayHeight := 1; width := 4; height := 2; cropLeft := 1; cropTop := 1; chromaWidth := 2; chromaHeight := 1 |}.
Definition frame_planes : planes :=
  {| plane_y := {| plane_bytes := [x10; x10; x10; x10; x10; xeb; x52; x10]; stride := 4 |};
     plane_u := {| plane_bytes := [x80; x5a]; stride := 2 |}; plane_v := {| plane_bytes := [x80; xf0]; stride := 2 |} |}.
Definition no_ratio (n d : Z) : string := EmptyString.
Lemma frame_convertible : convertible frame_format frame_planes 1 1.
Proof. unfold convertible. split_and!; try done. split; [done|done|]. repeat constructor; done. Qed.
Lemma convertYCbCr_spec_witness : exists out, convertYCbCr no_ratio frame_format frame_planes (replicate 32 xff) = Ret out /\
  pixel out 4 2 1 1 = Some x01 /\ pixel out 4 2 1 3 = Some xff.
Proof.
  destruct (convertYCbCr_spec no_ratio frame_format frame_planes 1 1 (replicate 32 xff) frame_convertible eq_refl)
    as [(out & E & _ & Hp) _].
  exists out. split; [exact E|]. split; [by apply (Hp 2 1 1)%Z|by apply (Hp 2 1 3)%Z].
Defined.
Lemma draw_shows_crop_witness : exists c' px,
  draw no_ratio 0 frame_format frame_planes (Some "s1") new_canvas = (Ret tt, c') /\ rgba_pixels <$> shown c' = [Some px] /\
  px = [xff; xff; xfe; xff; xff; x01; x00; xff].
Proof.
  assert (Hok : canvas_ok new_canvas) by (repeat split; done).
  assert (Hfits : fits frame_format) by (repeat split; done).
  destruct (draw_shows_crop no_ratio 0 frame_format frame_planes 1 1 (Some "s1") new_canvas Hok Hfits frame_convertible)
    as [(c' & px & E & _ & Hs & _) _].
  exists c', px. split; [exact E|]. split; [by rewrite Hs|]. vm_compute in E. injection E as <-. vm_compute in Hs.
  by injection Hs as <-.
Defined.
